(* ===== verification/_CoqProject ===== *)
-Q . S2P
Prelude.v
Links.v
Kmem.v
Alloc.v
Streams.v
StreamQueue.v
StreamDelay.v
Net.v
Ip.v
Tcp.v
TcpInv.v
TcpSend.v
TcpWire.v
TcpRecv.v
Slip.v
Sched.v
SchedInv.v
SchedStep.v
SchedSwitch.v
SchedThm.v
SchedLive.v
Cstr.v
Csort.v
Cfmt.v
CfmtThm.v
Cheap.v
CheapThm.v
Mmu.v
MmuInv.v
MmuLife.v
VmWalk.v
Vm.v
Exec.v
VmInv.v
VmView.v
VmSys.v
VmCount.v
VmCalls.v
VmFork.v
ExecInv.v
VmStep.v
VmBoot.v
ExecRun.v
VmThm.v
Signal.v
SignalThm.v
BlockDev.v
Buf.v
BufInv.v
BufThm.v
BlockStore.v
Kfs.v
KfsDisk.v
KfsInv.v
KfsFile.v
KfsImage.v
KfsThm.v
