(* ===== verification/Prelude.v ===== *)
(** * kappara: a verification library for the kernel and its C library

    kappara is a small SVR4-style operating system for AArch64.  Pages come from a page
    allocator and smaller blocks from a slab allocator.  Threads are scheduled on several
    CPUs; processes have address spaces of their own, which [execve] fills with ELF programs
    and [fork] copies, and get signals on the way back from the kernel.  I/O is built from
    STREAMS: modules joined by pairs of queues pass message blocks up and down.  The network
    stack is a set of such modules: IP multiplexes interfaces below and transports above, TCP
    is a transport, SLIP a framing module over a serial line.  The file system kfs lies on a
    buffer cache over block devices.  User programs have a C library.  This library models
    these parts as executable functions on explicit states and proves what makes them
    correct.

    ** Files

    - Prelude.v: record update ([r <| f := v |>] is [r->f = v]), words of 8 to 64
      bits as [Z] with their wrap-around, tactics, lemmas on lists and words, and
      the class [MsgAlloc], allocation that may fail at any call.  Links.v: linked
      lists in memory.
    - Kmem.v: [uts/os/core/pmm.c] and [uts/os/core/kmem.c].  Free lists are threaded
      through a memory of words; a slab header is a record at its page.  Alloc.v: the
      interface the allocator offers ([Allocator], [AllocatorLaws]) and the instance
      that discharges it for [kmem].
    - Streams.v: [uts/os/io/streams.c], message and data blocks by pointer with
      reference counts, queues, run queues, and the delay module of
      [uts/os/io/stream_head.c]; the theorems on messages are proved against
      [AllocatorLaws].  StreamQueue.v: the theorems on queues and run queues.
      StreamDelay.v: [streams_run] on a stream of delay modules.
    - Net.v: byte order, loads and stores, the Internet checksum, the block of
      bytes ([mblk]) the protocols see.
    - Ip.v: [uts/os/net/ipv4.c] and [uts/os/net/netif.c]: interface registry, routing,
      binding, I_LINK, interface ioctls, sending, receiving, demultiplexing.
    - Tcp.v: [uts/os/net/tcp.c], and the step relation [tcp_step] of the whole module;
      TcpInv.v its invariant; TcpSend.v the send loop, the retransmission timer and the
      close states; TcpWire.v the segment format and the handshake; TcpRecv.v what
      reaches the reader.
    - Slip.v: [uts/os/net/slip.c], the framing of both directions.
    - Sched.v: [uts/os/proc/sched.c].  [sched_step] is the relation of all CPUs' critical
      sections, with a program counter per CPU.  SchedInv.v its invariant, SchedStep.v and
      SchedSwitch.v that every step keeps it, SchedThm.v and SchedLive.v the properties.
    - Cstr.v, Csort.v, Cfmt.v, Cheap.v: [string.c], [stdlib.c], [printf.c] and [malloc.c] of
      [lib/libc/src], with [core/string.c] and [core/printk.c] of the kernel; CfmtThm.v and
      CheapThm.v their properties.
    - Mmu.v: [uts/aarch64/mmu.c], page tables as words in the memory of Kmem.v, and the walk
      of the processor ([translate], [user_access]).  MmuInv.v the tables of a process as a
      map from pages to pages, MmuLife.v their creation and destruction, VmWalk.v the walk.
    - Vm.v: [uts/os/proc/process.c], the memory of threads, and [brk], [mmap], [munmap],
      [fork], [spawn] of [uts/os/user/user.c].  Exec.v: the ELF loader, [execve] and [dlopen]
      of the same file.  VmInv.v the types of pages, VmView.v what a process sees, VmSys.v
      the invariant of the whole state, VmCount.v how many pages operations take, VmCalls.v,
      VmFork.v and ExecInv.v that the calls keep the invariant, VmStep.v the machine
      [vstep] of all calls and of the programs' stores, VmBoot.v the start of the kernel
      ([uts/os/main.c]), ExecRun.v the loading of a whole program, VmThm.v the properties.
    - Signal.v: [uts/os/proc/signal.c], [uts/os/core/uaccess.c] and the paths of
      [uts/aarch64/trap.c] to them; SignalThm.v the properties.
    - BlockDev.v: [uts/os/io/bdevsw.c], the RAM disks and the strategy of the NVMe driver.
      Buf.v: [uts/os/io/buf.c]; BufInv.v its invariant, BufThm.v its properties.
      BlockStore.v: the interface of the cache to file systems and its instance.
    - Kfs.v: [uts/os/fs/kfs.c] over that interface; KfsDisk.v, KfsInv.v, KfsFile.v and
      KfsImage.v the parts of its proofs, KfsThm.v the properties.

    A definition keeps the name of the C function or structure it translates; a part
    of a function that is a definition of its own (a loop, a switch, a branch) names
    the function in its comment.  Pointers are integers and [0] is NULL; state is
    passed explicitly; calls upward and downward that leave a component are recorded
    in traces of its state, in call order, or go through a class ([TcpEnv],
    [MsgAlloc], [Allocator], [BlockStore], [UserPages]).  Functions that run under one lock
    with interrupts masked are single steps.

    ** What the theorems show

    - Allocation: the page allocator is a stack of zeroed pages; a slab allocation
      returns a block that overlaps none in use and fails only when nothing is left;
      freeing takes out exactly the block; stores into blocks in use cannot reach the
      allocator; [kmalloc] picks the smallest class; the accounting is right.
    - Messages: through any sequence of allocation, sharing, release and linking the
      reference counts are exact and the blocks in use are those of the messages, so
      nothing leaks and nothing is freed twice; [dupmsg] is all or nothing.
    - Queues: [putq], [putbq], [getq] refine list operations, with the flow control
      flag; [qenable] links an idle queue once; on a stream of delay modules [streams_run]
      ends, with every message at the head, in order.
    - IP: longest-prefix routing, the binding table as a bounded set, one copy per
      bound queue, the round trip from sending to delivery, and that every packet is
      dropped with one counter or delivered within its bytes.
    - TCP: an invariant of all reachable states, the exact effect of the send loop
      and of a timer expiry, the round trip of segments, the three-way handshake for
      all parameters, and in-order delivery under arbitrary arrivals, if no allocation
      fails; segments fit the stack buffer of the send loop when no interface has packets
      of more than 1500 bytes ([tcp_segments_fit]).
    - SLIP: round trip under any cutting of the line into messages, and bounds under any
      line noise.
    - Scheduler: under any interleaving a thread is in one place, a switch loads saved
      registers only, the dead are off all CPUs when they are freed; a queued thread has the
      priority of its queue unless its class was set while it was there; queues are priority
      queues; no starvation of time-sharing threads on one CPU.
    - C library: sorting, searching, strings and formatting as specified, and the heap
      keeps its blocks apart.
    - Memory: from the start of the kernel on, every page and every block has one type; a
      program reaches pages of its own and the window of the first programs; steps for one
      address space leave the others alone; reference counts count; [execve] shows each
      segment of the program and its arguments and changes nothing else, [fork] shows a copy,
      [brk] and [mmap] what they promise; the end of a process frees exactly its pages.
    - Signals: the delivery loop as a choice; a handler's return gives the program its
      registers and its mask back; [sigsuspend] wakes for what is delivered and restores the
      mask; a pending SIGKILL acts, if no signal is posted during the pass.
    - Files: the buffer cache, delayed writes included, is coherent as long as no buffer with
      a delayed write has to be reused, and refines the bare disk; no two files share a
      block and directories are exactly maps, as long as removed files are not written;
      writes, reads and images round-trip.
    - Flaws, proved as such: two CPUs can enable a queue twice ([qenable_race]), TCP
      acknowledges data it drops ([tcp_acked_data_lost]), a simultaneous close hangs
      ([tcp_closing_ignores_segments]), IP passes a negative payload
      ([ip_rput_negative_payload]), the tail of an oversized SLIP frame is delivered
      ([slip_oversize_tail_delivered]), [putbq] forgets that a queue is full
      ([putbq_forgets_full]), the buffer cache hands out a dirty buffer twice
      ([dirty_buffer_given_twice]), loses a write ([write_after_failed_read_lost]) and serves
      one that the device refused ([refused_write_is_read]), a removed file shares blocks
      with a new one ([removed_file_shares_blocks]), [strncpy] and [malloc] overrun
      ([strncpy_overruns], [malloc_overflow]), [mmap] of a length near 2^64 maps nothing
      ([mmap_huge]), a created thread can be freed before its creator is done with it
      ([created_thread_freed]), a SIGKILL posted at the wrong moment is lost
      ([kill_lost_in_race]), and a fault in the handler of SIGSEGV repeats for ever
      ([handler_fault_repeats]).

    ** Fuel and bounds

    Loops over linked structures take the number of blocks, slabs, threads or buffers there
    are plus one as fuel: the lists are duplicate free, so they end before
    ([find_slab_first], [mchain_length]).  Loops over tables, pages and arguments take the
    number of rounds that their bounds give.  [vmap_copyin] takes one round per byte and a
    read of a page one per byte of it, enough because a round moves at least one; the TCP
    send loop one per unsent byte for the same reason; the delivery of signals takes 32
    rounds, and each takes one of 31 signals away ([check_round]); the comparison of symbol
    names up to 2^64 rounds, by doubling.  [streams_run] is given its fuel: on a stream of
    delay modules more than the sum, over the modules on the run queue, of the number of
    modules from there to the head is enough ([weight]).  Reference counts of messages are C [int]s: fewer than 2^31 message
    blocks is a premise of the steps that add one; those of processes and address spaces are
    unbounded, since they count distinct blocks.  Pages for [execve] and [fork] are premises
    as numbers of free pages ([exec_pages], [fork_pages]).

    ** Not modelled

    - Devices, assembly, caches and TLBs: what they do is not in the C code.  The processor's
      walk of page tables is in the model, since it gives the tables their meaning.
    - UDP, ICMP, ARP, the data link layer, the loopback interface and the packet filter; the
      VFS, procfs, the stream head but for the delay module and its own put procedure, the
      line discipline and the terminals; the dispatch of system calls.  Files enter [mmap] and [execve] as parameters with laws.  In TCP,
      [ip_send] returns before the peer answers, which is how queued drivers behave; the
      loopback interface delivers within the call.
    - In Vm.v and Signal.v a system call is one step, so two calls of threads of one process
      do not interleave; in Sched.v they do, critical section by critical section.  The
      reference counts of data blocks and [sig_pending] are changed without a lock in the
      source; such a change is one step here.
    - In the machine of VmStep.v, a store of the kernel to an address that the program has not
      mapped, and a [sigreturn] that takes a program to EL1.  At the start, the blocks that
      the NVMe and ENA drivers map for their registers; the interrupt controller is below
      512 GB.
    - The dynamic linker, the shell, the compiler and the other user programs; self tests and
      statistics printing. *)

From stdpp Require Import base numbers list gmap.
From Stdlib Require Import ZArith Lia Bool.

#[global] Open Scope Z_scope.

(** ** Functional record update

    [r <| f := v |>] is the C assignment [r->f = v].  A record type becomes
    updatable by an instance of [Rebuild], the reader expression that rebuilds a
    record from its projections; the [Field] instance of one projection is then
    synthesised by abstracting that projection in the expression. *)

Class Rebuild (R : Type) := rebuild : R -> R.
Class Field {R A : Type} (proj : R -> A) := update : (A -> A) -> R -> R.

Definition rpure {R A : Type} (a : A) : R -> A := fun _ => a.
Definition rapp {R A B : Type} (f : R -> A -> B) (x : R -> A) : R -> B :=
  fun r => f r (x r).

Ltac solve_field :=
  lazymatch goal with
  | |- @Field ?R ?A ?proj =>
      let inst := constr:(_ : Rebuild R) in
      let body := eval hnf in inst in
      let abs := eval pattern proj in body in
      lazymatch abs with
      | ?k _ =>
          let upd := constr:(fun f : A -> A => k (fun r => f (proj r))) in
          let upd := eval cbv beta delta [rpure rapp] in upd in
          exact upd
      end
  end.

#[export] Hint Extern 0 (Field _) => solve_field : typeclass_instances.

Declare Scope kappara_scope.
Delimit Scope kappara_scope with kappara.

Notation "r <| p := v |>" := (update (proj := p) (fun _ => v) r)
  (at level 1, left associativity, format "r <| p  :=  v |>") : kappara_scope.
Infix "<:>" := rapp (at level 12, left associativity) : kappara_scope.

#[global] Open Scope kappara_scope.

(** ** Machine integers

    An [n]-bit unsigned C integer is a [Z] in [0, 2^n); every C operation that
    can leave the range is wrapped by the matching reduction. *)

Definition u8 (z : Z) : Z := z mod 256.
Definition u16 (z : Z) : Z := z mod 65536.
Definition u32 (z : Z) : Z := z mod 4294967296.
Definition u64 (z : Z) : Z := z mod 18446744073709551616.

(** The cast [(int32_t)x] of a 32-bit pattern. *)
Definition s32 (z : Z) : Z :=
  let v := u32 z in if v <? 2147483648 then v else v - 4294967296.
Definition s64 (z : Z) : Z :=
  let v := u64 z in if v <? 9223372036854775808 then v else v - 18446744073709551616.

Definition is_u8 (z : Z) : Prop := 0 <= z < 256.
Definition is_u16 (z : Z) : Prop := 0 <= z < 65536.
Definition is_u32 (z : Z) : Prop := 0 <= z < 4294967296.
Definition is_u64 (z : Z) : Prop := 0 <= z < 18446744073709551616.

(** [flags & mask] used as a truth value. *)
Definition has (flags mask : Z) : bool := negb (Z.land flags mask =? 0).

Definition bytes := list Z.
Definition is_bytes (l : bytes) : Prop := Forall is_u8 l.

(** Length of a list as an integer. *)
Definition zlen {A : Type} (l : list A) : Z := Z.of_nat (length l).

(** C's [if (b) t else e] on integers, and booleans stored in [int]s. *)
Definition b2z (b : bool) : Z := if b then 1 else 0.

Ltac warith :=
  unfold u8, u16, u32, u64, is_u8, is_u16, is_u32, is_u64 in *;
  Z.div_mod_to_equations; lia.

(** Case analysis on the test of the first [if] in the goal. *)
Ltac case_if :=
  match goal with
  | |- context [if ?b then _ else _] => let E := fresh "E" in destruct b eqn:E
  end.

(** The same, innermost test first. *)
Ltac case_inner :=
  match goal with
  | |- context [if ?b then _ else _] =>
      lazymatch b with
      | context [if _ then _ else _] => fail
      | _ => let E := fresh "E" in destruct b eqn:E
      end
  end.

Ltac case_if_in H :=
  match type of H with
  | context [if ?b then _ else _] => let E := fresh "E" in destruct b eqn:E
  end.

(** Turn boolean comparisons in the context into propositions. *)
Ltac bool_prop :=
  repeat match goal with
  | H : (_ && _)%bool = true |- _ => apply andb_true_iff in H; destruct H
  | H : (_ || _)%bool = false |- _ => apply orb_false_iff in H; destruct H
  | H : negb _ = true |- _ => apply negb_true_iff in H
  | H : negb _ = false |- _ => apply negb_false_iff in H
  | H : (_ =? _)%Z = true |- _ => apply Z.eqb_eq in H
  | H : (_ =? _)%Z = false |- _ => apply Z.eqb_neq in H
  | H : (_ <? _)%Z = true |- _ => apply Z.ltb_lt in H
  | H : (_ <? _)%Z = false |- _ => apply Z.ltb_ge in H
  | H : (_ <=? _)%Z = true |- _ => apply Z.leb_le in H
  | H : (_ <=? _)%Z = false |- _ => apply Z.leb_gt in H
  | H : (_ >? _)%Z = true |- _ => apply Z.gtb_lt in H
  | H : (_ >=? _)%Z = true |- _ => apply Z.geb_le in H
  end.

(** ** Facts on machine integers *)

Create HintDb words.

Lemma u8_range z : is_u8 (u8 z).
Proof. warith. Qed.
Lemma u16_range z : is_u16 (u16 z).
Proof. warith. Qed.
Lemma u32_range z : is_u32 (u32 z).
Proof. warith. Qed.
Lemma u64_range z : is_u64 (u64 z).
Proof. warith. Qed.
Lemma s32_small z : -2147483648 <= z < 2147483648 -> s32 z = z.
Proof. intros. unfold s32. case_if; bool_prop; warith. Qed.
Lemma s64_small z : -9223372036854775808 <= z < 9223372036854775808 -> s64 z = z.
Proof. intros. unfold s64. case_if; bool_prop; warith. Qed.
Lemma u8_small z : is_u8 z -> u8 z = z.
Proof. intros. apply Z.mod_small, H. Qed.
Lemma u16_small z : is_u16 z -> u16 z = z.
Proof. intros. apply Z.mod_small, H. Qed.
Lemma u32_small z : is_u32 z -> u32 z = z.
Proof. intros. apply Z.mod_small, H. Qed.

Lemma u64_small z : is_u64 z -> u64 z = z.
Proof. intros. apply Z.mod_small, H. Qed.

#[export] Hint Resolve u8_range u16_range u32_range u64_range : words.

(** ** Facts on lists *)

Lemma zlen_nonneg {A} (l : list A) : 0 <= zlen l.
Proof. unfold zlen; lia. Qed.
Lemma zlen_app {A} (l k : list A) : zlen (l ++ k) = zlen l + zlen k.
Proof. unfold zlen; rewrite length_app; lia. Qed.
Lemma zlen_cons {A} (x : A) l : zlen (x :: l) = 1 + zlen l.
Proof. unfold zlen; cbn [length]; lia. Qed.
Lemma zlen_nil {A} : zlen (@nil A) = 0.
Proof. reflexivity. Qed.

#[export] Hint Rewrite @zlen_app @zlen_cons @zlen_nil : lists.

Lemma zlen_zero {A} (l : list A) : zlen l = 0 -> l = [].
Proof. destruct l; [done |]. rewrite zlen_cons. pose proof (zlen_nonneg l). lia. Qed.

(** ** Message allocation

    Every driver and protocol module gets its message buffers from [allocb]
    ([uts/os/io/streams.c]), which may fail at any call.  A component that only
    needs to know whether the buffer arrived is written against this interface:
    [allocb_ok n m] is the outcome of [allocb(n)] in allocator state [m], and
    [dupb_ok m] that of [dupb], which takes one header from the mblk cache.  The
    law is [kmalloc]'s size limit (the largest size cache is 2048 bytes). *)

Class MsgAlloc (M : Type) := {
  allocb_ok : Z -> M -> bool * M;
  dupb_ok : M -> bool * M;
  allocb_limit : forall n m, 2048 < n -> fst (allocb_ok n m) = false
}.

(** The allocator as an adversary: the list says which of the next requests
    fail; after it every request of legal size succeeds. *)
Definition scripted_next (m : list bool) : bool * list bool :=
  match m with [] => (true, []) | b :: m' => (b, m') end.

Definition scripted_allocb (n : Z) (m : list bool) : bool * list bool :=
  if n >? 2048 then (false, m) else scripted_next m.

Lemma scripted_allocb_limit n m : 2048 < n -> fst (scripted_allocb n m) = false.
Proof.
  intros H. unfold scripted_allocb.
  destruct (n >? 2048) eqn:E; [done |]. rewrite Z.gtb_ltb in E. bool_prop. lia.
Qed.

#[export] Instance scripted_alloc : MsgAlloc (list bool) :=
  {| allocb_ok := scripted_allocb; dupb_ok := scripted_next;
     allocb_limit := scripted_allocb_limit |}.

(** ** Bit fields *)

Lemma land_ones_mod a n : 0 <= n -> Z.land a (Z.ones n) = a mod 2 ^ n.
Proof. apply Z.land_ones. Qed.

(** [x & ~(2^k - 1)] on 64 bits clears the low bits. *)
Lemma land_clear x k : 0 <= k -> is_u64 x -> Z.land x (u64 (Z.lnot (Z.ones k))) = x - x mod 2 ^ k.
Proof.
  intros Hk Hx. unfold u64. change 18446744073709551616 with (2 ^ 64).
  rewrite <- Z.land_ones, (Z.land_comm (Z.lnot _)), Z.land_assoc, Z.land_ones, <- Z.ldiff_land by lia.
  rewrite Z.mod_small by (unfold is_u64 in Hx; lia).
  rewrite Z.ldiff_ones_r, Z.shiftl_mul_pow2, Z.shiftr_div_pow2 by lia. pose proof (Z.div_mod x (2 ^ k)). lia.
Qed.

(** [hi << n | lo] with [lo] below [2^n] is a sum. *)
Lemma lor_shiftl_add hi lo n :
  0 <= n -> 0 <= lo < 2 ^ n -> Z.lor (Z.shiftl hi n) lo = hi * 2 ^ n + lo.
Proof.
  intros Hn Hlo. rewrite <- Z.add_nocarry_lor; [by rewrite Z.shiftl_mul_pow2|].
  apply Z.bits_inj'. intros i Hi. rewrite Z.land_spec, Z.bits_0, Z.shiftl_spec by done.
  destruct (decide (i < n)).
  - by rewrite Z.testbit_neg_r by lia.
  - rewrite <- (Z.mod_small lo (2 ^ n)) by lia.
    rewrite Z.mod_pow2_bits_high by lia. apply andb_false_r.
Qed.

(** A test of one bit. *)
Lemma land_bit f i : 0 <= i -> negb (Z.land f (2 ^ i) =? 0) = Z.testbit f i.
Proof.
  intros Hi. assert (Z.land f (2 ^ i) = if Z.testbit f i then 2 ^ i else 0) as ->.
  { apply Z.bits_inj'. intros j Hj. rewrite Z.land_spec, Z.pow2_bits_eqb by done.
    destruct (Z.eqb_spec i j) as [->|Hne].
    - destruct (Z.testbit f j); [by rewrite Z.pow2_bits_true|by rewrite Z.bits_0].
    - rewrite andb_false_r. destruct (Z.testbit f i); [by rewrite Z.pow2_bits_false|by rewrite Z.bits_0]. }
  destruct (Z.testbit f i); [|done]. pose proof (Z.pow_pos_nonneg 2 i). apply negb_true_iff, Z.eqb_neq. lia.
Qed.

Lemma has_bit f i : 0 <= i -> has f (2 ^ i) = Z.testbit f i.
Proof. apply land_bit. Qed.

(** Induction two elements at a time. *)
Lemma pair_list_ind {A} (P : list A -> Prop) :
  P [] -> (forall a, P [a]) -> (forall a b l, P l -> P (a :: b :: l)) -> forall l, P l.
Proof.
  intros H0 H1 H2. fix IH 1. intros [|a [|b l]]; [done | done |]. apply H2, IH.
Qed.
