(* ===== verification/Links.v ===== *)
(** * Linked lists in memory

    The kernel threads its structures through pointers of their own: slab headers
    by [next], message blocks by [b_cont], queues by [q_runlink], buffers by
    [hash_next] and by [lru_prev]/[lru_next].  A store is a finite map from pointers
    to structures, [0] is NULL, and these predicates say which list of pointers such
    a chain is; the lemmas are shared by every component that has one. *)

From stdpp Require Import functions base numbers list gmap.
From Stdlib Require Import ZArith Lia Bool.
From S2P Require Import Prelude.

Module Links.

Section Links.
Context {N : Type}.

(** ** Views

    Two stores hold the same structures as far as the projection [v] shows. *)

Definition same_view {V : Type} (v : N -> V) (m m' : gmap Z N) : Prop :=
  forall x, v <$> m' !! x = v <$> m !! x.

Lemma same_view_refl {V} (v : N -> V) m : same_view v m m.
Proof. done. Qed.

Lemma same_view_trans {V} (v : N -> V) a b c : same_view v a b -> same_view v b c -> same_view v a c.
Proof. intros H1 H2 x. by rewrite H2. Qed.

Lemma same_view_alter {V} (v : N -> V) f m x : (forall n, v (f n) = v n) -> same_view v m (alter f x m).
Proof.
  intros Hf y. destruct (decide (y = x)) as [->|].
  - rewrite lookup_alter_eq. destruct (m !! x); cbn; [by rewrite Hf|done].
  - by rewrite lookup_alter_ne.
Qed.

Lemma same_view_Some {V} (v : N -> V) m m' x n' : same_view v m m' -> m' !! x = Some n' ->
  exists n, m !! x = Some n /\ v n = v n'.
Proof. intros Hv E. specialize (Hv x). rewrite E in Hv. destruct (m !! x) as [n|]; [|done]. injection Hv. by exists n. Qed.

Lemma same_view_fwd {V} (v : N -> V) m m' x n : same_view v m m' -> m !! x = Some n ->
  exists n', m' !! x = Some n' /\ v n' = v n.
Proof. intros Hv E. specialize (Hv x). rewrite E in Hv. destruct (m' !! x) as [n'|]; [|done]. injection Hv. by exists n'. Qed.

(** ** Singly linked *)

(** Following [next] from [a] meets the structures [l] and ends at NULL. *)
Fixpoint lchain (next : N -> Z) (m : gmap Z N) (a : Z) (l : list Z) : Prop :=
  match l with
  | [] => a = 0
  | x :: l => a = x /\ x <> 0 /\ exists n, m !! x = Some n /\ lchain next m (next n) l
  end.

Context (next : N -> Z).

Lemma lchain_ext m m' l : forall a,
  (forall x n, x ∈ l -> m !! x = Some n -> exists n', m' !! x = Some n' /\ next n' = next n) ->
  lchain next m a l -> lchain next m' a l.
Proof.
  induction l as [|x l IH]; intros a Hx; cbn [lchain]; [done|].
  intros (-> & Hz & n & Hn & Hl). split_and!; [done|done|].
  destruct (Hx x n) as (n' & Hn' & E); [apply elem_of_cons; by left|done|]. exists n'. split; [done|].
  rewrite E. apply IH; [|done]. intros y ny Hy. apply Hx, elem_of_cons. by right.
Qed.

Lemma lchain_lookup m l : forall a x, lchain next m a l -> x ∈ l -> x <> 0 /\ is_Some (m !! x).
Proof.
  induction l as [|y l IH]; intros a x; cbn [lchain]; [by intros _ ?%elem_of_nil|].
  intros (_ & Hz & n & Hn & Hl) [->|Hx]%elem_of_cons; [split; [done|by exists n]|]. by eapply IH.
Qed.

Lemma lchain_unique m l : forall a l', lchain next m a l -> lchain next m a l' -> l = l'.
Proof.
  induction l as [|x l IH]; intros a [|y l'] H1 H2; cbn in *; try done.
  - by destruct H2 as (-> & ? & _).
  - by destruct H1 as (-> & ? & _).
  - destruct H1 as (-> & _ & n & Hn & H1), H2 as (<- & _ & n' & Hn' & H2). f_equal.
    rewrite Hn in Hn'. injection Hn' as <-. by eapply IH.
Qed.

(** A chain without repetition is no longer than its store. *)
Lemma lchain_length m l a : lchain next m a l -> NoDup l -> (length l <= size m)%nat.
Proof.
  intros Hc Hd. rewrite <- (size_list_to_set (C := gset Z)) by done. rewrite <- size_dom.
  apply subseteq_size. intros x Hx%elem_of_list_to_set. apply elem_of_dom.
  by destruct (lchain_lookup m l a x Hc Hx).
Qed.

Lemma lchain_delete m x l a : x ∉ l -> lchain next m a l -> lchain next (delete x m) a l.
Proof.
  intros Hn. apply lchain_ext. intros y n Hy Hm. exists n. split; [|done].
  apply lookup_delete_Some. split; [by intros ->|done].
Qed.

(** A chain that does not meet [x] does not see [x] change. *)
Lemma lchain_alter m f x l a : x ∉ l -> lchain next m a l -> lchain next (alter f x m) a l.
Proof.
  intros Hn. apply lchain_ext. intros y n Hy Hm. exists n. split; [|done].
  rewrite lookup_alter_ne; [done|]. by intros ->.
Qed.

(** Linking a new structure behind the last one. *)
Lemma lchain_snoc m f tail c n l : (forall y, next (f y) = c) -> forall a, lchain next m a l -> NoDup l ->
  last l = Some tail -> m !! c = Some n -> next n = 0 -> c ∉ l -> c <> 0 ->
  lchain next (alter f tail m) a (l ++ [c]).
Proof.
  intros Hf. induction l as [|x l IH]; intros a Hl Hd Ht Hc H0 Hn Hz; [done|].
  destruct Hl as (-> & Hx & nx & Hnx & Hl). apply NoDup_cons in Hd as [Hxl Hd].
  apply not_elem_of_cons in Hn as [Hcx Hn].
  assert (Hc' : alter f tail m !! c = Some n).
  { rewrite lookup_alter_ne; [done|]. intros ->.
    apply last_Some_elem_of in Ht. apply elem_of_cons in Ht as [?|?]; congruence. }
  destruct l as [|y l].
  - injection Ht as <-. cbn in Hl. cbn [lchain app]. split_and!; [done|done|].
    exists (f nx). rewrite lookup_alter_eq, Hnx, Hf. split_and!; try done. by exists n.
  - change (last (x :: y :: l)) with (last (y :: l)) in Ht.
    cbn [app]. change (x :: y :: l ++ [c]) with (x :: (y :: l) ++ [c]).
    split_and!; [done|done|]. exists nx. rewrite lookup_alter_ne; [split; [done|by apply IH]|].
    intros ->. apply Hxl. by apply last_Some_elem_of.
Qed.

(** ** Families of chains

    Many lists over one store, each with its head pointer, no structure on two of
    them.  The lemmas speak of the [next] fields only, so the other fields of the
    structures may change at will. *)

Section Families.
Context {I : Type} `{EqDecision I}.
Implicit Types (hd : I -> Z) (L : I -> list Z) (m : gmap Z N).

Definition chains m hd L : Prop :=
  (forall i, lchain next m (hd i) (L i) /\ NoDup (L i))
  /\ (forall i j x, x ∈ L i -> x ∈ L j -> i = j).

(** [m] and [m'] have the same links outside [P]. *)
Definition same_links (P : Z -> Prop) m m' : Prop :=
  forall x, ~ P x -> next <$> m' !! x = next <$> m !! x.

Lemma lchain_links m m' l a : (forall x, x ∈ l -> next <$> m' !! x = next <$> m !! x) ->
  lchain next m a l -> lchain next m' a l.
Proof.
  intros Hv. apply lchain_ext. intros x n Hx Hn. specialize (Hv x Hx). rewrite Hn in Hv.
  destruct (m' !! x) as [n'|]; [|done]. injection Hv. by exists n'.
Qed.

Lemma chains_member m hd L i x : chains m hd L -> x ∈ L i -> x <> 0 /\ is_Some (m !! x).
Proof. intros [Hc _] Hx. by eapply lchain_lookup; [apply (Hc i)|]. Qed.

Lemma chains_ext m m' hd hd' L : chains m hd L ->
  (forall i x, x ∈ L i -> next <$> m' !! x = next <$> m !! x) -> (forall i, hd' i = hd i) ->
  chains m' hd' L.
Proof.
  intros [Hc Hd] Hl Hh. split; [|done]. intros i. rewrite Hh. destruct (Hc i). split; [|done].
  eapply lchain_links; [|done]. apply Hl.
Qed.

(** The part of each step that is about the other lists. *)
Lemma chains_set m m' hd hd' L i l :
  chains m hd L -> (forall j, j <> i -> hd' j = hd j) ->
  (forall j x, j <> i -> x ∈ L j -> next <$> m' !! x = next <$> m !! x) ->
  lchain next m' (hd' i) l -> NoDup l -> (forall j x, j <> i -> x ∈ l -> x ∉ L j) ->
  chains m' hd' (<[i := l]> L).
Proof.
  intros [Hc Hd] Hh Hl Hi Hn Hdj. split.
  - intros j. destruct (decide (j = i)) as [->|Hj]; [by rewrite fn_lookup_insert|].
    rewrite fn_lookup_insert_ne, Hh by done. destruct (Hc j). split; [|done].
    eapply lchain_links; [|done]. intros x Hx. by eapply Hl.
  - intros j k x. destruct (decide (j = i)) as [->|Hj], (decide (k = i)) as [->|Hk];
      rewrite ?fn_lookup_insert, ?fn_lookup_insert_ne by done; [done| | |by apply Hd].
    + intros Hx Hxk. by destruct (Hdj k x Hk Hx).
    + intros Hxj Hx. by destruct (Hdj j x Hj Hx).
Qed.

Lemma chains_cons m m' hd hd' L i t : chains m hd L -> t <> 0 -> (forall j, t ∉ L j) ->
  next <$> m' !! t = Some (hd i) -> same_links (eq t) m m' ->
  hd' i = t -> (forall j, j <> i -> hd' j = hd j) -> chains m' hd' (<[i := t :: L i]> L).
Proof.
  intros Hch Hz Hn Ht Hs Hi Hh. pose proof Hch as [Hc Hd]. destruct (Hc i) as [Hci Hdi].
  assert (Hsame : forall j x, x ∈ L j -> next <$> m' !! x = next <$> m !! x).
  { intros j x Hx. apply Hs. intros ->. by destruct (Hn j). }
  eapply chains_set; [done|done|by intros; eapply Hsame| | |].
  - rewrite Hi. cbn [lchain]. split; [done|]. split; [done|].
    destruct (m' !! t) as [n|] eqn:E; [|done]. injection Ht as Ht. exists n. split; [done|].
    rewrite Ht. eapply lchain_links; [|done]. intros x. apply Hsame.
  - apply NoDup_cons. by split.
  - intros j x Hj [->|Hx]%elem_of_cons; [done|]. intros Hxj. by destruct (Hj (Hd j i x Hxj Hx)).
Qed.

Lemma chains_snoc m m' hd hd' L i t : chains m hd L -> t <> 0 -> (forall j, t ∉ L j) ->
  next <$> m' !! t = Some 0 -> (forall y, last (L i) = Some y -> next <$> m' !! y = Some t) ->
  same_links (fun x => x = t \/ last (L i) = Some x) m m' ->
  hd' i = (match L i with [] => t | _ => hd i end) -> (forall j, j <> i -> hd' j = hd j) ->
  chains m' hd' (<[i := L i ++ [t]]> L).
Proof.
  intros Hch Hz Hn Ht Hy Hs Hi Hh. pose proof Hch as [Hc Hd]. destruct (Hc i) as [Hci Hdi].
  destruct (m' !! t) as [n'|] eqn:Et; [|done]. injection Ht as Ht.
  eapply chains_set; [done|done| | | |].
  - intros j x Hj Hx. apply Hs. intros [->|Hl]; [by destruct (Hn j)|].
    apply last_Some_elem_of in Hl. by destruct (Hj (Hd j i x Hx Hl)).
  - rewrite Hi. clear Hi. revert Hci Hdi Hy Hs. specialize (Hn i). revert Hn. generalize (hd i).
    induction (L i) as [|x l IH]; intros a Hn Hci Hdi Hy Hs; cbn [app lchain].
    { split; [done|]. split; [done|]. by exists n'. }
    destruct Hci as (-> & Hx & n & Hnx & Hl). apply not_elem_of_cons in Hn as [Hxt Hn].
    apply NoDup_cons in Hdi as [Hxl Hdi]. split; [done|]. split; [done|].
    destruct l as [|z l].
    + specialize (Hy x eq_refl). destruct (m' !! x) as [nx|] eqn:Ex; [|done]. injection Hy as Hy.
      exists nx. split; [done|]. rewrite Hy. cbn. split; [done|]. split; [done|]. by exists n'.
    + change (last (x :: z :: l)) with (last (z :: l)) in *.
      assert (Hsx : next <$> m' !! x = next <$> m !! x).
      { apply Hs. intros [->|Hlx]; [done|]. apply Hxl. by apply last_Some_elem_of. }
      rewrite Hnx in Hsx. destruct (m' !! x) as [nx|]; [|done]. injection Hsx as Hsx.
      exists nx. split; [done|]. rewrite Hsx. by apply IH.
  - apply NoDup_app. split; [done|]. split; [|by apply NoDup_singleton].
    intros x Hx [->|?%elem_of_nil]%elem_of_cons; [by destruct (Hn i)|done].
  - intros j x Hj [Hx|[->|?%elem_of_nil]%elem_of_cons]%elem_of_app; [|done|done].
    intros Hxj. by destruct (Hj (Hd j i x Hxj Hx)).
Qed.

Lemma chains_pop m m' hd hd' L i t n r : chains m hd L -> L i = t :: r -> m !! t = Some n ->
  same_links (eq t) m m' -> hd' i = next n -> (forall j, j <> i -> hd' j = hd j) ->
  chains m' hd' (<[i := r]> L).
Proof.
  intros Hch Hi Ht Hs Hhi Hh. pose proof Hch as [Hc Hd]. destruct (Hc i) as [Hci Hdi].
  rewrite Hi in Hci, Hdi. destruct Hci as (_ & Hz & n' & Ht' & Hr). apply NoDup_cons in Hdi as [Htr Hdr].
  eapply chains_set; [done|done| | |done|].
  - intros j x Hj Hx. apply Hs. intros ->. apply Hj, (Hd j i x Hx). rewrite Hi. apply list_elem_of_here.
  - rewrite Hhi. replace n with n' by congruence. eapply lchain_links; [|done].
    intros x Hx. apply Hs. by intros ->.
  - intros j x Hj Hx Hxj. apply Hj, (Hd j i x Hxj). rewrite Hi. by apply list_elem_of_further.
Qed.

(** A whole list moves from [i] to the empty list [j]. *)
Lemma chains_move m m' hd hd' L i j : chains m hd L -> i <> j -> L j = [] ->
  same_links (fun _ => False) m m' -> hd' i = 0 -> hd' j = hd i ->
  (forall k, k <> i -> k <> j -> hd' k = hd k) -> chains m' hd' (<[i := []]> (<[j := L i]> L)).
Proof.
  intros Hch Hij Hj Hs Hhi Hhj Hh. pose proof Hch as [Hc Hd].
  assert (Hl : forall x, next <$> m' !! x = next <$> m !! x) by (intros x; apply Hs; tauto).
  split.
  - intros k. destruct (decide (k = i)) as [->|Hki].
    { rewrite fn_lookup_insert, Hhi. split; [done|apply NoDup_nil_2]. }
    rewrite fn_lookup_insert_ne by done. destruct (decide (k = j)) as [->|Hkj].
    + rewrite fn_lookup_insert, Hhj. destruct (Hc i). split; [|done]. eapply lchain_links; [|done].
      intros; apply Hl.
    + rewrite fn_lookup_insert_ne, Hh by done. destruct (Hc k). split; [|done].
      eapply lchain_links; [|done]. intros; apply Hl.
  - assert (Hk : forall k x, x ∈ (<[i := []]> (<[j := L i]> L)) k ->
      k <> i /\ x ∈ L (if decide (k = j) then i else k)).
    { intros k x. destruct (decide (k = i)) as [->|]; [rewrite fn_lookup_insert; by intros ?%elem_of_nil|].
      rewrite fn_lookup_insert_ne by done. destruct (decide (k = j)) as [->|];
        rewrite ?fn_lookup_insert, ?fn_lookup_insert_ne by done; done. }
    intros k1 k2 x [H1 Hx1]%Hk [H2 Hx2]%Hk. pose proof (Hd _ _ x Hx1 Hx2) as E.
    destruct (decide (k1 = j)), (decide (k2 = j)); congruence.
Qed.

(** [t] is taken out from behind [p]. *)
Lemma chains_unlink m m' hd hd' L i l1 p t n l2 : chains m hd L -> L i = l1 ++ p :: t :: l2 ->
  m !! t = Some n -> next <$> m' !! p = Some (next n) ->
  same_links (fun x => x = p \/ x = t) m m' -> (forall j, hd' j = hd j) ->
  chains m' hd' (<[i := l1 ++ p :: l2]> L).
Proof.
  intros Hch Hi Ht Hp Hs Hh. pose proof Hch as [Hc Hd]. destruct (Hc i) as [Hci Hdi].
  rewrite Hi in Hci, Hdi.
  assert (Hin : forall x, x ∈ l1 ++ p :: l2 -> x ∈ L i).
  { intros x. rewrite Hi, !elem_of_app, !elem_of_cons. tauto. }
  eapply chains_set; [done|intros; apply Hh| | | |].
  - intros j x Hj Hx. apply Hs. intros [->| ->]; apply Hj, (Hd j i _ Hx); rewrite Hi;
      rewrite elem_of_app, !elem_of_cons; tauto.
  - rewrite Hh. clear Hi Hin Hh. revert Hci Hdi. generalize (hd i).
    induction l1 as [|x l1 IH]; intros a; cbn [app lchain].
    + intros (-> & Hz & np & Hnp & _ & Hzt & nt & Hnt & Hl) [Hpl Hdl]%NoDup_cons.
      apply NoDup_cons in Hdl as [Htl Hdl]. apply not_elem_of_cons in Hpl as [Hpt Hpl].
      split; [done|]. split; [done|]. destruct (m' !! p) as [np'|]; [|done]. injection Hp as Hp.
      exists np'. split; [done|]. rewrite Hp. replace n with nt by congruence.
      eapply lchain_links; [|done]. intros y Hy. apply Hs. by intros [-> | ->].
    + intros (-> & Hz & nx & Hnx & Hl) [Hxl Hdl]%NoDup_cons. split; [done|]. split; [done|].
      assert (Hsx : next <$> m' !! x = next <$> m !! x).
      { apply Hs. intros [-> | ->]; apply Hxl; rewrite elem_of_app, !elem_of_cons; tauto. }
      rewrite Hnx in Hsx. destruct (m' !! x) as [nx'|]; [|done]. injection Hsx as Hsx.
      exists nx'. split; [done|]. rewrite Hsx. by apply IH.
  - rewrite NoDup_app in Hdi |- *. destruct Hdi as (H1 & H2 & H3).
    apply NoDup_cons in H3 as [H3 H4]. apply NoDup_cons in H4 as [H4 H5].
    apply not_elem_of_cons in H3 as [_ H3]. split; [done|]. split; [|by apply NoDup_cons].
    intros x Hx [->|Hx2]%elem_of_cons; (eapply H2; [done|]); rewrite !elem_of_cons; tauto.
  - intros j x Hj Hx Hxj. apply Hj, (Hd j i x Hxj), Hin, Hx.
Qed.

End Families.

(** ** Doubly linked *)

Context (prev : N -> Z).

(** The structures from [cur] on are [l], the one before is [p], the last of them
    [last] and the one after [nx]. *)
Fixpoint dseg (m : gmap Z N) (p cur : Z) (l : list Z) (last nx : Z) : Prop :=
  match l with
  | [] => last = p /\ nx = cur
  | x :: l => cur = x /\ x <> 0
      /\ exists n, m !! x = Some n /\ prev n = p /\ dseg m x (next n) l last nx
  end.

Lemma dseg_app m l1 l2 : forall p c e n, dseg m p c (l1 ++ l2) e n <->
  exists e1 n1, dseg m p c l1 e1 n1 /\ dseg m e1 n1 l2 e n.
Proof.
  induction l1 as [|x l1 IH]; intros p c e n; cbn [app dseg].
  - split; [by eexists _, _|]. by intros (e1 & n1 & [-> ->] & Hs).
  - split.
    + intros (-> & Hx & nx & Hm & Hp & (e1 & n1 & H1 & H2)%IH). exists e1, n1. split; [|done].
      split_and!; [done|done|]. by exists nx.
    + intros (e1 & n1 & (-> & Hx & nx & Hm & Hp & H1) & H2). split_and!; [done|done|]. exists nx.
      split_and!; [done|done|]. apply IH. by exists e1, n1.
Qed.

Lemma dseg_ext m m' l : forall p c e n,
  (forall x nx, x ∈ l -> m !! x = Some nx -> exists n', m' !! x = Some n'
     /\ prev n' = prev nx /\ next n' = next nx) ->
  dseg m p c l e n -> dseg m' p c l e n.
Proof.
  induction l as [|x l IH]; intros p c e n Hx; cbn [dseg]; [done|].
  intros (-> & Hz & nx & Hm & Hp & Hs). split_and!; [done|done|].
  destruct (Hx x nx) as (n' & Hm' & E1 & E2); [apply elem_of_cons; by left|done|].
  exists n'. rewrite E1, E2. split_and!; try done. apply IH; [|done].
  intros y my Hy. apply Hx, elem_of_cons. by right.
Qed.

Lemma dseg_lookup m l : forall p c e n x, dseg m p c l e n -> x ∈ l -> x <> 0 /\ is_Some (m !! x).
Proof.
  induction l as [|y l IH]; intros p c e n x; cbn [dseg]; [by intros _ ?%elem_of_nil|].
  intros (_ & Hy & nx & Hm & _ & Hs) [->|Hx]%elem_of_cons; [split; [done|by exists nx]|]. by eapply IH.
Qed.

Lemma dseg_alter m f x l p c e n : x ∉ l -> dseg m p c l e n -> dseg (alter f x m) p c l e n.
Proof.
  intros Hx. apply dseg_ext. intros y ny Hy Hm. exists ny. split; [|done].
  rewrite lookup_alter_ne; [done|]. by intros ->.
Qed.

(** Changing what the first structure points back to. *)
Lemma dseg_repoint m f v p c y l e n : (forall k, prev (f k) = v /\ next (f k) = next k) ->
  dseg m p c (y :: l) e n -> y ∉ l -> dseg (alter f y m) v c (y :: l) e n.
Proof.
  intros Hf (-> & Hy & k & Hk & _ & Hs) Hn. cbn [dseg]. split_and!; [done|done|].
  destruct (Hf k) as [E1 E2]. exists (f k). rewrite lookup_alter_eq, Hk, E2. split_and!; [done|done|].
  by apply dseg_alter.
Qed.

(** Changing what the last structure points on to. *)
Lemma dseg_retarget m f v l y p c e n : (forall k, prev (f k) = prev k /\ next (f k) = v) ->
  dseg m p c (l ++ [y]) e n -> y ∉ l -> e = y /\ dseg (alter f y m) p c (l ++ [y]) e v.
Proof.
  intros Hf (e1 & n1 & Hs & (-> & Hy & k & Hk & Hp & -> & Hn1))%dseg_app Hn. split; [done|].
  apply dseg_app. exists e1, y. split; [by apply dseg_alter|].
  destruct (Hf k) as [E1 E2]. split_and!; [done|done|].
  exists (f k). rewrite lookup_alter_eq, Hk, E1, E2. split_and!; done.
Qed.

End Links.

Create HintDb views.
#[export] Hint Resolve same_view_refl : views.

#[global] Arguments lchain_ext {N next}.
#[global] Arguments lchain_lookup {N next}.
#[global] Arguments lchain_length {N next}.
#[global] Arguments lchain_delete {N next}.
#[global] Arguments lchain_alter {N next}.
#[global] Arguments lchain_snoc {N next}.
#[global] Arguments chains {N} next {I}.
#[global] Arguments same_links {N}.
#[global] Arguments lchain_links {N next}.
#[global] Arguments chains_member {N next I}.
#[global] Arguments chains_ext {N next I}.
#[global] Arguments chains_set {N next I _}.
#[global] Arguments chains_cons {N next I _}.
#[global] Arguments chains_snoc {N next I _}.
#[global] Arguments chains_pop {N next I _}.
#[global] Arguments chains_move {N next I _}.
#[global] Arguments chains_unlink {N next I _}.
#[global] Arguments dseg_app {N next prev}.
#[global] Arguments dseg_ext {N next prev}.
#[global] Arguments dseg_lookup {N next prev}.
#[global] Arguments dseg_alter {N next prev}.
#[global] Arguments dseg_repoint {N next prev}.
#[global] Arguments dseg_retarget {N next prev}.

End Links.
