(* ===== verification/Kmem.v ===== *)
(** * Page and slab allocator: [uts/os/core/pmm.c] and [uts/os/core/kmem.c]

    Both allocators thread their free lists through the free memory itself: the
    first word of a free page, or of a free object, is the address of the next
    one.  [mem] is that memory, word by word; the header at the start of a slab
    page is kept as a record in [slabs].  Address [0] is NULL.

    The functions run under [pmm_lock] and [kmem_lock] with interrupts masked, so
    each is one step.  A page without an entry in [slabs] is one whose first word
    is not [SLAB_MAGIC]. *)

From stdpp Require Import base numbers list gmap sorting.
From Stdlib Require Import ZArith Lia Bool.
From S2P Require Import Prelude Links.

Module Kmem.

Import Links.

Definition PAGE_SIZE : Z := 4096.
Definition OBJ_ALIGN : Z := 8.

(** ** The page allocator *)

Record pmm := mk_pmm { mem : gmap Z Z; freelist : Z; free_count : Z }.

#[export] Instance pmm_rebuild : Rebuild pmm := rpure mk_pmm <:> mem <:> freelist <:> free_count.

Definition load (m : gmap Z Z) (a : Z) : Z := default 0 (m !! a).

Definition align_up (v a : Z) : Z := Z.land (u64 (v + a - 1)) (Z.lnot (a - 1)).
Definition align_dn (v a : Z) : Z := Z.land v (Z.lnot (a - 1)).

(** [n] words from [a] on set to zero. *)
Fixpoint zero_words (n : nat) (a : Z) (m : gmap Z Z) : gmap Z Z :=
  match n with
  | O => m
  | S n => zero_words n (a + 8) (<[a := 0]> m)
  end.

Definition zero_page (pa : Z) (m : gmap Z Z) : gmap Z Z := zero_words 512 pa m.

Definition pmm_free (st : pmm) (pa : Z) : pmm :=
  if pa =? 0 then st
  else mk_pmm (<[pa := freelist st]> (mem st)) pa (u64 (free_count st + 1)).

Definition pmm_alloc (st : pmm) : Z * pmm :=
  if freelist st =? 0 then (0, st)
  else
    let pa := freelist st in
    (pa, mk_pmm (zero_page pa (mem st)) (load (mem st) pa) (u64 (free_count st - 1))).

(** The loop of [pmm_add_range]: [n] pages below [pa], highest first. *)
Fixpoint add_pages (n : nat) (pa : Z) (st : pmm) : pmm :=
  match n with
  | O => st
  | S n => add_pages n (pa - PAGE_SIZE) (pmm_free st (pa - PAGE_SIZE))
  end.

Definition pmm_add_range (st : pmm) (start end_ : Z) : pmm :=
  let start := align_up start PAGE_SIZE in
  let end_ := align_dn end_ PAGE_SIZE in
  if end_ <=? start then st
  else add_pages (Z.to_nat ((end_ - start) / PAGE_SIZE)) end_ st.

(** ** The slab allocator *)

Record slab := mk_slab { s_free_count : Z; s_next : Z; s_cache : Z; s_freelist : Z }.

#[export] Instance slab_rebuild : Rebuild slab :=
  rpure mk_slab <:> s_free_count <:> s_next <:> s_cache <:> s_freelist.

Record kmem_cache := mk_cache {
  obj_size : Z; objs_per_slab : Z; c_slabs : Z; total_objs : Z; free_objs : Z
}.

#[export] Instance kmem_cache_rebuild : Rebuild kmem_cache :=
  rpure mk_cache <:> obj_size <:> objs_per_slab <:> c_slabs <:> total_objs <:> free_objs.

Record kmem := mk_kmem {
  pm : pmm; slabs : gmap Z slab; caches : gmap Z kmem_cache; registered : list Z
}.

#[export] Instance kmem_rebuild : Rebuild kmem := 
  rpure mk_kmem <:> pm <:> slabs <:> caches <:> registered.

(** [OBJ_ALIGN] is an [unsigned int]: its mask has 32 bits. *)
Definition slab_header_size : Z := Z.land (32 + OBJ_ALIGN - 1) (u32 (Z.lnot (OBJ_ALIGN - 1))).

Definition objs_per_slab_for (size : Z) : Z := (PAGE_SIZE - slab_header_size) / size.

Definition slab_of (p : Z) : Z := Z.land p (Z.lnot (PAGE_SIZE - 1)).

Definition KMEM_MAX_REGISTERED : Z := 16.

Definition kmem_register (l : list Z) (c : Z) : list Z :=
  if existsb (Z.eqb c) l then l
  else if zlen l <? KMEM_MAX_REGISTERED then l ++ [c] else l.

Definition kmem_cache_init (k : kmem) (c size : Z) : kmem :=
  let size := if size <? 8 then 8 else size in
  let size := Z.land (size + OBJ_ALIGN - 1) (u32 (Z.lnot (OBJ_ALIGN - 1))) in
  k <| caches := <[c := mk_cache size (objs_per_slab_for size) 0 0 0]> (caches k) |>
    <| registered := kmem_register (registered k) c |>.

Definition kmem_num_caches (k : kmem) : Z := zlen (registered k).

Definition kmem_get_cache (k : kmem) (i : Z) : option Z :=
  if zlen (registered k) <=? i then None else registered k !! Z.to_nat i.

(** The carving loop of [grow_cache], last object first. *)
Fixpoint carve (n : nat) (base size : Z) (m : gmap Z Z) (fl : Z) : gmap Z Z * Z :=
  match n with
  | O => (m, fl)
  | S n =>
      let obj := base + Z.of_nat n * size in
      carve n base size (<[obj := fl]> m) obj
  end.

Definition grow_cache (k : kmem) (cid : Z) (c : kmem_cache) : Z * kmem * kmem_cache :=
  let '(s, p) := pmm_alloc (pm k) in
  if s =? 0 then (0, k, c)
  else
    let '(m, fl) := carve (Z.to_nat (objs_per_slab c)) (s + slab_header_size) (obj_size c)
                      (mem p) 0 in
    let sl := mk_slab (objs_per_slab c) (c_slabs c) cid fl in
    let c := c <| c_slabs := s |> <| total_objs := total_objs c + objs_per_slab c |>
               <| free_objs := free_objs c + objs_per_slab c |> in
    (s, mk_kmem (p <| mem := m |>) (<[s := sl]> (slabs k)) (<[cid := c]> (caches k)) (registered k), c).

(** The number of slabs from [s] on. *)
Fixpoint nslabs (fuel : nat) (k : kmem) (s : Z) : Z :=
  match fuel with
  | O => 0
  | S fuel => match slabs k !! s with
              | None => 0
              | Some sl => 1 + nslabs fuel k (s_next sl)
              end
  end.

Definition kmem_cache_nslabs (k : kmem) (c : kmem_cache) : Z :=
  nslabs (S (size (slabs k))) k (c_slabs c).

(** The walk for a slab with a free object.  A cyclic list would not end; the
    number of slab pages bounds an acyclic one, see [find_slab_first]. *)
Fixpoint find_slab (fuel : nat) (k : kmem) (s : Z) : Z :=
  match fuel with
  | O => 0
  | S fuel =>
      match slabs k !! s with
      | None => 0
      | Some sl => if s_free_count sl >? 0 then s else find_slab fuel k (s_next sl)
      end
  end.

(** Pop the first object of slab [s]. *)
Definition slab_pop (k : kmem) (cid s : Z) : Z * kmem :=
  match slabs k !! s, caches k !! cid with
  | Some sl, Some c =>
      let p := s_freelist sl in
      let sl := sl <| s_freelist := load (mem (pm k)) p |>
                   <| s_free_count := s_free_count sl - 1 |> in
      (p, k <| slabs := <[s := sl]> (slabs k) |>
            <| caches := <[cid := c <| free_objs := free_objs c - 1 |>]> (caches k) |>)
  | _, _ => (0, k)
  end.

Definition kmem_cache_alloc (k : kmem) (cid : Z) : Z * kmem :=
  match caches k !! cid with
  | None => (0, k)
  | Some c =>
      let s := find_slab (S (size (slabs k))) k (c_slabs c) in
      if s =? 0 then
        let '(s, k, _) := grow_cache k cid c in
        if s =? 0 then (0, k) else slab_pop k cid s
      else slab_pop k cid s
  end.

Definition slab_free (k : kmem) (s : Z) (sl : slab) (p : Z) : kmem :=
  let m := <[p := s_freelist sl]> (mem (pm k)) in
  let sl := sl <| s_freelist := p |> <| s_free_count := s_free_count sl + 1 |> in
  let cs := match caches k !! s_cache sl with
            | Some c => <[s_cache sl := c <| free_objs := free_objs c + 1 |>]> (caches k)
            | None => caches k
            end in
  mk_kmem ((pm k) <| mem := m |>) (<[s := sl]> (slabs k)) cs (registered k).

Definition kmem_cache_free (k : kmem) (cid p : Z) : kmem :=
  if p =? 0 then k
  else
    match slabs k !! slab_of p with
    | Some sl => if negb (s_cache sl =? cid) then k else slab_free k (slab_of p) sl p
    | None => k
    end.

Definition kfree (k : kmem) (p : Z) : kmem :=
  if p =? 0 then k
  else
    match slabs k !! slab_of p with
    | Some sl => slab_free k (slab_of p) sl p
    | None => k
    end.

(** ** kmalloc: cache [i] of the table is named by its object size *)

Definition size_caches : list Z := [16; 32; 64; 128; 256; 512; 1024; 2048].

Definition kmem_init (k : kmem) : kmem := foldl (fun k sz => kmem_cache_init k sz sz) k size_caches.

Definition kmalloc (k : kmem) (n : Z) : Z * kmem :=
  if n =? 0 then (0, k)
  else
    match List.find (fun sz => sz >=? n) size_caches with
    | Some sz => kmem_cache_alloc k sz
    | None => (0, k)
    end.

(** ** Free lists in memory *)

(** The list of addresses linked from [a] through their first words. *)
Fixpoint chain (m : gmap Z Z) (a : Z) (l : list Z) : Prop :=
  match l with
  | [] => a = 0
  | x :: l => a = x /\ x <> 0 /\ chain m (load m x) l
  end.

Lemma load_insert_eq m a v : load (<[a := v]> m) a = v.
Proof. unfold load. by rewrite lookup_insert_eq. Qed.
Lemma load_insert_ne m a b v : a <> b -> load (<[a := v]> m) b = load m b.
Proof. intros. unfold load. by rewrite lookup_insert_ne. Qed.

(** A chain only depends on the first words of its elements. *)
Lemma chain_ext m m' l : forall a, (forall x, x ∈ l -> load m' x = load m x) ->
  chain m a l -> chain m' a l.
Proof.
  induction l as [|x l IH]; intros a Hx; cbn [chain]; [done|]. intros (-> & Hn & Hc).
  split_and!; [done|done|]. rewrite Hx by set_solver. apply IH; [|done]. set_solver.
Qed.

Lemma chain_head m a l : chain m a l -> a = hd 0 l.
Proof. destruct l; cbn; tauto. Qed.

(** ** Pages *)

Definition page (pa : Z) : Prop := 0 < pa /\ pa mod PAGE_SIZE = 0.

Lemma slab_of_mod p : slab_of p = p - p mod PAGE_SIZE.
Proof.
  unfold slab_of, PAGE_SIZE. change (4096 - 1) with (Z.ones 12).
  rewrite <- Z.ldiff_land, Z.ldiff_ones_r, Z.shiftl_mul_pow2, Z.shiftr_div_pow2 by lia.
  change (2 ^ 12) with 4096. pose proof (Z.div_mod p 4096). lia.
Qed.

Lemma align_dn_mod v : align_dn v PAGE_SIZE = v - v mod PAGE_SIZE.
Proof. apply slab_of_mod. Qed.

Lemma slab_of_in pg off : page pg -> 0 <= off < PAGE_SIZE -> slab_of (pg + off) = pg.
Proof.
  intros [Hp Hm] Ho. rewrite slab_of_mod. unfold PAGE_SIZE in *. Z.div_mod_to_equations. lia.
Qed.

Lemma zero_words_load n : forall a m x,
  load (zero_words n a m) x = load m x \/ (a <= x < a + 8 * Z.of_nat n
                                           /\ load (zero_words n a m) x = 0).
Proof.
  induction n as [|n IH]; intros a m x; cbn [zero_words]; [by left|].
  destruct (IH (a + 8) (<[a := 0]> m) x) as [Hx|[Hx ->]]; [|right; lia].
  rewrite Hx. destruct (decide (x = a)) as [->|Hne].
  - right. rewrite load_insert_eq. lia.
  - left. by rewrite load_insert_ne.
Qed.

Lemma zero_page_other pa m x : page pa -> slab_of x <> pa -> load (zero_page pa m) x = load m x.
Proof.
  intros Hp Hx. unfold zero_page. destruct (zero_words_load 512 pa m x) as [|[Hr _]]; [done|].
  destruct Hx. replace x with (pa + (x - pa)) by lia. apply slab_of_in; [done|].
  unfold PAGE_SIZE. lia.
Qed.

Lemma zero_words_zero n : forall a m j, 0 <= j < Z.of_nat n ->
  load (zero_words n a m) (a + 8 * j) = 0.
Proof.
  induction n as [|n IH]; intros a m j Hj; [lia|]. cbn [zero_words].
  destruct (decide (j = 0)) as [->|].
  - destruct (zero_words_load n (a + 8) (<[a := 0]> m) (a + 8 * 0)) as [-> |[? _]]; [|lia].
    replace (a + 8 * 0) with a by lia. apply load_insert_eq.
  - replace (a + 8 * j) with (a + 8 + 8 * (j - 1)) by lia. apply IH. lia.
Qed.

Lemma zero_page_zero pa m i : 0 <= i < 512 -> load (zero_page pa m) (pa + 8 * i) = 0.
Proof. intros. apply zero_words_zero. lia. Qed.

#[local] Opaque zero_page.

Lemma page_slab_of pa : page pa -> slab_of pa = pa.
Proof. intros Hp. rewrite <- (Z.add_0_r pa) at 1. apply slab_of_in; [done|]. unfold PAGE_SIZE. lia. Qed.

(** The free pages, top of the stack first. *)
Definition pmm_repr (st : pmm) (l : list Z) : Prop :=
  chain (mem st) (freelist st) l /\ NoDup l /\ Forall page l
  /\ free_count st = zlen l /\ zlen l < 18446744073709551615.

Lemma pmm_alloc_pop st pa l : pmm_repr st (pa :: l) ->
  exists st', pmm_alloc st = (pa, st') /\ pmm_repr st' l
  /\ mem st' = zero_page pa (mem st).
Proof.
  intros ((Hf & Hn & Hc) & Hd & Hp & Hk & Hl). apply NoDup_cons in Hd as [Hni Hd].
  apply Forall_cons in Hp as [Hp Hps]. rewrite zlen_cons in *. pose proof (zlen_nonneg l).
  unfold pmm_alloc. rewrite Hf. apply Z.eqb_neq in Hn. rewrite Hn. eexists. split; [done|].
  split; [|done]. split_and!; cbn; try done; [|rewrite Hk; warith|lia].
  eapply chain_ext; [|exact Hc]. intros x Hx. apply zero_page_other; [done|].
  rewrite page_slab_of; [set_solver|]. by apply (proj1 (Forall_forall _ _) Hps).
Qed.

Lemma pmm_free_push st pa l : pmm_repr st l -> page pa -> pa ∉ l ->
  zlen l < 18446744073709551614 -> pmm_repr (pmm_free st pa) (pa :: l).
Proof.
  intros (Hc & Hd & Hp & Hk & Hl) Hpa Hni Hlen. unfold pmm_free.
  assert ((pa =? 0) = false) as -> by (apply Z.eqb_neq; destruct Hpa; lia).
  pose proof (zlen_nonneg l). split_and!; cbn.
  - split_and!; [done|destruct Hpa; lia|]. rewrite load_insert_eq.
    eapply chain_ext; [|exact Hc]. intros x Hx. apply load_insert_ne. set_solver.
  - by constructor.
  - by constructor.
  - rewrite zlen_cons, Hk. warith.
  - rewrite zlen_cons. lia.
Qed.

(** The page allocator is a stack of distinct pages.  With free pages [l],
    allocation fails exactly when [l] is empty and otherwise returns its first
    page with every word cleared and keeps the rest; freeing a page that is not
    free puts it on top. *)
Theorem pmm_refines_stack (st : pmm) (l : list Z) :
  pmm_repr st l ->
  (match l with
   | [] => pmm_alloc st = (0, st)
   | pa :: l' => exists st', pmm_alloc st = (pa, st') /\ pmm_repr st' l'
                 /\ forall i, 0 <= i < 512 -> load (mem st') (pa + 8 * i) = 0
   end)
  /\ forall pa, page pa -> pa ∉ l -> zlen l < 18446744073709551614 ->
     pmm_repr (pmm_free st pa) (pa :: l).
Proof.
  intros Hr. split; [|intros; by apply pmm_free_push].
  destruct l as [|pa l].
  - destruct Hr as (Hf & _). cbn in Hf. unfold pmm_alloc. by rewrite Hf.
  - destruct (pmm_alloc_pop st pa l Hr) as (st' & He & Hr' & Hm). exists st'.
    split_and!; [done|done|]. intros i Hi. rewrite Hm.
    by apply zero_page_zero.
Qed.

(** Three free pages. *)
Definition demo_pmm : pmm := pmm_add_range (mk_pmm ∅ 0 0) 4000 16384.

Lemma demo_repr : pmm_repr demo_pmm [4096; 8192; 12288].
Proof.
  split_and!; [vm_compute; split_and!; (done || congruence)| | |done|done].
  - apply (bool_decide_eq_true_1 (NoDup [4096; 8192; 12288])). vm_compute. reflexivity.
  - repeat apply Forall_cons_2; try apply Forall_nil_2; split; vm_compute; congruence.
Qed.

Lemma pmm_refines_stack_witness :
  (exists st', pmm_alloc demo_pmm = (4096, st') /\ pmm_repr st' [8192; 12288]
     /\ forall i, 0 <= i < 512 -> load (mem st') (4096 + 8 * i) = 0)
  /\ forall pa, page pa -> pa ∉ [4096; 8192; 12288] ->
     zlen [4096; 8192; 12288] < 18446744073709551614 ->
     pmm_repr (pmm_free demo_pmm pa) (pa :: [4096; 8192; 12288]).
Proof. apply (pmm_refines_stack demo_pmm [4096; 8192; 12288] demo_repr). Defined.

(** ** Slabs *)

(** [o] is the address of an object of slab page [pg]. *)
Definition is_obj (c : kmem_cache) (pg o : Z) : Prop :=
  exists i, 0 <= i < objs_per_slab c /\ o = pg + slab_header_size + i * obj_size c.

Definition cache_ok (c : kmem_cache) : Prop :=
  8 <= obj_size c /\ obj_size c mod 8 = 0 /\ 0 < objs_per_slab c
  /\ objs_per_slab c * obj_size c <= PAGE_SIZE - slab_header_size.

(** The slab pages of a cache, along [next]. *)
Notation slist := (lchain s_next).

Lemma is_obj_page c pg o : cache_ok c -> page pg -> is_obj c pg o ->
  slab_of o = pg /\ pg < o /\ o + obj_size c <= pg + PAGE_SIZE.
Proof.
  intros (H8 & _ & Hn & Hf) Hp (i & Hi & ->). unfold PAGE_SIZE in *.
  change slab_header_size with 32 in *.
  assert (i * obj_size c + obj_size c <= 4064) by nia.
  split; [|nia]. rewrite <- Z.add_assoc. apply slab_of_in; [done|]. unfold PAGE_SIZE. nia.
Qed.

(** The state against its free pages [pl], the free objects [fl] of each slab and
    the slab pages [sl] of each cache. *)
Record kmem_wf (k : kmem) (pl : list Z) (fl sl : Z -> list Z) : Prop := {
  wf_pmm : pmm_repr (pm k) pl;
  wf_slab : forall pg s, slabs k !! pg = Some s ->
    page pg /\ pg ∉ pl /\ pg ∈ sl (s_cache s)
    /\ chain (mem (pm k)) (s_freelist s) (fl pg) /\ NoDup (fl pg)
    /\ s_free_count s = zlen (fl pg)
    /\ exists c, caches k !! s_cache s = Some c /\ forall o, o ∈ fl pg -> is_obj c pg o;
  wf_cache : forall cid c, caches k !! cid = Some c ->
    cache_ok c /\ slist (slabs k) (c_slabs c) (sl cid) /\ NoDup (sl cid)
    /\ (forall pg, pg ∈ sl cid -> exists s, slabs k !! pg = Some s /\ s_cache s = cid)
    /\ total_objs c = objs_per_slab c * zlen (sl cid)
    /\ free_objs c = foldr (fun pg n => zlen (fl pg) + n) 0 (sl cid)
}.

(** The objects of the slabs, and those handed out and not yet freed. *)
Definition obj_at (k : kmem) (pg o : Z) : Prop :=
  exists s c, slabs k !! pg = Some s /\ caches k !! s_cache s = Some c /\ is_obj c pg o.

Definition live_obj (k : kmem) (fl : Z -> list Z) (o : Z) : Prop :=
  exists pg, obj_at k pg o /\ o ∉ fl pg.

(** The allocator state with the objects satisfying [A] handed out. *)
Definition kmem_inv (k : kmem) (A : Z -> Prop) : Prop :=
  exists pl fl sl, kmem_wf k pl fl sl /\ forall o, A o <-> live_obj k fl o.

(** The size of the object at [o]. *)
Definition size_at (k : kmem) (o : Z) : Z :=
  match slabs k !! slab_of o with
  | Some s => match caches k !! s_cache s with Some c => obj_size c | None => 0 end
  | None => 0
  end.

(** The cache the object at [o] belongs to. *)
Definition owner (k : kmem) (o : Z) : Z :=
  match slabs k !! slab_of o with Some s => s_cache s | None => 0 end.

Definition upd_fl (fl : Z -> list Z) (pg : Z) (l : list Z) : Z -> list Z := fun x => if decide (x = pg) then l else fl x.

Lemma upd_fl_eq fl pg l : upd_fl fl pg l pg = l.
Proof. unfold upd_fl. by rewrite decide_True. Qed.
Lemma upd_fl_ne fl pg l x : x <> pg -> upd_fl fl pg l x = fl x.
Proof. intros. unfold upd_fl. by rewrite decide_False. Qed.

Lemma sum_upd fl pg l pages : NoDup pages ->
  foldr (fun x n => zlen (upd_fl fl pg l x) + n) 0 pages
  = foldr (fun x n => zlen (fl x) + n) 0 pages
    + (if decide (pg ∈ pages) then zlen l - zlen (fl pg) else 0).
Proof.
  induction pages as [|x pages IH]; intros Hd; cbn [foldr]; [done|].
  apply NoDup_cons in Hd as [Hx Hd]. rewrite IH by done.
  destruct (decide (x = pg)) as [->|Hne].
  - rewrite upd_fl_eq, decide_False, decide_True by set_solver. lia.
  - rewrite upd_fl_ne by done.
    destruct (decide (pg ∈ pages)); [rewrite decide_True by set_solver; lia|].
    rewrite decide_False by set_solver. lia.
Qed.

(** Replacing a slab record that keeps its place and its cache. *)
Lemma slab_set_lookup (sm : gmap Z slab) pg s s' x sx : sm !! pg = Some s ->
  s_next s' = s_next s -> s_cache s' = s_cache s -> sm !! x = Some sx ->
  exists sx', <[pg := s']> sm !! x = Some sx' /\ s_next sx' = s_next sx /\ s_cache sx' = s_cache sx.
Proof.
  intros Hs E1 E2 Hx. destruct (decide (x = pg)) as [->|].
  - rewrite lookup_insert_eq. eexists. split; [done|]. split; congruence.
  - rewrite lookup_insert_ne by done. by exists sx.
Qed.

(** Replacing a cache record by one with another count of free objects. *)
Lemma cache_set_lookup (cm : gmap Z kmem_cache) cid c d x cx : cm !! cid = Some c ->
  <[cid := c <| free_objs := free_objs c + d |>]> cm !! x = Some cx ->
  exists c0, cm !! x = Some c0 /\ obj_size cx = obj_size c0 /\ objs_per_slab cx = objs_per_slab c0
    /\ c_slabs cx = c_slabs c0 /\ total_objs cx = total_objs c0
    /\ free_objs cx = free_objs c0 + (if decide (x = cid) then d else 0).
Proof.
  intros Hc Hx. destruct (decide (x = cid)) as [->|Hne].
  - rewrite lookup_insert_eq in Hx. injection Hx as <-. by exists c.
  - rewrite lookup_insert_ne in Hx by done. exists cx. split_and!; try done. lia.
Qed.

Section Wf.
Variables (k : kmem) (pl : list Z) (fl sl : Z -> list Z).
Hypothesis Hwf : kmem_wf k pl fl sl.

Lemma free_obj_page pg s o : slabs k !! pg = Some s -> o ∈ fl pg -> slab_of o = pg.
Proof.
  intros Hs Ho. destruct (wf_slab _ _ _ _ Hwf pg s Hs) as (Hp & _ & _ & _ & _ & _ & c & Hc & Hob).
  destruct (wf_cache _ _ _ _ Hwf (s_cache s) c Hc) as (Hok & _).
  by destruct (is_obj_page c pg o Hok Hp (Hob o Ho)).
Qed.

(** The walk finds the first slab of the list with a free object, if any. *)
Lemma find_slab_first l : forall a fuel, slist (slabs k) a l -> (length l < fuel)%nat ->
  (find_slab fuel k a = 0 /\ Forall (fun pg => fl pg = []) l)
  \/ (find_slab fuel k a ∈ l /\ fl (find_slab fuel k a) <> []).
Proof.
  induction l as [|pg l IH]; intros a fuel Hl Hf; (destruct fuel as [|fuel]; [cbn in Hf; lia|]);
    cbn [find_slab lchain] in *.
  - subst a. left. split; [|constructor].
    destruct (slabs k !! 0) as [s|] eqn:E0; [|done].
    destruct (wf_slab _ _ _ _ Hwf 0 s E0) as ([? _] & _). lia.
  - destruct Hl as (-> & Hn & s & Hs & Hl). rewrite Hs.
    destruct (wf_slab _ _ _ _ Hwf pg s Hs) as (_ & _ & _ & _ & _ & Hc & _).
    rewrite Z.gtb_ltb. case_if; bool_prop.
    + right. split; [set_solver|]. intros He. rewrite He, zlen_nil in Hc. lia.
    + assert (fl pg = []) as He by (apply zlen_zero; pose proof (zlen_nonneg (fl pg)); lia).
      destruct (IH (s_next s) fuel Hl) as [[H1 H2]|[H1 H2]]; [cbn in Hf; lia| |].
      * left. split; [done|]. by constructor.
      * right. split; [set_solver|done].
Qed.

Lemma sl_length cid c : caches k !! cid = Some c -> (length (sl cid) <= size (slabs k))%nat.
Proof.
  intros Hc. destruct (wf_cache _ _ _ _ Hwf cid c Hc) as (_ & _ & Hd & Hin & _).
  rewrite <- (size_list_to_set (C := gset Z)) by done.
  rewrite <- size_dom. apply subseteq_size. intros pg Hpg%elem_of_list_to_set.
  destruct (Hin pg Hpg) as (s & Hs & _). by apply elem_of_dom.
Qed.

(** Replace the free list of one slab: what popping and freeing share. *)
Lemma wf_set_slab pg s c m' a' l' : slabs k !! pg = Some s -> caches k !! s_cache s = Some c ->
  NoDup l' -> (forall o, o ∈ l' -> is_obj c pg o) -> chain m' a' l' ->
  (forall x, slab_of x <> pg -> load m' x = load (mem (pm k)) x) ->
  kmem_wf (mk_kmem (mk_pmm m' (freelist (pm k)) (free_count (pm k)))
             (<[pg := mk_slab (zlen l') (s_next s) (s_cache s) a']> (slabs k))
             (<[s_cache s := c <| free_objs := free_objs c + zlen l' - zlen (fl pg) |>]> (caches k))
             (registered k))
    pl (upd_fl fl pg l') sl.
Proof.
  intros Hs Hc Hd Ho Hch Hm.
  destruct (wf_slab _ _ _ _ Hwf pg s Hs) as (Hp & Hpl & Hsl & _).
  constructor; cbn [pm slabs caches].
  - destruct (wf_pmm _ _ _ _ Hwf) as (Hc1 & Hd1 & Hp1 & Hk1 & Hl1).
    split_and!; cbn; try done. eapply chain_ext; [|exact Hc1]. intros x Hx. apply Hm.
    rewrite page_slab_of by by apply (proj1 (Forall_forall _ _) Hp1). set_solver.
  - intros pg1 s1 Hs1. destruct (decide (pg1 = pg)) as [->|Hne].
    + rewrite lookup_insert_eq in Hs1. injection Hs1 as <-. cbn [s_cache s_freelist s_free_count].
      rewrite upd_fl_eq. split_and!; try done. eexists. rewrite lookup_insert_eq. split; [done|].
      intros o Hin. destruct (Ho o Hin) as (i & Hi & He). by exists i.
    + rewrite lookup_insert_ne in Hs1 by done. rewrite upd_fl_ne by done.
      destruct (wf_slab _ _ _ _ Hwf pg1 s1 Hs1) as (Hp1 & Hpl1 & Hsl1 & Hch1 & Hd1 & Hc1 & c1 & Hcc1 & Ho1).
      split_and!; try done.
      * eapply chain_ext; [|exact Hch1]. intros x Hx. apply Hm.
        by rewrite (free_obj_page pg1 s1 x Hs1 Hx).
      * destruct (decide (s_cache s1 = s_cache s)) as [He|Hne2].
        -- rewrite He in *. rewrite lookup_insert_eq. rewrite Hc in Hcc1. injection Hcc1 as <-.
           eexists. split; [done|]. intros o Hin. destruct (Ho1 o Hin) as (i & Hi & Hoi). by exists i.
        -- rewrite lookup_insert_ne by done. by exists c1.
  - intros cid c1 Hc1.
    replace (free_objs c + zlen l' - zlen (fl pg)) with (free_objs c + (zlen l' - zlen (fl pg))) in Hc1 by lia.
    destruct (cache_set_lookup _ _ _ _ _ _ Hc Hc1) as (c0 & Hc0 & E1 & E2 & E3 & E4 & E5).
    destruct (wf_cache _ _ _ _ Hwf cid c0 Hc0) as (Hok & Hsl0 & Hd0 & Hin0 & Ht0 & Hf0).
    pose proof (slab_set_lookup (slabs k) pg s (mk_slab (zlen l') (s_next s) (s_cache s) a')) as Hset.
    split_and!; [unfold cache_ok in *; by rewrite E1, E2| |done| |congruence|].
    + rewrite E3. eapply lchain_ext; [|exact Hsl0]. intros x sx _ Hsx.
      destruct (Hset x sx Hs eq_refl eq_refl Hsx) as (sx' & ? & ? & _). by exists sx'.
    + intros x Hx. destruct (Hin0 x Hx) as (sx & Hsx & <-).
      destruct (Hset x sx Hs eq_refl eq_refl Hsx) as (sx' & ? & _ & ?). by exists sx'.
    + rewrite sum_upd by done. rewrite E5, Hf0. f_equal.
      destruct (decide (cid = s_cache s)) as [->|Hne]; [by rewrite decide_True|].
      rewrite decide_False; [done|]. intros Hx. destruct (Hin0 pg Hx) as (sx & Hsx & Hcx). congruence.
Qed.

Lemma slab_pop_wf pg s c o rest : slabs k !! pg = Some s -> caches k !! s_cache s = Some c ->
  fl pg = o :: rest ->
  exists k', slab_pop k (s_cache s) pg = (o, k') /\ kmem_wf k' pl (upd_fl fl pg rest) sl
    /\ slabs k' = <[pg := mk_slab (zlen rest) (s_next s) (s_cache s) (load (mem (pm k)) o)]> (slabs k)
    /\ caches k' = <[s_cache s := c <| free_objs := free_objs c - 1 |>]> (caches k).
Proof.
  intros Hs Hc Hfl.
  destruct (wf_slab _ _ _ _ Hwf pg s Hs) as (_ & _ & _ & Hch & Hd & Hn & c' & Hc' & Ho).
  rewrite Hc in Hc'. injection Hc' as <-. rewrite Hfl in *. destruct Hch as (Hf & Hnz & Hch).
  apply NoDup_cons in Hd as [_ Hd]. rewrite zlen_cons in Hn.
  pose proof (wf_set_slab pg s c (mem (pm k)) (load (mem (pm k)) o) rest Hs Hc Hd
    ltac:(intros; apply Ho; set_solver) Hch ltac:(done)) as Hw.
  unfold slab_pop. rewrite Hs, Hc, Hf. eexists. split; [done|].
  rewrite Hfl, zlen_cons in Hw.
  replace (free_objs c + zlen rest - (1 + zlen rest)) with (free_objs c - 1) in Hw by lia.
  replace (s_free_count s - 1) with (zlen rest) by lia.
  destruct k as [[m a n] sm cm]. cbn in *. done.
Qed.

Lemma slab_free_wf pg s c p : slabs k !! pg = Some s -> caches k !! s_cache s = Some c ->
  is_obj c pg p -> p ∉ fl pg ->
  kmem_wf (slab_free k pg s p) pl (upd_fl fl pg (p :: fl pg)) sl
  /\ slabs (slab_free k pg s p) = <[pg := mk_slab (1 + zlen (fl pg)) (s_next s) (s_cache s) p]> (slabs k)
  /\ caches (slab_free k pg s p) = <[s_cache s := c <| free_objs := free_objs c + 1 |>]> (caches k).
Proof.
  intros Hs Hc Hp Hni.
  destruct (wf_slab _ _ _ _ Hwf pg s Hs) as (Hpg & _ & _ & Hch & Hd & Hn & c' & Hc' & Ho).
  rewrite Hc in Hc'. injection Hc' as <-.
  destruct (wf_cache _ _ _ _ Hwf (s_cache s) c Hc) as (Hok & _).
  destruct (is_obj_page c pg p Hok Hpg Hp) as (Hpage & Hlt & _).
  pose proof (wf_set_slab pg s c (<[p := s_freelist s]> (mem (pm k))) p (p :: fl pg) Hs Hc) as Hw.
  rewrite zlen_cons in Hw.
  replace (free_objs c + (1 + zlen (fl pg)) - zlen (fl pg)) with (free_objs c + 1) in Hw by lia.
  unfold slab_free. cbn [s_cache update s_freelist s_free_count]. rewrite Hc, Hn.
  replace (zlen (fl pg) + 1) with (1 + zlen (fl pg)) by lia.
  split; [|done]. destruct k as [[m a n] sm cm]. cbn in *. apply Hw.
  - by constructor.
  - intros o [->|Hin]%elem_of_cons; [done|by apply Ho].
  - split_and!; [done|destruct Hpg; lia|]. rewrite load_insert_eq.
    eapply chain_ext; [|exact Hch]. intros x Hx. apply load_insert_ne. set_solver.
  - intros x Hx. apply load_insert_ne. congruence.
Qed.

End Wf.

(** ** Growing a cache *)

Definition objs (n : nat) (base size : Z) : list Z :=
  map (fun i => base + Z.of_nat i * size) (seq 0 n).

Lemma objs_S n base size : objs (S n) base size = objs n base size ++ [base + Z.of_nat n * size].
Proof. unfold objs. by rewrite seq_S, map_app. Qed.

Lemma elem_of_objs n base size o :
  o ∈ objs n base size <-> exists i, (i < n)%nat /\ o = base + Z.of_nat i * size.
Proof.
  unfold objs. rewrite list_elem_of_fmap. split.
  - intros (i & -> & Hi%elem_of_seq). exists i. split; [lia|done].
  - intros (i & Hi & ->). exists i. split; [done|]. apply elem_of_seq. lia.
Qed.

Lemma objs_NoDup n base size : 0 < size -> NoDup (objs n base size).
Proof.
  intros Hs. unfold objs. apply NoDup_fmap_2_strong; [|apply NoDup_seq].
  intros i j _ _ H. nia.
Qed.

Lemma carve_chain n base size : 0 < base -> 0 < size -> forall m a l, chain m a l ->
  (forall o, o ∈ objs n base size -> o ∉ l) ->
  let '(m', a') := carve n base size m a in
  chain m' a' (objs n base size ++ l)
  /\ forall x, x ∉ objs n base size -> load m' x = load m x.
Proof.
  intros Hb Hs. induction n as [|n IH]; intros m a l Hc Hd; cbn [carve]; [done|].
  set (o := base + Z.of_nat n * size). rewrite objs_S in *. fold o in Hd |- *.
  specialize (IH (<[o := a]> m) o (o :: l)).
  destruct (carve n base size (<[o := a]> m) o) as [m' a'].
  destruct IH as [IHc IHm].
  - split_and!; [done|subst o; nia|]. rewrite load_insert_eq.
    eapply chain_ext; [|exact Hc]. intros x Hx. apply load_insert_ne. intros ->.
    apply (Hd x); [apply elem_of_app; right; by apply list_elem_of_singleton|done].
  - intros o' Ho'. apply not_elem_of_cons.
    split; [|apply Hd, elem_of_app; by left]. apply elem_of_objs in Ho' as (i & Hi & ->). subst o. nia.
  - rewrite <- app_assoc. split; [done|]. intros x Hx. rewrite IHm by set_solver.
    apply load_insert_ne. set_solver.
Qed.

Section Grow.
Variables (k : kmem) (pl : list Z) (fl sl : Z -> list Z) (cid : Z) (c : kmem_cache) (pg : Z).
Hypotheses (Hwf : kmem_wf k (pg :: pl) fl sl) (Hc : caches k !! cid = Some c).

#[local] Notation new_objs := (objs (Z.to_nat (objs_per_slab c)) (pg + slab_header_size) (obj_size c)).

Lemma grow_page : page pg /\ pg ∉ pl /\ slabs k !! pg = None.
Proof.
  destruct (wf_pmm _ _ _ _ Hwf) as (_ & Hd & Hp & _). apply NoDup_cons in Hd as [Hni _].
  apply Forall_inv in Hp. split_and!; [done|done|].
  destruct (slabs k !! pg) as [s|] eqn:E; [|done].
  destruct (wf_slab _ _ _ _ Hwf pg s E) as (_ & Hn & _). set_solver.
Qed.

Lemma new_objs_in o : o ∈ new_objs <-> is_obj c pg o.
Proof.
  rewrite elem_of_objs. destruct (wf_cache _ _ _ _ Hwf cid c Hc) as ((_ & _ & Hn & _) & _).
  split.
  - intros (i & Hi & ->). exists (Z.of_nat i). split; [lia|done].
  - intros (i & Hi & ->). exists (Z.to_nat i). split; [lia|]. f_equal. f_equal. lia.
Qed.

Lemma new_objs_page o : o ∈ new_objs -> slab_of o = pg.
Proof.
  intros Ho%new_objs_in. destruct grow_page as (Hp & _).
  destruct (wf_cache _ _ _ _ Hwf cid c Hc) as (Hok & _).
  by destruct (is_obj_page c pg o Hok Hp Ho).
Qed.

(** A slab page is in the list of its own cache only. *)
Lemma grow_not_in cid' c' : caches k !! cid' = Some c' -> pg ∉ sl cid'.
Proof.
  intros Hc' Hin. destruct (wf_cache _ _ _ _ Hwf cid' c' Hc') as (_ & _ & _ & Hs & _).
  destruct (Hs pg Hin) as (s & Hs' & _). destruct grow_page as (_ & _ & Hn). congruence.
Qed.

Definition sl' : Z -> list Z := fun x => if decide (x = cid) then pg :: sl cid else sl x.

Lemma grow_state m' a' p : pmm_repr p pl ->
  (forall x, slab_of x <> pg -> load (mem p) x = load (mem (pm k)) x) ->
  chain m' a' new_objs -> (forall x, x ∉ new_objs -> load m' x = load (mem p) x) ->
  let c' := c <| c_slabs := pg |> <| total_objs := total_objs c + objs_per_slab c |>
              <| free_objs := free_objs c + objs_per_slab c |> in
  kmem_wf (mk_kmem (p <| mem := m' |>)
             (<[pg := mk_slab (objs_per_slab c) (c_slabs c) cid a']> (slabs k))
             (<[cid := c']> (caches k)) (registered k)) pl (upd_fl fl pg new_objs) sl'.
Proof.
  intros Hpr Hmem Hch Hm c'. destruct grow_page as (Hp & Hni & Hnone).
  destruct (wf_cache _ _ _ _ Hwf cid c Hc) as (Hok & Hsl0 & Hd0 & Hin0 & Ht0 & Hf0).
  assert (Hlen : zlen new_objs = objs_per_slab c).
  { unfold zlen, objs. rewrite length_map, length_seq. destruct Hok as (_ & _ & ? & _). lia. }
  assert (Hother : forall x, slab_of x <> pg -> load m' x = load (mem (pm k)) x).
  { intros x Hx. rewrite Hm by (intros Hin; by apply Hx, new_objs_page). by apply Hmem. }
  assert (Hext : forall l a, pg ∉ l -> slist (slabs k) a l ->
    slist (<[pg := mk_slab (objs_per_slab c) (c_slabs c) cid a']> (slabs k)) a l).
  { intros l a Hl. apply lchain_ext. intros x sx Hx Hsx. exists sx. split; [|done].
    rewrite lookup_insert_ne by (intros ->; done). done. }
  constructor; cbn [pm slabs caches].
  - destruct Hpr as (Hc1 & Hd1 & Hp1 & Hk1 & Hl1). split_and!; cbn; try done.
    eapply chain_ext; [|exact Hc1]. intros x Hx.
    assert (Hxp : slab_of x <> pg)
      by (rewrite page_slab_of by (by apply (proj1 (Forall_forall _ _) Hp1)); by intros ->).
    rewrite Hother by done. symmetry. by apply Hmem.
  - intros pg1 s1 Hs1. destruct (decide (pg1 = pg)) as [->|Hne].
    + rewrite lookup_insert_eq in Hs1. injection Hs1 as <-. cbn [s_cache s_freelist s_free_count].
      rewrite upd_fl_eq. unfold sl'. rewrite decide_True by done.
      split_and!; try done; [apply elem_of_cons; by left|apply objs_NoDup; destruct Hok; lia|].
      exists c'. rewrite lookup_insert_eq. split; [done|]. intros o Ho%new_objs_in. exact Ho.
    + rewrite lookup_insert_ne in Hs1 by done. rewrite upd_fl_ne by done.
      destruct (wf_slab _ _ _ _ Hwf pg1 s1 Hs1) as (Hp1 & Hpl1 & Hsl1 & Hch1 & Hd1 & Hc1 & c1 & Hcc1 & Ho1).
      apply not_elem_of_cons in Hpl1 as [_ Hpl1]. split_and!; try done;
        [unfold sl'; case_decide; [apply elem_of_cons; right; congruence|done]| |].
      * eapply chain_ext; [|exact Hch1]. intros x Hx. apply Hother.
        by rewrite (free_obj_page _ _ _ _ Hwf pg1 s1 x Hs1 Hx).
      * destruct (decide (s_cache s1 = cid)) as [He|Hne2].
        -- rewrite He in *. rewrite lookup_insert_eq. exists c'. split; [done|].
           rewrite Hc in Hcc1. by injection Hcc1 as <-.
        -- rewrite lookup_insert_ne by done. by exists c1.
  - intros cid1 c1 Hc1. unfold sl'. destruct (decide (cid1 = cid)) as [->|Hne].
    + rewrite lookup_insert_eq in Hc1. injection Hc1 as <-. pose proof (grow_not_in cid c Hc) as Hn.
      split_and!; [done| | | | |].
      * split_and!; [done|destruct Hp; lia|]. eexists. rewrite lookup_insert_eq. split; [done|].
        by apply Hext.
      * by constructor.
      * intros x [->|Hx]%elem_of_cons; [eexists; by rewrite lookup_insert_eq|].
        destruct (Hin0 x Hx) as (s & Hs & Hcs). exists s. rewrite lookup_insert_ne by (intros ->; done). done.
      * cbn. rewrite Ht0, zlen_cons. lia.
      * cbn [foldr]. rewrite upd_fl_eq, sum_upd, decide_False, Hlen by done. cbn. lia.
    + rewrite lookup_insert_ne in Hc1 by done. pose proof (grow_not_in cid1 c1 Hc1) as Hn.
      destruct (wf_cache _ _ _ _ Hwf cid1 c1 Hc1) as (Hok1 & Hsl1 & Hd1 & Hin1 & Ht1 & Hf1).
      split_and!; try done; [by apply Hext| |].
      * intros x Hx. destruct (Hin1 x Hx) as (s & Hs & Hcs). exists s.
        rewrite lookup_insert_ne by (intros ->; done). done.
      * rewrite sum_upd, decide_False by done. lia.
Qed.

(** Growing succeeds when a page is free, and adds only free objects. *)
Lemma grow_cache_wf : exists k' c', grow_cache k cid c = (pg, k', c')
  /\ kmem_wf k' pl (upd_fl fl pg new_objs) sl'
  /\ caches k' !! cid = Some c' /\ obj_size c' = obj_size c /\ objs_per_slab c' = objs_per_slab c
  /\ (exists s, slabs k' !! pg = Some s /\ s_cache s = cid)
  /\ (forall x, x <> pg -> slabs k' !! x = slabs k !! x)
  /\ (forall x, x <> cid -> caches k' !! x = caches k !! x).
Proof.
  destruct grow_page as (Hp & _ & _).
  destruct (pmm_alloc_pop (pm k) pg pl (wf_pmm _ _ _ _ Hwf)) as (p & Hal & Hpr & Hmem).
  destruct (wf_cache _ _ _ _ Hwf cid c Hc) as ((Hos & _) & _).
  unfold grow_cache. rewrite Hal.
  assert ((pg =? 0) = false) as -> by (apply Z.eqb_neq; destruct Hp; lia).
  pose proof (carve_chain (Z.to_nat (objs_per_slab c)) (pg + slab_header_size) (obj_size c)
    ltac:(change slab_header_size with 32; destruct Hp; lia) ltac:(lia) (mem p) 0 [] eq_refl
    ltac:(intros ? _; apply not_elem_of_nil)) as Hcv.
  destruct (carve _ _ _ _ _) as [m' a']. rewrite app_nil_r in Hcv. destruct Hcv as [Hch Hm].
  eexists _, _. split; [done|]. split_and!.
  - apply grow_state; [exact Hpr| |exact Hch|exact Hm]. intros x Hx. rewrite Hmem. by apply zero_page_other.
  - apply lookup_insert_eq.
  - done.
  - done.
  - eexists. split; [apply lookup_insert_eq|done].
  - intros. by apply lookup_insert_ne.
  - intros. by apply lookup_insert_ne.
Qed.

End Grow.

(** ** Objects *)

(** Two states with the same slabs, by cache and object geometry. *)
Definition same_shape (k k' : kmem) : Prop :=
  (forall pg, s_cache <$> (slabs k' !! pg) = s_cache <$> (slabs k !! pg))
  /\ forall cid, (fun c => (obj_size c, objs_per_slab c)) <$> (caches k' !! cid)
              = (fun c => (obj_size c, objs_per_slab c)) <$> (caches k !! cid).

Lemma same_shape_sym k k' : same_shape k k' -> same_shape k' k.
Proof. intros [H1 H2]. split; intros; by rewrite ?H1, ?H2. Qed.

Lemma obj_at_shape_1 k k' pg o : same_shape k k' -> obj_at k pg o -> obj_at k' pg o.
Proof.
  intros [H1 H2] (s & c & Hs & Hc & i & Hi & Ho).
  specialize (H1 pg). rewrite Hs in H1. destruct (slabs k' !! pg) as [s'|] eqn:Hs'; [|done].
  injection H1 as H1. specialize (H2 (s_cache s)). rewrite Hc in H2.
  destruct (caches k' !! s_cache s) as [c'|] eqn:Hc'; [|done]. injection H2 as H2 H3.
  exists s', c'. rewrite H1. split_and!; [done|done|]. exists i. by rewrite H2, H3.
Qed.

Lemma obj_at_shape k k' pg o : same_shape k k' -> obj_at k' pg o <-> obj_at k pg o.
Proof. intros H. split; apply obj_at_shape_1; [by apply same_shape_sym|done]. Qed.

Lemma size_at_shape k k' o : same_shape k k' -> size_at k' o = size_at k o.
Proof.
  intros [H1 H2]. unfold size_at. specialize (H1 (slab_of o)).
  destruct (slabs k !! slab_of o) as [s|], (slabs k' !! slab_of o) as [s'|]; try done.
  injection H1 as H1. rewrite H1. specialize (H2 (s_cache s)).
  destruct (caches k !! s_cache s), (caches k' !! s_cache s); try done. by injection H2.
Qed.

Lemma owner_shape k k' o : same_shape k k' -> owner k' o = owner k o.
Proof.
  intros [H1 _]. unfold owner. specialize (H1 (slab_of o)).
  destruct (slabs k !! slab_of o) as [s|], (slabs k' !! slab_of o) as [s'|]; try done. by injection H1.
Qed.

Lemma obj_size_shape k k' x : same_shape k k' ->
  obj_size <$> (caches k' !! x) = obj_size <$> (caches k !! x).
Proof.
  intros [_ H2]. specialize (H2 x).
  destruct (caches k !! x), (caches k' !! x); try done. injection H2 as H2 _. cbn. by rewrite H2.
Qed.

(** Replacing one slab record and one cache record keeps the shape. *)
Lemma same_shape_set k k' pg s s' c c' : slabs k !! pg = Some s -> caches k !! s_cache s = Some c ->
  slabs k' = <[pg := s']> (slabs k) -> caches k' = <[s_cache s := c']> (caches k) ->
  s_cache s' = s_cache s -> obj_size c' = obj_size c -> objs_per_slab c' = objs_per_slab c ->
  same_shape k k'.
Proof.
  intros Hs Hc Es Ec E1 E2 E3. split; intros x.
  - rewrite Es. destruct (decide (x = pg)) as [->|].
    + rewrite lookup_insert_eq, Hs. cbn. by rewrite E1.
    + by rewrite lookup_insert_ne.
  - rewrite Ec. destruct (decide (x = s_cache s)) as [->|].
    + rewrite lookup_insert_eq, Hc. cbn. by rewrite E2, E3.
    + by rewrite lookup_insert_ne.
Qed.

Section Objects.
Variables (k : kmem) (pl : list Z) (fl sl : Z -> list Z).
Hypothesis Hwf : kmem_wf k pl fl sl.

Lemma obj_at_page pg o : obj_at k pg o ->
  slab_of o = pg /\ page pg /\ pg < o /\ 8 <= size_at k o /\ o + size_at k o <= pg + PAGE_SIZE
  /\ o mod 8 = 0.
Proof.
  intros (s & c & Hs & Hc & Ho).
  destruct (wf_slab _ _ _ _ Hwf pg s Hs) as (Hp & _).
  destruct (wf_cache _ _ _ _ Hwf _ c Hc) as (Hok & _).
  destruct (is_obj_page c pg o Hok Hp Ho) as (Hpg & Hlt & Hle).
  unfold size_at. rewrite Hpg, Hs, Hc. destruct Hok as (H8 & Hm & _ & _).
  split_and!; try done. destruct Ho as (i & _ & ->). destruct Hp as [_ Hp].
  change slab_header_size with 32. unfold PAGE_SIZE in Hp. apply Z.mod_divide in Hm as [z Hz]; [|done].
  apply Z.mod_divide in Hp as [y Hy]; [|done]. rewrite Hz, Hy.
  replace (y * 4096 + 32 + i * (z * 8)) with ((y * 512 + 4 + i * z) * 8) by lia. apply Z_mod_mult.
Qed.

(** Distinct objects do not overlap. *)
Lemma obj_disjoint pg1 o1 pg2 o2 : obj_at k pg1 o1 -> obj_at k pg2 o2 -> o1 <> o2 ->
  o1 + size_at k o1 <= o2 \/ o2 + size_at k o2 <= o1.
Proof.
  intros H1 H2 Hne.
  destruct (obj_at_page _ _ H1) as (E1 & [P1 M1] & L1 & _ & B1 & _).
  destruct (obj_at_page _ _ H2) as (E2 & [P2 M2] & L2 & _ & B2 & _).
  destruct (decide (pg1 = pg2)) as [->|Hpg].
  - destruct H1 as (s & c & Hs & Hc & i & Hi & ->), H2 as (s2 & c2 & Hs2 & Hc2 & j & Hj & ->).
    rewrite Hs in Hs2. injection Hs2 as <-. rewrite Hc in Hc2. injection Hc2 as <-.
    unfold size_at. rewrite E1, E2, Hs, Hc.
    destruct (wf_cache _ _ _ _ Hwf _ c Hc) as ((H8 & _) & _).
    assert (i < j \/ j < i) as [|] by nia; [left|right]; nia.
  - unfold PAGE_SIZE in *. apply Z.mod_divide in M1 as [a ->]; [|done].
    apply Z.mod_divide in M2 as [b ->]; [|done]. lia.
Qed.

Lemma live_iff_at A : (forall o, A o <-> live_obj k fl o) ->
  forall o, A o -> exists pg, obj_at k pg o.
Proof. intros H o Ho%H. destruct Ho as (pg & Ho & _). by exists pg. Qed.

(** Taking the first free object of a slab makes exactly it live. *)
Lemma pop_live k' pg o rest : same_shape k k' -> obj_at k pg o -> fl pg = o :: rest -> NoDup (o :: rest) ->
  ~ live_obj k fl o
  /\ forall x, live_obj k' (upd_fl fl pg rest) x <-> live_obj k fl x \/ x = o.
Proof.
  intros Hsh Ho Hfl [Hno _]%NoDup_cons.
  assert (Hat : forall q, obj_at k q o -> q = pg).
  { intros q Hq. destruct (obj_at_page _ _ Hq) as (<- & _). by destruct (obj_at_page _ _ Ho). }
  split.
  { intros (q & Hq & Hni). rewrite (Hat q Hq), Hfl in Hni. set_solver. }
  intros x. split.
  - intros (q & Hq & Hni). rewrite obj_at_shape in Hq by done.
    destruct (decide (q = pg)) as [->|Hne].
    + rewrite upd_fl_eq in Hni. destruct (decide (x = o)) as [->|]; [by right|]. left.
      exists pg. rewrite Hfl. set_solver.
    + rewrite upd_fl_ne in Hni by done. left. by exists q.
  - intros [(q & Hq & Hni)| ->].
    + exists q. rewrite obj_at_shape by done. split; [done|].
      destruct (decide (q = pg)) as [->|Hne]; [|by rewrite upd_fl_ne].
      rewrite upd_fl_eq. rewrite Hfl in Hni. by apply not_elem_of_cons in Hni as [_ Hni].
    + exists pg. rewrite obj_at_shape, upd_fl_eq by done. done.
Qed.

Lemma push_live k' pg o : same_shape k k' -> obj_at k pg o ->
  forall x, live_obj k' (upd_fl fl pg (o :: fl pg)) x <-> live_obj k fl x /\ x <> o.
Proof.
  intros Hsh Ho x. destruct (obj_at_page _ _ Ho) as (Epg & _). split.
  - intros (q & Hq & Hni). rewrite obj_at_shape in Hq by done.
    destruct (decide (q = pg)) as [->|Hne].
    + rewrite upd_fl_eq in Hni. apply not_elem_of_cons in Hni as [Hne Hni].
      split; [by exists pg|done].
    + rewrite upd_fl_ne in Hni by done. split; [by exists q|]. intros ->.
      destruct (obj_at_page _ _ Hq) as (<- & _). done.
  - intros [(q & Hq & Hni) Hx]. exists q. rewrite obj_at_shape by done. split; [done|].
    destruct (decide (q = pg)) as [->|Hne]; [|by rewrite upd_fl_ne].
    rewrite upd_fl_eq. by apply not_elem_of_cons.
Qed.

End Objects.

(** ** Allocation and release *)

(** [p] is a new block of cache [c]: aligned, inside one page, apart from every
    block in use, and in use afterwards; the blocks in use keep their sizes. *)
Definition fresh_block (k : kmem) (A : Z -> Prop) (c : kmem_cache) (p : Z) (k' : kmem) : Prop :=
  p <> 0 /\ ~ A p /\ p mod 8 = 0 /\ size_at k' p = obj_size c
  /\ slab_of p + slab_header_size <= p /\ p + obj_size c <= slab_of p + PAGE_SIZE
  /\ kmem_inv k' (fun o => A o \/ o = p)
  /\ forall o, A o -> size_at k' o = size_at k o
                /\ (o + size_at k o <= p \/ p + obj_size c <= o).

(** The new block belongs to cache [cid]; the caches keep their object sizes and
    the blocks in use their caches. *)
Definition fresh_owner (k : kmem) (A : Z -> Prop) (cid p : Z) (k' : kmem) : Prop :=
  owner k' p = cid /\ (forall o, A o -> owner k' o = owner k o)
  /\ forall x, obj_size <$> (caches k' !! x) = obj_size <$> (caches k !! x).

(** Popping an object of a slab with free objects. *)
Lemma pop_fresh k pl fl sl A pg s c : kmem_wf k pl fl sl -> (forall o, A o <-> live_obj k fl o) ->
  slabs k !! pg = Some s -> caches k !! s_cache s = Some c -> fl pg <> [] ->
  exists p k', slab_pop k (s_cache s) pg = (p, k') /\ fresh_block k A c p k'
    /\ fresh_owner k A (s_cache s) p k'.
Proof.
  intros Hwf HA Hs Hc Hfl. destruct (fl pg) as [|o rest] eqn:Efl; [done|].
  destruct (wf_slab _ _ _ _ Hwf pg s Hs) as (Hp & _ & _ & _ & Hd & _ & c0 & Hc0 & Ho).
  rewrite Hc in Hc0. injection Hc0 as <-. rewrite Efl in Hd, Ho.
  destruct (slab_pop_wf _ _ _ _ Hwf pg s c o rest Hs Hc Efl) as (k' & Hpop & Hwf' & Es & Ec).
  assert (Hsh : same_shape k k') by by eapply same_shape_set.
  assert (Hio : is_obj c pg o) by (apply Ho, elem_of_cons; by left).
  assert (Hat : obj_at k pg o) by by exists s, c.
  destruct (pop_live _ _ _ _ Hwf k' pg o rest Hsh Hat Efl Hd) as [Hnl Hl].
  destruct (obj_at_page _ _ _ _ Hwf _ _ Hat) as (Epg & [Hpos _] & Hlt & _ & Hle & Hmod).
  assert (Hsz : size_at k o = obj_size c) by (unfold size_at; by rewrite Epg, Hs, Hc).
  exists o, k'. split; [done|]. split; cycle 1.
  { split_and!; [|intros; by apply owner_shape|intros; by apply obj_size_shape].
    rewrite (owner_shape k) by done. unfold owner. by rewrite Epg, Hs. }
  rewrite Hsz in Hle. unfold fresh_block. rewrite Epg.
  split_and!; [lia|by rewrite HA|done|by rewrite (size_at_shape k)| |done| |].
  - destruct Hio as (i & Hi & ->). destruct (wf_cache _ _ _ _ Hwf _ c Hc) as ((? & _) & _). nia.
  - exists pl, (upd_fl fl pg rest), sl. split; [done|]. intros x. by rewrite HA, Hl.
  - intros x Hx. split; [by apply size_at_shape|].
    destruct (live_iff_at _ _ A HA x Hx) as (q & Hq).
    rewrite <- Hsz. eapply obj_disjoint; [done..|]. intros ->. by apply Hnl, HA.
Qed.

(** The grown cache's objects are all free: nothing else changes hands. *)
Lemma grow_live k fl k' cid c c' pg l : slabs k !! pg = None ->
  caches k !! cid = Some c -> caches k' !! cid = Some c' ->
  obj_size c' = obj_size c -> objs_per_slab c' = objs_per_slab c ->
  (exists s, slabs k' !! pg = Some s /\ s_cache s = cid) ->
  (forall x, x <> pg -> slabs k' !! x = slabs k !! x) ->
  (forall x, x <> cid -> caches k' !! x = caches k !! x) ->
  (forall o, is_obj c pg o -> o ∈ l) ->
  (forall o, live_obj k' (upd_fl fl pg l) o <-> live_obj k fl o)
  /\ (forall o, slab_of o <> pg -> size_at k' o = size_at k o /\ owner k' o = owner k o)
  /\ forall x, obj_size <$> (caches k' !! x) = obj_size <$> (caches k !! x).
Proof.
  intros Hnone Hc Hc' E1 E2 (s & Hs & Hcs) Hsl Hca Hl.
  set (k0 := mk_kmem (pm k) (slabs k) (caches k') (registered k)).
  assert (Hsh : same_shape k k0).
  { split; intros x; cbn; [done|]. destruct (decide (x = cid)) as [->|]; [|by rewrite Hca].
    rewrite Hc, Hc'. cbn. by rewrite E1, E2. }
  assert (Hat : forall q o, q <> pg -> obj_at k' q o <-> obj_at k q o).
  { intros q o Hq. rewrite <- (obj_at_shape k k0) by done. unfold obj_at. cbn. by rewrite Hsl. }
  split_and!; [| |intros x; by apply (obj_size_shape k k0)].
  - intros o. split; intros (q & Hq & Hni); exists q.
    + destruct (decide (q = pg)) as [->|Hne].
      * rewrite upd_fl_eq in Hni. destruct Hni. apply Hl.
        destruct Hq as (s1 & c1 & Hs1 & Hc1 & i & Hi & Ho). rewrite Hs in Hs1. injection Hs1 as <-.
        rewrite Hcs, Hc' in Hc1. injection Hc1 as <-. exists i. by rewrite <- E1, <- E2.
      * rewrite upd_fl_ne in Hni by done. by rewrite <- Hat.
    + assert (q <> pg) by (intros ->; destruct Hq as (? & ? & ? & _); congruence).
      by rewrite upd_fl_ne, Hat.
  - intros o Ho. rewrite <- (size_at_shape k k0) by done. unfold size_at, owner. cbn. by rewrite Hsl.
Qed.

Lemma grow_fresh k pl fl sl A pg cid c : kmem_wf k (pg :: pl) fl sl ->
  (forall o, A o <-> live_obj k fl o) -> caches k !! cid = Some c ->
  exists p k1 c1 k', grow_cache k cid c = (pg, k1, c1) /\ slab_pop k1 cid pg = (p, k')
  /\ fresh_block k A c p k' /\ fresh_owner k A cid p k'.
Proof.
  intros Hwf HA Hc. destruct (grow_page _ _ _ _ _ _ _ Hwf Hc) as (Hp & _ & Hnone).
  destruct (grow_cache_wf _ _ _ _ _ _ _ Hwf Hc)
    as (k1 & c1 & Hg & Hwf1 & Hc1 & E1 & E2 & (s & Hs & Hcs) & Hsl & Hca).
  destruct (grow_live k fl k1 cid c c1 pg _ Hnone Hc Hc1 E1 E2 (ex_intro _ s (conj Hs Hcs)) Hsl Hca
    (fun o => proj2 (new_objs_in _ _ _ _ _ _ _ Hwf Hc o))) as (Hlive & Hsize & Hos).
  destruct (pop_fresh k1 pl _ _ A pg s c1 Hwf1 ltac:(intros; by rewrite HA, Hlive) Hs
    ltac:(by rewrite Hcs)) as (p & k' & Hpop & Hf & Hfo).
  { rewrite upd_fl_eq. destruct (wf_cache _ _ _ _ Hwf _ c Hc) as ((_ & _ & Hn & _) & _).
    intros He. apply (f_equal length) in He. unfold objs in He.
    rewrite length_map, length_seq in He. cbn in He. lia. }
  assert (Hpg : forall o, A o -> slab_of o <> pg).
  { intros o Ho. apply HA in Ho as (q & Hq & _). destruct (obj_at_page _ _ _ _ Hwf _ _ Hq) as (-> & _).
    intros ->. destruct Hq as (? & ? & ? & _). congruence. }
  exists p, k1, c1, k'. rewrite Hcs in Hpop, Hfo. split_and!; [done|done| |].
  - unfold fresh_block in *. rewrite E1 in Hf.
    destruct Hf as (H1 & H2 & H3 & H4 & H5 & H6 & H7 & H8). split_and!; try done.
    intros o Ho. destruct (Hsize o (Hpg o Ho)) as [<- _]. by apply H8.
  - destruct Hfo as (H1 & H2 & H3). split_and!; [done| |].
    + intros o Ho. destruct (Hsize o (Hpg o Ho)) as [_ <-]. by apply H2.
    + intros x. by rewrite H3.
Qed.

Lemma free_objs_zero (fl : Z -> list Z) l : Forall (fun pg => fl pg = []) l ->
  foldr (fun pg n => zlen (fl pg) + n) 0 l = 0.
Proof. induction 1 as [|pg l He _ IH]; cbn; [done|]. by rewrite He, IH. Qed.

Lemma kmem_cache_alloc_cases k A cid c : kmem_inv k A -> caches k !! cid = Some c ->
  (kmem_cache_alloc k cid = (0, k) /\ free_objs c = 0 /\ freelist (pm k) = 0)
  \/ exists p k', kmem_cache_alloc k cid = (p, k') /\ fresh_block k A c p k'
       /\ fresh_owner k A cid p k'.
Proof.
  intros (pl & fl & sl & Hwf & HA) Hc. unfold kmem_cache_alloc. rewrite Hc.
  destruct (wf_cache _ _ _ _ Hwf cid c Hc) as (_ & Hsl & _ & Hin & _ & Hfree).
  pose proof (sl_length _ _ _ _ Hwf cid c Hc) as Hlen.
  destruct (find_slab_first _ _ _ _ Hwf (sl cid) (c_slabs c) (S (size (slabs k))) Hsl ltac:(lia))
    as [[-> Hnone]|[Hfin Hne]].
  - rewrite Z.eqb_refl. destruct pl as [|pg pl].
    + left. destruct (wf_pmm _ _ _ _ Hwf) as (Hch & _). cbn in Hch.
      unfold grow_cache, pmm_alloc. rewrite Hch, Z.eqb_refl. rewrite Hfree, free_objs_zero; done.
    + right. destruct (grow_fresh _ _ _ _ A pg cid c Hwf HA Hc) as (p & k1 & c1 & k' & -> & Hpop & Hf & Hfo).
      destruct (grow_page _ _ _ _ _ _ _ Hwf Hc) as ([Hp _] & _).
      assert ((pg =? 0) = false) as -> by (apply Z.eqb_neq; lia). by exists p, k'.
  - right. destruct (Hin _ Hfin) as (s & Hs & <-).
    destruct (wf_slab _ _ _ _ Hwf _ s Hs) as ([Hp _] & _).
    destruct (find_slab _ _ _ =? 0) eqn:E; [apply Z.eqb_eq in E; lia|].
    by apply (pop_fresh k pl fl sl A _ s c).
Qed.

(** C7: [kmem_cache_alloc] fails only when the cache has no free object and there
    is no free page, and then changes nothing.  Otherwise it returns a block that
    was not in use, 8-aligned, of the cache's size, inside one page behind the slab
    header, apart from every block in use; afterwards exactly that block is added
    to the blocks in use. *)
Theorem kmem_cache_alloc_spec (k : kmem) (A : Z -> Prop) (cid : Z) (c : kmem_cache) :
  kmem_inv k A -> caches k !! cid = Some c ->
  let '(p, k') := kmem_cache_alloc k cid in
  (p = 0 /\ k' = k /\ free_objs c = 0 /\ freelist (pm k) = 0)
  \/ (p <> 0 /\ ~ A p /\ p mod 8 = 0 /\ size_at k' p = obj_size c
      /\ slab_of p + slab_header_size <= p /\ p + obj_size c <= slab_of p + PAGE_SIZE
      /\ kmem_inv k' (fun o => A o \/ o = p)
      /\ forall o, A o -> size_at k' o = size_at k o
                    /\ (o + size_at k o <= p \/ p + obj_size c <= o)).
Proof.
  intros Hinv Hc. destruct (kmem_cache_alloc_cases k A cid c Hinv Hc) as [(-> & H)|(p & k' & -> & Hf & _)].
  - left. tauto.
  - right. exact Hf.
Qed.

(** A live block is an object of its slab, and not on the free list. *)
Lemma live_slab k pl fl sl p : kmem_wf k pl fl sl -> live_obj k fl p ->
  p <> 0 /\ p ∉ fl (slab_of p) /\ exists s c, slabs k !! slab_of p = Some s
  /\ caches k !! s_cache s = Some c /\ is_obj c (slab_of p) p.
Proof.
  intros Hwf (pg & Hat & Hni).
  destruct (obj_at_page _ _ _ _ Hwf _ _ Hat) as (-> & [Hp _] & Hlt & _).
  split_and!; [lia|done|]. destruct Hat as (s & c & Hs & Hc & Ho). by exists s, c.
Qed.

Lemma slab_free_inv k A p : kmem_inv k A -> A p ->
  p <> 0 /\ exists s, slabs k !! slab_of p = Some s
  /\ kmem_inv (slab_free k (slab_of p) s p) (fun o => A o /\ o <> p)
  /\ same_shape k (slab_free k (slab_of p) s p).
Proof.
  intros (pl & fl & sl & Hwf & HA) Hp. apply HA in Hp.
  destruct (live_slab _ _ _ _ p Hwf Hp) as (Hnz & Hni & s & c & Hs & Hc & Ho).
  destruct (slab_free_wf _ _ _ _ Hwf _ s c p Hs Hc Ho Hni) as (Hwf' & Es & Ec).
  assert (Hsh : same_shape k (slab_free k (slab_of p) s p)) by by eapply same_shape_set.
  split; [done|]. exists s. split_and!; [done| |done]. eexists pl, _, sl. split; [done|].
  intros x. rewrite HA. symmetry. eapply push_live; [done..|]. by exists s, c.
Qed.

(** Freeing a block in use takes exactly it out of use and keeps every size;
    through [kmem_cache_free] this happens only for the block's own cache, and the
    call is ignored for any other cache and for the null pointer. *)
Theorem kfree_spec (k : kmem) (A : Z -> Prop) (p : Z) :
  kmem_inv k A -> A p ->
  kmem_inv (kfree k p) (fun o => A o /\ o <> p)
  /\ (forall o, size_at (kfree k p) o = size_at k o)
  /\ kfree k 0 = k
  /\ exists own, forall cid, kmem_cache_free k cid p = if cid =? own then kfree k p else k.
Proof.
  intros Hinv Hp. destruct (slab_free_inv k A p Hinv Hp) as (Hnz & s & Hs & Hinv' & Hsh).
  apply Z.eqb_neq in Hnz. assert (kfree k p = slab_free k (slab_of p) s p) as ->.
  { unfold kfree. by rewrite Hnz, Hs. }
  split_and!; [done|intros; by apply size_at_shape|done|].
  exists (s_cache s). intros cid. unfold kmem_cache_free. rewrite Hnz, Hs, (Z.eqb_sym cid).
  by destruct (s_cache s =? cid).
Qed.

(** ** Caches *)

Lemma round8 n : 0 <= n < 4294967288 ->
  Z.land (n + OBJ_ALIGN - 1) (u32 (Z.lnot (OBJ_ALIGN - 1))) = n + 7 - (n + 7) mod 8.
Proof.
  intros Hn. unfold OBJ_ALIGN.
  change (u32 (Z.lnot (8 - 1))) with (Z.land (Z.ones 32) (Z.lnot (Z.ones 3))).
  rewrite Z.land_assoc, Z.land_ones, Z.mod_small by lia.
  rewrite <- Z.ldiff_land, Z.ldiff_ones_r, Z.shiftl_mul_pow2, Z.shiftr_div_pow2 by lia.
  change (2 ^ 3) with 8. replace (n + 8 - 1) with (n + 7) by lia.
  pose proof (Z.div_mod (n + 7) 8). lia.
Qed.

Lemma cache_init_cache k cid size : 0 <= size <= 4064 ->
  exists c, kmem_cache_init k cid size = k <| caches := <[cid := c]> (caches k) |>
                                           <| registered := kmem_register (registered k) cid |>
    /\ cache_ok c /\ size <= obj_size c < size + 16 /\ (8 <= size -> size mod 8 = 0 -> obj_size c = size)
    /\ c_slabs c = 0 /\ total_objs c = 0 /\ free_objs c = 0.
Proof.
  intros Hs. eexists. split; [done|].
  change slab_header_size with 32. unfold cache_ok, objs_per_slab_for, PAGE_SIZE. cbn.
  change slab_header_size with 32. rewrite round8 by (case_if; bool_prop; lia).
  set (s := (if size <? 8 then 8 else size)).
  assert (size <= s <= 4064 /\ 8 <= s < size + 9 /\ (8 <= size -> s = size)) as (H1 & H2 & H3)
    by (subst s; case_if; bool_prop; lia).
  set (r := s + 7 - (s + 7) mod 8).
  assert (r mod 8 = 0 /\ s <= r < s + 8 /\ (s mod 8 = 0 -> r = s)) as (H4 & H5 & H6)
    by (subst r; Z.div_mod_to_equations; lia).
  assert (r <= 4064) by (Z.div_mod_to_equations; lia).
  assert (0 < (4096 - 32) / r) by (apply Z.div_str_pos; lia).
  pose proof (Z.mul_div_le (4096 - 32) r ltac:(lia)).
  split_and!; try lia; try done.
  intros H8 Hm. rewrite H6; rewrite (H3 H8); done.
Qed.

Lemma kmem_cache_init_inv k A cid size : kmem_inv k A -> caches k !! cid = None -> 0 <= size <= 4064 ->
  kmem_inv (kmem_cache_init k cid size) A.
Proof.
  intros (pl & fl & sl & Hwf & HA) Hn Hs.
  destruct (cache_init_cache k cid size Hs) as (c & -> & Hok & _ & _ & E1 & E2 & E3).
  assert (Hcid : forall pg s, slabs k !! pg = Some s -> s_cache s <> cid).
  { intros pg s Hps He. destruct (wf_slab _ _ _ _ Hwf _ _ Hps) as (_ & _ & _ & _ & _ & _ & c0 & Hc0 & _).
    congruence. }
  exists pl, fl, (upd_fl sl cid []). split.
  - constructor; cbn [pm slabs caches]; [apply Hwf| |].
    + intros pg s Hps. pose proof (Hcid pg s Hps).
      destruct (wf_slab _ _ _ _ Hwf _ _ Hps) as (H1 & H2 & H3 & H4 & H5 & H6 & c0 & Hc0 & H7).
      rewrite upd_fl_ne by done. split_and!; try done. exists c0. cbn. by rewrite lookup_insert_ne.
    + intros x cx Hx. destruct (decide (x = cid)) as [->|].
      * cbn in Hx. rewrite lookup_insert_eq in Hx. injection Hx as <-. rewrite upd_fl_eq, E1, E2, E3.
        split_and!; [done|done|apply NoDup_nil_2|intros ? []%elem_of_nil|change (zlen []) with 0; lia|done].
      * cbn in Hx. rewrite lookup_insert_ne in Hx by done. rewrite upd_fl_ne by done.
        by apply (wf_cache _ _ _ _ Hwf).
  - intros o. rewrite HA. unfold live_obj, obj_at. cbn.
    split; intros (pg & (s & c0 & Hps & Hc0 & Ho) & Hni); exists pg; (split; [|done]); exists s, c0;
      pose proof (Hcid pg s Hps); rewrite lookup_insert_ne in * by congruence; done.
Qed.

(** Every size class has its cache. *)
Definition classes_ok (k : kmem) : Prop :=
  Forall (fun sz => exists c, caches k !! sz = Some c /\ obj_size c = sz) size_caches.

Lemma size_caches_range : Forall (fun sz => 8 <= sz <= 4064 /\ sz mod 8 = 0) size_caches.
Proof. repeat constructor; vm_compute; congruence. Qed.

Lemma init_fold l : NoDup l -> Forall (fun sz => 8 <= sz <= 4064 /\ sz mod 8 = 0) l ->
  forall k A, kmem_inv k A -> (forall sz, sz ∈ l -> caches k !! sz = None) ->
  let k' := foldl (fun k sz => kmem_cache_init k sz sz) k l in
  kmem_inv k' A /\ Forall (fun sz => exists c, caches k' !! sz = Some c /\ obj_size c = sz) l
  /\ forall x, x ∉ l -> caches k' !! x = caches k !! x.
Proof.
  intros Hd Hr. induction Hr as [|sz l [Hsz Hm] Hr IH]; intros k A Hinv Hn; cbn [foldl]; [done|].
  apply NoDup_cons in Hd as [Hni Hd].
  destruct (cache_init_cache k sz sz ltac:(lia)) as (c & Hk & _ & _ & Hs & _).
  assert (Hcaches : caches (kmem_cache_init k sz sz) = <[sz := c]> (caches k)) by by rewrite Hk.
  destruct (IH Hd (kmem_cache_init k sz sz) A) as (H1 & H2 & H3).
  - apply kmem_cache_init_inv; [done|apply Hn, elem_of_cons; by left|lia].
  - intros x Hx. rewrite Hcaches, lookup_insert_ne by (by intros ->).
    apply Hn, elem_of_cons. by right.
  - split_and!; [done| |].
    + constructor; [|done]. exists c. rewrite H3, Hcaches, lookup_insert_eq by done. auto with lia.
    + intros x [Hx Hx']%not_elem_of_cons. rewrite H3, Hcaches by done. by apply lookup_insert_ne.
Qed.

Lemma size_caches_NoDup : NoDup size_caches.
Proof. apply (bool_decide_eq_true_1 (NoDup size_caches)). vm_compute. reflexivity. Qed.

(** Boot: the initialised allocator has no block in use. *)
Lemma kmem_init_inv p pl : pmm_repr p pl ->
  kmem_inv (kmem_init (mk_kmem p ∅ ∅ [])) (fun _ => False)
  /\ classes_ok (kmem_init (mk_kmem p ∅ ∅ [])).
Proof.
  intros Hp. unfold kmem_init.
  destruct (init_fold size_caches size_caches_NoDup size_caches_range (mk_kmem p ∅ ∅ []) (fun _ => False))
    as (H1 & H2 & _); [| |done].
  - exists pl, (fun _ => []), (fun _ => []). split.
    + constructor; cbn; [done|by intros ? ? ?%lookup_empty_Some..].
    + intros o. split; [done|]. intros (? & (? & ? & Hs & _) & _). cbn in Hs. by apply lookup_empty_Some in Hs.
  - intros sz _. apply lookup_empty.
Qed.

(** The size class of a request. *)
Lemma size_class n : match List.find (fun sz => sz >=? n) size_caches with
  | Some sz => sz ∈ size_caches /\ n <= sz /\ forall x, x ∈ size_caches -> n <= x -> sz <= x
  | None => 2048 < n
  end.
Proof.
  unfold size_caches. cbn [List.find]. rewrite !Z.geb_leb.
  repeat case_if; bool_prop; try (split_and!; [set_solver|lia|]); try lia;
    intros x Hx Hn; rewrite !elem_of_cons, elem_of_nil in Hx; lia.
Qed.

Lemma classes_cache k sz : classes_ok k -> sz ∈ size_caches ->
  exists c, caches k !! sz = Some c /\ obj_size c = sz.
Proof. intros Hk Hsz. exact (proj1 (Forall_forall _ _) Hk sz Hsz). Qed.

(** [kmalloc] rejects zero and anything above 2048 bytes.  Any other request
    is served from the smallest size class that holds it: the block has at least
    the size asked for, is apart from every block in use, and is in use afterwards;
    failure means that class and the page pool are empty. *)
Theorem kmalloc_spec (k : kmem) (A : Z -> Prop) (n : Z) :
  kmem_inv k A -> classes_ok k -> 0 <= n ->
  let '(p, k') := kmalloc k n in
  (n = 0 \/ 2048 < n -> p = 0 /\ k' = k)
  /\ (0 < n <= 2048 -> exists sz c, caches k !! sz = Some c /\ n <= sz /\ sz ∈ size_caches
      /\ (forall x, x ∈ size_caches -> n <= x -> sz <= x)
      /\ ((p = 0 /\ k' = k /\ free_objs c = 0 /\ freelist (pm k) = 0)
          \/ (p <> 0 /\ ~ A p /\ size_at k' p = sz /\ kmem_inv k' (fun o => A o \/ o = p)
              /\ forall o, A o -> o + size_at k o <= p \/ p + sz <= o))).
Proof.
  intros Hinv Hcl Hn. unfold kmalloc. pose proof (size_class n) as Hs.
  destruct (n =? 0) eqn:E0; [apply Z.eqb_eq in E0; split; [done|lia]|apply Z.eqb_neq in E0].
  destruct (List.find _ _) as [sz|]; [|split; [done|lia]]. destruct Hs as (Hin & Hle & Hmin).
  destruct (classes_cache k sz Hcl Hin) as (c & Hc & Hsz).
  assert (n <= 2048).
  { revert Hin. unfold size_caches. rewrite !elem_of_cons, elem_of_nil. lia. }
  destruct (kmem_cache_alloc_cases k A sz c Hinv Hc) as [(-> & Hf & Hp)|(p & k' & -> & Hf & _)];
    (split; [lia|intros _; exists sz, c; split_and!; try done]).
  - left. done.
  - right. destruct Hf as (H1 & H2 & _ & H3 & _ & _ & H4 & H5). rewrite Hsz in H3, H5.
    split_and!; try done. intros o Ho. by destruct (H5 o Ho).
Qed.

(** A store into a block in use cannot reach the allocator: free lists, slabs
    and the blocks in use are the same after it. *)
Theorem kmem_client_store (k : kmem) (A : Z -> Prop) (o x v : Z) :
  kmem_inv k A -> A o -> o <= x < o + size_at k o ->
  kmem_inv (k <| pm := (pm k) <| mem := <[x := v]> (mem (pm k)) |> |>) A.
Proof.
  intros (pl & fl & sl & Hwf & HA) Ho Hx. exists pl, fl, sl. split; [|done].
  apply HA in Ho as (pg & Hat & Hni).
  destruct (obj_at_page _ _ _ _ Hwf _ _ Hat) as (Epg & Hpg & Hlt & _ & Hle & _).
  assert (Hxp : slab_of x = pg).
  { replace x with (pg + (x - pg)) by lia. apply slab_of_in; [done|lia]. }
  constructor; cbn [pm slabs caches update].
  - destruct (wf_pmm _ _ _ _ Hwf) as (Hch & Hd & Hp & Hk). split_and!; try tauto.
    eapply chain_ext; [|exact Hch]. intros y Hy. apply load_insert_ne. intros ->.
    rewrite page_slab_of in Hxp by by apply (proj1 (Forall_forall _ _) Hp).
    destruct Hat as (s & _ & Hs & _). destruct (wf_slab _ _ _ _ Hwf _ _ Hs) as (_ & Hn & _). congruence.
  - intros q s Hs. destruct (wf_slab _ _ _ _ Hwf q s Hs) as (H1 & H2 & H3 & H4 & H5 & H6 & c & Hc & H7).
    split_and!; try done; [|by exists c]. eapply chain_ext; [|exact H4]. intros y Hy. apply load_insert_ne.
    intros <-. assert (Hay : obj_at k q x) by (exists s, c; auto).
    destruct (decide (o = x)) as [->|Hne].
    + rewrite (free_obj_page _ _ _ _ Hwf q s x Hs Hy) in Hxp. congruence.
    + destruct (obj_disjoint _ _ _ _ Hwf pg o q x Hat Hay Hne); [lia|].
      destruct (obj_at_page _ _ _ _ Hwf _ _ Hay) as (_ & _ & _ & ? & _). lia.
  - apply (wf_cache _ _ _ _ Hwf).
Qed.

(** ** Accounting *)

Lemma nslabs_length k l : slabs k !! 0 = None -> forall a fuel,
  slist (slabs k) a l -> (length l < fuel)%nat -> nslabs fuel k a = zlen l.
Proof.
  intros H0. induction l as [|pg l IH]; intros a fuel Hl Hf; (destruct fuel as [|fuel]; [cbn in Hf; lia|]);
    cbn [nslabs lchain] in *.
  - subst a. by rewrite H0.
  - destruct Hl as (-> & _ & s & -> & Hl). rewrite zlen_cons, (IH _ fuel Hl); [done|]. cbn in Hf. lia.
Qed.

Lemma free_le_slab k pl fl sl cid c pg : kmem_wf k pl fl sl -> caches k !! cid = Some c ->
  pg ∈ sl cid -> zlen (fl pg) <= objs_per_slab c.
Proof.
  intros Hwf Hc Hpg. destruct (wf_cache _ _ _ _ Hwf cid c Hc) as (Hok & _ & _ & Hin & _).
  destruct (Hin pg Hpg) as (s & Hs & Hcs).
  destruct (wf_slab _ _ _ _ Hwf pg s Hs) as (_ & _ & _ & _ & Hd & _ & c0 & Hc0 & Ho).
  rewrite Hcs, Hc in Hc0. injection Hc0 as <-.
  assert (length (fl pg) <= length (objs (Z.to_nat (objs_per_slab c)) (pg + slab_header_size) (obj_size c)))%nat.
  { apply List.NoDup_incl_length; [by apply NoDup_ListNoDup|]. intros o Hino.
    apply list_elem_of_In, elem_of_objs. apply list_elem_of_In, Ho in Hino as (i & Hi & ->).
    exists (Z.to_nat i). split; [lia|]. f_equal. f_equal. lia. }
  unfold objs in *. rewrite length_map, length_seq in *. unfold zlen. destruct Hok as (_ & _ & ? & _). lia.
Qed.

(** The figures reported for a cache are right in every state: its objects
    fill its slab pages exactly, and the free count lies between none and all. *)
Theorem kmem_accounting (k : kmem) (A : Z -> Prop) (cid : Z) (c : kmem_cache) :
  kmem_inv k A -> caches k !! cid = Some c ->
  total_objs c = objs_per_slab c * kmem_cache_nslabs k c
  /\ 0 <= free_objs c <= total_objs c.
Proof.
  intros (pl & fl & sl & Hwf & _) Hc.
  destruct (wf_cache _ _ _ _ Hwf cid c Hc) as (_ & Hsl & _ & _ & Ht & Hf).
  pose proof (sl_length _ _ _ _ Hwf cid c Hc) as Hlen.
  assert (H0 : slabs k !! 0 = None).
  { destruct (slabs k !! 0) as [s|] eqn:E; [|done]. destruct (wf_slab _ _ _ _ Hwf 0 s E) as ([? _] & _). lia. }
  split.
  - unfold kmem_cache_nslabs. rewrite (nslabs_length k (sl cid)); [done|done|done|lia].
  - rewrite Hf, Ht.
    assert (Hb : forall pg, pg ∈ sl cid -> zlen (fl pg) <= objs_per_slab c)
      by (intros; by eapply free_le_slab).
    clear - Hb. induction (sl cid) as [|pg l IH]; cbn [foldr]; [change (zlen []) with 0; lia|].
    specialize (IH ltac:(intros; apply Hb, elem_of_cons; by right)). rewrite zlen_cons.
    specialize (Hb pg ltac:(apply elem_of_cons; by left)). pose proof (zlen_nonneg (fl pg)). lia.
Qed.

(** ** Examples: three pages, one block of 100 bytes handed out *)

Definition boot : kmem := kmem_init (mk_kmem demo_pmm ∅ ∅ []).
Definition boot_1 : kmem := snd (kmalloc boot 100).

Definition class_128 : kmem_cache := mk_cache 128 31 0 0 0.

Lemma kmem_cache_alloc_spec_witness :
  let '(p, k') := kmem_cache_alloc boot 128 in
  (p = 0 /\ k' = boot /\ free_objs class_128 = 0 /\ freelist (pm boot) = 0)
  \/ (p <> 0 /\ ~ False /\ p mod 8 = 0 /\ size_at k' p = obj_size class_128
      /\ slab_of p + slab_header_size <= p /\ p + obj_size class_128 <= slab_of p + PAGE_SIZE
      /\ kmem_inv k' (fun o => False \/ o = p)
      /\ forall o, False -> size_at k' o = size_at boot o
                    /\ (o + size_at boot o <= p \/ p + obj_size class_128 <= o)).
Proof.
  apply (kmem_cache_alloc_spec boot (fun _ => False) 128 class_128).
  - apply (kmem_init_inv demo_pmm _ demo_repr).
  - vm_compute. reflexivity.
Defined.

Lemma boot_1_inv : kmem_inv boot_1 (fun o => False \/ o = 4128).
Proof.
  destruct (kmem_init_inv demo_pmm _ demo_repr) as [Hi _]. fold boot in Hi.
  destruct (kmem_cache_alloc_cases boot _ 128 class_128 Hi ltac:(vm_compute; reflexivity))
    as [(He & _)|(p & k' & He & Hf & _)]; [apply (f_equal fst) in He; vm_compute in He; congruence|].
  assert (p = 4128) as -> by (apply (f_equal fst) in He; vm_compute in He; congruence).
  assert (k' = boot_1) as <- by (unfold boot_1; change (kmalloc boot 100) with (kmem_cache_alloc boot 128);
    by rewrite He).
  apply Hf.
Qed.

Lemma kfree_spec_witness :
  kmem_inv (kfree boot_1 4128) (fun o => (False \/ o = 4128) /\ o <> 4128)
  /\ (forall o, size_at (kfree boot_1 4128) o = size_at boot_1 o)
  /\ kfree boot_1 0 = boot_1
  /\ exists own, forall cid,
       kmem_cache_free boot_1 cid 4128 = if cid =? own then kfree boot_1 4128 else boot_1.
Proof. apply (kfree_spec boot_1 (fun o => False \/ o = 4128) 4128 boot_1_inv). by right. Defined.

Lemma kmalloc_spec_witness :
  let '(p, k') := kmalloc boot 100 in
  (100 = 0 \/ 2048 < 100 -> p = 0 /\ k' = boot)
  /\ (0 < 100 <= 2048 -> exists sz c, caches boot !! sz = Some c /\ 100 <= sz /\ sz ∈ size_caches
      /\ (forall x, x ∈ size_caches -> 100 <= x -> sz <= x)
      /\ ((p = 0 /\ k' = boot /\ free_objs c = 0 /\ freelist (pm boot) = 0)
          \/ (p <> 0 /\ ~ False /\ size_at k' p = sz /\ kmem_inv k' (fun o => False \/ o = p)
              /\ forall o, False -> o + size_at boot o <= p \/ p + sz <= o))).
Proof.
  apply (kmalloc_spec boot (fun _ => False) 100); [| |lia];
    apply (kmem_init_inv demo_pmm _ demo_repr).
Defined.

(** Its cache then. *)
Definition class_128_1 : kmem_cache := mk_cache 128 31 4096 31 30.

Lemma kmem_accounting_witness :
  total_objs class_128_1 = objs_per_slab class_128_1 * kmem_cache_nslabs boot_1 class_128_1
  /\ 0 <= free_objs class_128_1 <= total_objs class_128_1.
Proof.
  apply (kmem_accounting boot_1 (fun o => False \/ o = 4128) 128 class_128_1 boot_1_inv).
  vm_compute. reflexivity.
Defined.

Lemma kmem_client_store_witness :
  kmem_inv (boot_1 <| pm := (pm boot_1) <| mem := <[4136 := 7]> (mem (pm boot_1)) |> |>)
    (fun o => False \/ o = 4128).
Proof.
  apply (kmem_client_store boot_1 (fun o => False \/ o = 4128) 4128 4136 7 boot_1_inv).
  - by right.
  - vm_compute. split; congruence.
Defined.

End Kmem.
