(* ===== verification/Alloc.v ===== *)
(** * What the kernel's allocator promises its clients

    [Allocator] is the interface of [core/kmem.h] seen by the rest of the kernel:
    the four operations, the set of blocks in use, and for each block in use its
    cache and its size.  [AllocatorLaws] states the contract; [kmem] implements it,
    by the theorems of Kmem.v. *)

From stdpp Require Import base numbers list gmap.
From Stdlib Require Import ZArith Lia Bool.
From S2P Require Import Prelude Kmem.

Module Alloc.

Class Allocator (T : Type) := {
  cache_alloc : T -> Z -> Z * T;
  cache_free : T -> Z -> Z -> T;
  al_kmalloc : T -> Z -> Z * T;
  al_kfree : T -> Z -> T;
  al_inv : T -> (Z -> Prop) -> Prop;
  al_owner : T -> Z -> Z;
  al_size : T -> Z -> Z;
  al_cache : T -> Z -> Prop;
  al_class : Z -> Prop
}.

(** The blocks satisfying [A] keep cache and size, and caches stay. *)
Definition al_same `{Allocator T} (A : Z -> Prop) (s s' : T) : Prop :=
  (forall o, A o -> al_owner s' o = al_owner s o /\ al_size s' o = al_size s o)
  /\ forall c, al_cache s c -> al_cache s' c.

(** Outcome of an allocation: nothing, or a block that was not in use. *)
Definition al_result `{Allocator T} (A : Z -> Prop) (s : T) (p : Z) (s' : T) : Prop :=
  al_same A s s'
  /\ ((p = 0 /\ s' = s) \/ (p <> 0 /\ ~ A p /\ al_inv s' (fun o => A o \/ o = p))).

Class AllocatorLaws (T : Type) `{Allocator T} := {
  al_inv_proper :: Proper ((=) ==> pointwise_relation Z iff ==> iff) (@al_inv T _);
  cache_alloc_ok s A c p s' : al_inv s A -> al_cache s c -> cache_alloc s c = (p, s') ->
    al_result A s p s' /\ (p <> 0 -> al_owner s' p = c);
  cache_free_ok s A p : al_inv s A -> A p ->
    al_inv (cache_free s (al_owner s p) p) (fun o => A o /\ o <> p)
    /\ al_same A s (cache_free s (al_owner s p) p);
  kmalloc_ok s A n p s' : al_inv s A -> 0 <= n -> al_kmalloc s n = (p, s') ->
    al_result A s p s' /\ (p <> 0 -> al_class (al_owner s' p) /\ n <= al_size s' p);
  kfree_ok s A p : al_inv s A -> A p ->
    al_inv (al_kfree s p) (fun o => A o /\ o <> p) /\ al_same A s (al_kfree s p)
}.

Lemma al_same_refl `{Allocator T} A (s : T) : al_same A s s.
Proof. split; auto. Qed.

Lemma al_same_trans `{Allocator T} (A B : Z -> Prop) (s s' s'' : T) :
  (forall o, A o -> B o) -> al_same A s s' -> al_same B s' s'' -> al_same A s s''.
Proof.
  intros HAB [H1 H2] [H3 H4]. split; [|auto]. intros o Ho.
  destruct (H1 o Ho) as [<- <-]. apply H3. auto.
Qed.

Lemma al_same_weaken `{Allocator T} (A B : Z -> Prop) (s s' : T) :
  (forall o, A o -> B o) -> al_same B s s' -> al_same A s s'.
Proof. intros HAB [H1 H2]. split; auto. Qed.

#[export] Hint Resolve al_same_refl : alloc.

Lemma al_inv_iff `{AllocatorLaws T} (s : T) (A B : Z -> Prop) :
  (forall o, A o <-> B o) -> al_inv s A -> al_inv s B.
Proof. intros HAB HA. by rewrite <- (al_inv_proper s s eq_refl A B HAB). Qed.

(** ** The slab allocator implements the interface *)

Import Kmem.

#[export] Instance kmem_allocator : Allocator kmem := {
  cache_alloc := kmem_cache_alloc;
  cache_free := kmem_cache_free;
  al_kmalloc := kmalloc;
  al_kfree := kfree;
  al_inv k A := kmem_inv k A /\ classes_ok k;
  al_owner := owner;
  al_size := size_at;
  al_cache k c := is_Some (caches k !! c);
  al_class c := c ∈ size_caches
}.

Lemma kmem_inv_iff k A B : (forall o, A o <-> B o) -> kmem_inv k A -> kmem_inv k B.
Proof.
  intros HAB (pl & fl & sl & Hwf & HA). exists pl, fl, sl. split; [done|].
  intros o. by rewrite <- HAB.
Qed.

(** Object sizes are all that the size classes and the caches' existence need. *)
Lemma classes_ok_sizes k k' : (forall x, obj_size <$> (caches k' !! x) = obj_size <$> (caches k !! x)) ->
  (classes_ok k -> classes_ok k') /\ forall c, is_Some (caches k !! c) -> is_Some (caches k' !! c).
Proof.
  intros Hx. split.
  - intros Hcl. eapply Forall_impl; [exact Hcl|]. intros sz (c & Hc & Hsz). specialize (Hx sz). rewrite Hc in Hx.
    destruct (caches k' !! sz) as [c'|]; [|done]. exists c'. split; [done|]. injection Hx as Hx. congruence.
  - intros c [d Hd]. specialize (Hx c). rewrite Hd in Hx. by destruct (caches k' !! c).
Qed.

Lemma shape_laws (k k' : kmem) (A B : Z -> Prop) : same_shape k k' -> kmem_inv k' B -> classes_ok k ->
  al_inv k' B /\ al_same A k k'.
Proof.
  intros Hsh Hi Hc.
  destruct (classes_ok_sizes k k' (fun x => obj_size_shape k k' x Hsh)) as [H1 H2].
  split; [split; auto|]. split; [|done]. intros o _. split; [by apply owner_shape|by apply size_at_shape].
Qed.

Lemma cache_alloc_law k A c p k' : kmem_inv k A -> classes_ok k -> is_Some (caches k !! c) ->
  kmem_cache_alloc k c = (p, k') ->
  al_result A k p k' /\ (p <> 0 -> owner k' p = c
     /\ forall d, caches k !! c = Some d -> size_at k' p = obj_size d).
Proof.
  intros Hi Hcl [d Hd] He.
  destruct (kmem_cache_alloc_cases k A c d Hi Hd) as [(E & _)|(p' & k'' & E & Hf & Hfo)];
    rewrite E in He; injection He as <- <-.
  - split; [|done]. split; [apply al_same_refl|by left].
  - destruct Hf as (Hn & HnA & _ & Hsz & _ & _ & Hinv & Hsize), Hfo as (Ho & Hkeep & Hos).
    destruct (classes_ok_sizes k k'' Hos) as [H1 H2]. split.
    + split; [|right; cbn; auto]. split; [|done]. intros o HAo. split; [by apply Hkeep|by apply Hsize].
    + intros _. split; [done|]. intros d' Hd'. congruence.
Qed.

#[export] Instance kmem_laws : AllocatorLaws kmem.
Proof.
  split.
  - intros k ? <- A B HAB. split; intros [H1 H2]; (split; [|done]);
      (eapply kmem_inv_iff; [|exact H1]); intros o; by rewrite (HAB o).
  - intros k A c p k' [Hi Hcl] Hc He.
    destruct (cache_alloc_law k A c p k' Hi Hcl Hc He) as [H1 H2]. split; [done|].
    intros Hp. by destruct (H2 Hp).
  - intros k A p [Hi Hcl] Hp. destruct (slab_free_inv k A p Hi Hp) as (Hnz & s & Hs & Hinv & Hsh).
    apply Z.eqb_neq in Hnz. cbn. unfold kmem_cache_free, owner. rewrite Hnz, Hs, Z.eqb_refl. cbn.
    by apply shape_laws.
  - intros k A n p k' [Hi Hcl] Hn. cbn. unfold kmalloc. pose proof (size_class n) as Hs.
    assert (Hnone : (0, k) = (p, k') -> al_result A k p k' /\ (p <> 0 -> owner k' p ∈ size_caches /\ n <= size_at k' p)).
    { intros [= <- <-]. split; [|done]. split; [apply al_same_refl|by left]. }
    destruct (n =? 0); [done|]. destruct (List.find _ _) as [sz|]; [|done].
    destruct Hs as (Hin & Hle & _). destruct (classes_cache k sz Hcl Hin) as (c & Hc & Hsz). intros He.
    destruct (cache_alloc_law k A sz p k' Hi Hcl (mk_is_Some _ _ Hc) He) as [H1 H2]. split; [done|].
    intros Hp. destruct (H2 Hp) as [-> H3]. rewrite (H3 c Hc), Hsz. done.
  - intros k A p [Hi Hcl] Hp. destruct (slab_free_inv k A p Hi Hp) as (Hnz & s & Hs & Hinv & Hsh).
    apply Z.eqb_neq in Hnz. cbn. unfold kfree. rewrite Hnz, Hs. by apply shape_laws.
Qed.

End Alloc.
