(* ===== verification/Streams.v ===== *)
(** * STREAMS messages and queues: [uts/os/io/streams.c]

    Messages are kept the way the code keeps them, as message blocks and data
    blocks addressed by pointers, because a data block may be shared: [mblks] and
    [dblks] hold the blocks allocated and not yet freed, [0] is NULL.  The allocator
    is the interface of Alloc.v.  Queues link messages through [b_next] and
    [b_prev]; each CPU links the queues to be serviced through [q_runlink].

    Section [Delay] has the put and service procedures of a stream of delay modules
    ([uts/os/io/stream_head.c]).  [MsgSpec] proves the ownership discipline of the
    messages; StreamQueue.v has the theorems on queues and run queues, StreamDelay.v
    those on [streams_run]. *)

From stdpp Require Import base numbers list gmap.
From Stdlib Require Import ZArith Lia Bool.
From S2P Require Import Prelude Links Kmem Alloc.

Module Streams.

Import Links Alloc.

Record msgb := mk_msgb {
  b_next : Z; b_prev : Z; b_cont : Z; b_rptr : Z; b_wptr : Z; b_datap : Z;
  b_band : Z; b_flag : Z
}.

#[export] Instance msgb_rebuild : Rebuild msgb :=
  rpure mk_msgb <:> b_next <:> b_prev <:> b_cont <:> b_rptr <:> b_wptr <:> b_datap
    <:> b_band <:> b_flag.

Record dblk := mk_dblk { db_base : Z; db_lim : Z; db_ref : Z; db_type : Z }.

#[export] Instance dblk_rebuild : Rebuild dblk :=
  rpure mk_dblk <:> db_base <:> db_lim <:> db_ref <:> db_type.

Definition M_DATA : Z := 0.

(** The caches made by [streams_init]; sizes of the three structures. *)
Definition mblk_cache : Z := 1.
Definition dblk_cache : Z := 2.
Definition queue_cache : Z := 3.

Definition streams_init (k : Kmem.kmem) : Kmem.kmem :=
  let k := Kmem.kmem_cache_init k mblk_cache 56 in
  let k := Kmem.kmem_cache_init k dblk_cache 24 in
  Kmem.kmem_cache_init k queue_cache 104.

(** ** Messages *)

Record heap (T : Type) := mk_heap { al : T; mblks : gmap Z msgb; dblks : gmap Z dblk }.
Arguments mk_heap {T}.
Arguments al {T}.
Arguments mblks {T}.
Arguments dblks {T}.

Section Msg.
Context {T : Type} `{Allocator T}.

Definition allocb (h : heap T) (size : Z) : Z * heap T :=
  let '(db, a) := cache_alloc (al h) dblk_cache in
  if db =? 0 then (0, mk_heap a (mblks h) (dblks h))
  else
    let '(buf, a) := if size >? 0 then al_kmalloc a size else (0, a) in
    if (size >? 0) && (buf =? 0) then
      (0, mk_heap (cache_free a dblk_cache db) (mblks h) (dblks h))
    else
      let '(mp, a) := cache_alloc a mblk_cache in
      if mp =? 0 then
        let a := if buf =? 0 then a else al_kfree a buf in
        (0, mk_heap (cache_free a dblk_cache db) (mblks h) (dblks h))
      else
        (mp, mk_heap a (<[mp := mk_msgb 0 0 0 buf buf db 0 0]> (mblks h))
               (<[db := mk_dblk buf (buf + size) 1 M_DATA]> (dblks h))).

(** The count is decremented and tested without a lock in the code ([streams.c:134]): this is
    its effect when no other CPU holds a reference to the same data block meanwhile. *)
Definition freeb (h : heap T) (mp : Z) : heap T :=
  if mp =? 0 then h
  else
    match mblks h !! mp with
    | None => h
    | Some m =>
        match dblks h !! b_datap m with
        | None => h
        | Some d =>
            let d := d <| db_ref := s32 (db_ref d - 1) |> in
            if db_ref d =? 0 then
              let a := if db_base d =? 0 then al h else al_kfree (al h) (db_base d) in
              let a := cache_free a dblk_cache (b_datap m) in
              mk_heap (cache_free a mblk_cache mp) (delete mp (mblks h))
                (delete (b_datap m) (dblks h))
            else
              mk_heap (cache_free (al h) mblk_cache mp) (delete mp (mblks h))
                (<[b_datap m := d]> (dblks h))
        end
    end.

(** A message of [n] blocks needs [n] rounds; [freemsg] takes one more than the
    number of blocks there are. *)
Fixpoint free_chain (fuel : nat) (h : heap T) (mp : Z) : heap T :=
  match fuel with
  | O => h
  | S fuel =>
      if mp =? 0 then h
      else match mblks h !! mp with
           | None => h
           | Some m => free_chain fuel (freeb h mp) (b_cont m)
           end
  end.

Definition freemsg (h : heap T) (mp : Z) : heap T := free_chain (S (size (mblks h))) h mp.

Fixpoint dsize_chain (fuel : nat) (mm : gmap Z msgb) (mp n : Z) : Z :=
  match fuel with
  | O => n
  | S fuel =>
      if mp =? 0 then n
      else match mm !! mp with
           | None => n
           | Some m => dsize_chain fuel mm (b_cont m) (u64 (n + u64 (b_wptr m - b_rptr m)))
           end
  end.

Definition msgdsize (mm : gmap Z msgb) (mp : Z) : Z := dsize_chain (S (size mm)) mm mp 0.

Definition dupb (h : heap T) (mp : Z) : Z * heap T :=
  match mblks h !! mp with
  | None => (0, h)
  | Some m =>
      if (mp =? 0) || (b_datap m =? 0) then (0, h)
      else
        let '(cp, a) := cache_alloc (al h) mblk_cache in
        if cp =? 0 then (0, mk_heap a (mblks h) (dblks h))
        else
          let c := mk_msgb 0 0 0 (b_rptr m) (b_wptr m) (b_datap m) (b_band m) (b_flag m) in
          (cp, mk_heap a (<[cp := c]> (mblks h))
                 (alter (fun d => d <| db_ref := s32 (db_ref d + 1) |>) (b_datap m) (dblks h)))
  end.

Definition set_cont (h : heap T) (mp c : Z) : heap T :=
  mk_heap (al h) (alter (fun m => m <| b_cont := c |>) mp (mblks h)) (dblks h).

Fixpoint dup_chain (fuel : nat) (h : heap T) (mp head tail : Z) : Z * heap T :=
  match fuel with
  | O => (head, h)
  | S fuel =>
      if mp =? 0 then (head, h)
      else
        let '(cp, h) := dupb h mp in
        if cp =? 0 then (0, if head =? 0 then h else freemsg h head)
        else
          let head := if head =? 0 then cp else head in
          let h := if tail =? 0 then h else set_cont h tail cp in
          match mblks h !! mp with
          | None => (head, h)
          | Some m => dup_chain fuel h (b_cont m) head cp
          end
  end.

Definition dupmsg (h : heap T) (mp : Z) : Z * heap T :=
  dup_chain (S (size (mblks h))) h mp 0 0.

End Msg.

(** ** Queues *)

Record queue := mk_queue {
  q_qinfo : Z; q_first : Z; q_last : Z; q_next : Z; q_link : Z; q_runlink : Z; q_ptr : Z;
  q_count : Z; q_minpsz : Z; q_maxpsz : Z; q_hiwat : Z; q_lowat : Z; q_flag : Z
}.

#[export] Instance queue_rebuild : Rebuild queue :=
  rpure mk_queue <:> q_qinfo <:> q_first <:> q_last <:> q_next <:> q_link <:> q_runlink <:> q_ptr
    <:> q_count <:> q_minpsz <:> q_maxpsz <:> q_hiwat <:> q_lowat <:> q_flag.

Definition QFULL : Z := 1.
Definition QENAB : Z := 8.

Record module_info := mk_minfo { mi_minpsz : Z; mi_maxpsz : Z; mi_hiwat : Z; mi_lowat : Z }.

(** [qinit]: the limits, if any; the procedures are arguments of the functions
    that call them. *)
Definition queue_init_half (qinfo link : Z) (minfo : option module_info) : queue :=
  match minfo with
  | Some mi => mk_queue qinfo 0 0 0 link 0 0 0 (mi_minpsz mi) (mi_maxpsz mi) (mi_hiwat mi) (mi_lowat mi) 0
  | None => mk_queue qinfo 0 0 0 link 0 0 0 0 0 0 0 0
  end.

Definition queue_init_pair (qs : gmap Z queue) (rq wq rinit winit : Z)
  (rinfo winfo : option module_info) : gmap Z queue :=
  <[wq := queue_init_half winit rq winfo]> (<[rq := queue_init_half rinit wq rinfo]> qs).

Definition set_next (mm : gmap Z msgb) (mp v : Z) : gmap Z msgb := alter (fun m => m <| b_next := v |>) mp mm.
Definition set_prev (mm : gmap Z msgb) (mp v : Z) : gmap Z msgb := alter (fun m => m <| b_prev := v |>) mp mm.

Definition putq (mm : gmap Z msgb) (q : queue) (mp : Z) : gmap Z msgb * queue :=
  let mm := set_prev (set_next mm mp 0) mp (q_last q) in
  let '(mm, q) := if q_last q =? 0 then (mm, q <| q_first := mp |>)
                  else (set_next mm (q_last q) mp, q) in
  let q := q <| q_last := mp |> <| q_count := u64 (q_count q + msgdsize mm mp) |> in
  (mm, if q_hiwat q <=? s64 (q_count q) then q <| q_flag := Z.lor (q_flag q) QFULL |> else q).

Definition putbq (mm : gmap Z msgb) (q : queue) (mp : Z) : gmap Z msgb * queue :=
  let mm := set_next (set_prev mm mp 0) mp (q_first q) in
  let '(mm, q) := if q_first q =? 0 then (mm, q <| q_last := mp |>)
                  else (set_prev mm (q_first q) mp, q) in
  (mm, q <| q_first := mp |> <| q_count := u64 (q_count q + msgdsize mm mp) |>).

Definition getq (mm : gmap Z msgb) (q : queue) : Z * gmap Z msgb * queue :=
  let mp := q_first q in
  match mm !! mp with
  | None => (0, mm, q)
  | Some m =>
      if mp =? 0 then (0, mm, q)
      else
        let q := q <| q_first := b_next m |> in
        let '(mm, q) := if q_first q =? 0 then (mm, q <| q_last := 0 |>)
                        else (set_prev mm (q_first q) 0, q) in
        let mm := set_prev (set_next mm mp 0) mp 0 in
        let q := q <| q_count := u64 (q_count q - msgdsize mm mp) |> in
        (mp, mm, if s64 (q_count q) <=? q_lowat q
                 then q <| q_flag := Z.land (q_flag q) (u32 (Z.lnot QFULL)) |> else q)
  end.

(** ** Service scheduling *)

(** The queues, each CPU's run queue (head and tail) and its [streams_running]
    flag. *)
Record run := mk_run { queues : gmap Z queue; srvq : gmap Z (Z * Z); running : gmap Z bool }.

Definition cpu_srvq (r : run) (c : Z) : Z * Z := default (0, 0) (srvq r !! c).

Definition set_runlink (qs : gmap Z queue) (q v : Z) : gmap Z queue :=
  alter (fun x => x <| q_runlink := v |>) q qs.

(** Mark queue [q], with contents [x], and link it at the end of CPU [c]'s list. *)
Definition link_run (r : run) (c q : Z) (x : queue) : run :=
  let x := x <| q_flag := Z.lor (q_flag x) QENAB |> <| q_runlink := 0 |> in
  let qs := <[q := x]> (queues r) in
  let '(hd, tl) := cpu_srvq r c in
  let '(qs, hd) := if tl =? 0 then (qs, q) else (set_runlink qs tl q, hd) in
  mk_run qs (<[c := (hd, q)]> (srvq r)) (running r).

(** [has_srvp i]: whether the module behind [qinit] [i] has a service procedure. *)
Definition qenable (has_srvp : Z -> bool) (r : run) (c q : Z) : run :=
  match queues r !! q with
  | None => r
  | Some x =>
      if (q =? 0) || (q_qinfo x =? 0) || negb (has_srvp (q_qinfo x)) then r
      else if negb (Z.land (q_flag x) QENAB =? 0) then r
      else link_run r c q x
  end.

(** One round of the loop of [streams_run]: take the first queue off. *)
Definition srv_pop (r : run) (c : Z) : option (Z * run) :=
  let '(q, tl) := cpu_srvq r c in
  if q =? 0 then None
  else
    match queues r !! q with
    | None => None
    | Some x =>
        let hd := q_runlink x in
        let tl := if hd =? 0 then 0 else tl in
        let x := x <| q_runlink := 0 |> <| q_flag := Z.land (q_flag x) (u32 (Z.lnot QENAB)) |> in
        Some (q, mk_run (<[q := x]> (queues r)) (<[c := (hd, tl)]> (srvq r)) (running r))
    end.

(** ** Delivery *)

Section Put.
Context {T : Type} `{Allocator T}.

(** The message store, and the queues with the run queues: the state the put and
    service procedures see. *)
Record node := mk_node { nheap : heap T; nrun : run }.

Definition set_queue (n : node) (mm : gmap Z msgb) (q : Z) (x : queue) : node :=
  mk_node (mk_heap (al (nheap n)) mm (dblks (nheap n)))
    (mk_run (<[q := x]> (queues (nrun n))) (srvq (nrun n)) (running (nrun n))).

(** [putp i] is the put procedure behind [qinit] [i] and [srvp i] its service
    procedure, if it has one. *)
Variable putp : Z -> option (Z -> Z -> node -> Z * node).
Variable srvp : Z -> option (Z -> node -> node).

Definition put (n : node) (q mp : Z) : Z * node :=
  let drop := (-1, mk_node (freemsg (nheap n) mp) (nrun n)) in
  if q =? 0 then drop
  else
    match queues (nrun n) !! q with
    | None => drop
    | Some x =>
        if q_qinfo x =? 0 then drop
        else match putp (q_qinfo x) with
             | None => drop
             | Some f => f q mp n
             end
    end.

Definition putnext (n : node) (q mp : Z) : Z * node :=
  put n (match queues (nrun n) !! q with Some x => q_next x | None => 0 end) mp.

(** The result is [None] when the fuel does not reach the end of the work: a
    service procedure may enable further queues. *)
Fixpoint srv_loop (fuel : nat) (n : node) (c : Z) : option node :=
  match fuel with
  | O => None
  | S fuel =>
      match srv_pop (nrun n) c with
      | None => Some n
      | Some (q, r) =>
          let n := mk_node (nheap n) r in
          let n := match (q_qinfo <$> queues r !! q) ≫= srvp with Some f => f q n | None => n end in
          srv_loop fuel n c
      end
  end.

Definition set_running (n : node) (c : Z) (b : bool) : node :=
  mk_node (nheap n) (mk_run (queues (nrun n)) (srvq (nrun n)) (<[c := b]> (running (nrun n)))).

Definition streams_run (fuel : nat) (n : node) (c : Z) : option node :=
  if default false (running (nrun n) !! c) then Some n
  else
    match srv_loop fuel (set_running n c true) c with
    | None => None
    | Some n => Some (set_running n c false)
    end.

End Put.

#[global] Arguments node : clear implicits.

(** ** The delay module and the stream head, [uts/os/io/stream_head.c] *)

Section Delay.
Context {T : Type} `{Allocator T}.
Implicit Types n : node T.

(** The module's [qinit], that of the stream head's read side, and the CPU. *)
Variables (DELAY HEAD c : Z).

Definition has_srvp (i : Z) : bool := i =? DELAY.

(** [delay_putp]: queue the message, have the queue served. *)
Definition delay_putp (q mp : Z) (n : node T) : Z * node T :=
  match queues (nrun n) !! q with
  | None => (0, n)
  | Some x =>
      let '(mm, x) := putq (mblks (nheap n)) x mp in
      let n := set_queue n mm q x in
      (0, mk_node (nheap n) (qenable has_srvp (nrun n) c q))
  end.

(** [sh_rq_putp] on a data message: it is queued for the reader, who is woken. *)
Definition sh_rq_putp (q mp : Z) (n : node T) : Z * node T :=
  match queues (nrun n) !! q with
  | None => (0, n)
  | Some x => let '(mm, x) := putq (mblks (nheap n)) x mp in (0, set_queue n mm q x)
  end.

Definition stream_putp (i : Z) : option (Z -> Z -> node T -> Z * node T) :=
  if i =? DELAY then Some delay_putp else if i =? HEAD then Some sh_rq_putp else None.

(** The loop of [delay_srvp]; a queue of [l] messages takes [l + 1] rounds. *)
Fixpoint delay_loop (fuel : nat) (q : Z) (n : node T) : node T :=
  match fuel with
  | O => n
  | S fuel =>
      match queues (nrun n) !! q with
      | None => n
      | Some x =>
          let '(mp, mm, x) := getq (mblks (nheap n)) x in
          let n := set_queue n mm q x in
          if mp =? 0 then n else delay_loop fuel q (snd (putnext stream_putp n q mp))
      end
  end.

Definition delay_srvp (q : Z) (n : node T) : node T := delay_loop (S (size (mblks (nheap n)))) q n.

Definition stream_srvp (i : Z) : option (Z -> node T -> node T) := if has_srvp i then Some delay_srvp else None.

End Delay.

(** ** The ownership discipline of messages *)

(** The number of message blocks on data block [db]. *)
Definition refs (mm : gmap Z msgb) (db : Z) : Z :=
  Z.of_nat (size (filter (fun km : Z * msgb => b_datap km.2 = db) mm)).

Lemma refs_insert mm mp m db : mm !! mp = None ->
  refs (<[mp := m]> mm) db = refs mm db + (if decide (b_datap m = db) then 1 else 0).
Proof.
  intros Hn. unfold refs. destruct (decide (b_datap m = db)) as [He|He].
  - rewrite map_filter_insert_True by done. rewrite map_size_insert_None; [lia|].
    apply map_lookup_filter_None. by left.
  - rewrite map_filter_insert_False by done. rewrite delete_id by done. lia.
Qed.

Lemma refs_delete mm mp m db : mm !! mp = Some m ->
  refs (delete mp mm) db = refs mm db - (if decide (b_datap m = db) then 1 else 0).
Proof.
  intros Hs. rewrite <- (insert_id mm mp m Hs) at 2. rewrite <- insert_delete_eq.
  rewrite refs_insert by apply lookup_delete_eq. lia.
Qed.

(** Rewriting the links of a block. *)
Lemma refs_alter mm mp f db : (forall m, b_datap (f m) = b_datap m) ->
  refs (alter f mp mm) db = refs mm db.
Proof.
  intros Hf. destruct (mm !! mp) as [m|] eqn:Hm.
  - rewrite <- (insert_id mm mp m Hm) at 1. rewrite alter_insert_eq.
    rewrite <- (insert_id mm mp m Hm) at 2. rewrite <- !(insert_delete_eq mm).
    rewrite !refs_insert by apply lookup_delete_eq. by rewrite Hf.
  - by rewrite alter_id by (intros ? Hx; congruence).
Qed.

Lemma refs_pos mm mp m : mm !! mp = Some m -> 0 < refs mm (b_datap m).
Proof.
  intros Hm. unfold refs. destruct (size _) eqn:E; [|lia].
  apply map_size_empty_inv in E. exfalso.
  assert (filter (fun km : Z * msgb => b_datap km.2 = b_datap m) mm !! mp = Some m) as Hf
    by by apply map_lookup_filter_Some.
  rewrite E in Hf. by rewrite lookup_empty in Hf.
Qed.

Lemma refs_zero mm db : (forall mp m, mm !! mp = Some m -> b_datap m <> db) -> refs mm db = 0.
Proof.
  intros Hm. unfold refs. rewrite (proj2 (map_size_empty_iff _)); [done|].
  apply map_empty. intros mp. apply map_lookup_filter_None. right. cbn. apply Hm.
Qed.

Lemma refs_bound mm db : 0 <= refs mm db <= Z.of_nat (size mm).
Proof. unfold refs. pose proof (map_size_filter (fun km : Z * msgb => b_datap km.2 = db) mm). lia. Qed.


(** The blocks the messages occupy. *)
Definition inuse (mm : gmap Z msgb) (dm : gmap Z dblk) (o : Z) : Prop :=
  is_Some (mm !! o) \/ is_Some (dm !! o)
  \/ (o <> 0 /\ exists db d, dm !! db = Some d /\ db_base d = o).


Lemma inuse_insert_m mm dm mp m o : inuse (<[mp := m]> mm) dm o <-> inuse mm dm o \/ o = mp.
Proof.
  unfold inuse. rewrite lookup_insert_is_Some. split.
  - intros [[->|[_ Ho]]|[Ho|Ho]]; tauto.
  - intros [[Ho|[Ho|Ho]]| ->]; [|tauto|tauto|tauto]. destruct (decide (mp = o)); tauto.
Qed.

Lemma inuse_insert_d mm dm db d o : dm !! db = None ->
  inuse mm (<[db := d]> dm) o <-> (inuse mm dm o \/ o = db) \/ (o = db_base d /\ db_base d <> 0).
Proof.
  intros Hn. unfold inuse. rewrite lookup_insert_is_Some. split.
  - intros [Ho|[[->|[_ Ho]]|(Ho & x & e & Hx & He)]]; try tauto.
    destruct (decide (x = db)) as [->|].
    + rewrite lookup_insert_eq in Hx. injection Hx as <-. right. split; congruence.
    + rewrite lookup_insert_ne in Hx by done. do 2 left. right. right. split; [done|]. by exists x, e.
  - intros [[[Ho|[Ho|(Ho & x & e & Hx & He)]]| ->]|[-> Ho]]; try tauto.
    + destruct (decide (db = o)); tauto.
    + right. right. split; [done|]. exists x, e. rewrite lookup_insert_ne; [done|congruence].
    + right. right. split; [done|]. exists db, d. by rewrite lookup_insert_eq.
Qed.

Lemma inuse_delete_m mm dm mp o : dm !! mp = None ->
  (forall db d, dm !! db = Some d -> db_base d <> mp) ->
  inuse (delete mp mm) dm o <-> inuse mm dm o /\ o <> mp.
Proof.
  intros Hd Hb. unfold inuse. rewrite lookup_delete_is_Some. split.
  - intros [[Hne Ho]|[[e He]|(Ho & x & e & Hx & He)]].
    + split; [tauto|congruence].
    + split; [right; left; by exists e|]. congruence.
    + split; [right; right; split; [done|]; by exists x, e|]. intros ->. by apply (Hb x e).
  - intros [[Ho|[Ho|Ho]] Hne]; [left; split; [congruence|done]|tauto..].
Qed.

Lemma inuse_delete_d mm dm db d o : dm !! db = Some d -> mm !! db = None -> mm !! db_base d = None ->
  dm !! db_base d = None ->
  (forall x e, dm !! x = Some e -> db_base e <> db) ->
  (forall x e, dm !! x = Some e -> db_base e = db_base d -> db_base d <> 0 -> x = db) -> db <> 0 ->
  inuse mm (delete db dm) o <-> (inuse mm dm o /\ (db_base d <> 0 -> o <> db_base d)) /\ o <> db.
Proof.
  intros Hd Hm1 Hm2 Hm3 Hb Hinj Hnz. unfold inuse. rewrite lookup_delete_is_Some. split.
  - intros [[m Ho]|[[Hne [e He]]|(Ho & x & e & Hx & He)]].
    + split; [split; [left; by exists m|]|]; congruence.
    + split; [split; [right; left; by exists e|]|]; congruence.
    + apply lookup_delete_Some in Hx as [Hne Hx].
      split; [split; [right; right; split; [done|]; by exists x, e|]|].
      * intros Hn ->. apply Hne. symmetry. by apply (Hinj x e).
      * intros ->. by apply (Hb x e).
  - intros [[[Ho|[Ho|(Ho & x & e & Hx & He)]] Hob] Hne]; [tauto|right; left; split; [congruence|done]|].
    right. right. split; [done|]. exists x, e. rewrite lookup_delete_ne; [done|].
    intros ->. rewrite Hd in Hx. injection Hx as <-. apply Hob; congruence.
Qed.

Lemma inuse_same_d mm dm db d d' o : dm !! db = Some d -> db_base d' = db_base d ->
  inuse mm (<[db := d']> dm) o <-> inuse mm dm o.
Proof.
  intros Hd Hb. unfold inuse. rewrite lookup_insert_is_Some'.
  assert ((o <> 0 /\ exists x e, <[db := d']> dm !! x = Some e /\ db_base e = o)
          <-> (o <> 0 /\ exists x e, dm !! x = Some e /\ db_base e = o)) as ->.
  { split; intros (Ho & x & e & Hx & He); (split; [done|]); destruct (decide (x = db)) as [->|Hne].
    - rewrite lookup_insert_eq in Hx. injection Hx as <-. exists db, d. split; [done|congruence].
    - rewrite lookup_insert_ne in Hx by done. by exists x, e.
    - rewrite Hd in Hx. injection Hx as <-. exists db, d'. rewrite lookup_insert_eq. split; [done|congruence].
    - exists x, e. by rewrite lookup_insert_ne. }
  split; [|tauto]. intros [?|[[<-|?]|?]]; try tauto. right. left. by exists d.
Qed.


(** ** Chains of message blocks *)

(** The blocks of the message at [mp]. *)
Notation mchain := (lchain b_cont).

(** What a block shows of its message. *)
Definition win (mm : gmap Z msgb) (x : Z) : option (Z * Z * Z * Z * Z) :=
  (fun m => (b_rptr m, b_wptr m, b_datap m, b_band m, b_flag m)) <$> mm !! x.

Definition clear_ref (d : dblk) : dblk := d <| db_ref := 0 |>.

Lemma clear_ref_eq d d' : clear_ref d = clear_ref d' -> db_ref d' = db_ref d -> d = d'.
Proof. destruct d, d'. intros [= -> -> ->]. cbn. by intros ->. Qed.

(** Every data block of [dm'] is one of [dm], but for its count. *)
Definition dsub (dm' dm : gmap Z dblk) : Prop :=
  forall x d', dm' !! x = Some d' -> exists d, dm !! x = Some d /\ clear_ref d = clear_ref d'.

Lemma dsub_refl dm : dsub dm dm.
Proof. intros x d Hd. by exists d. Qed.

Lemma dsub_trans a b c : dsub a b -> dsub b c -> dsub a c.
Proof.
  intros H1 H2 x d Hd. destruct (H1 x d Hd) as (e & He & E1). destruct (H2 x e He) as (f & Hf & E2).
  exists f. split; [done|congruence].
Qed.

Lemma dsub_ref dm db d r : dm !! db = Some d -> dsub (<[db := d <| db_ref := r |>]> dm) dm.
Proof.
  intros Hd x d' Hx. destruct (decide (x = db)) as [->|].
  - rewrite lookup_insert_eq in Hx. injection Hx as <-. exists d. done.
  - rewrite lookup_insert_ne in Hx by done. by exists d'.
Qed.

Lemma dsub_delete dm db : dsub (delete db dm) dm.
Proof. intros x d [_ Hx]%lookup_delete_Some. by exists d. Qed.

Section MsgSpec.
Context {T : Type} `{AllocatorLaws T}.

(** Where messages live apart from [kmalloc]'s buffers. *)
Hypothesis mblk_class : ~ al_class mblk_cache.
Hypothesis dblk_class : ~ al_class dblk_cache.

(** A buffer fits its block; an empty message has none. *)
Definition buf_ok (a : T) (d : dblk) : Prop :=
  db_base d <= db_lim d
  /\ (db_base d = 0 -> db_lim d = 0)
  /\ (db_base d <> 0 -> al_class (al_owner a (db_base d))
                       /\ db_lim d - db_base d <= al_size a (db_base d)).

Record msgs_ok (h : heap T) : Prop := {
  ok_al : al_inv (al h) (inuse (mblks h) (dblks h));
  ok_caches : al_cache (al h) mblk_cache /\ al_cache (al h) dblk_cache;
  ok_mblk : forall mp m, mblks h !! mp = Some m ->
    mp <> 0 /\ al_owner (al h) mp = mblk_cache
    /\ exists d, dblks h !! b_datap m = Some d
         /\ db_base d <= b_rptr m <= b_wptr m /\ b_wptr m <= db_lim d;
  ok_dblk : forall db d, dblks h !! db = Some d ->
    db <> 0 /\ al_owner (al h) db = dblk_cache
    /\ db_ref d = refs (mblks h) db /\ 0 < db_ref d /\ buf_ok (al h) d;
  ok_inj : forall db1 d1 db2 d2, dblks h !! db1 = Some d1 -> dblks h !! db2 = Some d2 ->
    db_base d1 = db_base d2 -> db_base d1 <> 0 -> db1 = db2;
  ok_few : Z.of_nat (size (mblks h)) < 2147483648
}.

(** Only the allocator changes, and keeps the messages' blocks. *)
Lemma ok_frame h a : msgs_ok h -> al_inv a (inuse (mblks h) (dblks h)) ->
  al_same (inuse (mblks h) (dblks h)) (al h) a -> msgs_ok (mk_heap a (mblks h) (dblks h)).
Proof.
  intros [H1 H2 H3 H4 H5 H6] Ha [Hs Hc]. constructor; cbn; try done.
  - destruct H2. split; by apply Hc.
  - intros mp m Hm. destruct (H3 mp m Hm) as (Hn & Ho & Hd). split_and!; try done.
    rewrite <- Ho. apply Hs. left. by exists m.
  - intros db d Hd. destruct (H4 db d Hd) as (Hn & Ho & Hr & Hp & Hb1 & Hb2 & Hb3).
    split_and!; try done.
    + rewrite <- Ho. apply Hs. right. left. by exists d.
    + split_and!; try done. intros Hb. destruct (Hs (db_base d)) as [E1 E2]; [|by rewrite E1, E2; apply Hb3].
      right. right. split; [done|]. by exists db, d.
Qed.

(** Names of blocks in use belong to one kind only. *)
Lemma kinds h : msgs_ok h ->
  (forall o, is_Some (mblks h !! o) -> dblks h !! o = None)
  /\ (forall o db d, dblks h !! db = Some d -> db_base d = o -> o <> 0 ->
      mblks h !! o = None /\ dblks h !! o = None).
Proof.
  intros Hok. split.
  - intros o [m Hm]. destruct (dblks h !! o) as [d|] eqn:E; [|done].
    destruct (ok_mblk h Hok o m Hm) as (_ & E1 & _), (ok_dblk h Hok o d E) as (_ & E2 & _).
    rewrite E1 in E2. done.
  - intros o db d Hd Hb Hn. destruct (ok_dblk h Hok db d Hd) as (_ & _ & _ & _ & _ & _ & Hc).
    rewrite Hb in Hc. destruct (Hc Hn) as [Hcl _]. split.
    + destruct (mblks h !! o) as [m|] eqn:E; [|done].
      destruct (ok_mblk h Hok o m E) as (_ & E1 & _). by rewrite E1 in Hcl.
    + destruct (dblks h !! o) as [d'|] eqn:E; [|done].
      destruct (ok_dblk h Hok o d' E) as (_ & E1 & _). by rewrite E1 in Hcl.
Qed.


(** Giving a block back straight after taking it. *)
Lemma free_back a (A : Z -> Prop) p : al_inv a (fun o => A o \/ o = p) -> ~ A p ->
  al_inv (cache_free a (al_owner a p) p) A /\ al_same A a (cache_free a (al_owner a p) p).
Proof.
  intros Ha Hp. destruct (cache_free_ok a _ p Ha (or_intror eq_refl)) as [H1 H2]. split.
  - eapply al_inv_iff; [|exact H1].
    intros o. split; [intros [[?|?] ?]; done|]. intros Ho. split; [by left|]. by intros ->.
  - eapply al_same_weaken; [|exact H2]. intros o Ho. by left.
Qed.

Lemma kfree_back a (A : Z -> Prop) p : al_inv a (fun o => A o \/ o = p) -> ~ A p ->
  al_inv (al_kfree a p) A /\ al_same A a (al_kfree a p).
Proof.
  intros Ha Hp. destruct (kfree_ok a _ p Ha (or_intror eq_refl)) as [H1 H2]. split.
  - eapply al_inv_iff; [|exact H1].
    intros o. split; [intros [[?|?] ?]; done|]. intros Ho. split; [by left|]. by intros ->.
  - eapply al_same_weaken; [|exact H2]. intros o Ho. by left.
Qed.

(** A buffer of [size] bytes, none if that is zero. *)
Lemma get_buf a A size buf a' : al_inv a A -> 0 <= size ->
  (if size >? 0 then al_kmalloc a size else (0, a)) = (buf, a') ->
  al_same A a a' /\
  ((0 < size /\ buf = 0 /\ a' = a)
   \/ (al_inv a' (fun o => A o \/ (o = buf /\ buf <> 0)) /\ (0 < size -> buf <> 0) /\ (size = 0 -> buf = 0)
       /\ (buf <> 0 -> ~ A buf /\ al_class (al_owner a' buf) /\ size <= al_size a' buf))).
Proof.
  intros Ha Hs He. rewrite Z.gtb_ltb in He. destruct (0 <? size) eqn:E; bool_prop.
  - destruct (kmalloc_ok a A size buf a' Ha ltac:(lia) He) as [[Hsame [[-> ->]|(Hn & HA & Hi)]] Hc].
    + split; [done|]. by left.
    + split; [done|]. right. split_and!; [|done|lia|intros _; by destruct (Hc Hn)].
      eapply al_inv_iff; [|exact Hi].
      intros o. tauto.
  - injection He as <- <-. split; [apply al_same_refl|]. right. split_and!; try lia.
    eapply al_inv_iff; [|exact Ha].
    intros o. split; [by left|]. by intros [?|[_ ?]].
Qed.

(** The message built by a successful [allocb]. *)
Lemma ok_new h a db buf mp size :
  let A := inuse (mblks h) (dblks h) in
  msgs_ok h -> Z.of_nat (Datatypes.S (base.size (mblks h))) < 2147483648 -> 0 <= size ->
  al_inv a (fun o => ((A o \/ o = db) \/ (o = buf /\ buf <> 0)) \/ o = mp) -> al_same A (al h) a ->
  db <> 0 -> ~ A db -> al_owner a db = dblk_cache ->
  (buf <> 0 -> ~ A buf /\ buf <> db /\ al_class (al_owner a buf) /\ size <= al_size a buf) ->
  (0 < size -> buf <> 0) -> (buf = 0 -> size = 0) ->
  mp <> 0 -> ~ A mp -> al_owner a mp = mblk_cache ->
  msgs_ok (mk_heap a (<[mp := mk_msgb 0 0 0 buf buf db 0 0]> (mblks h))
             (<[db := mk_dblk buf (buf + size) 1 M_DATA]> (dblks h))).
Proof.
  intros A Hok Hfew Hsz Ha Hsame Hdb HAdb Odb Hbuf Hb1 Hb2 Hmp HAmp Omp.
  assert (Hnm : mblks h !! mp = None) by (apply eq_None_not_Some; intros ?; apply HAmp; by left).
  assert (Hnd : dblks h !! db = None) by (apply eq_None_not_Some; intros ?; apply HAdb; right; by left).
  destruct Hsame as [Hs Hc]. assert (Hr0 : refs (mblks h) db = 0).
  { apply refs_zero. intros x m Hm He.
    destruct (ok_mblk h Hok x m Hm) as (_ & _ & d & Hd & _). congruence. }
  constructor; cbn [al mblks dblks].
  - eapply al_inv_iff; [|exact Ha]. intros o. by rewrite inuse_insert_m, inuse_insert_d.
  - destruct (ok_caches h Hok). split; by apply Hc.
  - intros x m Hx. destruct (decide (x = mp)) as [->|Hne].
    + rewrite lookup_insert_eq in Hx. injection Hx as <-. split_and!; [done|done|].
      eexists. cbn. rewrite lookup_insert_eq. split; [done|]. cbn. lia.
    + rewrite lookup_insert_ne in Hx by done. destruct (ok_mblk h Hok x m Hx) as (H1 & H2 & d & Hd & Hw).
      split_and!; [done|rewrite <- H2; apply Hs; left; by exists m|].
      exists d. rewrite lookup_insert_ne by congruence. done.
  - intros x d Hx. rewrite refs_insert by done. cbn [b_datap]. destruct (decide (x = db)) as [->|Hne].
    + rewrite lookup_insert_eq in Hx. injection Hx as <-. rewrite decide_True, Hr0 by done.
      split_and!; [done|done|done|done|]. split_and!; cbn; [lia|lia|]. intros Hb.
      destruct (Hbuf Hb) as (_ & _ & Hcl & Hle). split; [done|lia].
    + rewrite lookup_insert_ne in Hx by done. rewrite decide_False, Z.add_0_r by done.
      assert (Hok' := ok_dblk h Hok x d Hx). destruct Hok' as (H1 & H2 & H3 & H4 & H5 & H6 & H7).
      split_and!; try done; [rewrite <- H2; apply Hs; right; left; by exists d|].
      split_and!; try done. intros Hb. destruct (Hs (db_base d)) as [-> ->]; [|auto].
      right. right. split; [done|]. by exists x, d.
  - assert (Hfresh : forall x d, dblks h !! x = Some d -> db_base d = buf -> buf <> 0 -> False).
    { intros x d Hx Hd Hb. destruct (Hbuf Hb) as [HA _]. apply HA. right. right. split; [done|].
      by exists x, d. }
    intros x1 d1 x2 d2 H1 H2 He Hb.
    destruct (decide (x1 = db)) as [->|N1], (decide (x2 = db)) as [->|N2]; [done|..].
    + rewrite lookup_insert_eq in H1. rewrite lookup_insert_ne in H2 by done.
      injection H1 as <-. cbn in *. destruct (Hfresh x2 d2); congruence.
    + rewrite lookup_insert_eq in H2. rewrite lookup_insert_ne in H1 by done.
      injection H2 as <-. cbn in *. destruct (Hfresh x1 d1); congruence.
    + rewrite lookup_insert_ne in H1, H2 by done. by apply (ok_inj h Hok x1 d1 x2 d2).
  - rewrite map_size_insert_None by done. lia.
Qed.


(** Undoing both allocations. *)
Lemma undo_alloc a (A : Z -> Prop) db buf : ~ A db ->
  al_inv a (fun o => (A o \/ o = db) \/ (o = buf /\ buf <> 0)) ->
  (buf <> 0 -> ~ (A buf \/ buf = db)) -> al_owner a db = dblk_cache ->
  let a' := cache_free (if buf =? 0 then a else al_kfree a buf) dblk_cache db in
  al_inv a' A /\ al_same A a a'.
Proof.
  intros Hdb Ha Hbuf Ho. destruct (buf =? 0) eqn:E; bool_prop.
  - subst buf. rewrite <- Ho. apply free_back; [|done]. eapply al_inv_iff; [|exact Ha].
    intros o. split; [by intros [?|[_ ?]]|by left].
  - destruct (kfree_back a (fun o => A o \/ o = db) buf) as [H1 H2]; [|by apply Hbuf|].
    { eapply al_inv_iff; [|exact Ha]. intros o. tauto. }
    assert (Ho' : al_owner (al_kfree a buf) db = dblk_cache) by (rewrite <- Ho; apply H2; by right).
    rewrite <- Ho'. destruct (free_back _ A db H1 Hdb) as [H3 H4]. split; [done|].
    eapply al_same_trans; [|eapply al_same_weaken; [|exact H2]|exact H4]; [done|]. intros; by left.
Qed.

(** Room for one more message block in the [int] reference counts. *)
Definition room (h : heap T) : Prop := Z.of_nat (Datatypes.S (size (mblks h))) < 2147483648.

Lemma allocb_cases h n mp h' : msgs_ok h -> room h -> 0 <= n -> allocb h n = (mp, h') ->
  msgs_ok h'
  /\ ((mp = 0 /\ mblks h' = mblks h /\ dblks h' = dblks h)
      \/ exists db buf, mp <> 0 /\ db <> 0 /\ (0 < n -> buf <> 0) /\ (n = 0 -> buf = 0)
          /\ mblks h !! mp = None /\ dblks h !! db = None
          /\ mblks h' = <[mp := mk_msgb 0 0 0 buf buf db 0 0]> (mblks h)
          /\ dblks h' = <[db := mk_dblk buf (buf + n) 1 M_DATA]> (dblks h)).
Proof.
  intros Hok Hroom Hn. destruct (ok_caches h Hok) as [Cm Cd]. pose proof (ok_al h Hok) as Ha.
  unfold allocb. destruct (cache_alloc (al h) dblk_cache) as [db a1] eqn:E1.
  destruct (cache_alloc_ok _ _ _ _ _ Ha Cd E1) as [[S1 [[-> ->]|(N1 & A1 & I1)]] O1].
  { cbn. intros [= <- <-]. split; [by destruct h|]. left. done. }
  rewrite (proj2 (Z.eqb_neq db 0) N1). specialize (O1 N1).
  destruct (if n >? 0 then al_kmalloc a1 n else (0, a1)) as [buf a2] eqn:E2.
  destruct (get_buf a1 _ n buf a2 I1 Hn E2) as [S2 [(Hpos & -> & ->)|(I2 & B1 & B2 & B3)]].
  { rewrite Z.gtb_ltb, (proj2 (Z.ltb_lt 0 n) Hpos). cbn. intros [= <- <-]. rewrite <- O1.
    destruct (free_back a1 _ db I1 A1) as [I3 S3]. split; [|by left].
    apply ok_frame; [done|done|]. eapply al_same_trans; [|done|done]. done. }
  assert ((n >? 0) && (buf =? 0) = false) as ->.
  { rewrite Z.gtb_ltb. destruct (0 <? n) eqn:En; [|done]. apply Z.eqb_neq, B1. bool_prop. lia. }
  assert (S2' : al_same (inuse (mblks h) (dblks h)) (al h) a2).
  { eapply al_same_trans; [|exact S1|exact S2]. intros; by left. }
  assert (O2 : al_owner a2 db = dblk_cache) by (rewrite <- O1; apply S2; by right).
  destruct (cache_alloc a2 mblk_cache) as [mp0 a3] eqn:E3.
  destruct (cache_alloc_ok _ _ mblk_cache _ _ I2 (proj2 S2' _ Cm) E3) as [[S3 [[-> ->]|(N3 & A3 & I3)]] O3].
  - cbn. intros [= <- <-]. split; [|by left].
    destruct (undo_alloc a2 _ db buf A1 I2 (fun Hb => proj1 (B3 Hb)) O2) as [I4 S4].
    apply ok_frame; [done|done|]. eapply al_same_trans; [|done|done]. done.
  - rewrite (proj2 (Z.eqb_neq mp0 0) N3). intros [= <- <-]. split.
    + apply ok_new; try done.
      * eapply al_same_trans; [|exact S2'|exact S3]. intros o Ho. left. by left.
      * rewrite <- O2. apply S3. left. by right.
      * intros Hb. destruct (B3 Hb) as (B4 & B5 & B6). destruct (proj1 S3 buf) as [-> ->]; [by right|tauto].
      * intros ->. destruct (decide (n = 0)); [done|]. destruct B1; lia.
      * tauto.
      * by apply O3.
    + right. exists db, buf. split_and!; try done; apply eq_None_not_Some; intros Hs.
      * apply A3. left. left. by left.
      * apply A1. right. by left.
Qed.

(** Another set of message blocks over the same data blocks, one of which gets a
    new reference count. *)
Lemma ok_ref h a mm db d r : msgs_ok h -> dblks h !! db = Some d ->
  al_inv a (inuse mm (dblks h)) -> al_same (inuse ∅ (dblks h)) (al h) a ->
  (forall mp m, mm !! mp = Some m -> mp <> 0 /\ al_owner a mp = mblk_cache
     /\ exists d, dblks h !! b_datap m = Some d
          /\ db_base d <= b_rptr m <= b_wptr m /\ b_wptr m <= db_lim d) ->
  (forall x, x <> db -> refs mm x = refs (mblks h) x) -> r = refs mm db -> 0 < r ->
  Z.of_nat (size mm) < 2147483648 ->
  msgs_ok (mk_heap a mm (<[db := d <| db_ref := r |>]> (dblks h))).
Proof.
  intros Hok Hd Ha [Hs Hc] Hm Hr -> Hpos Hfew.
  assert (Hbuf : forall x e, dblks h !! x = Some e ->
    al_owner a x = dblk_cache /\ buf_ok a e).
  { intros x e Hx. destruct (ok_dblk h Hok x e Hx) as (_ & H2 & _ & _ & H5 & H6 & H7).
    split; [rewrite <- H2; apply Hs; right; left; by exists e|]. split_and!; try done. intros Hb.
    destruct (Hs (db_base e)) as [-> ->]; [|auto]. right. right. split; [done|]. by exists x, e. }
  constructor; cbn [al mblks dblks].
  - eapply al_inv_iff; [|exact Ha]. intros o. symmetry. by eapply inuse_same_d.
  - destruct (ok_caches h Hok). split; by apply Hc.
  - intros mp m Hx. destruct (Hm mp m Hx) as (H1 & H2 & e & He & Hw). split_and!; try done.
    destruct (decide (b_datap m = db)) as [E|E].
    + rewrite E in *. rewrite Hd in He. injection He as <-. eexists. rewrite lookup_insert_eq. done.
    + exists e. by rewrite lookup_insert_ne.
  - intros x e Hx. destruct (decide (x = db)) as [->|Hne].
    + rewrite lookup_insert_eq in Hx. injection Hx as <-.
      destruct (ok_dblk h Hok db d Hd) as (H1 & _), (Hbuf db d Hd) as [H2 H3]. done.
    + rewrite lookup_insert_ne in Hx by done. rewrite Hr by done.
      destruct (ok_dblk h Hok x e Hx) as (H1 & _ & H3 & H4 & _), (Hbuf x e Hx) as [H5 H6]. done.
  - intros x1 d1 x2 d2 H1 H2 He Hb.
    assert (Hold : forall x e, <[db := d <| db_ref := refs mm db |>]> (dblks h) !! x = Some e ->
      exists e', dblks h !! x = Some e' /\ db_base e' = db_base e).
    { intros x e Hx. destruct (decide (x = db)) as [->|].
      - rewrite lookup_insert_eq in Hx. injection Hx as <-. by exists d.
      - rewrite lookup_insert_ne in Hx by done. by exists e. }
    destruct (Hold x1 d1 H1) as (e1 & G1 & E1), (Hold x2 d2 H2) as (e2 & G2 & E2).
    apply (ok_inj h Hok x1 e1 x2 e2); congruence.
  - done.
Qed.

Lemma alter_lookup (dm : gmap Z dblk) db d f : dm !! db = Some d -> alter f db dm = <[db := f d]> dm.
Proof. intros Hd. rewrite <- (insert_id dm db d Hd) at 1. by rewrite alter_insert_eq. Qed.

Definition dup_of (m : msgb) : msgb :=
  mk_msgb 0 0 0 (b_rptr m) (b_wptr m) (b_datap m) (b_band m) (b_flag m).

Lemma dupb_cases h mp m cp h' : msgs_ok h -> room h -> mblks h !! mp = Some m -> dupb h mp = (cp, h') ->
  msgs_ok h'
  /\ ((cp = 0 /\ mblks h' = mblks h /\ dblks h' = dblks h)
      \/ (cp <> 0 /\ mblks h !! cp = None /\ mblks h' = <[cp := dup_of m]> (mblks h)
          /\ exists d, dblks h !! b_datap m = Some d
             /\ dblks h' = <[b_datap m := d <| db_ref := db_ref d + 1 |>]> (dblks h))).
Proof.
  intros Hok Hroom Hm. unfold dupb. rewrite Hm.
  destruct (ok_mblk h Hok mp m Hm) as (Hnz & _ & d & Hd & Hw).
  destruct (ok_dblk h Hok _ d Hd) as (Hdz & _ & Hr & _).
  rewrite (proj2 (Z.eqb_neq _ _) Hnz), (proj2 (Z.eqb_neq _ _) Hdz). cbn [orb].
  destruct (cache_alloc (al h) mblk_cache) as [cp0 a] eqn:E.
  destruct (ok_caches h Hok) as [Cm _].
  destruct (cache_alloc_ok _ _ _ _ _ (ok_al h Hok) Cm E) as [[Hs [[-> ->]|(Hn & HA & Hi)]] Ho].
  { cbn. intros [= <- <-]. split; [by destruct h|]. by left. }
  rewrite (proj2 (Z.eqb_neq _ _) Hn), (alter_lookup _ _ d) by done. intros [= <- <-].
  assert (Hnone : mblks h !! cp0 = None) by (apply eq_None_not_Some; intros ?; apply HA; by left).
  pose proof (refs_bound (mblks h) (b_datap m)) as Hbd.
  assert (s32 (db_ref d + 1) = db_ref d + 1) as -> by (apply s32_small; unfold room in Hroom; lia).
  split; [|right; split_and!; try done; by exists d].
  apply ok_ref; try done.
  - eapply al_inv_iff; [|exact Hi]. intros o. by rewrite inuse_insert_m.
  - eapply al_same_weaken; [|exact Hs]. intros o [[? Hx]|Ho']; [by rewrite lookup_empty in Hx|by right].
  - intros x mx Hx. destruct (decide (x = cp0)) as [->|Hne].
    + rewrite lookup_insert_eq in Hx. injection Hx as <-. split_and!; [done|by apply Ho|]. by exists d.
    + rewrite lookup_insert_ne in Hx by done. destruct (ok_mblk h Hok x mx Hx) as (H1 & H2 & H3).
      split_and!; try done. rewrite <- H2. apply Hs. left. by exists mx.
  - intros x Hx. rewrite refs_insert by done. cbn. rewrite decide_False by done. lia.
  - rewrite refs_insert by done. cbn. rewrite decide_True by done. lia.
  - lia.
  - rewrite map_size_insert_None by done. exact Hroom.
Qed.

(** Releasing one block, by the cache it is known to belong to. *)
Lemma free_known a (A : Z -> Prop) p c : al_inv a A -> A p -> al_owner a p = c ->
  al_inv (cache_free a c p) (fun o => A o /\ o <> p) /\ al_same A a (cache_free a c p).
Proof. intros Ha Hp <-. by apply cache_free_ok. Qed.

(** Side conditions of the [inuse] lemmas, for a message and its data block. *)
Lemma free_side h mp m d : msgs_ok h -> mblks h !! mp = Some m -> dblks h !! b_datap m = Some d ->
  let db := b_datap m in
  dblks h !! mp = None /\ mp <> db /\ (forall x e, dblks h !! x = Some e -> db_base e <> mp)
  /\ mblks h !! db = None /\ mblks h !! db_base d = None /\ dblks h !! db_base d = None
  /\ (forall x e, dblks h !! x = Some e -> db_base e <> db).
Proof.
  intros Hok Hm Hd db. change (dblks h !! db = Some d) in Hd. destruct (kinds h Hok) as [K1 K2].
  assert (Hmd : dblks h !! mp = None) by (apply K1; by exists m).
  destruct (ok_mblk h Hok mp m Hm) as (Hmz & _). destruct (ok_dblk h Hok _ d Hd) as (Hdz & _).
  assert (Hzm : mblks h !! 0 = None).
  { apply eq_None_not_Some. intros [m' Hm']. by destruct (ok_mblk h Hok 0 m' Hm'). }
  assert (Hzd : dblks h !! 0 = None).
  { apply eq_None_not_Some. intros [d' Hd']. by destruct (ok_dblk h Hok 0 d' Hd'). }
  split_and!; [done|congruence| | | | |].
  - intros x e Hx He. destruct (K2 mp x e Hx He Hmz) as [? _]. congruence.
  - destruct (mblks h !! db) eqn:E; [|done]. rewrite (K1 db) in Hd by done. done.
  - destruct (decide (db_base d = 0)) as [->|Hn]; [done|]. by apply (K2 _ db d Hd eq_refl Hn).
  - destruct (decide (db_base d = 0)) as [->|Hn]; [done|]. by apply (K2 _ db d Hd eq_refl Hn).
  - intros x e Hx He. destruct (K2 db x e Hx He Hdz) as [_ ?]. congruence.
Qed.

(** The allocator after releasing the last message block of a data block. *)
Lemma free_last_al h mp m d : msgs_ok h -> mblks h !! mp = Some m -> dblks h !! b_datap m = Some d ->
  let a := cache_free (cache_free (if db_base d =? 0 then al h else al_kfree (al h) (db_base d))
                         dblk_cache (b_datap m)) mblk_cache mp in
  al_inv a (inuse (delete mp (mblks h)) (delete (b_datap m) (dblks h)))
  /\ al_same (inuse (delete mp (mblks h)) (delete (b_datap m) (dblks h))) (al h) a.
Proof.
  intros Hok Hm Hd. destruct (free_side h mp m d Hok Hm Hd) as (F1 & F2 & F3 & F4 & F5 & F6 & F7).
  destruct (ok_mblk h Hok mp m Hm) as (Hmz & Om & _).
  destruct (ok_dblk h Hok _ d Hd) as (Hdz & Od & _).
  set (A := inuse (mblks h) (dblks h)) in *. set (db := b_datap m) in *.
  assert (HAm : A mp) by (left; by exists m). assert (HAd : A db) by (right; left; by exists d).
  set (a1 := if db_base d =? 0 then al h else al_kfree (al h) (db_base d)).
  assert (al_inv a1 (fun o => A o /\ (db_base d <> 0 -> o <> db_base d)) /\ al_same A (al h) a1) as [I1 S1].
  { subst a1. destruct (db_base d =? 0) eqn:E; bool_prop.
    - split; [|apply al_same_refl]. eapply al_inv_iff; [|exact (ok_al h Hok)]. fold A. intros o. tauto.
    - destruct (kfree_ok _ _ (db_base d) (ok_al h Hok)) as [I S].
      + right. right. split; [done|]. by exists db, d.
      + split; [|done]. eapply al_inv_iff; [|exact I]. fold A. intros o. tauto. }
  destruct (free_known a1 _ db dblk_cache I1) as [I2 S2].
  { split; [done|]. intros _ He. congruence. }
  { rewrite <- Od. by apply S1. }
  destruct (free_known _ _ mp mblk_cache I2) as [I3 S3].
  { split; [split; [done|]|done]. intros _ He. congruence. }
  { rewrite <- Om. destruct (proj1 S1 mp HAm) as [<- _]. apply S2. split; [done|]. intros _ He. congruence. }
  assert (Hleft : forall o, inuse (delete mp (mblks h)) (delete db (dblks h)) o
    <-> ((A o /\ (db_base d <> 0 -> o <> db_base d)) /\ o <> db) /\ o <> mp).
  { intros o. rewrite inuse_delete_m.
    - rewrite (inuse_delete_d _ _ _ d); try done. intros x e Hx He Hn.
      apply (ok_inj h Hok x e db d Hx Hd); congruence.
    - apply lookup_delete_None. by right.
    - intros x e [_ Hx]%lookup_delete_Some. by apply (F3 x e). }
  split; [eapply al_inv_iff; [|exact I3]; intros o; by rewrite Hleft|].
  set (R := inuse (delete mp (mblks h)) (delete db (dblks h))) in *.
  apply (al_same_weaken R) in S1, S2, S3; [|intros o Ho; apply (Hleft o), Ho..].
  exact (al_same_trans R R _ _ _ (fun _ x => x) S1 (al_same_trans R R _ _ _ (fun _ x => x) S2 S3)).
Qed.

(** A data block goes with its last message block. *)
Lemma ok_drop h a mp m d : msgs_ok h -> mblks h !! mp = Some m -> dblks h !! b_datap m = Some d ->
  db_ref d = 1 -> let mm := delete mp (mblks h) in let dm := delete (b_datap m) (dblks h) in
  al_inv a (inuse mm dm) -> al_same (inuse mm dm) (al h) a -> msgs_ok (mk_heap a mm dm).
Proof.
  intros Hok Hm Hd H1 mm dm Ha [Hs Hc].
  destruct (ok_dblk h Hok _ d Hd) as (_ & _ & Hr & _).
  assert (Hlast : forall x mx, mm !! x = Some mx -> b_datap mx <> b_datap m).
  { intros x mx Hx He. pose proof (refs_pos mm x mx Hx) as Hp. unfold mm in Hp.
    rewrite He, (refs_delete _ _ m), decide_True in Hp by done. lia. }
  constructor; cbn [al mblks dblks]; [done| | | | |].
  - destruct (ok_caches h Hok). split; by apply Hc.
  - intros x mx Hx. pose proof (Hlast x mx Hx) as Hne.
    assert (Hx' := Hx). apply lookup_delete_Some in Hx' as [_ Hx'].
    destruct (ok_mblk h Hok x mx Hx') as (H2 & H3 & e & He & Hw). split_and!; [done| |].
    + destruct (proj1 (conj Hs Hc) x) as [-> _]; [left; by exists mx|done].
    + exists e. split; [|done]. apply lookup_delete_Some. done.
  - intros x e Hx. assert (Hx' := Hx). apply lookup_delete_Some in Hx' as [Hne Hx'].
    destruct (ok_dblk h Hok x e Hx') as (H2 & H3 & H4 & H5 & H6 & H7 & H8). split_and!; try done.
    + destruct (Hs x) as [-> _]; [right; left; by exists e|done].
    + unfold mm. rewrite (refs_delete _ _ m), decide_False by done. lia.
    + split_and!; try done. intros Hb. destruct (Hs (db_base e)) as [-> ->]; [|auto].
      right. right. split; [done|]. by exists x, e.
  - intros x1 d1 x2 d2 [_ G1]%lookup_delete_Some [_ G2]%lookup_delete_Some.
    by apply (ok_inj h Hok x1 d1 x2 d2).
  - pose proof (ok_few h Hok). unfold mm.
    rewrite (map_size_delete_Some mp (mblks h) (mk_is_Some _ _ Hm)). lia.
Qed.

Lemma freeb_cases h mp m : msgs_ok h -> mblks h !! mp = Some m ->
  msgs_ok (freeb h mp) /\ mblks (freeb h mp) = delete mp (mblks h)
  /\ exists d, dblks h !! b_datap m = Some d
     /\ dblks (freeb h mp) = if db_ref d =? 1 then delete (b_datap m) (dblks h)
                            else <[b_datap m := d <| db_ref := db_ref d - 1 |>]> (dblks h).
Proof.
  intros Hok Hm. destruct (ok_mblk h Hok mp m Hm) as (Hmz & Om & d & Hd & Hw).
  destruct (ok_dblk h Hok _ d Hd) as (Hdz & Od & Hr & Hpos & _).
  destruct (free_side h mp m d Hok Hm Hd) as (F1 & F2 & F3 & _).
  pose proof (refs_bound (mblks h) (b_datap m)) as Hbd. pose proof (ok_few h Hok) as Hfew.
  pose proof (map_size_delete_Some mp (mblks h) (mk_is_Some _ _ Hm)) as Hsize.
  unfold freeb. rewrite (proj2 (Z.eqb_neq _ _) Hmz), Hm, Hd. cbn [db_ref update].
  assert (s32 (db_ref d - 1) = db_ref d - 1) as Es by (apply s32_small; lia).
  change (db_ref (d <| db_ref := s32 (db_ref d - 1) |>)) with (s32 (db_ref d - 1)). rewrite Es.
  destruct (db_ref d =? 1) eqn:E; bool_prop.
  - rewrite E. split; [|split; [done|]; exists d; by rewrite E].
    destruct (free_last_al h mp m d Hok Hm Hd) as [Ha Hs]. by apply (ok_drop h _ mp m d).
  - destruct (db_ref d - 1 =? 0) eqn:E2; bool_prop; [lia|].
    split; [|split; [done|]; exists d; split; [done|]; by rewrite (proj2 (Z.eqb_neq _ _) E)].
    destruct (free_known (al h) _ mp mblk_cache (ok_al h Hok)) as [Ha Hs]; [left; by exists m|done|].
    apply ok_ref; try done.
    + eapply al_inv_iff; [|exact Ha]. intros o. by rewrite inuse_delete_m.
    + eapply al_same_weaken; [|exact Hs]. intros o [[? Hx]|Ho]; [by rewrite lookup_empty in Hx|by right].
    + intros x mx [Hne Hx]%lookup_delete_Some. destruct (ok_mblk h Hok x mx Hx) as (H1 & H2 & H3).
      split_and!; try done. destruct (proj1 Hs x) as [-> _]; [left; by exists mx|done].
    + intros x Hx. rewrite (refs_delete _ _ m) by done. rewrite decide_False by done. lia.
    + rewrite (refs_delete _ _ m) by done. rewrite decide_True by done. lia.
    + lia.
    + lia.
Qed.

Lemma freeb_dsub h mp m : msgs_ok h -> mblks h !! mp = Some m -> dsub (dblks (freeb h mp)) (dblks h).
Proof.
  intros Hok Hm. destruct (freeb_cases h mp m Hok Hm) as (_ & _ & d & Hd & ->).
  destruct (db_ref d =? 1); [apply dsub_delete|by apply dsub_ref].
Qed.

(** Releasing a message releases exactly its blocks. *)
Lemma free_chain_cases l : forall fuel h mp, msgs_ok h -> mchain (mblks h) mp l -> NoDup l ->
  (length l < fuel)%nat ->
  msgs_ok (free_chain fuel h mp) /\ mblks (free_chain fuel h mp) = foldr delete (mblks h) l
  /\ dsub (dblks (free_chain fuel h mp)) (dblks h).
Proof.
  induction l as [|x l IH]; intros [|fuel] h mp Hok Hl Hd Hf; try (cbn in Hf; lia); cbn [free_chain lchain] in *.
  - subst mp. rewrite Z.eqb_refl. split_and!; [done|done|apply dsub_refl].
  - destruct Hl as (-> & Hx & m & Hm & Hl). apply NoDup_cons in Hd as [Hxl Hd].
    rewrite (proj2 (Z.eqb_neq _ _) Hx), Hm.
    destruct (freeb_cases h x m Hok Hm) as (Hok' & Hmm & _).
    destruct (IH fuel (freeb h x) (b_cont m) Hok') as (H1 & H2 & H3); [|done|cbn in Hf; lia|].
    + rewrite Hmm. by apply lchain_delete.
    + split_and!; [done| |eapply dsub_trans; [exact H3|by eapply freeb_dsub]].
      rewrite H2, Hmm. cbn. clear. induction l as [|y l IH]; cbn; [done|]. by rewrite IH, delete_delete.
Qed.

Lemma freemsg_cases h mp l : msgs_ok h -> mchain (mblks h) mp l -> NoDup l ->
  msgs_ok (freemsg h mp) /\ mblks (freemsg h mp) = foldr delete (mblks h) l
  /\ dsub (dblks (freemsg h mp)) (dblks h).
Proof.
  intros Hok Hl Hd. apply free_chain_cases; try done. pose proof (lchain_length _ _ _ Hl Hd). lia.
Qed.

(** Rewriting links changes nothing for the invariant. *)
Lemma ok_links h mp f : (forall m, b_datap (f m) = b_datap m /\ b_rptr (f m) = b_rptr m /\ b_wptr (f m) = b_wptr m) ->
  msgs_ok h -> msgs_ok (mk_heap (al h) (alter f mp (mblks h)) (dblks h)).
Proof.
  intros Hf [H1 H2 H3 H4 H5 H6]. constructor; cbn [al mblks dblks]; try done.
  - eapply al_inv_iff; [|exact H1]. intros o. unfold inuse. by rewrite lookup_alter_is_Some.
  - intros x m Hx. apply lookup_alter_Some in Hx as [(<- & m0 & Hm0 & ->)|[Hne Hx]]; [|by apply H3].
    destruct (H3 mp m0 Hm0) as (H7 & H8 & H9). destruct (Hf m0) as (-> & -> & ->). done.
  - intros x d Hx. rewrite refs_alter by (intros m; apply Hf). by apply H4.
  - by rewrite <- size_dom, dom_alter_L, size_dom.
Qed.

(** With the same message blocks, the data blocks are determined. *)
Lemma dblks_eq h h' : msgs_ok h -> msgs_ok h' -> mblks h' = mblks h -> dsub (dblks h') (dblks h) ->
  dblks h' = dblks h.
Proof.
  intros Hok Hok' Hm Hsub. apply map_eq. intros x.
  destruct (dblks h' !! x) as [d'|] eqn:E'.
  - destruct (Hsub x d' E') as (d & Hd & Hc). rewrite Hd. f_equal.
    destruct (ok_dblk h Hok x d Hd) as (_ & _ & R1 & _), (ok_dblk h' Hok' x d' E') as (_ & _ & R2 & _).
    rewrite Hm, <- R1 in R2. symmetry. by apply clear_ref_eq.
  - destruct (dblks h !! x) as [d|] eqn:E; [|done].
    destruct (ok_dblk h Hok x d E) as (_ & _ & R1 & Hpos & _).
    assert (refs (mblks h) x = 0); [|lia]. rewrite <- Hm. apply refs_zero. intros mp m Hmp He.
    destruct (ok_mblk h' Hok' mp m Hmp) as (_ & _ & e & He' & _). congruence.
Qed.

(** One round of [dupmsg] that gets its block: the copy [l1] grows by it. *)
Lemma dup_step h mp m cp h1 head l1 : msgs_ok h -> room h -> mblks h !! mp = Some m ->
  mchain (mblks h) head l1 -> NoDup l1 -> dupb h mp = (cp, h1) -> cp <> 0 ->
  let h2 := if default 0 (last l1) =? 0 then h1 else set_cont h1 (default 0 (last l1)) cp in
  msgs_ok h2 /\ mchain (mblks h2) (if head =? 0 then cp else head) (l1 ++ [cp]) /\ NoDup (l1 ++ [cp])
  /\ mblks h !! cp = None /\ dsub (dblks h2) (dblks h)
  /\ (forall x, is_Some (mblks h !! x) -> win (mblks h2) x = win (mblks h) x)
  /\ win (mblks h2) cp = win (mblks h) mp
  /\ (forall x, x ∉ l1 ++ [cp] -> mblks h2 !! x = mblks h !! x)
  /\ size (mblks h2) = Datatypes.S (size (mblks h)).
Proof.
  intros Hok Hroom Hm Hl Hd He Hcp.
  destruct (dupb_cases h mp m cp h1 Hok Hroom Hm He) as [Hok1 [[? _]|(_ & Hn & Hmm & d & Hdb & Hdm)]]; [done|].
  assert (Hnl : cp ∉ l1).
  { intros Hin. destruct (lchain_lookup _ _ _ _ Hl Hin) as [_ [? ?]]. congruence. }
  assert (Hnd : NoDup (l1 ++ [cp])).
  { apply NoDup_app. split_and!; [done| |apply NoDup_singleton]. by intros x Hx ->%list_elem_of_singleton. }
  assert (Hsub : dsub (dblks h1) (dblks h)) by (rewrite Hdm; by apply dsub_ref).
  assert (Hcpm : mblks h1 !! cp = Some (dup_of m)) by (rewrite Hmm; apply lookup_insert_eq).
  assert (Hold : forall x, x <> cp -> mblks h1 !! x = mblks h !! x)
    by (intros x Hx; rewrite Hmm; by apply lookup_insert_ne).
  assert (Hl1 : mchain (mblks h1) head l1).
  { eapply lchain_ext; [|exact Hl]. intros x mx Hx Hmx. exists mx. rewrite Hold; [done|]. by intros ->. }
  assert (Hsz : size (mblks h1) = Datatypes.S (size (mblks h))) by (rewrite Hmm; by apply map_size_insert_None).
  destruct l1 as [|y l1].
  - cbn in Hl. subst head. cbn. split_and!; try done; [by exists (dup_of m)| | |].
    + intros x [mx Hx]. unfold win. rewrite Hold; [done|congruence].
    + unfold win. by rewrite Hcpm, Hm.
    + intros x [Hx _]%not_elem_of_cons. by apply Hold.
  - destruct (last (y :: l1)) as [tail|] eqn:Et; [|by apply last_None in Et].
    change (default 0 (Some tail)) with tail.
    assert (Htin : tail ∈ y :: l1) by by apply last_Some_elem_of.
    destruct (lchain_lookup _ _ _ _ Hl Htin) as [Htz _]. rewrite (proj2 (Z.eqb_neq _ _) Htz).
    assert (Hy : head = y /\ y <> 0) by (destruct Hl as (? & ? & _); done). destruct Hy as [-> Hy].
    rewrite (proj2 (Z.eqb_neq _ _) Hy). unfold set_cont. cbn [mblks dblks].
    assert (Hwin : forall x, win (alter (fun m => m <| b_cont := cp |>) tail (mblks h1)) x = win (mblks h1) x).
    { intros x. unfold win. destruct (decide (x = tail)) as [->|].
      - rewrite lookup_alter_eq. by destruct (mblks h1 !! tail).
      - by rewrite lookup_alter_ne. }
    split_and!; try done.
    + by apply ok_links.
    + by apply (lchain_snoc (mblks h1) _ tail cp (dup_of m)).
    + intros x [mx Hx]. rewrite Hwin. unfold win. rewrite Hold; [done|congruence].
    + rewrite Hwin. unfold win. by rewrite Hcpm, Hm.
    + intros x Hx. apply not_elem_of_app in Hx as [Hx1 Hx2]. rewrite lookup_alter_ne by (by intros <-).
      apply Hold. intros ->. apply Hx2. by apply list_elem_of_singleton.
    + by rewrite <- size_dom, dom_alter_L, size_dom.
Qed.

Lemma foldr_delete_lookup (mm : gmap Z msgb) l x :
  foldr delete mm l !! x = if decide (x ∈ l) then None else mm !! x.
Proof.
  induction l as [|y l IH]; cbn; [by rewrite decide_False by apply not_elem_of_nil|].
  destruct (decide (x = y)) as [->|Hne].
  - by rewrite lookup_delete_eq, decide_True by (apply elem_of_cons; by left).
  - rewrite lookup_delete_ne, IH by done. destruct (decide (x ∈ l)).
    + by rewrite decide_True by (apply elem_of_cons; by right).
    + by rewrite decide_False by (by apply not_elem_of_cons).
Qed.

Lemma undo_grow (mm mm2 : gmap Z msgb) l1 cp : mm !! cp = None ->
  (forall x, x ∉ l1 ++ [cp] -> mm2 !! x = mm !! x) ->
  foldr delete mm2 (l1 ++ [cp]) = foldr delete mm l1.
Proof.
  intros Hcp Ho. apply map_eq. intros x. rewrite !foldr_delete_lookup.
  destruct (decide (x ∈ l1)) as [Hx|Hx]; [by rewrite decide_True by (apply elem_of_app; by left)|].
  destruct (decide (x = cp)) as [->|Hne].
  - by rewrite decide_True by (apply elem_of_app; right; by apply list_elem_of_singleton).
  - assert (x ∉ l1 ++ [cp]) by (apply not_elem_of_app; split; [done|]; by intros ?%list_elem_of_singleton).
    rewrite decide_False by done. by apply Ho.
Qed.

(** [dupmsg] from the point where [l1] is copied and [l2] is left. *)
Lemma dup_chain_cases l2 : forall fuel h mp head l1 q h', msgs_ok h ->
  Z.of_nat (size (mblks h) + length l2) < 2147483648 ->
  mchain (mblks h) mp l2 -> mchain (mblks h) head l1 -> NoDup l1 -> (forall x, x ∈ l2 -> x ∉ l1) ->
  (length l2 < fuel)%nat -> dup_chain fuel h mp head (default 0 (last l1)) = (q, h') ->
  msgs_ok h' /\ dsub (dblks h') (dblks h)
  /\ ((q = 0 /\ mblks h' = foldr delete (mblks h) l1)
      \/ exists l, mchain (mblks h') q (l1 ++ l) /\ NoDup (l1 ++ l)
          /\ (forall x, x ∈ l -> mblks h !! x = None)
          /\ (forall x, is_Some (mblks h !! x) -> win (mblks h') x = win (mblks h) x)
          /\ map (win (mblks h')) l = map (win (mblks h)) l2
          /\ forall x, x ∉ l1 ++ l -> mblks h' !! x = mblks h !! x).
Proof.
  induction l2 as [|y l2 IH]; intros [|fuel] h mp head l1 q h' Hok Hfew Hl2 Hl1 Hd Hdis Hf;
    try (cbn in Hf; lia); cbn [dup_chain lchain] in *.
  { subst mp. rewrite Z.eqb_refl. intros [= <- <-]. split_and!; [done|apply dsub_refl|].
    right. exists []. rewrite app_nil_r. split_and!; try done; by intros ? ?%elem_of_nil. }
  destruct Hl2 as (-> & Hy & m & Hm & Hl2). rewrite (proj2 (Z.eqb_neq _ _) Hy).
  destruct (dupb h y) as [cp h1] eqn:E. cbn [length] in *.
  assert (Hroom : room h) by (unfold room; lia).
  destruct (cp =? 0) eqn:Ecp; bool_prop.
  { subst cp. destruct (dupb_cases h y m 0 h1 Hok Hroom Hm E) as [Hok1 [(_ & Em & Ed)|[? _]]]; [|done].
    destruct (head =? 0) eqn:Eh; bool_prop; intros [= <- <-].
    - subst head. rewrite Em, Ed. destruct l1 as [|z l1]; [|destruct Hl1 as (? & ? & _); congruence].
      split_and!; [done|apply dsub_refl|by left].
    - rewrite <- Em in Hl1. destruct (freemsg_cases h1 head l1 Hok1 Hl1 Hd) as (H1 & H2 & H3).
      rewrite <- Ed, <- Em. split_and!; [done|done|by left]. }
  destruct (dup_step h y m cp h1 head l1 Hok Hroom Hm Hl1 Hd E Ecp)
    as (Hok2 & Hc2 & Hd2 & Hn2 & Hs2 & Hw2 & Hwc & Ho2 & Hz2).
  set (h2 := if default 0 (last l1) =? 0 then h1 else set_cont h1 (default 0 (last l1)) cp) in *.
  assert (Hyl : forall x, x ∈ y :: l2 -> x ∉ l1 ++ [cp]).
  { intros x Hx [Hx1|Hx1%list_elem_of_singleton]%elem_of_app; [by apply (Hdis x)|]. subst x.
    apply elem_of_cons in Hx as [->|Hx]; [congruence|].
    destruct (lchain_lookup _ _ _ _ Hl2 Hx) as [_ [? ?]]. congruence. }
  rewrite (Ho2 y) by (apply Hyl, elem_of_cons; by left). rewrite Hm. intros Hrun.
  replace cp with (default 0 (last (l1 ++ [cp]))) in Hrun at 2 by by rewrite last_snoc.
  destruct (IH fuel h2 (b_cont m) (if head =? 0 then cp else head) (l1 ++ [cp]) q h' Hok2) as (H1 & H2 & H3); [lia| |done|done| |lia|done|].
  { eapply lchain_ext; [|exact Hl2]. intros x mx Hx Hmx. exists mx.
    rewrite Ho2; [done|]. apply Hyl, elem_of_cons. by right. }
  { intros x Hx. apply Hyl, elem_of_cons. by right. }
  assert (Hin : forall x, is_Some (mblks h !! x) -> is_Some (mblks h2 !! x)).
  { intros x Hx. pose proof (Hw2 x Hx) as Hw. destruct Hx as [mx Hx]. unfold win in Hw. rewrite Hx in Hw.
    by destruct (mblks h2 !! x). }
  split_and!; [done|by eapply dsub_trans|].
  destruct H3 as [[-> H3]|(l & G1 & G2 & G3 & G4 & G5 & G6)].
  - left. split; [done|]. rewrite H3. by apply undo_grow.
  - right. exists (cp :: l). change (l1 ++ cp :: l) with (l1 ++ [cp] ++ l). rewrite app_assoc.
    split_and!; try done.
    + intros x [->|Hx]%elem_of_cons; [done|]. apply eq_None_not_Some. intros Hs%Hin.
      rewrite (G3 x Hx) in Hs. by destruct Hs.
    + intros x Hx. rewrite G4 by by apply Hin. by apply Hw2.
    + cbn. rewrite G5. f_equal.
      * rewrite G4; [done|]. destruct (win (mblks h2) cp) eqn:Ew; unfold win in *; [by destruct (mblks h2 !! cp)|].
        rewrite Hm in Hwc. done.
      * apply map_ext_in. intros x Hx%list_elem_of_In. apply Hw2. by destruct (lchain_lookup _ _ _ x Hl2 Hx).
    + intros x Hx. rewrite G6 by done. apply Ho2. intros Hx'. apply Hx, elem_of_app. by left.
Qed.

Lemma dupmsg_cases h mp l q h' : msgs_ok h -> Z.of_nat (size (mblks h) + length l) < 2147483648 ->
  mchain (mblks h) mp l -> NoDup l -> dupmsg h mp = (q, h') ->
  msgs_ok h' /\ dsub (dblks h') (dblks h)
  /\ ((q = 0 /\ mblks h' = mblks h)
      \/ exists l', mchain (mblks h') q l' /\ NoDup l'
          /\ (forall x, x ∈ l' -> mblks h !! x = None)
          /\ (forall x, is_Some (mblks h !! x) -> win (mblks h') x = win (mblks h) x)
          /\ map (win (mblks h')) l' = map (win (mblks h)) l
          /\ forall x, x ∉ l' -> mblks h' !! x = mblks h !! x).
Proof.
  intros Hok Hfew Hl Hd He. pose proof (lchain_length _ _ _ Hl Hd) as Hlen.
  apply (dup_chain_cases l _ h mp 0 [] q h' Hok Hfew Hl eq_refl (NoDup_nil_2)) in He;
    [done|by intros ? _ ?%elem_of_nil|lia].
Qed.

(** What modules do with messages: allocate, share, release, link blocks into
    messages, and move the window of a block inside its buffer. *)
Inductive msg_step : heap T -> heap T -> Prop :=
| step_allocb h n mp h' : 0 <= n -> room h -> allocb h n = (mp, h') -> msg_step h h'
| step_dupb h mp m cp h' : room h -> mblks h !! mp = Some m -> dupb h mp = (cp, h') -> msg_step h h'
| step_freeb h mp m : mblks h !! mp = Some m -> msg_step h (freeb h mp)
| step_freemsg h mp l : mchain (mblks h) mp l -> NoDup l -> msg_step h (freemsg h mp)
| step_dupmsg h mp l q h' : mchain (mblks h) mp l -> NoDup l ->
    Z.of_nat (size (mblks h) + length l) < 2147483648 -> dupmsg h mp = (q, h') -> msg_step h h'
| step_cont h mp c : msg_step h (set_cont h mp c)
| step_window h mp m d r w : mblks h !! mp = Some m -> dblks h !! b_datap m = Some d ->
    db_base d <= r <= w -> w <= db_lim d ->
    msg_step h (mk_heap (al h) (<[mp := m <| b_rptr := r |> <| b_wptr := w |>]> (mblks h)) (dblks h)).

Lemma ok_window h mp m d r w : msgs_ok h -> mblks h !! mp = Some m -> dblks h !! b_datap m = Some d ->
  db_base d <= r <= w -> w <= db_lim d ->
  msgs_ok (mk_heap (al h) (<[mp := m <| b_rptr := r |> <| b_wptr := w |>]> (mblks h)) (dblks h)).
Proof.
  intros [H1 H2 H3 H4 H5 H6] Hm Hd Hr Hw. constructor; cbn [al mblks dblks]; try done.
  - eapply al_inv_iff; [|exact H1]. intros o. rewrite inuse_insert_m. split; [by left|].
    intros [?| ->]; [done|]. left. by exists m.
  - intros x mx Hx. destruct (decide (x = mp)) as [->|Hne].
    + rewrite lookup_insert_eq in Hx. injection Hx as <-. destruct (H3 mp m Hm) as (H7 & H8 & _).
      split_and!; [done|done|]. by exists d.
    + rewrite lookup_insert_ne in Hx by done. by apply H3.
  - intros x e Hx. rewrite <- insert_delete_eq, refs_insert by apply lookup_delete_eq. cbn.
    rewrite (refs_delete _ _ m) by done. destruct (H4 x e Hx) as (G1 & G2 & G3 & G4 & G5).
    split_and!; try done. lia.
  - rewrite <- insert_delete_eq, map_size_insert_None by apply lookup_delete_eq.
    rewrite map_size_delete_Some by by exists m. pose proof (map_size_ne_0_lookup_2 (mblks h) mp (mk_is_Some _ _ Hm)). lia.
Qed.

Lemma msg_step_ok h h' : msgs_ok h -> msg_step h h' -> msgs_ok h'.
Proof.
  intros Hok Hs. destruct Hs.
  - by eapply allocb_cases.
  - by eapply dupb_cases.
  - by eapply freeb_cases.
  - by eapply freemsg_cases.
  - by eapply dupmsg_cases.
  - by apply ok_links.
  - by eapply ok_window.
Qed.

Lemma empty_ok a : al_inv a (fun _ => False) -> al_cache a mblk_cache -> al_cache a dblk_cache ->
  msgs_ok (mk_heap a ∅ ∅).
Proof.
  intros Ha Cm Cd. constructor; cbn; try done.
  - eapply al_inv_iff; [|exact Ha]. intros o. split; [done|]. unfold inuse. rewrite !lookup_empty.
    intros [[? ?]|[[? ?]|(_ & x & d & Hx & _)]]; [done|done|]. by rewrite lookup_empty in Hx.
Qed.

Lemma no_mblks h : msgs_ok h -> mblks h = ∅ -> al_inv (al h) (fun _ => False).
Proof.
  intros Hok Hm. assert (Hd : dblks h = ∅).
  { apply map_empty. intros x. destruct (dblks h !! x) as [d|] eqn:E; [|done].
    destruct (ok_dblk h Hok x d E) as (_ & _ & Hr & Hp & _).
    rewrite refs_zero in Hr; [lia|]. intros mp m. by rewrite Hm, lookup_empty. }
  eapply al_inv_iff; [|exact (ok_al h Hok)]. intros o. unfold inuse. rewrite Hm, Hd, !lookup_empty.
  split; [|done]. intros [[? ?]|[[? ?]|(_ & x & d & Hx & _)]]; [done|done|]. by rewrite lookup_empty in Hx.
Qed.

(** C18: From an empty store, whatever the modules do, every message block points
    into a buffer the allocator has handed out, every data block counts its message
    blocks exactly and no two share a buffer, and the blocks in use are exactly
    those of the messages; once no message is left everything has been given back. *)
Theorem messages_never_leak (a : T) (h : heap T) :
  al_inv a (fun _ => False) -> al_cache a mblk_cache -> al_cache a dblk_cache ->
  rtc msg_step (mk_heap a ∅ ∅) h ->
  msgs_ok h /\ (mblks h = ∅ -> al_inv (al h) (fun _ => False)).
Proof.
  intros Ha Cm Cd Hr. assert (Hok : msgs_ok h).
  { pose proof (empty_ok a Ha Cm Cd) as Hok. induction Hr as [|h0 h1 h2 Hs _ IH]; [done|].
    apply IH. by eapply msg_step_ok. }
  split; [done|]. by apply no_mblks.
Qed.

(** [freemsg] releases exactly the blocks of the message.  A data block and its
    buffer go when the last message block on it does, and stay, with one count less
    per block released, while others refer to it. *)
Theorem freemsg_exact (h : heap T) (mp : Z) (l : list Z) :
  msgs_ok h -> mchain (mblks h) mp l -> NoDup l ->
  let h' := freemsg h mp in
  msgs_ok h' /\ mblks h' = foldr delete (mblks h) l
  /\ forall x, match dblks h' !! x with
               | Some d' => exists d, dblks h !! x = Some d /\ clear_ref d = clear_ref d'
                   /\ db_ref d' = refs (foldr delete (mblks h) l) x /\ 0 < db_ref d'
               | None => refs (foldr delete (mblks h) l) x = 0
               end.
Proof.
  intros Hok Hl Hd h'. destruct (freemsg_cases h mp l Hok Hl Hd) as (H1 & H2 & H3).
  split_and!; [done|done|]. intros x. unfold h'. destruct (dblks (freemsg h mp) !! x) as [d'|] eqn:E.
  - destruct (H3 x d' E) as (d & Hdx & Hc). exists d.
    destruct (ok_dblk _ H1 x d' E) as (_ & _ & Hr & Hp & _). by rewrite H2 in Hr.
  - rewrite <- H2. apply refs_zero. intros y m Hy He.
    destruct (ok_mblk _ H1 y m Hy) as (_ & _ & e & He' & _). congruence.
Qed.

(** [dupmsg] copies the whole message or nothing.  On success the new message
    has new blocks, one per block of the original, each showing the same bytes; the
    original is as before.  On failure no block and no count has changed. *)
Theorem dupmsg_all_or_nothing (h : heap T) (mp : Z) (l : list Z) :
  msgs_ok h -> mchain (mblks h) mp l -> NoDup l -> l <> [] ->
  Z.of_nat (size (mblks h) + length l) < 2147483648 ->
  let '(q, h') := dupmsg h mp in
  msgs_ok h'
  /\ ((q = 0 /\ mblks h' = mblks h /\ dblks h' = dblks h)
      \/ (q <> 0 /\ exists l', mchain (mblks h') q l' /\ NoDup l' /\ length l' = length l
          /\ map (win (mblks h')) l' = map (win (mblks h)) l
          /\ (forall x, x ∈ l' -> mblks h !! x = None)
          /\ forall x, x ∉ l' -> mblks h' !! x = mblks h !! x)).
Proof.
  intros Hok Hl Hd Hne Hfew. destruct (dupmsg h mp) as [q h'] eqn:E.
  destruct (dupmsg_cases h mp l q h' Hok Hfew Hl Hd E) as (H1 & H2 & [[-> H3]|(l' & G1 & G2 & G3 & _ & G5 & G6)]).
  - split; [done|]. left. split_and!; [done|done|by apply dblks_eq].
  - split; [done|]. right.
    assert (Hlen : length l' = length l) by (apply (f_equal length) in G5; by rewrite !length_map in G5).
    split; [|by exists l']. destruct l' as [|y l']; [destruct l; done|]. by destruct G1 as (-> & ? & _).
Qed.

End MsgSpec.

(** ** Examples over the slab allocator *)

Definition boot_heap : heap Kmem.kmem := mk_heap (streams_init Kmem.boot) ∅ ∅.

Lemma boot_al : al_inv (al boot_heap) (fun _ => False)
  /\ al_cache (al boot_heap) mblk_cache /\ al_cache (al boot_heap) dblk_cache.
Proof.
  destruct (Kmem.kmem_init_inv Kmem.demo_pmm _ Kmem.demo_repr) as [Hi _]. fold Kmem.boot in Hi.
  split_and!; [split|eexists; vm_compute; reflexivity|eexists; vm_compute; reflexivity].
  - unfold boot_heap, al, streams_init.
    do 3 (apply Kmem.kmem_cache_init_inv; [|vm_compute; reflexivity|lia]). exact Hi.
  - unfold Kmem.classes_ok, Kmem.size_caches.
    repeat (constructor; [eexists; split; vm_compute; reflexivity|]). constructor.
Qed.

Lemma not_class : ~ al_class mblk_cache /\ ~ al_class dblk_cache.
Proof.
  cbn. unfold Kmem.size_caches, mblk_cache, dblk_cache. rewrite !elem_of_cons, !elem_of_nil. lia.
Qed.

(** One message of 100 bytes, and a second block sharing its data. *)
Definition heap_1 : heap Kmem.kmem := snd (allocb boot_heap 100).
Definition mp_1 : Z := fst (allocb boot_heap 100).
Definition heap_2 : heap Kmem.kmem := snd (dupb heap_1 mp_1).

Lemma mp_1_lookup : exists m, mblks heap_1 !! mp_1 = Some m /\ b_cont m = 0.
Proof. eexists. split; vm_compute; reflexivity. Qed.

Lemma heap_1_steps : rtc msg_step boot_heap heap_1.
Proof.
  apply rtc_once. apply (step_allocb boot_heap 100 mp_1); [lia|vm_compute; reflexivity|].
  apply surjective_pairing.
Qed.

Lemma heap_1_ok : msgs_ok heap_1.
Proof.
  destruct boot_al as (Ha & Cm & Cd), not_class as [N1 N2].
  apply (msg_step_ok N1 N2 boot_heap).
  - by apply empty_ok.
  - apply (step_allocb boot_heap 100 mp_1); [lia|vm_compute; reflexivity|]. apply surjective_pairing.
Qed.

Lemma heap_1_chain : mchain (mblks heap_1) mp_1 [mp_1].
Proof.
  destruct mp_1_lookup as (m & Hm & Hc). cbn [lchain].
  split; [reflexivity|]. split; [vm_compute; congruence|]. exists m. split; [exact Hm|exact Hc].
Qed.

Lemma messages_never_leak_witness :
  msgs_ok heap_2 /\ (mblks heap_2 = ∅ -> al_inv (al heap_2) (fun _ => False)).
Proof.
  apply (messages_never_leak (proj1 not_class) (proj2 not_class) (al boot_heap) heap_2); try apply boot_al.
  destruct mp_1_lookup as (m & Hm & _).
  eapply rtc_r; [exact heap_1_steps|].
  apply (step_dupb heap_1 mp_1 m (fst (dupb heap_1 mp_1))); [vm_compute; reflexivity|exact Hm|].
  apply surjective_pairing.
Defined.

Lemma freemsg_exact_witness :
  let h' := freemsg heap_1 mp_1 in
  msgs_ok h' /\ mblks h' = foldr delete (mblks heap_1) [mp_1]
  /\ forall x, match dblks h' !! x with
               | Some d' => exists d, dblks heap_1 !! x = Some d /\ clear_ref d = clear_ref d'
                   /\ db_ref d' = refs (foldr delete (mblks heap_1) [mp_1]) x /\ 0 < db_ref d'
               | None => refs (foldr delete (mblks heap_1) [mp_1]) x = 0
               end.
Proof.
  apply (freemsg_exact (proj1 not_class) (proj2 not_class) heap_1 mp_1 [mp_1] heap_1_ok heap_1_chain).
  apply NoDup_singleton.
Defined.

Lemma dupmsg_all_or_nothing_witness :
  let '(q, h') := dupmsg heap_1 mp_1 in
  msgs_ok h'
  /\ ((q = 0 /\ mblks h' = mblks heap_1 /\ dblks h' = dblks heap_1)
      \/ (q <> 0 /\ exists l', mchain (mblks h') q l' /\ NoDup l' /\ length l' = length [mp_1]
          /\ map (win (mblks h')) l' = map (win (mblks heap_1)) [mp_1]
          /\ (forall x, x ∈ l' -> mblks heap_1 !! x = None)
          /\ forall x, x ∉ l' -> mblks h' !! x = mblks heap_1 !! x)).
Proof.
  apply (dupmsg_all_or_nothing (proj1 not_class) (proj2 not_class) heap_1 mp_1 [mp_1] heap_1_ok heap_1_chain);
    [apply NoDup_singleton|done|vm_compute; reflexivity].
Defined.


End Streams.
