(* ===== verification/StreamQueue.v ===== *)
(** * STREAMS queues and service scheduling: theorems on [uts/os/io/streams.c]

    A queue is the list of the messages linked through [b_next] and [b_prev], and
    [putq], [putbq] and [getq] are the list operations on it; a CPU's run queue is
    the list of queues linked through [q_runlink], each exactly once. *)

From stdpp Require Import base numbers list gmap.
From Stdlib Require Import ZArith Lia Bool.
From S2P Require Import Prelude Links Streams.

Module StreamQueue.

Import Links Streams.

(** ** Queues are lists *)

(** The messages of a queue, linked through [b_next] and [b_prev]. *)
Notation seg := (dseg b_next b_prev).

(** Two stores that differ in queue links only. *)
Definition body (m : msgb) := (b_cont m, b_rptr m, b_wptr m, b_datap m, b_band m, b_flag m).

Definition same_body (mm mm' : gmap Z msgb) : Prop :=
  size mm' = size mm /\ forall x, body <$> (mm' !! x) = body <$> (mm !! x).

Lemma same_body_refl mm : same_body mm mm.
Proof. done. Qed.

Lemma same_body_trans a b c : same_body a b -> same_body b c -> same_body a c.
Proof. intros [H1 H2] [H3 H4]. split; [congruence|]. intros x. by rewrite H4. Qed.

Lemma same_body_alter mm x f : (forall m, body (f m) = body m) -> same_body mm (alter f x mm).
Proof.
  intros Hf. split; [by rewrite <- size_dom, dom_alter_L, size_dom|]. intros y.
  destruct (decide (y = x)) as [->|].
  - rewrite lookup_alter_eq. destruct (mm !! x); cbn; [by rewrite Hf|done].
  - by rewrite lookup_alter_ne.
Qed.

Lemma same_body_next mm x v : same_body mm (set_next mm x v).
Proof. by apply same_body_alter. Qed.
Lemma same_body_prev mm x v : same_body mm (set_prev mm x v).
Proof. by apply same_body_alter. Qed.

Create HintDb streams.
#[export] Hint Resolve same_body_refl same_body_next same_body_prev same_body_trans : streams.

Lemma dsize_same mm mm' fuel : same_body mm mm' -> forall mp n,
  dsize_chain fuel mm' mp n = dsize_chain fuel mm mp n.
Proof.
  intros [_ Hb]. induction fuel as [|fuel IH]; intros mp n; cbn [dsize_chain]; [done|].
  case_if; [done|]. specialize (Hb mp).
  destruct (mm !! mp) as [m|], (mm' !! mp) as [m'|]; try done.
  injection Hb as E1 E2 E3 _ _ _. by rewrite E1, E2, E3, IH.
Qed.

Lemma msgdsize_same mm mm' mp : same_body mm mm' -> msgdsize mm' mp = msgdsize mm mp.
Proof. intros Hb. unfold msgdsize. rewrite (proj1 Hb). by apply dsize_same. Qed.

Definition msg_bytes (mm : gmap Z msgb) (l : list Z) : Z :=
  foldr (fun x n => default 0 ((fun m => b_wptr m - b_rptr m) <$> mm !! x) + n) 0 l.

(** The size of a message is that of its blocks together. *)
Lemma msgdsize_chain mm mp l : mchain mm mp l -> NoDup l -> msgdsize mm mp = u64 (msg_bytes mm l).
Proof.
  intros Hl Hd. unfold msgdsize. pose proof (lchain_length _ _ _ Hl Hd) as Hlen.
  assert (Hg : forall fuel mp n, mchain mm mp l -> (length l < fuel)%nat -> is_u64 n ->
    dsize_chain fuel mm mp n = u64 (n + msg_bytes mm l)).
  { clear. induction l as [|x l IH]; intros [|fuel] mp n Hl Hf Hn; try (cbn in Hf; lia);
      cbn [dsize_chain lchain msg_bytes foldr] in *.
    - subst mp. rewrite Z.eqb_refl, Z.add_0_r. symmetry. by apply Z.mod_small.
    - destruct Hl as (-> & Hx & m & Hm & Hl). rewrite (proj2 (Z.eqb_neq _ _) Hx), Hm.
      rewrite IH; [|done|cbn in Hf; lia|apply u64_range]. cbn. fold (msg_bytes mm l). warith. }
  rewrite Hg; [done|done|lia|]. unfold is_u64. lia.
Qed.

Definition qbytes (mm : gmap Z msgb) (l : list Z) : Z := foldr (fun x n => msgdsize mm x + n) 0 l.

Lemma qbytes_same mm mm' l : same_body mm mm' -> qbytes mm' l = qbytes mm l.
Proof.
  intros Hb. unfold qbytes. induction l as [|x l IH]; cbn [foldr]; [done|]. by rewrite IH, (msgdsize_same mm).
Qed.

Lemma qbytes_app mm l1 l2 : qbytes mm (l1 ++ l2) = qbytes mm l1 + qbytes mm l2.
Proof.
  unfold qbytes. induction l1 as [|x l1 IH]; cbn [foldr app]; [done|]. rewrite IH. lia.
Qed.

(** Queue [q] holds the messages [l], first to last. *)
Definition queue_ok (mm : gmap Z msgb) (q : queue) (l : list Z) : Prop :=
  seg mm 0 (q_first q) l (q_last q) 0 /\ NoDup l /\ q_count q = u64 (qbytes mm l).

(** The stores agree away from the messages [l], and everywhere but for links. *)
Definition links_only (mm mm' : gmap Z msgb) (l : list Z) : Prop :=
  same_body mm mm' /\ forall x, x ∉ l -> mm' !! x = mm !! x.

Lemma lookup_links mm x y v : mm !! x = Some y ->
  set_next mm x v !! x = Some (y <| b_next := v |>) /\ set_prev mm x v !! x = Some (y <| b_prev := v |>).
Proof. intros Hx. unfold set_next, set_prev. by rewrite !lookup_alter_eq, Hx. Qed.

Lemma lookup_links_ne mm x y v : x <> y ->
  set_next mm x v !! y = mm !! y /\ set_prev mm x v !! y = mm !! y.
Proof. intros Hx. unfold set_next, set_prev. by rewrite !lookup_alter_ne. Qed.

(** Linking at the tail. *)
Lemma seg_snoc mm p c l e x m : seg mm p c l e 0 -> NoDup l -> x ∉ l -> x <> 0 -> mm !! x = Some m ->
  let mm1 := set_prev (set_next mm x 0) x e in
  (l = [] -> e = p /\ c = 0 /\ seg mm1 p x [x] x 0)
  /\ (l <> [] -> e <> 0 /\ e ∈ l /\ seg (set_next mm1 e x) p c (l ++ [x]) x 0).
Proof.
  intros Hs Hd Hx Hz Hm mm1.
  assert (Hm1 : mm1 !! x = Some (m <| b_next := 0 |> <| b_prev := e |>)).
  { unfold mm1. destruct (lookup_links mm x m 0 Hm) as [H1 _].
    by destruct (lookup_links _ x _ e H1) as [_ H2]. }
  split.
  - intros ->. destruct Hs as [-> <-]. split_and!; [done|done|]. cbn [dseg].
    split_and!; [done|done|].
    eexists. split; [exact Hm1|]. done.
  - intros Hl. destruct (exists_last Hl) as (l0 & y & ->). apply dseg_app in Hs as (e1 & n1 & Hs & Hy).
    destruct Hy as (-> & Hy & my & Hmy & Hp & -> & Hn).
    assert (Hxy : x <> y) by (intros ->; apply Hx, elem_of_app; right; by apply list_elem_of_singleton).
    assert (Hold : forall z, z <> x -> z <> y -> set_next mm1 y x !! z = mm !! z).
    { intros z H1 H2. destruct (lookup_links_ne mm1 y z x) as [-> _]; [done|]. unfold mm1.
      destruct (lookup_links_ne (set_next mm x 0) x z y) as [_ ->]; [done|].
      by destruct (lookup_links_ne mm x z 0) as [-> _]. }
    apply NoDup_app in Hd as (_ & Hdy & _).
    split_and!; [done|apply elem_of_app; right; by apply list_elem_of_singleton|].
    apply dseg_app. exists y, x. split; cycle 1.
    { split_and!; [done|done|]. eexists. split; [by destruct (lookup_links_ne mm1 y x x) as [-> _]|done]. }
    apply dseg_app. exists e1, y. split.
    + eapply dseg_ext; [|exact Hs]. intros z mz Hz' Hmz. exists mz. rewrite Hold; [done| |].
      * intros ->. apply Hx, elem_of_app. by left.
      * intros ->. apply (Hdy y Hz'). by apply list_elem_of_singleton.
    + assert (Hy1 : mm1 !! y = Some my).
      { unfold mm1. destruct (lookup_links_ne (set_next mm x 0) x y y) as [_ ->]; [done|].
        by destruct (lookup_links_ne mm x y 0) as [-> _]. }
      split_and!; [done|done|]. eexists. split; [by apply (lookup_links mm1 y my x)|]. done.
Qed.

(** Changing what the first block points back to. *)
Lemma seg_repoint mm p c y l e n v : seg mm p c (y :: l) e n -> y ∉ l ->
  seg (set_prev mm y v) v c (y :: l) e n.
Proof.
  intros (-> & Hy & m & Hm & _ & Hs) Hn. cbn [dseg]. split_and!; [done|done|].
  exists (m <| b_prev := v |>). split; [by apply (lookup_links mm y m v)|]. split; [done|].
  eapply dseg_ext; [|exact Hs]. intros z mz Hz Hmz. exists mz. split; [|done].
  destruct (lookup_links_ne mm y z v) as [_ ->]; [by intros ->|done].
Qed.

(** A list that does not contain [x] does not see [x]'s links change. *)
Lemma seg_other mm p c l e n x v w : seg mm p c l e n -> x ∉ l ->
  seg (set_next (set_prev mm x v) x w) p c l e n /\ seg (set_prev (set_next mm x v) x w) p c l e n.
Proof.
  intros Hs Hx. split; (eapply dseg_ext; [|exact Hs]); intros z mz Hz Hmz; exists mz; (split; [|done]);
    assert (x <> z) as Hne by (by intros ->).
  - destruct (lookup_links_ne (set_prev mm x v) x z w Hne) as [-> _].
    by destruct (lookup_links_ne mm x z v Hne) as [_ ->].
  - destruct (lookup_links_ne (set_next mm x v) x z w Hne) as [_ ->].
    by destruct (lookup_links_ne mm x z v Hne) as [-> _].
Qed.

(** Linking at the head. *)
Lemma seg_push mm c l e x m : seg mm 0 c l e 0 -> NoDup l -> x ∉ l -> x <> 0 -> mm !! x = Some m ->
  let mm1 := set_next (set_prev mm x 0) x c in
  (l = [] -> c = 0 /\ seg mm1 0 x [x] x 0)
  /\ (l <> [] -> c <> 0 /\ c ∈ l /\ seg (set_prev mm1 c x) 0 x (x :: l) e 0).
Proof.
  intros Hs Hd Hx Hz Hm mm1.
  assert (Hm1 : mm1 !! x = Some (m <| b_prev := 0 |> <| b_next := c |>)).
  { unfold mm1. destruct (lookup_links mm x m 0 Hm) as [_ H1].
    by destruct (lookup_links _ x _ c H1) as [H2 _]. }
  split.
  - intros ->. destruct Hs as [_ <-]. split; [done|]. cbn [dseg]. split_and!; [done|done|].
    eexists. split; [exact Hm1|]. done.
  - intros Hl. destruct l as [|y l]; [done|]. apply NoDup_cons in Hd as [Hy Hd].
    assert (Hc : c = y /\ y <> 0) by (destruct Hs as (? & ? & _); done). destruct Hc as [-> Hyz].
    split_and!; [done|apply elem_of_cons; by left|].
    assert (Hs1 : seg mm1 0 y (y :: l) e 0) by by apply seg_other.
    split_and!; [done|done|]. exists (m <| b_prev := 0 |> <| b_next := y |>).
    apply not_elem_of_cons in Hx as [Hxy _].
    split; [by destruct (lookup_links_ne mm1 y x x) as [_ ->]|]. split; [done|].
    by apply (seg_repoint mm1 0 y).
Qed.

(** Unlinking the head. *)
Lemma seg_pop mm x l e m : seg mm 0 x (x :: l) e 0 -> NoDup (x :: l) -> mm !! x = Some m ->
  (l = [] -> b_next m = 0 /\ seg (set_prev (set_next mm x 0) x 0) 0 (b_next m) [] 0 0)
  /\ (l <> [] -> b_next m <> 0 /\ b_next m ∈ l /\
      seg (set_prev (set_next (set_prev mm (b_next m) 0) x 0) x 0) 0 (b_next m) l e 0).
Proof.
  intros (_ & Hx & m' & Hm' & _ & Hs) [Hn Hd]%NoDup_cons Hm. rewrite Hm in Hm'. injection Hm' as <-. split.
  - intros ->. destruct Hs as [_ <-]. done.
  - intros Hl. destruct l as [|y l]; [done|].
    assert (Hc : b_next m = y /\ y <> 0) by (destruct Hs as (? & ? & _); done). destruct Hc as [E Hyz].
    rewrite E in *. split_and!; [done|apply elem_of_cons; by left|].
    apply seg_other; [|done]. apply NoDup_cons in Hd as [Hy _]. by apply (seg_repoint mm x).
Qed.

(** The byte count and the flag at the end of [putq]. *)
Lemma putq_flag q n mp : let q' := q <| q_last := mp |> <| q_count := n |> in
  let r := if q_hiwat q' <=? s64 (q_count q') then q' <| q_flag := Z.lor (q_flag q') QFULL |> else q' in
  (forall mm l, seg mm 0 (q_first q) l mp 0 -> NoDup l -> n = u64 (qbytes mm l) -> queue_ok mm r l)
  /\ q_flag r = (if q_hiwat q <=? s64 (q_count r) then Z.lor (q_flag q) QFULL else q_flag q)
  /\ q_hiwat r = q_hiwat q /\ q_lowat r = q_lowat q.
Proof.
  destruct q as [? ? ? ? ? ? ? ? ? ? hi ? ?]. cbv zeta. cbn -[s64].
  destruct (hi <=? s64 n) eqn:E; cbn -[s64]; rewrite E; by split_and!.
Qed.

Lemma putq_cases mm q l mp m : queue_ok mm q l -> mm !! mp = Some m -> mp <> 0 -> mp ∉ l ->
  let '(mm', q') := putq mm q mp in
  queue_ok mm' q' (l ++ [mp]) /\ links_only mm mm' (mp :: l)
  /\ q_flag q' = (if q_hiwat q <=? s64 (q_count q') then Z.lor (q_flag q) QFULL else q_flag q)
  /\ q_hiwat q' = q_hiwat q /\ q_lowat q' = q_lowat q.
Proof.
  intros (Hs & Hd & Hc) Hm Hz Hn.
  destruct (seg_snoc mm 0 (q_first q) l (q_last q) mp m Hs Hd Hn Hz Hm) as [H1 H2].
  assert (Hd' : NoDup (l ++ [mp])).
  { apply NoDup_app. split_and!; [done| |apply NoDup_singleton]. by intros x Hx ->%list_elem_of_singleton. }
  unfold putq. set (mm1 := set_prev (set_next mm mp 0) mp (q_last q)) in *.
  assert (Hb1 : same_body mm mm1) by (eapply same_body_trans; [apply same_body_next|apply same_body_prev]).
  assert (Ho1 : forall x, x <> mp -> mm1 !! x = mm !! x).
  { intros x Hx. unfold mm1. destruct (lookup_links_ne (set_next mm mp 0) mp x (q_last q)) as [_ ->]; [done|].
    by destruct (lookup_links_ne mm mp x 0) as [-> _]. }
  assert (Hcount : forall mm', same_body mm mm' ->
    u64 (q_count q + msgdsize mm' mp) = u64 (qbytes mm' (l ++ [mp]))).
  { intros mm' Hb. rewrite qbytes_app, (qbytes_same mm mm' l), Hc by done. cbn [qbytes foldr]. warith. }
  destruct l as [|y l].
  - destruct (H1 eq_refl) as (E & _ & Hs1). rewrite (proj2 (Z.eqb_eq _ _) E).
    destruct (putq_flag (q <| q_first := mp |>) (u64 (q_count q + msgdsize mm1 mp)) mp)
      as (E1 & E4 & E5 & E6).
    split_and!; [| |exact E4|exact E5|exact E6].
    + apply (E1 _ _ Hs1); [done|by apply Hcount].
    + split; [done|]. intros x [Hx _]%not_elem_of_cons. by apply Ho1.
  - destruct (H2 ltac:(done)) as (Ez & Ein & Hs1). rewrite (proj2 (Z.eqb_neq _ _) Ez).
    set (mm2 := set_next mm1 (q_last q) mp) in *.
    assert (Hb2 : same_body mm mm2) by (eapply same_body_trans; [exact Hb1|apply same_body_next]).
    destruct (putq_flag q (u64 (q_count q + msgdsize mm2 mp)) mp) as (E1 & E4 & E5 & E6).
    split_and!; [| |exact E4|exact E5|exact E6].
    + apply (E1 _ _ Hs1); [done|by apply Hcount].
    + split; [done|]. intros x [Hx Hx']%not_elem_of_cons. unfold mm2.
      destruct (lookup_links_ne mm1 (q_last q) x mp) as [-> _]; [by intros <-|]. by apply Ho1.
Qed.

Lemma putbq_cases mm q l mp m : queue_ok mm q l -> mm !! mp = Some m -> mp <> 0 -> mp ∉ l ->
  let '(mm', q') := putbq mm q mp in
  queue_ok mm' q' (mp :: l) /\ links_only mm mm' (mp :: l) /\ q_flag q' = q_flag q
  /\ q_hiwat q' = q_hiwat q /\ q_lowat q' = q_lowat q.
Proof.
  intros (Hs & Hd & Hc) Hm Hz Hn.
  destruct (seg_push mm (q_first q) l (q_last q) mp m Hs Hd Hn Hz Hm) as [H1 H2].
  assert (Hd' : NoDup (mp :: l)) by by constructor.
  unfold putbq. set (mm1 := set_next (set_prev mm mp 0) mp (q_first q)) in *.
  assert (Hb1 : same_body mm mm1) by (eapply same_body_trans; [apply same_body_prev|apply same_body_next]).
  assert (Ho1 : forall x, x <> mp -> mm1 !! x = mm !! x).
  { intros x Hx. unfold mm1. destruct (lookup_links_ne (set_prev mm mp 0) mp x (q_first q)) as [-> _]; [done|].
    by destruct (lookup_links_ne mm mp x 0) as [_ ->]. }
  assert (Hcount : forall mm', same_body mm mm' ->
    u64 (q_count q + msgdsize mm' mp) = u64 (qbytes mm' (mp :: l))).
  { intros mm' Hb. cbn [qbytes foldr]. fold (qbytes mm' l). rewrite (qbytes_same mm mm' l), Hc by done. warith. }
  destruct l as [|y l].
  - destruct (H1 eq_refl) as (E & Hs1). rewrite (proj2 (Z.eqb_eq _ _) E). split_and!; try done.
    + split_and!; [done|done|by apply Hcount].
    + split; [done|]. intros x [Hx _]%not_elem_of_cons. by apply Ho1.
  - destruct (H2 ltac:(done)) as (Ez & Ein & Hs1). rewrite (proj2 (Z.eqb_neq _ _) Ez).
    set (mm2 := set_prev mm1 (q_first q) mp) in *.
    assert (Hb2 : same_body mm mm2) by (eapply same_body_trans; [exact Hb1|apply same_body_prev]).
    split_and!; try done.
    + split_and!; [done|done|by apply Hcount].
    + split; [done|]. intros x [Hx Hx']%not_elem_of_cons. unfold mm2.
      destruct (lookup_links_ne mm1 (q_first q) x mp) as [_ ->]; [by intros <-|]. by apply Ho1.
Qed.

(** The flag at the end of [getq]. *)
Lemma getq_flag q n : let q' := q <| q_count := n |> in
  let r := if s64 (q_count q') <=? q_lowat q'
           then q' <| q_flag := Z.land (q_flag q') (u32 (Z.lnot QFULL)) |> else q' in
  (forall mm l, seg mm 0 (q_first q) l (q_last q) 0 -> NoDup l -> n = u64 (qbytes mm l) -> queue_ok mm r l)
  /\ q_flag r = (if s64 (q_count r) <=? q_lowat q then Z.land (q_flag q) (u32 (Z.lnot QFULL)) else q_flag q)
  /\ q_hiwat r = q_hiwat q /\ q_lowat r = q_lowat q.
Proof.
  destruct q as [? ? ? ? ? ? ? ? ? ? ? lo ?]. cbv zeta. cbn -[s64 u32].
  destruct (s64 n <=? lo) eqn:E; cbn -[s64 u32]; rewrite E; by split_and!.
Qed.

Lemma getq_cases mm q x l : queue_ok mm q (x :: l) ->
  let '(y, mm', q') := getq mm q in
  y = x /\ queue_ok mm' q' l /\ links_only mm mm' (x :: l)
  /\ q_flag q' = (if s64 (q_count q') <=? q_lowat q then Z.land (q_flag q) (u32 (Z.lnot QFULL)) else q_flag q)
  /\ q_hiwat q' = q_hiwat q /\ q_lowat q' = q_lowat q.
Proof.
  intros (Hs & Hd & Hc). assert (Hfirst : q_first q = x /\ x <> 0) by (destruct Hs as (? & ? & _); done).
  destruct Hfirst as [Ef Hz]. destruct (proj2 Hs) as (_ & m & Hm & _). rewrite Ef in Hs.
  destruct (seg_pop mm x l (q_last q) m Hs Hd Hm) as [H1 H2]. apply NoDup_cons in Hd as [Hxl Hd].
  unfold getq. rewrite Ef, Hm, (proj2 (Z.eqb_neq _ _) Hz).
  change (q_first (q <| q_first := b_next m |>)) with (b_next m).
  assert (Hcount : forall mm', same_body mm mm' ->
    u64 (q_count q - msgdsize mm' x) = u64 (qbytes mm' l)).
  { intros mm' Hb. rewrite Hc. cbn [qbytes foldr]. fold (qbytes mm l).
    rewrite (qbytes_same mm mm' l), (msgdsize_same mm mm') by done. warith. }
  destruct l as [|y l].
  - destruct (H1 eq_refl) as (E & Hs1). rewrite (proj2 (Z.eqb_eq _ _) E).
    set (mm1 := set_prev (set_next mm x 0) x 0) in *.
    destruct (getq_flag (q <| q_first := b_next m |> <| q_last := 0 |>) (u64 (q_count q - msgdsize mm1 x)))
      as (E1 & E4 & E5 & E6).
    assert (Hb : same_body mm mm1) by (eapply same_body_trans; [apply same_body_next|apply same_body_prev]).
    split_and!; [done| | |exact E4|exact E5|exact E6].
    + apply (E1 _ _ Hs1); [done|by apply Hcount].
    + split; [done|]. intros z [Hx _]%not_elem_of_cons. unfold mm1.
      destruct (lookup_links_ne (set_next mm x 0) x z 0) as [_ ->]; [done|].
      by destruct (lookup_links_ne mm x z 0) as [-> _].
  - destruct (H2 ltac:(done)) as (Ez & Ein & Hs1). rewrite (proj2 (Z.eqb_neq _ _) Ez).
    set (mm1 := set_prev (set_next (set_prev mm (b_next m) 0) x 0) x 0) in *.
    destruct (getq_flag (q <| q_first := b_next m |>) (u64 (q_count q - msgdsize mm1 x)))
      as (E1 & E4 & E5 & E6).
    assert (Hb : same_body mm mm1).
    { eapply same_body_trans; [|apply same_body_prev]. eapply same_body_trans; [|apply same_body_next].
      apply same_body_prev. }
    split_and!; [done| | |exact E4|exact E5|exact E6].
    + apply (E1 _ _ Hs1); [done|by apply Hcount].
    + split; [done|]. intros z [Hx Hx']%not_elem_of_cons. unfold mm1.
      destruct (lookup_links_ne (set_next (set_prev mm (b_next m) 0) x 0) x z 0) as [_ ->]; [done|].
      destruct (lookup_links_ne (set_prev mm (b_next m) 0) x z 0) as [-> _]; [done|].
      destruct (lookup_links_ne mm (b_next m) z 0) as [_ ->]; [by intros <-|done].
Qed.

(** C35: A queue is the list of its messages.  [putq] appends, [putbq] puts in
    front and [getq] takes the first message off; none of them touches a message
    outside the queue or anything but queue links, and the byte count is the size
    of the messages queued. *)
Theorem queue_refines_list (mm : gmap Z msgb) (q : queue) (l : list Z) : queue_ok mm q l ->
  (forall mp m, mm !! mp = Some m -> mp <> 0 -> mp ∉ l ->
    (let '(mm', q') := putq mm q mp in
     queue_ok mm' q' (l ++ [mp]) /\ links_only mm mm' (mp :: l))
    /\ (let '(mm', q') := putbq mm q mp in
        queue_ok mm' q' (mp :: l) /\ links_only mm mm' (mp :: l)))
  /\ let '(y, mm', q') := getq mm q in
     match l with
     | [] => y = 0 /\ mm' = mm /\ q' = q
     | x :: l' => y = x /\ queue_ok mm' q' l' /\ links_only mm mm' l
     end.
Proof.
  intros Hq. split.
  - intros mp m Hm Hz Hn. split.
    + pose proof (putq_cases mm q l mp m Hq Hm Hz Hn) as Hp. destruct (putq mm q mp). tauto.
    + pose proof (putbq_cases mm q l mp m Hq Hm Hz Hn) as Hp. destruct (putbq mm q mp). tauto.
  - destruct l as [|x l].
    + destruct Hq as ((_ & Hf) & _). unfold getq. rewrite <- Hf. by destruct (mm !! 0).
    + pose proof (getq_cases mm q x l Hq) as Hg. destruct (getq mm q) as [[y mm'] q']. tauto.
Qed.


Definition full (q : queue) : bool := Z.testbit (q_flag q) 0.

Lemma full_lor f : Z.testbit (Z.lor f QFULL) 0 = true.
Proof. rewrite Z.lor_spec. apply orb_true_r. Qed.

Lemma full_clear f : Z.testbit (Z.land f (u32 (Z.lnot QFULL))) 0 = false.
Proof. rewrite Z.land_spec. apply andb_false_r. Qed.

Lemma flag_other f i : 0 < i < 32 ->
  Z.testbit (Z.lor f QFULL) i = Z.testbit f i
  /\ Z.testbit (Z.land f (u32 (Z.lnot QFULL))) i = Z.testbit f i.
Proof.
  intros Hi. rewrite Z.lor_spec, Z.land_spec. split.
  - change QFULL with (2 ^ 0). rewrite Z.pow2_bits_false by lia. apply orb_false_r.
  - change (u32 (Z.lnot QFULL)) with (Z.lxor (Z.ones 32) (2 ^ 0)).
    rewrite Z.lxor_spec, Z.ones_spec_low, Z.pow2_bits_false by lia. apply andb_true_r.
Qed.

(** Flow control.  A queue becomes full when a message brings it to its high
    water mark, and stops being full only when taking one off leaves it at or below
    its low water mark; in between the state stays.  The other flags stay. *)
Theorem queue_flow_control (mm : gmap Z msgb) (q : queue) (l : list Z) : queue_ok mm q l ->
  (forall mp m, mm !! mp = Some m -> mp <> 0 -> mp ∉ l ->
    0 <= qbytes mm (l ++ [mp]) < 9223372036854775808 ->
    let q' := snd (putq mm q mp) in
    full q' = (q_hiwat q <=? qbytes mm (l ++ [mp])) || full q
    /\ forall i, 0 < i < 32 -> Z.testbit (q_flag q') i = Z.testbit (q_flag q) i)
  /\ match l with
     | [] => True
     | x :: l' => 0 <= qbytes mm l' < 9223372036854775808 ->
         let q' := snd (getq mm q) in
         full q' = negb (qbytes mm l' <=? q_lowat q) && full q
         /\ forall i, 0 < i < 32 -> Z.testbit (q_flag q') i = Z.testbit (q_flag q) i
     end.
Proof.
  intros Hq. split.
  - intros mp m Hm Hz Hn Hb. pose proof (putq_cases mm q l mp m Hq Hm Hz Hn) as Hp.
    destruct (putq mm q mp) as [mm' q']. destruct Hp as ((_ & _ & Hc) & (Hs & _) & Hf & _).
    rewrite (qbytes_same mm mm') in Hc by done. unfold u64 in Hc. rewrite Z.mod_small in Hc by lia.
    rewrite Hc, s64_small in Hf by lia. cbv zeta. unfold full. cbn [snd]. rewrite Hf.
    case_if; (split; [|intros i Hi]); try done; [apply full_lor|by apply flag_other].
  - destruct l as [|x l]; [done|]. intros Hb. pose proof (getq_cases mm q x l Hq) as Hp.
    destruct (getq mm q) as [[y mm'] q']. destruct Hp as (_ & (_ & _ & Hc) & (Hs & _) & Hf & _).
    rewrite (qbytes_same mm mm') in Hc by done. unfold u64 in Hc. rewrite Z.mod_small in Hc by lia.
    rewrite Hc, s64_small in Hf by lia. cbv zeta. unfold full. cbn [snd]. rewrite Hf.
    case_if; (split; [|intros i Hi]); try done; [apply full_clear|by apply flag_other].
Qed.

(** [putbq] does not restore the state [getq] found: when one message holds a
    queue at its high water mark, taking it off and putting it back leaves the queue
    at the mark but no longer marked full. *)
Theorem putbq_forgets_full (mm : gmap Z msgb) (q : queue) (x : Z) : queue_ok mm q [x] ->
  q_hiwat q <= qbytes mm [x] -> 0 <= q_lowat q ->
  let '(y, mm1, q1) := getq mm q in
  let '(mm2, q2) := putbq mm1 q1 y in
  queue_ok mm2 q2 [x] /\ q_hiwat q2 <= qbytes mm2 [x] /\ full q2 = false.
Proof.
  intros Hq Hhi Hlo. pose proof (getq_cases mm q x [] Hq) as Hg.
  assert (Hm : x <> 0 /\ is_Some (mm !! x)) by (destruct Hq as [Hs _]; by apply (dseg_lookup _ _ _ _ _ _ x Hs), list_elem_of_singleton).
  destruct Hm as [Hz Hm].
  destruct (getq mm q) as [[y mm1] q1]. destruct Hg as (-> & Hq1 & ([Hsz Hb] & Ho) & Hf & Eh & _).
  assert (Hm1 : exists m1, mm1 !! x = Some m1).
  { destruct Hm as [m Hm]. specialize (Hb x). rewrite Hm in Hb. destruct (mm1 !! x) as [m1|]; [by exists m1|done]. }
  destruct Hm1 as [m1 Hm1].
  pose proof (putbq_cases mm1 q1 [] x m1 Hq1 Hm1 Hz ltac:(apply not_elem_of_nil)) as Hp.
  destruct (putbq mm1 q1 x) as [mm2 q2]. destruct Hp as (Hq2 & [Hb2 _] & Hf2 & Eh2 & _).
  split_and!; [done| |].
  - rewrite Eh2, Eh, (qbytes_same mm1 mm2), (qbytes_same mm mm1); done.
  - destruct Hq1 as (_ & _ & Hc1). cbn in Hc1. rewrite Hc1 in Hf.
    assert (s64 (u64 0) <=? q_lowat q = true) as E by (apply Z.leb_le; exact Hlo).
    rewrite E in Hf. unfold full. rewrite Hf2, Hf. apply full_clear.
Qed.

(** ** Run queues *)

Notation rchain := (lchain q_runlink).

Definition enabled (q : queue) : bool := negb (Z.land (q_flag q) QENAB =? 0).

(** Each CPU's run queue is the list [rq] gives, no queue is on two of them or
    twice on one, and the queues on them are those marked. *)
Record run_ok (r : run) (rq : Z -> list Z) : Prop := {
  run_list : forall c, rchain (queues r) (fst (cpu_srvq r c)) (rq c)
                       /\ snd (cpu_srvq r c) = default 0 (last (rq c));
  run_nodup : forall c, NoDup (rq c);
  run_once : forall c c' x, x ∈ rq c -> x ∈ rq c' -> c = c';
  run_flag : forall x q, queues r !! x = Some q -> enabled q = true <-> exists c, x ∈ rq c
}.

Definition upd (rq : Z -> list Z) (c : Z) (l : list Z) : Z -> list Z :=
  fun x => if decide (x = c) then l else rq x.

Lemma upd_eq rq c l : upd rq c l c = l.
Proof. unfold upd. by rewrite decide_True. Qed.
Lemma upd_ne rq c l x : x <> c -> upd rq c l x = rq x.
Proof. intros. unfold upd. by rewrite decide_False. Qed.

Lemma enabled_set f : negb (Z.land (Z.lor f QENAB) QENAB =? 0) = true.
Proof.
  change QENAB with (2 ^ 3). rewrite land_bit, Z.lor_spec, Z.pow2_bits_true by lia. apply orb_true_r.
Qed.

Lemma enabled_clear f : negb (Z.land (Z.land f (u32 (Z.lnot QENAB))) QENAB =? 0) = false.
Proof.
  change (Z.land (Z.land f (u32 (Z.lnot QENAB))) QENAB) with (Z.land (Z.land f (u32 (Z.lnot QENAB))) (2 ^ 3)).
  rewrite land_bit, Z.land_spec by lia. apply andb_false_r.
Qed.

Lemma cpu_srvq_insert qs sv rn c v x :
  cpu_srvq (mk_run qs (<[c := v]> sv) rn) x = if decide (x = c) then v else default (0, 0) (sv !! x).
Proof.
  unfold cpu_srvq. cbn [srvq]. destruct (decide (x = c)) as [->|].
  - by rewrite lookup_insert_eq.
  - by rewrite lookup_insert_ne.
Qed.

Lemma link_run_queues r c x q : queues r !! x = Some q ->
  snd (cpu_srvq r c) <> x ->
  (exists q', queues (link_run r c x q) !! x = Some q' /\ q_runlink q' = 0 /\ enabled q' = true)
  /\ forall y, y <> x -> enabled <$> (queues (link_run r c x q) !! y) = enabled <$> (queues r !! y)
     /\ (y <> snd (cpu_srvq r c) -> queues (link_run r c x q) !! y = queues r !! y).
Proof.
  intros Hq Ht. unfold link_run. destruct (cpu_srvq r c) as [hd tl]. cbn [snd] in *.
  destruct (tl =? 0); cbn [queues]; unfold set_runlink.
  - split.
    + eexists. rewrite lookup_insert_eq. split_and!; [done|done|]. apply enabled_set.
    + intros y Hy. by rewrite lookup_insert_ne.
  - split.
    + eexists. rewrite lookup_alter_ne, lookup_insert_eq by done. split_and!; [done|done|]. apply enabled_set.
    + intros y Hy. destruct (decide (y = tl)) as [->|Hne].
      * rewrite lookup_alter_eq, lookup_insert_ne by done. by destruct (queues r !! tl).
      * by rewrite lookup_alter_ne, lookup_insert_ne.
Qed.

Lemma elem_of_upd rq c x c' y : y ∈ upd rq c (rq c ++ [x]) c' <-> y ∈ rq c' \/ (c' = c /\ y = x).
Proof.
  destruct (decide (c' = c)) as [->|Hne].
  - rewrite upd_eq, elem_of_app, list_elem_of_singleton. tauto.
  - rewrite upd_ne by done. tauto.
Qed.

Lemma link_run_ok r rq c x q : run_ok r rq -> queues r !! x = Some q -> enabled q = false -> x <> 0 ->
  run_ok (link_run r c x q) (upd rq c (rq c ++ [x])).
Proof.
  intros Hok Hq He Hz.
  assert (Hnone : forall c', x ∉ rq c').
  { intros c' Hin. assert (enabled q = true) by (apply (run_flag r rq Hok x q Hq); by exists c'). congruence. }
  destruct (run_list r rq Hok c) as [Hc Ht].
  assert (Htl : forall y, snd (cpu_srvq r c) = y -> y <> 0 -> y ∈ rq c).
  { intros y Hy Hyz. apply last_Some_elem_of. destruct (last (rq c)); cbn in Ht; congruence. }
  assert (Htx : snd (cpu_srvq r c) <> x) by (intros E; by apply (Hnone c), Htl).
  destruct (link_run_queues r c x q Hq Htx) as [(q' & Hq' & Hr' & He') Hold].
  constructor.
  - intros c'. destruct (decide (c' = c)) as [->|Hne].
    + rewrite upd_eq. split; cycle 1.
      { rewrite last_snoc. unfold link_run. destruct (cpu_srvq r c) as [hd tl].
        destruct (tl =? 0); by rewrite cpu_srvq_insert, decide_True. }
      revert Hq' Hold. unfold link_run. destruct (cpu_srvq r c) as [hd tl] eqn:Ec. cbn [fst snd] in *.
      destruct (rq c) as [|y l] eqn:El.
      * cbn in Ht. subst tl. cbn [Z.eqb]. rewrite cpu_srvq_insert, decide_True by done. intros Hq' _.
        cbn [fst app lchain]. split_and!; [done|done|]. by exists q'.
      * destruct (last (y :: l)) as [tail|] eqn:El2; [|by apply last_None in El2].
        cbn in Ht. subst tl. assert (Htin : tail ∈ y :: l) by by apply last_Some_elem_of.
        destruct (lchain_lookup _ _ _ _ Hc Htin) as [Htz _].
        rewrite (proj2 (Z.eqb_neq _ _) Htz), cpu_srvq_insert, decide_True by done. intros _ _. cbn [fst].
        set (q1 := q <| q_flag := Z.lor (q_flag q) QENAB |> <| q_runlink := 0 |>).
        apply (lchain_snoc (<[x := q1]> (queues r)) _ tail x q1 (y :: l));
          [done| |rewrite <- El; apply (run_nodup r rq Hok)|exact El2|apply lookup_insert_eq|done| |done].
        -- eapply lchain_ext; [|exact Hc]. intros z qz Hz' Hqz. exists qz. rewrite lookup_insert_ne; [done|].
           intros <-. apply (Hnone c). by rewrite El.
        -- rewrite <- El. apply Hnone.
    + rewrite upd_ne by done.
      assert (Ec' : cpu_srvq (link_run r c x q) c' = cpu_srvq r c').
      { unfold link_run. destruct (cpu_srvq r c) as [hd tl]. by destruct (tl =? 0); rewrite cpu_srvq_insert, decide_False. }
      rewrite Ec'. destruct (run_list r rq Hok c') as [Hc1 Ht1]. split; [|done].
      eapply lchain_ext; [|exact Hc1]. intros z qz Hz' Hqz. exists qz.
      assert (z <> x) as Hzx by (intros ->; by apply (Hnone c')).
      rewrite (proj2 (Hold z Hzx)); [done|].
      intros ->. destruct (lchain_lookup _ _ _ _ Hc1 Hz') as [Hz0 _].
      apply Hne, (run_once r rq Hok c' c _ Hz'), Htl; done.
  - intros c'. destruct (decide (c' = c)) as [->|Hne]; [rewrite upd_eq|rewrite upd_ne by done; apply (run_nodup r rq Hok)].
    apply NoDup_app. split_and!; [apply (run_nodup r rq Hok)| |apply NoDup_singleton].
    intros y Hy ->%list_elem_of_singleton. by apply (Hnone c).
  - intros c1 c2 y. rewrite !elem_of_upd. intros [H1|[-> ->]] [H2|[-> H2]]; try done.
    + by apply (run_once r rq Hok c1 c2 y).
    + subst y. by apply Hnone in H1.
    + by apply Hnone in H2.
  - intros y qy Hy. destruct (decide (y = x)) as [->|Hne].
    + rewrite Hq' in Hy. injection Hy as <-. split; [|done]. intros _. exists c. apply elem_of_upd. by right.
    + destruct (Hold y Hne) as [Hen _]. rewrite Hy in Hen.
      destruct (queues r !! y) as [q0|] eqn:Hy0; [|done]. injection Hen as ->.
      rewrite (run_flag r rq Hok y q0 Hy0). split; intros [c' Hc']; exists c'.
      * apply elem_of_upd. by left.
      * by apply elem_of_upd in Hc' as [?|[_ ?]].
Qed.

Lemma srv_pop_cases r rq c : run_ok r rq ->
  match rq c with
  | [] => srv_pop r c = None
  | x :: l => exists r', srv_pop r c = Some (x, r') /\ run_ok r' (upd rq c l) /\ running r' = running r
      /\ exists q, queues r' !! x = Some q /\ enabled q = false
  end.
Proof.
  intros Hok. destruct (run_list r rq Hok c) as [Hc Ht]. unfold srv_pop.
  destruct (cpu_srvq r c) as [hd tl] eqn:Ec. cbn [fst snd] in *.
  destruct (rq c) as [|x l] eqn:El; [cbn in Hc; by subst hd|].
  destruct Hc as (-> & Hz & q & Hq & Hc). rewrite (proj2 (Z.eqb_neq _ _) Hz), Hq.
  set (q1 := q <| q_runlink := 0 |> <| q_flag := Z.land (q_flag q) (u32 (Z.lnot QENAB)) |>).
  assert (He1 : enabled q1 = false) by apply enabled_clear.
  assert (Hnd := run_nodup r rq Hok c). rewrite El in Hnd. apply NoDup_cons in Hnd as [Hxl Hnd].
  assert (Hother : forall c', c' <> c -> x ∉ rq c').
  { intros c' Hne Hin. apply Hne, (run_once r rq Hok c' c x Hin). rewrite El. apply elem_of_cons. by left. }
  assert (Hkeep : forall a l', x ∉ l' -> rchain (queues r) a l' -> rchain (<[x := q1]> (queues r)) a l').
  { intros a l' Hn. apply lchain_ext. intros y qy Hy Hqy. exists qy. rewrite lookup_insert_ne; [done|]. by intros ->. }
  eexists. split; [done|]. split; [|split; [done|]; exists q1; split; [apply lookup_insert_eq|done]].
  constructor; cbn [queues].
  - intros c'. rewrite cpu_srvq_insert. destruct (decide (c' = c)) as [->|Hne].
    + rewrite upd_eq. cbn [fst snd]. split; [by apply Hkeep|].
      destruct l as [|y l]; [cbn in Hc; by rewrite Hc|].
      assert (Hy : q_runlink q = y /\ y <> 0) by (destruct Hc as (? & ? & _); done). destruct Hy as [E Hy].
      rewrite E, (proj2 (Z.eqb_neq _ _) Hy), Ht. done.
    + rewrite upd_ne by done. destruct (run_list r rq Hok c') as [Hc1 Ht1]. unfold cpu_srvq in Hc1, Ht1.
      split; [|done]. apply Hkeep; [by apply Hother|done].
  - intros c'. destruct (decide (c' = c)) as [->|Hne]; [by rewrite upd_eq|].
    rewrite upd_ne by done. apply (run_nodup r rq Hok).
  - assert (Hsub : forall c' y, y ∈ upd rq c l c' -> y ∈ rq c').
    { intros c' y. destruct (decide (c' = c)) as [->|Hne]; [|by rewrite upd_ne].
      rewrite upd_eq, El. intros. apply elem_of_cons. by right. }
    intros c1 c2 y H1 H2. by apply (run_once r rq Hok c1 c2 y); apply Hsub.
  - intros y qy Hy. destruct (decide (y = x)) as [->|Hne].
    + rewrite lookup_insert_eq in Hy. injection Hy as <-. rewrite He1. split; [done|].
      intros [c' Hc']. exfalso. destruct (decide (c' = c)) as [->|Hne]; [by rewrite upd_eq in Hc'|].
      rewrite upd_ne in Hc' by done. by apply (Hother c').
    + rewrite lookup_insert_ne in Hy by done. rewrite (run_flag r rq Hok y qy Hy).
      split; intros [c' Hc']; exists c'; (destruct (decide (c' = c)) as [->|Hnc]; [|by rewrite upd_ne in *]);
        rewrite upd_eq, El in *; [by apply elem_of_cons in Hc' as [?|?]|apply elem_of_cons; by right].
Qed.

(** [qenable] puts a queue with a service procedure at the end of the calling
    CPU's run queue, unless some CPU has it on its run queue already; a queue
    without one is ignored.  No run queue ever holds a queue twice, nor do two. *)
Theorem qenable_refines (has_srvp : Z -> bool) (r : run) (rq : Z -> list Z) (c x : Z) (q : queue) :
  run_ok r rq -> queues r !! x = Some q -> x <> 0 ->
  let servable := negb (q_qinfo q =? 0) && has_srvp (q_qinfo q) in
  (enabled q = true <-> exists c', x ∈ rq c')
  /\ run_ok (qenable has_srvp r c x) (if servable && negb (enabled q) then upd rq c (rq c ++ [x]) else rq)
  /\ (servable && negb (enabled q) = false -> qenable has_srvp r c x = r).
Proof.
  intros Hok Hq Hz servable. split; [by apply (run_flag r rq Hok)|].
  unfold qenable. rewrite Hq, (proj2 (Z.eqb_neq _ _) Hz). cbn [orb].
  change (negb (Z.land (q_flag q) QENAB =? 0)) with (enabled q).
  subst servable. destruct (q_qinfo q =? 0); cbn [orb andb negb]; [done|].
  destruct (has_srvp (q_qinfo q)); cbn [orb andb negb]; [|done].
  destruct (enabled q) eqn:E; cbn [negb]; [done|]. split; [by apply link_run_ok|done].
Qed.

(** [QENAB] is tested under the lock of the calling CPU only.  When two CPUs
    enable the same idle queue at once, both tests pass and both link it: it is then
    first on both run queues, and both CPUs call its service procedure. *)
Theorem qenable_race (r : run) (rq : Z -> list Z) (c1 c2 x : Z) (q : queue) :
  run_ok r rq -> rq c1 = [] -> rq c2 = [] -> c1 <> c2 ->
  queues r !! x = Some q -> enabled q = false -> x <> 0 ->
  let r1 := link_run r c1 x q in
  let r2 := link_run r1 c2 x (default q (queues r1 !! x)) in
  (exists r', srv_pop r2 c1 = Some (x, r')) /\ (exists r', srv_pop r2 c2 = Some (x, r'))
  /\ forall rq', ~ run_ok r2 rq'.
Proof.
  intros Hok E1 E2 Hc Hq He Hz r1 r2.
  pose proof (link_run_ok r rq c1 x q Hok Hq He Hz) as Hok1. fold r1 in Hok1.
  assert (Hs1 : cpu_srvq r1 c1 = (x, x) /\ cpu_srvq r1 c2 = cpu_srvq r c2 /\ is_Some (queues r1 !! x)).
  { destruct (run_list r rq Hok c1) as [H1 H2]. rewrite E1 in H1, H2. unfold r1, link_run.
    destruct (cpu_srvq r c1) as [hd tl]. cbn in H1, H2. subst hd tl. cbn [Z.eqb].
    rewrite !cpu_srvq_insert, decide_True, decide_False by done. split_and!; try done.
    cbn [queues]. rewrite lookup_insert_eq. by eexists. }
  destruct Hs1 as (Hs1 & Hs2 & [q1 Hq1]).
  assert (Hr2 : cpu_srvq r2 c1 = (x, x) /\ cpu_srvq r2 c2 = (x, x) /\ is_Some (queues r2 !! x)).
  { destruct (run_list r rq Hok c2) as [H1 H2]. rewrite E2 in H1, H2. unfold r2. rewrite Hq1. unfold link_run.
    rewrite Hs2. destruct (cpu_srvq r c2) as [hd tl]. cbn in H1, H2. subst hd tl. cbn [Z.eqb].
    rewrite !cpu_srvq_insert, decide_False, decide_True by done. split_and!; try done.
    cbn [queues]. rewrite lookup_insert_eq. by eexists. }
  destruct Hr2 as (H1 & H2 & [q2 H3]). unfold srv_pop. rewrite H1, H2, (proj2 (Z.eqb_neq _ _) Hz), H3.
  split_and!; [by eexists|by eexists|]. intros rq' Hok'.
  assert (Hin : forall c, cpu_srvq r2 c = (x, x) -> x ∈ rq' c).
  { intros c Ec. destruct (run_list r2 rq' Hok' c) as [Hc1 _]. rewrite Ec in Hc1.
    destruct (rq' c) as [|y l]; [done|]. destruct Hc1 as (Hy & _). cbn in Hy. subst y. apply elem_of_cons. by left. }
  apply Hc, (run_once r2 rq' Hok' c1 c2 x); by apply Hin.
Qed.

(** ** Examples *)

Definition demo_mm : gmap Z msgb :=
  <[100 := mk_msgb 0 0 0 1000 1020 5 0 0]> (<[200 := mk_msgb 0 0 0 3000 3008 6 0 0]> ∅).

Definition demo_q : queue := mk_queue 1 100 100 0 0 0 0 20 0 4096 16 4 1.

Lemma demo_queue_ok : queue_ok demo_mm demo_q [100].
Proof.
  split_and!; [|apply NoDup_singleton|vm_compute; reflexivity].
  cbn [dseg]. split_and!; [done|done|]. eexists. split; [vm_compute; reflexivity|]. done.
Qed.

Lemma queue_refines_list_witness :
  (forall mp m, demo_mm !! mp = Some m -> mp <> 0 -> mp ∉ [100] ->
    (let '(mm', q') := putq demo_mm demo_q mp in
     queue_ok mm' q' ([100] ++ [mp]) /\ links_only demo_mm mm' (mp :: [100]))
    /\ (let '(mm', q') := putbq demo_mm demo_q mp in
        queue_ok mm' q' (mp :: [100]) /\ links_only demo_mm mm' (mp :: [100])))
  /\ let '(y, mm', q') := getq demo_mm demo_q in
     y = 100 /\ queue_ok mm' q' [] /\ links_only demo_mm mm' [100].
Proof. exact (queue_refines_list demo_mm demo_q [100] demo_queue_ok). Defined.

Lemma queue_flow_control_witness :
  (forall mp m, demo_mm !! mp = Some m -> mp <> 0 -> mp ∉ [100] ->
    0 <= qbytes demo_mm ([100] ++ [mp]) < 9223372036854775808 ->
    let q' := snd (putq demo_mm demo_q mp) in
    full q' = (q_hiwat demo_q <=? qbytes demo_mm ([100] ++ [mp])) || full demo_q
    /\ forall i, 0 < i < 32 -> Z.testbit (q_flag q') i = Z.testbit (q_flag demo_q) i)
  /\ (0 <= qbytes demo_mm [] < 9223372036854775808 ->
     let q' := snd (getq demo_mm demo_q) in
     full q' = negb (qbytes demo_mm [] <=? q_lowat demo_q) && full demo_q
     /\ forall i, 0 < i < 32 -> Z.testbit (q_flag q') i = Z.testbit (q_flag demo_q) i).
Proof. exact (queue_flow_control demo_mm demo_q [100] demo_queue_ok). Defined.

Lemma putbq_forgets_full_witness :
  let '(y, mm1, q1) := getq demo_mm demo_q in
  let '(mm2, q2) := putbq mm1 q1 y in
  queue_ok mm2 q2 [100] /\ q_hiwat q2 <= qbytes mm2 [100] /\ full q2 = false.
Proof.
  apply (putbq_forgets_full demo_mm demo_q 100 demo_queue_ok); vm_compute; congruence.
Defined.

(** Two idle queues with service procedures. *)
Definition idle (info : Z) : queue := mk_queue info 0 0 0 0 0 0 0 0 0 0 0 0.
Definition demo_run : run := mk_run (<[7 := idle 1]> (<[8 := idle 2]> ∅)) ∅ ∅.

Lemma demo_run_ok : run_ok demo_run (fun _ => []).
Proof.
  constructor; [done|intros _; apply NoDup_nil_2|by intros ? ? ? ?%elem_of_nil|].
  intros x q Hx. split; [|by intros [? ?%elem_of_nil]].
  cbn [queues demo_run] in Hx. rewrite !lookup_insert_Some, lookup_empty in Hx.
  destruct Hx as [[_ <-]|[_ [[_ <-]|[_ ?]]]]; [done|done|congruence].
Qed.

Lemma qenable_refines_witness :
  let servable := negb (q_qinfo (idle 1) =? 0) && true in
  (enabled (idle 1) = true <-> exists c' : Z, 7 ∈ @nil Z)
  /\ run_ok (qenable (fun _ => true) demo_run 0 7)
       (if servable && negb (enabled (idle 1)) then upd (fun _ => []) 0 ([] ++ [7]) else fun _ => [])
  /\ (servable && negb (enabled (idle 1)) = false -> qenable (fun _ => true) demo_run 0 7 = demo_run).
Proof.
  apply (qenable_refines (fun _ => true) demo_run (fun _ => []) 0 7 (idle 1) demo_run_ok);
    [vm_compute; reflexivity|done].
Defined.

Lemma qenable_race_witness :
  let r1 := link_run demo_run 0 7 (idle 1) in
  let r2 := link_run r1 1 7 (default (idle 1) (queues r1 !! 7)) in
  (exists r', srv_pop r2 0 = Some (7, r')) /\ (exists r', srv_pop r2 1 = Some (7, r'))
  /\ forall rq', ~ run_ok r2 rq'.
Proof.
  apply (qenable_race demo_run (fun _ => []) 0 1 7 (idle 1) demo_run_ok); try done.
Defined.

End StreamQueue.
