(* ===== verification/StreamDelay.v ===== *)
(** * STREAMS: service procedures at work

    [streams_run] of [uts/os/io/streams.c] with the one service procedure of the
    system, that of the "delay" module ([uts/os/io/stream_head.c]): a stream whose
    modules are delay modules, below its head. *)

From stdpp Require Import base numbers list gmap.
From Stdlib Require Import ZArith Lia Bool.
From S2P Require Import Prelude Kmem Alloc Links Streams StreamQueue.

Module StreamDelay.

Import Alloc Links Streams StreamQueue.

(** ** What the operations leave of a queue *)

(** The fields that the run queues have no part in. *)
Definition qview (q : queue) := (q_qinfo q, q_next q, q_first q, q_last q, q_count q).

Lemma queue_ok_view mm q q' l : qview q' = qview q -> queue_ok mm q l -> queue_ok mm q' l.
Proof. unfold qview, queue_ok. by intros [= _ _ -> -> ->]. Qed.

Lemma queue_ok_links mm mm' q l l' : queue_ok mm q l -> links_only mm mm' l' -> (forall x, x ∈ l -> x ∉ l') -> queue_ok mm' q l.
Proof.
  intros (Hs & Hd & Hc) [Hb Ho] Hdis. split_and!; [|done|by rewrite (qbytes_same mm mm')].
  eapply dseg_ext; [|exact Hs]. intros x n Hx Hn. exists n. rewrite Ho by by apply Hdis. done.
Qed.

Lemma enabled_full f : negb (Z.land (Z.lor f QFULL) QENAB =? 0) = negb (Z.land f QENAB =? 0)
  /\ negb (Z.land (Z.land f (u32 (Z.lnot QFULL))) QENAB =? 0) = negb (Z.land f QENAB =? 0).
Proof.
  split; do 2 f_equal; apply Z.bits_inj'; intros i Hi; rewrite !Z.land_spec, ?Z.lor_spec.
  - destruct (decide (i = 0)) as [->|]; [by rewrite !andb_false_r|].
    change QFULL with (2 ^ 0). rewrite (Z.pow2_bits_false 0) by lia. by rewrite orb_false_r.
  - change (u32 (Z.lnot QFULL)) with (Z.ones 32 - 1). destruct (decide (i = 3)) as [->|]; [by rewrite andb_true_r|].
    change QENAB with (2 ^ 3). rewrite (Z.pow2_bits_false 3) by lia. by rewrite !andb_false_r.
Qed.

(** [putq] and [getq] leave the links between queues and the mark of the run queue. *)
Definition same_place (q q' : queue) : Prop :=
  q_qinfo q' = q_qinfo q /\ q_next q' = q_next q /\ q_runlink q' = q_runlink q /\ enabled q' = enabled q.

Lemma putq_place mm q mp : same_place q (snd (putq mm q mp)).
Proof.
  unfold putq, same_place, enabled. destruct (q_last q =? 0); cbn [snd];
    (case_if; cbn [snd]; split_and!; try done; cbn; apply enabled_full).
Qed.

Lemma getq_place mm q : same_place q (snd (getq mm q)).
Proof.
  unfold getq. destruct (mm !! q_first q) as [m|]; [|done]. destruct (q_first q =? 0); [done|].
  destruct (q_first (q <| q_first := b_next m |>) =? 0); unfold same_place, enabled;
    (case_if; cbn [snd]; split_and!; try done; cbn; apply enabled_full).
Qed.

(** Changing a queue in place leaves the run queues. *)
Lemma run_ok_place r rq x q q' : run_ok r rq -> queues r !! x = Some q -> same_place q q' ->
  run_ok (mk_run (<[x := q']> (queues r)) (srvq r) (running r)) rq.
Proof.
  intros [H1 H2 H3 H4] Hq (_ & _ & E1 & E2). constructor; [|done|done|].
  - intros c. destruct (H1 c) as [Hc Ht]. split; [|done]. eapply lchain_links; [|exact Hc]. intros y _. cbn [queues].
    destruct (decide (y = x)) as [->|]; [by rewrite lookup_insert_eq, Hq; cbn; rewrite E1|by rewrite lookup_insert_ne].
  - intros y qy. cbn [queues]. destruct (decide (y = x)) as [->|].
    + rewrite lookup_insert_eq. intros [= <-]. rewrite E2. by apply H4.
    + rewrite lookup_insert_ne by done. apply H4.
Qed.

Lemma link_run_view r c x q y : queues r !! x = Some q ->
  qview <$> queues (link_run r c x q) !! y = qview <$> queues r !! y.
Proof.
  intros Hq. assert (Hi : qview <$> <[x := q <| q_flag := Z.lor (q_flag q) QENAB |> <| q_runlink := 0 |>]> (queues r) !! y = qview <$> queues r !! y).
  { destruct (decide (y = x)) as [->|]; [by rewrite lookup_insert_eq, Hq|by rewrite lookup_insert_ne]. }
  unfold link_run. destruct (cpu_srvq r c) as [hd tl]. destruct (tl =? 0); cbn [queues]; [exact Hi|].
  rewrite <- Hi. unfold set_runlink. destruct (decide (y = tl)) as [->|].
  - rewrite lookup_alter_eq. by destruct (<[x := _]> (queues r) !! tl).
  - by rewrite lookup_alter_ne.
Qed.

Lemma srv_pop_view r c x r' y : srv_pop r c = Some (x, r') -> qview <$> queues r' !! y = qview <$> queues r !! y.
Proof.
  unfold srv_pop. destruct (cpu_srvq r c) as [hd tl]. destruct (hd =? 0); [done|]. destruct (queues r !! hd) as [q|] eqn:Hq; [|done].
  intros [= <- <-]. cbn [queues]. destruct (decide (y = hd)) as [->|]; [by rewrite lookup_insert_eq, Hq|by rewrite lookup_insert_ne].
Qed.

(** ** The way of a message *)

Section Path.
Variable k : Z.
Implicit Types (path : list Z) (L : Z -> list Z).

(** The queue behind [x] on the way [path] to the head [k], and how many queues of
    the way are left from [x] on. *)
Fixpoint next_of path (x : Z) : Z :=
  match path with
  | [] => k
  | y :: p => if decide (x = y) then default k (head p) else next_of p x
  end.

Fixpoint hops path (x : Z) : nat :=
  match path with
  | [] => O
  | y :: p => if decide (x = y) then S (length p) else hops p x
  end.

(** The messages on the way, the one to arrive first in front. *)
Fixpoint under_way path L : list Z :=
  match path with
  | [] => L k
  | x :: p => under_way p L ++ L x
  end.

Lemma next_in path x : next_of path x ∈ path ++ [k].
Proof.
  induction path as [|y p IH]; cbn [next_of]; [by apply list_elem_of_singleton|]. cbn [app]. case_decide.
  - destruct p; cbn; rewrite ?elem_of_cons; auto.
  - apply elem_of_cons. by right.
Qed.

Lemma hops_le path x : (hops path x <= length path)%nat.
Proof. induction path as [|y p IH]; cbn [hops length]; [lia|]. case_decide; lia. Qed.

Lemma hops_pos path x : x ∈ path -> (0 < hops path x)%nat.
Proof.
  induction path as [|y p IH]; cbn [hops]; [by intros ?%elem_of_nil|]. intros [?|?]%elem_of_cons; case_decide; try done; [lia|lia|by apply IH].
Qed.

Lemma next_other path x : NoDup (path ++ [k]) -> x ∈ path -> next_of path x <> x.
Proof.
  induction path as [|y p IH]; cbn [app next_of]; [by intros _ ?%elem_of_nil|].
  intros [Hy Hp]%NoDup_cons Hx. case_decide as E.
  - subst y. intros En. apply Hy. destruct p as [|z p]; cbn in En; subst; cbn [app]; apply elem_of_cons; by left.
  - apply elem_of_cons in Hx as [?|Hx]; [done|]. by apply IH.
Qed.

Lemma hops_next path x : NoDup (path ++ [k]) -> x ∈ path -> next_of path x ∈ path -> (hops path (next_of path x) < hops path x)%nat.
Proof.
  induction path as [|y p IH]; cbn [app next_of hops]; [by intros _ ?%elem_of_nil|].
  intros Hnd Hx Hin. pose proof Hnd as [Hy Hp]%NoDup_cons. destruct (decide (x = y)) as [->|Hne].
  - rewrite decide_False; [|intros En; apply (next_other (y :: p) y); cbn [app next_of]; [done|apply elem_of_cons; by left|by rewrite decide_True]].
    pose proof (hops_le p (default k (head p))). lia.
  - apply elem_of_cons in Hx as [?|Hx]; [done|]. pose proof (next_in p x) as Hn.
    assert (next_of p x <> y) as Hny by (intros E; by rewrite E in Hn). rewrite decide_False by done.
    apply IH; [done|done|]. apply elem_of_cons in Hin as [?|?]; done.
Qed.

Lemma under_way_ext path L L' : (forall y, y ∈ path ++ [k] -> L' y = L y) -> under_way path L' = under_way path L.
Proof.
  induction path as [|y p IH]; cbn [app under_way]; intros H; [apply H; by apply list_elem_of_singleton|].
  rewrite IH, H; [done|apply elem_of_cons; by left|]. intros z Hz. apply H, elem_of_cons. by right.
Qed.

(** Messages that come to the first queue are the last to arrive. *)
Lemma under_way_first path L L' l : NoDup (path ++ [k]) -> let y := default k (head path) in
  L' y = L y ++ l -> (forall z, z ∈ path ++ [k] -> z <> y -> L' z = L z) -> under_way path L' = under_way path L ++ l.
Proof.
  destruct path as [|y p]; cbn [head from_option id app under_way]; [by intros _ ->|]. intros [Hy _]%NoDup_cons E H.
  rewrite E, app_assoc. do 2 f_equal. apply under_way_ext. intros z Hz. apply H; [apply elem_of_cons; by right|]. by intros ->.
Qed.

(** When the messages of [x] move on to the next queue, neither the messages under
    way nor their order change. *)
Lemma under_way_move path L L' x : NoDup (path ++ [k]) -> x ∈ path -> L' x = [] -> L' (next_of path x) = L (next_of path x) ++ L x ->
  (forall z, z ∈ path ++ [k] -> z <> x -> z <> next_of path x -> L' z = L z) -> under_way path L' = under_way path L.
Proof.
  induction path as [|y p IH]; [by intros _ ?%elem_of_nil|]. cbn [app next_of under_way]. intros [Hy Hp]%NoDup_cons Hx E0 E1 H.
  assert (Htail : forall z, z ∈ p ++ [k] -> z ∈ y :: p ++ [k] /\ z <> y) by (intros z Hz; split; [apply elem_of_cons; by right|by intros ->]).
  destruct (decide (x = y)) as [->|Hne].
  - rewrite E0, app_nil_r. apply under_way_first; [done|done|]. intros z Hz Hn. destruct (Htail z Hz). by apply H.
  - apply elem_of_cons in Hx as [?|Hx]; [done|]. f_equal.
    + apply IH; try done. intros z Hz. apply H. by apply Htail.
    + apply H; [apply elem_of_cons; by left|done|]. intros ->. by apply Hy, next_in.
Qed.

End Path.

(** ** A stream of delay modules *)

Section Flow.
Context {T : Type} `{Allocator T}.
Variables (DELAY HEAD c k : Z) (path : list Z) (mm0 : gmap Z msgb).
Implicit Types (n : node T) (rq L : Z -> list Z) (ex : list Z).

Notation way := (path ++ [k]).
Notation next := (next_of k path).

(** The queues of delay modules [path], then the stream head's read queue [k], each
    pointing to the next; [L] are the messages on them.  A delay queue with messages
    is on the run queue of CPU [c], unless it is one of [ex]; there is no other queue
    on that run queue, and the delay queues are on no other.  The messages are those
    of the store [mm0], but for their links. *)
Record flow_ok ex n rq L : Prop := {
  f_queue : forall x, x ∈ way -> exists q, queues (nrun n) !! x = Some q /\ q_qinfo q = (if decide (x = k) then HEAD else DELAY)
    /\ (x <> k -> q_next q = next x) /\ queue_ok (mblks (nheap n)) q (L x);
  f_apart : forall x y mp, x ∈ way -> y ∈ way -> mp ∈ L x -> mp ∈ L y -> x = y;
  f_run : run_ok (nrun n) rq;
  f_enab : forall x, x ∈ path -> L x <> [] -> x ∈ rq c \/ x ∈ ex;
  f_only : forall x, x ∈ rq c -> x ∈ path;
  f_mine : forall x c', x ∈ path -> x ∈ rq c' -> c' = c;
  f_body : same_body mm0 (mblks (nheap n))
}.

Lemma flow_view ex ex' n rq rq' L r : flow_ok ex n rq L -> (forall y, qview <$> queues r !! y = qview <$> queues (nrun n) !! y) ->
  run_ok r rq' -> (forall x, x ∈ path -> L x <> [] -> x ∈ rq' c \/ x ∈ ex') -> (forall x, x ∈ rq' c -> x ∈ path) ->
  (forall x c', c' <> c -> x ∈ rq' c' -> x ∈ rq c') -> flow_ok ex' (mk_node (nheap n) r) rq' L.
Proof.
  intros [] Hv Hr He Ho Hm. constructor; try done.
  - intros x Hx. destruct (f_queue0 x Hx) as (q & Hq & E1 & E2 & Hok). specialize (Hv x). rewrite Hq in Hv.
    cbn [nrun nheap]. destruct (queues r !! x) as [q'|]; [|done]. injection Hv as V1 V2 V3 V4 V5.
    exists q'. split_and!; [done|congruence|intros; rewrite V2; by apply E2|]. eapply queue_ok_view; [|exact Hok]. unfold qview. congruence.
  - intros x c' Hx Hin. destruct (decide (c' = c)); [done|]. by eapply f_mine0, Hm.
Qed.

Lemma flow_ex ex ex' n rq L : flow_ok ex n rq L -> (forall x, x ∈ path -> L x <> [] -> x ∈ rq c \/ x ∈ ex') -> flow_ok ex' n rq L.
Proof. intros [] He. by constructor. Qed.

Lemma flow_running ex n rq L b : flow_ok ex n rq L -> flow_ok ex (set_running n c b) rq L.
Proof. intros []. constructor; try done. destruct f_run0. by constructor. Qed.

(** A queue of the way changes its messages to [l]. *)
Lemma flow_set ex n rq L y q q' mm' ch l : flow_ok ex n rq L -> y ∈ way -> queues (nrun n) !! y = Some q -> same_place q q' ->
  links_only (mblks (nheap n)) mm' ch -> queue_ok mm' q' l -> (forall z mp, z ∈ way -> z <> y -> mp ∈ L z -> mp ∉ ch /\ mp ∉ l) ->
  (y ∈ path -> l <> [] -> y ∈ rq c \/ y ∈ ex) -> flow_ok ex (set_queue n mm' y q') rq (upd L y l).
Proof.
  intros [] Hy Hq Hpl Hch Hl Hd He. constructor; cbn [set_queue nrun nheap mblks queues]; try done.
  - intros x Hx. destruct (decide (x = y)) as [->|Hne].
    + destruct (f_queue0 y Hx) as (q0 & Hq0 & E1 & E2 & _). simplify_eq. destruct Hpl as (P1 & P2 & _).
      exists q'. rewrite lookup_insert_eq, upd_eq. split_and!; try done; [congruence|]. intros Hk. rewrite P2. by apply E2.
    + destruct (f_queue0 x Hx) as (q0 & Hq0 & E1 & E2 & Hok). exists q0. rewrite lookup_insert_ne, upd_ne by done.
      split_and!; try done. eapply queue_ok_links; [exact Hok|exact Hch|]. intros z Hz. by apply (Hd x z).
  - intros x z mp Hx Hz. destruct (decide (x = y)) as [->|], (decide (z = y)) as [->|]; rewrite ?upd_eq, ?upd_ne by done; try done.
    + intros H1 H2. by destruct (Hd z mp Hz ltac:(done) H2).
    + intros H1 H2. by destruct (Hd x mp Hx ltac:(done) H1).
    + by apply f_apart0.
  - by eapply run_ok_place.
  - intros x Hx. destruct (decide (x = y)) as [->|]; [rewrite upd_eq; by apply He|rewrite upd_ne by done; by apply f_enab0].
  - eapply same_body_trans; [exact f_body0|apply Hch].
Qed.

Hypothesis Hids : DELAY <> 0 /\ HEAD <> 0 /\ DELAY <> HEAD.
Hypothesis Hway : NoDup way /\ 0 ∉ way.

Notation putp := (stream_putp (T := T) DELAY HEAD c).
Notation srvp := (stream_srvp (T := T) DELAY HEAD c).

Lemma path_way x : x ∈ path -> x ∈ way /\ x <> k /\ x <> 0.
Proof.
  intros Hx. destruct Hway as [(_ & Hk & _)%NoDup_app H0]. assert (x ∈ way) by (apply elem_of_app; by left).
  split_and!; [done| |by intros ->]. intros ->. by apply (Hk k Hx), list_elem_of_singleton.
Qed.

(** What enabling a queue adds to the run queue. *)
Definition enables rq (y : Z) (ks : list Z) : Prop := ks = [] \/ (ks = [y] /\ y ∈ path /\ y ∉ rq c).

Lemma flow_enable ex n rq L y : flow_ok (y :: ex) n rq L -> y ∈ path ->
  exists rq' ks, flow_ok ex (mk_node (nheap n) (qenable (has_srvp DELAY) (nrun n) c y)) rq' L
    /\ rq' c = rq c ++ ks /\ enables rq y ks /\ running (qenable (has_srvp DELAY) (nrun n) c y) = running (nrun n).
Proof.
  intros Hf Hy. destruct (path_way y Hy) as (Hw & Hk & Hz). pose proof Hf as [].
  destruct (f_queue0 y Hw) as (q & Hq & E1 & _). rewrite decide_False in E1 by done. destruct Hids as (D0 & _ & _).
  unfold qenable. rewrite Hq, (proj2 (Z.eqb_neq y 0)), E1, (proj2 (Z.eqb_neq DELAY 0)) by done.
  unfold has_srvp. rewrite Z.eqb_refl. cbn [orb negb]. change (negb (Z.land (q_flag q) QENAB =? 0)) with (enabled q).
  destruct (enabled q) eqn:En.
  - destruct (proj1 (run_flag _ _ f_run0 y q Hq) En) as [c' Hc']. pose proof (f_mine0 y c' Hy Hc') as ->.
    exists rq, []. rewrite app_nil_r. split_and!; [|done|by left|done]. eapply flow_view; try done.
    intros x Hx Hl. destruct (f_enab0 x Hx Hl) as [?|[-> |?]%elem_of_cons]; auto.
  - exists (upd rq c (rq c ++ [y])), [y]. rewrite upd_eq. split_and!.
    + eapply flow_view; try done.
      * intros z. by apply link_run_view.
      * by apply link_run_ok.
      * intros x Hx Hl. rewrite upd_eq, elem_of_app, list_elem_of_singleton.
        destruct (f_enab0 x Hx Hl) as [?|[-> |?]%elem_of_cons]; auto.
      * intros x. rewrite upd_eq, elem_of_app, list_elem_of_singleton. intros [?| ->]; auto.
      * intros x c' Hc'. by rewrite upd_ne.
    + done.
    + right. split_and!; [done|done|]. intros Hin.
      assert (enabled q = true) by (apply (run_flag _ _ f_run0 y q Hq); by exists c). congruence.
    + unfold link_run. destruct (cpu_srvq (nrun n) c) as [hd tl]. by destruct (tl =? 0).
Qed.

(** A message put to a queue of the way is the last one there. *)
Lemma flow_put ex n rq L y mp : flow_ok ex n rq L -> y ∈ way -> mp <> 0 -> is_Some (mblks (nheap n) !! mp) ->
  (forall z, z ∈ way -> mp ∉ L z) ->
  exists n' rq' ks, put putp n y mp = (0, n') /\ flow_ok ex n' rq' (upd L y (L y ++ [mp])) /\ rq' c = rq c ++ ks
    /\ enables rq y ks /\ running (nrun n') = running (nrun n).
Proof.
  intros Hf Hy Hz [m Hm] Hnew. pose proof Hf as []. destruct (f_queue0 y Hy) as (q & Hq & E1 & _ & Hok).
  destruct Hids as (D0 & D1 & D2). destruct Hway as [Hnd H0].
  pose proof (putq_cases _ _ _ _ _ Hok Hm Hz (Hnew y Hy)) as Hp. pose proof (putq_place (mblks (nheap n)) q mp) as Hpl.
  destruct (putq (mblks (nheap n)) q mp) as [mm' q'] eqn:Ep. cbn [snd] in Hpl. destruct Hp as (Hok' & Hch & _).
  assert (Hset : flow_ok (y :: ex) (set_queue n mm' y q') rq (upd L y (L y ++ [mp]))).
  { eapply flow_set; try done.
    - eapply flow_ex; [exact Hf|]. intros x Hx Hl. destruct (f_enab0 x Hx Hl); [by left|right; apply elem_of_cons; by right].
    - intros z x Hzw Hne Hx. split; [apply not_elem_of_cons; split; [by intros ->; apply (Hnew z Hzw)|]|rewrite elem_of_app, list_elem_of_singleton; intros [?| ->]].
      + intros Hx'. by apply Hne, (f_apart0 z y x).
      + by apply Hne, (f_apart0 z y x).
      + by apply (Hnew z Hzw).
    - intros _ _. right. apply elem_of_cons. by left. }
  unfold put. rewrite (proj2 (Z.eqb_neq y 0)) by (by intros ->). rewrite Hq, E1. unfold stream_putp.
  destruct (decide (y = k)) as [->|Hk].
  - rewrite (proj2 (Z.eqb_neq HEAD 0)), (proj2 (Z.eqb_neq HEAD DELAY)), Z.eqb_refl by congruence.
    unfold sh_rq_putp. rewrite Hq, Ep. eexists _, rq, []. rewrite app_nil_r. split_and!; [done| |done|by left|done].
    eapply flow_ex; [exact Hset|]. intros x Hx Hl. destruct (path_way x Hx) as (_ & Hxk & _). rewrite upd_ne in Hl by done. by apply f_enab0.
  - rewrite (proj2 (Z.eqb_neq DELAY 0)), Z.eqb_refl by done. unfold delay_putp. rewrite Hq, Ep.
    assert (Hyp : y ∈ path) by (apply elem_of_app in Hy as [?|?%list_elem_of_singleton]; done).
    destruct (flow_enable ex _ rq _ y Hset Hyp) as (rq' & ks & H1 & H2 & H3 & H4). eexists _, rq', ks. split_and!; [reflexivity|done..].
Qed.

(** Taking the first message off a delay queue. *)
Lemma flow_get ex n rq L x mp l : flow_ok ex n rq L -> x ∈ path -> x ∈ ex -> L x = mp :: l -> exists q q' mm',
  queues (nrun n) !! x = Some q /\ getq (mblks (nheap n)) q = (mp, mm', q') /\ mp <> 0 /\ is_Some (mm' !! mp)
  /\ flow_ok ex (set_queue n mm' x q') rq (upd L x l) /\ q_next q' = next x /\ forall z, z ∈ way -> mp ∉ upd L x l z.
Proof.
  intros Hf Hx Hex El. destruct (path_way x Hx) as (Hw & Hk & Hz). pose proof Hf as [].
  destruct (f_queue0 x Hw) as (q & Hq & _ & En & Hok). rewrite El in Hok.
  pose proof (getq_cases _ _ _ _ Hok) as Hg. pose proof (getq_place (mblks (nheap n)) q) as Hpl.
  destruct (getq (mblks (nheap n)) q) as [[y mm'] q'] eqn:Eg. cbn [snd] in Hpl. destruct Hg as (-> & Hok' & Hch & _).
  destruct Hok as (Hs & Hd & _). destruct (dseg_lookup _ _ _ _ _ _ _ Hs (list_elem_of_here mp l)) as [Hmz [m Hm]].
  apply NoDup_cons in Hd as [Hml _]. assert (Hmx : mp ∈ L x) by (rewrite El; apply list_elem_of_here).
  exists q, q', mm'. split_and!; try done.
  - destruct Hch as [[_ Hb] _]. specialize (Hb mp). rewrite Hm in Hb. destruct (mm' !! mp); [by eexists|done].
  - eapply flow_set; try done; [|by right]. intros z w Hzw Hne Hwz. rewrite <- El.
    assert (Hn : w ∉ L x) by (intros Hx'; by apply Hne, (f_apart0 z x w)). split; [done|].
    rewrite El in Hn. by apply not_elem_of_cons in Hn as [_ ?].
  - destruct Hpl as (_ & -> & _). by apply En.
  - intros z Hzw. destruct (decide (z = x)) as [->|Hne]; [by rewrite upd_eq|rewrite upd_ne by done].
    intros Hin. by apply Hne, (f_apart0 z x mp).
Qed.

(** The messages of [x] have moved on to the next queue. *)
Definition moved L L' (x : Z) : Prop :=
  L' x = [] /\ L' (next x) = L (next x) ++ L x /\ forall z, z <> x -> z <> next x -> L' z = L z.

(** The loop of [delay_srvp] moves all messages on. *)
Lemma flow_loop ex x l : x ∈ path -> x ∈ ex -> forall fuel n rq L, flow_ok ex n rq L -> L x = l -> (length l < fuel)%nat ->
  exists rq' L' ks, flow_ok ex (delay_loop DELAY HEAD c fuel x n) rq' L' /\ moved L L' x /\ rq' c = rq c ++ ks
    /\ enables rq (next x) ks /\ running (nrun (delay_loop DELAY HEAD c fuel x n)) = running (nrun n).
Proof.
  intros Hx Hex. destruct (path_way x Hx) as (Hw & Hk & Hz). pose proof (next_in k path x) as Hnw.
  pose proof (next_other k path x (proj1 Hway) Hx) as Hne.
  induction l as [|mp l IH]; intros fuel n rq L Hf El Hfu; (destruct fuel as [|fuel]; [cbn in Hfu; lia|]); cbn [delay_loop].
  - destruct (f_queue _ _ _ _ Hf x Hw) as (q & Hq & _ & _ & Hok). rewrite Hq. rewrite El in Hok.
    pose proof Hok as ((_ & Ef) & _ & _). assert (getq (mblks (nheap n)) q = (0, mblks (nheap n), q)) as ->.
    { unfold getq. rewrite <- Ef. by destruct (mblks (nheap n) !! 0). }
    cbn [Z.eqb]. assert (set_queue n (mblks (nheap n)) x q = n) as ->.
    { unfold set_queue. rewrite insert_id by done. by destruct n as [[] []]. }
    exists rq, L, []. rewrite app_nil_r. split_and!; try done; [|by left]. unfold moved. rewrite El, app_nil_r. done.
  - destruct (flow_get ex n rq L x mp l Hf Hx Hex El) as (q & q' & mm' & -> & -> & Hmz & Hm & Hf1 & En & Hnew).
    rewrite (proj2 (Z.eqb_neq mp 0)) by done. set (n1 := set_queue n mm' x q') in *.
    unfold putnext. assert (queues (nrun n1) !! x = Some q') as -> by apply lookup_insert_eq. rewrite En.
    destruct (flow_put ex n1 rq _ (next x) mp Hf1 Hnw Hmz Hm Hnew) as (n2 & rq2 & ks2 & -> & Hf2 & Erq2 & Hk2 & Hrun2). cbn [snd].
    destruct (IH fuel n2 rq2 _ Hf2) as (rq' & L' & ks & Hf' & (M1 & M2 & M3) & Erq & Hks & Hrun); [by rewrite upd_ne, upd_eq|cbn in Hfu; lia|].
    exists rq', L', (ks2 ++ ks). split_and!; [done| |by rewrite Erq, Erq2, app_assoc| |rewrite Hrun, Hrun2; done].
    + split_and!; [done| |].
      * rewrite M2, upd_eq. rewrite (upd_ne _ (next x) _ x) by done. rewrite upd_eq, upd_ne, El, <- app_assoc by done. done.
      * intros z Hz1 Hz2. rewrite M3, !upd_ne by done. done.
    + destruct Hk2 as [->|(-> & Hp & Hn)]; cbn [app].
      * rewrite app_nil_r in Erq2. destruct Hks as [->|(-> & Hp & Hn)]; [by left|right]. by rewrite Erq2 in Hn.
      * destruct Hks as [->|(-> & _ & Hn')]; [by right|]. destruct Hn'. rewrite Erq2. apply elem_of_app. right. by apply list_elem_of_singleton.
Qed.

(** Serving a delay queue taken off the run queue. *)
Lemma flow_serve n rq L x l r : flow_ok [] n rq L -> rq c = x :: l -> srv_pop (nrun n) c = Some (x, r) ->
  let n' := delay_srvp DELAY HEAD c x (mk_node (nheap n) r) in
  q_qinfo <$> queues r !! x = Some DELAY /\ exists rq' L' ks, flow_ok [] n' rq' L' /\ moved L L' x /\ rq' c = l ++ ks
    /\ (ks = [] \/ ks = [next x] /\ next x ∈ path) /\ running (nrun n') = running (nrun n).
Proof.
  intros Hf Erq Hpop n'. pose proof Hf as []. assert (Hx : x ∈ path) by (apply f_only0; rewrite Erq; apply list_elem_of_here).
  destruct (path_way x Hx) as (Hw & Hk & Hz). pose proof (srv_pop_cases (nrun n) rq c f_run0) as Hpc. rewrite Erq in Hpc.
  destruct Hpc as (r1 & E1 & Hr & Hrun & _). rewrite Hpop in E1. injection E1 as <-.
  assert (Hf1 : flow_ok [x] (mk_node (nheap n) r) (upd rq c l) L).
  { eapply flow_view; [exact Hf|intros y; by eapply srv_pop_view|exact Hr| | |].
    - intros y Hy Hl. rewrite upd_eq. destruct (f_enab0 y Hy Hl) as [Hin|?%elem_of_nil]; [|done].
      rewrite Erq in Hin. apply elem_of_cons in Hin as [-> |?]; [right; apply list_elem_of_here|by left].
    - intros y. rewrite upd_eq. intros Hy. apply f_only0. rewrite Erq. apply elem_of_cons. by right.
    - intros y c' Hc. by rewrite upd_ne. }
  destruct (f_queue _ _ _ _ Hf1 x Hw) as (q & Hq & Ei & _ & Hok). rewrite decide_False in Ei by done. cbn [nrun nheap] in Hq, Hok.
  split; [by rewrite Hq; cbn; rewrite Ei|].
  assert (Hlen : (length (L x) < S (size (mblks (nheap n))))%nat).
  { destruct Hok as (Hs & Hd & _). rewrite <- size_dom, <- (size_list_to_set (C := gset Z) (L x)) by done.
    apply Nat.lt_succ_r, subseteq_size. intros y Hy%elem_of_list_to_set. apply elem_of_dom. by eapply dseg_lookup. }
  destruct (flow_loop [x] x (L x) Hx (list_elem_of_here x []) _ (mk_node (nheap n) r) _ L Hf1 eq_refl Hlen) as (rq' & L' & ks & Hf2 & Hm & Eq & Hks & Hrn).
  exists rq', L', ks. rewrite upd_eq in Eq. split_and!; try done.
  - eapply flow_ex; [exact Hf2|]. intros y Hy Hl. destruct (f_enab _ _ _ _ Hf2 y Hy Hl) as [?|Hyx%list_elem_of_singleton]; [by left|].
    subst y. by destruct Hl, Hm.
  - destruct Hks as [?|(? & ? & _)]; auto.
  - transitivity (running r); [exact Hrn|exact Hrun].
Qed.

Definition weight (l : list Z) : nat := foldr (fun x m => (hops path x + m)%nat) O l.

Lemma weight_app l1 l2 : weight (l1 ++ l2) = (weight l1 + weight l2)%nat.
Proof. unfold weight. induction l1 as [|x l1 IH]; cbn; [done|]. rewrite IH. lia. Qed.

(** The loop of [streams_run] ends, all messages arrived. *)
Lemma flow_run : forall fuel n rq L, flow_ok [] n rq L -> (weight (rq c) < fuel)%nat ->
  exists n' rq' L', srv_loop srvp fuel n c = Some n' /\ flow_ok [] n' rq' L' /\ rq' c = []
    /\ under_way k path L' = under_way k path L /\ running (nrun n') = running (nrun n).
Proof.
  induction fuel as [|fuel IH]; intros n rq L Hf Hw; [lia|]. cbn [srv_loop].
  pose proof (srv_pop_cases (nrun n) rq c (f_run _ _ _ _ Hf)) as Hp. destruct (rq c) as [|x l] eqn:Erq.
  - rewrite Hp. by exists n, rq, L.
  - destruct Hp as (r & Hpop & _). rewrite Hpop.
    destruct (flow_serve n rq L x l r Hf Erq Hpop) as (Ei & rq1 & L1 & ks & Hf1 & Hm & Erq1 & Hks & Hrun1).
    rewrite Ei. cbn [mbind option_bind]. unfold stream_srvp at 2, has_srvp. rewrite Z.eqb_refl. set (n1 := delay_srvp _ _ _ _ _) in *.
    assert (Hx : x ∈ path) by (apply (f_only _ _ _ _ Hf); rewrite Erq; apply list_elem_of_here).
    destruct (IH n1 rq1 L1 Hf1) as (n' & rq' & L' & H1 & H2 & H3 & H4 & H5).
    { rewrite Erq1, weight_app. change (weight (x :: l)) with (hops path x + weight l)%nat in Hw.
      destruct Hks as [->|[-> Hin]]; [cbn; pose proof (hops_pos path x Hx); lia|].
      pose proof (hops_next k path x (proj1 Hway) Hx Hin). cbn. lia. }
    exists n', rq', L'. split_and!; try done; [|by rewrite H5]. rewrite H4. destruct Hm as (M1 & M2 & M3).
    apply (under_way_move k path L L1 x); try done; [apply Hway|]. intros z _. apply M3.
Qed.

End Flow.


(** ** Witness *)

(** A delay module, with one message and on its CPU's run queue, below a stream head. *)
Definition demo_below : queue := mk_queue 1 100 100 8 0 0 0 20 0 4096 16384 8192 0.
Definition demo_idle : run := mk_run (<[7 := demo_below]> (<[8 := idle 2]> ∅)) ∅ ∅.
Definition demo_node : node Kmem.kmem := mk_node (mk_heap Kmem.boot demo_mm ∅) (link_run demo_idle 0 7 demo_below).
Definition demo_queued (x : Z) : list Z := if decide (x = 7) then [100] else [].

Lemma demo_idle_ok : run_ok demo_idle (fun _ => []).
Proof.
  constructor; [done|intros _; apply NoDup_nil_2|by intros ? ? ? ?%elem_of_nil|].
  intros x q Hx. split; [|by intros [? ?%elem_of_nil]].
  cbn [queues demo_idle] in Hx. rewrite !lookup_insert_Some, lookup_empty in Hx.
  destruct Hx as [[_ <-]|[_ [[_ <-]|[_ ?]]]]; [done|done|congruence].
Qed.

Lemma demo_flow : flow_ok 1 2 0 8 [7] demo_mm [] demo_node (upd (fun _ => []) 0 ([] ++ [7])) demo_queued.
Proof.
  constructor.
  - intros x [-> | ->%list_elem_of_singleton]%elem_of_cons.
    + eexists. split; [vm_compute; reflexivity|]. split; [done|]. split; [done|].
      split; [|split; [apply NoDup_singleton|vm_compute; reflexivity]].
      cbn [dseg]. split_and!; [done|done|]. eexists. split; [vm_compute; reflexivity|]. done.
    + eexists. split; [vm_compute; reflexivity|]. split; [done|]. split; [done|].
      split; [done|split; [apply NoDup_nil_2|vm_compute; reflexivity]].
  - intros x y mp _ _. unfold demo_queued. repeat case_decide; subst; try done; by intros ? ?%elem_of_nil || intros ?%elem_of_nil.
  - apply link_run_ok; [exact demo_idle_ok|vm_compute; reflexivity|done|done].
  - intros x ->%list_elem_of_singleton _. left. apply list_elem_of_here.
  - done.
  - intros x c' _. unfold upd. case_decide; [done|]. by intros ?%elem_of_nil.
  - apply same_body_refl.
Qed.


End StreamDelay.
