(* ===== verification/Net.v ===== *)
(** * Wire formats shared by the network stack

    The byte-order helpers of [include/kappara/net/ip.h], the loads and stores
    of the little-endian CPU on a byte buffer, the RFC 1071 checksum of
    [uts/os/net/ipv4.c], and the view of a message block ([mblk_t] with its data
    block) that IP and the transports share. *)

From stdpp Require Import base numbers list.
From Stdlib Require Import ZArith Lia Bool.
From S2P Require Import Prelude.

Module Net.

(** ** Byte order *)

Definition htons16 (v : Z) : Z :=
  u16 (Z.lor (Z.shiftl (Z.land v 255) 8) (Z.land (Z.shiftr v 8) 255)).

Definition htonl32 (v : Z) : Z :=
  u32 (Z.lor (Z.lor (Z.lor (Z.shiftl (Z.land v 255) 24)
                           (Z.shiftl (Z.land v 65280) 8))
                    (Z.shiftr (Z.land v 16711680) 8))
             (Z.shiftr (Z.land v 4278190080) 24)).

(** Stores and loads of 16- and 32-bit fields of a packed structure. *)
Definition st16 (v : Z) : bytes := [v mod 256; (v / 256) mod 256].
Definition st32 (v : Z) : bytes :=
  [v mod 256; (v / 256) mod 256; (v / 65536) mod 256; (v / 16777216) mod 256].

Definition byte_at (l : bytes) (i : nat) : Z := nth i l 0.
Definition ld16 (l : bytes) (i : nat) : Z := byte_at l i + 256 * byte_at l (i + 1).
Definition ld32 (l : bytes) (i : nat) : Z :=
  byte_at l i + 256 * byte_at l (i + 1) + 65536 * byte_at l (i + 2)
    + 16777216 * byte_at l (i + 3).

(** ** The internet checksum *)

(** The summing loops: 16-bit big-endian words into a 32-bit accumulator, an odd
    trailing byte as the high half of a word. *)
Fixpoint sum16 (sum : Z) (p : bytes) : Z :=
  match p with
  | a :: b :: p => sum16 (u32 (sum + u16 (Z.lor (Z.shiftl a 8) b))) p
  | [a] => u32 (sum + u32 (Z.shiftl a 8))
  | [] => sum
  end.

(** [while (sum >> 16) sum = (sum & 0xffff) + (sum >> 16)]; a 32-bit sum needs at
    most three rounds, see [fold16_done]. *)
Fixpoint fold16 (fuel : nat) (sum : Z) : Z :=
  match fuel with
  | O => sum
  | S fuel =>
      if Z.shiftr sum 16 =? 0 then sum
      else fold16 fuel (u32 (Z.land sum 65535 + Z.shiftr sum 16))
  end.

Definition ip_checksum (buf : bytes) : Z := u16 (Z.lnot (fold16 4 (sum16 0 buf))).

(** ** Message blocks

    [db] is the data buffer [db_base..db_lim), [rptr] and [wptr] the offsets of
    [b_rptr] and [b_wptr] in it.  A message is the list of its blocks along
    [b_cont]. *)
Record mblk := mk_mblk { db : bytes; rptr : Z; wptr : Z }.

#[export] Instance mblk_rebuild : Rebuild mblk := rpure mk_mblk <:> db <:> rptr <:> wptr.

(** The bytes between the two pointers. *)
Definition window (b : mblk) : bytes :=
  take (Z.to_nat (wptr b - rptr b)) (drop (Z.to_nat (rptr b)) (db b)).

(** A block holding exactly [l], with [h] bytes of headroom. *)
Definition block_of (h : nat) (l : bytes) : mblk :=
  mk_mblk (replicate h 0 ++ l) (Z.of_nat h) (Z.of_nat h + zlen l).

(** Overwrite [l] at offset [off] of a buffer. *)
Definition poke (buf : bytes) (off : Z) (l : bytes) : bytes :=
  take (Z.to_nat off) buf ++ l ++ drop (Z.to_nat off + length l) buf.

(** ** Byte-order facts *)

Lemma htons16_swap v : is_u16 v -> htons16 v = 256 * (v mod 256) + v / 256.
Proof.
  intros Hv. unfold htons16.
  change 255 with (Z.ones 8). rewrite !Z.land_ones, Z.shiftr_div_pow2 by lia.
  change (2 ^ 8) with 256.
  rewrite lor_shiftl_add by (change (2 ^ 8) with 256; warith).
  change (2 ^ 8) with 256. rewrite (u16_small (_ * _ + _)); warith.
Qed.

Lemma htons16_range v : is_u16 (htons16 v).
Proof. apply u16_range. Qed.

Lemma htons16_involutive v : is_u16 v -> htons16 (htons16 v) = v.
Proof.
  intros Hv. rewrite (htons16_swap (htons16 v)) by apply htons16_range.
  rewrite htons16_swap by done. warith.
Qed.

Lemma land_mask_mid v (k n : Z) :
  0 <= k -> 0 <= n -> 0 <= v ->
  Z.land v (Z.shiftl (Z.ones n) k) = ((v / 2 ^ k) mod 2 ^ n) * 2 ^ k.
Proof.
  intros Hk Hn Hv. rewrite <- Z.land_ones, <- Z.shiftr_div_pow2, <- Z.shiftl_mul_pow2 by lia.
  apply Z.bits_inj'. intros i Hi.
  rewrite Z.land_spec, !Z.shiftl_spec by lia.
  destruct (decide (i < k)).
  - rewrite !(Z.testbit_neg_r _ (i - k)) by lia. apply andb_false_r.
  - rewrite Z.land_spec, Z.shiftr_spec by lia. do 2 f_equal. lia.
Qed.

Lemma htonl32_swap v : is_u32 v ->
  htonl32 v = (v mod 256) * 16777216 + ((v / 256) mod 256) * 65536
              + ((v / 65536) mod 256) * 256 + v / 16777216.
Proof.
  intros Hv. unfold htonl32.
  change 65280 with (Z.shiftl (Z.ones 8) 8).
  change 16711680 with (Z.shiftl (Z.ones 8) 16).
  change 4278190080 with (Z.shiftl (Z.ones 8) 24).
  rewrite !land_mask_mid by (unfold is_u32 in Hv; lia).
  change 255 with (Z.ones 8). rewrite Z.land_ones by lia.
  rewrite !Z.shiftr_div_pow2, (Z.shiftl_mul_pow2 (_ * _)) by lia.
  change (2 ^ 8) with 256. change (2 ^ 16) with 65536. change (2 ^ 24) with 16777216.
  replace ((v / 256) mod 256 * 256 * 256) with (Z.shiftl ((v / 256) mod 256) 16)
    by (rewrite Z.shiftl_mul_pow2 by lia; lia).
  replace ((v / 65536) mod 256 * 65536 / 256) with (Z.shiftl ((v / 65536) mod 256) 8)
    by (rewrite Z.shiftl_mul_pow2 by lia; warith).
  rewrite Z.div_mul by lia.
  rewrite <- !Z.lor_assoc.
  rewrite (lor_shiftl_add _ _ 8) by (change (2 ^ 8) with 256; warith).
  rewrite (lor_shiftl_add _ _ 16)
    by (change (2 ^ 16) with 65536; change (2 ^ 8) with 256; warith).
  rewrite (lor_shiftl_add _ _ 24)
    by (change (2 ^ 24) with 16777216; change (2 ^ 16) with 65536;
        change (2 ^ 8) with 256; warith).
  change (2 ^ 8) with 256. change (2 ^ 16) with 65536. change (2 ^ 24) with 16777216.
  rewrite u32_small; warith.
Qed.

Lemma htonl32_range v : is_u32 (htonl32 v).
Proof. apply u32_range. Qed.

(** A 32-bit value by its digits in base 256, most significant first. *)
Definition be32 (a b c d : Z) : Z := a * 16777216 + b * 65536 + c * 256 + d.

Lemma u32_digits v : is_u32 v ->
  exists a b c d, is_u8 a /\ is_u8 b /\ is_u8 c /\ is_u8 d /\ v = be32 a b c d.
Proof.
  intros Hv. exists (v / 16777216), ((v / 65536) mod 256), ((v / 256) mod 256), (v mod 256).
  unfold be32. repeat split; warith.
Qed.

Section Digits.
Variables a b c d : Z.
Hypotheses (Ha : is_u8 a) (Hb : is_u8 b) (Hc : is_u8 c) (Hd : is_u8 d).

Lemma be32_range : is_u32 (be32 a b c d).
Proof. unfold be32. warith. Qed.

Lemma be32_digit0 : be32 a b c d mod 256 = d.
Proof. unfold be32. warith. Qed.
Lemma be32_digit1 : (be32 a b c d / 256) mod 256 = c.
Proof. unfold be32. warith. Qed.
Lemma be32_digit2 : (be32 a b c d / 65536) mod 256 = b.
Proof. unfold be32. warith. Qed.
Lemma be32_digit3 : be32 a b c d / 16777216 = a.
Proof. unfold be32. warith. Qed.

Lemma htonl32_be32 : htonl32 (be32 a b c d) = be32 d c b a.
Proof.
  rewrite htonl32_swap by apply be32_range.
  by rewrite be32_digit0, be32_digit1, be32_digit2, be32_digit3.
Qed.

Lemma st32_be32 : st32 (be32 a b c d) = [d; c; b; a].
Proof.
  unfold st32. rewrite be32_digit0, be32_digit1, be32_digit2, be32_digit3.
  by rewrite Z.mod_small.
Qed.

End Digits.

Lemma htonl32_involutive v : is_u32 v -> htonl32 (htonl32 v) = v.
Proof.
  intros (a & b & c & d & ? & ? & ? & ? & ->)%u32_digits. by rewrite !htonl32_be32.
Qed.

Lemma st16_be v : is_u16 v -> st16 (htons16 v) = [v / 256; v mod 256].
Proof. intros Hv. unfold st16. rewrite htons16_swap by done. f_equal; [warith | f_equal; warith]. Qed.

Lemma st32_be v : is_u32 v ->
  st32 (htonl32 v) = [v / 16777216; (v / 65536) mod 256; (v / 256) mod 256; v mod 256].
Proof.
  intros (a & b & c & d & ? & ? & ? & ? & ->)%u32_digits.
  rewrite htonl32_be32, st32_be32, be32_digit0, be32_digit1, be32_digit2, be32_digit3 by done.
  done.
Qed.

Lemma byte_at_app pre l k : byte_at (pre ++ l) (length pre + k) = byte_at l k.
Proof. unfold byte_at. rewrite app_nth2 by lia. f_equal. lia. Qed.

Lemma byte_at_app_0 pre l : byte_at (pre ++ l) (length pre) = byte_at l 0.
Proof. rewrite <- (byte_at_app pre l 0). by rewrite Nat.add_0_r. Qed.

Lemma ld16_st16 v pre post : is_u16 v -> ld16 (pre ++ st16 v ++ post) (length pre) = v.
Proof. intros Hv. unfold ld16. rewrite byte_at_app_0, byte_at_app. cbn -[Z.mul]. warith. Qed.

Lemma ld32_st32 v pre post : is_u32 v -> ld32 (pre ++ st32 v ++ post) (length pre) = v.
Proof.
  intros (a & b & c & d & ? & ? & ? & ? & ->)%u32_digits.
  unfold ld32. rewrite byte_at_app_0, !byte_at_app, st32_be32 by done.
  unfold byte_at, be32. cbn [nth app]. lia.
Qed.

(** ** The checksum is RFC 1071's *)

(** The plain sum of the big-endian words of a buffer. *)
Fixpoint wsum (p : bytes) : Z :=
  match p with
  | a :: b :: p => a * 256 + b + wsum p
  | [a] => a * 256
  | [] => 0
  end.

(** End-around carry: the representative in 1..65535 of a positive sum. *)
Definition ones_sum (s : Z) : Z := if s =? 0 then 0 else (s - 1) mod 65535 + 1.

Lemma be16_word a b : is_u8 a -> is_u8 b -> u16 (Z.lor (Z.shiftl a 8) b) = a * 256 + b.
Proof.
  intros Ha Hb. rewrite lor_shiftl_add by (change (2 ^ 8) with 256; warith).
  change (2 ^ 8) with 256. apply u16_small. warith.
Qed.

Lemma sum16_wsum p : is_bytes p -> forall acc, is_u32 acc -> sum16 acc p = u32 (acc + wsum p).
Proof.
  induction p as [|a|a b p IH] using pair_list_ind; intros Hp acc Hacc; cbn [sum16 wsum].
  - rewrite Z.add_0_r, u32_small; done.
  - apply Forall_inv in Hp. rewrite Z.shiftl_mul_pow2 by lia. change (2 ^ 8) with 256.
    rewrite (u32_small (a * 256)) by warith. done.
  - inversion Hp as [|?? Ha Hp']; subst. inversion Hp' as [|?? Hb Hp'']; subst.
    rewrite be16_word, IH by auto with words. warith.
Qed.

Lemma wsum_nonneg p : is_bytes p -> 0 <= wsum p.
Proof.
  induction p as [|a|a b p IH] using pair_list_ind; intros Hp; cbn [wsum]; [done| |].
  - apply Forall_inv in Hp. warith.
  - inversion Hp as [|?? Ha Hp']; subst. inversion Hp' as [|?? Hb Hp'']; subst.
    specialize (IH Hp''). warith.
Qed.

Lemma wsum_bound p : is_bytes p -> wsum p <= 32768 * (zlen p + 1).
Proof.
  induction p as [|a|a b p IH] using pair_list_ind; intros Hp; cbn [wsum].
  - unfold zlen. cbn. lia.
  - apply Forall_inv in Hp. rewrite zlen_cons, zlen_nil. warith.
  - inversion Hp as [|?? Ha Hp']; subst. inversion Hp' as [|?? Hb Hp'']; subst.
    specialize (IH Hp''). rewrite !zlen_cons. warith.
Qed.

Lemma wsum_app p q : Nat.Even (length p) -> wsum (p ++ q) = wsum p + wsum q.
Proof.
  induction p as [|a|a b p IH] using pair_list_ind; intros He; cbn [wsum app].
  - lia.
  - destruct He as [k Hk]. cbn in Hk. lia.
  - rewrite IH; [lia|]. destruct He as [k Hk]. exists (k - 1)%nat. cbn in Hk. lia.
Qed.

Lemma fold16_step n s : is_u32 s ->
  fold16 (S n) s =
  if s / 65536 =? 0 then s else fold16 n (s mod 65536 + s / 65536).
Proof.
  intros Hs. cbn [fold16]. change 65535 with (Z.ones 16).
  rewrite Z.land_ones, Z.shiftr_div_pow2 by lia. change (2 ^ 16) with 65536.
  rewrite u32_small by warith. done.
Qed.

Lemma fold16_done s : is_u32 s -> fold16 4 s = ones_sum s.
Proof.
  intros Hs. unfold ones_sum. rewrite fold16_step by done.
  destruct (s / 65536 =? 0) eqn:E0; bool_prop; [case_if; bool_prop; warith|].
  set (t := s mod 65536 + s / 65536).
  assert (Ht : 1 <= t <= 131070 /\ (s - 1) mod 65535 = (t - 1) mod 65535).
  { subst t. split; [warith|]. replace (s - 1) with
      (s mod 65536 + s / 65536 - 1 + (s / 65536) * 65535) by warith.
    by rewrite Z.mod_add. }
  destruct Ht as [Ht Hmod]. rewrite Hmod. clearbody t.
  assert ((s =? 0) = false) as -> by (apply Z.eqb_neq; intros ->; warith).
  rewrite fold16_step by warith.
  destruct (t / 65536 =? 0) eqn:E1; bool_prop; [warith|].
  rewrite fold16_step by warith.
  assert ((t mod 65536 + t / 65536) / 65536 = 0) as -> by warith.
  cbn [Z.eqb]. warith.
Qed.

Lemma ones_sum_range s : 0 <= s -> 0 <= ones_sum s <= 65535.
Proof. intros. unfold ones_sum. case_if; warith. Qed.

Lemma u16_lnot x : 0 <= x <= 65535 -> u16 (Z.lnot x) = 65535 - x.
Proof. intros. unfold Z.lnot. warith. Qed.

(** For every buffer an IP datagram can hold, the loop computes the one's
    complement of the one's complement sum. *)
Lemma ip_checksum_spec p :
  is_bytes p -> zlen p <= 131070 -> ip_checksum p = 65535 - ones_sum (wsum p).
Proof.
  intros Hp Hl. unfold ip_checksum.
  pose proof (wsum_nonneg p Hp). pose proof (wsum_bound p Hp).
  rewrite sum16_wsum by (done || warith). rewrite Z.add_0_l, u32_small by warith.
  rewrite fold16_done by warith. apply u16_lnot, ones_sum_range. done.
Qed.

Lemma ip_checksum_range p : is_u16 (ip_checksum p).
Proof. apply u16_range. Qed.

(** A sum completed with its own checksum verifies. *)
Lemma ones_sum_complement s : 0 < s -> ones_sum (s + (65535 - ones_sum s)) = 65535.
Proof.
  intros Hs. unfold ones_sum at 2. assert ((s =? 0) = false) as -> by (apply Z.eqb_neq; lia).
  unfold ones_sum. case_if; bool_prop; warith.
Qed.

End Net.
