(* ===== verification/Ip.v ===== *)
(** * The IP multiplexor: [uts/os/net/ipv4.c] and [uts/os/net/netif.c]

    IP is one driver with several linked network interfaces below ([ip_lowers])
    and several bound protocol modules above ([ip_uppers]).  The state record
    [ip] holds both tables, the interface registry, the drop counters and three
    traces in call order: packets handed to a lower queue, packets put to an
    upper read queue, and M_PROTO replies sent back up.  Queues and interfaces
    are named by non-zero integers, [0] is the NULL pointer. *)

From stdpp Require Import base numbers list gmap.
From Stdlib Require Import ZArith Lia Bool.
From S2P Require Import Prelude Net.

Module Ip.
Import Net.

Definition IP_HDR_LEN : Z := 20.
Definition IP_DEFAULT_TTL : Z := 64.
Definition IP_MAX_LOWERS : nat := 4.
Definition IP_MAX_UPPERS : nat := 16.

Definition IP_T_SEND_REQ : Z := 1.
Definition IP_T_BIND_REQ : Z := 2.
Definition IP_T_BIND_ACK : Z := 3.
Definition IP_T_BIND_NAK : Z := 4.
Definition IP_T_UNBIND_REQ : Z := 5.
Definition IP_T_UNBIND_ACK : Z := 6.
Definition IP_T_UNITDATA_IND : Z := 7.

Definition M_DATA : Z := 0.

Definition SIOCSIFADDR : Z := 26892.
Definition SIOCGIFADDR : Z := 26893.
Definition SIOCSIFNETMASK : Z := 26902.
Definition SIOCGIFNETMASK : Z := 26905.
Definition SIOCSIFGW : Z := 26920.
Definition SIOCGIFGW : Z := 26921.
Definition SIOCGIFHWADDR : Z := 26922.
Definition SIOCSIFDNS : Z := 26923.
Definition SIOCGIFDNS : Z := 26924.

(** ** State *)

Record netif := mk_netif {
  nif_name : bytes;
  nif_ip : Z;
  nif_netmask : Z;
  nif_gateway : Z;
  nif_mac : option bytes;
  nif_dns : Z;
  nif_mtu : Z
}.

#[export] Instance netif_rebuild : Rebuild netif :=
  rpure mk_netif <:> nif_name <:> nif_ip <:> nif_netmask <:> nif_gateway <:> nif_mac
    <:> nif_dns <:> nif_mtu.

Record ip_lower := mk_ip_lower { muxid : Z; qbot : Z; lnif : Z }.

Record ip_upper := mk_ip_upper { active : bool; uproto : Z; ukey : Z; upper_rq : Z }.

#[export] Instance ip_upper_rebuild : Rebuild ip_upper :=
  rpure mk_ip_upper <:> active <:> uproto <:> ukey <:> upper_rq.

Record net_drops := mk_net_drops {
  ip_runt : Z; ip_badver : Z; ip_badihl : Z; ip_badlen : Z; ip_badcsum : Z; tcp_badcsum : Z
}.

#[export] Instance net_drops_rebuild : Rebuild net_drops :=
  rpure mk_net_drops <:> ip_runt <:> ip_badver <:> ip_badihl <:> ip_badlen <:> ip_badcsum
    <:> tcp_badcsum.

(** An [IP_T_UNITDATA_IND] header with the payload chained behind it. *)
Record unitdata := mk_unitdata { ud_proto : Z; ud_src : Z; ud_dst : Z; ud_body : list mblk }.

(** The [b_cont] of an M_IOCTL: nothing, a [linkblk], or raw bytes. *)
Inductive ioc_arg := IocNone | IocLink (l_qbot l_index : Z) | IocBytes (b : bytes).

(** The messages [ip_wput] tells apart by [db_type]. *)
Inductive ip_msg :=
| MIoctl (ic_cmd : Z) (arg : ioc_arg)
| MProto (mp : bytes) (cont : list mblk)
| MOther.

Record ip := mk_ip {
  ip_id_next : Z;
  drops : net_drops;
  lowers : list ip_lower;
  uppers : list ip_upper;
  netifs : gmap Z netif;
  netif_list : list Z;
  ctl_up : bool;
  drv_rc : Z -> Z;
  ip_out : list (Z * list mblk);
  ip_in : list (Z * unitdata);
  ip_reply : list (Z * (Z * Z * Z));
  ip_ioc : list (Z * (Z * ioc_arg))
}.

#[export] Instance ip_rebuild : Rebuild ip :=
  rpure mk_ip <:> ip_id_next <:> drops <:> lowers <:> uppers <:> netifs <:> netif_list
    <:> ctl_up <:> drv_rc <:> ip_out <:> ip_in <:> ip_reply <:> ip_ioc.

Definition no_netif : netif := mk_netif [] 0 0 0 None 0 0.
Definition nif_of (st : ip) (n : Z) : netif := default no_netif (netifs st !! n).

(** ** Routing *)

(** [while (v) { v &= v - 1; p++; }]: each round clears one set bit, so 32 rounds
    exhaust a 32-bit mask. *)
Fixpoint popcount_loop (fuel : nat) (v p : Z) : Z :=
  match fuel with
  | O => p
  | S fuel => if v =? 0 then p else popcount_loop fuel (Z.land v (v - 1)) (p + 1)
  end.

Definition popcount32 (v : Z) : Z := popcount_loop 32 v 0.

Definition nif_prefix (st : ip) (n : Z) : Z := popcount32 (nif_netmask (nif_of st n)).

Definition on_link (st : ip) (dst : Z) (n : Z) : bool :=
  Z.land dst (nif_netmask (nif_of st n))
    =? Z.land (nif_ip (nif_of st n)) (nif_netmask (nif_of st n)).

(** First loop of [ip_route]: longest prefix, later table entries win ties. *)
Fixpoint route_scan (st : ip) (dst : Z) (ls : list ip_lower)
    (best : option ip_lower) (best_prefix : Z) : option ip_lower :=
  match ls with
  | [] => best
  | l :: ls =>
      if (qbot l =? 0) || (lnif l =? 0) then route_scan st dst ls best best_prefix
      else if negb (on_link st dst (lnif l)) then route_scan st dst ls best best_prefix
      else
        let p := nif_prefix st (lnif l) in
        match best with
        | None => route_scan st dst ls (Some l) p
        | Some _ => if p >=? best_prefix then route_scan st dst ls (Some l) p
                    else route_scan st dst ls best best_prefix
        end
  end.

(** Second loop: the first interface with a gateway is the default route. *)
Fixpoint gateway_scan (st : ip) (ls : list ip_lower) : option ip_lower :=
  match ls with
  | [] => None
  | l :: ls =>
      if negb (qbot l =? 0) && negb (lnif l =? 0)
         && negb (nif_gateway (nif_of st (lnif l)) =? 0)
      then Some l else gateway_scan st ls
  end.

Definition ip_route (st : ip) (dst_ip : Z) : option ip_lower :=
  match route_scan st dst_ip (lowers st) None 0 with
  | Some l => Some l
  | None => gateway_scan st (lowers st)
  end.

Definition ip_route_src (st : ip) (dst_ip : Z) : Z :=
  match ip_route st dst_ip with
  | Some l => if lnif l =? 0 then 0 else nif_ip (nif_of st (lnif l))
  | None => 0
  end.

(** [netif_route] over the registry, newest interface first. *)
Fixpoint netif_scan (st : ip) (dst : Z) (ns : list Z) (best best_prefix : Z) : Z :=
  match ns with
  | [] => best
  | n :: ns =>
      if on_link st dst n then
        let p := nif_prefix st n in
        if (best =? 0) || (p >=? best_prefix) then netif_scan st dst ns n p
        else netif_scan st dst ns best best_prefix
      else netif_scan st dst ns best best_prefix
  end.

Definition netif_route (st : ip) (dst_ip : Z) : Z :=
  netif_scan st dst_ip (netif_list st) 0 0.

Definition netif_register (st : ip) (n : Z) (nif : netif) : ip :=
  if n =? 0 then st
  else st <| netifs := <[n := nif]> (netifs st) |> <| netif_list := n :: netif_list st |>.

Fixpoint netif_find_in (st : ip) (name : bytes) (ns : list Z) : Z :=
  match ns with
  | [] => 0
  | n :: ns => if bool_decide (nif_name (nif_of st n) = name) then n
               else netif_find_in st name ns
  end.

Definition netif_find (st : ip) (name : bytes) : Z := netif_find_in st name (netif_list st).

(** ** Linking lower streams *)

Fixpoint lower_register_in (ls : list ip_lower) (mux nif : Z) : list ip_lower :=
  match ls with
  | [] => []
  | l :: ls =>
      if (muxid l =? mux) && negb (qbot l =? 0) then mk_ip_lower (muxid l) (qbot l) nif :: ls
      else l :: lower_register_in ls mux nif
  end.

Definition ip_lower_register (st : ip) (mux nif : Z) : ip :=
  st <| lowers := lower_register_in (lowers st) mux nif |>.

(** [I_LINK]: the first free slot. *)
Fixpoint link_in (ls : list ip_lower) (l_index l_qbot : Z) : bool * list ip_lower :=
  match ls with
  | [] => (false, [])
  | l :: ls =>
      if muxid l =? 0 then (true, mk_ip_lower l_index l_qbot 0 :: ls)
      else let '(ok, ls) := link_in ls l_index l_qbot in (ok, l :: ls)
  end.

(** [I_UNLINK]: the first slot with that muxid. *)
Fixpoint unlink_in (ls : list ip_lower) (l_index : Z) : bool * list ip_lower :=
  match ls with
  | [] => (false, [])
  | l :: ls =>
      if muxid l =? l_index then (true, mk_ip_lower 0 0 0 :: ls)
      else let '(ok, ls) := unlink_in ls l_index in (ok, l :: ls)
  end.

Definition I_LINK : Z := 4.
Definition I_UNLINK : Z := 5.

(** The reply of an ioctl, sent up from queue [q]: [0] is M_IOCACK. *)
Definition ioc_reply (st : ip) (q : Z) (ok : bool) (arg : ioc_arg) : ip :=
  st <| ip_ioc := ip_ioc st ++ [(q, (if ok then 0 else -1, arg))] |>.

Definition ip_handle_link (st : ip) (q ic_cmd : Z) (arg : ioc_arg) : ip :=
  let '(ok, ls) :=
    match arg with
    | IocLink l_qbot l_index =>
        if ic_cmd =? I_LINK then link_in (lowers st) l_index l_qbot
        else if ic_cmd =? I_UNLINK then unlink_in (lowers st) l_index
        else (false, lowers st)
    | _ => (false, lowers st)
    end in
  ioc_reply (st <| lowers := ls |>) q ok arg.

(** ** Interface ioctls *)

(** The C string at the start of a buffer. *)
Fixpoint cstr (b : bytes) : bytes :=
  match b with
  | [] => []
  | c :: b => if c =? 0 then [] else c :: cstr b
  end.

Definition set_nif (st : ip) (n : Z) (f : netif -> netif) : ip :=
  st <| netifs := <[n := f (nif_of st n)]> (netifs st) |>.

(** The switch of [ip_handle_ifreq] on interface [n] and request block [b]:
    [struct kifreq] has the name at 0, the address at 8 and the MAC at 12. *)
Definition ifreq_switch (st : ip) (ic_cmd n : Z) (b : bytes) : bool * ip * bytes :=
  let nif := nif_of st n in
  let addr := ld32 b 8 in
  if ic_cmd =? SIOCSIFADDR then (true, set_nif st n (fun x => x <| nif_ip := addr |>), b)
  else if ic_cmd =? SIOCSIFNETMASK
  then (true, set_nif st n (fun x => x <| nif_netmask := addr |>), b)
  else if ic_cmd =? SIOCSIFGW
  then (true, set_nif st n (fun x => x <| nif_gateway := addr |>), b)
  else if ic_cmd =? SIOCGIFADDR then (true, st, poke b 8 (st32 (nif_ip nif)))
  else if ic_cmd =? SIOCGIFNETMASK then (true, st, poke b 8 (st32 (nif_netmask nif)))
  else if ic_cmd =? SIOCGIFGW then (true, st, poke b 8 (st32 (nif_gateway nif)))
  else if ic_cmd =? SIOCSIFDNS then (true, set_nif st n (fun x => x <| nif_dns := addr |>), b)
  else if ic_cmd =? SIOCGIFDNS then (true, st, poke b 8 (st32 (nif_dns nif)))
  else if ic_cmd =? SIOCGIFHWADDR
  then match nif_mac nif with
       | Some mac => (true, st, poke b 12 (take 6 mac))
       | None => (false, st, b)
       end
  else (false, st, b).

Definition ip_handle_ifreq (st : ip) (q ic_cmd : Z) (arg : ioc_arg) : ip :=
  match arg with
  | IocBytes b =>
      if zlen b <? 20 then ioc_reply st q false arg
      else
        let b := poke b 7 [0] in
        let n := netif_find st (cstr b) in
        if n =? 0 then ioc_reply st q false (IocBytes b)
        else let '(ok, st, b) := ifreq_switch st ic_cmd n b in
             ioc_reply st q ok (IocBytes b)
  | _ => ioc_reply st q false arg
  end.

(** ** The bind table *)

Definition same_bind (u : ip_upper) (proto key rq : Z) : bool :=
  active u && (uproto u =? proto) && (ukey u =? key) && (upper_rq u =? rq).

Fixpoint bind_slot (us : list ip_upper) (proto key rq : Z) : Z * list ip_upper :=
  match us with
  | [] => (-1, [])
  | u :: us =>
      if negb (active u) then (0, mk_ip_upper true proto key rq :: us)
      else let '(rc, us) := bind_slot us proto key rq in (rc, u :: us)
  end.

Definition ip_bind (us : list ip_upper) (proto key rq : Z) : Z * list ip_upper :=
  if existsb (fun u => same_bind u proto key rq) us then (-1, us)
  else bind_slot us proto key rq.

Fixpoint ip_unbind (us : list ip_upper) (proto key rq : Z) : Z * list ip_upper :=
  match us with
  | [] => (-1, [])
  | u :: us =>
      if same_bind u proto key rq
      then (0, u <| active := false |> <| upper_rq := 0 |> :: us)
      else let '(rc, us) := ip_unbind us proto key rq in (rc, u :: us)
  end.

Section WithAlloc.
Context {M : Type} `{MsgAlloc M}.

(** [ip_bind_reply]: an 8-byte M_PROTO sent up the stream of [ip_drv_wq]. *)
Definition ip_bind_reply (st : ip) (q prim proto key : Z) (m : M) : ip * M :=
  let '(ok, m) := allocb_ok 8 m in
  if ok then (st <| ip_reply := ip_reply st ++ [(q, (prim, proto, key))] |>, m) else (st, m).

(** [ip_handle_bind] for a bind or unbind message with block bytes [mp] that came
    down queue [q]; [rq] is [OTHERQ(q)->q_next]. *)
Definition ip_handle_bind (st : ip) (q rq : Z) (mp : bytes) (m : M) : Z * ip * M :=
  if zlen mp <? 8 then (-1, st, m)
  else
    let prim := byte_at mp 0 in
    let proto := byte_at mp 1 in
    let key := ld32 mp 4 in
    if rq =? 0 then
      let '(st, m) := ip_bind_reply st q IP_T_BIND_NAK proto key m in (-1, st, m)
    else
      let '(rc, us) := if prim =? IP_T_BIND_REQ then ip_bind (uppers st) proto key rq
                       else ip_unbind (uppers st) proto key rq in
      let st := st <| uppers := us |> in
      let reply := if prim =? IP_T_BIND_REQ
                   then (if rc =? 0 then IP_T_BIND_ACK else IP_T_BIND_NAK)
                   else IP_T_UNBIND_ACK in
      let '(st, m) := ip_bind_reply st q reply proto key m in (0, st, m).

(** ** Send *)

(** The twenty header bytes, checksum field included. *)
Definition ip_header (total id proto checksum src dst : Z) : bytes :=
  [69; 0] ++ st16 (htons16 (u16 total)) ++ st16 (htons16 id) ++ st16 0
    ++ [IP_DEFAULT_TTL; proto] ++ st16 checksum ++ st32 (htonl32 src) ++ st32 (htonl32 dst).

(** [ip_handle_send] with the payload message [mp] of the send request. *)
Definition ip_handle_send (st : ip) (proto dst_ip : Z) (mp : list mblk) : Z * ip :=
  match mp with
  | [] => (-1, st)
  | b :: cont =>
      match ip_route st dst_ip with
      | None => (-1, st)
      | Some lower =>
          let nif := nif_of st (lnif lower) in
          let payload := u32 (wptr b - rptr b) in
          if payload >? u32 (nif_mtu nif - IP_HDR_LEN) then (-1, st)
          else if rptr b <? IP_HDR_LEN then (-1, st)
          else
            let r := rptr b - IP_HDR_LEN in
            let id := u16 (ip_id_next st + 1) in
            let st := st <| ip_id_next := id |> in
            let total := IP_HDR_LEN + payload in
            let h0 := ip_header total id proto 0 (nif_ip nif) dst_ip in
            let h := ip_header total id proto (htons16 (ip_checksum h0)) (nif_ip nif) dst_ip in
            let b := b <| db := poke (db b) r h |> <| rptr := r |> in
            (drv_rc st (qbot lower),
             st <| ip_out := ip_out st ++ [(qbot lower, b :: cont)] |>)
      end
  end.

(** The M_PROTO half of [ip_wput]: [mp] is the control block, [cont] its [b_cont]. *)
Definition ip_wput_proto (st : ip) (q rq : Z) (mp : bytes) (cont : list mblk) (m : M)
  : Z * ip * M :=
  if zlen mp <? 1 then (-1, st, m)
  else
    let prim := byte_at mp 0 in
    if prim =? IP_T_SEND_REQ then
      if zlen mp <? 8 then (-1, st, m)
      else let '(rc, st) := ip_handle_send st (byte_at mp 1) (ld32 mp 4) cont in (rc, st, m)
    else if (prim =? IP_T_BIND_REQ) || (prim =? IP_T_UNBIND_REQ)
    then ip_handle_bind st q rq mp m
    else (-1, st, m).

(** [ip_wput] on queue [q]; [rq] is [OTHERQ(q)->q_next]. *)
Definition ip_wput (st : ip) (q rq : Z) (msg : ip_msg) (m : M) : Z * ip * M :=
  match msg with
  | MIoctl ic_cmd arg =>
      if (ic_cmd =? I_LINK) || (ic_cmd =? I_UNLINK)
      then (0, ip_handle_link st q ic_cmd arg, m)
      else if Z.land ic_cmd 65280 =? 26880
      then (0, ip_handle_ifreq st q ic_cmd arg, m)
      else (0, ioc_reply st q false arg, m)
  | MProto mp cont => ip_wput_proto st q rq mp cont m
  | MOther => (0, st, m)
  end.

(** [ip_send] builds the M_PROTO header and hands it to [ip_wput] on the control
    stream. *)
Definition ip_send (st : ip) (dst_ip proto : Z) (mp : list mblk) (m : M) : Z * ip * M :=
  match mp with
  | [] => (-1, st, m)
  | _ =>
      if negb (ctl_up st) then (-1, st, m)
      else
        let '(ok, m) := allocb_ok 8 m in
        if negb ok then (-1, st, m)
        else ip_wput st 0 0 (MProto ([IP_T_SEND_REQ; proto; 0; 0] ++ st32 dst_ip) mp) m
  end.

(** ** Receive *)

(** [dupmsg]: one mblk header per block, all or nothing. *)
Fixpoint dupmsg_ok (body : list mblk) (m : M) : bool * M :=
  match body with
  | [] => (true, m)
  | _ :: body =>
      let '(ok, m) := dupb_ok m in
      if ok then dupmsg_ok body m else (false, m)
  end.

Definition matches (st : ip) (proto : Z) : list Z :=
  map upper_rq (filter (fun u => active u = true /\ uproto u = proto) (uppers st)).

(** The delivery loop of [ip_demux]: a duplicate for every match but the last,
    the body itself for the last. *)
Fixpoint demux_to (st : ip) (qs : list Z) (ud : unitdata) (m : M) : ip * M :=
  match qs with
  | [] => (st, m)
  | [q] =>
      let '(ok, m) := allocb_ok 12 m in
      if ok then (st <| ip_in := ip_in st ++ [(q, ud)] |>, m) else (st, m)
  | q :: qs =>
      let '(okb, m) := dupmsg_ok (ud_body ud) m in
      let '(oki, m) := allocb_ok 12 m in
      if okb && oki
      then demux_to (st <| ip_in := ip_in st ++ [(q, ud)] |>) qs ud m
      else demux_to st qs ud m
  end.

Definition ip_demux (st : ip) (proto src dst : Z) (body : list mblk) (m : M) : ip * M :=
  demux_to st (matches st proto) (mk_unitdata proto src dst body) m.

Definition bump (st : ip) (f : net_drops -> net_drops) : ip := st <| drops := f (drops st) |>.

(** [ip_rput] on a message of type [db_type]. *)
Definition ip_rput (st : ip) (db_type : Z) (mp : list mblk) (m : M) : ip * M :=
  match mp with
  | [] => (st, m)
  | b :: cont =>
      if negb (db_type =? M_DATA) then (st, m)
      else
        let len := u32 (wptr b - rptr b) in
        if len <? IP_HDR_LEN
        then (bump st (fun d => d <| ip_runt := u64 (ip_runt d + 1) |>), m)
        else
          let h := drop (Z.to_nat (rptr b)) (db b) in
          let ver_ihl := byte_at h 0 in
          if negb (Z.shiftr ver_ihl 4 =? 4)
          then (bump st (fun d => d <| ip_badver := u64 (ip_badver d + 1) |>), m)
          else
            let ihl_bytes := Z.land ver_ihl 15 * 4 in
            if (ihl_bytes <? IP_HDR_LEN) || (ihl_bytes >? len)
            then (bump st (fun d => d <| ip_badihl := u64 (ip_badihl d + 1) |>), m)
            else
              let total := htons16 (ld16 h 2) in
              if total >? len
              then (bump st (fun d => d <| ip_badlen := u64 (ip_badlen d + 1) |>), m)
              else if total <? IP_HDR_LEN
              then (bump st (fun d => d <| ip_badlen := u64 (ip_badlen d + 1) |>), m)
              else
                let '(b, cont) := if total <? len then (b <| wptr := rptr b + total |>, [])
                                  else (b, cont) in
                if negb (ip_checksum (take (Z.to_nat ihl_bytes) h) =? 0)
                then (bump st (fun d => d <| ip_badcsum := u64 (ip_badcsum d + 1) |>), m)
                else
                  ip_demux st (byte_at h 9) (htonl32 (ld32 h 12)) (htonl32 (ld32 h 16))
                    (b <| rptr := rptr b + ihl_bytes |> :: cont) m
  end.

End WithAlloc.

(** ** Routing is longest prefix match *)

(** The number of one bits, on the binary representation. *)
Fixpoint pos_ones (p : positive) : Z :=
  match p with xH => 1 | xO p => pos_ones p | xI p => 1 + pos_ones p end.
Definition ones (v : Z) : Z := match v with Zpos p => pos_ones p | _ => 0 end.

Lemma ones_double v : ones (2 * v) = ones v.
Proof. by destruct v. Qed.

Lemma clear_low_bit p : exists v, Z.land (Zpos p) (Zpos p - 1) = v /\ 0 <= v < Zpos p
  /\ ones v = pos_ones p - 1.
Proof.
  induction p as [p IH|p IH|].
  - exists (2 * Zpos p). cbn [pos_ones]. split_and!; [|lia|lia|rewrite ones_double; cbn; lia].
    apply Z.bits_inj'. intros i Hi. rewrite Z.land_spec.
    replace (Zpos p~1 - 1) with (2 * Zpos p) by lia.
    replace (Zpos p~1) with (2 * Zpos p + 1) by lia.
    destruct (decide (i = 0)) as [->|]; [by rewrite Z.testbit_even_0, andb_false_r|].
    replace i with (Z.succ (i - 1)) by lia.
    rewrite Z.testbit_odd_succ, Z.testbit_even_succ by lia. apply andb_diag.
  - destruct IH as (v & Hv & Hr & Ho). exists (2 * v). cbn [pos_ones].
    split_and!; [|lia|lia|by rewrite ones_double].
    rewrite <- Hv. apply Z.bits_inj'. intros i Hi. rewrite Z.land_spec.
    replace (Zpos p~0 - 1) with (2 * (Zpos p - 1) + 1) by lia.
    replace (Zpos p~0) with (2 * Zpos p) by lia.
    destruct (decide (i = 0)) as [->|]; [by rewrite !Z.testbit_even_0|].
    replace i with (Z.succ (i - 1)) by lia.
    rewrite Z.testbit_odd_succ, !Z.testbit_even_succ by lia. by rewrite Z.land_spec.
  - by exists 0.
Qed.

Lemma ones_nonneg v : 0 <= ones v.
Proof. destruct v as [|w|]; cbn; [lia| |lia]. induction w; cbn [pos_ones]; lia. Qed.

Lemma popcount_loop_ones n v p :
  0 <= v -> ones v <= Z.of_nat n -> popcount_loop n v p = p + ones v.
Proof.
  revert v p. induction n as [|n IH]; intros v p Hv Ho; cbn [popcount_loop].
  - destruct v as [|q|]; [cbn; lia| |lia]. destruct (clear_low_bit q) as (w & _ & Hw & Hn).
    pose proof (ones_nonneg w). cbn [ones] in Ho. lia.
  - destruct v as [|q|]; [cbn; lia| |lia]. cbn [Z.eqb].
    destruct (clear_low_bit q) as (w & -> & Hw & Hn).
    rewrite IH by (cbn [ones] in Ho; lia). cbn [ones]. lia.
Qed.

Lemma ones_bound n v : 0 <= v < 2 ^ Z.of_nat n -> ones v <= Z.of_nat n.
Proof.
  revert v. induction n as [|n IH]; intros v Hv.
  - replace v with 0 by (cbn in Hv; lia). done.
  - destruct v as [|[q|q|]|]; cbn [ones pos_ones]; try lia.
    + specialize (IH (Zpos q)). rewrite Nat2Z.inj_succ, Z.pow_succ_r in Hv by lia.
      cbn [ones] in IH. lia.
    + specialize (IH (Zpos q)). rewrite Nat2Z.inj_succ, Z.pow_succ_r in Hv by lia.
      cbn [ones] in IH. lia.
Qed.

(** Kernighan's loop counts the bits of every 32-bit word. *)
Lemma popcount32_ones v : is_u32 v -> popcount32 v = ones v.
Proof.
  intros Hv. unfold popcount32.
  rewrite popcount_loop_ones; [lia|apply Hv|]. apply (ones_bound 32). apply Hv.
Qed.

Section Route.
Variables (st : ip) (dst : Z).

(** The prefix lengths, abstract in this section. *)
Variable prefix : Z -> Z.
Hypothesis prefix_eq : forall n, nif_prefix st n = prefix n.
#[local] Notation prefix_of l := (prefix (lnif l)).

Definition usable (l : ip_lower) : Prop := qbot l <> 0 /\ lnif l <> 0.
Definition reaches (l : ip_lower) : Prop := usable l /\ on_link st dst (lnif l) = true.
Definition has_gateway (l : ip_lower) : Prop :=
  usable l /\ nif_gateway (nif_of st (lnif l)) <> 0.

(** [l] is the longest match of [ls], the last of equally long ones. *)
Definition longest (ls : list ip_lower) (l : ip_lower) : Prop :=
  reaches l /\ exists pre post, ls = pre ++ l :: post
  /\ Forall (fun l' => reaches l' -> prefix_of l' <= prefix_of l) pre
  /\ Forall (fun l' => reaches l' -> prefix_of l' < prefix_of l) post.

Lemma route_scan_skip l ls best bp : ~ reaches l ->
  route_scan st dst (l :: ls) best bp = route_scan st dst ls best bp.
Proof.
  intros Hn. cbn [route_scan]. case_if; [done|]. case_if; [done|]. bool_prop.
  destruct Hn. repeat split; done.
Qed.

Lemma route_scan_take l ls best bp : reaches l ->
  (best <> None -> bp <= prefix_of l) ->
  route_scan st dst (l :: ls) best bp = route_scan st dst ls (Some l) (prefix_of l).
Proof.
  intros [[Hq Hn] Ho] Hb. cbn [route_scan].
  apply Z.eqb_neq in Hq, Hn. rewrite Hq, Hn, Ho. cbn [orb negb].
  rewrite prefix_eq. set (p := prefix_of l) in *.
  destruct best; [|done]. assert (p >=? bp = true) as ->; [|done]. by apply Z.geb_le, Hb.
Qed.

Lemma route_scan_keep l ls b bp : reaches l -> prefix_of l < bp ->
  route_scan st dst (l :: ls) (Some b) bp = route_scan st dst ls (Some b) bp.
Proof.
  intros [[Hq Hn] Ho] Hb. cbn [route_scan].
  apply Z.eqb_neq in Hq, Hn. rewrite Hq, Hn, Ho. cbn [orb negb].
  rewrite prefix_eq. set (p := prefix_of l) in *.
  assert (p >=? bp = false) as ->; [|done]. rewrite Z.geb_leb. by apply Z.leb_gt.
Qed.

#[local] Instance reaches_dec l : Decision (reaches l).
Proof. unfold reaches, usable. apply _. Defined.

(** Invariant of the first loop: [seen] is the part of the table already read. *)
Lemma route_scan_longest ls : forall seen b, longest seen b ->
  exists l, route_scan st dst ls (Some b) (prefix_of b) = Some l /\ longest (seen ++ ls) l.
Proof.
  induction ls as [|l ls IH]; intros seen b Hb.
  - exists b. by rewrite app_nil_r.
  - replace (seen ++ l :: ls) with ((seen ++ [l]) ++ ls) by by rewrite <- app_assoc.
    destruct Hb as (Hr & pre & post & -> & Hpre & Hpost).
    destruct (decide (reaches l)) as [Hl|Hl];
      [destruct (decide (prefix_of b <= prefix_of l)) as [Hp|Hp]|].
    + rewrite route_scan_take by done. apply IH. split; [done|].
      exists (pre ++ b :: post), []. split; [done|]. split; [|done].
      apply Forall_app. split; [|constructor; [done|]];
        (eapply Forall_impl; [eassumption|]); cbn; intros l' H Hl'; specialize (H Hl'); lia.
    + rewrite route_scan_keep by (done || lia). apply IH. split; [done|].
      exists pre, (post ++ [l]). split; [by rewrite <- app_assoc|]. split; [done|].
      apply Forall_app. split; [done|]. apply Forall_singleton. lia.
    + rewrite route_scan_skip by done. apply IH. split; [done|].
      exists pre, (post ++ [l]). split; [by rewrite <- app_assoc|]. split; [done|].
      apply Forall_app. split; [done|]. by apply Forall_singleton.
Qed.

Lemma route_scan_none ls : forall seen, Forall (fun l => ~ reaches l) seen ->
  match route_scan st dst ls None 0 with
  | Some l => longest (seen ++ ls) l
  | None => Forall (fun l => ~ reaches l) (seen ++ ls)
  end.
Proof.
  induction ls as [|l ls IH]; intros seen Hs; [by rewrite app_nil_r|].
  replace (seen ++ l :: ls) with ((seen ++ [l]) ++ ls) by by rewrite <- app_assoc.
  destruct (decide (reaches l)) as [Hl|Hl].
  - rewrite route_scan_take by done.
    destruct (route_scan_longest ls (seen ++ [l]) l) as (b & -> & Hb); [|done].
    split; [done|]. exists seen, []. split; [done|]. split; [|done].
    eapply Forall_impl; [done|]. cbn. done.
  - rewrite route_scan_skip by done. apply IH, Forall_app. split; [done|].
    by apply Forall_singleton.
Qed.

Lemma gateway_scan_spec ls :
  match gateway_scan st ls with
  | Some l => has_gateway l /\ exists pre post, ls = pre ++ l :: post
              /\ Forall (fun l' => ~ has_gateway l') pre
  | None => Forall (fun l' => ~ has_gateway l') ls
  end.
Proof.
  induction ls as [|l ls IH]; cbn [gateway_scan]; [done|].
  case_if.
  - bool_prop. split; [done|]. by exists [], ls.
  - assert (~ has_gateway l) as Hl.
    { intros [[Hq%Z.eqb_neq Hn%Z.eqb_neq] Hg%Z.eqb_neq]. by rewrite Hq, Hn, Hg in E. }
    destruct (gateway_scan st ls) as [b|]; [|by constructor].
    destruct IH as (Hb & pre & post & -> & Hpre). split; [done|].
    exists (l :: pre), post. split; [done|]. by constructor.
Qed.

End Route.

Lemma ip_route_usable st dst l : ip_route st dst = Some l -> l ∈ lowers st /\ usable l.
Proof.
  unfold ip_route. pose proof (route_scan_none st dst (nif_prefix st) (fun _ => eq_refl) (lowers st) [] ltac:(done)) as Hs.
  pose proof (gateway_scan_spec st (lowers st)) as Hg. cbn [app] in Hs.
  destruct (route_scan _ _ _ _ _).
  - intros [= ->]. destruct Hs as [[Hu _] (pre & post & -> & _)]. split; [set_solver|done].
  - intros Hr. rewrite Hr in Hg. destruct Hg as ([Hu _] & pre & post & -> & _).
    split; [set_solver|done].
Qed.

(** [ip_route] is longest-prefix match with a default route.  The result is
    the linked interface whose subnet contains the destination and whose netmask
    has the most one bits, the last one in the table among equals; when no
    subnet matches it is the first linked interface with a gateway; only when
    there is neither is there no route. *)
Theorem ip_route_longest_prefix (st : ip) (dst : Z) :
  match ip_route st dst with
  | Some l =>
      longest st dst (nif_prefix st) (lowers st) l
      \/ (Forall (fun l' => ~ reaches st dst l') (lowers st)
          /\ has_gateway st l /\ exists pre post, lowers st = pre ++ l :: post
          /\ Forall (fun l' => ~ has_gateway st l') pre)
  | None => Forall (fun l' => ~ reaches st dst l') (lowers st)
            /\ Forall (fun l' => ~ has_gateway st l') (lowers st)
  end.
Proof.
  unfold ip_route. pose proof (route_scan_none st dst (nif_prefix st) (fun _ => eq_refl) (lowers st) [] ltac:(done)) as Hs.
  pose proof (gateway_scan_spec st (lowers st)) as Hg. cbn [app] in Hs.
  destruct (route_scan _ _ _ _ _); [by left|].
  destruct (gateway_scan _ _); [right; tauto|done].
Qed.

(** ** The bind table is a bounded set of (protocol, key, queue) triples *)

Definition triple (u : ip_upper) : Z * Z * Z := (uproto u, ukey u, upper_rq u).
Definition triples (us : list ip_upper) : list (Z * Z * Z) :=
  map triple (filter (fun u => active u = true) us).
Definition bindings (us : list ip_upper) : gset (Z * Z * Z) := list_to_set (triples us).
Definition uppers_wf (us : list ip_upper) : Prop :=
  length us = IP_MAX_UPPERS /\ NoDup (triples us).

Lemma triples_cons u us :
  triples (u :: us) = if active u then triple u :: triples us else triples us.
Proof. unfold triples. rewrite filter_cons. by destruct (active u). Qed.

Lemma same_bind_spec u p k q : same_bind u p k q = true <-> active u = true /\ triple u = (p, k, q).
Proof.
  unfold same_bind, triple. rewrite !andb_true_iff, !Z.eqb_eq.
  split; [intros [[[? ->] ->] ->]; done | intros [? [= -> -> ->]]; done].
Qed.

Lemma same_bind_exists us p k q :
  existsb (fun u => same_bind u p k q) us = true <-> (p, k, q) ∈ triples us.
Proof.
  unfold triples. rewrite existsb_exists, list_elem_of_fmap. split.
  - intros (u & Hu & Hs%same_bind_spec). exists u. split; [naive_solver|].
    apply list_elem_of_filter. split; [naive_solver|]. by apply list_elem_of_In.
  - intros (u & Ht & [Ha Hu]%list_elem_of_filter). exists u. split; [by apply list_elem_of_In|].
    by apply same_bind_spec.
Qed.

Lemma bind_slot_spec us p k q :
  let '(rc, us') := bind_slot us p k q in
  (rc = 0 /\ (length (triples us) < length us)%nat /\ length us' = length us
     /\ triples us' ≡ₚ (p, k, q) :: triples us)
  \/ (rc = -1 /\ us' = us /\ length (triples us) = length us).
Proof.
  induction us as [|u us IH]; cbn [bind_slot]; [by right|].
  rewrite triples_cons. destruct (active u) eqn:Ea; cbn [negb].
  - destruct (bind_slot us p k q) as [rc us']. rewrite triples_cons, Ea. cbn [length].
    destruct IH as [(-> & Hl & Hl' & Hp)|(-> & -> & Hl)]; [left|right; auto with lia].
    rewrite Hp. split_and!; [done|lia|lia|constructor].
  - left. rewrite triples_cons. cbn [active length]. split_and!; try done.
    unfold triples. rewrite length_map. pose proof (length_filter (fun u => active u = true) us). lia.
Qed.

Lemma ip_unbind_spec us p k q : NoDup (triples us) ->
  let '(rc, us') := ip_unbind us p k q in
  length us' = length us /\
  ((rc = 0 /\ triples us ≡ₚ (p, k, q) :: triples us')
   \/ (rc = -1 /\ us' = us /\ (p, k, q) ∉ triples us)).
Proof.
  induction us as [|u us IH]; cbn [ip_unbind]; intros Hd.
  - split; [done|]. right. split_and!; [done|done|]. apply not_elem_of_nil.
  - destruct (same_bind u p k q) eqn:Es.
    + apply same_bind_spec in Es as [Ha Ht]. split; [done|]. left. split; [done|].
      rewrite !triples_cons, Ha. destruct u. cbn. by rewrite <- Ht.
    + assert (~ (active u = true /\ triple u = (p, k, q))) as Hs
        by (rewrite <- same_bind_spec, Es; done).
      rewrite triples_cons in Hd.
      specialize (IH ltac:(destruct (active u); [by apply NoDup_cons in Hd as []|done])).
      destruct (ip_unbind us p k q) as [rc us']. rewrite !triples_cons.
      destruct IH as [Hl [[-> Hp]|(-> & -> & Hn)]]; (split; [cbn; lia|]).
      * left. split; [done|]. destruct (active u); [|done]. rewrite Hp. constructor.
      * right. split_and!; [done|done|]. destruct (active u); [|done]. set_solver.
Qed.

(** [ip_bind] implements insertion into a set of at most sixteen bindings.
    It succeeds exactly when the triple is new and a slot is free, and then adds
    that triple and nothing else; otherwise it returns -1 and the table is
    unchanged.  The table never holds a triple twice. *)
Theorem ip_bind_refines_insert (us : list ip_upper) (p k q : Z) :
  uppers_wf us ->
  let '(rc, us') := ip_bind us p k q in
  uppers_wf us' /\
  ((rc = 0 /\ (p, k, q) ∉ bindings us /\ (size (bindings us) < IP_MAX_UPPERS)%nat
      /\ bindings us' = {[(p, k, q)]} ∪ bindings us)
   \/ (rc = -1 /\ us' = us
       /\ ((p, k, q) ∈ bindings us \/ size (bindings us) = IP_MAX_UPPERS))).
Proof.
  intros [Hlen Hd]. unfold ip_bind, bindings. rewrite size_list_to_set by done.
  pose proof (same_bind_exists us p k q) as He.
  destruct (existsb _ us).
  - split; [done|]. right. split_and!; [done|done|]. left. apply elem_of_list_to_set. tauto.
  - assert ((p, k, q) ∉ triples us) as Hn by (rewrite <- He; done).
    pose proof (bind_slot_spec us p k q) as Hb. destruct (bind_slot us p k q) as [rc us'].
    destruct Hb as [(-> & Hl & Hl' & Hp)|(-> & -> & Hl)].
    + split; [split; [lia|]|left].
      * rewrite Hp. by constructor.
      * split_and!; [done|by rewrite elem_of_list_to_set|lia|]. by rewrite Hp.
    + split; [done|]. right. split_and!; [done|done|]. right. lia.
Qed.

Definition empty_uppers : list ip_upper := replicate 16 (mk_ip_upper false 0 0 0).

Lemma ip_bind_refines_insert_witness :
  let '(rc, us') := ip_bind empty_uppers 6 0 77 in
  uppers_wf us' /\
  ((rc = 0 /\ (6, 0, 77) ∉ bindings empty_uppers
      /\ (size (bindings empty_uppers) < IP_MAX_UPPERS)%nat
      /\ bindings us' = {[(6, 0, 77)]} ∪ bindings empty_uppers)
   \/ (rc = -1 /\ us' = empty_uppers
       /\ ((6, 0, 77) ∈ bindings empty_uppers
           \/ size (bindings empty_uppers) = IP_MAX_UPPERS))).
Proof. apply (ip_bind_refines_insert empty_uppers 6 0 77). split; [done|apply NoDup_nil_2]. Defined.

(** [ip_unbind] implements removal from that set: it returns 0 exactly when
    the triple was bound, and then removes it and nothing else. *)
Theorem ip_unbind_refines_delete (us : list ip_upper) (p k q : Z) :
  uppers_wf us ->
  let '(rc, us') := ip_unbind us p k q in
  uppers_wf us' /\ bindings us' = bindings us ∖ {[(p, k, q)]}
  /\ (rc = 0 <-> (p, k, q) ∈ bindings us).
Proof.
  intros [Hlen Hd]. unfold bindings. pose proof (ip_unbind_spec us p k q Hd) as Hu.
  destruct (ip_unbind us p k q) as [rc us'].
  destruct Hu as [Hl [[-> Hp]|(-> & -> & Hn)]].
  - rewrite Hp in Hd. apply NoDup_cons in Hd as [Hn Hd].
    split; [split; [congruence|done]|]. rewrite (list_to_set_perm_L _ _ Hp), list_to_set_cons.
    rewrite difference_union_distr_l_L, difference_diag_L, union_empty_l_L.
    split; [|split; [intros _; by apply elem_of_union_l, elem_of_singleton|done]].
    symmetry. apply difference_disjoint_L, disjoint_singleton_r. by rewrite elem_of_list_to_set.
  - split; [done|]. split; [set_solver|]. rewrite elem_of_list_to_set. split; [done|tauto].
Qed.

Lemma ip_unbind_refines_delete_witness :
  let us := (ip_bind empty_uppers 6 0 77).2 in
  let '(rc, us') := ip_unbind us 6 0 77 in
  uppers_wf us' /\ bindings us' = bindings us ∖ {[(6, 0, 77)]}
  /\ (rc = 0 <-> (6, 0, 77) ∈ bindings us).
Proof.
  apply (ip_unbind_refines_delete (ip_bind empty_uppers 6 0 77).2 6 0 77).
  split; [done|]. apply NoDup_singleton.
Defined.

(** ** Demultiplexing *)

(** An allocator that never runs out of memory. *)
Definition never_fails {M} `{MsgAlloc M} : Prop :=
  (forall n m, n <= 2048 -> fst (allocb_ok n m) = true) /\ forall m, fst (dupb_ok m) = true.

Lemma scripted_rich n : n <= 2048 -> scripted_allocb n [] = (true, []).
Proof. intros. unfold scripted_allocb. rewrite Z.gtb_ltb. by rewrite (proj2 (Z.ltb_ge _ _)). Qed.

Section Demux.
Context {M : Type} `{MsgAlloc M}.

Definition deliver (st : ip) (qs : list Z) (ud : unitdata) : ip :=
  st <| ip_in := ip_in st ++ map (fun q => (q, ud)) qs |>.

Lemma deliver_nil st ud : deliver st [] ud = st.
Proof. unfold deliver. destruct st. unfold update. cbn. by rewrite app_nil_r. Qed.

Lemma deliver_cons st q qs ud :
  deliver (st <| ip_in := ip_in st ++ [(q, ud)] |>) qs ud = deliver st (q :: qs) ud.
Proof. unfold deliver, update. cbn. by rewrite <- app_assoc. Qed.

Lemma dupmsg_rich body : never_fails (M := M) -> forall m, fst (dupmsg_ok body m) = true.
Proof.
  intros [_ Hd]. induction body as [|b body IH]; intros m; cbn [dupmsg_ok]; [done|].
  specialize (Hd m). destruct (dupb_ok m) as [[] m']; [apply IH|done].
Qed.

Lemma demux_to_cons st q q2 qs ud m :
  demux_to st (q :: q2 :: qs) ud m =
  let '(okb, m) := dupmsg_ok (ud_body ud) m in
  let '(oki, m) := allocb_ok 12 m in
  if okb && oki then demux_to (st <| ip_in := ip_in st ++ [(q, ud)] |>) (q2 :: qs) ud m
  else demux_to st (q2 :: qs) ud m.
Proof. reflexivity. Qed.

Lemma demux_to_spec ud qs : forall st m, exists qs' m',
  demux_to st qs ud m = (deliver st qs' ud, m') /\ sublist qs' qs
  /\ (never_fails (M := M) -> qs' = qs).
Proof.
  induction qs as [|q [|q2 qs] IH]; intros st m.
  - exists [], m. cbn. rewrite deliver_nil. repeat split. constructor.
  - cbn. destruct (allocb_ok 12 m) as [[] m'] eqn:E.
    + exists [q], m'. split; [|done]. by rewrite <- deliver_cons, deliver_nil.
    + exists [], m'. rewrite deliver_nil. repeat split; [repeat constructor|].
      intros [Ha _]. specialize (Ha 12 m ltac:(lia)). by rewrite E in Ha.
  - rewrite demux_to_cons. destruct (dupmsg_ok (ud_body ud) m) as [okb m1] eqn:Eb.
    destruct (allocb_ok 12 m1) as [oki m2] eqn:Ei. destruct (okb && oki) eqn:Eo.
    + destruct (IH (st <| ip_in := ip_in st ++ [(q, ud)] |>) m2) as (qs' & m' & -> & Hs & Hr).
      exists (q :: qs'), m'. split; [by rewrite deliver_cons|].
      split; [by constructor|]. intros Hn. by rewrite Hr.
    + destruct (IH st m2) as (qs' & m' & -> & Hs & Hr). exists qs', m'.
      split; [done|]. split; [by constructor|]. intros Hn.
      pose proof (dupmsg_rich (ud_body ud) Hn m) as Hd. rewrite Eb in Hd. cbn in Hd. subst okb.
      destruct Hn as [Ha _]. specialize (Ha 12 m1 ltac:(lia)). rewrite Ei in Ha. cbn in Ha.
      by subst oki.
Qed.

(** [ip_demux] delivers one copy of the packet, always with the same
    protocol, addresses and payload, to the queues bound to its protocol in
    table order.  A failed allocation loses single copies and never changes or
    reorders the others, nor touches any other state; without allocation
    failures every bound queue gets its copy. *)
Theorem ip_demux_multicast (st : ip) (proto src dst : Z) (body : list mblk) (m : M) :
  exists qs m', ip_demux st proto src dst body m
                = (deliver st qs (mk_unitdata proto src dst body), m')
  /\ sublist qs (matches st proto)
  /\ (never_fails (M := M) -> qs = matches st proto).
Proof. apply demux_to_spec. Qed.

End Demux.

Lemma dupmsg_scripted body : dupmsg_ok body ([] : list bool) = (true, []).
Proof. by induction body. Qed.

Lemma demux_scripted ud qs : forall st, demux_to st qs ud ([] : list bool) = (deliver st qs ud, []).
Proof.
  induction qs as [|q [|q2 qs] IH]; intros st.
  - by rewrite deliver_nil.
  - by rewrite <- deliver_cons, deliver_nil.
  - rewrite demux_to_cons, dupmsg_scripted. cbn [allocb_ok scripted_alloc].
    rewrite scripted_rich by lia. cbn [andb]. by rewrite IH, deliver_cons.
Qed.

(** ** A sent packet is received *)

Definition mblk_wf (b : mblk) : Prop :=
  0 <= rptr b <= wptr b /\ wptr b <= zlen (db b) /\ is_bytes (db b).

(** The header before and after the checksum field. *)
Definition hdr_front (total id proto : Z) : bytes :=
  [69; 0] ++ st16 (htons16 (u16 total)) ++ st16 (htons16 id) ++ st16 0 ++ [IP_DEFAULT_TTL; proto].
Definition hdr_back (src dst : Z) : bytes := st32 (htonl32 src) ++ st32 (htonl32 dst).

Lemma st16_bytes v : is_bytes (st16 v).
Proof. repeat apply Forall_cons_2; [warith|warith|apply Forall_nil_2]. Qed.
Lemma st32_bytes v : is_bytes (st32 v).
Proof. repeat apply Forall_cons_2; try apply Forall_nil_2; apply Z.mod_pos_bound; lia. Qed.
Lemma is_bytes_app p q : is_bytes p -> is_bytes q -> is_bytes (p ++ q).
Proof. intros. by apply Forall_app. Qed.
#[local] Hint Resolve st16_bytes st32_bytes is_bytes_app : words.

Lemma hdr_bytes total id proto c src dst :
  is_u8 proto -> is_bytes (ip_header total id proto c src dst).
Proof.
  intros Hp. unfold ip_header, IP_DEFAULT_TTL.
  repeat apply is_bytes_app; auto with words;
    repeat apply Forall_cons_2; try apply Forall_nil_2; (done || warith).
Qed.

Lemma hdr_wsum total id proto v src dst : is_u16 v ->
  wsum (ip_header total id proto (htons16 v) src dst)
  = wsum (hdr_front total id proto) + wsum (hdr_back src dst) + v.
Proof.
  intros Hv.
  change (ip_header total id proto (htons16 v) src dst)
    with (hdr_front total id proto ++ st16 (htons16 v) ++ hdr_back src dst).
  rewrite !wsum_app by (exists 5%nat; done) || (exists 1%nat; done).
  rewrite st16_be by done. cbn [wsum]. warith.
Qed.

Lemma hdr_front_pos total id proto : is_u8 proto -> 0 < wsum (hdr_front total id proto).
Proof.
  intros Hp. unfold hdr_front. rewrite wsum_app by (exists 1%nat; done).
  enough (0 <= wsum (st16 (htons16 (u16 total)) ++ st16 (htons16 id) ++ st16 0
                       ++ [IP_DEFAULT_TTL; proto])) by (cbn [wsum]; lia).
  apply wsum_nonneg. repeat apply is_bytes_app; auto with words.
  repeat apply Forall_cons_2; try apply Forall_nil_2; (done || warith).
Qed.

(** The header completed with its checksum verifies. *)
Lemma hdr_checksum_ok total id proto src dst : is_u8 proto ->
  ip_checksum (ip_header total id proto
    (htons16 (ip_checksum (ip_header total id proto 0 src dst))) src dst) = 0.
Proof.
  intros Hp. assert (H0 : htons16 0 = 0) by done.
  rewrite ip_checksum_spec by (apply hdr_bytes || (unfold zlen; cbn; lia); done).
  rewrite hdr_wsum by apply ip_checksum_range.
  rewrite ip_checksum_spec by (apply hdr_bytes || (unfold zlen; cbn; lia); done).
  rewrite <- H0 at 1. rewrite hdr_wsum by done. rewrite Z.add_0_r.
  rewrite ones_sum_complement; [done|].
  pose proof (hdr_front_pos total id proto Hp).
  pose proof (wsum_nonneg (hdr_back src dst) ltac:(unfold hdr_back; auto with words)). lia.
Qed.

Section Header.
Variables (total id proto c src dst : Z) (rest : bytes).
#[local] Notation pkt := (ip_header total id proto c src dst ++ rest).

Lemma hdr_ver : byte_at pkt 0 = 69.
Proof. done. Qed.

Lemma hdr_total : is_u16 total -> htons16 (ld16 pkt 2) = total.
Proof.
  intros Ht. change pkt with ([69; 0] ++ st16 (htons16 (u16 total))
    ++ drop 4 (ip_header total id proto c src dst) ++ rest).
  rewrite (ld16_st16 _ [69; 0]) by apply htons16_range.
  by rewrite (u16_small total), htons16_involutive.
Qed.

Lemma hdr_proto : byte_at pkt 9 = proto.
Proof. done. Qed.

Lemma hdr_src : is_u32 src -> htonl32 (ld32 pkt 12) = src.
Proof.
  intros Hs. change pkt with ((hdr_front total id proto ++ st16 c)
    ++ st32 (htonl32 src) ++ st32 (htonl32 dst) ++ rest).
  change 12%nat with (length (hdr_front total id proto ++ st16 c)).
  rewrite ld32_st32 by apply htonl32_range. by apply htonl32_involutive.
Qed.

Lemma hdr_dst : is_u32 dst -> htonl32 (ld32 pkt 16) = dst.
Proof.
  intros Hs. change pkt with ((hdr_front total id proto ++ st16 c ++ st32 (htonl32 src))
    ++ st32 (htonl32 dst) ++ rest).
  change 16%nat with (length (hdr_front total id proto ++ st16 c ++ st32 (htonl32 src))).
  rewrite ld32_st32 by apply htonl32_range. by apply htonl32_involutive.
Qed.

End Header.

(** A well-formed datagram is accepted, its header stripped and trailing padding
    cut, and handed to [ip_demux]. *)
Lemma ip_rput_accepts {M} `{MsgAlloc M} st total id proto c src dst payload pad (m : M) :
  is_u32 src -> is_u32 dst ->
  ip_checksum (ip_header total id proto c src dst) = 0 ->
  total = 20 + zlen payload -> is_u16 total -> total + zlen pad < 4294967296 ->
  let pkt := ip_header total id proto c src dst ++ payload ++ pad in
  ip_rput st M_DATA [block_of 0 pkt] m = ip_demux st proto src dst [mk_mblk pkt 20 total] m.
Proof.
  intros Hs Hd Hc Ht Hu Hl pkt.
  pose proof (zlen_nonneg payload). pose proof (zlen_nonneg pad).
  assert (Hz : zlen pkt = total + zlen pad).
  { subst pkt. autorewrite with lists. change (zlen (ip_header _ _ _ _ _ _)) with 20. lia. }
  assert (Hver : byte_at pkt 0 = 69) by apply hdr_ver.
  assert (Htot : htons16 (ld16 pkt 2) = total) by by apply hdr_total.
  assert (Hsrc : htonl32 (ld32 pkt 12) = src) by by apply hdr_src.
  assert (Hdst : htonl32 (ld32 pkt 16) = dst) by by apply hdr_dst.
  assert (Hpro : byte_at pkt 9 = proto) by apply hdr_proto.
  assert (Hcs : ip_checksum (take 20 pkt) = 0) by (rewrite <- Hc; reflexivity).
  assert (Hwin : u32 (0 + zlen pkt - 0) = total + zlen pad) by (rewrite u32_small; warith).
  clearbody pkt. unfold ip_rput, block_of, M_DATA. change (Z.of_nat 0) with 0.
  cbn [rptr wptr db replicate app]. cbv zeta. change (Z.to_nat 0) with 0%nat.
  rewrite drop_0, Hwin, Hver, Htot, Hsrc, Hdst, Hpro.
  change (Z.land 69 15 * 4) with 20. change (Z.to_nat 20) with 20%nat. rewrite Hcs.
  change (Z.shiftr 69 4) with 4. unfold IP_HDR_LEN. rewrite !Z.gtb_ltb.
  rewrite (proj2 (Z.ltb_ge (total + zlen pad) 20)) by lia.
  rewrite (proj2 (Z.ltb_ge (total + zlen pad) total)) by lia.
  rewrite (proj2 (Z.ltb_ge total 20)) by lia. cbn [negb Z.eqb Pos.eqb orb].
  change (20 <? 20) with false. cbn [orb].
  destruct (total <? total + zlen pad) eqn:E; [done|]. bool_prop.
  assert (zlen pad = 0) as Hp0 by lia. unfold update. cbn. by rewrite Hz, Hp0, Z.add_0_r.
Qed.

Lemma poke_window b h : 20 <= rptr b <= wptr b -> wptr b <= zlen (db b) -> length h = 20%nat ->
  window (mk_mblk (poke (db b) (rptr b - 20) h) (rptr b - 20) (wptr b)) = h ++ window b.
Proof.
  intros Hr Hw Hh. unfold window, poke. cbn [db rptr wptr]. unfold zlen in Hw.
  rewrite drop_app_length' by (rewrite length_take; lia).
  replace (Z.to_nat (wptr b - (rptr b - 20))) with (length h + Z.to_nat (wptr b - rptr b))%nat by lia.
  rewrite take_app_add. do 3 f_equal. lia.
Qed.

Lemma window_length b : mblk_wf b -> zlen (window b) = wptr b - rptr b.
Proof.
  intros (? & ? & _). unfold window, zlen in *. rewrite length_take, length_drop. lia.
Qed.

(** C34: What [ip_handle_send] puts on the wire, [ip_rput] delivers.  For every
    payload block with room for the header and every route, the packet handed to
    the driver, followed by any link-layer padding, is accepted by any receiver
    and reaches every queue bound to the protocol with the sender's interface
    address, the destination and exactly the payload bytes. *)
Theorem ip_send_rput_roundtrip (st rcv : ip) (proto dst : Z) (b : mblk) (l : ip_lower)
    (pad : bytes) :
  ip_route st dst = Some l -> mblk_wf b -> IP_HDR_LEN <= rptr b ->
  wptr b - rptr b + IP_HDR_LEN <= nif_mtu (nif_of st (lnif l)) ->
  nif_mtu (nif_of st (lnif l)) < 65536 -> zlen pad < 65536 ->
  is_u8 proto -> is_u32 dst -> is_u32 (nif_ip (nif_of st (lnif l))) ->
  exists st' pkt body,
    ip_handle_send st proto dst [b] = (drv_rc st (qbot l), st')
    /\ ip_out st' = ip_out st ++ [(qbot l, [pkt])]
    /\ window body = window b
    /\ ip_rput rcv M_DATA [block_of 0 (window pkt ++ pad)] ([] : list bool)
       = (deliver rcv (matches rcv proto)
            (mk_unitdata proto (nif_ip (nif_of st (lnif l))) dst [body]), []).
Proof.
  intros Hroute Hwf Hroom Hmtu Hmax Hpad Hp Hd Hs. unfold IP_HDR_LEN in *.
  pose proof (window_length b Hwf) as Hwl. destruct Hwf as (Hrw & Hwz & _).
  set (nif := nif_of st (lnif l)) in *. set (id := u16 (ip_id_next st + 1)).
  set (n := wptr b - rptr b) in *.
  set (h := ip_header (20 + n) id proto
     (htons16 (ip_checksum (ip_header (20 + n) id proto 0 (nif_ip nif) dst))) (nif_ip nif) dst).
  assert (Hsend : ip_handle_send st proto dst [b] =
    (drv_rc st (qbot l), st <| ip_id_next := id |> <| ip_out := ip_out st
       ++ [(qbot l, [mk_mblk (poke (db b) (rptr b - 20) h) (rptr b - 20) (wptr b)])] |>)).
  { unfold ip_handle_send. rewrite Hroute. fold nif n. unfold IP_HDR_LEN. cbv zeta.
    rewrite Z.gtb_ltb, !u32_small, (proj2 (Z.ltb_ge _ n)), (proj2 (Z.ltb_ge _ 20)) by warith.
    reflexivity. }
  eexists _, _, (mk_mblk (h ++ window b ++ pad) 20 (20 + n)).
  split; [exact Hsend|]. split; [done|]. split.
  - unfold window at 1. cbn [db rptr wptr]. replace (20 + n - 20) with n by lia.
    change (Z.to_nat 20) with (length h). rewrite drop_app_length, take_app_length'; [done|].
    unfold zlen in Hwl. lia.
  - rewrite poke_window, <- app_assoc by (lia || done).
    unfold h. rewrite ip_rput_accepts by (done || lia || (rewrite ?Hwl; warith)
      || by apply hdr_checksum_ok).
    apply demux_scripted.
Qed.

(** A host with lo0 (127.0.0.1/8) and eth0 (10.0.2.15/24, gateway 10.0.2.2) linked,
    and one TCP queue bound. *)
Definition demo_ip : ip :=
  mk_ip 0 (mk_net_drops 0 0 0 0 0 0)
    [mk_ip_lower 1 11 1; mk_ip_lower 2 12 2; mk_ip_lower 0 0 0; mk_ip_lower 0 0 0]
    (ip_bind empty_uppers 6 0 77).2
    (<[1 := mk_netif [108; 111; 48] 2130706433 4278190080 0 None 0 1500]>
      (<[2 := mk_netif [101; 116; 104; 48] 167772687 4294967040 167772674 None 0 1500]> ∅))
    [2; 1] true (fun _ => 0) [] [] [] [].

Definition demo_seg : mblk := mk_mblk (replicate 40 0 ++ [1; 2; 3; 4]) 40 44.

Lemma ip_send_rput_roundtrip_witness :
  exists st' pkt body,
    ip_handle_send demo_ip 6 2130706433 [demo_seg] = (drv_rc demo_ip 11, st')
    /\ ip_out st' = ip_out demo_ip ++ [(11, [pkt])]
    /\ window body = window demo_seg
    /\ ip_rput demo_ip M_DATA [block_of 0 (window pkt ++ [0; 0])] ([] : list bool)
       = (deliver demo_ip (matches demo_ip 6)
            (mk_unitdata 6 (nif_ip (nif_of demo_ip 1)) 2130706433 [body]), []).
Proof.
  apply (ip_send_rput_roundtrip demo_ip demo_ip 6 2130706433 demo_seg (mk_ip_lower 1 11 1) [0; 0]);
    try (vm_compute; reflexivity); try (vm_compute; split; congruence).
  - split; [vm_compute; split; congruence|]. split; [vm_compute; congruence|].
    repeat apply Forall_cons_2; try apply Forall_nil_2; vm_compute; split; congruence.
  - vm_compute. congruence.
  - vm_compute. congruence.
Defined.

(** ** What [ip_rput] lets through *)

(** The drop counters [ip_rput] bumps. *)
Definition dropped (st st' : ip) : Prop :=
  st' = bump st (fun d => d <| ip_runt := u64 (ip_runt d + 1) |>)
  \/ st' = bump st (fun d => d <| ip_badver := u64 (ip_badver d + 1) |>)
  \/ st' = bump st (fun d => d <| ip_badihl := u64 (ip_badihl d + 1) |>)
  \/ st' = bump st (fun d => d <| ip_badlen := u64 (ip_badlen d + 1) |>)
  \/ st' = bump st (fun d => d <| ip_badcsum := u64 (ip_badcsum d + 1) |>).

(** Every data packet either bumps exactly one drop counter and changes
    nothing else, or its header checksum verifies and its upper queues get a
    block over the same buffer whose two pointers both lie inside the received
    bytes: the start 20 to 60 bytes in, the end at most at the old end. *)
Theorem ip_rput_drops_or_delivers {M} `{MsgAlloc M} (st : ip) (b : mblk) (cont : list mblk) (m : M) :
  mblk_wf b -> zlen (db b) < 4294967296 ->
  let '(st', m') := ip_rput st M_DATA (b :: cont) m in
  (dropped st st' /\ m' = m)
  \/ exists ihl total qs proto src dst cont',
       20 <= ihl <= 60 /\ rptr b + ihl <= wptr b
       /\ 20 <= total /\ rptr b + total <= wptr b
       /\ ip_checksum (take (Z.to_nat ihl) (window b)) = 0
       /\ sublist qs (matches st proto)
       /\ st' = deliver st qs (mk_unitdata proto src dst
                                 (mk_mblk (db b) (rptr b + ihl) (rptr b + total) :: cont')).
Proof.
  intros (Hrw & Hwz & Hb) Hz. unfold ip_rput. change (negb (M_DATA =? M_DATA)) with false.
  cbv zeta. rewrite (u32_small (wptr b - rptr b)) by warith.
  set (h := drop (Z.to_nat (rptr b)) (db b)). set (len := wptr b - rptr b).
  unfold IP_HDR_LEN. rewrite !Z.gtb_ltb.
  destruct (len <? 20) eqn:E0; [left; split; [by left|done]|].
  destruct (negb (Z.shiftr _ 4 =? 4)); [left; split; [by right; left|done]|].
  set (ihl := Z.land (byte_at h 0) 15 * 4). destruct (_ || _) eqn:E1;
    [left; split; [by right; right; left|done]|].
  set (total := htons16 (ld16 h 2)).
  destruct (len <? total) eqn:E2; [left; split; [by right; right; right; left|done]|].
  destruct (total <? 20) eqn:E3; [left; split; [by right; right; right; left|done]|].
  assert (Hihl : Z.land (byte_at h 0) 15 < 16).
  { change 15 with (Z.ones 4). rewrite Z.land_ones by lia. apply Z.mod_pos_bound. lia. }
  bool_prop. subst len.
  assert (Hfin : forall wp cont', wp = rptr b + total ->
    let '(st', m') := (if negb (ip_checksum (take (Z.to_nat ihl) h) =? 0)
       then (bump st (fun d => d <| ip_badcsum := u64 (ip_badcsum d + 1) |>), m)
       else ip_demux st (byte_at h 9) (htonl32 (ld32 h 12)) (htonl32 (ld32 h 16))
              (mk_mblk (db b) (rptr b + ihl) wp :: cont') m) in
    (dropped st st' /\ m' = m) \/ exists ihl total qs proto src dst cont',
       20 <= ihl <= 60 /\ rptr b + ihl <= wptr b
       /\ 20 <= total /\ rptr b + total <= wptr b
       /\ ip_checksum (take (Z.to_nat ihl) (window b)) = 0
       /\ sublist qs (matches st proto)
       /\ st' = deliver st qs (mk_unitdata proto src dst
                                 (mk_mblk (db b) (rptr b + ihl) (rptr b + total) :: cont'))).
  { intros wp cont' ->. destruct (ip_checksum _ =? 0) eqn:Ec; cbn [negb];
      [|left; split; [by right; right; right; right|done]].
    unfold ip_demux. edestruct demux_to_spec as (qs & m' & -> & Hs & _). right.
    exists ihl, total, qs, (byte_at h 9), (htonl32 (ld32 h 12)), (htonl32 (ld32 h 16)), cont'.
    bool_prop. split_and!; try lia; [|done|done].
    rewrite <- Ec. f_equal. unfold window, h. rewrite take_take. f_equal. lia. }
  destruct (total <? wptr b - rptr b) eqn:E4; [by apply Hfin|].
  bool_prop. destruct b. apply Hfin. cbn in *. lia.
Qed.

Lemma ip_rput_drops_or_delivers_witness :
  let '(st', m') := ip_rput demo_ip M_DATA [demo_seg] ([] : list bool) in
  (dropped demo_ip st' /\ m' = [])
  \/ exists ihl total qs proto src dst cont',
       20 <= ihl <= 60 /\ rptr demo_seg + ihl <= wptr demo_seg
       /\ 20 <= total /\ rptr demo_seg + total <= wptr demo_seg
       /\ ip_checksum (take (Z.to_nat ihl) (window demo_seg)) = 0
       /\ sublist qs (matches demo_ip proto)
       /\ st' = deliver demo_ip qs (mk_unitdata proto src dst
            (mk_mblk (db demo_seg) (rptr demo_seg + ihl) (rptr demo_seg + total) :: cont')).
Proof.
  apply (ip_rput_drops_or_delivers demo_ip demo_seg [] ([] : list bool)); [|vm_compute; reflexivity].
  split; [vm_compute; split; congruence|]. split; [vm_compute; congruence|].
  repeat apply Forall_cons_2; try apply Forall_nil_2; vm_compute; split; congruence.
Defined.

(** A datagram with six header words (24 bytes) and a total length of 20. *)
Definition short_total (c : Z) : bytes :=
  [70; 0; 0; 20; 0; 1; 0; 0; 64; 6] ++ st16 (htons16 c)
    ++ [10; 0; 2; 2; 10; 0; 2; 15; 0; 0; 0; 0].

(** [ip_rput] never compares the total length with the header length.  A
    24-byte datagram with a 24-byte header, a total length of 20 and a correct
    checksum is delivered with its read pointer four bytes past its write
    pointer, so the transport computes a payload length of 4294967292. *)
Theorem ip_rput_negative_payload :
  exists body,
    ip_rput demo_ip M_DATA [block_of 0 (short_total (ip_checksum (short_total 0)))] ([] : list bool)
    = (deliver demo_ip [77] (mk_unitdata 6 167772674 167772687 [body]), [])
    /\ wptr body - rptr body = -4 /\ u32 (wptr body - rptr body) = 4294967292.
Proof.
  exists (mk_mblk (short_total (ip_checksum (short_total 0))) 24 20).
  split; [vm_compute; reflexivity|]. done.
Qed.

End Ip.
