(* ===== verification/Tcp.v ===== *)
(** * TCP: [uts/os/net/tcp.c]

    The connection state ([tcb] is [struct tcp_tcb], field by field), segment
    construction and checksums, the send path with congestion control, the input
    state machine, the TPI request handlers and one sweep of the retransmit
    thread.  What TCP uses of its neighbours is the class [TcpEnv]: [allocb],
    [ip_send], [ip_route_src], [netif_route], [putnext] towards the stream head and
    the byte count of the queue above.

    A message in the send buffer is the list of the byte windows of its blocks; a
    received segment is the byte window of its first block.  [ip_send] returns
    before the peer answers: drivers that queue a packet behave this way; lo0,
    which calls back into the receiving stream, is seen here as the same calls in
    sequence. *)

From stdpp Require Import base numbers list gmap.
From Stdlib Require Import ZArith Lia Bool.
From S2P Require Import Prelude Net.

Module Tcp.
Import Net.

Definition TCP_HDR_LEN_MIN : Z := 20.
Definition IP_HDR_LEN : Z := 20.
Definition IPPROTO_TCP : Z := 6.
Definition TCP_OPT_END : Z := 0.
Definition TCP_OPT_NOP : Z := 1.
Definition TCP_OPT_MSS : Z := 2.
Definition TCP_OPT_MSS_LEN : Z := 4.
Definition TCP_OPT_WSCALE : Z := 3.
Definition TCP_OPT_WSCALE_LEN : Z := 3.
Definition TCP_WSCALE_MAX : Z := 14.
Definition TCP_LOCAL_WSCALE : Z := 0.
Definition TCP_FLAG_FIN : Z := 1.
Definition TCP_FLAG_SYN : Z := 2.
Definition TCP_FLAG_RST : Z := 4.
Definition TCP_FLAG_PSH : Z := 8.
Definition TCP_FLAG_ACK : Z := 16.
Definition TCP_DISCON_REASON_PROTOERR : Z := 1.
Definition TCP_DISCON_REASON_RESET : Z := 3.
Definition TCP_DISCON_REASON_TIMEOUT : Z := 4.

Definition TCP_LISTEN_BACKLOG : Z := 8.
Definition TCP_RTO_MIN : Z := 100.
Definition TCP_RTO_MAX : Z := 6000.
Definition TCP_RTO_INITIAL : Z := 100.
Definition TCP_MAX_RETRANSMITS : Z := 5.
Definition TCP_SND_BUF_MAX : Z := 65535.
Definition TCP_RCV_WND_MAX : Z := 65535.
Definition TCP_TIME_WAIT_TICKS : Z := 100.
Definition TCP_MSS_DEFAULT : Z := 536.
Definition TCP_INITIAL_CWND : Z := 1072.
Definition TCP_INITIAL_SSTHRESH : Z := 65535.
Definition TCP_MAX_TCBS : nat := 32.
(** The size of [seg_data], the stack buffer of [tcp_try_send_pending]. *)
Definition SEG_DATA : Z := 1500.

(** ** State *)

Inductive tcp_state :=
| TCPS_CLOSED | TCPS_BOUND | TCPS_LISTEN | TCPS_SYN_SENT | TCPS_SYN_RECEIVED
| TCPS_ESTABLISHED | TCPS_FIN_WAIT_1 | TCPS_FIN_WAIT_2 | TCPS_CLOSE_WAIT
| TCPS_LAST_ACK | TCPS_CLOSING | TCPS_TIME_WAIT.

#[export] Instance tcp_state_eq_dec : EqDecision tcp_state.
Proof. solve_decision. Defined.

Record pending_syn := mk_pending {
  p_remote_ip : Z; p_remote_port : Z; p_peer_mss : Z; p_irs : Z;
  p_peer_wscale : Z; p_has_wscale : bool
}.

Record tcb := mk_tcb {
  state : tcp_state;
  local_port : Z;
  bound : bool;
  remote_ip : Z;
  remote_port : Z;
  snd_una : Z;
  snd_nxt : Z;
  snd_iss : Z;
  rcv_nxt : Z;
  rcv_irs : Z;
  pending_q : list pending_syn;
  pending_head : Z;
  pending_count : Z;
  rto_expires : Z;
  rto_ticks : Z;
  send_tick : Z;
  pending_flags : Z;
  retransmit_count : Z;
  rtt_valid : bool;
  srtt_ticks : Z;
  rttvar_ticks : Z;
  snd_buf : list bytes;
  snd_buf_seq : Z;
  upper_rq : Z;
  snd_wnd : Z;
  snd_wnd_shift : Z;
  ws_active : bool;
  time_wait_expires : Z;
  cwnd : Z;
  ssthresh : Z;
  mss : Z;
  in_send : bool;
  dup_ack_count : Z
}.

#[export] Instance tcb_rebuild : Rebuild tcb :=
  rpure mk_tcb <:> state <:> local_port <:> bound <:> remote_ip <:> remote_port
    <:> snd_una <:> snd_nxt <:> snd_iss <:> rcv_nxt <:> rcv_irs <:> pending_q
    <:> pending_head <:> pending_count <:> rto_expires <:> rto_ticks <:> send_tick
    <:> pending_flags <:> retransmit_count <:> rtt_valid <:> srtt_ticks
    <:> rttvar_ticks <:> snd_buf <:> snd_buf_seq <:> upper_rq <:> snd_wnd
    <:> snd_wnd_shift <:> ws_active <:> time_wait_expires <:> cwnd <:> ssthresh
    <:> mss <:> in_send <:> dup_ack_count.

(** The TPI messages sent up a stream. *)
Inductive tpi :=
| T_BIND_ACK (port : Z)
| T_BIND_NAK (reason : Z)
| T_DISCON_IND (reason : Z)
| T_CONN_CON (dst_ip dst_port : Z)
| T_CONN_IND (src_ip src_port : Z)
| T_ORDREL_IND
| T_DATA_IND (data : bytes).

(** The neighbours of the TCP module.  [e_overrun] is what becomes of the kernel when
    bytes are written behind the end of a stack buffer. *)
Class TcpEnv (E : Type) := {
  e_alloc : Z -> E -> bool * E;
  e_send : Z -> bytes -> E -> Z * E;
  e_src : E -> Z -> Z;
  e_mtu : E -> Z -> option Z;
  e_up : Z -> tpi -> E -> E;
  e_used : E -> Z -> Z;
  e_bind : Z -> Z -> Z -> E -> E;
  e_overrun : E -> E
}.

Definition is_st (s : tcb) (x : tcp_state) : bool := bool_decide (state s = x).

(** ** Timers and RTT *)

Definition tcp_rfc6928_iw (m : Z) : Z :=
  let ten := u32 (10 * m) in
  let two := u32 (2 * m) in
  let lo := if two >? 14600 then two else 14600 in
  if ten <? lo then ten else lo.

Definition tcp_arm_rto (now : Z) (s : tcb) (flags : Z) : tcb :=
  let s := if rto_ticks s =? 0 then s <| rto_ticks := TCP_RTO_INITIAL |> else s in
  s <| rto_expires := u32 (now + rto_ticks s) |> <| send_tick := now |>
    <| pending_flags := flags |> <| retransmit_count := 0 |>.

Definition tcp_cancel_rto (s : tcb) : tcb := s <| rto_expires := 0 |>.

Definition tcp_enter_time_wait (now : Z) (s : tcb) : tcb :=
  tcp_cancel_rto (s <| state := TCPS_TIME_WAIT |>
                    <| time_wait_expires := u32 (now + TCP_TIME_WAIT_TICKS) |>).

Definition tcp_update_rtt (s : tcb) (sample_ticks : Z) : tcb :=
  let s :=
    if negb (rtt_valid s)
    then s <| srtt_ticks := sample_ticks |> <| rttvar_ticks := sample_ticks / 2 |>
           <| rtt_valid := true |>
    else
      let srtt := srtt_ticks s in
      let var := rttvar_ticks s in
      let d := s32 (s32 sample_ticks - s32 srtt) in
      let ad := if d <? 0 then u32 (- d) else u32 d in
      s <| srtt_ticks := Z.shiftr (u32 (7 * srtt + sample_ticks)) 3 |>
        <| rttvar_ticks := Z.shiftr (u32 (3 * var + ad)) 2 |> in
  let rto := u32 (srtt_ticks s + 4 * rttvar_ticks s) in
  let rto := if rto <? TCP_RTO_MIN then TCP_RTO_MIN else rto in
  let rto := if rto >? TCP_RTO_MAX then TCP_RTO_MAX else rto in
  s <| rto_ticks := rto |>.

Definition tcp_sample_rtt (now : Z) (s : tcb) : tcb :=
  if retransmit_count s =? 0 then tcp_update_rtt s (u32 (now - send_tick s)) else s.

Definition tcp_bind_key (lport rport : Z) : Z := Z.lor (u32 (Z.shiftl lport 16)) rport.

(** ** Checksum *)

Definition tcp_pseudo (src_ip dst_ip seg_len : Z) : bytes :=
  [Z.land (Z.shiftr src_ip 24) 255; Z.land (Z.shiftr src_ip 16) 255;
   Z.land (Z.shiftr src_ip 8) 255; Z.land src_ip 255;
   Z.land (Z.shiftr dst_ip 24) 255; Z.land (Z.shiftr dst_ip 16) 255;
   Z.land (Z.shiftr dst_ip 8) 255; Z.land dst_ip 255;
   0; IPPROTO_TCP; Z.land (Z.shiftr seg_len 8) 255; Z.land seg_len 255].

Definition tcp_checksum (src_ip dst_ip : Z) (seg : bytes) : Z :=
  u16 (Z.lnot (fold16 4 (sum16 (sum16 0 (tcp_pseudo src_ip dst_ip (zlen seg))) seg))).

(** ** SYN options *)

Record tcp_syn_options := mk_opts { o_mss : Z; o_wscale : Z; o_has_wscale : bool }.

#[export] Instance opts_rebuild : Rebuild tcp_syn_options :=
  rpure mk_opts <:> o_mss <:> o_wscale <:> o_has_wscale.

Definition no_opts : tcp_syn_options := mk_opts 0 0 false.

(** The option walk; the index grows in every round, so the length of the block
    bounds the rounds. *)
Fixpoint parse_opts (fuel : nat) (opts : bytes) (i : nat) (o : tcp_syn_options)
  : tcp_syn_options :=
  match fuel with
  | O => o
  | S fuel =>
      if (length opts <=? i)%nat then o
      else
        let kind := byte_at opts i in
        if kind =? TCP_OPT_END then o
        else if kind =? TCP_OPT_NOP then parse_opts fuel opts (i + 1) o
        else if (length opts <=? i + 1)%nat then o
        else
          let len := byte_at opts (i + 1) in
          if (len <? 2) || (Z.of_nat i + len >? zlen opts) then o
          else
            let o :=
              if (kind =? TCP_OPT_MSS) && (len =? TCP_OPT_MSS_LEN)
              then o <| o_mss := u16 (Z.lor (u16 (Z.shiftl (byte_at opts (i + 2)) 8))
                                            (byte_at opts (i + 3))) |>
              else if (kind =? TCP_OPT_WSCALE) && (len =? TCP_OPT_WSCALE_LEN)
              then
                let shift := byte_at opts (i + 2) in
                o <| o_wscale := if shift >? TCP_WSCALE_MAX then TCP_WSCALE_MAX else shift |>
                  <| o_has_wscale := true |>
              else o in
            parse_opts fuel opts (i + Z.to_nat len) o
  end.

Definition tcp_parse_syn_options (opts : bytes) : tcp_syn_options :=
  parse_opts (length opts) opts 0 no_opts.

Section WithEnv.
Context {E : Type} `{TcpEnv E}.

(** ** TPI replies: a message of [n] bytes, sent up from queue [rq] *)

Definition reply (n rq : Z) (t : tpi) (e : E) : E :=
  let '(ok, e) := e_alloc n e in if ok then e_up rq t e else e.

Definition reply_bind_ack (rq port : Z) (e : E) : E := reply 4 rq (T_BIND_ACK port) e.
Definition reply_bind_nak (rq reason : Z) (e : E) : E := reply 4 rq (T_BIND_NAK reason) e.
Definition reply_discon_ind (rq reason : Z) (e : E) : E := reply 4 rq (T_DISCON_IND reason) e.
Definition reply_conn_con (rq ip port : Z) (e : E) : E := reply 12 rq (T_CONN_CON ip port) e.
Definition reply_ordrel_ind (rq : Z) (e : E) : E := reply 4 rq T_ORDREL_IND e.
Definition reply_conn_ind (rq ip port : Z) (e : E) : E := reply 12 rq (T_CONN_IND ip port) e.
Definition reply_data_ind (rq : Z) (payload : bytes) (e : E) : E :=
  reply 4 rq (T_DATA_IND payload) e.

Definition send_ip_bind (rq prim key : Z) (e : E) : E :=
  let '(ok, e) := e_alloc 8 e in if ok then e_bind rq prim key e else e.

(** ** Segment construction *)

Definition tcp_local_mss (e : E) (dst_ip : Z) : Z :=
  match e_mtu e dst_ip with
  | None => TCP_MSS_DEFAULT
  | Some mtu =>
      if mtu <=? IP_HDR_LEN + TCP_HDR_LEN_MIN then TCP_MSS_DEFAULT
      else
        let m := u32 (mtu - IP_HDR_LEN - TCP_HDR_LEN_MIN) in
        if m >? 65535 then 65535 else m
  end.

Definition tcp_negotiate_mss (e : E) (s : tcb) (peer_mss : Z) : tcb :=
  let eff := tcp_local_mss e (remote_ip s) in
  let eff := if negb (peer_mss =? 0) && (peer_mss <? eff) then peer_mss else eff in
  let eff := if eff <? TCP_MSS_DEFAULT then TCP_MSS_DEFAULT else eff in
  s <| mss := eff |> <| cwnd := tcp_rfc6928_iw eff |>.

Definition tcp_rcv_window (e : E) (s : tcb) : Z :=
  let used := if upper_rq s =? 0 then 0 else e_used e (upper_rq s) in
  if used >=? TCP_RCV_WND_MAX then 0 else u16 (TCP_RCV_WND_MAX - used).

(** The option bytes of a SYN segment. *)
Definition syn_opts (mss_val : Z) (ws : bool) : bytes :=
  [TCP_OPT_MSS; TCP_OPT_MSS_LEN; Z.land (Z.shiftr mss_val 8) 255; Z.land mss_val 255]
    ++ (if ws then [TCP_OPT_NOP; TCP_OPT_WSCALE; TCP_OPT_WSCALE_LEN; TCP_LOCAL_WSCALE] else []).

Definition tcp_header (sport dport seq ack data_off flags window checksum : Z) : bytes :=
  st16 (htons16 sport) ++ st16 (htons16 dport) ++ st32 (htonl32 seq) ++ st32 (htonl32 ack)
    ++ [data_off; flags] ++ st16 (htons16 window) ++ st16 checksum ++ st16 0.

Definition tcp_opts (e : E) (s : tcb) (flags : Z) : bytes :=
  if has flags TCP_FLAG_SYN then syn_opts (tcp_local_mss e (remote_ip s)) (ws_active s) else [].

(** Header, options and body with the checksum filled in. *)
Definition tcp_segment (e : E) (s : tcb) (src_ip seq flags : Z) (body : bytes) : bytes :=
  let opts := tcp_opts e s flags in
  let seg cs :=
    tcp_header (local_port s) (remote_port s) seq (rcv_nxt s)
      (u8 (Z.shiftl ((TCP_HDR_LEN_MIN + zlen opts) / 4) 4)) flags (tcp_rcv_window e s) cs
      ++ opts ++ body in
  seg (htons16 (tcp_checksum src_ip (remote_ip s) (seg 0))).

Definition tcp_emit_segment (s : tcb) (seq flags : Z) (body : bytes) (e : E) : Z * E :=
  let src_ip := e_src e (remote_ip s) in
  if src_ip =? 0 then (-1, e)
  else
    let '(ok, e) :=
      e_alloc (IP_HDR_LEN + TCP_HDR_LEN_MIN + zlen (tcp_opts e s flags) + zlen body) e in
    if negb ok then (-1, e)
    else e_send (remote_ip s) (tcp_segment e s src_ip seq flags body) e.

(** Every caller in the file passes no payload. *)
Definition tcp_send_segment (now : Z) (s : tcb) (flags : Z) (payload : bytes) (e : E)
  : Z * tcb * E :=
  let src_ip := e_src e (remote_ip s) in
  if src_ip =? 0 then (-1, s, e)
  else
    let '(ok, e) :=
      e_alloc (IP_HDR_LEN + TCP_HDR_LEN_MIN + zlen (tcp_opts e s flags) + zlen payload) e in
    if negb ok then (-1, s, e)
    else
      let seg := tcp_segment e s src_ip (snd_nxt s) flags payload in
      let s := if has flags TCP_FLAG_SYN then s <| snd_nxt := u32 (snd_nxt s + 1) |> else s in
      let s := if has flags TCP_FLAG_FIN then s <| snd_nxt := u32 (snd_nxt s + 1) |> else s in
      let s := s <| snd_nxt := u32 (snd_nxt s + zlen payload) |> in
      let s := if has flags (TCP_FLAG_SYN + TCP_FLAG_FIN) || (zlen payload >? 0)
               then tcp_arm_rto now s flags else s in
      let '(rc, e) := e_send (remote_ip s) seg e in (rc, s, e).

(** ** Congestion control and segmentation *)

Definition tcp_cwnd_on_ack (s : tcb) : tcb :=
  if cwnd s <? ssthresh s then s <| cwnd := u32 (cwnd s + mss s) |>
  else
    let incr := u32 (u32 (mss s * mss s) + cwnd s / 2) / cwnd s in
    let incr := if incr =? 0 then 1 else incr in
    s <| cwnd := u32 (cwnd s + incr) |>.

(** [flight / 2], at least two segments. *)
Definition half_flight (s : tcb) : Z :=
  let half := u32 (snd_nxt s - snd_una s) / 2 in
  if half <? 2 * mss s then 2 * mss s else half.

Definition tcp_cwnd_on_rto (s : tcb) : tcb :=
  s <| ssthresh := half_flight s |> <| cwnd := mss s |>.

Definition buf_bytes (l : list bytes) : Z := u32 (foldl (fun n b => n + zlen b) 0 l).

(** The copy loop into [seg_data]: [want] bytes after the first [skip]. *)
Fixpoint gather (l : list bytes) (skip want : Z) : bytes :=
  match l with
  | [] => []
  | b :: l =>
      if want <=? 0 then []
      else if skip >=? zlen b then gather l (skip - zlen b) want
      else
        let avail := zlen b - skip in
        let n := if avail <? want then avail else want in
        take (Z.to_nat n) (drop (Z.to_nat skip) b) ++ gather l 0 (want - n)
  end.

(** The copy of [n] bytes into [seg_data], which nothing bounds but the segment size. *)
Definition seg_copy (n : Z) (e : E) : E := if n >? SEG_DATA then e_overrun e else e.

(** One round of the loop of [tcp_try_send_pending]; [false] is [break]. *)
Definition try_send_round (now : Z) (s : tcb) (e : E) : bool * tcb * E :=
  match snd_buf s with
  | [] => (false, s, e)
  | _ =>
      let used := buf_bytes (snd_buf s) in
      let sent := u32 (snd_nxt s - snd_buf_seq s) in
      if sent >=? used then (false, s, e)
      else
        let unsent := used - sent in
        let inflight := u32 (snd_nxt s - snd_una s) in
        let cwnd_room := if cwnd s >? inflight then cwnd s - inflight else 0 in
        let wnd_room := if snd_wnd s >? inflight then snd_wnd s - inflight else 0 in
        let room := if cwnd_room <? wnd_room then cwnd_room else wnd_room in
        if room =? 0 then (false, s, e)
        else
          let chunk := if unsent <? room then unsent else room in
          let chunk := if chunk >? mss s then mss s else chunk in
          let data := gather (snd_buf s) sent chunk in
          let e := seg_copy (zlen data) e in
          let '(rc, e) :=
            tcp_emit_segment s (snd_nxt s) (TCP_FLAG_ACK + TCP_FLAG_PSH) data e in
          if rc <? 0 then (false, s, e)
          else
            let s := s <| snd_nxt := u32 (snd_nxt s + zlen data) |> in
            let s := if rto_expires s =? 0
                     then tcp_arm_rto now s (TCP_FLAG_ACK + TCP_FLAG_PSH) else s in
            (true, s, e)
  end.

Fixpoint try_send_loop (fuel : nat) (now : Z) (s : tcb) (e : E) : tcb * E :=
  match fuel with
  | O => (s, e)
  | S fuel =>
      let '(go, s, e) := try_send_round now s e in
      if go then try_send_loop fuel now s e else (s, e)
  end.

(** Every round sends at least one byte of the buffer, so one round more than its
    bytes ends the loop, see [try_send_loop_enough]. *)
Definition tcp_try_send_pending (now : Z) (s : tcb) (e : E) : tcb * E :=
  if in_send s then (s, e)
  else if negb (is_st s TCPS_ESTABLISHED) && negb (is_st s TCPS_CLOSE_WAIT) then (s, e)
  else
    let '(s, e) := try_send_loop (S (Z.to_nat (buf_bytes (snd_buf s)))) now
                     (s <| in_send := true |>) e in
    (s <| in_send := false |>, e).

(** ** ACK processing *)

(** The trim loop: blocks that are fully acknowledged are freed, a partly
    acknowledged head is advanced. *)
Fixpoint trim (l : list bytes) (seq to_trim : Z) : list bytes * Z :=
  match l with
  | [] => ([], seq)
  | b :: l' =>
      if to_trim <=? 0 then (l, seq)
      else if to_trim >=? zlen b then trim l' (u32 (seq + zlen b)) (to_trim - zlen b)
      else (drop (Z.to_nat to_trim) b :: l', u32 (seq + to_trim))
  end.

Definition ack_trim (now : Z) (s : tcb) (acked : Z) : tcb :=
  match snd_buf s with
  | [] => s
  | _ =>
      let buf_len := buf_bytes (snd_buf s) in
      let sent_left := u32 (snd_nxt s - snd_buf_seq s) in
      if acked >=? buf_len
      then tcp_cancel_rto (tcp_sample_rtt now (s <| snd_buf := [] |> <| snd_buf_seq := 0 |>))
      else
        let '(l, seq) := trim (snd_buf s) (snd_buf_seq s) acked in
        let s := s <| snd_buf := l |> <| snd_buf_seq := seq |> in
        if u32 (sent_left - acked) >? 0
        then s <| rto_expires := u32 (now + rto_ticks s) |> <| send_tick := now |>
               <| retransmit_count := 0 |>
        else tcp_cancel_rto s
  end.

(** The branch of a new acknowledgement. *)
Definition ack_new (now : Z) (s : tcb) (seg_ack : Z) (e : E) : tcb * E :=
  let acked := u32 (seg_ack - snd_una s) in
  let s := s <| snd_una := seg_ack |> in
  let s := if dup_ack_count s >=? 3 then s <| cwnd := ssthresh s |> else s in
  let s := s <| dup_ack_count := 0 |> in
  let s := ack_trim now (tcp_cwnd_on_ack s) acked in
  tcp_try_send_pending now s e.

(** The branch of a duplicate acknowledgement: fast retransmit at the third. *)
Definition ack_dup (now : Z) (s : tcb) (e : E) : tcb * E :=
  let s := s <| dup_ack_count := u8 (dup_ack_count s + 1) |> in
  if dup_ack_count s =? 3 then
    let s := s <| ssthresh := half_flight s |> in
    let s := s <| cwnd := u32 (ssthresh s + 3 * mss s) |> in
    let head := hd [] (snd_buf s) in
    let plen := if zlen head >? mss s then mss s else zlen head in
    let '(_, e) := tcp_emit_segment s (snd_buf_seq s) (TCP_FLAG_ACK + TCP_FLAG_PSH)
                     (take (Z.to_nat plen) head) e in
    (s, e)
  else if dup_ack_count s >? 3 then
    tcp_try_send_pending now (s <| cwnd := u32 (cwnd s + mss s) |>) e
  else (s, e).

(** State-machine effects of the ACK. *)
Definition ack_state (now : Z) (s : tcb) : tcb :=
  if is_st s TCPS_FIN_WAIT_1 && (snd_una s =? snd_nxt s)
  then (tcp_cancel_rto (tcp_sample_rtt now s)) <| state := TCPS_FIN_WAIT_2 |>
  else if is_st s TCPS_CLOSING && (snd_una s =? snd_nxt s)
  then tcp_enter_time_wait now (tcp_sample_rtt now s)
  else if is_st s TCPS_LAST_ACK && (snd_una s =? snd_nxt s)
  then (tcp_cancel_rto (tcp_sample_rtt now s)) <| state := TCPS_CLOSED |>
  else s.

Definition tcp_ack (now : Z) (s : tcb) (seg_ack flags data_len : Z) (e : E) : tcb * E :=
  let '(s, e) :=
    if s32 (seg_ack - snd_una s) >? 0 then ack_new now s seg_ack e
    else if (seg_ack =? snd_una s) && (data_len =? 0)
            && negb (has flags (TCP_FLAG_SYN + TCP_FLAG_FIN))
            && negb (bool_decide (snd_buf s = [])) && negb (snd_nxt s =? snd_una s)
    then ack_dup now s e
    else (s, e) in
  (ack_state now s, e).

(** ** The established states *)

Definition tcp_data (now q : Z) (s : tcb) (seg_seq : Z) (data : bytes) (e : E) : tcb * E :=
  if (zlen data >? 0) && (seg_seq =? rcv_nxt s)
     && (is_st s TCPS_ESTABLISHED || is_st s TCPS_CLOSE_WAIT)
  then
    let '(ok, e) := e_alloc (zlen data) e in
    if ok then
      let s := s <| rcv_nxt := u32 (rcv_nxt s + zlen data) |> in
      let e := reply_data_ind q data e in
      let '(_, s, e) := tcp_send_segment now s TCP_FLAG_ACK [] e in
      (s, e)
    else (s, e)
  else (s, e).

Definition tcp_fin (now q : Z) (s : tcb) (seg_seq flags data_len : Z) (e : E) : tcb * E :=
  if has flags TCP_FLAG_FIN && (u32 (seg_seq + data_len) =? rcv_nxt s) then
    let s := s <| rcv_nxt := u32 (rcv_nxt s + 1) |> in
    let s := if is_st s TCPS_ESTABLISHED then s <| state := TCPS_CLOSE_WAIT |>
             else if is_st s TCPS_FIN_WAIT_1 then s <| state := TCPS_CLOSING |>
             else if is_st s TCPS_FIN_WAIT_2 then tcp_enter_time_wait now s
             else s in
    let '(_, s, e) := tcp_send_segment now s TCP_FLAG_ACK [] e in
    (s, reply_ordrel_ind q e)
  else (s, e).

(** A parsed segment. *)
Record segment := mk_seg {
  g_sport : Z; g_dport : Z; g_seq : Z; g_ack : Z; g_hl : Z; g_flags : Z; g_wnd : Z;
  g_opts : bytes; g_data : bytes
}.

Definition tcp_established (now q : Z) (s : tcb) (src_ip : Z) (g : segment) (e : E) : tcb * E :=
  if negb (src_ip =? remote_ip s) || negb (g_sport g =? remote_port s) then (s, e)
  else if has (g_flags g) TCP_FLAG_RST
  then (s <| state := TCPS_CLOSED |>, reply_discon_ind q TCP_DISCON_REASON_RESET e)
  else
    let '(s, e) := if has (g_flags g) TCP_FLAG_ACK
                   then tcp_ack now s (g_ack g) (g_flags g) (zlen (g_data g)) e else (s, e) in
    let '(s, e) := tcp_data now q s (g_seq g) (g_data g) e in
    tcp_fin now q s (g_seq g) (g_flags g) (zlen (g_data g)) e.

(** ** Handshake states *)

Definition seg_opts (g : segment) : tcp_syn_options :=
  if g_hl g >? TCP_HDR_LEN_MIN then tcp_parse_syn_options (g_opts g) else no_opts.

Definition tcp_syn_sent (now q : Z) (s : tcb) (src_ip : Z) (g : segment) (e : E) : tcb * E :=
  if (Z.land (g_flags g) (TCP_FLAG_SYN + TCP_FLAG_ACK) =? TCP_FLAG_SYN + TCP_FLAG_ACK)
     && (g_ack g =? snd_nxt s) && (src_ip =? remote_ip s) && (g_sport g =? remote_port s)
  then
    let s := tcp_cancel_rto (tcp_sample_rtt now s) in
    let o := seg_opts g in
    let s := tcp_negotiate_mss e s (o_mss o) in
    let s := if o_has_wscale o then s <| snd_wnd_shift := o_wscale o |>
             else s <| snd_wnd_shift := 0 |> <| ws_active := false |> in
    let s := s <| rcv_irs := g_seq g |> <| rcv_nxt := u32 (g_seq g + 1) |>
               <| snd_una := g_ack g |> <| state := TCPS_ESTABLISHED |> in
    let '(_, s, e) := tcp_send_segment now s TCP_FLAG_ACK [] e in
    (s, reply_conn_con q src_ip (g_sport g) e)
  else (s, e).

Definition tcp_listen (q : Z) (s : tcb) (src_ip : Z) (g : segment) (e : E) : tcb * E :=
  if has (g_flags g) TCP_FLAG_SYN then
    if pending_count s >=? TCP_LISTEN_BACKLOG then (s, e)
    else
      let slot := (pending_head s + pending_count s) mod TCP_LISTEN_BACKLOG in
      let o := seg_opts g in
      let s := s <| pending_q := <[Z.to_nat slot :=
                      mk_pending src_ip (g_sport g) (o_mss o) (g_seq g)
                        (o_wscale o) (o_has_wscale o)]> (pending_q s) |>
                 <| pending_count := u8 (pending_count s + 1) |> in
      (s, reply_conn_ind q src_ip (g_sport g) e)
  else (s, e).

Definition tcp_syn_received (now q : Z) (s : tcb) (src_ip : Z) (g : segment) (e : E) : tcb * E :=
  if has (g_flags g) TCP_FLAG_ACK && (g_ack g =? snd_nxt s)
     && (src_ip =? remote_ip s) && (g_sport g =? remote_port s)
  then
    let s := (tcp_cancel_rto (tcp_sample_rtt now s)) <| snd_una := g_ack g |>
               <| state := TCPS_ESTABLISHED |> in
    (s, reply_conn_con q src_ip (g_sport g) e)
  else (s, e).

Definition tcp_time_wait (now : Z) (s : tcb) (src_ip : Z) (g : segment) (e : E) : tcb * E :=
  if has (g_flags g) TCP_FLAG_FIN && (src_ip =? remote_ip s) && (g_sport g =? remote_port s)
     && (u32 (g_seq g + 1) =? rcv_nxt s)
  then let '(_, s, e) := tcp_send_segment now s TCP_FLAG_ACK [] e in (s, e)
  else (s, e).

(** The window update and the switch on the state. *)
Definition tcp_input_state (now q : Z) (s : tcb) (src_ip : Z) (g : segment) (e : E) : tcb * E :=
  let s :=
    if is_st s TCPS_LISTEN then s
    else
      let w := if has (g_flags g) TCP_FLAG_SYN then g_wnd g
               else u32 (Z.shiftl (g_wnd g) (snd_wnd_shift s)) in
      s <| snd_wnd := w |> in
  match state s with
  | TCPS_SYN_SENT => tcp_syn_sent now q s src_ip g e
  | TCPS_LISTEN => tcp_listen q s src_ip g e
  | TCPS_SYN_RECEIVED => tcp_syn_received now q s src_ip g e
  | TCPS_ESTABLISHED | TCPS_FIN_WAIT_1 | TCPS_FIN_WAIT_2 | TCPS_CLOSE_WAIT
  | TCPS_LAST_ACK => tcp_established now q s src_ip g e
  | TCPS_TIME_WAIT => tcp_time_wait now s src_ip g e
  | TCPS_CLOSED | TCPS_BOUND | TCPS_CLOSING => (s, e)
  end.

(** ** The TCB table *)

(** [table] is [tcp_tcb_table] with TCBs named by non-zero ids. *)
Record tcp := mk_tcp {
  tcp_tick_counter : Z;
  tcp_iss_next : Z;
  tcp_ephemeral_next : Z;
  table : list Z;
  tcbs : gmap Z tcb;
  tcp_badcsum : Z
}.

#[export] Instance tcp_rebuild : Rebuild tcp :=
  rpure mk_tcp <:> tcp_tick_counter <:> tcp_iss_next <:> tcp_ephemeral_next <:> table
    <:> tcbs <:> tcp_badcsum.

Definition tcp_tick (w : tcp) : tcp :=
  w <| tcp_tick_counter := u32 (tcp_tick_counter w + 1) |>.

Fixpoint register_in (l : list Z) (id : Z) : list Z :=
  match l with
  | [] => []
  | x :: l => if x =? 0 then id :: l else x :: register_in l id
  end.

Definition tcp_tcb_register (w : tcp) (id : Z) : tcp :=
  w <| table := register_in (table w) id |>.

Fixpoint unregister_in (l : list Z) (id : Z) : list Z :=
  match l with
  | [] => []
  | x :: l => if x =? id then 0 :: l else x :: unregister_in l id
  end.

Definition tcp_tcb_unregister (w : tcp) (id : Z) : tcp :=
  w <| table := unregister_in (table w) id |>.

Definition put_tcb (w : tcp) (id : Z) (s : tcb) : tcp := w <| tcbs := <[id := s]> (tcbs w) |>.

(** The registered TCBs in table order. *)
Definition live (w : tcp) : list (Z * tcb) :=
  omap (fun id => if id =? 0 then None else s ← tcbs w !! id; Some (id, s)) (table w).

Definition child_match (lport rip rport : Z) (s : tcb) : bool :=
  negb (is_st s TCPS_CLOSED) && negb (is_st s TCPS_BOUND) && negb (is_st s TCPS_LISTEN)
  && negb (is_st s TCPS_SYN_SENT)
  && (local_port s =? lport) && (remote_ip s =? rip) && (remote_port s =? rport).

Definition tcp_find_child (w : tcp) (lport rip rport : Z) : option (Z * tcb) :=
  List.find (fun x => child_match lport rip rport x.2) (live w).

Definition tcp_port_has_listener (w : tcp) (port : Z) : bool :=
  existsb (fun x => (local_port x.2 =? port)
                    && (is_st x.2 TCPS_LISTEN || is_st x.2 TCPS_BOUND)) (live w).

Definition tcp_min_listener_port (w : tcp) : Z :=
  foldl (fun mn x => if is_st x.2 TCPS_LISTEN && ((mn =? 0) || (local_port x.2 <? mn))
                     then local_port x.2 else mn) 0 (live w).

(** ** Segment input *)

Inductive parsed := P_drop | P_badcsum | P_ok (g : segment).

(** The length, header-length and checksum tests and the header fields. *)
Definition tcp_parse (src_ip dst_ip : Z) (seg : bytes) : parsed :=
  let len := zlen seg in
  if len <? TCP_HDR_LEN_MIN then P_drop
  else
    let hl := Z.shiftr (byte_at seg 12) 4 * 4 in
    if (hl <? TCP_HDR_LEN_MIN) || (hl >? len) then P_drop
    else
      let pkt_cs := ld16 seg 16 in
      if negb (pkt_cs =? 0)
         && negb (tcp_checksum src_ip dst_ip (poke seg 16 (st16 0)) =? htons16 pkt_cs)
      then P_badcsum
      else P_ok (mk_seg (htons16 (ld16 seg 0)) (htons16 (ld16 seg 2))
                   (htonl32 (ld32 seg 4)) (htonl32 (ld32 seg 8)) hl (byte_at seg 13)
                   (htons16 (ld16 seg 14))
                   (take (Z.to_nat (hl - TCP_HDR_LEN_MIN)) (drop 20 seg))
                   (drop (Z.to_nat hl) seg)).

Definition tcp_rst_closed (src_ip dst_ip : Z) (g : segment) (e : E) : E :=
  if has (g_flags g) TCP_FLAG_RST then e
  else
    let ctl := b2z (has (g_flags g) TCP_FLAG_SYN) + b2z (has (g_flags g) TCP_FLAG_FIN) in
    let '(ok, e) := e_alloc (IP_HDR_LEN + TCP_HDR_LEN_MIN) e in
    if negb ok then e
    else
      let seg cs :=
        if has (g_flags g) TCP_FLAG_ACK
        then tcp_header (g_dport g) (g_sport g) (g_ack g) 0 80 TCP_FLAG_RST 0 cs
        else tcp_header (g_dport g) (g_sport g) 0 (u32 (g_seq g + zlen (g_data g) + ctl)) 80
               (TCP_FLAG_RST + TCP_FLAG_ACK) 0 cs in
      snd (e_send src_ip (seg (htons16 (tcp_checksum dst_ip src_ip (seg 0)))) e).

Definition tcp_input_segment (w : tcp) (q id : Z) (src_ip dst_ip : Z) (seg : bytes) (e : E)
  : tcp * E :=
  match tcbs w !! id with
  | None => (w, e)
  | Some s =>
      match tcp_parse src_ip dst_ip seg with
      | P_drop => (w, e)
      | P_badcsum => (w <| tcp_badcsum := u64 (tcp_badcsum w + 1) |>, e)
      | P_ok g =>
          if negb (g_dport g =? local_port s) then
            if has (g_flags g) TCP_FLAG_SYN && negb (has (g_flags g) TCP_FLAG_RST)
               && is_st s TCPS_LISTEN && (local_port s =? tcp_min_listener_port w)
               && negb (tcp_port_has_listener w (g_dport g))
            then (w, tcp_rst_closed src_ip dst_ip g e)
            else (w, e)
          else if is_st s TCPS_LISTEN && negb (has (g_flags g) TCP_FLAG_SYN) then
            match tcp_find_child w (local_port s) src_ip (g_sport g) with
            | None => (w, e)
            | Some (cid, c) =>
                let q := if upper_rq c =? 0 then q else upper_rq c in
                let '(c, e) := tcp_input_state (tcp_tick_counter w) q c src_ip g e in
                (put_tcb w cid c, e)
            end
          else
            let '(s, e) := tcp_input_state (tcp_tick_counter w) q s src_ip g e in
            (put_tcb w id s, e)
      end
  end.

(** ** Open and close *)

Definition new_tcb (rq : Z) : tcb :=
  mk_tcb TCPS_CLOSED 0 false 0 0 0 0 0 0 0 (replicate 8 (mk_pending 0 0 0 0 0 false)) 0 0
    0 0 0 0 0 false 0 0 [] 0 rq 0 0 false 0
    TCP_INITIAL_CWND TCP_INITIAL_SSTHRESH TCP_MSS_DEFAULT false 0.

(** [id] is the address [kmalloc] returned, [0] when it failed. *)
Definition tcp_qopen (w : tcp) (rq id : Z) : Z * tcp :=
  if id =? 0 then (-1, w)
  else (0, tcp_tcb_register (put_tcb w id (new_tcb rq)) id).

(** The loop that resets every queued SYN. *)
Fixpoint reject_pending (n : nat) (now : Z) (s : tcb) (e : E) : tcb * E :=
  match n with
  | O => (s, e)
  | S n =>
      let h := pending_head s in
      let p := nth (Z.to_nat h) (pending_q s) (mk_pending 0 0 0 0 0 false) in
      let s := s <| remote_ip := p_remote_ip p |> <| remote_port := p_remote_port p |> in
      let '(_, s, e) := tcp_send_segment now s TCP_FLAG_RST [] e in
      reject_pending n now (s <| pending_head := (h + 1) mod TCP_LISTEN_BACKLOG |>
                              <| pending_count := u8 (pending_count s - 1) |>) e
  end.

Definition IP_T_BIND_REQ : Z := 2.
Definition IP_T_BIND_ACK : Z := 3.
Definition IP_T_BIND_NAK : Z := 4.
Definition IP_T_UNBIND_REQ : Z := 5.

Definition tcp_qclose (w : tcp) (rq id : Z) (e : E) : tcp * E :=
  match tcbs w !! id with
  | None => (w, e)
  | Some s =>
      let now := tcp_tick_counter w in
      let '(s, e) :=
        match state s with
        | TCPS_ESTABLISHED | TCPS_FIN_WAIT_1 | TCPS_FIN_WAIT_2 | TCPS_CLOSE_WAIT
        | TCPS_LAST_ACK | TCPS_SYN_SENT | TCPS_SYN_RECEIVED =>
            let '(_, s, e) := tcp_send_segment now s TCP_FLAG_RST [] e in (s, e)
        | TCPS_LISTEN => reject_pending (Z.to_nat (pending_count s)) now s e
        | _ => (s, e)
        end in
      let e := if bound s then send_ip_bind rq IP_T_UNBIND_REQ (tcp_bind_key (local_port s) 0) e
               else e in
      ((tcp_tcb_unregister w id) <| tcbs := delete id (tcbs w) |>, e)
  end.

Definition tcp_on_user_drain (now : Z) (s : tcb) (e : E) : tcb * E :=
  if negb (is_st s TCPS_ESTABLISHED) then (s, e)
  else let '(_, s, e) := tcp_send_segment now s TCP_FLAG_ACK [] e in (s, e).

(** ** TPI requests *)

Definition alloc_ephemeral_port (w : tcp) : Z * tcp :=
  let p := tcp_ephemeral_next w in
  let nx := u16 (p + 1) in
  (p, w <| tcp_ephemeral_next := if nx =? 0 then 49152 else nx |>).

Definition alloc_iss (w : tcp) : Z * tcp :=
  (tcp_iss_next w, w <| tcp_iss_next := u32 (tcp_iss_next w + 65536) |>).

(** In the handlers [rq] is [OTHERQ(q)], the read side of the stream. *)
Definition handle_bind_req (w : tcp) (rq id : Z) (s : tcb) (port : Z) (e : E) : Z * tcp * E :=
  if bound s then (0, w, reply_bind_nak rq 1 e)
  else
    let '(port, w) := if port =? 0 then alloc_ephemeral_port w else (port, w) in
    let s := s <| local_port := port |> <| state := TCPS_BOUND |> in
    (0, put_tcb w id s, send_ip_bind rq IP_T_BIND_REQ (tcp_bind_key port 0) e).

Definition handle_conn_req (w : tcp) (rq id : Z) (s : tcb) (dst_ip dst_port : Z) (e : E)
  : Z * tcp * E :=
  if negb (is_st s TCPS_BOUND) then (0, w, reply_discon_ind rq TCP_DISCON_REASON_PROTOERR e)
  else
    let '(iss, w) := alloc_iss w in
    let s := s <| remote_ip := dst_ip |> <| remote_port := dst_port |> <| snd_iss := iss |>
               <| snd_una := iss |> <| snd_nxt := iss |> <| state := TCPS_SYN_SENT |>
               <| ws_active := true |> in
    let '(_, s, e) := tcp_send_segment (tcp_tick_counter w) s TCP_FLAG_SYN [] e in
    (0, put_tcb w id s, e).

Definition handle_listen_req (w : tcp) (rq id : Z) (s : tcb) (e : E) : Z * tcp * E :=
  if negb (is_st s TCPS_BOUND) then (0, w, reply_discon_ind rq TCP_DISCON_REASON_PROTOERR e)
  else (0, put_tcb w id (s <| state := TCPS_LISTEN |>), e).

(** The child half of [tcp_accept_into]: adopt the pending SYN [p]. *)
Definition accept_child (e : E) (c : tcb) (lport iss : Z) (p : pending_syn) : tcb :=
  let c := c <| local_port := lport |> <| remote_ip := p_remote_ip p |>
             <| remote_port := p_remote_port p |> <| rcv_irs := p_irs p |>
             <| rcv_nxt := u32 (p_irs p + 1) |> <| snd_iss := iss |> <| snd_una := iss |>
             <| snd_nxt := iss |> <| state := TCPS_SYN_RECEIVED |>
             <| cwnd := TCP_INITIAL_CWND |> <| ssthresh := TCP_INITIAL_SSTHRESH |> in
  let c := tcp_negotiate_mss e c (p_peer_mss p) in
  if p_has_wscale p then c <| ws_active := true |> <| snd_wnd_shift := p_peer_wscale p |>
  else c <| ws_active := false |> <| snd_wnd_shift := 0 |>.

Definition tcp_accept_into (w : tcp) (id cid : Z) (s c : tcb) (e : E) : Z * tcp * E :=
  let head := pending_head s in
  let p := nth (Z.to_nat head) (pending_q s) (mk_pending 0 0 0 0 0 false) in
  let s := s <| pending_head := (head + 1) mod TCP_LISTEN_BACKLOG |>
             <| pending_count := u8 (pending_count s - 1) |> in
  let '(iss, w) := alloc_iss w in
  let c := accept_child e c (local_port s) iss p in
  let '(rc, c, e) :=
    tcp_send_segment (tcp_tick_counter w) c (TCP_FLAG_SYN + TCP_FLAG_ACK) [] e in
  (rc, put_tcb (put_tcb w id s) cid c, e).

(** [fd_tcb] resolves a descriptor of the calling thread to the private pointer of
    its topmost stream module; [tcp_tcb_from_fd] accepts it if it is in the table. *)
Definition handle_conn_res (w : tcp) (rq id : Z) (s : tcb) (fd_tcb : Z -> option Z) (fd : Z)
    (e : E) : Z * tcp * E :=
  let refuse := (0, w, reply_discon_ind rq TCP_DISCON_REASON_PROTOERR e) in
  if negb (is_st s TCPS_LISTEN) || (pending_count s =? 0) then refuse
  else
    match fd_tcb fd with
    | None => refuse
    | Some cid =>
        match tcbs w !! cid with
        | None => refuse
        | Some c =>
            if negb (existsb (Z.eqb cid) (table w)) || (cid =? id)
               || negb (is_st c TCPS_CLOSED)
            then refuse
            else let '(_, w, e) := tcp_accept_into w id cid s c e in (0, w, e)
        end
    end.

Definition handle_ordrel_req (w : tcp) (rq id : Z) (s : tcb) (e : E) : Z * tcp * E :=
  let now := tcp_tick_counter w in
  if is_st s TCPS_ESTABLISHED then
    let '(_, s, e) := tcp_send_segment now (s <| state := TCPS_FIN_WAIT_1 |>)
                        (TCP_FLAG_ACK + TCP_FLAG_FIN) [] e in
    (0, put_tcb w id s, e)
  else if is_st s TCPS_CLOSE_WAIT then
    let '(_, s, e) := tcp_send_segment now (s <| state := TCPS_LAST_ACK |>)
                        (TCP_FLAG_ACK + TCP_FLAG_FIN) [] e in
    (0, put_tcb w id s, e)
  else (0, w, reply_discon_ind rq TCP_DISCON_REASON_PROTOERR e).

Definition handle_discon_req (w : tcp) (id : Z) (s : tcb) (e : E) : Z * tcp * E :=
  let now := tcp_tick_counter w in
  match state s with
  | TCPS_SYN_SENT | TCPS_SYN_RECEIVED | TCPS_ESTABLISHED | TCPS_FIN_WAIT_1
  | TCPS_FIN_WAIT_2 | TCPS_CLOSE_WAIT | TCPS_LAST_ACK =>
      let '(_, s, e) := tcp_send_segment now (s <| state := TCPS_CLOSED |>) TCP_FLAG_RST [] e in
      (0, put_tcb w id s, e)
  | TCPS_LISTEN =>
      if pending_count s >? 0 then
        let '(s, e) := reject_pending (Z.to_nat (pending_count s)) now s e in
        (0, put_tcb w id (s <| remote_ip := 0 |> <| remote_port := 0 |>), e)
      else (0, w, e)
  | _ => (0, w, e)
  end.

Definition handle_data_req (w : tcp) (rq id : Z) (s : tcb) (payload : list bytes) (e : E)
  : Z * tcp * E :=
  if negb (is_st s TCPS_ESTABLISHED)
  then (-1, w, reply_discon_ind rq TCP_DISCON_REASON_PROTOERR e)
  else if buf_bytes payload =? 0 then (0, w, e)
  else if u32 (buf_bytes (snd_buf s) + buf_bytes payload) >? TCP_SND_BUF_MAX
  then (-1, w, reply_discon_ind rq TCP_DISCON_REASON_PROTOERR e)
  else
    let s := match snd_buf s with
             | [] => s <| snd_buf_seq := snd_nxt s |> <| snd_buf := payload |>
             | _ => s <| snd_buf := snd_buf s ++ payload |>
             end in
    let '(s, e) := tcp_try_send_pending (tcp_tick_counter w) s e in
    (0, put_tcb w id s, e).

(** [tcp_wq_putp] on an M_PROTO block [mp] with payload [cont]. *)
Definition tcp_wq_putp (w : tcp) (rq id : Z) (fd_tcb : Z -> option Z) (mp : bytes)
    (cont : list bytes) (e : E) : Z * tcp * E :=
  match tcbs w !! id with
  | None => (-1, w, e)
  | Some s =>
      if zlen mp <? 1 then (-1, w, e)
      else
        let prim := byte_at mp 0 in
        if (prim =? 16) && (zlen mp >=? 4) then handle_bind_req w rq id s (ld16 mp 2) e
        else if (prim =? 19) && (zlen mp >=? 12)
        then handle_conn_req w rq id s (ld32 mp 4) (ld16 mp 8) e
        else if prim =? 23 then handle_data_req w rq id s cont e
        else if prim =? 29 then handle_listen_req w rq id s e
        else if (prim =? 22) && (zlen mp >=? 8)
        then handle_conn_res w rq id s fd_tcb (s32 (ld32 mp 4)) e
        else if prim =? 25 then handle_ordrel_req w rq id s e
        else if prim =? 27 then handle_discon_req w id s e
        else (-1, w, e)
  end.

(** ** Read side *)

Definition handle_ip_ack (w : tcp) (q id : Z) (s : tcb) (prim key : Z) (e : E) : tcp * E :=
  if prim =? IP_T_BIND_ACK
  then (put_tcb w id (s <| bound := true |>), reply_bind_ack q (u16 (Z.shiftr key 16)) e)
  else if prim =? IP_T_BIND_NAK
  then (put_tcb w id (s <| bound := false |> <| local_port := 0 |> <| state := TCPS_CLOSED |>),
        reply_bind_nak q 1 e)
  else (w, e).

(** [tcp_rq_putp] on an M_PROTO block [mp] with the blocks [cont] behind it. *)
Definition tcp_rq_putp (w : tcp) (q id : Z) (mp : bytes) (cont : list bytes) (e : E) : tcp * E :=
  match tcbs w !! id with
  | None => (w, e)
  | Some s =>
      if zlen mp <? 1 then (w, e)
      else
        let prim := byte_at mp 0 in
        if (prim =? IP_T_BIND_ACK) || (prim =? IP_T_BIND_NAK) || (prim =? 6)
        then handle_ip_ack w q id s prim (ld32 mp 4) e
        else
          match cont with
          | body :: _ =>
              if (prim =? 7) && (zlen mp >=? 12)
              then tcp_input_segment w q id (ld32 mp 4) (ld32 mp 8) body e
              else (w, e)
          | [] => (w, e)
          end
  end.

(** ** One sweep of the retransmit thread *)

Definition tcp_retransmit_one (now : Z) (s : tcb) (e : E) : tcb * E :=
  if is_st s TCPS_TIME_WAIT then
    if s32 (now - time_wait_expires s) >=? 0
    then (s <| state := TCPS_CLOSED |> <| time_wait_expires := 0 |>, e)
    else (s, e)
  else if rto_expires s =? 0 then (s, e)
  else if s32 (now - rto_expires s) <? 0 then (s, e)
  else if retransmit_count s >=? TCP_MAX_RETRANSMITS then
    let s := s <| state := TCPS_CLOSED |> <| rto_expires := 0 |> in
    (s, if upper_rq s =? 0 then e
        else reply_discon_ind (upper_rq s) TCP_DISCON_REASON_TIMEOUT e)
  else
    let s := if retransmit_count s =? 0 then tcp_cwnd_on_rto s else s in
    let saved := u8 (retransmit_count s + 1) in
    let r := u32 (Z.shiftl (rto_ticks s) 1) in
    let s := s <| rto_ticks := if r >? TCP_RTO_MAX then TCP_RTO_MAX else r |> in
    let head := hd [] (snd_buf s) in
    let '(_, e) :=
      if zlen head >? 0 then
        let plen := if zlen head >? mss s then mss s else zlen head in
        tcp_emit_segment s (snd_buf_seq s) (TCP_FLAG_ACK + TCP_FLAG_PSH)
          (take (Z.to_nat plen) head) e
      else if has (pending_flags s) (TCP_FLAG_SYN + TCP_FLAG_FIN)
      then tcp_emit_segment s (snd_una s) (pending_flags s) [] e
      else (0, e) in
    (s <| retransmit_count := saved |> <| rto_expires := u32 (now + rto_ticks s) |>, e).

Fixpoint retransmit_sweep (w : tcp) (ids : list Z) (e : E) : tcp * E :=
  match ids with
  | [] => (w, e)
  | id :: ids =>
      match (if id =? 0 then None else tcbs w !! id) with
      | None => retransmit_sweep w ids e
      | Some s =>
          let '(s, e) := tcp_retransmit_one (tcp_tick_counter w) s e in
          retransmit_sweep (put_tcb w id s) ids e
      end
  end.

(** The body of [tcp_retransmit_main] after a tick. *)
Definition tcp_retransmit (w : tcp) (e : E) : tcp * E := retransmit_sweep w (table w) e.

(** ** The steps of the module *)

(** Everything that can happen to the module: a clock tick, a stream opened or
    closed, a message put to the write or the read side of a stream, the user
    reading from the stream head, and a run of the retransmit thread. *)
Inductive tcp_step : tcp * E -> tcp * E -> Prop :=
| step_tick w e : tcp_step (w, e) (tcp_tick w, e)
| step_open w e rq id : tcbs w !! id = None -> tcp_step (w, e) ((tcp_qopen w rq id).2, e)
| step_close w e rq id : tcp_step (w, e) (tcp_qclose w rq id e)
| step_wput w e rq id fds mp cont :
    is_bytes mp -> zlen (concat cont) < 2147483648 ->
    tcp_step (w, e) (let '(_, w', e') := tcp_wq_putp w rq id fds mp cont e in (w', e'))
| step_rput w e q id mp cont :
    is_bytes mp -> Forall is_bytes cont -> tcp_step (w, e) (tcp_rq_putp w q id mp cont e)
| step_drain w e id s :
    tcbs w !! id = Some s ->
    tcp_step (w, e) (let '(s', e') := tcp_on_user_drain (tcp_tick_counter w) s e in
                     (put_tcb w id s', e'))
| step_retransmit w e : tcp_step (w, e) (tcp_retransmit w e).

End WithEnv.

(** ** A concrete environment: traces of what was sent, one route *)

Record wire := mk_wire {
  w_mem : list bool;
  w_sent : list (Z * bytes);
  w_up : list (Z * tpi);
  w_bind : list (Z * Z * Z);
  w_addr : Z;
  w_mtu : Z;
  w_overrun : bool
}.

#[export] Instance wire_rebuild : Rebuild wire :=
  rpure mk_wire <:> w_mem <:> w_sent <:> w_up <:> w_bind <:> w_addr <:> w_mtu <:> w_overrun.

#[export] Instance wire_env : TcpEnv wire := {|
  e_alloc n e := let '(ok, m) := scripted_allocb n (w_mem e) in (ok, e <| w_mem := m |>);
  e_send dst seg e := (0, e <| w_sent := w_sent e ++ [(dst, seg)] |>);
  e_src e _ := w_addr e;
  e_mtu e _ := Some (w_mtu e);
  e_up rq t e := e <| w_up := w_up e ++ [(rq, t)] |>;
  e_used _ _ := 0;
  e_bind rq prim key e := e <| w_bind := w_bind e ++ [(rq, prim, key)] |>;
  e_overrun e := e <| w_overrun := true |>
|}.

Definition wire0 : wire := mk_wire [] [] [] [] 167772687 1500 false.

End Tcp.
