(* ===== verification/TcpInv.v ===== *)
(** * TCP: the invariant of every connection

    Preservation of [tcb_wf] by each operation of [Tcp], from the timers up to the
    steps of the whole module, and the specification of one round of the send loop. *)

From stdpp Require Import base numbers list gmap relations.
From Stdlib Require Import ZArith Lia Bool.
From S2P Require Import Prelude Net Tcp.

Module TcpInv.
Import Net Tcp.

(** ** The invariant of a connection *)

Definition rto_ok (r : Z) : Prop := r = 0 \/ TCP_RTO_MIN <= r <= TCP_RTO_MAX.
Definition seg_bytes (l : list bytes) : Z := zlen (concat l).

Definition pending_ok (p : pending_syn) : Prop :=
  0 <= p_peer_mss p <= 65535 /\ 0 <= p_peer_wscale p <= TCP_WSCALE_MAX.

(** Reduce projections of updated TCBs. *)
Ltac proj := cbv beta iota zeta delta [fst snd update state local_port bound remote_ip remote_port snd_una
  snd_nxt snd_iss rcv_nxt rcv_irs pending_q pending_head pending_count rto_expires rto_ticks
  send_tick pending_flags retransmit_count rtt_valid srtt_ticks rttvar_ticks snd_buf
  snd_buf_seq upper_rq snd_wnd snd_wnd_shift ws_active time_wait_expires cwnd ssthresh mss
  in_send dup_ack_count tcp_tick_counter tcp_iss_next tcp_ephemeral_next table tcbs
  tcp_badcsum] in *.

(** ** The send loop *)

Lemma foldl_zlen (l : list bytes) n : foldl (fun n b => n + zlen b) n l = n + zlen (concat l).
Proof.
  revert n. induction l as [|b l IH]; intros n; cbn; [rewrite zlen_nil; lia|].
  rewrite IH, zlen_app. lia.
Qed.

Lemma buf_bytes_concat l : buf_bytes l = u32 (seg_bytes l).
Proof. unfold buf_bytes, seg_bytes. by rewrite foldl_zlen. Qed.

Lemma gather_spec l : forall skip want, 0 <= skip ->
  gather l skip want = take (Z.to_nat want) (drop (Z.to_nat skip) (concat l)).
Proof.
  induction l as [|b l IH]; intros skip want Hs; cbn [gather concat].
  - by rewrite drop_nil, take_nil.
  - pose proof (zlen_nonneg b). case_if; bool_prop; [by replace (Z.to_nat want) with 0%nat by lia|].
    rewrite Z.geb_leb. case_if; bool_prop; unfold zlen in *.
    + rewrite IH, drop_app_ge by lia. do 2 f_equal. lia.
    + rewrite drop_app_le, IH by lia. cbn [Z.to_nat]. rewrite drop_0. case_if; bool_prop.
      * rewrite take_app_ge by (rewrite length_drop; lia).
        rewrite take_ge by (rewrite length_drop; lia). do 2 f_equal. rewrite length_drop. lia.
      * rewrite take_app_le by (rewrite length_drop; lia).
        replace (Z.to_nat (want - want)) with 0%nat by lia. by rewrite app_nil_r.
Qed.

Lemma trim_spec l : forall seq n, 0 <= n -> is_u32 seq ->
  n <= seg_bytes l ->
  concat (trim l seq n).1 = drop (Z.to_nat n) (concat l) /\ (trim l seq n).2 = u32 (seq + n).
Proof.
  unfold seg_bytes. induction l as [|b l IH]; intros seq n Hn Hs Hl; cbn [trim concat] in *.
  - rewrite zlen_nil in Hl. replace n with 0 by lia. cbn. by rewrite Z.add_0_r, u32_small.
  - rewrite zlen_app in Hl. case_if; bool_prop.
    + replace n with 0 by lia. cbn. by rewrite Z.add_0_r, u32_small.
    + rewrite Z.geb_leb. case_if; bool_prop.
      * destruct (IH (u32 (seq + zlen b)) (n - zlen b)) as [-> ->]; [lia|apply u32_range|lia|].
        split; [|warith]. unfold zlen in *. rewrite drop_app_ge by lia. f_equal. lia.
      * cbn. split; [|done]. unfold zlen in *. by rewrite drop_app_le by lia.
Qed.

Lemma trim_le l : forall seq n, seg_bytes (trim l seq n).1 <= seg_bytes l.
Proof.
  unfold seg_bytes. induction l as [|b l IH]; intros seq n; cbn [trim concat]; [done|].
  pose proof (zlen_nonneg b). rewrite zlen_app. case_if; cbn [fst concat]; [rewrite zlen_app; lia|].
  case_if; [specialize (IH (u32 (seq + zlen b)) (n - zlen b)); lia|].
  cbn [fst concat]. rewrite zlen_app. unfold zlen. rewrite length_drop. lia.
Qed.

Definition inflight (s : tcb) : Z := u32 (snd_nxt s - snd_una s).
Definition sent_off (s : tcb) : Z := u32 (snd_nxt s - snd_buf_seq s).

(** The TCB after [n] more bytes were sent. *)
Definition after_send (now : Z) (s : tcb) (n : Z) : tcb :=
  let s := s <| snd_nxt := u32 (snd_nxt s + n) |> in
  if rto_expires s =? 0 then tcp_arm_rto now s (TCP_FLAG_ACK + TCP_FLAG_PSH) else s.

Section Round.
Context {E : Type} `{TcpEnv E}.

Lemma seg_copy_fits n (e : E) : n <= SEG_DATA -> seg_copy n e = e.
Proof. intros Hn. unfold seg_copy. by rewrite Z.gtb_ltb, (proj2 (Z.ltb_ge _ _)). Qed.

(** Why the send loop stops. *)
Definition send_stop (s : tcb) (e : E) : Prop :=
  seg_bytes (snd_buf s) <= sent_off s \/ cwnd s <= inflight s \/ snd_wnd s <= inflight s
  \/ exists n, (tcp_emit_segment s (snd_nxt s) (TCP_FLAG_ACK + TCP_FLAG_PSH)
                  (take n (drop (Z.to_nat (sent_off s)) (concat (snd_buf s)))) e).1 < 0.

Lemma try_send_round_cases now s (e : E) :
  seg_bytes (snd_buf s) <= TCP_SND_BUF_MAX -> 0 < mss s ->
  (exists e', try_send_round now s e = (false, s, e') /\ (mss s <= SEG_DATA -> send_stop s e))
  \/ exists n rc e', 0 < n <= mss s /\ n <= seg_bytes (snd_buf s) - sent_off s
     /\ n <= cwnd s - inflight s /\ n <= snd_wnd s - inflight s /\ 0 <= rc
     /\ tcp_emit_segment s (snd_nxt s) (TCP_FLAG_ACK + TCP_FLAG_PSH)
          (take (Z.to_nat n) (drop (Z.to_nat (sent_off s)) (concat (snd_buf s)))) (seg_copy n e) = (rc, e')
     /\ try_send_round now s e = (true, after_send now s n, e').
Proof.
  intros Hb Hm. assert (Hbb : buf_bytes (snd_buf s) = seg_bytes (snd_buf s)).
  { rewrite buf_bytes_concat. apply u32_small. unfold TCP_SND_BUF_MAX, seg_bytes in *.
    pose proof (zlen_nonneg (concat (snd_buf s))). warith. }
  unfold try_send_round. fold (inflight s) (sent_off s). rewrite Hbb.
  assert (Hso : 0 <= sent_off s) by (unfold sent_off; warith).
  destruct (snd_buf s) as [|b l] eqn:Eb.
  { left. exists e. split; [done|]. intros _. left. by rewrite Eb. }
  rewrite <- Eb in *. rewrite !Z.geb_leb, !Z.gtb_ltb.
  destruct (seg_bytes (snd_buf s) <=? sent_off s) eqn:E1.
  { left. exists e. split; [done|]. intros _. left. by bool_prop. }
  set (room := if _ <? _ then _ else _).
  set (chunk := if mss s <? _ then _ else _).
  assert (Hroom : 0 <= room /\ (room = 0 -> cwnd s <= inflight s \/ snd_wnd s <= inflight s)
    /\ (room <> 0 -> room <= cwnd s - inflight s /\ room <= snd_wnd s - inflight s)).
  { subst room. repeat case_inner; bool_prop; lia. }
  destruct (room =? 0) eqn:E2.
  { left. exists e. split; [done|]. intros _. right. bool_prop. destruct Hroom as (_ & Hr & _).
    destruct (Hr E2); auto. }
  bool_prop. destruct Hroom as (Hr0 & _ & Hr). specialize (Hr E2).
  assert (Hc : 0 < chunk <= mss s /\ chunk <= seg_bytes (snd_buf s) - sent_off s /\ chunk <= room).
  { subst chunk. clearbody room. repeat case_inner; bool_prop; lia. }
  clearbody room chunk. rewrite gather_spec by done. cbv zeta.
  assert (Hlen : zlen (take (Z.to_nat chunk) (drop (Z.to_nat (sent_off s)) (concat (snd_buf s)))) = chunk)
    by (unfold seg_bytes, zlen in *; rewrite length_take, length_drop; lia).
  rewrite Hlen. destruct (tcp_emit_segment _ _ _ _ _) as [rc e'] eqn:Ee.
  destruct (rc <? 0) eqn:E3; bool_prop.
  - left. exists e'. split; [done|]. intros Hfit. rewrite seg_copy_fits in Ee by lia.
    right; right; right. exists (Z.to_nat chunk). by rewrite Ee.
  - right. exists chunk, rc, e'. by split_and!; try lia.
Qed.

End Round.

(** ** The invariant *)

(** [lim] bounds the segment size: 65535 in any case, less when the packets of the
    interfaces are smaller. *)
Section Bounded.
Context (lim : Z) (Hlim : TCP_MSS_DEFAULT <= lim <= 65535).

Record tcb_wf (s : tcb) : Prop := {
  wf_rto : rto_ok (rto_ticks s);
  wf_rtx : 0 <= retransmit_count s <= TCP_MAX_RETRANSMITS;
  wf_mss : TCP_MSS_DEFAULT <= mss s <= lim;
  wf_ssthresh : TCP_INITIAL_CWND <= ssthresh s < 4294967296;
  wf_cwnd : is_u32 (cwnd s);
  wf_una : is_u32 (snd_una s);
  wf_nxt : is_u32 (snd_nxt s);
  wf_rcv : is_u32 (rcv_nxt s);
  wf_ring : length (pending_q s) = 8%nat;
  wf_head : 0 <= pending_head s < TCP_LISTEN_BACKLOG;
  wf_count : 0 <= pending_count s <= TCP_LISTEN_BACKLOG;
  wf_shift : 0 <= snd_wnd_shift s <= TCP_WSCALE_MAX;
  wf_pending : Forall pending_ok (pending_q s);
  wf_buf : seg_bytes (snd_buf s) <= TCP_SND_BUF_MAX;
  wf_dup : is_u8 (dup_ack_count s);
  wf_idle : in_send s = false
}.

(** Rebuild the invariant of an updated TCB [s] from [H : tcb_wf s]: the untouched
    fields by assumption. *)
Ltac open_tcb H :=
  match type of H with
  | tcb_wf ?s => is_var s; destruct s
  | _ => idtac
  end.
Ltac rewf H := open_tcb H; destruct H; constructor; proj; auto with words.

#[local] Hint Unfold rto_ok TCP_RTO_MIN TCP_RTO_MAX TCP_RTO_INITIAL TCP_MAX_RETRANSMITS
  TCP_MSS_DEFAULT TCP_INITIAL_CWND TCP_LISTEN_BACKLOG TCP_WSCALE_MAX TCP_SND_BUF_MAX : words.

Lemma arm_rto_wf now s f : tcb_wf s -> tcb_wf (tcp_arm_rto now s f).
Proof.
  intros H. unfold tcp_arm_rto. case_if; rewf H; unfold TCP_MAX_RETRANSMITS in *; try lia.
  right. unfold TCP_RTO_INITIAL, TCP_RTO_MIN, TCP_RTO_MAX. lia.
Qed.

Lemma cancel_rto_wf s : tcb_wf s -> tcb_wf (tcp_cancel_rto s).
Proof. intros H. unfold tcp_cancel_rto. rewf H. Qed.

Lemma enter_time_wait_wf now s : tcb_wf s -> tcb_wf (tcp_enter_time_wait now s).
Proof. intros H. apply cancel_rto_wf. rewf H. Qed.

Lemma update_rtt_wf s t : tcb_wf s -> tcb_wf (tcp_update_rtt s t).
Proof.
  intros H. unfold tcp_update_rtt, TCP_RTO_MIN, TCP_RTO_MAX.
  destruct (rtt_valid s); cbn [negb]; (rewf H; right; unfold TCP_RTO_MIN, TCP_RTO_MAX);
    repeat case_if; rewrite ?Z.gtb_ltb in *; bool_prop; lia.
Qed.

Lemma sample_rtt_wf now s : tcb_wf s -> tcb_wf (tcp_sample_rtt now s).
Proof. intros H. unfold tcp_sample_rtt. case_if; [by apply update_rtt_wf|done]. Qed.

Lemma set_state_wf x s : tcb_wf s -> tcb_wf (s <| state := x |>).
Proof. intros H. rewf H. Qed.

#[local] Hint Resolve arm_rto_wf cancel_rto_wf enter_time_wait_wf update_rtt_wf sample_rtt_wf
  set_state_wf : words.

(** *** Preservation *)

Section Preserve.
Context {E : Type} `{TcpEnv E} (Hmtu : forall e dst, tcp_local_mss e dst <= lim).

Lemma cwnd_on_ack_wf s : tcb_wf s -> tcb_wf (tcp_cwnd_on_ack s).
Proof. intros Hw. unfold tcp_cwnd_on_ack. case_if; rewf Hw. Qed.

Lemma half_flight_range s : tcb_wf s ->
  TCP_INITIAL_CWND <= half_flight s < 4294967296.
Proof.
  intros Hw. pose proof (wf_mss s Hw). unfold half_flight, TCP_INITIAL_CWND, TCP_MSS_DEFAULT in *.
  pose proof (u32_range (snd_nxt s - snd_una s)). case_if; bool_prop; warith.
Qed.

Lemma cwnd_on_rto_wf s : tcb_wf s -> tcb_wf (tcp_cwnd_on_rto s).
Proof.
  intros Hw. pose proof (half_flight_range s Hw). pose proof (wf_mss s Hw).
  unfold tcp_cwnd_on_rto. rewf Hw. unfold TCP_MSS_DEFAULT in *. warith.
Qed.

Lemma iw_range m : is_u32 (tcp_rfc6928_iw m).
Proof. unfold tcp_rfc6928_iw. repeat case_if; auto with words; warith. Qed.

Lemma negotiate_mss_wf e s p : 0 <= p <= 65535 -> tcb_wf s -> tcb_wf (tcp_negotiate_mss e s p).
Proof.
  intros Hp Hw. unfold tcp_negotiate_mss.
  pose proof (Hmtu e (remote_ip s)) as Hl. pose proof Hlim as Hb. rewf Hw.
  - unfold TCP_MSS_DEFAULT in *.
    destruct (negb (p =? 0) && _) eqn:Ep; case_if; bool_prop; lia.
  - apply iw_range.
Qed.

Lemma send_segment_wf now s f p (e : E) : tcb_wf s -> tcb_wf (tcp_send_segment now s f p e).1.2.
Proof.
  intros Hw. unfold tcp_send_segment. case_if; [done|].
  destruct (e_alloc _ e) as [[] e1]; cbn [negb]; [|done].
  match goal with |- context [e_send ?a ?b e1] => destruct (e_send a b e1) end. cbn [fst snd].
  assert (Hs1 : forall s, tcb_wf s -> tcb_wf (s <| snd_nxt := u32 (snd_nxt s + 1) |>))
    by (intros s1 Hw1; rewf Hw1).
  assert (Hs2 : forall s, tcb_wf s -> tcb_wf (s <| snd_nxt := u32 (snd_nxt s + zlen p) |>))
    by (intros s1 Hw1; rewf Hw1).
  repeat case_if; auto with words.
Qed.

Lemma after_send_wf now s n :
  tcb_wf (s <| in_send := false |>) -> tcb_wf ((after_send now s n) <| in_send := false |>).
Proof.
  intros Hw. destruct s. unfold after_send, tcp_arm_rto. proj.
  repeat case_if; rewf Hw; unfold TCP_MAX_RETRANSMITS, TCP_RTO_INITIAL, rto_ok; try lia;
    right; unfold TCP_RTO_MIN, TCP_RTO_MAX; lia.
Qed.

Lemma try_send_round_wf now s (e : E) :
  tcb_wf (s <| in_send := false |>) -> tcb_wf ((try_send_round now s e).1.2 <| in_send := false |>).
Proof.
  intros Hw. pose proof (wf_buf _ Hw) as Hb. pose proof (wf_mss _ Hw) as Hm.
  unfold TCP_MSS_DEFAULT in Hm. destruct (try_send_round_cases now s e) as
    [(e' & -> & _)|(n & rc & e' & _ & _ & _ & _ & _ & _ & ->)];
    [by destruct s| destruct s; proj; lia |done|by apply after_send_wf].
Qed.

Lemma try_send_pending_wf now s (e : E) : tcb_wf s -> tcb_wf (tcp_try_send_pending now s e).1.
Proof.
  intros Hw. unfold tcp_try_send_pending. case_if; [done|]. case_if; [done|].
  assert (Hl : forall n s e, tcb_wf (s <| in_send := false |>) ->
    tcb_wf ((try_send_loop n now s e).1 <| in_send := false |>)).
  { induction n as [|n IH]; intros s1 e1 Hw1; cbn [try_send_loop]; [done|].
    pose proof (try_send_round_wf now s1 e1 Hw1) as Hr.
    destruct (try_send_round now s1 e1) as [[go s2] e2]. case_if; [by apply IH|done]. }
  specialize (Hl (S (Z.to_nat (buf_bytes (snd_buf s)))) (s <| in_send := true |>) e).
  destruct (try_send_loop _ _ _ _) as [s' e']. apply Hl. rewf Hw.
Qed.

Lemma ack_trim_wf now s n : tcb_wf s -> tcb_wf (ack_trim now s n).
Proof.
  intros Hw. unfold ack_trim. destruct (snd_buf s) as [|b l] eqn:Eb; [done|]. rewrite <- Eb.
  case_if.
  - apply cancel_rto_wf, sample_rtt_wf. rewf Hw. by vm_compute.
  - pose proof (trim_le (snd_buf s) (snd_buf_seq s) n) as Ht.
    destruct (trim _ _ _) as [l' seq]. cbn in Ht. pose proof (wf_buf s Hw).
    case_if; [rewf Hw; unfold TCP_MAX_RETRANSMITS in *; cbn in *; lia|].
    apply cancel_rto_wf. rewf Hw. cbn in *. lia.
Qed.

Lemma ack_new_wf now s a (e : E) : is_u32 a -> tcb_wf s -> tcb_wf (ack_new now s a e).1.
Proof.
  intros Ha Hw. unfold ack_new. apply try_send_pending_wf, ack_trim_wf, cwnd_on_ack_wf.
  case_if; rewf Hw; try warith. unfold TCP_INITIAL_CWND in *. warith.
Qed.

Lemma ack_dup_wf now s (e : E) : tcb_wf s -> tcb_wf (ack_dup now s e).1.
Proof.
  intros Hw. unfold ack_dup. case_if; [|case_if].
  - destruct (tcp_emit_segment _ _ _ _ _) as [rc e1]. cbn [fst].
    assert (Hh : TCP_INITIAL_CWND <= half_flight (s <| dup_ack_count := u8 (dup_ack_count s + 1) |>)
                 < 4294967296) by (apply half_flight_range; rewf Hw).
    rewf Hw.
  - apply try_send_pending_wf. rewf Hw.
  - rewf Hw.
Qed.

Lemma ack_state_wf now s : tcb_wf s -> tcb_wf (ack_state now s).
Proof. intros Hw. unfold ack_state. repeat case_if; auto with words. Qed.

Lemma tcp_ack_wf now s a f n (e : E) : is_u32 a -> tcb_wf s -> tcb_wf (tcp_ack now s a f n e).1.
Proof.
  intros Ha Hw. unfold tcp_ack.
  pose proof (ack_new_wf now s a e Ha Hw). pose proof (ack_dup_wf now s e Hw).
  repeat case_if; try destruct (ack_new _ _ _ _); try destruct (ack_dup _ _ _);
    by apply ack_state_wf.
Qed.

Lemma tcp_data_wf now q s a d (e : E) : tcb_wf s -> tcb_wf (tcp_data now q s a d e).1.
Proof.
  intros Hw. unfold tcp_data. case_if; [|done].
  destruct (e_alloc _ e) as [[] e1]; [|done].
  assert (Hw' : tcb_wf (s <| rcv_nxt := u32 (rcv_nxt s + zlen d) |>)) by rewf Hw.
  pose proof (send_segment_wf now _ TCP_FLAG_ACK [] (reply_data_ind q d e1) Hw') as Hs.
  destruct (tcp_send_segment _ _ _ _ _) as [[rc s'] e']. done.
Qed.

Lemma tcp_fin_wf now q s a f n (e : E) : tcb_wf s -> tcb_wf (tcp_fin now q s a f n e).1.
Proof.
  intros Hw. unfold tcp_fin. case_if; [|done].
  set (s1 := s <| rcv_nxt := _ |>). assert (Hw1 : tcb_wf s1) by (subst s1; rewf Hw). clearbody s1.
  set (s2 := if is_st s1 TCPS_ESTABLISHED then _ else _).
  assert (Hw2 : tcb_wf s2) by (subst s2; repeat case_if; auto with words).
  pose proof (send_segment_wf now s2 TCP_FLAG_ACK [] e Hw2).
  destruct (tcp_send_segment _ _ _ _ _) as [[rc s'] e']. done.
Qed.

Definition seg_ok (g : segment) : Prop := is_u32 (g_ack g) /\ is_u32 (g_seq g)
  /\ 0 <= o_mss (seg_opts g) <= 65535 /\ 0 <= o_wscale (seg_opts g) <= TCP_WSCALE_MAX.

Lemma tcp_established_wf now q s ip g (e : E) :
  seg_ok g -> tcb_wf s -> tcb_wf (tcp_established now q s ip g e).1.
Proof.
  intros (Ha & _) Hw. unfold tcp_established. case_if; [done|]. case_if; [by apply set_state_wf|].
  pose proof (tcp_ack_wf now s (g_ack g) (g_flags g) (zlen (g_data g)) e Ha Hw) as Hw1.
  set (r := if _ : bool then _ else _).
  assert (Hr : tcb_wf r.1) by (subst r; case_if; done). destruct r as [s1 e1].
  pose proof (tcp_data_wf now q s1 (g_seq g) (g_data g) e1 Hr) as Hw2.
  destruct (tcp_data _ _ _ _ _ _) as [s2 e2]. by apply tcp_fin_wf.
Qed.

Lemma tcp_syn_sent_wf now q s ip g (e : E) :
  seg_ok g -> tcb_wf s -> tcb_wf (tcp_syn_sent now q s ip g e).1.
Proof.
  intros (Ha & Hq & Hm & Hws) Hw. unfold tcp_syn_sent. case_if; [|done].
  set (s1 := tcp_negotiate_mss _ _ _).
  assert (Hw1 : tcb_wf s1) by (apply negotiate_mss_wf; auto with words). clearbody s1.
  set (s2 := if o_has_wscale _ then _ else _).
  assert (Hw2 : tcb_wf s2).
  { subst s2. case_if; rewf Hw1. unfold TCP_WSCALE_MAX. lia. }
  clearbody s2.
  match goal with |- context [tcp_send_segment now ?s3 _ _ _] =>
    assert (Hw3 : tcb_wf s3) by rewf Hw2;
    pose proof (send_segment_wf now s3 TCP_FLAG_ACK [] e Hw3) end.
  destruct (tcp_send_segment _ _ _ _ _) as [[rc s'] e']. done.
Qed.

Lemma tcp_listen_wf q s ip g (e : E) :
  seg_ok g -> tcb_wf s -> tcb_wf (tcp_listen q s ip g e).1.
Proof.
  intros (Ha & Hq & Hm & Hws) Hw. unfold tcp_listen. case_if; [|done]. case_if; [done|].
  rewrite Z.geb_leb in E1. rewf Hw; unfold TCP_LISTEN_BACKLOG in *; bool_prop.
  - by rewrite length_insert.
  - rewrite u8_small by warith. lia.
  - by apply Forall_insert.
Qed.

Lemma tcp_syn_received_wf now q s ip g (e : E) :
  seg_ok g -> tcb_wf s -> tcb_wf (tcp_syn_received now q s ip g e).1.
Proof.
  intros (Ha & _) Hw. unfold tcp_syn_received. case_if; [|done].
  assert (Hw1 : tcb_wf (tcp_cancel_rto (tcp_sample_rtt now s))) by auto with words.
  cbn [fst]. set (s1 := tcp_cancel_rto _) in *. clearbody s1. rewf Hw1.
Qed.

Lemma tcp_input_state_wf now q s ip g (e : E) :
  seg_ok g -> tcb_wf s -> tcb_wf (tcp_input_state now q s ip g e).1.
Proof.
  intros Hg Hw. unfold tcp_input_state.
  set (s1 := if is_st s TCPS_LISTEN then _ else _).
  assert (Hw1 : tcb_wf s1) by (subst s1; case_if; [done|rewf Hw]). clearbody s1.
  destruct (state s1); try done.
  all: first [by apply tcp_listen_wf | by apply tcp_syn_sent_wf | by apply tcp_syn_received_wf
    | by apply tcp_established_wf | idtac].
  unfold tcp_time_wait. case_if; [|done].
  pose proof (send_segment_wf now s1 TCP_FLAG_ACK [] e Hw1).
  by destruct (tcp_send_segment _ _ _ _ _) as [[rc s'] e'].
Qed.

Lemma retransmit_one_wf now s (e : E) : tcb_wf s -> tcb_wf (tcp_retransmit_one now s e).1.
Proof.
  intros Hw. unfold tcp_retransmit_one.
  case_if; [case_if; [rewf Hw|done]|]. case_if; [done|]. case_if; [done|].
  case_if; [rewf Hw|]. rewrite Z.geb_leb in E3. bool_prop.
  set (s1 := if retransmit_count s =? 0 then _ else _).
  assert (Hw1 : tcb_wf s1 /\ retransmit_count s1 < TCP_MAX_RETRANSMITS /\ rto_ticks s1 = rto_ticks s).
  { subst s1. case_if; [|done]. split; [by apply cwnd_on_rto_wf|done]. }
  clearbody s1. destruct Hw1 as (Hw1 & Hc & _).
  match goal with |- context [let '(_, _) := ?x in _] => destruct x as [rc e1] end.
  pose proof (wf_rto s1 Hw1) as Hr. rewf Hw1.
  - rewrite Z.gtb_ltb. unfold rto_ok, TCP_RTO_MIN, TCP_RTO_MAX in *.
    rewrite Z.shiftl_mul_pow2 by lia. change (2 ^ 1) with 2. rewrite u32_small by warith.
    case_if; bool_prop; lia.
  - unfold TCP_MAX_RETRANSMITS in *. rewrite u8_small by warith. lia.
Qed.

(** *** The whole module *)

Lemma byte_at_u8 l i : is_bytes l -> is_u8 (byte_at l i).
Proof.
  intros Hl. unfold byte_at. destruct (nth_in_or_default i l 0) as [Hi| ->]; [|warith].
  by apply (proj1 (List.Forall_forall _ _) Hl).
Qed.

Lemma parse_opts_range l : is_bytes l -> forall n i o,
  0 <= o_mss o <= 65535 -> 0 <= o_wscale o <= TCP_WSCALE_MAX ->
  0 <= o_mss (parse_opts n l i o) <= 65535 /\ 0 <= o_wscale (parse_opts n l i o) <= TCP_WSCALE_MAX.
Proof.
  intros Hl. induction n as [|n IH]; intros i o Hm Hw; cbn [parse_opts]; [done|].
  repeat (case_if; [done|]). case_if; [by apply IH|]. repeat (case_if; [done|]).
  apply IH; (case_if; [|case_if]); unfold update; cbn; try done.
  - set (x := Z.lor _ _). pose proof (u16_range x). warith.
  - pose proof (byte_at_u8 l (i + 2) Hl) as Hb. rewrite Z.gtb_ltb. unfold TCP_WSCALE_MAX in *.
    case_if; bool_prop; warith.
Qed.

Lemma tcp_parse_ok a b seg g : is_bytes seg -> tcp_parse a b seg = P_ok g -> seg_ok g.
Proof.
  intros Hb. unfold tcp_parse. repeat (case_if; [done|]). intros [= <-].
  split; [apply htonl32_range|]. split; [apply htonl32_range|].
  unfold seg_opts. cbn [g_hl g_opts]. case_if; [|unfold TCP_WSCALE_MAX; cbn; lia].
  apply parse_opts_range; [|cbn; lia|unfold TCP_WSCALE_MAX; cbn; lia].
  apply Forall_take. by apply Forall_drop.
Qed.

Definition tcp_wf (w : tcp) : Prop :=
  length (table w) = TCP_MAX_TCBS /\ is_u32 (tcp_iss_next w)
  /\ map_Forall (fun _ s => tcb_wf s) (tcbs w).

Lemma put_tcb_wf w id s : tcp_wf w -> tcb_wf s -> tcp_wf (put_tcb w id s).
Proof. intros (Ht & Hi & Hm) Hs. split_and!; [done|done|]. by apply map_Forall_insert_2. Qed.

Lemma get_tcb_wf w id s : tcp_wf w -> tcbs w !! id = Some s -> tcb_wf s.
Proof. intros (_ & _ & Hm) Hs. by apply (Hm id). Qed.

Lemma live_wf w id s : tcp_wf w -> (id, s) ∈ live w -> tcbs w !! id = Some s.
Proof.
  intros Hw. unfold live. rewrite list_elem_of_omap. intros (x & _ & Hx).
  case_if_in Hx; [done|]. destruct (tcbs w !! x) eqn:Ex; cbn in Hx; [|done].
  by injection Hx as -> ->.
Qed.

Lemma new_tcb_wf rq : tcb_wf (new_tcb rq).
Proof.
  pose proof Hlim as Hb. unfold TCP_MSS_DEFAULT in Hb. constructor; unfold new_tcb, rto_ok, TCP_MAX_RETRANSMITS, TCP_MSS_DEFAULT, TCP_INITIAL_CWND,
    TCP_INITIAL_SSTHRESH, TCP_LISTEN_BACKLOG, TCP_WSCALE_MAX; proj; try done; try lia;
    try (unfold is_u32; lia).
  - apply Forall_replicate. unfold pending_ok, TCP_WSCALE_MAX. cbn. lia.
Qed.

Lemma tcp_input_segment_wf w q id a b seg (e : E) :
  is_bytes seg -> tcp_wf w -> tcp_wf (tcp_input_segment w q id a b seg e).1.
Proof.
  intros Hb Hw. unfold tcp_input_segment. destruct (tcbs w !! id) as [s|] eqn:Es; [|done].
  pose proof (get_tcb_wf w id s Hw Es) as Hs.
  destruct (tcp_parse a b seg) as [| |g] eqn:Eg; [done|done|].
  pose proof (tcp_parse_ok a b seg g Hb Eg) as Hg.
  case_if; [case_if; done|]. case_if.
  - destruct (tcp_find_child _ _ _ _) as [[cid c]|] eqn:Ec; [|done].
    apply find_some in Ec as [Ec _]. apply list_elem_of_In, live_wf in Ec; [|done].
    set (q' := if upper_rq c =? 0 then q else _).
    pose proof (tcp_input_state_wf (tcp_tick_counter w) q' c a g e Hg (get_tcb_wf w cid c Hw Ec)).
    destruct (tcp_input_state _ _ _ _ _ _) as [c' e']. by apply put_tcb_wf.
  - pose proof (tcp_input_state_wf (tcp_tick_counter w) q s a g e Hg Hs).
    destruct (tcp_input_state _ _ _ _ _ _) as [s' e']. by apply put_tcb_wf.
Qed.

Lemma reject_pending_wf n now s (e : E) :
  Z.of_nat n <= pending_count s -> tcb_wf s -> tcb_wf (reject_pending n now s e).1.
Proof.
  revert s e. induction n as [|n IH]; intros s e Hn Hw; cbn [reject_pending]; [done|].
  set (p := nth _ _ _). clearbody p.
  set (s1 := (s <| remote_ip := p_remote_ip p |>) <| remote_port := p_remote_port p |>).
  assert (Hw1 : tcb_wf s1) by (subst s1; rewf Hw).
  assert (Hc1 : pending_count s1 = pending_count s /\ pending_head s1 = pending_head s)
    by (subst s1; by destruct s).
  clearbody s1. pose proof (send_segment_wf now s1 TCP_FLAG_RST [] e Hw1) as Hw2.
  assert (Hc2 : pending_count (tcp_send_segment now s1 TCP_FLAG_RST [] e).1.2 = pending_count s1).
  { unfold tcp_send_segment. case_if; [done|]. destruct (e_alloc _ e) as [[] e1]; [|done].
    cbn [negb]. match goal with |- context [e_send ?a ?b e1] => destruct (e_send a b e1) end.
    by destruct s1. }
  destruct (tcp_send_segment _ _ _ _ _) as [[rc s2] e2]. cbn [fst snd] in *.
  pose proof (wf_count s2 Hw2) as Hcount. unfold TCP_LISTEN_BACKLOG in *.
  assert (Hu : u8 (pending_count s2 - 1) = pending_count s2 - 1) by (apply u8_small; warith).
  apply IH; [destruct s2; proj; lia|].
  rewf Hw2; unfold TCP_LISTEN_BACKLOG in *; [|lia]. warith.
Qed.

Lemma alloc_iss_wf w : tcp_wf w -> is_u32 (alloc_iss w).1 /\ tcp_wf (alloc_iss w).2.
Proof. intros (Ht & Hi & Hm). split; [done|]. split_and!; [done|apply u32_range|done]. Qed.

(** A send from a well-formed TCB, stored back. *)
Lemma put_send_wf w w0 id s f (e : E) (rc : Z) : tcp_wf w -> tcb_wf s ->
  tcp_wf (let '(_, s', e') := tcp_send_segment (tcp_tick_counter w0) s f [] e in
          (rc, put_tcb w id s', e')).1.2.
Proof.
  intros Hw Hs. pose proof (send_segment_wf (tcp_tick_counter w0) s f [] e Hs).
  destruct (tcp_send_segment _ _ _ _ _) as [[r s'] e']. by apply put_tcb_wf.
Qed.

Lemma handle_bind_req_wf w rq id s port (e : E) :
  tcp_wf w -> tcb_wf s -> tcp_wf (handle_bind_req w rq id s port e).1.2.
Proof.
  intros Hw Hs. unfold handle_bind_req. case_if; [done|].
  destruct (port =? 0); cbn [alloc_ephemeral_port fst snd]; (apply put_tcb_wf; [done|rewf Hs]).
Qed.

Lemma handle_conn_req_wf w rq id s ip port (e : E) :
  tcp_wf w -> tcb_wf s -> tcp_wf (handle_conn_req w rq id s ip port e).1.2.
Proof.
  intros Hw Hs. unfold handle_conn_req. case_if; [done|].
  destruct (alloc_iss_wf w Hw) as [Hi Hw']. destruct (alloc_iss w) as [iss w'].
  apply put_send_wf; [done|rewf Hs].
Qed.

Lemma accept_into_wf w id cid s c (e : E) :
  tcp_wf w -> tcb_wf s -> tcb_wf c -> 0 < pending_count s ->
  tcp_wf (tcp_accept_into w id cid s c e).1.2.
Proof.
  intros Hw Hs Hc Hp. unfold tcp_accept_into. set (p := nth _ _ _).
  assert (Hpp : pending_ok p).
  { subst p. destruct (nth_in_or_default (Z.to_nat (pending_head s)) (pending_q s)
      (mk_pending 0 0 0 0 0 false)) as [Hin| ->]; [|unfold pending_ok, TCP_WSCALE_MAX; cbn; lia].
    apply list_elem_of_In in Hin. by apply (proj1 (Forall_forall _ _) (wf_pending s Hs)). }
  clearbody p. destruct Hpp as [Hpm Hpw].
  destruct (alloc_iss_wf w Hw) as [Hi Hw']. destruct (alloc_iss w) as [iss w'].
  assert (Hs' : tcb_wf (s <| pending_head := (pending_head s + 1) mod TCP_LISTEN_BACKLOG |>
                         <| pending_count := u8 (pending_count s - 1) |>)).
  { rewf Hs; unfold TCP_LISTEN_BACKLOG in *; [warith|]. rewrite u8_small by warith. lia. }
  set (s' := s <| pending_head := _ |> <| pending_count := _ |>) in *. clearbody s'.
  assert (Hc' : tcb_wf (accept_child e c (local_port s') iss p)).
  { unfold accept_child. set (c1 := tcp_negotiate_mss _ _ _).
    assert (Hc1 : tcb_wf c1).
    { apply negotiate_mss_wf; [done|]. rewf Hc; unfold TCP_INITIAL_SSTHRESH, TCP_INITIAL_CWND;
        try lia. unfold is_u32. lia. }
    clearbody c1. case_if; rewf Hc1. unfold TCP_WSCALE_MAX. lia. }
  set (c2 := accept_child _ _ _ _ _) in *. clearbody c2.
  match goal with |- context [tcp_send_segment ?a c2 ?f [] e] =>
    pose proof (send_segment_wf a c2 f [] e Hc'); destruct (tcp_send_segment a c2 f [] e) as [[rc c3] e3] end.
  cbn [fst snd]. by repeat apply put_tcb_wf.
Qed.

Lemma handle_data_req_wf w rq id s pl (e : E) : zlen (concat pl) < 2147483648 ->
  tcp_wf w -> tcb_wf s -> tcp_wf (handle_data_req w rq id s pl e).1.2.
Proof.
  intros Hpl Hw Hs. unfold handle_data_req. case_if; [done|]. case_if; [done|]. case_if; [done|].
  set (s1 := match snd_buf s with [] => _ | _ => _ end).
  assert (Hs1 : tcb_wf s1).
  { rewrite Z.gtb_ltb in E2. bool_prop. rewrite !buf_bytes_concat in *.
    pose proof (wf_buf s Hs) as Hb. unfold seg_bytes, TCP_SND_BUF_MAX in *.
    pose proof (zlen_nonneg (concat pl)). pose proof (zlen_nonneg (concat (snd_buf s))).
    rewrite (u32_small (zlen (concat pl))), (u32_small (zlen (concat (snd_buf s)))) in * by warith.
    rewrite u32_small in E2 by warith. subst s1. destruct (snd_buf s) as [|b l] eqn:Eb.
    - rewf Hs.
    - rewf Hs. unfold seg_bytes, TCP_SND_BUF_MAX in *. subst.
      rewrite concat_app, zlen_app. lia. }
  clearbody s1. pose proof (try_send_pending_wf (tcp_tick_counter w) s1 e Hs1).
  destruct (tcp_try_send_pending _ _ _) as [s2 e2]. by apply put_tcb_wf.
Qed.

Lemma handle_discon_req_wf w id s (e : E) :
  tcp_wf w -> tcb_wf s -> tcp_wf (handle_discon_req w id s e).1.2.
Proof.
  intros Hw Hs. unfold handle_discon_req.
  destruct (state s); try done; try (apply put_send_wf; [done|rewf Hs]).
  case_if; [|done]. pose proof (wf_count s Hs).
  pose proof (reject_pending_wf (Z.to_nat (pending_count s)) (tcp_tick_counter w) s e
    ltac:(lia) Hs) as Hr.
  destruct (reject_pending _ _ _ _) as [s1 e1]. cbn [fst snd] in *.
  apply put_tcb_wf; [done|rewf Hr].
Qed.

Lemma handle_ordrel_req_wf w rq id s (e : E) :
  tcp_wf w -> tcb_wf s -> tcp_wf (handle_ordrel_req w rq id s e).1.2.
Proof.
  intros Hw Hs. unfold handle_ordrel_req.
  case_if; [apply put_send_wf; auto with words|].
  case_if; [apply put_send_wf; auto with words|done].
Qed.

Lemma retransmit_wf ids : forall w (e : E), tcp_wf w -> tcp_wf (retransmit_sweep w ids e).1.
Proof.
  induction ids as [|id ids IH]; intros w e Hw; cbn [retransmit_sweep]; [done|].
  destruct (if id =? 0 then None else _) as [s|] eqn:Es; [|by apply IH].
  assert (Hs : tcb_wf s) by (case_if_in Es; [done|by apply (get_tcb_wf w id)]).
  pose proof (retransmit_one_wf (tcp_tick_counter w) s e Hs).
  destruct (tcp_retransmit_one _ _ _) as [s' e']. apply IH. by apply put_tcb_wf.
Qed.

Lemma tcp_wq_putp_wf w rq id fds mp cont (e : E) : zlen (concat cont) < 2147483648 ->
  tcp_wf w -> tcp_wf (tcp_wq_putp w rq id fds mp cont e).1.2.
Proof.
  intros Hl Hw. unfold tcp_wq_putp. destruct (tcbs w !! id) as [s|] eqn:Es; [|done].
  pose proof (get_tcb_wf w id s Hw Es) as Hs. case_if; [done|].
  case_if; [by apply handle_bind_req_wf|]. case_if; [by apply handle_conn_req_wf|].
  case_if; [by apply handle_data_req_wf|]. case_if.
  { unfold handle_listen_req. case_if; [done|]. apply put_tcb_wf; auto with words. }
  case_if.
  { unfold handle_conn_res. case_if; [done|]. destruct (fds _) as [cid|]; [|done].
    destruct (tcbs w !! cid) as [c|] eqn:Ec; [|done]. case_if; [done|].
    bool_prop. pose proof (wf_count s Hs).
    pose proof (accept_into_wf w id cid s c e Hw Hs (get_tcb_wf w cid c Hw Ec) ltac:(lia)).
    by destruct (tcp_accept_into _ _ _ _ _ _) as [[r w'] e']. }
  case_if; [by apply handle_ordrel_req_wf|]. case_if; [by apply handle_discon_req_wf|done].
Qed.

Lemma tcp_rq_putp_wf w q id mp cont (e : E) : Forall is_bytes cont ->
  tcp_wf w -> tcp_wf (tcp_rq_putp w q id mp cont e).1.
Proof.
  intros Hc Hw. unfold tcp_rq_putp. destruct (tcbs w !! id) as [s|] eqn:Es; [|done].
  pose proof (get_tcb_wf w id s Hw Es) as Hs. case_if; [done|]. case_if.
  { unfold handle_ip_ack. case_if; [apply put_tcb_wf; [done|rewf Hs]|].
    case_if; [apply put_tcb_wf; [done|rewf Hs]|done]. }
  destruct cont as [|body cont]; [done|]. case_if; [|done].
  apply tcp_input_segment_wf; [by apply Forall_inv in Hc|done].
Qed.

Lemma register_in_length l id : length (register_in l id) = length l.
Proof. induction l; cbn; [done|]. case_if; cbn; congruence. Qed.

Lemma unregister_in_length l id : length (unregister_in l id) = length l.
Proof. induction l; cbn; [done|]. case_if; cbn; congruence. Qed.

Lemma tcp_qclose_wf w rq id (e : E) : tcp_wf w -> tcp_wf (tcp_qclose w rq id e).1.
Proof.
  intros (Ht & Hi & Hm). unfold tcp_qclose. destruct (tcbs w !! id) as [s|]; [|done].
  match goal with |- context [let '(_, _) := ?x in _] => destruct x as [s' e'] end.
  split_and!; [by rewrite <- Ht; apply unregister_in_length|done|].
  by apply map_Forall_delete.
Qed.

Lemma tcp_step_wf x y : tcp_step x y -> tcp_wf x.1 -> tcp_wf y.1.
Proof.
  intros Hst Hw. inversion Hst; subst; clear Hst; cbn [fst] in *.
  - done.
  - unfold tcp_qopen. case_if; [done|]. cbn [snd].
    destruct (put_tcb_wf w id (new_tcb rq) Hw (new_tcb_wf rq)) as (Ht & Hi & Hm).
    split_and!; [by rewrite <- Ht; apply register_in_length|done|done].
  - by apply tcp_qclose_wf.
  - pose proof (tcp_wq_putp_wf w rq id fds mp cont e ltac:(done) Hw).
    by destruct (tcp_wq_putp _ _ _ _ _ _ _) as [[r w'] e'].
  - by apply tcp_rq_putp_wf.
  - pose proof (get_tcb_wf w id s Hw ltac:(done)) as Hs. unfold tcp_on_user_drain.
    case_if; [by apply put_tcb_wf|].
    pose proof (send_segment_wf (tcp_tick_counter w) s TCP_FLAG_ACK [] e Hs).
    destruct (tcp_send_segment _ _ _ _ _) as [[r s'] e']. by apply put_tcb_wf.
  - by apply retransmit_wf.
Qed.

(** The module at boot. *)
Definition tcp_boot : tcp := mk_tcp 0 74565 49152 (replicate 32 0) ∅ 0.

Lemma tcp_steps_wf (w : tcp) (e0 e : E) : rtc tcp_step (tcp_boot, e0) (w, e) -> tcp_wf w.
Proof.
  intros Hr. change (tcp_wf (w, e).1). revert Hr. generalize (w, e). intros y Hr.
  assert (Hb : tcp_wf (tcp_boot, e0).1).
  { split_and!; [done|unfold is_u32; cbn; lia|apply map_Forall_empty]. }
  revert Hb. induction Hr as [|x y z Hst Hr IH]; [done|]. intros Hx. apply IH.
  by apply (tcp_step_wf x y).
Qed.

End Preserve.
End Bounded.

Section Reachable.
Context {E : Type} `{TcpEnv E}.

Lemma local_mss_max (e : E) dst : tcp_local_mss e dst <= 65535.
Proof.
  unfold tcp_local_mss, TCP_MSS_DEFAULT. destruct (e_mtu e dst) as [mtu|]; [|lia].
  repeat case_if; rewrite ?Z.gtb_ltb in *; bool_prop; lia.
Qed.

(** C1: In every state reachable by any sequence of ticks, opens, closes, TPI
    requests, received segments (valid or garbage), user reads and timer runs,
    with any allocation and route behaviour below, every connection satisfies its
    invariant: the retransmission timeout is unset or between 1 s and 60 s, at
    most five retransmissions are counted, the segment size is at least 536, the
    slow start threshold is never below two segments, the SYN ring stays within
    its eight slots, the peer's window shift is at most 14, and the send buffer
    never holds more than 65535 bytes. *)
Theorem tcp_reachable_wf (w : tcp) (e0 e : E) :
  rtc tcp_step (tcp_boot, e0) (w, e) -> tcp_wf 65535 w.
Proof. apply tcp_steps_wf; [unfold TCP_MSS_DEFAULT; lia|apply local_mss_max]. Qed.

(** When no interface has packets of more than 1500 bytes, no connection ever has
    segments that do not fit [seg_data]. *)
Theorem tcp_segments_fit (w : tcp) (e0 e : E) :
  (forall e dst mtu, e_mtu e dst = Some mtu -> mtu <= 1500) ->
  rtc tcp_step (tcp_boot, e0) (w, e) -> tcp_wf (SEG_DATA - IP_HDR_LEN - TCP_HDR_LEN_MIN) w.
Proof.
  intros Hmtu. apply tcp_steps_wf; [by vm_compute|]. intros e1 dst. unfold tcp_local_mss.
  destruct (e_mtu e1 dst) as [mtu|] eqn:Em; [|by vm_compute]. apply Hmtu in Em.
  unfold IP_HDR_LEN, TCP_HDR_LEN_MIN, SEG_DATA. destruct (mtu <=? _) eqn:Ec; [by vm_compute|]. bool_prop.
  rewrite u32_small by warith. case_if; rewrite ?Z.gtb_ltb in *; bool_prop; lia.
Qed.

End Reachable.

Lemma tcp_reachable_wf_witness : tcp_wf 65535 (tcp_qopen tcp_boot 7 1000).2.
Proof.
  apply (tcp_reachable_wf (tcp_qopen tcp_boot 7 1000).2 wire0 wire0).
  apply rtc_once. by apply (step_open tcp_boot wire0 7 1000).
Defined.

End TcpInv.
