(* ===== verification/TcpSend.v ===== *)
(** * TCP: the send loop, the retransmission timer and the close states

    What [tcp_try_send_pending] puts on the wire and why it stops, the exponential
    back-off and the give-up of the retransmit thread, and the CLOSING state. *)

From stdpp Require Import base numbers list gmap.
From Stdlib Require Import ZArith Lia Bool.
From S2P Require Import Prelude Net Tcp TcpInv.

Module TcpSend.
Import Net Tcp TcpInv.

Section Send.
Context {E : Type} `{TcpEnv E}.

(** A run of the send loop that emits the segments [l] one after the other, each
    at the next sequence number and none longer than the segment size. *)
Inductive sends (now : Z) : tcb -> E -> list bytes -> tcb -> E -> Prop :=
| sends_nil s e : sends now s e [] s e
| sends_cons s e d rc e1 l s' e' :
    0 < zlen d <= mss s ->
    tcp_emit_segment s (snd_nxt s) (TCP_FLAG_ACK + TCP_FLAG_PSH) d e = (rc, e1) -> 0 <= rc ->
    sends now (after_send now s (zlen d)) e1 l s' e' ->
    sends now s e (d :: l) s' e'.

(** The part of a TCB the send loop only reads. *)
Definition same_buffer (s s' : tcb) : Prop :=
  snd_buf s' = snd_buf s /\ snd_buf_seq s' = snd_buf_seq s /\ snd_una s' = snd_una s
  /\ cwnd s' = cwnd s /\ snd_wnd s' = snd_wnd s /\ mss s' = mss s.

Lemma after_send_same now s n : same_buffer s (after_send now s n)
  /\ snd_nxt (after_send now s n) = u32 (snd_nxt s + n).
Proof.
  destruct s. unfold after_send, tcp_arm_rto, same_buffer. proj.
  repeat case_if; proj; split_and!; done.
Qed.

Lemma same_buffer_trans a b c : same_buffer a b -> same_buffer b c -> same_buffer a c.
Proof. unfold same_buffer. intros. destruct_and!. split_and!; congruence. Qed.

(** One round moves both offsets by the bytes sent. *)
Lemma offsets_step s s' n : same_buffer s s' -> snd_nxt s' = u32 (snd_nxt s + n) ->
  0 <= n -> sent_off s + n < 4294967296 -> inflight s + n < 4294967296 ->
  sent_off s' = sent_off s + n /\ inflight s' = inflight s + n.
Proof.
  intros (_ & Hb & Hu & _) Hn Hp Ho Hi. unfold sent_off, inflight in *. rewrite Hb, Hu, Hn.
  split; warith.
Qed.

Definition buf_ok (s : tcb) : Prop :=
  seg_bytes (snd_buf s) <= TCP_SND_BUF_MAX /\ 0 < mss s <= SEG_DATA /\ is_u32 (cwnd s).

(** The loop with enough fuel: what it sends and that it reached a stop. *)
Lemma try_send_loop_spec now fuel : forall s (e : E), buf_ok s ->
  seg_bytes (snd_buf s) - sent_off s < Z.of_nat fuel ->
  exists l e1 e2 s', try_send_loop fuel now s e = (s', e2) /\ sends now s e l s' e1
    /\ same_buffer s s' /\ send_stop s' e1
    /\ concat l = take (length (concat l)) (drop (Z.to_nat (sent_off s)) (concat (snd_buf s)))
    /\ snd_nxt s' = (if bool_decide (l = []) then snd_nxt s else u32 (snd_nxt s + zlen (concat l)))
    /\ (l <> [] -> inflight s' = inflight s + zlen (concat l)
                  /\ inflight s' <= cwnd s /\ inflight s' <= snd_wnd s).
Proof.
  induction fuel as [|fuel IH]; intros s e (Hb & Hm & Hc) Hf.
  - exists [], e, e, s. cbn [try_send_loop]. split_and!; try done; [constructor|].
    left. lia.
  - cbn [try_send_loop]. destruct (try_send_round_cases now s e Hb (proj1 Hm)) as
      [(e' & -> & Hs)|(n & rc & e' & Hn & Hnb & Hnc & Hnw & Hrc & He & ->)].
    { exists [], e, e', s. split_and!; try done; [constructor|]. apply Hs. lia. }
    rewrite seg_copy_fits in He by lia.
    destruct (after_send_same now s n) as [Hsame Hnxt].
    assert (Hi0 : 0 <= inflight s) by (unfold inflight; warith).
    assert (Hs0 : 0 <= sent_off s) by (unfold sent_off; warith).
    unfold TCP_SND_BUF_MAX in Hb. pose proof Hc as Hc'. unfold is_u32 in Hc'.
    destruct (offsets_step s _ n Hsame Hnxt) as [Hso Hif]; [lia|lia|lia|].
    set (d := take (Z.to_nat n) (drop (Z.to_nat (sent_off s)) (concat (snd_buf s)))) in *.
    assert (Hd : zlen d = n).
    { subst d. unfold seg_bytes, zlen in *. rewrite length_take, length_drop. lia. }
    pose proof Hsame as (Hsb & _ & _ & Hcw & Hwn & Hms).
    destruct (IH (after_send now s n) e') as (l & e1 & e2 & s' & -> & Hl & Hsm & Hst & Hcat & Hnx & Hw).
    { unfold buf_ok, TCP_SND_BUF_MAX. rewrite Hsb, Hms, Hcw. done. }
    { rewrite Hsb, Hso. lia. }
    exists (d :: l), e1, e2, s'. cbn [concat].
    assert (Hz : zlen (d ++ concat l) = n + zlen (concat l)) by (rewrite zlen_app; lia).
    split_and!; try done.
    + apply (sends_cons now s e d rc e'); [by rewrite Hd|done|done|by rewrite Hd].
    + by apply (same_buffer_trans s (after_send now s n)).
    + rewrite Hsb, Hso in Hcat. rewrite Hcat at 1. unfold d at 1.
      rewrite length_app. replace (length d) with (Z.to_nat n) by (unfold zlen in Hd; lia).
      replace (Z.to_nat (sent_off s + n)) with (Z.to_nat (sent_off s) + Z.to_nat n)%nat by lia.
      rewrite <- drop_drop, take_take_drop. done.
    + rewrite Hz. rewrite bool_decide_eq_false_2 by done. rewrite Hnx, Hnxt.
      case_bool_decide; [subst l; cbn; f_equal; rewrite zlen_nil; lia|].
      unfold u32. rewrite Zplus_mod_idemp_l. f_equal. lia.
    + intros _. rewrite Hz. destruct (decide (l = [])) as [->|Hne].
      * cbn. rewrite bool_decide_eq_true_2 in Hnx by done.
        assert (inflight s' = inflight (after_send now s n)) as ->
          by (destruct Hsm as (_ & _ & Hu & _); unfold inflight; by rewrite Hnx, Hu).
        rewrite zlen_nil. lia.
      * destruct (Hw Hne) as (Hw1 & Hw2 & Hw3). rewrite Hcw in Hw2. rewrite Hwn in Hw3. lia.
Qed.


(** ** The retransmission timer *)

(** The timer has expired at [now]. *)
Definition expired (now : Z) (s : tcb) : Prop :=
  rto_expires s <> 0 /\ 0 <= s32 (now - rto_expires s) /\ state s <> TCPS_TIME_WAIT.

(** Every expiry of the retransmission timer either doubles the timeout, up
    to 60 s, counts one retransmission and re-arms the timer from now, without
    moving any sequence number or dropping a byte; or, after the fifth, closes
    the connection, stops the timer and reports a timeout to the user. *)
Theorem tcp_retransmit_backoff (now : Z) (s : tcb) (e : E) :
  tcb_wf 65535 s -> expired now s ->
  let '(s', e') := tcp_retransmit_one now s e in
  if retransmit_count s <? TCP_MAX_RETRANSMITS
  then retransmit_count s' = retransmit_count s + 1
       /\ rto_ticks s' = Z.min (2 * rto_ticks s) TCP_RTO_MAX
       /\ rto_expires s' = u32 (now + rto_ticks s')
       /\ state s' = state s /\ snd_nxt s' = snd_nxt s /\ snd_una s' = snd_una s
       /\ rcv_nxt s' = rcv_nxt s /\ snd_buf s' = snd_buf s
  else state s' = TCPS_CLOSED /\ rto_expires s' = 0
       /\ e' = if upper_rq s =? 0 then e
               else reply_discon_ind (upper_rq s) TCP_DISCON_REASON_TIMEOUT e.
Proof.
  intros Hw (H0 & Hx & Hst). unfold tcp_retransmit_one.
  assert (is_st s TCPS_TIME_WAIT = false) as -> by (by apply bool_decide_eq_false).
  apply Z.eqb_neq in H0. rewrite H0. rewrite (proj2 (Z.ltb_ge _ 0)) by done.
  pose proof (wf_rtx _ s Hw) as Hr. pose proof (wf_rto _ s Hw) as Ht.
  rewrite Z.geb_leb. destruct (TCP_MAX_RETRANSMITS <=? retransmit_count s) eqn:Em; bool_prop.
  - rewrite (proj2 (Z.ltb_ge _ _)) by done. destruct s. proj. done.
  - rewrite (proj2 (Z.ltb_lt _ _)) by done.
    cbv zeta. match goal with |- context [if ?c then tcp_emit_segment ?s1 ?a ?f ?d e else ?r] =>
      destruct (if c then tcp_emit_segment s1 a f d e else r) as [rc e1] end.
    unfold TCP_MAX_RETRANSMITS, rto_ok, TCP_RTO_MIN, TCP_RTO_MAX in *.
    assert (Hc : u8 (retransmit_count s + 1) = retransmit_count s + 1) by (apply u8_small; warith).
    assert (Hd : u32 (Z.shiftl (rto_ticks s) 1) = 2 * rto_ticks s).
    { rewrite Z.shiftl_mul_pow2 by lia. change (2 ^ 1) with 2. rewrite u32_small; warith. }
    unfold tcp_cwnd_on_rto. destruct (retransmit_count s =? 0); destruct s; proj; rewrite Hd, Hc, !Z.gtb_ltb;
      (split_and!; try done); try (case_if; bool_prop; lia).
Qed.

(** ** The CLOSING state *)

(** A connection in CLOSING stays there whatever segment arrives: neither
    the acknowledgement of its FIN nor a reset changes its state, sends anything
    or informs the user.  The code that would move it to TIME_WAIT is in a branch
    the switch never reaches in this state. *)
Theorem tcp_closing_ignores_segments (now q : Z) (s : tcb) (src_ip : Z) (g : segment) (e : E) :
  state s = TCPS_CLOSING ->
  exists w, tcp_input_state now q s src_ip g e = (s <| snd_wnd := w |>, e).
Proof.
  intros Hs. destruct s. cbn in Hs. subst. eexists. reflexivity.
Qed.

End Send.

(** ** Witnesses *)

(** A connection with five buffered bytes, a peer window of three and the given
    state and timer. *)
Definition demo (x : tcp_state) (expires ticks : Z) : tcb :=
  mk_tcb x 23 false 167772674 40000 1000 1000 0 5000 0
    (replicate 8 (mk_pending 0 0 0 0 0 false)) 0 0 expires ticks 0 0 0 false 0 0
    [[104; 101]; [108; 108; 111]] 1000 7 3 0 false 0 1072 65535 536 false 0.

Lemma demo_wf lim x expires ticks : TCP_MSS_DEFAULT <= lim <= 65535 -> rto_ok ticks ->
  tcb_wf lim (demo x expires ticks).
Proof.
  intros Hl Ht. destruct (new_tcb_wf lim Hl 7). unfold new_tcb in *. proj.
  constructor; proj; try assumption; vm_compute; try split; congruence.
Qed.

Definition demo_tcb : tcb := demo TCPS_ESTABLISHED 0 0.
Definition demo_late : tcb := demo TCPS_ESTABLISHED 150 100.


Lemma tcp_retransmit_backoff_witness :
  let '(s', e') := tcp_retransmit_one 200 demo_late wire0 in
  if retransmit_count demo_late <? TCP_MAX_RETRANSMITS
  then retransmit_count s' = retransmit_count demo_late + 1
       /\ rto_ticks s' = Z.min (2 * rto_ticks demo_late) TCP_RTO_MAX
       /\ rto_expires s' = u32 (200 + rto_ticks s')
       /\ state s' = state demo_late /\ snd_nxt s' = snd_nxt demo_late
       /\ snd_una s' = snd_una demo_late
       /\ rcv_nxt s' = rcv_nxt demo_late /\ snd_buf s' = snd_buf demo_late
  else state s' = TCPS_CLOSED /\ rto_expires s' = 0
       /\ e' = if upper_rq demo_late =? 0 then wire0
               else reply_discon_ind (upper_rq demo_late) TCP_DISCON_REASON_TIMEOUT wire0.
Proof.
  apply (tcp_retransmit_backoff 200 demo_late wire0).
  { apply demo_wf; [by vm_compute|]. right. vm_compute. split; congruence. }
  split; [vm_compute; congruence|]. split; [vm_compute; congruence|]. by vm_compute.
Defined.

Lemma tcp_closing_ignores_segments_witness :
  exists w, tcp_input_state 0 7 (demo TCPS_CLOSING 0 0) 167772674
              (mk_seg 40000 23 5000 1000 20 TCP_FLAG_ACK 512 [] []) wire0
            = ((demo TCPS_CLOSING 0 0) <| snd_wnd := w |>, wire0).
Proof.
  apply (tcp_closing_ignores_segments 0 7 (demo TCPS_CLOSING 0 0) 167772674
           (mk_seg 40000 23 5000 1000 20 TCP_FLAG_ACK 512 [] []) wire0). reflexivity.
Defined.

End TcpSend.
