(* ===== verification/TcpWire.v ===== *)
(** * TCP on the wire: segment format, options and the three-way handshake

    A segment built by the send path is parsed back field by field by the input
    path, and an active open against a listener ends with both sides established
    and in agreement. *)

From stdpp Require Import base numbers list gmap.
From Stdlib Require Import ZArith Lia Bool.
From S2P Require Import Prelude Net Tcp TcpInv.

Module TcpWire.
Import Net Tcp TcpInv.

(** ** Options *)

Lemma mss_bytes m : is_u16 m ->
  u16 (Z.lor (u16 (Z.shiftl (Z.land (Z.shiftr m 8) 255) 8)) (Z.land m 255)) = m.
Proof.
  intros Hm. change 255 with (Z.ones 8). rewrite !Z.land_ones, Z.shiftr_div_pow2 by lia.
  rewrite (u16_small (Z.shiftl _ 8))
    by (rewrite Z.shiftl_mul_pow2 by lia; change (2 ^ 8) with 256; warith).
  rewrite lor_shiftl_add by (change (2 ^ 8) with 256; warith).
  change (2 ^ 8) with 256. rewrite u16_small; warith.
Qed.

Lemma syn_opts_parse m ws : is_u16 m ->
  tcp_parse_syn_options (syn_opts m ws) = mk_opts m 0 ws.
Proof.
  intros Hm. unfold tcp_parse_syn_options, syn_opts.
  transitivity (mk_opts (u16 (Z.lor (u16 (Z.shiftl (Z.land (Z.shiftr m 8) 255) 8))
    (Z.land m 255))) 0 ws); [by destruct ws|by rewrite mss_bytes].
Qed.

(** ** Segment format *)

Section Format.
Context {E : Type} `{TcpEnv E}.

Lemma tcp_opts_length (e : E) s f :
  zlen (tcp_opts e s f) = 0 \/ zlen (tcp_opts e s f) = 4 \/ zlen (tcp_opts e s f) = 8.
Proof.
  unfold tcp_opts, syn_opts. destruct (has f TCP_FLAG_SYN); [|by left].
  destruct (ws_active s); [by right; right|by right; left].
Qed.

Lemma local_mss_range (e : E) d : is_u16 (tcp_local_mss e d).
Proof.
  unfold tcp_local_mss, TCP_MSS_DEFAULT. destruct (e_mtu e d) as [mtu|]; [|warith].
  case_if; [warith|]. rewrite Z.gtb_ltb. pose proof (u32_range (mtu - IP_HDR_LEN - TCP_HDR_LEN_MIN)).
  set (x := u32 _) in *. clearbody x. case_if; bool_prop; warith.
Qed.

Lemma rcv_window_range (e : E) s : is_u16 (tcp_rcv_window e s).
Proof. unfold tcp_rcv_window. case_if; [warith|]. apply u16_range. Qed.

Section Header.
Variables (sp dp sq ak off fl wn cs : Z) (rest : bytes).
Hypotheses (Hsp : is_u16 sp) (Hdp : is_u16 dp) (Hsq : is_u32 sq) (Hak : is_u32 ak)
  (Hwn : is_u16 wn) (Hcs : is_u16 cs).
#[local] Notation seg := (tcp_header sp dp sq ak off fl wn cs ++ rest).

Lemma th_sport : htons16 (ld16 seg 0) = sp.
Proof.
  change seg with ([] ++ st16 (htons16 sp) ++ drop 2 seg).
  rewrite (ld16_st16 _ []) by apply htons16_range. by apply htons16_involutive.
Qed.

Lemma th_dport : htons16 (ld16 seg 2) = dp.
Proof.
  change seg with (st16 (htons16 sp) ++ st16 (htons16 dp) ++ drop 4 seg).
  rewrite (ld16_st16 _ (st16 (htons16 sp))) by apply htons16_range. by apply htons16_involutive.
Qed.

Lemma th_seq : htonl32 (ld32 seg 4) = sq.
Proof.
  change seg with ((st16 (htons16 sp) ++ st16 (htons16 dp)) ++ st32 (htonl32 sq) ++ drop 8 seg).
  rewrite (ld32_st32 _ (st16 (htons16 sp) ++ st16 (htons16 dp))) by apply htonl32_range.
  by apply htonl32_involutive.
Qed.

Lemma th_ack : htonl32 (ld32 seg 8) = ak.
Proof.
  change seg with ((st16 (htons16 sp) ++ st16 (htons16 dp) ++ st32 (htonl32 sq))
    ++ st32 (htonl32 ak) ++ drop 12 seg).
  rewrite (ld32_st32 _ (st16 (htons16 sp) ++ st16 (htons16 dp) ++ st32 (htonl32 sq)))
    by apply htonl32_range. by apply htonl32_involutive.
Qed.

Lemma th_wnd : htons16 (ld16 seg 14) = wn.
Proof.
  change seg with (take 14 seg ++ st16 (htons16 wn) ++ drop 16 seg).
  change 14%nat with (length (take 14 seg)) at 3.
  rewrite ld16_st16 by apply htons16_range. by apply htons16_involutive.
Qed.

Lemma th_cs : ld16 seg 16 = cs.
Proof.
  change seg with (take 16 seg ++ st16 cs ++ drop 18 seg).
  change 16%nat with (length (take 16 seg)) at 3. by rewrite ld16_st16.
Qed.

Lemma th_clear : poke seg 16 (st16 0) = tcp_header sp dp sq ak off fl wn 0 ++ rest.
Proof. reflexivity. Qed.

End Header.

Lemma tcp_segment_parse (e : E) (s : tcb) (src_ip seq flags : Z) (body : bytes) :
  is_u16 (local_port s) -> is_u16 (remote_port s) -> is_u32 seq -> is_u32 (rcv_nxt s) ->
  tcp_parse src_ip (remote_ip s) (tcp_segment e s src_ip seq flags body)
  = P_ok (mk_seg (local_port s) (remote_port s) seq (rcv_nxt s)
            (TCP_HDR_LEN_MIN + zlen (tcp_opts e s flags)) flags (tcp_rcv_window e s)
            (tcp_opts e s flags) body).
Proof.
  intros Hl Hr Hs Hn. unfold tcp_segment, tcp_parse.
  pose proof (tcp_opts_length e s flags) as Ho. pose proof (rcv_window_range e s) as Hw.
  set (o := tcp_opts e s flags) in *. set (wn := tcp_rcv_window e s) in *. clearbody o wn.
  set (off := u8 _). set (cs := htons16 (tcp_checksum _ _ _)).
  assert (Hcs : is_u16 cs) by apply htons16_range.
  set (seg := tcp_header _ _ _ _ _ _ _ cs ++ o ++ body).
  assert (Hoff : Z.shiftr off 4 * 4 = 20 + zlen o).
  { subst off. destruct Ho as [-> |[-> | ->]]; reflexivity. }
  assert (Hz : zlen seg = 20 + zlen o + zlen body).
  { subst seg. rewrite !zlen_app. change (zlen (tcp_header _ _ _ _ _ _ _ _)) with 20. lia. }
  change (byte_at seg 12) with off. change (byte_at seg 13) with flags. rewrite Hoff, Hz.
  pose proof (zlen_nonneg o). pose proof (zlen_nonneg body). unfold TCP_HDR_LEN_MIN.
  rewrite (proj2 (Z.ltb_ge _ 20)), Z.gtb_ltb, !(proj2 (Z.ltb_ge _ _)) by lia. cbn [orb].
  assert (Hck : tcp_checksum src_ip (remote_ip s) (poke seg 16 (st16 0)) =? htons16 (ld16 seg 16)
                = true).
  { apply Z.eqb_eq. subst seg. rewrite th_clear, th_cs by done. subst cs.
    rewrite htons16_involutive; [done|]. apply u16_range. }
  rewrite Hck, andb_false_r. subst seg. rewrite th_sport, th_dport, th_seq, th_ack, th_wnd by done.
  do 2 f_equal.
  - change (drop 20 _) with (o ++ body). rewrite take_app_length'; [done|]. unfold zlen. lia.
  - replace (Z.to_nat (20 + zlen o)) with (20 + length o)%nat by (unfold zlen; lia).
    rewrite <- drop_drop. change (drop 20 _) with (o ++ body). by rewrite drop_app_length.
Qed.

(** The same with the fields of the TCB named. *)
Lemma segment_parse_as (e : E) s src_ip seq flags sp dp rip ak wn o hl :
  local_port s = sp -> remote_port s = dp -> remote_ip s = rip -> rcv_nxt s = ak ->
  tcp_rcv_window e s = wn -> tcp_opts e s flags = o -> 20 + zlen o = hl ->
  is_u16 sp -> is_u16 dp -> is_u32 seq -> is_u32 ak ->
  tcp_parse src_ip rip (tcp_segment e s src_ip seq flags [])
  = P_ok (mk_seg sp dp seq ak hl flags wn o []).
Proof. intros <- <- <- <- <- <- <- ????. by apply tcp_segment_parse. Qed.

(** Every segment the send path builds is accepted by the input path of the
    peer (length, header length and checksum tests) and parsed back to exactly
    the ports, sequence and acknowledgement numbers, flags, window, options and
    payload it was built from. *)
Theorem tcp_segment_roundtrip (e : E) (s : tcb) (src_ip seq flags : Z) (body : bytes) :
  is_u16 (local_port s) -> is_u16 (remote_port s) -> is_u32 seq -> is_u32 (rcv_nxt s) ->
  tcp_parse src_ip (remote_ip s) (tcp_segment e s src_ip seq flags body)
  = P_ok (mk_seg (local_port s) (remote_port s) seq (rcv_nxt s)
            (TCP_HDR_LEN_MIN + zlen (tcp_opts e s flags)) flags (tcp_rcv_window e s)
            (tcp_opts e s flags) body).
Proof. apply tcp_segment_parse. Qed.

End Format.
(** ** The three-way handshake *)

(** The TCB after a control segment without payload was handed to IP. *)
Definition after_ctl (now : Z) (s : tcb) (f : Z) : tcb :=
  let s := if has f TCP_FLAG_SYN then s <| snd_nxt := u32 (snd_nxt s + 1) |> else s in
  let s := if has f TCP_FLAG_FIN then s <| snd_nxt := u32 (snd_nxt s + 1) |> else s in
  let s := s <| snd_nxt := u32 (snd_nxt s + 0) |> in
  if has f (TCP_FLAG_SYN + TCP_FLAG_FIN) then tcp_arm_rto now s f else s.

Definition wire_out (e : wire) (x : Z * bytes) : wire := e <| w_sent := w_sent e ++ [x] |>.
Definition wire_upto (e : wire) (x : Z * tpi) : wire := e <| w_up := w_up e ++ [x] |>.

Lemma wire_alloc (e : wire) n : w_mem e = [] -> n <= 2048 -> e_alloc n e = (true, e).
Proof.
  intros Hm Hn. destruct e. cbn in *. subst. unfold scripted_allocb.
  rewrite Z.gtb_ltb, (proj2 (Z.ltb_ge _ _)) by done. reflexivity.
Qed.

Lemma wire_send now s f (e : wire) : w_mem e = [] -> w_addr e <> 0 ->
  tcp_send_segment now s f [] e =
  (0, after_ctl now s f,
   wire_out e (remote_ip s, tcp_segment e s (w_addr e) (snd_nxt s) f [])).
Proof.
  intros Hm Ha. unfold tcp_send_segment. change (e_src e (remote_ip s)) with (w_addr e).
  rewrite (proj2 (Z.eqb_neq _ _) Ha).
  assert (Hl : IP_HDR_LEN + TCP_HDR_LEN_MIN + zlen (tcp_opts e s f) + zlen (@nil Z) <= 2048).
  { unfold IP_HDR_LEN, TCP_HDR_LEN_MIN. rewrite zlen_nil.
    destruct (tcp_opts_length e s f) as [-> |[-> | ->]]; lia. }
  rewrite (wire_alloc e _ Hm Hl). cbn [negb]. change (zlen (@nil Z)) with 0.
  cbn [Z.gtb Z.compare]. rewrite orb_false_r. unfold after_ctl, wire_out.
  cbv zeta. change (e_send ?d ?g e) with (0, e <| w_sent := w_sent e ++ [(d, g)] |>).
  replace (remote_ip (if has f (TCP_FLAG_SYN + TCP_FLAG_FIN) then _ else _)) with (remote_ip s);
    [done|]. unfold tcp_arm_rto. destruct s. repeat case_if; reflexivity.
Qed.

Lemma wire_reply n rq t (e : wire) : w_mem e = [] -> n <= 2048 ->
  reply n rq t e = wire_upto e (rq, t).
Proof. intros Hm Hn. unfold reply. by rewrite wire_alloc. Qed.

(** A host with one address, one interface MTU and memory to spare. *)
Definition host (addr mtu : Z) : wire := mk_wire [] [] [] [] addr mtu false.

(** A fresh TCB, bound and listening on a port. *)
Definition tcb_at (x : tcp_state) (port rq : Z) : tcb :=
  (new_tcb rq) <| state := x |> <| local_port := port |>.

(** A SYN with options reaches a listener with an empty ring. *)
Lemma listen_step now q s src sp dp sq ak wn m (e : wire) : w_mem e = [] -> is_u16 m ->
  state s = TCPS_LISTEN -> pending_count s = 0 -> pending_head s = 0 ->
  tcp_input_state now q s src (mk_seg sp dp sq ak 28 TCP_FLAG_SYN wn (syn_opts m true) []) e
  = (s <| pending_q := <[0%nat := mk_pending src sp m sq 0 true]> (pending_q s) |>
       <| pending_count := 1 |>, wire_upto e (q, T_CONN_IND src sp)).
Proof.
  intros Hm Hu Hs Hc Hh. unfold tcp_input_state, is_st. rewrite Hs. cbn [bool_decide].
  rewrite bool_decide_eq_true_2 by done. rewrite Hs. unfold tcp_listen. cbn [g_flags].
  change (has TCP_FLAG_SYN TCP_FLAG_SYN) with true. rewrite Hc, Hh.
  change (0 >=? TCP_LISTEN_BACKLOG) with false.
  change (seg_opts _) with (tcp_parse_syn_options (syn_opts m true)).
  rewrite syn_opts_parse by done. unfold reply_conn_ind. rewrite wire_reply by (done || lia).
  destruct s. cbn in Hc. subst. proj. reflexivity.
Qed.

(** What both ends make of two advertised segment sizes. *)
Definition nego (local peer : Z) : Z :=
  let eff := if negb (peer =? 0) && (peer <? local) then peer else local in
  if eff <? TCP_MSS_DEFAULT then TCP_MSS_DEFAULT else eff.

Lemma nego_sym a b : 0 < a -> 0 < b -> nego a b = nego b a.
Proof.
  intros Ha Hb. unfold nego, TCP_MSS_DEFAULT.
  rewrite !(proj2 (Z.eqb_neq _ 0)) by lia. cbn [negb andb].
  repeat case_inner; bool_prop; lia.
Qed.

Lemma local_mss_pos addr mtu d : 0 <= mtu < 4294967296 -> 0 < tcp_local_mss (host addr mtu) d.
Proof.
  intros Hm. unfold tcp_local_mss, TCP_MSS_DEFAULT. cbn [e_mtu wire_env host w_mtu].
  unfold IP_HDR_LEN, TCP_HDR_LEN_MIN. case_if; bool_prop; [lia|].
  rewrite u32_small by warith. rewrite Z.gtb_ltb. case_if; bool_prop; lia.
Qed.

(** The TCB a SYN-ACK establishes. *)
Definition est_tcb (now : Z) (s : tcb) (e : wire) (sq ak m : Z) : tcb :=
  (tcp_negotiate_mss e (tcp_cancel_rto (tcp_sample_rtt now s)) m)
    <| snd_wnd_shift := 0 |> <| rcv_irs := sq |> <| rcv_nxt := u32 (sq + 1) |>
    <| snd_una := ak |> <| state := TCPS_ESTABLISHED |>.

Lemma est_tcb_fields now s e sq ak m :
  let s' := est_tcb now s e sq ak m in
  local_port s' = local_port s /\ remote_ip s' = remote_ip s /\ remote_port s' = remote_port s
  /\ snd_nxt s' = snd_nxt s /\ snd_una s' = ak /\ rcv_nxt s' = u32 (sq + 1)
  /\ state s' = TCPS_ESTABLISHED /\ ws_active s' = ws_active s
  /\ mss s' = nego (tcp_local_mss e (remote_ip s)) m /\ upper_rq s' = upper_rq s.
Proof.
  unfold est_tcb, tcp_negotiate_mss, nego, tcp_cancel_rto, tcp_sample_rtt, tcp_update_rtt.
  destruct s. proj. destruct (retransmit_count0 =? 0); [destruct rtt_valid0|];
    split_and!; reflexivity.
Qed.

(** A SYN-ACK with options completes an active open. *)
Lemma syn_sent_step now q s src sp dp sq ak wn m (e : wire) :
  w_mem e = [] -> w_addr e <> 0 -> is_u16 m ->
  state s = TCPS_SYN_SENT -> snd_nxt s = ak -> remote_ip s = src -> remote_port s = sp ->
  let g := mk_seg sp dp sq ak 28 (TCP_FLAG_SYN + TCP_FLAG_ACK) wn (syn_opts m true) [] in
  let s' := est_tcb now (s <| snd_wnd := wn |>) e sq ak m in
  tcp_input_state now q s src g e
  = (after_ctl now s' TCP_FLAG_ACK,
     wire_upto (wire_out e (src, tcp_segment e s' (w_addr e) ak TCP_FLAG_ACK []))
       (q, T_CONN_CON src sp)).
Proof.
  intros Hm Ha Hu Hs Hn Hip Hp g s'. unfold tcp_input_state.
  assert (is_st s TCPS_LISTEN = false) as -> by (apply bool_decide_eq_false; congruence).
  change (has (g_flags g) TCP_FLAG_SYN) with true. cbv iota zeta. change (g_wnd g) with wn.
  assert (state (s <| snd_wnd := wn |>) = TCPS_SYN_SENT) as -> by by destruct s.
  set (s0 := s <| snd_wnd := wn |>) in *.
  assert (H0 : snd_nxt s0 = ak /\ remote_ip s0 = src /\ remote_port s0 = sp)
    by (subst s0; by destruct s).
  clearbody s0. destruct H0 as (Hn0 & Hip0 & Hp0). unfold tcp_syn_sent.
  change (Z.land (g_flags g) (TCP_FLAG_SYN + TCP_FLAG_ACK) =? TCP_FLAG_SYN + TCP_FLAG_ACK) with true.
  change (g_ack g) with ak. change (g_sport g) with sp.
  rewrite Hn0, Hip0, Hp0, !Z.eqb_refl. cbn [andb]. cbv zeta.
  change (seg_opts g) with (tcp_parse_syn_options (syn_opts m true)).
  rewrite syn_opts_parse by done. cbn [o_mss o_wscale o_has_wscale]. change (g_seq g) with sq.
  fold (est_tcb now s0 e sq ak m). fold s'.
  pose proof (est_tcb_fields now s0 e sq ak m) as Hf. cbv zeta in Hf. fold s' in Hf.
  destruct Hf as (_ & Hr & _ & Hx & _). rewrite wire_send by done.
  rewrite Hr, Hx, Hn0, Hip0. unfold reply_conn_con. rewrite wire_reply; [done| |lia].
  by destruct e.
Qed.

(** The ACK of our SYN-ACK completes a passive open. *)
Lemma syn_received_step now q s src sp dp sq ak wn (e : wire) :
  w_mem e = [] -> state s = TCPS_SYN_RECEIVED -> snd_nxt s = ak -> remote_ip s = src ->
  remote_port s = sp ->
  exists s', tcp_input_state now q s src (mk_seg sp dp sq ak 20 TCP_FLAG_ACK wn [] []) e
             = (s', wire_upto e (q, T_CONN_CON src sp))
    /\ state s' = TCPS_ESTABLISHED /\ snd_una s' = ak /\ snd_nxt s' = ak
    /\ rcv_nxt s' = rcv_nxt s /\ mss s' = mss s /\ ws_active s' = ws_active s.
Proof.
  intros Hm Hs Hn Hip Hp. unfold tcp_input_state.
  assert (is_st s TCPS_LISTEN = false) as -> by (apply bool_decide_eq_false; congruence).
  cbn [g_flags g_wnd]. change (has TCP_FLAG_ACK TCP_FLAG_SYN) with false. cbv iota zeta.
  set (w := u32 _). clearbody w.
  assert (state (s <| snd_wnd := w |>) = TCPS_SYN_RECEIVED) as -> by by destruct s.
  unfold tcp_syn_received. cbn [g_flags g_ack g_sport].
  assert (Hc : (g_ack (mk_seg sp dp sq ak 20 TCP_FLAG_ACK wn [] []) =? snd_nxt (s <| snd_wnd := w |>))
    && (src =? remote_ip (s <| snd_wnd := w |>)) && (sp =? remote_port (s <| snd_wnd := w |>)) = true).
  { cbn [g_ack]. destruct s. proj. subst. by rewrite !Z.eqb_refl. }
  change (has TCP_FLAG_ACK TCP_FLAG_ACK) with true. rewrite andb_true_l.
  cbn [g_ack] in Hc. rewrite Hc. eexists.
  split; [unfold reply_conn_con; rewrite wire_reply by (done || lia); reflexivity|].
  unfold tcp_cancel_rto, tcp_sample_rtt, tcp_update_rtt. destruct s. proj. subst.
  destruct (retransmit_count0 =? 0); [destruct rtt_valid0|]; split_and!; reflexivity.
Qed.

(** A segment for a listener goes to the child with the same endpoints. *)
Lemma input_child (w : tcp) (q id : Z) (s : tcb) (src_ip dst_ip : Z) (seg : bytes) (e : wire)
  (g : segment) (cid : Z) (c : tcb) :
  tcbs w !! id = Some s -> tcp_parse src_ip dst_ip seg = P_ok g -> local_port s = g_dport g ->
  state s = TCPS_LISTEN -> has (g_flags g) TCP_FLAG_SYN = false ->
  tcp_find_child w (g_dport g) src_ip (g_sport g) = Some (cid, c) -> upper_rq c <> 0 ->
  tcp_input_segment w q id src_ip dst_ip seg e
  = let '(c, e) := tcp_input_state (tcp_tick_counter w) (upper_rq c) c src_ip g e in
    (put_tcb w cid c, e).
Proof.
  intros Hs Hp Hl Hst Hf Hc Hu. unfold tcp_input_segment. rewrite Hs, Hp, Hl, Z.eqb_refl, Hf.
  unfold is_st. rewrite Hst, bool_decide_true by done. cbn [negb andb].
  rewrite Hc, (proj2 (Z.eqb_neq _ _) Hu). done.
Qed.

(** With one listener and one child registered, the child is found. *)
Lemma find_child_second (w : tcp) (s1 s2 : tcb) (n : nat) (lport rip rport : Z) :
  table w = 1 :: 2 :: replicate n 0 -> tcbs w !! 1 = Some s1 -> tcbs w !! 2 = Some s2 ->
  state s1 = TCPS_LISTEN -> state s2 = TCPS_SYN_RECEIVED ->
  local_port s2 = lport -> remote_ip s2 = rip -> remote_port s2 = rport ->
  tcp_find_child w lport rip rport = Some (2, s2).
Proof.
  intros Ht H1 H2 E1 E2 <- <- <-. unfold tcp_find_child.
  assert (live w = [(1, s1); (2, s2)]) as ->.
  { unfold live. rewrite Ht. cbn [omap list_omap Z.eqb]. rewrite H1, H2.
    assert (Hz : omap (fun id => if id =? 0 then None else s ← tcbs w !! id; Some (id, s)) (replicate n 0) = [])
      by (clear; induction n as [|n IH]; [done|exact IH]).
    cbn. by rewrite Hz. }
  cbn [List.find snd]. unfold child_match, is_st. rewrite E1, E2, !Z.eqb_refl. done.
Qed.

Section Handshake.
Variables (pc ps ipc ips issc isss tc ts mc ms : Z).
Hypotheses (Hpc : is_u16 pc) (Hps : is_u16 ps) (Hipc : ipc <> 0) (Hips : ips <> 0)
  (Hissc : is_u32 issc) (Hisss : is_u32 isss).

(** The client has one bound TCB, the server a listener and a fresh TCB. *)
Definition client0 : tcp :=
  mk_tcp tc issc 49152 (1 :: replicate 31 0) {[1 := tcb_at TCPS_BOUND pc 11]} 0.
Definition server0 : tcp :=
  mk_tcp ts isss 49152 (1 :: 2 :: replicate 30 0)
    {[1 := tcb_at TCPS_LISTEN ps 21; 2 := new_tcb 22]} 0.

(** The client's TCB after the SYN. *)
Definition syn_tcb : tcb :=
  (tcb_at TCPS_BOUND pc 11) <| remote_ip := ips |> <| remote_port := ps |>
    <| snd_iss := issc |> <| snd_una := issc |> <| snd_nxt := issc |>
    <| state := TCPS_SYN_SENT |> <| ws_active := true |>.
Definition syn_seg : bytes :=
  tcp_segment (host ipc mc) syn_tcb ipc issc TCP_FLAG_SYN [].
Definition client1 : tcp :=
  put_tcb (alloc_iss client0).2 1 (after_ctl tc syn_tcb TCP_FLAG_SYN).

Lemma handshake_syn :
  handle_conn_req client0 11 1 (tcb_at TCPS_BOUND pc 11) ips ps (host ipc mc)
  = (0, client1, wire_out (host ipc mc) (ips, syn_seg)).
Proof.
  unfold handle_conn_req. change (negb (is_st _ TCPS_BOUND)) with false.
  change (alloc_iss client0) with (issc, (alloc_iss client0).2).
  cbv beta iota zeta. change (tcp_tick_counter (alloc_iss client0).2) with tc.
  fold syn_tcb. by rewrite wire_send.
Qed.

Lemma syn_seg_parse : tcp_parse ipc ips syn_seg
  = P_ok (mk_seg pc ps issc 0 28 TCP_FLAG_SYN 65535
            (syn_opts (tcp_local_mss (host ipc mc) ips) true) []).
Proof.
  apply (segment_parse_as (host ipc mc) syn_tcb ipc issc TCP_FLAG_SYN); try done; reflexivity.
Qed.

(** The listener's TCB with the SYN queued. *)
Definition queued_syn : pending_syn :=
  mk_pending ipc pc (tcp_local_mss (host ipc mc) ips) issc 0 true.
Definition listen_tcb : tcb :=
  (tcb_at TCPS_LISTEN ps 21)
    <| pending_q := <[0%nat := queued_syn]> (pending_q (tcb_at TCPS_LISTEN ps 21)) |>
    <| pending_count := 1 |>.
Definition server1 : tcp := put_tcb server0 1 listen_tcb.
Definition server_e1 : wire := wire_upto (host ips ms) (21, T_CONN_IND ipc pc).

Lemma server0_listener : tcbs server0 !! 1 = Some (tcb_at TCPS_LISTEN ps 21).
Proof. unfold server0. cbn [tcbs]. by rewrite lookup_insert_eq. Qed.

Lemma handshake_listen :
  tcp_input_segment server0 21 1 ipc ips syn_seg (host ips ms) = (server1, server_e1).
Proof.
  unfold tcp_input_segment. rewrite server0_listener, syn_seg_parse. cbn [g_dport g_flags].
  change (local_port (tcb_at _ ps _)) with ps. rewrite Z.eqb_refl. cbn [negb].
  change (is_st (tcb_at TCPS_LISTEN ps 21) TCPS_LISTEN && negb (has TCP_FLAG_SYN TCP_FLAG_SYN))
    with false.
  rewrite listen_step by (apply local_mss_range || done). reflexivity.
Qed.

(** The accept: the child adopts the queued SYN and answers it. *)
Definition child_tcb : tcb := accept_child server_e1 (new_tcb 22) ps isss queued_syn.
Definition synack_seg : bytes :=
  tcp_segment server_e1 child_tcb ips isss (TCP_FLAG_SYN + TCP_FLAG_ACK) [].
Definition child1 : tcb := after_ctl ts child_tcb (TCP_FLAG_SYN + TCP_FLAG_ACK).
Definition listen_idle : tcb :=
  listen_tcb <| pending_head := (pending_head listen_tcb + 1) mod TCP_LISTEN_BACKLOG |>
    <| pending_count := u8 (pending_count listen_tcb - 1) |>.
Definition server2 : tcp := put_tcb (put_tcb (alloc_iss server1).2 1 listen_idle) 2 child1.
Definition server_e2 : wire := wire_out server_e1 (ipc, synack_seg).

Lemma child_fields : local_port child_tcb = ps /\ remote_ip child_tcb = ipc
  /\ remote_port child_tcb = pc /\ snd_nxt child_tcb = isss
  /\ rcv_nxt child_tcb = u32 (issc + 1) /\ state child_tcb = TCPS_SYN_RECEIVED
  /\ ws_active child_tcb = true /\ upper_rq child_tcb = 22
  /\ mss child_tcb = nego (tcp_local_mss (host ips ms) ipc) (tcp_local_mss (host ipc mc) ips).
Proof.
  unfold child_tcb, accept_child, queued_syn, new_tcb, tcp_negotiate_mss. proj.
  split_and!; reflexivity.
Qed.

Lemma child1_fields : local_port child1 = ps /\ remote_ip child1 = ipc
  /\ remote_port child1 = pc /\ snd_nxt child1 = u32 (isss + 1)
  /\ rcv_nxt child1 = u32 (issc + 1) /\ state child1 = TCPS_SYN_RECEIVED
  /\ ws_active child1 = true /\ upper_rq child1 = 22
  /\ mss child1 = nego (tcp_local_mss (host ips ms) ipc) (tcp_local_mss (host ipc mc) ips).
Proof.
  pose proof child_fields as Hf. unfold child1, after_ctl, tcp_arm_rto.
  change (has (TCP_FLAG_SYN + TCP_FLAG_ACK) TCP_FLAG_SYN) with true.
  change (has (TCP_FLAG_SYN + TCP_FLAG_ACK) TCP_FLAG_FIN) with false.
  change (has (TCP_FLAG_SYN + TCP_FLAG_ACK) (TCP_FLAG_SYN + TCP_FLAG_FIN)) with true. cbv iota zeta.
  generalize dependent child_tcb. intros c Hf. destruct c. proj. destruct_and!. subst.
  case_if; split_and!; try done; warith.
Qed.

Lemma handshake_accept :
  tcp_accept_into server1 1 2 listen_tcb (new_tcb 22) server_e1 = (0, server2, server_e2).
Proof.
  unfold tcp_accept_into.
  change (nth (Z.to_nat (pending_head listen_tcb)) (pending_q listen_tcb) _) with queued_syn.
  change (alloc_iss server1) with (isss, (alloc_iss server1).2). cbv beta iota zeta.
  fold listen_idle. change (local_port listen_idle) with ps. fold child_tcb.
  change (tcp_tick_counter (alloc_iss server1).2) with ts.
  rewrite wire_send by done. destruct child_fields as (_ & Hr & _ & Hn & _).
  rewrite Hr, Hn. reflexivity.
Qed.

Lemma synack_parse : tcp_parse ips ipc synack_seg
  = P_ok (mk_seg ps pc isss (u32 (issc + 1)) 28 (TCP_FLAG_SYN + TCP_FLAG_ACK) 65535
            (syn_opts (tcp_local_mss (host ips ms) ipc) true) []).
Proof.
  destruct child_fields as (Hl & Hr & Hp & _ & Hn & _ & Hw & Hq & _).
  apply segment_parse_as; first [done | apply u32_range
    | unfold tcp_opts; by rewrite Hw, Hr | unfold tcp_rcv_window; by rewrite Hq].
Qed.

(** The client's TCB when the SYN-ACK arrives. *)
Definition client_e1 : wire := wire_out (host ipc mc) (ips, syn_seg).
Definition sent_tcb : tcb := after_ctl tc syn_tcb TCP_FLAG_SYN.
Definition client_est : tcb :=
  est_tcb tc (sent_tcb <| snd_wnd := 65535 |>) client_e1 isss (u32 (issc + 1))
    (tcp_local_mss (host ips ms) ipc).
Definition ack_seg : bytes :=
  tcp_segment client_e1 client_est ipc (u32 (issc + 1)) TCP_FLAG_ACK [].
Definition client2 : tcp := put_tcb client1 1 (after_ctl tc client_est TCP_FLAG_ACK).
Definition client_e2 : wire :=
  wire_upto (wire_out client_e1 (ips, ack_seg)) (11, T_CONN_CON ips ps).

Lemma sent_fields : state sent_tcb = TCPS_SYN_SENT /\ snd_nxt sent_tcb = u32 (issc + 1)
  /\ remote_ip sent_tcb = ips /\ remote_port sent_tcb = ps /\ local_port sent_tcb = pc
  /\ ws_active sent_tcb = true /\ upper_rq sent_tcb = 11.
Proof.
  unfold sent_tcb, after_ctl, syn_tcb, tcp_arm_rto, tcb_at, new_tcb.
  change (has TCP_FLAG_SYN TCP_FLAG_SYN) with true. change (has TCP_FLAG_SYN TCP_FLAG_FIN) with false.
  change (has TCP_FLAG_SYN (TCP_FLAG_SYN + TCP_FLAG_FIN)) with true. proj.
  change (0 =? 0) with true. split_and!; try reflexivity. cbv iota. warith.
Qed.

Lemma handshake_synack :
  tcp_input_segment client1 11 1 ips ipc synack_seg client_e1 = (client2, client_e2).
Proof.
  destruct sent_fields as (Hs & Hn & Hi & Hp & Hl & _).
  unfold tcp_input_segment. unfold client1 at 1, put_tcb at 1. cbn [tcbs update].
  rewrite lookup_insert_eq. fold sent_tcb. rewrite synack_parse. cbn [g_dport g_flags].
  rewrite Hl, Z.eqb_refl. cbn [negb].
  assert (is_st sent_tcb TCPS_LISTEN = false) as -> by (apply bool_decide_eq_false; congruence).
  cbn [andb]. change (tcp_tick_counter client1) with tc.
  rewrite (syn_sent_step tc 11 sent_tcb ips ps pc isss (u32 (issc + 1)) 65535
    (tcp_local_mss (host ips ms) ipc) client_e1) by first [done | apply local_mss_range].
  reflexivity.
Qed.

Lemma client_est_fields : local_port client_est = pc /\ remote_ip client_est = ips
  /\ remote_port client_est = ps /\ snd_nxt client_est = u32 (issc + 1)
  /\ snd_una client_est = u32 (issc + 1) /\ rcv_nxt client_est = u32 (isss + 1)
  /\ state client_est = TCPS_ESTABLISHED /\ ws_active client_est = true
  /\ mss client_est = nego (tcp_local_mss (host ipc mc) ips) (tcp_local_mss (host ips ms) ipc)
  /\ upper_rq client_est = 11.
Proof.
  destruct sent_fields as (Hs & Hn & Hi & Hp & Hl & Hw & Hq).
  pose proof (est_tcb_fields tc (sent_tcb <| snd_wnd := 65535 |>) client_e1 isss (u32 (issc + 1))
    (tcp_local_mss (host ips ms) ipc)) as Hf. cbv zeta in Hf. fold client_est in Hf.
  generalize dependent client_est. intros c Hf. generalize dependent sent_tcb. intros s. intros.
  destruct s. proj. subst. exact Hf.
Qed.

Lemma ack_parse : tcp_parse ipc ips ack_seg
  = P_ok (mk_seg pc ps (u32 (issc + 1)) (u32 (isss + 1)) 20 TCP_FLAG_ACK 65535 [] []).
Proof.
  destruct client_est_fields as (Hl & Hr & Hp & _ & _ & Hn & _ & _ & _ & Hq).
  apply segment_parse_as; first [done | apply u32_range | unfold tcp_rcv_window; by rewrite Hq].
Qed.

Lemma server2_listener : tcbs server2 !! 1 = Some listen_idle.
Proof.
  unfold server2, put_tcb. proj. rewrite lookup_insert_ne by done. by rewrite lookup_insert_eq.
Qed.
Lemma server2_child : tcbs server2 !! 2 = Some child1.
Proof. unfold server2, put_tcb. proj. by rewrite lookup_insert_eq. Qed.

(** The listener hands the ACK to the child with the matching endpoints. *)
Lemma server2_find : tcp_find_child server2 ps ipc pc = Some (2, child1).
Proof.
  destruct child1_fields as (Hl & Hr & Hp & _ & _ & Hs & _).
  apply (find_child_second server2 listen_idle child1 30);
    [reflexivity|exact server2_listener|exact server2_child|reflexivity|assumption..].
Qed.

Lemma handshake_ack : exists k,
  tcp_input_segment server2 21 1 ipc ips ack_seg server_e2
  = (put_tcb server2 2 k, wire_upto server_e2 (22, T_CONN_CON ipc pc))
  /\ state k = TCPS_ESTABLISHED /\ snd_una k = u32 (isss + 1) /\ snd_nxt k = u32 (isss + 1)
  /\ rcv_nxt k = u32 (issc + 1) /\ ws_active k = true
  /\ mss k = nego (tcp_local_mss (host ips ms) ipc) (tcp_local_mss (host ipc mc) ips).
Proof.
  destruct child1_fields as (Hl & Hr & Hp & Hn & Hrn & Hs & Hw & Hq & Hm).
  destruct (syn_received_step ts 22 child1 ipc pc ps (u32 (issc + 1)) (u32 (isss + 1)) 65535
    server_e2) as (k & Hk & Hks & Hku & Hkn & Hkr & Hkm & Hkw); try done.
  exists k. split; [|split_and!; congruence].
  rewrite (input_child server2 21 1 listen_idle ipc ips ack_seg server_e2 _ 2 child1 server2_listener ack_parse);
    [|reflexivity|reflexivity|reflexivity|exact server2_find|by rewrite Hq].
  rewrite Hq. change (tcp_tick_counter server2) with ts. by rewrite Hk.
Qed.

End Handshake.

(** C15: The three-way handshake.  A client that connects to a listening port
    sends a SYN; the listener queues it and tells its user; accepting it sends a
    SYN-ACK; the client's answer makes it established; the listener hands that
    answer to the accepted connection.  In the end both connections are
    established, each side's next sequence number is what the other expects,
    nothing is unacknowledged, both use the same segment size and window scaling,
    and both users were told.  This holds for all ports, addresses, initial
    sequence numbers, clocks and MTUs. *)
Theorem tcp_handshake (pc ps ipc ips issc isss tc ts mc ms : Z) :
  is_u16 pc -> is_u16 ps -> ipc <> 0 -> ips <> 0 -> is_u32 issc -> is_u32 isss ->
  is_u32 mc -> is_u32 ms ->
  exists syn synack ack client1 client2 server1 server2 server3 ec1 ec2 es1 es2 es3 l c k,
    handle_conn_req (client0 pc issc tc) 11 1 (tcb_at TCPS_BOUND pc 11) ips ps (host ipc mc)
      = (0, client1, ec1) /\ w_sent ec1 = [(ips, syn)]
    /\ tcp_input_segment (server0 ps isss ts) 21 1 ipc ips syn (host ips ms) = (server1, es1)
    /\ w_up es1 = [(21, T_CONN_IND ipc pc)] /\ tcbs server1 !! 1 = Some l
    /\ tcp_accept_into server1 1 2 l (new_tcb 22) es1 = (0, server2, es2)
    /\ w_sent es2 = [(ipc, synack)]
    /\ tcp_input_segment client1 11 1 ips ipc synack ec1 = (client2, ec2)
    /\ w_sent ec2 = [(ips, syn); (ips, ack)] /\ w_up ec2 = [(11, T_CONN_CON ips ps)]
    /\ tcp_input_segment server2 21 1 ipc ips ack es2 = (server3, es3)
    /\ w_up es3 = [(21, T_CONN_IND ipc pc); (22, T_CONN_CON ipc pc)]
    /\ tcbs client2 !! 1 = Some c /\ tcbs server3 !! 2 = Some k
    /\ state c = TCPS_ESTABLISHED /\ state k = TCPS_ESTABLISHED
    /\ snd_nxt c = rcv_nxt k /\ snd_nxt k = rcv_nxt c
    /\ snd_una c = snd_nxt c /\ snd_una k = snd_nxt k
    /\ mss c = mss k /\ ws_active c = true /\ ws_active k = true.
Proof.
  intros Hpc Hps Hipc Hips Hissc Hisss Hmc Hms.
  destruct (handshake_ack pc ps ipc ips issc isss tc ts mc ms) as
    (k & Hk & Hks & Hku & Hkn & Hkr & Hkw & Hkm); try done.
  destruct (client_est_fields pc ps ipc ips issc isss tc mc ms) as
    (_ & _ & _ & Hn & Hu & Hr & Hs & Hw & Hm & _); try done.
  do 13 eexists. exists (listen_tcb pc ps ipc ips issc mc). do 2 eexists.
  split; [by apply handshake_syn|]. split; [reflexivity|].
  split; [by apply handshake_listen|]. split; [reflexivity|].
  split; [by apply lookup_insert_eq|].
  split; [by apply handshake_accept|]. split; [reflexivity|].
  split; [by apply handshake_synack|]. split; [reflexivity|]. split; [reflexivity|].
  split; [exact Hk|]. split; [reflexivity|].
  split; [by apply lookup_insert_eq|]. split; [by apply lookup_insert_eq|].
  assert (Hc : let c := after_ctl tc (client_est pc ps ipc ips issc isss tc mc ms) TCP_FLAG_ACK in
    state c = TCPS_ESTABLISHED /\ snd_nxt c = u32 (issc + 1) /\ snd_una c = u32 (issc + 1)
    /\ rcv_nxt c = u32 (isss + 1) /\ ws_active c = true
    /\ mss c = nego (tcp_local_mss (host ipc mc) ips) (tcp_local_mss (host ips ms) ipc)).
  { unfold after_ctl. change (has TCP_FLAG_ACK _) with false. cbv iota zeta.
    generalize dependent (client_est pc ps ipc ips issc isss tc mc ms). intros c. intros.
    destruct c. proj. subst. split_and!; try done. warith. }
  cbv zeta in Hc. destruct Hc as (Hs' & Hn' & Hu' & Hr' & Hw' & Hm').
  split_and!; try congruence.
  rewrite Hm', Hkm. apply nego_sym; by apply local_mss_pos.
Qed.

Lemma tcp_handshake_witness :
  exists syn synack ack client1 client2 server1 server2 server3 ec1 ec2 es1 es2 es3 l c k,
    handle_conn_req (client0 40000 74565 100) 11 1 (tcb_at TCPS_BOUND 40000 11) 167772674 23 (host 167772687 1500)
      = (0, client1, ec1) /\ w_sent ec1 = [(167772674, syn)]
    /\ tcp_input_segment (server0 23 4294967295 4294967290) 21 1 167772687 167772674 syn (host 167772674 296) = (server1, es1)
    /\ w_up es1 = [(21, T_CONN_IND 167772687 40000)] /\ tcbs server1 !! 1 = Some l
    /\ tcp_accept_into server1 1 2 l (new_tcb 22) es1 = (0, server2, es2)
    /\ w_sent es2 = [(167772687, synack)]
    /\ tcp_input_segment client1 11 1 167772674 167772687 synack ec1 = (client2, ec2)
    /\ w_sent ec2 = [(167772674, syn); (167772674, ack)] /\ w_up ec2 = [(11, T_CONN_CON 167772674 23)]
    /\ tcp_input_segment server2 21 1 167772687 167772674 ack es2 = (server3, es3)
    /\ w_up es3 = [(21, T_CONN_IND 167772687 40000); (22, T_CONN_CON 167772687 40000)]
    /\ tcbs client2 !! 1 = Some c /\ tcbs server3 !! 2 = Some k
    /\ state c = TCPS_ESTABLISHED /\ state k = TCPS_ESTABLISHED
    /\ snd_nxt c = rcv_nxt k /\ snd_nxt k = rcv_nxt c
    /\ snd_una c = snd_nxt c /\ snd_una k = snd_nxt k
    /\ mss c = mss k /\ ws_active c = true /\ ws_active k = true.
Proof.
  apply (tcp_handshake 40000 23 167772687 167772674 74565 4294967295 100 4294967290 1500 296);
    vm_compute; try split; congruence.
Defined.

Lemma tcp_segment_roundtrip_witness :
  tcp_parse 167772687 0 (tcp_segment wire0 (tcb_at TCPS_LISTEN 23 21) 167772687 7 TCP_FLAG_ACK [1; 2; 3])
  = P_ok (mk_seg 23 0 7 0
            (TCP_HDR_LEN_MIN + zlen (tcp_opts wire0 (tcb_at TCPS_LISTEN 23 21) TCP_FLAG_ACK))
            TCP_FLAG_ACK (tcp_rcv_window wire0 (tcb_at TCPS_LISTEN 23 21))
            (tcp_opts wire0 (tcb_at TCPS_LISTEN 23 21) TCP_FLAG_ACK) [1; 2; 3]).
Proof.
  apply (tcp_segment_roundtrip wire0 (tcb_at TCPS_LISTEN 23 21) 167772687 7 TCP_FLAG_ACK [1; 2; 3]);
    vm_compute; split; congruence.
Defined.

End TcpWire.
