(* ===== verification/TcpRecv.v ===== *)
(** * TCP: what reaches the reader

    The bytes delivered to the user are always a prefix of the peer's stream,
    whatever the network repeats, reorders or drops, as long as messages can be
    allocated; without the four-byte header of a T_DATA_IND acknowledged bytes are
    lost. *)

From stdpp Require Import base numbers list gmap.
From Stdlib Require Import ZArith Lia Bool.
From S2P Require Import Prelude Net Tcp TcpInv TcpSend TcpWire.

Module TcpRecv.
Import Net Tcp TcpInv TcpSend TcpWire.

(** The data indications sent up from queue [q]. *)
Definition ind_data (q : Z) (x : Z * tpi) : bytes :=
  match x.2 with
  | T_DATA_IND d => if x.1 =? q then d else []
  | _ => []
  end.
Definition delivered (q : Z) (e : wire) : bytes := concat (map (ind_data q) (w_up e)).

(** Nothing went up, memory is still available and no buffer was overrun. *)
Definition quiet (e e' : wire) : Prop :=
  w_up e' = w_up e /\ w_mem e' = [] /\ w_overrun e' = w_overrun e.

(** The receive side of a TCB is untouched. *)
Definition same_rcv (s s' : tcb) : Prop :=
  rcv_nxt s' = rcv_nxt s /\ remote_ip s' = remote_ip s /\ remote_port s' = remote_port s
  /\ state s' = state s /\ mss s' = mss s.

Lemma same_rcv_refl s : same_rcv s s.
Proof. done. Qed.
Lemma same_rcv_trans a b c : same_rcv a b -> same_rcv b c -> same_rcv a c.
Proof. unfold same_rcv. intros. destruct_and!. split_and!; congruence. Qed.
Lemma quiet_trans a b c : quiet a b -> quiet b c -> quiet a c.
Proof. unfold quiet. intros. destruct_and!. split_and!; congruence. Qed.

Lemma wire_emit s sq f d (e : wire) : w_mem e = [] -> quiet e (tcp_emit_segment s sq f d e).2.
Proof.
  intros Hm. unfold tcp_emit_segment. case_if; [done|].
  cbn [e_alloc wire_env]. rewrite Hm. unfold scripted_allocb. case_if; [done|].
  cbn [scripted_next negb]. done.
Qed.

Lemma arm_rto_same now s f : same_rcv s (tcp_arm_rto now s f).
Proof. destruct s. unfold tcp_arm_rto. case_if; done. Qed.
Lemma sample_rtt_same now s : same_rcv s (tcp_sample_rtt now s).
Proof.
  destruct s. unfold tcp_sample_rtt, tcp_update_rtt. case_if; [|done].
  proj. by destruct rtt_valid0.
Qed.

Lemma after_send_rcv now s n : same_rcv s (after_send now s n).
Proof.
  unfold after_send. case_if; [|by destruct s].
  eapply same_rcv_trans; [|apply arm_rto_same]. by destruct s.
Qed.

(** The bytes gathered for a segment are no more than were asked for. *)
Lemma gather_length l skip want : 0 <= skip -> zlen (gather l skip want) <= Z.max 0 want.
Proof. intros Hs. rewrite gather_spec by done. unfold zlen. rewrite length_take. lia. Qed.

Lemma try_send_round_quiet now s (e : wire) : mss s <= SEG_DATA -> w_mem e = [] ->
  same_rcv s (try_send_round now s e).1.2 /\ quiet e (try_send_round now s e).2.
Proof.
  intros Hfit Hm. unfold try_send_round. destruct (snd_buf s) as [|b l]; [done|].
  case_if; [done|]. cbv zeta. match goal with |- context [if ?r =? 0 then _ else _] =>
    destruct (r =? 0) end; [done|].
  match goal with |- context [gather _ ?k ?n] =>
    assert (Hlen : zlen (gather (b :: l) k n) <= SEG_DATA) end.
  { etransitivity; [apply gather_length; warith|]. apply Z.max_lub; [by vm_compute|].
    rewrite Z.gtb_ltb. case_if; bool_prop; lia. }
  rewrite seg_copy_fits by done.
  match goal with |- context [tcp_emit_segment s ?q ?f ?d e] =>
    pose proof (wire_emit s q f d e Hm); destruct (tcp_emit_segment s q f d e) as [rc e1];
    generalize (zlen d) end.
  intros n. case_if; [done|]. split; [|done]. apply (after_send_rcv now s n).
Qed.

Lemma try_send_quiet now s (e : wire) : mss s <= SEG_DATA -> w_mem e = [] ->
  same_rcv s (tcp_try_send_pending now s e).1 /\ quiet e (tcp_try_send_pending now s e).2.
Proof.
  intros Hfit Hm. unfold tcp_try_send_pending. case_if; [done|]. case_if; [done|].
  assert (Hl : forall n s e, mss s <= SEG_DATA -> w_mem e = [] ->
    same_rcv s (try_send_loop n now s e).1 /\ quiet e (try_send_loop n now s e).2).
  { induction n as [|n IH]; intros s1 e1 Hf1 H1; cbn [try_send_loop]; [done|].
    destruct (try_send_round_quiet now s1 e1 Hf1 H1) as [Hs Hq].
    destruct (try_send_round now s1 e1) as [[go s2] e2]. cbn [fst snd] in *.
    case_if; [|done]. destruct (IH s2 e2) as [Hs2 Hq2]; [destruct Hs as (_ & _ & _ & _ & ->); done|apply Hq|].
    split; [by apply (same_rcv_trans s1 s2)|by apply (quiet_trans e1 e2)]. }
  destruct (Hl (S (Z.to_nat (buf_bytes (snd_buf s)))) (s <| in_send := true |>) e) as [Hs Hq];
    [by destruct s|done|].
  destruct (try_send_loop _ _ _ _) as [s' e']. cbn [fst snd] in *. split; [|done].
  eapply same_rcv_trans; [|eapply same_rcv_trans; [exact Hs|]]; [by destruct s|by destruct s'].
Qed.

Lemma send_quiet now s f (e : wire) : w_mem e = [] ->
  same_rcv s (tcp_send_segment now s f [] e).1.2 /\ quiet e (tcp_send_segment now s f [] e).2.
Proof.
  intros Hm. destruct (decide (w_addr e = 0)) as [Ha|Ha].
  - unfold tcp_send_segment. change (e_src e (remote_ip s)) with (w_addr e). by rewrite Ha.
  - rewrite wire_send by done. cbn [fst snd]. split; [|done]. unfold after_ctl.
    destruct (has f TCP_FLAG_SYN), (has f TCP_FLAG_FIN), (has f (TCP_FLAG_SYN + TCP_FLAG_FIN));
      try (eapply same_rcv_trans; [|apply arm_rto_same]); by destruct s.
Qed.

(** The states after the handshake. *)
Definition sync (s : tcb) : Prop :=
  match state s with
  | TCPS_BOUND | TCPS_LISTEN | TCPS_SYN_SENT | TCPS_SYN_RECEIVED => False
  | _ => True
  end.

(** Receive side untouched, still synchronised. *)
Definition rcv_ok (s s' : tcb) : Prop :=
  rcv_nxt s' = rcv_nxt s /\ remote_ip s' = remote_ip s /\ remote_port s' = remote_port s
  /\ (sync s -> sync s') /\ mss s' = mss s.

Lemma rcv_ok_trans a b c : rcv_ok a b -> rcv_ok b c -> rcv_ok a c.
Proof. unfold rcv_ok. intros. destruct_and!. split_and!; [congruence..|tauto|congruence]. Qed.
Lemma same_rcv_ok s s' : same_rcv s s' -> rcv_ok s s'.
Proof. intros (? & ? & ? & Hs & ?). split_and!; try done. unfold sync. by rewrite Hs. Qed.

Lemma ack_trim_same now s n : same_rcv s (ack_trim now s n).
Proof.
  unfold ack_trim. destruct (snd_buf s) as [|b l] eqn:Eb; [done|]. rewrite <- Eb. case_if.
  - set (s1 := s <| snd_buf := [] |> <| snd_buf_seq := 0 |>).
    assert (H1 : same_rcv s s1) by (subst s1; by destruct s). clearbody s1.
    eapply same_rcv_trans; [exact H1|]. eapply same_rcv_trans; [apply (sample_rtt_same now)|].
    by destruct (tcp_sample_rtt now s1).
  - destruct (trim _ _ _) as [l' sq]. case_if; by destruct s.
Qed.

Lemma ack_new_quiet now s a (e : wire) : mss s <= SEG_DATA -> w_mem e = [] ->
  same_rcv s (ack_new now s a e).1 /\ quiet e (ack_new now s a e).2.
Proof.
  intros Hfit Hm. unfold ack_new. set (n := u32 _). clearbody n. cbv zeta.
  match goal with |- context [tcp_try_send_pending now (ack_trim now ?x n) e] => set (s1 := x) end.
  assert (H1 : same_rcv s s1).
  { subst s1. unfold tcp_cwnd_on_ack. destruct s. proj. repeat case_if; done. }
  clearbody s1. pose proof (ack_trim_same now s1 n) as H2.
  destruct (try_send_quiet now (ack_trim now s1 n) e) as [Hs Hq];
    [destruct H1 as (_ & _ & _ & _ & E1), H2 as (_ & _ & _ & _ & ->); by rewrite E1|done|].
  split; [|done]. eapply same_rcv_trans; [exact H1|].
  eapply same_rcv_trans; [apply ack_trim_same|exact Hs].
Qed.

Lemma ack_dup_quiet now s (e : wire) : mss s <= SEG_DATA -> w_mem e = [] ->
  same_rcv s (ack_dup now s e).1 /\ quiet e (ack_dup now s e).2.
Proof.
  intros Hfit Hm. unfold ack_dup. cbv zeta. case_if; [|case_if].
  - match goal with |- context [tcp_emit_segment ?s ?q ?f ?d e] =>
      pose proof (wire_emit s q f d e Hm); destruct (tcp_emit_segment s q f d e) as [rc e1] end.
    split; [by destruct s|done].
  - match goal with |- context [tcp_try_send_pending now ?x e] =>
      destruct (try_send_quiet now x e) as [Hs Hq]; [by destruct s|done|] end.
    split; [|done]. eapply same_rcv_trans; [|exact Hs]. by destruct s.
  - split; [by destruct s|done].
Qed.

Lemma ack_state_ok now s : rcv_ok s (ack_state now s).
Proof.
  unfold ack_state. pose proof (sample_rtt_same now s) as (H1 & H2 & H3 & H4 & H5).
  generalize dependent (tcp_sample_rtt now s). intros s' H1 H2 H3 H4 H5.
  destruct s, s'. unfold rcv_ok, sync, tcp_cancel_rto, tcp_enter_time_wait in *. proj. subst.
  repeat case_if; split_and!; done.
Qed.

Lemma tcp_ack_quiet now s a f n (e : wire) : mss s <= SEG_DATA -> w_mem e = [] ->
  rcv_ok s (tcp_ack now s a f n e).1 /\ quiet e (tcp_ack now s a f n e).2.
Proof.
  intros Hfit Hm. unfold tcp_ack.
  destruct (ack_new_quiet now s a e Hfit Hm) as [Hn1 Hn2]. destruct (ack_dup_quiet now s e Hfit Hm) as [Hd1 Hd2].
  case_if; [|case_if].
  - destruct (ack_new now s a e) as [s1 e1]. split; [|done].
    eapply rcv_ok_trans; [apply same_rcv_ok, Hn1|apply ack_state_ok].
  - destruct (ack_dup now s e) as [s1 e1]. split; [|done].
    eapply rcv_ok_trans; [apply same_rcv_ok, Hd1|apply ack_state_ok].
  - split; [apply ack_state_ok|done].
Qed.

(** ** The receiver against a peer's stream *)

Section Stream.
Variables (irs q : Z) (stream : bytes).
Hypothesis Hlen : zlen stream < 4294967290.

(** [g] carries the bytes of the stream its sequence number says, and a FIN only
    after the last one. *)
Definition seg_of (g : segment) : Prop :=
  exists off, (off + length (g_data g) <= length stream)%nat
  /\ g_seq g = u32 (irs + 1 + Z.of_nat off)
  /\ g_data g = take (length (g_data g)) (drop off stream)
  /\ (has (g_flags g) TCP_FLAG_FIN = true -> (off + length (g_data g))%nat = length stream).

(** [k] bytes were delivered, and the FIN consumed if [fin]. *)
Definition received (k : nat) (fin : bool) (s : tcb) (e : wire) : Prop :=
  (sync s /\ mss s <= SEG_DATA /\ w_mem e = [] /\ w_overrun e = false)
  /\ (k <= length stream)%nat /\ delivered q e = take k stream
  /\ rcv_nxt s = u32 (irs + 1 + Z.of_nat k + b2z fin) /\ (fin = true -> k = length stream).

Lemma received_step k fin s e s' e' : received k fin s e -> rcv_ok s s' -> quiet e e' ->
  received k fin s' e'.
Proof.
  intros ((Hs & Hfit & Hm & Ho) & Hk & Hd & Hn & Hf) (Hr & _ & _ & Hy & Hms) (Hu & Hm' & Ho').
  split_and!; try done; [by apply Hy|by rewrite Hms|congruence| |congruence]. unfold delivered in *. by rewrite Hu.
Qed.

Lemma tcp_data_received now k fin s g (e : wire) : seg_of g -> received k fin s e ->
  exists k', let r := tcp_data now q s (g_seq g) (g_data g) e in
    received k' fin r.1 r.2 /\ remote_ip r.1 = remote_ip s /\ remote_port r.1 = remote_port s.
Proof.
  intros (off & Ho & Hsq & Hda & _) Hrec. unfold tcp_data. case_if; [|by exists k].
  bool_prop. destruct Hrec as ((Hs & Hfit & Hm & Hov) & Hk & Hd & Hn & Hf).
  assert (Hoff : fin = false /\ off = k).
  { unfold zlen in *. destruct fin; cbn [b2z] in Hn.
    - specialize (Hf eq_refl). exfalso. rewrite Hsq, Hn in *. warith.
    - split; [done|]. rewrite Hsq, Hn in *. warith. }
  destruct Hoff as [-> ->].
  assert (Hmem : e_alloc (zlen (g_data g)) e = (true, e)
                 \/ e_alloc (zlen (g_data g)) e = (false, e)).
  { destruct e. cbn in *. subst. unfold scripted_allocb. case_if; [by right|by left]. }
  destruct Hmem as [-> | ->]; [|by exists k].
  set (s1 := s <| rcv_nxt := _ |>). set (e1 := reply_data_ind q (g_data g) e).
  assert (He1 : w_mem e1 = [] /\ w_up e1 = w_up e ++ [(q, T_DATA_IND (g_data g))]
    /\ w_overrun e1 = w_overrun e).
  { subst e1. unfold reply_data_ind. rewrite wire_reply by (done || lia). by destruct e. }
  destruct He1 as (Hm1 & Hu1 & Ho1). destruct (send_quiet now s1 TCP_FLAG_ACK e1 Hm1) as [Hr (Hu2 & Hm2 & Ho2)].
  destruct (tcp_send_segment now s1 TCP_FLAG_ACK [] e1) as [[rc s2] e2]. cbn [fst snd] in *.
  exists (k + length (g_data g))%nat. destruct Hr as (Hr1 & Hr2 & Hr3 & Hr4 & Hr5).
  assert (Hs1 : rcv_nxt s1 = u32 (rcv_nxt s + zlen (g_data g)) /\ remote_ip s1 = remote_ip s
    /\ remote_port s1 = remote_port s /\ state s1 = state s /\ mss s1 = mss s) by (subst s1; by destruct s).
  destruct Hs1 as (Hs1 & Hs2 & Hs3 & Hs4 & Hs5). split; [|split; congruence].
  split_and!; try done; try congruence.
  - unfold sync in *. by rewrite Hr4, Hs4.
  - unfold delivered in *. rewrite Hu2, Hu1, map_app, concat_app, Hd. cbn [map concat].
    unfold ind_data. cbn [fst snd]. rewrite Z.eqb_refl, app_nil_r, Hda at 1.
    by rewrite take_take_drop.
  - rewrite Hr1, Hs1, Hn. cbn [b2z]. unfold zlen. unfold u32. rewrite Zplus_mod_idemp_l.
    f_equal. lia.
Qed.

Lemma tcp_fin_received now k fin s g (e : wire) : seg_of g -> received k fin s e ->
  exists fin', let r := tcp_fin now q s (g_seq g) (g_flags g) (zlen (g_data g)) e in
    received k fin' r.1 r.2.
Proof.
  intros (off & Ho & Hsq & Hda & Hfin) Hrec. unfold tcp_fin. case_if; [|by exists fin].
  bool_prop. destruct Hrec as ((Hs & Hfit & Hm & Hov) & Hk & Hd & Hn & Hf). specialize (Hfin ltac:(done)).
  assert (Hkf : fin = false /\ k = length stream).
  { unfold zlen in *. destruct fin; cbn [b2z] in Hn.
    - specialize (Hf eq_refl). exfalso. rewrite Hsq, Hn in *. warith.
    - split; [done|]. rewrite Hsq, Hn in *. warith. }
  destruct Hkf as [-> ->]. exists true. cbv zeta.
  match goal with |- context [tcp_send_segment now ?x TCP_FLAG_ACK [] e] => set (s2 := x) end.
  assert (Hs2 : sync s2 /\ rcv_nxt s2 = u32 (rcv_nxt s + 1) /\ mss s2 = mss s).
  { subst s2. unfold sync, tcp_enter_time_wait, tcp_cancel_rto in *. destruct s. proj.
    repeat case_if; done. }
  clearbody s2. destruct Hs2 as (Hy2 & Hn2 & Hms2).
  destruct (send_quiet now s2 TCP_FLAG_ACK e Hm) as [(Hr1 & _ & _ & Hr4 & Hr5) (Hu2 & Hm2 & Ho2)].
  destruct (tcp_send_segment now s2 TCP_FLAG_ACK [] e) as [[rc s3] e3]. cbn [fst snd] in *.
  unfold reply_ordrel_ind. rewrite wire_reply by (done || lia).
  split_and!; try done; [| |by rewrite <- Hov|..].
  - unfold sync in *. by rewrite Hr4.
  - by rewrite Hr5, Hms2.
  - unfold delivered in *. destruct e3. cbn in *. subst. rewrite map_app, concat_app. cbn.
    by rewrite app_nil_r.
  - rewrite Hr1, Hn2, Hn. cbn [b2z]. unfold u32. rewrite Zplus_mod_idemp_l. f_equal. lia.
Qed.

(** A segment from the peer carries its stream; others are unconstrained. *)
Definition genuine (s : tcb) (x : Z * Z * segment) : Prop :=
  let '(_, src, g) := x in
  src = remote_ip s -> g_sport g = remote_port s -> seg_of g.

Lemma input_received now k fin s src g (e : wire) :
  genuine s (now, src, g) -> received k fin s e ->
  exists k' fin', let r := tcp_input_state now q s src g e in
    received k' fin' r.1 r.2 /\ remote_ip r.1 = remote_ip s /\ remote_port r.1 = remote_port s.
Proof.
  intros Hg Hrec. pose proof Hrec as ((Hy & Hfit & Hm & _) & _). unfold tcp_input_state.
  set (s1 := if is_st s TCPS_LISTEN then s else _).
  assert (H1 : same_rcv s s1) by (subst s1; case_if; by destruct s). clearbody s1.
  assert (Hrec1 : received k fin s1 e).
  { eapply received_step; [exact Hrec|by apply same_rcv_ok|done]. }
  destruct H1 as (_ & Hip & Hp & Hst & Hms). pose proof Hrec1 as ((Hy1 & Hfit1 & _) & _).
  assert (Hest : exists k' fin', let r := tcp_established now q s1 src g e in
    received k' fin' r.1 r.2 /\ remote_ip r.1 = remote_ip s /\ remote_port r.1 = remote_port s).
  { unfold tcp_established. case_if; [by exists k, fin|]. bool_prop.
    specialize (Hg ltac:(congruence) ltac:(congruence)). case_if.
    { exists k, fin. cbn [fst snd]. split; [|by destruct s1].
      destruct Hrec1 as ((_ & _ & _ & Hov) & Hk & Hd & Hn & Hf). unfold reply_discon_ind.
      rewrite wire_reply by (done || lia). split_and!; try done; try by destruct s1.
      unfold delivered in *. destruct e. cbn in *. rewrite map_app, concat_app. cbn.
      by rewrite app_nil_r. }
    destruct (tcp_ack_quiet now s1 (g_ack g) (g_flags g) (zlen (g_data g)) e Hfit1 Hm) as [Ha Hq].
    set (r1 := if has (g_flags g) TCP_FLAG_ACK then _ else _).
    assert (H2 : rcv_ok s1 r1.1 /\ quiet e r1.2) by (subst r1; case_if; done).
    clearbody r1. destruct r1 as [s2 e2]. cbn [fst snd] in H2. destruct H2 as [Ho2 Hq2].
    pose proof (received_step k fin s1 e s2 e2 Hrec1 Ho2 Hq2) as Hrec2.
    destruct (tcp_data_received now k fin s2 g e2 Hg Hrec2) as (k' & Hrec3 & Hi3 & Hp3).
    destruct (tcp_data now q s2 (g_seq g) (g_data g) e2) as [s3 e3]. cbn [fst snd] in *.
    destruct (tcp_fin_received now k' fin s3 g e3 Hg Hrec3) as (fin' & Hrec4).
    exists k', fin'. split; [exact Hrec4|].
    destruct Ho2 as (_ & Hi2 & Hp2 & _).
    assert (Hfin : let r := tcp_fin now q s3 (g_seq g) (g_flags g) (zlen (g_data g)) e3 in
      remote_ip r.1 = remote_ip s3 /\ remote_port r.1 = remote_port s3).
    { destruct Hrec3 as ((_ & _ & Hm3 & _) & _). unfold tcp_fin. case_if; [|done]. cbv zeta.
      match goal with |- context [tcp_send_segment now ?x TCP_FLAG_ACK [] e3] =>
        destruct (send_quiet now x TCP_FLAG_ACK e3 Hm3) as [(_ & Hr2 & Hr3 & _) _];
        destruct (tcp_send_segment now x TCP_FLAG_ACK [] e3) as [[rc s5] e5] end.
      cbn [fst snd] in *. rewrite Hr2, Hr3. destruct s3.
      unfold tcp_enter_time_wait, tcp_cancel_rto. repeat case_if; done. }
    cbv zeta in Hfin. destruct Hfin as [-> ->]. split; congruence. }
  unfold sync in Hy1. destruct (state s1) eqn:Es; try done; try exact Hest; try by exists k, fin.
  unfold tcp_time_wait. case_if; [|by exists k, fin].
  destruct (send_quiet now s1 TCP_FLAG_ACK e Hm) as [Hr Hq].
  destruct (tcp_send_segment now s1 TCP_FLAG_ACK [] e) as [[rc s2] e2]. cbn [fst snd] in *.
  exists k, fin. split; [|destruct Hr as (_ & ? & ? & _); split; congruence].
  eapply received_step; [exact Hrec1|by apply same_rcv_ok|done].
Qed.

(** A history of arrivals: the time, the source address and the segment. *)
Fixpoint input_all (s : tcb) (l : list (Z * Z * segment)) (e : wire) : tcb * wire :=
  match l with
  | [] => (s, e)
  | (now, src, g) :: l =>
      let '(s, e) := tcp_input_state now q s src g e in input_all s l e
  end.

Lemma input_all_received l : forall k fin s e, Forall (genuine s) l -> received k fin s e ->
  exists k' fin', let r := input_all s l e in received k' fin' r.1 r.2.
Proof.
  induction l as [|[[now src] g] l IH]; intros k fin s e Hl Hrec; cbn [input_all].
  - by exists k, fin.
  - inversion Hl as [|?? Hg Hl']; subst.
    destruct (input_received now k fin s src g e Hg Hrec) as (k1 & f1 & Hrec1 & Hi & Hp).
    destruct (tcp_input_state now q s src g e) as [s1 e1]. cbn [fst snd] in *.
    apply (IH k1 f1); [|done]. eapply Forall_impl; [exact Hl'|].
    intros [[? ?] ?]. unfold genuine. by rewrite Hi, Hp.
Qed.

End Stream.

(** C6: In-order delivery.  Take an established connection and any arrivals from
    the network in any order, with repetitions, overlaps, losses, resets, FINs
    and segments of other connections, as long as every segment of the peer
    carries the bytes of one stream at the positions its sequence numbers say,
    no allocation of a message fails and the segment size is at most that of the
    send buffer.  Then what the reader was given is a prefix of that stream, the
    next expected sequence number is the one right after it (after the FIN, when
    the whole stream and the FIN were received), and no write went behind the end
    of the send buffer.  Without the memory, bytes can be lost, see
    [tcp_acked_data_lost]. *)
Theorem tcp_in_order_delivery (irs q : Z) (stream : bytes) (s : tcb) (e : wire)
    (arrivals : list (Z * Z * segment)) :
  zlen stream < 4294967290 -> state s = TCPS_ESTABLISHED -> rcv_nxt s = u32 (irs + 1) ->
  mss s <= SEG_DATA -> w_overrun e = false ->
  w_mem e = [] -> w_up e = [] -> Forall (genuine irs stream s) arrivals ->
  let '(s', e') := input_all q s arrivals e in
  exists k fin, delivered q e' = take k stream /\ (k <= length stream)%nat
    /\ rcv_nxt s' = u32 (irs + 1 + Z.of_nat k + b2z fin) /\ (fin = true -> k = length stream)
    /\ w_overrun e' = false.
Proof.
  intros Hl Hs Hn Hfit Ho Hm Hu Ha.
  destruct (input_all_received irs q stream Hl arrivals 0 false s e Ha) as (k & fin & Hr).
  { split_and!; try done; [unfold sync; by rewrite Hs|lia|unfold delivered; by rewrite Hu|].
    cbn. by rewrite !Z.add_0_r. }
  destruct (input_all q s arrivals e) as [s' e']. destruct Hr as ((_ & _ & _ & Ho') & Hk & Hd & Hr & Hf).
  by exists k, fin.
Qed.

(** C40: A data segment is acknowledged even when its bytes are thrown away.  If
    the buffer for the data can be allocated but the four-byte T_DATA_IND header
    cannot, the receiver moves past the data, gives the reader nothing and sends
    the peer an acknowledgement of the data: a segment that parses, of this
    connection, with only the flag ACK, no bytes and the advanced sequence number. *)
Theorem tcp_acked_data_lost (now q : Z) (s : tcb) (sq : Z) (data : bytes) (e : wire) :
  state s = TCPS_ESTABLISHED -> sq = rcv_nxt s -> 0 < zlen data <= 2048 ->
  w_mem e = [true; false] -> w_addr e <> 0 ->
  is_u16 (local_port s) -> is_u16 (remote_port s) -> is_u32 (snd_nxt s) ->
  let '(s', e') := tcp_data now q s sq data e in
  rcv_nxt s' = u32 (rcv_nxt s + zlen data) /\ w_up e' = w_up e
  /\ exists seg g, w_sent e' = w_sent e ++ [(remote_ip s, seg)]
     /\ tcp_parse (w_addr e) (remote_ip s) seg = P_ok g
     /\ g_sport g = local_port s /\ g_dport g = remote_port s
     /\ g_flags g = TCP_FLAG_ACK /\ g_data g = []
     /\ g_seq g = snd_nxt s /\ g_ack g = u32 (rcv_nxt s + zlen data).
Proof.
  intros Hs -> Hl Hm Ha Hlp Hrp Hnx. unfold tcp_data, is_st. rewrite Hs, Z.eqb_refl.
  rewrite Z.gtb_ltb, (proj2 (Z.ltb_lt _ _)) by lia.
  rewrite bool_decide_eq_true_2 by done. cbn [andb orb]. destruct e. cbn in Hm, Ha. subst.
  cbn [e_alloc wire_env w_mem]. unfold scripted_allocb at 1.
  rewrite Z.gtb_ltb, (proj2 (Z.ltb_ge _ _)) by lia. cbn [scripted_next].
  unfold reply_data_ind, reply. cbn [e_alloc wire_env].
  rewrite wire_send by done. split_and!; [|done|].
  - destruct s. unfold after_ctl. change (has TCP_FLAG_ACK _) with false. proj. warith.
  - set (s1 := s <| rcv_nxt := _ |>).
    assert (H1 : local_port s1 = local_port s /\ remote_port s1 = remote_port s /\ remote_ip s1 = remote_ip s
      /\ snd_nxt s1 = snd_nxt s /\ rcv_nxt s1 = u32 (rcv_nxt s + zlen data)) by (subst s1; by destruct s).
    clearbody s1. destruct H1 as (E1 & E2 & E3 & E4 & E5). rewrite <- E1 in Hlp |- *. rewrite <- E2 in Hrp |- *.
    rewrite <- E3, <- E4, <- E5 in *. eexists _, _. split; [done|].
    split; [apply tcp_segment_parse; [done|done|done|rewrite E5; apply u32_range]|done].
Qed.

(** ** Witnesses *)

(** Bytes 3 and 4 of the stream arrive before bytes 1 and 2. *)
Definition demo_arrivals : list (Z * Z * segment) :=
  [(60, 167772674, mk_seg 40000 23 5002 1000 20 TCP_FLAG_ACK 512 [] [3; 4]);
   (61, 167772674, mk_seg 40000 23 5000 1000 20 TCP_FLAG_ACK 512 [] [1; 2]);
   (62, 167772674, mk_seg 40000 23 5002 1000 20 (TCP_FLAG_ACK + TCP_FLAG_FIN) 512 [] [3; 4; 5])].

Lemma demo_genuine : Forall (genuine 4999 [1; 2; 3; 4; 5] demo_tcb) demo_arrivals.
Proof.
  repeat apply Forall_cons_2; try apply Forall_nil_2; intros _ _;
    [exists 2%nat|exists 0%nat|exists 2%nat]; cbn [g_data g_seq g_flags length];
    (split_and!; [lia|reflexivity|reflexivity|vm_compute; congruence]).
Qed.

Lemma tcp_in_order_delivery_witness :
  let '(s', e') := input_all 7 demo_tcb demo_arrivals wire0 in
  exists k fin, delivered 7 e' = take k [1; 2; 3; 4; 5] /\ (k <= length [1; 2; 3; 4; 5])%nat
    /\ rcv_nxt s' = u32 (4999 + 1 + Z.of_nat k + b2z fin)
    /\ (fin = true -> k = length [1; 2; 3; 4; 5]) /\ w_overrun e' = false.
Proof.
  apply (tcp_in_order_delivery 4999 7 [1; 2; 3; 4; 5] demo_tcb wire0 demo_arrivals);
    [reflexivity|reflexivity|reflexivity|vm_compute; congruence|reflexivity|reflexivity|reflexivity|exact demo_genuine].
Defined.

Definition wire_tight : wire := mk_wire [true; false] [] [] [] 167772687 1500 false.

Lemma tcp_acked_data_lost_witness :
  let '(s', e') := tcp_data 60 7 demo_tcb 5000 [1; 2] wire_tight in
  rcv_nxt s' = 5002 /\ w_up e' = []
  /\ exists seg g, w_sent e' = [(remote_ip demo_tcb, seg)]
     /\ tcp_parse (w_addr wire_tight) (remote_ip demo_tcb) seg = P_ok g
     /\ g_sport g = 23 /\ g_dport g = 40000 /\ g_flags g = TCP_FLAG_ACK /\ g_data g = []
     /\ g_seq g = 1000 /\ g_ack g = 5002.
Proof.
  apply (tcp_acked_data_lost 60 7 demo_tcb 5000 [1; 2] wire_tight);
    [reflexivity|reflexivity|vm_compute; split; congruence|reflexivity|vm_compute; congruence|
     vm_compute; split; congruence..].
Defined.

End TcpRecv.
