(* ===== verification/Slip.v ===== *)
(** * SLIP framing: [uts/os/net/slip.c]

    The framing module between IP and the serial driver.  Its per-stream state
    is [slip_state]; the receive side is a byte machine run over every message
    block that comes up from the driver, the send side byte-stuffs one packet
    into a fresh message.  A message is the list of its blocks' byte windows
    (the [b_cont] chain), [putnext] upstream is an entry of the output list. *)

From stdpp Require Import base list.
From Stdlib Require Import ZArith Lia Bool.
From S2P Require Import Prelude.

Module Slip.

Definition SLIP_END : Z := 192.
Definition SLIP_ESC : Z := 219.
Definition SLIP_ESC_END : Z := 220.
Definition SLIP_ESC_ESC : Z := 221.
Definition SLIP_MTU : Z := 296.

Definition M_DATA : Z := 0.

(** [frame] is the window [b_rptr..b_wptr) of the frame under construction,
    [None] when its [allocb] failed; its buffer has [SLIP_MTU] bytes. *)
Record slip_state := mk_slip_state {
  frame : option bytes;
  in_esc : bool;
  rx_frames : Z;
  rx_runts : Z;
  rx_overflow : Z;
  tx_frames : Z
}.

#[export] Instance slip_state_rebuild : Rebuild slip_state :=
  rpure mk_slip_state <:> frame <:> in_esc <:> rx_frames <:> rx_runts
    <:> rx_overflow <:> tx_frames.

Section Framing.
Context {M : Type} `{MsgAlloc M}.

(** [slip_qopen]: [None] is the [-1] return; the state itself is one [kmalloc],
    modelled by the request for its 32 bytes. *)
Definition slip_qopen (m : M) : option slip_state * M :=
  let '(ok, m) := allocb_ok 32 m in
  if ok then
    let '(ok, m) := allocb_ok SLIP_MTU m in
    if ok then (Some (mk_slip_state (Some []) false 0 0 0 0), m)
    else (None, m)
  else (None, m).

(** [slip_deliver_frame]: the state after, the frames sent upstream. *)
Definition slip_deliver_frame (s : slip_state) (m : M) : slip_state * list bytes * M :=
  let mp := frame s in
  let '(ok, m) := allocb_ok SLIP_MTU m in
  let s := s <| frame := if ok then Some [] else None |> in
  match mp with
  | None => (s, [], m)
  | Some mp =>
      let n := u32 (zlen mp) in
      if n <? 20 then (s <| rx_runts := u32 (rx_runts s + 1) |>, [], m)
      else (s <| rx_frames := u32 (rx_frames s + 1) |>, [mp], m)
  end.

(** [slip_append]: the limit test is [b_wptr >= db_lim]. *)
Definition slip_append (s : slip_state) (c : Z) : slip_state :=
  match frame s with
  | None => s
  | Some f =>
      if zlen f >=? SLIP_MTU
      then s <| rx_overflow := u32 (rx_overflow s + 1) |> <| frame := Some [] |>
      else s <| frame := Some (f ++ [c]) |>
  end.

(** One iteration of the byte loop of [slip_rq_putp]. *)
Definition slip_rx_byte (s : slip_state) (c : Z) (m : M) : slip_state * list bytes * M :=
  if in_esc s then
    let s := if c =? SLIP_ESC_END then slip_append s SLIP_END
             else if c =? SLIP_ESC_ESC then slip_append s SLIP_ESC
             else slip_append s c in
    (s <| in_esc := false |>, [], m)
  else if c =? SLIP_END then
    match frame s with
    | Some (_ :: _) => slip_deliver_frame s m
    | _ => (s, [], m)
    end
  else if c =? SLIP_ESC then (s <| in_esc := true |>, [], m)
  else (slip_append s c, [], m).

Fixpoint slip_rx_bytes (s : slip_state) (l : bytes) (m : M) : slip_state * list bytes * M :=
  match l with
  | [] => (s, [], m)
  | c :: l =>
      let '(s, out, m) := slip_rx_byte s c m in
      let '(s, out', m) := slip_rx_bytes s l m in
      (s, out ++ out', m)
  end.

Fixpoint slip_rx_chain (s : slip_state) (chain : list bytes) (m : M)
  : slip_state * list bytes * M :=
  match chain with
  | [] => (s, [], m)
  | b :: chain =>
      let '(s, out, m) := slip_rx_bytes s b m in
      let '(s, out', m) := slip_rx_chain s chain m in
      (s, out ++ out', m)
  end.

(** [slip_rq_putp] on a stream that has been opened ([q_ptr] set). *)
Definition slip_rq_putp (s : slip_state) (db_type : Z) (chain : list bytes) (m : M)
  : Z * slip_state * list bytes * M :=
  if negb (db_type =? M_DATA) then (0, s, [], m)
  else let '(s, out, m) := slip_rx_chain s chain m in (0, s, out, m).

(** The byte-stuffing of one payload byte in [slip_wq_putp]. *)
Definition stuff (c : Z) : bytes :=
  if c =? SLIP_END then [SLIP_ESC; SLIP_ESC_END]
  else if c =? SLIP_ESC then [SLIP_ESC; SLIP_ESC_ESC]
  else [c].

(** [slip_wq_putp]: the return code, the state and the framed message given to
    the driver below ([None]: nothing sent). *)
Definition slip_wq_putp (s : slip_state) (db_type : Z) (chain : list bytes) (m : M)
  : Z * slip_state * option bytes * M :=
  if negb (db_type =? M_DATA) then (0, s, None, m)
  else
    let in_len := u32 (zlen (concat chain)) in
    let cap := u32 (2 * in_len + 2) in
    let '(ok, m) := allocb_ok cap m in
    if negb ok then (-1, s, None, m)
    else
      let out := [SLIP_END] ++ concat (map (fun b => concat (map stuff b)) chain)
                   ++ [SLIP_END] in
      (0, s <| tx_frames := u32 (tx_frames s + 1) |>, Some out, m).

(** Several messages in a row through [slip_rq_putp], the state kept between them:
    what is given to IP. *)
Fixpoint slip_rq_putps (s : slip_state) (msgs : list (list bytes)) (m : M) : slip_state * list bytes * M :=
  match msgs with
  | [] => (s, [], m)
  | mp :: msgs =>
      let '(_, s, out, m) := slip_rq_putp s M_DATA mp m in
      let '(s, out', m) := slip_rq_putps s msgs m in
      (s, out ++ out', m)
  end.

(** Several packets in a row through [slip_wq_putp]: what is given to the driver. *)
Fixpoint slip_wq_putps (s : slip_state) (pkts : list (list bytes)) (m : M) : slip_state * list bytes * M :=
  match pkts with
  | [] => (s, [], m)
  | mp :: pkts =>
      let '(_, s, out, m) := slip_wq_putp s M_DATA mp m in
      let '(s, out', m) := slip_wq_putps s pkts m in
      (s, option_list out ++ out', m)
  end.

End Framing.

(** ** Receiver facts *)

Section Facts.
Context {M : Type} `{MsgAlloc M}.

Lemma slip_rx_bytes_app s l k (m : M) :
  slip_rx_bytes s (l ++ k) m =
  let '(s, o, m) := slip_rx_bytes s l m in
  let '(s, o', m) := slip_rx_bytes s k m in (s, o ++ o', m).
Proof.
  revert s m; induction l as [|c l IH]; intros s m; cbn.
  - by destruct (slip_rx_bytes s k m) as [[??]?].
  - destruct (slip_rx_byte s c m) as [[s1 o1] m1]. rewrite IH.
    destruct (slip_rx_bytes s1 l m1) as [[s2 o2] m2].
    destruct (slip_rx_bytes s2 k m2) as [[s3 o3] m3]. by rewrite app_assoc.
Qed.

(** How the driver cuts the byte stream into blocks is irrelevant. *)
Lemma slip_rx_chain_concat s chain (m : M) :
  slip_rx_chain s chain m = slip_rx_bytes s (concat chain) m.
Proof.
  revert s m; induction chain as [|b chain IH]; intros s m; cbn; [done|].
  rewrite slip_rx_bytes_app.
  destruct (slip_rx_bytes s b m) as [[s1 o1] m1]. by rewrite IH.
Qed.

(** Messages in a row are received as their bytes in a row. *)
Lemma slip_rq_putps_concat msgs : forall s (m : M), slip_rq_putps s msgs m = slip_rx_bytes s (concat (concat msgs)) m.
Proof.
  induction msgs as [|mp msgs IH]; intros s m; [done|]. cbn [slip_rq_putps]. unfold slip_rq_putp. cbn [Z.eqb negb M_DATA].
  rewrite slip_rx_chain_concat. cbn [concat]. rewrite concat_app, slip_rx_bytes_app.
  destruct (slip_rx_bytes s (concat mp) m) as [[s1 o1] m1]. by rewrite IH.
Qed.

(** Reading back the stuffing of [p] appends [p] to the frame. *)
Lemma slip_rx_stuffed p : forall s f (m : M),
  frame s = Some f -> in_esc s = false -> zlen f + zlen p <= SLIP_MTU ->
  slip_rx_bytes s (concat (map stuff p)) m = (s <| frame := Some (f ++ p) |>, [], m).
Proof.
  induction p as [|c p IH]; intros s f m Hf He Hlen.
  - cbn. rewrite app_nil_r. destruct s; cbn in *; by subst.
  - rewrite zlen_cons in Hlen. pose proof (zlen_nonneg p).
    assert (Hroom : (zlen f >=? SLIP_MTU) = false)
      by (rewrite Z.geb_leb; apply Z.leb_gt; lia).
    assert (Hstep : slip_rx_bytes s (stuff c) m = (s <| frame := Some (f ++ [c]) |>, [], m)).
    { destruct s; cbn in Hf, He; subst. unfold stuff.
      destruct (c =? SLIP_END) eqn:E1; [|destruct (c =? SLIP_ESC) eqn:E2];
        cbn -[zlen]; unfold slip_rx_byte, slip_append; cbn -[zlen];
        rewrite ?E1, ?E2, ?Hroom; cbn -[zlen];
        bool_prop; subst; try done; unfold slip_append; cbn -[zlen];
        rewrite ?Hroom; done. }
    cbn [map concat]. rewrite slip_rx_bytes_app, Hstep.
    rewrite (IH _ (f ++ [c])); [|done|done|].
    + rewrite <- app_assoc. by destruct s.
    + rewrite zlen_app, zlen_cons, zlen_nil. lia.
Qed.

(** A delivered frame fits an IP header and the frame buffer, whatever the line
    and the allocator do. *)
Definition frame_fits (s : slip_state) : Prop :=
  match frame s with None => True | Some f => zlen f <= SLIP_MTU end.

Lemma slip_append_fits s c : frame_fits s -> frame_fits (slip_append s c).
Proof.
  unfold frame_fits, slip_append. destruct s as [[f|] e r1 r2 r3 t]; cbn -[zlen]; [|done].
  intros Hf. destruct (zlen f >=? SLIP_MTU) eqn:E; cbn -[zlen]; [done|].
  rewrite Z.geb_leb in E. bool_prop. rewrite zlen_app, zlen_cons, zlen_nil. lia.
Qed.

Lemma slip_deliver_fits s (m : M) s' out m' :
  frame_fits s -> slip_deliver_frame s m = (s', out, m') ->
  frame_fits s' /\ Forall (fun f => 20 <= zlen f <= SLIP_MTU) out.
Proof.
  unfold frame_fits, slip_deliver_frame. destruct (allocb_ok SLIP_MTU m) as [ok m1].
  destruct s as [[f|] e r1 r2 r3 t]; cbn -[zlen u32]; intros Hf.
  - assert (Hn : u32 (zlen f) = zlen f).
    { apply u32_small. unfold SLIP_MTU in Hf. pose proof (zlen_nonneg f). warith. }
    rewrite Hn. destruct (zlen f <? 20) eqn:E; intros [= <- <- <-]; cbn -[zlen];
      (split; [by destruct ok|]); bool_prop; eauto using Forall_cons, Forall_nil.
  - intros [= <- <- <-]; cbn; split; [by destruct ok | by constructor].
Qed.

Lemma slip_rx_byte_fits s c (m : M) s' out m' :
  frame_fits s -> slip_rx_byte s c m = (s', out, m') ->
  frame_fits s' /\ Forall (fun f => 20 <= zlen f <= SLIP_MTU) out.
Proof.
  intros Hf. unfold slip_rx_byte. destruct (in_esc s).
  - intros [= <- <- <-]. split; [|constructor].
    assert (forall d, frame_fits ((slip_append s d) <| in_esc := false |>)) as Hap
      by (intros d; apply (slip_append_fits s d) in Hf; by destruct (slip_append s d)).
    repeat case_if; apply Hap.
  - destruct (c =? SLIP_END).
    + destruct (frame s) as [[|b f]|] eqn:Ef;
        [intros [= <- <- <-]; eauto | | intros [= <- <- <-]; eauto].
      by apply slip_deliver_fits.
    + destruct (c =? SLIP_ESC); intros [= <- <- <-];
        (split; [|constructor]); [by destruct s | by apply slip_append_fits].
Qed.

Lemma slip_rx_bytes_fits l : forall s (m : M) s' out m',
  frame_fits s -> slip_rx_bytes s l m = (s', out, m') ->
  frame_fits s' /\ Forall (fun f => 20 <= zlen f <= SLIP_MTU) out.
Proof.
  induction l as [|c l IH]; intros s m s' out m' Hf; cbn.
  - intros [= <- <- <-]. eauto.
  - destruct (slip_rx_byte s c m) as [[s1 o1] m1] eqn:E1.
    destruct (slip_rx_bytes s1 l m1) as [[s2 o2] m2] eqn:E2. intros [= <- <- <-].
    destruct (slip_rx_byte_fits _ _ _ _ _ _ Hf E1) as [Hf1 Ho1].
    destruct (IH _ _ _ _ _ Hf1 E2) as [Hf2 Ho2]. split; [done | by apply Forall_app_2].
Qed.

(** Without a frame buffer the receiver is deaf. *)
Lemma slip_rx_bytes_deaf l : forall s (m : M),
  frame s = None -> exists s', slip_rx_bytes s l m = (s', [], m) /\ frame s' = None.
Proof.
  induction l as [|c l IH]; intros s m Hf; cbn; [eauto|].
  assert (exists s1, slip_rx_byte s c m = (s1, [], m) /\ frame s1 = None) as (s1 & -> & Hf1).
  { destruct s; cbn in Hf; subst. unfold slip_rx_byte, slip_append; cbn.
    repeat case_if; cbn; eauto. }
  destruct (IH s1 m Hf1) as (s2 & -> & Hf2). eauto.
Qed.

End Facts.

(** ** The wire format *)

Definition slip_encode (p : bytes) : bytes :=
  [SLIP_END] ++ concat (map stuff p) ++ [SLIP_END].

Lemma stuff_concat chain :
  concat (map (fun b => concat (map stuff b)) chain) = concat (map stuff (concat chain)).
Proof.
  induction chain as [|b chain IH]; cbn; [done|].
  by rewrite map_app, concat_app, IH.
Qed.

Lemma stuff_length_bound p : zlen (concat (map stuff p)) <= 2 * zlen p.
Proof.
  induction p as [|c p IH]; [done|]. cbn [map concat].
  rewrite zlen_app, zlen_cons. enough (zlen (stuff c) <= 2) by lia.
  unfold stuff, zlen. repeat case_if; cbn; lia.
Qed.

Lemma slip_wq_putp_wire s ch : zlen (concat ch) <= SLIP_MTU ->
  slip_wq_putp s M_DATA ch ([] : list bool) = (0, s <| tx_frames := u32 (tx_frames s + 1) |>, Some (slip_encode (concat ch)), []).
Proof.
  intros Hl. pose proof (zlen_nonneg (concat ch)). unfold SLIP_MTU in *. unfold slip_wq_putp. cbn [Z.eqb negb M_DATA].
  rewrite !u32_small by (unfold is_u32; rewrite ?u32_small by (unfold is_u32; lia); lia).
  unfold allocb_ok, scripted_alloc, scripted_allocb. rewrite Z.gtb_ltb, (proj2 (Z.ltb_ge _ _)) by lia.
  cbn [scripted_next negb]. by rewrite stuff_concat.
Qed.

Lemma slip_wq_putps_wires pkts : forall tx, Forall (fun p => 20 <= zlen (concat p) <= SLIP_MTU) pkts -> is_u32 (tx_frames tx) ->
  slip_wq_putps tx pkts ([] : list bool) =
  (tx <| tx_frames := u32 (tx_frames tx + zlen pkts) |>, map slip_encode (map (@concat Z) pkts), []).
Proof.
  induction pkts as [|p pkts IH]; intros tx Hp Ht.
  - cbn -[u32]. rewrite Z.add_0_r, u32_small by done. by destruct tx.
  - inversion Hp; subst. cbn [map slip_wq_putps]. rewrite slip_wq_putp_wire by lia.
    rewrite IH; [|done|destruct tx; cbn; auto with words].
    destruct tx; unfold update; cbn -[u32 zlen]. rewrite zlen_cons. do 3 f_equal. warith.
Qed.

(** One well-sized packet, received from a frame boundary. *)
Lemma slip_rx_encode p s :
  20 <= zlen p <= SLIP_MTU -> frame s = Some [] -> in_esc s = false ->
  slip_rx_bytes s (slip_encode p) ([] : list bool) =
  (s <| rx_frames := u32 (rx_frames s + 1) |>, [p], []).
Proof.
  intros Hlen Hf He. unfold slip_encode.
  assert (H0 : slip_rx_bytes s [SLIP_END] ([] : list bool) = (s, [], [])).
  { cbn. unfold slip_rx_byte. by rewrite He, Hf. }
  rewrite slip_rx_bytes_app, H0, slip_rx_bytes_app.
  rewrite (slip_rx_stuffed p s [] _ Hf He) by (rewrite zlen_nil; lia).
  cbn [app slip_rx_bytes]. unfold slip_rx_byte. destruct s; cbn in *; subst.
  cbn -[zlen]. destruct p as [|b p]; [rewrite zlen_nil in Hlen; lia|].
  unfold slip_deliver_frame. cbn -[zlen u32].
  rewrite u32_small by (unfold SLIP_MTU in *; warith).
  destruct (zlen (b :: p) <? 20) eqn:E; [bool_prop; lia|]. done.
Qed.

Lemma slip_rx_encodes pkts : forall s,
  Forall (fun p => 20 <= zlen p <= SLIP_MTU) pkts ->
  frame s = Some [] -> in_esc s = false -> is_u32 (rx_frames s) ->
  slip_rx_bytes s (concat (map slip_encode pkts)) ([] : list bool) =
  (s <| rx_frames := u32 (rx_frames s + zlen pkts) |>, pkts, []).
Proof.
  induction pkts as [|p pkts IH]; intros s Hp Hf He Hr.
  - cbn -[u32]. rewrite Z.add_0_r, u32_small by done. by destruct s.
  - inversion Hp; subst. cbn [map concat]. rewrite slip_rx_bytes_app, slip_rx_encode by done.
    rewrite IH; [|done|by destruct s|by destruct s|cbn; auto with words].
    destruct s; unfold update; cbn -[u32 zlen]. rewrite zlen_cons. do 3 f_equal. warith.
Qed.

(** ** Properties *)

(** C36: whatever packets of a legal size (an IP header up to the MTU) the send
    side of one machine frames, one message after the other, and however the serial
    line cuts the resulting bytes into messages, the receive side of the other, which
    gets them one after the other too and keeps an unfinished frame or escape
    between them, delivers exactly those packets, in order, and counts each; it is
    back at a frame boundary at the end.  No allocation fails on either side. *)
Theorem slip_stream_roundtrip tx rx (pkts : list (list bytes)) :
  Forall (fun p => 20 <= zlen (concat p) <= SLIP_MTU) pkts ->
  frame rx = Some [] -> in_esc rx = false -> is_u32 (rx_frames rx) -> is_u32 (tx_frames tx) ->
  exists wires, slip_wq_putps tx pkts ([] : list bool) = (tx <| tx_frames := u32 (tx_frames tx + zlen pkts) |>, wires, [])
    /\ forall msgs, concat (concat msgs) = concat wires ->
       slip_rq_putps rx msgs ([] : list bool) =
       (rx <| rx_frames := u32 (rx_frames rx + zlen pkts) |>, map (@concat Z) pkts, []).
Proof.
  intros Hp Hf He Hr Ht. exists (map slip_encode (map (@concat Z) pkts)). split; [by apply slip_wq_putps_wires|].
  intros msgs Hcut. rewrite slip_rq_putps_concat. unfold bytes in *. rewrite Hcut, slip_rx_encodes; try done; [|by apply Forall_map].
  unfold zlen. by rewrite length_map.
Qed.

Lemma slip_stream_roundtrip_witness :
  let tx := mk_slip_state (Some []) false 0 0 0 3 in let rx := mk_slip_state (Some []) false 7 0 0 0 in
  let p := [map Z.of_nat (seq 190 15); map Z.of_nat (seq 205 25)] in
  let w := slip_encode (concat p) in
  slip_rq_putps rx [[take 4 w; take 5 (drop 4 w)]; [drop 9 w ++ take 17 w]; [drop 17 w]] ([] : list bool) =
  (rx <| rx_frames := u32 (rx_frames rx + zlen [p; p]) |>, map (@concat Z) [p; p], []).
Proof.
  intros tx rx p w. assert (Hlen : 20 <= zlen (concat p) <= SLIP_MTU) by (vm_compute; split; congruence).
  destruct (slip_stream_roundtrip tx rx [p; p]) as (wires & E & H).
  - apply Forall_cons_2; [exact Hlen|apply Forall_cons_2; [exact Hlen|apply Forall_nil_2]].
  - reflexivity.
  - reflexivity.
  - vm_compute; split; congruence.
  - vm_compute; split; congruence.
  - apply H. vm_compute in E. injection E as <-. vm_compute. reflexivity.
Defined.

(** for arbitrary line noise and any allocation failures, the frame under
    construction never outgrows its [SLIP_MTU]-byte buffer and every message
    given to IP is at least an IP header and at most the MTU long. *)
Theorem slip_rx_bounds {M : Type} `{MsgAlloc M} s t chain (m : M) rc s' out m' :
  frame_fits s -> slip_rq_putp s t chain m = (rc, s', out, m') ->
  frame_fits s' /\ Forall (fun f => 20 <= zlen f <= SLIP_MTU) out.
Proof.
  intros Hf. unfold slip_rq_putp. case_if; [intros [= <- <- <- <-]; eauto|].
  rewrite slip_rx_chain_concat.
  destruct (slip_rx_bytes s (concat chain) m) as [[s1 o1] m1] eqn:E1.
  intros [= <- <- <- <-]. eauto using slip_rx_bytes_fits.
Qed.

Lemma slip_rx_bounds_witness :
  let s := mk_slip_state (Some []) false 0 0 0 0 in
  let noise := [replicate 300 65; [192]; replicate 30 66; [192]] in
  let r := slip_rq_putp s M_DATA noise [false] in
  frame_fits (snd (fst (fst r)))
  /\ Forall (fun f => 20 <= zlen f <= SLIP_MTU) (snd (fst r)).
Proof.
  intros s noise r.
  apply (slip_rx_bounds s M_DATA noise [false] (fst (fst (fst r))) _ _ (snd r)).
  - vm_compute. congruence.
  - vm_compute. reflexivity.
Defined.

(** the comment on [slip_append] promises that a frame longer than the MTU
    is dropped up to the next END.  It is not: the byte that overflows empties
    the buffer and the rest of the same frame is collected as a new one, so the
    tail of an oversized packet is handed to IP as if it were a packet. *)
Theorem slip_oversize_tail_delivered a c b s :
  zlen a = SLIP_MTU -> 20 <= zlen b <= SLIP_MTU -> c <> SLIP_END -> c <> SLIP_ESC ->
  frame s = Some [] -> in_esc s = false ->
  exists s', slip_rq_putp s M_DATA [slip_encode (a ++ c :: b)] ([] : list bool)
             = (0, s', [b], []) /\ rx_overflow s' = u32 (rx_overflow s + 1).
Proof.
  intros Ha Hb Hc1 Hc2 Hf He. unfold slip_rq_putp. cbn [Z.eqb negb M_DATA].
  rewrite slip_rx_chain_concat. cbn [concat]. rewrite app_nil_r. unfold slip_encode.
  assert (H0 : slip_rx_bytes s [SLIP_END] ([] : list bool) = (s, [], [])).
  { cbn. unfold slip_rx_byte. by rewrite He, Hf. }
  rewrite slip_rx_bytes_app, H0, map_app, concat_app, <- app_assoc, slip_rx_bytes_app.
  rewrite (slip_rx_stuffed a s [] _ Hf He) by (rewrite zlen_nil; lia).
  cbn [app]. cbn [map concat]. rewrite <- app_assoc, slip_rx_bytes_app.
  apply Z.eqb_neq in Hc1, Hc2. destruct s; cbn in Hf, He; subst.
  assert (Hst : stuff c = [c]) by (unfold stuff; by rewrite Hc1, Hc2).
  rewrite Hst. set (s0 := mk_slip_state _ _ _ _ _ _).
  assert (Hov : slip_rx_bytes (s0 <| frame := Some a |>) [c] ([] : list bool) =
                (s0 <| rx_overflow := u32 (rx_overflow0 + 1) |>, [], [])).
  { cbn -[u32 zlen]. unfold slip_rx_byte. cbn -[zlen u32]. rewrite Hc1, Hc2.
    unfold slip_append. cbn -[zlen u32]. by rewrite Ha. }
  rewrite Hov, slip_rx_bytes_app, (slip_rx_stuffed b _ [])
    by (done || (rewrite zlen_nil; lia)).
  cbn -[zlen u32]. unfold slip_rx_byte. cbn -[zlen u32].
  destruct b as [|b0 b]; [rewrite zlen_nil in Hb; lia|].
  unfold slip_deliver_frame. cbn -[zlen u32].
  rewrite (u32_small (zlen _)) by (unfold SLIP_MTU in *; warith).
  destruct (zlen (b0 :: b) <? 20) eqn:E; [bool_prop; lia|]. cbn -[zlen u32]. eauto.
Qed.

Lemma slip_oversize_tail_delivered_witness :
  let s := mk_slip_state (Some []) false 0 0 0 0 in
  exists s', slip_rq_putp s M_DATA
               [slip_encode (replicate 296 65 ++ 66 :: replicate 40 67)] ([] : list bool)
             = (0, s', [replicate 40 67], []) /\ rx_overflow s' = u32 (rx_overflow s + 1).
Proof.
  intros s. apply (slip_oversize_tail_delivered (replicate 296 65) 66 (replicate 40 67) s).
  - reflexivity.
  - vm_compute; split; congruence.
  - discriminate.
  - discriminate.
  - reflexivity.
  - reflexivity.
Defined.

End Slip.
