(* ===== verification/Sched.v ===== *)
(** * The scheduler

    [uts/os/proc/sched.c] and [include/kappara/proc/sched.h]: threads, per-CPU
    dispatch queues, wait queues, the switch from one thread to the next, exit and
    reaping, signals to sleeping threads, and bringing CPUs up.

    A thread is known by its address, a key of [threads]; [0] is NULL.  The CPUs are
    the array [cpus]; a wait queue is known by its address.  The saved stack pointer
    of a thread says whether [context_switch] has stored its registers yet.

    The code runs on several CPUs at once and gives up its locks in the middle of
    [switch_to_next].  Each CPU therefore has a program counter [cpu_pc], and
    [sched_step] is the relation of all CPUs' steps: one step is one critical
    section.  The functions named after the C functions run the steps of one CPU
    without interruption.  The locks carried across a switch ([extra_release]) are
    part of the state; the others are only ever held within one step. *)

From stdpp Require Import base numbers list gmap relations.
From Stdlib Require Import ZArith Lia Bool.
From S2P Require Import Prelude.

Module Sched.

(** ** Constants *)

Definition KSCHED_NCPU : Z := 4.
Definition KSCHED_NPRI : Z := 64.
Definition KSCHED_PRI_TS_MIN : Z := 0.
Definition KSCHED_PRI_TS_MAX : Z := 49.
Definition KSCHED_PRI_TS_DEFAULT : Z := 30.
Definition KSCHED_PRI_SYS_DEFAULT : Z := 60.
Definition KSCHED_PRI_IDLE : Z := -1.
Definition TS_QUANTUM_TICKS : Z := 5.
Definition TS_DEMOTE_STEP : Z := 5.
Definition KSCHED_MAX_TID : Z := 256.
Definition EXIT_TAB_N : Z := 64.
Definition NSIG : Z := 32.

(** ** State *)

Inductive kt_state := KT_READY | KT_RUNNING | KT_BLOCKED | KT_DEAD.
Inductive sclass_id := SCLASS_SYS | SCLASS_TS.

#[export] Instance kt_state_eq_dec : EqDecision kt_state.
Proof. solve_decision. Defined.
#[export] Instance sclass_id_eq_dec : EqDecision sclass_id.
Proof. solve_decision. Defined.

(** What [sp] points at: nothing useful while the thread is on a CPU, the frame
    [context_switch] saved, or the frame [arch_thread_init_frame] laid down, which
    returns to [thread_trampoline]. *)
Inductive frame := Stale | Saved | Initial.

#[export] Instance frame_eq_dec : EqDecision frame.
Proof. solve_decision. Defined.

Record kthread := mk_kthread {
  sp : frame;
  stack_base : Z;
  comm : bytes;
  tid : Z;
  t_proc : Z;
  t_session : Z;
  t_pgrp : Z;
  state : kt_state;
  t_pri : Z;
  t_cid : sclass_id;
  t_quantum_left : Z;
  next : Z;
  sig_pending : Z;
  waiting_on : Z;
  t_exit_status : Z }.
#[export] Instance rebuild_kthread : Rebuild kthread :=
  rpure mk_kthread <:> sp <:> stack_base <:> comm <:> tid <:> t_proc <:> t_session <:> t_pgrp
    <:> state <:> t_pri <:> t_cid <:> t_quantum_left <:> next <:> sig_pending <:> waiting_on
    <:> t_exit_status.

(** [kmemset (t, 0, sizeof ( *t))] *)
Definition zero_kthread : kthread :=
  mk_kthread Stale 0 [] 0 0 0 0 KT_READY 0 SCLASS_SYS 0 0 0 0 0.

(** The spinlocks a thread may hold while it is switched out. *)
Inductive lock := Sq (wq : Z) | ToReap.

#[export] Instance lock_eq_dec : EqDecision lock.
Proof. solve_decision. Defined.
#[export] Program Instance lock_countable : Countable lock :=
  inj_countable' (fun l => match l with Sq w => inl w | ToReap => inr tt end)
                 (fun s => match s with inl w => Sq w | inr tt => ToReap end) _.
Next Obligation. by intros []. Qed.

(** Where a CPU is.  [Run]: in code outside the scheduler, interrupts on or off;
    the other places have interrupts masked.
    - [Exit i]: in [kthread_exit], waking the waiters (wake loop [i]);
    - [Swtch rq ex]: entering [switch_to_next (rq, ex)];
    - [Steal rq ex]: its own queue was empty and its lock is dropped;
    - [Chosen n rq ex]: [next = n] was stolen, or is the idle thread;
    - [Save prev]: [cpu_thread] is set and [context_switch] comes next;
    - [Load first]: on the stack of the new thread, which runs for the first time or
      returns into [switch_to_next]; step (8) comes next;
    - [Reap]: step (10) comes next;
    - [Halt]: in the endless loop after "nothing to run; deadlock". *)
Inductive pc :=
  | Off
  | Run
  | Exit (i : Z)
  | Swtch (rq : bool) (ex : option lock)
  | Steal (rq : bool) (ex : option lock)
  | Chosen (n : Z) (rq : bool) (ex : option lock)
  | Save (prev : Z)
  | Load (first : bool)
  | Reap
  | Halt.

#[export] Instance pc_eq_dec : EqDecision pc.
Proof. solve_decision. Defined.

Record cpu := mk_cpu {
  cpu_id : Z;
  cpu_thread : Z;
  cpu_idle : Z;
  cpu_pending_requeue : Z;
  cpu_pending_release_lock : option lock;
  cpu_dispq_head : gmap Z Z;
  cpu_dispq_tail : gmap Z Z;
  cpu_qactmap : Z;
  cpu_maxrunpri : Z;
  cpu_nrunnable : Z;
  cpu_pc : pc }.
#[export] Instance rebuild_cpu : Rebuild cpu :=
  rpure mk_cpu <:> cpu_id <:> cpu_thread <:> cpu_idle <:> cpu_pending_requeue
    <:> cpu_pending_release_lock <:> cpu_dispq_head <:> cpu_dispq_tail <:> cpu_qactmap
    <:> cpu_maxrunpri <:> cpu_nrunnable <:> cpu_pc.

(** A slot of [cpus] before its CPU is brought up. *)
Definition no_cpu : cpu := mk_cpu 0 0 0 0 None empty empty 0 KSCHED_PRI_IDLE 0 Off.

(** The variables of [sched.c].  [locks] tells which CPU holds which carried lock,
    [wakers] the local variable [t] of the wake loops that are under way: such a loop
    runs with interrupts on, so its thread may be preempted and moved to another CPU
    between any two iterations; [created] the threads whose creator has not called
    [kthread_dispatch] yet. *)
Record sched := mk_sched {
  threads : gmap Z kthread;
  cpus : gmap Z cpu;
  wq_head : gmap Z Z;
  locks : gmap lock Z;
  wakers : gmap Z Z;
  created : gset Z;
  cpu_idle_mask : Z;
  to_reap : Z;
  tid_table : gmap Z Z;
  next_tid : Z;
  exit_tab : gmap Z (Z * Z) }.
#[export] Instance rebuild_sched : Rebuild sched :=
  rpure mk_sched <:> threads <:> cpus <:> wq_head <:> locks <:> wakers <:> created <:> cpu_idle_mask
    <:> to_reap <:> tid_table <:> next_tid <:> exit_tab.

Definition kt (st : sched) (t : Z) : kthread := default zero_kthread (threads st !! t).
Definition assign (st : sched) (t : Z) (f : kthread -> kthread) : sched :=
  st <| threads := alter f t (threads st) |>.
Definition cpu_of (st : sched) (c : Z) : cpu := default no_cpu (cpus st !! c).
Definition set_cpu (st : sched) (c : Z) (f : cpu -> cpu) : sched :=
  st <| cpus := alter f c (cpus st) |>.
Definition goto (st : sched) (c : Z) (p : pc) : sched := set_cpu st c (fun k => k <| cpu_pc := p |>).

(** An entry of an array of pointers. *)
Definition slot (a : gmap Z Z) (i : Z) : Z := default 0 (a !! i).

(** [spin_lock] and [spin_unlock] of a carried lock, by the CPU [c]. *)
Definition spin_lock (st : sched) (c : Z) (l : lock) : sched := st <| locks := <[l := c]> (locks st) |>.
Definition spin_unlock (st : sched) (l : option lock) : sched :=
  match l with None => st | Some l => st <| locks := delete l (locks st) |> end.

(** ** Scheduling classes *)

Definition sys_cl_wakeup (t : kthread) : kthread := t.
Definition sys_cl_tick (t : kthread) : bool * kthread := (false, t).
Definition sys_cl_fork (t : kthread) : kthread :=
  t <| t_pri := KSCHED_PRI_SYS_DEFAULT |> <| t_quantum_left := 0 |>.

Definition ts_cl_wakeup (t : kthread) : kthread :=
  t <| t_pri := KSCHED_PRI_TS_DEFAULT |> <| t_quantum_left := TS_QUANTUM_TICKS |>.
Definition ts_cl_tick (t : kthread) : bool * kthread :=
  let t := if t_quantum_left t >? 0 then t <| t_quantum_left := t_quantum_left t - 1 |> else t in
  if t_quantum_left t =? 0 then
    let newp := t_pri t - TS_DEMOTE_STEP in
    let newp := if newp <? KSCHED_PRI_TS_MIN then KSCHED_PRI_TS_MIN else newp in
    (true, t <| t_pri := newp |> <| t_quantum_left := TS_QUANTUM_TICKS |>)
  else (false, t).
Definition ts_cl_fork (t : kthread) : kthread :=
  t <| t_pri := KSCHED_PRI_TS_DEFAULT |> <| t_quantum_left := TS_QUANTUM_TICKS |>.

Record sclass_ops := mk_sclass {
  cl_wakeup : kthread -> kthread;
  cl_tick : kthread -> bool * kthread;
  cl_fork : kthread -> kthread }.

Definition sclass (c : sclass_id) : sclass_ops :=
  match c with
  | SCLASS_SYS => mk_sclass sys_cl_wakeup sys_cl_tick sys_cl_fork
  | SCLASS_TS => mk_sclass ts_cl_wakeup ts_cl_tick ts_cl_fork
  end.

Definition kthread_setclass (st : sched) (t : Z) (cid : sclass_id) : sched :=
  assign st t (fun k => cl_fork (sclass cid) (k <| t_cid := cid |>)).

(** ** Dispatch queues *)

Definition dispq_clamp_pri (pri : Z) : Z :=
  if pri <? 0 then 0 else if pri >=? KSCHED_NPRI then KSCHED_NPRI - 1 else pri.

(** [63 - __builtin_clzll (m)] for [m] not zero is [Z.log2 m]. *)
Definition dispq_recompute_max (k : cpu) : cpu :=
  k <| cpu_maxrunpri := if cpu_qactmap k =? 0 then KSCHED_PRI_IDLE else Z.log2 (cpu_qactmap k) |>.

(** The end of [dispq_push_locked]: tail, bitmap, maximum and count. *)
Definition push_cpu (pri t : Z) (k : cpu) : cpu :=
  k <| cpu_dispq_tail := <[pri := t]> (cpu_dispq_tail k) |>
    <| cpu_qactmap := Z.lor (cpu_qactmap k) (Z.shiftl 1 pri) |>
    <| cpu_maxrunpri := if pri >? cpu_maxrunpri k then pri else cpu_maxrunpri k |>
    <| cpu_nrunnable := u32 (cpu_nrunnable k + 1) |>.

Definition dispq_push_locked (st : sched) (c t : Z) : sched :=
  let pri := dispq_clamp_pri (t_pri (kt st t)) in
  let st := assign st t (fun k => k <| next := 0 |>) in
  let tail := slot (cpu_dispq_tail (cpu_of st c)) pri in
  let st :=
    if negb (tail =? 0) then assign st tail (fun k => k <| next := t |>)
    else set_cpu st c (fun k => k <| cpu_dispq_head := <[pri := t]> (cpu_dispq_head k) |>) in
  set_cpu st c (push_cpu pri t).

(** [dispq_pop_locked] on the CPU, [n] being the thread behind the head. *)
Definition pop_cpu (pri n : Z) (k : cpu) : cpu :=
  let k := k <| cpu_dispq_head := <[pri := n]> (cpu_dispq_head k) |> in
  let k :=
    if n =? 0 then
      dispq_recompute_max (k <| cpu_dispq_tail := <[pri := 0]> (cpu_dispq_tail k) |>
        <| cpu_qactmap := Z.land (cpu_qactmap k) (Z.lnot (Z.shiftl 1 pri)) |>)
    else k in
  k <| cpu_nrunnable := u32 (cpu_nrunnable k - 1) |>.

Definition dispq_pop_locked (st : sched) (c : Z) : Z * sched :=
  let k := cpu_of st c in
  if cpu_qactmap k =? 0 then (0, st)
  else
    let pri := Z.log2 (cpu_qactmap k) in
    let t := slot (cpu_dispq_head k) pri in
    let n := next (kt st t) in
    let st := set_cpu st c (pop_cpu pri n) in
    (t, assign st t (fun k => k <| next := 0 |>)).

(** [0 .. KSCHED_NCPU-1], the loops over [cpus]. *)
Definition cpu_ids : list Z := [0; 1; 2; 3].

(** Path 1 of [pick_push_target]: the first CPU in [idle]. *)
Fixpoint first_idle (ids : list Z) (idle : Z) : option Z :=
  match ids with
  | [] => None
  | i :: ids => if has idle (Z.shiftl 1 i) then Some i else first_idle ids idle
  end.

(** Path 2: the peer with the shortest queue, if clearly shorter. *)
Fixpoint least_loaded (st : sched) (ids : list Z) (caller best best_n : Z) : Z :=
  match ids with
  | [] => best
  | i :: ids =>
      let v := cpu_of st i in
      if (i =? caller) || (cpu_idle v =? 0) then least_loaded st ids caller best best_n
      else if u32 (cpu_nrunnable v + 1) <? best_n
      then least_loaded st ids caller i (cpu_nrunnable v)
      else least_loaded st ids caller best best_n
  end.

Definition pick_push_target (st : sched) (caller : Z) : Z :=
  let idle := Z.land (cpu_idle_mask st) (Z.lnot (Z.shiftl 1 (cpu_id (cpu_of st caller)))) in
  match first_idle cpu_ids idle with
  | Some i => i
  | None =>
      let n := cpu_nrunnable (cpu_of st caller) in
      if n <? 2 then caller else least_loaded st cpu_ids caller caller n
  end.

(** The inter-processor interrupt at the end of [dispq_push] only ends the [wfi] of
    idle CPUs. *)
Definition dispq_push (st : sched) (c t : Z) : sched := dispq_push_locked st (pick_push_target st c) t.

(** ** Start-up *)

(** [sched_init]; [main] is the address of [main_thread], [init_process] that of the
    boot process. *)
Definition main_thread (init_process : Z) : kthread :=
  zero_kthread <| state := KT_RUNNING |> <| t_pri := KSCHED_PRI_IDLE |> <| t_proc := init_process |>.

Definition sched_init (main init_process : Z) : sched :=
  mk_sched {[ main := main_thread init_process ]}
    (<[0 := no_cpu <| cpu_thread := main |> <| cpu_idle := main |> <| cpu_pc := Run |>]>
       {[ 1 := no_cpu; 2 := no_cpu; 3 := no_cpu ]})
    empty empty empty empty 1 0 {[ 0 := main ]} 1 empty.

(** [sched_secondary_init] on the CPU [c]; [idle] is the block [kmalloc] returned. *)
Definition sched_secondary_init (st : sched) (c idle init_process : Z) : sched :=
  if c >=? KSCHED_NCPU then st
  else if idle =? 0 then st
  else
    let id := next_tid st in
    let st := st <| threads := <[idle := zero_kthread <| tid := id |> <| state := KT_RUNNING |>
                   <| t_pri := KSCHED_PRI_IDLE |> <| t_proc := init_process |>]> (threads st) |>
                 <| next_tid := u32 (id + 1) |> in
    let st := if id <? KSCHED_MAX_TID then st <| tid_table := <[id := idle]> (tid_table st) |> else st in
    let st := set_cpu st c (fun k => k <| cpu_id := c |> <| cpu_thread := idle |> <| cpu_idle := idle |>
                <| cpu_pc := Run |>) in
    st <| cpu_idle_mask := Z.lor (cpu_idle_mask st) (Z.shiftl 1 c) |>.

Definition sched_ncpu (st : sched) : Z :=
  let n := zlen (filter (fun i => cpu_idle (cpu_of st i) <> 0) cpu_ids) in
  if n =? 0 then 1 else n.

(** ** Creation *)

(** [kthread_create_internal] run by the current thread of CPU [c]; [t] and [stack]
    are what [kmalloc] and [pmm_alloc] returned.  The new thread's reference to its
    process is counted in [process.c]. *)
Definition kthread_create_internal (st : sched) (c t stack : Z) (name : bytes) : Z * sched :=
  if (t =? 0) || (stack =? 0) then (0, st)
  else
    let id := next_tid st in
    let parent := kt st (cpu_thread (cpu_of st c)) in
    let k := zero_kthread <| comm := take 31 name |> <| tid := id |> <| stack_base := stack |>
               <| state := KT_READY |> <| t_cid := SCLASS_SYS |> in
    let k := cl_fork (sclass SCLASS_SYS) k in
    let k := k <| t_session := t_session parent |> <| t_pgrp := t_pgrp parent |>
               <| t_proc := t_proc parent |> <| next := 0 |> <| sp := Initial |> in
    let st := st <| threads := <[t := k]> (threads st) |> <| next_tid := u32 (id + 1) |>
                 <| created := {[t]} ∪ created st |> in
    (t, if id <? KSCHED_MAX_TID then st <| tid_table := <[id := t]> (tid_table st) |> else st).

Definition dispatch_to (st : sched) (tgt t : Z) : sched :=
  dispq_push_locked (st <| created := created st ∖ {[t]} |>) tgt t.

Definition kthread_dispatch (st : sched) (c t : Z) : sched :=
  if t =? 0 then st else dispatch_to st (pick_push_target st c) t.

Definition kthread_create (st : sched) (c t stack : Z) (name : bytes) : Z * sched :=
  let '(t, st) := kthread_create_internal st c t stack name in
  if t =? 0 then (0, st) else (t, kthread_dispatch st c t).

(** ** The switch *)

(** The scan of [try_steal]: the peer with the highest [cpu_maxrunpri]. *)
Fixpoint steal_from (st : sched) (ids : list Z) (my best best_pri : Z) : Z :=
  match ids with
  | [] => best
  | i :: ids =>
      let v := cpu_of st i in
      if (i =? my) || (cpu_idle v =? 0) || (cpu_qactmap v =? 0) then steal_from st ids my best best_pri
      else if cpu_maxrunpri v >? best_pri then steal_from st ids my i (cpu_maxrunpri v)
      else steal_from st ids my best best_pri
  end.

(** [-1] stands for [best == NULL]. *)
Definition try_steal (st : sched) (my : Z) : Z * sched :=
  let best := steal_from st cpu_ids my (-1) KSCHED_PRI_IDLE in
  if best <? 0 then (0, st) else dispq_pop_locked st best.

(** The fall-backs after [try_steal] returned [t]. *)
Definition after_steal (st : sched) (c t : Z) (rq : bool) (ex : option lock) : sched :=
  if negb (t =? 0) then goto st c (Chosen t rq ex)
  else if rq then goto (spin_unlock st ex) c Run
  else if cpu_idle (cpu_of st c) =? 0 then goto st c Halt
  else goto st c (Chosen (cpu_idle (cpu_of st c)) rq ex).

(** Steps (4) to (6): [n] becomes the current thread. *)
Definition commit (st : sched) (c n : Z) (rq : bool) (ex : option lock) : sched :=
  let k := cpu_of st c in
  let prev := cpu_thread k in
  if n =? prev then goto (spin_unlock st ex) c Run
  else
    let requeue := rq && negb (prev =? cpu_idle k) in
    let st := if requeue then assign st prev (fun t => t <| state := KT_READY |>) else st in
    let st := assign st n (fun t => t <| state := KT_RUNNING |>) in
    let st := set_cpu st c (fun k => k <| cpu_pending_requeue := if requeue then prev else 0 |>
                <| cpu_pending_release_lock := ex |> <| cpu_thread := n |> <| cpu_pc := Save prev |>) in
    let mybit := Z.shiftl 1 (cpu_id k) in
    if n =? cpu_idle k then st <| cpu_idle_mask := Z.lor (cpu_idle_mask st) mybit |>
    else if prev =? cpu_idle k then st <| cpu_idle_mask := Z.land (cpu_idle_mask st) (Z.lnot mybit) |>
    else st.

(** Steps (1) to (3), with [cpu_disp_lock] held from the pop to step (6). *)
Definition swtch_pop (st : sched) (c : Z) (rq : bool) (ex : option lock) : sched :=
  let '(n, st) := dispq_pop_locked st c in
  if n =? 0 then goto st c (Steal rq ex) else commit st c n rq ex.

(** Step (7), [context_switch]: the registers of [prev] are saved, those of the
    current thread are loaded. *)
Definition context_switch (st : sched) (c prev : Z) : sched :=
  let st := assign st prev (fun t => t <| sp := Saved |>) in
  let n := cpu_thread (cpu_of st c) in
  let first := bool_decide (sp (kt st n) = Initial) in
  goto (assign st n (fun t => t <| sp := Stale |>)) c (Load first).

(** Steps (8) and (9), which are also [sched_finish_switch]: requeue the thread left
    behind, release the lock it carried. *)
Definition sched_finish_switch (st : sched) (c : Z) : sched :=
  let to_push := cpu_pending_requeue (cpu_of st c) in
  let st := set_cpu st c (fun k => k <| cpu_pending_requeue := 0 |>) in
  let st := if to_push =? 0 then st else dispq_push_locked st c to_push in
  let extra := cpu_pending_release_lock (cpu_of st c) in
  let st := set_cpu st c (fun k => k <| cpu_pending_release_lock := None |>) in
  spin_unlock st extra.

(** A thread that runs for the first time is in [thread_trampoline] and goes on with
    its function; any other returns into [switch_to_next] and reaps. *)
Definition load_next (st : sched) (c : Z) (first : bool) : sched :=
  goto (sched_finish_switch st c) c (if first then Run else Reap).

(** The [while (grab)] loop of step (10). *)
Fixpoint reap_loop (fuel : nat) (st : sched) (grab : Z) : sched :=
  match fuel with
  | O => st
  | S fuel =>
      if grab =? 0 then st
      else
        let t := kt st grab in
        let st :=
          if negb (stack_base t =? 0) then
            let st := if tid t <? KSCHED_MAX_TID
                      then st <| tid_table := <[tid t := 0]> (tid_table st) |> else st in
            st <| threads := delete grab (threads st) |>
          else st in
        reap_loop fuel st (next t)
  end.

Definition reap (st : sched) : sched :=
  let grab := to_reap st in
  reap_loop (S (size (threads st))) (st <| to_reap := 0 |>) grab.

(** [switch_to_next] without interruption by other CPUs. *)
Definition switch_tail (st : sched) (c : Z) : sched :=
  match cpu_pc (cpu_of st c) with
  | Save prev =>
      let st := context_switch st c prev in
      match cpu_pc (cpu_of st c) with
      | Load true => load_next st c true
      | Load false => goto (reap (load_next st c false)) c Run
      | _ => st
      end
  | _ => st
  end.

Definition switch_to_next (st : sched) (c : Z) (rq : bool) (ex : option lock) : sched :=
  let st := swtch_pop (goto st c (Swtch rq ex)) c rq ex in
  let st :=
    match cpu_pc (cpu_of st c) with
    | Steal rq ex => let '(t, st) := try_steal st c in after_steal st c t rq ex
    | _ => st
    end in
  let st :=
    match cpu_pc (cpu_of st c) with
    | Chosen n rq ex => commit st c n rq ex
    | _ => st
    end in
  switch_tail st c.

Definition kthread_yield (st : sched) (c : Z) : sched := switch_to_next st c true None.

(** ** Sleeping and waking *)

(** [kthread_sleep_on_locked] up to the switch: the current thread goes to the head
    of [wq], whose lock is carried into the switch.  [kthread_sleep_on] takes the
    lock first. *)
Definition sleep_enter (st : sched) (c wq : Z) : sched :=
  let t := cpu_thread (cpu_of st c) in
  let st := spin_lock st c (Sq wq) in
  let st := assign st t (fun k => k <| state := KT_BLOCKED |> <| waiting_on := wq |>
              <| next := slot (wq_head st) wq |>) in
  let st := st <| wq_head := <[wq := t]> (wq_head st) |> in
  goto st c (Swtch false (Some (Sq wq))).

(** The whole of [kthread_sleep_on] up to the point where another thread runs. *)
Definition kthread_sleep_on (st : sched) (c wq : Z) : sched :=
  switch_to_next (sleep_enter st c wq) c false (Some (Sq wq)).

(** What a waker does to each thread under [sq_lock]. *)
Definition make_ready (k : kthread) : kthread := k <| waiting_on := 0 |> <| state := KT_READY |>.
Definition wakeup (k : kthread) : kthread :=
  let k := make_ready k in cl_wakeup (sclass (t_cid k)) k.

(** [for (p = t; p; p = p->next)] over a detached chain. *)
Fixpoint mark (f : kthread -> kthread) (fuel : nat) (m : gmap Z kthread) (p : Z) : gmap Z kthread :=
  match fuel with
  | O => m
  | S fuel =>
      if p =? 0 then m
      else mark f fuel (alter f p m) (next (default zero_kthread (m !! p)))
  end.

Definition mark_all (f : kthread -> kthread) (st : sched) (p : Z) : sched :=
  st <| threads := mark f (S (size (threads st))) (threads st) p |>.

(** [kthread_wake_all] under [sq_lock]: detach the chain and mark it. *)
Definition wake_detach (f : kthread -> kthread) (st : sched) (wq : Z) : Z * sched :=
  let t := slot (wq_head st) wq in
  (t, mark_all f (st <| wq_head := <[wq := 0]> (wq_head st) |>) t).

(** One round of the [while (t)] loop: [tgt] is the CPU [pick_push_target] chose. *)
Definition wake_push (st : sched) (tgt t : Z) : Z * sched :=
  let n := next (kt st t) in
  (n, dispq_push_locked (assign st t (fun k => k <| next := 0 |>)) tgt t).

Fixpoint push_chain (fuel : nat) (st : sched) (c t : Z) : sched :=
  match fuel with
  | O => st
  | S fuel =>
      if t =? 0 then st
      else let '(n, st) := wake_push st (pick_push_target st c) t in push_chain fuel st c n
  end.

Definition kthread_wake_all (st : sched) (c wq : Z) : sched :=
  let '(t, st) := wake_detach wakeup st wq in
  push_chain (S (size (threads st))) st c t.

(** [kthread_wake_one] under [sq_lock]; the thread to push, if any. *)
Definition wake_one_detach (st : sched) (wq : Z) : Z * sched :=
  let t := slot (wq_head st) wq in
  if t =? 0 then (0, st)
  else
    let st := st <| wq_head := <[wq := next (kt st t)]> (wq_head st) |> in
    (t, assign st t (fun k => wakeup (k <| next := 0 |>))).

Definition kthread_wake_one (st : sched) (c wq : Z) : sched :=
  let '(t, st) := wake_one_detach st wq in
  if t =? 0 then st else dispq_push st c t.

(** ** Look-up and signals *)

Definition kthread_at (st : sched) (id : Z) : Z :=
  if id >=? KSCHED_MAX_TID then 0 else slot (tid_table st) id.

Definition kthread_find (st : sched) (id : Z) : Z :=
  let t := kthread_at st id in
  if negb (t =? 0) && bool_decide (state (kt st t) = KT_DEAD) then 0 else t.

(** The address of [t->sigwait_wq]. *)
Definition sigwait_wq (t : Z) : Z := - t.

(** The search for the predecessor of [t] and its unlinking. *)
Fixpoint unlink_after (fuel : nat) (m : gmap Z kthread) (p t : Z) : gmap Z kthread :=
  match fuel with
  | O => m
  | S fuel =>
      if p =? 0 then m
      else
        let n := next (default zero_kthread (m !! p)) in
        if n =? t then alter (fun k => k <| next := next (default zero_kthread (m !! t)) |>) p m
        else unlink_after fuel m n t
  end.

Definition wq_unlink (st : sched) (wq t : Z) : sched :=
  if slot (wq_head st) wq =? t
  then st <| wq_head := <[wq := next (kt st t)]> (wq_head st) |>
  else st <| threads := unlink_after (S (size (threads st))) (threads st) (slot (wq_head st) wq) t |>.

(** The part of [kthread_signal] under the lock of [wq]: take [t] off if it sleeps
    there; the flag is [needs_dispq_push]. *)
Definition signal_unlink (st : sched) (wq t : Z) : bool * sched :=
  if bool_decide (state (kt st t) = KT_BLOCKED) && (waiting_on (kt st t) =? wq)
  then (true, assign (wq_unlink st wq t) t (fun k => wakeup (k <| next := 0 |>)))
  else (false, st).

Definition SIGBIT (sig : Z) : Z := Z.shiftl 1 (sig - 1).

Definition signal_mark (st : sched) (t sig : Z) : bool * sched :=
  signal_unlink (assign st t (fun k => k <| sig_pending := Z.lor (sig_pending k) (SIGBIT sig) |>))
    (sigwait_wq t) t.

Definition kthread_signal (st : sched) (c t sig : Z) : Z * sched :=
  if (t =? 0) || (sig =? 0) || (sig >=? NSIG) then (-1, st)
  else
    let '(woke, st) := signal_mark st t sig in
    let '(push, st) :=
      if woke : bool then (true, st)
      else if bool_decide (state (kt st t) = KT_BLOCKED) && negb (waiting_on (kt st t) =? 0)
      then signal_unlink st (waiting_on (kt st t)) t
      else (false, st) in
    (0, if push : bool then dispq_push st c t else st).

Fixpoint signal_each (ids : list Z) (st : sched) (c pgrp sig n : Z) : Z * sched :=
  match ids with
  | [] => (n, st)
  | i :: ids =>
      let t := kthread_at st i in
      if (t =? 0) || bool_decide (state (kt st t) = KT_DEAD) || negb (t_pgrp (kt st t) =? pgrp)
      then signal_each ids st c pgrp sig n
      else let '(r, st) := kthread_signal st c t sig in
           signal_each ids st c pgrp sig (if r =? 0 then n + 1 else n)
  end.

Definition kthread_signal_pgrp (st : sched) (c pgrp sig : Z) : Z * sched :=
  if pgrp =? 0 then (0, st)
  else signal_each (seqZ 0 KSCHED_MAX_TID) st c pgrp sig 0.

(** ** Exit *)

Definition thread_exit_wq : Z := 1.
Definition sched_tick_wq : Z := 2.

Definition exit_tab_store (st : sched) (id status : Z) : sched :=
  st <| exit_tab := <[id mod EXIT_TAB_N := (id, status)]> (exit_tab st) |>.

Definition kthread_exit_status (st : sched) (id : Z) : Z :=
  let '(i, s) := default (0, 0) (exit_tab st !! (id mod EXIT_TAB_N)) in
  if i =? id then s else 0.

(** [kthread_exit] up to the release of [thread_exit_wq.sq_lock]; [vfs_drain_fds] is
    the file layer's.  The result is the chain of waiters to push. *)
Definition exit_enter (st : sched) (c status : Z) : Z * sched :=
  let me := cpu_thread (cpu_of st c) in
  let st := assign st me (fun k => k <| t_exit_status := status |>) in
  let st := exit_tab_store st (tid (kt st me)) status in
  let st := spin_lock st c ToReap in
  let st := assign st me (fun k => k <| state := KT_DEAD |> <| next := to_reap st |>) in
  let st := st <| to_reap := me |> in
  wake_detach make_ready st thread_exit_wq.

Definition kthread_exit (st : sched) (c status : Z) : sched :=
  let '(t, st) := exit_enter st c status in
  let st := push_chain (S (size (threads st))) st c t in
  switch_to_next st c false (Some ToReap).

(** ** The clock *)

(** [sched_tick] after [streams_run] and [tcp_tick], which do not touch threads:
    the class is consulted, and the thread yields when its quantum is over or a
    thread of its priority or above is queued. *)
Definition tick_class (st : sched) (c : Z) : bool * sched :=
  let cur := cpu_thread (cpu_of st c) in
  let '(preempt, k) := cl_tick (sclass (t_cid (kt st cur))) (kt st cur) in
  let st := assign st cur (fun _ => k) in
  (preempt || (cpu_maxrunpri (cpu_of st c) >=? t_pri k), st).

Definition sched_tick (st : sched) (c : Z) : sched :=
  let st := if negb (slot (wq_head st) sched_tick_wq =? 0)
            then kthread_wake_all st c sched_tick_wq else st in
  if cpu_thread (cpu_of st c) =? 0 then st
  else
    let '(yield, st) := tick_class st c in
    if yield : bool then kthread_yield st c else st.

(** ** All CPUs

    One step of any CPU.  A step that takes a lock needs it free.  Reads that the code
    makes without a lock may be out of date when they are used: which CPU
    [pick_push_target] names and which victim [try_steal] finds is therefore left
    open, up to the checks that cannot change under the reader.  A thread never sleeps
    or exits while it is its CPU's idle thread.  [kthread_setclass] takes no lock and is
    called on threads that [kthread_create] has dispatched already: it may come while
    the thread is new, queued, running, asleep or dead. *)

Definition at_pc (st : sched) (c : Z) (p : pc) : Prop :=
  exists k, cpus st !! c = Some k /\ cpu_pc k = p.
Definition online (st : sched) (c : Z) : Prop :=
  exists k, cpus st !! c = Some k /\ cpu_idle k <> 0.
Definition not_idle (st : sched) (c : Z) : Prop :=
  cpu_thread (cpu_of st c) <> cpu_idle (cpu_of st c).
Definition start_waker (r : Z * sched) (i : Z) : sched :=
  r.2 <| wakers := <[i := r.1]> (wakers r.2) |>.

Inductive sched_step (st : sched) : sched -> Prop :=
  | st_yield c : at_pc st c Run -> sched_step st (goto st c (Swtch true None))
  | st_tick c : at_pc st c Run -> sched_step st
      (let '(yield, st') := tick_class st c in if yield : bool then goto st' c (Swtch true None) else st')
  | st_setclass t cid : is_Some (threads st !! t) -> sched_step st (kthread_setclass st t cid)
  | st_create c t stack name : at_pc st c Run -> threads st !! t = None -> t <> 0 -> stack <> 0 ->
      sched_step st (kthread_create_internal st c t stack name).2
  | st_dispatch t tgt : t ∈ created st -> online st tgt -> sched_step st (dispatch_to st tgt t)
  | st_sleep c wq : at_pc st c Run -> not_idle st c -> wq <> 0 -> locks st !! Sq wq = None ->
      sched_step st (sleep_enter st c wq)
  | st_wake_all wq i : locks st !! Sq wq = None -> wakers st !! i = None ->
      sched_step st (start_waker (wake_detach wakeup st wq) i)
  | st_wake_one wq i : locks st !! Sq wq = None -> wakers st !! i = None ->
      sched_step st (start_waker (wake_one_detach st wq) i)
  | st_wake_push i t tgt : wakers st !! i = Some t -> t <> 0 -> online st tgt ->
      sched_step st (start_waker (wake_push st tgt t) i)
  | st_signal t sig i : is_Some (threads st !! t) -> locks st !! Sq (sigwait_wq t) = None ->
      wakers st !! i = None -> sched_step st
      (let '(woke, st') := signal_mark st t sig in if woke : bool then start_waker (t, st') i else st')
  | st_signal_wq t wq i : is_Some (threads st !! t) -> wq <> 0 -> locks st !! Sq wq = None ->
      wakers st !! i = None -> sched_step st
      (let '(woke, st') := signal_unlink st wq t in if woke : bool then start_waker (t, st') i else st')
  | st_exit c status i : at_pc st c Run -> not_idle st c -> locks st !! ToReap = None ->
      locks st !! Sq thread_exit_wq = None -> wakers st !! i = None ->
      sched_step st (goto (start_waker (exit_enter st c status) i) c (Exit i))
  | st_exit_done c i : at_pc st c (Exit i) -> wakers st !! i = Some 0 ->
      sched_step st (goto st c (Swtch false (Some ToReap)))
  | st_pop c rq ex : at_pc st c (Swtch rq ex) -> sched_step st (swtch_pop st c rq ex)
  | st_steal c v rq ex : at_pc st c (Steal rq ex) -> v <> c -> online st v ->
      sched_step st (let '(t, st') := dispq_pop_locked st v in after_steal st' c t rq ex)
  | st_no_steal c rq ex : at_pc st c (Steal rq ex) -> sched_step st (after_steal st c 0 rq ex)
  | st_commit c n rq ex : at_pc st c (Chosen n rq ex) -> sched_step st (commit st c n rq ex)
  | st_save c prev : at_pc st c (Save prev) -> sched_step st (context_switch st c prev)
  | st_load c first : at_pc st c (Load first) -> sched_step st (load_next st c first)
  | st_reap c : at_pc st c Reap -> locks st !! ToReap = None -> sched_step st (goto (reap st) c Run)
  | st_online c idle init_process : at_pc st c Off -> 0 <= c < KSCHED_NCPU ->
      threads st !! idle = None -> idle <> 0 ->
      sched_step st (sched_secondary_init st c idle init_process).

Definition reachable (main init_process : Z) (st : sched) : Prop :=
  rtc sched_step (sched_init main init_process) st.

End Sched.
