(* ===== verification/SchedInv.v ===== *)
(** * The invariant of the scheduler

    Every thread is in one place: current on a CPU, on a dispatch queue, on a wait
    queue, held by a wake loop, stashed for requeueing, stolen, new, idle, or dead and
    waiting to be reaped.  The invariant has two halves.  [queues_ok] is about the
    links: the lists of all queues, their tails, bitmaps and counts.  [ctl_ok] is
    about control: what each CPU is doing with which thread, which lock it carries,
    and whose registers are saved.  Every step of [sched_step] keeps both. *)

From stdpp Require Import functions base numbers list gmap relations.
From Stdlib Require Import ZArith Lia Bool.
From S2P Require Import Prelude Links Sched.

Module SchedInv.
Import Links Sched.

(** ** Places *)

Inductive home := HDisp (c p : Z) | HWait (wq : Z) | HWake (i : Z) | HReap.

#[export] Instance home_eq_dec : EqDecision home.
Proof. solve_decision. Defined.

Inductive place := In (h : home) | Cur (c : Z) | Pend (c : Z) | Got (c : Z) | New | Idle (c : Z).

#[export] Instance place_eq_dec : EqDecision place.
Proof. solve_decision. Defined.

Definition head_of (st : sched) (h : home) : Z :=
  match h with
  | HDisp c p => slot (cpu_dispq_head (cpu_of st c)) p
  | HWait wq => slot (wq_head st) wq
  | HWake i => slot (wakers st) i
  | HReap => to_reap st
  end.

(** The lock whose holder may still be running on a thread of the queue. *)
Definition lock_of (h : home) : option lock :=
  match h with HWait wq => Some (Sq wq) | HReap => Some ToReap | _ => None end.

(** ** Dispatch queues *)

(** Number of threads on the queues [fq] of a CPU. *)
Definition total (fq : Z -> list Z) : Z :=
  foldr (fun p n => zlen (fq p) + n) 0 (seqZ 0 KSCHED_NPRI).

(** The tails, the bitmap, the cached maximum and the count of a CPU agree with its
    queues [fq]. *)
Record dq_ok (k : cpu) (fq : Z -> list Z) : Prop := mk_dq_ok {
  dq_range : forall p, fq p <> [] -> 0 <= p < KSCHED_NPRI;
  dq_tail : forall p, slot (cpu_dispq_tail k) p = default 0 (last (fq p));
  dq_pos : 0 <= cpu_qactmap k;
  dq_map : forall p, 0 <= p -> Z.testbit (cpu_qactmap k) p = bool_decide (fq p <> []);
  dq_max : cpu_maxrunpri k = if cpu_qactmap k =? 0 then KSCHED_PRI_IDLE else Z.log2 (cpu_qactmap k);
  dq_count : cpu_nrunnable k = u32 (total fq) }.

Definition queues_ok (st : sched) (ls : home -> list Z) : Prop :=
  chains next (threads st) (head_of st) ls
  /\ forall c k, cpus st !! c = Some k -> dq_ok k (fun p => ls (HDisp c p)).

(** ** Control *)

Definition tied (c : Z) (p : place) : Prop := p = Cur c \/ p = Pend c \/ p = Got c \/ p = Idle c.

(** The thread whose registers the CPU is running on. *)
Definition exec (k : cpu) : Z := match cpu_pc k with Save prev => prev | _ => cpu_thread k end.

(** The carried lock a CPU holds. *)
Definition held (k : cpu) : option lock :=
  match cpu_pc k with
  | Swtch _ ex | Steal _ ex | Chosen _ _ ex => ex
  | Exit _ => Some ToReap
  | Save _ | Load _ => cpu_pending_release_lock k
  | _ => None
  end.

Section Control.
Context (pl : gmap Z place) (c : Z) (k : cpu).

(** [x] is the CPU's current thread and on no queue. *)
Definition is_cur (x : Z) : Prop :=
  pl !! x = Some (Cur c) \/ (x = cpu_idle k /\ pl !! x = Some (Idle c)).

(** [x] is on a queue guarded by the lock [ex]. *)
Definition parked (x : Z) (ex : option lock) : Prop :=
  exists h l, pl !! x = Some (In h) /\ lock_of h = Some l /\ ex = Some l.

Definition leaving (rq : bool) (ex : option lock) : Prop :=
  if rq then is_cur (cpu_thread k) /\ ex = None else parked (cpu_thread k) ex.

Definition pc_ok : Prop :=
  match cpu_pc k with
  | Off => cpu_idle k = 0 /\ cpu_thread k = 0
  | Run | Reap | Load _ => is_cur (cpu_thread k)
  | Exit _ => pl !! cpu_thread k = Some (In HReap)
  | Swtch rq ex | Steal rq ex => leaving rq ex
  | Chosen n rq ex => leaving rq ex /\ (pl !! n = Some (Got c) \/ (n = cpu_idle k /\ rq = false))
  | Save prev =>
      is_cur (cpu_thread k) /\ prev <> cpu_thread k
      /\ (if cpu_pending_requeue k =? 0
          then (prev = cpu_idle k /\ cpu_pending_release_lock k = None)
               \/ parked prev (cpu_pending_release_lock k)
          else prev = cpu_pending_requeue k /\ cpu_pending_release_lock k = None)
  | Halt => False
  end.

Definition may_pend : Prop := match cpu_pc k with Save _ | Load _ => True | _ => False end.

Record cpu_ok : Prop := mk_cpu_ok {
  co_pc : pc_ok;
  co_on : cpu_pc k <> Off -> cpu_idle k <> 0;
  co_idle : cpu_idle k <> 0 -> pl !! cpu_idle k = Some (Idle c);
  co_pend : cpu_pending_requeue k <> 0 -> pl !! cpu_pending_requeue k = Some (Pend c) /\ may_pend;
  co_is_cur : forall x, pl !! x = Some (Cur c) -> x = cpu_thread k;
  co_is_pend : forall x, pl !! x = Some (Pend c) -> x = cpu_pending_requeue k;
  co_is_got : forall x, pl !! x = Some (Got c) -> exists rq ex, cpu_pc k = Chosen x rq ex;
  co_is_idle : forall x, pl !! x = Some (Idle c) -> x = cpu_idle k }.

End Control.

(** A thread is on the dispatch queue of its priority, unless its class was set while
    it was there; its priority is then the one its class starts with. *)
Definition start_pri (cid : sclass_id) : Z := t_pri (cl_fork (sclass cid) zero_kthread).
Definition level_ok (t : kthread) (q : Z) : Prop :=
  dispq_clamp_pri (t_pri t) = q \/ t_pri t = start_pri (t_cid t).

(** What the fields of a thread say in each place. *)
Definition thread_ok (t : kthread) (p : place) : Prop :=
  match p with
  | In (HDisp _ q) => state t = KT_READY /\ level_ok t q
  | In (HWait wq) => state t = KT_BLOCKED /\ waiting_on t = wq
  | In HReap => state t = KT_DEAD
  | Cur _ | Idle _ => state t = KT_RUNNING
  | _ => state t = KT_READY
  end /\ match p with Idle _ => True | _ => stack_base t <> 0 end.

Lemma queue_thread_ok t c : state t = KT_READY /\ stack_base t <> 0 ->
  thread_ok t (In (HDisp c (dispq_clamp_pri (t_pri t)))).
Proof. intros [H1 H2]. split; [|done]. split; [done|]. by left. Qed.

Record ctl_ok (T : gmap Z kthread) (K : gmap Z cpu) (lk : gmap lock Z) (cr : gset Z)
    (pl : gmap Z place) : Prop := mk_ctl_ok {
  c_zero : T !! 0 = None;
  c_dom : forall x, is_Some (pl !! x) <-> is_Some (T !! x);
  c_thread : forall x t p, T !! x = Some t -> pl !! x = Some p -> thread_ok t p;
  c_cpu : forall c k, K !! c = Some k -> cpu_ok pl c k;
  c_tied : forall x p c, pl !! x = Some p -> tied c p -> is_Some (K !! c);
  c_locks : forall c l, lk !! l = Some c <-> exists k, K !! c = Some k /\ held k = Some l;
  c_sp : forall x t, T !! x = Some t -> sp t = Stale <-> exists c k, K !! c = Some k /\ exec k = x;
  c_new : forall x, x ∈ cr <-> pl !! x = Some New }.

Record inv (st : sched) (pl : gmap Z place) (ls : home -> list Z) : Prop := mk_inv {
  i_queues : queues_ok st ls;
  i_ctl : ctl_ok (threads st) (cpus st) (locks st) (created st) pl;
  i_in : forall h x, x ∈ ls h <-> pl !! x = Some (In h) }.

(** ** Lemmas on dispatch queues *)

Lemma dispq_clamp_range p : 0 <= dispq_clamp_pri p < KSCHED_NPRI.
Proof. unfold dispq_clamp_pri, KSCHED_NPRI. repeat case_if; bool_prop; lia. Qed.

Lemma foldr_total_ext (fq fq' : Z -> list Z) ps : (forall p, p ∈ ps -> fq p = fq' p) ->
  foldr (fun p n => zlen (fq p) + n) 0 ps = foldr (fun p n => zlen (fq' p) + n) 0 ps.
Proof.
  induction ps as [|p ps IH]; intros E; cbn [foldr]; [done|].
  rewrite (E p), IH; [done| |apply list_elem_of_here]. intros q Hq. apply E. by apply list_elem_of_further.
Qed.

Lemma foldr_total_set (fq : Z -> list Z) q l ps : NoDup ps -> q ∈ ps ->
  foldr (fun p n => zlen ((<[q := l]> fq) p) + n) 0 ps
  = foldr (fun p n => zlen (fq p) + n) 0 ps - zlen (fq q) + zlen l.
Proof.
  intros Hd. induction Hd as [|p ps Hp Hd IH]; intros Hq; [by apply elem_of_nil in Hq|].
  cbn [foldr]. destruct (decide (p = q)) as [->|Hne].
  - rewrite fn_lookup_insert, (foldr_total_ext _ fq); [lia|].
    intros r Hr. rewrite fn_lookup_insert_ne; [done|]. by intros ->.
  - rewrite fn_lookup_insert_ne by done. apply elem_of_cons in Hq as [->|Hq]; [done|].
    rewrite IH by done. lia.
Qed.

Lemma total_set fq q l : 0 <= q < KSCHED_NPRI ->
  total (<[q := l]> fq) = total fq - zlen (fq q) + zlen l.
Proof.
  intros Hq. apply foldr_total_set; [apply NoDup_seqZ|]. apply elem_of_seqZ. lia.
Qed.

Lemma dq_ok_ext k fq fq' : (forall p, fq' p = fq p) -> dq_ok k fq -> dq_ok k fq'.
Proof.
  intros E [H1 H2 H3 H4 H5 H6]. constructor; [| |done| |done|].
  - intros p. rewrite E. apply H1.
  - intros p. by rewrite E.
  - intros p. rewrite E. apply H4.
  - rewrite H6. f_equal. by apply foldr_total_ext.
Qed.

(** The fields other than those of the dispatch queue. *)
Definition ccore (k : cpu) : cpu :=
  k <| cpu_dispq_head := empty |> <| cpu_dispq_tail := empty |> <| cpu_qactmap := 0 |>
    <| cpu_maxrunpri := 0 |> <| cpu_nrunnable := 0 |>.
(** The fields other than the link. *)
Definition tcore (t : kthread) : kthread := t <| next := 0 |>.

Lemma slot_insert a i v j : slot (<[i := v]> a) j = if decide (j = i) then v else slot a j.
Proof.
  unfold slot. destruct (decide (j = i)) as [->|]; [by rewrite lookup_insert_eq|].
  by rewrite lookup_insert_ne.
Qed.

Lemma dq_ok_head k fq hd : dq_ok k fq -> dq_ok (k <| cpu_dispq_head := hd |>) fq.
Proof. by intros [? ? ? ? ? ?]; constructor. Qed.

Lemma testbit_shiftl1 n i : 0 <= n -> 0 <= i -> Z.testbit (Z.shiftl 1 n) i = (i =? n).
Proof.
  intros Hn Hi. rewrite Z.shiftl_spec by done. destruct (Z.eqb_spec i n) as [->|Hne].
  - by rewrite Z.sub_diag.
  - destruct (decide (i < n)); [by rewrite Z.testbit_neg_r by lia|].
    rewrite Z.bits_above_log2; [done|done|]. change (Z.log2 1) with 0. lia.
Qed.

Lemma dq_ok_push k fq pri t : dq_ok k fq -> 0 <= pri < KSCHED_NPRI -> t <> 0 ->
  dq_ok (push_cpu pri t k) (<[pri := fq pri ++ [t]]> fq).
Proof.
  intros [H1 H2 H3 H4 H5 H6] Hp Ht.
  assert (Hs : 0 < Z.shiftl 1 pri) by (rewrite Z.shiftl_1_l; lia).
  assert (Hl : 0 < Z.lor (cpu_qactmap k) (Z.shiftl 1 pri)).
  { enough (Z.lor (cpu_qactmap k) (Z.shiftl 1 pri) <> 0) by (pose proof (proj2 (Z.lor_nonneg (cpu_qactmap k) (Z.shiftl 1 pri))); lia).
    intros [_ E]%Z.lor_eq_0_iff. lia. }
  constructor; cbn.
  - intros p. destruct (decide (p = pri)) as [->|]; [done|]. rewrite fn_lookup_insert_ne by done. apply H1.
  - intros p. rewrite slot_insert. destruct (decide (p = pri)) as [->|Hne].
    + rewrite fn_lookup_insert. by rewrite last_snoc.
    + rewrite fn_lookup_insert_ne by done. apply H2.
  - lia.
  - intros p Hp0. rewrite Z.lor_spec, testbit_shiftl1, H4 by lia.
    destruct (Z.eqb_spec p pri) as [->|Hne].
    + rewrite fn_lookup_insert, orb_true_r. symmetry. apply bool_decide_eq_true. by destruct (fq pri).
    + rewrite fn_lookup_insert_ne, orb_false_r by done. done.
  - rewrite (proj2 (Z.eqb_neq _ 0)) by lia.
    rewrite Z.log2_lor, Z.log2_shiftl, Z.log2_1, Z.add_0_l, H5 by lia.
    pose proof (Z.log2_nonneg (cpu_qactmap k)). destruct (cpu_qactmap k =? 0) eqn:Eq; bool_prop.
    + rewrite Eq. cbn. unfold KSCHED_PRI_IDLE. case_if; bool_prop; lia.
    + case_if; bool_prop; lia.
  - rewrite H6, total_set by done. unfold zlen. rewrite length_app. cbn. warith.
Qed.

Lemma dq_ok_pop k fq t r : dq_ok k fq -> cpu_qactmap k <> 0 ->
  let pri := Z.log2 (cpu_qactmap k) in
  fq pri = t :: r -> t <> 0 -> (forall x, x ∈ r -> x <> 0) ->
  dq_ok (pop_cpu pri (default 0 (head r)) k) (<[pri := r]> fq).
Proof.
  intros [H1 H2 H3 H4 H5 H6] Hq pri Ef Ht Hr.
  assert (Hp : 0 <= pri < KSCHED_NPRI) by (apply H1; by rewrite Ef).
  assert (Hother : forall p, p <> pri -> (<[pri := r]> fq) p = fq p) by (intros; by apply fn_lookup_insert_ne).
  assert (Hcount : cpu_nrunnable k - 1 = u32 (total fq) - 1) by lia.
  unfold pop_cpu. destruct r as [|y r]; cbn [head from_option id].
  - constructor; cbn.
    + intros p. destruct (decide (p = pri)) as [->|Hne]; [done|]. rewrite Hother by done. apply H1.
    + intros p. rewrite slot_insert. destruct (decide (p = pri)) as [->|Hne]; [by rewrite fn_lookup_insert|].
      rewrite Hother by done. apply H2.
    + apply Z.land_nonneg. by left.
    + intros p Hp0. rewrite Z.land_spec, Z.lnot_spec, testbit_shiftl1, H4 by lia.
      destruct (Z.eqb_spec p pri) as [->|Hne]; [by rewrite fn_lookup_insert, andb_false_r|].
      by rewrite Hother, andb_true_r by done.
    + done.
    + rewrite H6, total_set, Ef by done. unfold zlen. cbn. warith.
  - rewrite (proj2 (Z.eqb_neq y 0)) by (apply Hr, list_elem_of_here). constructor; cbn.
    + intros p. destruct (decide (p = pri)) as [->|Hne]; [done|]. rewrite Hother by done. apply H1.
    + intros p. rewrite H2. destruct (decide (p = pri)) as [->|Hne]; [by rewrite fn_lookup_insert, Ef|].
      by rewrite Hother.
    + done.
    + intros p Hp0. rewrite H4 by done. destruct (decide (p = pri)) as [->|Hne]; [|by rewrite Hother].
      by rewrite fn_lookup_insert, Ef.
    + done.
    + rewrite H6, total_set, Ef by done. unfold zlen. cbn. warith.
Qed.

(** ** Lemmas on the queues of a state *)

(** The parts of the state that dispatch queue operations leave alone. *)
Definition same_rest (st st' : sched) : Prop :=
  wq_head st' = wq_head st /\ locks st' = locks st /\ wakers st' = wakers st
  /\ created st' = created st /\ to_reap st' = to_reap st.

Lemma queues_lookup st ls h x : queues_ok st ls -> x ∈ ls h -> x <> 0 /\ is_Some (threads st !! x).
Proof. intros [Hc _]. by eapply chains_member. Qed.

(** A change that keeps links, heads and dispatch queues. *)
Lemma queues_ext st st' ls : queues_ok st ls ->
  (forall h x, x ∈ ls h -> next <$> threads st' !! x = next <$> threads st !! x) ->
  (forall h, head_of st' h = head_of st h) ->
  (forall c k', cpus st' !! c = Some k' -> exists k, cpus st !! c = Some k
     /\ cpu_dispq_tail k' = cpu_dispq_tail k /\ cpu_qactmap k' = cpu_qactmap k
     /\ cpu_maxrunpri k' = cpu_maxrunpri k /\ cpu_nrunnable k' = cpu_nrunnable k) ->
  queues_ok st' ls.
Proof.
  intros [Hc Hq] Hn Hh Hk. split; [by eapply chains_ext|].
  intros c k' Hk'. destruct (Hk c k' Hk') as (k & Hck & E1 & E2 & E3 & E4).
  destruct (Hq c k Hck) as [H1 H2 H3 H4 H5 H6]. constructor; rewrite ?E1, ?E2, ?E3, ?E4; done.
Qed.

(** Only the queues of the CPU [c] change. *)
Lemma queues_disp st st' ls c p l k g : queues_ok st ls -> cpus st !! c = Some k ->
  cpus st' = alter g c (cpus st) ->
  chains next (threads st') (head_of st') (<[HDisp c p := l]> ls) ->
  dq_ok (g k) (<[p := l]> (fun p => ls (HDisp c p))) ->
  queues_ok st' (<[HDisp c p := l]> ls).
Proof.
  intros [Hc Hq] Hk Hcp Hch Hdq. split; [done|]. intros c' k'. rewrite Hcp.
  destruct (decide (c' = c)) as [->|Hne].
  - rewrite lookup_alter_eq, Hk. intros [= <-]. eapply dq_ok_ext; [|exact Hdq]. intros q.
    destruct (decide (q = p)) as [->|]; [by rewrite !fn_lookup_insert|].
    rewrite !fn_lookup_insert_ne by congruence. done.
  - rewrite lookup_alter_ne by done. intros Hk'. eapply dq_ok_ext; [|by apply Hq].
    intros q. cbn. by rewrite fn_lookup_insert_ne by congruence.
Qed.

Lemma cpu_of_lookup st c k : cpus st !! c = Some k -> cpu_of st c = k.
Proof. unfold cpu_of. by intros ->. Qed.

Lemma kt_lookup st x t : threads st !! x = Some t -> kt st x = t.
Proof. unfold kt. by intros ->. Qed.

Lemma fmap_next_alter (f : kthread -> kthread) (x : Z) (m : gmap Z kthread) y : x <> y ->
  next <$> alter f x m !! y = next <$> m !! y.
Proof. intros. by rewrite lookup_alter_ne. Qed.

Lemma push_queues st ls c t k n : queues_ok st ls -> cpus st !! c = Some k ->
  threads st !! t = Some n -> t <> 0 -> (forall h, t ∉ ls h) ->
  let p := dispq_clamp_pri (t_pri n) in let st' := dispq_push_locked st c t in
  queues_ok st' (<[HDisp c p := ls (HDisp c p) ++ [t]]> ls)
  /\ same_view tcore (threads st) (threads st') /\ same_view ccore (cpus st) (cpus st')
  /\ same_rest st st'.
Proof.
  intros Hq Hk Hn Ht Hnot p st'.
  assert (Hdq := proj2 Hq c k Hk). assert (Htail := dq_tail _ _ Hdq p). cbn in Htail.
  assert (Hpr : 0 <= p < KSCHED_NPRI) by apply dispq_clamp_range.
  assert (Est : st' = set_cpu
    (let st1 := assign st t (fun k => k <| next := 0 |>) in
     if negb (default 0 (last (ls (HDisp c p))) =? 0)
     then assign st1 (default 0 (last (ls (HDisp c p)))) (fun k => k <| next := t |>)
     else set_cpu st1 c (fun k => k <| cpu_dispq_head := <[p := t]> (cpu_dispq_head k) |>))
    c (push_cpu p t)).
  { unfold st', dispq_push_locked. rewrite (kt_lookup _ _ _ Hn). fold p. cbn zeta.
    change (cpu_of (assign st t (fun k0 => k0 <| next := 0 |>)) c) with (cpu_of st c).
    by rewrite (cpu_of_lookup _ _ _ Hk), Htail. }
  clearbody st'. subst st'. cbn zeta.
  assert (Hv : same_view tcore (threads st) (threads (assign st t (fun k => k <| next := 0 |>))))
    by (by apply same_view_alter).
  destruct (last (ls (HDisp c p))) as [y|] eqn:Elast; cbn [from_option id].
  - assert (Hy : y ∈ ls (HDisp c p)) by (by apply last_Some_elem_of).
    assert (Hyt : y <> t) by (intros ->; by eapply Hnot).
    destruct (queues_lookup st ls _ y Hq Hy) as [Hy0 [ny Hny]].
    rewrite (proj2 (Z.eqb_neq y 0)) by done. cbn [negb]. split; [|split; [|split; [|done]]].
    + eapply queues_disp; [done|done|done| |by apply (dq_ok_push k (fun p => ls (HDisp c p)))].
      eapply chains_snoc; [apply Hq|done|done| | | | |].
      * cbn. rewrite lookup_alter_ne, lookup_alter_eq, Hn by done. done.
      * rewrite Elast. intros ? [= <-]. cbn. rewrite lookup_alter_eq, lookup_alter_ne, Hny by done. done.
      * rewrite Elast. intros x Hx. cbn. rewrite !fmap_next_alter; [done| |]; naive_solver.
      * destruct (ls (HDisp c p)); [done|]. cbn. unfold cpu_of. cbn. by rewrite lookup_alter_eq, Hk.
      * intros [c' p'| | |] Hne; cbn; [|done|done|done]. unfold cpu_of. cbn.
        destruct (decide (c' = c)) as [->|]; [by rewrite lookup_alter_eq, Hk|by rewrite lookup_alter_ne].
    + cbn. eapply same_view_trans; [exact Hv|]. by apply same_view_alter.
    + by apply same_view_alter.
  - assert (El : ls (HDisp c p) = []) by (by apply last_None). split; [|split; [|split; [|done]]].
    + eapply (queues_disp st _ _ _ _ _ k (fun k => push_cpu p t (k <| cpu_dispq_head := <[p := t]> (cpu_dispq_head k) |>)));
        [done|done| | |].
      * cbn. by rewrite alter_alter_eq.
      * eapply chains_snoc; [apply Hq|done|done| | | | |].
        -- cbn. by rewrite lookup_alter_eq, Hn.
        -- by rewrite Elast.
        -- rewrite Elast. intros x Hx. cbn. rewrite fmap_next_alter; [done|]. naive_solver.
        -- rewrite El. cbn. unfold cpu_of. cbn. rewrite !lookup_alter_eq, Hk. cbn. by rewrite slot_insert, decide_True.
        -- intros [c' p'| | |] Hne; cbn; [|done|done|done]. unfold cpu_of. cbn.
           destruct (decide (c' = c)) as [->|]; [|by rewrite !lookup_alter_ne].
           rewrite !lookup_alter_eq, Hk. cbn. rewrite slot_insert, decide_False; [done|congruence].
      * apply (dq_ok_push (k <| cpu_dispq_head := <[p := t]> (cpu_dispq_head k) |>) (fun p => ls (HDisp c p)));
          [by apply dq_ok_head|done|done].
    + done.
    + cbn. eapply same_view_trans; by apply same_view_alter.
Qed.

Lemma pop_queues st ls c k : queues_ok st ls -> cpus st !! c = Some k ->
  let r := dispq_pop_locked st c in
  (r = (0, st) /\ (forall p, ls (HDisp c p) = []))
  \/ exists p t l, r.1 = t /\ t <> 0 /\ ls (HDisp c p) = t :: l
       /\ (forall q, p < q -> ls (HDisp c q) = [])
       /\ queues_ok r.2 (<[HDisp c p := l]> ls)
       /\ same_view tcore (threads st) (threads r.2) /\ same_view ccore (cpus st) (cpus r.2)
       /\ same_rest st r.2.
Proof.
  intros Hq Hk. pose proof (proj2 Hq c k Hk) as Hdq. unfold dispq_pop_locked.
  rewrite (cpu_of_lookup _ _ _ Hk). destruct (cpu_qactmap k =? 0) eqn:E0; bool_prop; cbn.
  { left. split; [done|]. intros p. destruct (ls (HDisp c p)) as [|x l] eqn:El; [done|exfalso].
    assert (Hne : ls (HDisp c p) <> []) by (by rewrite El).
    assert (Hp := dq_range _ _ Hdq p Hne). assert (Hb := dq_map _ _ Hdq p ltac:(lia)). cbn in Hb.
    rewrite E0, Z.testbit_0_l, bool_decide_eq_true_2 in Hb; done. }
  right. set (p := Z.log2 (cpu_qactmap k)).
  assert (Hpos : 0 < cpu_qactmap k) by (pose proof (dq_pos _ _ Hdq); lia).
  assert (Hbit : ls (HDisp c p) <> []).
  { assert (Hb := dq_map _ _ Hdq p (Z.log2_nonneg _)). cbn in Hb. unfold p at 1 in Hb.
    rewrite Z.bit_log2 in Hb by done. symmetry in Hb. by apply bool_decide_eq_true in Hb. }
  destruct (ls (HDisp c p)) as [|t l] eqn:El; [done|].
  destruct (proj1 (proj1 Hq) (HDisp c p)) as [Hch Hnd]. rewrite El in Hch.
  cbn in Hch. rewrite (cpu_of_lookup _ _ _ Hk) in Hch. destruct Hch as (Hhd & Ht & n & Hn & Hl).
  rewrite Hhd, (kt_lookup _ _ _ Hn).
  assert (Hnl : next n = default 0 (head l)) by (by destruct l as [|y l]; [|destruct Hl as [-> _]]).
  exists p, t, l. split; [done|]. split; [done|]. split; [done|]. split.
  { intros q Hq2. destruct (ls (HDisp c q)) as [|x l'] eqn:El'; [done|exfalso].
    assert (Hne : ls (HDisp c q) <> []) by (by rewrite El').
    assert (Hr := dq_range _ _ Hdq q Hne). assert (Hb := dq_map _ _ Hdq q ltac:(lia)). cbn in Hb.
    rewrite Z.bits_above_log2, bool_decide_eq_true_2 in Hb; [done|done|lia|done]. }
  split; [|split; [by apply same_view_alter|split; [|done]]].
  - eapply queues_disp; [done|done|cbn; done| |].
    + eapply chains_pop; [apply Hq|done|done| | |].
      * intros x Hx. cbn. by rewrite fmap_next_alter.
      * cbn. unfold cpu_of. cbn. rewrite lookup_alter_eq, Hk. cbn. unfold pop_cpu. cbn.
        destruct (next n =? 0); cbn; by rewrite slot_insert, decide_True.
      * intros [c' p'| | |] Hne; cbn; [|done|done|done]. unfold cpu_of. cbn.
        destruct (decide (c' = c)) as [->|]; [|by rewrite lookup_alter_ne].
        rewrite lookup_alter_eq, Hk. unfold pop_cpu. cbn.
        destruct (next n =? 0); cbn; (rewrite slot_insert, decide_False; [done|congruence]).
    + rewrite Hnl. apply (dq_ok_pop k _ t); [done|done|done|done|].
      intros x Hx. eapply queues_lookup; [done|]. rewrite El. by apply list_elem_of_further.
  - apply same_view_alter. intros y. unfold pop_cpu. by destruct (_ =? 0).
Qed.

(** ** Lemmas on control *)

Lemma ctl_view T T' K K' lk cr pl : same_view tcore T T' -> same_view ccore K K' ->
  ctl_ok T K lk cr pl -> ctl_ok T' K' lk cr pl.
Proof.
  intros HT HK [H1 H2 H3 H4 H5 H6 H7 H8]. constructor; [| | | | | | |done].
  - specialize (HT 0). rewrite H1 in HT. by destruct (T' !! 0).
  - intros x. rewrite H2. specialize (HT x). destruct (T !! x), (T' !! x); try done; split; by intros [? ?].
  - intros x t' p Ht' Hp. destruct (same_view_Some _ _ _ _ _ HT Ht') as (t & Ht & E).
    pose proof (H3 x t p Ht Hp) as Hok. change (thread_ok (tcore t) p) in Hok. rewrite E in Hok. exact Hok.
  - intros c k' Hk'. destruct (same_view_Some _ _ _ _ _ HK Hk') as (k & Hk & E).
    pose proof (H4 c k Hk) as [E1 E2 E3 E4 E5 E6 E7 E8].
    assert (Hok : cpu_ok pl c (ccore k)) by (by constructor). rewrite E in Hok.
    by destruct Hok as [? ? ? ? ? ? ? ?]; constructor.
  - intros x p c Hp Ht. destruct (H5 x p c Hp Ht) as [k Hk].
    destruct (same_view_fwd _ _ _ _ _ HK Hk) as (k' & Hk' & _). by exists k'.
  - intros c l. rewrite H6. split.
    + intros (k & Hk & Hh). destruct (same_view_fwd _ _ _ _ _ HK Hk) as (k' & Hk' & E).
      exists k'. split; [done|]. change (held (ccore k') = Some l). by rewrite E.
    + intros (k' & Hk' & Hh). destruct (same_view_Some _ _ _ _ _ HK Hk') as (k & Hk & E).
      exists k. split; [done|]. change (held (ccore k) = Some l). by rewrite E.
  - intros x t' Ht'. destruct (same_view_Some _ _ _ _ _ HT Ht') as (t & Ht & E).
    assert (Es : sp t' = sp t) by (change (sp (tcore t') = sp (tcore t)); by rewrite E).
    rewrite Es, (H7 x t Ht). split.
    + intros (c & k & Hk & Hx). destruct (same_view_fwd _ _ _ _ _ HK Hk) as (k' & Hk' & Ek).
      exists c, k'. split; [done|]. change (exec (ccore k') = x). by rewrite Ek.
    + intros (c & k' & Hk' & Hx). destruct (same_view_Some _ _ _ _ _ HK Hk') as (k & Hk & Ek).
      exists c, k. split; [done|]. change (exec (ccore k) = x). by rewrite Ek.
Qed.

(** Where the thread is whose registers a CPU runs on. *)
Lemma exec_place pl c k : cpu_ok pl c k -> cpu_pc k <> Off ->
  exists p, pl !! exec k = Some p
  /\ (p = Cur c \/ p = Pend c \/ p = Idle c
      \/ exists h l, p = In h /\ lock_of h = Some l /\ held k = Some l).
Proof.
  intros [Hpc Hon Hid Hpd _ _ _ _] Hoff. specialize (Hon Hoff). specialize (Hid Hon).
  assert (Hcur : is_cur pl c k (cpu_thread k) -> exists p, pl !! cpu_thread k = Some p
    /\ (p = Cur c \/ p = Pend c \/ p = Idle c
        \/ exists h l, p = In h /\ lock_of h = Some l /\ held k = Some l)) by (intros [?|[? ?]]; eauto 10).
  assert (Hlv : forall rq ex, held k = ex -> leaving pl c k rq ex -> exists p, pl !! cpu_thread k = Some p
    /\ (p = Cur c \/ p = Pend c \/ p = Idle c
        \/ exists h l, p = In h /\ lock_of h = Some l /\ held k = Some l)).
  { intros [|] ex Hh; [by intros [? _]; apply Hcur|]. intros (h & l & ? & ? & ->). eauto 10. }
  unfold exec, held, pc_ok, may_pend in *. destruct (cpu_pc k); try done.
  - by apply Hcur.
  - exists (In HReap). split; [done|]. do 3 right. by exists HReap, ToReap.
  - by eapply Hlv.
  - by eapply Hlv.
  - destruct Hpc as [Hpc _]. by eapply Hlv.
  - destruct Hpc as (_ & _ & Hpc). case_if_in Hpc; bool_prop.
    + destruct Hpc as [[-> _]|(h & l & ? & ? & ?)]; eauto 10.
    + destruct Hpc as [-> _]. destruct (Hpd ltac:(lia)). eauto.
  - by apply Hcur.
  - by apply Hcur.
Qed.

Section CtlFacts.
Context {T : gmap Z kthread} {K : gmap Z cpu} {lk : gmap lock Z} {cr : gset Z} {pl : gmap Z place}.
Hypothesis Hctl : ctl_ok T K lk cr pl.

(** A thread that no CPU can be running on. *)
Lemma ctl_saved x t p : T !! x = Some t -> pl !! x = Some p ->
  match p with
  | In h => match lock_of h with Some l => lk !! l = None | None => True end
  | New | Got _ => True
  | _ => False
  end -> sp t <> Stale.
Proof.
  intros Ht Hp Hq Hs. apply (c_sp _ _ _ _ _ Hctl x t Ht) in Hs as (c & k & Hk & Hx).
  pose proof (c_cpu _ _ _ _ _ Hctl c k Hk) as Hok.
  destruct (decide (cpu_pc k = Off)) as [Hoff|Hoff].
  { pose proof (co_pc _ _ _ Hok) as Hpc. unfold pc_ok, exec in *. rewrite Hoff in *.
    destruct Hpc as [_ E]. rewrite E in Hx. subst x. by rewrite (c_zero _ _ _ _ _ Hctl) in Ht. }
  destruct (exec_place pl c k Hok Hoff) as (p' & Hp' & Hor). rewrite Hx, Hp in Hp'. injection Hp' as <-.
  destruct Hor as [->|[->|[->|(h & l & -> & Hl & Hh)]]]; [done|done|done|].
  rewrite Hl in Hq. assert (Hlk : lk !! l = Some c) by (apply (c_locks _ _ _ _ _ Hctl); by exists k).
  congruence.
Qed.

(** No two CPUs run on one thread. *)
Lemma ctl_exec_inj c1 c2 k1 k2 : K !! c1 = Some k1 -> K !! c2 = Some k2 -> cpu_pc k1 <> Off ->
  cpu_pc k2 <> Off -> exec k1 = exec k2 -> c1 = c2.
Proof.
  intros H1 H2 O1 O2 E.
  destruct (exec_place pl c1 k1 (c_cpu _ _ _ _ _ Hctl c1 k1 H1) O1) as (p1 & Hp1 & Hor1).
  destruct (exec_place pl c2 k2 (c_cpu _ _ _ _ _ Hctl c2 k2 H2) O2) as (p2 & Hp2 & Hor2).
  rewrite E, Hp2 in Hp1. injection Hp1 as ->.
  destruct Hor1 as [->|[->|[->|(h & l & -> & Hl & Hh)]]], Hor2 as [E2|[E2|[E2|(h2 & l2 & E2 & Hl2 & Hh2)]]];
    try congruence.
  injection E2 as <-. assert (l2 = l) as -> by congruence.
  assert (lk !! l = Some c1) by (apply (c_locks _ _ _ _ _ Hctl); by exists k1).
  assert (lk !! l = Some c2) by (apply (c_locks _ _ _ _ _ Hctl); by exists k2). congruence.
Qed.

End CtlFacts.

(** A CPU does not notice changes to the places of other threads. *)
Lemma cpu_ok_frame pl pl' c k : cpu_ok pl c k ->
  (forall x p, pl !! x = Some p -> tied c p \/ x = exec k -> pl' !! x = Some p) ->
  (forall x p, pl' !! x = Some p -> tied c p -> pl !! x = Some p) ->
  cpu_ok pl' c k.
Proof.
  intros [Hpc Hon Hid Hpd H1 H2 H3 H4] Hf Hb. unfold tied in *.
  assert (Hcur : forall x, is_cur pl c k x -> is_cur pl' c k x).
  { intros x [Hx|[? Hx]]; [left|right; split; [done|]]; (apply Hf; [done|]); auto. }
  assert (Hpk : forall x ex, x = exec k -> parked pl x ex -> parked pl' x ex).
  { intros x ex -> (h & l & Hx & ? & ?). exists h, l. split; [|done]. apply Hf; auto. }
  assert (Hlv : forall rq ex, cpu_thread k = exec k -> leaving pl c k rq ex -> leaving pl' c k rq ex).
  { intros [|] ex Hx; cbn; [intros [? ?]; split; [by apply Hcur|done]|by apply Hpk]. }
  constructor; [|done| | | | | |].
  - unfold pc_ok, exec in *. destruct (cpu_pc k); auto.
    + destruct Hpc as [Hl Hn]. split; [by apply Hlv|]. destruct Hn as [Hn|[Hn ?]]; [left|by right]. apply Hf; auto.
    + destruct Hpc as (? & ? & Hpc). split; [by apply Hcur|]. split; [done|]. case_if; [|done].
      destruct Hpc as [?|?]; [by left|right; by apply Hpk].
  - intros Hi. apply Hf; auto.
  - intros Hi. destruct (Hpd Hi). split; [apply Hf; auto|done].
  - intros x Hx. apply H1, Hb; auto.
  - intros x Hx. apply H2, Hb; auto.
  - intros x Hx. apply H3, Hb; auto.
  - intros x Hx. apply H4, Hb; auto.
Qed.

(** ** Steps of one CPU *)

(** The lock map after a CPU that held [old] holds [new]. *)
Definition relock (lk : gmap lock Z) (c : Z) (old new : option lock) : gmap lock Z :=
  let lk := match old with Some l => delete l lk | None => lk end in
  match new with Some l => <[l := c]> lk | None => lk end.

(** Only threads of [c], and threads no CPU runs on, change their place, and none of
    them moves to another CPU. *)
Definition local (c : Z) (T : gmap Z kthread) (pl pl' : gmap Z place) : Prop :=
  forall x, pl' !! x = pl !! x
    \/ exists p p', pl !! x = Some p /\ pl' !! x = Some p' /\ p <> New /\ p' <> New
        /\ (forall c', tied c' p' -> c' = c) /\ (forall c', tied c' p -> c' = c)
        /\ (tied c p \/ forall t, T !! x = Some t -> sp t <> Stale).

Lemma local_refl c T pl : local c T pl pl.
Proof. intros x. by left. Qed.

Lemma local_set c T pl pl' x p p' : local c T pl pl' -> pl !! x = Some p -> p <> New -> p' <> New ->
  (forall c', tied c' p' -> c' = c) -> (forall c', tied c' p -> c' = c) ->
  (tied c p \/ forall t, T !! x = Some t -> sp t <> Stale) -> local c T pl (<[x := p']> pl').
Proof.
  intros Hl Hx H1 H2 H3 H4 H5 y. destruct (decide (y = x)) as [->|Hne].
  - right. exists p, p'. by rewrite lookup_insert_eq.
  - rewrite lookup_insert_ne by done. apply Hl.
Qed.

Lemma ctl_other T K lk cr pl pl' c c' k' : ctl_ok T K lk cr pl -> local c T pl pl' ->
  K !! c' = Some k' -> c' <> c -> cpu_ok pl' c' k'.
Proof.
  intros Hctl Hl Hk' Hne. pose proof (c_cpu _ _ _ _ _ Hctl c' k' Hk') as Hok.
  apply (cpu_ok_frame pl); [done| |].
  - intros x p Hp Hor. destruct (Hl x) as [->|(p0 & p' & Hp0 & Hp' & _ & _ & _ & Ht & Hs)]; [done|exfalso].
    rewrite Hp in Hp0. injection Hp0 as <-. destruct Hor as [Ht'| ->]; [by apply Hne, Ht|].
    destruct (proj1 (c_dom _ _ _ _ _ Hctl (exec k')) ltac:(by exists p)) as [t Hth].
    destruct Hs as [Hs|Hs].
    + assert (Hoff : cpu_pc k' <> Off).
      { intros Hoff. pose proof (co_pc _ _ _ Hok) as Hpc. unfold pc_ok, exec in *. rewrite Hoff in *.
        destruct Hpc as [_ E]. rewrite E, (c_zero _ _ _ _ _ Hctl) in Hth. done. }
      destruct (exec_place pl c' k' Hok Hoff) as (q & Hq & Hor). rewrite Hp in Hq. injection Hq as <-.
      unfold tied in *.
      destruct Hor as [->|[->|[->|(h & l & -> & _)]]]; destruct Hs as [|[|[|]]]; congruence.
    + apply (Hs t Hth), (c_sp _ _ _ _ _ Hctl _ t Hth). by exists c', k'.
  - intros x p Hp Ht. destruct (Hl x) as [<-|(p0 & p' & Hp0 & Hp' & _ & _ & Ht' & _)]; [done|exfalso].
    rewrite Hp in Hp'. injection Hp' as <-. by apply Hne, Ht'.
Qed.

Lemma ctl_cpu_step T T' K lk cr pl pl' c k k' :
  ctl_ok T K lk cr pl -> K !! c = Some k -> exec k' = exec k ->
  (forall l, held k' = Some l -> held k <> Some l -> lk !! l = None) ->
  (forall x, is_Some (T' !! x) <-> is_Some (T !! x)) ->
  (forall x t t', T !! x = Some t -> T' !! x = Some t' -> sp t' = sp t) ->
  (forall x t' p, T' !! x = Some t' -> pl' !! x = Some p -> thread_ok t' p) ->
  local c T pl pl' -> cpu_ok pl' c k' ->
  ctl_ok T' (<[c := k']> K) (relock lk c (held k) (held k')) cr pl'.
Proof.
  intros Hctl Hk He Hlk Hdom Hsp Hth Hl Hok.
  assert (Hlook : forall x, is_Some (pl' !! x) <-> is_Some (pl !! x)).
  { intros x. destruct (Hl x) as [->|(p & p' & -> & -> & _)]; [done|]. split; eauto. }
  constructor.
  - destruct (T' !! 0) as [t|] eqn:E; [|done]. exfalso.
    destruct (proj1 (Hdom 0) ltac:(by exists t)) as [? E']. by rewrite (c_zero _ _ _ _ _ Hctl) in E'.
  - intros x. rewrite Hlook, Hdom. apply Hctl.
  - done.
  - intros c' k2. destruct (decide (c' = c)) as [->|Hne].
    + rewrite lookup_insert_eq. by intros [= <-].
    + rewrite lookup_insert_ne by done. intros Hk2. by eapply ctl_other.
  - intros x p c' Hp Ht. destruct (decide (c' = c)) as [->|Hne]; [rewrite lookup_insert_eq; eauto|].
    rewrite lookup_insert_ne by done. eapply (c_tied _ _ _ _ _ Hctl x p c'); [|done].
    destruct (Hl x) as [<-|(p0 & p' & ? & Hp' & _ & _ & Ht' & _)]; [done|].
    rewrite Hp in Hp'. injection Hp' as <-. by destruct (Hne (Ht' c' Ht)).
  - intros c' l. assert (Hold := c_locks _ _ _ _ _ Hctl c' l).
    assert (Hc := c_locks _ _ _ _ _ Hctl c). unfold relock.
    assert (H1 : match held k with Some l => delete l lk | None => lk end !! l = Some c'
      <-> c' <> c /\ lk !! l = Some c').
    { destruct (held k) as [l0|] eqn:Eh.
      - rewrite lookup_delete_Some. split; intros [Ha Hb].
        + split; [|done]. intros ->. apply Hc in Hb as (k0 & Hk0 & Hh0). congruence.
        + split; [|done]. intros ->. assert (lk !! l = Some c) by (apply Hc; by exists k). congruence.
      - split; [|tauto]. intros Hb. split; [|done]. intros ->. apply Hc in Hb as (k0 & Hk0 & Hh0). congruence. }
    destruct (decide (c' = c)) as [->|Hne].
    + rewrite lookup_insert_eq. split.
      * intros Hx. exists k'. split; [done|]. destruct (held k') as [l1|]; [|by apply H1 in Hx as [? _]].
        destruct (decide (l1 = l)) as [->|]; [done|]. rewrite lookup_insert_ne in Hx by done.
        by apply H1 in Hx as [? _].
      * intros (k0 & [= <-] & Hh). rewrite Hh. by rewrite lookup_insert_eq.
    + rewrite lookup_insert_ne by done. rewrite <- Hold.
      destruct (held k') as [l1|] eqn:Eh'; [|rewrite H1; tauto].
      destruct (decide (l1 = l)) as [->|]; [|rewrite lookup_insert_ne by done; rewrite H1; tauto].
      rewrite lookup_insert_eq. split; [congruence|]. intros Hx. exfalso.
      destruct (decide (held k = Some l)) as [Eh|Eh].
      * assert (lk !! l = Some c) by (apply Hc; by exists k). congruence.
      * rewrite (Hlk l eq_refl Eh) in Hx. done.
  - intros x t' Ht'. destruct (proj1 (Hdom x) ltac:(by exists t')) as [t Ht].
    rewrite (Hsp x t t' Ht Ht'), (c_sp _ _ _ _ _ Hctl x t Ht). split.
    + intros (c' & k2 & Hk2 & Hx). destruct (decide (c' = c)) as [->|Hne].
      * exists c, k'. rewrite lookup_insert_eq. split; [done|]. congruence.
      * exists c', k2. by rewrite lookup_insert_ne.
    + intros (c' & k2 & Hk2 & Hx). destruct (decide (c' = c)) as [->|Hne].
      * rewrite lookup_insert_eq in Hk2. injection Hk2 as <-. exists c, k. split; [done|]. congruence.
      * rewrite lookup_insert_ne in Hk2 by done. by exists c', k2.
  - intros x. rewrite (c_new _ _ _ _ _ Hctl x).
    destruct (Hl x) as [->|(p & p' & -> & -> & ? & ? & _)]; [done|]. split; congruence.
Qed.

End SchedInv.
