(* ===== verification/SchedStep.v ===== *)
(** * Every step keeps the invariant

    One lemma per step of [sched_step], on top of the lemmas of SchedInv.v: the links
    by those on chains, control by [ctl_cpu_step] for steps of one CPU and
    [ctl_move] for threads no CPU runs on. *)

From stdpp Require Import functions base numbers list gmap relations.
From Stdlib Require Import ZArith Lia Bool.
From S2P Require Import Prelude Links Sched SchedInv.

Module SchedStep.
Import Links Sched SchedInv.

(** ** Places and lists *)

Definition indexed (ls : home -> list Z) (pl : gmap Z place) : Prop :=
  forall h x, x ∈ ls h <-> pl !! x = Some (In h).

Lemma indexed_out ls pl h l t p : indexed ls pl -> pl !! t = Some (In h) ->
  (forall y, y ∈ l <-> y ∈ ls h /\ y <> t) -> (forall h, p <> In h) ->
  indexed (<[h := l]> ls) (<[t := p]> pl).
Proof.
  unfold indexed. intros Hi Ht Hl Hp h' x. destruct (decide (x = t)) as [->|Hx].
  - rewrite lookup_insert_eq. destruct (decide (h' = h)) as [->|Hh].
    + rewrite fn_lookup_insert, Hl. split; [tauto|]. intros [= ->]. by destruct (Hp h).
    + rewrite fn_lookup_insert_ne, Hi, Ht by done. split; [congruence|]. intros [= ->]. by destruct (Hp h').
  - rewrite lookup_insert_ne by done. destruct (decide (h' = h)) as [->|Hh].
    + rewrite fn_lookup_insert, Hl, Hi. tauto.
    + by rewrite fn_lookup_insert_ne, Hi.
Qed.

Lemma indexed_into ls pl h l t : indexed ls pl -> (forall h, t ∉ ls h) ->
  (forall y, y ∈ l <-> y ∈ ls h \/ y = t) -> indexed (<[h := l]> ls) (<[t := In h]> pl).
Proof.
  unfold indexed. intros Hi Ht Hl h' x. destruct (decide (x = t)) as [->|Hx].
  - rewrite lookup_insert_eq. destruct (decide (h' = h)) as [->|Hh].
    + rewrite fn_lookup_insert, Hl. tauto.
    + rewrite fn_lookup_insert_ne by done. split; [by intros ?%Ht|congruence].
  - rewrite lookup_insert_ne by done. destruct (decide (h' = h)) as [->|Hh].
    + rewrite fn_lookup_insert, Hl, Hi. tauto.
    + by rewrite fn_lookup_insert_ne, Hi.
Qed.

(** A thread in no list changes to another place outside the lists. *)
Lemma indexed_set ls pl t p : indexed ls pl -> (forall h, t ∉ ls h) -> (forall h, p <> In h) ->
  indexed ls (<[t := p]> pl).
Proof.
  unfold indexed. intros Hi Ht Hp h x. destruct (decide (x = t)) as [->|Hx]; [|by rewrite lookup_insert_ne].
  rewrite lookup_insert_eq. split; [by intros ?%Ht|]. intros [= ->]. by destruct (Hp h).
Qed.

Lemma indexed_not ls pl t p : indexed ls pl -> pl !! t = Some p -> (forall h, p <> In h) ->
  forall h, t ∉ ls h.
Proof. intros Hi Ht Hp h Hx. apply Hi in Hx. rewrite Ht in Hx. injection Hx as ->. by destruct (Hp h). Qed.

(** ** Threads no CPU runs on *)

Lemma alter_some {A} (f : A -> A) (x : Z) (m : gmap Z A) y v : alter f x m !! y = Some v ->
  exists w, m !! y = Some w /\ v = (if decide (y = x) then f w else w).
Proof.
  destruct (decide (y = x)) as [->|]; [rewrite lookup_alter_eq|rewrite lookup_alter_ne by done; eauto].
  destruct (m !! x) as [w|]; [|done]. intros [= <-]. eauto.
Qed.

Lemma alter_is_some {A} (f : A -> A) (x : Z) (m : gmap Z A) y : is_Some (alter f x m !! y) <-> is_Some (m !! y).
Proof. apply lookup_alter_is_Some. Qed.

Lemma alter_insert_eq {A} (f : A -> A) (x : Z) (m : gmap Z A) v : m !! x = Some v ->
  alter f x m = <[x := f v]> m.
Proof.
  intros Hv. apply map_eq. intros y. destruct (decide (y = x)) as [->|].
  - by rewrite lookup_alter_eq, Hv, lookup_insert_eq.
  - by rewrite lookup_alter_ne, lookup_insert_ne.
Qed.

Lemma ctl_alter T K lk cr pl x f : ctl_ok T K lk cr pl ->
  (forall t, sp (f t) = sp t) ->
  (forall t p, T !! x = Some t -> pl !! x = Some p -> thread_ok t p -> thread_ok (f t) p) ->
  ctl_ok (alter f x T) K lk cr pl.
Proof.
  intros [H1 H2 H3 H4 H5 H6 H7 H8] Hs Ho. constructor; [| | |done|done|done| |done].
  - destruct (alter f x T !! 0) eqn:E; [|done]. apply alter_some in E as (? & E & _). congruence.
  - intros y. rewrite alter_is_some. apply H2.
  - intros y t p (w & Hw & ->)%alter_some Hp. destruct (decide (y = x)) as [->|]; [|by eapply H3].
    apply Ho; [done|done|by eapply H3].
  - intros y t (w & Hw & ->)%alter_some. rewrite <- (H7 y w Hw).
    destruct (decide (y = x)); [by rewrite Hs|done].
Qed.

Lemma ctl_move T K lk cr cr' pl x t p p' f : ctl_ok T K lk cr pl ->
  T !! x = Some t -> pl !! x = Some p -> sp t <> Stale ->
  (forall c, ~ tied c p) -> (forall c, ~ tied c p') -> sp (f t) = sp t -> thread_ok (f t) p' ->
  (forall y, y ∈ cr' <-> (y = x /\ p' = New) \/ (y <> x /\ y ∈ cr)) ->
  ctl_ok (alter f x T) K lk cr' (<[x := p']> pl).
Proof.
  intros Hctl Ht Hp Hsp Hq Hq' Hsf Hok Hcr. pose proof Hctl as [H1 H2 H3 H4 H5 H6 H7 H8].
  constructor; [| | | | |done| |].
  - destruct (alter f x T !! 0) eqn:E; [|done]. apply alter_some in E as (? & E & _). congruence.
  - intros y. rewrite alter_is_some, <- H2. destruct (decide (y = x)) as [->|]; [|by rewrite lookup_insert_ne].
    rewrite lookup_insert_eq. split; eauto.
  - intros y w q (v & Hv & ->)%alter_some. destruct (decide (y = x)) as [->|].
    + rewrite lookup_insert_eq. intros [= <-]. congruence.
    + rewrite lookup_insert_ne by done. by apply H3.
  - intros c k Hk. apply (cpu_ok_frame pl); [by apply H4| |].
    + intros y q Hy Hor. destruct (decide (y = x)) as [->|]; [exfalso|by rewrite lookup_insert_ne].
      destruct Hor as [Hor|Hor]; [rewrite Hp in Hy; injection Hy as <-; by eapply Hq|].
      apply Hsp, (H7 x t Ht). exists c, k. by split.
    + intros y q Hy Hti. destruct (decide (y = x)) as [->|]; [exfalso|by rewrite lookup_insert_ne in Hy].
      rewrite lookup_insert_eq in Hy. injection Hy as <-. by eapply Hq'.
  - intros y q c Hy Hti. destruct (decide (y = x)) as [->|].
    + rewrite lookup_insert_eq in Hy. injection Hy as <-. by destruct (Hq' c Hti).
    + rewrite lookup_insert_ne in Hy by done. by eapply H5.
  - intros y w (v & Hv & ->)%alter_some. rewrite <- (H7 y v Hv).
    destruct (decide (y = x)) as [->|]; [|done]. rewrite Hv in Ht. injection Ht as ->. by rewrite Hsf.
  - intros y. rewrite Hcr. destruct (decide (y = x)) as [->|Hne].
    + rewrite lookup_insert_eq. split; [intros [[_ ->]|[? _]]; done|]. intros [= ->]. by left.
    + rewrite lookup_insert_ne, <- H8 by done. tauto.
Qed.

(** ** Changes to a CPU that keep its queues *)

Definition keeps_queue (f : cpu -> cpu) : Prop := forall k,
  cpu_dispq_head (f k) = cpu_dispq_head k /\ cpu_dispq_tail (f k) = cpu_dispq_tail k
  /\ cpu_qactmap (f k) = cpu_qactmap k /\ cpu_maxrunpri (f k) = cpu_maxrunpri k
  /\ cpu_nrunnable (f k) = cpu_nrunnable k.

Lemma queues_frame st st' ls c f : queues_ok st ls ->
  (forall h x, x ∈ ls h -> next <$> threads st' !! x = next <$> threads st !! x) ->
  cpus st' = alter f c (cpus st) -> keeps_queue f -> wq_head st' = wq_head st ->
  wakers st' = wakers st -> to_reap st' = to_reap st -> queues_ok st' ls.
Proof.
  intros Hq Hn Hc Hf Hw Hk Hr. eapply queues_ext; [done|done| |].
  - intros [c' p| | |]; cbn; [|by rewrite Hw|by rewrite Hk|done]. unfold cpu_of. rewrite Hc.
    destruct (decide (c' = c)) as [->|]; [|by rewrite lookup_alter_ne].
    rewrite lookup_alter_eq. destruct (cpus st !! c); [|done]. cbn. by destruct (Hf c0) as [-> _].
  - intros c' k'. rewrite Hc. intros (k & Hk' & ->)%alter_some. exists k. split; [done|].
    destruct (decide (c' = c)); [|done]. destruct (Hf k) as (_ & E1 & E2 & E3 & E4). done.
Qed.

(** ** Building blocks *)

(** Fields the invariant does not mention. *)
Lemma inv_rest st st' pl ls : inv st pl ls -> threads st' = threads st -> cpus st' = cpus st ->
  same_rest st st' -> inv st' pl ls.
Proof.
  intros [Hq Hc Hi] Ht Hk (E1 & E2 & E3 & E4 & E5). constructor; [| |done].
  - eapply queues_ext; [done|by rewrite Ht| |].
    + intros [c p| | |]; cbn; unfold cpu_of; by rewrite ?Hk, ?E1, ?E3, ?E5.
    + rewrite Hk. intros c k ->. by exists k.
  - by rewrite Ht, Hk, E2, E4.
Qed.

Lemma inv_thread st pl ls x f : inv st pl ls ->
  (forall t, sp (f t) = sp t) -> (forall t, next (f t) = next t) ->
  (forall t p, threads st !! x = Some t -> pl !! x = Some p -> thread_ok t p -> thread_ok (f t) p) ->
  inv (assign st x f) pl ls.
Proof.
  intros [Hq Hc Hi] Hs Hn Ho. constructor; [| |done].
  - eapply queues_ext; [done| |done|]; cbn.
    + intros h y _. destruct (decide (y = x)) as [->|]; [|by rewrite lookup_alter_ne].
      rewrite lookup_alter_eq. destruct (threads st !! x); cbn; [by rewrite Hn|done].
    + intros c k ->. by exists k.
  - by apply ctl_alter.
Qed.

Lemma relock_same lk c o : match o with Some l => lk !! l = Some c | None => True end ->
  relock lk c o o = lk.
Proof.
  unfold relock. destruct o as [l|]; [|done]. intros Hl. by rewrite insert_delete_eq, insert_id.
Qed.

Lemma ctl_relock_same T K lk cr pl c k : ctl_ok T K lk cr pl -> K !! c = Some k ->
  relock lk c (held k) (held k) = lk.
Proof.
  intros Hctl Hk. apply relock_same. destruct (held k) as [l|] eqn:Eh; [|done].
  apply (c_locks _ _ _ _ _ Hctl). by exists k.
Qed.

(** A CPU that moves on without touching threads. *)
Lemma inv_goto st pl ls c k p' lk : inv st pl ls -> cpus st !! c = Some k ->
  let k' := k <| cpu_pc := p' |> in
  exec k' = exec k -> lk = relock (locks st) c (held k) (held k') ->
  (forall l, held k' = Some l -> held k <> Some l -> locks st !! l = None) ->
  pc_ok pl c k' -> cpu_pc k <> Off ->
  (cpu_pending_requeue k <> 0 -> may_pend k') ->
  (forall x, pl !! x = Some (Got c) -> exists rq ex, p' = Chosen x rq ex) ->
  inv (goto (st <| locks := lk |>) c p') pl ls.
Proof.
  intros [Hq Hc Hi] Hk k' He -> Hl Hpc Hoff Hpd Hgot. constructor; [| |done].
  - eapply queues_frame; [done|done|done|done|done|done|done].
  - cbn. rewrite (alter_insert_eq _ c _ k Hk). pose proof (c_cpu _ _ _ _ _ Hc c k Hk) as Hok.
    eapply ctl_cpu_step; [done|done|done|done|done| |apply Hc|apply local_refl|].
    + intros x t t' E1 E2. congruence.
    + destruct Hok as [O1 O2 O3 O4 O5 O6 O7 O8]. constructor; [done| |done| |done|done|done|done].
      * intros _. by apply O2.
      * cbn. intros Hz. destruct (O4 Hz). split; [done|]. by apply Hpd.
Qed.

(** Facts on a CPU that runs thread code. *)
Lemma run_facts st pl ls c k : inv st pl ls -> cpus st !! c = Some k -> cpu_pc k = Run ->
  is_cur pl c k (cpu_thread k) /\ cpu_pending_requeue k = 0 /\ cpu_idle k <> 0
  /\ (forall x, pl !! x <> Some (Got c)).
Proof.
  intros [_ Hc _] Hk Hr. destruct (c_cpu _ _ _ _ _ Hc c k Hk) as [O1 O2 O3 O4 O5 O6 O7 O8].
  unfold pc_ok, may_pend in *. rewrite Hr in *. split; [done|]. split; [|split; [by apply O2|]].
  - destruct (decide (cpu_pending_requeue k = 0)) as [|Hz]; [done|]. by destruct (O4 Hz).
  - intros x (rq & ex & ?)%O7. done.
Qed.

Lemma yield_step st pl ls c : inv st pl ls -> at_pc st c Run ->
  inv (goto st c (Swtch true None)) pl ls.
Proof.
  intros Hinv (k & Hk & Hr). destruct (run_facts _ _ _ _ _ Hinv Hk Hr) as (Hcur & Hp & Hi & Hg).
  replace (goto st c (Swtch true None)) with (goto (st <| locks := locks st |>) c (Swtch true None))
    by (by destruct st).
  eapply inv_goto; [done|done| | | | | | |].
  - unfold exec. by rewrite Hr.
  - unfold held. by rewrite Hr.
  - done.
  - by split.
  - by rewrite Hr.
  - by rewrite Hp.
  - intros x Hx. by destruct (Hg x).
Qed.

(** The current thread's fields, apart from its state and stack, may change. *)
Lemma cur_thread_step st pl ls c f : inv st pl ls -> at_pc st c Run ->
  (forall t, sp (f t) = sp t /\ next (f t) = next t /\ state (f t) = state t /\ stack_base (f t) = stack_base t) ->
  inv (assign st (cpu_thread (cpu_of st c)) f) pl ls.
Proof.
  intros Hinv (k & Hk & Hr) Hf. rewrite (cpu_of_lookup _ _ _ Hk).
  destruct (run_facts _ _ _ _ _ Hinv Hk Hr) as (Hcur & _).
  apply inv_thread; [done|intros t; apply Hf|intros t; apply Hf|].
  intros t p _ Hp. unfold thread_ok. destruct (Hf t) as (_ & _ & -> & ->).
  destruct Hcur as [Hx|[_ Hx]]; rewrite Hx in Hp; by injection Hp as <-.
Qed.

Lemma cl_fork_keeps cid t : let f t := cl_fork (sclass cid) (t <| t_cid := cid |>) in
  sp (f t) = sp t /\ next (f t) = next t /\ state (f t) = state t /\ stack_base (f t) = stack_base t.
Proof. by destruct cid. Qed.

Lemma cl_tick_keeps cid t : let f t := (cl_tick (sclass cid) t).2 in
  sp (f t) = sp t /\ next (f t) = next t /\ state (f t) = state t /\ stack_base (f t) = stack_base t.
Proof. destruct cid; cbn; [done|]. unfold ts_cl_tick. by repeat case_if. Qed.

Lemma tick_class_step st pl ls c : inv st pl ls -> at_pc st c Run -> inv (tick_class st c).2 pl ls.
Proof.
  intros Hinv (k & Hk & Hr). unfold tick_class. set (cur := cpu_thread (cpu_of st c)).
  destruct (cl_tick (sclass (t_cid (kt st cur))) (kt st cur)) as [y k'] eqn:Et. cbn [snd].
  destruct (run_facts _ _ _ _ _ Hinv Hk Hr) as (Hcur & _).
  assert (Hp : exists p, pl !! cur = Some p).
  { unfold cur. rewrite (cpu_of_lookup _ _ _ Hk). destruct Hcur as [?|[_ ?]]; eauto. }
  destruct Hp as [p Hp]. destruct (proj1 (c_dom _ _ _ _ _ (i_ctl _ _ _ Hinv) cur) ltac:(eauto)) as [t Ht].
  assert (E : assign st cur (fun _ => k') = assign st cur (fun t =>
    t <| t_pri := t_pri k' |> <| t_quantum_left := t_quantum_left k' |>)).
  { unfold assign. f_equal. rewrite !(alter_insert_eq _ _ _ t Ht). f_equal.
    rewrite (kt_lookup _ _ _ Ht) in Et. revert Et. destruct (t_cid t); cbn.
    - intros [= _ <-]. by destruct t.
    - unfold ts_cl_tick. repeat case_if; intros [= _ <-]; by destruct t. }
  rewrite E. unfold cur. apply cur_thread_step; [done|by exists k|done].
Qed.

Lemma tick_step st pl ls c : inv st pl ls -> at_pc st c Run ->
  inv (let '(yield, st') := tick_class st c in if yield : bool then goto st' c (Swtch true None) else st') pl ls.
Proof.
  intros Hinv Hr. pose proof (tick_class_step _ _ _ _ Hinv Hr) as H1. destruct Hr as (k & Hk & Hr).
  assert (Ek : cpus (tick_class st c).2 = cpus st) by (unfold tick_class; by destruct (cl_tick _ _)).
  destruct (tick_class st c) as [y st']. cbn in *. destruct y; [|done]. apply yield_step; [done|].
  exists k. by rewrite Ek.
Qed.

Lemma cl_fork_waits cid t : let f t := cl_fork (sclass cid) (t <| t_cid := cid |>) in
  waiting_on (f t) = waiting_on t /\ forall q, level_ok (f t) q.
Proof. unfold level_ok. destruct cid; cbn; split; [done|by right|done|by right]. Qed.

Lemma setclass_step st pl ls t cid : inv st pl ls -> inv (kthread_setclass st t cid) pl ls.
Proof.
  intros Hinv. apply inv_thread; [done|intros k; apply cl_fork_keeps|intros k; apply cl_fork_keeps|].
  intros k p _ Hp. unfold thread_ok. destruct (cl_fork_keeps cid k) as (_ & _ & E1 & E2).
  destruct (cl_fork_waits cid k) as (E3 & E4). cbn zeta in E1, E2, E3, E4. rewrite E1, E2, E3.
  intros [H1 H2]. split; [|done]. destruct p as [[]| | | | |]; try done. by destruct H1.
Qed.

(** ** Queueing a thread *)

(** [ls] lists every thread but [t] where [pl] has it. *)
Definition indexed_but (t : Z) (ls : home -> list Z) (pl : gmap Z place) : Prop :=
  (forall h, t ∉ ls h) /\ forall h x, x <> t -> x ∈ ls h <-> pl !! x = Some (In h).

Lemma indexed_but_into t ls pl h l : indexed_but t ls pl -> (forall y, y ∈ l <-> y ∈ ls h \/ y = t) ->
  indexed (<[h := l]> ls) (<[t := In h]> pl).
Proof.
  intros [Ht Hi] Hl h' x. destruct (decide (x = t)) as [->|Hx].
  - rewrite lookup_insert_eq. destruct (decide (h' = h)) as [->|Hh].
    + rewrite fn_lookup_insert, Hl. tauto.
    + rewrite fn_lookup_insert_ne by done. split; [by intros ?%Ht|congruence].
  - rewrite lookup_insert_ne by done. destruct (decide (h' = h)) as [->|Hh].
    + rewrite fn_lookup_insert, Hl, Hi by done. tauto.
    + by rewrite fn_lookup_insert_ne, Hi.
Qed.

Lemma indexed_but_of t ls pl h l : indexed ls pl -> pl !! t = Some (In h) ->
  (forall y, y ∈ l <-> y ∈ ls h /\ y <> t) -> indexed_but t (<[h := l]> ls) pl.
Proof.
  unfold indexed. intros Hi Ht Hl. split.
  - intros h'. destruct (decide (h' = h)) as [->|]; [rewrite fn_lookup_insert, Hl; tauto|].
    rewrite fn_lookup_insert_ne, Hi, Ht by done. congruence.
  - intros h' x Hx. destruct (decide (h' = h)) as [->|]; [rewrite fn_lookup_insert, Hl, Hi; tauto|].
    by rewrite fn_lookup_insert_ne, Hi.
Qed.

Lemma indexed_but_out t ls pl p : indexed ls pl -> pl !! t = Some p -> (forall h, p <> In h) -> indexed_but t ls pl.
Proof. intros Hi Ht Hp. split; [by eapply indexed_not|]. intros h x _. apply Hi. Qed.

Lemma in_snoc (l : list Z) t y : y ∈ l ++ [t] <-> y ∈ l \/ y = t.
Proof. rewrite elem_of_app, list_elem_of_singleton. done. Qed.

Lemma in_tail (t : Z) l y : NoDup (t :: l) -> y ∈ l <-> y ∈ t :: l /\ y <> t.
Proof.
  intros [Ht _]%NoDup_cons. rewrite elem_of_cons. split; [|tauto]. intros Hy. split; [by right|]. by intros ->.
Qed.

Lemma inv_push st pl ls c k t n : queues_ok st ls -> cpus st !! c = Some k -> threads st !! t = Some n ->
  t <> 0 -> indexed_but t ls pl ->
  let p := dispq_clamp_pri (t_pri n) in
  ctl_ok (threads st) (cpus st) (locks st) (created st) (<[t := In (HDisp c p)]> pl) ->
  inv (dispq_push_locked st c t) (<[t := In (HDisp c p)]> pl) (<[HDisp c p := ls (HDisp c p) ++ [t]]> ls).
Proof.
  intros Hq Hk Hn Ht Hi p Hc.
  destruct (push_queues st ls c t k n Hq Hk Hn Ht (proj1 Hi)) as (Hq' & HT & HK & _ & Hl & _ & Hcr & _).
  constructor; [done| |].
  - rewrite Hl, Hcr. by eapply ctl_view.
  - apply indexed_but_into; [done|]. intros y. apply in_snoc.
Qed.

Lemma alter_id_eq {A} (x : Z) (m : gmap Z A) : alter id x m = m.
Proof. by apply alter_id. Qed.

(** A change of place alone. *)
Lemma ctl_place T K lk cr cr' pl x t p p' : ctl_ok T K lk cr pl ->
  T !! x = Some t -> pl !! x = Some p -> sp t <> Stale ->
  (forall c, ~ tied c p) -> (forall c, ~ tied c p') -> thread_ok t p' ->
  (forall y, y ∈ cr' <-> (y = x /\ p' = New) \/ (y <> x /\ y ∈ cr)) ->
  ctl_ok T K lk cr' (<[x := p']> pl).
Proof. intros. rewrite <- (alter_id_eq x T). by eapply ctl_move. Qed.

Lemma not_tied_in c h : ~ tied c (In h).
Proof. by intros [|[|[|]]]. Qed.
Lemma not_tied_new c : ~ tied c New.
Proof. by intros [|[|[|]]]. Qed.

(** The members of a set without [x]; used for threads that are not new. *)
Lemma same_created (cr : gset Z) x (p : place) : x ∉ cr -> p <> New ->
  forall y, y ∈ cr <-> (y = x /\ p = New) \/ (y <> x /\ y ∈ cr).
Proof. intros Hx Hp y. destruct (decide (y = x)) as [->|]; naive_solver. Qed.

Lemma not_new st pl ls x p : inv st pl ls -> pl !! x = Some p -> p <> New -> x ∉ created st.
Proof. intros Hinv Hx Hp Hin. apply (c_new _ _ _ _ _ (i_ctl _ _ _ Hinv)) in Hin. congruence. Qed.

Lemma inv_lookup st pl ls x p : inv st pl ls -> pl !! x = Some p ->
  exists t, threads st !! x = Some t /\ x <> 0 /\ thread_ok t p.
Proof.
  intros Hinv Hx. pose proof (i_ctl _ _ _ Hinv) as Hc.
  destruct (proj1 (c_dom _ _ _ _ _ Hc x) ltac:(eauto)) as [t Ht]. exists t. split; [done|]. split.
  - intros ->. by rewrite (c_zero _ _ _ _ _ Hc) in Ht.
  - by eapply (c_thread _ _ _ _ _ Hc).
Qed.

Lemma dispatch_step st pl ls t tgt : inv st pl ls -> t ∈ created st -> online st tgt ->
  exists pl' ls', inv (dispatch_to st tgt t) pl' ls'.
Proof.
  intros Hinv Ht (k & Hk & _). apply (c_new _ _ _ _ _ (i_ctl _ _ _ Hinv)) in Ht.
  destruct (inv_lookup _ _ _ _ _ Hinv Ht) as (n & Hn & Hz & Hok).
  eexists _, _. unfold dispatch_to. eapply inv_push; [|done|done|done| |].
  - eapply queues_ext; [apply Hinv|done|done|]. cbn. intros c k' ->. by exists k'.
  - eapply indexed_but_out; [exact (i_in _ _ _ Hinv)|done|done].
  - cbn. eapply ctl_place; [apply Hinv|done|done| |apply not_tied_new|intros; apply not_tied_in| |].
    + by eapply ctl_saved; [apply Hinv|done|done|].
    + by apply queue_thread_ok.
    + intros y. rewrite elem_of_difference, elem_of_singleton. naive_solver.
Qed.

Lemma slot_some a i v : a !! i = Some v -> slot a i = v.
Proof. unfold slot. by intros ->. Qed.

Lemma push_wakers st c t w :
  dispq_push_locked (st <| wakers := w |>) c t = (dispq_push_locked st c t) <| wakers := w |>.
Proof. unfold dispq_push_locked. cbn zeta. by destruct (negb _). Qed.

Lemma push_keeps_wakers st c t : wakers (dispq_push_locked st c t) = wakers st.
Proof. unfold dispq_push_locked. cbn zeta. by destruct (negb _). Qed.

Lemma wake_push_step st pl ls i t tgt : inv st pl ls -> wakers st !! i = Some t -> t <> 0 ->
  online st tgt -> exists pl' ls', inv (start_waker (wake_push st tgt t) i) pl' ls'.
Proof.
  intros Hinv Hi Ht (k & Hk & _). pose proof (i_queues _ _ _ Hinv) as Hq.
  destruct (proj1 (proj1 Hq) (HWake i)) as [Hch Hnd]. cbn [head_of] in Hch.
  rewrite (slot_some _ _ _ Hi) in Hch. destruct (ls (HWake i)) as [|t' l] eqn:El; [done|].
  destruct Hch as (<- & _ & n & Hn & Hl).
  assert (Hp : pl !! t = Some (In (HWake i))) by (apply (i_in _ _ _ Hinv); rewrite El; apply list_elem_of_here).
  destruct (inv_lookup _ _ _ _ _ Hinv Hp) as (n' & Hn' & Hz & Hok). rewrite Hn in Hn'. injection Hn' as <-.
  set (st1 := (assign st t (fun k => k <| next := 0 |>)) <| wakers := <[i := next n]> (wakers st) |>).
  assert (E : start_waker (wake_push st tgt t) i = dispq_push_locked st1 tgt t).
  { unfold start_waker, wake_push, st1. rewrite (kt_lookup _ _ _ Hn), push_wakers. cbn [fst snd].
    by rewrite push_keeps_wakers. }
  assert (Hn1 : threads st1 !! t = Some (n <| next := 0 |>)) by (cbn; by rewrite lookup_alter_eq, Hn).
  rewrite E. eexists _, _. eapply (inv_push st1 pl (<[HWake i := l]> ls)); [|exact Hk|exact Hn1|done| |].
  - split.
    + eapply chains_pop; [apply Hq|done|done| | |].
      * intros x Hx. cbn. by rewrite fmap_next_alter.
      * cbn. by rewrite slot_insert, decide_True.
      * intros [c p| |j|] Hne; cbn; [done|done| |done]. rewrite slot_insert, decide_False; congruence.
    + cbn. intros c k' Hk'. eapply dq_ok_ext; [|by apply Hq]. done.
  - eapply indexed_but_of; [exact (i_in _ _ _ Hinv)|done|]. intros y. rewrite El. by apply in_tail.
  - cbn. eapply ctl_move; [apply Hinv|done|done| |intros; apply not_tied_in|intros; apply not_tied_in|done| |].
    + by eapply ctl_saved; [apply Hinv|done|done|].
    + destruct Hok as [? ?]. split; [|done]. split; [done|by left].
    + apply same_created; [|done]. by eapply not_new.
Qed.

(** ** New threads *)

Lemma exec_known T K lk cr pl c k : ctl_ok T K lk cr pl -> K !! c = Some k ->
  exec k = 0 \/ is_Some (pl !! exec k).
Proof.
  intros Hc Hk. pose proof (c_cpu _ _ _ _ _ Hc c k Hk) as Hok.
  destruct (decide (cpu_pc k = Off)) as [Ho|Ho].
  - left. pose proof (co_pc _ _ _ Hok) as Hpc. unfold pc_ok, exec in *. rewrite Ho in *. apply Hpc.
  - right. destruct (exec_place _ _ _ Hok Ho) as (p & -> & _). eauto.
Qed.

Lemma ctl_insert T K lk cr pl x t : ctl_ok T K lk cr pl -> T !! x = None -> x <> 0 ->
  sp t <> Stale -> thread_ok t New -> ctl_ok (<[x := t]> T) K lk ({[x]} ∪ cr) (<[x := New]> pl).
Proof.
  intros Hctl Hx Hz Hsp Hok. pose proof Hctl as [H1 H2 H3 H4 H5 H6 H7 H8].
  assert (Hpx : pl !! x = None).
  { destruct (pl !! x) eqn:E; [|done]. destruct (proj1 (H2 x) ltac:(eauto)). congruence. }
  constructor; [| | | | |done| |].
  - by rewrite lookup_insert_ne.
  - intros y. destruct (decide (y = x)) as [->|]; [rewrite !lookup_insert_eq; split; eauto|].
    by rewrite !lookup_insert_ne.
  - intros y w p. destruct (decide (y = x)) as [->|].
    + rewrite !lookup_insert_eq. by intros [= <-] [= <-].
    + rewrite !lookup_insert_ne by done. by apply H3.
  - intros c k Hk. apply (cpu_ok_frame pl); [by apply H4| |].
    + intros y p Hy _. rewrite lookup_insert_ne; [done|]. congruence.
    + intros y p. destruct (decide (y = x)) as [->|]; [|by rewrite lookup_insert_ne].
      rewrite lookup_insert_eq. intros [= <-] Ht. by apply not_tied_new in Ht.
  - intros y p c. destruct (decide (y = x)) as [->|]; [|rewrite lookup_insert_ne by done; apply H5].
    rewrite lookup_insert_eq. intros [= <-] Ht. by apply not_tied_new in Ht.
  - intros y w. destruct (decide (y = x)) as [->|]; [|rewrite lookup_insert_ne by done; apply H7].
    rewrite lookup_insert_eq. intros [= <-]. split; [done|]. intros (c & k & Hk & He). exfalso.
    destruct (exec_known _ _ _ _ _ _ _ Hctl Hk) as [E|[? E]]; [congruence|]. rewrite He, Hpx in E. done.
  - intros y. rewrite elem_of_union, elem_of_singleton, H8. destruct (decide (y = x)) as [->|].
    + rewrite lookup_insert_eq. tauto.
    + rewrite lookup_insert_ne by done. naive_solver.
Qed.

Lemma create_step st pl ls c t stack name : inv st pl ls -> threads st !! t = None -> t <> 0 -> stack <> 0 ->
  exists pl' ls', inv (kthread_create_internal st c t stack name).2 pl' ls'.
Proof.
  intros Hinv Ht Hz Hs. pose proof Hinv as [Hq Hc Hi]. unfold kthread_create_internal.
  rewrite (proj2 (Z.eqb_neq t 0)), (proj2 (Z.eqb_neq stack 0)) by done. cbn [orb].
  set (k := _ <| sp := Initial |>). cbn zeta. exists (<[t := New]> pl), ls.
  assert (H1 : inv (st <| threads := <[t := k]> (threads st) |> <| next_tid := u32 (next_tid st + 1) |>
                      <| created := {[t]} ∪ created st |>) (<[t := New]> pl) ls).
  { constructor.
    - eapply queues_ext; [done| |done|]; cbn.
      + intros h x Hx. rewrite lookup_insert_ne; [done|]. intros ->.
        destruct (queues_lookup _ _ _ _ Hq Hx) as [_ [? ?]]. congruence.
      + intros c' k' ->. by exists k'.
    - cbn. by apply ctl_insert.
    - apply indexed_set; [done| |done]. intros h Hx.
      destruct (queues_lookup _ _ _ _ Hq Hx) as [_ [? ?]]. congruence. }
  cbn [snd]. case_if; [|done]. by apply (inv_rest _ _ _ _ H1).
Qed.

(** ** Sleeping *)

Lemma cur_of_run st pl ls c k : inv st pl ls -> cpus st !! c = Some k -> cpu_pc k = Run ->
  not_idle st c -> pl !! cpu_thread k = Some (Cur c).
Proof.
  intros Hinv Hk Hr Hn. unfold not_idle in Hn. rewrite (cpu_of_lookup _ _ _ Hk) in Hn.
  by destruct (run_facts _ _ _ _ _ Hinv Hk Hr) as ([?|[? _]] & _).
Qed.

Lemma tied_cur c c' : tied c' (Cur c) -> c' = c.
Proof. unfold tied. intros [|[|[|]]]; congruence. Qed.

(** The current thread of [c] goes to the head of the queue [h] with its lock. *)
Lemma park_step st pl ls c k h l f p' wq : inv st pl ls -> cpus st !! c = Some k -> cpu_pc k = Run ->
  not_idle st c -> lock_of h = Some l -> locks st !! l = None ->
  let x := cpu_thread k in
  (forall t, sp (f t) = sp t /\ next (f t) = head_of st h) ->
  (forall t, threads st !! x = Some t -> stack_base t <> 0 -> thread_ok (f t) (In h)) ->
  let st' := st <| threads := alter f x (threads st) |> <| locks := <[l := c]> (locks st) |>
                <| cpus := alter (fun k => k <| cpu_pc := p' |>) c (cpus st) |>
                <| wq_head := wq |> <| to_reap := (if decide (h = HReap) then x else to_reap st) |> in
  head_of st' h = x -> (forall h', h' <> h -> head_of st' h' = head_of st h') ->
  p' = Swtch false (Some l) \/ (exists i, p' = Exit i) /\ h = HReap ->
  inv st' (<[x := In h]> pl) (<[h := x :: ls h]> ls).
Proof.
  intros Hinv Hk Hr Hni Hl Hlk x Hf Hok st' Hh Hh' Hp'. pose proof Hinv as [Hq Hc Hi].
  destruct (run_facts _ _ _ _ _ Hinv Hk Hr) as (_ & Hpend & Hidle & Hgot).
  pose proof (cur_of_run _ _ _ _ _ Hinv Hk Hr Hni) as Hx. fold x in Hx.
  destruct (inv_lookup _ _ _ _ _ Hinv Hx) as (t & Ht & Hz & Hto).
  assert (Hnot : forall h, x ∉ ls h) by (by eapply indexed_not).
  assert (Hst : stack_base t <> 0) by apply Hto.
  assert (He : exec (k <| cpu_pc := p' |>) = exec k).
  { unfold exec. rewrite Hr. by destruct Hp' as [->|[[i ->] _]]. }
  assert (Hhk : held k = None) by (unfold held; by rewrite Hr).
  assert (Hhk' : held (k <| cpu_pc := p' |>) = Some l).
  { unfold held. cbn. destruct Hp' as [->|[[i ->] ->]]; [done|]. cbn in Hl. congruence. }
  constructor.
  - split.
    + eapply chains_cons; [apply Hq|done|done| | |done|done].
      * cbn. rewrite lookup_alter_eq, Ht. cbn. f_equal. apply Hf.
      * intros y Hy. cbn. by rewrite fmap_next_alter.
    + cbn. intros c' k' (k0 & Hk0 & ->)%alter_some. apply (dq_ok_ext _ (fun p => ls (HDisp c' p))).
      { intros p. rewrite fn_lookup_insert_ne; [done|]. by intros ->. }
      destruct (proj2 Hq c' k0 Hk0) as [? ? ? ? ? ?]. by destruct (decide (c' = c)); constructor.
  - cbn. rewrite (alter_insert_eq _ c _ k Hk).
    replace (<[l := c]> (locks st)) with (relock (locks st) c (held k) (held (k <| cpu_pc := p' |>)))
      by (by rewrite Hhk, Hhk').
    eapply ctl_cpu_step; [done|done|done| | | | | |].
    + rewrite Hhk'. intros l' [= <-] _. done.
    + intros y. apply alter_is_some.
    + intros y w w' Hw (v & Hv & ->)%alter_some. rewrite Hw in Hv. injection Hv as ->.
      destruct (decide (y = x)); [apply Hf|done].
    + intros y w' p (v & Hv & ->)%alter_some. destruct (decide (y = x)) as [->|Hyx].
      * rewrite lookup_insert_eq. intros [= <-]. rewrite Ht in Hv. injection Hv as <-. by apply Hok.
      * rewrite lookup_insert_ne by done. by apply (c_thread _ _ _ _ _ Hc).
    + eapply local_set; [apply local_refl|exact Hx|done|done| |apply tied_cur|left; by left].
      intros c' Ht'. by apply not_tied_in in Ht'.
    + pose proof (c_cpu _ _ _ _ _ Hc c k Hk) as [O1 O2 O3 O4 O5 O6 O7 O8].
      assert (Hne : forall y p, y <> x -> <[x := In h]> pl !! y = Some p <-> pl !! y = Some p)
        by (intros; by rewrite lookup_insert_ne).
      constructor.
      * unfold pc_ok. cbn. destruct Hp' as [->|[[i ->] ->]]; [|by rewrite lookup_insert_eq].
        exists h, l. by rewrite lookup_insert_eq.
      * done.
      * cbn. intros Hid. rewrite lookup_insert_ne; [by apply O3|].
        unfold not_idle in Hni. rewrite (cpu_of_lookup _ _ _ Hk) in Hni. done.
      * cbn. by rewrite Hpend.
      * cbn. intros y. destruct (decide (y = x)) as [->|]; [done|rewrite Hne by done; apply O5].
      * cbn. intros y. destruct (decide (y = x)) as [->|]; [rewrite lookup_insert_eq; done|rewrite Hne by done; apply O6].
      * intros y. destruct (decide (y = x)) as [->|]; [rewrite lookup_insert_eq; done|rewrite Hne by done].
        intros Hy. by destruct (Hgot y).
      * cbn. intros y. destruct (decide (y = x)) as [->|]; [rewrite lookup_insert_eq; done|rewrite Hne by done; apply O8].
  - apply indexed_into; [done|done|]. intros y. rewrite elem_of_cons. tauto.
Qed.

Lemma sleep_step st pl ls c wq : inv st pl ls -> at_pc st c Run -> not_idle st c ->
  locks st !! Sq wq = None -> exists pl' ls', inv (sleep_enter st c wq) pl' ls'.
Proof.
  intros Hinv (k & Hk & Hr) Hni Hlk. eexists _, _.
  eapply (inv_rest _ _ _ _ (park_step st pl ls c k (HWait wq) (Sq wq)
    (fun k => k <| state := KT_BLOCKED |> <| waiting_on := wq |> <| next := slot (wq_head st) wq |>)
    (Swtch false (Some (Sq wq))) (<[wq := cpu_thread k]> (wq_head st)) Hinv Hk Hr Hni eq_refl Hlk _ _ _ _ _));
    unfold sleep_enter; rewrite (cpu_of_lookup _ _ _ Hk); try done.
  Unshelve.
  all: try done.
  - cbn. by rewrite slot_insert, decide_True.
  - intros [c' p|w| |] Hne; cbn; [|by rewrite slot_insert, decide_False by congruence|done|done].
    unfold cpu_of. cbn. destruct (decide (c' = c)) as [->|]; [by rewrite lookup_alter_eq, Hk|by rewrite lookup_alter_ne].
  - by left.
Qed.

(** ** Waking *)

(** What a waker may do to a thread. *)
Definition wakes (f : kthread -> kthread) : Prop := forall t,
  sp (f t) = sp t /\ next (f t) = next t /\ state (f t) = KT_READY /\ stack_base (f t) = stack_base t.

Lemma wakes_make_ready : wakes make_ready.
Proof. done. Qed.
Lemma wakes_wakeup : wakes wakeup.
Proof. intros t. unfold wakeup. cbn. by destruct (t_cid t). Qed.

Definition alters (f : kthread -> kthread) (l : list Z) (m : gmap Z kthread) : gmap Z kthread :=
  foldr (alter f) m l.

Lemma alters_lookup f l m y : NoDup l ->
  alters f l m !! y = if decide (y ∈ l) then f <$> m !! y else m !! y.
Proof.
  intros Hd. induction Hd as [|x l Hx Hd IH]; [by rewrite decide_False by (apply not_elem_of_nil)|].
  change (alters f (x :: l) m) with (alter f x (alters f l m)).
  destruct (decide (y = x)) as [->|Hne].
  - rewrite lookup_alter_eq, IH, decide_False, decide_True; [done|apply list_elem_of_here|done].
  - rewrite lookup_alter_ne, IH by done. destruct (decide (y ∈ l)).
    + rewrite decide_True; [done|]. by apply list_elem_of_further.
    + rewrite decide_False; [done|]. by rewrite elem_of_cons; intros [|].
Qed.

(** The marking loop marks exactly the chain. *)
Lemma mark_chain f l : wakes f -> forall fuel m p, lchain next m p l -> NoDup l -> (length l < fuel)%nat ->
  mark f fuel m p = alters f (reverse l) m.
Proof.
  intros Hf. induction l as [|x l IH]; intros fuel m p Hc Hd Hl; (destruct fuel as [|fuel]; [cbn in Hl; lia|]).
  - cbn in Hc. subst p. done.
  - destruct Hc as (-> & Hz & n & Hn & Hc). apply NoDup_cons in Hd as [Hx Hd]. cbn [mark].
    rewrite (proj2 (Z.eqb_neq x 0)), Hn by done. cbn [from_option id].
    rewrite IH; [|by apply lchain_alter|done|cbn in Hl; lia].
    unfold alters. rewrite reverse_cons, foldr_app. done.
Qed.

Lemma alters_reverse f l m : NoDup l -> alters f (reverse l) m = alters f l m.
Proof.
  intros Hd. apply map_eq. intros y. rewrite !alters_lookup; [|done|by rewrite reverse_Permutation].
  destruct (decide (y ∈ l)) as [Hy|Hy].
  - rewrite decide_True; [done|]. by apply elem_of_reverse.
  - rewrite decide_False; [done|]. by rewrite elem_of_reverse.
Qed.

(** The places after all of [l] went to [p']. *)
Definition placed (p' : place) (l : list Z) (pl : gmap Z place) : gmap Z place :=
  foldr (fun x => <[x := p']>) pl l.

Lemma placed_lookup p' l pl y : placed p' l pl !! y = if decide (y ∈ l) then Some p' else pl !! y.
Proof.
  induction l as [|x l IH]; [by rewrite decide_False by (apply not_elem_of_nil)|].
  change (placed p' (x :: l) pl) with (<[x := p']> (placed p' l pl)).
  destruct (decide (y = x)) as [->|Hne].
  - rewrite lookup_insert_eq, decide_True; [done|apply list_elem_of_here].
  - rewrite lookup_insert_ne, IH by done. destruct (decide (y ∈ l)).
    + rewrite decide_True; [done|]. by apply list_elem_of_further.
    + rewrite decide_False; [done|]. by rewrite elem_of_cons; intros [|].
Qed.

Lemma ctl_wake_list T K lk cr pl wq i f l : ctl_ok T K lk cr pl -> wakes f -> NoDup l ->
  lk !! Sq wq = None -> (forall x, x ∈ l -> pl !! x = Some (In (HWait wq))) ->
  ctl_ok (alters f l T) K lk cr (placed (In (HWake i)) l pl).
Proof.
  intros Hc Hf Hd Hlk. induction Hd as [|x l Hx Hd IH]; intros Hl; [done|].
  change (ctl_ok (alter f x (alters f l T)) K lk cr (<[x := In (HWake i)]> (placed (In (HWake i)) l pl))).
  assert (IH' := IH ltac:(intros y Hy; apply Hl; by apply list_elem_of_further)). clear IH.
  assert (Hpx : placed (In (HWake i)) l pl !! x = Some (In (HWait wq))).
  { rewrite placed_lookup, decide_False by done. apply Hl, list_elem_of_here. }
  destruct (proj1 (c_dom _ _ _ _ _ IH' x) ltac:(eauto)) as [t Ht].
  pose proof (c_thread _ _ _ _ _ IH' x t _ Ht Hpx) as [_ Hst].
  destruct (Hf t) as (E1 & _ & E3 & E4).
  eapply ctl_move; [done|done|done| |intros; apply not_tied_in|intros; apply not_tied_in|done| |].
  - eapply ctl_saved; [done|done|done|]. done.
  - split; [done|]. by rewrite E4.
  - apply same_created; [|done]. intros Hin. apply (c_new _ _ _ _ _ IH') in Hin. congruence.
Qed.

Lemma detach_threads f st wq l : wakes f -> lchain next (threads st) (slot (wq_head st) wq) l -> NoDup l ->
  threads (wake_detach f st wq).2 = alters f l (threads st).
Proof.
  intros Hf Hch Hnd.
  change (mark f (S (size (threads st))) (threads st) (slot (wq_head st) wq) = alters f l (threads st)).
  rewrite (mark_chain f l), alters_reverse; [done|done|done|done|done|].
  pose proof (lchain_length _ _ _ Hch Hnd). lia.
Qed.

Lemma detach_step f st pl ls wq i : inv st pl ls -> wakes f -> locks st !! Sq wq = None ->
  wakers st !! i = None -> exists pl' ls', inv (start_waker (wake_detach f st wq) i) pl' ls'.
Proof.
  intros [Hq Hc Hi] Hf Hlk Hw. set (l := ls (HWait wq)).
  destruct (proj1 (proj1 Hq) (HWait wq)) as [Hch Hnd]. fold l in Hch, Hnd. cbn [head_of] in Hch.
  assert (Hemp : ls (HWake i) = []).
  { destruct (proj1 (proj1 Hq) (HWake i)) as [He _]. cbn in He. unfold slot in He. rewrite Hw in He.
    destruct (ls (HWake i)); [done|]. by destruct He as (<- & ? & _). }
  assert (Hth := detach_threads f st wq l Hf Hch Hnd).
  exists (placed (In (HWake i)) l pl), (<[HWait wq := []]> (<[HWake i := l]> ls)). constructor.
  - assert (Hsl : same_links next (fun _ => False) (threads st) (threads (start_waker (wake_detach f st wq) i))).
    { intros x _. change (threads (start_waker (wake_detach f st wq) i)) with (threads (wake_detach f st wq).2).
      rewrite Hth, alters_lookup by done. destruct (decide (x ∈ l)); [|done].
      destruct (threads st !! x); [|done]. cbn. f_equal. apply Hf. }
    split.
    + eapply chains_move; [apply Hq|done|done|done| | |].
      * cbn. by rewrite slot_insert, decide_True.
      * cbn. by rewrite slot_insert, decide_True.
      * intros [c p|w|j|] H1 H2; cbn; [done| | |done].
        -- rewrite slot_insert, decide_False; congruence.
        -- rewrite slot_insert, decide_False; congruence.
    + intros c k Hk. eapply dq_ok_ext; [|by apply (proj2 Hq c)]. intros p.
      by rewrite !fn_lookup_insert_ne.
  - change (threads (start_waker (wake_detach f st wq) i)) with (threads (wake_detach f st wq).2).
    rewrite Hth. eapply ctl_wake_list; [done|done|done|exact Hlk|]. intros x Hx. by apply Hi.
  - intros h x. rewrite placed_lookup. destruct (decide (x ∈ l)) as [Hx|Hx].
    + assert (Hpx : pl !! x = Some (In (HWait wq))) by (by apply Hi).
      destruct (decide (h = HWake i)) as [->|Hh].
      * rewrite fn_lookup_insert_ne, fn_lookup_insert by done. tauto.
      * split; [|congruence]. destruct (decide (h = HWait wq)) as [->|].
        -- rewrite fn_lookup_insert. by intros ?%elem_of_nil.
        -- rewrite !fn_lookup_insert_ne by done. intros Hx2%Hi. congruence.
    + destruct (decide (h = HWake i)) as [->|Hh].
      * rewrite fn_lookup_insert_ne, fn_lookup_insert, <- Hi by done. rewrite Hemp.
        split; [done|by intros ?%elem_of_nil].
      * destruct (decide (h = HWait wq)) as [->|].
        -- rewrite fn_lookup_insert, <- Hi. split; [by intros ?%elem_of_nil|done].
        -- rewrite !fn_lookup_insert_ne by done. apply Hi.
Qed.

(** The search for the predecessor finds it. *)
Lemma unlink_after_spec m q t l2 l1 : forall fuel p, lchain next m p (l1 ++ q :: t :: l2) ->
  NoDup (l1 ++ q :: t :: l2) -> (length (l1 ++ q :: t :: l2) < fuel)%nat ->
  unlink_after fuel m p t = alter (fun k => k <| next := next (default zero_kthread (m !! t)) |>) q m.
Proof.
  induction l1 as [|x l1 IH]; intros fuel p Hc Hd Hl; (destruct fuel as [|fuel]; [lia|]); cbn [unlink_after].
  - destruct Hc as (-> & Hz & n & Hn & E & _). rewrite (proj2 (Z.eqb_neq q 0)), Hn by done.
    cbn [from_option id]. by rewrite E, Z.eqb_refl.
  - destruct Hc as (-> & Hz & n & Hn & Hc). apply NoDup_cons in Hd as [_ Hd].
    rewrite (proj2 (Z.eqb_neq x 0)), Hn by done. cbn [from_option id].
    assert (Hne : next n <> t).
    { intros E. destruct l1 as [|y l1]; cbn in Hc, Hd; destruct Hc as [Hy _].
      - apply NoDup_cons in Hd as [Hd _]. apply Hd. rewrite <- Hy, E. apply list_elem_of_here.
      - apply NoDup_cons in Hd as [Hd _]. apply Hd. rewrite <- Hy, E. rewrite elem_of_app, !elem_of_cons. tauto. }
    rewrite (proj2 (Z.eqb_neq _ t)) by done. apply IH; [done|done|]. cbn in Hl. lia.
Qed.

(** A sleeping thread is taken off its wait queue into a wake loop of its own. *)
Lemma take_out_step st pl ls wq i t : inv st pl ls -> pl !! t = Some (In (HWait wq)) ->
  locks st !! Sq wq = None -> wakers st !! i = None ->
  exists pl' ls',
    inv (start_waker (t, assign (wq_unlink st wq t) t (fun k => wakeup (k <| next := 0 |>))) i) pl' ls'.
Proof.
  intros Hinv Hp Hlk Hw. pose proof Hinv as [Hq Hc Hi].
  set (g := fun k => wakeup (k <| next := 0 |>)).
  assert (Hg : forall k, next (g k) = 0 /\ sp (g k) = sp k /\ state (g k) = KT_READY /\ stack_base (g k) = stack_base k).
  { intros k. destruct (wakes_wakeup (k <| next := 0 |>)) as (E1 & E2 & E3 & E4). done. }
  destruct (inv_lookup _ _ _ _ _ Hinv Hp) as (n & Hn & Hz & Hok).
  destruct (proj1 (proj1 Hq) (HWait wq)) as [Hch Hnd].
  assert (Hin : t ∈ ls (HWait wq)) by (by apply Hi).
  apply list_elem_of_split in Hin as (l1 & l2 & El). rewrite El in Hch, Hnd. cbn [head_of] in Hch.
  assert (Hemp : ls (HWake i) = []).
  { destruct (proj1 (proj1 Hq) (HWake i)) as [He _]. cbn in He. unfold slot in He. rewrite Hw in He.
    destruct (ls (HWake i)); [done|]. by destruct He as (<- & ? & _). }
  set (st1 := assign (wq_unlink st wq t) t g).
  assert (Hl12 : forall y, y ∈ l1 ++ l2 <-> y ∈ ls (HWait wq) /\ y <> t).
  { intros y. rewrite El, !elem_of_app, elem_of_cons. apply NoDup_app in Hnd as (H1 & H2 & H3).
    apply NoDup_cons in H3 as [H3 _]. split; [|tauto]. intros Hy. split; [tauto|]. intros ->.
    destruct Hy as [Hy|Hy]; [|done]. apply (H2 t Hy), list_elem_of_here. }
  assert (H1 : chains next (threads st1) (head_of st1) (<[HWait wq := l1 ++ l2]> ls)
    /\ same_view tcore (alter g t (threads st)) (threads st1) /\ cpus st1 = cpus st /\ locks st1 = locks st
    /\ wakers st1 = wakers st /\ created st1 = created st).
  { unfold st1, wq_unlink. rewrite (kt_lookup _ _ _ Hn). destruct l1 as [|y l1] using rev_ind.
    - destruct Hch as (Hhd & _ & _). rewrite Hhd, Z.eqb_refl. split; [|done].
      eapply chains_pop; [apply Hq|done|done| | |].
      + intros x Hx. cbn. by rewrite fmap_next_alter.
      + cbn. by rewrite slot_insert, decide_True.
      + intros [c p|w| |] Hne; cbn; [done| |done|done]. rewrite slot_insert, decide_False; congruence.
    - clear IHl1. rewrite <- app_assoc in El, Hch, Hnd. cbn [app] in El, Hch, Hnd.
      assert (Hyt : y <> t).
      { apply NoDup_app in Hnd as (_ & _ & Hnd). apply NoDup_cons in Hnd as [Hnd _]. intros ->.
        apply Hnd, list_elem_of_here. }
      assert (Hhd : slot (wq_head st) wq <> t).
      { destruct l1 as [|x l1]; destruct Hch as [-> _]; [done|]. intros ->.
        apply NoDup_cons in Hnd as [Hnd _]. apply Hnd. rewrite elem_of_app, !elem_of_cons. tauto. }
      rewrite (proj2 (Z.eqb_neq _ t)) by done.
      assert (Hlen := lchain_length _ _ _ Hch Hnd).
      change (threads (assign (st <| threads := unlink_after (S (size (threads st))) (threads st) (slot (wq_head st) wq) t |>) t g))
        with (alter g t (unlink_after (S (size (threads st))) (threads st) (slot (wq_head st) wq) t)).
      rewrite (unlink_after_spec _ y t l2 l1 _ _ Hch Hnd), Hn by lia. cbn [from_option id].
      destruct (queues_lookup st ls (HWait wq) y Hq) as [_ [ny Hny]].
      { rewrite El, elem_of_app, !elem_of_cons. tauto. }
      split; [|split; [|done]].
      + rewrite <- app_assoc. cbn [app]. eapply chains_unlink; [apply Hq|exact El|exact Hn| | |].
        * rewrite lookup_alter_ne, lookup_alter_eq, Hny by done. done.
        * intros x Hx. rewrite !fmap_next_alter; [done| |]; naive_solver.
        * by intros [| | |].
      + intros x. destruct (decide (x = t)) as [->|Hxt].
        { rewrite !lookup_alter_eq, lookup_alter_ne, Hn by done. done. }
        rewrite !(lookup_alter_ne g) by done. destruct (decide (x = y)) as [->|]; [|by rewrite lookup_alter_ne].
        by rewrite lookup_alter_eq, Hny. }
  destruct H1 as (Hch1 & Hv1 & E2 & E3 & E4 & E5).
  assert (Ht1 : next <$> threads st1 !! t = Some 0).
  { destruct (same_view_fwd _ _ _ t (g n) Hv1) as (n' & Hn' & _); [by rewrite lookup_alter_eq, Hn|].
    rewrite Hn'. change (threads st1) with (alter g t (threads (wq_unlink st wq t))) in Hn'.
    apply alter_some in Hn' as (w & _ & ->). rewrite decide_True by done. cbn [fmap option_fmap option_map].
    f_equal. apply Hg. }
  exists (<[t := In (HWake i)]> pl), (<[HWake i := [t]]> (<[HWait wq := l1 ++ l2]> ls)). constructor.
  - split.
    + replace [t] with (t :: (<[HWait wq := l1 ++ l2]> ls) (HWake i)) by (by rewrite fn_lookup_insert_ne, Hemp).
      eapply chains_cons; [exact Hch1|done| | | | |].
      * intros h. by eapply indexed_but_of.
      * cbn [head_of]. rewrite E4. unfold slot at 1. rewrite Hw. exact Ht1.
      * done.
      * cbn. by rewrite slot_insert, decide_True.
      * intros [c p|w|j|] Hne; cbn; [done|done| |done]. rewrite slot_insert, decide_False; congruence.
    + change (cpus (start_waker (t, st1) i)) with (cpus st1). rewrite E2.
      intros c k Hk. eapply dq_ok_ext; [|by apply (proj2 Hq c)]. intros p. by rewrite !fn_lookup_insert_ne.
  - change (ctl_ok (threads st1) (cpus st1) (locks st1) (created st1) (<[t := In (HWake i)]> pl)).
    rewrite E2, E3, E5. eapply ctl_view; [exact Hv1|apply same_view_refl|].
    destruct (Hg n) as (_ & G2 & G3 & G4).
    eapply ctl_move; [done|done|done| |intros; apply not_tied_in|intros; apply not_tied_in|done| |].
    + by eapply ctl_saved; [apply Hinv|done|done|].
    + split; [done|]. rewrite G4. apply Hok.
    + apply same_created; [|done]. by eapply not_new.
  - apply indexed_but_into; [by eapply indexed_but_of|]. intros y.
    rewrite fn_lookup_insert_ne, Hemp, list_elem_of_singleton by done. split; [by right|].
    intros [?%elem_of_nil|]; done.
Qed.

Lemma wake_one_step st pl ls wq i : inv st pl ls -> locks st !! Sq wq = None -> wakers st !! i = None ->
  exists pl' ls', inv (start_waker (wake_one_detach st wq) i) pl' ls'.
Proof.
  intros Hinv Hlk Hw. unfold wake_one_detach. set (t := slot (wq_head st) wq).
  destruct (t =? 0) eqn:Ez; bool_prop.
  - exists pl, ls. destruct Hinv as [Hq Hc Hi]. constructor; [|done|done].
    eapply queues_ext; [done|done| |]; cbn.
    + intros [c p| |j|]; cbn; [done|done| |done]. rewrite slot_insert.
      destruct (decide (j = i)) as [->|]; [|done]. unfold slot. by rewrite Hw.
    + intros c k ->. by exists k.
  - destruct (proj1 (proj1 (i_queues _ _ _ Hinv)) (HWait wq)) as [Hch _]. cbn in Hch. fold t in Hch.
    destruct (ls (HWait wq)) as [|t' l] eqn:El; [done|]. destruct Hch as [<- _].
    assert (Hp : pl !! t = Some (In (HWait wq))) by (apply (i_in _ _ _ Hinv); rewrite El; apply list_elem_of_here).
    destruct (take_out_step st pl ls wq i t Hinv Hp Hlk Hw) as (pl' & ls' & H).
    exists pl', ls'. revert H. unfold wq_unlink. fold t. by rewrite Z.eqb_refl.
Qed.

(** ** Signals *)

(** A thread marked as sleeping on [wq] is on it. *)
Lemma blocked_place st pl ls t n : inv st pl ls -> threads st !! t = Some n -> state n = KT_BLOCKED ->
  pl !! t = Some (In (HWait (waiting_on n))).
Proof.
  intros Hinv Ht Hb. pose proof (i_ctl _ _ _ Hinv) as Hc.
  destruct (proj2 (c_dom _ _ _ _ _ Hc t) ltac:(eauto)) as [p Hp].
  destruct (c_thread _ _ _ _ _ Hc t n p Ht Hp) as [Hs _].
  destruct p as [[c q|w|j|]| | | | |]; try (exfalso; intuition congruence).
  destruct Hs as [_ ->]. done.
Qed.

Lemma signal_unlink_step st pl ls t wq i : inv st pl ls -> is_Some (threads st !! t) ->
  locks st !! Sq wq = None -> wakers st !! i = None ->
  exists pl' ls', inv (let '(woke, st') := signal_unlink st wq t in
                       if woke : bool then start_waker (t, st') i else st') pl' ls'.
Proof.
  intros Hinv [n Hn] Hlk Hw. unfold signal_unlink. rewrite (kt_lookup _ _ _ Hn).
  destruct (bool_decide (state n = KT_BLOCKED) && (waiting_on n =? wq)) eqn:E; [|by exists pl, ls].
  apply andb_true_iff in E as [Eb Ew]. apply bool_decide_eq_true in Eb. bool_prop. subst wq.
  apply (take_out_step st pl ls); [done|by eapply blocked_place|done|done].
Qed.

Lemma signal_step st pl ls t sig i : inv st pl ls -> is_Some (threads st !! t) ->
  locks st !! Sq (sigwait_wq t) = None -> wakers st !! i = None ->
  exists pl' ls', inv (let '(woke, st') := signal_mark st t sig in
                       if woke : bool then start_waker (t, st') i else st') pl' ls'.
Proof.
  intros Hinv Ht Hlk Hw. unfold signal_mark. eapply signal_unlink_step; [|by cbn; apply alter_is_some|done|done].
  by eapply inv_thread.
Qed.

(** ** Exit *)

Lemma exit_step st pl ls c status i : inv st pl ls -> at_pc st c Run -> not_idle st c ->
  locks st !! ToReap = None -> locks st !! Sq thread_exit_wq = None -> wakers st !! i = None ->
  exists pl' ls', inv (goto (start_waker (exit_enter st c status) i) c (Exit i)) pl' ls'.
Proof.
  intros Hinv (k & Hk & Hr) Hni Hlk Hlk2 Hw.
  assert (H1 := cur_thread_step st pl ls c (fun k => k <| t_exit_status := status |>) Hinv
    ltac:(by exists k) ltac:(done)).
  rewrite (cpu_of_lookup _ _ _ Hk) in H1. set (me := cpu_thread k) in *.
  set (st1 := assign st me (fun k => k <| t_exit_status := status |>)) in *.
  set (st2 := exit_tab_store st1 (tid (kt st1 me)) status).
  assert (H2 : inv st2 pl ls) by (by apply (inv_rest _ _ _ _ H1)).
  assert (H3 := park_step st2 pl ls c k HReap ToReap (fun k => k <| state := KT_DEAD |> <| next := to_reap st |>)
    (Exit i) (wq_head st) H2 Hk Hr Hni eq_refl Hlk ltac:(done) ltac:(done)). cbn zeta in H3.
  rewrite decide_True in H3 by done.
  set (st3 := st2 <| threads := alter (fun k => k <| state := KT_DEAD |> <| next := to_reap st |>) (cpu_thread k) (threads st2) |>
       <| locks := <[ToReap := c]> (locks st2) |> <| cpus := alter (fun k => k <| cpu_pc := Exit i |>) c (cpus st2) |>
       <| wq_head := wq_head st |> <| to_reap := cpu_thread k |>) in *.
  assert (H4 : exists pl' ls', inv (start_waker (wake_detach make_ready st3 thread_exit_wq) i) pl' ls').
  { eapply detach_step; [apply H3| | |].
    - done.
    - intros [c' p| | |] Hne; cbn; [|done|done|done]. unfold cpu_of. cbn.
      destruct (decide (c' = c)) as [->|]; [by rewrite lookup_alter_eq, Hk|by rewrite lookup_alter_ne].
    - right. split; [by exists i|done].
    - apply wakes_make_ready.
    - cbn. by rewrite lookup_insert_ne.
    - exact Hw. }
  destruct H4 as (pl' & ls' & H4). exists pl', ls'.
  replace (goto (start_waker (exit_enter st c status) i) c (Exit i))
    with (start_waker (wake_detach make_ready st3 thread_exit_wq) i); [done|].
  unfold exit_enter. by rewrite (cpu_of_lookup _ _ _ Hk).
Qed.

End SchedStep.
