(* ===== verification/SchedSwitch.v ===== *)
(** * The switch keeps the invariant

    The steps of [switch_to_next], reaping, bringing up CPUs; then all steps together
    and the reachable states. *)

From stdpp Require Import functions base numbers list gmap relations.
From Stdlib Require Import ZArith Lia Bool.
From S2P Require Import Prelude Links Sched SchedInv SchedStep.

Module SchedSwitch.
Import Links Sched SchedInv SchedStep.

(** Facts on a CPU inside [switch_to_next], before the commit. *)
Lemma leaving_facts st pl ls c k rq ex : inv st pl ls -> cpus st !! c = Some k ->
  cpu_pc k = Swtch rq ex \/ cpu_pc k = Steal rq ex ->
  leaving pl c k rq ex /\ cpu_pending_requeue k = 0 /\ cpu_idle k <> 0
  /\ (forall x, pl !! x <> Some (Got c)) /\ held k = ex /\ exec k = cpu_thread k.
Proof.
  intros [_ Hc _] Hk Hpc. destruct (c_cpu _ _ _ _ _ Hc c k Hk) as [O1 O2 O3 O4 O5 O6 O7 O8].
  unfold pc_ok, may_pend, held, exec in *.
  destruct Hpc as [Hpc|Hpc]; rewrite Hpc in *; (split; [done|]; split; [|split; [by apply O2|split; [|done]]]).
  1, 3: destruct (decide (cpu_pending_requeue k = 0)) as [|Hz]; [done|by destruct (O4 Hz)].
  all: by intros x (? & ? & ?)%O7.
Qed.

Lemma goto_locks st c p : goto st c p = goto (st <| locks := locks st |>) c p.
Proof. by destruct st. Qed.

Lemma exit_done_step st pl ls c i : inv st pl ls -> at_pc st c (Exit i) ->
  inv (goto st c (Swtch false (Some ToReap))) pl ls.
Proof.
  intros Hinv (k & Hk & Hr). pose proof Hinv as [_ Hc _].
  destruct (c_cpu _ _ _ _ _ Hc c k Hk) as [O1 O2 O3 O4 O5 O6 O7 O8].
  unfold pc_ok, may_pend in *. rewrite Hr in *. rewrite goto_locks.
  eapply inv_goto; [done|done| | | | | | |].
  - unfold exec. by rewrite Hr.
  - unfold held. rewrite Hr. cbn. symmetry. apply (relock_same _ _ (Some ToReap)).
    apply (c_locks _ _ _ _ _ Hc). exists k. split; [done|]. unfold held. by rewrite Hr.
  - unfold held. rewrite Hr. cbn. intros l [= <-] ?. done.
  - exists HReap, ToReap. done.
  - by rewrite Hr.
  - intros Hz. by destruct (O4 Hz).
  - by intros x (? & ? & ?)%O7.
Qed.

(** Leaving with nothing else to run. *)
Lemma stay_step st pl ls c k ex : inv st pl ls -> cpus st !! c = Some k ->
  cpu_pc k = Swtch true ex \/ cpu_pc k = Steal true ex -> inv (goto (spin_unlock st ex) c Run) pl ls.
Proof.
  intros Hinv Hk Hpc. destruct (leaving_facts _ _ _ _ _ _ _ Hinv Hk Hpc) as ([Hcur ->] & Hp & Hi & Hg & Hh & He).
  cbn [spin_unlock]. rewrite goto_locks. eapply inv_goto; [done|done| | | | | | |].
  - rewrite He. done.
  - rewrite Hh. done.
  - done.
  - exact Hcur.
  - intros E. destruct Hpc; congruence.
  - by rewrite Hp.
  - intros x Hx. by destruct (Hg x).
Qed.

Lemma to_steal_step st pl ls c rq ex : inv st pl ls -> at_pc st c (Swtch rq ex) ->
  inv (goto st c (Steal rq ex)) pl ls.
Proof.
  intros Hinv (k & Hk & Hr). pose proof Hinv as [_ Hc _].
  destruct (leaving_facts _ _ _ _ _ _ _ Hinv Hk (or_introl Hr)) as (Hl & Hp & Hi & Hg & Hh & He).
  rewrite goto_locks. eapply inv_goto; [done|done|done| | | | | |].
  - rewrite Hh. symmetry. rewrite <- Hh at 1. change (held (k <| cpu_pc := Steal rq ex |>)) with ex.
    rewrite <- Hh. by eapply ctl_relock_same.
  - rewrite Hh. intros l E1 E2. by destruct E2.
  - done.
  - by rewrite Hr.
  - by rewrite Hp.
  - intros x Hx. by destruct (Hg x).
Qed.

Lemma no_steal_step st pl ls c rq ex : inv st pl ls -> at_pc st c (Steal rq ex) ->
  inv (after_steal st c 0 rq ex) pl ls.
Proof.
  intros Hinv (k & Hk & Hr). pose proof Hinv as [_ Hc _].
  destruct (leaving_facts _ _ _ _ _ _ _ Hinv Hk (or_intror Hr)) as (Hl & Hp & Hi & Hg & Hh & He).
  unfold after_steal. cbn [negb Z.eqb]. destruct rq; [eapply stay_step; eauto|].
  rewrite (cpu_of_lookup _ _ _ Hk), (proj2 (Z.eqb_neq _ 0)) by done.
  rewrite goto_locks. eapply inv_goto; [done|done|done| | | | | |].
  - change (held (k <| cpu_pc := Chosen (cpu_idle k) false ex |>)) with ex. rewrite <- Hh. symmetry.
    by eapply ctl_relock_same.
  - rewrite Hh. intros l E1 E2. by destruct E2.
  - split; [done|]. by right.
  - by rewrite Hr.
  - by rewrite Hp.
  - intros x Hx. by destruct (Hg x).
Qed.

(** A change of the CPU besides its queues, next to changes of queues. *)
Lemma same_view_cpu K K' c k g : same_view ccore K K' -> K !! c = Some k ->
  (forall k, ccore (g k) = g (ccore k)) -> same_view ccore (<[c := g k]> K) (alter g c K').
Proof.
  intros Hv Hk Hg x. destruct (decide (x = c)) as [->|]; [|by rewrite lookup_insert_ne, lookup_alter_ne].
  rewrite lookup_insert_eq, lookup_alter_eq. specialize (Hv c). rewrite Hk in Hv.
  destruct (K' !! c) as [k2|]; [|done]. assert (E : ccore k2 = ccore k) by (apply (inj Some); exact Hv).
  cbn [fmap option_fmap option_map]. by rewrite !Hg, E.
Qed.

(** A thread taken from a dispatch queue is in the hands of the CPU. *)
Lemma got_step st pl ls c v k kv rq ex : inv st pl ls -> cpus st !! c = Some k -> cpus st !! v = Some kv ->
  cpu_pc k = Swtch rq ex \/ cpu_pc k = Steal rq ex ->
  let r := dispq_pop_locked st v in
  (r = (0, st) /\ forall p, ls (HDisp v p) = [])
  \/ (r.1 <> 0 /\ exists p l, ls (HDisp v p) = r.1 :: l /\ (forall q, p < q -> ls (HDisp v q) = [])
      /\ exists pl', inv (goto r.2 c (Chosen r.1 rq ex)) pl' (<[HDisp v p := l]> ls)).
Proof.
  intros Hinv Hk Hv Hpc r. pose proof Hinv as [Hq Hc Hi].
  destruct (leaving_facts _ _ _ _ _ _ _ Hinv Hk Hpc) as (Hl & Hp & Hidle & Hg & Hh & He).
  pose proof (pop_queues st ls v kv Hq Hv) as Hpop. cbv zeta in Hpop. fold r in Hpop.
  destruct Hpop as [[E Hemp]|(p & t & l & Et & Hz & El & Hmax & Hq' & HT & HK & _ & E2 & _ & E4 & _)];
    [by left|right]. rewrite Et. split; [done|].
  assert (Hpt : pl !! t = Some (In (HDisp v p))) by (apply Hi; rewrite El; apply list_elem_of_here).
  destruct (inv_lookup _ _ _ _ _ Hinv Hpt) as (n & Hn & _ & Hok).
  set (k' := k <| cpu_pc := Chosen t rq ex |>).
  exists p, l. split; [done|]. split; [done|]. exists (<[t := Got c]> pl). constructor.
  - by eapply queues_frame.
  - cbn. rewrite E2, E4. eapply (ctl_view (threads st) _ (<[c := k']> (cpus st))); [done| |].
    { by apply (same_view_cpu _ _ c k (fun k => k <| cpu_pc := Chosen t rq ex |>)). }
    rewrite <- (ctl_relock_same _ _ _ _ _ _ _ Hc Hk).
    replace (relock (locks st) c (held k) (held k)) with (relock (locks st) c (held k) (held k')) by (by rewrite Hh).
    assert (Hct : cpu_thread k <> t).
    { intros E. destruct rq; [destruct Hl as [[Hx|[_ Hx]] _]|destruct Hl as (h & lo & Hx & Hlo & _)];
        rewrite E, Hpt in Hx; try done. injection Hx as <-. done. }
    assert (Hne : forall y q, y <> t -> <[t := Got c]> pl !! y = Some q <-> pl !! y = Some q)
      by (intros; by rewrite lookup_insert_ne).
    eapply ctl_cpu_step; [done|done|done| |done| | | |].
    + rewrite Hh. intros lo E1 E2'. by destruct E2'.
    + intros; congruence.
    + intros x w q Hw. destruct (decide (x = t)) as [->|].
      * rewrite lookup_insert_eq. intros [= <-]. rewrite Hn in Hw. injection Hw as <-. by destruct Hok as [[? _] ?].
      * rewrite lookup_insert_ne by done. by apply (c_thread _ _ _ _ _ Hc).
    + eapply local_set; [apply local_refl|exact Hpt|done|done| | |].
      * unfold tied. intros c' [|[|[|]]]; congruence.
      * intros c' Ht'. by apply not_tied_in in Ht'.
      * right. intros w Hw. by eapply ctl_saved; [exact Hc|done|exact Hpt|].
    + destruct (c_cpu _ _ _ _ _ Hc c k Hk) as [O1 O2 O3 O4 O5 O6 O7 O8].
      assert (Hin : cpu_idle k <> t) by (intros E; specialize (O3 Hidle); rewrite E, Hpt in O3; done).
      constructor; cbn.
      * split; [|by left; rewrite lookup_insert_eq]. destruct rq.
        -- destruct Hl as [[Hx|[Hx1 Hx]] ->]; (split; [|done]); [left|right; split; [done|]]; by rewrite Hne.
        -- destruct Hl as (h & lo & Hx & Hlo & ->). exists h, lo. by rewrite Hne.
      * done.
      * intros _. rewrite Hne by done. by apply O3.
      * by rewrite Hp.
      * intros y. destruct (decide (y = t)) as [->|]; [rewrite lookup_insert_eq; done|rewrite Hne by done; apply O5].
      * intros y. destruct (decide (y = t)) as [->|]; [rewrite lookup_insert_eq; done|rewrite Hne by done; apply O6].
      * intros y. destruct (decide (y = t)) as [->|]; [by exists rq, ex|rewrite Hne by done]. intros Hy. by destruct (Hg y).
      * intros y. destruct (decide (y = t)) as [->|]; [rewrite lookup_insert_eq; done|rewrite Hne by done; apply O8].
  - eapply indexed_out; [done|done| |done]. intros y. rewrite El. apply in_tail.
    rewrite <- El. apply Hq.
Qed.

(** ** The commit *)

Section Commit.
Context {T : gmap Z kthread} {K : gmap Z cpu} {lk : gmap lock Z} {cr : gset Z} {pl : gmap Z place}.
Context {c : Z} {k : cpu} {n : Z} {rq : bool} {ex : option lock}.
Hypothesis Hctl : ctl_ok T K lk cr pl.
Hypothesis Hk : K !! c = Some k.
Hypothesis Hpc : cpu_pc k = Chosen n rq ex.

Let prev := cpu_thread k.
Let requeue := rq && negb (prev =? cpu_idle k).
Let T1 := if requeue then alter (fun t => t <| state := KT_READY |>) prev T else T.
Let T2 := alter (fun t => t <| state := KT_RUNNING |>) n T1.
Let k' := k <| cpu_pending_requeue := if requeue then prev else 0 |>
            <| cpu_pending_release_lock := ex |> <| cpu_thread := n |> <| cpu_pc := Save prev |>.
Let pl1 := if requeue then <[prev := Pend c]> pl else pl.
Let pl2 := if n =? cpu_idle k then pl1 else <[n := Cur c]> pl1.

(** The thread left: requeued, idle, or parked under its lock. *)
Lemma commit_prev : pl !! cpu_idle k = Some (Idle c) /\ cpu_idle k <> 0 /\
  ((requeue = true /\ pl !! prev = Some (Cur c) /\ ex = None)
   \/ (requeue = false /\ prev = cpu_idle k /\ rq = true /\ ex = None)
   \/ (requeue = false /\ rq = false /\ parked pl prev ex)).
Proof.
  destruct (c_cpu _ _ _ _ _ Hctl c k Hk) as [O1 O2 O3 _ _ _ _ _]. unfold pc_ok in O1. rewrite Hpc in *.
  specialize (O2 ltac:(done)). specialize (O3 O2). split; [done|]. split; [done|].
  destruct O1 as [Hl _]. unfold requeue. destruct rq; [|by right; right].
  destruct Hl as [Hcur ->]. destruct (prev =? cpu_idle k) eqn:E; bool_prop; [by right; left|left].
  split; [done|]. destruct Hcur as [Hx|[Hx _]]; [done|]. by destruct E.
Qed.

Lemma commit_next : n <> prev /\
  ((n = cpu_idle k /\ requeue = false /\ rq = false) \/ (n <> cpu_idle k /\ pl !! n = Some (Got c))).
Proof.
  destruct commit_prev as (Hid & Hi0 & Hp). pose proof (co_pc _ _ _ (c_cpu _ _ _ _ _ Hctl c k Hk)) as O1.
  unfold pc_ok in O1. rewrite Hpc in O1. destruct O1 as [_ [Hn|[-> Hrq]]].
  - assert (n <> cpu_idle k) by (intros E; rewrite E, Hid in Hn; done).
    split; [|by right]. intros E.
    destruct Hp as [(_ & Hp & _)|[(_ & Hp & _)|(_ & _ & h & l & Hp & _)]]; congruence.
  - destruct Hp as [(Hp & _)|[(_ & _ & ? & _)|(Hr & _ & h & l & Hp & _)]].
    + unfold requeue in Hp. rewrite Hrq in Hp. done.
    + congruence.
    + split; [|by left]. intros E. rewrite <- E, Hid in Hp. done.
Qed.

Lemma commit_place x : pl2 !! x =
  if decide (x = n /\ n <> cpu_idle k) then Some (Cur c)
  else if decide (x = prev /\ requeue = true) then Some (Pend c) else pl !! x.
Proof.
  unfold pl2, pl1. destruct (n =? cpu_idle k) eqn:E; bool_prop.
  - rewrite decide_False by tauto. destruct requeue.
    + destruct (decide (x = prev)) as [->|]; [rewrite lookup_insert_eq, decide_True by done; done|].
      rewrite lookup_insert_ne, decide_False by naive_solver. done.
    + rewrite decide_False by naive_solver. done.
  - destruct (decide (x = n)) as [->|Hx]; [by rewrite lookup_insert_eq, decide_True|].
    rewrite lookup_insert_ne, decide_False by naive_solver. destruct requeue.
    + destruct (decide (x = prev)) as [->|]; [rewrite lookup_insert_eq, decide_True by done; done|].
      rewrite lookup_insert_ne, decide_False by naive_solver. done.
    + rewrite decide_False by naive_solver. done.
Qed.

Lemma commit_thread x t : T2 !! x = Some t -> exists t0, T !! x = Some t0 /\ sp t = sp t0
  /\ stack_base t = stack_base t0
  /\ (x = n -> state t = KT_RUNNING) /\ (x = prev -> requeue = true -> state t = KT_READY)
  /\ (x <> n -> (x <> prev \/ requeue = false) -> t = t0).
Proof.
  destruct commit_next as [Hnp _].
  intros (w & Hw & ->)%alter_some. unfold T1 in Hw. destruct requeue.
  - apply alter_some in Hw as (v & Hv & ->). exists v. split; [done|].
    destruct (decide (x = n)) as [E|E], (decide (x = prev)) as [E2|E2]; cbn; naive_solver.
  - exists w. split; [done|]. destruct (decide (x = n)); cbn; naive_solver.
Qed.

Lemma commit_cpu_ok : cpu_ok pl2 c k'.
Proof.
  destruct commit_prev as (Hid & Hi0 & Hp). destruct commit_next as [Hnp Hn].
  destruct (c_cpu _ _ _ _ _ Hctl c k Hk) as [_ _ _ O4 O5 O6 O7 O8]. unfold may_pend in O4. rewrite Hpc in O4.
  assert (Hpend : cpu_pending_requeue k = 0).
  { destruct (decide (cpu_pending_requeue k = 0)) as [|Hz]; [done|by destruct (O4 Hz)]. }
  assert (Hz : forall x p, pl !! x = Some p -> x <> 0).
  { intros x p Hx ->. destruct (proj1 (c_dom _ _ _ _ _ Hctl 0) ltac:(eauto)) as [? E].
    by rewrite (c_zero _ _ _ _ _ Hctl) in E. }
  assert (Hidle2 : pl2 !! cpu_idle k = Some (Idle c)).
  { rewrite commit_place, !decide_False; [done| |naive_solver]. intros [E Er]. unfold requeue in Er.
    rewrite <- E, Z.eqb_refl, andb_false_r in Er. done. }
  constructor; cbn.
  - unfold pc_ok. cbn. split; [|split; [congruence|]].
    + destruct Hn as [[-> _]|[Hn _]]; [by right|left]. rewrite commit_place. by rewrite decide_True.
    + destruct Hp as [(Hr & Hp & E)|[(Hr & Hp & _ & E)|(Hr & _ & h & l & Hp & Hl & E)]]; rewrite Hr.
      * rewrite (proj2 (Z.eqb_neq _ 0)); [done|by eapply Hz].
      * left. done.
      * right. exists h, l. rewrite commit_place, !decide_False; [done|rewrite Hr; naive_solver|naive_solver].
  - done.
  - done.
  - destruct (decide (requeue = true)) as [Er|Er]; [|apply not_true_is_false in Er; by rewrite Er].
    rewrite Er. intros _. rewrite commit_place, decide_False, decide_True; [done| |].
    + done.
    + naive_solver.
  - intros x. rewrite commit_place. destruct (decide _) as [[-> _]|H1]; [done|].
    destruct (decide _) as [|H2]; [done|]. intros Hx. pose proof (O5 x Hx) as ->. fold prev in Hx, H2.
    destruct Hp as [(Hr & _)|[(_ & Hp & _)|(_ & _ & h & l & Hp & _)]]; [naive_solver|congruence|congruence].
  - intros x. rewrite commit_place. destruct (decide _); [done|]. destruct (decide _) as [[-> Hr]|]; [by rewrite Hr|].
    intros Hx. pose proof (O6 x Hx) as ->. rewrite Hpend in Hx. by destruct (Hz 0 _ Hx).
  - intros x. rewrite commit_place. destruct (decide _) as [|H1]; [done|]. destruct (decide _); [done|].
    intros Hx. destruct (O7 x Hx) as (? & ? & E). rewrite Hpc in E. injection E as <- _ _.
    destruct Hn as [[-> _]|[Hn _]]; [congruence|by destruct H1].
  - intros x. rewrite commit_place. destruct (decide _); [done|]. destruct (decide _); [done|]. apply O8.
Qed.

Lemma commit_ctl : ctl_ok T2 (<[c := k']> K) lk cr pl2.
Proof.
  destruct commit_prev as (Hid & Hi0 & Hp). destruct commit_next as [Hnp Hn].
  assert (Hh : held k = ex) by (unfold held; by rewrite Hpc).
  assert (Hh' : held k' = ex) by done.
  rewrite <- (ctl_relock_same _ _ _ _ _ _ _ Hctl Hk).
  replace (relock lk c (held k) (held k)) with (relock lk c (held k) (held k')) by (by rewrite Hh, Hh').
  eapply ctl_cpu_step; [done|done| | | | | | |apply commit_cpu_ok].
  - unfold exec. by rewrite Hpc.
  - rewrite Hh, Hh'. intros l E1 E2. by destruct E2.
  - intros x. unfold T2, T1. rewrite alter_is_some. destruct requeue; [apply alter_is_some|done].
  - intros x t t' Ht Ht'. destruct (commit_thread x t' Ht') as (t0 & Ht0 & E & _). congruence.
  - intros x t p Ht Hx. destruct (commit_thread x t Ht) as (t0 & Ht0 & _ & Es & E1 & E2 & E3).
    rewrite commit_place in Hx. destruct (decide _) as [[-> Hni]|H1].
    { injection Hx as <-. destruct Hn as [[? _]|[_ Hn]]; [done|].
      destruct (c_thread _ _ _ _ _ Hctl n t0 _ Ht0 Hn) as [_ ?]. split; [by apply E1|by rewrite Es]. }
    destruct (decide _) as [[-> Hr]|H2].
    { injection Hx as <-. destruct Hp as [(_ & Hp & _)|[(Hr' & _)|(Hr' & _)]]; [|congruence|congruence].
      destruct (c_thread _ _ _ _ _ Hctl prev t0 _ Ht0 Hp) as [_ ?]. split; [by apply E2|by rewrite Es]. }
    destruct (decide (x = n)) as [->|Hxn].
    { destruct Hn as [[Hni _]|[Hni _]]; [|by destruct H1]. rewrite Hni, Hid in Hx. injection Hx as <-.
      split; [by apply E1|done]. }
    rewrite E3; [by eapply (c_thread _ _ _ _ _ Hctl)|done|].
    destruct (decide (x = prev)); [right; apply not_true_is_false; intros Er; by apply H2|by left].
  - intros x. rewrite commit_place. destruct (decide _) as [[-> Hni]|H1].
    { right. destruct Hn as [[? _]|[_ Hn]]; [done|]. exists (Got c), (Cur c). split; [done|]. split; [done|].
      split; [done|]. split; [done|]. split; [apply tied_cur|]. split; [|left; unfold tied; auto].
      unfold tied. intros c' [|[|[|]]]; congruence. }
    destruct (decide _) as [[-> Hr]|H2]; [|by left]. right.
    destruct Hp as [(_ & Hp & _)|[(Hr' & _)|(Hr' & _)]]; [|congruence|congruence].
    exists (Cur c), (Pend c). split; [done|]. split; [done|]. split; [done|]. split; [done|].
    split; [unfold tied; intros c' [|[|[|]]]; congruence|]. split; [apply tied_cur|]. left. by left.
Qed.

Lemma commit_in h x : pl2 !! x = Some (In h) <-> pl !! x = Some (In h).
Proof.
  destruct commit_prev as (Hid & Hi0 & Hp). destruct commit_next as [Hnp Hn].
  rewrite commit_place. destruct (decide _) as [[-> Hni]|H1].
  { destruct Hn as [[? _]|[_ Hn]]; [done|]. rewrite Hn. done. }
  destruct (decide _) as [[-> Hr]|H2]; [|done].
  destruct Hp as [(_ & Hp & _)|[(Hr' & _)|(Hr' & _)]]; [|congruence|congruence]. by rewrite Hp.
Qed.

End Commit.

Lemma commit_step st pl ls c n rq ex : inv st pl ls -> at_pc st c (Chosen n rq ex) ->
  exists pl', inv (commit st c n rq ex) pl' ls.
Proof.
  intros [Hq Hc Hi] (k & Hk & Hpc). destruct (commit_next Hc Hk Hpc) as [Hnp _].
  unfold commit. rewrite (cpu_of_lookup _ _ _ Hk), (proj2 (Z.eqb_neq n _)) by done. cbn zeta.
  set (requeue := rq && negb (cpu_thread k =? cpu_idle k)).
  set (f := fun k0 => k0 <| cpu_pending_requeue := if requeue then cpu_thread k else 0 |>
      <| cpu_pending_release_lock := ex |> <| cpu_thread := n |> <| cpu_pc := Save (cpu_thread k) |>).
  set (st1 := set_cpu _ c f).
  assert (H : exists pl', inv st1 pl' ls).
  { exists (let pl1 := if requeue then <[cpu_thread k := Pend c]> pl else pl in
            if n =? cpu_idle k then pl1 else <[n := Cur c]> pl1). constructor.
    - eapply (queues_frame st _ _ c f); [done| | | |..].
      + intros h x _. unfold st1. destruct requeue; cbn; [etransitivity; [by apply (same_view_alter next)|]|];
          by apply (same_view_alter next).
      + unfold st1. by destruct requeue.
      + done.
      + unfold st1. by destruct requeue.
      + unfold st1. by destruct requeue.
      + unfold st1. by destruct requeue.
    - pose proof (commit_ctl Hc Hk Hpc) as H. fold requeue in H. unfold st1. destruct requeue; cbn;
        rewrite (alter_insert_eq f c _ k Hk); exact H.
    - intros h x. rewrite Hi. symmetry. apply (commit_in Hc Hk Hpc). }
  destruct H as [pl' H]. exists pl'. clearbody st1. clear f requeue.
  destruct (n =? cpu_idle k); [by apply (inv_rest _ _ _ _ H)|].
  destruct (cpu_thread k =? cpu_idle k); [by apply (inv_rest _ _ _ _ H)|done].
Qed.

Lemma sched_eq_cpus st st' : st <| cpus := empty |> = st' <| cpus := empty |> -> cpus st = cpus st' -> st = st'.
Proof. destruct st, st'. cbn. by intros [= -> -> -> -> -> -> -> -> -> ->] ->. Qed.

Lemma cpu_of_goto st c p k : cpus st !! c = Some k -> cpu_of (goto st c p) c = k <| cpu_pc := p |>.
Proof. intros Hk. apply cpu_of_lookup. cbn. by rewrite lookup_alter_eq, Hk. Qed.

Lemma commit_goto st c k p n rq ex : cpus st !! c = Some k ->
  commit (goto st c p) c n rq ex = commit st c n rq ex.
Proof.
  intros Hk. unfold commit. rewrite (cpu_of_goto _ _ _ _ Hk), (cpu_of_lookup _ _ _ Hk).
  change (cpu_thread (k <| cpu_pc := p |>)) with (cpu_thread k).
  change (cpu_idle (k <| cpu_pc := p |>)) with (cpu_idle k).
  change (cpu_id (k <| cpu_pc := p |>)) with (cpu_id k).
  assert (Hs : forall f, (forall k, f (k <| cpu_pc := p |>) = f k) ->
     alter f c (alter (fun k => k <| cpu_pc := p |>) c (cpus st)) = alter f c (cpus st)).
  { intros f Hf. rewrite alter_alter_eq. apply alter_ext. intros x _. apply Hf. }
  apply sched_eq_cpus; destruct (n =? cpu_thread k); cbn zeta;
    destruct ex as [l|], (rq && negb (cpu_thread k =? cpu_idle k)), (n =? cpu_idle k), (cpu_thread k =? cpu_idle k);
    try done; by apply Hs.
Qed.

Lemma pop_step st pl ls c rq ex : inv st pl ls -> at_pc st c (Swtch rq ex) ->
  exists pl' ls', inv (swtch_pop st c rq ex) pl' ls'.
Proof.
  intros Hinv (k & Hk & Hr). unfold swtch_pop.
  destruct (got_step st pl ls c c k k rq ex Hinv Hk Hk (or_introl Hr)) as [[-> _]|(Hz & p & l & _ & _ & pl' & H)].
  - cbn. exists pl, ls. apply to_steal_step; [done|by exists k].
  - destruct (dispq_pop_locked st c) as [n st'] eqn:E. cbn [fst snd] in *.
    rewrite (proj2 (Z.eqb_neq n 0)) by done.
    assert (Hk' : exists k', cpus st' !! c = Some k').
    { pose proof (f_equal snd E) as E2. cbn in E2. rewrite <- E2. unfold dispq_pop_locked.
      case_if; cbn; [eauto|]. rewrite lookup_alter_eq, Hk. cbn. eauto. }
    destruct Hk' as [k' Hk']. rewrite <- (commit_goto st' c k' (Chosen n rq ex) n rq ex Hk').
    eapply commit_step in H as [pl2 H]; [by exists pl2, (<[HDisp c p := l]> ls)|].
    exists (k' <| cpu_pc := Chosen n rq ex |>). cbn. by rewrite lookup_alter_eq, Hk'.
Qed.

Lemma steal_step st pl ls c v rq ex : inv st pl ls -> at_pc st c (Steal rq ex) -> online st v ->
  exists pl' ls', inv (let '(t, st') := dispq_pop_locked st v in after_steal st' c t rq ex) pl' ls'.
Proof.
  intros Hinv (k & Hk & Hr) (kv & Hv & _).
  destruct (got_step st pl ls c v k kv rq ex Hinv Hk Hv (or_intror Hr)) as [[-> _]|(Hz & p & l & _ & _ & pl' & H)].
  - exists pl, ls. apply no_steal_step; [done|by exists k].
  - destruct (dispq_pop_locked st v) as [n st'] eqn:E. cbn [fst snd] in *. unfold after_steal.
    rewrite (proj2 (Z.eqb_neq n 0)) by done. cbn [negb]. by exists pl', (<[HDisp v p := l]> ls).
Qed.

(** ** [context_switch] and what follows *)

Lemma save_step st pl ls c prev : inv st pl ls -> at_pc st c (Save prev) ->
  inv (context_switch st c prev) pl ls.
Proof.
  intros [Hq Hc Hi] (k & Hk & Hpc). pose proof (c_cpu _ _ _ _ _ Hc c k Hk) as [O1 O2 O3 O4 O5 O6 O7 O8].
  unfold pc_ok, may_pend in *. rewrite Hpc in *. destruct O1 as (Hcur & Hne & Hrel).
  set (n := cpu_thread k) in *. unfold context_switch.
  change (cpu_of (assign st prev (fun t => t <| sp := Saved |>)) c) with (cpu_of st c).
  rewrite (cpu_of_lookup _ _ _ Hk). fold n. set (first := bool_decide _).
  set (k' := k <| cpu_pc := Load first |>). constructor; [| |done].
  - eapply queues_frame; [done| |done|done|done|done|done]. intros h x _. cbn.
    etransitivity; [by apply (same_view_alter next)|]. by apply (same_view_alter next).
  - cbn. rewrite (alter_insert_eq _ c _ k Hk). fold k'.
    pose proof Hc as [H1 H2 H3 H4 H5 H6 H7 H8].
    assert (Hlook : forall x t, alter (fun t => t <| sp := Stale |>) n (alter (fun t => t <| sp := Saved |>) prev (threads st)) !! x = Some t ->
      exists t0, threads st !! x = Some t0 /\ (forall p, thread_ok t0 p -> thread_ok t p)
        /\ sp t = if decide (x = n) then Stale else if decide (x = prev) then Saved else sp t0).
    { intros x t (w & (v & Hv & ->)%alter_some & ->)%alter_some. exists v. split; [done|].
      by destruct (decide (x = n)), (decide (x = prev)). }
    constructor.
    + match goal with |- ?m = None => destruct m eqn:E end; [|done]. apply Hlook in E as (? & E & _). congruence.
    + intros x. rewrite !alter_is_some. apply H2.
    + intros x t p (t0 & Ht0 & Hok & _)%Hlook Hp. apply Hok. by eapply H3.
    + intros c' k2. destruct (decide (c' = c)) as [->|]; [|rewrite lookup_insert_ne by done; apply H4].
      rewrite lookup_insert_eq. intros [= <-]. constructor; [exact Hcur|intros _; by apply O2|done|exact O4|done|done| |done].
      intros x Hx. by destruct (O7 x Hx) as (? & ? & ?).
    + intros x p c' Hp Ht. destruct (decide (c' = c)) as [->|]; [rewrite lookup_insert_eq; eauto|].
      rewrite lookup_insert_ne by done. by eapply H5.
    + intros c' l. rewrite H6. destruct (decide (c' = c)) as [->|]; [|by rewrite lookup_insert_ne].
      rewrite lookup_insert_eq. assert (Hh : held k' = held k) by (unfold held; by rewrite Hpc).
      split; [intros (k2 & Hk2 & Hh2)|intros (k2 & [= <-] & Hh2)].
      * exists k'. split; [done|]. congruence.
      * exists k. split; [done|]. congruence.
    + intros x t (t0 & Ht0 & _ & Hs)%Hlook. rewrite Hs. destruct (decide (x = n)) as [->|Hxn].
      { split; [intros _|done]. exists c, k'. by rewrite lookup_insert_eq. }
      destruct (decide (x = prev)) as [->|Hxp].
      * split; [done|]. intros (c' & k2 & Hk2 & He). exfalso. destruct (decide (c' = c)) as [->|Hcc].
        { rewrite lookup_insert_eq in Hk2. injection Hk2 as <-. by apply Hxn. }
        rewrite lookup_insert_ne in Hk2 by done. apply Hcc.
        eapply (ctl_exec_inj Hc c' c k2 k); [done|done| |by rewrite Hpc|by unfold exec at 2; rewrite Hpc].
        intros Hoff. pose proof (co_pc _ _ _ (H4 c' k2 Hk2)) as Hp2. unfold pc_ok, exec in *. rewrite Hoff in *.
        destruct Hp2 as [_ E]. rewrite E in He. subst prev. congruence.
      * rewrite (H7 x t0 Ht0). split; intros (c' & k2 & Hk2 & He).
        -- exists c', k2. split; [|done]. rewrite lookup_insert_ne; [done|]. intros <-.
           rewrite Hk in Hk2. injection Hk2 as <-. unfold exec in He. rewrite Hpc in He. congruence.
        -- exists c', k2. split; [|done]. destruct (decide (c' = c)) as [->|]; [|by rewrite lookup_insert_ne in Hk2].
           rewrite lookup_insert_eq in Hk2. injection Hk2 as <-. by destruct Hxn.
    + done.
Qed.

(** The queues after step (8). *)
Definition drained (c : Z) (st : sched) (ls : home -> list Z) : home -> list Z :=
  let t := cpu_pending_requeue (cpu_of st c) in
  if t =? 0 then ls
  else let h := HDisp c (dispq_clamp_pri (t_pri (kt st t))) in <[h := ls h ++ [t]]> ls.

(** The requeueing of step (8): what it does to queues and places. *)
Lemma drain_push st pl ls c k : inv st pl ls -> cpus st !! c = Some k ->
  let t := cpu_pending_requeue k in
  let st1 := set_cpu st c (fun k => k <| cpu_pending_requeue := 0 |>) in
  let st2 := if t =? 0 then st1 else dispq_push_locked st1 c t in
  exists pl', queues_ok st2 (drained c st ls) /\ indexed (drained c st ls) pl'
    /\ same_view tcore (threads st) (threads st2) /\ same_view ccore (cpus st1) (cpus st2) /\ same_rest st1 st2
    /\ local c (threads st) pl pl' /\ (forall x n p, threads st !! x = Some n -> pl' !! x = Some p -> thread_ok n p)
    /\ (forall x, x <> t -> pl' !! x = pl !! x) /\ (t <> 0 -> exists h, pl' !! t = Some (In h)).
Proof.
  intros Hinv Hk t st1 st2. pose proof Hinv as [Hq Hc Hi].
  pose proof (co_pend _ _ _ (c_cpu _ _ _ _ _ Hc c k Hk)) as O4. fold t in O4.
  assert (Hk1 : cpus st1 !! c = Some (k <| cpu_pending_requeue := 0 |>)) by (cbn; by rewrite lookup_alter_eq, Hk).
  assert (Hq1 : queues_ok st1 ls) by (by eapply queues_frame).
  unfold st2, drained. rewrite (cpu_of_lookup _ _ _ Hk). fold t. destruct (t =? 0) eqn:Et; bool_prop.
  - exists pl. split; [done|]. split; [done|]. split; [done|]. split; [done|]. split; [done|].
    split; [apply local_refl|]. split; [apply Hc|]. split; [done|]. done.
  - destruct (O4 Et) as [Hpt _]. destruct (inv_lookup _ _ _ _ _ Hinv Hpt) as (n & Hn & Hz & Hok).
    assert (Hnot : forall h, t ∉ ls h) by (by eapply indexed_not).
    destruct (push_queues st1 ls c t _ n Hq1 Hk1 Hn Hz Hnot) as (Hq2 & HT & HK & HR). cbn zeta in *.
    rewrite (kt_lookup _ _ _ Hn). set (p := dispq_clamp_pri (t_pri n)) in *.
    exists (<[t := In (HDisp c p)]> pl).
    split; [done|]. split; [apply indexed_into; [done|done|]; intros y; apply in_snoc|].
    split; [done|]. split; [done|]. split; [done|]. split; [|split; [|split]].
    + eapply local_set; [apply local_refl|exact Hpt|done|done| | |left; unfold tied; auto].
      * intros c' Ht'. by apply not_tied_in in Ht'.
      * unfold tied. intros c' [|[|[|]]]; congruence.
    + intros x m q Hm. destruct (decide (x = t)) as [->|]; [|rewrite lookup_insert_ne by done; by apply (c_thread _ _ _ _ _ Hc)].
      rewrite lookup_insert_eq. intros [= <-]. rewrite Hn in Hm. injection Hm as <-. by apply queue_thread_ok.
    + intros x Hx. by rewrite lookup_insert_ne.
    + intros _. eexists. by rewrite lookup_insert_eq.
Qed.

(** A CPU that has requeued the thread it left and released its lock. *)
Lemma ctl_loaded T K lk cr pl pl' c k g p' : ctl_ok T K lk cr pl -> K !! c = Some k ->
  (exists first, cpu_pc k = Load first) -> p' = Run \/ p' = Reap ->
  g = k <| cpu_pending_requeue := 0 |> <| cpu_pending_release_lock := None |> <| cpu_pc := p' |> ->
  local c T pl pl' -> (forall x n p, T !! x = Some n -> pl' !! x = Some p -> thread_ok n p) ->
  let t := cpu_pending_requeue k in
  (forall x, x <> t -> pl' !! x = pl !! x) -> (t <> 0 -> exists h, pl' !! t = Some (In h)) ->
  ctl_ok T (<[c := g]> K) (relock lk c (held k) (held g)) cr pl'.
Proof.
  intros Hc Hk [first Hpc] Hp' Eg Hloc Hth t Hsame Hmoved.
  pose proof (c_cpu _ _ _ _ _ Hc c k Hk) as [O1 O2 O3 O4 O5 O6 O7 O8].
  unfold pc_ok, may_pend in *. rewrite Hpc in *. fold t in O4, O6.
  assert (H0 : pl !! 0 = None).
  { destruct (pl !! 0) eqn:E; [|done]. destruct (proj1 (c_dom _ _ _ _ _ Hc 0) ltac:(eauto)) as [? E2].
    by rewrite (c_zero _ _ _ _ _ Hc) in E2. }
  assert (Hkt : forall x p, p = Cur c \/ p = Idle c -> pl !! x = Some p -> pl' !! x = Some p).
  { intros x p Hp Hx. rewrite Hsame; [done|]. intros ->. destruct (decide (t = 0)) as [Ez|Ez]; [congruence|].
    destruct (O4 Ez) as [Hpt _]. destruct Hp; congruence. }
  assert (Hback : forall x p, tied c p -> pl' !! x = Some p -> pl !! x = Some p /\ x <> t).
  { intros x p Ht Hx. destruct (decide (x = t)) as [->|Hne]; [|rewrite Hsame in Hx by done; done]. exfalso.
    destruct (decide (t = 0)) as [Ez|Ez].
    - destruct (Hloc t) as [E|(q & _ & Hq3 & _)]; rewrite Ez in *; congruence.
    - destruct (Hmoved Ez) as [h Hh]. rewrite Hh in Hx. injection Hx as <-. by apply not_tied_in in Ht. }
  subst g. eapply ctl_cpu_step; [done|done| | |done| |done|done|].
  - unfold exec. cbn. rewrite Hpc. by destruct Hp' as [-> | ->].
  - unfold held. cbn. destruct Hp' as [-> | ->]; done.
  - intros; congruence.
  - set (g := _ <| cpu_pc := p' |>).
    assert (Hcur : is_cur pl' c g (cpu_thread g)).
    { destruct O1 as [Hx|[Hx1 Hx]]; [left|right; split; [done|]]; (eapply Hkt; [|exact Hx]); auto. }
    constructor.
    + unfold pc_ok. unfold g at 1. cbn [cpu_pc]. destruct Hp' as [-> | ->]; exact Hcur.
    + intros _. by apply O2.
    + intros Hid. eapply Hkt; [|by apply O3]. auto.
    + done.
    + intros x Hx. apply Hback in Hx as [Hx _]; [by apply O5|unfold tied; auto].
    + intros x Hx. apply Hback in Hx as [Hx Hne]; [|unfold tied; auto]. destruct (Hne (O6 x Hx)).
    + intros x Hx. apply Hback in Hx as [Hx _]; [|unfold tied; auto]. by destruct (O7 x Hx) as (? & ? & ?).
    + intros x Hx. apply Hback in Hx as [Hx _]; [by apply O8|unfold tied; auto].
Qed.

Lemma load_step st pl ls c first : inv st pl ls -> at_pc st c (Load first) ->
  exists pl', inv (load_next st c first) pl' (drained c st ls).
Proof.
  intros Hinv (k & Hk & Hpc). pose proof Hinv as [Hq Hc Hi].
  destruct (drain_push st pl ls c k Hinv Hk) as (pl' & Hq2 & Hi2 & HT & HK & (R1 & R2 & R3 & R4 & R5) & Hloc & Hth & Hsame & Hmoved).
  unfold load_next, sched_finish_switch. rewrite (cpu_of_lookup _ _ _ Hk). cbn zeta in *.
  set (t := cpu_pending_requeue k) in *. set (p' := if first then Run else Reap).
  set (st1 := set_cpu st c (fun k => k <| cpu_pending_requeue := 0 |>)) in *.
  set (st2 := if t =? 0 then st1 else dispq_push_locked st1 c t) in *. clearbody st2.
  set (g := fun k => k <| cpu_pending_requeue := 0 |> <| cpu_pending_release_lock := None |> <| cpu_pc := p' |>).
  assert (Hk1 : cpus st1 !! c = Some (k <| cpu_pending_requeue := 0 |>)) by (cbn; by rewrite lookup_alter_eq, Hk).
  destruct (same_view_fwd _ _ _ _ _ HK Hk1) as (k2 & Hk2 & Ek2). rewrite (cpu_of_lookup _ _ _ Hk2).
  assert (Hex : cpu_pending_release_lock k2 = cpu_pending_release_lock k).
  { change (cpu_pending_release_lock (ccore k2) = cpu_pending_release_lock k). by rewrite Ek2. }
  rewrite Hex. set (ex := cpu_pending_release_lock k). exists pl'. constructor; [| |done].
  - eapply (queues_frame st2 _ _ c (fun k => k <| cpu_pending_release_lock := None |> <| cpu_pc := p' |>)); [done| | |done| | |];
      destruct ex; cbn; try done; by rewrite alter_alter_eq.
  - match goal with |- ctl_ok _ _ ?lk ?cr _ =>
      replace lk with (relock (locks st) c (held k) (held (g k)));
      [replace cr with (created st) by (destruct ex; cbn; by rewrite R4)|] end.
    2: { unfold held, relock, g. rewrite Hpc. cbn. fold ex. unfold p'. destruct first, ex; cbn; by rewrite R2. }
    eapply (ctl_view (threads st) _ (<[c := g k]> (cpus st))).
    + intros x. rewrite <- (HT x). by destruct ex.
    + intros x. destruct (decide (x = c)) as [->|Hx].
      * rewrite lookup_insert_eq. match goal with |- _ <$> ?v = _ =>
          replace v with (Some (k2 <| cpu_pending_release_lock := None |> <| cpu_pc := p' |>))
            by (destruct ex; cbn; by rewrite !lookup_alter_eq, Hk2) end.
        cbn [fmap option_fmap option_map]. f_equal.
        change (ccore (k2 <| cpu_pending_release_lock := None |> <| cpu_pc := p' |>))
          with ((ccore k2) <| cpu_pending_release_lock := None |> <| cpu_pc := p' |>). by rewrite Ek2.
      * rewrite lookup_insert_ne by done. specialize (HK x). cbn in HK. rewrite lookup_alter_ne in HK by done.
        rewrite <- HK. destruct ex; cbn; by rewrite !lookup_alter_ne.
    + eapply ctl_loaded; [done|done|by exists first| |done|done|done|done|done].
      unfold p'. destruct first; auto.
Qed.

(** ** Reaping *)

Definition deletes {A} (l : list Z) (m : gmap Z A) : gmap Z A := foldr delete m l.

Lemma deletes_lookup {A} l (m : gmap Z A) y : deletes l m !! y = if decide (y ∈ l) then None else m !! y.
Proof.
  induction l as [|x l IH]; [by rewrite decide_False by (apply not_elem_of_nil)|].
  change (deletes (x :: l) m) with (delete x (deletes l m)). destruct (decide (y = x)) as [->|Hne].
  - rewrite lookup_delete_eq, decide_True; [done|apply list_elem_of_here].
  - rewrite lookup_delete_ne, IH by done. destruct (decide (y ∈ l)).
    + rewrite decide_True; [done|]. by apply list_elem_of_further.
    + rewrite decide_False; [done|]. by rewrite elem_of_cons; intros [|].
Qed.

(** The loop frees exactly the threads of the list it grabbed. *)
Lemma reap_loop_spec l : forall fuel st p, lchain next (threads st) p l -> NoDup l -> (length l < fuel)%nat ->
  (forall x t, x ∈ l -> threads st !! x = Some t -> stack_base t <> 0) ->
  let st' := reap_loop fuel st p in
  threads st' = deletes (reverse l) (threads st) /\ cpus st' = cpus st /\ same_rest st st'.
Proof.
  induction l as [|x l IH]; intros fuel st p Hc Hd Hf Hs; (destruct fuel as [|fuel]; [cbn in Hf; lia|]).
  - cbn in Hc. subst p. done.
  - destruct Hc as (-> & Hz & n & Hn & Hc). apply NoDup_cons in Hd as [Hx Hd]. cbn [reap_loop].
    rewrite (proj2 (Z.eqb_neq x 0)), (kt_lookup _ _ _ Hn) by done.
    assert (Hsb : stack_base n <> 0) by (eapply Hs; [apply list_elem_of_here|done]).
    rewrite (proj2 (Z.eqb_neq (stack_base n) 0)) by done. cbn [negb].
    set (st1 := _ <| threads := delete x _ |>).
    assert (E : threads st1 = delete x (threads st) /\ cpus st1 = cpus st /\ same_rest st st1)
      by (unfold st1; by case_if).
    clearbody st1. destruct E as (E1 & E2 & E3).
    destruct (IH fuel st1 (next n)) as (F1 & F2 & F3).
    + rewrite E1. by apply lchain_delete.
    + done.
    + cbn in Hf. lia.
    + intros y t Hy. rewrite E1. rewrite lookup_delete_ne by (by intros ->). apply Hs. by apply list_elem_of_further.
    + split; [|split].
      * rewrite F1, E1. unfold deletes. by rewrite reverse_cons, foldr_app.
      * by rewrite F2.
      * unfold same_rest in *. intuition congruence.
Qed.

Lemma ctl_delete T K lk cr pl x : ctl_ok T K lk cr pl -> pl !! x = Some (In HReap) ->
  lk !! ToReap = None -> ctl_ok (delete x T) K lk cr (delete x pl).
Proof.
  intros Hctl Hx Hlk. pose proof Hctl as [H1 H2 H3 H4 H5 H6 H7 H8].
  destruct (proj1 (H2 x) ltac:(eauto)) as [t Ht].
  assert (Hsp : sp t <> Stale) by (eapply ctl_saved; [done|done|exact Hx|done]).
  constructor; [| | | | |done| |].
  - apply lookup_delete_None. by right.
  - intros y. rewrite !lookup_delete_is_Some, H2. done.
  - intros y w p [_ Hw]%lookup_delete_Some [_ Hp]%lookup_delete_Some. by eapply H3.
  - intros c k Hk. apply (cpu_ok_frame pl); [by apply H4| |].
    + intros y p Hy Hor. apply lookup_delete_Some. split; [|done]. intros <-.
      destruct Hor as [Hor|Hor]; [rewrite Hx in Hy; injection Hy as <-; by apply not_tied_in in Hor|].
      apply Hsp, (H7 x t Ht). exists c, k. by split.
    + intros y p [_ Hy]%lookup_delete_Some _. done.
  - intros y p c [_ Hp]%lookup_delete_Some. by apply (H5 y).
  - intros y w [_ Hw]%lookup_delete_Some. by apply H7.
  - intros y. rewrite H8. rewrite lookup_delete_Some. split; [|tauto]. intros Hy. split; [|done]. intros <-. congruence.
Qed.

Lemma ctl_deletes T K lk cr pl l : ctl_ok T K lk cr pl -> NoDup l ->
  (forall x, x ∈ l -> pl !! x = Some (In HReap)) -> lk !! ToReap = None ->
  ctl_ok (deletes l T) K lk cr (deletes l pl).
Proof.
  intros Hc Hd Hl Hlk. induction Hd as [|x l Hx Hd IH]; [done|].
  change (ctl_ok (delete x (deletes l T)) K lk cr (delete x (deletes l pl))). apply ctl_delete; [|..|done].
  - apply IH. intros y Hy. apply Hl. by apply list_elem_of_further.
  - rewrite deletes_lookup, decide_False by done. apply Hl, list_elem_of_here.
Qed.

Lemma reap_step st pl ls c : inv st pl ls -> at_pc st c Reap -> locks st !! ToReap = None ->
  exists pl', inv (goto (reap st) c Run) pl' (<[HReap := []]> ls).
Proof.
  intros Hinv (k & Hk & Hpc) Hlk. pose proof Hinv as [Hq Hc Hi]. set (l := ls HReap).
  destruct (proj1 (proj1 Hq) HReap) as [Hch Hnd]. fold l in Hch, Hnd. cbn [head_of] in Hch.
  assert (Hl : forall x, x ∈ l <-> pl !! x = Some (In HReap)) by (intros x; apply Hi).
  destruct (reap_loop_spec l (S (size (threads st))) (st <| to_reap := 0 |>) (to_reap st)) as (E1 & E2 & E3).
  { exact Hch. } { done. } { pose proof (lchain_length _ _ _ Hch Hnd). lia. }
  { intros x t Hx%Hl Ht. apply (c_thread _ _ _ _ _ Hc x t _ Ht Hx). }
  change (reap_loop (S (size (threads st))) (st <| to_reap := 0 |>) (to_reap st)) with (reap st) in *.
  set (st' := reap st) in *. clearbody st'.
  assert (Hr : forall y, y ∈ reverse l <-> y ∈ l) by (intros; apply elem_of_reverse).
  assert (H : inv st' (deletes (reverse l) pl) (<[HReap := []]> ls)).
  { destruct E3 as (R1 & R2 & R3 & R4 & R5). cbn in E1, E2, R1, R2, R3, R4, R5. constructor.
    - split.
      + apply (chains_set (threads st) _ (head_of st)); [apply Hq| | |done|apply NoDup_nil_2|].
        * intros [c' p| | |] Hne; cbn; unfold cpu_of; rewrite ?E2, ?R1, ?R3; done.
        * intros h x Hne Hx. rewrite E1. cbn. rewrite deletes_lookup, decide_False; [done|].
          rewrite Hr, Hl. apply Hi in Hx. congruence.
        * by intros h x _ ?%elem_of_nil.
      + rewrite E2. intros c' k' Hk'. eapply dq_ok_ext; [|by apply (proj2 Hq c')]. intros p.
        by rewrite fn_lookup_insert_ne.
    - rewrite E1, E2, R2, R4. apply ctl_deletes; [done|by rewrite reverse_Permutation| |done].
      intros x Hx. apply Hl. by apply Hr.
    - intros h x. rewrite deletes_lookup. destruct (decide (h = HReap)) as [->|Hne].
      + rewrite fn_lookup_insert. split; [by intros ?%elem_of_nil|]. case_decide as Hx; [done|].
        intros Hp. exfalso. apply Hx, Hr, Hl, Hp.
      + rewrite fn_lookup_insert_ne, Hi by done. case_decide as Hx; [|done].
        apply Hr, Hl in Hx. split; congruence. }
  exists (deletes (reverse l) pl).
  assert (Hk2 : cpus st' !! c = Some k) by (rewrite E2; exact Hk).
  pose proof (i_ctl _ _ _ H) as Hc2. destruct (c_cpu _ _ _ _ _ Hc2 c k Hk2) as [O1 O2 O3 O4 O5 O6 O7 O8].
  unfold pc_ok, may_pend in *. rewrite Hpc in *. rewrite goto_locks. eapply inv_goto; [exact H|done| | | | | | |].
  - unfold exec. by rewrite Hpc.
  - unfold held. by rewrite Hpc.
  - done.
  - exact O1.
  - by rewrite Hpc.
  - intros Hz. by destruct (O4 Hz).
  - by intros x (? & ? & ?)%O7.
Qed.

(** ** Bringing up a CPU *)

Lemma ctl_online T K lk cr pl c k k' x t : ctl_ok T K lk cr pl -> K !! c = Some k -> cpu_pc k = Off ->
  T !! x = None -> x <> 0 -> sp t = Stale -> state t = KT_RUNNING ->
  cpu_pc k' = Run -> cpu_thread k' = x -> cpu_idle k' = x ->
  cpu_pending_requeue k' = cpu_pending_requeue k ->
  ctl_ok (<[x := t]> T) (<[c := k']> K) lk cr (<[x := Idle c]> pl).
Proof.
  intros Hctl Hk Hoff Hx Hz Hsp Hst Hrun Hth Hid Hpd. pose proof Hctl as [H1 H2 H3 H4 H5 H6 H7 H8].
  assert (Hpx : pl !! x = None).
  { destruct (pl !! x) eqn:E; [|done]. destruct (proj1 (H2 x) ltac:(eauto)). congruence. }
  destruct (H4 c k Hk) as [O1 _ _ O4 O5 O6 O7 O8]. unfold pc_ok, may_pend in O1, O4. rewrite Hoff in O1, O4.
  destruct O1 as [Oi Ot].
  assert (Hpl : forall y p, y <> x -> <[x := Idle c]> pl !! y = Some p <-> pl !! y = Some p)
    by (intros; by rewrite lookup_insert_ne).
  assert (Hp0 : cpu_pending_requeue k = 0).
  { destruct (decide (cpu_pending_requeue k = 0)) as [|Hne]; [done|by destruct (O4 Hne)]. }
  assert (H0 : pl !! 0 = None).
  { destruct (pl !! 0) eqn:E; [|done]. destruct (proj1 (H2 0) ltac:(eauto)). congruence. }
  assert (Hcx : <[x := Idle c]> pl !! x = Some (Idle c)) by (by rewrite lookup_insert_eq).
  constructor.
  - by rewrite lookup_insert_ne.
  - intros y. destruct (decide (y = x)) as [->|]; [rewrite !lookup_insert_eq; split; eauto|].
    by rewrite !lookup_insert_ne.
  - intros y w p. destruct (decide (y = x)) as [->|].
    + rewrite !lookup_insert_eq. by intros [= <-] [= <-].
    + rewrite !lookup_insert_ne by done. by apply H3.
  - intros c' k2. destruct (decide (c' = c)) as [->|Hne].
    + rewrite lookup_insert_eq. intros [= <-].
      assert (Hn : forall y p, tied c p -> pl !! y = Some p -> p <> Idle c -> False).
      { intros y p Ht Hy Hp. destruct Ht as [->|[->|[->| ->]]]; [| | |done].
        - rewrite (O5 y Hy), Ot, H0 in Hy. done.
        - rewrite (O6 y Hy), Hp0, H0 in Hy. done.
        - destruct (O7 y Hy) as (? & ? & ?). congruence. }
      constructor; rewrite ?Hrun, ?Hth, ?Hid, ?Hpd, ?Hp0; try done.
      * unfold pc_ok. rewrite Hrun, Hth. right. by rewrite Hid.
      * intros y. destruct (decide (y = x)) as [->|]; [done|]. rewrite Hpl by done.
        intros Hy. exfalso. by eapply Hn; [by left|exact Hy|].
      * intros y. destruct (decide (y = x)) as [->|]; [by rewrite Hcx|]. rewrite Hpl by done.
        intros Hy. exfalso. by eapply Hn; [by right; left|exact Hy|].
      * intros y. destruct (decide (y = x)) as [->|]; [by rewrite Hcx|]. rewrite Hpl by done.
        intros Hy. exfalso. by eapply Hn; [by right; right; left|exact Hy|].
      * intros y. destruct (decide (y = x)) as [->|]; [done|]. rewrite Hpl by done.
        intros Hy. exfalso. rewrite (O8 y Hy), Oi, H0 in Hy. done.
    + rewrite lookup_insert_ne by done. intros Hk2. apply (cpu_ok_frame pl); [by apply H4| |].
      * intros y p Hy _. rewrite lookup_insert_ne; [done|]. congruence.
      * intros y p. destruct (decide (y = x)) as [->|]; [|by rewrite lookup_insert_ne].
        rewrite Hcx. intros [= <-] Ht. exfalso. unfold tied in Ht. destruct Ht as [|[|[|]]]; congruence.
  - intros y p c' Hy Ht. destruct (decide (c' = c)) as [->|]; [rewrite lookup_insert_eq; eauto|].
    rewrite lookup_insert_ne by done. destruct (decide (y = x)) as [->|]; [|eapply (H5 y p); [by rewrite lookup_insert_ne in Hy|done]].
    rewrite Hcx in Hy. injection Hy as <-. unfold tied in Ht. exfalso. destruct Ht as [|[|[|]]]; congruence.
  - intros c' l. rewrite H6. destruct (decide (c' = c)) as [->|]; [|by rewrite lookup_insert_ne].
    rewrite lookup_insert_eq. unfold held. split; intros (k2 & Hk2 & Hh); exfalso.
    + rewrite Hk in Hk2. injection Hk2 as <-. by rewrite Hoff in Hh.
    + injection Hk2 as <-. by rewrite Hrun in Hh.
  - intros y w. destruct (decide (y = x)) as [->|Hyx].
    + rewrite lookup_insert_eq. intros [= <-]. split; [intros _|done]. exists c, k'.
      rewrite lookup_insert_eq. split; [done|]. unfold exec. by rewrite Hrun.
    + rewrite lookup_insert_ne by done. intros Hw. rewrite (H7 y w Hw).
      split; intros (c' & k2 & Hk2 & He); exists c', k2; (split; [|done]).
      * rewrite lookup_insert_ne; [done|]. intros <-. rewrite Hk in Hk2. injection Hk2 as <-.
        unfold exec in He. rewrite Hoff, Ot in He. congruence.
      * destruct (decide (c' = c)) as [->|]; [|by rewrite lookup_insert_ne in Hk2].
        rewrite lookup_insert_eq in Hk2. injection Hk2 as <-. unfold exec in He. rewrite Hrun in He. congruence.
  - intros y. rewrite H8. destruct (decide (y = x)) as [->|]; [|by rewrite lookup_insert_ne].
    rewrite Hcx, Hpx. done.
Qed.

Lemma online_step st pl ls c idle ip : inv st pl ls -> at_pc st c Off -> 0 <= c < KSCHED_NCPU ->
  threads st !! idle = None -> idle <> 0 ->
  exists pl' ls', inv (sched_secondary_init st c idle ip) pl' ls'.
Proof.
  intros [Hq Hc Hi] (k & Hk & Hoff) Hcr Hx Hz. unfold sched_secondary_init.
  destruct (c >=? KSCHED_NCPU) eqn:Ec; [bool_prop; lia|]. rewrite (proj2 (Z.eqb_neq idle 0)) by done.
  cbn zeta. set (t := _ <| t_proc := ip |>). set (g := fun k => _ <| cpu_pc := Run |>).
  assert (Hnot : forall h, idle ∉ ls h).
  { intros h Hy. destruct (queues_lookup _ _ _ _ Hq Hy) as [_ [? ?]]. congruence. }
  exists (<[idle := Idle c]> pl), ls.
  set (st1 := (st <| threads := <[idle := t]> (threads st) |> <| cpus := alter g c (cpus st) |>)).
  assert (H : inv st1 (<[idle := Idle c]> pl) ls).
  { constructor.
    - eapply queues_frame; [done| |done|done|done|done|done].
      intros h x Hy. cbn. rewrite lookup_insert_ne; [done|]. intros ->. by destruct (Hnot h).
    - cbn. rewrite (alter_insert_eq g c _ k Hk). by eapply ctl_online.
    - by apply indexed_set. }
  apply (inv_rest _ _ _ _ H); by destruct (next_tid st <? KSCHED_MAX_TID).
Qed.

(** ** All steps *)

Lemma sched_step_inv st pl ls st' : inv st pl ls -> sched_step st st' -> exists pl' ls', inv st' pl' ls'.
Proof.
  intros Hinv Hs. destruct Hs.
  - eexists _, _. by apply yield_step.
  - eexists _, _. by apply tick_step.
  - eexists _, _. by apply setclass_step.
  - by eapply create_step.
  - by eapply dispatch_step.
  - by eapply sleep_step.
  - eapply detach_step; [done|apply wakes_wakeup|done|done].
  - by eapply wake_one_step.
  - by eapply wake_push_step.
  - by eapply signal_step.
  - by eapply signal_unlink_step.
  - by eapply exit_step.
  - eexists _, _. by eapply exit_done_step.
  - by eapply pop_step.
  - by eapply steal_step.
  - eexists _, _. by eapply no_steal_step.
  - edestruct commit_step as [pl' H']; eauto.
  - eexists _, _. by eapply save_step.
  - edestruct load_step as [pl' H']; eauto.
  - edestruct reap_step as [pl' H']; eauto.
  - by eapply online_step.
Qed.

Lemma cpu_ok_off c main : c <> 0 -> cpu_ok {[main := Idle 0]} c no_cpu.
Proof.
  intros Hc. constructor; cbn; try done; intros x Hx;
    apply lookup_singleton_Some in Hx as [_ Hx]; congruence.
Qed.

Lemma init_inv main ip : main <> 0 -> inv (sched_init main ip) {[main := Idle 0]} (fun _ => []).
Proof.
  intros Hm. constructor.
  - split.
    + split; [|by intros i j x ?%elem_of_nil]. intros h. split; [|apply NoDup_nil_2].
      destruct h as [c p|w|i|]; cbn; [|done|done|done]. unfold cpu_of. cbn.
      destruct (decide (c = 0)) as [->|H0]; [by rewrite lookup_insert_eq|rewrite lookup_insert_ne by done].
      repeat (destruct (_ !! c) eqn:E; [|done]).
      apply lookup_insert_Some in E as [[_ <-]|[_ E]]; [done|].
      apply lookup_insert_Some in E as [[_ <-]|[_ E]]; [done|].
      by apply lookup_singleton_Some in E as [_ <-].
    + intros c k Hk. assert (E : cpu_dispq_tail k = empty /\ cpu_qactmap k = 0 /\ cpu_maxrunpri k = -1 /\ cpu_nrunnable k = 0).
      { cbn in Hk. repeat (apply lookup_insert_Some in Hk as [[_ <-]|[_ Hk]]; [done|]).
        by apply lookup_singleton_Some in Hk as [_ <-]. }
      destruct E as (E1 & E2 & E3 & E4). constructor; rewrite ?E1, ?E2, ?E3, ?E4; try done.
      intros p Hp. by rewrite Z.testbit_0_l.
  - assert (Hcpu : forall c k, cpus (sched_init main ip) !! c = Some k ->
      (c = 0 /\ k = no_cpu <| cpu_thread := main |> <| cpu_idle := main |> <| cpu_pc := Run |>) \/ (c <> 0 /\ k = no_cpu)).
    { cbn. intros c k [[<- <-]|[Hc Hk]]%lookup_insert_Some; [by left|right]. split; [done|].
      repeat (apply lookup_insert_Some in Hk as [[_ <-]|[_ Hk]]; [done|]).
      by apply lookup_singleton_Some in Hk as [_ <-]. }
    constructor.
    + cbn. by rewrite lookup_singleton_ne.
    + intros x. cbn. destruct (decide (x = main)) as [->|]; [rewrite !lookup_singleton_eq; split; eauto|].
      by rewrite !lookup_singleton_ne.
    + cbn [threads sched_init]. intros x t p [<- <-]%lookup_singleton_Some Hp. rewrite lookup_singleton_eq in Hp. by injection Hp as <-.
    + intros c k Hk. destruct (Hcpu c k Hk) as [[-> ->]|[Hc ->]]; [|by apply cpu_ok_off].
      constructor; cbn; try done.
      * right. by rewrite lookup_singleton_eq.
      * intros _. by rewrite lookup_singleton_eq.
      * by intros x [_ ?]%lookup_singleton_Some.
      * by intros x [_ ?]%lookup_singleton_Some.
      * by intros x [_ ?]%lookup_singleton_Some.
      * by intros x [<- _]%lookup_singleton_Some.
    + intros x p c [_ <-]%lookup_singleton_Some Ht. unfold tied in Ht.
      by destruct Ht as [|[|[|[= <-]]]].
    + intros c l. split; [done|]. intros (k & Hk & Hh). by destruct (Hcpu c k Hk) as [[-> ->]|[Hc ->]].
    + cbn [threads sched_init]. intros x t [<- <-]%lookup_singleton_Some. split; [|done]. intros _. eexists 0, _. cbn.
      by rewrite lookup_insert_eq.
    + intros x. cbn. split; [set_solver|]. by intros [_ ?]%lookup_singleton_Some.
  - intros h x. cbn. split; [by intros ?%elem_of_nil|]. by intros [_ ?]%lookup_singleton_Some.
Qed.

Lemma reachable_inv main ip st : main <> 0 -> reachable main ip st -> exists pl ls, inv st pl ls.
Proof.
  intros Hm Hr. assert (H0 : exists pl ls, inv (sched_init main ip) pl ls) by (eexists _, _; by apply init_inv).
  unfold reachable in Hr. revert H0. generalize (sched_init main ip), Hr. clear. intros st0 Hr.
  induction Hr as [|st1 st2 st3 Hs _ IH]; [done|]. intros (pl & ls & H). apply IH. by eapply sched_step_inv.
Qed.

End SchedSwitch.
