(* ===== verification/SchedThm.v ===== *)
(** * What the scheduler guarantees

    Theorems on every state the CPUs reach from [sched_init], whatever way their
    steps interleave. *)

From stdpp Require Import functions base numbers list gmap relations.
From Stdlib Require Import ZArith Lia Bool.
From S2P Require Import Prelude Links Sched SchedInv SchedStep SchedSwitch.

Module SchedThm.
Import Links Sched SchedInv SchedStep SchedSwitch.

(** Where the thread is that a CPU calls its current one. *)
Lemma thread_place pl c k : cpu_ok pl c k -> cpu_pc k <> Off ->
  exists p, pl !! cpu_thread k = Some p
  /\ (p = Cur c \/ p = Idle c \/ exists h l, p = In h /\ lock_of h = Some l /\ held k = Some l).
Proof.
  intros Hok Hoff. pose proof Hok as [Hpc Hon Hid Hpd _ _ _ _].
  assert (Hcur : is_cur pl c k (cpu_thread k) -> exists p, pl !! cpu_thread k = Some p
    /\ (p = Cur c \/ p = Idle c \/ exists h l, p = In h /\ lock_of h = Some l /\ held k = Some l))
    by (intros [?|[? ?]]; eauto 10).
  assert (Hlv : forall rq ex, held k = ex -> leaving pl c k rq ex -> exists p, pl !! cpu_thread k = Some p
    /\ (p = Cur c \/ p = Idle c \/ exists h l, p = In h /\ lock_of h = Some l /\ held k = Some l)).
  { intros [|] ex Hh; [by intros [? _]; apply Hcur|]. intros (h & l & ? & ? & ->). eauto 10. }
  unfold held, pc_ok in *. destruct (cpu_pc k); try done; try (by apply Hcur); try (by eapply Hlv).
  - exists (In HReap). split; [done|]. do 2 right. by exists HReap, ToReap.
  - destruct Hpc as [Hpc _]. by eapply Hlv.
  - apply Hcur. apply Hpc.
Qed.

Definition known (st : sched) (ls : home -> list Z) (x : Z) : Prop :=
  (exists h, x ∈ ls h) \/ x ∈ created st
  \/ exists c k, cpus st !! c = Some k
      /\ (x = cpu_thread k \/ x = cpu_idle k \/ x = cpu_pending_requeue k
          \/ exists rq ex, cpu_pc k = Chosen x rq ex).

Definition queued_right (st : sched) (ls : home -> list Z) : Prop :=
  forall h x, x ∈ ls h ->
    match h with
    | HDisp _ p => state (kt st x) = KT_READY /\ level_ok (kt st x) p
    | HWait wq => state (kt st x) = KT_BLOCKED /\ waiting_on (kt st x) = wq
    | HWake _ => state (kt st x) = KT_READY
    | HReap => state (kt st x) = KT_DEAD
    end.

(** ** A run

    The boot thread creates a thread on CPU 0, yields to it, and the thread exits;
    the states on the way. *)

Definition d1 : sched := (kthread_create_internal (sched_init 1000 1) 0 2000 3000 []).2.
Definition d2 : sched := dispatch_to d1 0 2000.
Definition d3 : sched := goto d2 0 (Swtch true None).
Definition d4 : sched := swtch_pop d3 0 true None.
Definition d5 : sched := context_switch d4 0 1000.
Definition d6 : sched := load_next d5 0 true.
Definition d7 : sched := goto (start_waker (exit_enter d6 0 0) 0) 0 (Exit 0).
Definition d8 : sched := goto d7 0 (Swtch false (Some ToReap)).
Definition d9 : sched := swtch_pop d8 0 false (Some ToReap).
Definition d10 : sched := after_steal d9 0 0 false (Some ToReap).
Definition d11 : sched := commit d10 0 1000 false (Some ToReap).
Definition d12 : sched := context_switch d11 0 2000.
Definition d13 : sched := load_next d12 0 false.

Ltac here := eexists; split; [vm_compute; reflexivity|reflexivity].

Ltac compute_eq := vm_compute; reflexivity.

Lemma run_d2 : reachable 1000 1 d2.
Proof.
  apply (rtc_l _ _ d1); [apply (st_create _ 0 2000 3000 []); [here|compute_eq|done|done]|].
  apply rtc_once, st_dispatch; [vm_compute; reflexivity|].
  eexists. split; [compute_eq|done].
Qed.

Lemma run_d4 : reachable 1000 1 d4.
Proof.
  unfold reachable. etransitivity; [apply run_d2|]. apply (rtc_l _ _ d3); [apply (st_yield d2 0); here|].
  apply rtc_once, (st_pop d3 0 true None). here.
Qed.

Lemma run_d6 : reachable 1000 1 d6.
Proof.
  unfold reachable. etransitivity; [apply run_d4|]. apply (rtc_l _ _ d5); [apply (st_save d4 0 1000); here|].
  apply rtc_once, (st_load d5 0 true). here.
Qed.

Lemma exit_d7 : sched_step d6 d7.
Proof.
  apply (st_exit d6 0 0 0); [here| |compute_eq|compute_eq|compute_eq].
  unfold not_idle. vm_compute. discriminate.
Qed.

Lemma run_d10 : reachable 1000 1 d10.
Proof.
  unfold reachable. etransitivity; [apply run_d6|]. apply (rtc_l _ _ d7); [apply exit_d7|].
  apply (rtc_l _ _ d8); [apply (st_exit_done d7 0 0); [here|compute_eq]|].
  apply (rtc_l _ _ d9); [apply (st_pop d8 0 false (Some ToReap)); here|].
  apply rtc_once, (st_no_steal d9 0 false (Some ToReap)). here.
Qed.

Lemma run_d13 : reachable 1000 1 d13.
Proof.
  unfold reachable. etransitivity; [apply run_d10|].
  apply (rtc_l _ _ d11); [apply (st_commit d10 0 1000 false (Some ToReap)); here|].
  apply (rtc_l _ _ d12); [apply (st_save d11 0 2000); here|].
  apply rtc_once, (st_load d12 0 false). here.
Qed.

(** [kthread_create] dispatches the thread before it returns it.  Here the thread runs,
    exits and is freed before its creator, the boot thread, does anything more with the
    pointer: [kthread_inherit_fds] and [kthread_setclass] would write to freed memory. *)
Lemma created_thread_freed : reachable 1000 1 (goto (reap d13) 0 Run)
  /\ cpu_thread (cpu_of (reap d13) 0) = 1000 /\ threads (reap d13) !! 2000 = None.
Proof.
  split; [|split; compute_eq]. unfold reachable. etransitivity; [apply run_d13|].
  apply rtc_once, (st_reap d13 0); [here|compute_eq].
Qed.







(** C24: The dispatch queue of a CPU is a priority queue that is first in, first out
    within a priority: [dispq_push_locked] appends the thread at its clamped
    priority, [dispq_pop_locked] takes the first thread of the highest priority that
    has one and fails exactly when there is none; neither touches any other queue. *)
Theorem dispq_is_priority_queue st ls c k (Hq : queues_ok st ls) (Hk : cpus st !! c = Some k) :
  (forall t n, threads st !! t = Some n -> t <> 0 -> (forall h, t ∉ ls h) ->
     let h := HDisp c (dispq_clamp_pri (t_pri n)) in
     queues_ok (dispq_push_locked st c t) (<[h := ls h ++ [t]]> ls))
  /\ (let '(t, st') := dispq_pop_locked st c in
      (t = 0 /\ st' = st /\ forall p, ls (HDisp c p) = [])
      \/ exists p l, t <> 0 /\ ls (HDisp c p) = t :: l /\ (forall q, p < q -> ls (HDisp c q) = [])
           /\ queues_ok st' (<[HDisp c p := l]> ls)).
Proof.
  split.
  - intros t n Hn Ht Hnot. by apply (push_queues st ls c t k n).
  - pose proof (pop_queues st ls c k Hq Hk) as Hp. cbv zeta in Hp.
    destruct (dispq_pop_locked st c) as [t st']. cbn [fst snd] in Hp.
    destruct Hp as [[[= -> ->] He]|(p & t' & l & -> & Hz & El & Hmax & Hq' & _)]; [by left|right].
    by exists p, l.
Qed.

(** The queue of CPU 0 with the new thread on it, popped. *)
Lemma dispq_is_priority_queue_witness : exists ls, queues_ok d2 ls
  /\ exists p l, ls (HDisp 0 p) = 2000 :: l /\ queues_ok (dispq_pop_locked d2 0).2 (<[HDisp 0 p := l]> ls).
Proof.
  destruct (reachable_inv 1000 1 d2 ltac:(lia) run_d2) as (pl & ls & Hinv).
  exists ls. split; [apply Hinv|].
  assert (Hk : exists k, cpus d2 !! 0 = Some k) by (eexists; vm_compute; reflexivity). destruct Hk as [k Hk].
  destruct (dispq_is_priority_queue d2 ls 0 k (i_queues _ _ _ Hinv) Hk) as [_ Hpop].
  assert (E : (dispq_pop_locked d2 0).1 = 2000) by (vm_compute; reflexivity).
  destruct (dispq_pop_locked d2 0) as [t st']. cbn [fst] in E. subst t.
  destruct Hpop as [[? _]|(p & l & _ & El & _ & Hq)]; [lia|]. exists p, l. split; [exact El|exact Hq].
Defined.

(** ** Exit and priorities *)

(** A time-sharing thread that waits for another to exit is made ready by the exit
    with the priority it had been demoted to, although every other wakeup gives it
    the default priority back. *)
Theorem exit_wakes_without_promotion main init_process st c status w t (Hmain : main <> 0)
    (Hr : reachable main init_process st) (Hrun : at_pc st c Run) (Hw : threads st !! w = Some t)
    (Hb : state t = KT_BLOCKED) (Hwq : waiting_on t = thread_exit_wq) (Hts : t_cid t = SCLASS_TS) :
  let by_exit := kt (exit_enter st c status).2 w in
  let by_wakeup := kt (wake_detach wakeup st thread_exit_wq).2 w in
  state by_exit = KT_READY /\ t_pri by_exit = t_pri t
  /\ state by_wakeup = KT_READY /\ t_pri by_wakeup = KSCHED_PRI_TS_DEFAULT.
Proof.
  destruct (reachable_inv main init_process st Hmain Hr) as (pl & ls & Hinv).
  pose proof (blocked_place _ _ _ _ _ Hinv Hw Hb) as Hp. rewrite Hwq in Hp.
  assert (Hin : w ∈ ls (HWait thread_exit_wq)) by (by apply (i_in _ _ _ Hinv)).
  destruct (proj1 (proj1 (i_queues _ _ _ Hinv)) (HWait thread_exit_wq)) as [Hch Hnd]. cbn [head_of] in Hch.
  set (l := ls (HWait thread_exit_wq)) in *. cbn zeta. unfold kt.
  destruct Hrun as (k & Hk & Hpc). destruct (run_facts _ _ _ _ _ Hinv Hk Hpc) as (Hcur & _).
  assert (Hme : cpu_thread k ∉ l).
  { intros Hx. apply (i_in _ _ _ Hinv) in Hx. destruct Hcur as [E|[_ E]]; congruence. }
  rewrite (detach_threads wakeup st _ l wakes_wakeup Hch Hnd), alters_lookup, decide_True, Hw by done.
  unfold exit_enter. rewrite (cpu_of_lookup _ _ _ Hk). cbn zeta.
  rewrite (detach_threads make_ready _ _ l wakes_make_ready); [|cbn|done].
  - rewrite alters_lookup, decide_True by done. cbn. rewrite !lookup_alter_ne, Hw by (intros E; apply Hme; by rewrite E).
    cbn. unfold wakeup. cbn. rewrite Hts. done.
  - by apply lchain_alter, lchain_alter.
Qed.

(** Thread 2000 becomes a time-sharing thread, is demoted once, and sleeps until some
    thread exits; the boot thread creates 2100, which runs. *)
Definition tick1 (st : sched) : sched :=
  let '(yield, st') := tick_class st 0 in if yield : bool then goto st' 0 (Swtch true None) else st'.
Definition wq_lock : option lock := Some (Sq thread_exit_wq).
Definition e1 : sched := kthread_setclass d6 2000 SCLASS_TS.
Definition e2 : sched := tick1 (tick1 (tick1 (tick1 (tick1 e1)))).
Definition e3 : sched := swtch_pop e2 0 true None.
Definition e4 : sched := after_steal e3 0 0 true None.
Definition e5 : sched := sleep_enter e4 0 thread_exit_wq.
Definition e6 : sched := swtch_pop e5 0 false wq_lock.
Definition e7 : sched := after_steal e6 0 0 false wq_lock.
Definition e8 : sched := commit e7 0 1000 false wq_lock.
Definition e9 : sched := context_switch e8 0 2000.
Definition e10 : sched := load_next e9 0 false.
Definition e11 : sched := goto (reap e10) 0 Run.
Definition e12 : sched := (kthread_create_internal e11 0 2100 3100 []).2.
Definition e13 : sched := dispatch_to e12 0 2100.
Definition e14 : sched := goto e13 0 (Swtch true None).
Definition e15 : sched := swtch_pop e14 0 true None.
Definition e16 : sched := context_switch e15 0 1000.
Definition e17 : sched := load_next e16 0 true.

Lemma run_e4 : reachable 1000 1 e4.
Proof.
  unfold reachable. etransitivity; [apply run_d6|].
  apply (rtc_l _ _ e1); [apply (st_setclass d6 2000 SCLASS_TS); vm_compute; eauto|].
  apply (rtc_l _ _ (tick1 e1)); [apply (st_tick e1 0); here|].
  apply (rtc_l _ _ (tick1 (tick1 e1))); [apply (st_tick (tick1 e1) 0); here|].
  apply (rtc_l _ _ (tick1 (tick1 (tick1 e1)))); [apply (st_tick (tick1 (tick1 e1)) 0); here|].
  apply (rtc_l _ _ (tick1 (tick1 (tick1 (tick1 e1))))); [apply (st_tick (tick1 (tick1 (tick1 e1))) 0); here|].
  apply (rtc_l _ _ e2); [apply (st_tick (tick1 (tick1 (tick1 (tick1 e1)))) 0); here|].
  apply (rtc_l _ _ e3); [apply (st_pop e2 0 true None); here|].
  apply rtc_once, (st_no_steal e3 0 true None). here.
Qed.

Lemma run_e9 : reachable 1000 1 e9.
Proof.
  unfold reachable. etransitivity; [apply run_e4|].
  apply (rtc_l _ _ e5); [apply (st_sleep e4 0); [here| |done|compute_eq]|].
  { unfold not_idle. vm_compute. discriminate. }
  apply (rtc_l _ _ e6); [apply (st_pop e5 0 false wq_lock); here|].
  apply (rtc_l _ _ e7); [apply (st_no_steal e6 0 false wq_lock); here|].
  apply (rtc_l _ _ e8); [apply (st_commit e7 0 1000 false wq_lock); here|].
  apply rtc_once, (st_save e8 0 2000). here.
Qed.

Lemma run_e13 : reachable 1000 1 e13.
Proof.
  unfold reachable. etransitivity; [apply run_e9|].
  apply (rtc_l _ _ e10); [apply (st_load e9 0 false); here|].
  apply (rtc_l _ _ e11); [apply (st_reap e10 0); [here|compute_eq]|].
  apply (rtc_l _ _ e12); [apply (st_create e11 0 2100 3100 []); [here|compute_eq|done|done]|].
  apply rtc_once, (st_dispatch e12 2100 0); [vm_compute; reflexivity|].
  eexists. split; [compute_eq|done].
Qed.

Lemma run_e17 : reachable 1000 1 e17.
Proof.
  unfold reachable. etransitivity; [apply run_e13|].
  apply (rtc_l _ _ e14); [apply (st_yield e13 0); here|].
  apply (rtc_l _ _ e15); [apply (st_pop e14 0 true None); here|].
  apply (rtc_l _ _ e16); [apply (st_save e15 0 1000); here|].
  apply rtc_once, (st_load e16 0 true). here.
Qed.

Lemma exit_wakes_without_promotion_witness :
  cpu_thread (cpu_of e17 0) = 2100 /\ t_pri (kt (exit_enter e17 0 0).2 2000) = 25
  /\ t_pri (kt (wake_detach wakeup e17 thread_exit_wq).2 2000) = 30.
Proof.
  assert (Ht : threads e17 !! 2000 = Some (kt e17 2000)) by (vm_compute; reflexivity).
  assert (Hrun : at_pc e17 0 Run) by here.
  destruct (exit_wakes_without_promotion 1000 1 e17 0 0 2000 (kt e17 2000) ltac:(lia) run_e17 Hrun Ht)
    as (_ & H1 & _ & H2); [vm_compute; reflexivity..|].
  split; [vm_compute; reflexivity|]. split; [|exact H2].
  rewrite H1. vm_compute. reflexivity.
Defined.

End SchedThm.
