(* ===== verification/SchedLive.v ===== *)
(** * No starvation among time-sharing threads

    On one CPU, a thread of the time-sharing class that is on a dispatch queue gets
    the CPU after a bounded number of clock ticks, if the threads that run only
    compute.  The quantum of a running thread shrinks with every tick and its
    priority with every quantum, so after a while all of them have priority 0, and
    there the queue is served in turn. *)

From stdpp Require Import functions base numbers list gmap relations.
From Stdlib Require Import ZArith Lia Bool.
From S2P Require Import Prelude Links Sched SchedInv SchedStep SchedSwitch SchedThm.

Module SchedLive.
Import Links Sched SchedInv SchedStep SchedSwitch SchedThm.

(** ** The effect of a yield *)

Definition att (t : kthread) : Z * Z * sclass_id := (t_pri t, t_quantum_left t, t_cid t).

Lemma att_fields t t' : att t' = att t ->
  t_pri t' = t_pri t /\ t_quantum_left t' = t_quantum_left t /\ t_cid t' = t_cid t.
Proof. by intros [= -> -> ->]. Qed.

(** Steps of the CPU [c] that leave class data, wait queues and other CPUs alone. *)
Record calm (c : Z) (st st' : sched) : Prop := mk_calm {
  calm_att : same_view att (threads st) (threads st');
  calm_wq : wq_head st' = wq_head st;
  calm_other : forall c', c' <> c -> cpus st' !! c' = cpus st !! c' }.

Lemma calm_refl c st : calm c st st.
Proof. by constructor. Qed.

Lemma calm_trans c st1 st2 st3 : calm c st1 st2 -> calm c st2 st3 -> calm c st1 st3.
Proof.
  intros [A1 B1 C1] [A2 B2 C2]. constructor.
  - by eapply same_view_trans.
  - congruence.
  - intros c' H. by rewrite C2, C1.
Qed.

Lemma calm_goto c st p : calm c st (goto st c p).
Proof. constructor; [done|done|]. intros c' H. cbn. by rewrite lookup_alter_ne. Qed.

Lemma calm_pop c st : calm c st (dispq_pop_locked st c).2.
Proof.
  unfold dispq_pop_locked. case_if; [apply calm_refl|]. constructor; [by apply same_view_alter|done|].
  intros c' H. cbn. by rewrite lookup_alter_ne.
Qed.

Lemma calm_push c st t : calm c st (dispq_push_locked st c t).
Proof.
  unfold dispq_push_locked. cbn zeta. destruct (negb _); constructor; cbn; try done.
  - eapply same_view_trans; by apply same_view_alter.
  - intros c' H. by rewrite lookup_alter_ne.
  - by apply same_view_alter.
  - intros c' H. by rewrite !lookup_alter_ne.
Qed.

Lemma calm_commit c st n rq ex : calm c st (commit st c n rq ex).
Proof.
  unfold commit. cbn zeta. set (k := cpu_of st c). clearbody k.
  destruct (n =? cpu_thread k); [destruct ex; (constructor; [done|done|]); intros c' H; cbn; by rewrite lookup_alter_ne|].
  destruct (rq && negb _), (n =? cpu_idle k); try destruct (cpu_thread k =? cpu_idle k);
    (constructor; [|done|intros c' H; cbn; by rewrite lookup_alter_ne]);
    cbn; try (by apply same_view_alter); eapply same_view_trans; by apply same_view_alter.
Qed.

Lemma calm_save c st prev : calm c st (context_switch st c prev).
Proof.
  constructor; [|done|]; cbn.
  - eapply same_view_trans; by apply same_view_alter.
  - intros c' H. by rewrite lookup_alter_ne.
Qed.

Lemma calm_load c st first : calm c st (load_next st c first).
Proof.
  unfold load_next, sched_finish_switch.
  set (st1 := if _ =? 0 then _ else _).
  assert (H : calm c st st1).
  { unfold st1. eapply (calm_trans _ _ (set_cpu st c (fun k => k <| cpu_pending_requeue := 0 |>))).
    - constructor; [done|done|]. intros c' H. cbn. by rewrite lookup_alter_ne.
    - case_if; [apply calm_refl|apply calm_push]. }
  clearbody st1. eapply calm_trans; [exact H|].
  destruct (cpu_pending_release_lock (cpu_of st1 c)); constructor; try done; intros c' Hc; cbn; by rewrite !lookup_alter_ne.
Qed.

Definition alone (st : sched) (c : Z) : Prop :=
  forall c' k, cpus st !! c' = Some k -> c' <> c -> cpu_pc k = Off.

Lemma alone_calm c st st' : calm c st st' -> alone st c -> alone st' c.
Proof. intros Hc Ha c' k Hk Hne. rewrite (calm_other _ _ _ Hc) in Hk by done. by eapply Ha. Qed.

(** The record of the CPU after each part of the switch. *)
Lemma commit_cpu st c k n rq ex : cpus st !! c = Some k -> n <> cpu_thread k ->
  exists k', cpus (commit st c n rq ex) !! c = Some k' /\ cpu_pc k' = Save (cpu_thread k)
    /\ cpu_thread k' = n /\ cpu_idle k' = cpu_idle k
    /\ cpu_pending_requeue k' = if rq && negb (cpu_thread k =? cpu_idle k) then cpu_thread k else 0.
Proof.
  intros Hk Hne. unfold commit. rewrite (cpu_of_lookup _ _ _ Hk), (proj2 (Z.eqb_neq n _)) by done. cbn zeta.
  destruct (rq && negb _), (n =? cpu_idle k), (cpu_thread k =? cpu_idle k);
    (eexists; split; [cbn; rewrite lookup_alter_eq, Hk; reflexivity|done]).
Qed.

Lemma pop_cpu_view st c k : cpus st !! c = Some k ->
  exists k', cpus (dispq_pop_locked st c).2 !! c = Some k' /\ ccore k' = ccore k.
Proof.
  intros Hk. unfold dispq_pop_locked. case_if; [by exists k|]. cbn. rewrite lookup_alter_eq, Hk.
  eexists. split; [done|]. unfold pop_cpu. by case_if.
Qed.

Lemma push_cpu_view st c k t : cpus st !! c = Some k ->
  exists k', cpus (dispq_push_locked st c t) !! c = Some k' /\ ccore k' = ccore k.
Proof.
  intros Hk. unfold dispq_push_locked. cbn zeta. destruct (negb _); cbn; rewrite ?lookup_alter_eq, Hk; by eexists.
Qed.

Lemma load_cpu st c k first : cpus st !! c = Some k ->
  exists k', cpus (load_next st c first) !! c = Some k' /\ cpu_pc k' = (if first then Run else Reap)
    /\ cpu_thread k' = cpu_thread k /\ cpu_idle k' = cpu_idle k.
Proof.
  intros Hk. unfold load_next, sched_finish_switch. rewrite (cpu_of_lookup _ _ _ Hk).
  set (st1 := if _ =? 0 then _ else _).
  assert (H : exists k1, cpus st1 !! c = Some k1 /\ ccore k1 = ccore (k <| cpu_pending_requeue := 0 |>)).
  { unfold st1. assert (Hk0 : cpus (set_cpu st c (fun k => k <| cpu_pending_requeue := 0 |>)) !! c
      = Some (k <| cpu_pending_requeue := 0 |>)) by (cbn; by rewrite lookup_alter_eq, Hk).
    case_if; [by eexists|]. by apply push_cpu_view. }
  clearbody st1. destruct H as (k1 & Hk1 & E).
  assert (Et : cpu_thread k1 = cpu_thread k) by (change (cpu_thread (ccore k1) = cpu_thread k); by rewrite E).
  assert (Ei : cpu_idle k1 = cpu_idle k) by (change (cpu_idle (ccore k1) = cpu_idle k); by rewrite E).
  destruct (cpu_pending_release_lock (cpu_of st1 c)); cbn; rewrite !lookup_alter_eq, Hk1;
    (eexists; split; [done|]; by destruct first).
Qed.

(** With the other CPUs down there is nothing to steal. *)
Lemma alone_steal st c : (forall c' k, cpus st !! c' = Some k -> c' <> c -> cpu_idle k = 0) -> try_steal st c = (0, st).
Proof.
  intros Ha. unfold try_steal.
  assert (E : forall ids, steal_from st ids c (-1) KSCHED_PRI_IDLE = -1).
  { induction ids as [|i ids IH]; cbn [steal_from]; [done|].
    destruct (decide (i = c)) as [->|Hne]; [by rewrite Z.eqb_refl|].
    assert (Hi : cpu_idle (cpu_of st i) = 0).
    { unfold cpu_of. destruct (cpus st !! i) as [k|] eqn:Hk; [|done]. by apply (Ha i). }
    by rewrite Hi, orb_true_r. }
  by rewrite E.
Qed.

(** Reaping removes the threads of the reap list and nothing else. *)
Lemma reap_fx st pl ls : inv st pl ls ->
  cpus (reap st) = cpus st /\ wq_head (reap st) = wq_head st
  /\ forall x, pl !! x <> Some (In HReap) -> threads (reap st) !! x = threads st !! x.
Proof.
  intros [Hq Hc Hi]. set (l := ls HReap).
  destruct (proj1 (proj1 Hq) HReap) as [Hch Hnd]. fold l in Hch, Hnd. cbn [head_of] in Hch.
  assert (Hl : forall x, x ∈ l <-> pl !! x = Some (In HReap)) by (intros x; apply Hi).
  destruct (reap_loop_spec l (S (size (threads st))) (st <| to_reap := 0 |>) (to_reap st)) as (E1 & E2 & E3).
  { exact Hch. } { done. } { pose proof (lchain_length _ _ _ Hch Hnd). lia. }
  { intros x t Hx%Hl Ht. apply (c_thread _ _ _ _ _ Hc x t _ Ht Hx). }
  change (reap_loop (S (size (threads st))) (st <| to_reap := 0 |>) (to_reap st)) with (reap st) in *.
  set (st' := reap st) in *. clearbody st'. split; [exact E2|]. split; [apply E3|]. intros x Hx.
  rewrite E1, deletes_lookup, decide_False; [done|]. by rewrite elem_of_reverse, Hl.
Qed.

Lemma alone_lock st pl ls c k l : inv st pl ls -> cpus st !! c = Some k -> held k = None -> alone st c ->
  locks st !! l = None.
Proof.
  intros Hinv Hk Hh Ha. destruct (locks st !! l) as [c'|] eqn:E; [exfalso|done].
  apply (c_locks _ _ _ _ _ (i_ctl _ _ _ Hinv)) in E as (k' & Hk' & Hh').
  destruct (decide (c' = c)) as [->|Hne]; [congruence|].
  unfold held in Hh'. by rewrite (Ha c' k' Hk' Hne) in Hh'.
Qed.

Lemma kt_att c st st' x : calm c st st' -> att (kt st' x) = att (kt st x).
Proof.
  intros Hc. pose proof (calm_att _ _ _ Hc x) as E. unfold kt.
  destruct (threads st !! x), (threads st' !! x); try done. apply (inj Some). exact E.
Qed.

(** The fields of a thread other than those on the reap list. *)
Definition keeps (pl : gmap Z place) (st st' : sched) : Prop :=
  forall x, pl !! x <> Some (In HReap) -> att (kt st' x) = att (kt st x).

(** From the save of [prev] to the end of the switch. *)
Lemma tail_eq st c k prev : cpus st !! c = Some k -> cpu_pc k = Save prev ->
  exists first, cpus (context_switch st c prev) !! c = Some (k <| cpu_pc := Load first |>)
    /\ switch_tail st c = (let st1 := load_next (context_switch st c prev) c first in
                          if first then st1 else goto (reap st1) c Run).
Proof.
  intros Hk Hpc. set (st1 := context_switch st c prev).
  assert (Hk1 : exists first, cpus st1 !! c = Some (k <| cpu_pc := Load first |>)).
  { eexists. unfold st1. cbn. rewrite lookup_alter_eq, Hk. reflexivity. }
  destruct Hk1 as [first Hk1]. exists first. split; [done|].
  unfold switch_tail. rewrite (cpu_of_lookup _ _ _ Hk), Hpc. cbv zeta. fold st1.
  rewrite (cpu_of_lookup _ _ _ Hk1). by destruct first.
Qed.

(** What the CPU is after a switch that left its queues as [fq]. *)
Record switched (c : Z) (k : cpu) (ls : home -> list Z) (st st' : sched) (next : Z) (fq : Z -> list Z) : Prop :=
mk_switched {
  sw_cpu : exists k', cpus st' !! c = Some k' /\ cpu_pc k' = Run /\ cpu_thread k' = next /\ cpu_idle k' = cpu_idle k;
  sw_inv : exists pl' ls', inv st' pl' ls' /\ forall p, ls' (HDisp c p) = fq p;
  sw_alone : alone st' c;
  sw_wq : wq_head st' = wq_head st;
  sw_att : forall x, x ∉ ls HReap -> att (kt st' x) = att (kt st x) }.

Lemma tail_fx st pl ls c k prev : inv st pl ls -> cpus st !! c = Some k -> cpu_pc k = Save prev -> alone st c ->
  switched c k ls st (switch_tail st c) (cpu_thread k) (fun p => drained c st ls (HDisp c p)).
Proof.
  intros Hinv Hk Hpc Ha. destruct (tail_eq _ _ _ _ Hk Hpc) as (first & Hk1 & ->).
  pose proof (save_step _ _ _ _ _ Hinv (ex_intro _ k (conj Hk Hpc))) as Hinv1.
  pose proof (calm_save c st prev) as Q1. set (st1 := context_switch st c prev) in *. clearbody st1.
  assert (Ed : drained c st1 ls = drained c st ls).
  { unfold drained. rewrite (cpu_of_lookup _ _ _ Hk), (cpu_of_lookup _ _ _ Hk1).
    change (cpu_pending_requeue (k <| cpu_pc := Load first |>)) with (cpu_pending_requeue k).
    pose proof (kt_att c st st1 (cpu_pending_requeue k) Q1) as E. injection E as -> _ _. done. }
  destruct (load_step st1 pl ls c first Hinv1) as [pl2 Hinv2]; [by eexists|].
  pose proof (calm_trans _ _ _ _ Q1 (calm_load c st1 first)) as Q2.
  destruct (load_cpu _ _ _ first Hk1) as (k2 & Hk2 & Hp2 & Ht2 & Hi2). rewrite Ed in Hinv2.
  set (st2 := load_next st1 c first) in *. clearbody st2. cbn zeta.
  pose proof (alone_calm _ _ _ Q2 Ha) as Ha2.
  destruct first.
  - constructor; [by exists k2|by exists pl2, (drained c st ls)|done|apply Q2|].
    intros x _. by apply (kt_att c).
  - assert (Hlk : locks st2 !! ToReap = None) by (eapply alone_lock; [done|done|unfold held; by rewrite Hp2|done]).
    destruct (reap_step _ _ _ c Hinv2 ltac:(by exists k2) Hlk) as [pl3 Hinv3].
    destruct (reap_fx _ _ _ Hinv2) as (R1 & R2 & R3).
    set (st3 := reap st2) in *. clearbody st3.
    assert (Q3 : calm c st3 (goto st3 c Run)) by apply calm_goto.
    constructor.
    + exists (k2 <| cpu_pc := Run |>). cbn. by rewrite lookup_alter_eq, R1, Hk2.
    + exists pl3, (<[HReap := []]> (drained c st ls)). split; [done|]. intros p. by rewrite fn_lookup_insert_ne.
    + eapply alone_calm; [done|]. intros c' k'. rewrite R1. apply Ha2.
    + cbn. rewrite R2. apply Q2.
    + intros x Hx. rewrite (kt_att _ _ _ _ Q3), <- (kt_att _ _ _ _ Q2). unfold kt. rewrite R3; [done|].
      rewrite <- (i_in _ _ _ Hinv2). unfold drained. by case_if.
Qed.

(** The queues when the current thread goes to the end of its own. *)
Definition requeued (st : sched) (c : Z) (k : cpu) (fq : Z -> list Z) (p : Z) : list Z :=
  fq p ++ if negb (cpu_thread k =? cpu_idle k) && (p =? dispq_clamp_pri (t_pri (kt st (cpu_thread k))))
          then [cpu_thread k] else [].

Lemma goto_same st c p : at_pc st c p -> goto st c p = st.
Proof.
  intros (k & Hk & Hp). apply sched_eq_cpus; [done|]. cbn. rewrite (alter_insert_eq _ c _ k Hk).
  apply insert_id. rewrite Hk. f_equal. rewrite <- Hp. by destruct k.
Qed.

Lemma fn_disp (ls : home -> list Z) c p l q :
  (<[HDisp c p := l]> ls) (HDisp c q) = if q =? p then l else ls (HDisp c q).
Proof.
  destruct (Z.eqb_spec q p) as [->|]; [by rewrite fn_lookup_insert|]. rewrite fn_lookup_insert_ne; congruence.
Qed.

Lemma run_nonzero st pl ls c k : inv st pl ls -> cpus st !! c = Some k -> cpu_pc k = Run -> cpu_thread k <> 0.
Proof.
  intros Hinv Hk Hr E. destruct (run_facts _ _ _ _ _ Hinv Hk Hr) as ([H|[_ H]] & _);
    rewrite E in H; pose proof (proj1 (c_dom _ _ _ _ _ (i_ctl _ _ _ Hinv) 0) ltac:(eauto)) as [? H0];
    rewrite (c_zero _ _ _ _ _ (i_ctl _ _ _ Hinv)) in H0; done.
Qed.

(** [switch_to_next] of the only CPU, from step (1) on. *)
Section Switch.
Context (st : sched) (pl : gmap Z place) (ls : home -> list Z) (c : Z) (k : cpu).
Context (Hinv : inv st pl ls) (Hk : cpus st !! c = Some k) (Ha : alone st c).

Lemma stay_fx : cpu_pc k = Swtch true None -> dispq_pop_locked st c = (0, st) ->
  switched c k ls st (switch_to_next st c true None) (cpu_thread k) (fun p => ls (HDisp c p)).
Proof.
  intros Hpc E. unfold switch_to_next. rewrite goto_same by (by exists k). unfold swtch_pop. rewrite E. cbn [Z.eqb].
  cbv zeta. pose proof (to_steal_step _ _ _ c true None Hinv ltac:(by eexists)) as Hinv1.
  pose proof (calm_goto c st (Steal true None)) as Q1.
  assert (Hk1 : cpus (goto st c (Steal true None)) !! c = Some (k <| cpu_pc := Steal true None |>))
    by (cbn; by rewrite lookup_alter_eq, Hk).
  set (st1 := goto st c (Steal true None)) in *. clearbody st1.
  pose proof (no_steal_step _ _ _ c true None Hinv1 ltac:(by eexists)) as Hinv2.
  rewrite (cpu_of_lookup _ _ _ Hk1). change (cpu_pc (k <| cpu_pc := Steal true None |>)) with (Steal true None).
  cbv iota. rewrite alone_steal.
  2:{ intros c' k' Hk' Hne. pose proof (alone_calm _ _ _ Q1 Ha c' k' Hk' Hne) as Hoff.
      pose proof (co_pc _ _ _ (c_cpu _ _ _ _ _ (i_ctl _ _ _ Hinv1) c' k' Hk')) as O. unfold pc_ok in O.
      rewrite Hoff in O. apply O. }
  pose proof (calm_trans _ _ _ _ Q1 (calm_goto c st1 Run)) as Q2.
  cbv iota. change (after_steal st1 c 0 true None) with (goto st1 c Run) in *.
  assert (Hk2 : cpus (goto st1 c Run) !! c = Some (k <| cpu_pc := Run |>))
    by (cbn; by rewrite lookup_alter_eq, Hk1).
  set (st2 := goto st1 c Run) in *. clearbody st2. unfold switch_tail.
  rewrite !(cpu_of_lookup _ _ _ Hk2). change (cpu_pc (k <| cpu_pc := Run |>)) with Run. cbv iota.
  rewrite !(cpu_of_lookup _ _ _ Hk2). change (cpu_pc (k <| cpu_pc := Run |>)) with Run. cbv iota.
  constructor; [by eexists|by exists pl, ls|by eapply alone_calm|apply Q2|].
  intros x _. by apply (kt_att c).
Qed.

Lemma go_fx p l : cpu_pc k = Swtch true None -> cpu_thread k <> 0 ->
  let r := dispq_pop_locked st c in
  r.1 <> 0 -> (exists pl1, inv (goto r.2 c (Chosen r.1 true None)) pl1 (<[HDisp c p := l]> ls)) ->
  switched c k ls st (switch_to_next st c true None) r.1
    (requeued st c k (fun q => if q =? p then l else ls (HDisp c q))).
Proof.
  intros Hpc Hcur r Hz [pl1 Hinv1]. unfold switch_to_next. rewrite goto_same by (by exists k). unfold swtch_pop.
  pose proof (calm_pop c st) as Q1. destruct (pop_cpu_view _ _ _ Hk) as (k1 & Hk1 & Ec). fold r in Q1, Hk1.
  unfold r in *. destruct (dispq_pop_locked st c) as [t st1]. cbn [fst snd] in *.
  rewrite (proj2 (Z.eqb_neq t 0)) by done. cbv zeta.
  assert (Hkc : cpus (goto st1 c (Chosen t true None)) !! c = Some (k1 <| cpu_pc := Chosen t true None |>))
    by (cbn; by rewrite lookup_alter_eq, Hk1).
  destruct (commit_next (i_ctl _ _ _ Hinv1) Hkc eq_refl) as [Hne _].
  destruct (commit_step _ _ _ c t true None Hinv1 ltac:(by eexists)) as [pl2 Hinv2].
  rewrite (commit_goto _ _ _ _ _ _ _ Hk1) in Hinv2.
  pose proof (calm_trans _ _ _ _ Q1 (calm_commit c st1 t true None)) as Q2.
  destruct (commit_cpu st1 c k1 t true None Hk1 Hne) as (k2 & Hk2 & Hp2 & Ht2 & Hi2 & Hr2).
  set (st2 := commit st1 c t true None) in *. clearbody st2.
  rewrite (cpu_of_lookup _ _ _ Hk2), Hp2. cbv iota. rewrite (cpu_of_lookup _ _ _ Hk2), Hp2. cbv iota.
  pose proof (tail_fx _ _ _ _ _ _ Hinv2 Hk2 Hp2 (alone_calm _ _ _ Q2 Ha)) as [W1 W2 W3 W4 W5].
  assert (Et : cpu_thread k1 = cpu_thread k) by (change (cpu_thread (ccore k1) = cpu_thread (ccore k)); by rewrite Ec).
  assert (Ei : cpu_idle k1 = cpu_idle k) by (change (cpu_idle (ccore k1) = cpu_idle (ccore k)); by rewrite Ec).
  rewrite Ei in Hi2. rewrite Et, Ei in Hr2. constructor; [by rewrite <- Hi2, <- Ht2| |done|rewrite W4; apply Q2|].
  - destruct W2 as (pl' & ls' & H & Hl). exists pl', ls'. split; [done|]. intros q. rewrite Hl.
    unfold drained, requeued. rewrite (cpu_of_lookup _ _ _ Hk2), Hr2, <- (fn_disp ls c p l q).
    pose proof (kt_att _ _ _ (cpu_thread k) Q2) as E. cbn [andb].
    destruct (cpu_thread k =? cpu_idle k); cbn [negb andb]; [by rewrite app_nil_r|].
    rewrite (proj2 (Z.eqb_neq _ 0)) by done. injection E as -> _ _.
    rewrite (fn_disp (<[HDisp c p := l]> ls) c). destruct (Z.eqb_spec q (dispq_clamp_pri (t_pri (kt st (cpu_thread k)))))
      as [->|]; [done|by rewrite app_nil_r].
  - intros x Hx. rewrite W5, (kt_att _ _ _ _ Q2); [done|]. by rewrite fn_lookup_insert_ne.
Qed.

End Switch.

(** [kthread_yield] of the only CPU. *)
Lemma yield_fx st pl ls c k : inv st pl ls -> cpus st !! c = Some k -> cpu_pc k = Run -> alone st c ->
  ((forall p, ls (HDisp c p) = [])
   /\ switched c k ls st (kthread_yield st c) (cpu_thread k) (fun p => ls (HDisp c p)))
  \/ exists p t l, ls (HDisp c p) = t :: l /\ (forall q, p < q -> ls (HDisp c q) = [])
     /\ switched c k ls st (kthread_yield st c) t
          (requeued st c k (fun q => if q =? p then l else ls (HDisp c q))).
Proof.
  intros Hinv Hk Hpc Ha. unfold kthread_yield.
  replace (switch_to_next st c true None) with (switch_to_next (goto st c (Swtch true None)) c true None)
    by (unfold switch_to_next; rewrite goto_same; [done|by eexists; split; [cbn; rewrite lookup_alter_eq, Hk|]]).
  pose proof (yield_step _ _ _ c Hinv ltac:(by exists k)) as Hinv0.
  pose proof (run_nonzero _ _ _ _ _ Hinv Hk Hpc) as Hcur.
  pose proof (alone_calm _ _ _ (calm_goto c st (Swtch true None)) Ha) as Ha0.
  assert (Hk0 : cpus (goto st c (Swtch true None)) !! c = Some (k <| cpu_pc := Swtch true None |>))
    by (cbn; by rewrite lookup_alter_eq, Hk).
  assert (E0 : forall st' n fq, switched c (k <| cpu_pc := Swtch true None |>) ls (goto st c (Swtch true None)) st' n fq
      -> switched c k ls st st' n fq) by (intros ??? [????]; by constructor).
  destruct (got_step _ _ _ c c _ _ true None Hinv0 Hk0 Hk0 (or_introl eq_refl))
    as [[E Hemp]|(Hz & p & l & El & Hmax & H1)].
  - left. split; [done|]. by apply E0, (stay_fx _ _ _ _ _ Hinv0 Hk0 Ha0 eq_refl).
  - right. exists p, (dispq_pop_locked (goto st c (Swtch true None)) c).1, l. split; [done|]. split; [done|].
    apply E0. by apply (go_fx _ _ _ _ Hk0 Ha0 p l eq_refl).
Qed.

(** ** One tick of the only CPU *)

Definition time_sharing (t : kthread) : Prop :=
  t_cid t = SCLASS_TS /\ KSCHED_PRI_TS_MIN <= t_pri t <= KSCHED_PRI_TS_MAX
  /\ 1 <= t_quantum_left t <= TS_QUANTUM_TICKS.

#[export] Instance time_sharing_dec t : Decision (time_sharing t).
Proof. unfold time_sharing. apply _. Defined.

(** The CPU [c], whose idle thread is [idle], runs [cur]; its queues are [fq], and
    [R] are the threads that are runnable on it. *)
Record sit (c idle : Z) (R : list Z) (st : sched) (cur : Z) (fq : Z -> list Z) : Prop := mk_sit {
  si_cpu : exists k, cpus st !! c = Some k /\ cpu_pc k = Run /\ cpu_thread k = cur /\ cpu_idle k = idle;
  si_inv : exists pl ls, inv st pl ls /\ forall p, ls (HDisp c p) = fq p;
  si_alone : alone st c;
  si_wq : slot (wq_head st) sched_tick_wq = 0;
  si_idle : t_cid (kt st idle) = SCLASS_SYS /\ t_pri (kt st idle) = KSCHED_PRI_IDLE;
  si_set : forall y, y ∈ R <-> (y = cur /\ y <> idle) \/ exists p, y ∈ fq p;
  si_ts : forall y, y ∈ R -> time_sharing (kt st y) }.

Section Tick.
Context (c idle : Z) (R : list Z).

Lemma sit_queued st cur fq y p : sit c idle R st cur fq -> y ∈ fq p ->
  y ∈ R /\ (t_pri (kt st y) = 0 -> p = 0) /\ y <> cur /\ y <> idle.
Proof.
  intros [(k & Hk & Hr & <- & <-) (pl & ls & Hinv & Hl) _ _ _ Hset Hts] Hy.
  assert (HR : y ∈ R) by (apply Hset; eauto). split; [done|].
  rewrite <- Hl in Hy. apply (i_in _ _ _ Hinv) in Hy.
  destruct (inv_lookup _ _ _ _ _ Hinv Hy) as (t & Ht & _ & [_ Hp] & _).
  destruct (Hts y HR) as (Hcl & Hb & _). destruct (run_facts _ _ _ _ _ Hinv Hk Hr) as (Hcur & _ & Hi & _).
  pose proof (co_idle _ _ _ (c_cpu _ _ _ _ _ (i_ctl _ _ _ Hinv) c k Hk) Hi) as Hidle.
  rewrite (kt_lookup _ _ _ Ht) in *. split; [|split].
  - intros E. destruct Hp as [<-|Hp]; [by rewrite E|]. rewrite Hcl, E in Hp. by vm_compute in Hp.
  - intros ->. destruct Hcur as [E|[_ E]]; congruence.
  - intros ->. congruence.
Qed.

Lemma sit_level st cur fq y p : sit c idle R st cur fq -> y ∈ fq p -> 0 <= p.
Proof.
  intros [(k & Hk & _) (pl & ls & Hinv & Hl) _ _ _ _ _] Hy.
  apply (dq_range _ _ (proj2 (i_queues _ _ _ Hinv) c k Hk) p). rewrite Hl. intros E. rewrite E in Hy.
  by apply elem_of_nil in Hy.
Qed.

(** The cached maximum is at least the priority of any thread queued. *)
Lemma sit_max st cur fq y p : sit c idle R st cur fq -> y ∈ fq p -> p <= cpu_maxrunpri (cpu_of st c).
Proof.
  intros [(k & Hk & _) (pl & ls & Hinv & Hl) _ _ _ _ _] Hy. rewrite (cpu_of_lookup _ _ _ Hk).
  destruct (proj2 (i_queues _ _ _ Hinv) c k Hk) as [D1 _ D3 D4 D5 _].
  assert (Hne : ls (HDisp c p) <> []) by (rewrite Hl; intros E; rewrite E in Hy; by apply elem_of_nil in Hy).
  assert (Hp : 0 <= p) by (apply (D1 p Hne)). pose proof (D4 p Hp) as Hb. rewrite bool_decide_true in Hb by done.
  rewrite D5. destruct (Z.eqb_spec (cpu_qactmap k) 0) as [E|E]; [rewrite E, Z.bits_0 in Hb; done|].
  destruct (Z.le_gt_cases p (Z.log2 (cpu_qactmap k))) as [|Hgt]; [done|].
  by rewrite Z.bits_above_log2 in Hb by lia.
Qed.

Lemma sit_alive st cur fq pl ls x : inv st pl ls -> (forall p, ls (HDisp c p) = fq p) -> sit c idle R st cur fq ->
  x ∈ R \/ x = idle -> x ∉ ls HReap.
Proof.
  intros Hinv Hl Hs Hx Hin. apply (i_in _ _ _ Hinv) in Hin.
  pose proof Hs as [(k & Hk & Hr & Hc & Hi) _ _ _ _ Hset _].
  destruct (run_facts _ _ _ _ _ Hinv Hk Hr) as (Hcur & _ & Hi0 & _).
  pose proof (co_idle _ _ _ (c_cpu _ _ _ _ _ (i_ctl _ _ _ Hinv) c k Hk) Hi0) as Hidle.
  destruct Hx as [[[-> _]|[p Hp]]%Hset| ->].
  - rewrite Hc in Hcur. destruct Hcur as [E|[_ E]]; congruence.
  - rewrite <- Hl in Hp. apply (i_in _ _ _ Hinv) in Hp. congruence.
  - rewrite Hi in Hidle. congruence.
Qed.

Lemma time_sharing_att t t' : att t' = att t -> time_sharing t -> time_sharing t'.
Proof. unfold att, time_sharing. by intros [= -> -> ->]. Qed.

(** The threads that are runnable stay the same when the current one is requeued. *)
Lemma requeued_set st k fq p t l y : fq p = t :: l ->
  ((y = cpu_thread k /\ y <> cpu_idle k) \/ exists q, y ∈ fq q) -> cpu_thread k <> t ->
  (y = t) \/ exists q, y ∈ requeued st c k (fun q => if q =? p then l else fq q) q.
Proof.
  intros El Hy Hne. unfold requeued. destruct Hy as [[-> Hi]|[q Hq]].
  - right. exists (dispq_clamp_pri (t_pri (kt st (cpu_thread k)))). apply elem_of_app. right.
    rewrite (proj2 (Z.eqb_neq _ _) Hi), Z.eqb_refl. apply list_elem_of_here.
  - destruct (Z.eqb_spec q p) as [->|Hqp].
    + rewrite El in Hq. apply elem_of_cons in Hq as [->|Hq]; [by left|]. right. exists p.
      rewrite Z.eqb_refl. apply elem_of_app. by left.
    + right. exists q. rewrite (proj2 (Z.eqb_neq _ _) Hqp). apply elem_of_app. by left.
Qed.

Lemma sit_yield st cur fq k : sit c idle R st cur fq -> cpus st !! c = Some k -> (exists p, fq p <> []) ->
  exists p t l, fq p = t :: l /\ (forall q, p < q -> fq q = [])
    /\ sit c idle R (kthread_yield st c) t (requeued st c k (fun q => if q =? p then l else fq q))
    /\ forall y, y ∈ R -> att (kt (kthread_yield st c) y) = att (kt st y).
Proof.
  intros Hs Hk [p0 Hp0]. pose proof Hs as [(k' & Hk' & Hr & Hc & Hi) (pl & ls & Hinv & Hl) Ha Hw Hid Hset Hts].
  rewrite Hk in Hk'. injection Hk' as <-.
  destruct (yield_fx _ _ _ _ _ Hinv Hk Hr Ha) as [[H _]|(p & t & l & El & Hmax & [W1 W2 W3 W4 W5])].
  { by rewrite <- Hl, H in Hp0. }
  rewrite Hl in El. exists p, t, l. split; [done|]. split; [intros q Hq; rewrite <- Hl; by apply Hmax|].
  assert (Htq : t ∈ fq p) by (rewrite El; apply list_elem_of_here).
  destruct (sit_queued _ _ _ _ _ Hs Htq) as (HtR & _ & Htc & Hti).
  assert (Hatt : forall y, y ∈ R \/ y = idle -> att (kt (kthread_yield st c) y) = att (kt st y))
    by (intros y Hy; by apply W5, (sit_alive st cur fq pl ls)).
  split; [|intros y Hy; apply Hatt; by left]. constructor.
  - by rewrite <- Hi.
  - destruct W2 as (pl' & ls' & Hinv' & Hl'). exists pl', ls'. split; [done|]. intros q. rewrite Hl'.
    unfold requeued. by rewrite Hl.
  - done.
  - by rewrite W4.
  - destruct (att_fields _ _ (Hatt idle (or_intror eq_refl))) as (-> & _ & ->). done.
  - intros y. split.
    + intros Hy. apply Hset in Hy as Hy'. rewrite <- Hc, <- Hi in Hy'.
      destruct (requeued_set st k fq p t l y El Hy') as [->|?]; [congruence|by left|by right].
    + intros [[-> _]|[q Hq]]; [done|]. unfold requeued in Hq. cbv beta in Hq. apply elem_of_app in Hq as [Hq|Hq].
      * apply Hset. right. destruct (Z.eqb_spec q p); [exists p; rewrite El; by right|by exists q].
      * apply Hset. left. destruct (Z.eqb_spec (cpu_thread k) (cpu_idle k)); cbn in Hq; [by apply elem_of_nil in Hq|].
        destruct (_ =? _); [|by apply elem_of_nil in Hq]. apply list_elem_of_singleton in Hq. subst y. split; congruence.
  - intros y Hy. eapply time_sharing_att; [apply Hatt; by left|by apply Hts].
Qed.

Definition after_tick (cur : Z) (t : kthread) : kthread := if cur =? idle then t else (ts_cl_tick t).2.

Lemma ts_tick_ok t : time_sharing t -> time_sharing (ts_cl_tick t).2.
Proof.
  intros (H1 & H2 & H3). unfold ts_cl_tick, time_sharing in *.
  change KSCHED_PRI_TS_MIN with 0 in *. change KSCHED_PRI_TS_MAX with 49 in *. change TS_QUANTUM_TICKS with 5 in *.
  change TS_DEMOTE_STEP with 5 in *. repeat case_if; cbn in *; split; (done || lia).
Qed.

(** [cl_tick] on the current thread. *)
Lemma sit_class st cur fq : sit c idle R st cur fq ->
  let st' := (tick_class st c).2 in
  sit c idle R st' cur fq /\ (forall y, y <> cur -> kt st' y = kt st y) /\ kt st' cur = after_tick cur (kt st cur)
  /\ cpus st' = cpus st
  /\ (t_pri (kt st' cur) <= cpu_maxrunpri (cpu_of st' c) -> (tick_class st c).1 = true).
Proof.
  intros Hs st'. pose proof Hs as [(k & Hk & Hr & Hc & Hi) (pl & ls & Hinv & Hl) Ha Hw Hid Hset Hts].
  pose proof (tick_class_step _ _ _ c Hinv ltac:(by exists k)) as Hinv'. fold st' in Hinv'.
  assert (Hcur : is_Some (threads st !! cur)).
  { destruct (run_facts _ _ _ _ _ Hinv Hk Hr) as ([H|[_ H]] & _); rewrite Hc in H;
      apply (proj1 (c_dom _ _ _ _ _ (i_ctl _ _ _ Hinv) cur)); eauto. }
  destruct Hcur as [t Ht].
  assert (E : (cl_tick (sclass (t_cid (kt st cur))) (kt st cur)).2 = after_tick cur (kt st cur)).
  { unfold after_tick. destruct (Z.eqb_spec cur idle) as [->|Hne].
    - by rewrite (proj1 Hid).
    - assert (HR : cur ∈ R) by (apply Hset; by left). by rewrite (proj1 (Hts _ HR)). }
  assert (Est : st' = assign st cur (fun _ => after_tick cur (kt st cur))).
  { unfold st', tick_class. rewrite (cpu_of_lookup _ _ _ Hk), Hc. by destruct (cl_tick _ _) as [? ?]; cbn in E |- *; rewrite E. }
  assert (Hne : forall y, y <> cur -> kt st' y = kt st y).
  { intros y Hy. rewrite Est. unfold kt. cbn. by rewrite lookup_alter_ne. }
  assert (Heq : kt st' cur = after_tick cur (kt st cur)).
  { rewrite Est. unfold kt at 1. cbn. by rewrite lookup_alter_eq, Ht. }
  split; [|split; [done|split; [done|split; [by rewrite Est|]]]].
  - constructor; [|by exists pl, ls| | | |done|].
    + exists k. by rewrite Est.
    + intros c' k'. rewrite Est. apply Ha.
    + by rewrite Est.
    + destruct (decide (cur = idle)) as [E'|]; [|by rewrite Hne]. rewrite <- E', Heq. unfold after_tick.
      by rewrite E', Z.eqb_refl.
    + intros y Hy. destruct (decide (y = cur)) as [->|]; [|rewrite Hne by done; by apply Hts].
      rewrite Heq. unfold after_tick. case_if; [by apply Hts|by apply ts_tick_ok, Hts].
  - rewrite Heq. intros Hle. unfold tick_class. rewrite (cpu_of_lookup _ _ _ Hk), Hc.
    destruct (cl_tick _ _) as [y t']. cbn in E |- *. rewrite E. apply orb_true_iff. right.
    rewrite Z.geb_leb. apply Z.leb_le. rewrite Est in Hle. exact Hle.
Qed.

(** A tick while a thread waits: the current thread goes on because it is above all
    that wait, or the first thread of the highest queue takes its place. *)
Lemma sit_tick st cur fq x px : sit c idle R st cur fq -> x ∈ fq px ->
  let st' := sched_tick st c in
  (forall y, y ∈ R -> y <> cur -> att (kt st' y) = att (kt st y))
  /\ (cur <> idle -> att (kt st' cur) = att (ts_cl_tick (kt st cur)).2)
  /\ ((sit c idle R st' cur fq /\ cur <> idle /\ px < t_pri (ts_cl_tick (kt st cur)).2)
      \/ exists p t l, fq p = t :: l /\ (forall q, p < q -> fq q = [])
         /\ exists fq', sit c idle R st' t fq'
            /\ forall q, exists w, fq' q = (if q =? p then l else fq q) ++ w).
Proof.
  intros Hs Hx st'. pose proof Hs as [(k & Hk & Hr & Hc & Hi) (pl & ls & Hinv & _) _ Hw _ Hset _].
  assert (Hz : cur <> 0) by (rewrite <- Hc; by eapply run_nonzero).
  assert (E : st' = if (tick_class st c).1 then kthread_yield (tick_class st c).2 c else (tick_class st c).2).
  { unfold st', sched_tick. rewrite Hw. cbn [negb Z.eqb]. rewrite (cpu_of_lookup _ _ _ Hk), Hc.
    rewrite (proj2 (Z.eqb_neq _ _) Hz). by destruct (tick_class st c). }
  clearbody st'. destruct (sit_class _ _ _ Hs) as (H1 & H2 & H3 & H4 & H5).
  assert (Hcur : cur <> idle -> cur ∈ R) by (intros; apply Hset; by left).
  destruct (tick_class st c) as [y st1]. cbn [fst snd] in *. destruct y.
  - destruct (sit_yield st1 cur fq k H1) as (p & t & l & El & Hmax & Hs' & Hatt).
    { by rewrite H4. } { exists px. intros E'. rewrite E' in Hx. by apply elem_of_nil in Hx. }
    rewrite <- E in Hs', Hatt. split; [|split].
    + intros y Hy Hne. rewrite Hatt by done. by rewrite H2.
    + intros Hne. rewrite Hatt, H3 by auto. unfold after_tick. by rewrite (proj2 (Z.eqb_neq _ _) Hne).
    + right. exists p, t, l. split; [done|]. split; [done|]. eexists. split; [exact Hs'|]. intros q. by eexists.
  - subst st'. split; [intros y _ Hne; by rewrite H2|]. split.
    + intros Hne. rewrite H3. unfold after_tick. by rewrite (proj2 (Z.eqb_neq _ _) Hne).
    + left. pose proof (sit_max _ _ _ _ _ H1 Hx) as Hmx.
      assert (Hgt : cpu_maxrunpri (cpu_of st1 c) < t_pri (kt st1 cur)).
      { destruct (Z.le_gt_cases (t_pri (kt st1 cur)) (cpu_maxrunpri (cpu_of st1 c))) as [Hle|]; [|lia].
        by apply H5 in Hle. }
      split; [done|]. rewrite H3 in Hgt. unfold after_tick in Hgt.
      destruct (Z.eqb_spec cur idle) as [E|Hne]; [|split; [done|lia]]. exfalso.
      pose proof (sit_level _ _ _ _ _ Hs Hx). destruct (si_idle _ _ _ _ _ _ Hs) as [_ Hid]. rewrite E, Hid in Hgt.
      unfold KSCHED_PRI_IDLE in *. lia.
Qed.

(** ** The number of ticks

    A thread's credit is the number of ticks it can run before its priority is 0. *)
Definition credit (t : kthread) : Z :=
  if t_pri t =? 0 then 0
  else ((t_pri t + TS_DEMOTE_STEP - 1) / TS_DEMOTE_STEP - 1) * TS_QUANTUM_TICKS + t_quantum_left t.

Lemma credit_att t t' : att t' = att t -> credit t' = credit t.
Proof. intros (E1 & E2 & _)%att_fields. unfold credit. by rewrite E1, E2. Qed.

Lemma credit_range t : time_sharing t -> 0 <= credit t <= 50 /\ (credit t = 0 <-> t_pri t = 0).
Proof.
  intros (_ & H2 & H3). unfold credit. change KSCHED_PRI_TS_MIN with 0 in *. change KSCHED_PRI_TS_MAX with 49 in *.
  change TS_QUANTUM_TICKS with 5 in *. change TS_DEMOTE_STEP with 5 in *. case_if; Z.to_euclidean_division_equations; lia.
Qed.

Lemma ts_tick_fields t : time_sharing t -> let t' := (ts_cl_tick t).2 in
  (t_quantum_left t = 1 /\ t_pri t' = Z.max 0 (t_pri t - TS_DEMOTE_STEP) /\ t_quantum_left t' = TS_QUANTUM_TICKS)
  \/ (1 < t_quantum_left t /\ t_pri t' = t_pri t /\ t_quantum_left t' = t_quantum_left t - 1).
Proof.
  intros (_ & _ & H3). unfold ts_cl_tick. rewrite (proj2 (Z.gtb_lt (t_quantum_left t) 0)) by lia. cbn.
  destruct (Z.eqb_spec (t_quantum_left t - 1) 0); [left|right; cbn; lia]. cbn. unfold KSCHED_PRI_TS_MIN.
  split; [lia|]. split; [|done]. destruct (Z.ltb_spec (t_pri t - TS_DEMOTE_STEP) 0); lia.
Qed.

Lemma credit_tick t : time_sharing t -> credit (ts_cl_tick t).2 = Z.max 0 (credit t - 1).
Proof.
  intros Ht. pose proof (ts_tick_fields t Ht) as E. destruct Ht as (_ & H2 & H3). unfold credit.
  change KSCHED_PRI_TS_MIN with 0 in *. change KSCHED_PRI_TS_MAX with 49 in *. change TS_QUANTUM_TICKS with 5 in *.
  change TS_DEMOTE_STEP with 5 in *. destruct E as [(E1 & -> & ->)|(E1 & -> & ->)];
    repeat case_if; Z.to_euclidean_division_equations; lia.
Qed.

Fixpoint sum (f : Z -> Z) (l : list Z) : Z :=
  match l with
  | [] => 0
  | y :: l => f y + sum f l
  end.

Lemma sum_ext f g l : (forall y, y ∈ l -> g y = f y) -> sum g l = sum f l.
Proof.
  induction l as [|a l IH]; intros H; cbn; [done|]. rewrite (H a) by apply list_elem_of_here.
  rewrite IH; [done|]. intros y Hy. apply H. by apply list_elem_of_further.
Qed.

Lemma sum_change f g l x : NoDup l -> x ∈ l -> (forall y, y ∈ l -> y <> x -> g y = f y) ->
  sum g l = sum f l - f x + g x.
Proof.
  induction 1 as [|a l Ha Hd IH]; intros Hx H; [by apply elem_of_nil in Hx|]. cbn.
  apply elem_of_cons in Hx as [->|Hx].
  - rewrite (sum_ext f g l); [lia|]. intros y Hy. apply H; [by apply list_elem_of_further|congruence].
  - rewrite IH, (H a); [lia|apply list_elem_of_here|congruence|done|].
    intros y Hy. apply H. by apply list_elem_of_further.
Qed.

Lemma sum_range f l n : (forall y, y ∈ l -> 0 <= f y <= n) -> 0 <= sum f l <= n * zlen l.
Proof.
  unfold zlen. induction l as [|a l IH]; intros H; cbn -[Z.of_nat Z.mul]; [lia|].
  pose proof (H a (list_elem_of_here _ _)). specialize (IH (fun y Hy => H y (list_elem_of_further _ _ _ Hy))). lia.
Qed.

Definition credits (st : sched) : Z := sum (fun y => credit (kt st y)) R.
Definition spent (st : sched) (cur : Z) : bool := (cur =? idle) || (credit (kt st cur) =? 0).

Context (HR : NoDup R).

Definition ticks (n : nat) (st : sched) : sched := Nat.iter n (fun st => sched_tick st c) st.

(** [x] runs after at most [n] ticks. *)
Definition runs_within (x : Z) (n : Z) (st : sched) : Prop :=
  exists m, Z.of_nat m <= n /\ cpu_thread (cpu_of (ticks m st) c) = x.

Lemma runs_now x n st cur fq : sit c idle R st cur fq -> cur = x -> 0 <= n -> runs_within x n st.
Proof.
  intros [(k & Hk & _ & Hc & _) _ _ _ _ _ _] <- Hn. exists 0%nat. split; [done|]. cbn. by rewrite (cpu_of_lookup _ _ _ Hk).
Qed.

Lemma runs_later x n st : runs_within x n (sched_tick st c) -> runs_within x (n + 1) st.
Proof.
  intros (m & Hm & E). exists (S m). split; [lia|]. unfold ticks in *. by rewrite Nat.iter_succ_r.
Qed.

Lemma runs_mono x n n' st : n <= n' -> runs_within x n st -> runs_within x n' st.
Proof. intros H (m & Hm & E). exists m. split; [lia|done]. Qed.

(** A tick costs the current thread a credit, if it has one. *)
Lemma tick_credits st cur fq x px : sit c idle R st cur fq -> x ∈ fq px ->
  credits (sched_tick st c) = credits st - if spent st cur then 0 else 1.
Proof.
  intros Hs Hx. destruct (sit_tick _ _ _ _ _ Hs Hx) as (H1 & H2 & _). unfold credits, spent.
  destruct (Z.eqb_spec cur idle) as [E|Hne]; cbn [orb].
  - rewrite (sum_ext (fun y => credit (kt st y))); [lia|]. intros y Hy. apply credit_att, H1; [done|].
    apply (si_set _ _ _ _ _ _ Hs) in Hy as [[_ Hy]|[p Hy]]; [congruence|].
    by destruct (sit_queued _ _ _ _ _ Hs Hy) as (_ & _ & ? & _).
  - assert (Hcur : cur ∈ R) by (apply (si_set _ _ _ _ _ _ Hs); by left).
    rewrite (sum_change (fun y => credit (kt st y)) _ R cur HR Hcur);
      [|intros y Hy Hyc; by apply credit_att, H1].
    pose proof (si_ts _ _ _ _ _ _ Hs cur Hcur) as Hts.
    rewrite (credit_att _ _ (H2 Hne)), (credit_tick _ Hts).
    pose proof (credit_range _ Hts). destruct (Z.eqb_spec (credit (kt st cur)) 0); lia.
Qed.

Lemma sit_waits st cur fq x : sit c idle R st cur fq -> x ∈ R -> cur <> x -> exists p, x ∈ fq p.
Proof. intros Hs Hx Hne. apply (si_set _ _ _ _ _ _ Hs) in Hx as [[? _]|?]; [congruence|done]. Qed.

Lemma credits_range st cur fq : sit c idle R st cur fq -> 0 <= credits st <= 50 * zlen R.
Proof. intros Hs. apply sum_range. intros y Hy. apply credit_range. by apply (si_ts _ _ _ _ _ _ Hs). Qed.

(** A tick while [x] waits behind [l1].  [x] comes to run, or it moves up, or the
    current thread or the one that takes its place has a credit. *)
Lemma wait_tick x px l1 l2 st cur fq : sit c idle R st cur fq -> fq px = l1 ++ x :: l2 ->
  let st' := sched_tick st c in
  (exists fq', sit c idle R st' x fq')
  \/ exists cur' fq' l1' l2', sit c idle R st' cur' fq' /\ fq' px = l1' ++ x :: l2' /\ zlen l1' <= zlen l1
     /\ (spent st cur = true -> spent st' cur' = true -> zlen l1' < zlen l1).
Proof.
  intros Hs Ex st'. assert (Hx : x ∈ fq px) by (rewrite Ex; apply elem_of_app; right; apply list_elem_of_here).
  pose proof (sit_level _ _ _ _ _ Hs Hx) as Hpx.
  destruct (sit_tick _ _ _ _ _ Hs Hx) as (H1 & _ & [(Hs' & Hne & Hlt)|(p & t & l & El & Hmax & fq' & Hs' & Hq)]).
  - right. exists cur, fq, l1, l2. split; [done|]. split; [done|]. split; [done|]. intros Hsp _. exfalso.
    assert (Hcur : cur ∈ R) by (apply (si_set _ _ _ _ _ _ Hs); by left).
    pose proof (si_ts _ _ _ _ _ _ Hs cur Hcur) as Hts. unfold spent in Hsp. rewrite (proj2 (Z.eqb_neq _ _) Hne) in Hsp.
    apply Z.eqb_eq in Hsp. pose proof (credit_tick _ Hts) as E. rewrite Hsp in E.
    apply (credit_range _ (ts_tick_ok _ Hts)) in E. lia.
  - destruct (decide (t = x)) as [->|Htx]; [left; by exists fq'|right]. destruct (Hq px) as [w Hw].
    assert (Ht : t ∈ fq p) by (rewrite El; apply list_elem_of_here).
    destruct (Z.eqb_spec px p) as [->|Hpp].
    + rewrite Ex in El. destruct l1 as [|a l1]; [injection El as E _; congruence|]. injection El as -> <-.
      exists t, fq', l1, (l2 ++ w). rewrite Hw, <- app_assoc. unfold zlen. cbn [length].
      split; [done|]. split; [done|]. split; [lia|]. intros _ _. lia.
    + exists t, fq', l1, (l2 ++ w). rewrite Hw, Ex, <- app_assoc. split; [done|]. split; [done|]. split; [done|].
      intros _ Hsp. exfalso. destruct (sit_queued _ _ _ _ _ Hs Ht) as (HtR & Hlow & Htc & Hti).
      unfold spent in Hsp. rewrite (proj2 (Z.eqb_neq _ _) Hti) in Hsp. apply Z.eqb_eq in Hsp. unfold st' in Hsp.
      rewrite (credit_att _ _ (H1 t HtR Htc)) in Hsp.
      apply (credit_range _ (si_ts _ _ _ _ _ _ Hs t HtR)), Hlow in Hsp.
      rewrite Hmax in Hx by lia. by apply elem_of_nil in Hx.
Qed.

(** While a thread waits, two ticks spend a credit or bring it nearer. *)
Lemma wait_runs x px : forall (n : nat) st cur fq l1 l2, sit c idle R st cur fq -> fq px = l1 ++ x :: l2 ->
  2 * credits st + (if spent st cur then 1 else 0) + zlen l1 <= Z.of_nat n -> runs_within x (Z.of_nat n + 1) st.
Proof.
  induction n as [|n IH]; intros st cur fq l1 l2 Hs Ex Hm;
    (assert (Hx : x ∈ fq px) by (rewrite Ex; apply elem_of_app; right; apply list_elem_of_here));
    pose proof (tick_credits _ _ _ _ _ Hs Hx) as Et; apply runs_later;
    (destruct (wait_tick _ _ _ _ _ _ _ Hs Ex) as [[fq' Hs']|(cur' & fq' & l1' & l2' & Hs' & Ex' & Hle & Hlt)];
     [apply (runs_now x _ _ _ _ Hs'); [done|lia]|]); pose proof (credits_range _ _ _ Hs') as Hc;
    (assert (Hl : 0 <= zlen l1') by (unfold zlen; lia)).
  - exfalso. destruct (spent st cur), (spent _ cur'); try specialize (Hlt eq_refl eq_refl); lia.
  - replace (Z.of_nat (S n)) with (Z.of_nat n + 1) by lia. eapply IH; [exact Hs'|exact Ex'|].
    destruct (spent st cur), (spent _ cur'); try specialize (Hlt eq_refl eq_refl); lia.
Qed.

Lemma queue_length st cur fq p : sit c idle R st cur fq -> zlen (fq p) <= zlen R.
Proof.
  intros Hs. apply Nat2Z.inj_le, submseteq_length, NoDup_submseteq.
  - destruct (si_inv _ _ _ _ _ _ Hs) as (pl & ls & Hinv & Hl). rewrite <- Hl. apply (proj1 (i_queues _ _ _ Hinv)).
  - intros y Hy. by destruct (sit_queued _ _ _ _ _ Hs Hy).
Qed.

Lemma sit_runs st cur fq x : sit c idle R st cur fq -> x ∈ R -> runs_within x (101 * zlen R + 1) st.
Proof.
  intros Hs Hx. pose proof (credits_range _ _ _ Hs) as Hc.
  destruct (Z.eq_dec cur x) as [E|Hne]; [eapply runs_now; [done|done|unfold zlen; lia]|].
  destruct (sit_waits _ _ _ _ Hs Hx Hne) as [p Hp]. apply list_elem_of_split in Hp as (l1 & l2 & E).
  pose proof (queue_length _ _ _ p Hs) as Hl. rewrite E in Hl. unfold zlen in Hl at 1. rewrite length_app in Hl.
  cbn [length] in Hl. assert (Hl1 : zlen l1 + 1 <= zlen R) by (unfold zlen in *; lia).
  eapply runs_mono; [|apply (wait_runs x p (Z.to_nat (101 * zlen R)) st cur fq l1 l2 Hs E)].
  - unfold zlen. lia.
  - case_if; unfold zlen in *; lia.
Qed.

End Tick.

(** ** The theorem *)

(** Threads that the CPU [c] runs or has on a queue. *)
Definition runs_on (c : Z) (p : option place) : bool :=
  match p with
  | Some (In (HDisp c' _)) | Some (Cur c') => c' =? c
  | _ => false
  end.

Lemma run_sit st pl ls c k : inv st pl ls -> cpus st !! c = Some k -> cpu_pc k = Run -> alone st c ->
  slot (wq_head st) sched_tick_wq = 0 ->
  t_cid (kt st (cpu_idle k)) = SCLASS_SYS /\ t_pri (kt st (cpu_idle k)) = KSCHED_PRI_IDLE ->
  (forall y t, threads st !! y = Some t -> y <> cpu_idle k -> state t = KT_READY \/ state t = KT_RUNNING -> time_sharing t) ->
  sit c (cpu_idle k) (filter (fun y => runs_on c (pl !! y) = true) (elements (dom (threads st)))) st (cpu_thread k)
    (fun p => ls (HDisp c p)).
Proof.
  intros Hinv Hk Hrun Ha Hw Hid Hts. destruct (run_facts _ _ _ _ _ Hinv Hk Hrun) as (Hcur & _ & Hi & _).
  pose proof (c_cpu _ _ _ _ _ (i_ctl _ _ _ Hinv) c k Hk) as [_ _ O3 _ O5 _ _ _].
  constructor; [by exists k|by exists pl, ls|done|done|done| |]; intros y; rewrite list_elem_of_filter, elem_of_elements, elem_of_dom.
  - rewrite <- (c_dom _ _ _ _ _ (i_ctl _ _ _ Hinv) y). split.
    + intros [H _]. destruct (pl !! y) as [[[c' q| | |]|c'| | | |]|] eqn:Hy; cbn in H; try done; apply Z.eqb_eq in H; subst c'.
      * right. exists q. by apply (i_in _ _ _ Hinv).
      * left. split; [by apply O5|]. intros ->. rewrite (O3 Hi) in Hy. congruence.
    + intros [[-> Hne]|[q Hq]].
      * destruct Hcur as [E|[E _]]; [|congruence]. rewrite E. cbn. by rewrite Z.eqb_refl.
      * apply (i_in _ _ _ Hinv) in Hq. rewrite Hq. cbn. by rewrite Z.eqb_refl.
  - intros [H [t Ht]]. rewrite (kt_lookup _ _ _ Ht).
    destruct (pl !! y) as [pp|] eqn:Hy; [|done].
    destruct (inv_lookup _ _ _ _ _ Hinv Hy) as (t' & Ht' & _ & Hok). rewrite Ht in Ht'. injection Ht' as <-.
    apply (Hts y t Ht).
    + intros ->. rewrite (O3 Hi) in Hy. injection Hy as <-. done.
    + destruct pp as [[]| | | | |]; try done; destruct Hok as [Hst _]; [left; by destruct Hst|by right].
Qed.

(** C14: On a CPU that is alone, a thread on a dispatch queue is running after at most
    [101 * n + 1] clock ticks, [n] being the number of threads, if the runnable threads
    are of the time-sharing class, none sleeps, exits or is woken in between, and the
    idle thread has the class and priority it started with. *)
Theorem sched_no_starvation main init_process st c k x p l (Hmain : main <> 0)
    (Hr : reachable main init_process st) (Hk : cpus st !! c = Some k) (Hrun : cpu_pc k = Run)
    (Halone : alone st c) (Hwq : slot (wq_head st) sched_tick_wq = 0)
    (Hidle : t_cid (kt st (cpu_idle k)) = SCLASS_SYS /\ t_pri (kt st (cpu_idle k)) = KSCHED_PRI_IDLE)
    (Hts : forall y t, threads st !! y = Some t -> y <> cpu_idle k ->
       state t = KT_READY \/ state t = KT_RUNNING -> time_sharing t)
    (Hl : lchain next (threads st) (slot (cpu_dispq_head k) p) l) (Hx : x ∈ l) :
  runs_within c x (101 * Z.of_nat (size (threads st)) + 1) st.
Proof.
  destruct (reachable_inv main init_process st Hmain Hr) as (pl & ls & Hinv).
  set (R := filter (fun y => runs_on c (pl !! y) = true) (elements (dom (threads st)))).
  assert (HR : NoDup R) by (apply NoDup_filter, NoDup_elements).
  assert (Hlen : zlen R <= Z.of_nat (size (threads st))).
  { unfold zlen, R. rewrite <- size_dom. apply Nat2Z.inj_le. unfold size, set_size. apply length_filter. }
  pose proof (run_sit st pl ls c k Hinv Hk Hrun Halone Hwq Hidle Hts) as Hs. fold R in Hs.
  eapply runs_mono; [|apply (sit_runs c (cpu_idle k) R HR st _ _ x Hs)]; [lia|].
  apply (si_set _ _ _ _ _ _ Hs). right. exists p.
  assert (E : ls (HDisp c p) = l); [|by rewrite E].
  destruct (proj1 (proj1 (i_queues _ _ _ Hinv)) (HDisp c p)) as [Hch _]. cbn [head_of] in Hch.
  rewrite (cpu_of_lookup _ _ _ Hk) in Hch. by eapply lchain_unique.
Qed.

(** The boot thread makes two time-sharing threads. *)
Definition s1 : sched := (kthread_create_internal (sched_init 1000 1) 0 2000 3000 []).2.
Definition s2 : sched := kthread_setclass s1 2000 SCLASS_TS.
Definition s3 : sched := dispatch_to s2 0 2000.
Definition s4 : sched := (kthread_create_internal s3 0 2100 3100 []).2.
Definition s5 : sched := kthread_setclass s4 2100 SCLASS_TS.
Definition s6 : sched := dispatch_to s5 0 2100.

Lemma run_s6 : reachable 1000 1 s6.
Proof.
  unfold reachable.
  apply (rtc_l _ _ s1); [apply (st_create _ 0 2000 3000 []); [here|compute_eq|done|done]|].
  apply (rtc_l _ _ s2); [apply (st_setclass s1 2000 SCLASS_TS); vm_compute; eauto|].
  apply (rtc_l _ _ s3); [apply (st_dispatch s2 2000 0); [vm_compute; reflexivity|eexists; split; [compute_eq|done]]|].
  apply (rtc_l _ _ s4); [apply (st_create s3 0 2100 3100 []); [here|compute_eq|done|done]|].
  apply (rtc_l _ _ s5); [apply (st_setclass s4 2100 SCLASS_TS); vm_compute; eauto|].
  apply rtc_once, (st_dispatch s5 2100 0); [vm_compute; reflexivity|eexists; split; [compute_eq|done]].
Qed.

Lemma map_check {A} (f : Z -> A -> bool) (m : gmap Z A) x a :
  forallb (fun p => f p.1 p.2) (map_to_list m) = true -> m !! x = Some a -> f x a = true.
Proof.
  intros Hf Hx%elem_of_map_to_list%list_elem_of_In. by apply (proj1 (forallb_forall _ _) Hf (x, a)).
Qed.

Definition s6_check (y : Z) (t : kthread) : bool := bool_decide (y = 1000 \/ time_sharing t).
Definition off_check (c : Z) (k : cpu) : bool := bool_decide (c = 0 \/ cpu_pc k = Off).

Lemma s6_threads y t : threads s6 !! y = Some t -> y <> 1000 -> time_sharing t.
Proof.
  intros Ht Hy. apply (map_check s6_check) in Ht; [|compute_eq]. apply bool_decide_eq_true in Ht. by destruct Ht.
Qed.

Lemma s6_alone : alone s6 0.
Proof.
  intros c' k' Hk' Hne. apply (map_check off_check) in Hk'; [|compute_eq]. apply bool_decide_eq_true in Hk'.
  by destruct Hk'.
Qed.

Lemma sched_no_starvation_witness : runs_within 0 2100 304 s6.
Proof.
  assert (Hk : cpus s6 !! 0 = Some (cpu_of s6 0)) by compute_eq.
  apply (sched_no_starvation 1000 1 s6 0 (cpu_of s6 0) 2100 30 [2000; 2100] ltac:(lia) run_s6 Hk).
  - compute_eq.
  - apply s6_alone.
  - compute_eq.
  - split; compute_eq.
  - intros y t Ht Hy _. apply (s6_threads y t Ht Hy).
  - cbn [lchain]. split; [compute_eq|]. split; [lia|]. exists (kt s6 2000). split; [compute_eq|].
    split; [compute_eq|]. split; [lia|]. exists (kt s6 2100). split; compute_eq.
  - right. left.
Defined.

End SchedLive.
