(* ===== verification/Cstr.v ===== *)
(** * Bytes and strings of the C library

    [lib/libc/src/string.c] and [uts/os/core/string.c] on a memory of bytes.  Loops
    that end at a NUL byte get the size of the memory as fuel; memory that is not in
    the map reads as 0, so the fuel never runs out. *)

From stdpp Require Import base numbers list gmap.
From Stdlib Require Import ZArith Lia Bool.
From S2P Require Import Prelude.

Module Cstr.

Notation mem := (gmap Z Z).

Definition ld (m : mem) (a : Z) : Z := default 0 (m !! a).
Definition st (m : mem) (a v : Z) : mem := <[a := v]> m.

(** Enough for a walk to the next NUL byte. *)
Definition fuel (m : mem) : nat := S (size m).

(** ** Moving bytes *)

Fixpoint set_loop (n : nat) (m : mem) (p v : Z) : mem :=
  match n with
  | O => m
  | S n => set_loop n (st m p v) (p + 1) v
  end.
Definition memset (m : mem) (s c n : Z) : mem := set_loop (Z.to_nat n) m s (u8 c).
Definition kmemset (m : mem) (dst c n : Z) : mem := let v := u8 c in set_loop (Z.to_nat n) m dst v.

Fixpoint copy_up (n : nat) (m : mem) (d s : Z) : mem :=
  match n with
  | O => m
  | S n => copy_up n (st m d (ld m s)) (d + 1) (s + 1)
  end.
Definition memcpy (m : mem) (dst src n : Z) : mem := copy_up (Z.to_nat n) m dst src.
Definition kmemcpy (m : mem) (dst src n : Z) : mem := copy_up (Z.to_nat n) m dst src.

(** [d] and [s] point behind the bytes still to be copied. *)
Fixpoint copy_down (n : nat) (m : mem) (d s : Z) : mem :=
  match n with
  | O => m
  | S n => copy_down n (st m (d - 1) (ld m (s - 1))) (d - 1) (s - 1)
  end.
Definition memmove (m : mem) (dst src n : Z) : mem :=
  if dst <? src then copy_up (Z.to_nat n) m dst src
  else if dst >? src then copy_down (Z.to_nat n) m (dst + n) (src + n)
  else m.

(** ** Comparing and searching *)

Fixpoint cmp_loop (n : nat) (m : mem) (p q : Z) : Z :=
  match n with
  | O => 0
  | S n => if negb (ld m p =? ld m q) then ld m p - ld m q else cmp_loop n m (p + 1) (q + 1)
  end.
Definition memcmp (m : mem) (a b n : Z) : Z := cmp_loop (Z.to_nat n) m a b.
Definition kmemcmp (m : mem) (a b n : Z) : Z := cmp_loop (Z.to_nat n) m a b.

(** A null pointer is 0. *)
Fixpoint chr_loop (n : nat) (m : mem) (p c : Z) : Z :=
  match n with
  | O => 0
  | S n => if ld m p =? u8 c then p else chr_loop n m (p + 1) c
  end.
Definition memchr (m : mem) (s c n : Z) : Z := chr_loop (Z.to_nat n) m s c.

Fixpoint len_loop (f : nat) (m : mem) (s n : Z) : Z :=
  match f with
  | O => n
  | S f => if ld m (s + n) =? 0 then n else len_loop f m s (n + 1)
  end.
Definition strlen (m : mem) (s : Z) : Z := len_loop (fuel m) m s 0.
Definition kstrlen (m : mem) (s : Z) : Z := len_loop (fuel m) m s 0.

Fixpoint strcmp_loop (f : nat) (m : mem) (a b : Z) : Z :=
  match f with
  | O => ld m a - ld m b
  | S f =>
      if negb (ld m a =? 0) && (ld m a =? ld m b) then strcmp_loop f m (a + 1) (b + 1)
      else ld m a - ld m b
  end.
Definition strcmp (m : mem) (a b : Z) : Z := strcmp_loop (fuel m) m a b.
Definition kstrcmp (m : mem) (a b : Z) : Z := strcmp_loop (fuel m) m a b.

(** [n] at [O] is the test [n--] that fails and leaves [(size_t)-1]. *)
Fixpoint strncmp_loop (n : nat) (m : mem) (a b : Z) : Z :=
  match n with
  | O => 0
  | S n =>
      if negb (ld m a =? 0) && (ld m a =? ld m b) then strncmp_loop n m (a + 1) (b + 1)
      else ld m a - ld m b
  end.
Definition strncmp (m : mem) (a b n : Z) : Z := strncmp_loop (Z.to_nat n) m a b.

Fixpoint strchr_loop (f : nat) (m : mem) (s c : Z) : Z :=
  match f with
  | O => if c =? 0 then s else 0
  | S f =>
      if ld m s =? 0 then if c =? 0 then s else 0
      else if ld m s =? u8 c then s
      else strchr_loop f m (s + 1) c
  end.
Definition strchr (m : mem) (s c : Z) : Z := strchr_loop (fuel m) m s c.

Fixpoint strrchr_loop (f : nat) (m : mem) (s c last : Z) : Z :=
  match f with
  | O => if c =? 0 then s else last
  | S f =>
      if ld m s =? 0 then if c =? 0 then s else last
      else strrchr_loop f m (s + 1) c (if ld m s =? u8 c then s else last)
  end.
Definition strrchr (m : mem) (s c : Z) : Z := strrchr_loop (fuel m) m s c 0.

Fixpoint strstr_loop (f : nat) (m : mem) (hay needle nlen : Z) : Z :=
  match f with
  | O => 0
  | S f =>
      if ld m hay =? 0 then 0
      else if (ld m hay =? ld m needle) && (strncmp m hay needle nlen =? 0) then hay
      else strstr_loop f m (hay + 1) needle nlen
  end.
Definition strstr (m : mem) (hay needle : Z) : Z :=
  if ld m needle =? 0 then hay else strstr_loop (fuel m) m hay needle (strlen m needle).

(** ** Copying strings

    A copy onto a string that overlaps it may never meet a NUL byte; the fuel is then
    what ends the loop. *)

Fixpoint cpy_loop (f : nat) (m : mem) (d s : Z) : mem :=
  match f with
  | O => m
  | S f => let v := ld m s in
           let m := st m d v in
           if v =? 0 then m else cpy_loop f m (d + 1) (s + 1)
  end.
Definition strcpy (m : mem) (dst src : Z) : mem := cpy_loop (fuel m) m dst src.
Definition strcat (m : mem) (dst src : Z) : mem := cpy_loop (fuel m) m (dst + strlen m dst) src.

(** [while (n && ( *d++ = *src++)) n--;] gives the memory, [d] and [n]. *)
Fixpoint ncpy_loop (n : nat) (m : mem) (d s : Z) : mem * Z * nat :=
  match n with
  | O => (m, d, O)
  | S n' => let v := ld m s in
            let m := st m d v in
            if v =? 0 then (m, d + 1, n) else ncpy_loop n' m (d + 1) (s + 1)
  end.
Definition strncpy (m : mem) (dst src n : Z) : mem :=
  let '(m, d, n) := ncpy_loop (Z.to_nat n) m dst src in
  set_loop n m d 0.

Fixpoint ncat_loop (n : nat) (m : mem) (d s : Z) : mem * Z :=
  match n with
  | O => (m, d)
  | S n => let v := ld m s in
           let m := st m d v in
           if v =? 0 then (m, d) else ncat_loop n m (d + 1) (s + 1)
  end.
Definition strncat (m : mem) (dst src n : Z) : mem :=
  let '(m, d) := ncat_loop (Z.to_nat n) m (dst + strlen m dst) src in
  st m d 0.

(** ** [strtok]

    The static cursor [save] is part of the state. *)

Fixpoint skip_in (f : nat) (m : mem) (delim p : Z) (want : bool) : Z :=
  match f with
  | O => p
  | S f =>
      if negb (ld m p =? 0) && eqb (negb (strchr m delim (ld m p) =? 0)) want
      then skip_in f m delim (p + 1) want
      else p
  end.

Definition strtok (m : mem) (save s delim : Z) : Z * mem * Z :=
  let save := if negb (s =? 0) then s else save in
  if save =? 0 then (0, m, save)
  else
    let save := skip_in (fuel m) m delim save true in
    if ld m save =? 0 then (0, m, 0)
    else
      let tok := save in
      let save := skip_in (fuel m) m delim save false in
      if negb (ld m save =? 0) then (tok, st m save 0, save + 1) else (tok, m, 0).

(** ** Lemmas on memory *)

Lemma ld_st m a b v : ld (st m a v) b = if b =? a then v else ld m b.
Proof.
  unfold ld, st. destruct (Z.eqb_spec b a) as [->|]; [by rewrite lookup_insert_eq|by rewrite lookup_insert_ne].
Qed.

(** Bytes [a] to [a + n]. *)
Definition within (a n x : Z) : bool := (a <=? x) && (x <? a + n).

Lemma within_spec a n x : BoolSpec (a <= x < a + n) (~ a <= x < a + n) (within a n x).
Proof.
  unfold within. destruct (Z.leb_spec a x), (Z.ltb_spec x (a + n)); constructor; lia.
Qed.

Ltac ranges :=
  repeat match goal with
  | |- context [within ?a ?n ?x] => destruct (within_spec a n x)
  | |- context [?a =? ?b] => destruct (Z.eqb_spec a b)
  end; try done; try lia.

Lemma set_loop_ld n : forall m p v x, ld (set_loop n m p v) x = if within p (Z.of_nat n) x then v else ld m x.
Proof.
  induction n as [|n IH]; intros m p v x; cbn [set_loop]; [ranges|].
  rewrite IH, ld_st. ranges.
Qed.

(** Copying upwards reads what was there, if the destination lies below or apart. *)
Lemma copy_up_ld n : forall m d s x, d <= s \/ s + Z.of_nat n <= d ->
  ld (copy_up n m d s) x = if within d (Z.of_nat n) x then ld m (s + (x - d)) else ld m x.
Proof.
  induction n as [|n IH]; intros m d s x Hds; cbn [copy_up]; [ranges|].
  rewrite IH, !ld_st by lia. ranges; f_equal; lia.
Qed.

Lemma copy_down_ld n : forall m d s x, s <= d ->
  ld (copy_down n m d s) x
  = if within (d - Z.of_nat n) (Z.of_nat n) x then ld m (s + (x - d)) else ld m x.
Proof.
  induction n as [|n IH]; intros m d s x Hds; cbn [copy_down]; [ranges|].
  rewrite IH, !ld_st by lia. ranges; f_equal; lia.
Qed.

(** [memmove] copies as if through a buffer of its own, however the areas overlap. *)
Theorem memmove_spec m dst src n x (Hn : 0 <= n) :
  ld (memmove m dst src n) x = if within dst n x then ld m (src + (x - dst)) else ld m x.
Proof.
  unfold memmove. destruct (Z.ltb_spec dst src).
  - rewrite copy_up_ld, Z2Nat.id by lia. done.
  - destruct (Z.gtb_spec dst src).
    + rewrite copy_down_ld, Z2Nat.id by lia. ranges. f_equal. lia.
    + ranges. f_equal. lia.
Qed.

Lemma memmove_spec_witness : ld (memmove {[ 10 := 1; 11 := 2; 12 := 3 ]} 11 10 3) 13 = 3.
Proof.
  rewrite (memmove_spec {[ 10 := 1; 11 := 2; 12 := 3 ]} 11 10 3 13 ltac:(lia)). vm_compute. reflexivity.
Defined.

(** ** Strings in memory *)

(** The string [l] is at [a], with its NUL byte. *)
Fixpoint cstr (m : mem) (a : Z) (l : bytes) : Prop :=
  match l with
  | [] => ld m a = 0
  | x :: l => x <> 0 /\ ld m a = x /\ cstr m (a + 1) l
  end.

Ltac lens := rewrite ?zlen_app in *; rewrite ?zlen_cons in *; change (zlen (@nil Z)) with 0 in *.

Lemma cstr_ext m m' l : forall a, (forall x, a <= x <= a + zlen l -> ld m' x = ld m x) -> cstr m a l -> cstr m' a l.
Proof.
  induction l as [|y l IH]; intros a H; cbn [cstr]; lens.
  - intros E. rewrite H; [done|lia].
  - pose proof (zlen_nonneg l). intros (Hy & E & Hl). split; [done|]. split; [rewrite H; [done|lia]|].
    apply IH; [|done]. intros x Hx. apply H. lia.
Qed.

Lemma cstr_split m l k : forall a, cstr m a (l ++ k) -> cstr m (a + zlen l) k.
Proof.
  induction l as [|y l IH]; intros a; cbn [cstr app]; lens.
  - by rewrite Z.add_0_r.
  - intros (_ & _ & H%IH). by replace (a + (1 + zlen l)) with (a + 1 + zlen l) by lia.
Qed.

Lemma cstr_nonzero m l : forall a i, cstr m a l -> 0 <= i < zlen l -> ld m (a + i) <> 0.
Proof.
  induction l as [|y l IH]; intros a i; cbn [cstr]; lens; [intros _ ?; lia|].
  intros (Hy & E & Hl) Hi. destruct (Z.eq_dec i 0) as [->|]; [by rewrite Z.add_0_r, E|].
  replace (a + i) with (a + 1 + (i - 1)) by lia. apply IH; [done|lia].
Qed.

Lemma cstr_fuel m a l : cstr m a l -> (length l < fuel m)%nat.
Proof.
  intros H. unfold fuel. apply Nat.lt_succ_r. rewrite <- size_dom.
  assert (Hs : list_to_set (seqZ a (zlen l)) ⊆ dom m).
  { intros x Hx. apply elem_of_list_to_set, elem_of_seqZ in Hx. apply elem_of_dom.
    pose proof (cstr_nonzero m l a (x - a) H ltac:(lia)) as Hz. replace (a + (x - a)) with x in Hz by lia.
    unfold ld in Hz. destruct (m !! x); [done|done]. }
  apply subseteq_size in Hs. rewrite size_list_to_set in Hs by apply NoDup_seqZ.
  rewrite length_seqZ in Hs. unfold zlen in Hs. lia.
Qed.

Lemma len_loop_cstr m l : forall f a n, cstr m (a + n) l -> (length l < f)%nat -> len_loop f m a n = n + zlen l.
Proof.
  induction l as [|y l IH]; intros [|f] a n H Hf; cbn [length] in Hf; try lia; cbn [len_loop cstr] in *; lens.
  - rewrite H. cbn. lia.
  - destruct H as (Hy & E & Hl). rewrite E, (proj2 (Z.eqb_neq _ _) Hy), IH; [lia| |lia].
    by rewrite Z.add_assoc.
Qed.

Lemma strlen_cstr m a l : cstr m a l -> strlen m a = zlen l.
Proof.
  intros H. unfold strlen. rewrite (len_loop_cstr m l); [lia|by rewrite Z.add_0_r|by eapply cstr_fuel].
Qed.

(** [strncmp] finds equality of the first [n] bytes. *)
Lemma strncmp_zero m n : forall a b l k, cstr m a l -> cstr m b k ->
  strncmp_loop n m a b = 0 <-> take n l = take n k.
Proof.
  induction n as [|n IH]; intros a b l k Hl Hk; cbn [strncmp_loop]; [by rewrite !take_0|].
  destruct l as [|x l], k as [|y k]; cbn [cstr] in *.
  - rewrite Hl, Hk. done.
  - destruct Hk as (Hy & E & Hk). rewrite Hl, E. cbn. split; [lia|done].
  - destruct Hl as (Hx & E & Hl). rewrite E, Hk, (proj2 (Z.eqb_neq _ _) Hx). cbn. split; [lia|done].
  - destruct Hl as (Hx & E & Hl), Hk as (Hy & E' & Hk). rewrite E, E', (proj2 (Z.eqb_neq _ _) Hx). cbn [negb andb].
    destruct (Z.eqb_spec x y) as [->|Hne]; cbn [take].
    + rewrite (IH _ _ l k Hl Hk). split; congruence.
    + split; [lia|congruence].
Qed.

(** [k] occurs in [l] behind [pre]. *)
Definition occurs (k l pre : bytes) : Prop := exists post, l = pre ++ k ++ post.

Lemma occurs_cons k x l : (~ occurs k (x :: l) []) -> forall pre, occurs k (x :: l) pre ->
  exists pre', pre = x :: pre' /\ occurs k l pre'.
Proof.
  intros Hn [|y pre] H; [done|]. destruct H as [post E]. cbn in E. injection E as <- E. exists pre. split; [done|].
  by exists post.
Qed.

Lemma prefix_take (k l : bytes) : take (length k) l = take (length k) k <-> occurs k l [].
Proof.
  rewrite (take_ge k) by done. split.
  - intros E. exists (drop (length k) l). cbn. rewrite <- E at 1. by rewrite take_drop.
  - intros [post ->]. cbn. by rewrite take_app_length.
Qed.

Lemma strstr_loop_cstr m needle k (Hk : cstr m needle k) (Hne : k <> []) : forall h f a, cstr m a h -> (length h < f)%nat ->
  let r := strstr_loop f m a needle (zlen k) in
  (exists pre, occurs k h pre /\ r = a + zlen pre /\ forall pre', occurs k h pre' -> zlen pre <= zlen pre')
  \/ (r = 0 /\ forall pre, ~ occurs k h pre).
Proof.
  induction h as [|x h IH]; intros [|f] a Ha Hf; cbn [length] in Hf; try lia; cbn [strstr_loop cstr] in *.
  - rewrite Ha. right. split; [done|]. intros pre [post E]. destruct pre, k; done.
  - destruct Ha as (Hx & Ex & Hh). rewrite Ex, (proj2 (Z.eqb_neq _ _) Hx).
    assert (Hc : (x =? ld m needle) && (strncmp m a needle (zlen k) =? 0) = true <-> occurs k (x :: h) []).
    { rewrite andb_true_iff, !Z.eqb_eq. unfold strncmp, zlen. rewrite Nat2Z.id.
      rewrite (strncmp_zero m _ a needle (x :: h) k), prefix_take by (cbn; done). split; [tauto|].
      intros Ho. split; [|done]. destruct k as [|y k]; [done|]. destruct Ho as [post E]. injection E as -> _.
      by destruct Hk as (_ & <- & _). }
    destruct (_ && _) eqn:E.
    + left. exists []. split; [by apply Hc|]. split; [change (zlen (@nil Z)) with 0; lia|]. intros pre _.
      change (zlen (@nil Z)) with 0. apply zlen_nonneg.
    + assert (Hno : ~ occurs k (x :: h) []) by (intros Ho; apply Hc in Ho; congruence).
      destruct (IH f (a + 1) Hh ltac:(lia)) as [(pre & [post Ho] & Er & Hmin)|[Er Hnone]].
      * left. exists (x :: pre). split; [exists post; by rewrite Ho|]. rewrite Er, zlen_cons. split; [lia|].
        intros pre' Hp. apply occurs_cons in Hp as (p & -> & Hp); [|done]. rewrite zlen_cons. specialize (Hmin p Hp). lia.
      * right. split; [done|]. intros pre Hp. apply occurs_cons in Hp as (p & -> & Hp); [|done]. by apply (Hnone p).
Qed.

(** [strstr] finds the first occurrence, and returns the null pointer exactly when
    there is none. *)
Theorem strstr_first m hay needle h k (Hh : cstr m hay h) (Hk : cstr m needle k) :
  let r := strstr m hay needle in
  (exists pre, occurs k h pre /\ r = hay + zlen pre /\ forall pre', occurs k h pre' -> zlen pre <= zlen pre')
  \/ (r = 0 /\ forall pre, ~ occurs k h pre).
Proof.
  unfold strstr. destruct k as [|y k].
  - cbn [cstr] in Hk. rewrite Hk. left. exists []. split; [by exists h|].
    change (zlen (@nil Z)) with 0. split; [cbn; lia|]. intros pre _. apply zlen_nonneg.
  - rewrite (proj2 (Z.eqb_neq (ld m needle) 0)) by (destruct Hk as (? & -> & _); done).
    rewrite (strlen_cstr _ _ _ Hk). apply strstr_loop_cstr; [done|done|done|by eapply cstr_fuel].
Qed.

(** ** Copies *)

Lemma ncpy_cstr l : forall m d s n, cstr m s l -> (length l < n)%nat ->
  s + zlen l < d \/ d + zlen l < s ->
  exists m', ncpy_loop n m d s = (m', d + zlen l + 1, (n - length l)%nat)
    /\ forall x, ld m' x = if within d (zlen l + 1) x then ld m (s + (x - d)) else ld m x.
Proof.
  induction l as [|y l IH]; intros m d s [|n] Hs Hn Hd; cbn [length] in Hn; try lia; cbn [ncpy_loop cstr] in *; lens.
  - rewrite Hs. cbn. exists (st m d 0). split; [f_equal; f_equal; lia|].
    intros x. rewrite ld_st. ranges. replace (s + (x - d)) with s by lia. done.
  - destruct Hs as (Hy & E & Hl). rewrite E, (proj2 (Z.eqb_neq _ _) Hy).
    pose proof (zlen_nonneg l).
    assert (Hl' : cstr (st m d y) (s + 1) l).
    { eapply cstr_ext; [|exact Hl]. intros x Hx. rewrite ld_st. ranges. }
    destruct (IH (st m d y) (d + 1) (s + 1) n Hl' ltac:(lia) ltac:(lia)) as (m' & E' & Hm').
    exists m'. rewrite E'. split; [f_equal; f_equal; cbn; lia|].
    intros x. rewrite Hm', !ld_st. ranges; try (f_equal; lia). rewrite <- E. f_equal. lia.
Qed.

(** [strncpy] of a string shorter than the limit [n] clears one byte too many: it
    writes [n + 1] bytes. *)
Theorem strncpy_overruns m dst src n l x (Hs : cstr m src l) (Hn : zlen l < n)
    (Hd : src + zlen l < dst \/ dst + zlen l < src) :
  ld (strncpy m dst src n) x
  = if within dst (zlen l) x then ld m (src + (x - dst))
    else if within dst (n + 1) x then 0 else ld m x.
Proof.
  unfold strncpy. pose proof (zlen_nonneg l).
  destruct (ncpy_cstr l m dst src (Z.to_nat n) Hs ltac:(unfold zlen in *; lia) Hd) as (m' & -> & Hm').
  rewrite set_loop_ld, Hm'.
  assert (En : Z.of_nat (Z.to_nat n - length l) = n - zlen l) by (unfold zlen in *; lia). rewrite En.
  ranges. assert (x = dst + zlen l) as -> by lia. pose proof (cstr_split m l [] src) as Hz.
  rewrite app_nil_r in Hz. specialize (Hz Hs). cbn in Hz. rewrite <- Hz. f_equal. lia.
Qed.

Lemma cpy_cstr l : forall m d s f, cstr m s l -> (length l < f)%nat -> s + zlen l < d \/ d + zlen l < s ->
  forall x, ld (cpy_loop f m d s) x = if within d (zlen l + 1) x then ld m (s + (x - d)) else ld m x.
Proof.
  induction l as [|y l IH]; intros m d s [|f] Hs Hf Hd x; cbn [length] in Hf; try lia; cbn [cpy_loop cstr] in *; lens.
  - rewrite Hs. cbn. rewrite ld_st. ranges. replace (s + (x - d)) with s by lia. done.
  - destruct Hs as (Hy & E & Hl). rewrite E, (proj2 (Z.eqb_neq _ _) Hy). pose proof (zlen_nonneg l).
    assert (Hl' : cstr (st m d y) (s + 1) l).
    { eapply cstr_ext; [|exact Hl]. intros z Hz. rewrite ld_st. ranges. }
    rewrite (IH (st m d y) (d + 1) (s + 1) f Hl' ltac:(lia) ltac:(lia)), !ld_st.
    ranges; try (f_equal; lia). rewrite <- E. f_equal. lia.
Qed.

Lemma cstr_copied m m' l : forall d s, cstr m s l ->
  (forall x, d <= x <= d + zlen l -> ld m' x = ld m (s + (x - d))) -> cstr m' d l.
Proof.
  induction l as [|y l IH]; intros d s; cbn [cstr]; lens.
  - intros Hs H. rewrite H by lia. rewrite <- Hs. f_equal. lia.
  - intros (Hy & E & Hl) H. pose proof (zlen_nonneg l). split; [done|].
    split; [rewrite H, <- E by lia; f_equal; lia|]. apply (IH (d + 1) (s + 1)); [done|].
    intros x Hx. rewrite H by lia. f_equal. lia.
Qed.

Lemma strcpy_cstr m dst src l : cstr m src l -> src + zlen l < dst \/ dst + zlen l < src ->
  cstr (strcpy m dst src) dst l /\ forall x, ~ dst <= x <= dst + zlen l -> ld (strcpy m dst src) x = ld m x.
Proof.
  intros Hs Hd. pose proof (cpy_cstr l m dst src (fuel m) Hs (cstr_fuel _ _ _ Hs) Hd) as H. split.
  - apply (cstr_copied m _ l dst src Hs). intros x Hx. unfold strcpy. rewrite H. ranges.
  - intros x Hx. unfold strcpy. rewrite H. ranges.
Qed.

Lemma cstr_join m l k : forall a, Forall (fun x => x <> 0) l ->
  (forall i x, l !! i = Some x -> ld m (a + Z.of_nat i) = x) -> cstr m (a + zlen l) k -> cstr m a (l ++ k).
Proof.
  induction l as [|y l IH]; intros a Hl Hi Hk; cbn [app cstr]; lens; [by rewrite Z.add_0_r in Hk|].
  apply Forall_cons in Hl as [Hy Hl]. split; [done|]. split; [rewrite <- (Hi 0%nat y eq_refl); f_equal; lia|].
  apply IH; [done| |by replace (a + 1 + zlen l) with (a + (1 + zlen l)) by lia].
  intros i x Hx. rewrite <- (Hi (S i) x Hx). f_equal. lia.
Qed.

Lemma cstr_bytes m l : forall a, cstr m a l -> Forall (fun x => x <> 0) l
  /\ forall i x, l !! i = Some x -> ld m (a + Z.of_nat i) = x.
Proof.
  induction l as [|y l IH]; intros a; cbn [cstr]; [done|]. intros (Hy & E & [H1 H2]%IH). split; [by constructor|].
  intros [|i] x Hx; cbn in Hx; [injection Hx as <-; rewrite <- E; f_equal; lia|].
  rewrite <- (H2 i x Hx). f_equal. lia.
Qed.

Lemma strcat_cstr m dst src l k : cstr m dst l -> cstr m src k ->
  src + zlen k < dst \/ dst + zlen l + zlen k < src -> cstr (strcat m dst src) dst (l ++ k).
Proof.
  intros Hl Hk Hd. unfold strcat. rewrite (strlen_cstr _ _ _ Hl). pose proof (zlen_nonneg l). pose proof (zlen_nonneg k).
  pose proof (cpy_cstr k m (dst + zlen l) src (fuel m) Hk (cstr_fuel _ _ _ Hk) ltac:(lia)) as H1.
  destruct (cstr_bytes _ _ _ Hl) as [Hz Hb]. apply cstr_join; [done| |].
  - intros i x Hx. rewrite H1. apply lookup_lt_Some in Hx as Hi.
    assert (Z.of_nat i < zlen l) by (unfold zlen; lia). ranges. by apply Hb.
  - apply (cstr_copied m _ k _ src Hk). intros x Hx. rewrite H1. ranges.
Qed.

Lemma strcmp_loop_zero m : forall l f a b k, cstr m a l -> cstr m b k -> (length l < f)%nat ->
  strcmp_loop f m a b = 0 <-> l = k.
Proof.
  induction l as [|x l IH]; intros [|f] a b k Hl Hk Hf; cbn [length] in Hf; try lia; cbn [strcmp_loop cstr] in *.
  - rewrite Hl. cbn. destruct k as [|y k]; cbn [cstr] in Hk; [rewrite Hk; done|].
    destruct Hk as (Hy & -> & _). split; [lia|done].
  - destruct Hl as (Hx & -> & Hl). rewrite (proj2 (Z.eqb_neq _ _) Hx). cbn [negb andb].
    destruct k as [|y k]; cbn [cstr] in Hk.
    + rewrite Hk, (proj2 (Z.eqb_neq _ _) Hx). split; [lia|done].
    + destruct Hk as (Hy & -> & Hk). destruct (Z.eqb_spec x y) as [->|Hne].
      * rewrite (IH f (a + 1) (b + 1) k Hl Hk) by lia. split; congruence.
      * split; [lia|congruence].
Qed.

(** [strcmp] is 0 exactly for equal strings. *)
Lemma strcmp_zero m a b l k : cstr m a l -> cstr m b k -> strcmp m a b = 0 <-> l = k.
Proof. intros Hl Hk. apply strcmp_loop_zero; [done|done|by eapply cstr_fuel]. Qed.

(** ** Tokens *)

Lemma strchr_loop_in m c (Hc : is_u8 c) (Hz : c <> 0) : forall l f s, cstr m s l -> 0 < s -> (length l < f)%nat ->
  strchr_loop f m s c <> 0 <-> c ∈ l.
Proof.
  assert (Eu : u8 c = c) by (by apply u8_small).
  induction l as [|x l IH]; intros [|f] s Hl Hs Hf; cbn [length] in Hf; try lia; cbn [strchr_loop cstr] in *.
  - rewrite Hl, (proj2 (Z.eqb_neq _ _) Hz). cbn. split; [done|by intros ?%elem_of_nil].
  - destruct Hl as (Hx & -> & Hl). rewrite (proj2 (Z.eqb_neq _ _) Hx), Eu. destruct (Z.eqb_spec x c) as [->|Hne].
    + split; [intros _; apply list_elem_of_here|lia].
    + rewrite (IH f (s + 1) Hl) by lia. rewrite elem_of_cons. split; [by right|]. intros [?|?]; [congruence|done].
Qed.

Lemma strchr_in m s c l : cstr m s l -> 0 < s -> is_u8 c -> c <> 0 -> strchr m s c <> 0 <-> c ∈ l.
Proof. intros Hl Hs Hc Hz. apply strchr_loop_in; [done|done|done|done|by eapply cstr_fuel]. Qed.

Section Tokens.
Context (m : mem) (delim : Z) (ds : bytes).
Context (Hdelim : cstr m delim ds) (Hpos : 0 < delim).

Lemma skip_in_run (want : bool) r : forall l f p, cstr m p (l ++ r) -> is_bytes (l ++ r) -> (length l < f)%nat ->
  Forall (fun x => bool_decide (x ∈ ds) = want) l ->
  (forall x r', r = x :: r' -> bool_decide (x ∈ ds) <> want) ->
  skip_in f m delim p want = p + zlen l.
Proof.
  assert (Hch : forall x, is_u8 x -> x <> 0 -> negb (strchr m delim x =? 0) = bool_decide (x ∈ ds)).
  { intros x Hx Hz. pose proof (strchr_in m delim x ds Hdelim Hpos Hx Hz) as H.
    destruct (Z.eqb_spec (strchr m delim x) 0) as [E|E]; cbn; symmetry.
    - apply bool_decide_eq_false. rewrite <- H, E. by intros [].
    - apply bool_decide_eq_true. by apply H. }
  induction l as [|x l IH]; intros [|f] p Hl Hb Hf Hw Hr; cbn [length] in Hf; try lia; cbn [skip_in app] in *; lens.
  - destruct r as [|x r]; cbn [cstr] in Hl; [rewrite Hl; cbn; lia|]. destruct Hl as (Hx & -> & _).
    apply Forall_cons in Hb as [Hb _]. rewrite (proj2 (Z.eqb_neq _ _) Hx), Hch by done. cbn [negb andb].
    specialize (Hr x r eq_refl). destruct (bool_decide (x ∈ ds)), want; cbn; (done || lia).
  - destruct Hl as (Hx & -> & Hl). apply Forall_cons in Hb as [Hb Hbl]. apply Forall_cons in Hw as [Hwx Hwl].
    rewrite (proj2 (Z.eqb_neq _ _) Hx), Hch, Hwx, eqb_reflx by done. cbn [negb andb].
    rewrite (IH f (p + 1) Hl Hbl) by (done || lia). lia.
Qed.

(** From the cursor, [strtok] skips delimiters, cuts off the next token with a NUL
    byte, and leaves the cursor behind it. *)
Lemma strtok_cuts save s pre tok post : cstr m (if s =? 0 then save else s) (pre ++ tok ++ post) ->
  (if s =? 0 then save else s) <> 0 -> is_bytes (pre ++ tok ++ post) -> tok <> [] ->
  Forall (fun x => x ∈ ds) pre -> Forall (fun x => x ∉ ds) tok -> (forall x r, post = x :: r -> x ∈ ds) ->
  let p := (if s =? 0 then save else s) + zlen pre in
  exists m', strtok m save s delim = (p, m', match post with [] => 0 | _ => p + zlen tok + 1 end)
    /\ cstr m' p tok /\ forall x, x <> p + zlen tok -> ld m' x = ld m x.
Proof.
  set (a := if s =? 0 then save else s). intros Hs Ha Hb Ht Hpre Htok Hpost p.
  assert (Hs' : cstr m p (tok ++ post)) by (by apply cstr_split).
  assert (Hp : ld m p <> 0) by (destruct tok as [|y tok]; [done|destruct Hs' as (? & -> & _); done]).
  pose proof (cstr_fuel _ _ _ Hs) as Hf. rewrite !length_app in Hf.
  assert (E1 : skip_in (fuel m) m delim a true = p).
  { apply (skip_in_run true (tok ++ post)); [done|done|lia| |].
    - eapply Forall_impl; [exact Hpre|]. intros x Hx. by apply bool_decide_eq_true.
    - intros x r E. destruct tok as [|y tok]; [done|]. injection E as -> _. apply Forall_cons in Htok as [Hx _].
      intros Hd. by apply bool_decide_eq_true in Hd. }
  assert (E2 : skip_in (fuel m) m delim p false = p + zlen tok).
  { apply (skip_in_run false post); [done|by apply Forall_app in Hb as [_ ?]|lia| |].
    - eapply Forall_impl; [exact Htok|]. intros x Hx. by apply bool_decide_eq_false.
    - intros x r E Hd. apply bool_decide_eq_false in Hd. by apply Hd, (Hpost x r). }
  assert (Ea : (if negb (s =? 0) then s else save) = a) by (unfold a; by destruct (s =? 0)).
  unfold strtok. rewrite Ea, (proj2 (Z.eqb_neq _ _) Ha), E1, (proj2 (Z.eqb_neq _ _) Hp), E2.
  pose proof (cstr_split m tok post p Hs') as Hq. destruct post as [|x post].
  - cbn in Hq. rewrite Hq. cbn. exists m. rewrite app_nil_r in Hs'. done.
  - destruct Hq as (Hx & E & _). rewrite E, (proj2 (Z.eqb_neq _ _) Hx). cbn [negb].
    exists (st m (p + zlen tok) 0). split; [done|]. split.
    + enough (H0 : cstr (st m (p + zlen tok) 0) p (tok ++ [])) by (by rewrite app_nil_r in H0).
      destruct (cstr_bytes _ _ _ Hs') as [Hz Hbt]. apply Forall_app in Hz as [Hz _].
      apply cstr_join; [done| |cbn; rewrite ld_st; ranges].
      intros i y Hy. apply lookup_lt_Some in Hy as Hi. rewrite ld_st. unfold zlen. ranges.
      apply Hbt. by apply lookup_app_l_Some.
    + intros y Hy. rewrite ld_st. ranges.
Qed.

End Tokens.

(** ** Concrete strings *)

Definition write_bytes (m : mem) (a : Z) (l : bytes) : mem := fold_left (fun m p => st m p.1 p.2) (imap (fun i x => (a + Z.of_nat i, x)) l) m.

Definition demo : mem := write_bytes (write_bytes empty 100 [97; 98; 97; 98; 99; 0]) 200 [97; 98; 99; 0].

Lemma strstr_first_witness : strstr demo 100 200 = 102.
Proof.
  assert (Hh : cstr demo 100 [97; 98; 97; 98; 99]) by (vm_compute; repeat split; discriminate).
  assert (Hk : cstr demo 200 [97; 98; 99]) by (vm_compute; repeat split; discriminate).
  destruct (strstr_first demo 100 200 _ _ Hh Hk) as [(pre & [post Ho] & Hr & _)|[Hr Hno]].
  - rewrite Hr. destruct pre as [|a [|b [|c [|d [|e pre]]]]]; try discriminate Ho.
    + reflexivity.
    + destruct pre; discriminate Ho.
  - exfalso. apply (Hno [97; 98]). exists []. reflexivity.
Defined.

(** Copying a string of three bytes into a buffer of eight changes the byte behind it. *)
Lemma strncpy_overruns_witness :
  let m := write_bytes demo 300 [1; 2; 3; 4; 5; 6; 7; 8; 255] in
  ld m 308 = 255 /\ ld (strncpy m 300 200 8) 308 = 0.
Proof.
  set (m := write_bytes demo 300 [1; 2; 3; 4; 5; 6; 7; 8; 255]). split; [reflexivity|].
  assert (Hk : cstr m 200 [97; 98; 99]) by (vm_compute; repeat split; discriminate).
  rewrite (strncpy_overruns m 300 200 8 [97; 98; 99] 308 Hk); [reflexivity|reflexivity|left; reflexivity].
Defined.

End Cstr.
