(* ===== verification/Csort.v ===== *)
(** * Sorting and searching in the C library

    [qsort] and [bsearch] of [lib/libc/src/stdlib.c].  An array is a run of elements of
    [size] bytes each; the comparison function looks at the bytes of its two
    elements. *)

From stdpp Require Import base numbers list gmap sorting.
From Stdlib Require Import ZArith Lia Bool.
From S2P Require Import Prelude Cstr.

Module Csort.
Import Cstr.

(** The element at [a]. *)
Definition read (m : mem) (a size : Z) : bytes := (fun i => ld m (a + i)) <$> seqZ 0 size.

Section Code.
Context (cmp : bytes -> bytes -> Z) (size : Z).

(** The loop over [k]. *)
Fixpoint swap_loop (n : nat) (m : mem) (a c : Z) : mem :=
  match n with
  | O => m
  | S n => let t := ld m a in
           let m := st m a (ld m c) in
           let m := st m c t in
           swap_loop n m (a + 1) (c + 1)
  end.

(** The loop over [j]. *)
Fixpoint sift (j : nat) (m : mem) (b : Z) : mem :=
  match j with
  | O => m
  | S j' =>
      let a := b + Z.of_nat j' * size in
      let c := b + Z.of_nat j * size in
      if cmp (read m a size) (read m c size) <=? 0 then m
      else sift j' (swap_loop (Z.to_nat size) m a c) b
  end.

(** The loop over [i], [n] rounds of it. *)
Fixpoint qsort_loop (n i : nat) (m : mem) (b : Z) : mem :=
  match n with
  | O => m
  | S n => qsort_loop n (S i) (sift i m b) b
  end.
Definition qsort (m : mem) (base nmemb : Z) : mem := qsort_loop (Z.to_nat nmemb - 1) 1 m base.

Fixpoint bsearch_loop (f : nat) (m : mem) (key : bytes) (b lo hi : Z) : Z :=
  match f with
  | O => 0
  | S f =>
      if negb (lo <? hi) then 0
      else
        let mid := lo + (hi - lo) / 2 in
        let p := b + mid * size in
        let r := cmp key (read m p size) in
        if r =? 0 then p
        else if r <? 0 then bsearch_loop f m key b lo mid
        else bsearch_loop f m key b (mid + 1) hi
  end.
Definition bsearch (m : mem) (key : bytes) (base nmemb : Z) : Z :=
  bsearch_loop (S (Z.to_nat nmemb)) m key base 0 nmemb.

End Code.

(** ** Insertion into a list that is sorted from the back *)

Section Lists.
Context (cmp : bytes -> bytes -> Z).

Fixpoint insr (x : bytes) (l : list bytes) : list bytes :=
  match l with
  | [] => [x]
  | y :: l' => if cmp y x <=? 0 then x :: l else y :: insr x l'
  end.

(** Stable insertion sort. *)
Definition isort (l : list bytes) : list bytes := reverse (fold_left (fun acc x => insr x acc) l []).

Definition le (x y : bytes) : Prop := cmp x y <= 0.

(** The comparison function is a total preorder, and swapping its arguments turns
    its sign. *)
Class Comparison := {
  cmp_flip : forall x y, 0 < cmp x y <-> cmp y x < 0;
  cmp_trans : forall x y z, le x y -> le y z -> le x z }.

Context `{!Comparison}.

Lemma cmp_refl x : cmp x x = 0.
Proof. pose proof (cmp_flip x x). lia. Qed.

Lemma insr_perm x l : insr x l ≡ₚ x :: l.
Proof.
  induction l as [|y l IH]; cbn; [done|]. destruct (_ <=? _); [done|]. rewrite IH. apply Permutation_swap.
Qed.

Lemma insr_sorted x l : StronglySorted (flip le) l -> StronglySorted (flip le) (insr x l).
Proof.
  induction 1 as [|y l Hl IH Hy]; cbn; [by repeat constructor|]. destruct (Z.leb_spec (cmp y x) 0) as [Hle|Hgt].
  - constructor; [by constructor|]. constructor; [done|]. eapply Forall_impl; [exact Hy|].
    intros z Hz. exact (cmp_trans _ _ _ Hz Hle).
  - constructor; [done|]. rewrite insr_perm. constructor; [|done]. unfold flip, le. pose proof (cmp_flip y x). lia.
Qed.

(** The elements that compare equal to [z], in order. *)
Definition same (z : bytes) : list bytes -> list bytes := filter (fun y => cmp y z = 0).

Lemma insr_stable z x l : StronglySorted (flip le) l -> same z (insr x l) = same z (x :: l).
Proof.
  unfold same. induction 1 as [|y l Hl IH Hy]; cbn [insr]; [done|].
  destruct (Z.leb_spec (cmp y x) 0) as [Hle|Hgt]; [done|].
  rewrite filter_cons, IH, !filter_cons. destruct (decide (cmp y z = 0)) as [Ey|], (decide (cmp x z = 0)) as [Ex|]; try done.
  exfalso. pose proof (cmp_flip x z). pose proof (cmp_flip z x). assert (Hyz : le y z) by (unfold le; lia).
  assert (Hzx : le z x) by (unfold le; lia). pose proof (cmp_trans _ _ _ Hyz Hzx) as Hyx. unfold le in Hyx. lia.
Qed.

Lemma isort_acc l : forall acc, StronglySorted (flip le) acc ->
  let r := fold_left (fun acc x => insr x acc) l acc in
  StronglySorted (flip le) r /\ r ≡ₚ l ++ acc /\ forall z, same z r = same z (reverse l ++ acc).
Proof.
  induction l as [|x l IH]; intros acc Ha; cbn [fold_left]; [done|].
  destruct (IH (insr x acc) (insr_sorted _ _ Ha)) as (H1 & H2 & H3). split; [done|]. split.
  - rewrite H2, insr_perm. cbn. by rewrite Permutation_middle.
  - intros z. rewrite H3. unfold same. rewrite !filter_app, reverse_cons, filter_app, <- app_assoc.
    f_equal. etransitivity; [by apply insr_stable|]. unfold same. rewrite filter_cons, filter_cons. by destruct (decide _).
Qed.

Lemma sorted_reverse l : StronglySorted (flip le) l -> StronglySorted le (reverse l).
Proof.
  induction 1 as [|x l Hl IH Hx]; [constructor|]. rewrite reverse_cons. apply StronglySorted_app. split_and!; [|done|].
  - intros y z Hy Hz. apply list_elem_of_singleton in Hz as ->. rewrite elem_of_reverse in Hy.
    rewrite Forall_forall in Hx. by apply Hx.
  - by repeat constructor.
Qed.

Lemma isort_spec l : StronglySorted le (isort l) /\ isort l ≡ₚ l /\ forall z, same z (isort l) = same z l.
Proof.
  destruct (isort_acc l [] ltac:(constructor)) as (H1 & H2 & H3). unfold isort. split; [by apply sorted_reverse|].
  split; [by rewrite reverse_Permutation, H2, app_nil_r|]. intros z. unfold same in *.
  rewrite filter_reverse, H3, app_nil_r, filter_reverse. apply reverse_involutive.
Qed.

End Lists.

(** ** Arrays in memory *)

Section Arrays.
Context (cmp : bytes -> bytes -> Z) (size : Z) (Hsize : 0 < size).

Definition elems (m : mem) (b : Z) (n : nat) : list bytes :=
  (fun i => read m (b + Z.of_nat i * size) size) <$> seq 0 n.

Lemma elems_length m b n : length (elems m b n) = n.
Proof. unfold elems. by rewrite length_fmap, length_seq. Qed.

Lemma elems_lookup m b n i : (i < n)%nat -> elems m b n !! i = Some (read m (b + Z.of_nat i * size) size).
Proof. intros Hi. unfold elems. rewrite list_lookup_fmap, lookup_seq_lt by done. done. Qed.

Lemma read_ext m m' a a' : (forall i, 0 <= i < size -> ld m' (a' + i) = ld m (a + i)) -> read m' a' size = read m a size.
Proof.
  intros H. unfold read. apply list_fmap_ext. intros i x Hx. apply lookup_seqZ in Hx as [-> Hi]. apply H. lia.
Qed.

Lemma swap_ld n : forall m a c x, a + Z.of_nat n <= c ->
  ld (swap_loop n m a c) x
  = if within a (Z.of_nat n) x then ld m (c + (x - a))
    else if within c (Z.of_nat n) x then ld m (a + (x - c)) else ld m x.
Proof.
  induction n as [|n IH]; intros m a c x Hac; cbn [swap_loop]; [ranges|].
  rewrite IH, !ld_st by lia. ranges; f_equal; lia.
Qed.

(** The swap of neighbours exchanges two elements of the array. *)
Definition lswap (j : nat) (l : list bytes) : list bytes :=
  match l !! j, l !! S j with
  | Some x, Some y => <[j := y]> (<[S j := x]> l)
  | _, _ => l
  end.

Lemma swap_elems m b n j : (S j < n)%nat ->
  let m' := swap_loop (Z.to_nat size) m (b + Z.of_nat j * size) (b + Z.of_nat (S j) * size) in
  elems m' b n = lswap j (elems m b n)
  /\ forall x, ~ b <= x < b + Z.of_nat n * size -> ld m' x = ld m x.
Proof.
  intros Hj m'.
  assert (Hm : forall x, ld m' x = if within (b + Z.of_nat j * size) size x then ld m (x + size)
    else if within (b + Z.of_nat (S j) * size) size x then ld m (x - size) else ld m x).
  { intros x. unfold m'. rewrite swap_ld, !Z2Nat.id by nia. ranges; f_equal; nia. }
  split; [|intros x Hx; rewrite Hm; ranges; nia].
  unfold lswap. rewrite !elems_lookup by lia. apply list_eq. intros i.
  destruct (Nat.lt_ge_cases i n) as [Hi|Hi].
  2:{ rewrite !lookup_ge_None_2; [done| |by rewrite elems_length]. by rewrite !length_insert, elems_length. }
  rewrite elems_lookup by done. destruct (decide (i = j)) as [->|Hij].
  { rewrite list_lookup_insert_eq by (rewrite length_insert, elems_length; lia). f_equal. apply read_ext.
    intros k Hk. rewrite Hm. ranges; try nia. f_equal. lia. }
  rewrite list_lookup_insert_ne by done. destruct (decide (i = S j)) as [->|Hij2].
  { rewrite list_lookup_insert_eq by (rewrite elems_length; lia). f_equal. apply read_ext.
    intros k Hk. rewrite Hm. ranges; try nia. f_equal. lia. }
  rewrite list_lookup_insert_ne, elems_lookup by done. f_equal. apply read_ext. intros k Hk. rewrite Hm.
  ranges; nia.
Qed.

Fixpoint lsift (j : nat) (l : list bytes) : list bytes :=
  match j with
  | O => l
  | S j' =>
      match l !! j', l !! j with
      | Some x, Some y => if cmp x y <=? 0 then l else lsift j' (lswap j' l)
      | _, _ => l
      end
  end.

Lemma sift_elems b n : forall j m, (j < n)%nat ->
  elems (sift cmp size j m b) b n = lsift j (elems m b n)
  /\ forall x, ~ b <= x < b + Z.of_nat n * size -> ld (sift cmp size j m b) x = ld m x.
Proof.
  induction j as [|j IH]; intros m Hj; cbn [sift lsift]; [done|].
  rewrite !elems_lookup by lia. destruct (_ <=? 0); [done|].
  destruct (swap_elems m b n j Hj) as [E F]. destruct (IH (swap_loop (Z.to_nat size) m (b + Z.of_nat j * size)
    (b + Z.of_nat (S j) * size)) ltac:(lia)) as [E' F'].
  rewrite E', E. split; [done|]. intros x Hx. by rewrite F', F.
Qed.

(** Letting [x] sink into the elements before it is inserting it. *)
Lemma lsift_insr x : forall rp post, lsift (length rp) (reverse rp ++ x :: post) = reverse (insr cmp x rp) ++ post.
Proof.
  induction rp as [|y rp IH]; intros post; cbn [length lsift insr]; [done|].
  rewrite reverse_cons, <- app_assoc. cbn [app].
  assert (E1 : (reverse rp ++ y :: x :: post) !! length rp = Some y)
    by (rewrite <- (length_reverse rp); apply list_lookup_middle; done).
  assert (E2 : (reverse rp ++ y :: x :: post) !! S (length rp) = Some x).
  { rewrite lookup_app_r by (rewrite length_reverse; lia). rewrite length_reverse.
    replace (S (length rp) - length rp)%nat with 1%nat by lia. done. }
  rewrite E1, E2. destruct (cmp y x <=? 0).
  - by rewrite !reverse_cons, <- !app_assoc.
  - unfold lswap. rewrite E1, E2. rewrite reverse_cons, <- app_assoc. cbn [app]. rewrite <- IH. f_equal.
    rewrite insert_app_r_alt by (rewrite length_reverse; lia). rewrite length_reverse.
    replace (S (length rp) - length rp)%nat with 1%nat by lia.
    rewrite insert_app_r_alt by (rewrite length_reverse; lia). by rewrite length_reverse, Nat.sub_diag.
Qed.

Lemma qsort_loop_elems b n : forall k m acc rest, elems m b n = reverse acc ++ rest -> length rest = k ->
  elems (qsort_loop cmp size k (length acc) m b) b n = reverse (fold_left (fun acc x => insr cmp x acc) rest acc)
  /\ forall x, ~ b <= x < b + Z.of_nat n * size -> ld (qsort_loop cmp size k (length acc) m b) x = ld m x.
Proof.
  induction k as [|k IH]; intros m acc rest E Hk; cbn [qsort_loop].
  - destruct rest; [|done]. rewrite app_nil_r in E. done.
  - destruct rest as [|x rest]; [done|]. cbn [fold_left]. injection Hk as Hk.
    assert (Hn : (length acc < n)%nat).
    { rewrite <- (elems_length m b n), E, length_app, length_reverse. cbn. lia. }
    destruct (sift_elems b n (length acc) m Hn) as [E1 F1]. rewrite E, lsift_insr in E1.
    destruct (IH (sift cmp size (length acc) m b) (insr cmp x acc) rest E1 Hk) as [E2 F2].
    assert (El : length (insr cmp x acc) = S (length acc)).
    { clear. induction acc as [|y acc IH]; cbn; [done|]. destruct (_ <=? _); cbn; lia. }
    rewrite El in E2, F2. split; [done|]. intros y Hy. by rewrite F2, F1.
Qed.

(** The array becomes what insertion sort makes of it; the rest of memory stays. *)
Lemma qsort_isort m base nmemb : 0 <= nmemb ->
  elems (qsort cmp size m base nmemb) base (Z.to_nat nmemb) = isort cmp (elems m base (Z.to_nat nmemb))
  /\ forall x, ~ base <= x < base + nmemb * size -> ld (qsort cmp size m base nmemb) x = ld m x.
Proof.
  intros Hn. unfold qsort. set (n := Z.to_nat nmemb). replace nmemb with (Z.of_nat n) by lia.
  destruct (elems m base n) as [|e l] eqn:El; pose proof (elems_length m base n) as Hlen; rewrite El in Hlen; cbn in Hlen.
  - rewrite <- Hlen in *. cbn. done.
  - destruct (qsort_loop_elems base n (n - 1) m [e] l El ltac:(lia)) as [E F]. cbn [length] in E, F. split; [|done].
    rewrite E. done.
Qed.

(** While [bsearch] runs, elements below [lo] are smaller than the key and elements
    from [hi] on are greater. *)
Lemma bsearch_loop_spec `{!Comparison cmp} m key b n : StronglySorted (le cmp) (elems m b n) ->
  forall f lo hi, (Z.to_nat (hi - lo) < f)%nat -> 0 <= lo -> hi <= Z.of_nat n ->
  (forall i e, elems m b n !! i = Some e -> Z.of_nat i < lo -> 0 < cmp key e) ->
  (forall i e, elems m b n !! i = Some e -> hi <= Z.of_nat i -> cmp key e < 0) ->
  let r := bsearch_loop cmp size f m key b lo hi in
  (exists i e, elems m b n !! i = Some e /\ r = b + Z.of_nat i * size /\ cmp key e = 0)
  \/ (r = 0 /\ forall e, e ∈ elems m b n -> cmp key e <> 0).
Proof.
  intros Hs. induction f as [|f IH]; intros lo hi Hf Hlo Hhi Hl Hh; [lia|]. cbn [bsearch_loop].
  destruct (Z.ltb_spec lo hi) as [Hlt|Hge]; cbn [negb].
  - set (mid := lo + (hi - lo) / 2).
    assert (Hm : lo <= mid < hi) by (unfold mid; Z.to_euclidean_division_equations; lia).
    pose proof (elems_lookup m b n (Z.to_nat mid) ltac:(lia)) as He. rewrite Z2Nat.id in He by lia.
    set (e := read m (b + mid * size) size) in *.
    assert (Hord : forall i j x y, elems m b n !! i = Some x -> elems m b n !! j = Some y -> (i < j)%nat -> le cmp x y).
    { intros i j x y Hi Hj Hij. rewrite <- (take_drop j (elems m b n)) in Hs. apply StronglySorted_app in Hs as (Hs & _ & _).
      apply Hs; [apply list_elem_of_lookup; exists i; by rewrite lookup_take_lt|].
      apply list_elem_of_lookup. exists 0%nat. by rewrite lookup_drop, Nat.add_0_r. }
    destruct (Z.eqb_spec (cmp key e) 0) as [E|E]; [left; exists (Z.to_nat mid), e; split; [done|]; split; [by rewrite Z2Nat.id by lia|done]|].
    destruct (Z.ltb_spec (cmp key e) 0) as [E'|E'].
    + apply IH; [lia|lia|lia|done|]. intros i y Hi Hge. destruct (Z.eq_dec (Z.of_nat i) mid) as [Ei|].
      { rewrite <- Ei, Nat2Z.id in He. rewrite Hi in He. injection He as ->. done. }
      pose proof (Hord _ _ _ _ He Hi ltac:(lia)) as Hle. pose proof (cmp_flip cmp key y). pose proof (cmp_flip cmp e key).
      destruct (Z.lt_ge_cases (cmp key y) 0) as [|Hge']; [done|exfalso].
      assert (Hyk : le cmp y key) by (unfold le; pose proof (cmp_flip cmp y key); lia).
      pose proof (cmp_trans cmp _ _ _ Hle Hyk) as Hek. unfold le in Hek. lia.
    + apply IH; [lia|lia|lia| |done]. intros i y Hi Hlt'. destruct (Z.eq_dec (Z.of_nat i) mid) as [Ei|].
      { rewrite <- Ei, Nat2Z.id in He. rewrite Hi in He. injection He as ->. lia. }
      pose proof (Hord _ _ _ _ Hi He ltac:(lia)) as Hle. destruct (Z.lt_ge_cases 0 (cmp key y)) as [|Hge']; [done|exfalso].
      assert (Hky : le cmp key y) by (unfold le; lia). pose proof (cmp_trans cmp _ _ _ Hky Hle) as Hke. unfold le in Hke. lia.
  - right. split; [done|]. intros e [i Hi]%list_elem_of_lookup. destruct (Z.lt_ge_cases (Z.of_nat i) lo) as [H|H].
    + specialize (Hl i e Hi H). lia.
    + specialize (Hh i e Hi ltac:(lia)). lia.
Qed.

End Arrays.

(** C32: [qsort] leaves a sorted permutation of the array in its place, in which elements
    that compare equal keep their order, and touches nothing else. *)
Theorem qsort_stable_sort cmp size m base nmemb `{!Comparison cmp} (Hsize : 0 < size) (Hn : 0 <= nmemb) :
  let l := elems size m base (Z.to_nat nmemb) in
  let m' := qsort cmp size m base nmemb in
  let l' := elems size m' base (Z.to_nat nmemb) in
  StronglySorted (le cmp) l' /\ l' ≡ₚ l /\ (forall z, same cmp z l' = same cmp z l)
  /\ forall x, ~ base <= x < base + nmemb * size -> ld m' x = ld m x.
Proof.
  destruct (qsort_isort cmp size Hsize m base nmemb Hn) as [E F]. cbn zeta. rewrite E.
  destruct (isort_spec cmp (elems size m base (Z.to_nat nmemb))) as (H1 & H2 & H3). done.
Qed.

(** Searched for in an array that [qsort] sorted, a key is found exactly if the array
    held an element equal to it, and what is found is such an element. *)
Theorem bsearch_after_qsort cmp size m base nmemb key `{!Comparison cmp} (Hsize : 0 < size) (Hn : 0 <= nmemb)
    (Hbase : 0 < base) :
  let m' := qsort cmp size m base nmemb in
  let p := bsearch cmp size m' key base nmemb in
  (p <> 0 <-> exists e, e ∈ elems size m base (Z.to_nat nmemb) /\ cmp key e = 0)
  /\ (p <> 0 -> cmp key (read m' p size) = 0).
Proof.
  destruct (qsort_isort cmp size Hsize m base nmemb Hn) as [E _]. cbn zeta. set (m' := qsort cmp size m base nmemb) in *.
  destruct (isort_spec cmp (elems size m base (Z.to_nat nmemb))) as (Hs & Hp & _). rewrite <- E in Hs, Hp.
  destruct (bsearch_loop_spec cmp size m' key base _ Hs (S (Z.to_nat nmemb)) 0 nmemb)
    as [(i & e & He & Hr & Hz)|[Hr Hno]]; [lia|lia|lia|lia| | |].
  - intros i e Hi Hge. apply lookup_lt_Some in Hi. rewrite elems_length in Hi. lia.
  - unfold bsearch. rewrite Hr. split; [split; [intros _|nia]|intros _].
    + exists e. split; [|done]. rewrite <- Hp. by eapply list_elem_of_lookup_2.
    + apply lookup_lt_Some in He as Hi. rewrite elems_length in Hi. rewrite elems_lookup in He by done.
      injection He as <-. done.
  - unfold bsearch. rewrite Hr. split; [|done]. split; [done|]. intros (e & He & Hz). rewrite <- Hp in He.
    by destruct (Hno e He).
Qed.

(** Arrays of bytes, compared as numbers. *)
Definition byte_cmp (x y : bytes) : Z := hd 0 x - hd 0 y.
#[export] Instance byte_comparison : Comparison byte_cmp.
Proof. split; unfold le, byte_cmp; intros; lia. Qed.

Definition arr : mem := write_bytes empty 100 [7; 3; 9; 3; 1].

Lemma qsort_stable_sort_witness : elems 1 (qsort byte_cmp 1 arr 100 5) 100 5 ≡ₚ elems 1 arr 100 5.
Proof. exact (proj1 (proj2 (qsort_stable_sort byte_cmp 1 arr 100 5 ltac:(lia) ltac:(lia)))). Defined.

Lemma bsearch_after_qsort_witness : bsearch byte_cmp 1 (qsort byte_cmp 1 arr 100 5) [9] 100 5 <> 0.
Proof.
  apply (bsearch_after_qsort byte_cmp 1 arr 100 5 [9] ltac:(lia) ltac:(lia) ltac:(lia)).
  exists [9]. split; [right; right; left|reflexivity].
Defined.

End Csort.
