(* ===== verification/Cfmt.v ===== *)
(** * Numbers and formatted output

    [strtol] of [lib/libc/src/stdlib.c], the formatter of [lib/libc/src/printf.c] and
    the kernel's own of [uts/os/core/printk.c].  A variable argument list is the list
    of the 64-bit words passed; [va_arg] narrows a word to the type it is asked for. *)

From stdpp Require Import base numbers list gmap.
From Stdlib Require Import ZArith Lia Bool.
From S2P Require Import Prelude Cstr.

Module Cfmt.
Import Cstr.

(** Characters. *)
Definition ch_nl : Z := 10.
Definition ch_cr : Z := 13.
Definition ch_sp : Z := 32.
Definition ch_pct : Z := 37.
Definition ch_plus : Z := 43.
Definition ch_minus : Z := 45.
Definition ch_0 : Z := 48.
Definition ch_9 : Z := 57.
Definition ch_X : Z := 88.
Definition ch_c : Z := 99.
Definition ch_d : Z := 100.
Definition ch_i : Z := 105.
Definition ch_l : Z := 108.
Definition ch_p : Z := 112.
Definition ch_s : Z := 115.
Definition ch_u : Z := 117.
Definition ch_x : Z := 120.

(** ** [strtol] *)

Definition isspace (c : Z) : bool :=
  (c =? 32) || (c =? 9) || (c =? 10) || (c =? 13) || (c =? 12) || (c =? 11).

Fixpoint skip_space (f : nat) (m : mem) (s : Z) : Z :=
  match f with
  | O => s
  | S f => if isspace (ld m s) then skip_space f m (s + 1) else s
  end.

Definition digit (c : Z) : option Z :=
  if (ch_0 <=? c) && (c <=? ch_9) then Some (c - ch_0)
  else if (97 <=? c) && (c <=? 122) then Some (c - 97 + 10)
  else if (65 <=? c) && (c <=? 90) then Some (c - 65 + 10)
  else None.

(** The loop over the digits gives the value and the place where it stopped. *)
Fixpoint digits_loop (f : nat) (m : mem) (s base val : Z) : Z * Z :=
  match f with
  | O => (val, s)
  | S f =>
      if ld m s =? 0 then (val, s)
      else
        match digit (ld m s) with
        | None => (val, s)
        | Some d => if d >=? base then (val, s) else digits_loop f m (s + 1) base (s64 (val * base + d))
        end
  end.

Definition hex_prefix (m : mem) (s : Z) : bool :=
  (ld m s =? ch_0) && ((ld m (s + 1) =? ch_x) || (ld m (s + 1) =? ch_X)).

(** The value and [*endp]. *)
Definition strtol (m : mem) (s base : Z) : Z * Z :=
  let s := skip_space (fuel m) m s in
  let '(neg, s) := if ld m s =? ch_minus then (true, s + 1)
                   else if ld m s =? ch_plus then (false, s + 1) else (false, s) in
  let '(base, s) :=
    if base =? 0 then
      if hex_prefix m s then (16, s + 2) else if ld m s =? ch_0 then (8, s + 1) else (10, s)
    else if (base =? 16) && hex_prefix m s then (base, s + 2) else (base, s) in
  let '(val, s) := digits_loop (fuel m) m s base 0 in
  (if neg : bool then s64 (- val) else val, s).

Definition atol (m : mem) (s : Z) : Z := (strtol m s 10).1.
Definition atoi (m : mem) (s : Z) : Z := s32 (strtol m s 10).1.

(** ** Digits *)

Definition hexdig (upper : bool) (d : Z) : Z := if d <? 10 then ch_0 + d else (if upper then 65 else 97) + (d - 10).

(** The digits of [v], lowest first; twenty are enough for 64 bits in base 10. *)
Fixpoint num_loop (f : nat) (base : Z) (upper : bool) (v : Z) : bytes :=
  match f with
  | O => []
  | S f => if v =? 0 then [] else hexdig upper (v mod base) :: num_loop f base upper (v / base)
  end.
Definition num (base : Z) (upper : bool) (v : Z) : bytes :=
  if v =? 0 then [ch_0] else num_loop 64 base upper v.

(** The conversions of [vsnprintf] build the digits in [tmp] and reverse it. *)
Definition tmp_dec (neg : bool) (uval : Z) : bytes :=
  let tmp := num 10 false uval in
  let tmp := if neg then tmp ++ [ch_minus] else tmp in
  reverse tmp.
Definition tmp_hex (upper : bool) (val : Z) : bytes := reverse (num 16 upper val).

(** Sixteen hex digits, highest first. *)
Definition tmp_ptr (val : Z) : bytes :=
  ch_0 :: ch_x :: ((fun i => hexdig false (Z.land (Z.shiftr val (60 - i * 4)) 15)) <$> seqZ 0 16).

(** ** [vsnprintf] *)

Record out := mk_out { o_mem : mem; o_pos : Z; o_total : Z }.

(** [EMIT] into [buf], which holds [n] bytes. *)
Definition emit (buf n : Z) (o : out) (c : Z) : out :=
  if o_pos o + 1 <? n then mk_out (st (o_mem o) (buf + o_pos o) (u8 c)) (o_pos o + 1) (o_total o + 1)
  else mk_out (o_mem o) (o_pos o) (o_total o + 1).

Definition emits (buf n : Z) (o : out) (l : bytes) : out := fold_left (emit buf n) l o.

(** [for (i = 0; i < slen; i++) EMIT(str[i])] of a string in memory. *)
Fixpoint emit_mem (k : nat) (buf n : Z) (o : out) (p : Z) : out :=
  match k with
  | O => o
  | S k => emit_mem k buf n (emit buf n o (ld (o_mem o) p)) (p + 1)
  end.

Record dir := mk_dir {
  d_left : bool; d_zero : bool; d_width : Z; d_long : bool; d_conv : Z; d_next : Z }.

Fixpoint flags_loop (f : nat) (m : mem) (fmt : Z) (lalign zero : bool) : bool * bool * Z :=
  match f with
  | O => (lalign, zero, fmt)
  | S f =>
      let c := ld m fmt in
      if (c =? ch_minus) || (c =? ch_0)
      then flags_loop f m (fmt + 1) (lalign || (c =? ch_minus)) (zero || (c =? ch_0))
      else (lalign, zero, fmt)
  end.

Fixpoint width_loop (f : nat) (m : mem) (fmt width : Z) : Z * Z :=
  match f with
  | O => (width, fmt)
  | S f =>
      let c := ld m fmt in
      if (ch_0 <=? c) && (c <=? ch_9) then width_loop f m (fmt + 1) (s32 (width * 10 + (c - ch_0)))
      else (width, fmt)
  end.

Definition parse (m : mem) (fmt : Z) : dir :=
  let '(lalign, zero, fmt) := flags_loop (fuel m) m fmt false false in
  let zero := if lalign then false else zero in
  let '(width, fmt) := width_loop (fuel m) m fmt 0 in
  let '(is_long, fmt) := if ld m fmt =? ch_l then (true, fmt + 1) else (false, fmt) in
  mk_dir lalign zero width is_long (ld m fmt) (fmt + 1).

(** What a directive prints: a string in memory, the text in [tmp], or characters
    that are not padded. *)
Inductive text :=
| InMem (p : Z)
| Tmp (l : bytes) (padc width : Z)
| Raw (l : bytes).

Definition va_int (ap : list Z) : Z := s32 (hd 0 ap).
Definition va_uint (ap : list Z) : Z := u32 (hd 0 ap).
Definition va_long (ap : list Z) : Z := s64 (hd 0 ap).
Definition va_ulong (ap : list Z) : Z := u64 (hd 0 ap).

Definition convert (d : dir) (ap : list Z) : text * list Z :=
  let padc := if d_zero d then ch_0 else ch_sp in
  let uval := if d_long d then va_ulong ap else va_uint ap in
  let c := d_conv d in
  if c =? ch_s then (InMem (va_ulong ap), tl ap)
  else if (c =? ch_d) || (c =? ch_i) then
    let val := if d_long d then va_long ap else va_int ap in
    (Tmp (tmp_dec (val <? 0) (u64 (if val <? 0 then - val else val))) padc (d_width d), tl ap)
  else if c =? ch_u then (Tmp (tmp_dec false uval) padc (d_width d), tl ap)
  else if (c =? ch_x) || (c =? ch_X) then (Tmp (tmp_hex (c =? ch_X) uval) padc (d_width d), tl ap)
  else if c =? ch_c then (Tmp [u8 (va_int ap)] padc (d_width d), tl ap)
  else if c =? ch_p then (Tmp (tmp_ptr (va_ulong ap)) padc 0, tl ap)
  else if c =? ch_pct then (Raw [ch_pct], ap)
  else (Raw [ch_pct; c], ap).

Definition padding (width slen : Z) : nat :=
  if (0 <? width) && (slen <? width) then Z.to_nat (width - slen) else 0%nat.

(** The string [(null)], which the code has as a constant. *)
Definition null_text : bytes := [40; 110; 117; 108; 108; 41].

Definition put_text (buf n : Z) (d : dir) (t : text) (o : out) : out :=
  match t with
  | Raw l => emits buf n o l
  | Tmp l padc width =>
      let pad := padding width (zlen l) in
      let o := if d_left d then o else emits buf n o (replicate pad padc) in
      let o := emits buf n o l in
      if d_left d then emits buf n o (replicate pad ch_sp) else o
  | InMem p =>
      let slen := if p =? 0 then zlen null_text else strlen (o_mem o) p in
      let pad := padding (d_width d) slen in
      let o := if d_left d then o else emits buf n o (replicate pad ch_sp) in
      let o := if p =? 0 then emits buf n o null_text else emit_mem (Z.to_nat slen) buf n o p in
      if d_left d then emits buf n o (replicate pad ch_sp) else o
  end.

Fixpoint vs_loop (f : nat) (buf n : Z) (o : out) (fmt : Z) (ap : list Z) : out :=
  match f with
  | O => o
  | S f =>
      let c := ld (o_mem o) fmt in
      if c =? 0 then o
      else if negb (c =? ch_pct) then vs_loop f buf n (emit buf n o c) (fmt + 1) ap
      else
        let d := parse (o_mem o) (fmt + 1) in
        let '(t, ap) := convert d ap in
        vs_loop f buf n (put_text buf n d t o) (d_next d) ap
  end.

(** The memory and the number of characters. *)
Definition vsnprintf (m : mem) (buf n fmt : Z) (ap : list Z) : mem * Z :=
  let o := vs_loop (fuel m) buf n (mk_out m 0 0) fmt ap in
  (if 0 <? n then st (o_mem o) (buf + o_pos o) 0 else o_mem o, s32 (o_total o)).

(** ** [vkprintf]

    The output is the list of characters given to [kputc].  [None] is a write behind
    the end of the buffer on the stack. *)

Fixpoint emit_str (l : bytes) : bytes :=
  match l with
  | [] => []
  | c :: l => (if c =? ch_nl then [ch_cr; c] else [c]) ++ emit_str l
  end.

(** The bytes of the string at [s]. *)
Fixpoint str_at (f : nat) (m : mem) (s : Z) : bytes :=
  match f with
  | O => []
  | S f => if ld m s =? 0 then [] else ld m s :: str_at f m (s + 1)
  end.
Definition emit_strp (m : mem) (s : Z) : bytes := emit_str (if s =? 0 then null_text else str_at (fuel m) m s).

Definition emit_uint (v base width pad : Z) (upper left : bool) : option bytes :=
  let buf := num base upper v in
  if negb left then
    if (65 <? width) && (zlen buf <? width) then None
    else Some (reverse (buf ++ replicate (Z.to_nat (width - zlen buf)) pad))
  else Some (reverse buf ++ replicate (Z.to_nat (width - zlen buf)) ch_sp).

Definition emit_int (v width pad : Z) (left : bool) : option bytes :=
  if v <? 0 then
    let width := if width >? 0 then width - 1 else width in
    (fun l => ch_minus :: l) <$> emit_uint (u64 (s64 (- v))) 10 width pad false left
  else emit_uint (u64 v) 10 width pad false left.

Definition kparse (m : mem) (fmt : Z) : dir :=
  let '(lalign, fmt) := if ld m fmt =? ch_minus then (true, fmt + 1) else (false, fmt) in
  let '(zero, fmt) := if ld m fmt =? ch_0 then (true, fmt + 1) else (false, fmt) in
  let '(width, fmt) := width_loop (fuel m) m fmt 0 in
  let '(longflag, fmt) := if ld m fmt =? ch_l then (true, fmt + 1) else (false, fmt) in
  let fmt := if ld m fmt =? ch_l then fmt + 1 else fmt in
  mk_dir lalign zero width longflag (ld m fmt) (fmt + 1).

Definition kconvert (m : mem) (d : dir) (ap : list Z) : option bytes * list Z :=
  let pad := if d_zero d then ch_0 else ch_sp in
  let uval := if d_long d then va_ulong ap else va_uint ap in
  let c := d_conv d in
  if c =? ch_s then (Some (emit_strp m (va_ulong ap)), tl ap)
  else if c =? ch_c then (Some [u8 (va_int ap)], tl ap)
  else if (c =? ch_d) || (c =? ch_i) then
    (emit_int (if d_long d then va_long ap else va_int ap) (d_width d) pad (d_left d), tl ap)
  else if c =? ch_u then (emit_uint uval 10 (d_width d) pad false (d_left d), tl ap)
  else if c =? ch_x then (emit_uint uval 16 (d_width d) pad false (d_left d), tl ap)
  else if c =? ch_X then (emit_uint uval 16 (d_width d) pad true (d_left d), tl ap)
  else if c =? ch_p then
    ((fun l => [ch_0; ch_x] ++ l) <$> emit_uint (va_ulong ap) 16 16 ch_0 false false, tl ap)
  else if c =? ch_pct then (Some [ch_pct], ap)
  else (Some [ch_pct; c], ap).

Fixpoint vk_loop (f : nat) (m : mem) (fmt : Z) (ap : list Z) : option bytes :=
  match f with
  | O => Some []
  | S f =>
      let c := ld m fmt in
      if c =? 0 then Some []
      else if negb (c =? ch_pct) then
        (fun l => (if c =? ch_nl then [ch_cr; c] else [c]) ++ l) <$> vk_loop f m (fmt + 1) ap
      else
        let d := kparse m (fmt + 1) in
        if d_conv d =? 0 then Some []
        else
          let '(t, ap) := kconvert m d ap in
          match t, vk_loop f m (d_next d) ap with
          | Some t, Some l => Some (t ++ l)
          | _, _ => None
          end
  end.
Definition vkprintf (m : mem) (fmt : Z) (ap : list Z) : option bytes := vk_loop (fuel m) m fmt ap.

End Cfmt.
