(* ===== verification/CfmtThm.v ===== *)
(** * What the formatters print

    Both formatters are compared with a reference: a format is a list of pieces, each
    of which prints a text.  On the formats that both support they print the same, and
    what [%ld] prints [strtol] reads back. *)

From stdpp Require Import base numbers list gmap.
From Stdlib Require Import ZArith Lia Bool.
From S2P Require Import Prelude Cstr Cfmt.

Module CfmtThm.
Import Cstr Cfmt.

(** ** Digits *)

Lemma hexdig_digit up d : 0 <= d < 16 -> digit (hexdig up d) = Some d.
Proof.
  intros Hd. unfold hexdig, digit. destruct (Z.ltb_spec d 10).
  - rewrite (proj2 (Z.leb_le ch_0 _)), (proj2 (Z.leb_le _ ch_9)) by (unfold ch_0, ch_9; lia). cbn. f_equal. lia.
  - assert (E : forall a b, b < a -> (a <=? b) = false) by (intros; by apply Z.leb_gt).
    assert (E' : forall a b, a <= b -> (a <=? b) = true) by (intros; by apply Z.leb_le).
    destruct up; unfold ch_0, ch_9; rewrite (E' 48), (E _ 57) by lia; cbn [andb].
    + rewrite (E 97) by lia. cbn [andb]. rewrite (E' 65), (E' _ 90) by lia. cbn. f_equal. lia.
    + rewrite (E' 97), (E' _ 122) by lia. cbn. f_equal. lia.
Qed.

Lemma hexdig_range up d : 0 <= d < 16 -> ch_0 <= hexdig up d <= 122.
Proof. intros. unfold hexdig, ch_0. destruct (d <? 10) eqn:E, up; bool_prop; lia. Qed.

(** The value of a run of digits, highest first. *)
Definition value (base : Z) (l : bytes) (v : Z) : Z :=
  fold_left (fun v c => s64 (v * base + default 0 (digit c))) l v.

Lemma num_loop_chars base up : 2 <= base <= 16 -> forall f v, 0 <= v ->
  Forall (fun c => exists d, digit c = Some d /\ 0 <= d < base /\ ch_0 <= c <= 122) (num_loop f base up v).
Proof.
  intros Hb. induction f as [|f IH]; intros v Hv; cbn [num_loop]; [constructor|]. case_if; [constructor|].
  assert (Hm : 0 <= v mod base < base) by (apply Z.mod_pos_bound; lia).
  constructor; [|apply IH; apply Z.div_pos; lia]. exists (v mod base).
  split; [apply hexdig_digit; lia|]. split; [done|]. apply hexdig_range. lia.
Qed.

Lemma num_loop_value base up : 2 <= base <= 16 -> forall f v, 0 <= v < 9223372036854775808 -> v < base ^ Z.of_nat f ->
  value base (reverse (num_loop f base up v)) 0 = v.
Proof.
  intros Hb. induction f as [|f IH]; intros v Hv Hf; cbn [num_loop]; [change (base ^ Z.of_nat 0) with 1 in Hf; cbn; lia|].
  destruct (Z.eqb_spec v 0) as [->|Hz]; [done|].
  assert (Hm : 0 <= v mod base < base) by (apply Z.mod_pos_bound; lia).
  rewrite reverse_cons. unfold value. rewrite fold_left_app. cbn [fold_left]. fold (value base (reverse (num_loop f base up (v / base))) 0).
  rewrite hexdig_digit by lia. cbn [default]. rewrite IH.
  - rewrite s64_small; rewrite Z.mul_comm, <- Z.div_mod by lia; lia.
  - split; [apply Z.div_pos; lia|]. apply Z.div_lt_upper_bound; nia.
  - rewrite Nat2Z.inj_succ, Z.pow_succ_r in Hf by lia. apply Z.div_lt_upper_bound; lia.
Qed.

Lemma num_chars base up v : 2 <= base <= 16 -> 0 <= v ->
  Forall (fun c => exists d, digit c = Some d /\ 0 <= d < base /\ ch_0 <= c <= 122) (num base up v).
Proof.
  intros Hb Hv. unfold num. case_if; [|by apply num_loop_chars].
  repeat constructor. exists 0. unfold ch_0. split; [done|]. lia.
Qed.

Lemma num_value base up v : 2 <= base <= 16 -> 0 <= v < 9223372036854775808 -> value base (reverse (num base up v)) 0 = v.
Proof.
  intros Hb Hv. unfold num. destruct (Z.eqb_spec v 0) as [->|]; [done|]. apply num_loop_value; [done|done|].
  change (Z.of_nat 64) with 64. pose proof (Z.pow_le_mono_l 2 base 64). lia.
Qed.

Lemma num_length base up v : num base up v <> [].
Proof. unfold num. destruct (Z.eqb_spec v 0); [done|]. cbn [num_loop]. by rewrite (proj2 (Z.eqb_neq _ _) n). Qed.

(** [strtol] takes digits until a character that is none. *)
Lemma digits_loop_run m base r : 2 <= base <= 16 -> forall l f s v, cstr m s (l ++ r) -> (length l < f)%nat ->
  Forall (fun c => exists d, digit c = Some d /\ 0 <= d < base /\ ch_0 <= c <= 122) l ->
  (forall c r', r = c :: r' -> forall d, digit c = Some d -> base <= d) ->
  digits_loop f m s base v = (value base l v, s + zlen l).
Proof.
  intros Hb. induction l as [|c l IH]; intros [|f] s v Hs Hf Hl Hr; cbn [length] in Hf; try lia; cbn [digits_loop app] in *.
  - lens. destruct r as [|c r]; cbn [cstr] in Hs; [rewrite Hs; cbn; f_equal; lia|]. destruct Hs as (Hc & -> & _).
    rewrite (proj2 (Z.eqb_neq _ _) Hc). destruct (digit c) as [d|] eqn:Ed; [|f_equal; lia].
    specialize (Hr c r eq_refl d Ed). rewrite (proj2 (Z.geb_le d base)) by lia. f_equal. lia.
  - destruct Hs as (Hc & -> & Hs). apply Forall_cons in Hl as [(d & Ed & Hd & _) Hl].
    rewrite (proj2 (Z.eqb_neq _ _) Hc), Ed. destruct (Z.geb_spec d base); [lia|].
    rewrite (IH f (s + 1) _ Hs ltac:(lia) Hl Hr). cbn [value fold_left]. rewrite Ed. lens. f_equal. lia.
Qed.

(** ** Formats *)

Inductive piece :=
| PLit (c : Z)
| PPct
| PNum (lalign zero : bool) (width : Z) (long : bool) (conv : Z)
| PChr
| PStr
| PPtr.

(** How a piece is written in a format. *)
Definition spell (p : piece) : bytes :=
  match p with
  | PLit c => [c]
  | PPct => [ch_pct; ch_pct]
  | PNum la z w long conv =>
      ch_pct :: (if la then [ch_minus] else []) ++ (if z then [ch_0] else [])
      ++ (if w =? 0 then [] else reverse (num 10 false w)) ++ (if long then [ch_l] else []) ++ [conv]
  | PChr => [ch_pct; ch_c]
  | PStr => [ch_pct; ch_s]
  | PPtr => [ch_pct; ch_p]
  end.

Definition takes_arg (p : piece) : bool := match p with PLit _ | PPct => false | _ => true end.

(** The number a conversion prints: its sign and magnitude. *)
Definition number (long : bool) (conv w : Z) : bool * Z :=
  if (conv =? ch_d) || (conv =? ch_i) then
    let v := if long then s64 w else s32 w in (v <? 0, Z.abs v)
  else (false, if long then u64 w else u32 w).
Definition digits (conv : Z) (neg : bool) (v : Z) : bytes :=
  (if neg then [ch_minus] else [])
  ++ reverse (num (if (conv =? ch_x) || (conv =? ch_X) then 16 else 10) (conv =? ch_X) v).
Definition padded (la z : bool) (w : Z) (t : bytes) : bytes :=
  let pad := padding w (zlen t) in
  if la then t ++ replicate pad ch_sp else replicate pad (if z then ch_0 else ch_sp) ++ t.

(** What a piece prints, [w] being its argument. *)
Definition render (m : mem) (p : piece) (w : Z) : bytes :=
  match p with
  | PLit c => [c]
  | PPct => [ch_pct]
  | PNum la z wd long conv => let '(neg, v) := number long conv w in padded la z wd (digits conv neg v)
  | PChr => [u8 w]
  | PStr => if u64 w =? 0 then null_text else str_at (fuel m) m (u64 w)
  | PPtr => tmp_ptr (u64 w)
  end.

Fixpoint render_all (m : mem) (ps : list piece) (ap : list Z) : bytes :=
  match ps with
  | [] => []
  | p :: ps => render m p (hd 0 ap) ++ render_all m ps (if takes_arg p then tl ap else ap)
  end.

Definition is_num (conv : Z) : Prop := conv ∈ [ch_d; ch_i; ch_u; ch_x; ch_X].

(** Pieces that both formatters print alike: no newline, and a minus sign only
    without padding.  Strings are not padded by the kernel, so there is no width. *)
Definition ok_piece (m : mem) (p : piece) (w : Z) : Prop :=
  match p with
  | PLit c => is_u8 c /\ c <> 0 /\ c <> ch_pct /\ c <> ch_nl
  | PNum _ _ wd long conv => 0 <= wd <= 65 /\ is_num conv /\ ((number long conv w).1 = false \/ wd = 0)
  | PStr => u64 w = 0 \/ exists l, cstr m (u64 w) l /\ is_bytes l /\ ch_nl ∉ l
  | _ => True
  end.

Fixpoint ok_all (m : mem) (ps : list piece) (ap : list Z) : Prop :=
  match ps with
  | [] => True
  | p :: ps => ok_piece m p (hd 0 ap) /\ ok_all m ps (if takes_arg p then tl ap else ap)
  end.

Definition spell_all (ps : list piece) : bytes := concat (spell <$> ps).

(** *** Parsing a directive *)

Lemma flags_run m r : forall l f p la z, cstr m p (l ++ r) -> (length l < f)%nat ->
  Forall (fun c => c = ch_minus \/ c = ch_0) l -> (forall c r', r = c :: r' -> c <> ch_minus /\ c <> ch_0) ->
  flags_loop f m p la z
  = (la || existsb (fun c => c =? ch_minus) l, z || existsb (fun c => c =? ch_0) l, p + zlen l).
Proof.
  induction l as [|c l IH]; intros [|f] p la z Hs Hf Hl Hr; cbn [length] in Hf; try lia; cbn [flags_loop app existsb] in *; lens.
  - rewrite !orb_false_r. destruct r as [|c r]; cbn [cstr] in Hs; [rewrite Hs; cbn; f_equal; lia|].
    destruct Hs as (_ & -> & _). destruct (Hr c r eq_refl) as [H1 H2].
    rewrite (proj2 (Z.eqb_neq _ _) H1), (proj2 (Z.eqb_neq _ _) H2). cbn. f_equal. lia.
  - destruct Hs as (_ & -> & Hs). apply Forall_cons in Hl as [Hc Hl].
    assert (E : (c =? ch_minus) || (c =? ch_0) = true) by (destruct Hc as [-> | ->]; done). rewrite E.
    rewrite (IH f (p + 1) _ _ Hs ltac:(lia) Hl Hr), !orb_assoc. f_equal. lia.
Qed.

Definition dec_value (l : bytes) (w : Z) : Z := fold_left (fun w c => s32 (w * 10 + (c - ch_0))) l w.

Lemma width_run m r : forall l f p w, cstr m p (l ++ r) -> (length l < f)%nat ->
  Forall (fun c => ch_0 <= c <= ch_9) l -> (forall c r', r = c :: r' -> ~ ch_0 <= c <= ch_9) ->
  width_loop f m p w = (dec_value l w, p + zlen l).
Proof.
  induction l as [|c l IH]; intros [|f] p w Hs Hf Hl Hr; cbn [length] in Hf; try lia; cbn [width_loop app] in *; lens.
  - destruct r as [|c r]; cbn [cstr] in Hs; [rewrite Hs; cbn; f_equal; lia|].
    destruct Hs as (_ & -> & _). specialize (Hr c r eq_refl).
    destruct (Z.leb_spec ch_0 c), (Z.leb_spec c ch_9); cbn; (lia || f_equal; lia).
  - destruct Hs as (_ & -> & Hs). apply Forall_cons in Hl as [Hc Hl].
    rewrite (proj2 (Z.leb_le ch_0 c)), (proj2 (Z.leb_le c ch_9)) by lia. cbn [andb].
    rewrite (IH f (p + 1) _ Hs ltac:(lia) Hl Hr). cbn [dec_value fold_left]. f_equal. lia.
Qed.

(** The digits of a width. *)
Definition width_text (w : Z) : bytes := if w =? 0 then [] else reverse (num 10 false w).

Definition width_ok (w : Z) : bool :=
  (dec_value (width_text w) 0 =? w)
  && forallb (fun c => (ch_0 <=? c) && (c <=? ch_9)) (width_text w)
  && match width_text w with c :: _ => negb (c =? ch_0) | [] => true end.

Lemma width_all w : 0 <= w <= 65 -> dec_value (width_text w) 0 = w
  /\ Forall (fun c => ch_0 <= c <= ch_9) (width_text w)
  /\ forall c l, width_text w = c :: l -> c <> ch_0 /\ c <> ch_minus.
Proof.
  intros Hw. assert (H : width_ok w = true).
  { assert (Hall : forallb width_ok (seqZ 0 66) = true) by (vm_compute; reflexivity).
    rewrite forallb_forall in Hall. apply Hall, list_elem_of_In, elem_of_seqZ. lia. }
  unfold width_ok in H. bool_prop. rewrite forallb_forall in H1. split; [done|].
  assert (Hf : Forall (fun c => ch_0 <= c <= ch_9) (width_text w)).
  { apply Forall_forall. intros c Hc. apply list_elem_of_In, H1 in Hc. bool_prop. lia. }
  split; [done|]. intros c l E. rewrite E in H0, Hf. bool_prop. split; [done|].
  apply Forall_cons in Hf as [Hf _]. unfold ch_0, ch_minus in *. lia.
Qed.

Definition body (la z : bool) (w : Z) (long : bool) (conv : Z) : bytes :=
  ((if la then [ch_minus] else []) ++ (if z then [ch_0] else [])) ++ width_text w
  ++ (if long then [ch_l] else []) ++ [conv].

Lemma spell_num la z w long conv : spell (PNum la z w long conv) = ch_pct :: body la z w long conv.
Proof. unfold body. cbn. by rewrite <- app_assoc. Qed.

Definition conv_ok (conv : Z) : Prop := ~ ch_0 <= conv <= ch_9 /\ conv <> ch_minus /\ conv <> ch_l /\ conv <> 0.

Lemma num_conv conv : is_num conv -> conv_ok conv.
Proof.
  unfold is_num, conv_ok. rewrite !elem_of_cons, elem_of_nil. unfold ch_0, ch_9, ch_minus, ch_l, ch_d, ch_i, ch_u, ch_x, ch_X. lia.
Qed.

(** The optional [l] and the conversion. *)
Lemma long_run m p (long : bool) conv rest : cstr m p ((if long then [ch_l] else []) ++ conv :: rest) -> conv <> ch_l ->
  (if ld m p =? ch_l then (true, p + 1) else (false, p)) = (long, p + b2z long)
  /\ ld m (p + b2z long) = conv.
Proof.
  intros Hs Hc. destruct long; cbn [app cstr] in Hs; cbn [b2z].
  - destruct Hs as (_ & -> & _ & -> & _). done.
  - destruct Hs as (_ & E & _). rewrite Z.add_0_r, E, (proj2 (Z.eqb_neq _ _) Hc). done.
Qed.

Section Directive.
Context (m : mem) (p : Z) (la z : bool) (w : Z) (long : bool) (conv : Z) (rest : bytes).
Context (Hs : cstr m p (body la z w long conv ++ rest)) (Hw : 0 <= w <= 65) (Hc : conv_ok conv).

Notation flags := ((if la then [ch_minus] else []) ++ (if z then [ch_0] else [])).
Notation tail := ((if long then [ch_l] else []) ++ conv :: rest).

Lemma body_split : cstr m p (flags ++ width_text w ++ tail)
  /\ cstr m (p + zlen flags) (width_text w ++ tail) /\ cstr m (p + zlen flags + zlen (width_text w)) tail.
Proof.
  unfold body in Hs. rewrite <- !app_assoc in Hs. cbn [app] in Hs. rewrite app_assoc in Hs.
  split; [done|]. split; [by apply cstr_split|]. by apply cstr_split, cstr_split.
Qed.

Lemma tail_head c r : tail = c :: r -> ~ ch_0 <= c <= ch_9 /\ c <> ch_minus.
Proof.
  destruct Hc as (H1 & H2 & _). destruct long; cbn; intros [= <- _]; [|done].
  unfold ch_l, ch_0, ch_9, ch_minus. lia.
Qed.

Lemma directive_width : width_loop (fuel m) m (p + zlen flags) 0 = (w, p + zlen flags + zlen (width_text w)).
Proof.
  destruct body_split as (_ & H2 & _). destruct (width_all w Hw) as (E & Hd & _).
  rewrite (width_run m tail (width_text w)); [by rewrite E|done| |done|].
  - pose proof (cstr_fuel _ _ _ H2) as Hf. rewrite length_app in Hf. lia.
  - intros c r Ec. by apply tail_head in Ec as [? _].
Qed.

Lemma after_flags c r : width_text w ++ tail = c :: r -> c <> ch_minus /\ c <> ch_0.
Proof.
  destruct (width_all w Hw) as (_ & _ & Hh). destruct (width_text w) as [|c' l] eqn:Ew; cbn [app].
  - intros Ec. apply tail_head in Ec as [H1 H2]. split; [done|]. unfold ch_0, ch_9 in *. lia.
  - intros [= <- _]. destruct (Hh c' l eq_refl). done.
Qed.

Lemma body_next : p + zlen flags + zlen (width_text w) + b2z long + 1 = p + zlen (body la z w long conv).
Proof. unfold body. destruct long; lens; cbn [b2z]; lia. Qed.

Lemma parse_num : parse m p = mk_dir la (if la then false else z) w long conv (p + zlen (body la z w long conv)).
Proof.
  destruct body_split as (H1 & H2 & H3). destruct Hc as (_ & _ & Hl & _). unfold parse.
  rewrite (flags_run m _ flags (fuel m) p false false H1).
  - replace (existsb (fun c => c =? ch_minus) flags) with la by (by destruct la, z).
    replace (existsb (fun c => c =? ch_0) flags) with z by (by destruct la, z). cbn [orb].
    rewrite directive_width. destruct (long_run m _ long conv rest H3 Hl) as [-> ->].
    by rewrite body_next.
  - pose proof (cstr_fuel _ _ _ H1) as Hf. rewrite length_app in Hf. lia.
  - destruct la, z; cbn [app]; rewrite ?Forall_cons, ?Forall_nil; auto.
  - apply after_flags.
Qed.

Lemma kparse_num : kparse m p = mk_dir la z w long conv (p + zlen (body la z w long conv)).
Proof.
  destruct body_split as (H1 & H2 & H3). destruct Hc as (_ & _ & Hl & _). unfold kparse.
  pose proof after_flags as Haf.
  assert (E1 : (if ld m p =? ch_minus then (true, p + 1) else (false, p)) = (la, p + b2z la)).
  { destruct la; cbn [app cstr] in H1; [by destruct H1 as (_ & -> & _)|]. cbn. rewrite Z.add_0_r.
    destruct z; cbn [app cstr] in H1; [by destruct H1 as (_ & -> & _)|].
    destruct (width_text w ++ tail) as [|c r] eqn:E; cbn [cstr] in H1; [by rewrite H1|].
    destruct H1 as (_ & -> & _). destruct (Haf c r eq_refl) as [Hm _]. by rewrite (proj2 (Z.eqb_neq _ _) Hm). }
  assert (E2 : (if ld m (p + b2z la) =? ch_0 then (true, p + b2z la + 1) else (false, p + b2z la)) = (z, p + zlen flags)).
  { assert (H1' : cstr m (p + b2z la) ((if z then [ch_0] else []) ++ width_text w ++ tail)).
    { rewrite <- app_assoc in H1. apply cstr_split in H1. destruct la; cbn [b2z]; exact H1. }
    replace (p + zlen flags) with (p + b2z la + b2z z) by (destruct la, z; unfold zlen; cbn [length app b2z]; lia).
    destruct z; cbn [app cstr] in H1'; [by destruct H1' as (_ & -> & _)|]. cbn. rewrite Z.add_0_r.
    destruct (width_text w ++ tail) as [|c r] eqn:E; cbn [cstr] in H1'; [by rewrite H1'|].
    destruct H1' as (_ & -> & _). destruct (Haf c r eq_refl) as [_ Hm]. by rewrite (proj2 (Z.eqb_neq _ _) Hm). }
  rewrite E1, E2, directive_width. destruct (long_run m _ long conv rest H3 Hl) as [-> ->].
  rewrite (proj2 (Z.eqb_neq _ _) Hl). destruct (long_run m _ long conv rest H3 Hl) as [_ ->]. by rewrite body_next.
Qed.

End Directive.

(** The parts of the directive of a piece. *)
Definition dir_of (p : piece) : option dir :=
  match p with
  | PLit _ => None
  | PPct => Some (mk_dir false false 0 false ch_pct 0)
  | PNum la z w long conv => Some (mk_dir la z w long conv 0)
  | PChr => Some (mk_dir false false 0 false ch_c 0)
  | PStr => Some (mk_dir false false 0 false ch_s 0)
  | PPtr => Some (mk_dir false false 0 false ch_p 0)
  end.

Lemma spell_dir p d : dir_of p = Some d ->
  spell p = ch_pct :: body (d_left d) (d_zero d) (d_width d) (d_long d) (d_conv d).
Proof. destruct p; intros [= <-]; [done|apply spell_num|done|done|done]. Qed.

Lemma dir_ok m p w d : dir_of p = Some d -> ok_piece m p w -> 0 <= d_width d <= 65 /\ conv_ok (d_conv d).
Proof.
  assert (H : forall c, c ∈ [ch_pct; ch_c; ch_s; ch_p] -> 0 <= 0 <= 65 /\ conv_ok c).
  { intros c. unfold conv_ok. rewrite !elem_of_cons, elem_of_nil.
    unfold ch_0, ch_9, ch_minus, ch_l, ch_pct, ch_c, ch_s, ch_p. lia. }
  destruct p; intros [= <-] Hok; cbn; try (apply H; rewrite !elem_of_cons; tauto).
  destruct Hok as (Hw & Hc & _). split; [done|by apply num_conv].
Qed.

(** ** The kernel's formatter *)

Lemma emit_uint_padded v base w up la z : w <= 65 ->
  emit_uint v base w (if z : bool then ch_0 else ch_sp) up la = Some (padded la z w (reverse (num base up v))).
Proof.
  intros Hw. unfold emit_uint, padded.
  assert (Hl : zlen (reverse (num base up v)) = zlen (num base up v)) by (unfold zlen; by rewrite length_reverse).
  assert (Hp : padding w (zlen (reverse (num base up v))) = Z.to_nat (w - zlen (num base up v))).
  { rewrite Hl. unfold padding. pose proof (num_length base up v) as Hn. assert (0 < zlen (num base up v)).
    { destruct (num base up v) as [|? l]; [done|]. rewrite zlen_cons. pose proof (zlen_nonneg l). lia. }
    destruct (Z.ltb_spec 0 w), (Z.ltb_spec (zlen (num base up v)) w); cbn; lia. }
  rewrite Hp. destruct la; cbn [negb]; [done|].
  rewrite (proj2 (Z.ltb_ge 65 w)) by lia. cbn [andb]. by rewrite reverse_app, reverse_replicate.
Qed.

Lemma u64_s64 z : u64 (s64 z) = u64 z.
Proof. unfold s64. case_if; bool_prop; unfold u64 in *; Z.to_euclidean_division_equations; lia. Qed.

Lemma s64_range z : -9223372036854775808 <= s64 z < 9223372036854775808.
Proof. unfold s64. case_if; bool_prop; unfold u64 in *; Z.to_euclidean_division_equations; lia. Qed.

Lemma s32_range z : -2147483648 <= s32 z < 2147483648.
Proof. unfold s32. case_if; bool_prop; unfold u32 in *; Z.to_euclidean_division_equations; lia. Qed.

Lemma emit_int_padded v w la z : w <= 65 -> -9223372036854775808 <= v < 9223372036854775808 -> 0 <= v \/ w = 0 ->
  emit_int v w (if z : bool then ch_0 else ch_sp) la
  = Some (padded la z w ((if v <? 0 then [ch_minus] else []) ++ reverse (num 10 false (Z.abs v)))).
Proof.
  intros Hw Hv Hn. unfold emit_int. destruct (Z.ltb_spec v 0) as [Hneg|Hpos].
  - assert (w = 0) as -> by lia. rewrite emit_uint_padded by (cbn; lia). rewrite u64_s64.
    rewrite u64_small by (unfold is_u64; lia). replace (- v) with (Z.abs v) by lia. cbn.
    unfold padded. change (padding 0 _) with 0%nat. by destruct la; cbn; rewrite ?app_nil_r.
  - rewrite emit_uint_padded by done. rewrite u64_small by (unfold is_u64; lia). by rewrite Z.abs_eq.
Qed.

(** The sixteen digits of a pointer. *)
Fixpoint places (k : nat) (v : Z) : list Z :=
  match k with
  | O => []
  | S k => places k (v / 16) ++ [hexdig false (v mod 16)]
  end.

Lemma places_length k : forall v, length (places k v) = k.
Proof. induction k as [|k IH]; intros v; cbn; [done|]. rewrite length_app, IH. cbn. lia. Qed.

Lemma places_zero k : places k 0 = replicate k ch_0.
Proof.
  induction k as [|k IH]; cbn [places]; [done|]. change (0 / 16) with 0. rewrite IH.
  change (hexdig false (0 mod 16)) with ch_0. by rewrite replicate_S_end.
Qed.

Lemma places_num f : forall k v, 0 <= v < 16 ^ Z.of_nat k -> (k <= f)%nat ->
  exists j, places k v = replicate j ch_0 ++ reverse (num_loop f 16 false v)
    /\ (j + length (num_loop f 16 false v))%nat = k.
Proof.
  induction f as [|f IH]; intros k v Hv Hk.
  - assert (k = 0%nat) as -> by lia. by exists 0%nat.
  - cbn [num_loop]. destruct (Z.eqb_spec v 0) as [->|Hz].
    { exists k. rewrite places_zero. cbn. rewrite app_nil_r. split; [done|lia]. }
    destruct k as [|k]; [change (16 ^ Z.of_nat 0) with 1 in Hv; lia|]. cbn [places].
    rewrite Nat2Z.inj_succ, Z.pow_succ_r in Hv by lia.
    destruct (IH k (v / 16)) as (j & E & Hj); [split; [apply Z.div_pos; lia|apply Z.div_lt_upper_bound; lia]|lia|].
    exists j. rewrite E, reverse_cons, app_assoc. split; [done|]. cbn. lia.
Qed.

Lemma places_lookup k : forall v i, (i < k)%nat ->
  places k v !! i = Some (hexdig false ((v / 16 ^ Z.of_nat (k - 1 - i)) mod 16)).
Proof.
  induction k as [|k IH]; intros v i Hi; [lia|]. cbn [places]. destruct (decide (i = k)) as [->|].
  - rewrite lookup_app_r, places_length by (rewrite places_length; lia). rewrite Nat.sub_diag. cbn.
    replace (k - 0 - k)%nat with 0%nat by lia. change (16 ^ Z.of_nat 0) with 1. by rewrite Z.div_1_r.
  - rewrite lookup_app_l, IH by (rewrite ?places_length; lia). do 2 f_equal.
    replace (S k - 1 - i)%nat with (S (k - 1 - i)) by lia. rewrite Nat2Z.inj_succ, Z.pow_succ_r by lia.
    by rewrite Z.div_div by lia.
Qed.

Lemma tmp_ptr_places v : 0 <= v -> tmp_ptr v = ch_0 :: ch_x :: places 16 v.
Proof.
  intros Hv. unfold tmp_ptr. do 2 f_equal. apply list_eq. intros i.
  destruct (Nat.lt_ge_cases i 16) as [Hi|Hi].
  - rewrite places_lookup, list_lookup_fmap, lookup_seqZ_lt by lia. cbn [fmap option_fmap option_map]. f_equal. f_equal.
    rewrite Z.shiftr_div_pow2 by lia. change 15 with (Z.ones 4). rewrite Z.land_ones by lia. change (2 ^ 4) with 16.
    f_equal. f_equal. replace (60 - (0 + Z.of_nat i) * 4) with (4 * Z.of_nat (16 - 1 - i)) by lia.
    rewrite Z.pow_mul_r by lia. done.
  - rewrite !lookup_ge_None_2; [done| |by rewrite length_fmap, length_seqZ]. by rewrite places_length.
Qed.

Lemma ptr_padded v : 0 <= v < 2 ^ 64 -> padded false true 16 (reverse (num 16 false v)) = places 16 v.
Proof.
  intros Hv. unfold padded, num. destruct (Z.eqb_spec v 0) as [->|Hz]; [done|].
  destruct (places_num 64 16 v) as (j & E & Hj); [change (16 ^ Z.of_nat 16) with (2 ^ 64); done|lia|].
  rewrite E. f_equal. f_equal. unfold padding, zlen. rewrite length_reverse.
  set (n := length (num_loop 64 16 false v)) in *. clearbody n.
  destruct (Z.ltb_spec (Z.of_nat n) 16); cbn; lia.
Qed.

Lemma u8_s32 w : u8 (s32 w) = u8 w.
Proof. unfold s32. case_if; unfold u8, u32 in *; Z.to_euclidean_division_equations; lia. Qed.

Lemma emit_str_plain l : ch_nl ∉ l -> emit_str l = l.
Proof.
  induction l as [|c l IH]; [done|]. rewrite not_elem_of_cons. intros [Hc Hl]. cbn.
  by rewrite (proj2 (Z.eqb_neq c ch_nl)), IH by done.
Qed.

Lemma str_at_cstr m l : forall f s, cstr m s l -> (length l < f)%nat -> str_at f m s = l.
Proof.
  induction l as [|c l IH]; intros [|f] s Hs Hf; cbn [length] in Hf; try lia; cbn [str_at cstr] in *.
  - by rewrite Hs.
  - destruct Hs as (Hc & E & Hs). rewrite E, (proj2 (Z.eqb_neq _ _) Hc). f_equal. apply IH; [done|lia].
Qed.

(** The number a conversion prints. *)
Lemma number_range long conv w : 0 <= (number long conv w).2 < 18446744073709551616.
Proof.
  unfold number. pose proof (s64_range w). pose proof (s32_range w). pose proof (u64_range w). pose proof (u32_range w).
  unfold is_u64, is_u32 in *. destruct (_ || _), long; cbn; lia.
Qed.

Lemma kconvert_num m la z wd long conv nx ap : ok_piece m (PNum la z wd long conv) (hd 0 ap) ->
  kconvert m (mk_dir la z wd long conv nx) ap = (Some (render m (PNum la z wd long conv) (hd 0 ap)), tl ap).
Proof.
  intros (Hw & Hc & Hn). set (w := hd 0 ap) in *. unfold kconvert, va_int, va_uint, va_long, va_ulong. fold w. cbn.
  pose proof (s64_range w) as Hr64. pose proof (s32_range w) as Hr32.
  assert (Hint : forall v, -9223372036854775808 <= v < 9223372036854775808 -> v <? 0 = false \/ wd = 0 ->
    emit_int v wd (if z then ch_0 else ch_sp) la
    = Some (padded la z wd ((if v <? 0 then [ch_minus] else []) ++ reverse (num 10 false (Z.abs v))))).
  { intros v Hv Hs. apply emit_int_padded; [lia|done|]. destruct Hs as [Hs|Hs]; [left; by apply Z.ltb_ge in Hs|by right]. }
  unfold is_num in Hc. rewrite !elem_of_cons, elem_of_nil in Hc.
  destruct Hc as [-> |[-> |[-> |[-> |[-> |[]]]]]]; unfold number, digits in *; cbn in *; destruct long; cbn in *;
    try (rewrite Hint by (done || lia); done); by rewrite emit_uint_padded by lia.
Qed.

Lemma kconvert_render m p d ap nx : dir_of p = Some d -> ok_piece m p (hd 0 ap) ->
  kconvert m (mk_dir (d_left d) (d_zero d) (d_width d) (d_long d) (d_conv d) nx) ap
  = (Some (render m p (hd 0 ap)), if takes_arg p then tl ap else ap).
Proof.
  destruct p; intros [= <-] Hok; cbn [d_left d_zero d_width d_long d_conv takes_arg].
  - done.
  - by apply kconvert_num.
  - unfold kconvert, va_int. cbn. by rewrite u8_s32.
  - unfold kconvert, va_ulong, emit_strp. cbn -[str_at u64]. do 2 f_equal. cbn -[u64] in Hok.
    destruct (Z.eqb_spec (u64 (hd 0 ap)) 0) as [E|E]; [done|]. destruct Hok as [?|(l & Hl & _ & Hnl)]; [congruence|].
    rewrite (str_at_cstr m l) by (done || by eapply cstr_fuel). by apply emit_str_plain.
  - unfold kconvert, va_ulong. cbn -[emit_uint tmp_ptr u64]. pose proof (u64_range (hd 0 ap)) as Hu. unfold is_u64 in Hu.
    rewrite (emit_uint_padded _ 16 16 false false true) by lia. rewrite ptr_padded by (cbn -[u64]; lia).
    by rewrite tmp_ptr_places by lia.
Qed.

Lemma spell_all_cons p ps : spell_all (p :: ps) = spell p ++ spell_all ps.
Proof. done. Qed.

Lemma vk_loop_render m : forall ps f fmt ap, cstr m fmt (spell_all ps) -> (length (spell_all ps) < f)%nat ->
  ok_all m ps ap -> vk_loop f m fmt ap = Some (render_all m ps ap).
Proof.
  induction ps as [|p ps IH]; intros [|f] fmt ap Hs Hf Hok; cbn [length] in Hf; try lia.
  - cbn in Hs. cbn [vk_loop]. by rewrite Hs.
  - destruct Hok as [Hp Hok]. rewrite spell_all_cons in *. destruct (dir_of p) as [d|] eqn:Ed.
    + rewrite (spell_dir p d Ed) in *. cbn [app cstr length] in Hs, Hf. destruct Hs as (_ & E & Hs).
      destruct (dir_ok m p _ d Ed Hp) as [Hw Hc]. cbn [vk_loop]. rewrite E.
      change (ch_pct =? 0) with false. change (negb (ch_pct =? ch_pct)) with false. cbv iota zeta.
      rewrite (kparse_num m (fmt + 1) _ _ _ _ _ (spell_all ps) Hs Hw Hc). cbn [d_conv d_next].
      destruct Hc as (_ & _ & _ & Hz). rewrite (proj2 (Z.eqb_neq _ _) Hz), (kconvert_render m p d ap _ Ed Hp).
      rewrite IH; [done|by apply cstr_split|rewrite length_app in Hf; lia|done].
    + destruct p; try done. cbn [spell app cstr length] in Hs, Hf. destruct Hs as (Hc & E & Hs).
      destruct Hp as (_ & _ & H1 & H2). cbn [vk_loop takes_arg] in *. rewrite E, (proj2 (Z.eqb_neq _ _) Hc).
      rewrite (proj2 (Z.eqb_neq _ _) H1), (proj2 (Z.eqb_neq _ _) H2). cbn [negb]. rewrite (IH f (fmt + 1) ap); [done|done|lia|done].
Qed.

(** ** The library's formatter *)

Section Libc.
Context (m : mem) (buf n : Z).

(** The text [t] has been emitted: what fits is in the buffer. *)
Record wrote (o : out) (t : bytes) : Prop := mk_wrote {
  w_total : o_total o = zlen t;
  w_pos : o_pos o = Z.min (zlen t) (Z.max 0 (n - 1));
  w_mem : forall x, ld (o_mem o) x = if within buf (o_pos o) x then nth (Z.to_nat (x - buf)) t 0 else ld m x }.

Lemma emit_wrote o t c : wrote o t -> is_u8 c -> wrote (emit buf n o c) (t ++ [c]).
Proof.
  intros [H1 H2 H3] Hc. unfold emit. pose proof (zlen_nonneg t). destruct (Z.ltb_spec (o_pos o + 1) n); constructor; cbn; lens; try lia.
  - assert (Ep : o_pos o = zlen t) by lia. intros x. rewrite ld_st, u8_small, H3, Ep by done.
    destruct (Z.eqb_spec x (buf + zlen t)) as [->|].
    + replace (within buf (zlen t + 1) (buf + zlen t)) with true by (symmetry; ranges).
      replace (Z.to_nat (buf + zlen t - buf)) with (length t) by (unfold zlen; lia). by rewrite nth_middle.
    + ranges. unfold zlen in *. by rewrite app_nth1 by lia.
  - intros x. rewrite H3. ranges. unfold zlen in *. by rewrite app_nth1 by lia.
Qed.

Lemma emits_wrote l : forall o t, wrote o t -> is_bytes l -> wrote (emits buf n o l) (t ++ l).
Proof.
  induction l as [|c l IH]; intros o t Ho Hl; cbn; [by rewrite app_nil_r|]. apply Forall_cons in Hl as [Hc Hl].
  replace (t ++ c :: l) with ((t ++ [c]) ++ l) by (by rewrite <- app_assoc). apply IH; [by apply emit_wrote|done].
Qed.

(** A string that lies outside the buffer stays readable. *)
Definition apart (a : Z) (l : bytes) : Prop := a + zlen l < buf \/ buf + n <= a.

Lemma wrote_kept o t x : wrote o t -> x < buf \/ buf + n <= x -> ld (o_mem o) x = ld m x.
Proof. intros [H1 H2 H3] Hx. rewrite H3. pose proof (zlen_nonneg t). ranges. Qed.

Lemma cstr_kept o t a l : wrote o t -> apart a l -> cstr m a l -> cstr (o_mem o) a l.
Proof.
  intros Ho Ha. apply cstr_ext. intros x Hx. apply (wrote_kept o t); [done|]. unfold apart in Ha. lia.
Qed.

Lemma emit_mem_wrote l : forall o t p, wrote o t -> apart p l -> cstr m p l -> is_bytes l ->
  wrote (emit_mem (length l) buf n o p) (t ++ l).
Proof.
  induction l as [|c l IH]; intros o t p Ho Ha Hs Hl; cbn [length emit_mem]; [by rewrite app_nil_r|].
  apply Forall_cons in Hl as [Hc Hl]. destruct Hs as (_ & E & Hs). unfold apart in Ha. lens. pose proof (zlen_nonneg l).
  rewrite (wrote_kept o t p Ho), E by lia.
  replace (t ++ c :: l) with ((t ++ [c]) ++ l) by (by rewrite <- app_assoc).
  apply IH; [by apply emit_wrote|unfold apart; lia|done|done].
Qed.

(** Padding around a text. *)
Definition put_padded (la z : bool) (w : Z) (l : bytes) (o : out) : out :=
  put_text buf n (mk_dir la (if la then false else z) w false 0 0)
    (Tmp l (if (if la then false else z) then ch_0 else ch_sp) w) o.

Lemma replicate_bytes k c : is_u8 c -> is_bytes (replicate k c).
Proof. intros H. by apply Forall_replicate. Qed.

Lemma put_padded_wrote la z w l o t : wrote o t -> is_bytes l -> wrote (put_padded la z w l o) (t ++ padded la z w l).
Proof.
  intros Ho Hl. unfold put_padded, padded. cbn. destruct la.
  - rewrite app_assoc. apply emits_wrote; [by apply emits_wrote|by apply replicate_bytes].
  - rewrite app_assoc. apply emits_wrote; [|done]. apply emits_wrote; [done|]. apply replicate_bytes. by destruct z.
Qed.

Lemma num_bytes base up v : 2 <= base <= 16 -> 0 <= v -> is_bytes (reverse (num base up v)).
Proof.
  intros Hb Hv. apply Forall_reverse. eapply Forall_impl; [by apply num_chars|]. intros c (d & _ & _ & Hc).
  unfold is_u8, ch_0 in *. lia.
Qed.

Lemma digits_bytes conv neg v : 0 <= v -> is_bytes (digits conv neg v).
Proof.
  intros Hv. apply Forall_app. split; [destruct neg; repeat constructor; unfold ch_minus; lia|].
  apply num_bytes; [destruct (_ || _); lia|done].
Qed.

Lemma ptr_bytes v : is_bytes (tmp_ptr v).
Proof.
  unfold tmp_ptr. apply Forall_cons_2; [unfold is_u8, ch_0; lia|]. apply Forall_cons_2; [unfold is_u8, ch_x; lia|].
  apply Forall_fmap, Forall_forall. intros i _. cbn -[hexdig]. change 15 with (Z.ones 4). rewrite Z.land_ones by lia.
  pose proof (hexdig_range false (Z.shiftr v (60 - i * 4) mod 2 ^ 4)) as H. unfold is_u8, ch_0 in *.
  assert (0 <= Z.shiftr v (60 - i * 4) mod 2 ^ 4 < 2 ^ 4) by (apply Z.mod_pos_bound; lia). lia.
Qed.

Lemma convert_num la z wd long conv nx ap : is_num conv ->
  let d := mk_dir la (if la then false else z) wd long conv nx in
  let '(neg, v) := number long conv (hd 0 ap) in
  convert d ap = (Tmp (digits conv neg v) (if (if la then false else z) then ch_0 else ch_sp) wd, tl ap).
Proof.
  intros Hc d. set (w := hd 0 ap). unfold convert, va_int, va_uint, va_long, va_ulong. fold w. unfold d. cbn -[num u64].
  assert (Hd : forall v, -9223372036854775808 <= v < 9223372036854775808 ->
    tmp_dec (v <? 0) (u64 (if v <? 0 then - v else v)) = (if v <? 0 then [ch_minus] else []) ++ reverse (num 10 false (Z.abs v))).
  { intros v Hv. unfold tmp_dec. destruct (Z.ltb_spec v 0).
    - rewrite u64_small by (unfold is_u64; lia). replace (- v) with (Z.abs v) by lia. by rewrite reverse_app.
    - rewrite u64_small by (unfold is_u64; lia). by rewrite Z.abs_eq. }
  pose proof (s64_range w) as Hr64. pose proof (s32_range w) as Hr32.
  unfold is_num in Hc. rewrite !elem_of_cons, elem_of_nil in Hc.
  destruct Hc as [-> |[-> |[-> |[-> |[-> |[]]]]]]; unfold number, digits; cbn -[num u64 tmp_dec]; destruct long;
    rewrite ?Hd by lia; done.
Qed.

Definition str_apart (p : piece) (w : Z) : Prop :=
  match p with
  | PStr => forall l, cstr m (u64 w) l -> apart (u64 w) l
  | _ => True
  end.

Lemma put_render p d ap nx o t : dir_of p = Some d -> ok_piece m p (hd 0 ap) -> str_apart p (hd 0 ap) -> wrote o t ->
  let d' := mk_dir (d_left d) (if d_left d then false else d_zero d) (d_width d) (d_long d) (d_conv d) nx in
  (convert d' ap).2 = (if takes_arg p then tl ap else ap)
  /\ wrote (put_text buf n d' (convert d' ap).1 o) (t ++ render m p (hd 0 ap)).
Proof.
  destruct p; intros [= <-] Hok Hap Ho; cbn [d_left d_zero d_width d_long d_conv takes_arg].
  - split; [done|]. apply emits_wrote; [done|]. repeat constructor; unfold ch_pct; lia.
  - pose proof (convert_num lalign zero width long conv nx ap (proj1 (proj2 Hok))) as E. cbv zeta in *.
    pose proof (number_range long conv (hd 0 ap)) as Hr. cbn [render].
    destruct (number long conv (hd 0 ap)) as [neg v]. rewrite E. split; [done|].
    apply (put_padded_wrote lalign zero width _ o t Ho). apply digits_bytes. cbn in Hr. lia.
  - split; [done|]. unfold convert, va_int. cbn -[u8 s32]. rewrite u8_s32. apply emit_wrote; [done|apply u8_range].
  - split; [done|]. unfold convert, va_ulong. cbn -[str_at u64 strlen emits emit_mem padding].
    change (padding 0 _) with 0%nat. cbn [replicate emits fold_left]. cbn -[u64] in Hok.
    destruct (Z.eqb_spec (u64 (hd 0 ap)) 0) as [E|E].
    + apply emits_wrote; [done|]. repeat constructor; unfold is_u8; lia.
    + destruct Hok as [?|(l & Hl & Hb & _)]; [congruence|]. specialize (Hap l Hl).
      rewrite (strlen_cstr _ _ l) by (by eapply cstr_kept).
      rewrite (str_at_cstr m l) by (done || by eapply cstr_fuel). unfold zlen. rewrite Nat2Z.id. by apply emit_mem_wrote.
  - split; [done|]. unfold convert, va_ulong. cbn -[tmp_ptr emits u64]. change (padding 0 _) with 0%nat.
    cbn [replicate]. apply emits_wrote; [done|apply ptr_bytes].
Qed.

Fixpoint strs_apart (ps : list piece) (ap : list Z) : Prop :=
  match ps with
  | [] => True
  | p :: ps => str_apart p (hd 0 ap) /\ strs_apart ps (if takes_arg p then tl ap else ap)
  end.

Lemma vs_loop_render : forall ps f fmt ap o t, cstr m fmt (spell_all ps) -> apart fmt (spell_all ps) ->
  (length (spell_all ps) < f)%nat -> ok_all m ps ap -> strs_apart ps ap -> wrote o t ->
  wrote (vs_loop f buf n o fmt ap) (t ++ render_all m ps ap).
Proof.
  induction ps as [|p ps IH]; intros [|f] fmt ap o t Hs Ha Hf Hok Hst Ho; cbn [length] in Hf; try lia.
  - pose proof (cstr_kept _ _ _ _ Ho Ha Hs) as H. cbn in H. cbn [vs_loop render_all]. rewrite H. by rewrite app_nil_r.
  - destruct Hok as [Hp Hok], Hst as [Hsp Hst]. rewrite spell_all_cons in *. cbn [render_all]. rewrite app_assoc.
    assert (Ha' : forall k, k = fmt + zlen (spell p) -> apart k (spell_all ps)).
    { intros k ->. unfold apart in *. lens. pose proof (zlen_nonneg (spell p)). lia. }
    pose proof (cstr_kept _ _ _ _ Ho Ha Hs) as Hs'. destruct (dir_of p) as [d|] eqn:Ed.
    + rewrite (spell_dir p d Ed) in *. cbn [app cstr length] in Hs, Hs', Hf. destruct Hs as (_ & _ & Hs), Hs' as (_ & E & Hs').
      destruct (dir_ok m p _ d Ed Hp) as [Hw Hc]. cbn [vs_loop]. rewrite E.
      change (ch_pct =? 0) with false. change (negb (ch_pct =? ch_pct)) with false. cbv iota zeta.
      rewrite (parse_num (o_mem o) (fmt + 1) _ _ _ _ _ (spell_all ps) Hs' Hw Hc). cbn [d_next].
      destruct (put_render p d ap (fmt + 1 + zlen (body (d_left d) (d_zero d) (d_width d) (d_long d) (d_conv d))) o t
        Ed Hp Hsp Ho) as [E1 E2]. cbv zeta in E1, E2. destruct (convert _ ap) as [tx ap']. cbn [fst snd] in E1, E2. subst ap'.
      apply IH; [by apply cstr_split|apply Ha'; lens; lia|rewrite length_app in Hf; lia|done|done|done].
    + destruct p; try done. cbn [spell app cstr length] in Hs, Hs', Hf. destruct Hs as (Hc & _ & Hs), Hs' as (_ & E & Hs').
      destruct Hp as (Hb & _ & H1 & _). cbn [vs_loop takes_arg] in *. rewrite E, (proj2 (Z.eqb_neq _ _) Hc).
      rewrite (proj2 (Z.eqb_neq _ _) H1). cbn [negb].
      apply IH; [done|apply Ha'; unfold spell, zlen; cbn [length]; lia|lia|done|done|]. by apply emit_wrote.
Qed.

(** What is in memory when [vsnprintf] is done: as much of the text as fits, and a
    NUL byte. *)
Definition printed (t : bytes) (m' : mem) : Prop :=
  let k := Z.min (zlen t) (n - 1) in
  forall x, ld m' x = if x =? buf + k then 0 else if within buf k x then nth (Z.to_nat (x - buf)) t 0 else ld m x.

Lemma start_wrote : wrote (mk_out m 0 0) [].
Proof. constructor; cbn [o_total o_pos o_mem]; change (zlen (@nil Z)) with 0; [done|lia|]. intros x. ranges. Qed.

Lemma wrote_printed fmt ap t : 0 < n -> wrote (vs_loop (fuel m) buf n (mk_out m 0 0) fmt ap) t ->
  let '(m', r) := vsnprintf m buf n fmt ap in r = s32 (zlen t) /\ printed t m'.
Proof.
  intros Hn [H1 H2 H3]. unfold vsnprintf. rewrite (proj2 (Z.ltb_lt 0 n)) by lia. rewrite H1. split; [done|].
  unfold printed. pose proof (zlen_nonneg t). rewrite H2 in *. replace (Z.max 0 (n - 1)) with (n - 1) in * by lia.
  intros x. rewrite ld_st, H3. done.
Qed.

Lemma vsnprintf_render ps fmt ap : 0 < n -> cstr m fmt (spell_all ps) -> apart fmt (spell_all ps) ->
  ok_all m ps ap -> strs_apart ps ap ->
  let t := render_all m ps ap in
  let '(m', r) := vsnprintf m buf n fmt ap in r = s32 (zlen t) /\ printed t m'.
Proof.
  intros Hn Hs Ha Hok Hst t. apply wrote_printed; [done|]. apply (vs_loop_render ps (fuel m) fmt ap (mk_out m 0 0) []);
    [done|done|by eapply cstr_fuel|done|done|apply start_wrote].
Qed.

End Libc.

(** C29: The formatter of the library and that of the kernel print the same text, on every
    format made of plain characters, [%%], [%c], [%s], [%p] and numeric directives, each
    with an optional [-], then an optional [0], then a width up to 65, if there is no newline
    to translate and no minus sign to pad; [snprintf] cuts it at the end of its buffer, which
    has room for a byte and overlaps neither the format nor the strings printed.  With the
    flags in the other order the two differ, see [flag_order_differs]. *)
Theorem printf_kprintf_agree m buf n ps fmt ap (Hn : 0 < n) (Hs : cstr m fmt (spell_all ps))
    (Ha : apart buf n fmt (spell_all ps)) (Hok : ok_all m ps ap) (Hst : strs_apart m buf n ps ap) :
  exists t, vkprintf m fmt ap = Some t
    /\ let '(m', r) := vsnprintf m buf n fmt ap in r = s32 (zlen t) /\ printed m buf n t m'.
Proof.
  exists (render_all m ps ap). split; [|by apply vsnprintf_render].
  apply vk_loop_render; [done|by eapply cstr_fuel|done].
Qed.

(** ** Reading back *)

Lemma num_loop_len f : forall k v, 0 <= v < 10 ^ Z.of_nat k -> (length (num_loop f 10 false v) <= k)%nat.
Proof.
  induction f as [|f IH]; intros k v Hv; cbn [num_loop]; [cbn; lia|]. destruct (Z.eqb_spec v 0); [cbn; lia|].
  destruct k as [|k]; [change (10 ^ Z.of_nat 0) with 1 in Hv; lia|]. cbn [length].
  rewrite Nat2Z.inj_succ, Z.pow_succ_r in Hv by lia.
  assert (0 <= v / 10 < 10 ^ Z.of_nat k) by (split; [apply Z.div_pos; lia|apply Z.div_lt_upper_bound; lia]).
  specialize (IH k (v / 10) H). lia.
Qed.

Lemma dec_length v : 0 <= v < 9223372036854775808 -> zlen (reverse (num 10 false v)) <= 19.
Proof.
  intros Hv. unfold zlen. rewrite length_reverse. unfold num. case_if; [cbn; lia|].
  pose proof (num_loop_len 64 19 v) as H. change (10 ^ Z.of_nat 19) with 10000000000000000000 in H. lia.
Qed.

Lemma dec_chars v : 0 <= v -> Forall (fun c => exists d, digit c = Some d /\ 0 <= d < 10 /\ ch_0 <= c <= 122) (reverse (num 10 false v)).
Proof. intros Hv. apply Forall_reverse, num_chars; lia. Qed.

Lemma printed_cstr m buf n t m' : printed m buf n t m' -> zlen t < n -> Forall (fun c => c <> 0) t -> cstr m' buf t.
Proof.
  intros Hp Hn Ht. unfold printed in Hp. pose proof (zlen_nonneg t). rewrite <- (app_nil_r t).
  apply cstr_join; [done| |cbn; rewrite Hp; ranges].
  intros i x Hx. rewrite Hp. apply lookup_lt_Some in Hx as Hi. assert (Z.of_nat i < zlen t) by (unfold zlen; lia). ranges.
  replace (Z.to_nat (buf + Z.of_nat i - buf)) with i by lia. by apply nth_lookup_Some.
Qed.

(** Reading an optional minus sign and decimal digits. *)
Lemma strtol_dec m a (neg : bool) v : 0 <= v < 9223372036854775808 ->
  cstr m a ((if neg then [ch_minus] else []) ++ reverse (num 10 false v)) ->
  strtol m a 10 = (if neg then - v else v, a + b2z neg + zlen (reverse (num 10 false v))).
Proof.
  intros Hv Hs. set (l := reverse (num 10 false v)) in *. assert (Hl : Forall _ l) by (apply (dec_chars v); lia).
  assert (Hne : l <> []).
  { unfold l. intros E. apply (num_length 10 false v). apply (f_equal reverse) in E. by rewrite reverse_involutive in E. }
  assert (Hs' : cstr m (a + b2z neg) l) by (apply cstr_split in Hs; by destruct neg).
  assert (Hd : ch_0 <= ld m (a + b2z neg) <= 122).
  { destruct l as [|c l]; [done|]. destruct Hs' as (_ & -> & _). apply Forall_cons in Hl as [(d & _ & _ & ?) _]. done. }
  unfold strtol. assert (Ea : ld m a = if neg then ch_minus else ld m (a + b2z neg)).
  { destruct neg; cbn in *; [by destruct Hs as (_ & -> & _)|by rewrite Z.add_0_r]. }
  assert (Esp : skip_space (fuel m) m a = a).
  { unfold fuel. cbn [skip_space]. unfold isspace. rewrite Ea. destruct neg; [done|]. unfold ch_0 in Hd.
    rewrite !(proj2 (Z.eqb_neq _ _)) by lia. done. }
  rewrite Esp, Ea.
  assert (Esg : (if (if neg then ch_minus else ld m (a + b2z neg)) =? ch_minus then (true, a + 1)
     else if (if neg then ch_minus else ld m (a + b2z neg)) =? ch_plus then (false, a + 1) else (false, a)) = (neg, a + b2z neg)).
  { destruct neg; [done|]. unfold ch_0, ch_minus, ch_plus in *. rewrite !(proj2 (Z.eqb_neq _ _)) by lia. cbn. f_equal. lia. }
  rewrite Esg. change (10 =? 0) with false. change (10 =? 16) with false. cbn [andb]. rewrite <- (app_nil_r l) in Hs'.
  rewrite (digits_loop_run m 10 [] ltac:(lia) l (fuel m) _ 0 Hs'); [|rewrite app_nil_r in Hs'; by eapply cstr_fuel|done|done].
  unfold l at 1 2. rewrite num_value by lia. destruct neg; [rewrite s64_small by lia|]; done.
Qed.

(** What [snprintf] writes for [%ld], [strtol] reads back, up to the end of the text. *)
Theorem strtol_reads_printf m buf n fmt v (Hv : -9223372036854775808 < v < 9223372036854775808) (Hn : 21 <= n)
    (Hs : cstr m fmt [ch_pct; ch_l; ch_d]) (Ha : apart buf n fmt [ch_pct; ch_l; ch_d]) :
  let '(m', r) := vsnprintf m buf n fmt [v] in strtol m' buf 10 = (v, buf + r).
Proof.
  pose proof (vsnprintf_render m buf n [PNum false false 0 true ch_d] fmt [v] ltac:(lia) Hs Ha) as H.
  destruct (vsnprintf m buf n fmt [v]) as [m' r]. cbv zeta in H. destruct H as [Hr Hp].
  { split; [|done]. split; [lia|]. split; [apply list_elem_of_here|by right]. } { done. }
  set (dg := reverse (num 10 false (Z.abs v))).
  assert (Et : render_all m [PNum false false 0 true ch_d] [v] = (if v <? 0 then [ch_minus] else []) ++ dg).
  { cbn -[num s64]. unfold number. cbn -[num s64]. rewrite s64_small by lia. cbn -[num]. by rewrite app_nil_r. }
  rewrite Et in Hr, Hp. pose proof (dec_length (Z.abs v) ltac:(lia)) as Hlen. fold dg in Hlen.
  pose proof (zlen_nonneg dg). assert (Hz : zlen ((if v <? 0 then [ch_minus] else []) ++ dg) = b2z (v <? 0) + zlen dg).
  { lens. by destruct (v <? 0). }
  rewrite Hz in Hr. rewrite s32_small in Hr by (destruct (v <? 0); cbn [b2z]; lia).
  apply printed_cstr in Hp; [|rewrite Hz; destruct (v <? 0); cbn [b2z]; lia|].
  - rewrite (strtol_dec m' buf (v <? 0) (Z.abs v)) by (done || lia). fold dg. subst r.
    f_equal; [destruct (Z.ltb_spec v 0); lia|lia].
  - apply Forall_app. split; [destruct (v <? 0); repeat constructor; done|].
    eapply Forall_impl; [apply dec_chars; lia|]. intros c (d & _ & _ & Hc). unfold ch_0 in Hc. lia.
Qed.

(** ** Bounds *)

Section Bounds.
Context (m : mem) (buf n : Z).

Definition inside (o : out) : Prop :=
  0 <= o_pos o <= Z.max 0 (n - 1) /\ forall x, ~ buf <= x < buf + n -> ld (o_mem o) x = ld m x.

Lemma emit_inside o c : inside o -> inside (emit buf n o c).
Proof.
  intros [Hp Hm]. unfold emit. destruct (Z.ltb_spec (o_pos o + 1) n); split; cbn [o_pos o_mem]; [lia| |done|done].
  intros x Hx. rewrite ld_st. ranges. by apply Hm.
Qed.

Lemma emits_inside l : forall o, inside o -> inside (emits buf n o l).
Proof. induction l as [|c l IH]; intros o Ho; cbn; [done|]. by apply IH, emit_inside. Qed.

Lemma emit_mem_inside k : forall o p, inside o -> inside (emit_mem k buf n o p).
Proof. induction k as [|k IH]; intros o p Ho; cbn; [done|]. by apply IH, emit_inside. Qed.

Lemma put_text_inside d t o : inside o -> inside (put_text buf n d t o).
Proof.
  intros Ho. destruct t as [p|l padc w|l]; cbn [put_text]; [| |by apply emits_inside].
  - set (o1 := if d_left d then o else _). assert (H1 : inside o1) by (unfold o1; case_if; [done|by apply emits_inside]).
    clearbody o1. set (o2 := if p =? 0 then emits buf n o1 null_text else _).
    assert (H2 : inside o2) by (unfold o2; case_if; [by apply emits_inside|by apply emit_mem_inside]).
    case_if; [by apply emits_inside|done].
  - set (o1 := if d_left d then o else _). assert (H1 : inside o1) by (unfold o1; case_if; [done|by apply emits_inside]).
    case_if; repeat apply emits_inside; done.
Qed.

Lemma vs_loop_inside : forall f o fmt ap, inside o -> inside (vs_loop f buf n o fmt ap).
Proof.
  induction f as [|f IH]; intros o fmt ap Ho; cbn [vs_loop]; [done|]. case_if; [done|].
  case_if; [by apply IH, emit_inside|]. destruct (convert _ ap) as [t ap']. by apply IH, put_text_inside.
Qed.

End Bounds.

(** C30: Whatever the format and its arguments, [vsnprintf] writes nothing outside the
    buffer, and if the buffer has any room the result ends in a NUL byte inside it. *)
Theorem vsnprintf_bounds m buf n fmt ap (Hn : 0 <= n) :
  let m' := (vsnprintf m buf n fmt ap).1 in
  (forall x, ~ buf <= x < buf + n -> ld m' x = ld m x)
  /\ (0 < n -> exists k, 0 <= k < n /\ ld m' (buf + k) = 0).
Proof.
  assert (Ho : inside m buf n (vs_loop (fuel m) buf n (mk_out m 0 0) fmt ap)) by (apply vs_loop_inside; split; cbn; [lia|done]).
  unfold vsnprintf. cbn [fst]. destruct Ho as [Hp Hm]. destruct (Z.ltb_spec 0 n).
  - split.
    + intros x Hx. rewrite ld_st. ranges. by apply Hm.
    + intros _. eexists. split; [|rewrite ld_st, Z.eqb_refl; done]. lia.
  - split; [done|lia].
Qed.

(** ** Where they fail *)

(** A padded negative number: the kernel puts the padding behind the minus sign even
    if it is blank, the library in front of it even if it is zeros. *)
Theorem padded_minus_differs m v w z (Hv : -9223372036854775808 < v < 0)
    (Hw : zlen (reverse (num 10 false (- v))) + 1 < w <= 65) :
  let d := mk_dir false z w true ch_d 0 in
  let dg := reverse (num 10 false (- v)) in
  let pad := replicate (Z.to_nat (w - 1 - zlen dg)) (if z then ch_0 else ch_sp) in
  (kconvert m d [v]).1 = Some (ch_minus :: pad ++ dg)
  /\ forall buf n o t, wrote m buf n o t ->
       wrote m buf n (put_text buf n d (convert d [v]).1 o) (t ++ pad ++ ch_minus :: dg).
Proof.
  cbv zeta. set (dg := reverse (num 10 false (- v))) in *. split.
  - unfold kconvert, va_long. cbn -[emit_int s64]. rewrite s64_small by lia. unfold emit_int.
    rewrite (proj2 (Z.ltb_lt v 0)) by lia. destruct (Z.gtb_spec w 0); [|pose proof (zlen_nonneg dg); lia].
    rewrite emit_uint_padded by lia. rewrite u64_s64, u64_small by (unfold is_u64; lia). fold dg. cbn. unfold padded, padding.
    pose proof (zlen_nonneg dg). by rewrite (proj2 (Z.ltb_lt 0 (w - 1))), (proj2 (Z.ltb_lt (zlen dg) (w - 1))) by lia.
  - intros buf n o t Ho. pose proof (convert_num false z w true ch_d 0 [v] (list_elem_of_here _ _)) as E.
    cbn zeta beta in E. unfold number in E. cbn -[convert digits s64] in E. rewrite s64_small, (proj2 (Z.ltb_lt v 0)) in E by lia.
    rewrite E. replace (Z.abs v) with (- v) by lia.
    pose proof (put_padded_wrote m buf n false z w (ch_minus :: dg) o t Ho) as H.
    replace (replicate _ _ ++ ch_minus :: dg) with (padded false z w (ch_minus :: dg)).
    + apply H. constructor; [unfold is_u8, ch_minus; lia|]. apply num_bytes; lia.
    + unfold padded, padding. lens. pose proof (zlen_nonneg dg).
      rewrite (proj2 (Z.ltb_lt 0 w)), (proj2 (Z.ltb_lt (1 + zlen dg) w)) by lia. cbn [andb].
      by replace (w - (1 + zlen dg)) with (w - 1 - zlen dg) by lia.
Qed.

Definition plain (l : bytes) : Prop := Forall (fun c => is_u8 c /\ c <> ch_pct) l.

Lemma vs_loop_plain m buf n r : forall l f fmt ap o t, cstr m fmt (l ++ r) -> apart buf n fmt (l ++ r) -> plain l ->
  wrote m buf n o t ->
  exists o', wrote m buf n o' (t ++ l) /\ vs_loop (length l + f) buf n o fmt ap = vs_loop f buf n o' (fmt + zlen l) ap.
Proof.
  induction l as [|c l IH]; intros f fmt ap o t Hs Ha Hl Ho.
  - exists o. rewrite app_nil_r. change (zlen (@nil Z)) with 0. by rewrite Z.add_0_r.
  - apply Forall_cons in Hl as [[Hb Hc] Hl]. pose proof (cstr_kept _ _ _ _ _ _ _ Ho Ha Hs) as Hs'.
    cbn [app cstr] in Hs, Hs'. destruct Hs as (Hz & _ & Hs), Hs' as (_ & E & _).
    destruct (IH f (fmt + 1) ap (emit buf n o c) (t ++ [c]) Hs) as (o' & Ho' & E'); [|done|by apply emit_wrote|].
    { unfold apart in *. lens. lia. }
    exists o'. rewrite <- app_assoc in Ho'. split; [done|]. cbn [length Nat.add vs_loop].
    rewrite E, (proj2 (Z.eqb_neq _ _) Hz), (proj2 (Z.eqb_neq _ _) Hc). cbn [negb]. rewrite E'. f_equal. lens. lia.
Qed.

Lemma cstr2_fuel m a l b k : cstr m a l -> cstr m b k -> a + zlen l < b -> (length l + length k < fuel m)%nat.
Proof.
  intros Hl Hk Hab. unfold fuel. apply Nat.lt_succ_r. rewrite <- size_dom.
  assert (Hs : list_to_set (seqZ a (zlen l) ++ seqZ b (zlen k)) ⊆ dom m).
  { intros x Hx. apply elem_of_list_to_set, elem_of_app in Hx. rewrite !elem_of_seqZ in Hx. apply elem_of_dom.
    assert (Hz : ld m x <> 0).
    { destruct Hx as [Hx|Hx].
      - replace x with (a + (x - a)) by lia. apply (cstr_nonzero m l); [done|lia].
      - replace x with (b + (x - b)) by lia. apply (cstr_nonzero m k); [done|lia]. }
    unfold ld in Hz. destruct (m !! x); done. }
  apply subseteq_size in Hs. rewrite size_list_to_set in Hs.
  - rewrite length_app, !length_seqZ in Hs. unfold zlen in Hs. lia.
  - apply NoDup_app. split_and!; [apply NoDup_seqZ| |apply NoDup_seqZ]. intros x. rewrite !elem_of_seqZ. unfold zlen in *. lia.
Qed.

Lemma parse_end m p : ld m p = 0 -> parse m p = mk_dir false false 0 false 0 (p + 1).
Proof.
  intros E. unfold parse, fuel. cbn [flags_loop]. rewrite E. change ((0 =? ch_minus) || (0 =? ch_0)) with false. cbv iota.
  cbn [width_loop]. rewrite E. change ((ch_0 <=? 0) && (0 <=? ch_9)) with false. cbv iota. rewrite E.
  change (0 =? ch_l) with false. cbv iota. by rewrite E.
Qed.

(** At a percent sign that ends the format. *)
Lemma vs_loop_percent m buf n p f o t : wrote m buf n o t -> p + 1 < buf \/ buf + n <= p -> cstr m p [ch_pct] ->
  exists o', wrote m buf n o' (t ++ [ch_pct; 0]) /\ vs_loop (S f) buf n o p [] = vs_loop f buf n o' (p + 2) [].
Proof.
  intros Ho Hp (_ & E & Ez). cbn [cstr] in Ez. exists (emits buf n o [ch_pct; 0]).
  split; [apply emits_wrote; [done|repeat constructor; unfold ch_pct; lia]|]. cbn [vs_loop].
  rewrite (wrote_kept _ _ _ _ _ p Ho), E by lia.
  change (ch_pct =? 0) with false. change (negb (ch_pct =? ch_pct)) with false. cbv iota zeta.
  rewrite parse_end by (rewrite (wrote_kept _ _ _ _ _ _ Ho) by lia; exact Ez).
  change (convert (mk_dir false false 0 false 0 (p + 1 + 1)) []) with (Raw [ch_pct; 0], @nil Z). cbv iota. cbn [d_next put_text].
  by replace (p + 1 + 1) with (p + 2) by lia.
Qed.

(** A format that ends in a percent sign: the formatter steps over its NUL byte and
    goes on with whatever bytes follow in memory. *)
Theorem printf_runs_past_percent m buf n fmt l k (Hn : 0 < n) (Hl : plain l) (Hk : plain k)
    (Hs : cstr m fmt (l ++ [ch_pct])) (Hs' : cstr m (fmt + zlen l + 2) k)
    (Ha : fmt + zlen l + 2 + zlen k < buf \/ buf + n <= fmt) :
  let t := l ++ [ch_pct; 0] ++ k in
  let '(m', r) := vsnprintf m buf n fmt [] in r = s32 (zlen t) /\ printed m buf n t m'.
Proof.
  intros t. apply wrote_printed; [done|]. pose proof (zlen_nonneg l). pose proof (zlen_nonneg k).
  pose proof (cstr2_fuel m fmt (l ++ [ch_pct]) (fmt + zlen l + 2) k Hs Hs' ltac:(lens; lia)) as Hf.
  rewrite length_app in Hf. cbn [length] in Hf. set (g := (fuel m - length l - 2 - length k)%nat).
  replace (fuel m) with (length l + S (length k + S g))%nat by (unfold g; lia).
  destruct (vs_loop_plain m buf n [ch_pct] l (S (length k + S g)) fmt [] _ _ Hs ltac:(unfold apart; lens; lia) Hl
    (start_wrote m buf n)) as (o1 & Ho1 & ->).
  destruct (vs_loop_percent m buf n (fmt + zlen l) (length k + S g) o1 _ Ho1 ltac:(lia) (cstr_split _ _ _ _ Hs))
    as (o2 & Ho2 & ->).
  rewrite <- (app_nil_r k) in Hs'.
  destruct (vs_loop_plain m buf n [] k (S g) (fmt + zlen l + 2) [] o2 _ Hs' ltac:(unfold apart; lens; lia) Hk Ho2)
    as (o3 & Ho3 & ->). cbn [vs_loop].
  apply cstr_split in Hs'. cbn [cstr] in Hs'. rewrite (wrote_kept _ _ _ _ _ _ Ho3), Hs' by lia. cbn [Z.eqb].
  unfold t. cbn [app] in Ho3. by rewrite <- app_assoc in Ho3.
Qed.

(** ** Concrete formats *)

Definition demo_ps : list piece := [PLit 120; PLit 61; PNum true false 5 false ch_u; PStr; PPct; PNum false true 8 true ch_x; PPtr].
Definition demo_fmt : mem := write_bytes (write_bytes empty 100 (spell_all demo_ps ++ [0])) 200 [104; 105; 0].

Lemma demo_string l : cstr demo_fmt 200 l -> l = [104; 105].
Proof.
  intros H. destruct (strcmp_zero demo_fmt 200 200 l [104; 105] H) as [E _]; [vm_compute; repeat split; discriminate|].
  apply E. vm_compute. reflexivity.
Qed.

Lemma printf_kprintf_agree_witness : exists t, vkprintf demo_fmt 100 [42; 200; 255; 4096] = Some t
  /\ let '(m', r) := vsnprintf demo_fmt 1000 64 100 [42; 200; 255; 4096] in
     r = s32 (zlen t) /\ printed demo_fmt 1000 64 t m'.
Proof.
  apply (printf_kprintf_agree demo_fmt 1000 64 demo_ps 100 [42; 200; 255; 4096] ltac:(lia)).
  - vm_compute. repeat split; discriminate.
  - left. vm_compute. reflexivity.
  - unfold ok_all, demo_ps, ok_piece. cbn -[u64 cstr number].
    repeat match goal with |- _ /\ _ => split | |- True => exact I end;
      try (unfold is_u8, ch_pct, ch_nl; lia); try (apply list_elem_of_In; vm_compute; tauto); try (left; reflexivity).
    right. exists [104; 105]. split; [vm_compute; repeat split; discriminate|].
    split; [repeat constructor; lia|]. vm_compute. intros H. repeat (inversion H as [|? ? ? H']; subst; clear H; rename H' into H).
  - cbn -[u64]. repeat split. intros l H. left. change (u64 200) with 200 in *. rewrite (demo_string l H). reflexivity.
Defined.

Definition ld_fmt : mem := write_bytes empty 100 [ch_pct; ch_l; ch_d; 0].

Lemma strtol_reads_printf_witness :
  let '(m', r) := vsnprintf ld_fmt 1000 21 100 [-42] in strtol m' 1000 10 = (-42, 1000 + r).
Proof.
  apply (strtol_reads_printf ld_fmt 1000 21 100 (-42)); [lia|lia| |left; reflexivity].
  vm_compute. repeat split; discriminate.
Defined.

Lemma vsnprintf_bounds_witness : ld (vsnprintf ld_fmt 1000 3 100 [-42]).1 1003 = 0.
Proof. apply (vsnprintf_bounds ld_fmt 1000 3 100 [-42] ltac:(lia)). lia. Defined.

(** [%5ld] and [%05ld] of -42 in the kernel. *)
Lemma padded_minus_differs_witness :
  (kconvert empty (mk_dir false false 5 true ch_d 0) [-42]).1 = Some [45; 32; 32; 52; 50]
  /\ (kconvert empty (mk_dir false true 5 true ch_d 0) [-42]).1 = Some [45; 48; 48; 52; 50].
Proof.
  split.
  - apply (padded_minus_differs empty (-42) 5 false); [lia|]. vm_compute. split; [reflexivity|discriminate].
  - apply (padded_minus_differs empty (-42) 5 true); [lia|]. vm_compute. split; [reflexivity|discriminate].
Defined.

(** The format [%0-5d] with 42: the library takes the flags in any order, the kernel prints the
    directive. *)
Definition flag_fmt : mem := write_bytes empty 100 [37; 48; 45; 53; 100; 0].

Lemma flag_order_differs : vkprintf flag_fmt 100 [42] = Some [37; 45; 53; 100]
  /\ (fun i => ld (vsnprintf flag_fmt 1000 64 100 [42]).1 (1000 + i)) <$> [0; 1; 2; 3; 4; 5] = [52; 50; 32; 32; 32; 0].
Proof. split; vm_compute; reflexivity. Qed.

(** The format [5%], with another string behind it in memory. *)
Definition past_fmt : mem := write_bytes empty 100 [53; 37; 0; 107; 101; 121; 0].

Lemma printf_runs_past_percent_witness :
  let '(m', r) := vsnprintf past_fmt 1000 64 100 [] in r = 6 /\ printed past_fmt 1000 64 [53; 37; 0; 107; 101; 121] m'.
Proof.
  apply (printf_runs_past_percent past_fmt 1000 64 100 [53] [107; 101; 121] ltac:(lia)).
  - repeat constructor; lia || (vm_compute; discriminate).
  - repeat constructor; lia || (vm_compute; discriminate).
  - vm_compute. repeat split; discriminate.
  - vm_compute. repeat split; discriminate.
  - left. reflexivity.
Defined.

End CfmtThm.
