(* ===== verification/Cheap.v ===== *)
(** * The heap of user programs

    [malloc], [free], [calloc] and [realloc] of [lib/libc/src/malloc.c] over the break
    that [sys_brk_impl] of [uts/os/user/user.c] moves.  Block headers are records at
    their addresses, apart from the bytes of the blocks; a null pointer is 0.  How the
    kernel finds pages for the break is an interface. *)

From stdpp Require Import base numbers list gmap relations.
From Stdlib Require Import ZArith Lia Bool.
From S2P Require Import Prelude Cstr.

Module Cheap.
Import Cstr.

(** [vmap_alloc_pages (vm, va, n, 1)]: zeroed pages for [n] addresses from [va]; it may
    fail at any call.  [mmu_vmap_unmap_user_4k (vm, va)] gives one page back. *)
Class UserPages (P : Type) := {
  vmap_alloc_pages : P -> Z -> Z -> bool * P;
  mmu_vmap_unmap_user_4k : P -> Z -> P }.

Definition EXEC_HEAP_VA : Z := 0x21200000.
Definition EXEC_HEAP_SIZE : Z := 0x400000.
Definition PAGE_SIZE : Z := 4096.

(** [sizeof(block_t)]. *)
Definition HDR : Z := 24.

Record block := mk_block { b_size : Z; b_free : bool; b_next : Z }.
#[export] Instance block_rebuild : Rebuild block := rpure mk_block <:> b_size <:> b_free <:> b_next.

Section Code.
Context {P : Type} `{!UserPages P}.

Record heap := mk_heap {
  hdrs : gmap Z block;
  freelist : Z;
  heap_brk : Z;
  pages : P;
  data : mem }.
#[export] Instance heap_rebuild : Rebuild heap := rpure mk_heap <:> hdrs <:> freelist <:> heap_brk <:> pages <:> data.

(** ** The kernel's side

    A byte of [data] that was not written since its page came reads as zero, so a page
    that goes takes its bytes with it. *)

Fixpoint unmap_loop (n : nat) (p : P) (v : Z) : P :=
  match n with
  | O => p
  | S n => unmap_loop n (mmu_vmap_unmap_user_4k p v) (v + PAGE_SIZE)
  end.

Definition page_up (a : Z) : Z := Z.land (u64 (a + PAGE_SIZE - 1)) (u64 (Z.lnot (PAGE_SIZE - 1))).

Definition sys_brk (h : heap) (addr : Z) : Z * heap :=
  if heap_brk h =? 0 then (-1, h)
  else if addr =? 0 then (heap_brk h, h)
  else if (addr <? EXEC_HEAP_VA) || (addr >? EXEC_HEAP_VA + EXEC_HEAP_SIZE) then (-1, h)
  else
    let old_top := page_up (heap_brk h) in
    let new_top := page_up addr in
    if new_top >? old_top then
      let '(ok, p) := vmap_alloc_pages (pages h) old_top ((new_top - old_top) / PAGE_SIZE) in
      let h := h <| pages := p |> in
      if ok : bool then (addr, h <| heap_brk := addr |>) else (-1, h)
    else
      let h :=
        if new_top <? old_top then
          h <| pages := unmap_loop (Z.to_nat ((old_top - new_top) / PAGE_SIZE)) (pages h) new_top |>
            <| data := filter (fun '(a, _) => a < new_top \/ old_top <= a) (data h) |>
        else h in
      (addr, h <| heap_brk := addr |>).

(** ** [malloc] and [free] *)

Definition hd_at (h : heap) (b : Z) : block := default (mk_block 0 false 0) (hdrs h !! b).
Definition set_hdr (h : heap) (b : Z) (v : block) : heap := h <| hdrs := <[b := v]> (hdrs h) |>.

Definition heap_grow (h : heap) (n : Z) : Z * heap :=
  let n := Z.land (u64 (n + 4095)) (u64 (Z.lnot 4095)) in
  let '(cur, h) := sys_brk h 0 in
  if cur <? 0 then (0, h)
  else
    let '(nb, h) := sys_brk h (u64 (cur + n)) in
    if (nb <? 0) || (nb =? cur) then (0, h) else (cur, h).

(** The first block that is free and large enough, or null. *)
Fixpoint first_fit (f : nat) (h : heap) (b size : Z) : Z :=
  match f with
  | O => 0
  | S f =>
      if b =? 0 then 0
      else if b_free (hd_at h b) && (b_size (hd_at h b) >=? size) then b
      else first_fit f h (b_next (hd_at h b)) size
  end.

(** The last block of the list from [t]. *)
Fixpoint last_block (f : nat) (h : heap) (t : Z) : Z :=
  match f with
  | O => t
  | S f => if b_next (hd_at h t) =? 0 then t else last_block f h (b_next (hd_at h t))
  end.

Definition fuel (h : heap) : nat := S (size (hdrs h)).

(** Take the free block [b], cutting off what is left when that is worth a block. *)
Definition take_block (h : heap) (b size : Z) : heap :=
  let k := hd_at h b in
  let h :=
    if b_size k >=? u64 (size + HDR + 8) then
      let nb := u64 (b + HDR + size) in
      let h := set_hdr h nb (mk_block (u64 (b_size k - size - HDR)) true (b_next k)) in
      set_hdr h b (k <| b_size := size |> <| b_next := nb |>)
    else h in
  set_hdr h b ((hd_at h b) <| b_free := false |>).

Definition malloc (h : heap) (size : Z) : Z * heap :=
  if size =? 0 then (0, h)
  else
    let size := Z.land (u64 (size + 7)) (u64 (Z.lnot 7)) in
    let b := first_fit (fuel h) h (freelist h) size in
    if negb (b =? 0) then (b + HDR, take_block h b size)
    else
      let '(raw, h) := heap_grow h (u64 (size + HDR)) in
      if raw =? 0 then (0, h)
      else
        let h := set_hdr h raw (mk_block size false 0) in
        let h :=
          if freelist h =? 0 then h <| freelist := raw |>
          else let t := last_block (fuel h) h (freelist h) in set_hdr h t ((hd_at h t) <| b_next := raw |>) in
        (raw + HDR, h).

Definition free (h : heap) (ptr : Z) : heap :=
  if ptr =? 0 then h
  else
    let b := ptr - HDR in
    let h := set_hdr h b ((hd_at h b) <| b_free := true |>) in
    let k := hd_at h b in
    if negb (b_next k =? 0) && b_free (hd_at h (b_next k)) then
      let n := hd_at h (b_next k) in
      set_hdr h b (k <| b_size := u64 (b_size k + HDR + b_size n) |> <| b_next := b_next n |>)
    else h.

Definition calloc (h : heap) (nmemb size : Z) : Z * heap :=
  let total := u64 (nmemb * size) in
  let '(p, h) := malloc h total in
  (p, if negb (p =? 0) then h <| data := memset (data h) p 0 total |> else h).

Definition realloc (h : heap) (ptr size : Z) : Z * heap :=
  if ptr =? 0 then malloc h size
  else if size =? 0 then (0, free h ptr)
  else
    let b := ptr - HDR in
    if b_size (hd_at h b) >=? size then (ptr, h)
    else
      let '(np, h) := malloc h size in
      if negb (np =? 0) then
        let h := h <| data := memcpy (data h) np ptr (b_size (hd_at h b)) |> in
        (np, free h ptr)
      else (np, h).

Definition strdup (h : heap) (s : Z) : Z * heap :=
  let n := strlen (data h) s + 1 in
  let '(p, h) := malloc h n in
  if p =? 0 then (0, h) else (p, h <| data := memcpy (data h) p s n |>).

End Code.

Arguments heap : clear implicits.

End Cheap.
