(* ===== verification/CheapThm.v ===== *)
(** * Correctness of the user heap

    The list of blocks is sorted by address and its blocks do not overlap.  Every
    operation keeps this, so the blocks given out are apart from each other and from
    the headers. *)

From stdpp Require Import base numbers list gmap relations.
From Stdlib Require Import ZArith Lia Bool.
From S2P Require Import Prelude Links Cstr Cheap.

Module CheapThm.
Import Links Cstr Cheap.

(** ** The list of blocks *)

Notation blist := (list (Z * block)).

(** From [a] the links lead through the blocks [l] to [e]. *)
Fixpoint hseg (m : gmap Z block) (a : Z) (l : blist) (e : Z) : Prop :=
  match l with
  | [] => a = e
  | (x, b) :: l => a = x /\ x <> 0 /\ m !! x = Some b /\ hseg m (b_next b) l e
  end.

(** The blocks lie one behind the other between [lo] and [hi]. *)
Fixpoint laid (lo : Z) (l : blist) (hi : Z) : Prop :=
  match l with
  | [] => lo <= hi
  | (x, b) :: l => lo <= x /\ 0 <= b_size b /\ laid (x + HDR + b_size b) l hi
  end.

Definition aligned (l : blist) : Prop := Forall (fun xb => xb.1 mod 8 = 0 /\ b_size xb.2 mod 8 = 0) l.

Lemma hseg_app m l1 l2 : forall a e, hseg m a (l1 ++ l2) e <-> exists mid, hseg m a l1 mid /\ hseg m mid l2 e.
Proof.
  induction l1 as [|[x b] l1 IH]; intros a e; cbn [app hseg].
  - split; [intros H; by exists a|intros (mid & -> & H); done].
  - rewrite IH. split.
    + intros (-> & Hx & Hm & mid & H1 & H2). exists mid. done.
    + intros (mid & (-> & Hx & Hm & H1) & H2). split_and!; try done. by exists mid.
Qed.

Lemma laid_app l1 l2 hi : forall lo, laid lo (l1 ++ l2) hi <-> exists mid, laid lo l1 mid /\ laid mid l2 hi.
Proof.
  induction l1 as [|[x b] l1 IH]; intros lo; cbn [app laid].
  - split; [intros H; by exists lo|]. intros (mid & Hlo & H). destruct l2 as [|[x b] l2]; cbn in *; intuition lia.
  - rewrite IH. split.
    + intros (H1 & H2 & mid & H3 & H4). exists mid. done.
    + intros (mid & (H1 & H2 & H3) & H4). split_and!; try done. by exists mid.
Qed.

Lemma laid_mono l : forall lo lo' hi hi', laid lo l hi -> lo' <= lo -> hi <= hi' -> laid lo' l hi'.
Proof.
  induction l as [|[x b] l IH]; intros lo lo' hi hi'; cbn; [lia|]. intros (H1 & H2 & H3) Hlo Hhi.
  split_and!; [lia|done|]. apply (IH (x + HDR + b_size b) _ hi); [done|lia|done].
Qed.

Lemma laid_le l : forall lo hi, laid lo l hi -> lo <= hi.
Proof.
  induction l as [|[x b] l IH]; intros lo hi; cbn; [done|]. intros (H1 & H2 & H3%IH). unfold HDR in *. lia.
Qed.

(** A block of the list lies within the bounds, and apart from the others. *)
Lemma laid_in l x b : forall lo hi, laid lo l hi -> (x, b) ∈ l -> lo <= x /\ 0 <= b_size b /\ x + HDR + b_size b <= hi.
Proof.
  induction l as [|[y c] l IH]; intros lo hi; cbn [laid]; [by intros _ ?%elem_of_nil|].
  intros (H1 & H2 & H3) [[= <- <-]|Hx]%elem_of_cons.
  - apply laid_le in H3. done.
  - destruct (IH _ _ H3 Hx) as (? & ? & ?). unfold HDR in *. lia.
Qed.

Lemma laid_apart l x b y c : forall lo hi, laid lo l hi -> (x, b) ∈ l -> (y, c) ∈ l -> x <> y ->
  x + HDR + b_size b <= y \/ y + HDR + b_size c <= x.
Proof.
  induction l as [|[z d] l IH]; intros lo hi; cbn [laid]; [by intros _ ?%elem_of_nil|].
  intros (H1 & H2 & H3) [[= -> ->]|Hx]%elem_of_cons [[= -> ->]|Hy]%elem_of_cons Hne; try done.
  - left. by destruct (laid_in _ _ _ _ _ H3 Hy) as (? & _).
  - right. by destruct (laid_in _ _ _ _ _ H3 Hx) as (? & _).
  - by eapply IH.
Qed.

Lemma laid_nodup l : forall lo hi, laid lo l hi -> NoDup l.*1.
Proof.
  induction l as [|[x b] l IH]; intros lo hi; cbn [laid fmap list_fmap]; [intros _; constructor|].
  intros (H1 & H2 & H3). constructor; [|by eapply IH]. intros ([y c] & E & Hy)%list_elem_of_fmap. cbn in E. subst y.
  destruct (laid_in _ _ _ _ _ H3 Hy) as (? & _). unfold HDR in *. lia.
Qed.

Lemma hseg_ext m m' l : forall a e, (forall x, x ∈ l.*1 -> m' !! x = m !! x) -> hseg m a l e -> hseg m' a l e.
Proof.
  induction l as [|[x b] l IH]; intros a e H; cbn [hseg]; [done|]. intros (-> & Hx & Hm & Hl). cbn in H.
  split_and!; [done|done|rewrite H; [done|apply list_elem_of_here]|]. apply IH; [|done]. intros y Hy. apply H.
  by apply list_elem_of_further.
Qed.

Lemma hseg_lookup m l x b : forall a e, hseg m a l e -> (x, b) ∈ l -> m !! x = Some b /\ x <> 0.
Proof.
  induction l as [|[y c] l IH]; intros a e; cbn [hseg]; [by intros _ ?%elem_of_nil|].
  intros (-> & Hy & Hm & Hl) [[= -> ->]|Hx]%elem_of_cons; [done|by eapply IH].
Qed.

Lemma hseg_length m a l e lo hi : hseg m a l e -> laid lo l hi -> (length l <= size m)%nat.
Proof.
  intros Hs Hl. rewrite <- (length_fmap fst), <- size_dom, <- (size_list_to_set (C := gset Z)) by (by eapply laid_nodup).
  apply subseteq_size. intros x. rewrite elem_of_list_to_set, list_elem_of_fmap, elem_of_dom.
  intros ([y b] & -> & Hy). cbn. destruct (hseg_lookup _ _ _ _ _ _ Hs Hy) as [-> _]. done.
Qed.

(** ** The invariant *)

Section Heap.
Context {P : Type} `{!UserPages P}.
Implicit Types (h : heap P) (l : blist).

Record heap_ok h l : Prop := mk_heap_ok {
  ho_seg : hseg (hdrs h) (freelist h) l 0;
  ho_laid : laid EXEC_HEAP_VA l (heap_brk h);
  ho_aligned : aligned l;
  ho_top : EXEC_HEAP_VA <= heap_brk h <= EXEC_HEAP_VA + EXEC_HEAP_SIZE /\ heap_brk h mod PAGE_SIZE = 0 }.

(** The blocks in use, by the pointers the program has. *)
Definition used l : list (Z * Z) := (fun xb => (xb.1 + HDR, b_size xb.2)) <$> filter (fun xb => b_free xb.2 = false) l.

(** The list as the program would follow it. *)
Fixpoint walk (f : nat) h (a : Z) : blist :=
  match f with
  | O => []
  | S f => if a =? 0 then [] else (a, hd_at h a) :: walk f h (b_next (hd_at h a))
  end.
Definition live h : list (Z * Z) := used (walk (fuel h) h (freelist h)).

Lemma hd_at_lookup h x b : hdrs h !! x = Some b -> hd_at h x = b.
Proof. unfold hd_at. by intros ->. Qed.

Lemma walk_hseg h : forall l f a, hseg (hdrs h) a l 0 -> (length l < f)%nat -> walk f h a = l.
Proof.
  induction l as [|[x b] l IH]; intros [|f] a H Hf; cbn [length] in Hf; try lia; cbn [walk hseg] in *.
  - by subst a.
  - destruct H as (-> & Hx & Hm & H). rewrite (proj2 (Z.eqb_neq _ _) Hx), (hd_at_lookup _ _ _ Hm). f_equal. apply IH; [done|lia].
Qed.

Lemma ok_fuel h l : heap_ok h l -> (length l < fuel h)%nat.
Proof. intros [H1 H2 _ _]. pose proof (hseg_length _ _ _ _ _ _ H1 H2). unfold fuel. lia. Qed.

Lemma live_used h l : heap_ok h l -> live h = used l.
Proof. intros H. unfold live. rewrite (walk_hseg h l); [done|apply H|by apply ok_fuel]. Qed.

Lemma first_fit_spec h size : forall l f a, hseg (hdrs h) a l 0 -> (length l < f)%nat ->
  first_fit f h a size = 0 /\ Forall (fun xb => b_free xb.2 = true -> b_size xb.2 < size) l
  \/ exists pre x b post, l = pre ++ (x, b) :: post /\ first_fit f h a size = x /\ x <> 0 /\ b_free b = true /\ size <= b_size b.
Proof.
  induction l as [|[x b] l IH]; intros [|f] a H Hf; cbn [length] in Hf; try lia; cbn [first_fit hseg] in *.
  - left. by subst a.
  - destruct H as (-> & Hx & Hm & H). rewrite (proj2 (Z.eqb_neq _ _) Hx), (hd_at_lookup _ _ _ Hm).
    destruct (b_free b && (b_size b >=? size)) eqn:E.
    + right. bool_prop. exists [], x, b, l. done.
    + destruct (IH f (b_next b) H ltac:(lia)) as [[E0 Hl]|(pre & y & c & post & -> & Ey & Hy)].
      { left. split; [done|]. constructor; [|done]. cbn. intros Hf'. rewrite Hf' in E. cbn in E. destruct (Z.geb_spec (b_size b) size); [done|lia]. }
      right. exists ((x, b) :: pre), y, c, post. done.
Qed.

Lemma last_block_spec h x b : forall l f a, hseg (hdrs h) a (l ++ [(x, b)]) 0 -> (length l < f)%nat -> last_block f h a = x.
Proof.
  induction l as [|[y c] l IH]; intros [|f] a H Hf; cbn [length] in Hf; try lia; cbn [app last_block hseg] in *.
  - destruct H as (-> & Hx & Hm & E). by rewrite (hd_at_lookup _ _ _ Hm), E.
  - destruct H as (-> & Hx & Hm & H). rewrite (hd_at_lookup _ _ _ Hm).
    assert (Hn : b_next c <> 0).
    { apply hseg_app in H as (mid & H1 & -> & Hz & _). destruct l as [|[z d] l]; cbn in H1; [congruence|].
      destruct H1 as (-> & ? & _). done. }
    rewrite (proj2 (Z.eqb_neq _ _) Hn). apply IH; [done|lia].
Qed.

(** Changing the header of one block, and what follows it. *)
Lemma hseg_change m pre x b b' post post' e a : hseg m a (pre ++ (x, b) :: post) e -> x ∉ pre.*1 ->
  forall m', (forall y, y ∈ pre.*1 -> m' !! y = m !! y) -> m' !! x = Some b' -> hseg m' (b_next b') post' e ->
  hseg m' a (pre ++ (x, b') :: post') e.
Proof.
  intros (mid & H1 & -> & Hx & Hm & H2)%hseg_app Hn m' Hpre Hx' Hpost. apply hseg_app. exists x.
  split; [by apply (hseg_ext m)|]. done.
Qed.

Lemma nodup_split l pre x b post lo hi : laid lo l hi -> l = pre ++ (x, b) :: post -> x ∉ pre.*1 /\ x ∉ post.*1
  /\ forall y, y ∈ pre.*1 -> y ∉ post.*1.
Proof.
  intros Hl ->. apply laid_nodup in Hl. rewrite fmap_app, fmap_cons in Hl. cbn in Hl. apply NoDup_app in Hl as (H1 & H2 & H3).
  apply NoDup_cons in H3 as [H3 H4]. split; [intros Hx; apply (H2 x Hx), list_elem_of_here|]. split; [done|].
  intros y Hy Hp. apply (H2 y Hy). by apply list_elem_of_further.
Qed.

Lemma used_app l1 l2 : used (l1 ++ l2) = used l1 ++ used l2.
Proof. unfold used. by rewrite filter_app, fmap_app. Qed.

Lemma used_cons x b l : used ((x, b) :: l) = (if b_free b then [] else [(x + HDR, b_size b)]) ++ used l.
Proof. unfold used. rewrite filter_cons. cbn. destruct (b_free b); [by rewrite decide_False|by rewrite decide_True]. Qed.

Lemma hd_at_set h x b y : hd_at (set_hdr h x b) y = if y =? x then b else hd_at h y.
Proof.
  unfold hd_at, set_hdr. cbn. destruct (Z.eqb_spec y x) as [->|]; [by rewrite lookup_insert_eq|by rewrite lookup_insert_ne].
Qed.

(** Addresses and sizes are small. *)
Lemma ok_range h l x b : heap_ok h l -> (x, b) ∈ l ->
  EXEC_HEAP_VA <= x /\ 0 <= b_size b /\ x + HDR + b_size b <= EXEC_HEAP_VA + EXEC_HEAP_SIZE.
Proof. intros [_ H2 _ H4] Hx. destruct (laid_in _ _ _ _ _ H2 Hx) as (? & ? & ?). lia. Qed.

(** A block of the list in its surroundings. *)
Record at_block h pre x b post : Prop := mk_at_block {
  ab_ok : heap_ok h (pre ++ (x, b) :: post);
  ab_hdr : hdrs h !! x = Some b;
  ab_pre : x ∉ pre.*1;
  ab_post : x ∉ post.*1;
  ab_before : forall y, y ∈ pre.*1 -> y < x;
  ab_behind : forall y, y ∈ post.*1 -> x + HDR + b_size b <= y;
  ab_rest : hseg (hdrs h) (b_next b) post 0;
  ab_laid : laid (x + HDR + b_size b) post (heap_brk h);
  ab_al : x mod 8 = 0 /\ b_size b mod 8 = 0 /\ aligned post;
  ab_range : EXEC_HEAP_VA <= x /\ 0 <= b_size b /\ x + HDR + b_size b <= EXEC_HEAP_VA + EXEC_HEAP_SIZE }.

Lemma at_block_intro h pre x b post : heap_ok h (pre ++ (x, b) :: post) -> at_block h pre x b post.
Proof.
  intros Hok. pose proof Hok as [H1 H2 H3 H4]. destruct (nodup_split _ _ _ _ _ _ _ H2 eq_refl) as (Hpre & Hpost & Hpp).
  apply laid_app in H2 as (lo & Hl1 & Hl2 & Hl3 & Hl4). apply Forall_app in H3 as [Ha1 Ha2].
  apply Forall_cons in Ha2 as [[Ha2 Ha3] Ha4]. cbn in Ha2, Ha3. apply hseg_app in H1 as (mid0 & _ & -> & Hx & Hm & Hpost').
  constructor; try done.
  - intros y ([z c] & -> & Hz)%list_elem_of_fmap. destruct (laid_in _ _ _ _ _ Hl1 Hz) as (_ & ? & ?). cbn. unfold HDR in *. lia.
  - intros y ([z c] & -> & Hz)%list_elem_of_fmap. by destruct (laid_in _ _ _ _ _ Hl4 Hz) as (? & _).
  - apply (ok_range _ _ x b Hok). apply elem_of_app. right. apply list_elem_of_here.
Qed.

(** Replacing a block and what follows it, the break included. *)
Lemma change_top h h' pre x b post b' post' : at_block h pre x b post -> freelist h' = freelist h ->
  EXEC_HEAP_VA <= heap_brk h' <= EXEC_HEAP_VA + EXEC_HEAP_SIZE /\ heap_brk h' mod PAGE_SIZE = 0 ->
  (forall y, y ∈ pre.*1 -> hdrs h' !! y = hdrs h !! y) ->
  hdrs h' !! x = Some b' -> hseg (hdrs h') (b_next b') post' 0 -> 0 <= b_size b' -> b_size b' mod 8 = 0 ->
  laid (x + HDR + b_size b') post' (heap_brk h') -> aligned post' -> heap_ok h' (pre ++ (x, b') :: post').
Proof.
  intros [[H1 H2 H3 H4] _ Hpre _ _ _ _ _ (Hx8 & _ & _) _] Ef Eb Em Ex Hs Hb Hb8 Hl Ha.
  apply Forall_app in H3 as [Ha1 _]. apply laid_app in H2 as (lo & Hl1 & Hl2 & _). constructor; rewrite ?Ef; [| | |done].
  - by eapply hseg_change.
  - apply laid_app. exists lo. done.
  - apply Forall_app. split; [done|]. by constructor.
Qed.

Lemma change_ok h h' pre x b post b' post' : at_block h pre x b post ->
  freelist h' = freelist h -> heap_brk h' = heap_brk h -> (forall y, y ∈ pre.*1 -> hdrs h' !! y = hdrs h !! y) ->
  hdrs h' !! x = Some b' -> hseg (hdrs h') (b_next b') post' 0 -> 0 <= b_size b' -> b_size b' mod 8 = 0 ->
  laid (x + HDR + b_size b') post' (heap_brk h) -> aligned post' -> heap_ok h' (pre ++ (x, b') :: post').
Proof. intros Hb Ef Eb. intros. eapply change_top; rewrite ?Eb; try done. apply Hb. Qed.

Lemma hseg_rest h pre x b post m : at_block h pre x b post -> (forall y, y ∈ post.*1 -> m !! y = hdrs h !! y) ->
  hseg m (b_next b) post 0.
Proof. intros Hb Hm. eapply hseg_ext; [done|apply Hb]. Qed.

Lemma take_block_ok h pre x b post size : heap_ok h (pre ++ (x, b) :: post) -> 0 <= size <= b_size b -> size mod 8 = 0 ->
  exists b' mid, heap_ok (take_block h x size) (pre ++ (x, b') :: mid ++ post) /\ b_free b' = false
    /\ size <= b_size b' /\ used mid = [] /\ data (take_block h x size) = data h.
Proof.
  intros Hok Hs Hs8. pose proof (at_block_intro _ _ _ _ _ Hok) as Hb. pose proof Hb as [_ Hm Hpre Hpost Hbef Hbeh Hr Hl (Hx8 & Hb8 & Ha) Hrg].
  unfold take_block. rewrite (hd_at_lookup _ _ _ Hm). unfold EXEC_HEAP_VA, EXEC_HEAP_SIZE, HDR in *.
  rewrite (u64_small (size + 24 + 8)) by (unfold is_u64; lia). destruct (Z.geb_spec (b_size b) (size + 24 + 8)) as [Hge|Hlt].
  - rewrite (u64_small (x + 24 + size)), (u64_small (b_size b - size - 24)) by (unfold is_u64; lia).
    set (nb := x + 24 + size). set (k2 := mk_block (b_size b - size - 24) true (b_next b)).
    exists (b <| b_size := size |> <| b_next := nb |> <| b_free := false |>), [(nb, k2)].
    rewrite hd_at_set, Z.eqb_refl. split_and!; [|done|cbn; lia|done|done].
    assert (Hxnb : x <> nb) by (unfold nb; lia).
    eapply change_ok; [exact Hb|done|done| | | |cbn; lia|done| |]; cbn [hdrs set_hdr update b_next b_size].
    + intros y Hy. rewrite !lookup_insert_ne; [done| | |]; intros <-; [|done|done]. apply Hbef in Hy. unfold nb in Hy. lia.
    + by rewrite lookup_insert_eq.
    + cbn. split_and!; [done|unfold nb; lia|by rewrite !lookup_insert_ne, lookup_insert_eq by done|].
      eapply hseg_rest; [exact Hb|]. intros y Hy. rewrite !lookup_insert_ne; [done| | |]; intros <-; [|done|done].
      apply Hbeh in Hy. unfold nb in Hy. lia.
    + cbn. unfold HDR, nb. split_and!; [lia|lia|]. eapply laid_mono; [exact Hl|lia|lia].
    + constructor; [|done]. cbn. unfold nb. split; Z.to_euclidean_division_equations; lia.
  - exists (b <| b_free := false |>), []. rewrite (hd_at_lookup _ _ _ Hm). split_and!; [|done|cbn; lia|done|done].
    eapply change_ok; [exact Hb|done|done| | | |cbn; lia|done|done|done]; cbn [hdrs set_hdr update b_next].
    + intros y Hy. rewrite lookup_insert_ne; [done|]. by intros ->.
    + by rewrite lookup_insert_eq.
    + eapply hseg_rest; [exact Hb|]. intros y Hy. rewrite lookup_insert_ne; [done|]. by intros ->.
Qed.

Lemma free_ok h pre x b post : heap_ok h (pre ++ (x, b) :: post) ->
  exists b' post', heap_ok (free h (x + HDR)) (pre ++ (x, b') :: post') /\ b_free b' = true /\ used post' = used post
    /\ data (free h (x + HDR)) = data h.
Proof.
  intros Hok. pose proof (at_block_intro _ _ _ _ _ Hok) as Hb. pose proof Hb as [_ Hm Hpre Hpost Hbef Hbeh Hr Hl (Hx8 & Hb8 & Ha) Hrg].
  unfold free. rewrite (proj2 (Z.eqb_neq (x + HDR) 0)) by (unfold HDR, EXEC_HEAP_VA in *; lia).
  replace (x + HDR - HDR) with x by lia. rewrite (hd_at_lookup _ _ _ Hm), !hd_at_set, Z.eqb_refl. cbn [b_next update].
  destruct (negb (b_next b =? 0) && _) eqn:E.
  - bool_prop. destruct post as [|[y c] post]; [cbn in Hr; congruence|]. destruct Hr as (Ey & Hy & Hc & Hr). rewrite Ey in *.
    destruct Hl as (Hl1 & Hl2 & Hl3). apply Forall_cons in Ha as [[Hy8 Hc8] Ha]. cbn in Hy8, Hc8.
    assert (Hyx : y <> x) by (unfold HDR in *; lia). rewrite (proj2 (Z.eqb_neq _ _) Hyx) in *. rewrite (hd_at_lookup _ _ _ Hc) in *.
    pose proof (laid_le _ _ _ Hl3) as Hle. destruct Hok as [_ _ _ [Htop _]]. unfold EXEC_HEAP_VA, EXEC_HEAP_SIZE, HDR in *.
    change (b_size (b <| b_free := true |>)) with (b_size b). rewrite u64_small by (unfold is_u64; lia).
    exists (b <| b_free := true |> <| b_size := b_size b + 24 + b_size c |> <| b_next := b_next c |>), post.
    split_and!; [|done|rewrite used_cons; cbn; by rewrite H0|done].
    eapply change_ok; [exact Hb|done|done| | | |cbn; lia| | |done]; cbn [hdrs set_hdr update b_next b_size].
    + intros z Hz. rewrite !lookup_insert_ne; [done| |]; by intros ->.
    + by rewrite lookup_insert_eq.
    + eapply hseg_ext; [|exact Hr]. intros z Hz. rewrite !lookup_insert_ne; [done| |]; intros <-; apply Hpost; by right.
    + Z.to_euclidean_division_equations; lia.
    + eapply laid_mono; [exact Hl3|unfold HDR; lia|lia].
  - exists (b <| b_free := true |>), post. split_and!; [|done|done|done].
    eapply change_ok; [exact Hb|done|done| | | |cbn; lia|done|done|done]; cbn [hdrs set_hdr update b_next b_size].
    + intros z Hz. rewrite lookup_insert_ne; [done|]. by intros ->.
    + by rewrite lookup_insert_eq.
    + eapply hseg_rest; [exact Hb|]. intros z Hz. rewrite lookup_insert_ne; [done|]. by intros ->.
Qed.

(** ** Growing *)

Lemma page_up_spec a : 0 <= a < 2 ^ 63 -> page_up a = a + 4095 - (a + 4095) mod 4096.
Proof.
  intros Ha. unfold page_up, PAGE_SIZE. change (4096 - 1) with (Z.ones 12). rewrite (u64_small (a + 4096 - 1)) by (unfold is_u64; lia).
  rewrite land_clear by (unfold is_u64; lia). change (2 ^ 12) with 4096. by replace (a + 4096 - 1) with (a + 4095) by lia.
Qed.

Lemma page_up_page a : 0 <= a < 2 ^ 63 -> a mod PAGE_SIZE = 0 -> page_up a = a.
Proof. intros Ha Hm. rewrite page_up_spec by done. unfold PAGE_SIZE in Hm. Z.to_euclidean_division_equations; lia. Qed.

(** Only the pages and the break may differ, and the break by whole pages up. *)
Record grown h h' (k : Z) : Prop := mk_grown {
  gr_hdrs : hdrs h' = hdrs h;
  gr_list : freelist h' = freelist h;
  gr_data : data h' = data h;
  gr_brk : heap_brk h' = heap_brk h + k }.

Lemma sys_brk_ask h l : heap_ok h l -> sys_brk h 0 = (heap_brk h, h).
Proof. intros [_ _ _ [Ht _]]. unfold sys_brk. by rewrite (proj2 (Z.eqb_neq (heap_brk h) 0)) by (unfold EXEC_HEAP_VA in *; lia). Qed.

Lemma sys_brk_up h l k : heap_ok h l -> 0 < k < 2 ^ 63 + 2 ^ 62 -> k mod PAGE_SIZE = 0 ->
  (exists h', sys_brk h (heap_brk h + k) = (-1, h') /\ grown h h' 0)
  \/ exists h', sys_brk h (heap_brk h + k) = (heap_brk h + k, h') /\ grown h h' k /\ heap_brk h + k <= EXEC_HEAP_VA + EXEC_HEAP_SIZE.
Proof.
  intros [_ _ _ [Ht Hp]] Hk Hk0. unfold sys_brk, EXEC_HEAP_VA, EXEC_HEAP_SIZE in *.
  rewrite (proj2 (Z.eqb_neq (heap_brk h) 0)), (proj2 (Z.eqb_neq (heap_brk h + k) 0)), (proj2 (Z.ltb_ge (heap_brk h + k) _)) by lia.
  destruct (Z.gtb_spec (heap_brk h + k) (555745280 + 4194304)) as [Hgt|Hle]; cbn [orb].
  { left. exists h. split; [done|]. constructor; try done. lia. }
  unfold PAGE_SIZE in *. rewrite (page_up_page (heap_brk h)), (page_up_page (heap_brk h + k))
    by (unfold PAGE_SIZE; Z.to_euclidean_division_equations; lia).
  rewrite (proj2 (Z.gtb_lt (heap_brk h + k) (heap_brk h))) by lia. destruct (vmap_alloc_pages _ _ _) as [[] p].
  - right. eexists. split; [done|]. done.
  - left. eexists. split; [done|]. constructor; try done. cbn. lia.
Qed.

Lemma heap_grow_spec h l n : heap_ok h l -> 0 < n < 2 ^ 63 + 64 ->
  (exists h', heap_grow h n = (0, h') /\ grown h h' 0)
  \/ exists h' k, heap_grow h n = (heap_brk h, h') /\ grown h h' k /\ n <= k /\ k mod PAGE_SIZE = 0
     /\ heap_brk h + k <= EXEC_HEAP_VA + EXEC_HEAP_SIZE.
Proof.
  intros Hok Hn. unfold heap_grow. change (Z.lnot 4095) with (Z.lnot (Z.ones 12)). rewrite (u64_small (n + 4095)) by (unfold is_u64; lia).
  rewrite land_clear by (unfold is_u64; lia). change (2 ^ 12) with 4096. set (k := n + 4095 - (n + 4095) mod 4096).
  assert (Hk : n <= k < n + 4096 /\ k mod 4096 = 0) by (unfold k; Z.to_euclidean_division_equations; lia).
  clearbody k. rewrite (sys_brk_ask _ _ Hok). pose proof (ho_top _ _ Hok) as [Ht _]. unfold EXEC_HEAP_VA, EXEC_HEAP_SIZE in *.
  rewrite (proj2 (Z.ltb_ge (heap_brk h) 0)), u64_small by (unfold is_u64; lia).
  destruct (sys_brk_up h l k Hok) as [(h' & -> & Hg)|(h' & -> & Hg & Hle)]; [lia|apply Hk|left|right]; cbn beta iota.
  - by exists h'.
  - rewrite (proj2 (Z.ltb_ge (heap_brk h + k) 0)), (proj2 (Z.eqb_neq (heap_brk h + k) (heap_brk h))) by lia.
    exists h', k. split_and!; [done|done|lia|apply Hk|done].
Qed.

Lemma snoc_inv {A} (xs : list A) : xs = [] \/ exists ys x, xs = ys ++ [x].
Proof. destruct xs as [|x ys _] using rev_ind; [by left|]. right. by exists ys, x. Qed.

(** The block that the grown heap gets is put behind the last one. *)
Definition append_block h (raw size : Z) : heap P :=
  let h := set_hdr h raw (mk_block size false 0) in
  if freelist h =? 0 then h <| freelist := raw |>
  else let t := last_block (Cheap.fuel h) h (freelist h) in set_hdr h t ((hd_at h t) <| b_next := raw |>).

Lemma last_after_set h h1 pre x b raw k : at_block h pre x b [] -> hdrs h1 = hdrs h -> raw = heap_brk h ->
  last_block (Cheap.fuel (set_hdr h1 raw k)) (set_hdr h1 raw k) (freelist h) = x.
Proof.
  intros Hb E1 ->. pose proof (ab_ok _ _ _ _ _ Hb) as Hok. pose proof Hok as [H1 H2 _ _]. apply (last_block_spec _ x b pre).
  - cbn. rewrite E1. eapply hseg_ext; [|exact H1]. intros y ([z c] & -> & Hz)%list_elem_of_fmap.
    rewrite lookup_insert_ne; [done|]. cbn. intros E. destruct (laid_in _ _ _ _ _ H2 Hz) as (_ & ? & ?). unfold HDR in *. lia.
  - unfold Cheap.fuel. cbn. rewrite E1. pose proof (ok_fuel _ _ Hok) as Hl. unfold Cheap.fuel in Hl. rewrite length_app in Hl. cbn in Hl.
    assert (size (hdrs h) <= size (<[heap_brk h := k]> (hdrs h)))%nat; [|lia]. rewrite <- !size_dom. apply subseteq_size. set_solver.
Qed.

Lemma append_ok h l h1 k size : heap_ok h l -> grown h h1 k -> 0 <= size -> size mod 8 = 0 -> size + HDR <= k ->
  k mod PAGE_SIZE = 0 -> heap_brk h + k <= EXEC_HEAP_VA + EXEC_HEAP_SIZE ->
  exists l', heap_ok (append_block h1 (heap_brk h) size) l' /\ used l' = used l ++ [(heap_brk h + HDR, size)]
    /\ data (append_block h1 (heap_brk h) size) = data h.
Proof.
  intros Hok [E1 E2 E3 E4] Hs Hs8 Hsk Hk8 Hkt. pose proof Hok as [H1 H2 H3 [H4 H5]]. set (raw := heap_brk h) in *.
  assert (raw <> 0 /\ raw mod 8 = 0) as [Hraw Hraw8] by (unfold EXEC_HEAP_VA, PAGE_SIZE in *; Z.to_euclidean_division_equations; lia).
  assert (Htop : EXEC_HEAP_VA <= raw + k <= EXEC_HEAP_VA + EXEC_HEAP_SIZE /\ (raw + k) mod PAGE_SIZE = 0)
    by (unfold PAGE_SIZE, HDR in *; Z.to_euclidean_division_equations; lia).
  unfold append_block. destruct (snoc_inv l) as [->|(l0 & [x b] & ->)].
  - cbn in H1. cbn [freelist set_hdr update]. rewrite E2, H1, Z.eqb_refl. exists [(raw, mk_block size false 0)]. split_and!; [|done|done].
    constructor; cbn; rewrite ?E1, ?E4; [|unfold HDR in *; lia|by repeat constructor|done].
    by rewrite lookup_insert_eq.
  - assert (Hf : freelist h <> 0) by (destruct l0 as [|[y c] l0]; cbn in H1; destruct H1 as (-> & ? & _); done).
    pose proof (at_block_intro _ _ _ _ _ Hok) as Hb. pose proof Hb as [_ Hm _ _ Hbef _ _ Hl (_ & ? & _) Hrg].
    change (freelist (set_hdr h1 raw (mk_block size false 0))) with (freelist h1). rewrite E2, (proj2 (Z.eqb_neq _ _) Hf).
    rewrite (last_after_set _ _ _ _ _ _ _ Hb) by done. cbn in Hl.
    assert (Hxr : x <> raw) by (unfold HDR, raw in *; lia). rewrite hd_at_set, (proj2 (Z.eqb_neq _ _) Hxr).
    rewrite (hd_at_lookup _ x b) by (by rewrite E1). exists (l0 ++ [(x, b <| b_next := raw |>); (raw, mk_block size false 0)]).
    split_and!; [|rewrite !used_app, !used_cons; cbn; rewrite <- app_assoc; f_equal; by destruct (b_free b)|done].
    eapply change_top; [exact Hb|done|by cbn; rewrite E4| | | |cbn; lia|done| |by repeat constructor]; cbn; rewrite ?E1, ?E4.
    + intros y Hy%Hbef. rewrite !lookup_insert_ne; [done| |]; unfold HDR, raw in *; lia.
    + by rewrite lookup_insert_eq.
    + by rewrite lookup_insert_ne, lookup_insert_eq by done.
    + unfold HDR, raw in *; lia.
Qed.

(** ** The operations *)

Definition round8 (n : Z) : Z := n + 7 - (n + 7) mod 8.

Lemma round8_spec n : n <= round8 n < n + 8 /\ round8 n mod 8 = 0.
Proof. unfold round8. Z.to_euclidean_division_equations; lia. Qed.

Lemma malloc_eq h n : 0 < n < 2 ^ 63 -> malloc h n =
  let b := first_fit (Cheap.fuel h) h (freelist h) (round8 n) in
  if negb (b =? 0) then (b + HDR, take_block h b (round8 n))
  else
    let '(raw, h) := heap_grow h (round8 n + HDR) in
    if raw =? 0 then (0, h) else (raw + HDR, append_block h raw (round8 n)).
Proof.
  intros Hn. unfold malloc. rewrite (proj2 (Z.eqb_neq n 0)) by lia. change (Z.lnot 7) with (Z.lnot (Z.ones 3)).
  rewrite (u64_small (n + 7)), land_clear by (unfold is_u64; lia). change (2 ^ 3) with 8. fold (round8 n).
  pose proof (round8_spec n). unfold HDR. rewrite (u64_small (round8 n + 24)) by (unfold is_u64; lia). done.
Qed.

(** What a call of [malloc] may do: give nothing, when no free block is large enough;
    or a block of at least [n] bytes more. *)
Definition malloced h l h' l' (n p : Z) : Prop :=
  p = 0 /\ used l' = used l /\ Forall (fun xb => b_free xb.2 = true -> b_size xb.2 < n) l
  \/ p <> 0 /\ exists k, n <= k /\ used l' ≡ₚ (p, k) :: used l.

Lemma malloc_ok h l n : heap_ok h l -> 0 < n < 2 ^ 63 ->
  exists p h' l', malloc h n = (p, h') /\ heap_ok h' l' /\ data h' = data h /\ malloced h l h' l' n p.
Proof.
  intros Hok Hn. rewrite malloc_eq by done. cbv zeta. pose proof (round8_spec n) as [Hr Hr8]. pose proof Hok as [H1 H2 H3 [H4 H5]].
  destruct (first_fit_spec h (round8 n) l (Cheap.fuel h) (freelist h) H1 (ok_fuel _ _ Hok)) as [[-> Hno]|(pre & x & b & post & -> & Ex & Hx & Hf & Hs)].
  - cbn [negb Z.eqb]. assert (Hno' : Forall (fun xb => b_free xb.2 = true -> b_size xb.2 < n) l).
    { apply Forall_forall. intros [x b] Hx. rewrite Forall_forall in Hno. specialize (Hno _ Hx).
      unfold aligned in H3. rewrite Forall_forall in H3. specialize (H3 _ Hx). cbn in *. intros Hf. specialize (Hno Hf).
      destruct H3 as [_ H3]. Z.to_euclidean_division_equations; lia. }
    destruct (heap_grow_spec h l (round8 n + HDR) Hok ltac:(unfold HDR; lia)) as [(h' & -> & [E1 E2 E3 E4])|(h1 & k & -> & Hg & Hk & Hk0 & Hkt)].
    + exists 0, h', l. split_and!; [done| |done|left; done]. rewrite Z.add_0_r in E4. constructor; rewrite ?E1, ?E2, ?E4; done.
    + rewrite (proj2 (Z.eqb_neq (heap_brk h) 0)) by (unfold EXEC_HEAP_VA in *; lia).
      destruct (append_ok h l h1 k (round8 n) Hok Hg) as (l' & Hok' & Hu & Hd); [lia|done|done|done|done|].
      eexists _, _, l'. split_and!; [done|done|done|]. right. split; [unfold HDR, EXEC_HEAP_VA in *; lia|].
      exists (round8 n). split; [lia|]. rewrite Hu. symmetry. apply Permutation_cons_append.
  - rewrite Ex, (proj2 (Z.eqb_neq _ _) Hx). cbn [negb].
    destruct (take_block_ok h pre x b post (round8 n) Hok) as (b' & mid & Hok' & Hf' & Hs' & Hmid & Hd); [lia|done|].
    eexists _, _, _. split_and!; [done|exact Hok'|done|]. right.
    split; [destruct (at_block_intro _ _ _ _ _ Hok) as [_ _ _ _ _ _ _ _ _ Hrg]; unfold HDR, EXEC_HEAP_VA in *; lia|].
    exists (b_size b'). split; [lia|]. rewrite !used_app, !used_cons, used_app, Hmid, Hf', Hf. cbn.
    symmetry. apply Permutation_middle.
Qed.

Lemma used_in l p k : (p, k) ∈ used l -> exists pre b post, l = pre ++ (p - HDR, b) :: post /\ b_free b = false /\ b_size b = k.
Proof.
  intros ([x b] & [= -> ->] & [Hf Hx]%list_elem_of_filter)%list_elem_of_fmap. apply list_elem_of_split in Hx as (pre & post & ->).
  exists pre, b, post. cbn. replace (x + HDR - HDR) with x by lia. done.
Qed.

Lemma free_used h l p k : heap_ok h l -> (p, k) ∈ used l ->
  exists l', heap_ok (free h p) l' /\ used l ≡ₚ (p, k) :: used l' /\ data (free h p) = data h.
Proof.
  intros Hok (pre & b & post & -> & Hf & <-)%used_in. destruct (free_ok _ _ _ _ _ Hok) as (b' & post' & Hok' & Hf' & Hu & Hd).
  replace (p - HDR + HDR) with p in * by lia. exists (pre ++ (p - HDR, b') :: post'). split_and!; [done| |done].
  rewrite !used_app, !used_cons, Hf, Hf', Hu. cbn. replace (p - HDR + HDR) with p by lia. symmetry. apply Permutation_middle.
Qed.

Lemma heap_ok_data h l d : heap_ok h l -> heap_ok (h <| data := d |>) l.
Proof. intros [H1 H2 H3 H4]. by constructor. Qed.

Lemma used_size h l p k : heap_ok h l -> (p, k) ∈ used l -> b_size (hd_at h (p - HDR)) = k /\ p <> 0 /\ 0 <= k.
Proof.
  intros Hok (pre & b & post & -> & Hf & <-)%used_in. destruct (at_block_intro _ _ _ _ _ Hok) as [_ Hm _ _ _ _ _ _ _ Hrg].
  rewrite (hd_at_lookup _ _ _ Hm). unfold HDR, EXEC_HEAP_VA in *. lia.
Qed.

(** Blocks in use are apart, headers included. *)
Lemma used_apart h l p k q m : heap_ok h l -> (p, k) ∈ used l -> (q, m) ∈ used l -> p <> q ->
  p + k <= q - HDR \/ q + m <= p - HDR.
Proof.
  intros Hok ([x b] & [= -> ->] & [_ Hx]%list_elem_of_filter)%list_elem_of_fmap
    ([y c] & [= -> ->] & [_ Hy]%list_elem_of_filter)%list_elem_of_fmap Hne.
  destruct (laid_apart _ _ _ _ _ _ _ (ho_laid _ _ Hok) Hx Hy); cbn in *; unfold HDR in *; lia.
Qed.

Lemma used_nodup h l : heap_ok h l -> NoDup (used l).*1.
Proof.
  intros Hok. unfold used. rewrite <- list_fmap_compose. change (fst ∘ (fun xb : Z * block => (xb.1 + HDR, b_size xb.2)))
    with ((fun x => x + HDR) ∘ (fst : Z * block -> Z)). rewrite list_fmap_compose. apply NoDup_fmap_2; [intros x y; lia|].
  eapply sublist_NoDup; [eapply laid_nodup, Hok|]. apply fmap_sublist, sublist_filter.
Qed.

(** A new block is none of those in use, and does not touch them. *)
Lemma new_apart h l u q m : heap_ok h l -> used l ≡ₚ (q, m) :: u -> forall p k, (p, k) ∈ u ->
  p <> q /\ (p + k <= q - HDR \/ q + m <= p - HDR).
Proof.
  intros Hok Hu p k Hp. assert (Hne : p <> q).
  { intros ->. pose proof (used_nodup _ _ Hok) as Hn. rewrite Hu in Hn. apply NoDup_cons in Hn as [Hn _]. apply Hn.
    by apply (list_elem_of_fmap_2 fst _ (q, k)). }
  split; [done|]. apply (used_apart h l); [done| | |done]; rewrite Hu; [by right|left].
Qed.

Lemma memcpy_apart d q p k x : 0 <= k -> p + k <= q \/ q <= p -> ld (memcpy d q p k) x = if within q k x then ld d (p + (x - q)) else ld d x.
Proof. intros Hk Ha. unfold memcpy. rewrite copy_up_ld, Z2Nat.id by lia. done. Qed.

(** The bytes of the blocks in [u] other than the one at [p] are as they were. *)
Definition others_kept (u : list (Z * Z)) (p : Z) (d d' : mem) : Prop :=
  forall q m i, (q, m) ∈ u -> q <> p -> 0 <= i < m -> ld d' (q + i) = ld d (q + i).

(** What a call of [realloc] on the block [(p, k)] may do. *)
Definition realloced (u u' : list (Z * Z)) (d d' : mem) (p k n q : Z) : Prop :=
  q = 0 /\ u' = u /\ d' = d
  \/ q <> 0 /\ (exists m, n <= m /\ (p, k) :: u' ≡ₚ (q, m) :: u)
     /\ (forall i, 0 <= i < k `min` n -> ld d' (q + i) = ld d (p + i)) /\ others_kept u p d d'.

Lemma realloc_ok h l p k n : heap_ok h l -> (p, k) ∈ used l -> 0 < n < 2 ^ 63 ->
  exists q h' l', realloc h p n = (q, h') /\ heap_ok h' l' /\ realloced (used l) (used l') (data h) (data h') p k n q.
Proof.
  intros Hok Hp Hn. destruct (used_size _ _ _ _ Hok Hp) as (Hk & Hp0 & Hk0). unfold realloc.
  rewrite (proj2 (Z.eqb_neq p 0) Hp0), (proj2 (Z.eqb_neq n 0)), Hk by lia. destruct (Z.geb_spec k n) as [Hge|Hlt].
  { exists p, h, l. split_and!; [done|done|]. right. split_and!; [done|by exists k| |]; done. }
  destruct (malloc_ok h l n Hok Hn) as (q & h1 & l1 & -> & Hok1 & Hd & [(-> & Hu & _)|(Hq & m & Hm & Hu)]).
  { exists 0, h1, l1. split_and!; [done|done|]. by left. }
  assert (Hp1 : (p, k) ∈ used l1) by (rewrite Hu; by right). assert (Hq1 : (q, m) ∈ used l1) by (rewrite Hu; left).
  rewrite (proj2 (Z.eqb_neq q 0) Hq), (proj1 (used_size _ _ _ _ Hok1 Hp1)). cbn [negb].
  destruct (free_used _ _ _ _ (heap_ok_data _ _ (memcpy (data h1) q p k) Hok1) Hp1) as (l2 & Hok2 & Hu2 & Hd2).
  eexists q, _, l2. split_and!; [done|exact Hok2|]. right. split_and!; [done|by exists m; rewrite <- Hu, Hu2| |].
  all: rewrite Hd2; cbn [data update]; rewrite Hd; pose proof (new_apart _ _ _ _ _ Hok1 Hu) as Hap;
    destruct (Hap p k Hp) as [Hpq Hpa]; unfold HDR in Hpa.
  - intros i Hi. rewrite memcpy_apart by lia. ranges. f_equal. lia.
  - intros r j i Hr Hne Hi. rewrite memcpy_apart by lia. destruct (Hap r j Hr) as [_ Hra]. unfold HDR in Hra. ranges.
Qed.

(** ** A program that uses its heap *)

(** A new image: no block, the break at the start of the window. *)
Definition exec_heap (pg : P) : heap P := mk_heap ∅ 0 EXEC_HEAP_VA pg ∅.

(** What a program does with its blocks: it passes pointers it was given, asks for
    sizes below 2^63, and stores into its blocks. *)
Inductive call h : heap P -> Prop :=
| call_malloc n : 0 <= n < 2 ^ 63 -> call h (malloc h n).2
| call_calloc a b : 0 <= a -> 0 <= b -> a * b < 2 ^ 63 -> call h (calloc h a b).2
| call_realloc p k n : (p, k) ∈ live h -> 0 <= n < 2 ^ 63 -> call h (realloc h p n).2
| call_free p k : (p, k) ∈ live h -> call h (free h p)
| call_store p k a v : (p, k) ∈ live h -> p <= a < p + k -> call h (h <| data := st (data h) a v |>).

Definition reachable h : Prop := exists pg, rtc call (exec_heap pg) h.

Lemma malloc_zero h : malloc h 0 = (0, h).
Proof. done. Qed.

Lemma malloc_keeps h l n : heap_ok h l -> 0 <= n < 2 ^ 63 -> exists l', heap_ok (malloc h n).2 l'.
Proof.
  intros Hok Hn. destruct (decide (n = 0)) as [->|]; [by exists l|].
  destruct (malloc_ok h l n Hok ltac:(lia)) as (p & h' & l' & -> & Hok' & _). by exists l'.
Qed.

Lemma call_keeps h h' : call h h' -> (exists l, heap_ok h l) -> exists l, heap_ok h' l.
Proof.
  intros Hc [l Hok]. destruct Hc as [n Hn|a b Ha Hb Hab|p k n Hp Hn|p k Hp|p k a v Hp Ha]; rewrite ?(live_used _ _ Hok) in *.
  - by eapply malloc_keeps.
  - unfold calloc. rewrite u64_small by (unfold is_u64; nia).
    destruct (malloc_keeps h l (a * b) Hok) as [l' Hok']; [nia|]. destruct (malloc h (a * b)) as [p h']. cbn in *.
    destruct (p =? 0); exists l'; [done|by apply heap_ok_data].
  - destruct (decide (n = 0)) as [->|].
    + unfold realloc. rewrite (proj2 (Z.eqb_neq p 0)) by (by eapply used_size). cbn.
      destruct (free_used _ _ _ _ Hok Hp) as (l' & ? & _). by exists l'.
    + destruct (realloc_ok h l p k n Hok Hp ltac:(lia)) as (q & h' & l' & -> & ? & _). by exists l'.
  - destruct (free_used _ _ _ _ Hok Hp) as (l' & ? & _). by exists l'.
  - exists l. by apply heap_ok_data.
Qed.

Lemma exec_heap_ok pg : heap_ok (exec_heap pg) [].
Proof. constructor; cbn; try done. constructor. Qed.

Lemma reachable_ok h : reachable h -> exists l, heap_ok h l.
Proof.
  intros [pg H]. assert (Hi : exists l, heap_ok (exec_heap pg) l) by (exists []; apply exec_heap_ok). revert H Hi. generalize (exec_heap pg). intros h0 H Hi.
  induction H as [|h1 h2 h3 H _ IH]; [done|]. apply IH. by eapply call_keeps.
Qed.

(** C31: The blocks a program holds are 8-byte aligned, lie within the heap window below the
    break, and neither they nor the headers in front of them overlap, after any sequence
    of calls with sizes, and for [calloc] products, below 2^63.  Beyond that sizes wrap
    around, see [malloc_overflow]. *)
Theorem heap_blocks_apart h p k (Hr : reachable h) (Hp : (p, k) ∈ live h) :
  p mod 8 = 0 /\ EXEC_HEAP_VA + HDR <= p /\ p + k <= heap_brk h <= EXEC_HEAP_VA + EXEC_HEAP_SIZE
  /\ forall q m, (q, m) ∈ live h -> q <> p -> p + k <= q - HDR \/ q + m <= p - HDR.
Proof.
  destruct (reachable_ok _ Hr) as [l Hok]. rewrite (live_used _ _ Hok) in *. split_and!; [| | |apply Hok|].
  4:{ intros q m Hq Hne. by apply (used_apart h l). }
  all: apply used_in in Hp as (pre & b & post & -> & Hf & <-); pose proof (at_block_intro _ _ _ _ _ Hok) as [_ _ _ _ _ _ _ Hl (Hx & _) Hrg];
    apply laid_le in Hl; unfold HDR, EXEC_HEAP_VA in *; Z.to_euclidean_division_equations; lia.
Qed.

(** [malloc] gives a block of at least the size asked for, which is none of those in
    use; or null, and then no free block was large enough.  No byte changes. *)
Theorem malloc_gives h n p h' (Hr : reachable h) (Hn : 0 < n < 2 ^ 63) (E : malloc h n = (p, h')) :
  data h' = data h /\
  (p = 0 /\ live h' = live h \/ p <> 0 /\ (p ∉ (live h).*1) /\ exists k, n <= k /\ live h' ≡ₚ (p, k) :: live h).
Proof.
  destruct (reachable_ok _ Hr) as [l Hok]. destruct (malloc_ok h l n Hok Hn) as (p' & h1 & l' & E' & Hok' & Hd & Hm).
  rewrite E in E'. injection E' as <- <-. rewrite (live_used _ _ Hok), (live_used _ _ Hok'). split; [done|].
  destruct Hm as [(-> & Hu & _)|(Hp & k & Hk & Hu)]; [by left|right]. split_and!; [done| |by exists k].
  intros ([q m] & -> & Hq)%list_elem_of_fmap. by destruct (new_apart _ _ _ _ _ Hok' Hu q m Hq).
Qed.

(** [realloc] of a block: null, and nothing has changed; or a block of at least the new
    size in its place, with the bytes of the old one, and no other block touched. *)
Theorem realloc_keeps_contents h p k n q h' (Hr : reachable h) (Hp : (p, k) ∈ live h) (Hn : 0 < n < 2 ^ 63)
  (E : realloc h p n = (q, h')) : realloced (live h) (live h') (data h) (data h') p k n q.
Proof.
  destruct (reachable_ok _ Hr) as [l Hok]. rewrite (live_used _ _ Hok) in *.
  destruct (realloc_ok h l p k n Hok Hp Hn) as (q' & h1 & l' & E' & Hok' & Hre). rewrite E in E'. injection E' as <- <-.
  by rewrite (live_used _ _ Hok').
Qed.

Lemma grow_one_page h l m pg : heap_ok h l -> 0 < m <= PAGE_SIZE -> heap_brk h + PAGE_SIZE <= EXEC_HEAP_VA + EXEC_HEAP_SIZE ->
  vmap_alloc_pages (pages h) (heap_brk h) 1 = (true, pg) ->
  heap_grow h m = (heap_brk h, h <| pages := pg |> <| heap_brk := heap_brk h + PAGE_SIZE |>).
Proof.
  intros Hok Hm Hle Hpg. pose proof (ho_top _ _ Hok) as [Ht Hp]. unfold heap_grow, PAGE_SIZE, EXEC_HEAP_VA, EXEC_HEAP_SIZE in *.
  change (Z.lnot 4095) with (Z.lnot (Z.ones 12)). rewrite (u64_small (m + 4095)), land_clear by (unfold is_u64; lia). change (2 ^ 12) with 4096.
  replace (m + 4095 - (m + 4095) mod 4096) with 4096 by (Z.to_euclidean_division_equations; lia).
  rewrite (sys_brk_ask _ _ Hok), (proj2 (Z.ltb_ge (heap_brk h) 0)), u64_small by (unfold is_u64; lia).
  unfold sys_brk, EXEC_HEAP_VA, EXEC_HEAP_SIZE.
  rewrite (proj2 (Z.eqb_neq (heap_brk h) 0)), (proj2 (Z.eqb_neq (heap_brk h + 4096) 0)), (proj2 (Z.ltb_ge (heap_brk h + 4096) _)) by lia.
  destruct (Z.gtb_spec (heap_brk h + 4096) (555745280 + 4194304)); [lia|]. cbn [orb].
  rewrite (page_up_page (heap_brk h)), (page_up_page (heap_brk h + 4096)) by (unfold PAGE_SIZE; Z.to_euclidean_division_equations; lia).
  rewrite (proj2 (Z.gtb_lt (heap_brk h + 4096) (heap_brk h))) by lia. replace (heap_brk h + 4096 - heap_brk h) with 4096 by lia.
  change (4096 / PAGE_SIZE) with 1. rewrite Hpg. cbv beta iota zeta.
  by rewrite (proj2 (Z.ltb_ge (heap_brk h + 4096) 0)), (proj2 (Z.eqb_neq (heap_brk h + 4096) (heap_brk h))) by lia.
Qed.

(** A request just below 2^64 bytes wraps when the header is added: [malloc] grows the
    heap by one page and returns a pointer into it as if the request were met. *)
Theorem malloc_overflow h n pg (Hr : reachable h) (Hn : 2 ^ 64 - 23 <= n <= 2 ^ 64 - 8)
  (Hle : heap_brk h + PAGE_SIZE <= EXEC_HEAP_VA + EXEC_HEAP_SIZE)
  (Hpg : vmap_alloc_pages (pages h) (heap_brk h) 1 = (true, pg)) :
  fst (malloc h n) = heap_brk h + HDR /\ heap_brk (snd (malloc h n)) = heap_brk h + PAGE_SIZE.
Proof.
  destruct (reachable_ok _ Hr) as [l Hok]. pose proof (ho_top _ _ Hok) as [Ht _]. unfold malloc.
  rewrite (proj2 (Z.eqb_neq n 0)) by lia. change (Z.lnot 7) with (Z.lnot (Z.ones 3)).
  rewrite (u64_small (n + 7)), land_clear by (unfold is_u64; lia). change (2 ^ 3) with 8. fold (round8 n).
  pose proof (round8_spec n) as [Hn1 Hn2].
  destruct (first_fit_spec h (round8 n) l (Cheap.fuel h) (freelist h) (ho_seg _ _ Hok) (ok_fuel _ _ Hok))
    as [[-> _]|(pre & x & b & post & -> & _ & _ & _ & Hs)].
  2:{ pose proof (at_block_intro _ _ _ _ _ Hok) as [_ _ _ _ _ _ _ _ _ Hrg]. unfold EXEC_HEAP_VA, EXEC_HEAP_SIZE, HDR in *. lia. }
  cbn [negb Z.eqb]. rewrite (grow_one_page h l _ pg); [|done|unfold u64, HDR, PAGE_SIZE in *; Z.to_euclidean_division_equations; lia|done|done].
  rewrite (proj2 (Z.eqb_neq (heap_brk h) 0)) by (unfold EXEC_HEAP_VA in *; lia). cbv zeta. cbn [fst snd]. split; [done|].
  by case_match.
Qed.

End Heap.

(** ** Examples *)

(** A kernel with that many free pages. *)
Definition page_pool : UserPages Z := {|
  vmap_alloc_pages p _ n := if n <=? p then (true, p - n) else (false, 0);
  mmu_vmap_unmap_user_4k p _ := p + 1 |}.
#[local] Existing Instance page_pool.

(** Two blocks, the first of them with a byte stored. *)
Definition two_blocks : heap Z :=
  let h := (malloc (exec_heap 10) 100).2 in
  let h := h <| data := st (data h) (EXEC_HEAP_VA + HDR) 77 |> in
  (malloc h 200).2.

Lemma two_blocks_reachable : reachable two_blocks.
Proof.
  exists 10. eapply rtc_l; [apply (call_malloc _ 100); lia|]. eapply rtc_l; [|apply rtc_once; apply (call_malloc _ 200); lia].
  eapply (call_store _ (EXEC_HEAP_VA + HDR) 104); [|unfold EXEC_HEAP_VA, HDR; lia]. vm_compute. constructor.
Qed.

Lemma heap_blocks_apart_witness :
  EXEC_HEAP_VA + HDR + 104 <= (EXEC_HEAP_VA + 4096 + HDR) - HDR \/ (EXEC_HEAP_VA + 4096 + HDR) + 200 <= EXEC_HEAP_VA + HDR - HDR.
Proof.
  apply (heap_blocks_apart two_blocks (EXEC_HEAP_VA + HDR) 104).
  - apply two_blocks_reachable.
  - vm_compute. constructor.
  - vm_compute. constructor. constructor.
  - vm_compute. discriminate.
Defined.

Lemma malloc_gives_witness : exists p h', malloc two_blocks 5000 = (p, h') /\ data h' = data two_blocks.
Proof.
  destruct (malloc two_blocks 5000) as [p h'] eqn:E. exists p, h'. split; [done|].
  apply (malloc_gives two_blocks 5000 p h'); [apply two_blocks_reachable|lia|done].
Defined.

Lemma realloc_keeps_contents_witness : exists q h', realloc two_blocks (EXEC_HEAP_VA + HDR) 300 = (q, h')
  /\ q <> 0 /\ realloced (live two_blocks) (live h') (data two_blocks) (data h') (EXEC_HEAP_VA + HDR) 104 300 q.
Proof.
  destruct (realloc two_blocks (EXEC_HEAP_VA + HDR) 300) as [q h'] eqn:E. exists q, h'. split; [done|]. split.
  - intros ->. apply (f_equal fst) in E. vm_compute in E. discriminate.
  - apply (realloc_keeps_contents two_blocks); [apply two_blocks_reachable|vm_compute; constructor|lia|done].
Defined.

Lemma malloc_overflow_witness : fst (malloc two_blocks (2 ^ 64 - 20)) = heap_brk two_blocks + HDR.
Proof.
  refine (proj1 (malloc_overflow two_blocks (2 ^ 64 - 20) 7 two_blocks_reachable _ _ _)).
  - lia.
  - vm_compute. discriminate.
  - vm_compute. reflexivity.
Defined.

End CheapThm.
