(* ===== verification/Mmu.v ===== *)
(** * Page tables: [uts/aarch64/mmu.c]

    The boot map, and a tree of tables for each process: a level 0, 1 and 2 table made
    by [mmu_vmap_create], and level 3 tables added as pages are mapped.  Tables are
    pages of the memory of Kmem.v, an entry being a 64-bit word; the kernel runs
    identity-mapped, so a table is reached at its physical address.  The five tables of
    the boot map are static; where the linker puts them is a parameter, as are the level 1
    tables that [mmu_map_device_1gb] takes for devices while the system starts.

    Barriers, TLB and cache maintenance leave the tables alone and are not modelled.
    [translate] is what the processor does with the tables: the stage 1 walk of the
    AArch64 architecture with a 4 KB granule and 48-bit addresses. *)

From stdpp Require Import base numbers list gmap.
From Stdlib Require Import ZArith Lia Bool.
From S2P Require Import Prelude Kmem.

Module Mmu.
Import Kmem.

Class BootTables := {
  l0_table : Z;
  l1_table : Z;
  l2_table : Z;
  l2_table_hi : Z;
  l1_table_uart : Z;
  l1_tables_dev : list Z }.

(** ** Descriptors *)

Definition ENTRIES_PER_TABLE : Z := 512.
Definition ATTR_NORMAL_IDX : Z := 0.
Definition ATTR_DEVICE_IDX : Z := 2.

Definition D_VALID : Z := Z.shiftl 1 0.
Definition D_TABLE : Z := Z.shiftl 1 1.
Definition D_ATTRIDX (n : Z) : Z := Z.shiftl (Z.land n 0x7) 2.
Definition D_AP_RW_EL1 : Z := Z.shiftl 0 6.
Definition D_AP_RW_EL0 : Z := Z.shiftl 1 6.
Definition D_SH_INNER : Z := Z.shiftl 3 8.
Definition D_SH_NONE : Z := Z.shiftl 0 8.
Definition D_AF : Z := Z.shiftl 1 10.
Definition D_PXN : Z := Z.shiftl 1 53.
Definition D_UXN : Z := Z.shiftl 1 54.

(** Bits 12 to 47. *)
Definition D_PA_MASK : Z := 0x0000fffffffff000.

Definition BLOCK_2M_SHIFT : Z := 21.
Definition BLOCK_2M_SIZE : Z := Z.shiftl 1 BLOCK_2M_SHIFT.
Definition BLOCK_1G_SHIFT : Z := 30.
Definition BLOCK_1G_SIZE : Z := Z.shiftl 1 BLOCK_1G_SHIFT.
Definition BLOCK_1G_MASK : Z := BLOCK_1G_SIZE - 1.
Definition BLOCK_512G_SHIFT : Z := 39.
Definition PAGE_SHIFT : Z := 12.
Definition PAGE_MASK : Z := PAGE_SIZE - 1.
Definition PERIPH_BASE : Z := 0x08000000.
Definition PERIPH_END : Z := 0x40000000.

Definition lors (l : list Z) : Z := foldr Z.lor 0 l.

Definition table_desc (tab : Z) : Z := lors [tab; D_VALID; D_TABLE].
Definition normal_desc (pa : Z) : Z :=
  lors [pa; D_VALID; D_ATTRIDX ATTR_NORMAL_IDX; D_AP_RW_EL1; D_SH_INNER; D_AF; D_UXN].
Definition device_desc (pa : Z) : Z :=
  lors [pa; D_VALID; D_ATTRIDX ATTR_DEVICE_IDX; D_AP_RW_EL1; D_SH_NONE; D_AF; D_PXN; D_UXN].
Definition user_block_desc (pa : Z) : Z :=
  lors [pa; D_VALID; D_ATTRIDX ATTR_NORMAL_IDX; D_AP_RW_EL0; D_SH_INNER; D_AF].
Definition user_page_desc (pa : Z) : Z :=
  lors [Z.land pa D_PA_MASK; D_VALID; D_TABLE; D_ATTRIDX ATTR_NORMAL_IDX; D_AP_RW_EL0; D_SH_INNER; D_AF].

(** [tab[i]] *)
Definition entry (st : pmm) (tab i : Z) : Z := load (mem st) (tab + 8 * i).
Definition set_entry (st : pmm) (tab i v : Z) : pmm := st <| mem := <[tab + 8 * i := v]> (mem st) |>.

(** [for (; i < 512; i++) tab[i] = f(i)], with [n] entries to go. *)
Fixpoint fill (n : nat) (st : pmm) (tab i : Z) (f : Z -> Z) : pmm :=
  match n with
  | O => st
  | S n => fill n (set_entry st tab i (f i)) tab (i + 1) f
  end.

(** [for (; i < 512; i++) dst[i] = src[i]] *)
Fixpoint copy_entries (n : nat) (st : pmm) (dst src i : Z) : pmm :=
  match n with
  | O => st
  | S n => copy_entries n (set_entry st dst i (entry st src i)) dst src (i + 1)
  end.

Definition l0_index (va : Z) : Z := Z.land (u32 (Z.shiftr va BLOCK_512G_SHIFT)) 0x1ff.
Definition l1_index (va : Z) : Z := Z.land (u32 (Z.shiftr va BLOCK_1G_SHIFT)) 0x1ff.
Definition l2_index (va : Z) : Z := Z.land (u32 (Z.shiftr va BLOCK_2M_SHIFT)) 0x1ff.
Definition l3_index (va : Z) : Z := Z.land (u32 (Z.shiftr va PAGE_SHIFT)) 0x1ff.

(** ** The boot map *)

Section Boot.
Context {BT : BootTables}.

Definition build_identity_map (st : pmm) : pmm :=
  let st := set_entry st l0_table 0 (table_desc l1_table) in
  let st := set_entry st l1_table 0 (table_desc l2_table) in
  let st := set_entry st l1_table 1 (table_desc l2_table_hi) in
  let st := fill 512 st l2_table_hi 0 (fun i => normal_desc (0x40000000 + Z.shiftl i BLOCK_2M_SHIFT)) in
  fill 512 st l2_table 0 (fun i =>
    let pa := Z.shiftl i BLOCK_2M_SHIFT in
    if (pa >=? PERIPH_BASE) && (pa <? PERIPH_END) then device_desc pa else normal_desc pa).

Definition mmu_map_user_2mb (st : pmm) (va pa : Z) : pmm :=
  set_entry st l2_table (l2_index va) (user_block_desc pa).

Definition mmu_map_device_1gb (st : pmm) (va : Z) : pmm :=
  let base := Z.land va (u64 (Z.lnot BLOCK_1G_MASK)) in
  let l0_idx := l0_index base in
  let l1_idx := l1_index base in
  let '(l1, st) :=
    if l0_idx =? 0 then (l1_table, st)
    else
      let l0_desc := entry st l0_table l0_idx in
      if has l0_desc D_VALID then (Z.land l0_desc (u64 (Z.lnot 0xfff)), st)
      else
        let '(l1, st) := pmm_alloc st in
        if l1 =? 0 then (0, st)
        else
          let st := fill 512 st l1 0 (fun _ => 0) in
          (l1, set_entry st l0_table l0_idx (table_desc l1)) in
  if l1 =? 0 then st else set_entry st l1 l1_idx (device_desc base).

Definition mmu_init (st : pmm) (efi_uart_base : Z) : pmm :=
  let st := build_identity_map st in
  if negb (efi_uart_base =? 0) then
    let base := Z.land efi_uart_base (u64 (Z.lnot BLOCK_1G_MASK)) in
    let l0i := l0_index base in
    let l1i := l1_index base in
    let l2i := Z.land (u32 (Z.shiftr efi_uart_base BLOCK_2M_SHIFT)) (ENTRIES_PER_TABLE - 1) in
    let block := device_desc (Z.land efi_uart_base (u64 (Z.lnot (BLOCK_2M_SIZE - 1)))) in
    if (l0i =? 0) && (l1i =? 1) then set_entry st l2_table_hi l2i block
    else if l0i =? 0 then set_entry st l2_table l2i block
    else
      let st := set_entry st l0_table l0i (table_desc l1_table_uart) in
      set_entry st l1_table_uart l1i (device_desc base)
  else st.

(** ** The tables of a process *)

Definition DLOPEN_MAX_SLOTS : nat := 4.

Record vm_map := mk_vm_map {
  l0_phys : Z;
  l1_phys : Z;
  l2_phys : Z;
  heap_brk : Z;
  spawn_next : Z;
  refs : Z;
  dlopen_slots : list (Z * bytes);
  dlerror_msg : bytes;
  cwd : bytes;
  anon_next : Z }.
#[export] Instance vm_map_rebuild : Rebuild vm_map :=
  rpure mk_vm_map <:> l0_phys <:> l1_phys <:> l2_phys <:> heap_brk <:> spawn_next <:> refs
    <:> dlopen_slots <:> dlerror_msg <:> cwd <:> anon_next.

Definition vmap_dup_kernel_l2 (st : pmm) (dst_l2 : Z) : pmm := copy_entries 512 st dst_l2 l2_table 0.

Definition pmm_free_nn (st : pmm) (p : Z) : pmm := if negb (p =? 0) then pmm_free st p else st.

Definition mmu_vmap_create (st : pmm) (vm : vm_map) : Z * vm_map * pmm :=
  let '(l0, st) := pmm_alloc st in
  let '(l1, st) := pmm_alloc st in
  let '(l2, st) := pmm_alloc st in
  if (l0 =? 0) || (l1 =? 0) || (l2 =? 0) then
    (-1, vm, pmm_free_nn (pmm_free_nn (pmm_free_nn st l0) l1) l2)
  else
    let st := set_entry st l0 0 (table_desc l1) in
    let st := set_entry st l1 0 (table_desc l2) in
    let st := copy_entries 511 st l1 l1_table 1 in
    let st := copy_entries 511 st l0 l0_table 1 in
    let st := vmap_dup_kernel_l2 st l2 in
    (0, vm <| l0_phys := l0 |> <| l1_phys := l1 |> <| l2_phys := l2 |>, st).

(** The inner loop of [vmap_free_user_l3s]: the pages of one level 3 table. *)
Fixpoint free_l3_pages (n : nat) (st : pmm) (l3 j : Z) : pmm :=
  match n with
  | O => st
  | S n =>
      let pe := entry st l3 j in
      let st := if negb (has pe D_VALID) then st else pmm_free st (Z.land pe D_PA_MASK) in
      free_l3_pages n st l3 (j + 1)
  end.

Fixpoint free_user_l3s (n : nat) (st : pmm) (l2 i : Z) : pmm :=
  match n with
  | O => st
  | S n =>
      let e := entry st l2 i in
      let st :=
        if negb (has e D_VALID) || negb (has e D_TABLE) then st
        else
          let l3 := Z.land e D_PA_MASK in
          let st := free_l3_pages 512 st l3 0 in
          let st := pmm_free st l3 in
          set_entry st l2 i 0 in
      free_user_l3s n st l2 (i + 1)
  end.
Definition vmap_free_user_l3s (st : pmm) (l2 : Z) : pmm := free_user_l3s 512 st l2 0.

Definition mmu_vmap_destroy (st : pmm) (vm : vm_map) : vm_map * pmm :=
  let st := if negb (l2_phys vm =? 0) then vmap_free_user_l3s st (l2_phys vm) else st in
  let st := pmm_free_nn st (l0_phys vm) in
  let st := pmm_free_nn st (l1_phys vm) in
  let st := pmm_free_nn st (l2_phys vm) in
  (vm <| l0_phys := 0 |> <| l1_phys := 0 |> <| l2_phys := 0 |>, st).

Definition mmu_vmap_map_user_2mb (st : pmm) (vm : vm_map) (va pa : Z) : pmm :=
  if l2_phys vm =? 0 then st else set_entry st (l2_phys vm) (l2_index va) (user_block_desc pa).

(** The level 3 table for [va], or null. *)
Definition vmap_l3_for (st : pmm) (vm : vm_map) (va : Z) : Z * pmm :=
  if l2_phys vm =? 0 then (0, st)
  else
    let e := entry st (l2_phys vm) (l2_index va) in
    if has e D_VALID && has e D_TABLE then (Z.land e D_PA_MASK, st)
    else
      let '(l3, st) := pmm_alloc st in
      if l3 =? 0 then (0, st) else (l3, set_entry st (l2_phys vm) (l2_index va) (table_desc l3)).

Definition mmu_vmap_map_user_4k (st : pmm) (vm : vm_map) (va pa : Z) : Z * pmm :=
  let '(l3, st) := vmap_l3_for st vm va in
  if l3 =? 0 then (-1, st) else (0, set_entry st l3 (l3_index va) (user_page_desc pa)).

(** The level 3 entry of [va], with the address of its table; [None] if the level 2
    entry is invalid or a block. *)
Definition l3_entry (st : pmm) (vm : vm_map) (va : Z) : option (Z * Z) :=
  if l2_phys vm =? 0 then None
  else
    let e2 := entry st (l2_phys vm) (l2_index va) in
    if negb (has e2 D_VALID) then None
    else if negb (has e2 D_TABLE) then None
    else
      let l3 := Z.land e2 D_PA_MASK in
      let e3 := entry st l3 (l3_index va) in
      if negb (has e3 D_VALID) then None else Some (l3, e3).

Definition mmu_vmap_user_va_to_kva (st : pmm) (vm : vm_map) (va : Z) : Z :=
  match l3_entry st vm va with
  | None => 0
  | Some (_, e3) => let pa := Z.land e3 D_PA_MASK in pa + Z.land va PAGE_MASK
  end.

Definition mmu_vmap_unmap_user_4k (st : pmm) (vm : vm_map) (va : Z) : Z * pmm :=
  match l3_entry st vm va with
  | None => (0, st)
  | Some (l3, e3) =>
      let pa := Z.land e3 D_PA_MASK in
      (pa, pmm_free (set_entry st l3 (l3_index va) 0) pa)
  end.

End Boot.

(** ** Bytes

    The byte at address [a] is part of the word at [a & ~7], lowest byte first. *)

Definition word_of (a : Z) : Z := a - a mod 8.
Definition byte_shift (a : Z) : Z := 8 * (a mod 8).

Definition ld8 (m : gmap Z Z) (a : Z) : Z := Z.land (Z.shiftr (load m (word_of a)) (byte_shift a)) 0xff.
Definition st8 (m : gmap Z Z) (a v : Z) : gmap Z Z :=
  <[word_of a := Z.lor (Z.ldiff (load m (word_of a)) (Z.shiftl 0xff (byte_shift a)))
                       (Z.shiftl (Z.land v 0xff) (byte_shift a))]> m.

(** [kmemcpy] from a buffer of the kernel, whose bytes from [s] on are [src]. *)
Fixpoint copy_from (n : nat) (m : gmap Z Z) (d : Z) (src : Z -> Z) (s : Z) : gmap Z Z :=
  match n with
  | O => m
  | S n => copy_from n (st8 m d (src s)) (d + 1) src (s + 1)
  end.

(** [kmemcpy] from one place to another. *)
Fixpoint copy_phys (n : nat) (m : gmap Z Z) (d s : Z) : gmap Z Z :=
  match n with
  | O => m
  | S n => copy_phys n (st8 m d (ld8 m s)) (d + 1) (s + 1)
  end.

(** [kmemset] *)
Fixpoint set_phys (n : nat) (m : gmap Z Z) (d c : Z) : gmap Z Z :=
  match n with
  | O => m
  | S n => set_phys n (st8 m d c) (d + 1) c
  end.

(** ** The processor

    The output address and the last descriptor of the walk from [ttbr] for [va];
    [None] is a fault. *)

Definition leaf (d : Z) (va : Z) (shift : Z) : option (Z * Z) :=
  if has d D_AF then Some (Z.land (Z.land d D_PA_MASK) (Z.lnot (Z.ones shift)) + Z.land va (Z.ones shift), d)
  else None.

Definition translate (m : gmap Z Z) (ttbr va : Z) : option (Z * Z) :=
  let at_ tab shift := load m (tab + 8 * Z.land (Z.shiftr va shift) 0x1ff) in
  if (va <? 0) || (2 ^ 48 <=? va) then None
  else
    let d0 := at_ ttbr 39 in
    if negb (has d0 D_VALID && has d0 D_TABLE) then None
    else
      let d1 := at_ (Z.land d0 D_PA_MASK) 30 in
      if negb (has d1 D_VALID) then None
      else if negb (has d1 D_TABLE) then leaf d1 va 30
      else
        let d2 := at_ (Z.land d1 D_PA_MASK) 21 in
        if negb (has d2 D_VALID) then None
        else if negb (has d2 D_TABLE) then leaf d2 va 21
        else
          let d3 := at_ (Z.land d2 D_PA_MASK) 12 in
          if negb (has d3 D_VALID && has d3 D_TABLE) then None else leaf d3 va 12.

(** An unprivileged access: [AP] must allow it. *)
Definition user_access (m : gmap Z Z) (ttbr va : Z) : option Z :=
  match translate m ttbr va with
  | Some (pa, d) => if has d D_AP_RW_EL0 then Some pa else None
  | None => None
  end.

End Mmu.
