(* ===== verification/MmuInv.v ===== *)
(** * Page tables as a map

    The tree of a process against the map from page numbers to physical pages that it
    stands for, what each operation of Mmu.v does to that map, and which pages of memory
    it may touch. *)

From stdpp Require Import base numbers list gmap.
From Stdlib Require Import ZArith Lia Bool.
From S2P Require Import Prelude Kmem Mmu.

Module MmuInv.
Import Kmem Mmu.
#[local] Opaque zero_page.

(** Membership in a list that is written out. *)
Ltac inlist := solve [repeat first [apply list_elem_of_here | apply list_elem_of_further]].

(** ** Bits of a descriptor *)

Lemma ldiff_ones_mod x n : 0 <= n -> Z.ldiff x (Z.ones n) = x - x mod 2 ^ n.
Proof.
  intros Hn. rewrite Z.ldiff_ones_r, Z.shiftl_mul_pow2, Z.shiftr_div_pow2 by done.
  pose proof (Z.pow_pos_nonneg 2 n). pose proof (Z.div_mod x (2 ^ n)). lia.
Qed.

Lemma land_pa_mask x : Z.land x D_PA_MASK = x mod 2 ^ 48 - x mod 4096.
Proof.
  change D_PA_MASK with (Z.land (Z.ones 48) (Z.lnot (Z.ones 12))).
  rewrite Z.land_assoc, Z.land_ones, <- Z.ldiff_land, ldiff_ones_mod by lia. change (2 ^ 12) with 4096. f_equal.
  apply Z.mod_mod_divide. by exists (2 ^ 36).
Qed.

(** A page whose address fits a descriptor. *)
Definition frame (p : Z) : Prop := page p /\ p < 2 ^ 48.

Lemma frame_mask p : frame p -> Z.land p D_PA_MASK = p.
Proof. intros [[Hp Hm] Hl]. rewrite land_pa_mask, Z.mod_small by lia. unfold PAGE_SIZE in Hm. lia. Qed.

Lemma frame_bit p i : frame p -> 0 <= i < 12 -> Z.testbit p i = false.
Proof.
  intros [[Hp Hm] _] Hi. rewrite (Z.div_mod p 4096) by lia. unfold PAGE_SIZE in Hm. rewrite Hm, Z.add_0_r.
  change 4096 with (2 ^ 12). rewrite Z.mul_comm, Z.mul_pow2_bits by lia. apply Z.testbit_neg_r. lia.
Qed.

Lemma land_low_mask c : 0 <= c < 4096 -> Z.land c D_PA_MASK = 0.
Proof. intros Hc. rewrite land_pa_mask, !Z.mod_small; lia. Qed.

Lemma table_desc_eq p : table_desc p = Z.lor p 3.
Proof. unfold table_desc, lors. cbn [foldr]. by rewrite Z.lor_0_r. Qed.
Lemma user_page_desc_eq p : user_page_desc p = Z.lor (Z.land p D_PA_MASK) 0x743.
Proof. reflexivity. Qed.

Lemma desc_mask p c : frame p -> 0 <= c < 4096 -> Z.land (Z.lor p c) D_PA_MASK = p.
Proof. intros Hp Hc. by rewrite Z.land_lor_distr_l, frame_mask, land_low_mask, Z.lor_0_r. Qed.

Lemma desc_has p c i : frame p -> 0 <= i < 12 -> has (Z.lor p c) (2 ^ i) = Z.testbit c i.
Proof. intros Hp Hi. rewrite has_bit, Z.lor_spec, frame_bit by (done || lia). done. Qed.

Lemma table_desc_mask p : frame p -> Z.land (table_desc p) D_PA_MASK = p.
Proof. intros Hp. rewrite table_desc_eq. apply desc_mask; [done|lia]. Qed.
Lemma table_desc_valid p : frame p -> has (table_desc p) D_VALID = true.
Proof. intros Hp. rewrite table_desc_eq. change D_VALID with (2 ^ 0). rewrite desc_has by (done || lia). done. Qed.
Lemma table_desc_table p : frame p -> has (table_desc p) D_TABLE = true.
Proof. intros Hp. rewrite table_desc_eq. change D_TABLE with (2 ^ 1). rewrite desc_has by (done || lia). done. Qed.

Lemma user_page_mask p : frame p -> Z.land (user_page_desc p) D_PA_MASK = p.
Proof. intros Hp. rewrite user_page_desc_eq, (frame_mask p) by done. apply desc_mask; [done|lia]. Qed.
Lemma user_page_has p i : frame p -> 0 <= i < 12 -> has (user_page_desc p) (2 ^ i) = Z.testbit 0x743 i.
Proof. intros Hp Hi. rewrite user_page_desc_eq, (frame_mask p) by done. by apply desc_has. Qed.
Lemma user_page_valid p : frame p -> has (user_page_desc p) D_VALID = true.
Proof. intros Hp. change D_VALID with (2 ^ 0). rewrite user_page_has by (done || lia). done. Qed.

(** ** Addresses *)

Definition NPAGES : Z := 2 ^ 18.
Definition vpn (va : Z) : Z := (va / 4096) mod NPAGES.

Lemma vpn_range va : 0 <= vpn va < NPAGES.
Proof. unfold vpn, NPAGES. apply Z.mod_pos_bound. lia. Qed.

Lemma index_eq va k : 0 <= k <= 39 -> Z.land (u32 (Z.shiftr va k)) 0x1ff = (va / 2 ^ k) mod 512.
Proof.
  intros Hk. change 0x1ff with (Z.ones 9). rewrite Z.land_ones, Z.shiftr_div_pow2 by lia. unfold u32.
  change (2 ^ 9) with 512. apply Z.mod_mod_divide. by exists (2 ^ 23).
Qed.

Lemma l2_index_vpn va : l2_index va = vpn va / 512.
Proof.
  unfold l2_index. rewrite index_eq by (unfold BLOCK_2M_SHIFT; lia). unfold vpn, BLOCK_2M_SHIFT, NPAGES. change (2 ^ 21) with 2097152.
  change (2 ^ 18) with 262144. Z.to_euclidean_division_equations; lia.
Qed.
Lemma l3_index_vpn va : l3_index va = vpn va mod 512.
Proof.
  unfold l3_index. rewrite index_eq by (unfold PAGE_SHIFT; lia). unfold vpn, PAGE_SHIFT, NPAGES. change (2 ^ 12) with 4096.
  change (2 ^ 18) with 262144. Z.to_euclidean_division_equations; lia.
Qed.

Lemma vpn_split v : 0 <= v < NPAGES -> 0 <= v / 512 < 512 /\ 0 <= v mod 512 < 512 /\ 512 * (v / 512) + v mod 512 = v.
Proof. unfold NPAGES. change (2 ^ 18) with 262144. Z.to_euclidean_division_equations; lia. Qed.
Lemma vpn_join i j : 0 <= i < 512 -> 0 <= j < 512 ->
  (512 * i + j) / 512 = i /\ (512 * i + j) mod 512 = j /\ 0 <= 512 * i + j < NPAGES.
Proof. unfold NPAGES. change (2 ^ 18) with 262144. Z.to_euclidean_division_equations; lia. Qed.

Lemma slot_page tab i : page tab -> 0 <= i < 512 -> slab_of (tab + 8 * i) = tab.
Proof. intros Hp Hi. apply slab_of_in; [done|]. unfold PAGE_SIZE. lia. Qed.

(** ** Memory apart from some pages *)

Definition same_except (m m' : gmap Z Z) (ps : list Z) : Prop := forall x, slab_of x ∉ ps -> load m' x = load m x.

Lemma same_except_refl m ps : same_except m m ps.
Proof. done. Qed.
Lemma same_except_trans m1 m2 m3 ps : same_except m1 m2 ps -> same_except m2 m3 ps -> same_except m1 m3 ps.
Proof. intros H1 H2 x Hx. by rewrite H2, H1. Qed.
Lemma same_except_weaken m m' ps ps' : ps ⊆ ps' -> same_except m m' ps -> same_except m m' ps'.
Proof. intros Hs H x Hx. apply H. set_solver. Qed.

Lemma same_except_set st tab i v ps : page tab -> 0 <= i < 512 -> tab ∈ ps ->
  same_except (mem st) (mem (set_entry st tab i v)) ps.
Proof.
  intros Hp Hi Ht x Hx. cbn. apply load_insert_ne. intros <-. apply Hx. by rewrite slot_page.
Qed.

Lemma same_except_zero p m ps : page p -> p ∈ ps -> same_except m (zero_page p m) ps.
Proof. intros Hp Hi x Hx. apply zero_page_other; [done|]. intros E. apply Hx. by rewrite E. Qed.

(** What a free list needs of memory. *)
Lemma pmm_repr_frame st st' pl ps : pmm_repr st pl -> freelist st' = freelist st -> free_count st' = free_count st ->
  same_except (mem st) (mem st') ps -> (forall p, p ∈ pl -> p ∉ ps) -> pmm_repr st' pl.
Proof.
  intros (H1 & H2 & H3 & H4 & H5) Ef Ec Hs Hd. split_and!; try done; [|congruence]. rewrite Ef.
  eapply chain_ext; [|exact H1]. intros x Hx. apply Hs. rewrite page_slab_of; [by apply Hd|].
  by eapply (proj1 (Forall_forall _ _)).
Qed.

Lemma set_entry_repr st tab i v pl : pmm_repr st pl -> page tab -> 0 <= i < 512 -> tab ∉ pl -> pmm_repr (set_entry st tab i v) pl.
Proof.
  intros Hr Hp Hi Hn. eapply (pmm_repr_frame st _ pl [tab]); [done|done|done| |].
  - apply same_except_set; [done|done|]. apply list_elem_of_here.
  - intros p Hp' [->|[]%elem_of_nil]%elem_of_cons. done.
Qed.

Lemma entry_set_eq st tab i v : entry (set_entry st tab i v) tab i = v.
Proof. unfold entry, set_entry. cbn. by rewrite load_insert_eq. Qed.
Lemma entry_set_ne st tab i v i' : i <> i' -> entry (set_entry st tab i v) tab i' = entry st tab i'.
Proof. intros H. unfold entry, set_entry. cbn. rewrite load_insert_ne; [done|lia]. Qed.
Lemma entry_set st tab i v i' : entry (set_entry st tab i v) tab i' = if decide (i' = i) then v else entry st tab i'.
Proof. destruct (decide (i' = i)) as [->|]; [apply entry_set_eq|by apply entry_set_ne]. Qed.

Lemma entry_same st st' ps tab i : same_except (mem st) (mem st') ps -> page tab -> 0 <= i < 512 -> tab ∉ ps ->
  entry st' tab i = entry st tab i.
Proof. intros Hs Hp Hi Hn. unfold entry. apply Hs. by rewrite slot_page. Qed.

(** There are not more free pages than the counter can hold. *)
Lemma frames_len l : NoDup l -> Forall frame l -> zlen l <= 2 ^ 36.
Proof.
  intros Hd Hf. set (N := 2 ^ 36). assert (Hsub : (fun p => p / 4096) <$> l ⊆+ seqZ 0 N).
  { apply NoDup_submseteq.
    - apply NoDup_fmap_2_strong; [|done]. intros x y Hx Hy E. rewrite Forall_forall in Hf.
      destruct (Hf x Hx) as [[_ Hx0] _], (Hf y Hy) as [[_ Hy0] _]. unfold PAGE_SIZE in *. rewrite (Z.div_mod x 4096), (Z.div_mod y 4096) by lia. lia.
    - intros q (p & -> & Hp)%list_elem_of_fmap. apply elem_of_seqZ. rewrite Forall_forall in Hf. destruct (Hf p Hp) as [[Hp0 _] Hp1].
      split; [apply Z.div_pos; lia|]. apply Z.div_lt_upper_bound; [lia|]. change (4096 * (0 + N)) with (2 ^ 48). done. }
  apply submseteq_length in Hsub. rewrite length_fmap, length_seqZ in Hsub. unfold zlen.
  assert (0 <= N) by (unfold N; lia). clearbody N. lia.
Qed.

Lemma pmm_push st a l : pmm_repr st l -> Forall frame l -> frame a -> a ∉ l -> pmm_repr (pmm_free st a) (a :: l).
Proof.
  intros Hr Hf Ha Hn. apply pmm_free_push; [done|apply Ha|done|]. destruct Hr as (_ & Hd & _). pose proof (frames_len l Hd Hf). lia.
Qed.

Lemma pmm_free_same st a : page a -> same_except (mem st) (mem (pmm_free st a)) [a].
Proof.
  intros Ha. unfold pmm_free. destruct (a =? 0); [done|]. intros x Hx. cbn. apply load_insert_ne. intros <-. apply Hx.
  rewrite page_slab_of by done. left.
Qed.

(** ** The tree of a process *)

(** What the level 0 and 1 tables and the blocks of the level 2 table hold, apart from
    the process's own entries. *)
Record ktab := mk_ktab { k0 : Z -> Z; k1 : Z -> Z; k2 : Z -> Z }.

(** No entry of the level 2 table of the boot map is a table. *)
Definition ktab_ok (K : ktab) : Prop := forall i, 0 <= i < 512 -> has (k2 K i) D_TABLE = false.

Record vtree := mk_vtree { t_l3 : gmap Z Z; t_pg : gmap Z Z }.

Definition tables (vm : vm_map) (t : vtree) : list Z :=
  l0_phys vm :: l1_phys vm :: l2_phys vm :: (map_to_list (t_l3 t)).*2.
Definition upages (t : vtree) : list Z := (map_to_list (t_pg t)).*2.
Definition owned (vm : vm_map) (t : vtree) : list Z := tables vm t ++ upages t.

Record vm_tree (K : ktab) (m : gmap Z Z) (vm : vm_map) (t : vtree) : Prop := mk_vm_tree {
  vt_nodup : NoDup (owned vm t);
  vt_frames : Forall frame (owned vm t);
  vt_l0 : forall i, 0 <= i < 512 -> load m (l0_phys vm + 8 * i) = if decide (i = 0) then table_desc (l1_phys vm) else k0 K i;
  vt_l1 : forall i, 0 <= i < 512 -> load m (l1_phys vm + 8 * i) = if decide (i = 0) then table_desc (l2_phys vm) else k1 K i;
  vt_l2 : forall i, 0 <= i < 512 -> load m (l2_phys vm + 8 * i) = match t_l3 t !! i with Some p => table_desc p | None => k2 K i end;
  vt_l3 : forall i p, t_l3 t !! i = Some p -> 0 <= i < 512 /\
    forall j, 0 <= j < 512 -> load m (p + 8 * j) = match t_pg t !! (512 * i + j) with Some a => user_page_desc a | None => 0 end;
  vt_pg : forall v a, t_pg t !! v = Some a -> 0 <= v < NPAGES /\ is_Some (t_l3 t !! (v / 512)) }.

Lemma elem_of_vals (m : gmap Z Z) p : p ∈ (map_to_list m).*2 <-> exists i, m !! i = Some p.
Proof.
  rewrite list_elem_of_fmap. split.
  - intros ([i q] & -> & H%elem_of_map_to_list). by exists i.
  - intros [i H]. exists (i, p). split; [done|]. by apply elem_of_map_to_list.
Qed.

Lemma vals_insert (m : gmap Z Z) i p : m !! i = None -> (map_to_list (<[i := p]> m)).*2 ≡ₚ p :: (map_to_list m).*2.
Proof. intros H. by rewrite map_to_list_insert. Qed.

Lemma vals_delete (m : gmap Z Z) i p : m !! i = Some p -> (map_to_list m).*2 ≡ₚ p :: (map_to_list (delete i m)).*2.
Proof. intros H. rewrite <- (map_to_list_delete m i p H). done. Qed.

Lemma owned_insert vm t v a : t_pg t !! v = None -> owned vm (mk_vtree (t_l3 t) (<[v := a]> (t_pg t))) ≡ₚ a :: owned vm t.
Proof. intros H. unfold owned, upages. cbn [t_pg]. rewrite vals_insert by done. symmetry. apply Permutation_middle. Qed.
Lemma owned_delete vm t v a : t_pg t !! v = Some a -> owned vm t ≡ₚ a :: owned vm (mk_vtree (t_l3 t) (delete v (t_pg t))).
Proof. intros H. unfold owned, upages. cbn [t_pg]. rewrite (vals_delete _ _ _ H). symmetry. apply Permutation_middle. Qed.
Lemma owned_remap vm t v a : owned vm (mk_vtree (t_l3 t) (<[v := a]> (t_pg t))) ≡ₚ a :: owned vm (mk_vtree (t_l3 t) (delete v (t_pg t))).
Proof.
  rewrite <- insert_delete_eq. unfold owned, upages. cbn [t_pg t_l3]. rewrite vals_insert by apply lookup_delete_eq.
  symmetry. apply Permutation_middle.
Qed.
Lemma owned_insert_l3 vm t i p : t_l3 t !! i = None -> owned vm (mk_vtree (<[i := p]> (t_l3 t)) (t_pg t)) ≡ₚ p :: owned vm t.
Proof.
  intros H. unfold owned, tables, upages. cbn [t_l3 t_pg]. rewrite vals_insert by done. cbn. symmetry.
  apply (Permutation_middle [_; _; _]).
Qed.

Lemma table_0 vm t : l0_phys vm ∈ tables vm t.
Proof. left. Qed.
Lemma table_1 vm t : l1_phys vm ∈ tables vm t.
Proof. right. left. Qed.
Lemma table_2 vm t : l2_phys vm ∈ tables vm t.
Proof. right. right. left. Qed.
#[local] Hint Resolve table_0 table_1 table_2 : core.

Section Tree.
Context {K : ktab} {m : gmap Z Z} {vm : vm_map} {t : vtree} (Ht : vm_tree K m vm t).

Lemma owned_frame p : p ∈ owned vm t -> frame p.
Proof. apply (proj1 (Forall_forall _ _) (vt_frames _ _ _ _ Ht)). Qed.
Lemma l2_owned : l2_phys vm ∈ owned vm t.
Proof. apply elem_of_app. auto. Qed.
Lemma l3_owned i p : t_l3 t !! i = Some p -> p ∈ owned vm t.
Proof. intros H. apply elem_of_app. left. do 3 apply list_elem_of_further. apply elem_of_vals. by exists i. Qed.
Lemma pg_owned v a : t_pg t !! v = Some a -> a ∈ owned vm t.
Proof. intros H. apply elem_of_app. right. apply elem_of_vals. by exists v. Qed.
Lemma l2_page : page (l2_phys vm).
Proof. apply owned_frame, l2_owned. Qed.
Lemma l2_nz : (l2_phys vm =? 0) = false.
Proof. apply Z.eqb_neq. destruct l2_page. lia. Qed.

(** A level 3 table is none of the other pages. *)
Lemma l3_ne_l2 i p : t_l3 t !! i = Some p -> p <> l2_phys vm.
Proof.
  intros H ->. pose proof (vt_nodup _ _ _ _ Ht) as Hd. unfold owned, tables in Hd. cbn in Hd.
  apply NoDup_cons in Hd as [_ Hd]. apply NoDup_cons in Hd as [_ Hd]. apply NoDup_cons in Hd as [Hd _]. apply Hd.
  apply elem_of_app. left. apply elem_of_vals. by exists i.
Qed.

Lemma l3_inj i j p : t_l3 t !! i = Some p -> t_l3 t !! j = Some p -> i = j.
Proof.
  intros Hi Hj. destruct (decide (i = j)) as [|Hne]; [done|]. exfalso.
  pose proof (vt_nodup _ _ _ _ Ht) as Hd. unfold owned, tables in Hd. cbn in Hd.
  do 3 apply NoDup_cons in Hd as [_ Hd]. apply NoDup_app in Hd as (Hd & _).
  rewrite (vals_delete _ i p Hi) in Hd. apply NoDup_cons in Hd as [Hd _]. apply Hd, elem_of_vals. exists j.
  by rewrite lookup_delete_ne.
Qed.

Lemma pg_not_table v a : t_pg t !! v = Some a -> a ∉ tables vm t.
Proof.
  intros H Hin. pose proof (vt_nodup _ _ _ _ Ht) as Hd. apply NoDup_app in Hd as (_ & Hd & _).
  apply (Hd a Hin). apply elem_of_vals. by exists v.
Qed.

Lemma pg_inj v w a : t_pg t !! v = Some a -> t_pg t !! w = Some a -> v = w.
Proof.
  intros Hi Hj. destruct (decide (v = w)) as [|Hne]; [done|]. exfalso.
  pose proof (vt_nodup _ _ _ _ Ht) as Hd. apply NoDup_app in Hd as (_ & _ & Hd). unfold upages in Hd.
  rewrite (vals_delete _ v a Hi) in Hd. apply NoDup_cons in Hd as [Hd _]. apply Hd, elem_of_vals. exists w.
  by rewrite lookup_delete_ne.
Qed.

(** Memory that agrees on the tables. *)
Lemma vm_tree_frame m' ps : same_except m m' ps -> (forall p, p ∈ tables vm t -> p ∉ ps) -> vm_tree K m' vm t.
Proof.
  intros Hs Hd. pose proof Ht as [H1 H2 H3 H4 H5 H6 H7].
  assert (Hl : forall p i, p ∈ tables vm t -> 0 <= i < 512 -> load m' (p + 8 * i) = load m (p + 8 * i)).
  { intros p i Hp Hi. apply Hs. rewrite slot_page; [by apply Hd| |done]. apply owned_frame. apply elem_of_app. by left. }
  constructor; try done.
  - intros i Hi. rewrite Hl; [by apply H3|auto|done].
  - intros i Hi. rewrite Hl; [by apply H4|auto|done].
  - intros i Hi. rewrite Hl; [by apply H5|auto|done].
  - intros i p Hp. destruct (H6 i p Hp) as [Hi Hj]. split; [done|]. intros j Hj'. rewrite Hl; [by apply Hj| |done].
    do 3 apply list_elem_of_further. apply elem_of_vals. by exists i.
Qed.

(** Writing one entry of a level 3 table leaves the other tables alone. *)
Lemma l3_store i p j d : t_l3 t !! i = Some p -> 0 <= j < 512 ->
  forall q k, q ∈ tables vm t -> 0 <= k < 512 ->
  load (<[p + 8 * j := d]> m) (q + 8 * k) = if decide (q = p /\ k = j) then d else load m (q + 8 * k).
Proof.
  intros Hp Hj q k Hq Hk. assert (Hpp : page p) by (eapply owned_frame, l3_owned; done).
  assert (Hqp : page q) by (apply owned_frame, elem_of_app; by left).
  destruct (decide (q = p /\ k = j)) as [[-> ->]|Hne]; [by rewrite load_insert_eq|]. apply load_insert_ne.
  intros E. apply Hne. assert (q = p) as -> by (rewrite <- (slot_page q k), <- (slot_page p j), E by done; done).
  split; [done|lia].
Qed.

Lemma tables_l3 i p : t_l3 t !! i = Some p -> p ∈ tables vm t.
Proof. intros H. do 3 apply list_elem_of_further. apply elem_of_vals. by exists i. Qed.

Lemma l3_not_high i p : t_l3 t !! i = Some p -> p <> l0_phys vm /\ p <> l1_phys vm /\ p <> l2_phys vm.
Proof.
  intros H. pose proof (vt_nodup _ _ _ _ Ht) as Hd. unfold owned, tables in Hd. cbn in Hd.
  assert (Hin : p ∈ (map_to_list (t_l3 t)).*2 ++ upages t) by (apply elem_of_app; left; apply elem_of_vals; by exists i).
  apply NoDup_cons in Hd as [Ha Hd]. apply NoDup_cons in Hd as [Hb Hd]. apply NoDup_cons in Hd as [Hc _].
  split_and!; intros ->; [apply Ha; by do 2 right|apply Hb; by right|by apply Hc].
Qed.

(** One entry of a level 3 table takes the value that [pg'] has for it. *)
Lemma vm_tree_store v p d (pg' : gmap Z Z) : t_l3 t !! (v / 512) = Some p -> 0 <= v < NPAGES ->
  (forall w, w <> v -> pg' !! w = t_pg t !! w) -> d = match pg' !! v with Some a => user_page_desc a | None => 0 end ->
  NoDup (owned vm (mk_vtree (t_l3 t) pg')) -> Forall frame (owned vm (mk_vtree (t_l3 t) pg')) ->
  vm_tree K (<[p + 8 * (v mod 512) := d]> m) vm (mk_vtree (t_l3 t) pg').
Proof.
  intros Hp Hv Hpg Hd Hn Hf. pose proof Ht as [H1 H2 H3 H4 H5 H6 H7].
  destruct (vpn_split v Hv) as (Hi & Hj & Ev). destruct (l3_not_high _ _ Hp) as (N0 & N1 & N2).
  assert (Hst := l3_store _ _ (v mod 512) d Hp Hj). constructor; try done; cbn [t_l3 t_pg].
  - intros i Hi'. rewrite Hst by auto. rewrite decide_False by (intros [? _]; congruence). by apply H3.
  - intros i Hi'. rewrite Hst by auto. rewrite decide_False by (intros [? _]; congruence). by apply H4.
  - intros i Hi'. rewrite Hst by auto. rewrite decide_False by (intros [? _]; congruence). by apply H5.
  - intros i q Hq. destruct (H6 i q Hq) as [Hi' Hl]. split; [done|]. intros j Hj'. rewrite Hst; [|by eapply tables_l3|done].
    destruct (decide (q = p /\ j = v mod 512)) as [[-> ->]|Hne].
    + rewrite (l3_inj _ _ _ Hq Hp). by rewrite Ev.
    + rewrite Hl by done. rewrite Hpg; [done|]. intros Ew. apply Hne. destruct (vpn_join i j Hi' Hj') as (E1 & E2 & _).
      rewrite Ew in E1, E2. split; [|lia]. rewrite E1 in Hp. congruence.
  - intros w a Hw. destruct (decide (w = v)) as [->|Hne]; [split; [done|by rewrite Hp]|]. rewrite Hpg in Hw by done. by apply (H7 w a).
Qed.

Lemma vm_tree_unmap v p a : t_l3 t !! (v / 512) = Some p -> 0 <= v < NPAGES -> t_pg t !! v = Some a ->
  vm_tree K (<[p + 8 * (v mod 512) := 0]> m) vm (mk_vtree (t_l3 t) (delete v (t_pg t))).
Proof.
  intros Hp Hv Ha. apply vm_tree_store; try done.
  - intros w Hw. by rewrite lookup_delete_ne.
  - by rewrite lookup_delete_eq.
  - pose proof (vt_nodup _ _ _ _ Ht) as Hd. rewrite (owned_delete _ _ _ _ Ha) in Hd. by apply NoDup_cons in Hd as [_ Hd].
  - pose proof (vt_frames _ _ _ _ Ht) as Hd. rewrite (owned_delete _ _ _ _ Ha) in Hd. by apply Forall_cons in Hd as [_ Hd].
Qed.

Lemma vm_tree_remap v p a : t_l3 t !! (v / 512) = Some p -> 0 <= v < NPAGES -> frame a -> a ∉ owned vm t ->
  vm_tree K (<[p + 8 * (v mod 512) := user_page_desc a]> m) vm (mk_vtree (t_l3 t) (<[v := a]> (t_pg t))).
Proof.
  intros Hp Hv Ha Hna. apply vm_tree_store; try done.
  - intros w Hw. by rewrite lookup_insert_ne.
  - by rewrite lookup_insert_eq.
  - destruct (t_pg t !! v) as [b|] eqn:Hb; [|rewrite owned_insert by done; constructor; [done|apply Ht]].
    pose proof (vt_nodup _ _ _ _ Ht) as Hd. pose proof (owned_delete vm t v b Hb) as Hp'. rewrite Hp' in Hd. rewrite owned_remap. constructor.
    + intros Hin. apply Hna. rewrite Hp'. by right.
    + by apply NoDup_cons in Hd as [_ Hd].
  - destruct (t_pg t !! v) as [b|] eqn:Hb; [|rewrite owned_insert by done; constructor; [done|apply Ht]].
    pose proof (vt_frames _ _ _ _ Ht) as Hd. rewrite (owned_delete vm t v b Hb) in Hd. rewrite owned_remap. constructor; [done|].
    by apply Forall_cons in Hd as [_ Hd].
Qed.

(** A new level 3 table [p], all zero. *)
Lemma vm_tree_add_l3 m' i p : 0 <= i < 512 -> t_l3 t !! i = None -> frame p -> p ∉ owned vm t ->
  same_except m m' [p] -> (forall j, 0 <= j < 512 -> load m' (p + 8 * j) = 0) ->
  vm_tree K (<[l2_phys vm + 8 * i := table_desc p]> m') vm (mk_vtree (<[i := p]> (t_l3 t)) (t_pg t)).
Proof.
  intros Hi Hn Hp Hnp Hs Hz. pose proof Ht as [H1 H2 H3 H4 H5 H6 H7].
  assert (Hst : forall q k, q ∈ tables vm t -> 0 <= k < 512 ->
    load (<[l2_phys vm + 8 * i := table_desc p]> m') (q + 8 * k) = if decide (q = l2_phys vm /\ k = i) then table_desc p else load m (q + 8 * k)).
  { intros q k Hq Hk. assert (Hqp : page q) by (apply owned_frame, elem_of_app; by left).
    destruct (decide (q = l2_phys vm /\ k = i)) as [[-> ->]|Hne]; [by rewrite load_insert_eq|].
    rewrite load_insert_ne.
    - apply Hs. rewrite slot_page by done. intros ->%list_elem_of_singleton. apply Hnp. apply elem_of_app. by left.
    - intros E. apply Hne. assert (q = l2_phys vm) as -> by (rewrite <- (slot_page q k), <- (slot_page (l2_phys vm) i), E by (done || apply l2_page); done).
      split; [done|lia]. }
  pose proof (vt_nodup _ _ _ _ Ht) as Hd. unfold owned, tables in Hd. cbn in Hd.
  apply NoDup_cons in Hd as [Ha Hd]. apply NoDup_cons in Hd as [Hb _].
  constructor; cbn [t_l3 t_pg].
  - rewrite owned_insert_l3 by done. constructor; done.
  - rewrite owned_insert_l3 by done. constructor; done.
  - intros k Hk. rewrite Hst by auto. rewrite decide_False; [by apply H3|]. intros [E _]. apply Ha. rewrite E. set_solver.
  - intros k Hk. rewrite Hst by auto. rewrite decide_False; [by apply H4|]. intros [E _]. apply Hb. rewrite E. set_solver.
  - intros k Hk. rewrite Hst by auto. destruct (decide (k = i)) as [->|Hne].
    + rewrite decide_True by done. by rewrite lookup_insert_eq.
    + rewrite decide_False by tauto. rewrite lookup_insert_ne by done. by apply H5.
  - intros k q Hq. destruct (decide (k = i)) as [->|Hne].
    + rewrite lookup_insert_eq in Hq. injection Hq as <-. split; [done|]. intros j Hj. rewrite load_insert_ne.
      * rewrite Hz by done. destruct (t_pg t !! (512 * i + j)) as [a|] eqn:E; [|done]. destruct (H7 _ _ E) as [_ [q Hq]].
        destruct (vpn_join i j Hi Hj) as (E1 & _). rewrite E1 in Hq. congruence.
      * intros E. apply Hnp. assert (p = l2_phys vm) as -> by
          (rewrite <- (slot_page p j), <- E, slot_page by (done || apply l2_page || apply Hp); done). apply l2_owned.
    + rewrite lookup_insert_ne in Hq by done. destruct (H6 k q Hq) as [Hk Hl]. split; [done|]. intros j Hj.
      rewrite Hst; [|by eapply tables_l3|done]. rewrite decide_False; [by apply Hl|]. intros [E _]. by apply (l3_ne_l2 _ _ Hq).
  - intros v a Hv. destruct (H7 v a Hv) as [Hv' [q Hq]]. split; [done|]. destruct (decide (v / 512 = i)) as [E|Hne].
    + rewrite E, lookup_insert_eq. done.
    + rewrite lookup_insert_ne, Hq by done. done.
Qed.

End Tree.

(** ** Looking up *)

Section Lookup.
Context {K : ktab} {st : pmm} {vm : vm_map} {t : vtree} (HK : ktab_ok K) (Ht : vm_tree K (mem st) vm t).

Lemma l2_entry va : entry st (l2_phys vm) (l2_index va) = match t_l3 t !! (vpn va / 512) with Some p => table_desc p | None => k2 K (vpn va / 512) end.
Proof. unfold entry. rewrite l2_index_vpn. apply Ht. by destruct (vpn_split _ (vpn_range va)). Qed.

Lemma l3_frame i p : t_l3 t !! i = Some p -> frame p.
Proof. intros H. by eapply owned_frame, l3_owned. Qed.

Lemma k2_no_table va : has (k2 K (vpn va / 512)) D_TABLE = false.
Proof. apply HK. by destruct (vpn_split _ (vpn_range va)). Qed.

Lemma l3_slot va p : t_l3 t !! (vpn va / 512) = Some p ->
  entry st p (l3_index va) = match t_pg t !! vpn va with Some a => user_page_desc a | None => 0 end.
Proof.
  intros Hp. destruct (vt_l3 _ _ _ _ Ht _ _ Hp) as [_ Hl]. destruct (vpn_split _ (vpn_range va)) as (_ & Hj & Ev).
  unfold entry. rewrite l3_index_vpn, Hl by done. by rewrite Ev.
Qed.

Lemma l3_entry_tree va : l3_entry st vm va =
  match t_l3 t !! (vpn va / 512), t_pg t !! vpn va with Some p, Some a => Some (p, user_page_desc a) | _, _ => None end.
Proof.
  unfold l3_entry. rewrite (l2_nz Ht), l2_entry. destruct (t_l3 t !! (vpn va / 512)) as [p|] eqn:Hp.
  - pose proof (l3_frame _ _ Hp) as Hf. rewrite table_desc_valid, table_desc_table, table_desc_mask by done. cbn [negb].
    rewrite (l3_slot _ _ Hp). destruct (t_pg t !! vpn va) as [a|] eqn:Ha; [|done].
    rewrite user_page_valid; [done|]. by eapply owned_frame, pg_owned.
  - rewrite k2_no_table. by destruct (negb _).
Qed.

Lemma pg_l3 v a : t_pg t !! v = Some a -> exists p, t_l3 t !! (v / 512) = Some p.
Proof. intros H. by destruct (vt_pg _ _ _ _ Ht _ _ H) as [_ [p Hp]]; exists p. Qed.

Lemma kva_tree va : mmu_vmap_user_va_to_kva st vm va = match t_pg t !! vpn va with Some a => a + va mod 4096 | None => 0 end.
Proof.
  unfold mmu_vmap_user_va_to_kva. rewrite l3_entry_tree. destruct (t_pg t !! vpn va) as [a|] eqn:Ha.
  - destruct (pg_l3 _ _ Ha) as [p ->]. rewrite user_page_mask by (by eapply owned_frame, pg_owned).
    f_equal. apply (Z.land_ones va 12). lia.
  - by destruct (t_l3 t !! _).
Qed.

(** The free pages of the allocator are none of those of the process. *)
Record pool (pl : list Z) : Prop := mk_pool {
  po_repr : pmm_repr st pl;
  po_frames : Forall frame pl;
  po_apart : forall p, p ∈ pl -> p ∉ owned vm t }.

End Lookup.

Arguments pool : clear implicits.

Lemma pmm_alloc_none st : pmm_repr st [] -> pmm_alloc st = (0, st).
Proof. intros (H & _). cbn in H. unfold pmm_alloc. by rewrite H. Qed.

(** What [vmap_l3_for] does: it finds the table, or takes a page for it. *)
Record l3_found (K : ktab) (st : pmm) (vm : vm_map) (t : vtree) (pl : list Z) (va l3 : Z) (st' : pmm) (t' : vtree) (pl' : list Z) : Prop :=
  mk_l3_found {
  lf_tree : vm_tree K (mem st') vm t';
  lf_pool : pool st' vm t' pl';
  lf_pg : t_pg t' = t_pg t;
  lf_l3 : t_l3 t' !! (vpn va / 512) = Some l3;
  lf_same : same_except (mem st) (mem st') (take 1 pl ++ tables vm t);
  lf_how : t' = t /\ pl' = pl /\ st' = st
    \/ pl = l3 :: pl' /\ t_l3 t !! (vpn va / 512) = None /\ t_l3 t' = <[vpn va / 512 := l3]> (t_l3 t) }.

(** What [mmu_vmap_map_user_4k] does when it succeeds: the page is in the map, and at
    most one page has become a table. *)
Record mapped (K : ktab) (st : pmm) (vm : vm_map) (t : vtree) (pl : list Z) (va a : Z) (st' : pmm) (t' : vtree) (pl' : list Z) : Prop :=
  mk_mapped {
  mp_tree : vm_tree K (mem st') vm t';
  mp_repr : pmm_repr st' pl';
  mp_pg : t_pg t' = <[vpn va := a]> (t_pg t);
  mp_same : same_except (mem st) (mem st') (take 1 pl ++ tables vm t);
  mp_how : t_l3 t' = t_l3 t /\ pl' = pl
    \/ exists l3, pl = l3 :: pl' /\ t_l3 t !! (vpn va / 512) = None /\ t_l3 t' = <[vpn va / 512 := l3]> (t_l3 t) }.

Section Ops.
Context {K : ktab} {st : pmm} {vm : vm_map} {t : vtree} (HK : ktab_ok K) (Ht : vm_tree K (mem st) vm t).

Lemma l3_for_spec pl va : pool st vm t pl ->
  (vmap_l3_for st vm va = (0, st) /\ pl = [] /\ t_l3 t !! (vpn va / 512) = None)
  \/ exists l3 st' t' pl', vmap_l3_for st vm va = (l3, st') /\ l3 <> 0 /\ l3_found K st vm t pl va l3 st' t' pl'.
Proof.
  intros Hp. unfold vmap_l3_for. rewrite (l2_nz Ht), (l2_entry Ht). destruct (t_l3 t !! (vpn va / 512)) as [p|] eqn:E.
  - right. pose proof (l3_frame Ht _ _ E) as Hf. rewrite table_desc_valid, table_desc_table, table_desc_mask by done.
    exists p, st, t, pl. split; [done|]. split; [destruct Hf as [[? _] _]; lia|]. constructor; try done. by left.
  - rewrite (k2_no_table HK), andb_false_r. destruct Hp as [Hr Hf Ha]. destruct pl as [|p pl'].
    { left. by rewrite pmm_alloc_none. }
    right. apply Forall_cons in Hf as [Hpf Hf]. destruct (pmm_alloc_pop _ _ _ Hr) as (st1 & -> & Hr1 & Em).
    assert (Hpn : p ∉ owned vm t) by (apply Ha; left). assert (Hp0 : p <> 0) by (destruct Hpf as [[? _] _]; lia).
    rewrite (proj2 (Z.eqb_neq _ _) Hp0). destruct (vpn_split _ (vpn_range va)) as (Hi & _). rewrite l2_index_vpn.
    pose proof (l2_page Ht) as Hl2. pose proof (l2_owned (vm := vm) (t := t)) as Hlo.
    exists p, (set_entry st1 (l2_phys vm) (vpn va / 512) (table_desc p)), (mk_vtree (<[vpn va / 512 := p]> (t_l3 t)) (t_pg t)), pl'.
    split; [done|]. split; [done|]. constructor; cbn [t_l3 t_pg]; [| |reflexivity|apply lookup_insert_eq| |right; auto].
    + apply (vm_tree_add_l3 Ht); [done|done|done|done| |]; rewrite Em.
      * apply same_except_zero; [apply Hpf|left].
      * intros j Hj. by apply zero_page_zero.
    + constructor; [|done|].
      * apply set_entry_repr; [done|done|done|]. intros Hin. by apply (Ha (l2_phys vm)); [right|].
      * intros q Hq. rewrite owned_insert_l3 by done. intros [->|Hin]%elem_of_cons; [|by apply (Ha q); [right|]].
        destruct Hr as (_ & Hd & _). apply NoDup_cons in Hd as [Hd _]. exact (Hd Hq).
    + eapply same_except_trans; [|apply same_except_set; [done|done|apply elem_of_app; right; auto]]. rewrite Em.
      apply same_except_zero; [apply Hpf|cbn; left].
Qed.

Lemma map_spec pl va a : pool st vm t pl -> frame a -> a ∉ owned vm t -> a ∉ pl ->
  (mmu_vmap_map_user_4k st vm va a = (-1, st) /\ pl = [] /\ t_l3 t !! (vpn va / 512) = None)
  \/ exists st' t' pl', mmu_vmap_map_user_4k st vm va a = (0, st') /\ mapped K st vm t pl va a st' t' pl'.
Proof.
  intros Hp Ha Hna Hnl. unfold mmu_vmap_map_user_4k. destruct (l3_for_spec pl va Hp) as [(-> & ? & ?)|(l3 & st1 & t1 & pl1 & -> & Hl & Hf)]; [by left|].
  right. rewrite (proj2 (Z.eqb_neq _ _) Hl). pose proof Hf as [Ht1 Hp1 Epg Hl3 Hsame Hhow].
  assert (Hl3o : l3 ∈ owned vm t1) by by eapply l3_owned. assert (Hl3p : page l3) by (by eapply owned_frame).
  destruct (vpn_split _ (vpn_range va)) as (Hi & Hj & _). rewrite l3_index_vpn.
  assert (Hna1 : a ∉ owned vm t1).
  { destruct Hhow as [(-> & _)|(-> & Hn & El)]; [done|]. assert (t1 = mk_vtree (<[vpn va / 512 := l3]> (t_l3 t)) (t_pg t)) as -> by (rewrite <- El, <- Epg; by destruct t1).
    rewrite owned_insert_l3 by done.
    intros [->|?]%elem_of_cons; [apply Hnl; left|done]. }
  eexists _, (mk_vtree (t_l3 t1) (<[vpn va := a]> (t_pg t1))), pl1. split; [reflexivity|]. constructor.
  - apply (vm_tree_remap Ht1); [done|apply vpn_range|done|done].
  - apply set_entry_repr; [apply Hp1|done|done|]. intros Hin. by apply (po_apart _ Hp1 l3).
  - cbn. by rewrite Epg.
  - eapply same_except_trans; [exact Hsame|]. apply same_except_set; [done|done|]. apply elem_of_app.
    destruct Hhow as [(-> & _)|(-> & _)]; [right; by eapply tables_l3|left; left].
  - cbn. destruct Hhow as [(-> & -> & _)|(-> & Hn & El)]; [by left|right]. exists l3. by rewrite El.
Qed.

(** Unmapping a page that is not mapped changes nothing; otherwise the page goes back to
    the allocator. *)
Lemma unmap_spec pl va : pool st vm t pl ->
  match t_pg t !! vpn va with
  | None => mmu_vmap_unmap_user_4k st vm va = (0, st)
  | Some a => exists st', mmu_vmap_unmap_user_4k st vm va = (a, st')
      /\ vm_tree K (mem st') vm (mk_vtree (t_l3 t) (delete (vpn va) (t_pg t))) /\ pmm_repr st' (a :: pl)
      /\ same_except (mem st) (mem st') (a :: tables vm t)
  end.
Proof.
  intros Hp. unfold mmu_vmap_unmap_user_4k. rewrite (l3_entry_tree HK Ht). destruct (t_pg t !! vpn va) as [a|] eqn:Ha.
  - destruct (pg_l3 Ht _ _ Ha) as [l3 Hl3]. rewrite Hl3. pose proof (owned_frame Ht a ltac:(by eapply pg_owned)) as Hfa.
    rewrite user_page_mask by done. eexists. split; [reflexivity|]. rewrite l3_index_vpn.
    destruct (vpn_split _ (vpn_range va)) as (Hi & Hj & _). pose proof (l3_owned _ _ Hl3 : l3 ∈ owned vm t) as Hl3o.
    pose proof (owned_frame Ht l3 Hl3o) as [Hl3p _]. set (st1 := set_entry st l3 (vpn va mod 512) 0).
    pose proof (vm_tree_unmap Ht (vpn va) l3 a Hl3 (vpn_range va) Ha) as Ht1. fold (mem st1) in Ht1.
    pose proof (pmm_free_same st1 a (proj1 Hfa)) as Hfree.
    split; [|split].
    + eapply (vm_tree_frame Ht1); [exact Hfree|]. intros p Hin ->%list_elem_of_singleton. by apply (pg_not_table Ht _ _ Ha).
    + apply pmm_push; [|apply Hp|done|].
      * apply set_entry_repr; [apply Hp|done|done|]. intros Hin. by apply (po_apart _ Hp l3).
      * intros Hin. apply (po_apart _ Hp a Hin). by eapply pg_owned.
    + eapply same_except_trans; [|eapply same_except_weaken; [|exact Hfree]; set_solver].
      apply same_except_set; [done|done|]. right. by eapply tables_l3.
  - by destruct (t_l3 t !! _).
Qed.

End Ops.

End MmuInv.
