(* ===== verification/MmuLife.v ===== *)
(** * Making and tearing down the tables of a process

    [mmu_vmap_create] takes three pages and wires them to the boot map;
    [mmu_vmap_destroy] gives back exactly the pages of the process. *)

From stdpp Require Import base numbers list gmap.
From Stdlib Require Import ZArith Lia Bool.
From S2P Require Import Prelude Kmem Mmu MmuInv.

Module MmuLife.
Import Kmem Mmu MmuInv.
#[local] Opaque zero_page.

(** ** Loops over a table *)

Lemma copy_entries_spec n : forall st dst src i, page dst -> page src -> dst <> src -> 0 <= i -> i + Z.of_nat n <= 512 ->
  let st' := copy_entries n st dst src i in
  freelist st' = freelist st /\ free_count st' = free_count st /\ same_except (mem st) (mem st') [dst]
  /\ forall k, 0 <= k < 512 -> entry st' dst k = if decide (i <= k < i + Z.of_nat n) then entry st src k else entry st dst k.
Proof.
  induction n as [|n IH]; intros st dst src i Hd Hs Hne Hi Hn; cbn [copy_entries].
  - split_and!; [done|done|done|]. intros k Hk. rewrite decide_False by lia. done.
  - set (st1 := set_entry st dst i (entry st src i)).
    assert (H1 : same_except (mem st) (mem st1) [dst]) by (apply same_except_set; [done|lia|left]).
    destruct (IH st1 dst src (i + 1) Hd Hs Hne ltac:(lia) ltac:(lia)) as (Ef & Ec & Hsame & He).
    split_and!; [done|done|by eapply same_except_trans|]. intros k Hk. rewrite He by done.
    assert (Hsrc : entry st1 src k = entry st src k) by (eapply entry_same; [done|done|done|]; intros ->%list_elem_of_singleton; done).
    rewrite Hsrc. unfold st1 at 1. rewrite entry_set. repeat case_decide; try lia; congruence.
Qed.

Lemma fill_spec n : forall st tab i f, page tab -> 0 <= i -> i + Z.of_nat n <= 512 ->
  let st' := fill n st tab i f in
  freelist st' = freelist st /\ free_count st' = free_count st /\ same_except (mem st) (mem st') [tab]
  /\ forall k, 0 <= k < 512 -> entry st' tab k = if decide (i <= k < i + Z.of_nat n) then f k else entry st tab k.
Proof.
  induction n as [|n IH]; intros st tab i f Ht Hi Hn; cbn [fill].
  - split_and!; [done|done|done|]. intros k Hk. rewrite decide_False by lia. done.
  - set (st1 := set_entry st tab i (f i)).
    assert (H1 : same_except (mem st) (mem st1) [tab]) by (apply same_except_set; [done|lia|left]).
    destruct (IH st1 tab (i + 1) f Ht ltac:(lia) ltac:(lia)) as (Ef & Ec & Hsame & He).
    split_and!; [done|done|by eapply same_except_trans|]. intros k Hk. rewrite He by done.
    unfold st1. rewrite entry_set. repeat case_decide; try lia; congruence.
Qed.

#[local] Opaque copy_entries fill seqZ.

Ltac sub1 := intros ? ->%list_elem_of_singleton; inlist.

(** ** Making a tree *)

Section Boot.
Context {BT : BootTables}.

Definition statics : list Z := l0_table :: l1_table :: l2_table :: l2_table_hi :: l1_table_uart :: l1_tables_dev.

(** The boot map holds [K]. *)
Record boot_map (K : ktab) (m : gmap Z Z) : Prop := mk_boot_map {
  bm_l0 : forall i, 0 < i < 512 -> load m (l0_table + 8 * i) = k0 K i;
  bm_l1 : forall i, 0 < i < 512 -> load m (l1_table + 8 * i) = k1 K i;
  bm_l2 : forall i, 0 <= i < 512 -> load m (l2_table + 8 * i) = k2 K i;
  bm_ok : ktab_ok K }.

Definition boot_layout : Prop := Forall frame statics /\ NoDup statics.

Lemma boot_map_frame K m m' ps : boot_layout -> boot_map K m -> same_except m m' ps -> (forall p, p ∈ statics -> p ∉ ps) -> boot_map K m'.
Proof.
  intros [Hf _] [H1 H2 H3 H4] Hs Hd. rewrite Forall_forall in Hf.
  assert (Hl : forall p i, p ∈ statics -> 0 <= i < 512 -> load m' (p + 8 * i) = load m (p + 8 * i)).
  { intros p i Hp Hi. apply Hs. rewrite slot_page; [by apply Hd| |done]. by apply Hf. }
  constructor; [| | |done]; intros i Hi; (rewrite Hl; [auto| |lia]); unfold statics; set_solver.
Qed.

Lemma pmm_free_nn_push st a l : pmm_repr st l -> Forall frame l -> frame a -> a ∉ l ->
  pmm_repr (pmm_free_nn st a) (a :: l) /\ same_except (mem st) (mem (pmm_free_nn st a)) [a].
Proof.
  intros Hr Hf Ha Hn. unfold pmm_free_nn. rewrite (proj2 (Z.eqb_neq a 0)) by (destruct Ha as [[? _] _]; lia). cbn [negb].
  split; [by apply pmm_push|]. apply pmm_free_same, Ha.
Qed.

(** Three pages taken off the free list. *)
Lemma alloc_3 st a b c pl : pmm_repr st (a :: b :: c :: pl) ->
  exists s1 s2 s3, pmm_alloc st = (a, s1) /\ pmm_alloc s1 = (b, s2) /\ pmm_alloc s2 = (c, s3) /\ pmm_repr s3 pl
    /\ same_except (mem st) (mem s3) [a; b; c].
Proof.
  intros Hr. pose proof Hr as (_ & _ & Hpg & _). repeat (apply Forall_cons in Hpg as [? Hpg]).
  destruct (pmm_alloc_pop _ _ _ Hr) as (s1 & E1 & R1 & M1). destruct (pmm_alloc_pop _ _ _ R1) as (s2 & E2 & R2 & M2).
  destruct (pmm_alloc_pop _ _ _ R2) as (s3 & E3 & R3 & M3). exists s1, s2, s3. do 4 (split; [assumption|]). rewrite M3, M2, M1.
  eapply same_except_trans; [|apply same_except_zero; [done|by do 2 right; left]].
  eapply same_except_trans; [|apply same_except_zero; [done|by right; left]]. apply same_except_zero; [done|left].
Qed.

Definition new_vm (vm : vm_map) (a b c : Z) : vm_map := vm <| l0_phys := a |> <| l1_phys := b |> <| l2_phys := c |>.

(** A run of stores to the pages of [l]. *)
Record touched (st st' : pmm) (l : list Z) : Prop := mk_touched {
  to_fl : freelist st' = freelist st;
  to_fc : free_count st' = free_count st;
  to_same : same_except (mem st) (mem st') l }.

Lemma touched_trans s1 s2 s3 l : touched s1 s2 l -> touched s2 s3 l -> touched s1 s3 l.
Proof. intros [A1 A2 A3] [B1 B2 B3]. constructor; [congruence|congruence|by eapply same_except_trans]. Qed.
Lemma touched_weaken st st' l l' : l ⊆ l' -> touched st st' l -> touched st st' l'.
Proof. intros H [A1 A2 A3]. constructor; [done|done|by eapply same_except_weaken]. Qed.
Lemma touched_set st tab i v l : page tab -> 0 <= i < 512 -> tab ∈ l -> touched st (set_entry st tab i v) l.
Proof. intros. constructor; [done|done|by apply same_except_set]. Qed.
Lemma touched_repr st st' l pl : touched st st' l -> pmm_repr st pl -> (forall p, p ∈ pl -> p ∉ l) -> pmm_repr st' pl.
Proof. intros [A1 A2 A3] Hr Hd. by eapply pmm_repr_frame. Qed.

Lemma copy_touched n st dst src i l : page dst -> page src -> dst <> src -> 0 <= i -> i + Z.of_nat n <= 512 -> dst ∈ l ->
  touched st (copy_entries n st dst src i) l.
Proof.
  intros Hd Hs Hne Hi Hn Hl. destruct (copy_entries_spec n st dst src i Hd Hs Hne Hi Hn) as (A1 & A2 & A3 & _).
  constructor; [done|done|]. eapply same_except_weaken; [|exact A3]. intros ? ->%list_elem_of_singleton. done.
Qed.

Lemma copy_entry n st dst src i k : page dst -> page src -> dst <> src -> 0 <= i -> i + Z.of_nat n <= 512 -> 0 <= k < 512 ->
  entry (copy_entries n st dst src i) dst k = if decide (i <= k < i + Z.of_nat n) then entry st src k else entry st dst k.
Proof. intros Hd Hs Hne Hi Hn. destruct (copy_entries_spec n st dst src i Hd Hs Hne Hi Hn) as (_ & _ & _ & H). apply H. Qed.

Lemma entry_touched st st' l tab i : touched st st' l -> page tab -> 0 <= i < 512 -> tab ∉ l -> entry st' tab i = entry st tab i.
Proof. intros [_ _ H]. by apply entry_same. Qed.

(** The loops of [mmu_vmap_create] on three pages. *)
Definition wire (st : pmm) (a b c : Z) : pmm :=
  let st := set_entry st a 0 (table_desc b) in
  let st := set_entry st b 0 (table_desc c) in
  let st := copy_entries 511 st b l1_table 1 in
  let st := copy_entries 511 st a l0_table 1 in
  vmap_dup_kernel_l2 st c.

Section Wire.
Context (K : ktab) (st : pmm) (a b c : Z) (Hlay : boot_layout) (Hbm : boot_map K (mem st)).
Context (Hf : Forall frame [a; b; c]) (Hnd : NoDup [a; b; c]) (Hs : forall p, p ∈ [a; b; c] -> p ∉ statics).

Lemma wire_page p : p ∈ [a; b; c] \/ p ∈ statics -> page p.
Proof. destruct Hlay as [H _]. rewrite Forall_forall in H, Hf. intros [Hp|Hp]; [by apply Hf|by apply H]. Qed.
Lemma wire_ne p q : p ∈ [a; b; c] -> q ∈ statics -> p <> q.
Proof. intros Hp Hq ->. exact (Hs q Hp Hq). Qed.
Lemma wire_boot st' : touched st st' [a; b; c] -> boot_map K (mem st').
Proof. intros [_ _ H]. eapply boot_map_frame; [done|done|exact H|]. intros p Hp Hin. exact (Hs p Hin Hp). Qed.
Lemma wire_abc : a <> b /\ a <> c /\ b <> c.
Proof. rewrite !NoDup_cons in Hnd. destruct Hnd as (H1 & H2 & _). split_and!; intros ->; [apply H1|apply H1|apply H2]; inlist. Qed.

Ltac wpage := apply wire_page; first [left; inlist|right; inlist].
Ltac wcopy := first [wpage|apply wire_ne; inlist|lia|inlist].

Lemma wire_spec : touched st (wire st a b c) [a; b; c]
  /\ (forall i, 0 <= i < 512 -> entry (wire st a b c) a i = if decide (i = 0) then table_desc b else k0 K i)
  /\ (forall i, 0 <= i < 512 -> entry (wire st a b c) b i = if decide (i = 0) then table_desc c else k1 K i)
  /\ (forall i, 0 <= i < 512 -> entry (wire st a b c) c i = k2 K i).
Proof.
  destruct wire_abc as (Nab & Nac & Nbc). unfold wire, vmap_dup_kernel_l2. cbv zeta.
  set (s1 := set_entry st a 0 (table_desc b)). set (s2 := set_entry s1 b 0 (table_desc c)).
  assert (T2 : touched st s2 [a; b; c]) by (eapply touched_trans; apply touched_set; first [wpage|lia|inlist]).
  assert (Ea : entry s2 a 0 = table_desc b).
  { unfold s2. rewrite (entry_touched s1 (set_entry s1 b 0 (table_desc c)) [b]); [apply entry_set_eq| |wpage|lia|].
    - apply touched_set; [wpage|lia|inlist].
    - by intros ?%list_elem_of_singleton. }
  assert (Eb : entry s2 b 0 = table_desc c) by apply entry_set_eq. clearbody s2. clear s1.
  assert (C1 : touched s2 (copy_entries 511 s2 b l1_table 1) [b]) by (apply copy_touched; wcopy).
  assert (E1 := fun k => copy_entry 511 s2 b l1_table 1 k ltac:(wpage) ltac:(wpage) ltac:(apply wire_ne; inlist) ltac:(lia) ltac:(lia)).
  revert C1 E1. generalize (copy_entries 511 s2 b l1_table 1). intros s3 C1 E1.
  assert (T3 : touched st s3 [a; b; c]) by (eapply touched_trans; [exact T2|eapply touched_weaken; [|exact C1]; sub1]).
  assert (C2 : touched s3 (copy_entries 511 s3 a l0_table 1) [a]) by (apply copy_touched; wcopy).
  assert (E2 := fun k => copy_entry 511 s3 a l0_table 1 k ltac:(wpage) ltac:(wpage) ltac:(apply wire_ne; inlist) ltac:(lia) ltac:(lia)).
  revert C2 E2. generalize (copy_entries 511 s3 a l0_table 1). intros s4 C2 E2.
  assert (T4 : touched st s4 [a; b; c]) by (eapply touched_trans; [exact T3|eapply touched_weaken; [|exact C2]; sub1]).
  assert (C3 : touched s4 (copy_entries 512 s4 c l2_table 0) [c]) by (apply copy_touched; wcopy).
  assert (E3 := fun k => copy_entry 512 s4 c l2_table 0 k ltac:(wpage) ltac:(wpage) ltac:(apply wire_ne; inlist) ltac:(lia) ltac:(lia)).
  revert C3 E3. generalize (copy_entries 512 s4 c l2_table 0). intros s5 C3 E3.
  assert (T5 : touched st s5 [a; b; c]) by (eapply touched_trans; [exact T4|eapply touched_weaken; [|exact C3]; sub1]).
  split; [exact T5|]. split_and!; intros i Hi.
  - rewrite (entry_touched _ _ _ _ _ C3), E2; [|lia|wpage|done|by intros ?%list_elem_of_singleton]. destruct (decide (i = 0)) as [->|].
    + rewrite decide_False, (entry_touched _ _ _ _ _ C1) by (lia || wpage || by intros ?%list_elem_of_singleton). done.
    + rewrite decide_True by lia. apply (wire_boot _ T3). lia.
  - rewrite (entry_touched _ _ _ _ _ C3), (entry_touched _ _ _ _ _ C2), E1; [|lia|wpage|done| |wpage|done|];
      [|intros ?%list_elem_of_singleton; congruence|by intros ?%list_elem_of_singleton]. destruct (decide (i = 0)) as [->|].
    + by rewrite decide_False by lia.
    + rewrite decide_True by lia. apply (wire_boot _ T2). lia.
  - rewrite E3, decide_True by lia. apply (wire_boot _ T4). lia.
Qed.

Lemma wire_tree vm : vm_tree K (mem (wire st a b c)) (new_vm vm a b c) (mk_vtree ∅ ∅).
Proof.
  destruct wire_spec as (_ & E0 & E1 & E2). constructor; cbn [new_vm l0_phys l1_phys l2_phys update t_l3 t_pg].
  - exact Hnd.
  - exact Hf.
  - exact E0.
  - exact E1.
  - intros i Hi. rewrite lookup_empty. by apply E2.
  - intros i p Hp. by rewrite lookup_empty in Hp.
  - intros v p Hp. by rewrite lookup_empty in Hp.
Qed.

End Wire.

(** What [mmu_vmap_create] does: it wires three pages, or gives back those it got. *)
Lemma create_spec K st vm pl : boot_layout -> boot_map K (mem st) -> pmm_repr st pl -> Forall frame pl -> (forall p, p ∈ pl -> p ∉ statics) ->
  (exists st' pl', mmu_vmap_create st vm = (-1, vm, st') /\ pl' ≡ₚ pl /\ pmm_repr st' pl' /\ same_except (mem st) (mem st') pl)
  \/ exists a b c pl' st', pl = a :: b :: c :: pl' /\ mmu_vmap_create st vm = (0, new_vm vm a b c, st')
     /\ vm_tree K (mem st') (new_vm vm a b c) (mk_vtree ∅ ∅) /\ pmm_repr st' pl' /\ same_except (mem st) (mem st') [a; b; c].
Proof.
  intros Hlay Hbm Hr Hf Hs. destruct pl as [|a [|b [|c pl]]].
  - left. exists st, []. unfold mmu_vmap_create. rewrite !(pmm_alloc_none _ Hr). done.
  - left. destruct (pmm_alloc_pop _ _ _ Hr) as (s1 & E1 & R1 & M1). apply Forall_cons in Hf as [Ha _].
    destruct (pmm_free_nn_push s1 a [] R1 (Forall_nil_2 _) Ha (not_elem_of_nil _)) as [R2 S2].
    exists (pmm_free_nn s1 a), [a]. unfold mmu_vmap_create. rewrite E1, !(pmm_alloc_none _ R1). rewrite orb_true_r.
    split; [done|]. split; [done|]. split; [done|]. eapply same_except_trans; [|exact S2]. rewrite M1. apply same_except_zero; [apply Ha|left].
  - left. rewrite !Forall_cons in Hf. destruct Hf as (Ha & Hb & _). destruct (pmm_alloc_pop _ _ _ Hr) as (s1 & E1 & R1 & M1).
    destruct (pmm_alloc_pop _ _ _ R1) as (s2 & E2 & R2 & M2).
    destruct (pmm_free_nn_push s2 a [] R2 (Forall_nil_2 _) Ha (not_elem_of_nil _)) as [R3 S3].
    assert (Hba : b ∉ [a]). { destruct Hr as (_ & Hd & _). apply NoDup_cons in Hd as [Hd _]. intros ->%list_elem_of_singleton. apply Hd. left. }
    destruct (pmm_free_nn_push _ b [a] R3 (Forall_cons_2 _ _ _ Ha (Forall_nil_2 _)) Hb Hba) as [R4 S4].
    exists (pmm_free_nn (pmm_free_nn s2 a) b), [b; a]. unfold mmu_vmap_create. rewrite E1, E2, !(pmm_alloc_none _ R2), orb_true_r.
    split; [done|]. split; [apply Permutation_swap|]. split; [done|].
    assert (S0 : same_except (mem st) (mem s2) [a; b]).
    { rewrite M2, M1. eapply same_except_trans; apply same_except_zero; first [apply Ha|apply Hb|inlist]. }
    eapply same_except_trans; [exact S0|]. eapply same_except_trans; (eapply same_except_weaken; [|first [exact S3|exact S4]]; sub1).
  - right. destruct (alloc_3 _ _ _ _ _ Hr) as (s1 & s2 & s3 & E1 & E2 & E3 & R3 & S3).
    rewrite !Forall_cons in Hf. destruct Hf as (Ha & Hb & Hc & Hf). pose proof Hr as (_ & Hd & _).
    assert (Hnd : NoDup [a; b; c]) by (by apply (NoDup_app [a; b; c] pl) in Hd as (Hd & _)).
    assert (Hnp : forall p, p ∈ pl -> p ∉ [a; b; c]) by (intros p Hp Hin; apply (NoDup_app [a; b; c] pl) in Hd as (_ & Hd & _); by apply (Hd p)).
    assert (Hfr : Forall frame [a; b; c]) by (rewrite !Forall_cons; auto).
    assert (Hss : forall p, p ∈ [a; b; c] -> p ∉ statics) by (intros p Hp; apply Hs, (elem_of_app [a; b; c] pl); by left).
    assert (Hbm3 : boot_map K (mem s3)) by (eapply boot_map_frame; [done|done|exact S3|]; intros p Hp Hin; by apply (Hss p)).
    destruct (wire_spec K s3 a b c Hlay Hbm3 Hfr Hnd Hss) as (T & _).
    exists a, b, c, pl, (wire s3 a b c). split; [done|]. split.
    { unfold mmu_vmap_create. rewrite E1, E2, E3. rewrite !(proj2 (Z.eqb_neq _ 0)); [done| | |];
        [destruct Hc as [[? _] _]|destruct Hb as [[? _] _]|destruct Ha as [[? _] _]]; lia. }
    split; [by apply wire_tree|]. split; [by eapply touched_repr|]. eapply same_except_trans; [exact S3|apply T].
Qed.

(** ** Tearing a tree down *)

(** The values of a map, by their keys. *)
Lemma omap_agree (f g : Z -> option Z) (l : list Z) : (forall k, k ∈ l -> f k = g k) -> omap f l = omap g l.
Proof.
  induction l as [|k l IH]; intros H; [done|]. cbn. rewrite (H k) by left. rewrite IH; [done|]. intros q Hq. apply H. by right.
Qed.

Lemma omap_insert_perm (m : gmap Z Z) i x (l : list Z) : NoDup l -> i ∈ l -> m !! i = None ->
  omap (fun k => <[i := x]> m !! k) l ≡ₚ x :: omap (fun k => m !! k) l.
Proof.
  intros Hd Hi Hn. induction l as [|k l IH]; [by apply elem_of_nil in Hi|]. apply NoDup_cons in Hd as [Hk Hd]. csimpl.
  destruct (decide (k = i)) as [->|Hne].
  - rewrite lookup_insert_eq, Hn. f_equiv. erewrite omap_agree; [done|]. intros k Hk'. apply lookup_insert_ne. congruence.
  - rewrite lookup_insert_ne by done. apply elem_of_cons in Hi as [->|Hi]; [done|]. destruct (m !! k); rewrite (IH Hd Hi); [apply Permutation_swap|done].
Qed.

Lemma vals_omap (m : gmap Z Z) N : (forall i x, m !! i = Some x -> 0 <= i < N) ->
  omap (fun k => m !! k) (seqZ 0 N) ≡ₚ (map_to_list m).*2.
Proof.
  induction m as [|i x m Hn IH] using map_ind; intros Hr.
  - rewrite map_to_list_empty. cbn. induction (seqZ 0 N) as [|k l IHl]; [done|]. cbn. by rewrite lookup_empty.
  - rewrite omap_insert_perm; [|apply NoDup_seqZ|apply elem_of_seqZ; apply (Hr i x); apply lookup_insert_eq|done].
    rewrite vals_insert by done. f_equiv. apply IH. intros k y Hk. apply (Hr k y). rewrite lookup_insert_ne; [done|]. congruence.
Qed.

Lemma omap_chunks (m : gmap Z Z) c (n : nat) : 0 <= c ->
  concat ((fun i => omap (fun j => m !! (c * i + j)) (seqZ 0 c)) <$> seqZ 0 (Z.of_nat n)) = omap (fun k => m !! k) (seqZ 0 (c * Z.of_nat n)).
Proof.
  intros Hc. induction n as [|n IH]; [by rewrite Z.mul_0_r|]. rewrite seqZ_S, fmap_app, concat_app, IH. cbn [fmap list_fmap concat]. rewrite app_nil_r.
  replace (c * Z.of_nat (S n)) with (c * Z.of_nat n + c) by lia. rewrite seqZ_app, omap_app, Z.add_0_l by lia. f_equal.
  generalize (c * Z.of_nat n). intros b. transitivity (omap (fun k => m !! k) (seqZ (b + 0) c)); [|by rewrite Z.add_0_r]. rewrite <- fmap_add_seqZ.
  generalize (seqZ 0 c). intros l. induction l as [|k l IHl]; [done|]. csimpl. by rewrite IHl.
Qed.

Lemma concat_agree (f g : Z -> list Z) (l : list Z) : (forall i, i ∈ l -> f i = g i) -> concat (f <$> l) = concat (g <$> l).
Proof.
  induction l as [|i l IH]; intros H; [done|]. csimpl. rewrite (H i) by left. rewrite IH; [done|]. intros k Hk. apply H. by right.
Qed.
Lemma concat_omap (m : gmap Z Z) (l : list Z) : concat ((fun i => omap (fun k => m !! k) [i]) <$> l) = omap (fun k => m !! k) l.
Proof. induction l as [|k l IH]; [done|]. rewrite fmap_cons. cbn [concat]. rewrite IH. cbn. by destruct (m !! k). Qed.

Lemma concat_app_perm {A B} (f g : B -> list A) (l : list B) :
  concat ((fun i => f i ++ g i) <$> l) ≡ₚ concat (f <$> l) ++ concat (g <$> l).
Proof.
  induction l as [|i l IH]; [done|]. cbn. rewrite IH, <- !app_assoc. f_equiv. rewrite !app_assoc. f_equiv. apply Permutation_app_comm.
Qed.

(** One level 3 table, whose entries are the pages [g]. *)
Lemma free_l3_pages_spec (g : Z -> option Z) l3 n : forall j st pl, page l3 -> 0 <= j -> j + Z.of_nat n <= 512 ->
  (forall k, j <= k < 512 -> entry st l3 k = match g k with Some a => user_page_desc a | None => 0 end) ->
  Forall frame (omap g (seqZ j (Z.of_nat n)) ++ pl) -> NoDup (omap g (seqZ j (Z.of_nat n)) ++ pl) ->
  l3 ∉ omap g (seqZ j (Z.of_nat n)) -> pmm_repr st pl ->
  exists F, F ≡ₚ omap g (seqZ j (Z.of_nat n)) /\ pmm_repr (free_l3_pages n st l3 j) (F ++ pl)
    /\ same_except (mem st) (mem (free_l3_pages n st l3 j)) F.
Proof.
  induction n as [|n IH]; intros j st pl Hl Hj Hn He Hf Hd Hni Hr; [by exists []|]. cbn [free_l3_pages].
  rewrite seqZ_cons in * by lia. replace (Z.pred (Z.of_nat (S n))) with (Z.of_nat n) in * by lia.
  replace (Z.succ j) with (j + 1) in * by lia. csimpl in *. rewrite (He j) by lia. destruct (g j) as [a|] eqn:Ea.
  - csimpl in *. apply Forall_cons in Hf as [Ha Hf]. apply NoDup_cons in Hd as [Hda Hd]. rewrite user_page_valid, user_page_mask by done. cbn [negb].
    rewrite not_elem_of_cons in Hni. destruct Hni as [Hla Hni].
    pose proof (proj2 (proj1 (Forall_app _ _ _) Hf)) as Hfp. assert (Hap : a ∉ pl) by (intros Hin; apply Hda, elem_of_app; by right).
    pose proof (pmm_push st a pl Hr Hfp Ha Hap) as Hr1. pose proof (pmm_free_same st a (proj1 Ha)) as Hs1.
    destruct (IH (j + 1) (pmm_free st a) (a :: pl)) as (F & HF & HrF & HsF); try done; [lia|lia| | | |].
    + intros k Hk. rewrite <- He by lia. eapply entry_same; [exact Hs1|done|lia|]. by intros ?%list_elem_of_singleton.
    + rewrite <- Permutation_middle. constructor; [done|]. exact Hf.
    + rewrite <- Permutation_middle. constructor; done.
    + exists (F ++ [a]). split_and!.
      * rewrite HF. symmetry. apply Permutation_cons_append.
      * by rewrite <- app_assoc.
      * eapply same_except_trans; eapply same_except_weaken; [|exact Hs1| |exact HsF]; set_solver.
  - change (has 0 D_VALID) with false. cbn [negb]. apply IH; try done; [lia|lia|]. intros k Hk. apply He. lia.
Qed.

(** The pages given back for entry [i] of the level 2 table. *)
Definition l3_pages (t : vtree) (i : Z) : list Z := omap (fun j => t_pg t !! (512 * i + j)) (seqZ 0 512).
Definition freed_at (t : vtree) (i : Z) : list Z :=
  match t_l3 t !! i with Some p => [p] ++ l3_pages t i | None => [] end.

Section Destroy.
Context {K : ktab} {m : gmap Z Z} {vm : vm_map} {t : vtree} (HK : ktab_ok K) (Ht : vm_tree K m vm t).

Notation l2 := (l2_phys vm).
Notation rest i n := (concat (freed_at t <$> seqZ i (Z.of_nat n))).

Lemma freed_at_owned i p : p ∈ freed_at t i -> p ∈ owned vm t /\ p <> l2.
Proof.
  unfold freed_at. destruct (t_l3 t !! i) as [q|] eqn:Hq; [|by intros ?%elem_of_nil]. intros [->|Hp]%elem_of_cons.
  - split; [by eapply l3_owned|by eapply l3_ne_l2].
  - unfold l3_pages in Hp. apply list_elem_of_omap in Hp as (j & _ & Hp). split; [by eapply pg_owned|]. intros ->. apply (pg_not_table Ht _ _ Hp). apply table_2.
Qed.

Lemma rest_owned n i p : p ∈ rest i n -> p ∈ owned vm t /\ p <> l2.
Proof.
  rewrite list_elem_of_In, in_concat. intros (l & Hl & Hp). apply list_elem_of_In in Hl, Hp. apply list_elem_of_fmap in Hl as (k & -> & _).
  by apply freed_at_owned in Hp.
Qed.

Lemma free_user_l3s_spec n : forall i st F pl, 0 <= i -> i + Z.of_nat n = 512 ->
  same_except m (mem st) (l2 :: F) -> (forall k, i <= k < 512 -> entry st l2 k = load m (l2 + 8 * k)) ->
  pmm_repr st (F ++ pl) -> Forall frame (F ++ pl) -> l2 ∉ F ++ pl -> NoDup (rest i n ++ F ++ pl) ->
  exists F', F' ≡ₚ rest i n ++ F /\ pmm_repr (free_user_l3s n st l2 i) (F' ++ pl)
    /\ same_except m (mem (free_user_l3s n st l2 i)) (l2 :: F').
Proof.
  induction n as [|n IH]; intros i st F pl Hi Hn Hs He Hr Hf Hl2 Hd; [by exists F|]. cbn [free_user_l3s].
  rewrite seqZ_cons in * by lia. replace (Z.pred (Z.of_nat (S n))) with (Z.of_nat n) in * by lia. replace (Z.succ i) with (i + 1) in * by lia.
  cbn [fmap list_fmap concat] in *. rewrite (He i), (vt_l2 _ _ _ _ Ht i) by lia. unfold freed_at at 1 in Hd. unfold freed_at at 1.
  destruct (t_l3 t !! i) as [p|] eqn:Hp.
  2:{ rewrite HK by lia. rewrite orb_true_r. cbn [app] in *. apply IH; try done; try lia. intros k Hk. apply He. lia. }
  pose proof (l3_frame (st := mk_pmm m 0 0) Ht i p Hp) as Hpf. rewrite table_desc_valid, table_desc_table, table_desc_mask by done. cbn [negb orb].
  set (G := l3_pages t i) in *. assert (HG : forall a, a ∈ G -> frame a /\ a ∉ tables vm t).
  { intros a Ha. unfold G, l3_pages in Ha. apply list_elem_of_omap in Ha as (q & _ & Ha). split; [by eapply owned_frame, pg_owned|by eapply pg_not_table]. }
  cbn [app] in Hd. apply NoDup_cons in Hd as [Hpn Hd]. rewrite <- app_assoc in Hd, Hpn.
  assert (HpF : p ∉ F ++ pl) by (intros Hin; apply Hpn; rewrite !elem_of_app in *; tauto).
  assert (Hpl2 : p <> l2) by by eapply l3_ne_l2.
  destruct (free_l3_pages_spec (fun j => t_pg t !! (512 * i + j)) p 512 0 st (F ++ pl)) as (F1 & HF1 & Hr1 & Hs1); [apply Hpf|lia|lia| | | | |exact Hr|].
  { intros k Hk. transitivity (load m (p + 8 * k)); [|by apply (vt_l3 _ _ _ _ Ht)]. apply Hs. rewrite slot_page by (done || apply Hpf).
    rewrite not_elem_of_cons. split; [done|]. intros Hin. apply HpF, elem_of_app. by left. }
  { apply Forall_app. split; [|done]. apply Forall_forall. intros a Ha. by apply HG. }
  { apply NoDup_app in Hd as (Hd1 & Hd2 & Hd3). apply NoDup_app in Hd3 as (_ & Hd3 & Hd4). apply NoDup_app. split_and!; [done| |done].
    intros a Ha Hin. apply (Hd2 a Ha). apply elem_of_app. by right. }
  { intros Hin. apply (proj2 (HG p Hin)). by eapply tables_l3. }
  fold (l3_pages t i) in HF1. fold G in HF1. set (st1 := free_l3_pages 512 st p 0) in *. clearbody st1.
  assert (HF1f : Forall frame (F1 ++ F ++ pl)) by (apply Forall_app; split; [|done]; rewrite HF1; apply Forall_forall; intros a Ha; by apply HG).
  assert (HpF1 : p ∉ F1 ++ F ++ pl).
  { rewrite elem_of_app, HF1. intros [Hin|Hin]; [apply (proj2 (HG p Hin)); by eapply tables_l3|done]. }
  pose proof (pmm_push st1 p _ Hr1 HF1f Hpf HpF1) as Hr2. pose proof (pmm_free_same st1 p (proj1 Hpf)) as Hs2.
  set (st2 := pmm_free st1 p) in *. clearbody st2.
  assert (Hl2n : l2 ∉ p :: F1 ++ F ++ pl).
  { rewrite not_elem_of_cons, elem_of_app, HF1. split; [done|]. intros [Hin|Hin]; [|done]. apply (proj2 (HG _ Hin)). apply table_2. }
  pose proof (set_entry_repr st2 l2 i 0 _ Hr2 (l2_page Ht) ltac:(lia) Hl2n) as Hr3.
  destruct (IH (i + 1) (set_entry st2 l2 i 0) (p :: F1 ++ F) pl) as (F' & HF' & HrF' & HsF'); [lia|lia| | | | | | |].
  - eapply same_except_trans; [|apply same_except_set; [apply (l2_page Ht)|lia|left]].
    eapply same_except_trans; [|eapply same_except_weaken; [|exact Hs2]; sub1].
    eapply same_except_trans; (eapply same_except_weaken; [|first [exact Hs|exact Hs1]]); set_solver.
  - intros k Hk. rewrite entry_set_ne by lia. rewrite <- He by lia.
    rewrite (entry_same st1 st2 [p]); [|done|apply (l2_page Ht)|lia|by intros ?%list_elem_of_singleton].
    apply (entry_same st st1 F1); [done|apply (l2_page Ht)|lia|]. intros Hin. apply Hl2n. right. apply elem_of_app. by left.
  - cbn [app]. rewrite <- app_assoc. exact Hr3.
  - cbn [app]. rewrite <- app_assoc. by constructor.
  - cbn [app]. rewrite <- app_assoc. done.
  - cbn [app]. rewrite <- app_assoc, HF1. rewrite <- Permutation_middle. constructor.
    + intros Hin. apply Hpn. rewrite !elem_of_app in *. tauto.
    + rewrite Permutation_app_swap_app. exact Hd.
  - exists F'. split_and!; [|done|done]. rewrite HF', HF1. cbn. rewrite <- Permutation_middle. f_equiv. by rewrite Permutation_app_swap_app, app_assoc.
Qed.

Lemma l3_pages_none i : 0 <= i < 512 -> t_l3 t !! i = None -> l3_pages t i = [].
Proof.
  intros Hi Hn. unfold l3_pages. transitivity (omap (fun _ : Z => @None Z) (seqZ 0 512)).
  - apply omap_agree. intros j Hj%elem_of_seqZ. destruct (t_pg t !! (512 * i + j)) as [a|] eqn:Ha; [|done].
    destruct (vt_pg _ _ _ _ Ht _ _ Ha) as [_ [p Hp]]. destruct (vpn_join i j Hi ltac:(lia)) as (E & _). rewrite E in Hp. congruence.
  - generalize (seqZ 0 512). intros l. induction l as [|? l IH]; [done|]. exact IH.
Qed.

(** What the loop gives back is what the tree holds below its three tables. *)
Lemma freed_all : rest 0 512 ≡ₚ (map_to_list (t_l3 t)).*2 ++ upages t.
Proof.
  rewrite (concat_agree (freed_at t) (fun i => omap (fun k => t_l3 t !! k) [i] ++ l3_pages t i)).
  - rewrite (concat_app_perm (fun i => omap (fun k => t_l3 t !! k) [i]) (l3_pages t)), concat_omap. f_equiv.
    + apply (vals_omap (t_l3 t) 512). intros i x Hx. exact (proj1 (vt_l3 _ _ _ _ Ht _ _ Hx)).
    + unfold l3_pages. rewrite (omap_chunks (t_pg t) 512 512) by lia. rewrite (vals_omap (t_pg t)); [done|].
      intros v a Hv. exact (proj1 (vt_pg _ _ _ _ Ht _ _ Hv)).
  - intros i Hi%elem_of_seqZ. unfold freed_at. csimpl. destruct (t_l3 t !! i) as [p|] eqn:E; [done|]. rewrite l3_pages_none; [done|lia|done].
Qed.

End Destroy.

Definition no_tables (vm : vm_map) : vm_map := vm <| l0_phys := 0 |> <| l1_phys := 0 |> <| l2_phys := 0 |>.

Lemma free_nn_step st pl F a : pmm_repr st (F ++ pl) -> Forall frame (F ++ pl) -> frame a -> a ∉ F ++ pl ->
  pmm_repr (pmm_free_nn st a) ((a :: F) ++ pl) /\ Forall frame ((a :: F) ++ pl) /\ same_except (mem st) (mem (pmm_free_nn st a)) [a].
Proof. intros Hr Hf Ha Hn. destruct (pmm_free_nn_push st a _ Hr Hf Ha Hn) as [H1 H2]. split; [done|]. split; [by constructor|done]. Qed.

(** [mmu_vmap_destroy] gives back every page of the tree, and touches no other. *)
Lemma destroy_spec K st vm t pl : ktab_ok K -> vm_tree K (mem st) vm t -> pool st vm t pl ->
  exists st' F, mmu_vmap_destroy st vm = (no_tables vm, st') /\ F ≡ₚ owned vm t /\ pmm_repr st' (F ++ pl) /\ same_except (mem st) (mem st') F.
Proof.
  intros HK Ht [Hr Hf Ha]. unfold mmu_vmap_destroy. rewrite (l2_nz Ht). cbn [negb].
  pose proof (vt_nodup _ _ _ _ Ht) as Hd. pose proof (vt_frames _ _ _ _ Ht) as Hfr. pose proof (freed_all Ht) as Hall.
  unfold owned, tables in Hd, Hfr. cbn [app] in Hd, Hfr. rewrite <- Hall in Hd, Hfr. rewrite !NoDup_cons in Hd. destruct Hd as (D0 & D1 & D2 & D3).
  rewrite !Forall_cons in Hfr. destruct Hfr as (F0 & F1 & F2 & F3).
  assert (Hap : forall p, p ∈ l0_phys vm :: l1_phys vm :: l2_phys vm :: concat (freed_at t <$> seqZ 0 (Z.of_nat 512)) -> p ∉ pl).
  { intros p Hp Hin. apply (Ha p Hin). unfold owned, tables. cbn [app]. rewrite <- Hall. exact Hp. }
  destruct (free_user_l3s_spec HK Ht 512 0 st [] pl) as (F & HF & HrF & HsF); [lia|lia|done|done|done|done|apply Hap; inlist| |].
  { cbn [app]. apply NoDup_app. split_and!; [done| |apply Hr]. intros p Hp. apply Hap. by do 3 right. }
  unfold vmap_free_user_l3s. set (s0 := free_user_l3s 512 st (l2_phys vm) 0) in *. clearbody s0. rewrite app_nil_r in HF. rewrite <- HF in *.
  assert (HfF : Forall frame (F ++ pl)) by (by apply Forall_app). rewrite !not_elem_of_cons in *.
  destruct (free_nn_step s0 pl F (l0_phys vm) HrF HfF F0) as (R1 & G1 & S1).
  { rewrite elem_of_app. intros [Hin|Hin]; [tauto|]. by apply (Hap (l0_phys vm)); [inlist|]. }
  destruct (free_nn_step _ pl _ (l1_phys vm) R1 G1 F1) as (R2 & G2 & S2).
  { rewrite elem_of_app, elem_of_cons. intros [[Hin|Hin]|Hin]; [intuition congruence|tauto|]. by apply (Hap (l1_phys vm)); [inlist|]. }
  destruct (free_nn_step _ pl _ (l2_phys vm) R2 G2 F2) as (R3 & G3 & S3).
  { rewrite elem_of_app, !elem_of_cons. intros [[Hin|[Hin|Hin]]|Hin]; [intuition congruence|intuition congruence|tauto|]. by apply (Hap (l2_phys vm)); [inlist|]. }
  eexists _, (l2_phys vm :: l1_phys vm :: l0_phys vm :: F). split; [reflexivity|]. split.
  { unfold owned, tables. cbn [app]. rewrite <- Hall. symmetry.
    apply (Permutation_app_tail F (Permutation_rev [l0_phys vm; l1_phys vm; l2_phys vm])). }
  split; [exact R3|]. eapply same_except_trans; [eapply same_except_weaken; [|exact HsF]|].
  { intros p [->|Hp]%elem_of_cons; [inlist|]. by do 3 right. }
  eapply same_except_trans; [eapply same_except_trans|]; (eapply same_except_weaken; [|first [exact S1|exact S2|exact S3]]; sub1).
Qed.

End Boot.

End MmuLife.
