(* ===== verification/VmWalk.v ===== *)
(** * The processor's walk through the tables of a process

    What the stage 1 walk of the architecture finds in the tables of Mmu.v: in the part of
    the address space for which the process has level 3 tables, its own pages; elsewhere
    what the boot map has. *)

From stdpp Require Import base numbers list gmap.
From Stdlib Require Import ZArith Lia Bool.
From S2P Require Import Prelude Kmem Mmu MmuInv MmuLife.

Module VmWalk.
Import Kmem Mmu MmuInv MmuLife.

Definition slot (tab va shift : Z) : Z := tab + 8 * Z.land (Z.shiftr va shift) 0x1ff.

(** The words that the walk reads. *)
Definition walk_reads (m : gmap Z Z) (ttbr va : Z) : list Z :=
  let a0 := slot ttbr va 39 in
  let d0 := load m a0 in
  if negb (has d0 D_VALID && has d0 D_TABLE) then [a0]
  else
    let a1 := slot (Z.land d0 D_PA_MASK) va 30 in
    let d1 := load m a1 in
    if negb (has d1 D_VALID) || negb (has d1 D_TABLE) then [a0; a1]
    else
      let a2 := slot (Z.land d1 D_PA_MASK) va 21 in
      let d2 := load m a2 in
      if negb (has d2 D_VALID) || negb (has d2 D_TABLE) then [a0; a1; a2]
      else [a0; a1; a2; slot (Z.land d2 D_PA_MASK) va 12].

Lemma translate_reads m m' ttbr va : (forall x, x ∈ walk_reads m ttbr va -> load m' x = load m x) ->
  translate m' ttbr va = translate m ttbr va.
Proof.
  unfold walk_reads, translate. destruct ((va <? 0) || (2 ^ 48 <=? va)); [done|]. fold (slot ttbr va 39).
  set (d0 := load m (slot ttbr va 39)). intros H.
  assert (E0 : load m' (slot ttbr va 39) = d0).
  { apply H. destruct (negb _); [left|]. destruct (_ || _); [left|]. destruct (_ || _); left. }
  rewrite E0. destruct (negb (has d0 D_VALID && has d0 D_TABLE)); [done|]. fold (slot (Z.land d0 D_PA_MASK) va 30).
  set (d1 := load m (slot (Z.land d0 D_PA_MASK) va 30)) in *.
  assert (E1 : load m' (slot (Z.land d0 D_PA_MASK) va 30) = d1).
  { apply H. destruct (_ || _); [right; left|]. destruct (_ || _); right; left. }
  rewrite E1. destruct (negb (has d1 D_VALID)); [done|]. destruct (negb (has d1 D_TABLE)); [done|]. cbn [orb] in H.
  fold (slot (Z.land d1 D_PA_MASK) va 21). set (d2 := load m (slot (Z.land d1 D_PA_MASK) va 21)) in *.
  assert (E2 : load m' (slot (Z.land d1 D_PA_MASK) va 21) = d2) by (apply H; destruct (_ || _); right; right; left).
  rewrite E2. destruct (negb (has d2 D_VALID)); [done|]. destruct (negb (has d2 D_TABLE)); [done|]. cbn [orb] in H.
  fold (slot (Z.land d2 D_PA_MASK) va 12). rewrite H by (right; right; right; left). done.
Qed.

Lemma walk_reads_same m m' ttbr va : (forall x, x ∈ walk_reads m ttbr va -> load m' x = load m x) -> walk_reads m' ttbr va = walk_reads m ttbr va.
Proof.
  unfold walk_reads. set (d0 := load m (slot ttbr va 39)). intros H.
  assert (E0 : load m' (slot ttbr va 39) = d0).
  { apply H. destruct (negb _); [left|]. destruct (_ || _); [left|]. destruct (_ || _); left. }
  rewrite E0. destruct (negb (has d0 D_VALID && has d0 D_TABLE)); [done|].
  set (d1 := load m (slot (Z.land d0 D_PA_MASK) va 30)) in *.
  assert (E1 : load m' (slot (Z.land d0 D_PA_MASK) va 30) = d1).
  { apply H. destruct (_ || _); [right; left|]. destruct (_ || _); right; left. }
  rewrite E1. destruct (negb (has d1 D_VALID) || _); [done|]. rewrite H by (destruct (_ || _); right; right; left). done.
Qed.

Lemma slot_eq tab va shift : 0 <= shift -> slot tab va shift = tab + 8 * ((va / 2 ^ shift) mod 512).
Proof. intros Hs. unfold slot. change 0x1ff with (Z.ones 9). by rewrite Z.land_ones, Z.shiftr_div_pow2 by lia. Qed.

Section Walk.
Context {BT : BootTables} {K : ktab} {m : gmap Z Z} {vm : vm_map} {t : vtree}.
Context (Hlay : boot_layout) (Hbm : boot_map K m) (Ht : vm_tree K m vm t).
Context (R0 : load m l0_table = table_desc l1_table) (R1 : load m l1_table = table_desc l2_table).

Lemma static_frame p : p ∈ statics -> frame p.
Proof. destruct Hlay as [H _]. by apply (proj1 (Forall_forall _ _) H). Qed.

Lemma l0_frame : frame (l0_phys vm) /\ frame (l1_phys vm) /\ frame (l2_phys vm).
Proof. split_and!; (eapply (owned_frame Ht), elem_of_app; left); [apply table_0|apply table_1|apply table_2]. Qed.

(** The level 0 and 1 entries. *)
Lemma root_entries va : 0 <= va < 2 ^ 30 ->
  load m (slot (l0_phys vm) va 39) = table_desc (l1_phys vm) /\ load m (slot (l1_phys vm) va 30) = table_desc (l2_phys vm)
  /\ load m (slot l0_table va 39) = table_desc l1_table /\ load m (slot l1_table va 30) = table_desc l2_table.
Proof.
  intros Hva. rewrite !slot_eq by lia. assert ((va / 2 ^ 39) mod 512 = 0) as -> by (rewrite Z.div_small; [done|lia]).
  assert ((va / 2 ^ 30) mod 512 = 0) as -> by (rewrite Z.div_small; [done|lia]).
  split_and!; [apply (vt_l0 _ _ _ _ Ht 0); lia|apply (vt_l1 _ _ _ _ Ht 0); lia|by rewrite Z.add_0_r|by rewrite Z.add_0_r].
Qed.

Lemma l2_slot va : 0 <= va < 2 ^ 30 ->
  load m (slot (l2_phys vm) va 21) = match t_l3 t !! (vpn va / 512) with Some p => table_desc p | None => load m (slot l2_table va 21) end.
Proof.
  intros Hva. rewrite !slot_eq by lia. assert (Ei : (va / 2 ^ 21) mod 512 = vpn va / 512).
  { unfold vpn, NPAGES. change (2 ^ 21) with 2097152. change (2 ^ 18) with 262144. Z.to_euclidean_division_equations. lia. }
  rewrite Ei. destruct (vpn_split _ (vpn_range va)) as (Hi & _). rewrite (vt_l2 _ _ _ _ Ht) by done.
  by rewrite (bm_l2 _ _ Hbm) by done.
Qed.

Lemma l3_slot_walk va p : t_l3 t !! (vpn va / 512) = Some p ->
  load m (slot p va 12) = match t_pg t !! vpn va with Some a => user_page_desc a | None => 0 end.
Proof.
  intros Hp. destruct (vt_l3 _ _ _ _ Ht _ _ Hp) as [_ Hl]. rewrite slot_eq by lia.
  assert (Ej : (va / 2 ^ 12) mod 512 = vpn va mod 512).
  { unfold vpn, NPAGES. change (2 ^ 12) with 4096. change (2 ^ 18) with 262144. Z.to_euclidean_division_equations. lia. }
  rewrite Ej. destruct (vpn_split _ (vpn_range va)) as (_ & Hj & Ev). rewrite Hl by done. by rewrite Ev.
Qed.

Lemma user_page_flags a : frame a -> has (user_page_desc a) D_TABLE = true /\ has (user_page_desc a) D_AF = true /\ has (user_page_desc a) D_AP_RW_EL0 = true.
Proof.
  intros Ha. change D_TABLE with (2 ^ 1). change D_AF with (2 ^ 10). change D_AP_RW_EL0 with (2 ^ 6).
  rewrite !user_page_has by (done || lia). done.
Qed.

Lemma walk_own va p : 0 <= va < 2 ^ 30 -> t_l3 t !! (vpn va / 512) = Some p ->
  user_access m (l0_phys vm) va = match t_pg t !! vpn va with Some a => Some (a + va mod 4096) | None => None end.
Proof.
  intros Hva Hp. destruct (root_entries va Hva) as (E0 & E1 & _). destruct l0_frame as (F0 & F1 & F2).
  pose proof (owned_frame Ht p (l3_owned _ _ Hp)) as Fp. unfold user_access, translate.
  fold (slot (l0_phys vm) va 39). rewrite E0, table_desc_valid, table_desc_table, table_desc_mask by done.
  fold (slot (l1_phys vm) va 30). rewrite E1, table_desc_valid, table_desc_table, table_desc_mask by done.
  fold (slot (l2_phys vm) va 21). rewrite (l2_slot va Hva), Hp, table_desc_valid, table_desc_table, table_desc_mask by done.
  fold (slot p va 12). rewrite (l3_slot_walk va p Hp).
  assert (((va <? 0) || (2 ^ 48 <=? va)) = false) as -> by (apply orb_false_iff; split; [apply Z.ltb_ge|apply Z.leb_gt]; lia).
  cbn [andb negb]. destruct (t_pg t !! vpn va) as [a|] eqn:Ea; [|done]. pose proof (owned_frame Ht a (pg_owned _ _ Ea)) as Fa.
  destruct (user_page_flags a Fa) as (G1 & G2 & G3). rewrite user_page_valid, G1 by done. cbn [andb negb]. unfold leaf. rewrite G2, G3.
  f_equal. rewrite user_page_mask, !Z.land_ones by (done || lia). change (2 ^ 12) with 4096. f_equal.
  rewrite <- Z.ldiff_land, ldiff_ones_mod by lia. destruct Fa as [[_ Fa] _]. change (2 ^ 12) with 4096. unfold PAGE_SIZE in Fa. lia.
Qed.

(** The walk only depends on the entries at its first two levels. *)
Lemma walk_boot va : (0 <= va < 2 ^ 30 -> t_l3 t !! (vpn va / 512) = None) ->
  user_access m (l0_phys vm) va = user_access m l0_table va.
Proof.
  intros Hn. unfold user_access, translate. destruct ((va <? 0) || (2 ^ 48 <=? va)) eqn:Er; [done|].
  apply orb_false_iff in Er as [Hr1%Z.ltb_ge Hr2%Z.leb_gt]. destruct l0_frame as (F0 & F1 & F2).
  pose proof (static_frame l1_table ltac:(unfold statics; inlist)) as G1. pose proof (static_frame l2_table ltac:(unfold statics; inlist)) as G2.
  destruct (decide (va < 2 ^ 30)) as [Hlow|Hhigh].
  { destruct (root_entries va ltac:(lia)) as (E0 & E1 & B0 & B1).
    fold (slot (l0_phys vm) va 39). fold (slot l0_table va 39). rewrite E0, B0, !table_desc_valid, !table_desc_table, !table_desc_mask by done.
    fold (slot (l1_phys vm) va 30). fold (slot l1_table va 30). rewrite E1, B1, !table_desc_valid, !table_desc_table, !table_desc_mask by done.
    cbn [andb negb]. fold (slot (l2_phys vm) va 21). fold (slot l2_table va 21).
    rewrite l2_slot, Hn by lia. reflexivity. }
  fold (slot (l0_phys vm) va 39). fold (slot l0_table va 39). rewrite !(slot_eq _ va 39) by lia.
  assert (Hi0 : 0 <= va / 2 ^ 39 < 512) by (split; [apply Z.div_pos; lia|apply Z.div_lt_upper_bound; lia]).
  rewrite !(Z.mod_small _ 512) by done. destruct (decide (va / 2 ^ 39 = 0)) as [Ez|Hnz].
  2:{ rewrite (vt_l0 _ _ _ _ Ht), decide_False by lia. rewrite (bm_l0 _ _ Hbm) by lia. reflexivity. }
  rewrite Ez. rewrite (vt_l0 _ _ _ _ Ht 0), decide_True by lia. rewrite Z.mul_0_r, Z.add_0_r, R0.
  rewrite !table_desc_valid, !table_desc_table, !table_desc_mask by done. cbn [andb negb].
  fold (slot (l1_phys vm) va 30). fold (slot l1_table va 30). rewrite !(slot_eq _ va 30) by lia.
  assert (Hi1 : 0 < va / 2 ^ 30 < 512).
  { apply Z.div_small_iff in Ez; [|lia]. split; [apply Z.div_str_pos; lia|apply Z.div_lt_upper_bound; lia]. }
  rewrite !(Z.mod_small _ 512) by lia. rewrite (vt_l1 _ _ _ _ Ht), decide_False by lia. rewrite (bm_l1 _ _ Hbm) by lia. reflexivity.
Qed.

(** The words that the walk reads are in the tables of the space, or the walk through the
    boot map reads them too. *)
Lemma slot_in tab va shift : page tab -> 0 <= shift -> slab_of (slot tab va shift) = tab.
Proof. intros Hp Hs. rewrite slot_eq by done. apply slot_page; [done|]. apply Z.mod_pos_bound. lia. Qed.

Lemma reads_cases va x : x ∈ walk_reads m (l0_phys vm) va -> slab_of x ∈ tables vm t \/ x ∈ walk_reads m l0_table va.
Proof.
  destruct l0_frame as ([F0 _] & [F1 G1] & [F2 G2]). pose proof (static_frame l1_table ltac:(unfold statics; inlist)) as S1. pose proof (static_frame l2_table ltac:(unfold statics; inlist)) as S2.
  assert (H0 : slab_of (slot (l0_phys vm) va 39) ∈ tables vm t) by (rewrite slot_in by (done || lia); apply table_0).
  assert (E0 : load m (slot (l0_phys vm) va 39) = table_desc (l1_phys vm) /\ load m (slot l0_table va 39) = table_desc l1_table
    \/ load m (slot (l0_phys vm) va 39) = load m (slot l0_table va 39)).
  { rewrite !slot_eq by lia. set (i := _ mod 512). assert (Hi : 0 <= i < 512) by (apply Z.mod_pos_bound; lia). rewrite (vt_l0 _ _ _ _ Ht i Hi).
    destruct (decide (i = 0)) as [->|Hn]; [left; split; [done|by rewrite Z.add_0_r]|right]. by rewrite (bm_l0 _ _ Hbm) by lia. }
  destruct E0 as [[E0 B0]|E0].
  2:{ unfold walk_reads. rewrite E0. destruct (negb _); [intros ->%list_elem_of_singleton; by left|].
      destruct (_ || _); [|destruct (_ || _)]; intros [->|Hx]%elem_of_cons; (by left) || (right; by right). }
  assert (H1 : slab_of (slot (l1_phys vm) va 30) ∈ tables vm t) by (rewrite slot_in by (done || lia); apply table_1).
  unfold walk_reads. rewrite E0, B0, !table_desc_valid, !table_desc_table, !table_desc_mask by done. cbn [andb negb].
  assert (E1 : load m (slot (l1_phys vm) va 30) = table_desc (l2_phys vm) /\ load m (slot l1_table va 30) = table_desc l2_table
    \/ load m (slot (l1_phys vm) va 30) = load m (slot l1_table va 30)).
  { rewrite !slot_eq by lia. set (i := _ mod 512). assert (Hi : 0 <= i < 512) by (apply Z.mod_pos_bound; lia). rewrite (vt_l1 _ _ _ _ Ht i Hi).
    destruct (decide (i = 0)) as [->|Hn]; [left; split; [done|by rewrite Z.add_0_r]|right]. by rewrite (bm_l1 _ _ Hbm) by lia. }
  destruct E1 as [[E1 B1]|E1].
  2:{ rewrite E1. destruct (_ || _); [|destruct (_ || _)]; intros [->|[->|Hx]%elem_of_cons]%elem_of_cons; (by left) || (right; right; by right). }
  assert (H2 : slab_of (slot (l2_phys vm) va 21) ∈ tables vm t) by (rewrite slot_in by (done || lia); apply table_2).
  rewrite E1, B1, !table_desc_valid, !table_desc_table, !table_desc_mask by done. cbn [andb negb orb].
  assert (E2 : load m (slot (l2_phys vm) va 21) = match t_l3 t !! (vpn va / 512) with Some p => table_desc p | None => load m (slot l2_table va 21) end).
  { rewrite !slot_eq by lia. assert (Ei : (va / 2 ^ 21) mod 512 = vpn va / 512).
    { unfold vpn, NPAGES. change (2 ^ 21) with 2097152. change (2 ^ 18) with 262144. Z.to_euclidean_division_equations. lia. }
    rewrite Ei. destruct (vpn_split _ (vpn_range va)) as (Hi & _). rewrite (vt_l2 _ _ _ _ Ht) by done. by rewrite (bm_l2 _ _ Hbm) by done. }
  rewrite E2. destruct (t_l3 t !! (vpn va / 512)) as [p|] eqn:El.
  - pose proof (owned_frame Ht p (l3_owned _ _ El)) as [Fp Gp]. rewrite table_desc_valid, table_desc_table, table_desc_mask by done. cbn [andb negb orb].
    intros [->|[->|[->|[->|[]%elem_of_nil]%elem_of_cons]%elem_of_cons]%elem_of_cons]%elem_of_cons; left; try done. rewrite slot_in by (done || lia).
    unfold tables. do 3 right. apply elem_of_vals. eauto.
  - destruct (_ || _); intros [->|[->|[->|Hx]%elem_of_cons]%elem_of_cons]%elem_of_cons; (by left) || (right; do 3 right; exact Hx).
Qed.

End Walk.

End VmWalk.
