(* ===== verification/Vm.v ===== *)
(** * Address spaces and processes: [uts/os/proc/process.c] and the memory calls of
    [uts/os/user/user.c]

    A process is a [struct process] with a [struct vm_map]; both are blocks of the slab
    allocator of Kmem.v, kept here as records at their addresses.  A thread holds a
    reference to its process, and a page for its kernel stack.  The page tables are
    those of Mmu.v, in the memory all of these share.

    The addresses of the two static objects are parameters. *)

From stdpp Require Import base numbers list gmap.
From Stdlib Require Import ZArith Lia Bool.
From S2P Require Import Prelude Kmem Mmu Cheap.

Module Vm.
Import Kmem Mmu.

Class Statics := {
  init_vm_map : Z;
  init_process : Z }.

Record process := mk_process {
  pid : Z;
  p_vm : Z;
  parent : Z;
  exit_status : Z;
  p_refs : Z }.
#[export] Instance process_rebuild : Rebuild process :=
  rpure mk_process <:> pid <:> p_vm <:> parent <:> exit_status <:> p_refs.

(** What a [struct kthread] holds of memory: its stack page, its process, and the table
    of signal actions, null before the first [sigaction]. *)
Record thread := mk_thread {
  stack_base : Z;
  t_proc : Z;
  sig_actions : Z }.
#[export] Instance thread_rebuild : Rebuild thread := rpure mk_thread <:> stack_base <:> t_proc <:> sig_actions.

(** [launch]: the argument blocks of threads that have not started, with the entry
    point, the stack pointer and the argument.  [boot_spawn_next] is the static
    [spawn_next].  [kblocks] and [kpages] are what the rest of the kernel has from
    [kmalloc] and [pmm_alloc]. *)
Record vsys := mk_vsys {
  km : kmem;
  vms : gmap Z vm_map;
  procs : gmap Z process;
  threads : gmap Z thread;
  launch : gmap Z (Z * Z * Z);
  kblocks : gset Z;
  kpages : gset Z;
  next_pid : Z;
  boot_spawn_next : Z }.
#[export] Instance vsys_rebuild : Rebuild vsys :=
  rpure mk_vsys <:> km <:> vms <:> procs <:> threads <:> launch <:> kblocks <:> kpages <:> next_pid <:> boot_spawn_next.

(** ** Windows of the address space *)

Definition USER_VA : Z := 0x10000000.
Definition USER_SIZE : Z := 0x00200000.
Definition EXEC_VA : Z := 0x20000000.
Definition EXEC_SIZE : Z := 0x01000000.
Definition EXEC_STACK_VA : Z := 0x21000000.
Definition EXEC_STACK_SIZE : Z := 0x00200000.
Definition EXEC_STACK_TOP : Z := 0x21200000.
Definition ANON_VA : Z := 0x22000000.
Definition ANON_SIZE : Z := 0x08000000.
Definition LD_VA : Z := 0x30000000.
Definition LD_SIZE : Z := 0x00100000.
Definition LIBC_VA : Z := 0x38000000.
Definition LIBC_SIZE : Z := 0x00200000.
Definition DLOPEN_VA : Z := 0x39000000.
Definition DLOPEN_SIZE : Z := 0x00200000.
Definition DLOPEN_SLOT_SIZE : Z := 0x00080000.
Notation EXEC_HEAP_VA := Cheap.EXEC_HEAP_VA.
Notation EXEC_HEAP_SIZE := Cheap.EXEC_HEAP_SIZE.
Definition SPAWN_STACK_SIZE : Z := 0x10000.
Definition SPAWN_MAX : Z := USER_SIZE / SPAWN_STACK_SIZE - 1.

Definition page_align (a : Z) : Z := Z.land a (u64 (Z.lnot PAGE_MASK)).
Definition page_round (a : Z) : Z := page_align (u64 (a + PAGE_SIZE - 1)).

(** ** Pages of one address space *)

Fixpoint vmap_alloc_pages (count : nat) (st : pmm) (vm : vm_map) (va : Z) (zero : bool) : Z * pmm :=
  match count with
  | O => (0, st)
  | S count =>
      let '(p, st) := pmm_alloc st in
      if p =? 0 then (-1, st)
      else
        let st := if zero then st <| mem := set_phys (Z.to_nat PAGE_SIZE) (mem st) p 0 |> else st in
        let '(r, st) := mmu_vmap_map_user_4k st vm va p in
        if r <? 0 then (-1, pmm_free st p) else vmap_alloc_pages count st vm (u64 (va + PAGE_SIZE)) zero
  end.

(** The bytes [src] from [s] on, [len] of them, to [user_va].  A round copies at least
    one byte, so [len] rounds are enough. *)
Fixpoint vmap_copyin_loop (f : nat) (st : pmm) (vm : vm_map) (user_va : Z) (src : Z -> Z) (s len : Z) : Z * pmm :=
  match f with
  | O => (0, st)
  | S f =>
      if len >? 0 then
        let kva := mmu_vmap_user_va_to_kva st vm user_va in
        if kva =? 0 then (-1, st)
        else
          let avail := PAGE_SIZE - Z.land user_va PAGE_MASK in
          let n := if len <? avail then len else avail in
          let st := st <| mem := copy_from (Z.to_nat n) (mem st) kva src s |> in
          vmap_copyin_loop f st vm (u64 (user_va + n)) src (s + n) (len - n)
      else (0, st)
  end.
Definition vmap_copyin (st : pmm) (vm : vm_map) (user_va : Z) (src : Z -> Z) (len : Z) : Z * pmm :=
  vmap_copyin_loop (Z.to_nat len + 1) st vm user_va src 0 len.

(** [for (v = va; v < end; v += PAGE_SIZE) mmu_vmap_unmap_user_4k (vm, v)], with [n]
    rounds to go. *)
Fixpoint unmap_range (n : nat) (st : pmm) (vm : vm_map) (v : Z) : pmm :=
  match n with
  | O => st
  | S n => unmap_range n (snd (mmu_vmap_unmap_user_4k st vm v)) vm (u64 (v + PAGE_SIZE))
  end.

(** The number of rounds of such a loop. *)
Definition rounds (v end_ : Z) : nat := Z.to_nat ((end_ - v + PAGE_SIZE - 1) / PAGE_SIZE).

Fixpoint fork_clone_pages (n : nat) (st : pmm) (cvm pvm : vm_map) (va : Z) : Z * pmm :=
  match n with
  | O => (0, st)
  | S n =>
      let src := mmu_vmap_user_va_to_kva st pvm va in
      if src =? 0 then fork_clone_pages n st cvm pvm (u64 (va + PAGE_SIZE))
      else
        let '(p, st) := pmm_alloc st in
        if p =? 0 then (-1, st)
        else
          let st := st <| mem := copy_phys (Z.to_nat PAGE_SIZE) (mem st) p src |> in
          let '(r, st) := mmu_vmap_map_user_4k st cvm va p in
          if r <? 0 then (-1, pmm_free st p) else fork_clone_pages n st cvm pvm (u64 (va + PAGE_SIZE))
  end.

(** The pages of a process, as the C library's [brk] uses them. *)
#[export] Instance vmap_pages : Cheap.UserPages (pmm * vm_map) := {
  vmap_alloc_pages := fun '(st, vm) va n =>
    let '(r, st) := vmap_alloc_pages (Z.to_nat n) st vm va true in (negb (r <? 0), (st, vm));
  mmu_vmap_unmap_user_4k := fun '(st, vm) va => (snd (mmu_vmap_unmap_user_4k st vm va), vm) }.

(** ** Reference counts *)

Definition SIZEOF_VM_MAP : Z := 856.
Definition SIZEOF_PROCESS : Z := 32.
Definition SIZEOF_KTHREAD : Z := 296.

Section Code.
Context {BT : BootTables} {ST : Statics}.

Definition no_slot : Z * bytes := (0, []).
Definition zero_vm_map : vm_map := mk_vm_map 0 0 0 0 0 0 (replicate DLOPEN_MAX_SLOTS no_slot) [] [] 0.

Definition set_vm (s : vsys) (a : Z) (vm : vm_map) : vsys := s <| vms := <[a := vm]> (vms s) |>.
Definition set_pm (s : vsys) (st : pmm) : vsys := s <| km := (km s) <| pm := st |> |>.

Definition boot_vm_map : vm_map := zero_vm_map <| refs := 1 |> <| cwd := [47] |>.
Definition boot_process : process := mk_process 1 init_vm_map 0 0 1.

Definition process_init (s : vsys) : vsys :=
  match vms s !! init_vm_map with
  | Some vm => set_vm s init_vm_map (vm <| l0_phys := l0_table |>)
  | None => s
  end.

Definition vm_map_get (s : vsys) (a : Z) : vsys :=
  match vms s !! a with
  | Some vm => if negb (a =? 0) then set_vm s a (vm <| refs := refs vm + 1 |>) else s
  | None => s
  end.

Definition vm_map_put (s : vsys) (a : Z) : vsys :=
  if a =? 0 then s
  else
    match vms s !! a with
    | None => s
    | Some vm =>
        let vm := vm <| refs := refs vm - 1 |> in
        if refs vm >? 0 then set_vm s a vm
        else if a =? init_vm_map then set_vm s a (vm <| refs := 1 |>)
        else
          let '(_, st) := mmu_vmap_destroy (pm (km s)) vm in
          let s := set_pm s st in
          s <| km := kfree (km s) a |> <| vms := delete a (vms s) |>
    end.

Definition vm_map_create (s : vsys) : Z * vsys :=
  let '(a, k) := kmalloc (km s) SIZEOF_VM_MAP in
  let s := s <| km := k |> in
  if a =? 0 then (0, s)
  else
    let vm := zero_vm_map <| refs := 1 |> <| heap_brk := 0 |> <| cwd := [47] |> in
    let '(r, vm, st) := mmu_vmap_create (pm (km s)) vm in
    let s := set_pm s st in
    if r <? 0 then (0, s <| km := kfree (km s) a |>) else (a, set_vm s a vm).

Definition process_alloc (s : vsys) (vm : Z) : Z * vsys :=
  if vm =? 0 then (0, s)
  else
    let '(p, k) := kmalloc (km s) SIZEOF_PROCESS in
    let s := s <| km := k |> in
    if p =? 0 then (0, s)
    else
      let id := next_pid s in
      let s := vm_map_get s vm in
      (p, s <| next_pid := u32 (id + 1) |> <| procs := <[p := mk_process id vm 0 0 1]> (procs s) |>).

Definition process_put (s : vsys) (p : Z) : vsys :=
  if p =? 0 then s
  else if p =? init_process then s
  else
    match procs s !! p with
    | None => s
    | Some pr =>
        let pr := pr <| p_refs := p_refs pr - 1 |> in
        if p_refs pr >? 0 then s <| procs := <[p := pr]> (procs s) |>
        else
          let s := vm_map_put s (p_vm pr) in
          s <| km := kfree (km s) p |> <| procs := delete p (procs s) |>
    end.

(** ** Threads

    The memory of [kthread_create_internal]: the block, the stack page, and the
    reference to the creator's process. *)
Definition thread_create (s : vsys) (creator : Z) : Z * vsys :=
  let '(t, k) := kmalloc (km s) SIZEOF_KTHREAD in
  let s := s <| km := k |> in
  if t =? 0 then (0, s)
  else
    let '(stack, st) := pmm_alloc (pm (km s)) in
    let s := set_pm s st in
    if stack =? 0 then (0, s <| km := kfree (km s) t |>)
    else
      let p := match threads s !! creator with Some c => t_proc c | None => init_process end in
      let s := match procs s !! p with
               | Some pr => if negb (p =? 0) then s <| procs := <[p := pr <| p_refs := p_refs pr + 1 |>]> (procs s) |> else s
               | None => s
               end in
      (t, s <| threads := <[t := mk_thread stack p 0]> (threads s) |>).

(** The body of the reaping loop of [switch_to_next]. *)
Definition thread_reap (s : vsys) (t : Z) : vsys :=
  match threads s !! t with
  | None => s
  | Some th =>
      if negb (stack_base th =? 0) then
        let s := set_pm s (pmm_free (pm (km s)) (stack_base th)) in
        let s := if negb (sig_actions th =? 0) then s <| km := kfree (km s) (sig_actions th) |> else s in
        let s := if negb (t_proc th =? 0) then process_put s (t_proc th) else s in
        s <| km := kfree (km s) t |> <| threads := delete t (threads s) |>
      else s
  end.

(** [curthread->t_proc->vm], with the guards every call starts with. *)
Definition cur_vm (s : vsys) (t : Z) : option Z :=
  match threads s !! t with
  | None => None
  | Some th =>
      if t_proc th =? 0 then None
      else
        match procs s !! t_proc th with
        | None => None
        | Some pr => if p_vm pr =? 0 then None else Some (p_vm pr)
        end
  end.

(** ** System calls *)

Definition sys_brk_impl (s : vsys) (t addr : Z) : Z * vsys :=
  match cur_vm s t with
  | None => (-1, s)
  | Some a =>
      match vms s !! a with
      | None => (-1, s)
      | Some vm =>
          if heap_brk vm =? 0 then (-1, s)
          else if addr =? 0 then (heap_brk vm, s)
          else if (addr <? EXEC_HEAP_VA) || (addr >? EXEC_HEAP_VA + EXEC_HEAP_SIZE) then (-1, s)
          else
            let old_top := page_round (heap_brk vm) in
            let new_top := page_round addr in
            if new_top >? old_top then
              let '(r, st) := vmap_alloc_pages (Z.to_nat ((new_top - old_top) / PAGE_SIZE)) (pm (km s)) vm old_top true in
              let s := set_pm s st in
              if r <? 0 then (-1, s) else (addr, set_vm s a (vm <| heap_brk := addr |>))
            else
              let s :=
                if new_top <? old_top then set_pm s (unmap_range (rounds new_top old_top) (pm (km s)) vm new_top)
                else s in
              (addr, set_vm s a (vm <| heap_brk := addr |>))
      end
  end.

(** *** Files as [mmap] sees them: the operations of [struct file_ops], on the state [F] of
    the file system, which has the open file of the call.  [fo_read] returns what it
    puts in the buffer, [None] for an error. *)
Record file_ops (F : Type) := mk_file_ops {
  fo_open : option (F -> bool * F);
  fo_seek : option (F -> Z -> Z -> Z * F);
  fo_read : F -> Z -> option bytes * F;
  fo_close : option (F -> F);
  fo_iget : F -> F;
  fo_iput : F -> F }.
#[global] Arguments fo_open {F}.
#[global] Arguments fo_seek {F}.
#[global] Arguments fo_read {F}.
#[global] Arguments fo_close {F}.
#[global] Arguments fo_iget {F}.
#[global] Arguments fo_iput {F}.

Definition byte_of (b : bytes) (i : Z) : Z := default 0 (b !! Z.to_nat i).

Section Files.
Context {F : Type}.

(** [while (pos < PAGE_SIZE)]: a round reads at least one byte. *)
Fixpoint read_page (f : nat) (ops : file_ops F) (fs : F) (m : gmap Z Z) (kva pos : Z) : gmap Z Z * F :=
  match f with
  | O => (m, fs)
  | S f =>
      if pos <? PAGE_SIZE then
        match fo_read ops fs (PAGE_SIZE - pos) with
        | (Some b, fs) =>
            if zlen b <=? 0 then (m, fs)
            else read_page f ops fs (copy_from (length b) m (kva + pos) (byte_of b) 0) kva (pos + zlen b)
        | (None, fs) => (m, fs)
        end
      else (m, fs)
  end.

Fixpoint read_pages (n : nat) (ops : file_ops F) (fs : F) (st : pmm) (vm : vm_map) (va : Z) : pmm * F :=
  match n with
  | O => (st, fs)
  | S n =>
      let kva := mmu_vmap_user_va_to_kva st vm va in
      if kva =? 0 then (st, fs)
      else
        let '(m, fs) := read_page (Z.to_nat PAGE_SIZE) ops fs (mem st) kva 0 in
        read_pages n ops fs (st <| mem := m |>) vm (u64 (va + PAGE_SIZE))
  end.

Definition MAP_PRIVATE : Z := 0x02.
Definition MAP_ANONYMOUS : Z := 0x20.

(** The file part of [sys_mmap_impl]; [None] if the file does not open. *)
Definition mmap_file (ops : file_ops F) (fs : F) (st : pmm) (vm : vm_map) (base : Z) (n : nat) (offset : Z) : option pmm * F :=
  let fs := fo_iget ops fs in
  let '(ok, fs) := match fo_open ops with Some o => o fs | None => (true, fs) end in
  if negb ok then (None, fo_iput ops fs)
  else
    let '(seekable, fs) :=
      if offset >? 0 then
        match fo_seek ops with
        | None => (false, fs)
        | Some sk => let '(r, fs) := sk fs (s64 offset) 0 in (negb (r <? 0), fs)
        end
      else (true, fs) in
    let '(st, fs) := if seekable : bool then read_pages n ops fs st vm base else (st, fs) in
    let fs := match fo_close ops with Some c => c fs | None => fs end in
    (Some st, fo_iput ops fs).

(** [uf]: what [fd_get] gave, if it can be read. *)
Definition sys_mmap_impl (s : vsys) (fs : F) (t length_ flags fd offset : Z) (uf : option (file_ops F)) : Z * vsys * F :=
  match cur_vm s t with
  | None => (-1, s, fs)
  | Some a =>
      match vms s !! a with
      | None => (-1, s, fs)
      | Some vm =>
          let is_anon := has flags MAP_ANONYMOUS in
          let uf := if is_anon then None else uf in
          if length_ =? 0 then (-1, s, fs)
          else if negb is_anon && (negb (has flags MAP_PRIVATE) || (fd <? 0)) then (-1, s, fs)
          else if negb is_anon && match uf with None => true | Some _ => false end then (-1, s, fs)
          else
            let vm := if anon_next vm =? 0 then vm <| anon_next := ANON_VA |> else vm in
            let s := set_vm s a vm in
            let aligned := page_round length_ in
            let base := anon_next vm in
            if u64 (base + aligned) >? ANON_VA + ANON_SIZE then (-1, s, fs)
            else
              let n := Z.to_nat (u32 (aligned / PAGE_SIZE)) in
              let '(r, st) := vmap_alloc_pages n (pm (km s)) vm base true in
              let s := set_pm s st in
              if r <? 0 then (-1, s, fs)
              else
                match uf with
                | None => (base, set_vm s a (vm <| anon_next := u64 (base + aligned) |>), fs)
                | Some ops =>
                    let '(ost, fs) := mmap_file ops fs st vm base n offset in
                    match ost with
                    | None => (-1, s, fs)
                    | Some st => (base, set_vm (set_pm s st) a (vm <| anon_next := u64 (base + aligned) |>), fs)
                    end
                end
      end
  end.

End Files.

Definition sys_munmap_impl (s : vsys) (t addr length_ : Z) : Z * vsys :=
  match cur_vm s t with
  | None => (-1, s)
  | Some a =>
      match vms s !! a with
      | None => (-1, s)
      | Some vm =>
          if length_ =? 0 then (-1, s)
          else if (addr <? ANON_VA) || (u64 (addr + length_) >? ANON_VA + ANON_SIZE) then (-1, s)
          else
            let aligned := page_round length_ in
            (0, set_pm s (unmap_range (rounds addr (u64 (addr + aligned))) (pm (km s)) vm addr))
      end
  end.

(** *** fork *)

Definition clone_windows : list (Z * Z) :=
  [(EXEC_VA, EXEC_SIZE); (EXEC_STACK_VA, EXEC_STACK_SIZE); (EXEC_HEAP_VA, EXEC_HEAP_SIZE);
   (LD_VA, LD_SIZE); (LIBC_VA, LIBC_SIZE); (DLOPEN_VA, DLOPEN_SIZE); (ANON_VA, ANON_SIZE)].

(** The chain of [||]: the first failure ends it. *)
Fixpoint clone_all (ws : list (Z * Z)) (st : pmm) (cvm pvm : vm_map) : Z * pmm :=
  match ws with
  | [] => (0, st)
  | (va, size) :: ws =>
      let '(r, st) := fork_clone_pages (rounds va (va + size)) st cvm pvm va in
      if r <? 0 then (r, st) else clone_all ws st cvm pvm
  end.

Definition pc_in_window (pc va size : Z) : bool := (pc >=? va) && (pc <? va + size).

(** The child's address space and process: [sys_fork_impl] up to the creation of the
    thread.  Strings of at most 127 bytes stand for the fixed buffers. *)
Definition fork_process (s : vsys) (t elr : Z) : Z * vsys :=
  match cur_vm s t with
  | None => (0, s)
  | Some a =>
      match vms s !! a with
      | None => (0, s)
      | Some pvm =>
          if heap_brk pvm =? 0 then (0, s)
          else if negb (pc_in_window elr EXEC_VA EXEC_SIZE) && negb (pc_in_window elr LIBC_VA LIBC_SIZE) then (0, s)
          else
            let '(c, s) := vm_map_create s in
            if c =? 0 then (0, s)
            else
              let cvm := default zero_vm_map (vms s !! c) in
              let '(r, st) := clone_all clone_windows (pm (km s)) cvm pvm in
              let s := set_pm s st in
              if r <? 0 then (0, vm_map_put s c)
              else
                let cvm := cvm <| dlopen_slots := dlopen_slots pvm |> <| dlerror_msg := [] |>
                             <| heap_brk := heap_brk pvm |> <| spawn_next := spawn_next pvm |>
                             <| anon_next := anon_next pvm |> in
                let s := set_vm s c cvm in
                let '(cp, s) := process_alloc s c in
                let s := vm_map_put s c in
                (cp, s)
      end
  end.

(** The rest: a thread for it, which starts with the creator's process and is then given
    the child's.  [0] is failure, else the address of the child's thread. *)
Definition sys_fork_impl (s : vsys) (t elr : Z) : Z * vsys :=
  let '(cp, s) := fork_process s t elr in
  if cp =? 0 then (0, s)
  else
    let '(ct, s) := thread_create s t in
    if ct =? 0 then (0, process_put s cp)
    else
      let th := default (mk_thread 0 0 0) (threads s !! ct) in
      let s := process_put s (t_proc th) in
      (ct, s <| threads := <[ct := th <| t_proc := cp |>]> (threads s) |>).

(** *** Threads of a process *)

Definition SIZEOF_SPAWN_ARGS : Z := 24.

(** The stack slot for a thread at [entry]: its top, and the state with the counter
    advanced. *)
Definition spawn_slot (s : vsys) (t entry : Z) : option (Z * vsys) :=
  if (entry >=? USER_VA) && (entry <? USER_VA + USER_SIZE) then
    if boot_spawn_next s >=? SPAWN_MAX then None
    else
      let slot := u32 (boot_spawn_next s + 1) in
      Some (USER_VA + USER_SIZE - slot * SPAWN_STACK_SIZE, s <| boot_spawn_next := slot |>)
  else if (entry >=? EXEC_VA) && (entry <? EXEC_VA + EXEC_SIZE) then
    match cur_vm s t with
    | None => None
    | Some a =>
        match vms s !! a with
        | None => None
        | Some vm =>
            if heap_brk vm =? 0 then None
            else if spawn_next vm >=? SPAWN_MAX then None
            else
              let slot := u32 (spawn_next vm + 1) in
              Some (EXEC_STACK_TOP - slot * SPAWN_STACK_SIZE, set_vm s a (vm <| spawn_next := slot |>))
        end
    end
  else None.

(** [0] is failure, else the address of the thread. *)
Definition sys_spawn_impl (s : vsys) (t entry arg : Z) : Z * vsys :=
  match spawn_slot s t entry with
  | None => (0, s)
  | Some (stack_top, s) =>
      let '(a, k) := kmalloc (km s) SIZEOF_SPAWN_ARGS in
      let s := s <| km := k |> in
      if a =? 0 then (0, s)
      else
        let s := s <| launch := <[a := (entry, stack_top, arg)]> (launch s) |> in
        let '(c, s) := thread_create s t in
        if c =? 0 then (0, s <| km := kfree (km s) a |> <| launch := delete a (launch s) |>) else (c, s)
  end.

(** [spawn_thread_main]: where the thread enters user mode. *)
Definition spawn_thread_main (s : vsys) (p : Z) : option (Z * Z * Z) * vsys :=
  (launch s !! p, s <| km := kfree (km s) p |> <| launch := delete p (launch s) |>).

Definition user_spawn_one (s : vsys) (i : Z) : vsys :=
  let '(a, k) := kmalloc (km s) SIZEOF_SPAWN_ARGS in
  let s := s <| km := k |> in
  if a =? 0 then s
  else
    let s := s <| launch := <[a := (USER_VA, USER_VA + USER_SIZE - i * SPAWN_STACK_SIZE, i)]> (launch s) |> in
    let '(t, s) := thread_create s 0 in
    if t =? 0 then s <| km := kfree (km s) a |> <| launch := delete a (launch s) |> else s.

Definition NTTY : Z := 5.
Definition user_spawn (s : vsys) : vsys :=
  let s := foldl user_spawn_one s (seqZ 0 NTTY) in
  s <| boot_spawn_next := NTTY - 1 |>.

End Code.

End Vm.
