(* ===== verification/Exec.v ===== *)
(** * Programs: the ELF loader, execve and dlopen of [uts/os/user/user.c]

    An image is what is at each offset from the start of the buffer that [read_file_kernel]
    filled, or of a blob: the loader follows the offsets of the headers without looking at
    the size of the file, so an image has a byte everywhere.  Offsets are 64-bit. *)

From Stdlib Require Import Ascii String.
From stdpp Require Import base numbers list gmap.
From Stdlib Require Import ZArith Lia Bool.
From S2P Require Import Prelude Kmem Cheap Mmu Vm.

Module Exec.
Import Kmem Mmu Vm.

#[local] Notation length := Datatypes.length.

Definition image := Z -> Z.

(** The bytes of a message. *)
Fixpoint text (s : string) : bytes :=
  match s with
  | EmptyString => []
  | String c s => Z.of_N (N_of_ascii c) :: text s
  end.

(** ** ELF headers: [abi/elf.h] *)

(** [n] bytes from [off] on, lowest first. *)
Fixpoint le (n : nat) (img : image) (off : Z) : Z :=
  match n with
  | O => 0
  | S n => img (u64 off) mod 256 + 256 * le n img (off + 1)
  end.

Definition SIZEOF_EHDR : Z := 64.
Definition ET_EXEC : Z := 2.
Definition ET_DYN : Z := 3.
Definition EM_AARCH64 : Z := 0xB7.
Definition PT_LOAD : Z := 1.
Definition PT_DYNAMIC : Z := 2.

Section Header.
Context (img : image).
Definition e_type : Z := le 2 img 16.
Definition e_machine : Z := le 2 img 18.
Definition e_entry : Z := le 8 img 24.
Definition e_phoff : Z := le 8 img 32.
Definition e_phentsize : Z := le 2 img 54.
Definition e_phnum : Z := le 2 img 56.

(** The program header [i], as an offset. *)
Definition phdr (i : Z) : Z := u64 (e_phoff + i * e_phentsize).
Definition p_type (ph : Z) : Z := le 4 img ph.
Definition p_offset (ph : Z) : Z := le 8 img (ph + 8).
Definition p_vaddr (ph : Z) : Z := le 8 img (ph + 16).
Definition p_filesz (ph : Z) : Z := le 8 img (ph + 32).
Definition p_memsz (ph : Z) : Z := le 8 img (ph + 40).

Definition elf_magic : bool :=
  (img 0 mod 256 =? 0x7f) && (img 1 mod 256 =? 69) && (img 2 mod 256 =? 76) && (img 3 mod 256 =? 70).
Definition elf_aarch64 : bool := (img 4 mod 256 =? 2) && (img 5 mod 256 =? 1) && (e_machine =? EM_AARCH64).
End Header.

(** ** Segments *)

Inductive loaded := Loaded | Outside | NoPages | NoCopy.

(** The body of the loops over the program headers, which are the same in
    [sys_execve_impl] (for the program and for libc.so), [load_static_elf] and
    [sys_dlopen_impl]: the segment goes to [p_vaddr + bias], inside [lo, hi). *)
Definition load_segment (st : pmm) (vm : vm_map) (img : image) (ph bias lo hi : Z) : loaded * pmm :=
  let va := u64 (p_vaddr img ph + bias) in
  if (va <? lo) || (u64 (va + p_memsz img ph) >? hi) then (Outside, st)
  else
    let seg_start := page_align va in
    let seg_end := page_round (u64 (va + p_memsz img ph)) in
    let n_pages := u32 (u64 (seg_end - seg_start) / PAGE_SIZE) in
    let '(r, st) := vmap_alloc_pages (Z.to_nat n_pages) st vm seg_start true in
    if r <? 0 then (NoPages, st)
    else if p_filesz img ph >? 0 then
      let '(r, st) := vmap_copyin st vm va (fun i => img (u64 (p_offset img ph + i))) (p_filesz img ph) in
      if r <? 0 then (NoCopy, st) else (Loaded, st)
    else (Loaded, st).

(** With [n] headers to go, from [i] on. *)
Fixpoint load_segments (n : nat) (i : Z) (st : pmm) (vm : vm_map) (img : image) (bias lo hi : Z) : loaded * pmm :=
  match n with
  | O => (Loaded, st)
  | S n =>
      let ph := phdr img i in
      if negb (p_type img ph =? PT_LOAD) then load_segments n (i + 1) st vm img bias lo hi
      else
        match load_segment st vm img ph bias lo hi with
        | (Loaded, st) => load_segments n (i + 1) st vm img bias lo hi
        | r => r
        end
  end.
Definition load_all (st : pmm) (vm : vm_map) (img : image) (bias lo hi : Z) : loaded * pmm :=
  load_segments (Z.to_nat (e_phnum img)) 0 st vm img bias lo hi.

(** [0] is failure, else the entry point. *)
Definition load_static_elf (st : pmm) (vm : vm_map) (img : image) (img_sz va_min va_max : Z) : Z * pmm :=
  if img_sz <? SIZEOF_EHDR then (0, st)
  else if negb (elf_magic img && elf_aarch64 img && (e_type img =? ET_EXEC)) then (0, st)
  else
    match load_all st vm img 0 va_min va_max with
    | (Loaded, st) => (e_entry img, st)
    | (_, st) => (0, st)
    end.

(** ** The stack of a new program *)

Definition EXEC_MAX_ARGS : nat := 32.

(** The bytes of a word, lowest first. *)
Fixpoint word_bytes (n : nat) (w : Z) : bytes :=
  match n with
  | O => []
  | S n => w mod 256 :: word_bytes n (w / 256)
  end.
Definition words (ws : list Z) : bytes := ws ≫= word_bytes 8.

(** The strings, the last one first: the result, the stack pointer, the addresses (the
    first one first), and the memory. *)
Fixpoint push_strings (rev_args : list bytes) (st : pmm) (vm : vm_map) (sp : Z) (uva : list Z) : Z * Z * list Z * pmm :=
  match rev_args with
  | [] => (0, sp, uva, st)
  | a :: rev_args =>
      let len := zlen a + 1 in
      let sp := Z.land (u64 (sp - len)) (u64 (Z.lnot 7)) in
      let '(r, st) := vmap_copyin st vm sp (byte_of (a ++ [0])) len in
      if r <? 0 then (-1, sp, uva, st) else push_strings rev_args st vm sp (sp :: uva)
  end.

(** [sp -= sizeof(ws); vmap_copyin(vm, sp, ws, sizeof(ws))] *)
Definition push (st : pmm) (vm : vm_map) (sp : Z) (ws : list Z) : Z * pmm :=
  let len := zlen (words ws) in
  let sp := u64 (sp - len) in
  let '(_, st) := vmap_copyin st vm sp (byte_of (words ws)) len in
  (sp, st).

Fixpoint push_all (st : pmm) (vm : vm_map) (sp : Z) (l : list (list Z)) : Z * pmm :=
  match l with
  | [] => (sp, st)
  | ws :: l => let '(sp, st) := push st vm sp ws in push_all st vm sp l
  end.

Definition AT_ENTRY : Z := 9.
Definition AT_KAPPARA_LIBC_BASE : Z := 0x101.
Definition AT_KAPPARA_APP_BASE : Z := 0x100.

(** What goes below the strings, in the order of the pushes; [uva] are the addresses of
    the arguments. *)
Definition stack_words (uva : list Z) (entry libc_base app_base : Z) : list (list Z) :=
  (if Nat.even (length uva) then [[0]] else [])
  ++ [[0; 0]; [AT_ENTRY; entry]; [AT_KAPPARA_LIBC_BASE; libc_base]; [AT_KAPPARA_APP_BASE; app_base]; [0]; [0]]
  ++ ((fun p => [p]) <$> rev uva) ++ [[Z.of_nat (length uva)]].

Definition exec_stack (st : pmm) (vm : vm_map) (argv : list bytes) (entry libc_base app_base : Z) : Z * Z * pmm :=
  let '(r, sp, uva, st) := push_strings (rev (take EXEC_MAX_ARGS argv)) st vm EXEC_STACK_TOP [] in
  if r <? 0 then (-1, sp, st)
  else
    let sp := Z.land sp (u64 (Z.lnot 15)) in
    let '(sp, st) := push_all st vm sp (stack_words uva entry libc_base app_base) in
    (0, sp, st).

(** ** execve

    [ld_img] and [libc_img] are the blobs of ld-kappara.so and libc.so, [img] and [elf_sz] what
    [read_file_kernel] gave for the path. *)

Section Code.
Context {BT : BootTables} {ST : Statics} (ld_img : image) (ld_sz : Z) (libc_img : image).

(** The program and, for a position-independent one, the linker and the library: the
    entry point of the linker, or 0; [None] is failure. *)
Definition exec_load (st : pmm) (vm : vm_map) (img : image) (load_base : Z) : option Z * pmm :=
  match load_all st vm img load_base EXEC_VA (EXEC_VA + EXEC_SIZE) with
  | (Loaded, st) =>
      if e_type img =? ET_DYN then
        let '(ld_entry, st) := load_static_elf st vm ld_img ld_sz LD_VA (LD_VA + LD_SIZE) in
        if ld_entry =? 0 then (None, st)
        else if negb ((e_type libc_img =? ET_DYN) && (e_machine libc_img =? EM_AARCH64)) then (None, st)
        else
          match load_all st vm libc_img LIBC_VA LIBC_VA (LIBC_VA + LIBC_SIZE) with
          | (Loaded, st) => (Some ld_entry, st)
          | (_, st) => (None, st)
          end
      else (Some 0, st)
  | (_, st) => (None, st)
  end.

Definition CWD_SIZE : nat := 128.

(** The directory of the caller. *)
Definition inherit_cwd (s : vsys) (t : Z) (vm : vm_map) : vm_map :=
  match cur_vm s t ≫= fun a => vms s !! a with
  | Some pvm => if bool_decide (cwd pvm = []) then vm else vm <| cwd := take (CWD_SIZE - 1) (cwd pvm) |>
  | None => vm
  end.

Definition exec_ok (img : image) (elf_sz : Z) : bool :=
  negb (elf_sz <? SIZEOF_EHDR) && elf_magic img && elf_aarch64 img && ((e_type img =? ET_EXEC) || (e_type img =? ET_DYN))
  && negb ((e_phoff img =? 0) || (e_phnum img =? 0)).

(** The memory of the program: its segments, its stack and its arguments.  The result is
    the entry point and the stack pointer, or [None]. *)
Definition exec_memory (st : pmm) (vm : vm_map) (img : image) (argv : list bytes) : option (Z * Z) * pmm :=
  let dyn := e_type img =? ET_DYN in
  let load_base := if dyn then EXEC_VA else 0 in
  match exec_load st vm img load_base with
  | (None, st) => (None, st)
  | (Some ld_entry, st) =>
      let '(r, st) := vmap_alloc_pages (Z.to_nat (EXEC_STACK_SIZE / PAGE_SIZE)) st vm EXEC_STACK_VA true in
      if r <? 0 then (None, st)
      else
        let entry := u64 (e_entry img + load_base) in
        let '(r, sp, st) := exec_stack st vm argv entry (if dyn then LIBC_VA else 0) load_base in
        if r <? 0 then (None, st) else (Some (if negb (ld_entry =? 0) then ld_entry else entry, sp), st)
  end.

Definition SIZEOF_EXEC_ARGS : Z := 16.

(** The thread and the process.  The address space [a] is the call's to drop. *)
Definition exec_start (s : vsys) (t a entry sp : Z) : Z * vsys :=
  let '(x, k) := kmalloc (km s) SIZEOF_EXEC_ARGS in
  let s := s <| km := k |> in
  if x =? 0 then (0, vm_map_put s a)
  else
    let s := s <| launch := <[x := (entry, sp, 0)]> (launch s) |> in
    let '(c, s) := thread_create s t in
    if c =? 0 then
      let s := s <| km := kfree (km s) x |> <| launch := delete x (launch s) |> in
      (0, vm_map_put s a)
    else
      let '(p, s) := process_alloc s a in
      let s := vm_map_put s a in
      if p =? 0 then (0, s <| km := kfree (km s) x |> <| launch := delete x (launch s) |>)
      else
        let th := default (mk_thread 0 0 0) (threads s !! c) in
        let s := process_put s (t_proc th) in
        (c, s <| threads := <[c := th <| t_proc := p |>]> (threads s) |>).

(** [0] is failure, else the address of the thread. *)
Definition sys_execve_impl (s : vsys) (t : Z) (img : image) (elf_sz : Z) (argv : list bytes) : Z * vsys :=
  if negb (exec_ok img elf_sz) then (0, s)
  else
    let '(a, s) := vm_map_create s in
    if a =? 0 then (0, s)
    else
      let vm := inherit_cwd s t (default zero_vm_map (vms s !! a)) in
      let s := set_vm s a vm in
      match exec_memory (pm (km s)) vm img argv with
      | (None, st) => (0, vm_map_put (set_pm s st) a)
      | (Some (entry, sp), st) =>
          let s := set_vm (set_pm s st) a (vm <| heap_brk := EXEC_HEAP_VA |> <| spawn_next := 0 |>) in
          exec_start s t a entry sp
      end.

(** ** Dynamic sections *)

(** The offset in the image of an address of it, if a segment's file part covers it. *)
Fixpoint image_to_ptr_from (n : nat) (i : Z) (img : image) (img_va : Z) : option Z :=
  match n with
  | O => None
  | S n =>
      let ph := phdr img i in
      if negb (p_type img ph =? PT_LOAD) then image_to_ptr_from n (i + 1) img img_va
      else if (img_va >=? p_vaddr img ph) && (img_va <? u64 (p_vaddr img ph + p_filesz img ph)) then
        Some (u64 (p_offset img ph + (img_va - p_vaddr img ph)))
      else image_to_ptr_from n (i + 1) img img_va
  end.
Definition image_to_ptr (img : image) (img_va : Z) : option Z := image_to_ptr_from (Z.to_nat (e_phnum img)) 0 img img_va.

Record dyn_info := mk_dyn_info {
  rela_off : Z; rela_size : Z;
  jmprel_off : Z; jmprel_size : Z;
  symtab_off : Z; strtab_off : Z;
  strsz : Z; hash_off : Z }.
#[export] Instance dyn_info_rebuild : Rebuild dyn_info :=
  rpure mk_dyn_info <:> rela_off <:> rela_size <:> jmprel_off <:> jmprel_size <:> symtab_off <:> strtab_off <:> strsz <:> hash_off.
Definition no_dyn : dyn_info := mk_dyn_info 0 0 0 0 0 0 0 0.

(** [switch (d_tag)]; [DT_NULL] ends the walk. *)
Definition dyn_tag (tag v : Z) (d : dyn_info) : dyn_info :=
  if tag =? 7 then d <| rela_off := v |>
  else if tag =? 8 then d <| rela_size := v |>
  else if tag =? 23 then d <| jmprel_off := v |>
  else if tag =? 2 then d <| jmprel_size := v |>
  else if tag =? 6 then d <| symtab_off := v |>
  else if tag =? 5 then d <| strtab_off := v |>
  else if tag =? 10 then d <| strsz := v |>
  else if tag =? 4 then d <| hash_off := v |>
  else d.
Fixpoint dyn_entries (n : nat) (img : image) (off : Z) (d : dyn_info) : dyn_info :=
  match n with
  | O => d
  | S n =>
      let tag := le 8 img off in
      if tag =? 0 then d else dyn_entries n img (u64 (off + 16)) (dyn_tag tag (le 8 img (off + 8)) d)
  end.
Fixpoint find_dynamic (n : nat) (i : Z) (img : image) : option Z :=
  match n with
  | O => None
  | S n => let ph := phdr img i in if p_type img ph =? PT_DYNAMIC then Some ph else find_dynamic n (i + 1) img
  end.
Definition walk_dynamic (img : image) : option dyn_info :=
  match find_dynamic (Z.to_nat (e_phnum img)) 0 img with
  | None => None
  | Some ph => Some (dyn_entries (Z.to_nat (u32 (p_filesz img ph / 16))) img (p_offset img ph) no_dyn)
  end.

(** ** Relocations: entries of 24 bytes, [r_offset], [r_info], [r_addend] *)

Definition R_AARCH64_RELATIVE : Z := 1027.
Definition R_AARCH64_GLOB_DAT : Z := 1025.
Definition R_AARCH64_JUMP_SLOT : Z := 1026.
Definition SIZEOF_RELA : Z := 24.

Definition put_word (st : pmm) (vm : vm_map) (va w : Z) : Z * pmm := vmap_copyin st vm va (byte_of (words [w])) 8.

Fixpoint apply_relative_relocs (n : nat) (st : pmm) (vm : vm_map) (load_base : Z) (img : image) (relas : Z) : Z * pmm :=
  match n with
  | O => (0, st)
  | S n =>
      if negb (u32 (le 8 img (relas + 8)) =? R_AARCH64_RELATIVE) then apply_relative_relocs n st vm load_base img (relas + SIZEOF_RELA)
      else
        let fixup := u64 (load_base + le 8 img (relas + 16)) in
        let va := u64 (load_base + le 8 img relas) in
        let '(r, st) := put_word st vm va fixup in
        if r <? 0 then (-1, st) else apply_relative_relocs n st vm load_base img (relas + SIZEOF_RELA)
  end.

(** A loop of at most [2 ^ k] rounds. *)
Fixpoint loop {A R : Type} (k : nat) (f : A -> A + R) (a : A) : A + R :=
  match k with
  | O => f a
  | S k => match loop k f a with inl a => loop k f a | inr r => inr r end
  end.

(** One round of the comparison: go on while both are the same and not at the end.  Names
    that do not end in the 64-bit address space are not equal to any. *)
Definition name_round (s want : image) (i : Z) : Z + bool :=
  let a := s i mod 256 in
  let b := want i mod 256 in
  if negb (a =? 0) && negb (b =? 0) && (a =? b) then inl (i + 1) else inr ((a =? 0) && (b =? 0)).
Definition sym_name_eq (s want : image) : bool :=
  match loop 64 (name_round s want) 0 with
  | inr b => b
  | inl _ => false
  end.
Definition at_ (img : image) (off : Z) : image := fun i => img (u64 (off + i)).

Definition dyn_nsyms (img : image) (d : dyn_info) : Z :=
  if hash_off d =? 0 then 0
  else match image_to_ptr img (hash_off d) with None => 0 | Some h => le 4 img (h + 4) end.

(** The value of the first defined symbol called [name]; symbols are 24 bytes: [st_name],
    [st_info], [st_other], [st_shndx], [st_value], [st_size]. *)
Fixpoint find_sym (n : nat) (i : Z) (img : image) (symtab strtab sz : Z) (name : image) : option Z :=
  match n with
  | O => None
  | S n =>
      let s := symtab + i * 24 in
      let st_name := le 4 img s in
      if st_name =? 0 then find_sym n (i + 1) img symtab strtab sz name
      else if negb (sz =? 0) && (st_name >=? sz) then find_sym n (i + 1) img symtab strtab sz name
      else if le 2 img (s + 6) =? 0 then find_sym n (i + 1) img symtab strtab sz name
      else if sym_name_eq (at_ img (strtab + st_name)) name then Some (le 8 img (s + 8))
      else find_sym n (i + 1) img symtab strtab sz name
  end.
Definition lookup_sym (img : image) (d : dyn_info) (name : image) : option Z :=
  match image_to_ptr img (symtab_off d), image_to_ptr img (strtab_off d) with
  | Some symtab, Some strtab =>
      let nsyms := dyn_nsyms img d in
      let nsyms := if (nsyms =? 0) || (nsyms >? 4096) then 256 else nsyms in
      find_sym (Z.to_nat nsyms) 0 img symtab strtab (strsz d) name
  | _, _ => None
  end.

Definition resolve_in_libc (name : image) (d : dyn_info) : Z :=
  match lookup_sym libc_img d name with Some v => u64 (LIBC_VA + v) | None => 0 end.

(** The table is at [relas] of [rimg]. *)
Fixpoint resolve_xdso_relocs (n : nat) (st : pmm) (vm : vm_map) (app_base : Z) (rimg : image) (relas : Z) (img : image) (symtab strtab : Z) (libc_dyn : dyn_info) : Z * pmm :=
  match n with
  | O => (0, st)
  | S n =>
      let info := le 8 rimg (relas + 8) in
      let next st := resolve_xdso_relocs n st vm app_base rimg (relas + SIZEOF_RELA) img symtab strtab libc_dyn in
      if negb (u32 info =? R_AARCH64_GLOB_DAT) && negb (u32 info =? R_AARCH64_JUMP_SLOT) then next st
      else
        let s := symtab + u32 (Z.shiftr info 32) * 24 in
        let resolved := resolve_in_libc (at_ img (strtab + le 4 img s)) libc_dyn in
        if resolved =? 0 then (-1, st)
        else
          let '(r, st) := put_word st vm (u64 (app_base + le 8 rimg relas)) resolved in
          if r <? 0 then (-1, st) else next st
  end.

(** ** dlopen, dlsym, dlclose *)

(** The text that the call leaves for [dlerror]: the buffer has 128 bytes. *)
Definition dlerror_set (vm : vm_map) (msg : bytes) : vm_map := vm <| dlerror_msg := take 127 msg |>.

(** The handle of a path that is open, and the first free slot. *)
Fixpoint slot_by_path (slots : list (Z * bytes)) (path : bytes) : option Z :=
  match slots with
  | [] => None
  | (base, p) :: slots => if negb (base =? 0) && bool_decide (p = path) then Some base else slot_by_path slots path
  end.
Fixpoint free_slot (slots : list (Z * bytes)) : option nat :=
  match slots with
  | [] => None
  | (base, _) :: slots => if base =? 0 then Some O else S <$> free_slot slots
  end.
Fixpoint dlopen_slot_of (slots : list (Z * bytes)) (handle : Z) : option nat :=
  match slots with
  | [] => None
  | (base, _) :: slots => if negb (handle =? 0) && (base =? handle) then Some O else S <$> dlopen_slot_of slots handle
  end.

(** [dlopen_read] took [sz] bytes into the buffer. *)
Definition dlopen_valid (img : image) (sz : Z) : bool :=
  negb (sz <? SIZEOF_EHDR) && elf_magic img && elf_aarch64 img && (e_type img =? ET_DYN).

(** The relocations of the library at [load_base].  A table that no segment covers is at
    address 0, from where [low] gives the bytes. *)
Definition dl_relocate (st : pmm) (vm : vm_map) (img low : image) (load_base : Z) : pmm :=
  match walk_dynamic img with
  | None => st
  | Some d =>
      let n := Z.to_nat (u32 (rela_size d / SIZEOF_RELA)) in
      let st :=
        if rela_size d >? 0 then
          match image_to_ptr img (rela_off d) with
          | Some relas => snd (apply_relative_relocs n st vm load_base img relas)
          | None => st
          end
        else st in
      match walk_dynamic libc_img with
      | None => st
      | Some libc_dyn =>
          match image_to_ptr img (symtab_off d), image_to_ptr img (strtab_off d) with
          | Some symtab, Some strtab =>
              let resolve st n off :=
                let '(rimg, relas) := match image_to_ptr img off with Some relas => (img, relas) | None => (low, 0) end in
                snd (resolve_xdso_relocs n st vm load_base rimg relas img symtab strtab libc_dyn) in
              let st := if rela_size d >? 0 then resolve st n (rela_off d) else st in
              if jmprel_size d >? 0 then resolve st (Z.to_nat (u32 (jmprel_size d / SIZEOF_RELA))) (jmprel_off d) else st
          | _, _ => st
          end
      end
  end.

Definition dl_message (r : loaded) : bytes :=
  match r with
  | Outside => text "dlopen: LOAD outside slot window"%string
  | NoPages => text "dlopen: PMM exhausted"%string
  | NoCopy => text "dlopen: vmap_copyin failed"%string
  | Loaded => []
  end.

(** [0] is failure, else the handle.  [img] and [sz] are what [dlopen_read] read. *)
Definition sys_dlopen_impl (s : vsys) (t : Z) (path : bytes) (img : image) (sz : Z) (low : image) : Z * vsys :=
  match cur_vm s t with
  | None => (0, s)
  | Some a =>
      match vms s !! a with
      | None => (0, s)
      | Some vm =>
          let fail s msg := (0, set_vm s a (dlerror_set vm msg)) in
          if heap_brk vm =? 0 then (0, s)
          else
            match slot_by_path (dlopen_slots vm) path with
            | Some base => (base, s)
            | None =>
                match free_slot (dlopen_slots vm) with
                | None => fail s (text "dlopen: no free slot (DLOPEN_MAX_SLOTS reached)"%string)
                | Some k =>
                    if negb (dlopen_valid img sz) then fail s (text "dlopen: file read or ELF validation failed"%string)
                    else
                      let load_base := DLOPEN_VA + Z.of_nat k * DLOPEN_SLOT_SIZE in
                      match load_all (pm (km s)) vm img load_base load_base (load_base + DLOPEN_SLOT_SIZE) with
                      | (Loaded, st) =>
                          let st := dl_relocate st vm img low load_base in
                          (load_base, set_vm (set_pm s st) a (vm <| dlopen_slots := <[k := (load_base, take 127 path)]> (dlopen_slots vm) |>))
                      | (r, st) => fail (set_pm s st) (dl_message r)
                      end
                end
            end
      end
  end.

(** [img] and [sz] are what [dlopen_read] read for the path of the slot. *)
Definition sys_dlsym_impl (s : vsys) (t handle : Z) (name : image) (img : image) (sz : Z) : Z * vsys :=
  match cur_vm s t with
  | None => (0, s)
  | Some a =>
      match vms s !! a with
      | None => (0, s)
      | Some vm =>
          let fail msg := (0, set_vm s a (dlerror_set vm msg)) in
          match dlopen_slot_of (dlopen_slots vm) handle with
          | None => fail (text "dlsym: invalid handle"%string)
          | Some _ =>
              if negb (dlopen_valid img sz) then fail (text "dlsym: backing file unreadable"%string)
              else
                match walk_dynamic img with
                | None => fail (text "dlsym: no PT_DYNAMIC"%string)
                | Some d =>
                    match lookup_sym img d name with
                    | None => fail (text "dlsym: symbol not found"%string)
                    | Some v => let resolved := u64 (handle + v) in
                        if resolved =? 0 then fail (text "dlsym: symbol not found"%string) else (resolved, s)
                    end
                end
          end
      end
  end.

Definition sys_dlclose_impl (s : vsys) (t handle : Z) : Z * vsys :=
  match cur_vm s t with
  | None => (-1, s)
  | Some a =>
      match vms s !! a with
      | None => (-1, s)
      | Some vm =>
          match dlopen_slot_of (dlopen_slots vm) handle with
          | None => (-1, set_vm s a (dlerror_set vm (text "dlclose: invalid handle"%string)))
          | Some k =>
              let st := unmap_range (rounds handle (handle + DLOPEN_SLOT_SIZE)) (pm (km s)) vm handle in
              (0, set_vm (set_pm s st) a (vm <| dlopen_slots := <[k := no_slot]> (dlopen_slots vm) |>))
          end
      end
  end.

(** The text without the user's copy of it: what [cap] bytes have room for, then it is
    gone. *)
Definition sys_dlerror_impl (s : vsys) (t cap : Z) : bytes * vsys :=
  match cur_vm s t with
  | None => ([], s)
  | Some a =>
      match vms s !! a with
      | None => ([], s)
      | Some vm =>
          if bool_decide (dlerror_msg vm = []) then ([], s)
          else (take (Z.to_nat (cap - 1)) (dlerror_msg vm), set_vm s a (vm <| dlerror_msg := [] |>))
      end
  end.

End Code.

End Exec.
