(* ===== verification/VmInv.v ===== *)
(** * The types of pages

    Every page of the machine has one type: it is free, or a slab of the kernel's
    allocator, or a table of the boot map, or the stack of a thread, or it belongs to one
    address space, or it is held by nobody.  [world] says what memory holds for each type;
    the lemmas say how the operations on pages, blocks and address spaces move pages from
    one type to another. *)

From stdpp Require Import base numbers list gmap.
From Stdlib Require Import ZArith Lia Bool.
From S2P Require Import Prelude Links Kmem Alloc Mmu MmuInv MmuLife.

Module VmInv.
Import Links Kmem Mmu MmuInv MmuLife.
#[local] Opaque zero_page copy_entries fill seqZ.

(** ** Pages of the slab allocator *)

Lemma chain_unique m l1 : forall l2 a, chain m a l1 -> chain m a l2 -> l1 = l2.
Proof.
  induction l1 as [|x l1 IH]; intros [|y l2] a; cbn; [done| | |].
  - intros -> (<- & ? & _). done.
  - intros (-> & ? & _) ?. done.
  - intros (-> & _ & H1) (<- & _ & H2). f_equal. by eapply IH.
Qed.

Lemma pmm_repr_unique st l1 l2 : pmm_repr st l1 -> pmm_repr st l2 -> l1 = l2.
Proof. intros (H1 & _) (H2 & _). by eapply chain_unique. Qed.

(** The allocator is indifferent to pages that are none of its slabs. *)
Lemma kmem_wf_frame k pl fl sl st pl' ps : kmem_wf k pl fl sl -> pmm_repr st pl' ->
  same_except (mem (pm k)) (mem st) ps -> (forall p, is_Some (slabs k !! p) -> p ∉ ps /\ p ∉ pl') ->
  kmem_wf (k <| pm := st |>) pl' fl sl.
Proof.
  intros Hwf Hr Hs Hd. constructor; [done| |by apply Hwf]. cbn [slabs caches pm update].
  intros pg s Hpg. destruct (wf_slab _ _ _ _ Hwf pg s Hpg) as (H1 & _ & H3 & H4 & H5 & H6 & H7).
  destruct (Hd pg ltac:(done)) as [Hn1 Hn2]. split_and!; try done. eapply chain_ext; [|exact H4].
  intros x Hx. apply Hs. by rewrite (free_obj_page _ _ _ _ Hwf pg s x Hpg Hx).
Qed.

(** What the allocator does to pages when it hands out a block: nothing, or it takes one
    free page for a slab. *)
Record took (k k' : kmem) (pl new pl' : list Z) : Prop := mk_took {
  tk_pool : pl = new ++ pl';
  tk_repr : pmm_repr (pm k') pl';
  tk_slabs : forall x, is_Some (slabs k' !! x) <-> is_Some (slabs k !! x) \/ x ∈ new;
  tk_same : same_except (mem (pm k)) (mem (pm k')) new }.

Lemma slab_pop_pages k cid s p k' : slab_pop k cid s = (p, k') ->
  pm k' = pm k /\ forall x, is_Some (slabs k' !! x) <-> is_Some (slabs k !! x).
Proof.
  unfold slab_pop. destruct (slabs k !! s) as [sl|] eqn:Es; [|by intros [= <- <-]].
  destruct (caches k !! cid); [|by intros [= <- <-]]. intros [= <- <-]. cbn. split; [done|]. intros x.
  destruct (decide (x = s)) as [->|Hne]; [rewrite lookup_insert_eq, Es|rewrite lookup_insert_ne by done]; [|done].
  split; intros _; eauto.
Qed.

Lemma cache_alloc_pages k pl fl sl cid c p k' : kmem_wf k pl fl sl -> caches k !! cid = Some c ->
  kmem_cache_alloc k cid = (p, k') -> p <> 0 -> exists new pl', took k k' pl new pl'.
Proof.
  intros Hwf Hc He Hp. unfold kmem_cache_alloc in He. rewrite Hc in He.
  destruct (find_slab _ _ _ =? 0).
  2:{ destruct (slab_pop_pages _ _ _ _ _ He) as [Em Es]. exists [], pl. constructor; [done| | |by rewrite Em].
      - rewrite Em. apply Hwf.
      - intros x. rewrite Es, elem_of_nil. tauto. }
  destruct pl as [|pg pl].
  { unfold grow_cache in He. rewrite pmm_alloc_none in He by apply Hwf. rewrite Z.eqb_refl in He. by injection He as <- <-. }
  destruct (grow_page _ _ _ _ _ _ _ Hwf Hc) as (Hpg & _ & Hnone).
  destruct (grow_cache_wf _ _ _ _ _ _ _ Hwf Hc) as (k1 & c1 & Hg & Hwf1 & _ & _ & _ & (s & Hs & _) & Hsl & _).
  assert (Hsame : same_except (mem (pm k)) (mem (pm k1)) [pg]).
  { unfold grow_cache in Hg. destruct (pmm_alloc_pop _ _ _ (wf_pmm _ _ _ _ Hwf)) as (st & Ea & _ & Em). rewrite Ea in Hg.
    assert ((pg =? 0) = false) as E by (apply Z.eqb_neq; destruct Hpg; lia). rewrite E in Hg.
    pose proof (carve_chain (Z.to_nat (objs_per_slab c)) (pg + slab_header_size) (obj_size c)
      ltac:(change slab_header_size with 32; destruct Hpg; lia)
      ltac:(destruct (wf_cache _ _ _ _ Hwf cid c Hc) as ((? & _) & _); lia) (mem st) 0 [] eq_refl
      ltac:(intros ? _; apply not_elem_of_nil)) as Hcv.
    destruct (carve _ _ _ _ _) as [m' a']. destruct Hcv as [_ Hm]. injection Hg as <- <-. cbn. intros x Hx. rewrite Hm.
    - rewrite Em. apply zero_page_other; [done|]. intros E'. apply Hx. rewrite E'. left.
    - intros Hin. apply Hx. rewrite (new_objs_page _ _ _ _ _ _ _ Hwf Hc x Hin). left. }
  rewrite Hg in He. assert ((pg =? 0) = false) as E by (apply Z.eqb_neq; destruct Hpg; lia). rewrite E in He.
  destruct (slab_pop_pages _ _ _ _ _ He) as [Em Es]. exists [pg], pl. constructor; [done| | |by rewrite Em].
  - rewrite Em. apply Hwf1.
  - intros x. rewrite Es, list_elem_of_singleton. destruct (decide (x = pg)) as [->|Hne]; [rewrite Hs|rewrite Hsl by done; tauto].
    split; intros _; [by right|eauto].
Qed.

Lemma kfree_pages k A pl fl sl p : kmem_wf k pl fl sl -> (forall o, A o <-> live_obj k fl o) -> A p ->
  pmm_repr (pm (kfree k p)) pl /\ (forall x, is_Some (slabs (kfree k p) !! x) <-> is_Some (slabs k !! x))
  /\ same_except (mem (pm k)) (mem (pm (kfree k p))) [slab_of p] /\ is_Some (slabs k !! slab_of p)
  /\ kmem_inv (kfree k p) (fun o => A o /\ o <> p) /\ (classes_ok k -> classes_ok (kfree k p)).
Proof.
  intros Hwf HA Hp. assert (Hinv : kmem_inv k A) by (by exists pl, fl, sl).
  destruct (slab_free_inv k A p Hinv Hp) as (Hnz & s & Hs & Hinv' & Hsh).
  assert (kfree k p = slab_free k (slab_of p) s p) as ->.
  { unfold kfree. rewrite Hs. by rewrite (proj2 (Z.eqb_neq _ _) Hnz). }
  assert (Hsame : same_except (mem (pm k)) (mem (pm (slab_free k (slab_of p) s p))) [slab_of p]).
  { intros x Hx. cbn. apply load_insert_ne. intros <-. apply Hx. left. }
  destruct (wf_slab _ _ _ _ Hwf _ _ Hs) as (Hpg & Hnpl & _).
  split_and!; [| |done|by rewrite Hs|done|intros Hc; exact (proj2 (proj1 (Alloc.shape_laws k _ (fun _ => False) _ Hsh Hinv' Hc)))].
  - eapply (pmm_repr_frame (pm k)); [apply Hwf|done|done|exact Hsame|]. intros q Hq ->%list_elem_of_singleton. done.
  - intros x. cbn. destruct (decide (x = slab_of p)) as [->|Hne]; [rewrite lookup_insert_eq, Hs|by rewrite lookup_insert_ne].
    split; intros _; eauto.
Qed.

(** [kmalloc] on pages: it fails and changes nothing, or it hands out a new block. *)
Lemma kmalloc_pages k A pl fl sl n : kmem_wf k pl fl sl -> (forall o, A o <-> live_obj k fl o) -> classes_ok k ->
  kmalloc k n = (0, k) \/ exists p k' new pl', kmalloc k n = (p, k') /\ p <> 0 /\ ~ A p /\ took k k' pl new pl'
    /\ kmem_inv k' (fun o => A o \/ o = p) /\ classes_ok k'.
Proof.
  intros Hwf HA Hcl. unfold kmalloc. destruct (n =? 0); [by left|]. pose proof (size_class n) as Hs.
  destruct (List.find _ _) as [sz|]; [|by left]. destruct Hs as (Hin & _). destruct (classes_cache k sz Hcl Hin) as (c & Hc & _).
  assert (Hinv : kmem_inv k A) by (by exists pl, fl, sl).
  destruct (kmem_cache_alloc_cases k A sz c Hinv Hc) as [(-> & _)|(p & k' & E & Hf & Hfo)]; [by left|right].
  destruct Hf as (Hnz & HnA & _ & _ & _ & _ & Hi & _). destruct (cache_alloc_pages _ _ _ _ _ _ _ _ Hwf Hc E Hnz) as (new & pl' & Ht).
  exists p, k', new, pl'. split_and!; try done. destruct Hfo as (_ & _ & Hos).
  by apply (proj1 (Alloc.classes_ok_sizes k k' Hos)).
Qed.

(** ** Types of pages *)

Inductive kind := Free | Slab | Boot | Held | Kernel (t : Z) | User (h : Z).
#[export] Instance kind_eq_dec : EqDecision kind.
Proof. solve_decision. Defined.

(** The free pages, the blocks in use, the types, and the tree of each address space. *)
Record ghost := mk_ghost {
  g_pl : list Z;
  g_live : Z -> Prop;
  g_kind : Z -> option kind;
  g_tree : gmap Z vtree }.

(** The types an operation on the address space [h] moves pages between. *)
Definition mobile (h : Z) (kd : option kind) : Prop := kd = Some Free \/ kd = Some Held \/ kd = Some (User h).

Definition kset (ps : list Z) (kd : kind) (f : Z -> option kind) : Z -> option kind :=
  fun p => if decide (p ∈ ps) then Some kd else f p.

Lemma kset_in ps kd f p : p ∈ ps -> kset ps kd f p = Some kd.
Proof. intros H. unfold kset. by rewrite decide_True. Qed.
Lemma kset_out ps kd f p : p ∉ ps -> kset ps kd f p = f p.
Proof. intros H. unfold kset. by rewrite decide_False. Qed.

Section World.
Context {BT : BootTables} (K : ktab) (m0 : gmap Z Z).

Record world (k : kmem) (vs : gmap Z vm_map) (g : ghost) : Prop := mk_world {
  w_kmem : exists fl sl, kmem_wf k (g_pl g) fl sl /\ forall o, g_live g o <-> live_obj k fl o;
  w_classes : classes_ok k;
  w_frame : forall p kd, g_kind g p = Some kd -> frame p;
  w_free : forall p, g_kind g p = Some Free <-> p ∈ g_pl g;
  w_slab : forall p, g_kind g p = Some Slab <-> is_Some (slabs k !! p);
  w_static : forall p, p ∈ statics -> g_kind g p = Some Boot;
  w_boot : forall x, g_kind g (slab_of x) = Some Boot -> load (mem (pm k)) x = load m0 x;
  w_user : forall h p, g_kind g p = Some (User h) <-> exists vm t, vs !! h = Some vm /\ g_tree g !! h = Some t /\ p ∈ owned vm t;
  w_tree : forall h vm, vs !! h = Some vm -> exists t, g_tree g !! h = Some t /\ vm_tree K (mem (pm k)) vm t }.

Context (Hlay : boot_layout) (Hbm : boot_map K m0).

Section Facts.
Context {k : kmem} {vs : gmap Z vm_map} {g : ghost} (W : world k vs g).

Lemma w_repr : pmm_repr (pm k) (g_pl g).
Proof. destruct (w_kmem _ _ _ W) as (fl & sl & Hwf & _). apply Hwf. Qed.

Lemma w_tree_eq h vm t : vs !! h = Some vm -> g_tree g !! h = Some t -> vm_tree K (mem (pm k)) vm t.
Proof. intros Hv Ht. destruct (w_tree _ _ _ W h vm Hv) as (t' & Ht' & H). rewrite Ht in Ht'. by injection Ht' as <-. Qed.

Lemma w_owned h vm t p : vs !! h = Some vm -> g_tree g !! h = Some t -> p ∈ owned vm t -> g_kind g p = Some (User h).
Proof. intros Hv Ht Hp. apply (w_user _ _ _ W). by exists vm, t. Qed.

Lemma w_pool h vm t : vs !! h = Some vm -> g_tree g !! h = Some t -> pool (pm k) vm t (g_pl g).
Proof.
  intros Hv Ht. constructor; [apply w_repr| |].
  - apply Forall_forall. intros p Hp. by eapply (w_frame _ _ _ W), (w_free _ _ _ W).
  - intros p Hp Hin. apply (w_free _ _ _ W) in Hp. pose proof (w_owned h vm t p Hv Ht Hin). congruence.
Qed.

Lemma w_live_slab o : g_live g o -> g_kind g (slab_of o) = Some Slab.
Proof.
  intros Ho. apply (w_slab _ _ _ W). destruct (w_kmem _ _ _ W) as (fl & sl & Hwf & HA). apply HA in Ho.
  destruct (live_slab _ _ _ _ _ Hwf Ho) as (_ & _ & s & _ & Hs & _). by rewrite Hs.
Qed.

(** Any change to the pages of one address space [h], the free pages and those held. *)
Lemma world_pm h st' (o : option (vm_map * vtree)) kd' pl' ps : pmm_repr st' pl' ->
  same_except (mem (pm k)) (mem st') ps -> (forall p, p ∈ ps -> mobile h (g_kind g p)) ->
  (forall p, kd' p = g_kind g p \/ mobile h (g_kind g p) /\ mobile h (kd' p)) ->
  (forall p, kd' p = Some Free <-> p ∈ pl') ->
  (forall p, kd' p = Some (User h) <-> exists vm t, o = Some (vm, t) /\ p ∈ owned vm t) ->
  (forall vm t, o = Some (vm, t) -> vm_tree K (mem st') vm t) ->
  world (k <| pm := st' |>) (partial_alter (fun _ => fst <$> o) h vs)
    (mk_ghost pl' (g_live g) kd' (partial_alter (fun _ => snd <$> o) h (g_tree g))).
Proof.
  intros Hr Hs Hps Hk Hf Hu Ht. pose proof W as [Hkm Hcl Hfr Hfree Hslab Hst Hboot Huser Htree].
  assert (Hsame : forall p kd, kd <> Free -> kd <> Held -> kd <> User h -> kd' p = Some kd <-> g_kind g p = Some kd).
  { intros p kd N1 N2 N3. destruct (Hk p) as [->|[H1 H2]]; [done|]. unfold mobile in *. intuition congruence. }
  constructor; cbn [g_pl g_live g_kind g_tree pm slabs update].
  - destruct Hkm as (fl & sl & Hwf & HA). exists fl, sl. split; [|done]. eapply kmem_wf_frame; [done|done|exact Hs|].
    intros p Hp. apply Hslab in Hp. split; intros Hin.
    + apply Hps in Hin. unfold mobile in Hin. intuition congruence.
    + apply Hf in Hin. apply (Hsame p Slab) in Hp; [|done..]. congruence.
  - done.
  - intros p kd Hp. destruct (Hk p) as [E|[[H1|[H1|H1]] _]]; [rewrite E in Hp|..]; by eapply Hfr.
  - done.
  - intros p. rewrite Hsame by done. apply Hslab.
  - intros p Hp. apply Hsame; [done..|]. by apply Hst.
  - intros x Hx. apply Hsame in Hx; [|done..]. rewrite <- (Hboot x Hx). apply Hs. intros Hin.
    apply Hps in Hin. unfold mobile in Hin. intuition congruence.
  - intros h' p. destruct (decide (h' = h)) as [->|Hne].
    + rewrite Hu, !lookup_partial_alter_eq. split.
      * intros (vm & t & -> & Hp). by exists vm, t.
      * intros (vm & t & E1 & E2 & Hp). destruct o as [[vm' t']|]; [|done]. injection E1 as <-. injection E2 as <-. by exists vm', t'.
    + rewrite Hsame by congruence. rewrite Huser. by rewrite !lookup_partial_alter_ne.
  - intros h' vm. destruct (decide (h' = h)) as [->|Hne].
    + rewrite !lookup_partial_alter_eq. destruct o as [[vm' t']|]; [|done]. intros [= <-]. exists t'. split; [done|]. by apply Ht.
    + rewrite !lookup_partial_alter_ne by done. intros Hv. destruct (Htree h' vm Hv) as (t & Ht1 & Ht2). exists t. split; [done|].
      eapply (vm_tree_frame Ht2); [exact Hs|]. intros p Hp Hin. apply Hps in Hin.
      assert (g_kind g p = Some (User h')) by (apply Huser; exists vm, t; split_and!; [done|done|apply elem_of_app; by left]).
      unfold mobile in Hin. destruct Hin as [?|[?|?]]; congruence.
Qed.

End Facts.

(** ** What an operation on [h] leaves alone *)

Record moves (h : Z) (k : kmem) (g : ghost) (k' : kmem) (g' : ghost) : Prop := mk_moves {
  mv_kind : forall p, g_kind g' p = g_kind g p \/ mobile h (g_kind g p) /\ mobile h (g_kind g' p);
  mv_same : forall x, ~ mobile h (g_kind g (slab_of x)) -> load (mem (pm k')) x = load (mem (pm k)) x;
  mv_live : g_live g' = g_live g;
  mv_tree : forall h', h' <> h -> g_tree g' !! h' = g_tree g !! h';
  mv_km : k' = k <| pm := pm k' |> }.

Lemma km_same k : k = k <| pm := pm k |>.
Proof. by destruct k. Qed.

Lemma moves_refl h k g : moves h k g k g.
Proof. constructor; [by left|done|done|done|apply km_same]. Qed.

Lemma moves_trans h k1 g1 k2 g2 k3 g3 : moves h k1 g1 k2 g2 -> moves h k2 g2 k3 g3 -> moves h k1 g1 k3 g3.
Proof.
  intros [A1 A2 A3 A4 A5] [B1 B2 B3 B4 B5]. constructor.
  - intros p. destruct (A1 p) as [E|[M1 M2]], (B1 p) as [F|[N1 N2]]; [left|right|right|right]; rewrite ?F, ?E in *; auto.
  - intros x Hx. rewrite B2, A2; [done|done|]. destruct (A1 (slab_of x)) as [->|[M1 _]]; done.
  - congruence.
  - intros h' Hne. by rewrite B4, A4.
  - rewrite B5, A5. by destruct k1.
Qed.

Lemma moves_other h k g k' g' p kd : moves h k g k' g' -> kd <> Free -> kd <> Held -> kd <> User h ->
  g_kind g' p = Some kd <-> g_kind g p = Some kd.
Proof.
  intros [A1 _ _ _ _] N1 N2 N3. destruct (A1 p) as [->|[M1 M2]]; [done|]. unfold mobile in *. intuition congruence.
Qed.

(** The address space [h] exists before and after. *)
Lemma world_set k vs g h vm t st' t' kd' pl' ps : world k vs g -> vs !! h = Some vm -> g_tree g !! h = Some t ->
  pmm_repr st' pl' -> same_except (mem (pm k)) (mem st') ps -> (forall p, p ∈ ps -> mobile h (g_kind g p)) ->
  (forall p, kd' p = g_kind g p \/ mobile h (g_kind g p) /\ mobile h (kd' p)) ->
  (forall p, kd' p = Some Free <-> p ∈ pl') -> (forall p, kd' p = Some (User h) <-> p ∈ owned vm t') ->
  vm_tree K (mem st') vm t' ->
  let g' := mk_ghost pl' (g_live g) kd' (<[h := t']> (g_tree g)) in
  world (k <| pm := st' |>) vs g' /\ moves h k g (k <| pm := st' |>) g'.
Proof.
  intros W Hv Ht Hr Hs Hps Hk Hf Hu Htr g'. split.
  - pose proof (world_pm W h st' (Some (vm, t')) kd' pl' ps Hr Hs Hps Hk Hf) as H. cbn in H.
    rewrite <- (insert_id vs h vm) at 1 by done. apply H.
    + intros p. rewrite Hu. split; [intros Hp; by exists vm, t'|]. by intros (? & ? & [= <- <-] & Hp).
    + by intros ? ? [= <- <-].
  - constructor; cbn; [done| |done| |by destruct k].
    + intros x Hx. apply Hs. intros Hin. by apply Hx, Hps.
    + intros h' Hne. by rewrite lookup_insert_ne.
Qed.

(** *** One more page: [pmm_alloc], fill it, map it, or give it back *)

Definition put_page (st : pmm) (vm : vm_map) (va : Z) (fill_ : Z -> gmap Z Z -> gmap Z Z) : Z * pmm :=
  let '(p, st) := pmm_alloc st in
  if p =? 0 then (-1, st)
  else
    let st := st <| mem := fill_ p (mem st) |> in
    let '(r, st) := mmu_vmap_map_user_4k st vm va p in
    if r <? 0 then (-1, pmm_free st p) else (0, st).

Lemma owned_map vm t t' v a l3s : NoDup (owned vm t) -> t_pg t' = <[v := a]> (t_pg t) ->
  (t_l3 t' = t_l3 t /\ l3s = [] \/ exists i p, t_l3 t !! i = None /\ t_l3 t' = <[i := p]> (t_l3 t) /\ l3s = [p]) ->
  forall q, q ∈ owned vm t' <-> q = a \/ q ∈ l3s \/ q ∈ owned vm t /\ t_pg t !! v <> Some q.
Proof.
  intros Hd Epg Hl3 q.
  assert (Hq : q ∈ owned vm (mk_vtree (t_l3 t) (<[v := a]> (t_pg t))) <-> q = a \/ q ∈ owned vm t /\ t_pg t !! v <> Some q).
  { rewrite owned_remap, elem_of_cons. destruct (t_pg t !! v) as [b|] eqn:Eb.
    - pose proof (owned_delete vm t v b Eb) as Hp. rewrite Hp in Hd. apply NoDup_cons in Hd as [Hd _].
      rewrite Hp, elem_of_cons. split; [|intuition congruence]. intros [->|Hin]; [by left|right]. split; [by right|]. intros [= ->]. done.
    - rewrite delete_id by done. destruct t; cbn. intuition congruence. }
  destruct t' as [l3' pg']. cbn in Epg, Hl3. subst pg'. destruct Hl3 as [(-> & ->)|(i & p & Hn & -> & ->)].
  - rewrite Hq, elem_of_nil. tauto.
  - pose proof (owned_insert_l3 vm (mk_vtree (t_l3 t) (<[v := a]> (t_pg t))) i p Hn) as Hp. cbn in Hp.
    rewrite Hp, elem_of_cons, Hq, list_elem_of_singleton. tauto.
Qed.

(** The memory of the pages that [t] maps is the same. *)
Definition keeps (t : vtree) (m m' : gmap Z Z) : Prop :=
  forall v a x, t_pg t !! v = Some a -> slab_of x = a -> load m' x = load m x.

(** The same pages have types. *)
Definition same_dom (g g' : ghost) : Prop := forall p, g_kind g' p = None <-> g_kind g p = None.

(** No page more, no page less is held by nobody. *)
Definition no_loss (g g' : ghost) : Prop := forall p, g_kind g' p = Some Held <-> g_kind g p = Some Held.

Definition local_fill (fill_ : Z -> gmap Z Z -> gmap Z Z) : Prop :=
  forall p m, page p -> same_except m (fill_ p m) [p].

Record put_ok (h : Z) (k : kmem) (g : ghost) (t : vtree) (va : Z) (fill_ : Z -> gmap Z Z -> gmap Z Z) (st' : pmm) (g' : ghost) (t' : vtree) (p : Z) : Prop :=
  mk_put_ok {
  pk_free : g_kind g p = Some Free;
  pk_pg : t_pg t' = <[vpn va := p]> (t_pg t);
  pk_data : forall x, slab_of x = p -> load (mem st') x = load (fill_ p (zero_page p (mem (pm k)))) x;
  pk_keeps : keeps t (mem (pm k)) (mem st');
  pk_loss : t_pg t !! vpn va = None -> no_loss g g' }.

Lemma w_pool_cons k vs g p pl : world k vs g -> g_pl g = p :: pl ->
  exists st, pmm_alloc (pm k) = (p, st) /\ pmm_repr st pl /\ mem st = zero_page p (mem (pm k)) /\ frame p /\ g_kind g p = Some Free
    /\ p ∉ pl /\ (p =? 0) = false.
Proof.
  intros W E. pose proof (w_repr W) as Hr. rewrite E in Hr. destruct (pmm_alloc_pop _ _ _ Hr) as (st & Ea & Hr' & Em).
  assert (Hk : g_kind g p = Some Free) by (apply (w_free _ _ _ W); rewrite E; left). exists st.
  pose proof (w_frame _ _ _ W _ _ Hk) as Hf. do 5 (split; [assumption|]). split.
  - destruct Hr as (_ & Hd & _). by apply NoDup_cons in Hd as [? _].
  - apply Z.eqb_neq. destruct Hf as [[? _] _]. lia.
Qed.

(** The types after [p] and [l3s] went to [h]. *)
Definition put_kind (h : Z) (g : ghost) (t : vtree) (v p : Z) (l3s : list Z) : Z -> option kind :=
  fun q => if decide (t_pg t !! v = Some q) then Some Held else if decide (q ∈ p :: l3s) then Some (User h) else g_kind g q.

Section Put.
Context {k : kmem} {vs : gmap Z vm_map} {g : ghost} {h : Z} {vm : vm_map} {t : vtree}.
Context (W : world k vs g) (Hv : vs !! h = Some vm) (Ht : g_tree g !! h = Some t).

Lemma put_kinds va p l3s pl' t' : g_pl g = p :: l3s ++ pl' -> NoDup (p :: l3s ++ pl') ->
  (forall q, q ∈ owned vm t' <-> q = p \/ q ∈ l3s \/ q ∈ owned vm t /\ t_pg t !! vpn va <> Some q) ->
  let kd' := put_kind h g t (vpn va) p l3s in
  (forall q, kd' q = g_kind g q \/ mobile h (g_kind g q) /\ mobile h (kd' q))
  /\ (forall q, kd' q = Some Free <-> q ∈ pl') /\ (forall q, kd' q = Some (User h) <-> q ∈ owned vm t')
  /\ (t_pg t !! vpn va = None -> forall q, kd' q = Some Held <-> g_kind g q = Some Held).
Proof.
  intros Hpl Hnd Ho kd'. assert (Hfree : forall q, q ∈ p :: l3s ++ pl' <-> g_kind g q = Some Free) by (intros q; by rewrite (w_free _ _ _ W), Hpl).
  assert (Hold : forall q, t_pg t !! vpn va = Some q -> g_kind g q = Some (User h)) by (intros q Hq; eapply (w_owned W); [done|done|by eapply pg_owned]).
  assert (Hnew : forall q, q ∈ p :: l3s -> g_kind g q = Some Free) by (intros q Hq; apply Hfree; rewrite (elem_of_app (p :: l3s) pl'); by left).
  assert (Hown : forall q, q ∈ owned vm t <-> g_kind g q = Some (User h)).
  { intros q. rewrite (w_user _ _ _ W). split; [by exists vm, t|]. intros (vm' & t1 & E1 & E2 & Hq). congruence. }
  assert (Hdj : forall q, q ∈ p :: l3s -> q ∉ pl') by (apply (NoDup_app (p :: l3s) pl') in Hnd as (_ & Hnd & _); done).
  unfold kd', put_kind. split_and!.
  - intros q. destruct (decide (_ = Some q)) as [E|]; [|destruct (decide (q ∈ p :: l3s)) as [Hin|]; [|by left]]; right; split;
      unfold mobile; rewrite ?(Hold q) by done; rewrite ?(Hnew q) by done; auto.
  - intros q. destruct (decide (_ = Some q)) as [E|]; [|destruct (decide (q ∈ p :: l3s)) as [Hin|Hni]].
    + split; [done|]. intros Hq. apply Hold in E. assert (g_kind g q = Some Free) by (apply Hfree, (elem_of_app (p :: l3s)); by right). congruence.
    + split; [done|]. intros Hq. by apply Hdj in Hin.
    + rewrite <- Hfree, (elem_of_app (p :: l3s) pl'). tauto.
  - intros q. rewrite Ho, Hown. destruct (decide (_ = Some q)) as [E|Hn]; [|destruct (decide (q ∈ p :: l3s)) as [Hin|Hni]].
    + split; [done|]. intros [->|[Hq|[_ ?]]]; [|exfalso|done]; apply Hold in E; [rewrite Hnew in E by left|rewrite Hnew in E by (right; done)]; done.
    + apply elem_of_cons in Hin. tauto.
    + rewrite elem_of_cons in Hni. tauto.
  - intros En q. rewrite En, decide_False by done. destruct (decide (q ∈ p :: l3s)) as [Hin|Hni]; [|done]. rewrite Hnew by done. done.
Qed.

Lemma put_page_spec va fill_ : local_fill fill_ ->
  (exists st' g', put_page (pm k) vm va fill_ = (-1, st') /\ world (k <| pm := st' |>) vs g' /\ moves h k g (k <| pm := st' |>) g'
     /\ g_tree g' !! h = Some t /\ (length (g_pl g') <= 1)%nat /\ no_loss g g' /\ keeps t (mem (pm k)) (mem st'))
  \/ exists st' g' t' p, put_page (pm k) vm va fill_ = (0, st') /\ world (k <| pm := st' |>) vs g' /\ moves h k g (k <| pm := st' |>) g'
     /\ g_tree g' !! h = Some t' /\ put_ok h k g t va fill_ st' g' t' p.
Proof.
  intros Hfill. unfold put_page. destruct (g_pl g) as [|p pl] eqn:Epl.
  { left. pose proof (w_repr W) as Hr. rewrite Epl in Hr. rewrite pmm_alloc_none by done. exists (pm k), g. rewrite <- km_same.
    split_and!; try done; [apply moves_refl|rewrite Epl; cbn; lia]. }
  destruct (w_pool_cons _ _ _ _ _ W Epl) as (st & -> & Hr & Em & Hpf & Hpk & Hpn & ->).
  set (st1 := st <| mem := fill_ p (mem st) |>).
  assert (Hs1 : same_except (mem (pm k)) (mem st1) [p]).
  { eapply same_except_trans; [|apply Hfill; apply Hpf]. rewrite Em. apply same_except_zero; [apply Hpf|left]. }
  pose proof (w_tree_eq W h vm t Hv Ht) as Htr. pose proof (w_pool W h vm t Hv Ht) as Hpool. rewrite Epl in Hpool.
  assert (Hpo : p ∉ owned vm t) by (apply (po_apart _ Hpool); left).
  assert (Htr1 : vm_tree K (mem st1) vm t).
  { eapply (vm_tree_frame Htr); [exact Hs1|]. intros q Hq ->%list_elem_of_singleton. apply Hpo, elem_of_app. by left. }
  assert (Hr1 : pmm_repr st1 pl).
  { eapply (pmm_repr_frame st _ pl [p]); [exact Hr|reflexivity|reflexivity|apply Hfill, Hpf|]. intros q Hq ->%list_elem_of_singleton. exact (Hpn Hq). }
  assert (Hpool1 : pool st1 vm t pl).
  { constructor; [done| |]; [eapply Forall_cons, (po_frames _ Hpool)|]. intros q Hq. apply (po_apart _ Hpool). by right. }
  destruct (map_spec (bm_ok _ _ Hbm) Htr1 pl va p Hpool1 Hpf Hpo Hpn) as [(-> & -> & _)|(st2 & t' & pl' & -> & [Ht' Hr2 Epg Hs2 Hhow])].
  - left. cbn [Z.ltb Z.compare]. assert (Hs3 : same_except (mem (pm k)) (mem (pmm_free st1 p)) [p]).
    { eapply same_except_trans; [exact Hs1|]. apply pmm_free_same, Hpf. }
    destruct (world_set k vs g h vm t (pmm_free st1 p) t (g_kind g) [p] [p] W Hv Ht) as [W' M]; [|exact Hs3| | | | | |].
    + by apply pmm_push.
    + intros q ->%list_elem_of_singleton. by left.
    + by left.
    + intros q. by rewrite (w_free _ _ _ W), Epl.
    + intros q. rewrite (w_user _ _ _ W). split; [|intros Hq; exists vm, t; auto]. intros (? & ? & ? & ? & ?). congruence.
    + eapply (vm_tree_frame Htr); [exact Hs3|]. intros q Hq ->%list_elem_of_singleton. apply Hpo, elem_of_app. by left.
    + eexists _, _. split; [reflexivity|]. split; [exact W'|]. split; [exact M|]. split; [apply lookup_insert_eq|]. split; [cbn; lia|].
      split; [intros q; reflexivity|]. intros v a x Ha Hx. apply Hs3. rewrite Hx. intros ->%list_elem_of_singleton. apply Hpo. by eapply pg_owned.
  - right. cbn [Z.ltb Z.compare].
    assert (exists l3s, pl = l3s ++ pl' /\ (t_l3 t' = t_l3 t /\ l3s = [] \/ exists i q, t_l3 t !! i = None /\ t_l3 t' = <[i := q]> (t_l3 t) /\ l3s = [q])
      /\ take 1 pl ⊆ pl) as (l3s & -> & Hl3 & Htake).
    { destruct Hhow as [(E & ->)|(l3 & -> & E1 & E2)]; [exists []|exists [l3]]; (split; [reflexivity|split]); [left; auto| |right; eauto|];
        intros q Hq; [by eapply elem_of_take in Hq as (? & Hq & _); eapply list_elem_of_lookup_2|]. cbn in Hq. apply list_elem_of_singleton in Hq as ->. left. }
    pose proof (owned_map vm t t' (vpn va) p l3s (vt_nodup _ _ _ _ Htr) Epg Hl3) as Hown.
    destruct (put_kinds va p l3s pl' t' Epl) as (K1 & K2 & K3 & K4); [rewrite <- Epl; apply (w_repr W)|exact Hown|].
    set (ps := p :: take 1 (l3s ++ pl') ++ tables vm t).
    assert (Hs3 : same_except (mem (pm k)) (mem st2) ps).
    { eapply same_except_trans; (eapply same_except_weaken; [|first [exact Hs1|exact Hs2]]); unfold ps; intros q Hq; [|by right].
      apply list_elem_of_singleton in Hq as ->. left. }
    assert (Hpl : forall q, q ∈ l3s ++ pl' -> g_kind g q = Some Free) by (intros q Hq; apply (w_free _ _ _ W); rewrite Epl; by right).
    assert (Hps : forall q, q ∈ ps -> mobile h (g_kind g q) /\ (g_kind g q = Some Free \/ q ∈ tables vm t)).
    { intros q [->|[Hq|Hq]%elem_of_app]%elem_of_cons; unfold mobile.
      - rewrite Hpk. auto.
      - rewrite Hpl by (by apply Htake). auto.
      - rewrite (w_owned W h vm t q Hv Ht) by (apply elem_of_app; by left). auto. }
    destruct (world_set k vs g h vm t st2 t' (put_kind h g t (vpn va) p l3s) pl' ps W Hv Ht Hr2 Hs3) as [W' M];
      [intros q Hq; by apply Hps|exact K1|exact K2|exact K3|exact Ht'|].
    eexists st2, _, t', p. split; [reflexivity|]. split; [exact W'|]. split; [exact M|]. split; [apply lookup_insert_eq|].
    constructor; [exact Hpk|exact Epg| | |exact K4].
    + intros x Hx. rewrite Hs2; [unfold st1; cbn; by rewrite Em|]. rewrite Hx. intros [Hq|Hq]%elem_of_app.
      * apply Hpn, Htake, Hq.
      * apply Hpo, elem_of_app. by left.
    + intros v a x Ha Hx. apply Hs3. rewrite Hx. intros Hq. apply Hps in Hq as [_ [Hq|Hq]].
      * rewrite (w_owned W h vm t a Hv Ht) in Hq by (by eapply pg_owned). done.
      * by apply (pg_not_table Htr v a Ha).
Qed.

End Put.

Section Space.
Context {k : kmem} {vs : gmap Z vm_map} {g : ghost} {h : Z} {vm : vm_map} {t : vtree}.
Context (W : world k vs g) (Hv : vs !! h = Some vm) (Ht : g_tree g !! h = Some t).

Lemma kind_owned q : g_kind g q = Some (User h) <-> q ∈ owned vm t.
Proof. rewrite (w_user _ _ _ W). split; [|intros Hq; exists vm, t; auto]. intros (? & ? & ? & ? & ?). congruence. Qed.

(** *** Unmapping *)
Lemma unmap_world va : exists st' g' t', mmu_vmap_unmap_user_4k (pm k) vm va = (default 0 (t_pg t !! vpn va), st')
  /\ world (k <| pm := st' |>) vs g' /\ moves h k g (k <| pm := st' |>) g' /\ g_tree g' !! h = Some t' /\ t_pg t' = delete (vpn va) (t_pg t)
  /\ no_loss g g' /\ keeps t' (mem (pm k)) (mem st') /\ (length (g_pl g) <= length (g_pl g'))%nat.
Proof.
  pose proof (w_tree_eq W h vm t Hv Ht) as Htr. pose proof (w_pool W h vm t Hv Ht) as Hpool.
  pose proof (unmap_spec (bm_ok _ _ Hbm) Htr (g_pl g) va Hpool) as Hu. destruct (t_pg t !! vpn va) as [a|] eqn:Ea.
  2:{ rewrite Hu. exists (pm k), g, t. rewrite <- km_same, delete_id by exact Ea. split_and!; [done|exact W|apply moves_refl|exact Ht|done| | |lia].
      - intros q. reflexivity.
      - intros v a x _ _. reflexivity. }
  destruct Hu as (st' & -> & Ht' & Hr & Hs). set (t' := mk_vtree (t_l3 t) (delete (vpn va) (t_pg t))) in *.
  assert (Hka : g_kind g a = Some (User h)) by (eapply kind_owned, pg_owned; exact Ea). pose proof (owned_delete vm t _ a Ea) as Hperm.
  fold t' in Hperm. pose proof (vt_nodup _ _ _ _ Htr) as Hnd. rewrite Hperm in Hnd. apply NoDup_cons in Hnd as [Hna _].
  destruct (world_set k vs g h vm t st' t' (kset [a] Free (g_kind g)) (a :: g_pl g) (a :: tables vm t) W Hv Ht Hr Hs) as [W' M]; [| | | |exact Ht'|].
  - intros q [->|Hq]%elem_of_cons; [by right; right|]. right. right. apply kind_owned, elem_of_app. by left.
  - intros q. unfold kset. destruct (decide (q ∈ [a])) as [->%list_elem_of_singleton|]; [right|by left]. split; [by right; right|by left].
  - intros q. unfold kset. pose proof (w_free _ _ _ W q) as Hfq. destruct (decide (q ∈ [a])) as [->%list_elem_of_singleton|Hn].
    + split; [left|done].
    + rewrite Hfq, elem_of_cons. split; [by right|]. intros [->|?]; [|done]. destruct Hn. left.
  - intros q. unfold kset. destruct (decide (q ∈ [a])) as [->%list_elem_of_singleton|Hn]; [split; [done|intros ?; by destruct Hna]|].
    rewrite kind_owned, Hperm, elem_of_cons. split; [|by right]. intros [->|?]; [|done]. destruct Hn. left.
  - eexists st', _, t'. split; [reflexivity|]. split; [exact W'|]. split; [exact M|]. split; [apply lookup_insert_eq|]. split; [reflexivity|]. split.
    + intros q. cbn. unfold kset. destruct (decide (q ∈ [a])) as [->%list_elem_of_singleton|]; [|reflexivity]. rewrite Hka. done.
    + split; [|cbn; lia]. intros v b x Hb Hx. apply Hs. rewrite Hx. cbn in Hb. rewrite lookup_delete_Some in Hb. destruct Hb as [Hne Hb].
      intros [->|Hq]%elem_of_cons; [by apply Hne, (pg_inj Htr _ _ a)|by apply (pg_not_table Htr v b)].
Qed.

(** *** Writing to a page of the space *)
Lemma write_world v a m' : t_pg t !! v = Some a -> same_except (mem (pm k)) m' [a] ->
  exists g', world (k <| pm := (pm k) <| mem := m' |> |>) vs g' /\ moves h k g (k <| pm := (pm k) <| mem := m' |> |>) g'
    /\ g_tree g' !! h = Some t /\ no_loss g g' /\ g_pl g' = g_pl g.
Proof.
  intros Ha Hs. pose proof (w_tree_eq W h vm t Hv Ht) as Htr.
  assert (Hka : g_kind g a = Some (User h)) by (eapply kind_owned, pg_owned; exact Ha).
  destruct (world_set k vs g h vm t ((pm k) <| mem := m' |>) t (g_kind g) (g_pl g) [a] W Hv Ht) as [W' M]; [|exact Hs| | |apply W|apply kind_owned| |].
  - eapply (pmm_repr_frame (pm k)); [apply (w_repr W)|reflexivity|reflexivity|exact Hs|]. intros q Hq ->%list_elem_of_singleton.
    apply (w_free _ _ _ W) in Hq. congruence.
  - intros q ->%list_elem_of_singleton. by right; right.
  - intros q. by left.
  - eapply (vm_tree_frame Htr); [exact Hs|]. intros q Hq ->%list_elem_of_singleton. by apply (pg_not_table Htr v a).
  - eexists. split; [exact W'|]. split; [exact M|]. split; [apply lookup_insert_eq|]. split; [intros q; reflexivity|reflexivity].
Qed.

End Space.

(** ** Making and ending address spaces *)

(** What an operation leaves alone of the space [h]. *)
Record spares (h : Z) (k : kmem) (g : ghost) (k' : kmem) (g' : ghost) : Prop := mk_spares {
  sp_kind : forall p, g_kind g' p = Some (User h) <-> g_kind g p = Some (User h);
  sp_same : forall x, g_kind g (slab_of x) = Some (User h) -> load (mem (pm k')) x = load (mem (pm k)) x;
  sp_tree : g_tree g' !! h = g_tree g !! h }.

Lemma spares_refl h k g : spares h k g k g.
Proof. constructor; done. Qed.
Lemma spares_trans h k1 g1 k2 g2 k3 g3 : spares h k1 g1 k2 g2 -> spares h k2 g2 k3 g3 -> spares h k1 g1 k3 g3.
Proof.
  intros [A1 A2 A3] [B1 B2 B3]. constructor; [|intros x Hx|congruence].
  - intros p. by rewrite B1, A1.
  - rewrite B2, A2; [done|done|]. by apply A1.
Qed.
Lemma moves_spares h h' k g k' g' : moves h k g k' g' -> h' <> h -> spares h' k g k' g'.
Proof.
  intros M Hne. pose proof M as [A1 A2 A3 A4 A5]. constructor.
  - intros p. apply (moves_other _ _ _ _ _ _ _ M); congruence.
  - intros x Hx. apply A2. unfold mobile. rewrite Hx. intuition congruence.
  - by apply A4.
Qed.

Lemma moves_dom h k g k' g' : moves h k g k' g' -> same_dom g g'.
Proof.
  intros [A1 _ _ _ _] p. destruct (A1 p) as [->|[M1 M2]]; [done|]. unfold mobile in *.
  destruct M1 as [->|[->| ->]], M2 as [->|[->| ->]]; done.
Qed.

Lemma kset_dom ps kd g p : (forall q, q ∈ ps -> g_kind g q <> None) -> kset ps kd (g_kind g) p = None <-> g_kind g p = None.
Proof. intros H. unfold kset. case_decide as Hin; [|done]. split; [done|]. by intros ?%H. Qed.

Lemma w_boot_map k vs g : world k vs g -> boot_map K (mem (pm k)).
Proof.
  intros W. destruct Hbm as [H1 H2 H3 H4]. destruct Hlay as [Hf _]. rewrite Forall_forall in Hf.
  assert (Hl : forall p i, p ∈ statics -> 0 <= i < 512 -> load (mem (pm k)) (p + 8 * i) = load m0 (p + 8 * i)).
  { intros p i Hp Hi. apply (w_boot _ _ _ W). rewrite slot_page; [by apply (w_static _ _ _ W)|by apply Hf|done]. }
  constructor; [| | |done]; intros i Hi; (rewrite Hl; [auto|unfold statics; inlist|lia]).
Qed.

(** Only the tables' addresses matter to the tree. *)
Definition same_tables (vm vm' : vm_map) : Prop :=
  l0_phys vm' = l0_phys vm /\ l1_phys vm' = l1_phys vm /\ l2_phys vm' = l2_phys vm.

Lemma owned_same vm vm' t : same_tables vm vm' -> owned vm' t = owned vm t.
Proof. intros (E0 & E1 & E2). unfold owned, tables. by rewrite E0, E1, E2. Qed.
Lemma tree_same m vm vm' t : same_tables vm vm' -> vm_tree K m vm t -> vm_tree K m vm' t.
Proof.
  intros E H. pose proof E as (E0 & E1 & E2). destruct H as [H1 H2 H3 H4 H5 H6 H7].
  constructor; rewrite ?(owned_same _ _ _ E), ?E0, ?E1, ?E2; assumption.
Qed.

Lemma world_vm k vs g h vm vm' : world k vs g -> vs !! h = Some vm -> same_tables vm vm' -> world k (<[h := vm']> vs) g.
Proof.
  intros [H1 H2 H3 H4 H5 H6 H7 H8 H9] Hv E. constructor; try assumption.
  - intros h' p. rewrite H8. destruct (decide (h' = h)) as [->|Hne]; [|by rewrite lookup_insert_ne].
    rewrite lookup_insert_eq, Hv. split; intros (vm1 & t & [= <-] & Et & Hp); eexists _, t; (split; [reflexivity|]);
      (split; [exact Et|]); [by rewrite (owned_same _ _ _ E)|by rewrite <- (owned_same _ _ _ E)].
  - intros h' vm1. destruct (decide (h' = h)) as [->|Hne]; [|rewrite lookup_insert_ne by done; apply H9].
    rewrite lookup_insert_eq. intros [= <-]. destruct (H9 h vm Hv) as (t & Et & Htr). exists t. split; [done|]. by eapply tree_same.
Qed.

Lemma create_world k vs g h vm0 : world k vs g -> vs !! h = None ->
  exists r vm' st' g', mmu_vmap_create (pm k) vm0 = (r, vm', st')
  /\ (forall h', h' <> h -> spares h' k g (k <| pm := st' |>) g') /\ g_live g' = g_live g /\ no_loss g g' /\ same_dom g g'
  /\ (forall p kd, kd <> Free -> kd <> User h -> g_kind g' p = Some kd <-> g_kind g p = Some kd)
  /\ ((r = -1 /\ world (k <| pm := st' |>) vs g')
      \/ (r = 0 /\ world (k <| pm := st' |>) (<[h := vm']> vs) g' /\ g_tree g' !! h = Some (mk_vtree ∅ ∅)
          /\ exists a b c, vm' = new_vm vm0 a b c)).
Proof.
  intros W Hn. pose proof (w_repr W) as Hr.
  assert (Hnu : forall p, g_kind g p <> Some (User h)) by (intros p (vm & t & E & _)%(w_user _ _ _ W); congruence).
  destruct (create_spec K (pm k) vm0 (g_pl g) Hlay (w_boot_map _ _ _ W) Hr) as [(st' & pl' & -> & Hperm & Hr' & Hs)|(a & b & c & pl' & st' & Epl & -> & Htr & Hr' & Hs)].
  { apply Forall_forall. intros p Hp. by eapply (w_frame _ _ _ W), (w_free _ _ _ W). }
  { intros p Hp%(w_free _ _ _ W) Hst%(w_static _ _ _ W). congruence. }
  - exists (-1), vm0, st', (mk_ghost pl' (g_live g) (g_kind g) (delete h (g_tree g))). split; [reflexivity|].
    assert (Hsp : forall p, p ∈ g_pl g -> mobile h (g_kind g p)) by (intros p Hp%(w_free _ _ _ W); by left).
    pose proof (world_pm W h st' None (g_kind g) pl' (g_pl g) Hr' Hs Hsp ltac:(by left)) as W'.
    change (partial_alter (fun _ => fst <$> None) h vs) with (delete h vs) in W'. rewrite (delete_id vs h Hn) in W'. 
    split; [|split; [reflexivity|split; [|split; [intros q; reflexivity|split; [|left; split; [reflexivity|apply W'; [|
       intros p; split; [by intros ?%Hnu|by intros (? & ? & [=] & _)]|done]]]]]]].
    + intros h' Hne. constructor; [done| |cbn; by rewrite lookup_delete_ne]. intros x Hx. apply Hs.
      intros Hin%(w_free _ _ _ W). congruence.
    + intros q. reflexivity.
    + done.
    + intros p. by rewrite Hperm, (w_free _ _ _ W).
  - set (kd' := kset [a; b; c] (User h) (g_kind g)).
    exists 0, (new_vm vm0 a b c), st', (mk_ghost pl' (g_live g) kd' (<[h := mk_vtree ∅ ∅]> (g_tree g))). split; [reflexivity|].
    assert (Hnew : forall p, p ∈ [a; b; c] -> g_kind g p = Some Free).
    { intros p Hp. apply (w_free _ _ _ W). rewrite Epl. apply (elem_of_app [a; b; c] pl'). by left. }
    assert (Hnd : forall p, p ∈ [a; b; c] -> p ∉ pl').
    { destruct Hr as (_ & Hd & _). rewrite Epl in Hd. by apply (NoDup_app [a; b; c] pl') in Hd as (_ & Hd & _). }
    assert (Hk : forall p kd, kd <> Free -> kd <> User h -> kd' p = Some kd <-> g_kind g p = Some kd).
    { intros p kd N1 N2. unfold kd', kset. destruct (decide (p ∈ [a; b; c])) as [Hin|]; [|done]. rewrite (Hnew p Hin). split; congruence. }
    pose proof (world_pm W h st' (Some (new_vm vm0 a b c, mk_vtree ∅ ∅)) kd' pl' [a; b; c] Hr' Hs) as W'. cbn [fmap option_fmap option_map fst snd] in W'.
    split; [|split; [reflexivity|split; [|split; [|split; [exact Hk|right; split; [reflexivity|split; [apply W'|split; [apply lookup_insert_eq|exists a, b, c; reflexivity]]]]]]]].
    + intros h' Hne. constructor; [| |cbn; by rewrite lookup_insert_ne].
      * intros p. apply Hk; congruence.
      * intros x Hx. apply Hs. intros Hin%Hnew. congruence.
    + intros p. by apply Hk.
    + intros p. apply kset_dom. intros q Hq%Hnew. by rewrite Hq.
    + intros p Hp. left. by apply Hnew.
    + intros p. unfold kd', kset. destruct (decide (p ∈ [a; b; c])) as [Hin|]; [right|by left]. split; [left; by apply Hnew|by right; right].
    + intros p. unfold kd', kset. destruct (decide (p ∈ [a; b; c])) as [Hin|Hni]; [split; [done|by intros ?%Hnd]|].
      rewrite (w_free _ _ _ W), Epl, (elem_of_app [a; b; c] pl'). tauto.
    + intros p. unfold kd', kset. destruct (decide (p ∈ [a; b; c])) as [Hin|Hni].
      * split; [|done]. intros _. eexists _, _. split; [reflexivity|]. exact Hin.
      * split; [by intros ?%Hnu|]. intros (? & ? & [= <- <-] & Hp). done.
    + by intros ? ? [= <- <-].
Qed.

Lemma destroy_world k vs g h vm : world k vs g -> vs !! h = Some vm ->
  exists st' g', mmu_vmap_destroy (pm k) vm = (no_tables vm, st') /\ world (k <| pm := st' |>) (delete h vs) g'
  /\ (forall h', h' <> h -> spares h' k g (k <| pm := st' |>) g') /\ g_live g' = g_live g /\ no_loss g g' /\ same_dom g g'
  /\ (forall p kd, kd <> Free -> kd <> User h -> g_kind g' p = Some kd <-> g_kind g p = Some kd)
  /\ (forall p, g_kind g' p = Some Free <-> g_kind g p = Some Free \/ g_kind g p = Some (User h)).
Proof.
  intros W Hv. destruct (w_tree _ _ _ W h vm Hv) as (t & Ht & Htr). pose proof (w_pool W h vm t Hv Ht) as Hpool.
  destruct (destroy_spec K (pm k) vm t (g_pl g) (bm_ok _ _ Hbm) Htr Hpool) as (st' & F & -> & HF & Hr & Hs).
  assert (HFk : forall p, p ∈ F <-> g_kind g p = Some (User h)) by (intros p; by rewrite HF, (kind_owned W Hv Ht)).
  set (kd' := kset F Free (g_kind g)). exists st', (mk_ghost (F ++ g_pl g) (g_live g) kd' (delete h (g_tree g))).
  assert (Hk : forall p kd, kd <> Free -> kd <> User h -> kd' p = Some kd <-> g_kind g p = Some kd).
  { intros p kd N1 N2. unfold kd', kset. destruct (decide (p ∈ F)) as [Hin%HFk|]; [|done]. rewrite Hin. split; congruence. }
  assert (Hfr : forall p, kd' p = Some Free <-> g_kind g p = Some Free \/ g_kind g p = Some (User h)).
  { intros p. unfold kd', kset. rewrite <- HFk. destruct (decide (p ∈ F)); tauto. }
  split; [reflexivity|]. split; [|split; [|split; [reflexivity|split; [intros p; by apply Hk|split; [|split; [exact Hk|exact Hfr]]]]]].
  3:{ intros p. apply kset_dom. intros q Hq%HFk. by rewrite Hq. }
  - refine (world_pm W h st' None kd' (F ++ g_pl g) F Hr Hs _ _ _ _ _).
    + intros p Hp%HFk. by right; right.
    + intros p. unfold kd', kset. destruct (decide (p ∈ F)) as [Hin%HFk|]; [right|by left]. split; [by right; right|by left].
    + intros p. rewrite Hfr, elem_of_app, HFk, (w_free _ _ _ W). tauto.
    + intros p. split; [|by intros (? & ? & [=] & _)]. unfold kd', kset. destruct (decide (p ∈ F)) as [|Hni]; [done|]. intros Hp. by destruct Hni; apply HFk.
    + done.
  - intros h' Hne. constructor; [| |cbn; by rewrite lookup_delete_ne].
    + intros p. apply Hk; congruence.
    + intros x Hx. apply Hs. rewrite HFk. congruence.
Qed.

(** ** Blocks of the kernel *)

(** What an operation on the kernel's own pages leaves alone: all address spaces, the
    stacks, the pages held. *)
Record aside (k : kmem) (g : ghost) (k' : kmem) (g' : ghost) : Prop := mk_aside {
  as_kind : forall p kd, kd <> Free -> kd <> Slab -> g_kind g' p = Some kd <-> g_kind g p = Some kd;
  as_same : forall x, g_kind g (slab_of x) <> Some Free -> g_kind g (slab_of x) <> Some Slab -> load (mem (pm k')) x = load (mem (pm k)) x;
  as_tree : g_tree g' = g_tree g;
  as_dom : same_dom g g' }.

Lemma aside_spares h k g k' g' : aside k g k' g' -> spares h k g k' g'.
Proof.
  intros [A1 A2 A3 _]. constructor; [|intros x Hx|congruence].
  - intros p. by apply A1.
  - apply A2; congruence.
Qed.

(** A change of the kernel's pages: [new] pages go from the free ones to the slabs. *)
Lemma world_kmem k vs g k' live' new pl' ps : world k vs g -> kmem_inv k' live' -> classes_ok k' ->
  g_pl g = new ++ pl' -> pmm_repr (pm k') pl' -> (forall x, is_Some (slabs k' !! x) <-> is_Some (slabs k !! x) \/ x ∈ new) ->
  same_except (mem (pm k)) (mem (pm k')) ps -> (forall p, p ∈ ps -> p ∈ new \/ is_Some (slabs k !! p)) ->
  let g' := mk_ghost pl' live' (kset new Slab (g_kind g)) (g_tree g) in world k' vs g' /\ aside k g k' g'.
Proof.
  intros W Hi Hcl Epl Hr Hsl Hs Hps g'. pose proof W as [Hkm _ Hfr Hfree Hslab Hst Hboot Huser Htree].
  assert (Hnew : forall p, p ∈ new -> g_kind g p = Some Free) by (intros p Hp; apply Hfree; rewrite Epl, elem_of_app; by left).
  assert (Hps' : forall p, p ∈ ps -> g_kind g p = Some Free \/ g_kind g p = Some Slab).
  { intros p Hp. destruct (Hps p Hp) as [H|H]; [left; by apply Hnew|right; by apply Hslab]. }
  assert (Hk : forall p kd, kd <> Free -> kd <> Slab -> kset new Slab (g_kind g) p = Some kd <-> g_kind g p = Some kd).
  { intros p kd N1 N2. unfold kset. destruct (decide (p ∈ new)) as [Hin%Hnew|]; [|done]. rewrite Hin. split; congruence. }
  assert (Hsame : forall x, g_kind g (slab_of x) <> Some Free -> g_kind g (slab_of x) <> Some Slab -> load (mem (pm k')) x = load (mem (pm k)) x).
  { intros x N1 N2. apply Hs. intros Hin%Hps'. tauto. }
  split; [|constructor; [exact Hk|exact Hsame|done|intros p; apply kset_dom; intros q Hq%Hnew; by rewrite Hq]]. constructor; cbn [g_pl g_live g_kind g_tree g'].
  - destruct Hi as (pl & fl & sl & Hwf & HA). exists fl, sl. split; [|done].
    by rewrite (pmm_repr_unique _ _ _ Hr (wf_pmm _ _ _ _ Hwf)).
  - done.
  - intros p kd. unfold kset. destruct (decide (p ∈ new)) as [Hin%Hnew|]; [intros _; by eapply Hfr|apply Hfr].
  - intros p. unfold kset. destruct (decide (p ∈ new)) as [Hin|Hni].
    + split; [done|]. intros Hp. pose proof (w_repr W) as (_ & Hd & _). rewrite Epl in Hd. apply NoDup_app in Hd as (_ & Hd & _). by destruct (Hd p).
    + rewrite Hfree, Epl, elem_of_app. tauto.
  - intros p. rewrite Hsl, <- Hslab. unfold kset. destruct (decide (p ∈ new)); tauto.
  - intros p Hp. apply Hk; [done|done|]. by apply Hst.
  - intros x Hx. apply Hk in Hx; [|done..]. rewrite <- (Hboot x Hx). apply Hsame; congruence.
  - intros h p. rewrite Hk by done. apply Huser.
  - intros h vm Hv. destruct (Htree h vm Hv) as (t & Ht & Htr). exists t. split; [done|]. eapply (vm_tree_frame Htr); [exact Hs|].
    intros p Hp Hin. apply Hps' in Hin. assert (g_kind g p = Some (User h)) by (eapply (w_owned W); [done|done|apply elem_of_app; by left]).
    destruct Hin; congruence.
Qed.

Lemma kmalloc_world k vs g n : world k vs g ->
  kmalloc k n = (0, k) \/ exists p k' g', kmalloc k n = (p, k') /\ p <> 0 /\ ~ g_live g p /\ world k' vs g' /\ aside k g k' g'
    /\ forall o, g_live g' o <-> g_live g o \/ o = p.
Proof.
  intros W. destruct (w_kmem _ _ _ W) as (fl & sl & Hwf & HA).
  destruct (kmalloc_pages k (g_live g) (g_pl g) fl sl n Hwf HA (w_classes _ _ _ W)) as [H|(p & k' & new & pl' & E & Hp & Hn & [T1 T2 T3 T4] & Hi & Hcl)]; [by left|right].
  destruct (world_kmem k vs g k' _ new pl' new W Hi Hcl T1 T2 T3 T4 ltac:(by left)) as [W' A].
  eexists p, k', _. split; [exact E|]. split; [exact Hp|]. split; [exact Hn|]. split; [exact W'|]. split; [exact A|]. done.
Qed.

Lemma kfree_world k vs g p : world k vs g -> g_live g p ->
  exists g', world (kfree k p) vs g' /\ aside k g (kfree k p) g' /\ (forall o, g_live g' o <-> g_live g o /\ o <> p) /\ forall q, g_kind g' q = g_kind g q.
Proof.
  intros W Hp. destruct (w_kmem _ _ _ W) as (fl & sl & Hwf & HA).
  destruct (kfree_pages k (g_live g) (g_pl g) fl sl p Hwf HA Hp) as (H1 & H2 & H3 & H4 & H5 & H6).
  destruct (world_kmem k vs g (kfree k p) _ [] (g_pl g) [slab_of p] W H5 (H6 (w_classes _ _ _ W)) eq_refl H1) as [W' A]; [|exact H3| |].
  - intros x. rewrite H2, elem_of_nil. tauto.
  - intros x ->%list_elem_of_singleton. by right.
  - eexists. split; [exact W'|]. split; [exact A|]. split; [done|]. intros q. cbn. unfold kset. by rewrite decide_False by apply not_elem_of_nil.
Qed.

(** Pages of the types [P] become free, and no other page changes its type. *)
Definition releases (P : kind -> Prop) (g g' : ghost) : Prop :=
  (forall q kd, g_kind g q = Some kd -> ~ P kd -> g_kind g' q = Some kd)
  /\ (forall q kd, g_kind g q = Some kd -> P kd -> g_kind g' q = Some kd \/ g_kind g' q = Some Free).

Lemma releases_same P g g' : (forall q, g_kind g' q = g_kind g q) -> releases P g g'.
Proof. intros H. split; intros q kd Hq _; [|left]; by rewrite H. Qed.

Lemma releases_weaken P Q g g' : (forall kd, P kd -> Q kd) -> releases P g g' -> (forall kd, P kd \/ ~ P kd) -> releases Q g g'.
Proof. intros HPQ [H1 H2] Hd. split; intros q kd Hq Hkd; [apply H1; auto|]. destruct (Hd kd); [by apply H2|left; by apply H1]. Qed.

Lemma releases_trans P g1 g2 g3 : ~ P Free -> releases P g1 g2 -> releases P g2 g3 -> releases P g1 g3.
Proof.
  intros Hf [A1 A2] [B1 B2]. split; intros q kd Hq Hkd; [by apply B1, Hkd; apply A1|].
  destruct (A2 q kd Hq Hkd) as [H|H]; [by apply B2|right; by apply B1].
Qed.

(** ** Pages of no address space *)

(** Held pages and stacks are the same to the rest of memory. *)
Lemma world_retype k vs g kd' : world k vs g -> (forall p kd, kd <> Held -> (forall t, kd <> Kernel t) -> kd' p = Some kd <-> g_kind g p = Some kd) ->
  (forall p, kd' p = None <-> g_kind g p = None) -> world k vs (mk_ghost (g_pl g) (g_live g) kd' (g_tree g)).
Proof.
  intros [H1 H2 H3 H4 H5 H6 H7 H8 H9] Hk Hn. constructor; cbn [g_pl g_live g_kind g_tree]; try assumption.
  - intros p kd Hp. destruct (g_kind g p) as [kd1|] eqn:E; [by eapply H3|]. apply Hn in E. congruence.
  - intros p. rewrite Hk by done. apply H4.
  - intros p. rewrite Hk by done. apply H5.
  - intros p Hp. apply Hk; [done|done|]. by apply H6.
  - intros x Hx. apply H7. by apply Hk in Hx.
  - intros h p. rewrite Hk by done. apply H8.
Qed.

(** Pages go between the free ones and those held. *)
Lemma world_pool k vs g st' kd' pl' ps : world k vs g -> pmm_repr st' pl' -> same_except (mem (pm k)) (mem st') ps ->
  (forall p, p ∈ ps -> g_kind g p = Some Free \/ g_kind g p = Some Held) ->
  (forall p, kd' p = g_kind g p \/ (g_kind g p = Some Free \/ g_kind g p = Some Held) /\ (kd' p = Some Free \/ kd' p = Some Held)) ->
  (forall p, kd' p = Some Free <-> p ∈ pl') -> world (k <| pm := st' |>) vs (mk_ghost pl' (g_live g) kd' (g_tree g)).
Proof.
  intros W Hr Hs Hps Hk Hf. set (h := fresh (dom vs)). assert (Hh : vs !! h = None) by (apply not_elem_of_dom, is_fresh).
  assert (Hnu : forall q, g_kind g q <> Some (User h)) by (intros q (vm & t & Ev & _)%(w_user _ _ _ W); congruence).
  pose proof (world_pm W h st' None kd' pl' ps Hr Hs) as W1.
  change (partial_alter (fun _ => fst <$> None) h vs) with (delete h vs) in W1. rewrite (delete_id vs h Hh) in W1.
  destruct W1 as [B1 B2 B3 B4 B5 B6 B7 B8 B9].
  - intros q Hq. unfold mobile. destruct (Hps q Hq); auto.
  - intros q. unfold mobile. destruct (Hk q) as [->|[[H1|H1] [H2|H2]]]; rewrite ?H1, ?H2; auto.
  - exact Hf.
  - intros q. split; [|by intros (? & ? & [=] & _)]. destruct (Hk q) as [->|[_ [->| ->]]]; [by intros ?%Hnu|done|done].
  - done.
  - cbn [g_pl g_live g_kind g_tree] in *. constructor; cbn [g_pl g_live g_kind g_tree]; try assumption.
    + intros h' q. rewrite B8. split; intros (vm & t & Ev & Et & Hq); exists vm, t; (split; [done|split; [|done]]);
        rewrite lookup_partial_alter_ne in * by congruence; done.
    + intros h' vm Ev. destruct (B9 h' vm Ev) as (t & Et & Htr). exists t. rewrite lookup_partial_alter_ne in Et by congruence. done.
Qed.

Definition loose (kd : kind) : Prop := kd = Held \/ exists t, kd = Kernel t.

Lemma retype_loose k vs g p kd : world k vs g -> loose kd -> (exists kd0, g_kind g p = Some kd0 /\ loose kd0) ->
  world k vs (mk_ghost (g_pl g) (g_live g) (kset [p] kd (g_kind g)) (g_tree g)).
Proof.
  intros W Hkd (kd0 & Hp & Hkd0). apply (world_retype k vs g _ W).
  - intros q kd1 N1 N2. unfold kset. destruct (decide (q ∈ [p])) as [->%list_elem_of_singleton|]; [|done]. rewrite Hp. unfold loose in *.
    destruct Hkd as [->|[t ->]], Hkd0 as [->|[t0 ->]]; split; intros [= <-]; try done; exfalso; by eapply N2.
  - intros q. unfold kset. destruct (decide (q ∈ [p])) as [->%list_elem_of_singleton|]; [|done]. rewrite Hp. done.
Qed.

(** A page taken, for a stack for example. *)
Lemma world_alloc k vs g p pl kd : world k vs g -> g_pl g = p :: pl -> loose kd ->
  exists st, pmm_alloc (pm k) = (p, st) /\ world (k <| pm := st |>) vs (mk_ghost pl (g_live g) (kset [p] kd (g_kind g)) (g_tree g))
    /\ (p =? 0) = false /\ g_kind g p = Some Free /\ same_except (mem (pm k)) (mem st) [p].
Proof.
  intros W E Hkd. destruct (w_pool_cons _ _ _ _ _ W E) as (st & Ea & Hr & Em & Hpf & Hpk & Hpn & Hz). exists st.
  assert (Hs : same_except (mem (pm k)) (mem st) [p]) by (rewrite Em; apply same_except_zero; [apply Hpf|left]).
  clear Em. split; [exact Ea|]. split; [|done].
  assert (W1 : world (k <| pm := st |>) vs (mk_ghost pl (g_live g) (kset [p] Held (g_kind g)) (g_tree g))).
  { apply (world_pool k vs g st _ pl [p] W Hr Hs).
    - intros q ->%list_elem_of_singleton. by left.
    - intros q. unfold kset. destruct (decide (q ∈ [p])) as [->%list_elem_of_singleton|]; [right|by left]. auto.
    - intros q. unfold kset. destruct (decide (q ∈ [p])) as [->%list_elem_of_singleton|Hn]; [done|]. rewrite (w_free _ _ _ W), E, elem_of_cons.
      rewrite list_elem_of_singleton in Hn. tauto. }
  pose proof (retype_loose _ _ _ p kd W1 Hkd) as W2. cbn [g_pl g_live g_kind g_tree] in W2.
  assert (Hkk : forall q, kset [p] kd (kset [p] Held (g_kind g)) q = kset [p] kd (g_kind g) q) by (intros q; unfold kset; by case_decide).
  destruct W2 as [B1 B2 B3 B4 B5 B6 B7 B8 B9]; [exists Held; split; [apply kset_in; left|by left]|]. cbn [g_pl g_live g_kind g_tree] in *.
  constructor; cbn [g_pl g_live g_kind g_tree]; try assumption; setoid_rewrite <- Hkk; assumption.
Qed.

(** A page given back. *)
Lemma world_release k vs g p kd : world k vs g -> g_kind g p = Some kd -> loose kd ->
  let st := pmm_free (pm k) p in
  world (k <| pm := st |>) vs (mk_ghost (p :: g_pl g) (g_live g) (kset [p] Free (g_kind g)) (g_tree g))
  /\ same_except (mem (pm k)) (mem st) [p].
Proof.
  intros W Hp Hkd st. pose proof (w_frame _ _ _ W _ _ Hp) as Hpf. assert (Hs : same_except (mem (pm k)) (mem st) [p]) by apply pmm_free_same, Hpf.
  split; [|exact Hs]. pose proof (retype_loose _ _ _ p Held W ltac:(by left) ltac:(by exists kd)) as W1. set (g1 := mk_ghost _ _ _ _) in W1.
  assert (Hnp : p ∉ g_pl g) by (intros Hin; apply (w_free _ _ _ W) in Hin; destruct Hkd as [->|[t ->]]; congruence).
  assert (Hr : pmm_repr st (p :: g_pl g)).
  { apply pmm_push; [apply (w_repr W)| |exact Hpf|exact Hnp]. apply Forall_forall. intros q Hq. by eapply (w_frame _ _ _ W), (w_free _ _ _ W). }
  apply (world_pool k vs g1 st (kset [p] Free (g_kind g)) (p :: g_pl g) [p] W1 Hr Hs).
  - intros q ->%list_elem_of_singleton. right. cbn. apply kset_in. left.
  - intros q. cbn. unfold kset. destruct (decide (q ∈ [p])); [right|]; auto.
  - intros q. unfold kset. destruct (decide (q ∈ [p])) as [->%list_elem_of_singleton|Hn]; [split; [left|done]|].
    rewrite (w_free _ _ _ W), elem_of_cons. rewrite list_elem_of_singleton in Hn. tauto.
Qed.

End World.

End VmInv.
