(* ===== verification/VmView.v ===== *)
(** * What a process sees

    The bytes of an address space as a partial function of addresses, and what the
    operations on pages do to it. *)

From stdpp Require Import base numbers list gmap.
From Stdlib Require Import ZArith Lia Bool.
From S2P Require Import Prelude Kmem Mmu MmuInv MmuLife Vm VmInv.

Module VmView.
Import Kmem Mmu MmuInv MmuLife Vm VmInv.
#[local] Opaque zero_page copy_entries fill seqZ.

(** ** Bytes of memory *)

Lemma word_shift a : 0 <= byte_shift a < 64 /\ byte_shift a mod 8 = 0.
Proof. unfold byte_shift. Z.to_euclidean_division_equations. lia. Qed.

Lemma word_page a : slab_of (word_of a) = slab_of a.
Proof. rewrite !slab_of_mod. unfold word_of, PAGE_SIZE. Z.to_euclidean_division_equations. lia. Qed.

Lemma byte_ext x y : 0 <= x < 256 -> 0 <= y < 256 -> (forall i, 0 <= i < 8 -> Z.testbit x i = Z.testbit y i) -> x = y.
Proof.
  intros Hx Hy H. apply Z.bits_inj'. intros i Hi. destruct (Z_lt_ge_dec i 8); [by apply H|].
  assert (forall z, 0 <= z < 256 -> Z.testbit z i = false) as Hz.
  { intros z Hz. apply Z.testbit_false; [done|]. rewrite Z.div_small; [done|]. split; [lia|].
    apply Z.lt_le_trans with (2 ^ 8); [lia|]. apply Z.pow_le_mono_r; lia. }
  by rewrite !Hz.
Qed.

Lemma ld8_range m a : 0 <= ld8 m a < 256.
Proof. unfold ld8. change 0xff with (Z.ones 8). rewrite Z.land_ones by lia. apply Z.mod_pos_bound. lia. Qed.

Lemma ld8_bit m a i : 0 <= i < 8 -> Z.testbit (ld8 m a) i = Z.testbit (load m (word_of a)) (i + byte_shift a).
Proof.
  intros Hi. unfold ld8. change 0xff with (Z.ones 8). rewrite Z.land_spec, Z.ones_spec_low, andb_true_r by lia.
  by rewrite Z.shiftr_spec by lia.
Qed.

Lemma ld8_load m m' a : load m' (word_of a) = load m (word_of a) -> ld8 m' a = ld8 m a.
Proof. unfold ld8. by intros ->. Qed.

Lemma ones_bit n i : 0 <= n -> 0 <= i -> Z.testbit (Z.ones n) i = (i <? n).
Proof.
  intros Hn Hi. destruct (i <? n) eqn:E; [apply Z.ltb_lt in E|apply Z.ltb_ge in E];
    [apply Z.ones_spec_low|apply Z.ones_spec_high]; lia.
Qed.

Lemma ld8_st8 m a v b : ld8 (st8 m a v) b = if decide (a = b) then v mod 256 else ld8 m b.
Proof.
  assert (Hv : 0 <= v mod 256 < 256) by (apply Z.mod_pos_bound; lia).
  destruct (word_shift a) as [Ha Ha8], (word_shift b) as [Hb Hb8].
  destruct (decide (word_of a = word_of b)) as [Ew|Hne].
  2:{ rewrite decide_False by congruence. apply ld8_load, load_insert_ne, Hne. }
  apply byte_ext; [apply ld8_range|case_decide; [done|apply ld8_range]|]. intros i Hi.
  rewrite ld8_bit by done. unfold st8. rewrite <- Ew, load_insert_eq. change 0xff with (Z.ones 8).
  rewrite Z.lor_spec, Z.ldiff_spec, !Z.shiftl_spec, Z.land_ones by lia. change (2 ^ 8) with 256.
  case_decide as Eab.
  - subst b. replace (i + byte_shift a - byte_shift a) with i by lia. rewrite ones_bit by lia.
    rewrite (proj2 (Z.ltb_lt i 8)) by lia. cbn [negb]. by rewrite andb_false_r.
  - assert (Hd : byte_shift a <> byte_shift b).
    { intros E. apply Eab. unfold byte_shift, word_of in *. lia. }
    assert (Hout : i + byte_shift b - byte_shift a < 0 \/ 8 <= i + byte_shift b - byte_shift a) by (Z.to_euclidean_division_equations; lia).
    assert (E1 : Z.testbit (Z.ones 8) (i + byte_shift b - byte_shift a) = false).
    { destruct Hout; [by apply Z.testbit_neg_r|apply Z.ones_spec_high; lia]. }
    assert (E2 : Z.testbit (v mod 256) (i + byte_shift b - byte_shift a) = false).
    { destruct Hout; [by apply Z.testbit_neg_r|]. change 256 with (2 ^ 8). rewrite Z.mod_pow2_bits_high; [done|lia]. }
    rewrite E1, E2, orb_false_r, andb_true_r, ld8_bit by lia. by rewrite Ew.
Qed.

Lemma st8_same m a v p : slab_of a = p -> same_except m (st8 m a v) [p].
Proof. intros <- x Hx. apply load_insert_ne. intros <-. apply Hx. rewrite word_page. left. Qed.

(** Addresses in one page. *)
Lemma in_page p a : page p -> p <= a < p + 4096 -> slab_of a = p.
Proof. intros Hp Ha. replace a with (p + (a - p)) by lia. apply slab_of_in; [done|]. unfold PAGE_SIZE. lia. Qed.

Lemma copy_from_spec n : forall m d src s,
  (forall x, ld8 (copy_from n m d src s) x = if decide (d <= x < d + Z.of_nat n) then src (s + (x - d)) mod 256 else ld8 m x)
  /\ forall p, page p -> p <= d -> d + Z.of_nat n <= p + 4096 -> same_except m (copy_from n m d src s) [p].
Proof.
  induction n as [|n IH]; intros m d src s; cbn [copy_from].
  - split; [|done]. intros x. rewrite decide_False by lia. done.
  - destruct (IH (st8 m d (src s)) (d + 1) src (s + 1)) as [H1 H2]. split.
    + intros x. rewrite H1, ld8_st8. repeat case_decide; subst; try lia; f_equal; f_equal; lia.
    + intros p Hp Hd Hn. eapply same_except_trans; [apply (st8_same m d (src s) p), in_page; [done|lia]|]. apply H2; [done|lia|lia].
Qed.

Lemma set_phys_spec n : forall m d c,
  (forall x, ld8 (set_phys n m d c) x = if decide (d <= x < d + Z.of_nat n) then c mod 256 else ld8 m x)
  /\ forall p, page p -> p <= d -> d + Z.of_nat n <= p + 4096 -> same_except m (set_phys n m d c) [p].
Proof.
  induction n as [|n IH]; intros m d c; cbn [set_phys].
  - split; [|done]. intros x. rewrite decide_False by lia. done.
  - destruct (IH (st8 m d c) (d + 1) c) as [H1 H2]. split.
    + intros x. rewrite H1, ld8_st8. repeat case_decide; subst; try lia; done.
    + intros p Hp Hd Hn. eapply same_except_trans; [apply (st8_same m d c p), in_page; [done|lia]|]. apply H2; [done|lia|lia].
Qed.

(** A copy from elsewhere. *)
Lemma copy_phys_spec n : forall m d s, d + Z.of_nat n <= s \/ s + Z.of_nat n <= d ->
  forall x, ld8 (copy_phys n m d s) x = if decide (d <= x < d + Z.of_nat n) then ld8 m (s + (x - d)) else ld8 m x.
Proof.
  induction n as [|n IH]; intros m d s Hds x; cbn [copy_phys].
  - rewrite decide_False by lia. done.
  - rewrite (IH (st8 m d (ld8 m s)) (d + 1) (s + 1) ltac:(lia)). pose proof (ld8_range m s) as Hr. rewrite !ld8_st8.
    repeat case_decide; subst; try lia; [f_equal; lia|]. rewrite Z.mod_small by done. f_equal. lia.
Qed.

Lemma copy_phys_same n : forall m d s p, page p -> p <= d -> d + Z.of_nat n <= p + 4096 -> same_except m (copy_phys n m d s) [p].
Proof.
  induction n as [|n IH]; intros m d s p Hp Hd Hn; cbn [copy_phys]; [done|].
  eapply same_except_trans; [apply (st8_same m d (ld8 m s) p), in_page; [done|lia]|]. apply IH; [done|lia|lia].
Qed.

#[local] Opaque set_phys copy_phys copy_from Z.to_nat.

(** ** The bytes of an address space *)

Definition view (m : gmap Z Z) (t : vtree) (va : Z) : option Z :=
  match t_pg t !! vpn va with Some a => Some (ld8 m (a + va mod 4096)) | None => None end.

Lemma page_byte a va : page a -> slab_of (word_of (a + va mod 4096)) = a /\ slab_of (a + va mod 4096) = a.
Proof.
  intros Ha. rewrite word_page. assert (slab_of (a + va mod 4096) = a); [|done]. apply slab_of_in; [done|]. unfold PAGE_SIZE.
  apply Z.mod_pos_bound. lia.
Qed.

Lemma vpn_u64 va : vpn (u64 va) = vpn va.
Proof. unfold vpn, u64, NPAGES. change (2 ^ 18) with 262144. Z.to_euclidean_division_equations. lia. Qed.

Lemma vpn_low va : 0 <= va < 2 ^ 30 -> vpn va = va / 4096.
Proof.
  intros Hv. unfold vpn. apply Z.mod_small. unfold NPAGES. change (2 ^ 18) with 262144. change (2 ^ 30) with 1073741824 in Hv.
  Z.to_euclidean_division_equations. lia.
Qed.

(** The page numbers of [n] pages from [va] on. *)
Fixpoint vpns (va : Z) (n : nat) : list Z :=
  match n with
  | O => []
  | S n => vpn va :: vpns (u64 (va + PAGE_SIZE)) n
  end.

Lemma elem_of_vpns n : forall va v, 0 <= va -> va mod 4096 = 0 -> va + 4096 * Z.of_nat n <= 2 ^ 30 ->
  v ∈ vpns va n <-> va / 4096 <= v < va / 4096 + Z.of_nat n.
Proof.
  change (2 ^ 30) with 1073741824. induction n as [|n IH]; intros va v Hva Hm Hn; cbn [vpns].
  - rewrite elem_of_nil. lia.
  - rewrite elem_of_cons, vpn_low by (change (2 ^ 30) with 1073741824; lia). unfold u64, PAGE_SIZE. rewrite Z.mod_small by lia.
    rewrite IH by (Z.to_euclidean_division_equations; lia).
    replace ((va + 4096) / 4096) with (va / 4096 + 1) by (Z.to_euclidean_division_equations; lia). lia.
Qed.

Lemma vpns_nodup n : forall va, 0 <= va -> va mod 4096 = 0 -> va + 4096 * Z.of_nat n <= 2 ^ 30 -> NoDup (vpns va n).
Proof.
  change (2 ^ 30) with 1073741824. induction n as [|n IH]; intros va Hva Hm Hn; cbn [vpns]; [constructor|].
  unfold u64, PAGE_SIZE. rewrite Z.mod_small by lia. constructor; [|apply IH; Z.to_euclidean_division_equations; lia].
  rewrite elem_of_vpns by (change (2 ^ 30) with 1073741824; Z.to_euclidean_division_equations; lia).
  rewrite vpn_low by (change (2 ^ 30) with 1073741824; lia). Z.to_euclidean_division_equations. lia.
Qed.

Section Space.
Context {BT : BootTables} (K : ktab) (m0 : gmap Z Z) (Hlay : boot_layout) (Hbm : boot_map K m0).
Notation world := (world K m0).

Lemma pg_page k vs g h vm t v a : world k vs g -> vs !! h = Some vm -> g_tree g !! h = Some t -> t_pg t !! v = Some a -> frame a.
Proof. intros W Hv Ht Ha. eapply (owned_frame (w_tree_eq K m0 W h vm t Hv Ht)). by eapply pg_owned. Qed.

Lemma view_keeps k vs g h vm t t' m' : world k vs g -> vs !! h = Some vm -> g_tree g !! h = Some t -> keeps t (mem (pm k)) m' ->
  forall va, t_pg t' !! vpn va = t_pg t !! vpn va -> view m' t' va = view (mem (pm k)) t va.
Proof.
  intros W Hv Ht Hk va E. unfold view. rewrite E. destruct (t_pg t !! vpn va) as [a|] eqn:Ea; [|done].
  f_equal. apply ld8_load. eapply Hk; [exact Ea|]. apply page_byte, (pg_page _ _ _ _ _ _ _ _ W Hv Ht Ea).
Qed.

Lemma spares_view k vs g h vm t k' g' : world k vs g -> vs !! h = Some vm -> g_tree g !! h = Some t -> spares h k g k' g' ->
  g_tree g' !! h = Some t /\ forall va, view (mem (pm k')) t va = view (mem (pm k)) t va.
Proof.
  intros W Hv Ht [S1 S2 S3]. split; [congruence|]. intros va. unfold view. destruct (t_pg t !! vpn va) as [a|] eqn:Ea; [|done].
  f_equal. apply ld8_load, S2. destruct (page_byte a va (proj1 (pg_page _ _ _ _ _ _ _ _ W Hv Ht Ea))) as [-> _].
  eapply (w_owned K m0 W); [done|done|by eapply pg_owned].
Qed.

(** ** [vmap_alloc_pages] *)

Definition zero_fill (zero : bool) (p : Z) (m : gmap Z Z) : gmap Z Z := if zero then set_phys (Z.to_nat PAGE_SIZE) m p 0 else m.

Lemma zero_fill_local zero : local_fill (zero_fill zero).
Proof. intros p m Hp. destruct zero; [|done]. apply set_phys_spec; [done|lia|]. unfold PAGE_SIZE. lia. Qed.

Lemma alloc_pages_S n st vm va zero : vmap_alloc_pages (S n) st vm va zero =
  let '(r, st) := put_page st vm va (zero_fill zero) in if r <? 0 then (-1, st) else vmap_alloc_pages n st vm (u64 (va + PAGE_SIZE)) zero.
Proof.
  cbn [vmap_alloc_pages]. unfold put_page. destruct (pmm_alloc st) as [p st1]. destruct (p =? 0); [done|].
  assert ((if zero then st1 <| mem := set_phys (Z.to_nat PAGE_SIZE) (mem st1) p 0 |> else st1) = st1 <| mem := zero_fill zero p (mem st1) |>) as ->
    by (destruct zero; [reflexivity|destruct st1; reflexivity]).
  destruct (mmu_vmap_map_user_4k _ vm va p) as [r st2]. by destruct (r <? 0).
Qed.

Lemma ld8_zero_page p m a : page p -> slab_of a = p -> ld8 (zero_page p m) a = 0.
Proof.
  intros Hp Ha. unfold ld8. assert (load (zero_page p m) (word_of a) = 0) as ->; [|by rewrite Z.shiftr_0_l].
  rewrite slab_of_mod in Ha. unfold PAGE_SIZE in Ha. destruct Hp as [Hp0 Hp]. unfold PAGE_SIZE in Hp.
  assert (word_of a = p + 8 * ((a - p) / 8)) as ->; [unfold word_of|apply zero_page_zero]; Z.to_euclidean_division_equations; lia.
Qed.

Lemma zero_fill_zero zero p m a : page p -> slab_of a = p -> ld8 (zero_fill zero p (zero_page p m)) a = 0.
Proof.
  intros Hp Ha. destruct zero; cbn; [|by apply ld8_zero_page]. rewrite (proj1 (set_phys_spec (Z.to_nat PAGE_SIZE) (zero_page p m) p 0)).
  case_decide; [done|]. by apply ld8_zero_page.
Qed.

Lemma put_view k vs g h vm t va fill_ st' g' t' p : world k vs g -> vs !! h = Some vm -> g_tree g !! h = Some t ->
  put_ok h k g t va fill_ st' g' t' p -> frame p /\ forall x, view (mem st') t' x =
    if decide (vpn x = vpn va) then Some (ld8 (fill_ p (zero_page p (mem (pm k)))) (p + x mod 4096)) else view (mem (pm k)) t x.
Proof.
  intros W Hv Ht [Pf Pg Pd Pk _]. pose proof (w_frame K m0 _ _ _ W _ _ Pf) as Hp. split; [exact Hp|]. intros x. case_decide as E.
  - unfold view. rewrite Pg, E, lookup_insert_eq. f_equal. apply ld8_load, Pd, page_byte, Hp.
  - eapply view_keeps; [exact W|exact Hv|exact Ht|exact Pk|]. rewrite Pg. apply lookup_insert_ne. congruence.
Qed.

Section Alloc.
Context {vs : gmap Z vm_map} {h : Z} {vm : vm_map} (Hv : vs !! h = Some vm).

Lemma alloc_pages_spec zero n : forall k g t va, world k vs g -> g_tree g !! h = Some t ->
  exists r st' g' t' j, vmap_alloc_pages n (pm k) vm va zero = (r, st') /\ world (k <| pm := st' |>) vs g'
  /\ moves h k g (k <| pm := st' |>) g' /\ g_tree g' !! h = Some t'
  /\ (r = 0 /\ j = n \/ r = -1 /\ (j < n)%nat /\ (length (g_pl g') <= 1)%nat)
  /\ (forall x, view (mem st') t' x = if decide (vpn x ∈ vpns va j) then Some 0 else view (mem (pm k)) t x)
  /\ ((forall v, v ∈ vpns va j -> t_pg t !! v = None) -> NoDup (vpns va j) -> no_loss g g').
Proof.
  induction n as [|n IH]; intros k g t va W Ht.
  { exists 0, (pm k), g, t, O. rewrite <- km_same. split_and!; [done|exact W|apply moves_refl|exact Ht|by left| |intros _ _ q; reflexivity].
    intros x. by rewrite decide_False by apply not_elem_of_nil. }
  rewrite alloc_pages_S.
  destruct (put_page_spec K m0 Hbm W Hv Ht va (zero_fill zero) (zero_fill_local zero))
    as [(st1 & g1 & -> & W1 & M1 & Ht1 & Hl & Hn & Hk)|(st1 & g1 & t1 & p & -> & W1 & M1 & Ht1 & Hok)].
  - exists (-1), st1, g1, t, O. split; [done|]. split; [exact W1|]. split; [exact M1|]. split; [exact Ht1|]. split; [right; lia|].
    split; [|by intros _ _]. intros x. rewrite decide_False by apply not_elem_of_nil. by eapply view_keeps.
  - destruct (IH _ _ _ (u64 (va + PAGE_SIZE)) W1 Ht1) as (r & st2 & g2 & t2 & j & E & W2 & M2 & Ht2 & Hr & Hview & Hnl).
    destruct (put_view _ _ _ _ _ _ _ _ _ _ _ _ W Hv Ht Hok) as [Hp Hv1].
    change (pm (k <| pm := st1 |>)) with st1 in *. cbn [Z.ltb Z.compare].
    exists r, st2, g2, t2, (S j). split; [exact E|]. split; [exact W2|]. split; [by eapply moves_trans|]. split; [exact Ht2|].
    split; [destruct Hr as [[-> ->]|(-> & ? & ?)]; [by left|right; lia]|]. split.
    + intros x. rewrite Hview, Hv1, zero_fill_zero; [|apply Hp|apply page_byte, Hp]. cbn [vpns].
      repeat case_decide; try reflexivity; exfalso; rewrite elem_of_cons in *; tauto.
    + cbn [vpns]. intros Hnone Hnd%NoDup_cons. destruct Hnd as [Hni Hnd]. intros q.
      rewrite (Hnl ltac:(intros v Hin; rewrite (pk_pg _ _ _ _ _ _ _ _ _ _ Hok), lookup_insert_ne; [apply Hnone; by right|by intros <-]) Hnd q).
      apply (pk_loss _ _ _ _ _ _ _ _ _ _ Hok). apply Hnone. left.
Qed.

(** ** [vmap_copyin] *)

(** [len] bytes from [va] on. *)
Definition in_range (va len x : Z) : Prop := va <= x < va + len.
#[local] Instance in_range_dec va len x : Decision (in_range va len x).
Proof. unfold in_range. apply _. Defined.

Lemma same_page va x : 0 <= va < 2 ^ 30 -> 0 <= x < 2 ^ 30 -> vpn x = vpn va -> x - x mod 4096 = va - va mod 4096.
Proof. intros H1 H2. rewrite !vpn_low by done. Z.to_euclidean_division_equations. lia. Qed.


(** Bytes [n] from [va] on change, all in one page. *)
Lemma chunk_view k g t m' va a src n : world k vs g -> g_tree g !! h = Some t -> t_pg t !! vpn va = Some a ->
  0 <= va -> 0 <= n -> va mod 4096 + n <= 4096 -> va + n <= 2 ^ 30 -> va < 2 ^ 30 ->
  (forall y, ld8 m' y = if decide (a + va mod 4096 <= y < a + va mod 4096 + n) then src (y - (a + va mod 4096)) else ld8 (mem (pm k)) y) ->
  forall x, 0 <= x < 2 ^ 30 -> view m' t x = if decide (in_range va n x) then Some (src (x - va)) else view (mem (pm k)) t x.
Proof.
  intros W Ht Ea Hva Hn Hnp Hlim Hlt C1 x Hx. pose proof (w_tree_eq K m0 W h vm t Hv Ht) as Htr. pose proof (pg_page _ _ _ _ _ _ _ _ W Hv Ht Ea) as [Ha _].
  pose proof (Z.mod_pos_bound va 4096 ltac:(lia)) as Hmod. unfold view. destruct (decide (vpn x = vpn va)) as [E|Hne].
  - pose proof (same_page va x ltac:(lia) Hx E) as Ep. rewrite E, Ea, C1. unfold in_range.
    case_decide; case_decide; try lia; [|done]. f_equal. f_equal. lia.
  - rewrite decide_False.
    + destruct (t_pg t !! vpn x) as [b|] eqn:Eb; [|done]. pose proof (pg_page _ _ _ _ _ _ _ _ W Hv Ht Eb) as [Hb _]. f_equal. rewrite C1, decide_False; [done|].
      intros Hr. apply Hne. assert (Hab : a = b); [|subst b; by eapply (pg_inj Htr)].
      rewrite <- (in_page a (b + x mod 4096)); [|done|lia]. by apply page_byte.
    + intros [H1 H2]. apply Hne. rewrite !vpn_low by lia. Z.to_euclidean_division_equations. lia.
Qed.

(** A chunk within one page. *)
Lemma copy_chunk k g t va src s n : world k vs g -> g_tree g !! h = Some t -> 0 <= va -> 0 < n -> va mod 4096 + n <= 4096 -> va + n <= 2 ^ 30 ->
  match t_pg t !! vpn va with
  | None => mmu_vmap_user_va_to_kva (pm k) vm va = 0
  | Some a =>
      let kva := mmu_vmap_user_va_to_kva (pm k) vm va in let m' := copy_from (Z.to_nat n) (mem (pm k)) kva src s in
      kva <> 0 /\ exists g', world (k <| pm := (pm k) <| mem := m' |> |>) vs g' /\ moves h k g (k <| pm := (pm k) <| mem := m' |> |>) g'
        /\ g_tree g' !! h = Some t /\ no_loss g g' /\ g_pl g' = g_pl g
        /\ forall x, 0 <= x < 2 ^ 30 -> view m' t x = if decide (in_range va n x) then Some (src (s + (x - va)) mod 256) else view (mem (pm k)) t x
  end.
Proof.
  intros W Ht Hva Hn Hnp Hlim. pose proof (w_tree_eq K m0 W h vm t Hv Ht) as Htr. rewrite (kva_tree (bm_ok _ _ Hbm) Htr).
  destruct (t_pg t !! vpn va) as [a|] eqn:Ea; [|done]. pose proof (pg_page _ _ _ _ _ _ _ _ W Hv Ht Ea) as [Ha _].
  pose proof (Z.mod_pos_bound va 4096 ltac:(lia)) as Hmod. split; [destruct Ha; lia|].
  destruct (copy_from_spec (Z.to_nat n) (mem (pm k)) (a + va mod 4096) src s) as [C1 C2].
  destruct (write_world K m0 W Hv Ht (vpn va) a _ Ea (C2 a Ha ltac:(lia) ltac:(lia))) as (g' & W' & M' & Ht' & Hnl & Hpl).
  exists g'. do 5 (split; [assumption|]). apply (chunk_view k g t _ va a (fun i => src (s + i) mod 256) n W Ht Ea); try lia.
  intros y. rewrite C1, Z2Nat.id by lia. done.
Qed.

Lemma copyin_loop_spec f : forall k g t va src s len, world k vs g -> g_tree g !! h = Some t -> 0 <= va -> 0 <= len ->
  va + len <= 2 ^ 30 -> len < Z.of_nat f ->
  exists r st' g' c, vmap_copyin_loop f (pm k) vm va src s len = (r, st') /\ world (k <| pm := st' |>) vs g'
  /\ moves h k g (k <| pm := st' |>) g' /\ g_tree g' !! h = Some t /\ no_loss g g' /\ g_pl g' = g_pl g
  /\ (r = 0 /\ c = len \/ r = -1 /\ 0 <= c < len /\ view (mem (pm k)) t (va + c) = None)
  /\ forall x, 0 <= x < 2 ^ 30 -> view (mem st') t x = if decide (in_range va c x) then Some (src (s + (x - va)) mod 256) else view (mem (pm k)) t x.
Proof.
  induction f as [|f IH]; intros k g t va src s len W Ht Hva Hlen Hlim Hf; [lia|]. cbn [vmap_copyin_loop].
  destruct (len >? 0) eqn:E0; [apply Z.gtb_lt in E0|rewrite Z.gtb_ltb in E0; apply Z.ltb_ge in E0].
  2:{ exists 0, (pm k), g, 0. rewrite <- km_same. split_and!; [done|exact W|apply moves_refl|exact Ht|intros q; reflexivity|done|left; lia|].
      intros x Hx. rewrite decide_False by (unfold in_range; lia). done. }
  change (Z.land va PAGE_MASK) with (Z.land va (Z.ones 12)). rewrite Z.land_ones by lia. change (2 ^ 12) with 4096.
  pose proof (Z.mod_pos_bound va 4096 ltac:(lia)) as Hmod. unfold PAGE_SIZE.
  set (n := if len <? 4096 - va mod 4096 then len else 4096 - va mod 4096).
  assert (Hn : 0 < n <= len /\ va mod 4096 + n <= 4096) by (unfold n; destruct (len <? _) eqn:E; [apply Z.ltb_lt in E|apply Z.ltb_ge in E]; lia).
  clearbody n. pose proof (copy_chunk k g t va src s n W Ht Hva ltac:(lia) ltac:(lia) ltac:(lia)) as Hc.
  destruct (t_pg t !! vpn va) as [a|] eqn:Ea.
  2:{ rewrite Hc. exists (-1), (pm k), g, 0. rewrite <- km_same. split_and!; [done|exact W|apply moves_refl|exact Ht|intros q; reflexivity|done| |].
      - right. split_and!; [done|lia|lia|]. unfold view. by rewrite Z.add_0_r, Ea.
      - intros x Hx. rewrite decide_False by (unfold in_range; lia). done. }
  cbn zeta in Hc. set (kva := mmu_vmap_user_va_to_kva (pm k) vm va) in *. destruct Hc as (Hkva & g1 & W1 & M1 & Ht1 & Hnl1 & Hpl1 & Hv1).
  rewrite (proj2 (Z.eqb_neq _ _) Hkva). set (st1 := (pm k) <| mem := copy_from (Z.to_nat n) (mem (pm k)) kva src s |>) in *.
  assert (u64 (va + n) = va + n) as -> by (apply Z.mod_small; lia).
  destruct (IH _ _ _ (va + n) src (s + n) (len - n) W1 Ht1 ltac:(lia) ltac:(lia) ltac:(lia) ltac:(lia)) as (r & st2 & g2 & c & E & W2 & M2 & Ht2 & Hnl2 & Hpl2 & Hr & Hv2).
  change (pm (k <| pm := st1 |>)) with st1 in *. change (mem st1) with (copy_from (Z.to_nat n) (mem (pm k)) kva src s) in *.
  assert (Hc0 : 0 <= c <= len - n) by (destruct Hr as [[_ ->]|(_ & ? & _)]; lia).
  exists r, st2, g2, (n + c). split; [exact E|]. split; [exact W2|]. split; [by eapply moves_trans|]. split; [exact Ht2|].
  split; [intros q; by rewrite (Hnl2 q)|]. split; [congruence|]. split.
  - destruct Hr as [[-> ->]|(-> & Hcr & Hnone)]; [left; lia|right]. split_and!; [done|lia|lia|]. rewrite Z.add_assoc. rewrite Hv1 in Hnone by lia.
    rewrite decide_False in Hnone by (unfold in_range; lia). exact Hnone.
  - intros x Hx. rewrite Hv2, Hv1 by done. unfold in_range. repeat case_decide; try lia; first [reflexivity|f_equal; f_equal; f_equal; lia].
Qed.

Lemma copyin_spec k g t va src len : world k vs g -> g_tree g !! h = Some t -> 0 <= va -> 0 <= len -> va + len <= 2 ^ 30 ->
  exists r st' g' c, vmap_copyin (pm k) vm va src len = (r, st') /\ world (k <| pm := st' |>) vs g'
  /\ moves h k g (k <| pm := st' |>) g' /\ g_tree g' !! h = Some t /\ no_loss g g' /\ g_pl g' = g_pl g
  /\ (r = 0 /\ c = len \/ r = -1 /\ 0 <= c < len /\ view (mem (pm k)) t (va + c) = None)
  /\ forall x, 0 <= x < 2 ^ 30 -> view (mem st') t x = if decide (in_range va c x) then Some (src (x - va) mod 256) else view (mem (pm k)) t x.
Proof. intros W Ht Hva Hlen Hlim. apply (copyin_loop_spec _ k g t va src 0 len W Ht Hva Hlen Hlim). lia. Qed.

(** ** Unmapping a range *)

Lemma unmap_range_spec n : forall k g t va, world k vs g -> g_tree g !! h = Some t ->
  let st' := unmap_range n (pm k) vm va in
  exists g' t', world (k <| pm := st' |>) vs g' /\ moves h k g (k <| pm := st' |>) g' /\ g_tree g' !! h = Some t' /\ no_loss g g'
  /\ (forall v, t_pg t' !! v = if decide (v ∈ vpns va n) then None else t_pg t !! v)
  /\ (forall x, view (mem st') t' x = if decide (vpn x ∈ vpns va n) then None else view (mem (pm k)) t x).
Proof.
  induction n as [|n IH]; intros k g t va W Ht; cbn [unmap_range vpns].
  { exists g, t. rewrite <- km_same. split_and!; [exact W|apply moves_refl|exact Ht|intros q; reflexivity| |];
      intros x; by rewrite decide_False by apply not_elem_of_nil. }
  destruct (unmap_world K m0 Hbm W Hv Ht va) as (st1 & g1 & t1 & E & W1 & M1 & Ht1 & Epg & Hnl & Hk & _). rewrite E. cbn [snd].
  destruct (IH _ _ _ (u64 (va + PAGE_SIZE)) W1 Ht1) as (g2 & t2 & W2 & M2 & Ht2 & Hnl2 & Hpg & Hvw).
  change (pm (k <| pm := st1 |>)) with st1 in *. exists g2, t2. split; [exact W2|]. split; [by eapply moves_trans|]. split; [exact Ht2|].
  split; [intros q; by rewrite (Hnl2 q)|].
  assert (Hpg' : forall v, t_pg t2 !! v = if decide (v ∈ vpn va :: vpns (u64 (va + PAGE_SIZE)) n) then None else t_pg t !! v).
  { intros v. rewrite Hpg, Epg. destruct (decide (v = vpn va)) as [->|Hne]; [rewrite lookup_delete_eq|rewrite lookup_delete_ne by done];
      repeat case_decide; try reflexivity; exfalso; rewrite elem_of_cons in *; tauto. }
  split; [exact Hpg'|]. intros x. rewrite Hvw. unfold view. rewrite Epg.
  destruct (decide (vpn x = vpn va)) as [->|Hne]; [rewrite lookup_delete_eq|rewrite lookup_delete_ne by done];
    repeat case_decide; try reflexivity; try (exfalso; rewrite elem_of_cons in *; tauto).
  destruct (t_pg t !! vpn x) as [a|] eqn:Ea; [|done]. f_equal. apply ld8_load. eapply Hk; [rewrite Epg, lookup_delete_ne; [exact Ea|done]|].
  apply page_byte, (pg_page _ _ _ _ _ _ _ _ W Hv Ht Ea).
Qed.

End Alloc.

(** ** Copying an address space *)

Section Clone.
Context {vs : gmap Z vm_map} {c hp : Z} {cvm pvm : vm_map} (Hc : vs !! c = Some cvm) (Hp : vs !! hp = Some pvm) (Hne : hp <> c).

Definition copy_fill (src p : Z) (m : gmap Z Z) : gmap Z Z := copy_phys (Z.to_nat PAGE_SIZE) m p src.

Lemma copy_fill_local src : local_fill (copy_fill src).
Proof. intros p m Hpp. apply copy_phys_same; [done|lia|]. unfold PAGE_SIZE. lia. Qed.

Lemma clone_S n st va : fork_clone_pages (S n) st cvm pvm va =
  let src := mmu_vmap_user_va_to_kva st pvm va in
  if src =? 0 then fork_clone_pages n st cvm pvm (u64 (va + PAGE_SIZE))
  else let '(r, st) := put_page st cvm va (copy_fill src) in
       if r <? 0 then (-1, st) else fork_clone_pages n st cvm pvm (u64 (va + PAGE_SIZE)).
Proof.
  cbn [fork_clone_pages]. unfold put_page. destruct (_ =? 0); [done|]. destruct (pmm_alloc st) as [p st1]. destruct (p =? 0); [done|].
  fold (copy_fill (mmu_vmap_user_va_to_kva st pvm va) p (mem st1)).
  destruct (mmu_vmap_map_user_4k _ cvm va p) as [r st2]. by destruct (r <? 0).
Qed.

Lemma copy_fill_data a p m x : page a -> page p -> a <> p -> ld8 (copy_fill a p (zero_page p m)) (p + x mod 4096) = ld8 m (a + x mod 4096).
Proof.
  intros Ha Hpp Hap. pose proof (Z.mod_pos_bound x 4096 ltac:(lia)) as Hm. unfold copy_fill. rewrite copy_phys_spec.
  - rewrite decide_True by (unfold PAGE_SIZE; lia). replace (a + (p + x mod 4096 - p)) with (a + x mod 4096) by lia.
    apply ld8_load, zero_page_other; [done|]. rewrite (proj1 (page_byte a x Ha)). done.
  - destruct Ha as [? Ha], Hpp as [? Hpp]. unfold PAGE_SIZE in *. Z.to_euclidean_division_equations. lia.
Qed.

Definition either (a b : option Z) : option Z := match a with Some x => Some x | None => b end.

Lemma clone_pages_spec tp n : forall k g t va, world k vs g -> g_tree g !! c = Some t -> g_tree g !! hp = Some tp -> va mod 4096 = 0 ->
  exists r st' g' t' j, fork_clone_pages n (pm k) cvm pvm va = (r, st') /\ world (k <| pm := st' |>) vs g'
  /\ moves c k g (k <| pm := st' |>) g' /\ g_tree g' !! c = Some t'
  /\ (r = 0 /\ j = n \/ r = -1 /\ (j < n)%nat /\ (length (g_pl g') <= 1)%nat)
  /\ (forall x, view (mem st') t' x = if decide (vpn x ∈ vpns va j) then either (view (mem (pm k)) tp x) (view (mem (pm k)) t x) else view (mem (pm k)) t x)
  /\ (forall v, is_Some (t_pg t' !! v) -> is_Some (t_pg t !! v) \/ v ∈ vpns va j)
  /\ ((forall v, v ∈ vpns va j -> t_pg t !! v = None) -> NoDup (vpns va j) -> no_loss g g').
Proof.
  induction n as [|n IH]; intros k g t va W Ht Htp Hva.
  { exists 0, (pm k), g, t, O. rewrite <- km_same. split_and!; [done|exact W|apply moves_refl|exact Ht|by left| |by left|intros _ _ q; reflexivity].
    intros x. by rewrite decide_False by apply not_elem_of_nil. }
  rewrite clone_S. cbn zeta. pose proof (w_tree_eq K m0 W hp pvm tp Hp Htp) as Htrp. rewrite (kva_tree (bm_ok _ _ Hbm) Htrp), Hva.
  assert (Hva' : u64 (va + PAGE_SIZE) mod 4096 = 0) by (unfold u64, PAGE_SIZE; Z.to_euclidean_division_equations; lia).
  destruct (t_pg tp !! vpn va) as [a|] eqn:Ea.
  2:{ rewrite Z.eqb_refl. destruct (IH k g t _ W Ht Htp Hva') as (r & st2 & g2 & t2 & j & E & W2 & M2 & Ht2 & Hr & Hvw & Hdom & Hnl).
      exists r, st2, g2, t2, (S j). split; [exact E|]. split; [exact W2|]. split; [exact M2|]. split; [exact Ht2|].
      split; [destruct Hr as [[-> ->]|(-> & ? & ?)]; [by left|right; lia]|]. cbn [vpns]. split_and!.
      - intros x. rewrite Hvw. repeat case_decide; try reflexivity; try (exfalso; rewrite elem_of_cons in *; tauto).
        rewrite elem_of_cons in *. assert (vpn x = vpn va) as Ex by tauto.
        assert (view (mem (pm k)) tp x = None) as -> by (unfold view; by rewrite Ex, Ea). reflexivity.
      - intros v [H|H]%Hdom; [by left|]. right. by right.
      - intros Hnone Hnd%NoDup_cons. apply Hnl; [|tauto]. intros v H. apply Hnone. by right. }
  pose proof (pg_page _ _ _ _ _ _ _ _ W Hp Htp Ea) as [Ha _]. rewrite Z.add_0_r.
  rewrite (proj2 (Z.eqb_neq a 0)) by (destruct Ha; lia).
  destruct (put_page_spec K m0 Hbm W Hc Ht va (copy_fill a) (copy_fill_local a))
    as [(st1 & g1 & -> & W1 & M1 & Ht1 & Hl & Hn & Hk)|(st1 & g1 & t1 & p & -> & W1 & M1 & Ht1 & Hok)].
  - exists (-1), st1, g1, t, O. split; [done|]. split; [exact W1|]. split; [exact M1|]. split; [exact Ht1|]. split; [right; lia|].
    split; [|split; [by left|by intros _ _]]. intros x. rewrite decide_False by apply not_elem_of_nil.
    apply (view_keeps _ _ _ _ _ _ _ _ W Hc Ht Hk). reflexivity.
  - destruct (spares_view _ _ _ _ _ _ _ _ W Hp Htp (moves_spares _ hp _ _ _ _ M1 Hne)) as [Htp1 Hvp1].
    destruct (IH _ _ _ _ W1 Ht1 Htp1 Hva') as (r & st2 & g2 & t2 & j & E & W2 & M2 & Ht2 & Hr & Hvw & Hdom & Hnl).
    destruct (put_view _ _ _ _ _ _ _ _ _ _ _ _ W Hc Ht Hok) as [Hpf Hv1].
    change (pm (k <| pm := st1 |>)) with st1 in *. cbn [Z.ltb Z.compare].
    exists r, st2, g2, t2, (S j). split; [exact E|]. split; [exact W2|]. split; [by eapply moves_trans|]. split; [exact Ht2|].
    split; [destruct Hr as [[-> ->]|(-> & ? & ?)]; [by left|right; lia]|].
    assert (Hap : a <> p).
    { intros ->. pose proof (pk_free _ _ _ _ _ _ _ _ _ _ Hok) as Hf. rewrite (w_owned K m0 W hp pvm tp p Hp Htp) in Hf by (by eapply pg_owned). done. }
    assert (Hone : forall x, vpn x = vpn va -> view (mem st1) t1 x = view (mem (pm k)) tp x).
    { intros x Ex. rewrite Hv1, decide_True, copy_fill_data by (done || apply Hpf). unfold view. by rewrite Ex, Ea. }
    cbn [vpns]. split_and!.
    + intros x. rewrite Hvw, Hvp1. destruct (decide (vpn x = vpn va)) as [Ex|Hnx].
      * rewrite (Hone x Ex). assert (is_Some (view (mem (pm k)) tp x)) as [b ->] by (unfold view; rewrite Ex, Ea; done).
        cbn [either]. repeat case_decide; try reflexivity; exfalso; rewrite elem_of_cons in *; tauto.
      * rewrite Hv1. repeat case_decide; try reflexivity; exfalso; rewrite ?elem_of_cons in *; tauto.
    + intros v [H|H]%Hdom; [|right; by right]. rewrite (pk_pg _ _ _ _ _ _ _ _ _ _ Hok), lookup_insert_is_Some in H.
      destruct H as [<-|[_ H]]; [right; left|by left].
    + intros Hnone Hnd%NoDup_cons. destruct Hnd as [Hni Hnd]. intros q.
      rewrite (Hnl ltac:(intros v Hin; rewrite (pk_pg _ _ _ _ _ _ _ _ _ _ Hok), lookup_insert_ne; [apply Hnone; by right|by intros <-]) Hnd q).
      apply (pk_loss _ _ _ _ _ _ _ _ _ _ Hok). apply Hnone. left.
Qed.

End Clone.
End Space.
End VmView.
