(* ===== verification/VmSys.v ===== *)
(** * Processes, threads and their memory: the invariant

    Every page has one type (VmInv.v), every block of the kernel's allocator has one
    user, and the reference counts of address spaces and processes are the numbers of
    their processes and threads.  The lemmas show that the operations of Vm.v keep this;
    [xv] and [xp] are the references that a call in progress holds itself. *)

From stdpp Require Import base numbers list gmap.
From Stdlib Require Import ZArith Lia Bool.
From S2P Require Import Prelude Links Kmem Mmu MmuInv MmuLife Vm VmInv VmView.

Module VmSys.
Import Kmem Mmu MmuInv MmuLife Vm VmInv VmView.
#[local] Opaque zero_page copy_entries fill seqZ kmalloc kfree.

(** ** Counting *)

Definition count {A} (f : A -> bool) (m : gmap Z A) : Z := Z.of_nat (size (filter (fun kv => f (snd kv) = true) m)).
Definition one (b : bool) : Z := if b then 1 else 0.

Lemma count_insert {A} (f : A -> bool) m i x : m !! i = None -> count f (<[i := x]> m) = count f m + one (f x).
Proof.
  intros Hn. unfold count, one. destruct (f x) eqn:E.
  - rewrite map_filter_insert_True by done. rewrite map_size_insert_None; [lia|]. apply map_lookup_filter_None. by left.
  - rewrite map_filter_insert_False by (cbn; congruence). rewrite delete_id by done. lia.
Qed.
Lemma count_delete {A} (f : A -> bool) m i x : m !! i = Some x -> count f m = count f (delete i m) + one (f x).
Proof. intros H. rewrite <- (count_insert f _ i x) by apply lookup_delete_eq. by rewrite insert_delete_id. Qed.
Lemma count_update {A} (f : A -> bool) m i x y : m !! i = Some x -> count f (<[i := y]> m) = count f m - one (f x) + one (f y).
Proof.
  intros H. rewrite <- insert_delete_eq, count_insert by apply lookup_delete_eq. rewrite (count_delete f m i x H). lia.
Qed.
Lemma count_nonneg {A} (f : A -> bool) m : 0 <= count f m.
Proof. unfold count. lia. Qed.
Lemma count_zero {A} (f : A -> bool) m : (forall i x, m !! i = Some x -> f x = false) -> count f m = 0.
Proof.
  intros H. unfold count. assert (filter (fun kv : Z * A => f (snd kv) = true) m = ∅) as ->; [|done].
  apply map_empty. intros i. apply map_lookup_filter_None. destruct (m !! i) as [x|] eqn:E; [right|by left].
  intros y [= <-]. cbn. rewrite (H i x E). done.
Qed.
Lemma count_in {A} (f : A -> bool) m i x : m !! i = Some x -> f x = true -> 0 < count f m.
Proof. intros H E. rewrite (count_delete f m i x H), E. pose proof (count_nonneg f (delete i m)). cbn. lia. Qed.

(** ** The invariant *)

(** The users of the kernel's blocks. *)
Inductive use := UVm | UProc | UThread | ULaunch | UKern | USig (t : Z) | UOther.
#[export] Instance use_eq_dec : EqDecision use.
Proof. solve_decision. Defined.

Definition oset (b : Z) (o : option use) (ob : Z -> option use) : Z -> option use := fun x => if decide (x = b) then o else ob x.
Lemma oset_eq b o ob : oset b o ob b = o.
Proof. unfold oset. by rewrite decide_True. Qed.
Lemma oset_ne b o ob x : x <> b -> oset b o ob x = ob x.
Proof. intros. unfold oset. by rewrite decide_False. Qed.

Definition zset (b v : Z) (f : Z -> Z) : Z -> Z := fun x => if decide (x = b) then v else f x.
Lemma zset_eq b v f : zset b v f b = v.
Proof. unfold zset. by rewrite decide_True. Qed.
Lemma zset_ne b v f x : x <> b -> zset b v f x = f x.
Proof. intros. unfold zset. by rewrite decide_False. Qed.

Section Sys.
Context {BT : BootTables} {ST : Statics} (K : ktab) (m0 : gmap Z Z) (Hlay : boot_layout) (Hbm : boot_map K m0).
Context (Hiv : init_vm_map <> 0) (Hip : init_process <> 0).
Notation world := (world K m0).

(** The stack of thread [t], or, for [0], a page of the rest of the kernel. *)
Definition kernel_page (s : vsys) (t p : Z) : Prop :=
  (exists th, threads s !! t = Some th /\ stack_base th = p) \/ t = 0 /\ p ∈ kpages s.

Record sys_inv (s : vsys) (g : ghost) (ob : Z -> option use) (xv xp : Z -> Z) : Prop := mk_sys_inv {
  si_world : world (km s) (delete init_vm_map (vms s)) g;
  si_live : forall b, g_live g b <-> is_Some (ob b);
  si_ovm : forall b, ob b = Some UVm <-> b <> init_vm_map /\ is_Some (vms s !! b);
  si_oproc : forall b, ob b = Some UProc <-> b <> init_process /\ is_Some (procs s !! b);
  si_othread : forall b, ob b = Some UThread <-> is_Some (threads s !! b);
  si_olaunch : forall b, ob b = Some ULaunch <-> is_Some (launch s !! b);
  si_okern : forall b, ob b = Some UKern <-> b ∈ kblocks s;
  si_osig : forall b t, ob b = Some (USig t) <-> b <> 0 /\ exists th, threads s !! t = Some th /\ sig_actions th = b;
  si_stack : forall t p, g_kind g p = Some (Kernel t) <-> kernel_page s t p;
  si_vmref : forall h vm, vms s !! h = Some vm -> h <> init_vm_map -> refs vm = count (fun pr => p_vm pr =? h) (procs s) + xv h /\ 0 < refs vm;
  si_procref : forall p pr, procs s !! p = Some pr -> p <> init_process ->
    p_refs pr = count (fun th => t_proc th =? p) (threads s) + xp p /\ 0 < p_refs pr;
  si_procvm : forall p pr, procs s !! p = Some pr -> is_Some (vms s !! p_vm pr);
  si_thrproc : forall t th, threads s !! t = Some th -> is_Some (procs s !! t_proc th);
  si_init_vm : exists vm, vms s !! init_vm_map = Some vm /\ heap_brk vm = 0 /\ l2_phys vm = 0 /\ l0_phys vm = l0_table;
  si_init_proc : exists pr, procs s !! init_process = Some pr /\ p_vm pr = init_vm_map;
  si_static : g_kind g (slab_of init_vm_map) = None /\ g_kind g (slab_of init_process) = None }.

Section Facts.
Context {s : vsys} {g : ghost} {ob : Z -> option use} {xv xp : Z -> Z} (I : sys_inv s g ob xv xp).

Lemma live_nz b : g_live g b -> b <> 0.
Proof.
  intros Hl. destruct (w_kmem _ _ _ _ _ (si_world _ _ _ _ _ I)) as (fl & sl & Hwf & HA). apply HA in Hl.
  by destruct (live_slab _ _ _ _ _ Hwf Hl).
Qed.
Lemma live_not_static b : g_live g b -> b <> init_vm_map /\ b <> init_process.
Proof.
  intros Hl. pose proof (w_live_slab K m0 (si_world _ _ _ _ _ I) b Hl) as Hk. destruct (si_static _ _ _ _ _ I) as [H1 H2].
  split; intros ->; congruence.
Qed.
Lemma ob_live b u : ob b = Some u -> g_live g b.
Proof. intros H. apply (si_live _ _ _ _ _ I). by rewrite H. Qed.

Lemma vm_nz h vm : vms s !! h = Some vm -> h <> 0.
Proof.
  intros H. destruct (decide (h = init_vm_map)) as [->|Hne]; [done|]. eapply live_nz, ob_live, (si_ovm _ _ _ _ _ I). by rewrite H.
Qed.
Lemma proc_nz p pr : procs s !! p = Some pr -> p <> 0.
Proof.
  intros H. destruct (decide (p = init_process)) as [->|Hne]; [done|]. eapply live_nz, ob_live, (si_oproc _ _ _ _ _ I). by rewrite H.
Qed.

Lemma space_lookup h vm : vms s !! h = Some vm -> h <> init_vm_map -> delete init_vm_map (vms s) !! h = Some vm.
Proof. intros H Hne. by rewrite lookup_delete_ne. Qed.

(** The address space of a running thread. *)
Lemma cur_vm_some t h : cur_vm s t = Some h -> exists vm th pr, vms s !! h = Some vm /\ threads s !! t = Some th
  /\ procs s !! t_proc th = Some pr /\ p_vm pr = h.
Proof.
  unfold cur_vm. destruct (threads s !! t) as [th|] eqn:Et; [|done]. destruct (t_proc th =? 0); [done|].
  destruct (procs s !! t_proc th) as [pr|] eqn:Ep; [|done]. destruct (p_vm pr =? 0); [done|]. intros [= <-].
  destruct (si_procvm _ _ _ _ _ I _ _ Ep) as [vm Hvm]. by exists vm, th, pr.
Qed.

(** A fresh block is the address of nothing yet. *)
Lemma fresh_block_free a : ~ g_live g a -> ob a = None.
Proof. intros Hn. destruct (ob a) as [u|] eqn:E; [|done]. by destruct Hn; eapply ob_live. Qed.

End Facts.

(** Only the pages of one address space and its fields change. *)
Lemma inv_space s g ob xv xp h vm st' g' vm' : sys_inv s g ob xv xp -> vms s !! h = Some vm -> h <> init_vm_map ->
  world ((km s) <| pm := st' |>) (delete init_vm_map (vms s)) g' -> moves h (km s) g ((km s) <| pm := st' |>) g' ->
  same_tables vm vm' -> refs vm' = refs vm -> sys_inv (set_vm (set_pm s st') h vm') g' ob xv xp.
Proof.
  intros [I1 I2 I3 I4 I5 I6 IK I7 I8 I9 I10 I11 I12 I13 I14 I15] Hv Hne W M E Er.
  assert (Hdom : forall x, is_Some (<[h := vm']> (vms s) !! x) <-> is_Some (vms s !! x)).
  { intros x. destruct (decide (x = h)) as [->|]; [rewrite lookup_insert_eq, Hv|by rewrite lookup_insert_ne]. split; eauto. }
  constructor; unfold set_vm, set_pm; cbn [km vms procs threads launch kblocks kpages update]; try assumption.
  - rewrite delete_insert_ne by done. apply (world_vm K m0 _ _ g' h vm vm' W); [by rewrite lookup_delete_ne|done].
  - intros b. by rewrite (mv_live _ _ _ _ _ M).
  - intros b. rewrite I3. by rewrite Hdom.
  - intros t p. rewrite (moves_other _ _ _ _ _ _ _ M) by done. apply I8.
  - intros h' vm1 H1 H2. destruct (decide (h' = h)) as [->|]; [rewrite lookup_insert_eq in H1|rewrite lookup_insert_ne in H1 by done; by apply I9].
    injection H1 as <-. rewrite Er. by apply I9.
  - intros p pr Hp. apply Hdom. by eapply I11.
  - destruct I13 as (vm1 & H1 & H2). exists vm1. by rewrite lookup_insert_ne.
  - pose proof (moves_dom _ _ _ _ _ M) as Hd. destruct I15. split; by apply Hd.
Qed.

(** Only pages and blocks of no type change. *)
Lemma inv_km s g ob xv xp k' g' ob' : sys_inv s g ob xv xp -> world k' (delete init_vm_map (vms s)) g' ->
  (forall b, g_live g' b <-> is_Some (ob' b)) -> (forall b u, u <> UOther -> ob' b = Some u <-> ob b = Some u) ->
  (forall t p, g_kind g' p = Some (Kernel t) <-> g_kind g p = Some (Kernel t)) -> same_dom g g' -> sys_inv (s <| km := k' |>) g' ob' xv xp.
Proof.
  intros [I1 I2 I3 I4 I5 I6 IK I7 I8 I9 I10 I11 I12 I13 I14 I15] W Hl Ho Hs Hd.
  constructor; cbn [km vms procs threads launch kblocks kpages update]; try assumption.
  - intros b. by rewrite Ho.
  - intros b. by rewrite Ho.
  - intros b. by rewrite Ho.
  - intros b. by rewrite Ho.
  - intros b. by rewrite Ho.
  - intros b t. by rewrite Ho.
  - intros t p. by rewrite Hs.
  - destruct I15. split; by apply Hd.
Qed.

Lemma inv_kmalloc s g ob xv xp n : sys_inv s g ob xv xp ->
  kmalloc (km s) n = (0, km s) \/ exists a k' g', kmalloc (km s) n = (a, k') /\ a <> 0 /\ ob a = None
    /\ sys_inv (s <| km := k' |>) g' (oset a (Some UOther) ob) xv xp /\ aside (km s) g k' g'.
Proof.
  intros I. destruct (kmalloc_world K m0 (km s) _ g n (si_world _ _ _ _ _ I)) as [H|(a & k' & g' & E & Ha & Hn & W & A & Hl)]; [by left|right].
  pose proof (fresh_block_free I a Hn) as Hob. exists a, k', g'. do 3 (split; [assumption|]). split; [|exact A].
  apply (inv_km s g ob xv xp k' g' _ I W); [| | |apply A].
  - intros b. rewrite Hl, (si_live _ _ _ _ _ I). destruct (decide (b = a)) as [->|Hne]; [rewrite oset_eq|rewrite oset_ne by done]; [|tauto].
    split; [eauto|by right].
  - intros b u Hu. destruct (decide (b = a)) as [->|Hne]; [rewrite oset_eq, Hob|by rewrite oset_ne]. split; congruence.
  - intros t p. by apply (as_kind _ _ _ _ A).
Qed.

Lemma inv_kfree_kinds s g ob xv xp a : sys_inv s g ob xv xp -> ob a = Some UOther ->
  exists g', sys_inv (s <| km := kfree (km s) a |>) g' (oset a None ob) xv xp /\ aside (km s) g (kfree (km s) a) g' /\ forall q, g_kind g' q = g_kind g q.
Proof.
  intros I Ha. destruct (kfree_world K m0 (km s) _ g a (si_world _ _ _ _ _ I) (ob_live I a _ Ha)) as (g' & W & A & Hl & Hq).
  exists g'. split; [|split; [exact A|exact Hq]]. apply (inv_km s g ob xv xp _ g' _ I W); [| | |apply A].
  - intros b. rewrite Hl, (si_live _ _ _ _ _ I). destruct (decide (b = a)) as [->|Hne]; [rewrite oset_eq|rewrite oset_ne by done]; [|tauto].
    split; [tauto|]. by intros [? ?].
  - intros b u Hu. destruct (decide (b = a)) as [->|Hne]; [rewrite oset_eq, Ha|by rewrite oset_ne]. split; congruence.
  - intros t p. by apply (as_kind _ _ _ _ A).
Qed.

Lemma inv_kfree s g ob xv xp a : sys_inv s g ob xv xp -> ob a = Some UOther ->
  exists g', sys_inv (s <| km := kfree (km s) a |>) g' (oset a None ob) xv xp /\ aside (km s) g (kfree (km s) a) g'.
Proof. intros I Ha. destruct (inv_kfree_kinds s g ob xv xp a I Ha) as (g' & H1 & H2 & _). by exists g'. Qed.

(** ** Address spaces *)

(** A new address space, referenced by the call. *)
Lemma inv_new_vm s g ob xv xp a vm st' g' : sys_inv s g ob xv xp -> ob a = Some UOther -> vms s !! a = None -> refs vm = 1 ->
  world ((km s) <| pm := st' |>) (<[a := vm]> (delete init_vm_map (vms s))) g' -> g_live g' = g_live g -> same_dom g g' ->
  (forall t p, g_kind g' p = Some (Kernel t) <-> g_kind g p = Some (Kernel t)) ->
  sys_inv (set_vm (set_pm s st') a vm) g' (oset a (Some UVm) ob) (zset a 1 xv) xp.
Proof.
  intros I Ha Hn Hr W El Hd Hs. destruct (live_not_static I a (ob_live I a _ Ha)) as [Hni _]. pose proof I as [I1 I2 I3 I4 I5 I6 IK I7 I8 I9 I10 I11 I12 I13 I14 I15].
  assert (Ho : forall b u, u <> UVm -> oset a (Some UVm) ob b = Some u <-> ob b = Some u /\ (b = a -> u <> UOther)).
  { intros b u Hu. destruct (decide (b = a)) as [->|Hne]; [rewrite oset_eq, Ha|rewrite oset_ne by done; tauto]. split; [congruence|].
    intros [H1 H2]. exfalso. apply H2; congruence. }
  assert (Ho' : forall b u, u <> UVm -> u <> UOther -> oset a (Some UVm) ob b = Some u <-> ob b = Some u) by (intros b u N1 N2; rewrite Ho by done; tauto).
  constructor; unfold set_vm, set_pm; cbn [km vms procs threads launch kblocks kpages update]; try assumption.
  - rewrite delete_insert_ne by done. exact W.
  - intros b. rewrite El, I2. destruct (decide (b = a)) as [->|Hne]; [rewrite oset_eq, Ha|by rewrite oset_ne]. split; eauto.
  - intros b. destruct (decide (b = a)) as [->|Hne]; [rewrite oset_eq, lookup_insert_eq; split; [eauto|done]|].
    by rewrite oset_ne, lookup_insert_ne by done.
  - intros b. rewrite Ho' by done. apply I4.
  - intros b. rewrite Ho' by done. apply I5.
  - intros b. rewrite Ho' by done. apply I6.
  - intros b. rewrite Ho' by done. apply IK.
  - intros b t. rewrite Ho' by done. apply I7.
  - intros t p. rewrite Hs. apply I8.
  - intros h vm1 H1 H2. destruct (decide (h = a)) as [->|Hne].
    + rewrite lookup_insert_eq in H1. injection H1 as <-. rewrite zset_eq, Hr, count_zero; [lia|]. intros p pr Hp.
      destruct (I11 p pr Hp) as [vm1 Hv1]. apply Z.eqb_neq. congruence.
    + rewrite lookup_insert_ne in H1 by done. rewrite zset_ne by done. by apply I9.
  - intros p pr Hp. destruct (I11 p pr Hp) as [vm1 Hv1]. rewrite lookup_insert_ne by congruence. by rewrite Hv1.
  - destruct I13 as (vm1 & H1 & H2). exists vm1. by rewrite lookup_insert_ne.
  - destruct I15. split; by apply Hd.
Qed.

(** All address spaces but [hs] are as before. *)
Definition spares_all (hs : list Z) (s : vsys) (g : ghost) (s' : vsys) (g' : ghost) : Prop :=
  (forall h vm, h ∉ hs -> vms s !! h = Some vm -> vms s' !! h = Some vm /\ spares h (km s) g (km s') g') /\ no_loss g g' /\ same_dom g g'.

Lemma spares_all_refl hs s g : spares_all hs s g s g.
Proof. split; [intros; split; [done|apply spares_refl]|]. split; intros p; reflexivity. Qed.
Lemma spares_all_trans hs s1 g1 s2 g2 s3 g3 : spares_all hs s1 g1 s2 g2 -> spares_all hs s2 g2 s3 g3 -> spares_all hs s1 g1 s3 g3.
Proof.
  intros (A1 & A2 & A3) (B1 & B2 & B3). split_and!.
  - intros h vm Hh Hv. destruct (A1 h vm Hh Hv) as [Hv2 H1]. destruct (B1 h vm Hh Hv2) as [Hv3 H2]. split; [done|by eapply spares_trans].
  - intros p. by rewrite (B2 p), (A2 p).
  - intros p. by rewrite (B3 p), (A3 p).
Qed.
Lemma spares_all_weaken hs hs' s g s' g' : hs ⊆ hs' -> spares_all hs s g s' g' -> spares_all hs' s g s' g'.
Proof. intros H (A1 & A2). split; [|done]. intros h vm Hh. apply A1. intros Hin. by apply Hh, H. Qed.
Lemma spares_all_same hs s g s' : km s' = km s -> vms s' = vms s -> spares_all hs s g s' g.
Proof. intros E1 E2. split; [rewrite E1, E2; intros; split; [done|apply spares_refl]|]. split; intros p; reflexivity. Qed.
Lemma aside_all hs s g s' g' : vms s' = vms s -> aside (km s) g (km s') g' -> spares_all hs s g s' g'.
Proof.
  intros E A. split; [intros h vm _ Hv; split; [by rewrite E|by apply aside_spares]|]. split; [intros p; by apply (as_kind _ _ _ _ A)|apply A].
Qed.

Definition fresh_vm : vm_map := zero_vm_map <| refs := 1 |> <| heap_brk := 0 |> <| cwd := [47] |>.

Lemma create_vm_spec s g ob xv xp : sys_inv s g ob xv xp ->
  exists a s' g' ob', vm_map_create s = (a, s') /\ procs s' = procs s /\ threads s' = threads s /\ launch s' = launch s
  /\ spares_all [] s g s' g'
  /\ ((a = 0 /\ vms s' = vms s /\ sys_inv s' g' ob' xv xp)
      \/ (a <> 0 /\ vms s !! a = None /\ a <> init_vm_map /\ sys_inv s' g' ob' (zset a 1 xv) xp /\ g_tree g' !! a = Some (mk_vtree ∅ ∅)
          /\ exists x y z, vms s' = <[a := new_vm fresh_vm x y z]> (vms s))).
Proof.
  intros I. unfold vm_map_create. fold fresh_vm. destruct (inv_kmalloc s g ob xv xp SIZEOF_VM_MAP I) as [->|(a & k1 & g1 & -> & Ha & Hob & I1 & A1)].
  { cbn [Z.eqb]. exists 0, s, g, ob. assert (s <| km := km s |> = s) as -> by (by destruct s). split_and!; try reflexivity; [apply spares_all_refl|].
    left. split_and!; [done|done|exact I]. }
  rewrite (proj2 (Z.eqb_neq _ _) Ha). set (s1 := s <| km := k1 |>) in *. fold (fresh_vm). cbn zeta.
  assert (Hlv : g_live g1 a) by (eapply (ob_live I1); apply oset_eq). destruct (live_not_static I1 a Hlv) as [Hni _].
  assert (Hn : vms s1 !! a = None).
  { destruct (vms s1 !! a) as [vm|] eqn:E; [|done]. assert (ob a = Some UVm) by (apply (si_ovm _ _ _ _ _ I); split; [done|by exists vm]). congruence. }
  destruct (create_world K m0 Hlay Hbm (km s1) (delete init_vm_map (vms s1)) g1 a fresh_vm (si_world _ _ _ _ _ I1)) as (r & vm' & st' & g2 & E & Hsp & Hl & Hnl & Hd & Hk & Hc).
  { by rewrite lookup_delete_ne. }
  change (pm k1) with (pm (km s1)). rewrite E.
  assert (Hall : spares_all [] s g (set_pm s1 st') g2).
  { eapply (spares_all_trans _ _ _ s1); [by apply aside_all|]. split_and!; [|done|done]. intros h vm _ Hh. split; [done|]. apply Hsp. congruence. }
  destruct Hc as [(-> & W)|(-> & W & Ht & x & y & z & ->)]; cbn [Z.ltb Z.compare].
  - assert (I2 : sys_inv (set_pm s1 st') g2 (oset a (Some UOther) ob) xv xp).
    { apply (inv_km s1 g1 _ xv xp _ g2 _ I1 W); [intros b; rewrite Hl; apply I1|done|intros t p; by apply Hk|done]. }
    destruct (inv_kfree _ _ _ _ _ a I2 (oset_eq _ _ _)) as (g3 & I3 & A3).
    exists 0, ((set_pm s1 st') <| km := kfree (km (set_pm s1 st')) a |>), g3, (oset a None (oset a (Some UOther) ob)).
    split; [reflexivity|]. do 3 (split; [reflexivity|]). split; [|left; split; [reflexivity|split; [reflexivity|exact I3]]].
    eapply spares_all_trans; [exact Hall|]. by apply aside_all.
  - exists a, (set_vm (set_pm s1 st') a (new_vm fresh_vm x y z)), g2, (oset a (Some UVm) (oset a (Some UOther) ob)).
    split; [reflexivity|]. do 3 (split; [reflexivity|]). split.
    { destruct Hall as (H1 & H2 & H3). split_and!; [|done|done]. intros h vm Hh Hv. cbn. rewrite lookup_insert_ne by (intros ->; unfold s1 in Hn; cbn in Hn; congruence).
      by apply H1. }
    right. do 3 (split; [assumption|]). split; [|split; [exact Ht|exists x, y, z; reflexivity]].
    apply (inv_new_vm s1 g1 _ xv xp a _ st' g2 I1); [apply oset_eq|exact Hn|reflexivity|exact W|exact Hl|exact Hd|intros t p; by apply Hk].
Qed.

(** The fields of an address space other than its tables. *)
Lemma inv_set_vm s g ob xv xp h vm vm' d : sys_inv s g ob xv xp -> vms s !! h = Some vm -> h <> init_vm_map ->
  same_tables vm vm' -> refs vm' = refs vm + d -> 0 < refs vm' -> sys_inv (set_vm s h vm') g ob (zset h (xv h + d) xv) xp.
Proof.
  intros [I1 I2 I3 I4 I5 I6 IK I7 I8 I9 I10 I11 I12 I13 I14 I15] Hv Hne E Er Hp.
  assert (Hdom : forall x, is_Some (<[h := vm']> (vms s) !! x) <-> is_Some (vms s !! x)).
  { intros x. destruct (decide (x = h)) as [->|]; [rewrite lookup_insert_eq, Hv|by rewrite lookup_insert_ne]. split; eauto. }
  constructor; unfold set_vm; cbn [km vms procs threads launch kblocks kpages update]; try assumption.
  - rewrite delete_insert_ne by done. apply (world_vm K m0 _ _ g h vm vm' I1); [by rewrite lookup_delete_ne|done].
  - intros b. rewrite I3. by rewrite Hdom.
  - intros h' vm1 H1 H2. destruct (decide (h' = h)) as [->|]; [rewrite lookup_insert_eq in H1|rewrite lookup_insert_ne in H1 by done; rewrite zset_ne by done; by apply I9].
    injection H1 as <-. rewrite zset_eq, Er. destruct (I9 h vm Hv Hne). lia.
  - intros p pr Hpr. apply Hdom. by eapply I11.
  - destruct I13 as (vm1 & H1 & H2). exists vm1. by rewrite lookup_insert_ne.
Qed.

Lemma inv_init_vm s g ob xv xp vm vm' xv' : sys_inv s g ob xv xp -> vms s !! init_vm_map = Some vm ->
  heap_brk vm' = heap_brk vm -> l2_phys vm' = l2_phys vm -> l0_phys vm' = l0_phys vm -> (forall h, h <> init_vm_map -> xv' h = xv h) ->
  sys_inv (set_vm s init_vm_map vm') g ob xv' xp.
Proof.
  intros [I1 I2 I3 I4 I5 I6 IK I7 I8 I9 I10 I11 I12 I13 I14 I15] Hv E1 E2 E3 Hx.
  assert (Hdom : forall x, is_Some (<[init_vm_map := vm']> (vms s) !! x) <-> is_Some (vms s !! x)).
  { intros x. destruct (decide (x = init_vm_map)) as [->|]; [rewrite lookup_insert_eq, Hv|by rewrite lookup_insert_ne]. split; eauto. }
  constructor; unfold set_vm; cbn [km vms procs threads launch kblocks kpages update]; try assumption.
  - by rewrite delete_insert_eq.
  - intros b. rewrite I3. by rewrite Hdom.
  - intros h vm1 H1 H2. rewrite lookup_insert_ne in H1 by done. rewrite Hx by done. by apply I9.
  - intros p pr Hpr. apply Hdom. by eapply I11.
  - destruct I13 as (vm1 & H1 & H2). exists vm'. rewrite lookup_insert_eq. split; [done|]. rewrite E1, E2, E3. congruence.
Qed.

(** An address space of no process goes. *)
Lemma inv_del_vm s g ob xv xp a vm st' g' : sys_inv s g ob xv xp -> vms s !! a = Some vm -> a <> init_vm_map ->
  count (fun pr => p_vm pr =? a) (procs s) = 0 ->
  world ((km s) <| pm := st' |>) (delete a (delete init_vm_map (vms s))) g' -> g_live g' = g_live g -> same_dom g g' ->
  (forall t p, g_kind g' p = Some (Kernel t) <-> g_kind g p = Some (Kernel t)) ->
  sys_inv ((set_pm s st') <| vms := delete a (vms s) |>) g' (oset a (Some UOther) ob) xv xp.
Proof.
  intros I Hv Hni Hc W El Hd Hs. pose proof I as [I1 I2 I3 I4 I5 I6 IK I7 I8 I9 I10 I11 I12 I13 I14 I15].
  assert (Ha : ob a = Some UVm) by (apply I3; split; [done|by rewrite Hv]).
  assert (Hp : forall p pr, procs s !! p = Some pr -> p_vm pr <> a).
  { intros p pr Hpr E. pose proof (count_in (fun pr => p_vm pr =? a) _ p pr Hpr ltac:(cbn; by rewrite E, Z.eqb_refl)). lia. }
  assert (Ho : forall b u, u <> UVm -> u <> UOther -> oset a (Some UOther) ob b = Some u <-> ob b = Some u).
  { intros b u N1 N2. destruct (decide (b = a)) as [->|Hne]; [rewrite oset_eq, Ha|by rewrite oset_ne]. split; congruence. }
  constructor; unfold set_pm; cbn [km vms procs threads launch kblocks kpages update]; try assumption.
  - rewrite delete_delete. exact W.
  - intros b. rewrite El, I2. destruct (decide (b = a)) as [->|Hne]; [rewrite oset_eq, Ha|by rewrite oset_ne]. split; eauto.
  - intros b. destruct (decide (b = a)) as [->|Hne]; [rewrite oset_eq, lookup_delete_eq; split; [done|by intros [_ [? ?]]]|].
    by rewrite oset_ne, lookup_delete_ne by done.
  - intros b. rewrite Ho by done. apply I4.
  - intros b. rewrite Ho by done. apply I5.
  - intros b. rewrite Ho by done. apply I6.
  - intros b. rewrite Ho by done. apply IK.
  - intros b t. rewrite Ho by done. apply I7.
  - intros t p. rewrite Hs. apply I8.
  - intros h vm1 H1 H2. apply lookup_delete_Some in H1 as [_ H1]. by apply I9.
  - intros p pr Hpr. rewrite lookup_delete_ne by (intros E; by apply (Hp p pr)). by eapply I11.
  - destruct I13 as (vm1 & H1 & H2). exists vm1. by rewrite lookup_delete_ne.
  - destruct I15. split; by apply Hd.
Qed.

Lemma put_vm_spec s g ob xv xp a vm : sys_inv s g ob xv xp -> vms s !! a = Some vm -> 1 <= xv a ->
  exists g' ob', sys_inv (vm_map_put s a) g' ob' (zset a (xv a - 1) xv) xp
  /\ procs (vm_map_put s a) = procs s /\ threads (vm_map_put s a) = threads s /\ launch (vm_map_put s a) = launch s
  /\ spares_all [a] s g (vm_map_put s a) g' /\ (forall b, b <> a -> ob' b = ob b)
  /\ (1 < refs vm -> vm_map_put s a = set_vm s a (vm <| refs := refs vm - 1 |>) /\ g' = g)
  /\ (refs vm = 1 -> a <> init_vm_map -> vms (vm_map_put s a) !! a = None
      /\ (forall p, g_kind g' p <> Some (User a)) /\ releases (fun kd => kd = User a) g g').
Proof.
  intros I Hv Hx. unfold vm_map_put. rewrite (proj2 (Z.eqb_neq a 0) (vm_nz I a vm Hv)), Hv.
  set (vm1 := vm <| refs := refs vm - 1 |>). change (refs vm1) with (refs vm - 1).
  assert (Hone : forall vm2, spares_all [a] s g (set_vm s a vm2) g).
  { intros vm2. split; [|split; intros p; reflexivity]. intros h vm3 Hh Hv3. cbn. rewrite lookup_insert_ne; [split; [done|apply spares_refl]|].
    intros ->. apply Hh. left. }
  destruct (refs vm - 1 >? 0) eqn:Er; [apply Z.gtb_lt in Er|rewrite Z.gtb_ltb in Er; apply Z.ltb_ge in Er].
  { exists g, ob. split; [|split_and!; [reflexivity..|apply Hone|done|done|lia]]. destruct (decide (a = init_vm_map)) as [->|Hne].
    - apply (inv_init_vm s g ob xv xp vm vm1 _ I Hv); try reflexivity. intros h Hh. by apply zset_ne.
    - apply (inv_set_vm s g ob xv xp a vm vm1 (-1) I Hv Hne); [done|cbn; lia|cbn; lia]. }
  destruct (a =? init_vm_map) eqn:Ei; [apply Z.eqb_eq in Ei; subst a|apply Z.eqb_neq in Ei].
  { exists g, ob. split; [|split_and!; [reflexivity..|apply Hone|done|lia|done]].
    apply (inv_init_vm s g ob xv xp vm _ _ I Hv); try reflexivity. intros h Hh. by apply zset_ne. }
  destruct (si_vmref _ _ _ _ _ I a vm Hv Ei) as [Hr Hr0]. pose proof (count_nonneg (fun pr => p_vm pr =? a) (procs s)) as Hc0.
  pose proof (world_vm K m0 (km s) _ g a vm vm1 (si_world _ _ _ _ _ I) (space_lookup a vm Hv Ei) ltac:(done)) as W1.
  destruct (destroy_world K m0 Hbm (km s) _ g a vm1 W1 ltac:(apply lookup_insert_eq)) as (st' & g' & -> & W2 & Hsp & Hl & Hnl & Hd & Hk & Hf).
  rewrite delete_insert_eq in W2. cbn zeta.
  pose proof (inv_del_vm s g ob xv xp a vm st' g' I Hv Ei ltac:(lia) W2 Hl Hd ltac:(intros t p; by apply Hk)) as I2.
  destruct (inv_kfree_kinds _ _ _ _ _ a I2 (oset_eq _ _ _)) as (g3 & I3 & A3 & K3).
  exists g3, (oset a None (oset a (Some UOther) ob)). split.
  { destruct I3 as [J1 J2 J3 J4 J5 J6 JK J7 J8 J9 J10 J11 J12 J13 J14 J15]. constructor; try assumption. intros h vm2 H1 H2.
    rewrite zset_ne; [by apply J9|]. intros ->. cbn in H1. by rewrite lookup_delete_eq in H1. }
  split_and!; [reflexivity..| |intros b Hb; by rewrite !oset_ne|lia|].
  - eapply (spares_all_trans _ _ _ ((set_pm s st') <| vms := delete a (vms s) |>) g'); [|by apply aside_all].
    split_and!; [|done|done]. intros h vm2 Hh Hv2. assert (h <> a) by (intros ->; apply Hh; left). cbn. rewrite lookup_delete_ne by done. split; [done|]. by apply Hsp.
  - intros _ _. cbn. rewrite lookup_delete_eq. split; [done|]. split.
    + intros p Hp. apply (as_kind _ _ _ _ A3) in Hp; [|done..].
      destruct (w_user _ _ _ _ _ W2 a p) as [Hu _]. destruct (Hu Hp) as (? & ? & Hu' & _). by rewrite lookup_delete_eq in Hu'.
    + split; intros q kd Hq Hkd; rewrite K3.
      * destruct (decide (kd = Free)) as [->|]; [apply Hf; by left|by apply Hk].
      * subst kd. right. apply Hf. by right.
Qed.

(** ** Processes *)

Lemma inv_new_proc s g ob xv xp p a vm id n : sys_inv s g ob xv xp -> ob p = Some UOther -> vms s !! a = Some vm -> a <> init_vm_map ->
  sys_inv ((set_vm s a (vm <| refs := refs vm + 1 |>)) <| next_pid := n |> <| procs := <[p := mk_process id a 0 0 1]> (procs s) |>)
    g (oset p (Some UProc) ob) xv (zset p 1 xp).
Proof.
  intros I Hp Hv Hne. destruct (live_not_static I p (ob_live I p _ Hp)) as [_ Hnp].
  assert (Hn : procs s !! p = None).
  { destruct (procs s !! p) as [pr|] eqn:E; [|done]. assert (ob p = Some UProc) by (apply (si_oproc _ _ _ _ _ I); split; [done|by exists pr]). congruence. }
  pose proof I as [I1 I2 I3 I4 I5 I6 IK I7 I8 I9 I10 I11 I12 I13 I14 I15]. set (vm' := vm <| refs := refs vm + 1 |>).
  assert (Ho : forall b u, u <> UProc -> u <> UOther -> oset p (Some UProc) ob b = Some u <-> ob b = Some u).
  { intros b u N1 N2. destruct (decide (b = p)) as [->|Hb]; [rewrite oset_eq, Hp|by rewrite oset_ne]. split; congruence. }
  assert (Hdom : forall x, is_Some (<[a := vm']> (vms s) !! x) <-> is_Some (vms s !! x)).
  { intros x. destruct (decide (x = a)) as [->|]; [rewrite lookup_insert_eq, Hv|by rewrite lookup_insert_ne]. split; eauto. }
  constructor; unfold set_vm; cbn [km vms procs threads launch update next_pid]; try assumption.
  - rewrite delete_insert_ne by done. apply (world_vm K m0 _ _ g a vm vm' I1); [by rewrite lookup_delete_ne|done].
  - intros b. rewrite I2. destruct (decide (b = p)) as [->|Hb]; [rewrite oset_eq, Hp|by rewrite oset_ne]. split; eauto.
  - intros b. rewrite Ho by done. by rewrite I3, Hdom.
  - intros b. destruct (decide (b = p)) as [->|Hb]; [rewrite oset_eq, lookup_insert_eq; split; [eauto|done]|]. by rewrite oset_ne, lookup_insert_ne by done.
  - intros b. rewrite Ho by done. apply I5.
  - intros b. rewrite Ho by done. apply I6.
  - intros b. rewrite Ho by done. apply IK.
  - intros b t. rewrite Ho by done. apply I7.
  - intros h vm1 H1 H2. rewrite count_insert by done. cbn [p_vm]. destruct (decide (h = a)) as [->|Hh].
    + rewrite lookup_insert_eq in H1. injection H1 as <-. cbn. rewrite Z.eqb_refl. destruct (I9 a vm Hv Hne). cbn. lia.
    + rewrite lookup_insert_ne in H1 by done. rewrite (proj2 (Z.eqb_neq a h)) by done. cbn. rewrite Z.add_0_r. by apply I9.
  - intros q pr Hq Hnq. destruct (decide (q = p)) as [->|Hqp].
    + rewrite lookup_insert_eq in Hq. injection Hq as <-. rewrite zset_eq, count_zero; [cbn; lia|]. intros t th Hth.
      destruct (I12 t th Hth) as [pr1 Hpr1]. apply Z.eqb_neq. congruence.
    + rewrite lookup_insert_ne in Hq by done. rewrite zset_ne by done. by apply I10.
  - intros q pr Hq. apply Hdom. destruct (decide (q = p)) as [->|Hqp].
    + rewrite lookup_insert_eq in Hq. injection Hq as <-. cbn. by rewrite Hv.
    + rewrite lookup_insert_ne in Hq by done. by eapply I11.
  - intros t th Hth. destruct (I12 t th Hth) as [pr1 Hpr1]. rewrite lookup_insert_ne by congruence. by rewrite Hpr1.
  - destruct I13 as (vm1 & H1 & H2). exists vm1. by rewrite lookup_insert_ne.
  - destruct I14 as (pr1 & H1 & H2). exists pr1. by rewrite lookup_insert_ne.
Qed.

Lemma process_alloc_spec s g ob xv xp a vm : sys_inv s g ob xv xp -> vms s !! a = Some vm -> a <> init_vm_map ->
  exists p s' g' ob', process_alloc s a = (p, s') /\ threads s' = threads s /\ launch s' = launch s /\ spares_all [a] s g s' g'
  /\ g_tree g' = g_tree g /\ spares a (km s) g (km s') g'
  /\ ((p = 0 /\ s' = s /\ sys_inv s' g' ob' xv xp)
      \/ (p <> 0 /\ p <> init_process /\ procs s !! p = None /\ sys_inv s' g' ob' xv (zset p 1 xp)
         /\ vms s' = <[a := vm <| refs := refs vm + 1 |>]> (vms s)
         /\ procs s' = <[p := mk_process (next_pid s) a 0 0 1]> (procs s))).
Proof.
  intros I Hv Hne. unfold process_alloc. rewrite (proj2 (Z.eqb_neq a 0) (vm_nz I a vm Hv)).
  destruct (inv_kmalloc s g ob xv xp SIZEOF_PROCESS I) as [->|(p & k1 & g1 & -> & Hp & Hob & I1 & A1)].
  { cbn [Z.eqb]. assert (s <| km := km s |> = s) as -> by (by destruct s). exists 0, s, g, ob.
    split_and!; try reflexivity; [apply spares_all_refl|apply spares_refl|left; split_and!; [done|done|exact I]]. }
  rewrite (proj2 (Z.eqb_neq p 0) Hp). destruct (live_not_static I1 p (ob_live I1 p _ (oset_eq _ _ _))) as [_ Hnp].
  unfold vm_map_get. cbn [vms update]. rewrite Hv, (proj2 (Z.eqb_neq a 0) (vm_nz I a vm Hv)). cbn [negb].
  eexists p, _, g1, _. split; [reflexivity|]. do 2 (split; [reflexivity|]).
  split; [|split; [apply A1|split; [by apply aside_spares|]]].
  - split; [|split; [intros q; by apply (as_kind _ _ _ _ A1)|apply A1]]. intros h vm1 Hh Hv1. cbn. rewrite lookup_insert_ne by (intros ->; apply Hh; left).
    split; [done|]. by apply aside_spares.
  - right. split; [done|]. split; [done|]. split.
    { destruct (procs s !! p) as [pr|] eqn:E; [|done]. assert (ob p = Some UProc) by (apply (si_oproc _ _ _ _ _ I); split; [done|by exists pr]). congruence. }
    split; [|split; reflexivity]. apply (inv_new_proc (s <| km := k1 |>) g1 (oset p (Some UOther) ob) xv xp p a vm _ _ I1 (oset_eq _ _ _) Hv Hne).
Qed.

(** A process of no thread goes; its reference to the address space is the call's. *)
Lemma inv_del_proc s g ob xv xp p pr : sys_inv s g ob xv xp -> procs s !! p = Some pr -> p <> init_process ->
  count (fun th => t_proc th =? p) (threads s) = 0 ->
  sys_inv (s <| procs := delete p (procs s) |>) g (oset p (Some UOther) ob) (zset (p_vm pr) (xv (p_vm pr) + 1) xv) xp.
Proof.
  intros I Hp Hnp Hc. pose proof I as [I1 I2 I3 I4 I5 I6 IK I7 I8 I9 I10 I11 I12 I13 I14 I15].
  assert (Ha : ob p = Some UProc) by (apply I4; split; [done|by rewrite Hp]).
  assert (Hth : forall t th, threads s !! t = Some th -> t_proc th <> p).
  { intros t th Hth E. pose proof (count_in (fun th => t_proc th =? p) _ t th Hth ltac:(cbn; by rewrite E, Z.eqb_refl)). lia. }
  assert (Ho : forall b u, u <> UProc -> u <> UOther -> oset p (Some UOther) ob b = Some u <-> ob b = Some u).
  { intros b u N1 N2. destruct (decide (b = p)) as [->|Hne]; [rewrite oset_eq, Ha|by rewrite oset_ne]. split; congruence. }
  constructor; cbn [km vms procs threads launch kblocks kpages update]; try assumption.
  - intros b. rewrite I2. destruct (decide (b = p)) as [->|Hne]; [rewrite oset_eq, Ha|by rewrite oset_ne]. split; eauto.
  - intros b. rewrite Ho by done. apply I3.
  - intros b. destruct (decide (b = p)) as [->|Hne]; [rewrite oset_eq, lookup_delete_eq; split; [done|by intros [_ [? ?]]]|].
    by rewrite oset_ne, lookup_delete_ne by done.
  - intros b. rewrite Ho by done. apply I5.
  - intros b. rewrite Ho by done. apply I6.
  - intros b. rewrite Ho by done. apply IK.
  - intros b t. rewrite Ho by done. apply I7.
  - intros h vm H1 H2. destruct (I9 h vm H1 H2) as [H3 H4]. rewrite (count_delete _ _ p pr Hp) in H3. split; [|done]. rewrite H3.
    destruct (decide (h = p_vm pr)) as [->|Hne]; [rewrite zset_eq, Z.eqb_refl; cbn; lia|]. rewrite zset_ne by done.
    rewrite (proj2 (Z.eqb_neq (p_vm pr) h)) by done. cbn. lia.
  - intros q pr1 Hq. apply lookup_delete_Some in Hq as [_ Hq]. by apply I10.
  - intros q pr1 Hq. apply lookup_delete_Some in Hq as [_ Hq]. by eapply I11.
  - intros t th Ht. rewrite lookup_delete_ne by (intros E; by apply (Hth t th)). by eapply I12.
  - destruct I14 as (pr1 & H1 & H2). exists pr1. by rewrite lookup_delete_ne.
Qed.

Lemma inv_ext s g ob xv xp xv' xp' : sys_inv s g ob xv xp -> (forall h, is_Some (vms s !! h) -> h <> init_vm_map -> xv' h = xv h) ->
  (forall p, is_Some (procs s !! p) -> p <> init_process -> xp' p = xp p) -> sys_inv s g ob xv' xp'.
Proof.
  intros [I1 I2 I3 I4 I5 I6 IK I7 I8 I9 I10 I11 I12 I13 I14 I15] Hv Hp. constructor; try assumption.
  - intros h vm H1 H2. rewrite Hv by done. by apply I9.
  - intros p pr H1 H2. rewrite Hp by done. by apply I10.
Qed.

Lemma put_vm_procs s P a : vm_map_put (s <| procs := P |>) a = (vm_map_put s a) <| procs := P |>.
Proof.
  unfold vm_map_put. destruct (a =? 0); [done|]. cbn [vms update]. destruct (vms s !! a) as [vm|]; [|done].
  destruct (refs _ >? 0); [done|]. destruct (a =? init_vm_map); [done|]. cbn [km update]. by destruct (mmu_vmap_destroy _ _).
Qed.

Lemma inv_proc_refs s g ob xv xp p pr d : sys_inv s g ob xv xp -> procs s !! p = Some pr -> p <> init_process -> 0 < p_refs pr + d ->
  sys_inv (s <| procs := <[p := pr <| p_refs := p_refs pr + d |>]> (procs s) |>) g ob xv (zset p (xp p + d) xp).
Proof.
  intros [I1 I2 I3 I4 I5 I6 IK I7 I8 I9 I10 I11 I12 I13 I14 I15] Hp Hnp Hd. set (pr' := pr <| p_refs := p_refs pr + d |>).
  assert (Hdom : forall x, is_Some (<[p := pr']> (procs s) !! x) <-> is_Some (procs s !! x)).
  { intros x. destruct (decide (x = p)) as [->|]; [rewrite lookup_insert_eq, Hp|by rewrite lookup_insert_ne]. split; eauto. }
  constructor; cbn [km vms procs threads launch kblocks kpages update]; try assumption.
  - intros b. by rewrite I4, Hdom.
  - intros h vm H1 H2. rewrite (count_update _ _ p pr pr' Hp). change (p_vm pr') with (p_vm pr). destruct (I9 h vm H1 H2). lia.
  - intros q pr1 Hq Hnq. destruct (decide (q = p)) as [->|Hne].
    + rewrite lookup_insert_eq in Hq. injection Hq as <-. rewrite zset_eq. cbn. destruct (I10 p pr Hp Hnp). lia.
    + rewrite lookup_insert_ne in Hq by done. rewrite zset_ne by done. by apply I10.
  - intros q pr1 Hq. destruct (decide (q = p)) as [->|Hne].
    + rewrite lookup_insert_eq in Hq. injection Hq as <-. by apply (I11 p pr).
    + rewrite lookup_insert_ne in Hq by done. by eapply I11.
  - intros t th Ht. apply Hdom. by eapply I12.
  - destruct I14 as (pr1 & H1 & H2). exists pr1. by rewrite lookup_insert_ne.
Qed.

Lemma process_put_spec s g ob xv xp p pr : sys_inv s g ob xv xp -> procs s !! p = Some pr -> p <> init_process -> 1 <= xp p -> 0 <= xv (p_vm pr) ->
  exists g' ob', sys_inv (process_put s p) g' ob' xv (zset p (xp p - 1) xp)
  /\ threads (process_put s p) = threads s /\ launch (process_put s p) = launch s /\ spares_all [p_vm pr] s g (process_put s p) g'
  /\ (forall b, b <> p -> b <> p_vm pr -> ob' b = ob b)
  /\ (1 < p_refs pr -> process_put s p = s <| procs := <[p := pr <| p_refs := p_refs pr - 1 |>]> (procs s) |> /\ g' = g)
  /\ (p_refs pr = 1 -> procs (process_put s p) !! p = None
      /\ forall vm, vms s !! p_vm pr = Some vm -> refs vm = 1 -> p_vm pr <> init_vm_map -> vms (process_put s p) !! p_vm pr = None
         /\ (forall q, g_kind g' q <> Some (User (p_vm pr))) /\ releases (fun kd => kd = User (p_vm pr)) g g').
Proof.
  intros I Hp Hnp Hx Hxv. unfold process_put. rewrite (proj2 (Z.eqb_neq p 0) (proc_nz I p pr Hp)), (proj2 (Z.eqb_neq _ _) Hnp), Hp.
  cbn zeta. change (p_refs (pr <| p_refs := p_refs pr - 1 |>)) with (p_refs pr - 1). change (p_vm (pr <| p_refs := p_refs pr - 1 |>)) with (p_vm pr).
  destruct (si_procref _ _ _ _ _ I p pr Hp Hnp) as [Hr Hr0]. pose proof (count_nonneg (fun th => t_proc th =? p) (threads s)) as Hc0.
  destruct (p_refs pr - 1 >? 0) eqn:Er; [apply Z.gtb_lt in Er|rewrite Z.gtb_ltb in Er; apply Z.ltb_ge in Er].
  { exists g, ob. split; [apply (inv_proc_refs s g ob xv xp p pr (-1) I Hp Hnp); lia|]. split_and!; try reflexivity; [by apply spares_all_same|done|lia]. }
  pose proof (inv_del_proc s g ob xv xp p pr I Hp Hnp ltac:(lia)) as I1. set (a := p_vm pr) in *. set (s1 := s <| procs := delete p (procs s) |>) in *.
  destruct (si_procvm _ _ _ _ _ I p pr Hp) as [vm Hvm]. fold a in Hvm.
  assert (Hpa : p <> a).
  { intros E. assert (Hob : ob p = Some UProc) by (apply (si_oproc _ _ _ _ _ I); split; [done|by rewrite Hp]).
    destruct (live_not_static I p (ob_live I p _ Hob)) as [Hni _].
    assert (ob p = Some UVm) by (apply (si_ovm _ _ _ _ _ I); split; [done|by rewrite E, Hvm]). congruence. }
  destruct (put_vm_spec s1 g _ _ xp a vm I1 Hvm ltac:(rewrite zset_eq; lia)) as (g2 & ob2 & I2 & P1 & P2 & P3 & S2 & O2 & _ & D2).
  unfold s1 in I2, P1, P2, P3, S2, D2. rewrite put_vm_procs in *. cbn [procs threads launch vms update] in P1, P2, P3, D2.
  set (s2 := vm_map_put s a) in *.
  destruct (inv_kfree_kinds _ _ _ _ _ p I2) as (g3 & I3 & A3 & K3); [rewrite O2 by done; apply oset_eq|].
  assert (Es : s2 <| procs := delete p (procs s) |> <| km := kfree (km (s2 <| procs := delete p (procs s) |>)) p |>
    = s2 <| km := kfree (km s2) p |> <| procs := delete p (procs (s2 <| km := kfree (km s2) p |>)) |>).
  { cbn. assert (procs s2 = procs s) as ->; [|done]. unfold s2, vm_map_put. destruct (a =? 0); [done|]. destruct (vms s !! a); [|done].
    destruct (refs _ >? 0); [done|]. destruct (a =? init_vm_map); [done|]. by destruct (mmu_vmap_destroy _ _). }
  rewrite Es in I3. exists g3, (oset p None ob2). split.
  { eapply inv_ext; [exact I3| |].
    - intros h _ _. destruct (decide (h = a)) as [->|Hh]; [rewrite !zset_eq; lia|by rewrite !zset_ne].
    - intros q Hq _. cbn in Hq. rewrite zset_ne; [done|]. intros ->. rewrite lookup_delete_eq in Hq. by destruct Hq. }
  split; [exact P2|]. split; [exact P3|]. split; [|split; [|split; [lia|]]].
  - eapply (spares_all_trans _ _ _ (s2 <| procs := delete p (procs s) |>) g2).
    + destruct S2 as (H1 & H2 & H3). split_and!; [|done|done]. intros h vm1 Hh Hv1. by apply H1.
    + by apply aside_all.
  - intros b Hb1 Hb2. by rewrite oset_ne, O2, oset_ne.
  - intros _. cbn. rewrite lookup_delete_eq. split; [done|]. intros vm1 Hvm1 Hr1 Hni. rewrite Hvm in Hvm1. injection Hvm1 as <-.
    destruct (D2 Hr1 Hni) as (H1 & H2 & H3). split; [exact H1|]. split; [intros q; rewrite K3; apply H2|].
    eapply releases_trans; [done|exact H3|by apply releases_same].
Qed.

(** ** Threads *)

Lemma no_thread s g ob xv xp t : sys_inv s g ob xv xp -> ob t = Some UOther -> threads s !! t = None.
Proof.
  intros I Ht. destruct (threads s !! t) as [th|] eqn:E; [|done].
  assert (ob t = Some UThread) by (apply (si_othread _ _ _ _ _ I); by exists th). congruence.
Qed.

Lemma inv_new_thread s g ob xv xp t p pr stack st g' : sys_inv s g ob xv xp -> ob t = Some UOther -> procs s !! p = Some pr ->
  world ((km s) <| pm := st |>) (delete init_vm_map (vms s)) g' -> g_live g' = g_live g -> g_kind g stack = Some Free ->
  (forall q, g_kind g' q = kset [stack] (Kernel t) (g_kind g) q) ->
  sys_inv ((set_pm s st) <| procs := <[p := pr <| p_refs := p_refs pr + 1 |>]> (procs s) |> <| threads := <[t := mk_thread stack p 0]> (threads s) |>)
    g' (oset t (Some UThread) ob) xv xp.
Proof.
  intros I Ht Hp W El Hf Hk. pose proof (no_thread _ _ _ _ _ t I Ht) as Hn.
  pose proof I as [I1 I2 I3 I4 I5 I6 IK I7 I8 I9 I10 I11 I12 I13 I14 I15]. set (pr' := pr <| p_refs := p_refs pr + 1 |>).
  assert (Ho : forall b u, u <> UThread -> u <> UOther -> oset t (Some UThread) ob b = Some u <-> ob b = Some u).
  { intros b u N1 N2. destruct (decide (b = t)) as [->|Hb]; [rewrite oset_eq, Ht|by rewrite oset_ne]. split; congruence. }
  assert (Hdom : forall x, is_Some (<[p := pr']> (procs s) !! x) <-> is_Some (procs s !! x)).
  { intros x. destruct (decide (x = p)) as [->|]; [rewrite lookup_insert_eq, Hp|by rewrite lookup_insert_ne]. split; eauto. }
  assert (Hs : forall q, q <> stack -> g_kind g' q = g_kind g q) by (intros q Hq; rewrite Hk; apply kset_out; by intros ?%list_elem_of_singleton).
  constructor; unfold set_pm; cbn [km vms procs threads launch kblocks kpages update]; try assumption.
  - intros b. rewrite El, I2. destruct (decide (b = t)) as [->|Hb]; [rewrite oset_eq, Ht|by rewrite oset_ne]. split; eauto.
  - intros b. rewrite Ho by done. apply I3.
  - intros b. rewrite Ho by done. by rewrite I4, Hdom.
  - intros b. destruct (decide (b = t)) as [->|Hb]; [rewrite oset_eq, lookup_insert_eq; split; [eauto|done]|]. by rewrite oset_ne, lookup_insert_ne by done.
  - intros b. rewrite Ho by done. apply I6.
  - intros b. rewrite Ho by done. apply IK.
  - intros b t'. rewrite Ho by done. rewrite I7. destruct (decide (t' = t)) as [->|Hne]; [|by rewrite lookup_insert_ne].
    rewrite lookup_insert_eq, Hn. split; intros [Hb (th & [= <-] & E)]. by destruct Hb.
  - intros t' q. destruct (decide (q = stack)) as [->|Hq].
    + rewrite Hk, kset_in by left. unfold kernel_page. cbn. split; [intros [= <-]; left; exists (mk_thread stack p 0); by rewrite lookup_insert_eq|].
      intros Hk'. destruct (decide (t' = t)) as [->|Hne]; [done|]. assert (g_kind g stack = Some (Kernel t')); [|congruence]. apply I8.
      destruct Hk' as [(th & Hth & E)|Hk']; [left; exists th; by rewrite lookup_insert_ne in Hth|by right].
    + rewrite Hs by done. rewrite I8. unfold kernel_page. cbn. destruct (decide (t' = t)) as [->|Hne]; [|by rewrite lookup_insert_ne].
      rewrite lookup_insert_eq, Hn. split; (intros [(th & Hth & E)|H]; [|by right]); [done|]. injection Hth as <-. by destruct Hq.
  - intros h vm H1 H2. rewrite (count_update _ _ p pr pr' Hp). change (p_vm pr') with (p_vm pr). destruct (I9 h vm H1 H2). lia.
  - intros q pr1 Hq Hnq. rewrite count_insert by done. cbn [t_proc]. destruct (decide (q = p)) as [->|Hne].
    + rewrite lookup_insert_eq in Hq. injection Hq as <-. rewrite Z.eqb_refl. cbn. destruct (I10 p pr Hp Hnq). lia.
    + rewrite lookup_insert_ne in Hq by done. rewrite (proj2 (Z.eqb_neq p q)) by done. cbn. rewrite Z.add_0_r. by apply I10.
  - intros q pr1 Hq. destruct (decide (q = p)) as [->|Hne].
    + rewrite lookup_insert_eq in Hq. injection Hq as <-. by apply (I11 p pr).
    + rewrite lookup_insert_ne in Hq by done. by eapply I11.
  - intros t' th Hth. apply Hdom. destruct (decide (t' = t)) as [->|Hne].
    + rewrite lookup_insert_eq in Hth. injection Hth as <-. cbn. by rewrite Hp.
    + rewrite lookup_insert_ne in Hth by done. by eapply I12.
  - destruct I14 as (pr1 & H1 & H2). destruct (decide (p = init_process)) as [->|Hne].
    + exists pr'. rewrite lookup_insert_eq. split; [done|]. rewrite H1 in Hp. by injection Hp as <-.
    + exists pr1. by rewrite lookup_insert_ne.
  - destruct I15 as [H1 H2]. split; (rewrite Hs; [done|]; intros E; rewrite E in *; congruence).
Qed.

Definition creator_proc (s : vsys) (c : Z) : Z := match threads s !! c with Some th => t_proc th | None => init_process end.

Lemma thread_create_spec s g ob xv xp c : sys_inv s g ob xv xp ->
  exists t s' g' ob', thread_create s c = (t, s') /\ vms s' = vms s /\ launch s' = launch s /\ spares_all [] s g s' g'
  /\ (forall b, b <> t -> t <> 0 -> ob' b = ob b) /\ sys_inv s' g' ob' xv xp
  /\ ((t = 0 /\ procs s' = procs s /\ threads s' = threads s /\ forall b, ob' b = ob b)
      \/ (t <> 0 /\ ob t = None /\ exists stack pr, threads s' = <[t := mk_thread stack (creator_proc s c) 0]> (threads s) /\ threads s !! t = None
         /\ procs s !! creator_proc s c = Some pr /\ procs s' = <[creator_proc s c := pr <| p_refs := p_refs pr + 1 |>]> (procs s))).
Proof.
  intros I. unfold thread_create. destruct (inv_kmalloc s g ob xv xp SIZEOF_KTHREAD I) as [->|(t & k1 & g1 & -> & Ht & Hob & I1 & A1)].
  { cbn [Z.eqb]. assert (s <| km := km s |> = s) as -> by (by destruct s). exists 0, s, g, ob.
    split; [reflexivity|]. do 2 (split; [reflexivity|]). split; [apply spares_all_refl|]. split; [done|]. split; [exact I|by left]. }
  rewrite (proj2 (Z.eqb_neq t 0) Ht). set (s1 := s <| km := k1 |>) in *. pose proof (si_world _ _ _ _ _ I1) as W1.
  destruct (g_pl g1) as [|stack pl] eqn:Epl.
  - pose proof (w_repr K m0 W1) as Hr. rewrite Epl in Hr. rewrite (pmm_alloc_none _ Hr). cbn [Z.eqb].
    assert (set_pm s1 (pm (km s1)) = s1) as -> by (unfold set_pm; cbn; by destruct k1).
    destruct (inv_kfree _ _ _ _ _ t I1 (oset_eq _ _ _)) as (g2 & I2 & A2).
    eexists 0, _, g2, (oset t None (oset t (Some UOther) ob)). split; [reflexivity|]. do 2 (split; [reflexivity|]). split; [|split; [done|split; [exact I2|left]]].
    + eapply (spares_all_trans _ _ _ s1 g1); [by apply aside_all|by apply aside_all].
    + split_and!; [done..|]. intros b. unfold oset. repeat case_decide; congruence.
  - destruct (world_alloc K m0 (km s1) _ g1 stack pl (Kernel t) W1 Epl) as (st & Ea & W2 & Hz & Hf & Hs); [right; by exists t|].
    rewrite Ea. rewrite Hz. fold (creator_proc (set_pm s1 st) c). change (creator_proc (set_pm s1 st) c) with (creator_proc s c).
    assert (exists pr, procs s !! creator_proc s c = Some pr) as [pr Hpr].
    { unfold creator_proc. destruct (threads s !! c) as [th|] eqn:E; [apply (si_thrproc _ _ _ _ _ I c th E)|].
      destruct (si_init_proc _ _ _ _ _ I) as (pr & Hp & _). by exists pr. }
    change (procs (set_pm s1 st)) with (procs s). rewrite Hpr, (proj2 (Z.eqb_neq _ 0) (proc_nz I _ pr Hpr)). cbn [negb].
    pose proof (inv_new_thread s1 g1 _ xv xp t _ pr stack st _ I1 (oset_eq _ _ _) Hpr W2 eq_refl Hf ltac:(reflexivity)) as I2.
    eexists t, _, _, _. split; [reflexivity|]. do 2 (split; [reflexivity|]). split; [|split; [|split; [exact I2|right]]].
    + eapply (spares_all_trans _ _ _ s1 g1); [by apply aside_all|]. split; [|split].
      * intros h vm _ Hv. split; [done|]. constructor; [| |done].
        -- intros q. cbn. unfold kset. destruct (decide (q ∈ [stack])) as [->%list_elem_of_singleton|]; [|done]. rewrite Hf. done.
        -- intros x Hx. apply Hs. intros E%list_elem_of_singleton. rewrite E in Hx. congruence.
      * intros q. cbn. unfold kset. destruct (decide (q ∈ [stack])) as [->%list_elem_of_singleton|]; [|done]. rewrite Hf. done.
      * intros q. cbn. unfold kset. destruct (decide (q ∈ [stack])) as [->%list_elem_of_singleton|]; [|done]. rewrite Hf. done.
    + intros b Hb _. by rewrite !oset_ne.
    + split; [done|]. split; [done|]. exists stack, pr. split; [reflexivity|]. split; [apply (no_thread _ _ _ _ _ t I1 (oset_eq _ _ _))|]. split; [reflexivity|reflexivity].
Qed.

Lemma put_vm_threads s T a : vm_map_put (s <| threads := T |>) a = (vm_map_put s a) <| threads := T |>.
Proof.
  unfold vm_map_put. destruct (a =? 0); [done|]. cbn [vms update]. destruct (vms s !! a) as [vm|]; [|done].
  destruct (refs _ >? 0); [done|]. destruct (a =? init_vm_map); [done|]. cbn [km update]. by destruct (mmu_vmap_destroy _ _).
Qed.
Lemma process_put_threads s T p : process_put (s <| threads := T |>) p = (process_put s p) <| threads := T |>.
Proof.
  unfold process_put. destruct (p =? 0); [done|]. destruct (p =? init_process); [done|]. cbn [procs update].
  destruct (procs s !! p) as [pr|]; [|done]. destruct (p_refs _ >? 0); [done|]. rewrite put_vm_threads. done.
Qed.

Lemma threads_process_put s p : threads (process_put s p) = threads s.
Proof. assert (s = s <| threads := threads s |>) as -> by (by destruct s). by rewrite process_put_threads. Qed.

(** A thread that has ended goes; its reference to the process is the call's. *)
Lemma inv_del_thread s g ob xv xp t th : sys_inv s g ob xv xp -> threads s !! t = Some th ->
  let ob1 := oset t (Some UOther) (if sig_actions th =? 0 then ob else oset (sig_actions th) (Some UOther) ob) in
  sys_inv (s <| threads := delete t (threads s) |>) (mk_ghost (g_pl g) (g_live g) (kset [stack_base th] Held (g_kind g)) (g_tree g))
    ob1 xv (zset (t_proc th) (xp (t_proc th) + 1) xp).
Proof.
  intros I Ht ob1. pose proof I as [I1 I2 I3 I4 I5 I6 IK I7 I8 I9 I10 I11 I12 I13 I14 I15].
  assert (Ha : ob t = Some UThread) by (apply I5; by rewrite Ht). assert (Hst : g_kind g (stack_base th) = Some (Kernel t)) by (apply I8; left; by exists th).
  assert (Hsig : sig_actions th <> 0 -> ob (sig_actions th) = Some (USig t)) by (intros Hne; apply I7; split; [done|by exists th]).
  assert (Ho : forall b u, u <> UThread -> u <> UOther -> u <> USig t -> ob1 b = Some u <-> ob b = Some u).
  { intros b u N1 N2 N3. unfold ob1. destruct (decide (b = t)) as [->|Hb]; [rewrite oset_eq, Ha; split; congruence|]. rewrite oset_ne by done.
    destruct (sig_actions th =? 0) eqn:E; [done|]. apply Z.eqb_neq in E.
    destruct (decide (b = sig_actions th)) as [->|Hb2]; [rewrite oset_eq, Hsig by done; split; congruence|by rewrite oset_ne]. }
  constructor; cbn [km vms procs threads launch update g_pl g_live g_kind g_tree]; try assumption.
  - apply retype_loose; [exact I1|by left|]. exists (Kernel t). split; [done|right; by exists t].
  - intros b. rewrite I2. unfold ob1. destruct (decide (b = t)) as [->|Hb]; [rewrite oset_eq, Ha; split; eauto|]. rewrite oset_ne by done.
    destruct (sig_actions th =? 0) eqn:E; [done|]. apply Z.eqb_neq in E.
    destruct (decide (b = sig_actions th)) as [->|Hb2]; [rewrite oset_eq, Hsig by done; split; eauto|by rewrite oset_ne].
  - intros b. rewrite Ho by done. apply I3.
  - intros b. rewrite Ho by done. apply I4.
  - intros b. destruct (decide (b = t)) as [->|Hb]; [unfold ob1; rewrite oset_eq, lookup_delete_eq; split; [done|by intros [? ?]]|].
    rewrite lookup_delete_ne by done. rewrite <- I5. unfold ob1. rewrite oset_ne by done. destruct (sig_actions th =? 0) eqn:E; [done|]. apply Z.eqb_neq in E.
    destruct (decide (b = sig_actions th)) as [->|Hb2]; [rewrite oset_eq, Hsig by done; split; congruence|by rewrite oset_ne].
  - intros b. rewrite Ho by done. apply I6.
  - intros b. rewrite Ho by done. apply IK.
  - intros b t'. destruct (decide (t' = t)) as [->|Hne].
    + rewrite lookup_delete_eq. split; [|by intros (_ & ? & ? & _)]. unfold ob1. destruct (decide (b = t)) as [->|Hb]; [by rewrite oset_eq|]. rewrite oset_ne by done.
      destruct (sig_actions th =? 0) eqn:E; [apply Z.eqb_eq in E|apply Z.eqb_neq in E].
      * intros (Hb0 & th1 & Hth1 & E1)%I7. rewrite Ht in Hth1. injection Hth1 as <-. congruence.
      * destruct (decide (b = sig_actions th)) as [->|Hb2]; [by rewrite oset_eq|]. rewrite oset_ne by done.
        intros (Hb0 & th1 & Hth1 & E1)%I7. rewrite Ht in Hth1. injection Hth1 as <-. by destruct Hb2.
    + rewrite Ho by congruence. rewrite I7. by rewrite lookup_delete_ne.
  - intros t' q. unfold kset. destruct (decide (q ∈ [stack_base th])) as [->%list_elem_of_singleton|Hq].
    + split; [done|]. unfold kernel_page. cbn. intros Hk'. assert (g_kind g (stack_base th) = Some (Kernel t')) as E2; [apply I8; destruct Hk' as [(th1 & Hth1 & E1)|Hk']; [left|by right]|].
      * exists th1. apply lookup_delete_Some in Hth1 as [_ Hth1]. done.
      * rewrite Hst in E2. injection E2 as <-. destruct Hk' as [(th1 & Hth1 & E1)|[Hz _]]; [by rewrite lookup_delete_eq in Hth1|].
        destruct (live_nz I t (ob_live I t _ Ha)). done.
    + rewrite I8. unfold kernel_page. cbn. destruct (decide (t' = t)) as [->|Hne]; [|by rewrite lookup_delete_ne]. rewrite lookup_delete_eq.
      split; (intros [(th1 & Hth1 & E1)|H]; [|by right]); [|done]. rewrite Ht in Hth1. injection Hth1 as <-. destruct Hq. rewrite E1. left.
  - intros p pr Hp Hnp. destruct (I10 p pr Hp Hnp) as [H1 H2]. rewrite (count_delete _ _ t th Ht) in H1. split; [|done]. rewrite H1.
    destruct (decide (p = t_proc th)) as [->|Hne]; [rewrite zset_eq, Z.eqb_refl; cbn; lia|]. rewrite zset_ne by done.
    rewrite (proj2 (Z.eqb_neq (t_proc th) p)) by done. cbn. lia.
  - intros t' th1 Ht1. apply lookup_delete_Some in Ht1 as [_ Ht1]. by eapply I12.
  - destruct I15 as [H1 H2]. split; rewrite kset_out; try done; intros E%list_elem_of_singleton; rewrite E in *; congruence.
Qed.

(** Its stack page goes back to the free list. *)
Lemma inv_free_stack s g ob xv xp t th : sys_inv s g ob xv xp -> threads s !! t = Some th ->
  let s1 := (set_pm s (pmm_free (pm (km s)) (stack_base th))) <| threads := delete t (threads s) |> in
  let ob1 := oset t (Some UOther) (if sig_actions th =? 0 then ob else oset (sig_actions th) (Some UOther) ob) in
  exists g1, sys_inv s1 g1 ob1 xv (zset (t_proc th) (xp (t_proc th) + 1) xp) /\ spares_all [] s g s1 g1 /\ releases (fun kd => kd = Kernel t) g g1.
Proof.
  intros I Ht s1 ob1. pose proof (inv_del_thread s g ob xv xp t th I Ht) as Ia. cbn zeta in Ia.
  set (sa := s <| threads := delete t (threads s) |>) in *. set (ga := mk_ghost _ _ _ _) in Ia. pose proof (si_world _ _ _ _ _ Ia) as Wa.
  assert (Hst : g_kind g (stack_base th) = Some (Kernel t)) by (apply (si_stack _ _ _ _ _ I); left; by exists th).
  assert (Hka : g_kind ga (stack_base th) = Some Held) by (unfold ga; cbn; unfold kset; apply decide_True; left).
  destruct (world_release K m0 _ _ _ _ _ Wa Hka) as [W1 Hs]; [by left|].
  eexists. split.
  - apply (inv_km sa ga _ xv _ _ _ _ Ia W1); cbn [g_live g_kind ga].
    + apply Ia.
    + done.
    + intros t' p. unfold kset. repeat case_decide; [split; congruence|done].
    + intros p. cbn. unfold kset. repeat case_decide; done.
  - assert (Hk : forall p kd, kd <> Free -> kd <> Kernel t -> kset [stack_base th] Free (kset [stack_base th] Held (g_kind g)) p = Some kd <-> g_kind g p = Some kd).
    { intros p kd N1 N2. unfold kset. repeat case_decide; try done. rewrite (proj1 (list_elem_of_singleton p _)), Hst by done. split; congruence. }
    split; [split; [|split]|].
    + intros h vm _ Hv. split; [done|]. constructor; [intros p; by apply Hk| |done].
      intros x Hx. apply Hs. intros E%list_elem_of_singleton. rewrite E in Hx. congruence.
    + intros p. by apply Hk.
    + intros p. cbn. unfold kset. repeat case_decide; try done. rewrite (proj1 (list_elem_of_singleton p _)), Hst by done. done.
    + split; intros q kd Hq Hkd; cbn; unfold kset; (destruct (decide (q ∈ [stack_base th])) as [E%list_elem_of_singleton|]; [|auto]); [subst q; congruence|by right].
Qed.

Lemma thread_reap_spec s g ob xv xp t th : sys_inv s g ob xv xp -> threads s !! t = Some th -> (forall p, 0 <= xp p) -> (forall h, 0 <= xv h) ->
  exists g' ob' pr, sys_inv (thread_reap s t) g' ob' xv xp /\ procs s !! t_proc th = Some pr
  /\ threads (thread_reap s t) = delete t (threads s) /\ launch (thread_reap s t) = launch s
  /\ spares_all [p_vm pr] s g (thread_reap s t) g'
  /\ (forall vm, t_proc th <> init_process -> p_refs pr = 1 -> vms s !! p_vm pr = Some vm -> refs vm = 1 -> p_vm pr <> init_vm_map ->
      procs (thread_reap s t) !! t_proc th = None /\ vms (thread_reap s t) !! p_vm pr = None
      /\ (forall q, g_kind g' q <> Some (User (p_vm pr))) /\ releases (fun kd => kd = Kernel t \/ kd = User (p_vm pr)) g g').
Proof.
  intros I Ht Hxp Hxv. destruct (si_thrproc _ _ _ _ _ I t th Ht) as [pr Hpr]. unfold thread_reap. rewrite Ht.
  assert (Hk : g_kind g (stack_base th) = Some (Kernel t)) by (apply (si_stack _ _ _ _ _ I); left; by exists th).
  assert (stack_base th <> 0) as ->%Z.eqb_neq by (pose proof (w_frame _ _ _ _ _ (si_world _ _ _ _ _ I) _ _ Hk) as [[Hfr _] _]; lia).
  rewrite (proj2 (Z.eqb_neq _ _) (proc_nz I _ pr Hpr)). cbn [negb].
  destruct (inv_free_stack s g ob xv xp t th I Ht) as (g1 & I1 & S1 & R1). cbn zeta in *.
  set (T := delete t (threads s)) in *. set (sa := set_pm s _) in *. set (p := t_proc th) in *.
  set (ob1 := oset t (Some UOther) (if sig_actions th =? 0 then ob else oset (sig_actions th) (Some UOther) ob)) in *.
  set (sb := if negb (sig_actions th =? 0) then sa <| km := kfree (km sa) (sig_actions th) |> else sa).
  assert (exists g2 ob2, sys_inv (sb <| threads := T |>) g2 ob2 xv (zset p (xp p + 1) xp) /\ spares_all [] s g (sb <| threads := T |>) g2 /\ ob2 t = Some UOther
    /\ procs sb = procs s /\ vms sb = vms s /\ launch sb = launch s /\ threads sb = threads s /\ forall q, g_kind g2 q = g_kind g1 q)
    as (g2 & ob2 & I2 & S2 & Ob2 & E1 & E2 & E3 & E4 & K2).
  { unfold sb. destruct (sig_actions th =? 0) eqn:Esig; cbn [negb].
    - exists g1, ob1. split_and!; try done. apply oset_eq.
    - apply Z.eqb_neq in Esig. assert (Hsig : ob (sig_actions th) = Some (USig t)) by (apply (si_osig _ _ _ _ _ I); split; [done|by exists th]).
      assert (Hne : sig_actions th <> t) by (intros E; rewrite E in Hsig; rewrite (proj2 (si_othread _ _ _ _ _ I t)) in Hsig; [done|by rewrite Ht]).
      destruct (inv_kfree_kinds _ _ _ _ _ (sig_actions th) I1) as (g2 & I2 & A2 & K2); [unfold ob1; rewrite oset_ne by done; apply oset_eq|].
      exists g2, (oset (sig_actions th) None ob1). split; [exact I2|]. split; [eapply spares_all_trans; [exact S1|]; by apply aside_all|].
      split; [|done]. unfold ob1. rewrite oset_ne by done. apply oset_eq. }
  assert (Hpr2 : procs (sb <| threads := T |>) !! p = Some pr) by (cbn; by rewrite E1).
  destruct (decide (p = init_process)) as [Ep|Ep].
  - cbn zeta. change (threads (?x <| km := ?y |>)) with (threads x). rewrite threads_process_put, E4. fold T.
    assert (process_put sb p = sb) as -> by (unfold process_put; rewrite Ep, Z.eqb_refl; case (init_process =? 0); reflexivity).
    destruct (inv_kfree _ _ _ _ _ t I2 Ob2) as (g3 & I3 & A3). exists g3, (oset t None ob2), pr. split.
    { eapply inv_ext; [exact I3|done|]. intros q _ Hq. by rewrite zset_ne by congruence. }
    split; [done|]. split; [done|]. split; [exact E3|]. split; [|by intros].
    eapply spares_all_weaken; [|eapply spares_all_trans; [exact S2|by apply aside_all]]. apply list_subseteq_nil.
  - destruct (process_put_spec _ _ _ _ _ p pr I2 Hpr2 Ep) as (g3 & ob3 & I3 & T3 & L3 & S3 & O3 & _ & D3); [rewrite zset_eq; specialize (Hxp p); lia|done|].
    cbn zeta. change (threads (?x <| km := ?y |>)) with (threads x). rewrite threads_process_put, E4. fold T.
    rewrite process_put_threads in *. set (sc := process_put sb p) in *.
    assert (Hob3 : ob3 t = Some UOther).
    { rewrite O3; [done| |]; intros E; rewrite E in Ob2.
      - rewrite (proj2 (si_oproc _ _ _ _ _ I2 p)) in Ob2; [done|]. by rewrite Hpr2.
      - destruct (decide (p_vm pr = init_vm_map)) as [Ei|Ei].
        + destruct (live_not_static I2 (p_vm pr)) as [Hn _]; [by apply (ob_live I2 _ _ Ob2)|done].
        + rewrite (proj2 (si_ovm _ _ _ _ _ I2 (p_vm pr))) in Ob2; [done|]. split; [done|]. by apply (si_procvm _ _ _ _ _ I2 p). }
    destruct (inv_kfree_kinds _ _ _ _ _ t I3 Hob3) as (g4 & I4 & A4 & K4). exists g4, (oset t None ob3), pr. split.
    { eapply inv_ext; [exact I4|done|]. intros q _ _. unfold zset. repeat case_decide; subst; lia. }
    split; [done|]. split; [done|]. split; [rewrite <- E3; exact L3|]. split.
    + eapply spares_all_trans; [|eapply spares_all_trans; [exact S3|by apply aside_all]]. eapply spares_all_weaken; [|exact S2]. apply list_subseteq_nil.
    + intros vm Hni Hr1 Hvm Hr2 Hnv. destruct (D3 Hr1) as [D4 D5]. destruct (D5 vm) as (D6 & D7 & D8); [cbn; by rewrite E2|done|done|].
      split; [exact D4|]. split; [exact D6|]. split; [intros q; rewrite K4; apply D7|].
      assert (Hd : forall u kd : kind, kd = u \/ kd <> u) by (intros u kd; destruct (decide (kd = u)); auto).
      eapply releases_trans; [by intros [?|?]|eapply releases_weaken; [|exact R1|apply Hd]; by left|].
      eapply releases_trans; [by intros [?|?]|by apply releases_same|]. eapply releases_trans; [by intros [?|?]| |by apply releases_same].
      eapply releases_weaken; [|exact D8|apply Hd]. by right.
Qed.

End Sys.
End VmSys.
