(* ===== verification/VmCount.v ===== *)
(** * How many pages the operations take

    Bounds on the free pages that an operation uses, and that creating an address space, a
    process or a thread does not fail while there are pages. *)

From stdpp Require Import base numbers list gmap.
From Stdlib Require Import ZArith Lia Bool.
From S2P Require Import Prelude Kmem Alloc Cheap Mmu MmuInv MmuLife Vm VmInv VmView VmSys.

Module VmCount.
Import Kmem Mmu MmuInv MmuLife Vm VmInv VmView VmSys.

#[local] Opaque zero_page copy_entries fill seqZ set_phys copy_phys copy_from Z.to_nat.

(** From [st] to [st'] at most [n] pages go, if there are so many. *)
Definition spends (n : Z) (st st' : pmm) : Prop :=
  n <= free_count st < 18446744073709551615 -> free_count st - n <= free_count st' <= free_count st.

Lemma spends_same n st st' : 0 <= n -> free_count st' = free_count st -> spends n st st'.
Proof. intros Hn E H. lia. Qed.
Lemma spends_trans a b st1 st2 st3 : 0 <= a -> 0 <= b -> spends a st1 st2 -> spends b st2 st3 -> spends (a + b) st1 st3.
Proof. intros Ha Hb H1 H2 H. specialize (H1 ltac:(lia)). specialize (H2 ltac:(lia)). lia. Qed.
Lemma spends_weaken a b st st' : a <= b -> spends a st st' -> spends b st st'.
Proof. intros Hab H1 H. specialize (H1 ltac:(lia)). lia. Qed.

Lemma alloc_spends st : spends 1 st (snd (pmm_alloc st)).
Proof. intros H. unfold pmm_alloc. destruct (freelist st =? 0); cbn; [lia|]. unfold u64. rewrite Z.mod_small by lia. lia. Qed.

Section Count.
Context {BT : BootTables}.

Lemma map_spends st vm va p : spends 1 st (snd (mmu_vmap_map_user_4k st vm va p)).
Proof.
  intros H. pose proof (alloc_spends st H) as Ha. unfold mmu_vmap_map_user_4k, vmap_l3_for. destruct (l2_phys vm =? 0); [cbn; lia|].
  destruct (_ && _); [destruct (_ =? 0); cbn; lia|]. destruct (pmm_alloc st) as [l3 st1]. cbn [snd] in Ha. destruct (l3 =? 0) eqn:E; [cbn; lia|]. rewrite E. cbn. lia.
Qed.

Lemma put_spends st vm va f : spends 2 st (snd (put_page st vm va f)).
Proof.
  intros H. pose proof (alloc_spends st ltac:(lia)) as Ha. unfold put_page. destruct (freelist st =? 0) eqn:Ef; [unfold pmm_alloc; rewrite Ef; cbn; lia|].
  assert (E1 : free_count (snd (pmm_alloc st)) = free_count st - 1) by (unfold pmm_alloc; rewrite Ef; cbn; unfold u64; rewrite Z.mod_small by lia; lia).
  destruct (pmm_alloc st) as [p st1]. cbn [snd] in *. destruct (p =? 0) eqn:Ep; [cbn; lia|]. set (st2 := st1 <| mem := _ |>).
  pose proof (map_spends st2 vm va p) as H2. change (free_count st2) with (free_count st1) in H2. unfold spends in H2. change (free_count st2) with (free_count st1) in H2. specialize (H2 ltac:(lia)).
  destruct (mmu_vmap_map_user_4k st2 vm va p) as [r st3]. cbn [snd] in *. destruct (r <? 0); [|cbn; lia]. cbn. unfold pmm_free. rewrite Ep. cbn. unfold u64. rewrite Z.mod_small by lia. lia.
Qed.

Lemma alloc_pages_spends n : forall st vm va z, spends (2 * Z.of_nat n) st (snd (vmap_alloc_pages n st vm va z)).
Proof.
  induction n as [|n IH]; intros st vm va z; [apply spends_same; done|]. rewrite alloc_pages_S. pose proof (put_spends st vm va (zero_fill z)) as H1.
  destruct (put_page st vm va (zero_fill z)) as [r st1]. cbn [snd] in H1. destruct (r <? 0); [eapply spends_weaken; [|exact H1]; lia|].
  eapply spends_weaken; [|eapply spends_trans; [| |exact H1|apply IH]]; lia.
Qed.

Lemma kmalloc_spends k n : spends 1 (pm k) (pm (snd (kmalloc k n))).
Proof.
  unfold kmalloc. destruct (n =? 0); [by apply spends_same|]. destruct (List.find _ _) as [sz|]; [|by apply spends_same]. unfold kmem_cache_alloc.
  destruct (caches k !! sz) as [c|]; [|by apply spends_same].
  assert (Hpop : forall k1 s, free_count (pm (snd (slab_pop k1 sz s))) = free_count (pm k1)).
  { intros k1 s. unfold slab_pop. destruct (slabs k1 !! s); [|done]. destruct (caches k1 !! sz); done. }
  destruct (_ =? 0); [|apply spends_same; [done|apply Hpop]]. pose proof (alloc_spends (pm k)) as Ha. unfold grow_cache. destruct (pmm_alloc (pm k)) as [s p]. cbn [snd] in Ha.
  destruct (s =? 0) eqn:Es; [by apply spends_same|]. destruct (carve _ _ _ _ _) as [m fl]. rewrite Es. intros H. rewrite Hpop. cbn. by apply Ha.
Qed.


Lemma process_spends {ST : Statics} s a : spends 1 (pm (km s)) (pm (km (snd (process_alloc s a)))).
Proof.
  unfold process_alloc. destruct (a =? 0); [by apply spends_same|]. pose proof (kmalloc_spends (km s) SIZEOF_PROCESS) as H. destruct (kmalloc (km s) SIZEOF_PROCESS) as [p k]. cbn [snd] in H.
  destruct (p =? 0); [exact H|]. cbn [snd]. unfold vm_map_get. destruct (vms _ !! a); [|exact H]. destruct (negb _); exact H.
Qed.

(** ** Success *)

Context {ST : Statics} (K : ktab) (m0 : gmap Z Z).

Lemma world_count k vs g : world K m0 k vs g -> free_count (pm k) = zlen (g_pl g) /\ zlen (g_pl g) < 18446744073709551615.
Proof. intros W. destruct (w_repr K m0 W) as (_ & _ & _ & H1 & H2). done. Qed.

Lemma kmalloc_some k vs g n : world K m0 k vs g -> 0 < n <= 2048 -> 1 <= free_count (pm k) -> fst (kmalloc k n) <> 0.
Proof.
  intros W Hn Hc. destruct (w_kmem _ _ _ _ _ W) as (fl & sl & Hwf & HA). pose proof (w_classes _ _ _ _ _ W) as Hcl. unfold kmalloc. rewrite (proj2 (Z.eqb_neq n 0)) by lia.
  pose proof (size_class n) as Hs. destruct (List.find _ _) as [sz|]; [|lia]. destruct Hs as (Hin & _). destruct (classes_cache k sz Hcl Hin) as (c & Hcc & _).
  destruct (kmem_cache_alloc_cases k (g_live g) sz c) as [(_ & _ & Hf)|(p & k' & -> & (Hp & _) & _)]; [by exists (g_pl g), fl, sl|done| |done].
  destruct (w_repr K m0 W) as (Hch & _ & _ & Hcn & _). rewrite Hf in Hch. destruct (g_pl g); [|by destruct Hch as (<- & ? & _)]. unfold zlen in Hcn. cbn in Hcn. lia.
Qed.

Lemma alloc_some k vs g : world K m0 k vs g -> 1 <= free_count (pm k) -> fst (pmm_alloc (pm k)) <> 0.
Proof.
  intros W Hc. destruct (w_repr K m0 W) as (Hch & _ & _ & Hcn & _). unfold pmm_alloc. destruct (freelist (pm k) =? 0) eqn:E; [|by apply Z.eqb_neq in E].
  apply Z.eqb_eq in E. rewrite E in Hch. destruct (g_pl g); [|by destruct Hch as (<- & ? & _)]. unfold zlen in Hcn. cbn in Hcn. lia.
Qed.

Context (Hlay : boot_layout) (Hbm : boot_map K m0) (Hiv : init_vm_map <> 0).
Notation sys_inv := (sys_inv K m0).

Lemma create_some s g ob xv xp : sys_inv s g ob xv xp -> 4 <= free_count (pm (km s)) ->
  let '(a, s') := vm_map_create s in a <> 0 /\ free_count (pm (km s)) - 4 <= free_count (pm (km s')).
Proof.
  intros I Hc. pose proof (si_world _ _ _ _ _ _ _ I) as W. destruct (world_count _ _ _ W) as [_ Hlim]. destruct (world_count _ _ _ W) as [Hcn _].
  pose proof (kmalloc_some (km s) _ g SIZEOF_VM_MAP W ltac:(unfold SIZEOF_VM_MAP; lia) ltac:(lia)) as Hk. pose proof (kmalloc_spends (km s) SIZEOF_VM_MAP ltac:(lia)) as Hs.
  unfold vm_map_create. destruct (inv_kmalloc K m0 s g ob xv xp SIZEOF_VM_MAP I) as [E|(a & k1 & g1 & E & Ha & _ & I1 & _)]; rewrite E in *; cbn [fst snd] in *; [done|].
  rewrite (proj2 (Z.eqb_neq a 0) Ha). cbn [km]. pose proof (si_world _ _ _ _ _ _ _ I1) as W1. cbn in W1.
  set (vm := _ <| cwd := _ |>). change (pm (km (s <| km := k1 |>))) with (pm k1).
  assert (Hfr : Forall frame (g_pl g1) /\ forall p, p ∈ g_pl g1 -> p ∉ statics).
  { split; [apply Forall_forall|]; intros p Hp; apply (w_free _ _ _ _ _ W1) in Hp; [by apply (w_frame _ _ _ _ _ W1 p Free)|]. intros Hs1. apply (w_static _ _ _ _ _ W1) in Hs1. congruence. }
  destruct (create_spec K (pm k1) vm (g_pl g1) Hlay (w_boot_map K m0 Hlay Hbm _ _ _ W1) (w_repr K m0 W1) (proj1 Hfr) (proj2 Hfr)) as [(st' & pl' & Ev & Hp & Hr & _)|(x & y & z & pl' & st' & Epl & -> & _ & Hr & _)].
  - exfalso. destruct (g_pl g1) as [|x [|y [|z pl1]]] eqn:Epl; [..|].
    1-3: destruct (world_count _ _ _ W1) as [E1 _]; rewrite Epl in E1; unfold zlen in E1; cbn in E1; lia.
    revert Ev. unfold mmu_vmap_create. pose proof (w_repr K m0 W1) as R. rewrite Epl in R. destruct (pmm_alloc_pop _ _ _ R) as (s1 & -> & R1 & _). destruct (pmm_alloc_pop _ _ _ R1) as (s2 & -> & R2 & _).
    destruct (pmm_alloc_pop _ _ _ R2) as (s3 & -> & R3 & _). destruct Hfr as [Hfr _]. rewrite !Forall_cons in Hfr. destruct Hfr as (F1 & F2 & F3 & _).
    assert (forall q, frame q -> (q =? 0) = false) as Hnz by (intros q [[? _] _]; apply Z.eqb_neq; lia). rewrite (Hnz x F1), (Hnz y F2), (Hnz z F3). done.
  - cbn. split; [done|]. destruct Hr as (_ & _ & _ & Hr & _). destruct (world_count _ _ _ W1) as [E1 _]. rewrite Epl in E1. unfold zlen in *. cbn [length] in E1. lia.
Qed.

Lemma process_some s g ob xv xp a : sys_inv s g ob xv xp -> a <> 0 -> 1 <= free_count (pm (km s)) -> fst (process_alloc s a) <> 0.
Proof.
  intros I Ha Hc. pose proof (kmalloc_some (km s) _ g SIZEOF_PROCESS (si_world _ _ _ _ _ _ _ I) ltac:(unfold SIZEOF_PROCESS; lia) Hc) as Hk.
  unfold process_alloc. rewrite (proj2 (Z.eqb_neq a 0) Ha). destruct (kmalloc (km s) SIZEOF_PROCESS) as [p k]. cbn [fst] in Hk. rewrite (proj2 (Z.eqb_neq p 0) Hk). done.
Qed.

Lemma thread_some s g ob xv xp c : sys_inv s g ob xv xp -> 2 <= free_count (pm (km s)) ->
  let '(t, s') := thread_create s c in t <> 0 /\ free_count (pm (km s)) - 2 <= free_count (pm (km s')).
Proof.
  intros I Hc. pose proof (si_world _ _ _ _ _ _ _ I) as W. destruct (world_count _ _ _ W) as [Hcn Hlim].
  pose proof (kmalloc_some (km s) _ g SIZEOF_KTHREAD W ltac:(unfold SIZEOF_KTHREAD; lia) ltac:(lia)) as Hk. pose proof (kmalloc_spends (km s) SIZEOF_KTHREAD ltac:(lia)) as Hs.
  unfold thread_create. destruct (inv_kmalloc K m0 s g ob xv xp SIZEOF_KTHREAD I) as [E|(t & k1 & g1 & E & Ht & _ & I1 & _)]; rewrite E in *; cbn [fst snd] in *; [done|].
  rewrite (proj2 (Z.eqb_neq t 0) Ht). change (pm (km (s <| km := k1 |>))) with (pm k1). pose proof (si_world _ _ _ _ _ _ _ I1) as W1. cbn in W1.
  pose proof (alloc_some k1 _ g1 W1 ltac:(lia)) as Hn. pose proof (alloc_spends (pm k1) ltac:(lia)) as Hs1. destruct (pmm_alloc (pm k1)) as [stack st]. cbn [fst snd] in *.
  rewrite (proj2 (Z.eqb_neq stack 0) Hn). split; [done|]. cbn zeta. set (p := match _ with Some c0 => _ | None => _ end). destruct (procs _ !! p); [destruct (negb _)|]; cbn; lia.
Qed.

End Count.
End VmCount.
