(* ===== verification/VmCalls.v ===== *)
(** * The system calls on address spaces keep the invariant

    [brk], [mmap], [munmap], [fork] and [spawn] of Vm.v, with the invariant of VmSys.v:
    what each does to the bytes of the address space it works on, and that it leaves all
    others alone. *)

From stdpp Require Import base numbers list gmap.
From Stdlib Require Import ZArith Lia Bool.
From S2P Require Import Prelude Kmem Alloc Cheap Mmu MmuInv MmuLife Vm VmInv VmView VmSys.

Module VmCalls.
Import Kmem Mmu MmuInv MmuLife Vm VmInv VmView VmSys.

#[local] Opaque zero_page copy_entries fill seqZ kmalloc kfree set_phys copy_phys copy_from Z.to_nat.

Section Calls.
Context {BT : BootTables} {ST : Statics} (K : ktab) (m0 : gmap Z Z) (Hlay : boot_layout) (Hbm : boot_map K m0).
Context (Hiv : init_vm_map <> 0) (Hip : init_process <> 0).
Notation world := (world K m0).
Notation sys_inv := (sys_inv K m0).

(** All address spaces but [hs] are as before; pages may have been lost. *)
Definition others (hs : list Z) (s : vsys) (g : ghost) (s' : vsys) (g' : ghost) : Prop :=
  (forall h vm, h ∉ hs -> vms s !! h = Some vm -> vms s' !! h = Some vm /\ spares h (km s) g (km s') g') /\ same_dom g g'.

Lemma spares_others hs s g s' g' : spares_all hs s g s' g' -> others hs s g s' g'.
Proof. intros (H1 & _ & H2). by split. Qed.
Lemma others_trans hs s1 g1 s2 g2 s3 g3 : others hs s1 g1 s2 g2 -> others hs s2 g2 s3 g3 -> others hs s1 g1 s3 g3.
Proof.
  intros (A1 & A3) (B1 & B3). split.
  - intros h vm Hh Hv. destruct (A1 h vm Hh Hv) as [Hv2 H1]. destruct (B1 h vm Hh Hv2) as [Hv3 H2]. split; [done|by eapply spares_trans].
  - intros p. by rewrite (B3 p), (A3 p).
Qed.
Lemma others_refl hs s g : others hs s g s g.
Proof. apply spares_others, spares_all_refl. Qed.
Lemma others_weaken hs hs' s g s' g' : hs ⊆ hs' -> others hs s g s' g' -> others hs' s g s' g'.
Proof. intros H (A1 & A2). split; [|done]. intros h vm Hh. apply A1. intros Hin. by apply Hh, H. Qed.

(** What a call on the address space [h] leaves: the invariant, and everything that is not
    of [h]. *)
Record on_space (s : vsys) (g : ghost) (ob : Z -> option use) (xv xp : Z -> Z) (h : Z) (s' : vsys) (g' : ghost) : Prop := mk_on_space {
  os_inv : sys_inv s' g' ob xv xp;
  os_others : others [h] s g s' g';
  os_procs : procs s' = procs s;
  os_threads : threads s' = threads s;
  os_launch : launch s' = launch s }.

Lemma on_space_refl s g ob xv xp h : sys_inv s g ob xv xp -> on_space s g ob xv xp h s g.
Proof. intros I. constructor; [done|apply others_refl|done..]. Qed.

Lemma on_space_trans s g ob xv xp h s1 g1 s2 g2 : on_space s g ob xv xp h s1 g1 -> on_space s1 g1 ob xv xp h s2 g2 -> on_space s g ob xv xp h s2 g2.
Proof. intros [A1 A2 A3 A4 A5] [B1 B2 B3 B4 B5]. constructor; [done|by eapply others_trans|congruence..]. Qed.

Lemma on_space_moves s g ob xv xp h vm st' g' vm' : sys_inv s g ob xv xp -> vms s !! h = Some vm -> h <> init_vm_map ->
  world ((km s) <| pm := st' |>) (delete init_vm_map (vms s)) g' -> moves h (km s) g ((km s) <| pm := st' |>) g' ->
  same_tables vm vm' -> refs vm' = refs vm -> on_space s g ob xv xp h (set_vm (set_pm s st') h vm') g'.
Proof.
  intros I Hv Hne W M E Er. constructor; [by eapply (inv_space K m0)| |done..]. split; [|by eapply moves_dom].
  intros h' vm1 Hh Hv1. assert (h' <> h) by (intros ->; apply Hh; left). split; [cbn; by rewrite lookup_insert_ne|].
  by apply (moves_spares _ _ _ _ _ _ M).
Qed.

Lemma same_tables_refl vm : same_tables vm vm.
Proof. done. Qed.

Lemma on_space_pm s g ob xv xp h vm st' g' : sys_inv s g ob xv xp -> vms s !! h = Some vm -> h <> init_vm_map ->
  world ((km s) <| pm := st' |>) (delete init_vm_map (vms s)) g' -> moves h (km s) g ((km s) <| pm := st' |>) g' ->
  on_space s g ob xv xp h (set_pm s st') g'.
Proof.
  intros I Hv Hne W M. pose proof (on_space_moves s g ob xv xp h vm st' g' vm I Hv Hne W M (same_tables_refl vm) eq_refl) as H.
  assert (set_vm (set_pm s st') h vm = set_pm s st') as <-; [|done]. unfold set_vm, set_pm. cbn. by rewrite insert_id by exact Hv.
Qed.

Lemma heap_not_init s g ob xv xp h vm : sys_inv s g ob xv xp -> vms s !! h = Some vm -> heap_brk vm <> 0 -> h <> init_vm_map.
Proof. intros I Hv Hb ->. destruct (si_init_vm _ _ _ _ _ _ _ I) as (vm1 & H1 & H2 & _). congruence. Qed.

(** ** brk *)

Definition brk_view (vm : vm_map) (addr : Z) (old new : Z -> option Z) (pl' : list Z) (r : Z) : Prop :=
  let lo := page_round (heap_brk vm) in let hi := page_round addr in
  if hi >? lo then
    exists j, (r = addr /\ j = Z.to_nat ((hi - lo) / PAGE_SIZE) \/ r = -1 /\ (j < Z.to_nat ((hi - lo) / PAGE_SIZE))%nat /\ (length pl' <= 1)%nat)
      /\ forall x, new x = if decide (vpn x ∈ vpns lo j) then Some 0 else old x
  else r = addr /\ forall x, new x = if decide (vpn x ∈ vpns hi (rounds hi lo)) then None else old x.

Lemma brk_spec s g ob xv xp t addr h vm tr : sys_inv s g ob xv xp -> cur_vm s t = Some h -> vms s !! h = Some vm -> heap_brk vm <> 0 ->
  g_tree g !! h = Some tr -> EXEC_HEAP_VA <= addr <= EXEC_HEAP_VA + EXEC_HEAP_SIZE ->
  exists r s' g' tr', sys_brk_impl s t addr = (r, s') /\ on_space s g ob xv xp h s' g' /\ g_tree g' !! h = Some tr'
  /\ vms s' !! h = Some (if r =? -1 then vm else vm <| heap_brk := addr |>)
  /\ brk_view vm addr (view (mem (pm (km s))) tr) (view (mem (pm (km s'))) tr') (g_pl g') r.
Proof.
  intros I Hc Hv Hb Ht Ha. pose proof (heap_not_init _ _ _ _ _ _ _ I Hv Hb) as Hne. pose proof (si_world _ _ _ _ _ _ _ I) as W.
  pose proof (space_lookup (s := s) h vm Hv Hne) as Hv'. unfold Cheap.EXEC_HEAP_VA, Cheap.EXEC_HEAP_SIZE in Ha.
  unfold sys_brk_impl, brk_view. rewrite Hc, Hv, (proj2 (Z.eqb_neq _ _) Hb), (proj2 (Z.eqb_neq addr 0)) by lia.
  assert ((addr <? EXEC_HEAP_VA) || (addr >? EXEC_HEAP_VA + EXEC_HEAP_SIZE) = false) as ->
    by (unfold Cheap.EXEC_HEAP_VA, Cheap.EXEC_HEAP_SIZE; apply orb_false_intro; [apply Z.ltb_ge|rewrite Z.gtb_ltb; apply Z.ltb_ge]; lia).
  cbn zeta. set (lo := page_round (heap_brk vm)). set (hi := page_round addr). destruct (hi >? lo) eqn:Egt.
  - destruct (alloc_pages_spec K m0 Hbm Hv' true (Z.to_nat ((hi - lo) / PAGE_SIZE)) (km s) g tr lo W Ht) as (r & st' & g' & tr' & j & -> & W' & M & Ht' & Hr & Hvw & _).
    destruct Hr as [[-> Hj]|(-> & Hj & Hl)]; cbn [Z.ltb Z.compare].
    + exists addr, (set_vm (set_pm s st') h (vm <| heap_brk := addr |>)), g', tr'. split; [reflexivity|]. split; [by eapply on_space_moves|].
      split; [exact Ht'|]. rewrite (proj2 (Z.eqb_neq addr (-1))) by lia. split; [apply lookup_insert_eq|]. exists j. split; [by left|exact Hvw].
    + exists (-1), (set_pm s st'), g', tr'. split; [reflexivity|]. split; [by eapply on_space_pm|]. split; [exact Ht'|]. split; [exact Hv|].
      exists j. split; [by right|exact Hvw].
  - exists addr. rewrite (proj2 (Z.eqb_neq addr (-1))) by lia. rewrite Z.gtb_ltb in Egt. apply Z.ltb_ge in Egt. destruct (hi <? lo) eqn:Elt.
    + destruct (unmap_range_spec K m0 Hbm Hv' (rounds hi lo) (km s) g tr hi W Ht) as (g' & tr' & W' & M & Ht' & _ & _ & Hvw).
      eexists _, g', tr'. split; [reflexivity|]. split; [by eapply on_space_moves|]. split; [exact Ht'|]. split; [apply lookup_insert_eq|]. by split.
    + exists (set_vm s h (vm <| heap_brk := addr |>)), g, tr. split; [reflexivity|]. split.
      { assert (set_pm s (pm (km s)) = s) as E by (unfold set_pm; rewrite <- km_same; by destruct s). rewrite <- E at 2.
        apply (on_space_moves _ _ _ _ _ _ vm); [done..|rewrite <- km_same; exact W|rewrite <- km_same; apply moves_refl|done|done]. }
      split; [exact Ht|]. split; [apply lookup_insert_eq|]. split; [done|]. apply Z.ltb_ge in Elt. assert (hi = lo) as -> by lia.
      intros x. unfold rounds. rewrite Z.sub_diag. change (Z.to_nat ((0 + PAGE_SIZE - 1) / PAGE_SIZE)) with O. by rewrite decide_False by apply not_elem_of_nil.
Qed.

(** Whatever the arguments are. *)
Lemma brk_inv s g ob xv xp t addr : sys_inv s g ob xv xp ->
  exists r s' g', sys_brk_impl s t addr = (r, s') /\ ((s' = s /\ g' = g) \/ exists h, cur_vm s t = Some h /\ on_space s g ob xv xp h s' g').
Proof.
  intros I. destruct (cur_vm s t) as [h|] eqn:Hc; [|unfold sys_brk_impl; rewrite Hc; exists (-1), s, g; split; [done|by left]].
  destruct (cur_vm_some K m0 I t h Hc) as (vm & _ & _ & Hv & _). destruct (decide (heap_brk vm = 0)) as [Hb|Hb].
  { unfold sys_brk_impl. rewrite Hc, Hv, Hb. exists (-1), s, g. split; [done|by left]. }
  destruct (decide (EXEC_HEAP_VA <= addr <= EXEC_HEAP_VA + EXEC_HEAP_SIZE)) as [Ha|Ha].
  - destruct (w_tree _ _ _ _ _ (si_world _ _ _ _ _ _ _ I) h vm) as (tr & Ht & _); [apply space_lookup; [done|by eapply heap_not_init]|].
    destruct (brk_spec s g ob xv xp t addr h vm tr I Hc Hv Hb Ht Ha) as (r & s' & g' & _ & E & O & _). exists r, s', g'. split; [done|]. right. by exists h.
  - unfold sys_brk_impl. rewrite Hc, Hv, (proj2 (Z.eqb_neq _ _) Hb). destruct (addr =? 0); [eexists _, s, g; split; [done|by left]|].
    assert ((addr <? EXEC_HEAP_VA) || (addr >? EXEC_HEAP_VA + EXEC_HEAP_SIZE) = true) as ->; [|exists (-1), s, g; split; [done|by left]].
    apply orb_true_iff. rewrite Z.ltb_lt, Z.gtb_ltb, Z.ltb_lt. lia.
Qed.

(** ** munmap *)

Lemma unmap_null n : forall st vm va, l2_phys vm = 0 -> unmap_range n st vm va = st.
Proof.
  induction n as [|n IH]; intros st vm va E; [done|]. cbn [unmap_range].
  assert (mmu_vmap_unmap_user_4k st vm va = (0, st)) as -> by (unfold mmu_vmap_unmap_user_4k, l3_entry; by rewrite E). by apply IH.
Qed.

Lemma set_pm_same s : set_pm s (pm (km s)) = s.
Proof. unfold set_pm. rewrite <- km_same. by destruct s. Qed.

Lemma munmap_spec s g ob xv xp t addr len h vm tr : sys_inv s g ob xv xp -> cur_vm s t = Some h -> vms s !! h = Some vm -> h <> init_vm_map ->
  g_tree g !! h = Some tr -> len <> 0 -> ANON_VA <= addr -> u64 (addr + len) <= ANON_VA + ANON_SIZE ->
  exists s' g' tr', sys_munmap_impl s t addr len = (0, s') /\ on_space s g ob xv xp h s' g' /\ g_tree g' !! h = Some tr' /\ no_loss g g' /\ vms s' = vms s
  /\ forall x, view (mem (pm (km s'))) tr' x
       = if decide (vpn x ∈ vpns addr (rounds addr (u64 (addr + page_round len)))) then None else view (mem (pm (km s))) tr x.
Proof.
  intros I Hc Hv Hne Ht Hl Ha Hb. pose proof (space_lookup (s := s) h vm Hv Hne) as Hv'. unfold sys_munmap_impl.
  rewrite Hc, Hv, (proj2 (Z.eqb_neq len 0) Hl), (proj2 (Z.ltb_ge addr ANON_VA) Ha), Z.gtb_ltb, (proj2 (Z.ltb_ge _ _) Hb). cbn [orb].
  destruct (unmap_range_spec K m0 Hbm Hv' (rounds addr (u64 (addr + page_round len))) (km s) g tr addr (si_world _ _ _ _ _ _ _ I) Ht) as (g' & tr' & W' & M & Ht' & Hnl & _ & Hvw).
  eexists _, g', tr'. split; [reflexivity|]. split; [by eapply on_space_pm|]. split_and!; done.
Qed.

Lemma munmap_inv s g ob xv xp t addr len : sys_inv s g ob xv xp ->
  exists r s' g', sys_munmap_impl s t addr len = (r, s') /\ vms s' = vms s /\ ((s' = s /\ g' = g) \/ exists h, cur_vm s t = Some h /\ on_space s g ob xv xp h s' g').
Proof.
  intros I. assert (Hno : forall r : Z, exists r' s' g', (r, s) = (r', s') /\ vms s' = vms s /\ ((s' = s /\ g' = g) \/ exists h, cur_vm s t = Some h /\ on_space s g ob xv xp h s' g')).
  { intros r. exists r, s, g. split; [done|]. split; [done|by left]. }
  destruct (cur_vm s t) as [h|] eqn:Hc; [|unfold sys_munmap_impl; rewrite Hc; apply Hno].
  destruct (cur_vm_some K m0 I t h Hc) as (vm & _ & _ & Hv & _).
  destruct (decide (len <> 0 /\ ANON_VA <= addr /\ u64 (addr + len) <= ANON_VA + ANON_SIZE)) as [(H1 & H2 & H3)|Hn].
  - destruct (decide (h = init_vm_map)) as [->|Hne].
    + unfold sys_munmap_impl. rewrite Hc, Hv, (proj2 (Z.eqb_neq len 0) H1), (proj2 (Z.ltb_ge addr ANON_VA) H2), Z.gtb_ltb, (proj2 (Z.ltb_ge _ _) H3). cbn [orb].
      destruct (si_init_vm _ _ _ _ _ _ _ I) as (vm1 & E1 & _ & E2 & _). rewrite Hv in E1. injection E1 as <-. rewrite unmap_null, set_pm_same by done. apply Hno.
    + destruct (w_tree _ _ _ _ _ (si_world _ _ _ _ _ _ _ I) h vm (space_lookup h vm Hv Hne)) as (tr & Ht & _).
      destruct (munmap_spec s g ob xv xp t addr len h vm tr I Hc Hv Hne Ht H1 H2 H3) as (s' & g' & _ & E & O & _ & _ & Ev & _). exists 0, s', g'. split; [done|]. split; [done|]. right. by exists h.
  - unfold sys_munmap_impl. rewrite Hc, Hv. destruct (len =? 0) eqn:El; [apply Hno|]. apply Z.eqb_neq in El.
    assert ((addr <? ANON_VA) || (u64 (addr + len) >? ANON_VA + ANON_SIZE) = true) as ->; [|apply Hno].
    apply orb_true_iff. rewrite Z.ltb_lt, Z.gtb_ltb, Z.ltb_lt. lia.
Qed.

(** ** The static address space has no tables of its own *)

Lemma world_held_write k vs g p m' : world k vs g -> g_kind g p = Some Held -> same_except (mem (pm k)) m' [p] ->
  world (k <| pm := (pm k) <| mem := m' |> |>) vs g.
Proof.
  intros W Hp Hs. destruct g as [pl live kd tree]. cbn in Hp. apply (world_pool K m0 k vs (mk_ghost pl live kd tree) _ kd pl [p] W).
  - eapply (pmm_repr_frame (pm k)); [apply (w_repr K m0 W)|reflexivity|reflexivity|exact Hs|]. intros q Hq ->%list_elem_of_singleton.
    apply (w_free _ _ _ _ _ W) in Hq. cbn in Hq. congruence.
  - exact Hs.
  - intros q ->%list_elem_of_singleton. by right.
  - intros q. by left.
  - apply (w_free _ _ _ _ _ W).
Qed.

Lemma alloc_null s g ob xv xp n vm va : sys_inv s g ob xv xp -> l2_phys vm = 0 ->
  exists r st' g', vmap_alloc_pages n (pm (km s)) vm va true = (r, st') /\ sys_inv (set_pm s st') g' ob xv xp /\ spares_all [] s g (set_pm s st') g'
  /\ (r = 0 /\ n = O \/ r = -1 /\ n <> O).
Proof.
  intros I E. pose proof (si_world _ _ _ _ _ _ _ I) as W. destruct n as [|n]; cbn [vmap_alloc_pages].
  { exists 0, (pm (km s)), g. rewrite set_pm_same. split_and!; [done|done|apply spares_all_refl|by left]. }
  destruct (g_pl g) as [|p pl] eqn:Epl.
  - pose proof (w_repr K m0 W) as Hr. rewrite Epl in Hr. rewrite (pmm_alloc_none _ Hr). cbn [Z.eqb]. exists (-1), (pm (km s)), g. rewrite set_pm_same.
    split_and!; [done|done|apply spares_all_refl|by right].
  - destruct (world_alloc K m0 (km s) _ g p pl Held W Epl) as (st & Ea & W1 & Hz & Hf & Hs); [by left|]. rewrite Ea, Hz.
    set (g1 := mk_ghost pl _ _ _) in W1. assert (Hk1 : g_kind g1 p = Some Held) by (cbn; unfold kset; apply decide_True; left).
    assert (Hpp : page p) by apply (w_frame _ _ _ _ _ W1 p _ Hk1).
    pose proof (proj2 (set_phys_spec (Z.to_nat PAGE_SIZE) (mem st) p 0) p Hpp ltac:(lia) ltac:(unfold PAGE_SIZE; lia)) as Hs2.
    set (m2 := set_phys (Z.to_nat PAGE_SIZE) (mem st) p 0) in *. clearbody m2. pose proof (world_held_write _ _ _ p m2 W1 Hk1 Hs2) as W2.
    destruct (world_release K m0 _ _ _ p Held W2 Hk1) as [W3 Hs3]; [by left|].
    unfold mmu_vmap_map_user_4k, vmap_l3_for. rewrite E. cbn [Z.eqb Z.ltb Z.compare].
    set (st3 := pmm_free _ p) in *. set (g3 := mk_ghost (p :: _) _ _ _) in W3.
    assert (Hk : forall q, g_kind g3 q = g_kind g q).
    { intros q. cbn. unfold kset. repeat case_decide; try done. by rewrite (proj1 (list_elem_of_singleton q p)). }
    assert (Hsm : same_except (mem (pm (km s))) (mem st3) [p]).
    { eapply same_except_trans; [exact Hs|]. eapply same_except_trans; [exact Hs2|exact Hs3]. }
    exists (-1), st3, g3. split; [done|]. split; [|split; [|by right]].
    + apply (inv_km K m0 s g ob xv xp _ g3 ob I W3); [apply I|done| |]; intros; try intros q; by rewrite Hk.
    + split; [|split; intros q; by rewrite Hk]. intros h vm1 _ Hv1. split; [done|]. constructor; [intros q; by rewrite Hk| |done].
      intros x Hx. apply Hsm. intros Ex%list_elem_of_singleton. rewrite Ex in Hx. congruence.
Qed.

(** ** Files *)

Section Files.
Context {F : Type} (ops : file_ops F).

(** [read] gives no more than it was asked for. *)
Definition bounded_reads : Prop := forall fs n b fs', fo_read ops fs n = (Some b, fs') -> zlen b <= n.

(** What a file that can be read does: [R fs rest] says that [rest] is what is left to read.
    [read] gives some of it, and nothing only at the end; [open] starts at the beginning;
    [seek] skips. *)
Record file_laws (content : bytes) (R : F -> bytes -> Prop) : Prop := mk_file_laws {
  fl_read : forall fs rest n, 0 < n -> R fs rest ->
    exists b rest' fs', fo_read ops fs n = (Some b, fs') /\ rest = b ++ rest' /\ zlen b <= n /\ (b = [] -> rest = []) /\ R fs' rest';
  fl_open : forall fs fs', match fo_open ops with Some o => o (fo_iget ops fs) | None => (true, fo_iget ops fs) end = (true, fs') -> R fs' content;
  fl_seek : forall fs sk off r fs', fo_seek ops = Some sk -> R fs content -> sk fs off 0 = (r, fs') -> 0 <= r -> 0 <= off -> R fs' (drop (Z.to_nat off) content) }.

Lemma read_page_same (Hb : bounded_reads) a f : page a -> forall fs m pos, 0 <= pos -> same_except m (fst (read_page f ops fs m a pos)) [a].
Proof.
  intros Ha. induction f as [|f IH]; intros fs m pos Hpos; cbn [read_page]; [done|]. destruct (pos <? PAGE_SIZE) eqn:E; [|done]. apply Z.ltb_lt in E.
  destruct (fo_read ops fs (PAGE_SIZE - pos)) as [[b|] fs1] eqn:Er; [|done]. apply Hb in Er. destruct (zlen b <=? 0) eqn:E0; [done|]. apply Z.leb_gt in E0.
  eapply same_except_trans; [|apply IH; lia]. apply copy_from_spec; [done|lia|]. unfold zlen, PAGE_SIZE in *. lia.
Qed.

Lemma byte_app b rest i : byte_of (b ++ rest) i = if decide (0 <= i < zlen b) then byte_of b i else if decide (i < 0) then byte_of (b ++ rest) i else byte_of rest (i - zlen b).
Proof.
  unfold byte_of, zlen, bytes in *. case_decide as H1; [by rewrite lookup_app_l by lia|]. case_decide as H2; [done|].
  rewrite lookup_app_r by lia. do 2 f_equal. lia.
Qed.

Lemma read_page_bytes content R (L : file_laws content R) a f : forall fs rest m pos, 0 <= pos <= PAGE_SIZE -> PAGE_SIZE - pos <= Z.of_nat f -> R fs rest ->
  let '(m', fs') := read_page f ops fs m a pos in
  (forall x, ld8 m' x = if decide (a + pos <= x < a + pos + Z.min (PAGE_SIZE - pos) (zlen rest)) then byte_of rest (x - (a + pos)) mod 256 else ld8 m x)
  /\ R fs' (drop (Z.to_nat (PAGE_SIZE - pos)) rest).
Proof.
  induction f as [|f IH]; intros fs rest m pos Hpos Hf HR; cbn [read_page].
  { assert (PAGE_SIZE - pos = 0) as -> by lia. change (Z.to_nat 0) with O. rewrite drop_0. split; [|done]. intros x. pose proof (zlen_nonneg rest). by rewrite decide_False by lia. }
  destruct (pos <? PAGE_SIZE) eqn:E; [apply Z.ltb_lt in E|apply Z.ltb_ge in E].
  2:{ assert (PAGE_SIZE - pos = 0) as -> by lia. change (Z.to_nat 0) with O. rewrite drop_0. split; [|done]. intros x. pose proof (zlen_nonneg rest). by rewrite decide_False by lia. }
  destruct (fl_read _ _ L fs rest (PAGE_SIZE - pos) ltac:(lia) HR) as (b & rest' & fs1 & -> & -> & Hb & Hnil & HR').
  destruct (zlen b <=? 0) eqn:E0; [apply Z.leb_le in E0|apply Z.leb_gt in E0].
  - assert (b = []) as -> by (destruct b; [done|unfold zlen in E0; cbn in E0; lia]). specialize (Hnil eq_refl). cbn [app] in Hnil |- *. rewrite Hnil in *.
    rewrite drop_nil. split; [|done]. intros x. change (zlen (@nil Z)) with 0. by rewrite decide_False by lia.
  - specialize (IH fs1 rest' (copy_from (length b) m (a + pos) (byte_of b) 0) (pos + zlen b) ltac:(lia) ltac:(lia) HR').
    destruct (read_page f ops fs1 _ a (pos + zlen b)) as [m' fs']. destruct IH as [IH1 IH2]. split.
    + intros x. rewrite IH1, (proj1 (copy_from_spec (length b) m (a + pos) (byte_of b) 0)).
      assert (El : zlen (b ++ rest') = zlen b + zlen rest') by (unfold zlen; rewrite length_app; lia). rewrite El. pose proof (zlen_nonneg rest') as Hr0.
      fold (zlen b). case_decide as D1.
      * rewrite decide_True by lia. rewrite byte_app, decide_False, decide_False by lia. do 2 f_equal. lia.
      * case_decide as D2.
        -- rewrite decide_True by lia. rewrite byte_app, decide_True by lia. do 2 f_equal.
        -- by rewrite decide_False by lia.
    + rewrite drop_app_ge by (unfold zlen in *; lia). assert (Z.to_nat (PAGE_SIZE - pos) - length b = Z.to_nat (PAGE_SIZE - (pos + zlen b)))%nat as -> by (unfold zlen in *; lia). exact IH2.
Qed.

Lemma read_pages_spec (Hb : bounded_reads) vs h vm (Hv : vs !! h = Some vm) tr n : forall k g fs va, world k vs g -> g_tree g !! h = Some tr -> va mod 4096 = 0 ->
  exists st' fs' g', read_pages n ops fs (pm k) vm va = (st', fs') /\ world (k <| pm := st' |>) vs g' /\ moves h k g (k <| pm := st' |>) g'
  /\ g_tree g' !! h = Some tr /\ no_loss g g'
  /\ forall content R rest, file_laws content R -> R fs rest -> 0 <= va -> va + 4096 * Z.of_nat n <= 2 ^ 30 -> (forall v, v ∈ vpns va n -> is_Some (t_pg tr !! v)) ->
     forall x, 0 <= x < 2 ^ 30 -> view (mem st') tr x
       = if decide (va <= x < va + Z.min (4096 * Z.of_nat n) (zlen rest)) then Some (byte_of rest (x - va) mod 256) else view (mem (pm k)) tr x.
Proof.
  induction n as [|n IH]; intros k g fs va W Ht Hva; cbn [read_pages].
  { exists (pm k), fs, g. rewrite <- km_same. split_and!; [done|exact W|apply moves_refl|exact Ht|intros q; reflexivity|]. intros content R rest _ _ _ _ _ x _.
    pose proof (zlen_nonneg rest). by rewrite decide_False by lia. }
  pose proof (w_tree_eq K m0 W h vm tr Hv Ht) as Htr. rewrite (kva_tree (bm_ok _ _ Hbm) Htr), Hva.
  destruct (t_pg tr !! vpn va) as [a|] eqn:Ea.
  2:{ rewrite Z.eqb_refl. exists (pm k), fs, g. rewrite <- km_same. split_and!; [done|exact W|apply moves_refl|exact Ht|intros q; reflexivity|]. intros content R rest _ _ _ _ Hm.
    destruct (Hm (vpn va)) as [? ?]; [left|congruence]. }
  rewrite Z.add_0_r. destruct (pg_page _ _ _ _ _ _ _ _ _ _ W Hv Ht Ea) as [Ha _]. rewrite (proj2 (Z.eqb_neq a 0)) by (destruct Ha; lia).
  pose proof (read_page_same Hb a (Z.to_nat PAGE_SIZE) Ha fs (mem (pm k)) 0 ltac:(lia)) as Hs.
  assert (Hby : forall content R rest, file_laws content R -> R fs rest -> let '(m', fs') := read_page (Z.to_nat PAGE_SIZE) ops fs (mem (pm k)) a 0 in
    (forall y, ld8 m' y = if decide (a <= y < a + Z.min 4096 (zlen rest)) then byte_of rest (y - a) mod 256 else ld8 (mem (pm k)) y) /\ R fs' (drop 4096 rest)).
  { intros content R rest L HR. pose proof (read_page_bytes content R L a (Z.to_nat PAGE_SIZE) fs rest (mem (pm k)) 0 ltac:(unfold PAGE_SIZE; lia) ltac:(unfold PAGE_SIZE; lia) HR) as H.
    destruct (read_page _ _ _ _ _ _) as [m' fs']. rewrite Z.add_0_r, Z.sub_0_r in H. exact H. }
  destruct (read_page (Z.to_nat PAGE_SIZE) ops fs (mem (pm k)) a 0) as [m1 fs1]. cbn [fst] in Hs.
  destruct (write_world K m0 W Hv Ht (vpn va) a m1 Ea Hs) as (g1 & W1 & M1 & Ht1 & Hnl1 & _).
  destruct (IH _ g1 fs1 (u64 (va + PAGE_SIZE)) W1 Ht1) as (st2 & fs2 & g2 & E2 & W2 & M2 & Ht2 & Hnl2 & Hc); [unfold u64, PAGE_SIZE; Z.to_euclidean_division_equations; lia|].
  exists st2, fs2, g2. split; [exact E2|]. split; [exact W2|]. split; [by eapply moves_trans|]. split; [exact Ht2|]. split; [intros q; by rewrite (Hnl2 q)|].
  intros content R rest L HR H0 Hlim Hm x Hx. destruct (Hby content R rest L HR) as [B1 B2]. pose proof (zlen_nonneg rest) as Hz.
  assert (Hu : u64 (va + PAGE_SIZE) = va + 4096) by (unfold u64, PAGE_SIZE; apply Z.mod_small; lia).
  rewrite (Hc content R (drop 4096 rest) L B2); [|lia..|intros v Hin; apply Hm; by right|done]. rewrite Hu.
  change (mem (pm (k <| pm := (pm k) <| mem := m1 |> |>))) with m1.
  rewrite (chunk_view K m0 Hv k g tr m1 va a (fun i => byte_of rest i mod 256) (Z.min 4096 (zlen rest)) W Ht Ea); [|lia..| |done].
  2:{ intros y. rewrite B1, Hva, Z.add_0_r. done. }
  assert (Hd : zlen (drop 4096 rest) = Z.max 0 (zlen rest - 4096)) by (unfold zlen; rewrite length_drop; lia). rewrite Hd. unfold in_range.
  repeat case_decide; try lia; [|done..]. do 2 f_equal. unfold byte_of, bytes. rewrite lookup_drop. do 2 f_equal. lia.
Qed.

(** The file part of [mmap]. *)
Lemma mmap_file_spec (Hb : bounded_reads) vs h vm (Hv : vs !! h = Some vm) tr n k g fs base off : world k vs g -> g_tree g !! h = Some tr -> base mod 4096 = 0 ->
  exists ost fs', mmap_file ops fs (pm k) vm base n off = (ost, fs') /\ match ost with
  | None => exists o fs1, fo_open ops = Some o /\ o (fo_iget ops fs) = (false, fs1)
  | Some st' =>
      exists g', world (k <| pm := st' |>) vs g' /\ moves h k g (k <| pm := st' |>) g' /\ g_tree g' !! h = Some tr /\ no_loss g g'
      /\ forall content R, file_laws content R -> 0 <= off < 2 ^ 63 -> (off > 0 -> exists sk, fo_seek ops = Some sk /\ forall fs o, 0 <= fst (sk fs o 0)) ->
         0 <= base -> base + 4096 * Z.of_nat n <= 2 ^ 30 -> (forall v, v ∈ vpns base n -> is_Some (t_pg tr !! v)) ->
         let rest := drop (Z.to_nat off) content in
         forall x, 0 <= x < 2 ^ 30 -> view (mem st') tr x
           = if decide (base <= x < base + Z.min (4096 * Z.of_nat n) (zlen rest)) then Some (byte_of rest (x - base) mod 256) else view (mem (pm k)) tr x
  end.
Proof.
  intros W Ht Hbase. unfold mmap_file. assert (Hop : forall content R fs2, file_laws content R ->
    match fo_open ops with Some o => o (fo_iget ops fs) | None => (true, fo_iget ops fs) end = (true, fs2) -> R fs2 content) by (intros content R fs2 L; apply (fl_open _ _ L)).
  destruct (match fo_open ops with Some o => o (fo_iget ops fs) | None => (true, fo_iget ops fs) end) as [ok fs1] eqn:Eo. destruct ok; cbn [negb].
  2:{ eexists None, _. split; [reflexivity|]. destruct (fo_open ops) as [o|]; [by exists o, fs1|done]. }
  set (seek := if off >? 0 then _ else _). destruct seek as [seekable fs2] eqn:Es. destruct seekable.
  2:{ eexists (Some (pm k)), _. split; [reflexivity|]. exists g. rewrite <- km_same. split_and!; [exact W|apply moves_refl|exact Ht|intros q; reflexivity|].
    intros content R L Hoff Hsk. exfalso. unfold seek in Es. destruct (off >? 0) eqn:E0; [|done]. apply Z.gtb_lt in E0. destruct (Hsk ltac:(lia)) as (sk & E & Hpos).
    rewrite E in Es. specialize (Hpos fs1 (s64 off)). destruct (sk fs1 (s64 off) 0) as [r fs3]. cbn in Hpos. injection Es as Er _. apply negb_false_iff, Z.ltb_lt in Er. lia. }
  destruct (read_pages_spec Hb vs h vm Hv tr n k g fs2 base W Ht Hbase) as (st' & fs3 & g' & -> & W' & M & Ht' & Hnl & Hc).
  eexists (Some st'), _. split; [reflexivity|]. exists g'. do 4 (split; [assumption|]). intros content R L Hoff Hsk H0 Hlim Hm. cbn zeta.
  apply (Hc content R _ L); [|done..]. specialize (Hop content R fs1 L eq_refl). unfold seek in Es. destruct (off >? 0) eqn:E0.
  - apply Z.gtb_lt in E0. destruct (Hsk ltac:(lia)) as (sk & E & Hpos). rewrite E in Es. specialize (Hpos fs1 (s64 off)). destruct (sk fs1 (s64 off) 0) as [r fs4] eqn:E4.
    cbn in Hpos. injection Es as _ <-. rewrite s64_small in E4 by lia. apply (fl_seek _ _ L fs1 sk off r fs4); [done..|lia].
  - rewrite Z.gtb_ltb in E0. apply Z.ltb_ge in E0. injection Es as <-. assert (off = 0) as -> by lia. exact Hop.
Qed.

End Files.

(** ** mmap *)

Lemma on_space_vm s g ob xv xp h vm vm' : sys_inv s g ob xv xp -> vms s !! h = Some vm -> h <> init_vm_map -> same_tables vm vm' -> refs vm' = refs vm ->
  on_space s g ob xv xp h (set_vm s h vm') g.
Proof.
  intros I Hv Hne E Er. rewrite <- (set_pm_same s) at 2. apply (on_space_moves _ _ _ _ _ _ vm); [done..| | |done|done]; rewrite <- km_same; [apply I|apply moves_refl].
Qed.

Lemma page_round_aligned a : page_round a mod 4096 = 0.
Proof.
  unfold page_round, page_align. change (u64 (Z.lnot PAGE_MASK)) with (Z.ldiff (Z.ones 64) (Z.ones 12)). set (x := u64 _).
  change 4096 with (2 ^ 12). rewrite <- Z.land_ones by lia. apply Z.bits_inj'. intros i Hi. rewrite Z.bits_0, !Z.land_spec, Z.ldiff_spec.
  destruct (Z.testbit (Z.ones 12) i); rewrite ?andb_false_r; done.
Qed.

(** Where a mapping goes, and its pages. *)
Definition mmap_base (vm : vm_map) : Z := if anon_next vm =? 0 then ANON_VA else anon_next vm.
Definition mmap_pages (len : Z) : nat := Z.to_nat (u32 (page_round len / PAGE_SIZE)).

Definition mmap_view {F} (vm : vm_map) (len flags off : Z) (uf : option (file_ops F)) (old new : Z -> option Z) : Prop :=
  if has flags MAP_ANONYMOUS then forall x, new x = if decide (vpn x ∈ vpns (mmap_base vm) (mmap_pages len)) then Some 0 else old x
  else
    exists ops, uf = Some ops /\ forall content R, file_laws ops content R -> 0 <= off < 2 ^ 63 ->
      (off > 0 -> exists sk, fo_seek ops = Some sk /\ forall fs o, 0 <= fst (sk fs o 0)) ->
      0 <= mmap_base vm -> mmap_base vm + 4096 * Z.of_nat (mmap_pages len) <= 2 ^ 30 ->
      let rest := drop (Z.to_nat off) content in
      forall x, 0 <= x < 2 ^ 30 -> new x
        = if decide (mmap_base vm <= x < mmap_base vm + Z.min (4096 * Z.of_nat (mmap_pages len)) (zlen rest)) then Some (byte_of rest (x - mmap_base vm) mod 256)
          else if decide (vpn x ∈ vpns (mmap_base vm) (mmap_pages len)) then Some 0 else old x.

(** Why a mapping fails: its arguments, no room, no memory, or a file that does not open. *)
Definition mmap_refused {F} (vm : vm_map) (len flags fd : Z) (uf : option (file_ops F)) : Prop :=
  len = 0 \/ has flags MAP_ANONYMOUS = false /\ (has flags MAP_PRIVATE = false \/ fd < 0 \/ uf = None) \/ ANON_VA + ANON_SIZE < u64 (mmap_base vm + page_round len).
Definition mmap_fails {F} (fs : F) (vm : vm_map) (len flags fd : Z) (uf : option (file_ops F)) (pl' : list Z) : Prop :=
  mmap_refused vm len flags fd uf \/ (length pl' <= 1)%nat \/ exists ops o fs1, uf = Some ops /\ fo_open ops = Some o /\ o (fo_iget ops fs) = (false, fs1).

Lemma mmap_spec {F} s g ob xv xp (fs : F) t len flags fd off uf h vm tr : sys_inv s g ob xv xp -> cur_vm s t = Some h -> vms s !! h = Some vm -> h <> init_vm_map ->
  g_tree g !! h = Some tr -> anon_next vm mod 4096 = 0 -> (forall ops, uf = Some ops -> bounded_reads ops) ->
  exists r s' fs' g' tr' vm', sys_mmap_impl s fs t len flags fd off uf = (r, s', fs') /\ on_space s g ob xv xp h s' g' /\ g_tree g' !! h = Some tr'
  /\ vms s' = <[h := vm']> (vms s) /\ anon_next vm' mod 4096 = 0
  /\ (r = -1 /\ mmap_fails fs vm len flags fd uf (g_pl g') \/ (r = mmap_base vm /\ anon_next vm' = u64 (mmap_base vm + page_round len)
       /\ u64 (mmap_base vm + page_round len) <= ANON_VA + ANON_SIZE
       /\ mmap_view vm len flags off uf (view (mem (pm (km s))) tr) (view (mem (pm (km s'))) tr'))).
Proof.
  intros I Hc Hv Hne Ht Han Hb. unfold sys_mmap_impl. rewrite Hc, Hv. set (is_anon := has flags MAP_ANONYMOUS). set (uf1 := if is_anon then None else uf).
  assert (Hno : mmap_refused vm len flags fd uf -> exists r s' fs' g' tr' vm', (-1, s, fs) = (r, s', fs') /\ on_space s g ob xv xp h s' g' /\ g_tree g' !! h = Some tr'
    /\ vms s' = <[h := vm']> (vms s) /\ anon_next vm' mod 4096 = 0
    /\ (r = -1 /\ mmap_fails fs vm len flags fd uf (g_pl g') \/ (r = mmap_base vm /\ anon_next vm' = u64 (mmap_base vm + page_round len)
       /\ u64 (mmap_base vm + page_round len) <= ANON_VA + ANON_SIZE
       /\ mmap_view vm len flags off uf (view (mem (pm (km s))) tr) (view (mem (pm (km s'))) tr')))).
  { intros Hf. exists (-1), s, fs, g, tr, vm. split_and!; [done|by apply on_space_refl|done|by rewrite insert_id|done|left; split; [done|by left]]. }
  destruct (len =? 0) eqn:E0; [apply Hno; left; by apply Z.eqb_eq|]. destruct (negb is_anon && _) eqn:E1.
  { apply Hno. right. left. fold is_anon. apply andb_true_iff in E1 as [E1%negb_true_iff E4]. split; [done|]. apply orb_true_iff in E4 as [E4%negb_true_iff|E4%Z.ltb_lt]; auto. }
  destruct (negb is_anon && match uf1 with None => true | Some _ => false end) eqn:E2.
  { apply Hno. right. left. fold is_anon. apply andb_true_iff in E2 as [E2%negb_true_iff E4]. split; [done|]. right. right. unfold uf1 in E4. rewrite E2 in E4. by destruct uf. }
  clear Hno. cbn zeta. set (vm1 := if anon_next vm =? 0 then vm <| anon_next := ANON_VA |> else vm). set (s1 := set_vm s h vm1).
  assert (Hb1 : anon_next vm1 = mmap_base vm) by (unfold vm1, mmap_base; by destruct (anon_next vm =? 0)).
  assert (Hbase : mmap_base vm mod 4096 = 0) by (unfold mmap_base; by destruct (anon_next vm =? 0)).
  assert (same_tables vm vm1 /\ refs vm1 = refs vm) as [Hst Hrf] by (unfold vm1; by destruct (anon_next vm =? 0)).
  pose proof (on_space_vm s g ob xv xp h vm vm1 I Hv Hne Hst Hrf) as O1. fold s1 in O1. pose proof (os_inv _ _ _ _ _ _ _ _ O1) as I1.
  assert (Hv1 : vms s1 !! h = Some vm1) by apply lookup_insert_eq. pose proof (space_lookup h vm1 Hv1 Hne) as Hv1'. rewrite Hb1. set (base := mmap_base vm) in *.
  destruct (u64 (base + page_round len) >? ANON_VA + ANON_SIZE) eqn:E3.
  { exists (-1), s1, fs, g, tr, vm1. split_and!; [done|done|done|done|by rewrite Hb1|left]. split; [done|]. left. right. right. fold base. rewrite Z.gtb_ltb in E3. by apply Z.ltb_lt. }
  rewrite Z.gtb_ltb in E3. apply Z.ltb_ge in E3. fold (mmap_pages len).
  destruct (alloc_pages_spec K m0 Hbm Hv1' true (mmap_pages len) (km s1) g tr base (si_world _ _ _ _ _ _ _ I1) Ht) as (r & st2 & g2 & tr2 & j & -> & W2 & M2 & Ht2 & Hr & Hvw & _).
  pose proof (on_space_pm s1 g ob xv xp h vm1 st2 g2 I1 Hv1 Hne W2 M2) as O2. pose proof (on_space_trans _ _ _ _ _ _ _ _ _ _ O1 O2) as O12.
  destruct Hr as [[-> ->]|(-> & _ & Hl)]; cbn [Z.ltb Z.compare].
  2:{ exists (-1), (set_pm s1 st2), fs, g2, tr2, vm1. split_and!; [done|exact O12|done|done|by rewrite Hb1|left]. split; [done|]. right. by left. }
  assert (Hal : u64 (base + page_round len) mod 4096 = 0).
  { pose proof (page_round_aligned len). unfold u64. Z.to_euclidean_division_equations. lia. }
  assert (Hfin : forall st3 g3, world ((km s1) <| pm := st3 |>) (delete init_vm_map (vms s1)) g3 -> moves h ((km s1) <| pm := st2 |>) g2 ((km s1) <| pm := st3 |>) g3 ->
    on_space s g ob xv xp h (set_vm (set_pm (set_pm s1 st2) st3) h (vm1 <| anon_next := u64 (base + page_round len) |>)) g3).
  { intros st3 g3 W3 M3. eapply on_space_trans; [exact O12|]. eapply (on_space_moves _ _ _ _ _ _ vm1); [apply O12|exact Hv1|done|exact W3|exact M3|done|done]. }
  destruct uf1 as [ops|] eqn:Euf.
  - assert (is_anon = false /\ uf = Some ops) as [Ean Eu] by (unfold uf1 in Euf; by destruct is_anon).
    destruct (mmap_file_spec ops (Hb ops Eu) _ h vm1 Hv1' tr2 (mmap_pages len) ((km s1) <| pm := st2 |>) g2 fs base off W2 Ht2 Hbase) as (ost & fs3 & E & Hf).
    change (pm (km s1) <| pm := st2 |>) with st2 in E. change (pm ((km s1) <| pm := st2 |>)) with st2 in E, Hf. rewrite E.
    destruct ost as [st3|]; [|exists (-1), (set_pm s1 st2), fs3, g2, tr2, vm1; split_and!; [done|exact O12|done|done|by rewrite Hb1|left]; split; [done|]; right; right; destruct Hf as (o & fs1 & Ho & Ho1); by exists ops, o, fs1].
    destruct Hf as (g3 & W3 & M3 & Ht3 & Hnl3 & Hc3).
    exists base, (set_vm (set_pm (set_pm s1 st2) st3) h (vm1 <| anon_next := u64 (base + page_round len) |>)), fs3, g3, tr2, (vm1 <| anon_next := u64 (base + page_round len) |>).
    split; [reflexivity|]. split; [by apply Hfin|]. split; [exact Ht3|]. split; [unfold s1; cbn; by rewrite insert_insert_eq|]. split; [exact Hal|]. right.
    do 3 (split; [done|]). unfold mmap_view. fold is_anon base. rewrite Ean. exists ops. split; [done|]. intros content R L Hoff Hsk H0 Hlim. cbn zeta. intros x Hx.
    rewrite <- Hvw. apply (Hc3 content R L Hoff Hsk H0 Hlim); [|done]. intros v Hin.
    assert (exists y, vpn y = v) as [y <-].
    { clear -Hin. revert Hin. generalize base. induction (mmap_pages len) as [|n IH]; intros b Hin; [by apply elem_of_nil in Hin|]. apply elem_of_cons in Hin as [->|Hin]; eauto. }
    specialize (Hvw y). rewrite decide_True in Hvw by done. unfold view in Hvw. destruct (t_pg tr2 !! vpn y); [eauto|done].
  - assert (is_anon = true) as Ean by (clear -E2; by destruct is_anon).
    exists base, (set_vm (set_pm s1 st2) h (vm1 <| anon_next := u64 (base + page_round len) |>)), fs, g2, tr2, (vm1 <| anon_next := u64 (base + page_round len) |>).
    split; [reflexivity|]. split; [apply (Hfin st2 g2 W2 (moves_refl _ _ _))|]. split; [exact Ht2|]. split; [unfold s1; cbn; by rewrite insert_insert_eq|].
    split; [exact Hal|]. right. do 3 (split; [done|]). unfold mmap_view. fold is_anon base. rewrite Ean. exact Hvw.
Qed.

(** Mappings start at pages. *)
Definition aligned_vms (s : vsys) : Prop := forall h vm, vms s !! h = Some vm -> anon_next vm mod 4096 = 0.

Lemma aligned_insert s s' h vm' : aligned_vms s -> vms s' = <[h := vm']> (vms s) -> anon_next vm' mod 4096 = 0 -> aligned_vms s'.
Proof. intros A Ev E h1 vm1. rewrite Ev. rewrite lookup_insert. case_decide; [by intros [= <-]|apply A]. Qed.

Lemma on_init s g ob xv xp vm vm' : sys_inv s g ob xv xp -> vms s !! init_vm_map = Some vm ->
  heap_brk vm' = heap_brk vm -> l2_phys vm' = l2_phys vm -> l0_phys vm' = l0_phys vm -> on_space s g ob xv xp init_vm_map (set_vm s init_vm_map vm') g.
Proof.
  intros I Hv E1 E2 E3. constructor; [|split; [|intros q; reflexivity]|done..]; [by eapply (inv_init_vm K m0)|].
  intros h vm1 Hh Hv1. split; [|apply spares_refl]. cbn. rewrite lookup_insert_ne; [done|]. intros <-. apply Hh. left.
Qed.

Lemma mmap_file_none {F} (ops : file_ops F) fs st vm base off : exists ost fs', mmap_file ops fs st vm base O off = (ost, fs') /\ (ost = None \/ ost = Some st).
Proof.
  unfold mmap_file. destruct (match fo_open ops with Some o => o (fo_iget ops fs) | None => (true, fo_iget ops fs) end) as [ok fs1]. destruct ok; cbn [negb]; [|eauto].
  match goal with |- context [let '(_, _) := ?x in _] => destruct x as [[] fs2] end; cbn [read_pages]; eauto.
Qed.

Lemma mmap_init {F} s g ob xv xp (fs : F) t len flags fd off uf : sys_inv s g ob xv xp -> aligned_vms s -> cur_vm s t = Some init_vm_map ->
  exists r s' fs' g', sys_mmap_impl s fs t len flags fd off uf = (r, s', fs') /\ aligned_vms s' /\ on_space s g ob xv xp init_vm_map s' g'.
Proof.
  intros I A Hc. destruct (si_init_vm _ _ _ _ _ _ _ I) as (vm & Hv & Hb & Hl2 & Hl0). unfold sys_mmap_impl. rewrite Hc, Hv. set (is_anon := has flags MAP_ANONYMOUS).
  set (uf1 := if is_anon then None else uf).
  assert (Hno : exists r s' fs' g', (-1, s, fs) = (r, s', fs') /\ aligned_vms s' /\ on_space s g ob xv xp init_vm_map s' g').
  { exists (-1), s, fs, g. split_and!; [done|done|by apply on_space_refl]. }
  destruct (len =? 0); [exact Hno|]. destruct (negb is_anon && _); [exact Hno|]. destruct (negb is_anon && match uf1 with None => true | Some _ => false end); [exact Hno|].
  clear Hno. cbn zeta. set (vm1 := if anon_next vm =? 0 then vm <| anon_next := ANON_VA |> else vm). set (s1 := set_vm s init_vm_map vm1).
  assert (Hb1 : anon_next vm1 mod 4096 = 0) by (unfold vm1; destruct (anon_next vm =? 0); [done|by eapply A]).
  assert (heap_brk vm1 = heap_brk vm /\ l2_phys vm1 = l2_phys vm /\ l0_phys vm1 = l0_phys vm) as (F1 & F2 & F3) by (unfold vm1; by destruct (anon_next vm =? 0)).
  pose proof (on_init s g ob xv xp vm vm1 I Hv F1 F2 F3) as O1. fold s1 in O1. pose proof (os_inv _ _ _ _ _ _ _ _ O1) as I1.
  assert (A1 : aligned_vms s1) by (by eapply aligned_insert). assert (Hv1 : vms s1 !! init_vm_map = Some vm1) by apply lookup_insert_eq.
  destruct (u64 (anon_next vm1 + page_round len) >? ANON_VA + ANON_SIZE); [by exists (-1), s1, fs, g|].
  destruct (alloc_null s1 g ob xv xp (Z.to_nat (u32 (page_round len / PAGE_SIZE))) vm1 (anon_next vm1) I1 ltac:(congruence)) as (r & st2 & g2 & -> & I2 & S2 & Hr).
  assert (O2 : on_space s g ob xv xp init_vm_map (set_pm s1 st2) g2).
  { eapply on_space_trans; [exact O1|]. constructor; [exact I2| |done..]. eapply others_weaken; [|by apply spares_others]. apply list_subseteq_nil. }
  assert (Hal : u64 (anon_next vm1 + page_round len) mod 4096 = 0) by (pose proof (page_round_aligned len); unfold u64; Z.to_euclidean_division_equations; lia).
  assert (O3 : forall (r' : Z) (fs' : F), exists r s' fs'' g', (r', set_vm (set_pm s1 st2) init_vm_map (vm1 <| anon_next := u64 (anon_next vm1 + page_round len) |>), fs') = (r, s', fs'')
    /\ aligned_vms s' /\ on_space s g ob xv xp init_vm_map s' g').
  { intros r' fs'. eexists r', _, fs', g2. split; [reflexivity|]. split; [by eapply (aligned_insert (set_pm s1 st2))|]. eapply on_space_trans; [exact O2|]. by apply (on_init _ _ _ _ _ vm1). }
  destruct Hr as [[-> En]|[-> _]]; cbn [Z.ltb Z.compare]; [|by exists (-1), (set_pm s1 st2), fs, g2]. rewrite En.
  destruct uf1 as [ops|]; [|apply O3]. destruct (mmap_file_none ops fs st2 vm1 (anon_next vm1) off) as (ost & fs3 & -> & Host).
  destruct Host as [-> | ->]; [by exists (-1), (set_pm s1 st2), fs3, g2|]. apply O3.
Qed.

Lemma mmap_inv {F} s g ob xv xp (fs : F) t len flags fd off uf : sys_inv s g ob xv xp -> aligned_vms s -> (forall ops, uf = Some ops -> bounded_reads ops) ->
  exists r s' fs' g', sys_mmap_impl s fs t len flags fd off uf = (r, s', fs') /\ aligned_vms s'
  /\ ((s' = s /\ g' = g) \/ exists h, cur_vm s t = Some h /\ on_space s g ob xv xp h s' g').
Proof.
  intros I A Hb. destruct (cur_vm s t) as [h|] eqn:Hc; [|unfold sys_mmap_impl; rewrite Hc; exists (-1), s, fs, g; split; [done|split; [done|by left]]].
  destruct (decide (h = init_vm_map)) as [->|Hne].
  - destruct (mmap_init s g ob xv xp fs t len flags fd off uf I A Hc) as (r & s' & fs' & g' & E & A' & O). exists r, s', fs', g'. split_and!; [done|done|right; by exists init_vm_map].
  - destruct (cur_vm_some K m0 I t h Hc) as (vm & _ & _ & Hv & _). destruct (w_tree _ _ _ _ _ (si_world _ _ _ _ _ _ _ I) h vm (space_lookup h vm Hv Hne)) as (tr & Ht & _).
    destruct (mmap_spec s g ob xv xp fs t len flags fd off uf h vm tr I Hc Hv Hne Ht (A h vm Hv) Hb) as (r & s' & fs' & g' & tr' & vm' & E & O & _ & Ev & Ea & _).
    exists r, s', fs', g'. split; [done|]. split; [by eapply aligned_insert|]. right. by exists h.
Qed.

End Calls.
End VmCalls.
