(* ===== verification/VmFork.v ===== *)
(** * fork and spawn keep the invariant

    The child of [fork] sees the bytes of its parent in the windows that are cloned and
    nothing elsewhere; no page is lost, whether the call succeeds or not.  Then the threads
    of a process and their argument blocks. *)

From stdpp Require Import base numbers list gmap.
From Stdlib Require Import ZArith Lia Bool.
From S2P Require Import Prelude Kmem Alloc Cheap Mmu MmuInv MmuLife Vm VmInv VmView VmSys VmCalls.

Module VmFork.
Import Kmem Mmu MmuInv MmuLife Vm VmInv VmView VmSys VmCalls.

#[local] Opaque zero_page copy_entries fill seqZ kmalloc kfree set_phys copy_phys copy_from Z.to_nat.

(** ** Windows *)

(** The pages of the windows. *)
Definition in_window (v : Z) (w : Z * Z) : Prop := fst w / 4096 <= v < (fst w + snd w) / 4096.
Definition in_windows (ws : list (Z * Z)) (v : Z) : Prop := Exists (in_window v) ws.
#[export] Instance in_windows_dec ws v : Decision (in_windows ws v).
Proof. unfold in_windows, in_window. apply _. Defined.

Definition window_ok (w : Z * Z) : Prop := 0 <= fst w /\ fst w mod 4096 = 0 /\ 0 <= snd w /\ snd w mod 4096 = 0 /\ fst w + snd w <= 2 ^ 30.
Definition apart (w w' : Z * Z) : Prop := fst w + snd w <= fst w' \/ fst w' + snd w' <= fst w.

(** None meets another. *)
Fixpoint windows_ok (ws : list (Z * Z)) : Prop :=
  match ws with
  | [] => True
  | w :: ws => window_ok w /\ Forall (apart w) ws /\ windows_ok ws
  end.

Lemma clone_windows_ok : windows_ok clone_windows.
Proof.
  cbn. unfold window_ok, apart, EXEC_VA, EXEC_SIZE, EXEC_STACK_VA, EXEC_STACK_SIZE, Cheap.EXEC_HEAP_VA, Cheap.EXEC_HEAP_SIZE, LD_VA, LD_SIZE, LIBC_VA, LIBC_SIZE,
    DLOPEN_VA, DLOPEN_SIZE, ANON_VA, ANON_SIZE.
  split_and!; repeat constructor; cbn; lia.
Qed.

Lemma window_vpns w v : window_ok w -> v ∈ vpns (fst w) (rounds (fst w) (fst w + snd w)) <-> in_window v w.
Proof.
  intros (H1 & H2 & H3 & H4 & H5). assert (E : Z.of_nat (rounds (fst w) (fst w + snd w)) = snd w / 4096).
  { unfold rounds, PAGE_SIZE. rewrite Z2Nat.id; Z.to_euclidean_division_equations; lia. }
  rewrite elem_of_vpns; [|done|done|]; rewrite E; unfold in_window; Z.to_euclidean_division_equations; lia.
Qed.
Lemma window_nodup w : window_ok w -> NoDup (vpns (fst w) (rounds (fst w) (fst w + snd w))).
Proof.
  intros (H1 & H2 & H3 & H4 & H5). apply vpns_nodup; [done|done|]. unfold rounds, PAGE_SIZE. rewrite Z2Nat.id; Z.to_euclidean_division_equations; lia.
Qed.
Lemma apart_out v w w' : window_ok w -> window_ok w' -> apart w w' -> in_window v w -> ~ in_window v w'.
Proof. unfold window_ok, apart, in_window. intros. Z.to_euclidean_division_equations. lia. Qed.

Lemma vpns_prefix n : forall va j v, (j <= n)%nat -> v ∈ vpns va j -> v ∈ vpns va n.
Proof.
  induction n as [|n IH]; intros va [|j] v Hj Hin; try lia; cbn [vpns] in *; [by apply elem_of_nil in Hin|by apply elem_of_nil in Hin|].
  apply elem_of_cons in Hin as [->|Hin]; [left|right; eapply IH; [|exact Hin]; lia].
Qed.
Lemma vpns_prefix_nodup n : forall va j, (j <= n)%nat -> NoDup (vpns va n) -> NoDup (vpns va j).
Proof.
  induction n as [|n IH]; intros va [|j] Hj H; try lia; cbn [vpns] in *; try constructor; apply NoDup_cons in H as [H1 H2].
  - intros Hin. apply H1. eapply vpns_prefix; [|exact Hin]. lia.
  - apply IH; [lia|done].
Qed.

Section Fork.
Context {BT : BootTables} {ST : Statics} (K : ktab) (m0 : gmap Z Z) (Hlay : boot_layout) (Hbm : boot_map K m0).
Context (Hiv : init_vm_map <> 0) (Hip : init_process <> 0).
Notation world := (world K m0).
Notation sys_inv := (sys_inv K m0).

Section Clone.
Context {vs : gmap Z vm_map} {c hp : Z} {cvm pvm : vm_map} (Hc : vs !! c = Some cvm) (Hp : vs !! hp = Some pvm) (Hne : hp <> c).

Lemma clone_all_spec tp ws : windows_ok ws -> forall k g t, world k vs g -> g_tree g !! c = Some t -> g_tree g !! hp = Some tp ->
  (forall v, is_Some (t_pg t !! v) -> ~ in_windows ws v) ->
  exists r st' g' t', clone_all ws (pm k) cvm pvm = (r, st') /\ world (k <| pm := st' |>) vs g' /\ moves c k g (k <| pm := st' |>) g' /\ g_tree g' !! c = Some t'
  /\ no_loss g g'
  /\ (r = 0 /\ (forall x, view (mem st') t' x = if decide (in_windows ws (vpn x)) then view (mem (pm k)) tp x else view (mem (pm k)) t x)
      \/ r = -1 /\ (length (g_pl g') <= 1)%nat).
Proof.
  induction ws as [|[va size] ws IH]; intros Hok k g t W Ht Htp Hout; cbn [clone_all].
  { exists 0, (pm k), g, t. rewrite <- km_same. split_and!; [done|exact W|apply moves_refl|exact Ht|intros q; reflexivity|]. left. split; [done|].
    intros x. rewrite decide_False; [done|]. intros H. inversion H. }
  destruct Hok as (Hw & Hap & Hok). pose proof (window_vpns (va, size)) as Hvp. pose proof (window_nodup (va, size) Hw) as Hnd. cbn [fst snd] in Hvp, Hnd.
  destruct (clone_pages_spec K m0 Hbm Hc Hp Hne tp (rounds va (va + size)) k g t va W Ht Htp (proj1 (proj2 Hw)))
    as (r & st1 & g1 & t1 & j & -> & W1 & M1 & Ht1 & Hr & Hvw & Hdom & Hnl).
  assert (Hj : (j <= rounds va (va + size))%nat) by (destruct Hr as [[_ ->]|(_ & H & _)]; lia).
  assert (Hnl1 : no_loss g g1).
  { apply Hnl; [|by eapply vpns_prefix_nodup]. intros v Hv. destruct (t_pg t !! v) eqn:E; [|done]. exfalso. eapply (Hout v); [by rewrite E|].
    left. apply Hvp; [done|]. by eapply vpns_prefix. }
  destruct Hr as [[-> ->]|(-> & _ & Hl)]; cbn [Z.ltb Z.compare].
  2:{ exists (-1), st1, g1, t1. split_and!; try done. by right. }
  assert (Htp1 : g_tree g1 !! hp = Some tp) by (rewrite (mv_tree _ _ _ _ _ M1) by done; exact Htp).
  destruct (spares_view K m0 _ _ _ hp pvm tp _ _ W Hp Htp (moves_spares _ _ _ _ _ _ M1 Hne)) as [_ Hpv]. change (pm (k <| pm := st1 |>)) with st1 in Hpv.
  assert (Hex : forall w v, in_windows (w :: ws) v <-> in_window v w \/ in_windows ws v) by (intros w v; apply Exists_cons).
  assert (Hwok : forall w, w ∈ ws -> window_ok w).
  { clear -Hok. induction ws as [|w' ws IH]; intros w Hin; [by apply elem_of_nil in Hin|]. destruct Hok as (H1 & _ & H2). apply elem_of_cons in Hin as [->|Hin]; auto. }
  assert (Hsep : forall v, in_window v (va, size) -> ~ in_windows ws v).
  { intros v Hv (w & Hin & Hw')%Exists_exists. eapply (apart_out v (va, size) w); [done|by apply Hwok| |done|done]. by apply (proj1 (Forall_forall _ _) Hap). }
  destruct (IH Hok (k <| pm := st1 |>) g1 t1 W1 Ht1 Htp1) as (r & st2 & g2 & t2 & E2 & W2 & M2 & Ht2 & Hnl2 & Hres).
  { intros v Hs Hin. destruct (Hdom v Hs) as [Hs'|Hin']; [eapply (Hout v Hs'); apply Hex; by right|]. apply Hvp in Hin'; [|done]. by eapply Hsep. }
  change (pm (k <| pm := st1 |>)) with st1 in *. exists r, st2, g2, t2. split; [exact E2|]. split; [exact W2|]. split; [by eapply moves_trans|]. split; [exact Ht2|].
  split; [intros q; by rewrite (Hnl2 q)|]. destruct Hres as [[-> Hvw2]|Hres]; [left|by right]. split; [done|]. intros x. rewrite Hvw2, Hpv, Hvw.
  destruct (decide (in_windows ws (vpn x))) as [Hi|Hi]; [by rewrite decide_True by (apply Hex; by right)|].
  destruct (decide (vpn x ∈ vpns va (rounds va (va + size)))) as [Hi2|Hi2].
  - apply Hvp in Hi2; [|done]. rewrite decide_True by (apply Hex; by left). unfold either. destruct (view (mem (pm k)) tp x); [done|].
    unfold view. destruct (t_pg t !! vpn x) eqn:E; [|done]. exfalso. eapply (Hout (vpn x)); [by rewrite E|]. apply Hex. by left.
  - rewrite decide_False; [done|]. intros [H|H]%Hex; [|done]. apply Hi2, Hvp; done.
Qed.

End Clone.

(** No call is under way. *)
Definition none (x : Z) : Z := 0.
Notation sys_ok s g ob := (sys_inv s g ob none none).

(** The fields of the child. *)
Definition forked (pvm cvm : vm_map) : Prop := heap_brk cvm = heap_brk pvm /\ anon_next cvm = anon_next pvm /\ spawn_next cvm = spawn_next pvm
  /\ dlopen_slots cvm = dlopen_slots pvm /\ dlerror_msg cvm = [] /\ cwd cvm = [47] /\ refs cvm = 1.

Record fork_made (s : vsys) (g : ghost) (pvm : vm_map) (tp : vtree) (cp : Z) (s' : vsys) (g' : ghost) (c : Z) (cvm : vm_map) (tc : vtree) : Prop := mk_fork_made {
  fm_new : cp <> 0 /\ cp <> init_process /\ procs s !! cp = None;
  fm_procs : procs s' = <[cp := mk_process (next_pid s) c 0 0 1]> (procs s);
  fm_vm : vms s !! c = None /\ c <> init_vm_map /\ vms s' = <[c := cvm]> (vms s);
  fm_fields : forked pvm cvm;
  fm_tree : g_tree g' !! c = Some tc;
  fm_view : forall x, view (mem (pm (km s'))) tc x = if decide (in_windows clone_windows (vpn x)) then view (mem (pm (km s))) tp x else None }.

(** The part after the tables are cloned. *)
Lemma fork_finish s g ob c cvm tc pvm : sys_inv s g ob (zset c 1 none) none -> vms s !! c = Some cvm -> c <> init_vm_map -> refs cvm = 1 -> g_tree g !! c = Some tc ->
  let cvm' := cvm <| dlopen_slots := dlopen_slots pvm |> <| dlerror_msg := [] |> <| heap_brk := heap_brk pvm |> <| spawn_next := spawn_next pvm |> <| anon_next := anon_next pvm |> in
  exists cp s' g' ob', (let '(cp, s) := process_alloc (set_vm s c cvm') c in (cp, vm_map_put s c)) = (cp, s')
  /\ threads s' = threads s /\ launch s' = launch s /\ spares_all [c] s g s' g'
  /\ ((cp = 0 /\ procs s' = procs s /\ sys_ok s' g' ob' /\ vms s' !! c = None)
      \/ (cp <> 0 /\ cp <> init_process /\ procs s !! cp = None /\ sys_inv s' g' ob' none (zset cp 1 none) /\ procs s' = <[cp := mk_process (next_pid s) c 0 0 1]> (procs s)
         /\ vms s' = <[c := cvm']> (vms s) /\ g_tree g' !! c = Some tc /\ forall x, view (mem (pm (km s'))) tc x = view (mem (pm (km s))) tc x)).
Proof.
  intros I Hv Hne Hr Ht cvm'. set (s1 := set_vm s c cvm').
  assert (I1 : sys_inv s1 g ob (zset c 1 none) none).
  { eapply inv_ext; [apply (inv_set_vm K m0 s g ob _ none c cvm cvm' 0 I Hv Hne); [done|cbn; lia|cbn; lia]| |done]. intros h _ _. unfold zset, none; repeat case_decide; congruence || lia. }
  assert (Hv1 : vms s1 !! c = Some cvm') by apply lookup_insert_eq.
  assert (S1 : spares_all [c] s g s1 g).
  { split; [|split; intros q; reflexivity]. intros h vm Hh Hv2. split; [|apply spares_refl]. cbn. rewrite lookup_insert_ne; [done|]. intros <-. apply Hh. left. }
  destruct (process_alloc_spec K m0 Hiv s1 g ob _ none c cvm' I1 Hv1 Hne) as (cp & s2 & g2 & ob2 & -> & T2 & L2 & S2 & Tr2 & Sp2 & Hres).
  destruct Hres as [(-> & -> & I2)|(Hp & Hpi & Hpn & I2 & V2 & P2)].
  - destruct (put_vm_spec K m0 Hbm Hiv s1 g2 ob2 _ none c cvm' I2 Hv1 ltac:(rewrite zset_eq; lia)) as (g3 & ob3 & I3 & P3 & T3 & L3 & S3 & _ & _ & D3).
    destruct (D3 Hr Hne) as [D4 _]. eexists 0, _, g3, ob3. split; [reflexivity|]. split; [by rewrite T3|]. split; [by rewrite L3|].
    split; [eapply spares_all_trans; [exact S1|]; eapply spares_all_trans; [exact S2|exact S3]|]. left. split; [done|]. split; [by rewrite P3|]. split; [|exact D4].
    eapply inv_ext; [exact I3| |done]. intros h [vm Hh] _. unfold zset. case_decide; [congruence|]. done.
  - assert (Hv2 : vms s2 !! c = Some (cvm' <| refs := refs cvm' + 1 |>)) by (rewrite V2; apply lookup_insert_eq).
    destruct (put_vm_spec K m0 Hbm Hiv s2 g2 ob2 _ _ c _ I2 Hv2 ltac:(rewrite zset_eq; lia)) as (g3 & ob3 & I3 & P3 & T3 & L3 & S3 & _ & D3 & _).
    destruct D3 as [D3 ->]; [cbn; lia|]. assert (Ev : vm_map_put s2 c = set_vm s2 c cvm').
    { rewrite D3. f_equal. change (refs (cvm' <| refs := refs cvm' + 1 |>)) with (refs cvm' + 1). rewrite Z.add_simpl_r. done. }
    eexists cp, _, g2, ob3. split; [reflexivity|]. split; [by rewrite T3, T2|]. split; [by rewrite L3, L2|].
    split; [eapply spares_all_trans; [exact S1|]; eapply spares_all_trans; [exact S2|exact S3]|]. right. do 2 (split; [assumption|]). split; [exact Hpn|].
    split; [eapply inv_ext; [exact I3| |done]; intros h _ _; unfold zset, none; repeat case_decide; lia|]. split; [rewrite P3, P2; done|].
    split; [rewrite Ev; cbn; rewrite V2, insert_insert_eq; unfold s1; cbn; by rewrite insert_insert_eq|].
    split; [by rewrite Tr2|]. intros x. rewrite Ev.
    pose proof (spares_view K m0 (km s1) _ g c cvm' tc (km s2) g2 (si_world _ _ _ _ _ _ _ I1) (space_lookup c cvm' Hv1 Hne) Ht Sp2) as [_ Hvw]. apply Hvw.
Qed.

Lemma spares_all_fresh c s g s' g' : spares_all [c] s g s' g' -> vms s !! c = None -> spares_all [] s g s' g'.
Proof. intros (A1 & A2) Hn. split; [|done]. intros h vm _ Hv. apply A1; [|done]. intros ->%list_elem_of_singleton. congruence. Qed.

Lemma moves_spares_all s g h st' g' : moves h (km s) g ((km s) <| pm := st' |>) g' -> no_loss g g' -> spares_all [h] s g (set_pm s st') g'.
Proof.
  intros M Hnl. split; [|split; [exact Hnl|by eapply moves_dom]]. intros h' vm Hh Hv. split; [done|]. apply (moves_spares _ _ _ _ _ _ M).
  intros ->. apply Hh. left.
Qed.

Lemma create_pid s : next_pid (snd (vm_map_create s)) = next_pid s.
Proof. unfold vm_map_create. destruct (kmalloc _ _) as [a k]. destruct (a =? 0); [done|]. destruct (mmu_vmap_create _ _) as [[r vm] st]. by destruct (r <? 0). Qed.

Lemma fork_process_spec s g ob t elr h pvm tp : sys_ok s g ob -> cur_vm s t = Some h -> vms s !! h = Some pvm -> h <> init_vm_map -> g_tree g !! h = Some tp ->
  exists cp s' g' ob', fork_process s t elr = (cp, s') /\ threads s' = threads s /\ launch s' = launch s /\ spares_all [] s g s' g'
  /\ ((cp = 0 /\ procs s' = procs s /\ sys_ok s' g' ob')
      \/ exists c cvm tc, sys_inv s' g' ob' none (zset cp 1 none) /\ fork_made s g pvm tp cp s' g' c cvm tc).
Proof.
  intros I Hc Hv Hne Htp. unfold fork_process. rewrite Hc, Hv.
  assert (Hno : exists cp s' g' ob', (0, s) = (cp, s') /\ threads s' = threads s /\ launch s' = launch s /\ spares_all [] s g s' g'
    /\ ((cp = 0 /\ procs s' = procs s /\ sys_ok s' g' ob')
      \/ exists c cvm tc, sys_inv s' g' ob' none (zset cp 1 none) /\ fork_made s g pvm tp cp s' g' c cvm tc)).
  { exists 0, s, g, ob. split_and!; [done..|apply spares_all_refl|]. left. by split_and!. }
  destruct (heap_brk pvm =? 0); [exact Hno|]. destruct (negb (pc_in_window elr EXEC_VA EXEC_SIZE) && negb (pc_in_window elr LIBC_VA LIBC_SIZE)); [exact Hno|]. clear Hno.
  destruct (create_vm_spec K m0 Hlay Hbm s g ob none none I) as (c & s1 & g1 & ob1 & Ec & P1 & T1 & L1 & S1 & Hres).
  pose proof (create_pid s) as Hpid. rewrite Ec in Hpid |- *. cbn [snd] in Hpid. destruct Hres as [(-> & V1 & I1)|(Hc0 & Hcn & Hci & I1 & Htc & x & y & z & V1)].
  { cbn [Z.eqb]. exists 0, s1, g1, ob1. split_and!; [done..|]. by left. }
  rewrite (proj2 (Z.eqb_neq c 0) Hc0). assert (Hhc : h <> c) by congruence. set (cvm := new_vm fresh_vm x y z) in *.
  assert (Hvc : vms s1 !! c = Some cvm) by (rewrite V1; apply lookup_insert_eq). assert (Hvp : vms s1 !! h = Some pvm) by (rewrite V1; by rewrite lookup_insert_ne).
  rewrite Hvc. cbn [default from_option]. unfold id.
  destruct (spares_view K m0 (km s) _ g h pvm tp (km s1) g1 (si_world _ _ _ _ _ _ _ I) (space_lookup h pvm Hv Hne) Htp) as [Htp1 Hpv1]; [by apply (proj1 S1 h pvm (not_elem_of_nil _) Hv)|].
  destruct (clone_all_spec (space_lookup c cvm Hvc Hci) (space_lookup h pvm Hvp Hne) Hhc tp clone_windows clone_windows_ok (km s1) g1 _ (si_world _ _ _ _ _ _ _ I1) Htc Htp1)
    as (r & st2 & g2 & tc & -> & W2 & M2 & Htc2 & Hnl2 & Hr); [intros v [? Hs]; cbn in Hs; by rewrite lookup_empty in Hs|].
  pose proof (on_space_pm K m0 s1 g1 ob1 _ _ c cvm st2 g2 I1 Hvc Hci W2 M2) as O2. pose proof (os_inv _ _ _ _ _ _ _ _ _ _ O2) as I2. set (s2 := set_pm s1 st2) in *.
  assert (S12 : spares_all [c] s g s2 g2).
  { eapply spares_all_trans; [eapply spares_all_weaken; [|exact S1]; apply list_subseteq_nil|]. by apply moves_spares_all. }
  destruct Hr as [[-> Hvw]|[-> _]]; cbn [Z.ltb Z.compare].
  - destruct (fork_finish s2 g2 ob1 c cvm tc pvm I2 Hvc Hci eq_refl Htc2) as (cp & s3 & g3 & ob3 & E3 & T3 & L3 & S3 & Hres). cbn zeta in E3.
    exists cp, s3, g3, ob3. split; [exact E3|]. split; [by rewrite T3|]. split; [by rewrite L3|].
    split; [eapply (spares_all_fresh c); [by eapply spares_all_trans|done]|]. destruct Hres as [(-> & P3 & I3 & V3)|(Hp & Hpi & Hpn & I3 & P3 & V3 & Tr3 & Hvw3)].
    + left. split; [done|]. split; [by rewrite P3|done].
    + right. eexists c, _, tc. split; [exact I3|]. constructor; [split_and!; [done|done|]; rewrite <- P1; exact Hpn| | | |exact Tr3|].
      * rewrite P3. unfold s2. cbn. by rewrite P1, Hpid.
      * split; [done|]. split; [done|]. rewrite V3. unfold s2. cbn. rewrite V1. by rewrite insert_insert_eq.
      * done.
      * intros a. rewrite Hvw3. unfold s2. cbn. rewrite Hvw, Hpv1. case_decide; [done|]. unfold view. cbn. by rewrite lookup_empty.
  - destruct (put_vm_spec K m0 Hbm Hiv s2 g2 ob1 _ none c cvm I2 Hvc ltac:(rewrite zset_eq; lia)) as (g3 & ob3 & I3 & P3 & T3 & L3 & S3 & _ & _ & D3).
    destruct (D3 eq_refl Hci) as [D4 _]. eexists 0, _, g3, ob3. split; [reflexivity|]. split; [by rewrite T3|]. split; [by rewrite L3|].
    split; [eapply (spares_all_fresh c); [by eapply spares_all_trans|done]|]. left. split; [done|]. split; [by rewrite P3|].
    eapply inv_ext; [exact I3| |done]. intros a [vm Ha] _. unfold zset. case_decide; [congruence|]. done.
Qed.

(** A thread leaves its process for another. *)
Lemma inv_switch s g ob xv xp t th q : sys_inv s g ob xv xp -> threads s !! t = Some th -> is_Some (procs s !! q) -> q <> t_proc th ->
  sys_inv (s <| threads := <[t := th <| t_proc := q |>]> (threads s) |>) g ob xv (zset q (xp q - 1) (zset (t_proc th) (xp (t_proc th) + 1) xp)).
Proof.
  intros [I1 I2 I3 I4 I5 I6 IK I7 I8 I9 I10 I11 I12 I13 I14 I15] Ht Hq Hne.
  assert (Hex : forall t' (P : thread -> Prop), (forall th', P (th' <| t_proc := q |>) <-> P th') ->
    (exists th', <[t := th <| t_proc := q |>]> (threads s) !! t' = Some th' /\ P th') <-> exists th', threads s !! t' = Some th' /\ P th').
  { intros t' P HP. destruct (decide (t' = t)) as [->|Hn]; [|by rewrite lookup_insert_ne]. rewrite lookup_insert_eq, Ht.
    split; intros (th' & [= <-] & H); eexists; (split; [reflexivity|]); by apply HP. }
  constructor; cbn [km vms procs threads launch kblocks kpages update]; try assumption.
  - intros b. rewrite I5. destruct (decide (b = t)) as [->|Hn]; [rewrite lookup_insert_eq, Ht; split; eauto|by rewrite lookup_insert_ne].
  - intros b t'. rewrite I7. by rewrite (Hex t' (fun th' => sig_actions th' = b)).
  - intros t' p. rewrite I8. unfold kernel_page. cbn. by rewrite (Hex t' (fun th' => stack_base th' = p)).
  - intros p pr Hp Hni. destruct (I10 p pr Hp Hni) as [H1 H2]. split; [|done]. rewrite (count_update _ _ t th _ Ht), H1. cbn [t_proc update].
    destruct (decide (p = q)) as [->|Hpq]; [rewrite zset_eq, Z.eqb_refl, (proj2 (Z.eqb_neq (t_proc th) q)) by done; cbn; lia|].
    rewrite zset_ne by done. rewrite (proj2 (Z.eqb_neq q p)) by done. destruct (decide (p = t_proc th)) as [->|Hpt]; [rewrite zset_eq, Z.eqb_refl; cbn; lia|].
    rewrite zset_ne by done. rewrite (proj2 (Z.eqb_neq (t_proc th) p)) by done. cbn. lia.
  - intros t' th'. rewrite lookup_insert. case_decide; [intros [= <-]; exact Hq|apply I12].
Qed.

(** The parent as a thread of its process. *)
Lemma parent_proc s g ob xv xp t h pvm : sys_inv s g ob xv xp -> cur_vm s t = Some h -> vms s !! h = Some pvm -> h <> init_vm_map ->
  exists pr, procs s !! creator_proc s t = Some pr /\ p_vm pr = h /\ creator_proc s t <> init_process.
Proof.
  intros I Hc Hv Hne. destruct (cur_vm_some K m0 I t h Hc) as (vm & th & pr & _ & Ht & Hp & E). unfold creator_proc. rewrite Ht. exists pr. split_and!; [done|done|].
  intros Ei. destruct (si_init_proc _ _ _ _ _ _ _ I) as (pr1 & H1 & H2). congruence.
Qed.

Lemma sys_fork_spec s g ob t elr h pvm tp : sys_ok s g ob -> cur_vm s t = Some h -> vms s !! h = Some pvm -> h <> init_vm_map -> g_tree g !! h = Some tp ->
  exists ct s' g' ob', sys_fork_impl s t elr = (ct, s') /\ sys_ok s' g' ob' /\ launch s' = launch s /\ spares_all [] s g s' g'
  /\ ((ct = 0 /\ threads s' = threads s)
      \/ (ct <> 0 /\ threads s !! ct = None /\ exists cp c cvm tc stack, threads s' = <[ct := mk_thread stack cp 0]> (threads s)
          /\ fork_made s g pvm tp cp s' g' c cvm tc)).
Proof.
  intros I Hc Hv Hne Htp. unfold sys_fork_impl.
  destruct (fork_process_spec s g ob t elr h pvm tp I Hc Hv Hne Htp) as (cp & s1 & g1 & ob1 & -> & T1 & L1 & S1 & Hres).
  destruct Hres as [(-> & P1 & I1)|(c & cvm & tc & I1 & [(Hcp & Hci & Hcn) P1 (Vn & Vi & V1) Ff Htc Hvw])].
  { cbn [Z.eqb]. exists 0, s1, g1, ob1. split_and!; [done..|]. by left. }
  rewrite (proj2 (Z.eqb_neq cp 0) Hcp). destruct (parent_proc s g ob none none t h pvm I Hc Hv Hne) as (pr & Hpr & Epr & Hpi).
  assert (Ecr : creator_proc s1 t = creator_proc s t) by (unfold creator_proc; by rewrite T1). set (P := creator_proc s t) in *.
  assert (HPc : P <> cp) by congruence. assert (Hpr1 : procs s1 !! P = Some pr) by (rewrite P1; by rewrite lookup_insert_ne).
  assert (Hcp1 : procs s1 !! cp = Some (mk_process (next_pid s) c 0 0 1)) by (rewrite P1; apply lookup_insert_eq).
  destruct (thread_create_spec K m0 Hip s1 g1 ob1 _ _ t I1) as (ct & s2 & g2 & ob2 & -> & V2 & L2 & S2 & _ & I2 & Hres).
  destruct Hres as [(-> & P2 & T2 & _)|(Hct & Hob & stack & pr' & T2 & Tn & Hpr' & P2)].
  - cbn [Z.eqb]. assert (Hcp2 : procs s2 !! cp = Some (mk_process (next_pid s) c 0 0 1)) by (by rewrite P2).
    destruct (process_put_spec K m0 Hbm Hiv Hip s2 g2 ob2 _ _ cp _ I2 Hcp2 Hci) as (g3 & ob3 & I3 & T3 & L3 & S3 & _); [rewrite zset_eq; lia|done|].
    eexists 0, _, g3, ob3. split; [reflexivity|]. split; [eapply inv_ext; [exact I3|done|]; intros q _ _; unfold zset, none; repeat case_decide; lia|].
    split; [by rewrite L3, L2|]. split; [|left; split; [done|by rewrite T3, T2]].
    cbn [p_vm] in S3. eapply (spares_all_fresh c); [|exact Vn]. eapply spares_all_trans; [|exact S3].
    eapply spares_all_weaken; [|eapply spares_all_trans; [exact S1|exact S2]]. apply list_subseteq_nil.
  - rewrite Ecr in *. rewrite Hpr1 in Hpr'. injection Hpr' as <-. rewrite (proj2 (Z.eqb_neq ct 0) Hct).
    assert (Ht2 : threads s2 !! ct = Some (mk_thread stack P 0)) by (rewrite T2; apply lookup_insert_eq). rewrite Ht2. cbn [default from_option]. unfold id. cbn [t_proc].
    assert (Hcp2 : is_Some (procs s2 !! cp)) by (rewrite P2, lookup_insert_ne by done; rewrite Hcp1; eauto).
    pose proof (inv_switch s2 g2 ob2 _ _ ct _ cp I2 Ht2 Hcp2 ltac:(cbn; congruence)) as I3. cbn [t_proc] in I3. rewrite T2 in I3. set (T3 := <[ct := _ <| t_proc := cp |>]> _) in I3.
    set (s3 := s2 <| threads := T3 |>) in *. assert (Hp3 : procs s3 !! P = Some (pr <| p_refs := p_refs pr + 1 |>)) by (unfold s3; cbn; rewrite P2; apply lookup_insert_eq).
    destruct (process_put_spec K m0 Hbm Hiv Hip s3 g2 ob2 _ _ P _ I3 Hp3 Hpi) as (g4 & ob4 & I4 & _ & L4 & S4 & _ & D4 & _);
      [unfold zset, none; repeat case_decide; congruence || lia|done|].
    destruct (D4) as [D5 ->]; [cbn; pose proof (proj2 (si_procref _ _ _ _ _ _ _ I P pr Hpr Hpi)); lia|]. clear D4.
    assert (E4 : process_put s3 P = (process_put s2 P) <| threads := T3 |>) by apply process_put_threads.
    assert (Ep : procs (process_put s3 P) = procs s1).
    { rewrite D5. cbn. rewrite P2, insert_insert_eq. rewrite insert_id; [done|]. rewrite Hpr1. f_equal. change (p_refs (pr <| p_refs := p_refs pr + 1 |>)) with (p_refs pr + 1). rewrite Z.add_simpl_r. by destruct pr. }
    rewrite threads_process_put, T2. fold T3. rewrite <- E4. exists ct, (process_put s3 P), g2, ob4. split; [done|].
    split; [eapply inv_ext; [exact I4|done|]; intros q _ _; unfold zset, none; repeat case_decide; congruence || lia|].
    assert (Hall : spares_all [] s1 g1 (process_put s3 P) g2).
    { eapply spares_all_trans; [exact S2|]. rewrite D5. by apply spares_all_same. }
    split; [rewrite L4; unfold s3; cbn; by rewrite L2|]. split; [by eapply spares_all_trans|]. right. split; [done|]. split; [by rewrite <- T1|].
    assert (Hvc : vms s1 !! c = Some cvm) by (rewrite V1; apply lookup_insert_eq). destruct Hall as (Hall & _). destruct (Hall c cvm (not_elem_of_nil _) Hvc) as [_ Hsp].
    destruct (spares_view K m0 (km s1) _ g1 c cvm tc _ g2 (si_world _ _ _ _ _ _ _ I1) (space_lookup c cvm Hvc Vi) Htc Hsp) as [Htc2 Hvw2].
    exists cp, c, cvm, tc, stack. split.
    { rewrite D5. unfold s3, T3. cbn. by rewrite T1, insert_insert_eq. }
    constructor; [done|by rewrite Ep| |done|done|intros x; by rewrite Hvw2]. split; [done|]. split; [done|]. rewrite D5. unfold s3. cbn. by rewrite V2.
Qed.

(** ** Argument blocks *)

Lemma inv_launch_new s g ob xv xp a v : sys_inv s g ob xv xp -> ob a = Some UOther ->
  sys_inv (s <| launch := <[a := v]> (launch s) |>) g (oset a (Some ULaunch) ob) xv xp.
Proof.
  intros [I1 I2 I3 I4 I5 I6 IK I7 I8 I9 I10 I11 I12 I13 I14 I15] Ha.
  assert (Ho : forall b u, u <> ULaunch -> u <> UOther -> oset a (Some ULaunch) ob b = Some u <-> ob b = Some u).
  { intros b u N1 N2. destruct (decide (b = a)) as [->|Hb]; [rewrite oset_eq, Ha; split; congruence|by rewrite oset_ne]. }
  constructor; cbn [km vms procs threads launch kblocks kpages update]; try assumption.
  - intros b. rewrite I2. destruct (decide (b = a)) as [->|Hb]; [rewrite oset_eq, Ha; split; eauto|by rewrite oset_ne].
  - intros b. by rewrite Ho.
  - intros b. by rewrite Ho.
  - intros b. by rewrite Ho.
  - intros b. destruct (decide (b = a)) as [->|Hb]; [rewrite oset_eq, lookup_insert_eq; split; eauto|]. by rewrite oset_ne, lookup_insert_ne.
  - intros b. by rewrite Ho.
  - intros b t. by rewrite Ho.
Qed.

Lemma inv_launch_del s g ob xv xp a : sys_inv s g ob xv xp -> ob a = Some ULaunch ->
  sys_inv (s <| launch := delete a (launch s) |>) g (oset a (Some UOther) ob) xv xp.
Proof.
  intros [I1 I2 I3 I4 I5 I6 IK I7 I8 I9 I10 I11 I12 I13 I14 I15] Ha.
  assert (Ho : forall b u, u <> ULaunch -> u <> UOther -> oset a (Some UOther) ob b = Some u <-> ob b = Some u).
  { intros b u N1 N2. destruct (decide (b = a)) as [->|Hb]; [rewrite oset_eq, Ha; split; congruence|by rewrite oset_ne]. }
  constructor; cbn [km vms procs threads launch kblocks kpages update]; try assumption.
  - intros b. rewrite I2. destruct (decide (b = a)) as [->|Hb]; [rewrite oset_eq, Ha; split; eauto|by rewrite oset_ne].
  - intros b. by rewrite Ho.
  - intros b. by rewrite Ho.
  - intros b. by rewrite Ho.
  - intros b. destruct (decide (b = a)) as [->|Hb]; [rewrite oset_eq, lookup_delete_eq; split; [done|by intros [? ?]]|]. by rewrite oset_ne, lookup_delete_ne.
  - intros b. by rewrite Ho.
  - intros b t. by rewrite Ho.
Qed.

(** The block and the thread of [sys_spawn_impl] and [user_spawn_one]. *)
Definition launch_thread (s : vsys) (creator : Z) (v : Z * Z * Z) : Z * vsys :=
  let '(a, k) := kmalloc (km s) SIZEOF_SPAWN_ARGS in
  let s := s <| km := k |> in
  if a =? 0 then (0, s)
  else
    let s := s <| launch := <[a := v]> (launch s) |> in
    let '(c, s) := thread_create s creator in
    if c =? 0 then (0, s <| km := kfree (km s) a |> <| launch := delete a (launch s) |>) else (c, s).

Lemma launch_thread_spec s g ob xv xp creator v : sys_inv s g ob xv xp ->
  exists c s' g' ob', launch_thread s creator v = (c, s') /\ sys_inv s' g' ob' xv xp /\ vms s' = vms s /\ spares_all [] s g s' g'
  /\ ((c = 0 /\ threads s' = threads s /\ launch s' = launch s)
      \/ (c <> 0 /\ threads s !! c = None /\ exists a stack, launch s !! a = None /\ launch s' = <[a := v]> (launch s)
          /\ threads s' = <[c := mk_thread stack (creator_proc s creator) 0]> (threads s))).
Proof.
  intros I. unfold launch_thread. destruct (inv_kmalloc K m0 s g ob xv xp SIZEOF_SPAWN_ARGS I) as [->|(a & k1 & g1 & -> & Ha & Hob & I1 & A1)].
  { cbn [Z.eqb]. assert (s <| km := km s |> = s) as -> by (by destruct s). exists 0, s, g, ob. split_and!; [done..|apply spares_all_refl|by left]. }
  rewrite (proj2 (Z.eqb_neq a 0) Ha). set (s1 := s <| km := k1 |>) in *. set (s2 := s1 <| launch := _ |>).
  assert (Hla : launch s !! a = None). { destruct (launch s !! a) eqn:E; [|done]. assert (ob a = Some ULaunch) by (apply (si_olaunch _ _ _ _ _ _ _ I); by rewrite E). congruence. }
  pose proof (inv_launch_new s1 g1 _ xv xp a v I1 (oset_eq _ _ _)) as I2. change (s1 <| launch := _ |>) with s2 in I2.
  assert (S2 : spares_all [] s g s2 g1) by (by apply aside_all).
  destruct (thread_create_spec K m0 Hip s2 g1 _ xv xp creator I2) as (c & s3 & g3 & ob3 & E3 & V3 & L3 & S3 & O3 & I3 & Hres).
  rewrite E3. assert (S13 : spares_all [] s g s3 g3) by (by eapply spares_all_trans).
  destruct Hres as [(-> & P3 & T3 & O4)|(Hc & Hobc & stack & pr & T3 & Tn & _)].
  - cbn [Z.eqb]. assert (Hob3 : ob3 a = Some ULaunch) by (rewrite O4; apply oset_eq).
    destruct (inv_kfree K m0 _ _ _ _ _ a (inv_launch_del s3 g3 ob3 xv xp a I3 Hob3) (oset_eq _ _ _)) as (g4 & I4 & A4).
    eexists 0, _, g4, _. split; [reflexivity|]. split; [exact I4|]. split; [exact V3|]. split; [eapply spares_all_trans; [exact S13|by apply aside_all]|].
    left. split; [done|]. split; [exact T3|]. cbn. rewrite L3. cbn. by rewrite delete_insert_id.
  - rewrite (proj2 (Z.eqb_neq c 0) Hc). exists c, s3, g3, ob3. split_and!; [done..|]. right. split; [done|]. split; [done|]. by exists a, stack.
Qed.

End Fork.
End VmFork.
