(* ===== verification/ExecInv.v ===== *)
(** * Loading programs keeps the invariant

    The loader of Exec.v works on one address space, through [vmap_alloc_pages],
    [vmap_copyin] and [unmap_range]; whatever the image says, the invariant of VmSys.v holds
    and other address spaces are as before. *)

From stdpp Require Import base numbers list gmap.
From Stdlib Require Import ZArith Lia Bool.
From S2P Require Import Prelude Kmem Alloc Cheap Mmu MmuInv MmuLife Vm Exec VmInv VmView VmSys VmCount VmCalls VmFork.

Module ExecInv.
Import Kmem Mmu MmuInv MmuLife Vm Exec VmInv VmView VmSys VmCount VmCalls VmFork.

#[local] Opaque zero_page copy_entries fill seqZ kmalloc kfree set_phys copy_phys copy_from Z.to_nat vmap_alloc_pages vmap_copyin unmap_range.

Section Inv.
Context {BT : BootTables} {ST : Statics} (K : ktab) (m0 : gmap Z Z) (Hlay : boot_layout) (Hbm : boot_map K m0).
Context (Hiv : init_vm_map <> 0) (Hip : init_process <> 0).
Notation world := (world K m0).
Notation sys_inv := (sys_inv K m0).

(** ** Operations on one address space *)

Section Space.
Context {vs : gmap Z vm_map} {h : Z} {vm : vm_map} (Hv : vs !! h = Some vm).

(** [op] works on pages of [h] only. *)
Definition local {A} (op : pmm -> A * pmm) : Prop := forall k g t, world k vs g -> g_tree g !! h = Some t ->
  exists r st' g' t', op (pm k) = (r, st') /\ world (k <| pm := st' |>) vs g' /\ moves h k g (k <| pm := st' |>) g' /\ g_tree g' !! h = Some t'.

Lemma local_ret {A} (r : A) : local (fun st => (r, st)).
Proof. intros k g t W Ht. exists r, (pm k), g, t. rewrite <- km_same. split_and!; [done|exact W|apply moves_refl|exact Ht]. Qed.

Lemma local_bind {A B} (op : pmm -> A * pmm) (f : A -> pmm -> B * pmm) : local op -> (forall r, local (f r)) -> local (fun st => let '(r, st) := op st in f r st).
Proof.
  intros H1 H2 k g t W Ht. destruct (H1 k g t W Ht) as (r & st1 & g1 & t1 & -> & W1 & M1 & Ht1).
  destruct (H2 r (k <| pm := st1 |>) g1 t1 W1 Ht1) as (r2 & st2 & g2 & t2 & E2 & W2 & M2 & Ht2).
  exists r2, st2, g2, t2. split; [exact E2|]. split; [exact W2|]. split; [by eapply moves_trans|exact Ht2].
Qed.

Lemma local_snd {A} (op : pmm -> A * pmm) : local op -> local (fun st => (tt, snd (op st))).
Proof. intros H k g t W Ht. destruct (H k g t W Ht) as (r & st' & g' & t' & -> & W' & M & Ht'). exists tt, st', g', t'. done. Qed.

Lemma local_alloc n va z : local (fun st => vmap_alloc_pages n st vm va z).
Proof.
  intros k g t W Ht. destruct (alloc_pages_spec K m0 Hbm Hv z n k g t va W Ht) as (r & st' & g' & t' & j & E & W' & M & Ht' & _). by exists r, st', g', t'.
Qed.

Lemma local_unmap n va : local (fun st => (tt, unmap_range n st vm va)).
Proof.
  intros k g t W Ht. destruct (unmap_range_spec K m0 Hbm Hv n k g t va W Ht) as (g' & t' & W' & M & Ht' & _). by exists tt, (unmap_range n (pm k) vm va), g', t'.
Qed.

#[local] Transparent vmap_copyin.
Lemma local_copyin va src len : local (fun st => vmap_copyin st vm va src len).
Proof.
  unfold vmap_copyin. generalize (Z.to_nat len + 1)%nat as f, 0 as s. intros f. revert va len. induction f as [|f IH]; intros va len s; cbn [vmap_copyin_loop]; [apply local_ret|].
  destruct (len >? 0); [|apply local_ret]. intros k g t W Ht. pose proof (w_tree_eq K m0 W h vm t Hv Ht) as Htr. rewrite (kva_tree (bm_ok _ _ Hbm) Htr).
  destruct (t_pg t !! vpn va) as [a|] eqn:Ea; [|by apply (local_ret (-1) k g t W Ht)]. destruct (pg_page K m0 _ _ _ _ _ _ _ _ W Hv Ht Ea) as [Ha _].
  pose proof (Z.mod_pos_bound va 4096 ltac:(lia)) as Hm. rewrite (proj2 (Z.eqb_neq _ 0)) by (destruct Ha; lia).
  assert (Em : Z.land va PAGE_MASK = va mod 4096) by (change PAGE_MASK with (Z.ones 12); by rewrite Z.land_ones). rewrite Em.
  set (n := if len <? _ then _ else _). assert (Hn : n <= PAGE_SIZE - va mod 4096) by (unfold n; destruct (len <? _) eqn:E; [apply Z.ltb_lt in E|]; lia).
  destruct (write_world K m0 W Hv Ht (vpn va) a (copy_from (Z.to_nat n) (mem (pm k)) (a + va mod 4096) src s) Ea) as (g1 & W1 & M1 & Ht1 & _).
  { apply copy_from_spec; [done|lia|]. unfold PAGE_SIZE in Hn. lia. }
  destruct (IH (u64 (va + n)) (len - n) (s + n) _ g1 t W1 Ht1) as (r & st2 & g2 & t2 & E2 & W2 & M2 & Ht2).
  exists r, st2, g2, t2. split; [exact E2|]. split; [exact W2|]. split; [by eapply moves_trans|exact Ht2].
Qed.
#[local] Opaque vmap_copyin.

(** ** The loader *)

Lemma local_segment img ph bias lo hi : local (fun st => load_segment st vm img ph bias lo hi).
Proof.
  unfold load_segment. cbn zeta. destruct (_ || _); [apply local_ret|]. apply (local_bind (fun st => vmap_alloc_pages _ st vm _ true)); [apply local_alloc|].
  intros r. destruct (r <? 0); [apply local_ret|]. destruct (_ >? 0); [|apply local_ret].
  apply (local_bind (fun st => vmap_copyin st vm _ _ _)); [apply local_copyin|]. intros r2. destruct (r2 <? 0); apply local_ret.
Qed.

Lemma local_segments img bias lo hi n : forall i, local (fun st => load_segments n i st vm img bias lo hi).
Proof.
  induction n as [|n IH]; intros i; cbn [load_segments]; [apply local_ret|]. destruct (negb _); [apply IH|].
  intros k g t W Ht. destruct (local_segment img (phdr img i) bias lo hi k g t W Ht) as (r & st1 & g1 & t1 & E1 & W1 & M1 & Ht1). rewrite E1.
  destruct r; [|eexists _, st1, g1, t1; done..]. destruct (IH (i + 1) _ g1 t1 W1 Ht1) as (r2 & st2 & g2 & t2 & E2 & W2 & M2 & Ht2).
  exists r2, st2, g2, t2. split; [exact E2|]. split; [exact W2|]. split; [by eapply moves_trans|exact Ht2].
Qed.

Lemma local_load img bias lo hi : local (fun st => load_all st vm img bias lo hi).
Proof. apply local_segments. Qed.

Lemma local_static_elf img sz lo hi : local (fun st => load_static_elf st vm img sz lo hi).
Proof.
  unfold load_static_elf. destruct (sz <? SIZEOF_EHDR); [apply local_ret|]. destruct (negb _); [apply local_ret|].
  apply (local_bind (fun st => load_all st vm img 0 lo hi) (fun r st => match r with Loaded => (e_entry img, st) | _ => (0, st) end)); [apply local_load|].
  intros []; apply local_ret.
Qed.

Lemma local_exec_load ld_img ld_sz libc_img img base : local (fun st => exec_load ld_img ld_sz libc_img st vm img base).
Proof.
  unfold exec_load. apply (local_bind (fun st => load_all st vm img base EXEC_VA (EXEC_VA + EXEC_SIZE)) (fun r st => match r with Loaded => _ | _ => (None, st) end)); [apply local_load|].
  intros []; try apply local_ret. destruct (e_type img =? ET_DYN); [|apply local_ret].
  apply (local_bind (fun st => load_static_elf st vm ld_img ld_sz LD_VA (LD_VA + LD_SIZE))); [apply local_static_elf|].
  intros ld_entry. destruct (ld_entry =? 0); [apply local_ret|]. destruct (negb _); [apply local_ret|].
  apply (local_bind (fun st => load_all st vm libc_img LIBC_VA LIBC_VA (LIBC_VA + LIBC_SIZE)) (fun r st => match r with Loaded => (Some ld_entry, st) | _ => (None, st) end)); [apply local_load|].
  intros []; apply local_ret.
Qed.

Lemma local_strings args : forall sp uva, local (fun st => push_strings args st vm sp uva).
Proof.
  induction args as [|a args IH]; intros sp uva; cbn [push_strings]; [apply local_ret|]. cbn zeta.
  apply (local_bind (fun st => vmap_copyin st vm _ _ _)); [apply local_copyin|]. intros r. destruct (r <? 0); [apply local_ret|apply IH].
Qed.

Lemma local_push sp ws : local (fun st => push st vm sp ws).
Proof. unfold push. cbn zeta. apply (local_bind (fun st => vmap_copyin st vm _ _ _)); [apply local_copyin|]. intros r. apply local_ret. Qed.

Lemma local_push_all l : forall sp, local (fun st => push_all st vm sp l).
Proof.
  induction l as [|ws l IH]; intros sp; cbn [push_all]; [apply local_ret|].
  apply (local_bind (fun st => push st vm sp ws)); [apply local_push|]. intros sp1. apply IH.
Qed.

Lemma local_stack argv entry lb ab : local (fun st => exec_stack st vm argv entry lb ab).
Proof.
  unfold exec_stack. apply (local_bind (fun st => push_strings _ st vm _ _)); [apply local_strings|]. intros [[r sp] uva].
  destruct (r <? 0); [apply local_ret|]. cbn zeta. apply (local_bind (fun st => push_all st vm _ _)); [apply local_push_all|]. intros sp1. apply local_ret.
Qed.

Lemma local_memory ld_img ld_sz libc_img img argv : local (fun st => exec_memory ld_img ld_sz libc_img st vm img argv).
Proof.
  unfold exec_memory. cbn zeta. set (base := if e_type img =? ET_DYN then EXEC_VA else 0).
  apply (local_bind (fun st => exec_load ld_img ld_sz libc_img st vm img base) (fun r st => match r with None => (None, st) | Some ld_entry => _ end)); [apply local_exec_load|].
  intros [ld_entry|]; [|apply local_ret]. apply (local_bind (fun st => vmap_alloc_pages _ st vm _ _)); [apply local_alloc|].
  intros r. destruct (r <? 0); [apply local_ret|]. apply (local_bind (fun st => exec_stack st vm _ _ _ _)); [apply local_stack|].
  intros [r2 sp]. destruct (r2 <? 0); apply local_ret.
Qed.

(** *** Relocations *)

Lemma local_relative img n : forall base relas, local (fun st => apply_relative_relocs n st vm base img relas).
Proof.
  induction n as [|n IH]; intros base relas; cbn [apply_relative_relocs]; [apply local_ret|]. destruct (negb _); [apply IH|]. cbn zeta.
  apply (local_bind (fun st => vmap_copyin st vm _ _ _)); [apply local_copyin|]. intros r. destruct (r <? 0); [apply local_ret|apply IH].
Qed.

Lemma local_xdso libc_img rimg img symtab strtab d n : forall base relas, local (fun st => resolve_xdso_relocs libc_img n st vm base rimg relas img symtab strtab d).
Proof.
  induction n as [|n IH]; intros base relas; cbn [resolve_xdso_relocs]; [apply local_ret|]. cbn zeta. destruct (_ && _); [apply IH|]. destruct (_ =? 0); [apply local_ret|].
  apply (local_bind (fun st => vmap_copyin st vm _ _ _)); [apply local_copyin|]. intros r. destruct (r <? 0); [apply local_ret|apply IH].
Qed.

(** Of a function that only gives the memory. *)
Definition local_st (f : pmm -> pmm) : Prop := local (fun st => (tt, f st)).
Lemma local_st_id : local_st (fun st => st).
Proof. apply local_ret. Qed.
Lemma local_st_comp f1 f2 : local_st f1 -> local_st f2 -> local_st (fun st => f2 (f1 st)).
Proof. intros H1 H2. apply (local_bind (fun st => (tt, f1 st)) (fun _ st => (tt, f2 st)) H1). by intros _. Qed.

Lemma local_relocate libc_img img low base : local_st (fun st => dl_relocate libc_img st vm img low base).
Proof.
  unfold dl_relocate. destruct (walk_dynamic img) as [d|]; [|apply local_st_id]. cbn zeta. set (n := Z.to_nat (u32 (rela_size d / SIZEOF_RELA))).
  set (f1 := fun st => if rela_size d >? 0 then match image_to_ptr img (rela_off d) with Some relas => snd (apply_relative_relocs n st vm base img relas) | None => st end else st).
  assert (H1 : local_st f1).
  { unfold f1. destruct (rela_size d >? 0); [|apply local_st_id]. destruct (image_to_ptr img (rela_off d)) as [relas|]; [|apply local_st_id].
    apply (local_snd (fun st => apply_relative_relocs n st vm base img relas)), local_relative. }
  destruct (walk_dynamic libc_img) as [ld|]; [|exact H1]. destruct (image_to_ptr img (symtab_off d)) as [symtab|], (image_to_ptr img (strtab_off d)) as [strtab|]; try exact H1.
  set (resolve := fun (st : pmm) (n : nat) (off : Z) => let '(rimg, relas) := match image_to_ptr img off with Some relas => (img, relas) | None => (low, 0) end in
    snd (resolve_xdso_relocs libc_img n st vm base rimg relas img symtab strtab ld)).
  assert (Hr : forall n off, local_st (fun st => resolve st n off)).
  { intros n1 off. unfold resolve. destruct (match image_to_ptr img off with Some relas => (img, relas) | None => (low, 0) end) as [rimg relas].
    apply (local_snd (fun st => resolve_xdso_relocs libc_img n1 st vm base rimg relas img symtab strtab ld)), local_xdso. }
  apply (local_st_comp f1 (fun st => let st := if rela_size d >? 0 then resolve st n (rela_off d) else st in if jmprel_size d >? 0 then resolve st (Z.to_nat (u32 (jmprel_size d / SIZEOF_RELA))) (jmprel_off d) else st) H1).
  cbn zeta. destruct (rela_size d >? 0), (jmprel_size d >? 0); try apply Hr; try apply local_st_id.
  apply (local_st_comp (fun st => resolve st n (rela_off d)) (fun st => resolve st _ (jmprel_off d))); apply Hr.
Qed.

End Space.
(** ** The new process *)

Notation sys_ok s g ob := (sys_inv s g ob none none).

(** The processes with a reference to [q] less, or more; the first process keeps those
    that are put back. *)
Definition unref (q : Z) (ps : gmap Z process) : gmap Z process :=
  if decide (q = init_process) then ps else alter (fun pr => pr <| p_refs := p_refs pr - 1 |>) q ps.
Definition init_ref (q : Z) (ps : gmap Z process) : gmap Z process :=
  if decide (q = init_process) then alter (fun pr => pr <| p_refs := p_refs pr + 1 |>) q ps else ps.

Lemma unref_insert q p pr ps : p <> q -> unref q (<[p := pr]> ps) = <[p := pr]> (unref q ps).
Proof. intros Hne. unfold unref. case_decide; [done|]. by rewrite alter_insert_ne. Qed.

Lemma unref_ref q pr ps : ps !! q = Some pr -> unref q (<[q := pr <| p_refs := p_refs pr + 1 |>]> ps) = init_ref q ps.
Proof.
  intros Hq. unfold unref, init_ref. case_decide.
  - rewrite <- (insert_id ps q pr Hq) at 2. by rewrite alter_insert_eq.
  - rewrite alter_insert_eq. apply insert_id. rewrite Hq. f_equal. destruct pr. unfold update. cbn. f_equal. lia.
Qed.

(** A thread is given the process [p], and its reference to the old one goes. *)
Lemma adopt_spec s g ob c th p : sys_inv s g ob none (zset p 1 none) -> threads s !! c = Some th -> is_Some (procs s !! p) -> p <> t_proc th ->
  (forall pr, procs s !! t_proc th = Some pr -> t_proc th <> init_process -> 1 < p_refs pr) ->
  let s1 := process_put s (t_proc th) in let s' := s1 <| threads := <[c := th <| t_proc := p |>]> (threads s1) |> in
  exists ob', sys_ok s' g ob' /\ km s' = km s /\ vms s' = vms s /\ launch s' = launch s /\ threads s' = <[c := th <| t_proc := p |>]> (threads s)
  /\ procs s' = unref (t_proc th) (procs s).
Proof.
  intros I Ht Hp Hne Hr s1 s'. pose proof (inv_switch K m0 s g ob _ _ c th p I Ht Hp Hne) as I1. set (T := <[c := th <| t_proc := p |>]> (threads s)) in *.
  assert (Es : s' = process_put (s <| threads := T |>) (t_proc th)) by (unfold s', s1; rewrite process_put_threads, threads_process_put; done).
  destruct (si_thrproc _ _ _ _ _ _ _ I c th Ht) as [pr Hpr]. set (P := t_proc th) in *. rewrite Es. destruct (decide (P = init_process)) as [Ei|Ei].
  - assert (process_put (s <| threads := T |>) P = s <| threads := T |>) as -> by (unfold process_put; rewrite Ei, Z.eqb_refl; case (init_process =? 0); reflexivity).
    exists ob. split_and!; try done; [|unfold unref; by rewrite decide_True]. eapply inv_ext; [exact I1|done|]. intros q _ Hq. unfold zset, none. repeat case_decide; congruence || lia.
  - destruct (process_put_spec K m0 Hbm Hiv Hip (s <| threads := T |>) g ob _ _ P pr I1 Hpr Ei) as (g4 & ob4 & I4 & _ & _ & _ & _ & D4 & _);
      [unfold zset, none; repeat case_decide; congruence || lia|done|].
    destruct (D4 (Hr pr Hpr Ei)) as [D5 ->]. exists ob4.
    split; [eapply inv_ext; [exact I4|done|]; intros q _ _; unfold zset, none; repeat case_decide; congruence || lia|]. rewrite D5. split_and!; try done.
    cbn. unfold unref. rewrite decide_False by done. rewrite <- (insert_id (procs s) P pr Hpr) at 2. by rewrite alter_insert_eq.
Qed.

Record exec_made (s : vsys) (g : ghost) (t a : Z) (vm : vm_map) (ta : vtree) (entry sp c : Z) (s' : vsys) (g' : ghost) : Prop := mk_exec_made {
  em_new : c <> 0 /\ threads s !! c = None;
  em_thread : exists p stack, threads s' = <[c := mk_thread stack p 0]> (threads s) /\ procs s !! p = None
    /\ procs s' = <[p := mk_process (next_pid s) a 0 0 1]> (init_ref (creator_proc s t) (procs s));
  em_launch : exists x, launch s !! x = None /\ launch s' = <[x := (entry, sp, 0)]> (launch s);
  em_vm : vms s' = <[a := vm]> (vms s);
  em_tree : g_tree g' !! a = Some ta;
  em_view : forall x, view (mem (pm (km s'))) ta x = view (mem (pm (km s))) ta x;
  em_count : 4 <= free_count (pm (km s)) -> free_count (pm (km s)) - 4 <= free_count (pm (km s')) }.

(** The end of [exec_start], once there is a thread. *)
Lemma exec_finish s g ob a vm ta c th x : sys_inv s g ob (zset a 1 none) none -> vms s !! a = Some vm -> a <> init_vm_map -> refs vm = 1 -> g_tree g !! a = Some ta ->
  threads s !! c = Some th -> launch s !! x <> None -> (forall pr, procs s !! t_proc th = Some pr -> t_proc th <> init_process -> 1 < p_refs pr) ->
  exists c' s' g' ob',
    (let '(p, s) := process_alloc s a in
     let s := vm_map_put s a in
     if p =? 0 then (0, s <| km := kfree (km s) x |> <| launch := delete x (launch s) |>)
     else
       let th := default (mk_thread 0 0 0) (threads s !! c) in
       let s := process_put s (t_proc th) in
       (c, s <| threads := <[c := th <| t_proc := p |>]> (threads s) |>)) = (c', s')
  /\ sys_ok s' g' ob' /\ spares_all [a] s g s' g'
  /\ (c' = 0 \/ (c' = c /\ launch s' = launch s /\ vms s' = <[a := vm]> (vms s) /\ g_tree g' !! a = Some ta
       /\ (exists p, threads s' = <[c := th <| t_proc := p |>]> (threads s) /\ procs s !! p = None /\ procs s' = <[p := mk_process (next_pid s) a 0 0 1]> (unref (t_proc th) (procs s)))
       /\ (forall va, view (mem (pm (km s'))) ta va = view (mem (pm (km s))) ta va)
       /\ (1 <= free_count (pm (km s)) -> free_count (pm (km s)) - 1 <= free_count (pm (km s'))))).
Proof.
  intros I Hv Hne Hr Ht Hth Hx Hrefs. pose proof (process_spends s a) as Hsp. destruct (world_count K m0 _ _ _ (si_world _ _ _ _ _ _ _ I)) as [Hcn Hlim].
  destruct (process_alloc_spec K m0 Hiv s g ob _ none a vm I Hv Hne) as (p & s2 & g2 & ob2 & Ep & T2 & L2 & S2 & Tr2 & Sp2 & Hres). rewrite Ep in Hsp |- *. cbn [snd] in Hsp.
  destruct Hres as [(-> & -> & I2)|(Hp & Hpi & Hpn & I2 & V2 & P2)].
  - destruct (put_vm_spec K m0 Hbm Hiv s g2 ob2 _ none a vm I2 Hv ltac:(rewrite zset_eq; lia)) as (g3 & ob3 & I3 & P3 & T3 & L3 & S3 & O3 & _ & D3).
    destruct (D3 Hr Hne) as [D4 _]. cbn [Z.eqb].
    assert (Hob : ob3 x = Some ULaunch). { apply (si_olaunch _ _ _ _ _ _ _ I3). rewrite L3. destruct (launch s !! x); [eauto|done]. }
    destruct (inv_kfree K m0 _ _ _ _ _ x (inv_launch_del K m0 _ g3 ob3 _ _ x I3 Hob) (oset_eq _ _ _)) as (g4 & I4 & A4).
    eexists 0, _, g4, _. split; [reflexivity|]. split; [|split; [|by left]].
    + eapply inv_ext; [exact I4| |done]. intros h [vm1 Hh] _. unfold zset. case_decide; [|done]. subst. cbn in Hh. congruence.
    + eapply spares_all_trans; [exact S2|]. eapply spares_all_trans; [exact S3|]. by apply aside_all.
  - rewrite (proj2 (Z.eqb_neq p 0) Hp). assert (Hv2 : vms s2 !! a = Some (vm <| refs := refs vm + 1 |>)) by (rewrite V2; apply lookup_insert_eq).
    destruct (put_vm_spec K m0 Hbm Hiv s2 g2 ob2 _ _ a _ I2 Hv2 ltac:(rewrite zset_eq; lia)) as (g3 & ob3 & I3 & P3 & T3 & L3 & S3 & _ & D3 & _).
    destruct D3 as [D3 ->]; [cbn; lia|]. assert (Ev : vm_map_put s2 a = set_vm s2 a vm).
    { rewrite D3. f_equal. change (refs (vm <| refs := refs vm + 1 |>)) with (refs vm + 1). rewrite Z.add_simpl_r. by destruct vm. }
    assert (I3' : sys_inv (vm_map_put s2 a) g2 ob3 none (zset p 1 none)).
    { eapply inv_ext; [exact I3| |done]. intros h _ _. unfold zset, none. repeat case_decide; lia. }
    cbn zeta. rewrite T3, T2, Hth. cbn [default from_option]. unfold id. assert (Htp : t_proc th <> p).
    { intros <-. destruct (si_thrproc _ _ _ _ _ _ _ I c th Hth) as [pr Hpr]. congruence. }
    destruct (adopt_spec (vm_map_put s2 a) g2 ob3 c th p I3') as (ob4 & I4 & E1 & E2 & E3 & E4 & E5).
    { by rewrite T3, T2. }
    { rewrite P3, P2, lookup_insert_eq. eauto. }
    { done. }
    { intros pr. rewrite P3, P2, lookup_insert_ne by done. apply Hrefs. }
    cbn zeta in *. set (s4 := (process_put (vm_map_put s2 a) (t_proc th)) <| threads := _ |>) in *. eexists c, s4, g2, ob4. split; [reflexivity|]. split; [exact I4|]. split.
    { eapply spares_all_trans; [exact S2|]. eapply spares_all_trans; [exact S3|]. by apply spares_all_same. }
    right. split; [done|]. split; [by rewrite E3, L3, L2|]. split; [rewrite E2, Ev; cbn; by rewrite V2, insert_insert_eq|]. split; [by rewrite Tr2|].
    split; [exists p; split_and!; [by rewrite E4, T3, T2|done|rewrite E5, P3, P2; by apply unref_insert]|].
    rewrite E1, Ev. split; [|intros H1; apply Hsp; lia].
    intros va. pose proof (spares_view K m0 (km s) _ g a vm ta (km s2) g2 (si_world _ _ _ _ _ _ _ I) (space_lookup a vm Hv Hne) Ht Sp2) as [_ Hvw]. apply Hvw.
Qed.

Lemma thread_pid s c : next_pid (snd (thread_create s c)) = next_pid s.
Proof.
  unfold thread_create. destruct (kmalloc _ _) as [t k]. destruct (t =? 0); [done|]. destruct (pmm_alloc _) as [stack st]. destruct (stack =? 0); [done|]. cbn [snd].
  set (p := match _ with Some c0 => _ | None => _ end). destruct (procs _ !! p); [|done]. by destruct (negb _).
Qed.

Lemma exec_start_spec s g ob t a vm ta entry sp : sys_inv s g ob (zset a 1 none) none -> vms s !! a = Some vm -> a <> init_vm_map -> refs vm = 1 -> g_tree g !! a = Some ta ->
  exists c s' g' ob', exec_start s t a entry sp = (c, s') /\ sys_ok s' g' ob' /\ spares_all [a] s g s' g' /\ (c = 0 \/ exec_made s g t a vm ta entry sp c s' g').
Proof.
  intros I Hv Hne Hr Ht. unfold exec_start.
  assert (Hput : forall s1 g1 ob1, sys_inv s1 g1 ob1 (zset a 1 none) none -> vms s1 = vms s -> spares_all [a] s g s1 g1 ->
    exists c s' g' ob', (0, vm_map_put s1 a) = (c, s') /\ sys_ok s' g' ob' /\ spares_all [a] s g s' g' /\ (c = 0 \/ exec_made s g t a vm ta entry sp c s' g')).
  { intros s1 g1 ob1 I1 V1 S1. assert (Hv1 : vms s1 !! a = Some vm) by (by rewrite V1).
    destruct (put_vm_spec K m0 Hbm Hiv s1 g1 ob1 _ none a vm I1 Hv1 ltac:(rewrite zset_eq; lia)) as (g3 & ob3 & I3 & _ & _ & _ & S3 & _ & _ & D3).
    destruct (D3 Hr Hne) as [D4 _]. exists 0, (vm_map_put s1 a), g3, ob3. split; [done|]. split; [|split; [by eapply spares_all_trans|by left]].
    eapply inv_ext; [exact I3| |done]. intros h [vm1 Hh] _. unfold zset. case_decide; [congruence|done]. }
  pose proof (kmalloc_spends (km s) SIZEOF_EXEC_ARGS) as Hk. destruct (world_count K m0 _ _ _ (si_world _ _ _ _ _ _ _ I)) as [Hcn Hlim].
  destruct (inv_kmalloc K m0 s g ob _ none SIZEOF_EXEC_ARGS I) as [->|(x & k1 & g1 & Ek & Hx & Hob & I1 & A1)]; [|rewrite Ek in Hk |- *; cbn [snd] in Hk].
  { cbn [Z.eqb]. assert (s <| km := km s |> = s) as -> by (by destruct s). apply (Hput s g ob); [done|done|apply spares_all_refl]. }
  rewrite (proj2 (Z.eqb_neq x 0) Hx). set (s1 := s <| km := k1 |>) in *. set (s2 := s1 <| launch := _ |>).
  assert (Hla : launch s !! x = None). { destruct (launch s !! x) eqn:E; [|done]. assert (ob x = Some ULaunch) by (apply (si_olaunch _ _ _ _ _ _ _ I); by rewrite E). congruence. }
  pose proof (inv_launch_new K m0 s1 g1 _ _ none x (entry, sp, 0) I1 (oset_eq _ _ _)) as I2. change (s1 <| launch := _ |>) with s2 in I2.
  assert (S2 : spares_all [] s g s2 g1) by (by apply aside_all).
  destruct (thread_create_spec K m0 Hip s2 g1 _ _ none t I2) as (c & s3 & g3 & ob3 & Ec & V3 & L3 & S3 & O3 & I3 & Hres).
  assert (Hcount : 4 <= free_count (pm (km s)) -> free_count (pm (km s)) - 3 <= free_count (pm (km s3))).
  { intros H4. specialize (Hk ltac:(lia)). pose proof (thread_some K m0 s2 g1 _ _ _ t I2 ltac:(change (km s2) with k1; lia)) as Hn. rewrite Ec in Hn. destruct Hn as [_ Hn]. change (km s2) with k1 in Hn. lia. }
  pose proof (thread_pid s2 t) as Hpid. rewrite Ec in Hpid |- *. cbn [snd] in Hpid. assert (S13 : spares_all [] s g s3 g3) by (by eapply spares_all_trans). destruct Hres as [(-> & P3 & T3 & O4)|(Hc & Hobc & stack & pr & T3 & Tn & Hpr & P3)].
  - cbn [Z.eqb]. assert (Hob3 : ob3 x = Some ULaunch) by (rewrite O4; apply oset_eq).
    destruct (inv_kfree K m0 _ _ _ _ _ x (inv_launch_del K m0 s3 g3 ob3 _ none x I3 Hob3) (oset_eq _ _ _)) as (g4 & I4 & A4).
    eapply Hput; [exact I4|exact V3|]. eapply spares_all_weaken; [apply list_subseteq_nil|]. eapply spares_all_trans; [exact S13|by apply aside_all].
  - rewrite (proj2 (Z.eqb_neq c 0) Hc). assert (Hv3 : vms s3 !! a = Some vm) by (by rewrite V3).
    destruct (proj1 S13 a vm (not_elem_of_nil _) Hv) as [_ Hsp].
    destruct (spares_view K m0 (km s) _ g a vm ta (km s3) g3 (si_world _ _ _ _ _ _ _ I) (space_lookup a vm Hv Hne) Ht Hsp) as [Ht3 Hvw3].
    assert (Hth : threads s3 !! c = Some (mk_thread stack (creator_proc s2 t) 0)) by (rewrite T3; apply lookup_insert_eq).
    assert (Hlx : launch s3 !! x = Some (entry, sp, 0)) by (rewrite L3; apply lookup_insert_eq).
    destruct (exec_finish s3 g3 ob3 a vm ta c _ x I3 Hv3 Hne Hr Ht3 Hth) as (c' & s4 & g4 & ob4 & E4 & I4 & S4 & H4); [congruence| |].
    { cbn [t_proc]. intros pr1. rewrite P3, lookup_insert_eq. intros [= <-] Hni. cbn. destruct (si_procref _ _ _ _ _ _ _ I2 _ pr Hpr Hni). lia. }
    exists c', s4, g4, ob4. split; [exact E4|]. split; [exact I4|]. split; [eapply spares_all_trans; [eapply spares_all_weaken; [apply list_subseteq_nil|exact S13]|exact S4]|].
    destruct H4 as [->|(-> & L4 & V4 & Tr4 & (p & T4 & Pn & P4) & Hvw4 & Hc4)]; [by left|right]. constructor.
    + by split.
    + exists p, stack. assert (Hpn : procs s !! p = None).
      { rewrite P3 in Pn. apply lookup_insert_None in Pn as [Pn _]. exact Pn. }
      split_and!; [rewrite T4, T3; cbn; by rewrite insert_insert_eq|done|]. rewrite P4, Hpid, P3. cbn [t_proc]. by rewrite unref_ref.
    + exists x. split; [done|]. by rewrite L4, L3.
    + by rewrite V4, V3.
    + exact Tr4.
    + intros va. by rewrite Hvw4, Hvw3.
    + intros H1. specialize (Hcount H1). specialize (Hc4 ltac:(lia)). lia.
Qed.

Lemma exec_start_some s g ob t a vm entry sp : sys_inv s g ob (zset a 1 none) none -> vms s !! a = Some vm -> 4 <= free_count (pm (km s)) -> fst (exec_start s t a entry sp) <> 0.
Proof.
  intros I Hv Hc. pose proof (vm_nz K m0 Hiv I a vm Hv) as Ha. destruct (world_count K m0 _ _ _ (si_world _ _ _ _ _ _ _ I)) as [Hcn Hlim].
  pose proof (kmalloc_some K m0 (km s) _ g SIZEOF_EXEC_ARGS (si_world _ _ _ _ _ _ _ I) ltac:(unfold SIZEOF_EXEC_ARGS; lia) ltac:(lia)) as Hk. pose proof (kmalloc_spends (km s) SIZEOF_EXEC_ARGS ltac:(lia)) as Hs.
  unfold exec_start. destruct (inv_kmalloc K m0 s g ob _ none SIZEOF_EXEC_ARGS I) as [E|(x & k1 & g1 & E & Hx & Hob & I1 & _)]; rewrite E in *; cbn [fst snd] in *; [done|].
  rewrite (proj2 (Z.eqb_neq x 0) Hx). set (s1 := s <| km := k1 |>) in *. set (s2 := s1 <| launch := _ |>).
  pose proof (inv_launch_new K m0 s1 g1 _ _ none x (entry, sp, 0) I1 (oset_eq _ _ _)) as I2. change (s1 <| launch := _ |>) with s2 in I2.
  pose proof (thread_some K m0 s2 g1 _ _ _ t I2 ltac:(cbn; lia)) as Hn. destruct (thread_create_spec K m0 Hip s2 g1 _ _ none t I2) as (c & s3 & g3 & ob3 & Ec & _ & _ & _ & _ & I3 & _).
  rewrite Ec in *. destruct Hn as [Hc0 Hc3]. change (km s2) with k1 in Hc3. rewrite (proj2 (Z.eqb_neq c 0) Hc0).
  pose proof (process_some K m0 s3 g3 _ _ _ a I3 Ha ltac:(lia)) as Hp. destruct (process_alloc s3 a) as [p s4]. cbn [fst] in Hp. by rewrite (proj2 (Z.eqb_neq p 0) Hp).
Qed.

(** [exec_memory] makes memory that has [Q]; with [N] free pages, if [0 <= N], it does not
    fail and leaves what the rest of the call needs. *)
Definition makes (ld_img : image) (ld_sz : Z) (libc_img img : image) (argv : list bytes) (N : Z) (Q : Z -> Z -> (Z -> option Z) -> Prop) : Prop :=
  forall vs h vm k g, vs !! h = Some vm -> world k vs g -> g_tree g !! h = Some (mk_vtree ∅ ∅) -> (0 <= N -> N <= free_count (pm k)) ->
  exists r st' g' t', exec_memory ld_img ld_sz libc_img (pm k) vm img argv = (r, st') /\ world (k <| pm := st' |>) vs g' /\ moves h k g (k <| pm := st' |>) g'
    /\ g_tree g' !! h = Some t' /\ (forall e sp, r = Some (e, sp) -> Q e sp (view (mem st') t')) /\ (0 <= N -> r <> None /\ 4 <= free_count st' /\ free_count (pm k) - N <= free_count st').

Lemma makes_any ld_img ld_sz libc_img img argv : makes ld_img ld_sz libc_img img argv (-1) (fun _ _ _ => True).
Proof.
  intros vs h vm k g Hv W Ht _. destruct (local_memory Hv ld_img ld_sz libc_img img argv k g _ W Ht) as (r & st' & g' & t' & E & W' & M & Ht'). exists r, st', g', t'. split_and!; try done.
Qed.

Lemma inherit_same s t vm : same_tables vm (inherit_cwd s t vm) /\ refs (inherit_cwd s t vm) = refs vm /\ anon_next (inherit_cwd s t vm) = anon_next vm
  /\ heap_brk (inherit_cwd s t vm) = heap_brk vm.
Proof. unfold inherit_cwd. destruct (cur_vm s t ≫= _) as [pvm|]; [|done]. by destruct (bool_decide _). Qed.

(** The process of a program that was loaded. *)
Record exec_done (s : vsys) (s' : vsys) (g' : ghost) (t c N : Z) (Q : Z -> Z -> (Z -> option Z) -> Prop) : Prop := mk_exec_done {
  ed_new : c <> 0 /\ threads s !! c = None;
  ed_run : exists p stack a x entry sp vm ta v0, threads s' = <[c := mk_thread stack p 0]> (threads s)
    /\ procs s !! p = None /\ procs s' = <[p := mk_process (next_pid s) a 0 0 1]> (init_ref (creator_proc s t) (procs s))
    /\ launch s !! x = None /\ launch s' = <[x := (entry, sp, 0)]> (launch s)
    /\ vms s !! a = None /\ vms s' = <[a := vm]> (vms s) /\ refs vm = 1 /\ heap_brk vm = EXEC_HEAP_VA /\ anon_next vm = 0
    /\ g_tree g' !! a = Some ta /\ Q entry sp v0 /\ forall va, view (mem (pm (km s'))) ta va = v0 va;
  ed_count : 0 <= N -> free_count (pm (km s)) - N - 8 <= free_count (pm (km s')) }.

Lemma sys_execve_spec ld_img ld_sz libc_img s g ob t img sz argv N Q : sys_ok s g ob -> makes ld_img ld_sz libc_img img argv N Q -> (0 <= N -> N + 4 <= free_count (pm (km s))) ->
  exists c s' g' ob', sys_execve_impl ld_img ld_sz libc_img s t img sz argv = (c, s') /\ sys_ok s' g' ob' /\ others [] s g s' g'
  /\ (c = 0 /\ (0 <= N -> exec_ok img sz = false) \/ exec_done s s' g' t c N Q).
Proof.
  intros I HQ HN. unfold sys_execve_impl. destruct (exec_ok img sz); cbn [negb]; [|exists 0, s, g, ob; split_and!; [done|done|apply others_refl|by left]].
  destruct (create_vm_spec K m0 Hlay Hbm s g ob none none I) as (a & s1 & g1 & ob1 & Ec & P1 & T1 & L1 & S1 & Hres).
  assert (Hsome : 0 <= N -> a <> 0 /\ free_count (pm (km s)) - 4 <= free_count (pm (km s1))).
  { intros HN0. pose proof (create_some K m0 Hlay Hbm s g ob none none I ltac:(specialize (HN HN0); lia)) as Hc. by rewrite Ec in Hc. }
  pose proof (create_pid s) as Hpid. rewrite Ec in Hpid |- *. cbn [snd] in Hpid. destruct Hres as [(-> & V1 & I1)|(Ha0 & Han & Hai & I1 & Hta & x & y & z & V1)].
  { cbn [Z.eqb]. exists 0, s1, g1, ob1. split_and!; [done|done|by apply spares_others|left]. split; [done|]. intros HN0. by destruct (Hsome HN0). }
  rewrite (proj2 (Z.eqb_neq a 0) Ha0). assert (Hva : vms s1 !! a = Some (new_vm fresh_vm x y z)) by (rewrite V1; apply lookup_insert_eq).
  rewrite Hva. cbn [default from_option]. unfold id. cbn zeta. destruct (inherit_same s1 t (new_vm fresh_vm x y z)) as (E1 & E2 & E3 & _). set (vm := inherit_cwd s1 t _) in *.
  destruct (on_space_vm K m0 s1 g1 ob1 _ none a _ vm I1 Hva Hai E1 E2) as [I2 O2 P2 T2 L2]. set (s2 := set_vm s1 a vm) in *.
  assert (Hv2 : vms s2 !! a = Some vm) by apply lookup_insert_eq.
  destruct (HQ _ a vm (km s2) g1 (space_lookup a vm Hv2 Hai) (si_world _ _ _ _ _ _ _ I2) Hta) as (r & st3 & g3 & ta & -> & W3 & M3 & Ht3 & Hr & Hno).
  { intros HN0. specialize (HN HN0). destruct (Hsome HN0) as [_ ?]. cbn. lia. }
  assert (O13 : forall vm', others [a] s g (set_vm (set_pm s2 st3) a vm') g3).
  { intros vm'. eapply others_trans; [eapply others_weaken; [apply list_subseteq_nil|by apply spares_others]|]. eapply others_trans; [exact O2|].
    split; [|by eapply moves_dom]. intros h1 vm1 Hh Hv1. assert (h1 <> a) by (intros ->; apply Hh; left). split; [cbn; by rewrite lookup_insert_ne|]. by apply (moves_spares _ _ _ _ _ _ M3). }
  assert (Hfresh : forall s' g', others [a] s g s' g' -> others [] s g s' g').
  { intros s' g' [H1 H2]. split; [|exact H2]. intros h1 vm1 _ Hv1. apply H1; [|done]. intros ->%list_elem_of_singleton. congruence. }
  destruct r as [[entry sp]|].
  - set (vm3 := vm <| heap_brk := EXEC_HEAP_VA |> <| spawn_next := 0 |>). set (s3 := set_vm (set_pm s2 st3) a vm3).
    destruct (on_space_moves K m0 s2 g1 ob1 _ none a vm st3 g3 vm3 I2 Hv2 Hai W3 M3) as [I3 _ _ _ _]; [done..|]. fold s3 in I3.
    assert (Hv3 : vms s3 !! a = Some vm3) by apply lookup_insert_eq.
    assert (Hst : 0 <= N -> fst (exec_start s3 t a entry sp) <> 0) by (intros HN0; eapply exec_start_some; [exact I3|exact Hv3|apply (Hno HN0)]).
    destruct (exec_start_spec s3 g3 ob1 t a vm3 ta entry sp I3 Hv3 Hai E2 Ht3) as (c & s4 & g4 & ob4 & Es & I4 & S4 & Hc). rewrite Es in Hst |- *. cbn [fst] in Hst. exists c, s4, g4, ob4.
    split; [done|]. split; [exact I4|]. split; [apply Hfresh; eapply others_trans; [apply (O13 vm3)|by apply spares_others]|].
    destruct Hc as [->|[[C1 C2] (p & stack & C3 & C4 & C5) (xl & C6 & C7) C8 C9 C10 C11]]; [left; split; [done|]; intros HN0; by destruct (Hst HN0)|right]. constructor; [split; [done|by rewrite <- T1]| |intros HN0; destruct (Hno HN0) as (_ & N1 & N2); specialize (C11 N1); destruct (Hsome HN0) as [_ N3]; change (pm (km s2)) with (pm (km s1)) in N2; change (pm (km s3)) with st3 in C11; lia].
    exists p, stack, a, xl, entry, sp, vm3, ta, (view (mem st3) ta). unfold s3 in C3, C4, C5, C6, C7, C8. cbn in C3, C4, C5, C6, C7, C8.
    rewrite ?T1, ?P1, ?L1, ?V1 in *. split_and!; try done; [rewrite C5, Hpid; unfold creator_proc; cbn; by rewrite T1|rewrite C8; by rewrite !insert_insert_eq|by apply Hr].
  - assert (I3 : sys_inv (set_pm s2 st3) g3 ob1 (zset a 1 none) none) by (by apply (on_space_pm K m0 s2 g1 ob1 _ none a vm st3 g3)).
    destruct (put_vm_spec K m0 Hbm Hiv (set_pm s2 st3) g3 ob1 _ none a vm I3 Hv2 ltac:(rewrite zset_eq; lia)) as (g4 & ob4 & I4 & _ & _ & _ & S4 & _ & _ & D4).
    destruct (D4 E2 Hai) as [D5 _]. eexists 0, _, g4, ob4. split; [reflexivity|]. split; [|split; [|left; split; [done|]; intros HN0; by destruct (Hno HN0)]].
    + eapply inv_ext; [exact I4| |done]. intros h1 [vm1 Hh] _. unfold zset. case_decide; [congruence|done].
    + apply Hfresh. eapply others_trans; [|by apply spares_others]. pose proof (O13 vm) as O3. assert (set_vm (set_pm s2 st3) a vm = set_pm s2 st3) as E; [|by rewrite E in O3].
      unfold set_vm, set_pm. cbn. by rewrite insert_insert_eq.
Qed.

(** ** dlopen and its companions *)

Lemma local_on_space {A} s g ob xv xp h vm (op : pmm -> A * pmm) r st' : sys_inv s g ob xv xp -> vms s !! h = Some vm -> h <> init_vm_map ->
  local (vs := delete init_vm_map (vms s)) (h := h) op -> op (pm (km s)) = (r, st') ->
  exists g', forall vm', same_tables vm vm' -> refs vm' = refs vm -> on_space K m0 s g ob xv xp h (set_vm (set_pm s st') h vm') g'.
Proof.
  intros I Hv Hne Hop E. pose proof (si_world _ _ _ _ _ _ _ I) as W. destruct (w_tree _ _ _ _ _ W h vm (space_lookup h vm Hv Hne)) as (tr & Ht & _).
  destruct (Hop (km s) g tr W Ht) as (r1 & st1 & g1 & t1 & E1 & W1 & M1 & _). rewrite E in E1. injection E1 as <- <-.
  exists g1. intros vm' H1 H2. by apply (on_space_moves K m0 s g ob xv xp h vm).
Qed.

(** A call of thread [t] that changes at most its address space. *)
Definition call_ok (s : vsys) (g : ghost) (ob : Z -> option use) (xv xp : Z -> Z) (t : Z) (s' : vsys) : Prop :=
  exists g', aligned_vms s' /\ ((s' = s /\ g' = g) \/ exists h, cur_vm s t = Some h /\ on_space K m0 s g ob xv xp h s' g').

Lemma call_same s g ob xv xp t : aligned_vms s -> call_ok s g ob xv xp t s.
Proof. intros A. exists g. split; [done|by left]. Qed.

(** The fields that only [dlopen] looks at. *)
Lemma call_vm s g ob xv xp t h vm vm' : sys_inv s g ob xv xp -> aligned_vms s -> cur_vm s t = Some h -> vms s !! h = Some vm ->
  same_tables vm vm' -> refs vm' = refs vm -> heap_brk vm' = heap_brk vm -> anon_next vm' = anon_next vm -> call_ok s g ob xv xp t (set_vm s h vm').
Proof.
  intros I A Hc Hv E1 E2 E3 E4. exists g. split; [eapply aligned_insert; [done|reflexivity|rewrite E4; by eapply A]|right]. exists h. split; [done|].
  destruct (decide (h = init_vm_map)) as [->|Hne]; [|by eapply on_space_vm]. destruct E1 as (F1 & F2 & F3). by apply (on_init K m0 s g ob xv xp vm).
Qed.

Lemma call_local {A} s g ob xv xp t h vm (op : pmm -> A * pmm) r st' vm' : sys_inv s g ob xv xp -> aligned_vms s -> cur_vm s t = Some h -> vms s !! h = Some vm ->
  h <> init_vm_map -> local (vs := delete init_vm_map (vms s)) (h := h) op -> op (pm (km s)) = (r, st') -> same_tables vm vm' -> refs vm' = refs vm -> anon_next vm' = anon_next vm ->
  call_ok s g ob xv xp t (set_vm (set_pm s st') h vm').
Proof.
  intros I A0 Hc Hv Hne Hop E E1 E2 E3. destruct (local_on_space s g ob xv xp h vm op r st' I Hv Hne Hop E) as (g' & Hg). exists g'.
  split; [eapply (aligned_insert (set_pm s st')); [done|reflexivity|rewrite E3; by eapply A0]|right]. exists h. split; [done|]. by apply Hg.
Qed.

Lemma dlopen_call libc_img s g ob xv xp t path img sz low : sys_inv s g ob xv xp -> aligned_vms s -> call_ok s g ob xv xp t (snd (sys_dlopen_impl libc_img s t path img sz low)).
Proof.
  intros I A. unfold sys_dlopen_impl. destruct (cur_vm s t) as [h|] eqn:Hc; [|by apply call_same]. destruct (vms s !! h) as [vm|] eqn:Hv; [|by apply call_same].
  destruct (heap_brk vm =? 0) eqn:Hb; [by apply call_same|]. apply Z.eqb_neq in Hb. pose proof (heap_not_init K m0 _ _ _ _ _ _ _ I Hv Hb) as Hne.
  destruct (slot_by_path _ _); [by apply call_same|]. destruct (free_slot _) as [k|]; [|by eapply call_vm]. destruct (negb _); [by eapply call_vm|].
  cbn zeta. set (base := DLOPEN_VA + _). set (hi := base + DLOPEN_SLOT_SIZE). pose proof (space_lookup h vm Hv Hne) as Hv'.
  destruct (load_all (pm (km s)) vm img base base hi) as [r st1] eqn:E. destruct r; cbn [snd]; try (eapply call_local; try done; [apply (local_load Hv' img base base hi)|exact E]; fail).
  eapply (call_local s g ob xv xp t h vm (fun st => let '(r, st) := load_all st vm img base base hi in (r, dl_relocate libc_img st vm img low base)) Loaded); try done.
  - intros k1 g1 t1 W Ht. destruct (local_load Hv' img base base hi k1 g1 t1 W Ht) as (r1 & st2 & g2 & t2 & -> & W2 & M2 & Ht2).
    destruct (local_relocate Hv' libc_img img low base _ g2 t2 W2 Ht2) as (u & st3 & g3 & t3 & E3 & W3 & M3 & Ht3). injection E3 as _ <-.
    eexists r1, _, g3, t3. split; [reflexivity|]. split; [exact W3|]. split; [by eapply moves_trans|exact Ht3].
  - by rewrite E.
Qed.

Lemma dlsym_call s g ob xv xp t handle name img sz : sys_inv s g ob xv xp -> aligned_vms s -> call_ok s g ob xv xp t (snd (sys_dlsym_impl s t handle name img sz)).
Proof.
  intros I A. unfold sys_dlsym_impl. destruct (cur_vm s t) as [h|] eqn:Hc; [|by apply call_same]. destruct (vms s !! h) as [vm|] eqn:Hv; [|by apply call_same].
  destruct (dlopen_slot_of _ _); [|by eapply call_vm]. destruct (negb _); [by eapply call_vm|]. destruct (walk_dynamic img); [|by eapply call_vm].
  destruct (lookup_sym _ _ _); [|by eapply call_vm]. cbn zeta. destruct (_ =? 0); [by eapply call_vm|by apply call_same].
Qed.

Lemma dlclose_call s g ob xv xp t handle : sys_inv s g ob xv xp -> aligned_vms s -> call_ok s g ob xv xp t (snd (sys_dlclose_impl s t handle)).
Proof.
  intros I A. unfold sys_dlclose_impl. destruct (cur_vm s t) as [h|] eqn:Hc; [|by apply call_same]. destruct (vms s !! h) as [vm|] eqn:Hv; [|by apply call_same].
  destruct (dlopen_slot_of _ _) as [k|]; [|by eapply call_vm]. cbn zeta. cbn [snd]. destruct (decide (h = init_vm_map)) as [->|Hne].
  - destruct (si_init_vm _ _ _ _ _ _ _ I) as (vm1 & H1 & _ & H2 & _). rewrite Hv in H1. injection H1 as <-. rewrite unmap_null, set_pm_same by done. by eapply call_vm.
  - set (n := rounds _ _).
    apply (call_local s g ob xv xp t h vm (fun st => (tt, unmap_range n st vm handle)) tt); try done. apply (local_unmap (space_lookup h vm Hv Hne)).
Qed.

Lemma dlerror_call s g ob xv xp t cap : sys_inv s g ob xv xp -> aligned_vms s -> call_ok s g ob xv xp t (snd (sys_dlerror_impl s t cap)).
Proof.
  intros I A. unfold sys_dlerror_impl. destruct (cur_vm s t) as [h|] eqn:Hc; [|by apply call_same]. destruct (vms s !! h) as [vm|] eqn:Hv; [|by apply call_same].
  destruct (bool_decide _); [by apply call_same|by eapply call_vm].
Qed.

End Inv.
End ExecInv.
