(* ===== verification/VmStep.v ===== *)
(** * The system as a machine: steps and what they keep

    The steps of the kernel and of user programs on the state of Vm.v: system calls, the
    end of threads, the allocations of the rest of the kernel, and the stores made through
    the page tables, by programs and by the kernel for them.  A step names the address space
    it works on; the invariant holds after every step, and the other address spaces keep
    their bytes. *)

From stdpp Require Import base numbers list gmap.
From Stdlib Require Import ZArith Lia Bool.
From S2P Require Import Prelude Kmem Alloc Cheap Mmu MmuInv MmuLife VmWalk Vm Exec VmInv VmView VmSys VmCalls VmFork ExecInv.

Module VmStep.
Import Kmem Mmu MmuInv MmuLife VmWalk Vm Exec VmInv VmView VmSys VmCalls VmFork ExecInv.

#[local] Opaque zero_page copy_entries fill seqZ kmalloc kfree set_phys copy_phys copy_from Z.to_nat.

Section Step.
Context {BT : BootTables} {ST : Statics}.

(** The first [sigaction] of a thread allocates its table: 32 entries of 16 bytes. *)
Definition SIZEOF_SIG_TABLE : Z := 512.
Definition sig_table (s : vsys) (t : Z) : Z * vsys :=
  match threads s !! t with
  | None => (-1, s)
  | Some th =>
      if sig_actions th =? 0 then
        let '(a, k) := kmalloc (km s) SIZEOF_SIG_TABLE in
        let s := s <| km := k |> in
        if a =? 0 then (-1, s) else (0, s <| threads := <[t := th <| sig_actions := a |>]> (threads s) |>)
      else (0, s)
  end.

(** The address space in which thread [t] runs, with its root table. *)
Definition runs_in (s : vsys) (t h : Z) (vm : vm_map) : Prop := cur_vm s t = Some h /\ vms s !! h = Some vm.

(** [v_store] is a store of a program, and each store of [copy_to_user] for it, the frame of a
    signal included: one byte at an address that the program may use, in the space of the running
    thread.  Where [copy_to_user] goes astray (Signal.v) and where [sigreturn] takes a program to
    EL1 the machine has no step. *)
Inductive vstep : option Z -> vsys -> vsys -> Prop :=
  | v_kmalloc s n a k : kmalloc (km s) n = (a, k) ->
      vstep None s (s <| km := k |> <| kblocks := if a =? 0 then kblocks s else {[a]} ∪ kblocks s |>)
  | v_kfree s a : a ∈ kblocks s -> vstep None s (s <| km := kfree (km s) a |> <| kblocks := kblocks s ∖ {[a]} |>)
  | v_page s p st : pmm_alloc (pm (km s)) = (p, st) ->
      vstep None s ((set_pm s st) <| kpages := if p =? 0 then kpages s else {[p]} ∪ kpages s |>)
  | v_page_free s p : p ∈ kpages s -> vstep None s ((set_pm s (pmm_free (pm (km s)) p)) <| kpages := kpages s ∖ {[p]} |>)
  | v_page_write s p x v : p ∈ kpages s -> slab_of x = p ->
      vstep None s (set_pm s ((pm (km s)) <| mem := <[x := v]> (mem (pm (km s))) |>))
  | v_thread s c : vstep None s (snd (thread_create s c))
  | v_reap s t th pr : threads s !! t = Some th -> procs s !! t_proc th = Some pr -> vstep (Some (p_vm pr)) s (thread_reap s t)
  | v_sig s t : vstep None s (snd (sig_table s t))
  | v_brk s t h vm addr : runs_in s t h vm -> vstep (Some h) s (snd (sys_brk_impl s t addr))
  | v_mmap F s (fs : F) t h vm len flags fd off uf : runs_in s t h vm -> (forall ops, uf = Some ops -> bounded_reads ops) ->
      vstep (Some h) s (snd (fst (sys_mmap_impl s fs t len flags fd off uf)))
  | v_munmap s t h vm addr len : runs_in s t h vm -> vstep (Some h) s (snd (sys_munmap_impl s t addr len))
  | v_exec s t ld_img ld_sz libc_img img sz argv : vstep None s (snd (sys_execve_impl ld_img ld_sz libc_img s t img sz argv))
  | v_dlopen s t h vm libc_img path img sz low : runs_in s t h vm -> vstep (Some h) s (snd (sys_dlopen_impl libc_img s t path img sz low))
  | v_dlsym s t h vm handle name img sz : runs_in s t h vm -> vstep (Some h) s (snd (sys_dlsym_impl s t handle name img sz))
  | v_dlclose s t h vm handle : runs_in s t h vm -> vstep (Some h) s (snd (sys_dlclose_impl s t handle))
  | v_dlerror s t h vm cap : runs_in s t h vm -> vstep (Some h) s (snd (sys_dlerror_impl s t cap))
  | v_fork s t elr : vstep None s (snd (sys_fork_impl s t elr))
  | v_spawn s t h vm entry arg : runs_in s t h vm -> vstep (Some h) s (snd (sys_spawn_impl s t entry arg))
  | v_user_spawn s i : vstep None s (user_spawn_one s i)
  | v_start s p v : launch s !! p = Some v -> vstep None s (snd (spawn_thread_main s p))
  | v_store s t h vm va b pa : runs_in s t h vm -> user_access (mem (pm (km s))) (l0_phys vm) va = Some pa ->
      vstep (Some h) s (set_pm s ((pm (km s)) <| mem := st8 (mem (pm (km s))) pa b |>)).

Inductive vreach (s0 : vsys) : vsys -> Prop :=
  | vreach_here : vreach s0 s0
  | vreach_step l s s' : vreach s0 s -> vstep l s s' -> vreach s0 s'.

Context (K : ktab) (m0 : gmap Z Z) (Hlay : boot_layout) (Hbm : boot_map K m0).
Context (Hiv : init_vm_map <> 0) (Hip : init_process <> 0).
Context (R0 : load m0 l0_table = table_desc l1_table) (R1 : load m0 l1_table = table_desc l2_table).
Context (Hreads : forall va x, x ∈ walk_reads m0 l0_table va -> slab_of x ∈ statics).
Notation world := (world K m0).
Notation sys_inv := (sys_inv K m0).
Notation sys_ok s g ob := (sys_inv s g ob none none).

(** What programs may reach through the boot map is no page of the kernel, nor a table, nor
    a page of a process. *)
Definition boot_private (g : ghost) : Prop := forall va pa, user_access m0 l0_table va = Some pa -> g_kind g (slab_of pa) = None.

Record vok (s : vsys) (g : ghost) (ob : Z -> option use) : Prop := mk_vok {
  ok_sys : sys_ok s g ob;
  ok_aligned : aligned_vms s;
  ok_private : boot_private g }.

Definition hs_of (l : option Z) : list Z := match l with Some h => [h] | None => [] end.

(** ** The walk of the processor *)

Lemma boot_walk k vs g va : world k vs g -> user_access (mem (pm k)) l0_table va = user_access m0 l0_table va.
Proof.
  intros W. unfold user_access. rewrite (translate_reads m0 (mem (pm k)) l0_table va); [done|]. intros x Hx.
  apply (w_boot _ _ _ _ _ W), (w_static _ _ _ _ _ W), (Hreads va x Hx).
Qed.

Lemma world_roots k vs g : world k vs g -> boot_map K (mem (pm k)) /\ load (mem (pm k)) l0_table = table_desc l1_table /\ load (mem (pm k)) l1_table = table_desc l2_table.
Proof.
  intros W. split; [by eapply (w_boot_map K m0 Hlay Hbm)|].
  assert (Hs : forall p, p ∈ statics -> load (mem (pm k)) p = load m0 p).
  { intros p Hp. apply (w_boot _ _ _ _ _ W). rewrite <- (Z.add_0_r p), (slab_of_in p 0); [by apply (w_static _ _ _ _ _ W)| |unfold PAGE_SIZE; lia]. by apply (static_frame Hlay p Hp). }
  rewrite !Hs by (unfold statics; inlist). done.
Qed.

(** An access of a program: its own page, or what the boot map gives to all. *)
Lemma access_cases k vs g h vm tr va : world k vs g -> vs !! h = Some vm -> g_tree g !! h = Some tr ->
  user_access (mem (pm k)) (l0_phys vm) va
  = if decide (0 <= va < 2 ^ 30 /\ is_Some (t_l3 tr !! (vpn va / 512)))
    then match t_pg tr !! vpn va with Some a => Some (a + va mod 4096) | None => None end
    else user_access m0 l0_table va.
Proof.
  intros W Hv Ht. destruct (world_roots k vs g W) as (Hb & H0 & H1). pose proof (w_tree_eq K m0 W h vm tr Hv Ht) as Htr.
  rewrite <- (boot_walk k vs g va W). case_decide as E.
  - destruct E as [Hva [p Hp]]. by eapply (walk_own Hb Htr H0 H1).
  - apply (walk_boot Hlay Hb Htr H0 H1). intros Hva. destruct (t_l3 tr !! (vpn va / 512)) eqn:El; [|done]. destruct E. eauto.
Qed.

(** ** Blocks and pages of the rest of the kernel *)

(** Only what the rest of the kernel has changes hands. *)
Lemma inv_retag s g ob s' ob' : sys_ok s g ob -> km s' = km s -> vms s' = vms s -> procs s' = procs s -> threads s' = threads s -> launch s' = launch s -> kpages s' = kpages s ->
  (forall b, is_Some (ob' b) <-> is_Some (ob b)) -> (forall b u, u <> UKern -> u <> UOther -> ob' b = Some u <-> ob b = Some u) ->
  (forall b, ob' b = Some UKern <-> b ∈ kblocks s') -> sys_ok s' g ob'.
Proof.
  intros [I1 I2 I3 I4 I5 I6 IK I7 I8 I9 I10 I11 I12 I13 I14 I15] E1 E2 E3 E4 E5 E6 Hs Ho Hk.
  constructor; rewrite ?E1, ?E2, ?E3, ?E4, ?E5; try assumption; try (intros b; rewrite Ho by done; auto; fail).
  - intros b. by rewrite Hs.
  - intros b t. rewrite Ho by done. apply I7.
  - intros t p. rewrite I8. unfold kernel_page. by rewrite E4, E6.
Qed.

Lemma kmalloc_step s g ob n a k : vok s g ob -> kmalloc (km s) n = (a, k) ->
  let s' := s <| km := k |> <| kblocks := if a =? 0 then kblocks s else {[a]} ∪ kblocks s |> in exists g' ob', vok s' g' ob' /\ others [] s g s' g'.
Proof.
  intros [I A B] E s'. destruct (inv_kmalloc K m0 s g ob none none n I) as [E1|(a1 & k1 & g1 & E1 & Ha & Hob & I1 & A1)]; rewrite E in E1; injection E1 as -> ->.
  - exists g, ob. assert (s' = s) as -> by (unfold s'; cbn; by destruct s). split; [by constructor|apply others_refl].
  - exists g1, (oset a1 (Some UKern) ob). assert (S1 : spares_all [] s g s' g1) by (by apply aside_all). split; [|by apply spares_others].
    constructor; [|exact A|]; [|intros va pa Hp; apply (proj2 (spares_others _ _ _ _ _ S1)); by eapply B].
    apply (inv_retag (s <| km := k1 |>) g1 (oset a1 (Some UOther) ob)); try done.
    + intros b. unfold oset. case_decide; [|done]. split; eauto.
    + intros b u N1 N2. unfold oset. case_decide; [|done]. split; congruence.
    + intros b. unfold s'. cbn. rewrite (proj2 (Z.eqb_neq a1 0) Ha), elem_of_union, elem_of_singleton, <- (si_okern _ _ _ _ _ _ _ I). unfold oset.
      case_decide; [subst; split; [by left|done]|]. split; [by right|by intros [?|?]].
Qed.

Lemma kfree_step s g ob a : vok s g ob -> a ∈ kblocks s ->
  let s' := s <| km := kfree (km s) a |> <| kblocks := kblocks s ∖ {[a]} |> in exists g' ob', vok s' g' ob' /\ others [] s g s' g'.
Proof.
  intros [I A B] Ha s'. set (s1 := s <| kblocks := kblocks s ∖ {[a]} |>). assert (Hob : ob a = Some UKern) by (by apply (si_okern _ _ _ _ _ _ _ I)).
  assert (I1 : sys_ok s1 g (oset a (Some UOther) ob)).
  { apply (inv_retag s g ob); try done.
    - intros b. unfold oset. case_decide; [|done]. subst. rewrite Hob. split; eauto.
    - intros b u N1 N2. unfold oset. case_decide; [|done]. subst. rewrite Hob. split; congruence.
    - intros b. unfold s1. cbn. rewrite elem_of_difference, elem_of_singleton, <- (si_okern _ _ _ _ _ _ _ I). unfold oset. case_decide; [subst; split; [done|tauto]|tauto]. }
  destruct (inv_kfree K m0 s1 g _ _ _ a I1 (oset_eq _ _ _)) as (g2 & I2 & A2). exists g2, (oset a None (oset a (Some UOther) ob)).
  assert (S1 : spares_all [] s g s' g2) by (by apply aside_all). split; [|by apply spares_others].
  constructor; [exact I2|exact A|]. intros va pa Hp. apply (proj2 (spares_others _ _ _ _ _ S1)). by eapply B.
Qed.

(** Pages move between the free list and the rest of the kernel. *)
Lemma inv_kpages s g ob st g' P : sys_ok s g ob -> world ((km s) <| pm := st |>) (delete init_vm_map (vms s)) g' -> g_live g' = g_live g -> g_tree g' = g_tree g ->
  (forall p kd, kd <> Free -> kd <> Kernel 0 -> g_kind g' p = Some kd <-> g_kind g p = Some kd) -> (forall p, g_kind g' p = Some (Kernel 0) <-> p ∈ P) -> same_dom g g' ->
  (forall x h, g_kind g (slab_of x) = Some (User h) -> load (mem st) x = load (mem (pm (km s))) x) ->
  let s' := (set_pm s st) <| kpages := P |> in sys_ok s' g' ob /\ others [] s g s' g'.
Proof.
  intros I W El Et Hk HP Hd Hm s'. assert (Hth0 : forall th, threads s !! 0 = Some th -> False).
  { intros th Ht. assert (Hl : ob 0 = Some UThread) by (apply (si_othread _ _ _ _ _ _ _ I); by rewrite Ht). by destruct (live_nz K m0 I 0 (ob_live K m0 I 0 _ Hl)). }
  pose proof I as [I1 I2 I3 I4 I5 I6 IK I7 I8 I9 I10 I11 I12 I13 I14 I15]. split.
  - constructor; unfold s', set_pm; cbn [km vms procs threads launch kblocks kpages update]; try assumption.
    + intros b. by rewrite El.
    + intros t p. unfold kernel_page. cbn. destruct (decide (t = 0)) as [->|Ht].
      * rewrite HP. split; [by right|]. intros [(th & Ht & _)|[_ H]]; [by apply Hth0 in Ht|done].
      * rewrite Hk by congruence. rewrite I8. unfold kernel_page. split; (intros [H|[H _]]; [by left|done]).
    + destruct I15. split; by apply Hd.
  - split; [|exact Hd]. intros h vm _ Hv. split; [done|]. constructor; [intros p; by apply Hk|intros x Hx; by eapply Hm|by rewrite Et].
Qed.

(** A step that leaves the boot map's pages untyped and the mappings aligned. *)
Lemma vok_step s g ob s' g' ob' hs : vok s g ob -> sys_ok s' g' ob' -> aligned_vms s' -> others hs s g s' g' -> exists g' ob', vok s' g' ob' /\ others hs s g s' g'.
Proof.
  intros [_ _ B] I A O. exists g', ob'. split; [|exact O]. constructor; [exact I|exact A|]. intros va pa Hp. apply (proj2 O). by eapply B.
Qed.

Lemma kpage_kind s g ob p : sys_ok s g ob -> p ∈ kpages s <-> g_kind g p = Some (Kernel 0).
Proof.
  intros I. rewrite (si_stack _ _ _ _ _ _ _ I). unfold kernel_page. split; [by right|]. intros [(th & Ht & _)|[_ H]]; [|done].
  assert (Hl : ob 0 = Some UThread) by (apply (si_othread _ _ _ _ _ _ _ I); by rewrite Ht). by destruct (live_nz K m0 I 0 (ob_live K m0 I 0 _ Hl)).
Qed.

Lemma page_step s g ob p st : vok s g ob -> pmm_alloc (pm (km s)) = (p, st) ->
  let s' := (set_pm s st) <| kpages := if p =? 0 then kpages s else {[p]} ∪ kpages s |> in exists g' ob', vok s' g' ob' /\ others [] s g s' g'.
Proof.
  intros O E s'. pose proof (ok_sys _ _ _ O) as I. pose proof (si_world _ _ _ _ _ _ _ I) as W. destruct (g_pl g) as [|q pl] eqn:Epl.
  - pose proof (w_repr K m0 W) as Hr. rewrite Epl in Hr. rewrite (pmm_alloc_none _ Hr) in E. injection E as <- <-. exists g, ob.
    assert (s' = s) as -> by (unfold s'; rewrite set_pm_same; by destruct s). split; [done|apply others_refl].
  - destruct (world_alloc K m0 (km s) _ g q pl (Kernel 0) W Epl) as (st1 & Ea & W1 & Hz & Hf & Hs); [right; by exists 0|]. rewrite E in Ea. injection Ea as <- <-.
    unfold s'. rewrite Hz. set (g1 := mk_ghost pl _ _ _) in W1.
    assert (Hk : forall x, g_kind g1 x = if decide (x = p) then Some (Kernel 0) else g_kind g x).
    { intros x. cbn. unfold kset. repeat case_decide; try done; exfalso; [|subst]; rewrite list_elem_of_singleton in *; tauto. }
    destruct (inv_kpages s g ob st g1 ({[p]} ∪ kpages s) I W1 eq_refl eq_refl) as [I1 O1].
    + intros x kd N1 N2. rewrite Hk. case_decide; [subst; rewrite Hf; split; congruence|done].
    + intros x. rewrite Hk, elem_of_union, elem_of_singleton, (kpage_kind s g ob x I). case_decide; tauto.
    + intros x. rewrite Hk. case_decide; [subst; by rewrite Hf|done].
    + intros x h Hx. apply Hs. intros Ex%list_elem_of_singleton. rewrite Ex in Hx. congruence.
    + eapply vok_step; [exact O|exact I1|apply O|exact O1].
Qed.

Lemma page_free_step s g ob p : vok s g ob -> p ∈ kpages s ->
  let s' := (set_pm s (pmm_free (pm (km s)) p)) <| kpages := kpages s ∖ {[p]} |> in exists g' ob', vok s' g' ob' /\ others [] s g s' g'.
Proof.
  intros O Hp s'. pose proof (ok_sys _ _ _ O) as I. pose proof (proj1 (kpage_kind s g ob p I) Hp) as Hkp.
  destruct (world_release K m0 (km s) _ g p _ (si_world _ _ _ _ _ _ _ I) Hkp) as [W1 Hs]; [right; by exists 0|]. set (g1 := mk_ghost (p :: _) _ _ _) in W1.
  assert (Hk : forall x, g_kind g1 x = if decide (x = p) then Some Free else g_kind g x).
  { intros x. cbn. unfold kset. repeat case_decide; try done; exfalso; [|subst]; rewrite list_elem_of_singleton in *; tauto. }
  destruct (inv_kpages s g ob _ g1 (kpages s ∖ {[p]}) I W1 eq_refl eq_refl) as [I1 O1].
  - intros x kd N1 N2. rewrite Hk. case_decide; [subst; rewrite Hkp; split; congruence|done].
  - intros x. rewrite Hk, elem_of_difference, elem_of_singleton, (kpage_kind s g ob x I). case_decide; [split; [done|tauto]|tauto].
  - intros x. rewrite Hk. case_decide; [subst; by rewrite Hkp|done].
  - intros x h Hx. apply Hs. intros Ex%list_elem_of_singleton. rewrite Ex in Hx. congruence.
  - eapply vok_step; [exact O|exact I1|apply O|exact O1].
Qed.

Lemma page_write_step s g ob p x v : vok s g ob -> p ∈ kpages s -> slab_of x = p ->
  let s' := set_pm s ((pm (km s)) <| mem := <[x := v]> (mem (pm (km s))) |>) in exists g' ob', vok s' g' ob' /\ others [] s g s' g'.
Proof.
  intros O Hp Hx s'. pose proof (ok_sys _ _ _ O) as I. pose proof (si_world _ _ _ _ _ _ _ I) as W. pose proof (proj1 (kpage_kind s g ob p I) Hp) as Hkp.
  assert (Hs : same_except (mem (pm (km s))) (<[x := v]> (mem (pm (km s)))) [p]).
  { intros y Hy. unfold load. rewrite lookup_insert_ne; [done|]. intros <-. apply Hy. rewrite Hx. left. }
  pose proof (retype_loose K m0 _ _ g p Held W ltac:(by left) ltac:(exists (Kernel 0); split; [done|right; by exists 0])) as W1.
  set (g1 := mk_ghost _ _ _ _) in W1. assert (Hk1 : g_kind g1 p = Some Held) by (apply kset_in; left).
  pose proof (world_held_write K m0 _ _ g1 p _ W1 Hk1 Hs) as W2.
  pose proof (retype_loose K m0 _ _ g1 p (Kernel 0) W2 ltac:(right; by exists 0) ltac:(exists Held; split; [done|by left])) as W3. set (g3 := mk_ghost _ _ _ _) in W3.
  assert (Hk : forall q, g_kind g3 q = g_kind g q).
  { intros q. cbn. unfold kset. repeat case_decide; try done. by rewrite (proj1 (list_elem_of_singleton q p)). }
  destruct (inv_kpages s g ob _ g3 (kpages s) I W3 eq_refl eq_refl) as [I1 O1].
  - intros q kd _ _. by rewrite Hk.
  - intros q. rewrite Hk. symmetry. by apply (kpage_kind s g ob).
  - intros q. by rewrite Hk.
  - intros y h Hy. apply Hs. intros Ey%list_elem_of_singleton. rewrite Ey in Hy. congruence.
  - assert (s' = s' <| kpages := kpages s |>) as -> by (by destruct s). eapply vok_step; [exact O|exact I1|apply O|exact O1].
Qed.

(** ** Threads *)

Lemma aligned_put s a : aligned_vms s -> aligned_vms (vm_map_put s a).
Proof.
  intros A. unfold vm_map_put. destruct (a =? 0); [done|]. destruct (vms s !! a) as [vm|] eqn:E; [|done]. specialize (A a vm E) as Ea.
  destruct (refs _ >? 0); [by eapply aligned_insert|]. destruct (a =? init_vm_map); [by eapply aligned_insert|].
  destruct (mmu_vmap_destroy _ _) as [? st]. intros h vm1. cbn. rewrite lookup_delete_Some. intros [_ H]. by eapply A.
Qed.
Lemma aligned_process_put s p : aligned_vms s -> aligned_vms (process_put s p).
Proof.
  intros A. unfold process_put. destruct (p =? 0); [done|]. destruct (p =? init_process); [done|]. destruct (procs s !! p) as [pr|]; [|done].
  destruct (p_refs _ >? 0); [done|]. apply (aligned_put s (p_vm pr) A).
Qed.
Lemma aligned_reap s t : aligned_vms s -> aligned_vms (thread_reap s t).
Proof.
  intros A. unfold thread_reap. destruct (threads s !! t) as [th|]; [|done]. destruct (negb (stack_base th =? 0)); [|done].
  set (s1 := if negb (sig_actions th =? 0) then _ else _). assert (A1 : aligned_vms s1) by (unfold s1; by destruct (negb (sig_actions th =? 0))).
  destruct (negb (t_proc th =? 0)); [apply (aligned_process_put s1 (t_proc th) A1)|apply A1].
Qed.

Lemma thread_step s g ob c : vok s g ob -> exists g' ob', vok (snd (thread_create s c)) g' ob' /\ others [] s g (snd (thread_create s c)) g'.
Proof.
  intros O. destruct (thread_create_spec K m0 Hip s g ob none none c (ok_sys _ _ _ O)) as (t & s' & g' & ob' & -> & V & _ & S & _ & I & _).
  eapply vok_step; [exact O|exact I| |by apply spares_others]. intros h vm. cbn [snd]. rewrite V. apply O.
Qed.

Lemma proc_reap_step s g ob t th pr : vok s g ob -> threads s !! t = Some th -> procs s !! t_proc th = Some pr ->
  exists g' ob', vok (thread_reap s t) g' ob' /\ others [p_vm pr] s g (thread_reap s t) g'.
Proof.
  intros O Ht Hp. destruct (thread_reap_spec K m0 Hbm Hiv Hip s g ob none none t th (ok_sys _ _ _ O) Ht) as (g' & ob' & pr' & I & Hp' & _ & _ & S & _); [done..|].
  assert (pr' = pr) as -> by congruence. eapply vok_step; [exact O|exact I|apply aligned_reap, O|by apply spares_others].
Qed.

(** The table of signal actions. *)
Lemma inv_new_sig s g ob t th a : sys_ok s g ob -> ob a = Some UOther -> a <> 0 -> threads s !! t = Some th -> sig_actions th = 0 ->
  sys_ok (s <| threads := <[t := th <| sig_actions := a |>]> (threads s) |>) g (oset a (Some (USig t)) ob).
Proof.
  intros [I1 I2 I3 I4 I5 I6 IK I7 I8 I9 I10 I11 I12 I13 I14 I15] Ha Hnz Ht Hs.
  assert (Ho : forall b u, u <> USig t -> u <> UOther -> oset a (Some (USig t)) ob b = Some u <-> ob b = Some u).
  { intros b u N1 N2. unfold oset. case_decide; [subst; rewrite Ha; split; congruence|done]. }
  constructor; cbn [km vms procs threads launch kblocks kpages update]; try assumption; try (intros b; rewrite Ho by done; auto; fail).
  - intros b. rewrite I2. unfold oset. case_decide; [subst; rewrite Ha; split; eauto|done].
  - intros b. rewrite Ho by done. rewrite I5. rewrite lookup_insert. case_decide; [subst; rewrite Ht; split; eauto|done].
  - intros b t'. rewrite lookup_insert. destruct (decide (t = t')) as [<-|Hne].
    + unfold oset. case_decide as Eb; [subst; split; [intros _; split; [done|by eexists]|done]|]. rewrite I7. split; intros [Hb (th' & E1 & E2)]; split; try done.
      * rewrite Ht in E1. injection E1 as <-. congruence.
      * injection E1 as <-. cbn in E2. congruence.
    + rewrite Ho by congruence. apply I7.
  - intros t' q. rewrite I8. unfold kernel_page. cbn. rewrite lookup_insert. destruct (decide (t = t')) as [<-|Hne]; [|done]. rewrite Ht.
    split; (intros [(th' & [= <-] & E)|H]; [left; by eexists|by right]).
  - intros q pr Hq Hni. destruct (I10 q pr Hq Hni) as [H1 H2]. split; [|done]. rewrite (count_update _ _ t th _ Ht), H1. cbn [t_proc update]. lia.
  - intros t' th'. rewrite lookup_insert. case_decide; [intros [= <-]; apply (I12 t th Ht)|apply I12].
Qed.

Lemma sig_step s g ob t : vok s g ob -> exists g' ob', vok (snd (sig_table s t)) g' ob' /\ others [] s g (snd (sig_table s t)) g'.
Proof.
  intros O. pose proof (ok_sys _ _ _ O) as I. unfold sig_table. destruct (threads s !! t) as [th|] eqn:Ht; [|exists g, ob; split; [done|apply others_refl]].
  destruct (sig_actions th =? 0) eqn:Es; [apply Z.eqb_eq in Es|exists g, ob; split; [done|apply others_refl]].
  destruct (inv_kmalloc K m0 s g ob none none SIZEOF_SIG_TABLE I) as [->|(a & k1 & g1 & -> & Ha & Hob & I1 & A1)].
  - cbn [Z.eqb snd]. assert (s <| km := km s |> = s) as -> by (by destruct s). exists g, ob. split; [done|apply others_refl].
  - rewrite (proj2 (Z.eqb_neq a 0) Ha). cbn [snd].
    pose proof (inv_new_sig (s <| km := k1 |>) g1 _ t th a I1 (oset_eq _ _ _) Ha Ht Es) as I2. eapply vok_step; [exact O|exact I2|apply O|].
    apply spares_others. by apply aside_all.
Qed.

(** ** Calls *)

Lemma space_step s g ob s' g' h : vok s g ob -> aligned_vms s' -> (s' = s /\ g' = g \/ on_space K m0 s g ob none none h s' g') -> exists g' ob', vok s' g' ob' /\ others [h] s g s' g'.
Proof.
  intros O A [[-> ->]|[I Oth _ _ _]]; [exists g, ob; split; [done|apply others_refl]|]. by eapply vok_step.
Qed.

Lemma aligned_brk s t addr : aligned_vms s -> aligned_vms (snd (sys_brk_impl s t addr)).
Proof.
  intros A. unfold sys_brk_impl. destruct (cur_vm s t) as [h|]; [|done]. destruct (vms s !! h) as [vm|] eqn:Hv; [|done]. specialize (A h vm Hv) as Ah.
  destruct (heap_brk vm =? 0); [done|]. destruct (addr =? 0); [done|]. destruct (_ || _); [done|]. destruct (_ >? _).
  - destruct (vmap_alloc_pages _ _ _ _ _) as [r st]. destruct (r <? 0); [done|]. by eapply (aligned_insert (set_pm s st)).
  - cbn [snd]. destruct (_ <? _); by eapply (aligned_insert s).
Qed.

Lemma brk_step s g ob t h vm addr : vok s g ob -> runs_in s t h vm -> exists g' ob', vok (snd (sys_brk_impl s t addr)) g' ob' /\ others [h] s g (snd (sys_brk_impl s t addr)) g'.
Proof.
  intros O [Hc Hv]. pose proof (aligned_brk s t addr (ok_aligned _ _ _ O)) as A.
  destruct (brk_inv K m0 Hbm s g ob none none t addr (ok_sys _ _ _ O)) as (r & s' & g' & E & H). rewrite E in A |- *.
  eapply (space_step s g ob s' g' h O A). destruct H as [H|(h' & Hc' & H)]; [by left|right]. congruence.
Qed.

Lemma mmap_step {F} s g ob (fs : F) t h vm len flags fd off uf : vok s g ob -> runs_in s t h vm -> (forall ops, uf = Some ops -> bounded_reads ops) ->
  let s' := snd (fst (sys_mmap_impl s fs t len flags fd off uf)) in exists g' ob', vok s' g' ob' /\ others [h] s g s' g'.
Proof.
  intros O [Hc Hv] Hb. destruct (mmap_inv K m0 Hbm s g ob none none fs t len flags fd off uf (ok_sys _ _ _ O) (ok_aligned _ _ _ O) Hb) as (r & s' & fs' & g' & -> & A & H).
  cbn [fst snd]. eapply (space_step s g ob s' g' h O A). destruct H as [H|(h' & Hc' & H)]; [by left|right]. congruence.
Qed.

Lemma munmap_step s g ob t h vm addr len : vok s g ob -> runs_in s t h vm ->
  exists g' ob', vok (snd (sys_munmap_impl s t addr len)) g' ob' /\ others [h] s g (snd (sys_munmap_impl s t addr len)) g'.
Proof.
  intros O [Hc Hv]. destruct (munmap_inv K m0 Hbm s g ob none none t addr len (ok_sys _ _ _ O)) as (r & s' & g' & -> & Ev & H). cbn [snd].
  eapply (space_step s g ob s' g' h O); [intros h1 vm1; rewrite Ev; apply O|]. destruct H as [H|(h' & Hc' & H)]; [by left|right]. congruence.
Qed.

Lemma aligned_create s : aligned_vms s -> aligned_vms (snd (vm_map_create s)).
Proof.
  intros A. unfold vm_map_create. destruct (kmalloc _ _) as [a k]. destruct (a =? 0); [done|]. unfold mmu_vmap_create.
  destruct (pmm_alloc _) as [p1 st1], (pmm_alloc st1) as [p2 st2], (pmm_alloc st2) as [p3 st3]. destruct (_ || _); [done|]. cbn [snd Z.ltb Z.compare].
  by eapply (aligned_insert s).
Qed.
Lemma aligned_process_alloc s a : aligned_vms s -> aligned_vms (snd (process_alloc s a)).
Proof.
  intros A. unfold process_alloc. destruct (a =? 0); [done|]. destruct (kmalloc _ _) as [p k]. destruct (p =? 0); [done|]. cbn [snd]. unfold vm_map_get.
  change (vms (s <| km := k |>)) with (vms s). destruct (vms s !! a) as [vm|] eqn:Hv; [|done]. destruct (negb (a =? 0)); [|done]. eapply (aligned_insert s); [done|reflexivity|]. exact (A a vm Hv).
Qed.
Lemma aligned_thread s c : aligned_vms s -> aligned_vms (snd (thread_create s c)).
Proof.
  intros A. unfold thread_create. destruct (kmalloc _ _) as [t k]. destruct (t =? 0); [done|]. destruct (pmm_alloc _) as [stack st]. destruct (stack =? 0); [done|]. cbn [snd].
  set (p := match _ with Some c0 => _ | None => _ end). destruct (procs _ !! p); [|done]. by destruct (negb _).
Qed.
Lemma aligned_fork_process s t elr : aligned_vms s -> aligned_vms (snd (fork_process s t elr)).
Proof.
  intros A. unfold fork_process. destruct (cur_vm s t) as [h|]; [|done]. destruct (vms s !! h) as [pvm|] eqn:Hv; [|done]. destruct (heap_brk pvm =? 0); [done|].
  destruct (_ && _); [done|]. pose proof (aligned_create s A) as A1. destruct (vm_map_create s) as [c s1]. cbn [snd] in A1. destruct (c =? 0); [done|].
  destruct (clone_all _ _ _ _) as [r st]. destruct (r <? 0); [by apply aligned_put|]. set (s2 := set_vm _ c _).
  assert (A2 : aligned_vms s2) by (eapply (aligned_insert s1); [done|reflexivity|by apply (A h pvm Hv)]).
  pose proof (aligned_process_alloc s2 c A2) as A3. destruct (process_alloc s2 c) as [cp s3]. cbn [snd] in *. by apply aligned_put.
Qed.
Lemma aligned_fork s t elr : aligned_vms s -> aligned_vms (snd (sys_fork_impl s t elr)).
Proof.
  intros A. unfold sys_fork_impl. pose proof (aligned_fork_process s t elr A) as A1. destruct (fork_process s t elr) as [cp s1]. cbn [snd] in A1.
  destruct (cp =? 0); [done|]. pose proof (aligned_thread s1 t A1) as A2. destruct (thread_create s1 t) as [ct s2]. cbn [snd] in A2.
  destruct (ct =? 0); [by apply aligned_process_put|]. by apply (aligned_process_put s2).
Qed.

Lemma fork_step s g ob t elr : vok s g ob -> exists g' ob', vok (snd (sys_fork_impl s t elr)) g' ob' /\ others [] s g (snd (sys_fork_impl s t elr)) g'.
Proof.
  intros O. pose proof (ok_sys _ _ _ O) as I. pose proof (aligned_fork s t elr (ok_aligned _ _ _ O)) as A.
  assert (Hno : fork_process s t elr = (0, s) -> exists g' ob', vok (snd (sys_fork_impl s t elr)) g' ob' /\ others [] s g (snd (sys_fork_impl s t elr)) g').
  { intros E. unfold sys_fork_impl. rewrite E. exists g, ob. split; [done|apply others_refl]. }
  destruct (cur_vm s t) as [h|] eqn:Hc; [|apply Hno; unfold fork_process; by rewrite Hc].
  destruct (cur_vm_some K m0 I t h Hc) as (vm & _ & _ & Hv & _). destruct (decide (heap_brk vm = 0)) as [Hb|Hb]; [apply Hno; unfold fork_process; by rewrite Hc, Hv, Hb|].
  pose proof (heap_not_init K m0 _ _ _ _ _ _ _ I Hv Hb) as Hne.
  destruct (w_tree _ _ _ _ _ (si_world _ _ _ _ _ _ _ I) h vm (space_lookup h vm Hv Hne)) as (tr & Ht & _).
  destruct (sys_fork_spec K m0 Hlay Hbm Hiv Hip s g ob t elr h vm tr I Hc Hv Hne Ht) as (ct & s' & g' & ob' & E & I' & _ & S & _). rewrite E in A |- *.
  eapply vok_step; [exact O|exact I'|exact A|by apply spares_others].
Qed.

(** *** Programs *)

Lemma aligned_exec_start s t a entry sp : aligned_vms s -> aligned_vms (snd (exec_start s t a entry sp)).
Proof.
  intros A. unfold exec_start. destruct (kmalloc _ _) as [x k]. destruct (x =? 0); [by apply (aligned_put (s <| km := k |>))|].
  set (s2 := s <| km := k |> <| launch := _ |>). assert (A2 : aligned_vms s2) by exact A. pose proof (aligned_thread s2 t A2) as A3.
  destruct (thread_create s2 t) as [c s3]. cbn [snd] in A3. destruct (c =? 0); [by apply aligned_put|].
  pose proof (aligned_process_alloc s3 a A3) as A4. destruct (process_alloc s3 a) as [p s4]. cbn [snd] in A4. pose proof (aligned_put s4 a A4) as A5.
  destruct (p =? 0); [exact A5|]. apply (aligned_process_put _ _ A5).
Qed.
Lemma aligned_exec ld_img ld_sz libc_img s t img sz argv : aligned_vms s -> aligned_vms (snd (sys_execve_impl ld_img ld_sz libc_img s t img sz argv)).
Proof.
  intros A. unfold sys_execve_impl. destruct (negb _); [done|]. pose proof (aligned_create s A) as A1. destruct (vm_map_create s) as [a s1]. cbn [snd] in A1.
  destruct (a =? 0); [done|]. cbn zeta. destruct (inherit_same s1 t (default zero_vm_map (vms s1 !! a))) as (_ & _ & E & _). set (vm := inherit_cwd s1 t _) in *.
  assert (Ha : anon_next vm mod 4096 = 0) by (rewrite E; destruct (vms s1 !! a) as [vm0|] eqn:Ev; [by apply (A1 a vm0)|done]).
  assert (A2 : aligned_vms (set_vm s1 a vm)) by (by eapply (aligned_insert s1)).
  destruct (exec_memory _ _ _ _ _ _ _) as [[[entry sp]|] st]; [|by apply (aligned_put (set_pm (set_vm s1 a vm) st))].
  apply aligned_exec_start. by eapply (aligned_insert (set_pm (set_vm s1 a vm) st)).
Qed.

Lemma exec_step ld_img ld_sz libc_img s g ob t img sz argv : vok s g ob -> let s' := snd (sys_execve_impl ld_img ld_sz libc_img s t img sz argv) in
  exists g' ob', vok s' g' ob' /\ others [] s g s' g'.
Proof.
  intros O s'. pose proof (aligned_exec ld_img ld_sz libc_img s t img sz argv (ok_aligned _ _ _ O)) as A.
  destruct (sys_execve_spec K m0 Hlay Hbm Hiv Hip ld_img ld_sz libc_img s g ob t img sz argv (-1) _ (ok_sys _ _ _ O) (makes_any K m0 Hbm ld_img ld_sz libc_img img argv) ltac:(lia))
    as (c & s1 & g1 & ob1 & E & I1 & O1 & _). unfold s'. rewrite E in A |- *. by eapply vok_step.
Qed.

Lemma call_step s g ob t h vm s' : vok s g ob -> runs_in s t h vm -> call_ok K m0 s g ob none none t s' -> exists g' ob', vok s' g' ob' /\ others [h] s g s' g'.
Proof.
  intros O [Hc _] (g' & A & H). eapply (space_step s g ob s' g' h O A). destruct H as [H|(h' & Hc' & H)]; [by left|right]. congruence.
Qed.

(** *** spawn *)

Lemma slot_step s g ob t entry top s1 : vok s g ob -> spawn_slot s t entry = Some (top, s1) ->
  sys_ok s1 g ob /\ aligned_vms s1 /\ others (hs_of (cur_vm s t)) s g s1 g.
Proof.
  intros O. pose proof (ok_sys _ _ _ O) as I. unfold spawn_slot. destruct (_ && _).
  { destruct (_ >=? _); [done|]. intros [= _ <-]. split; [|split; [apply O|by apply spares_others, spares_all_same]].
    destruct I as [I1 I2 I3 I4 I5 I6 IK I7 I8 I9 I10 I11 I12 I13 I14 I15]. by constructor. }
  destruct (_ && _); [|done]. destruct (cur_vm s t) as [h|]; [|done]. destruct (vms s !! h) as [vm|] eqn:Hv; [|done].
  destruct (heap_brk vm =? 0) eqn:Hb; [done|]. apply Z.eqb_neq in Hb. destruct (_ >=? _); [done|]. intros [= _ <-].
  pose proof (heap_not_init K m0 _ _ _ _ _ _ _ I Hv Hb) as Hne.
  destruct (on_space_vm K m0 s g ob none none h vm (vm <| spawn_next := u32 (spawn_next vm + 1) |>) I Hv Hne) as [I1 O1 _ _ _]; [done..|].
  split; [exact I1|]. split; [|exact O1]. eapply (aligned_insert s); [apply O|reflexivity|]. by apply (ok_aligned _ _ _ O h vm).
Qed.

Lemma launch_step s g ob c v : sys_ok s g ob -> exists g' ob', sys_ok (snd (launch_thread s c v)) g' ob' /\ others [] s g (snd (launch_thread s c v)) g' /\ vms (snd (launch_thread s c v)) = vms s.
Proof.
  intros I. destruct (launch_thread_spec K m0 Hip s g ob none none c v I) as (t & s' & g' & ob' & -> & I' & V & S & _). exists g', ob'. split_and!; [done|by apply spares_others|done].
Qed.

Lemma spawn_step s g ob t h vm entry arg : vok s g ob -> runs_in s t h vm -> exists g' ob', vok (snd (sys_spawn_impl s t entry arg)) g' ob' /\ others [h] s g (snd (sys_spawn_impl s t entry arg)) g'.
Proof.
  intros O [Hc Hv]. unfold sys_spawn_impl. destruct (spawn_slot s t entry) as [[top s1]|] eqn:E; [|exists g, ob; split; [done|apply others_refl]].
  destruct (slot_step s g ob t entry top s1 O E) as (I1 & A1 & O1). rewrite Hc in O1. fold (launch_thread s1 t (entry, top, arg)).
  destruct (launch_step s1 g ob t (entry, top, arg) I1) as (g2 & ob2 & I2 & O2 & V2).
  eapply vok_step; [exact O|exact I2|intros h1 vm1; rewrite V2; apply A1|]. eapply others_trans; [exact O1|]. eapply others_weaken; [|exact O2]. apply list_subseteq_nil.
Qed.

Lemma user_spawn_step s g ob i : vok s g ob -> exists g' ob', vok (user_spawn_one s i) g' ob' /\ others [] s g (user_spawn_one s i) g'.
Proof.
  intros O. assert (user_spawn_one s i = snd (launch_thread s 0 (USER_VA, USER_VA + USER_SIZE - i * SPAWN_STACK_SIZE, i))) as ->.
  { unfold user_spawn_one, launch_thread. destruct (kmalloc _ _) as [a k]. destruct (a =? 0); [done|]. destruct (thread_create _ 0) as [c s1]. by destruct (c =? 0). }
  destruct (launch_step s g ob 0 (USER_VA, USER_VA + USER_SIZE - i * SPAWN_STACK_SIZE, i) (ok_sys _ _ _ O)) as (g2 & ob2 & I2 & O2 & V2).
  eapply vok_step; [exact O|exact I2|intros h1 vm1; rewrite V2; apply O|exact O2].
Qed.

Lemma start_step s g ob p v : vok s g ob -> launch s !! p = Some v -> exists g' ob', vok (snd (spawn_thread_main s p)) g' ob' /\ others [] s g (snd (spawn_thread_main s p)) g'.
Proof.
  intros O Hl. pose proof (ok_sys _ _ _ O) as I. assert (Hob : ob p = Some ULaunch) by (apply (si_olaunch _ _ _ _ _ _ _ I); by rewrite Hl).
  destruct (inv_kfree K m0 _ _ _ _ _ p (inv_launch_del K m0 s g ob none none p I Hob) (oset_eq _ _ _)) as (g2 & I2 & A2).
  eapply vok_step; [exact O|exact I2|apply O|]. apply spares_others. by apply aside_all.
Qed.

(** ** A program stores a byte *)

Lemma world_none_write k vs g p m' : world k vs g -> g_kind g p = None -> same_except (mem (pm k)) m' [p] -> world (k <| pm := (pm k) <| mem := m' |> |>) vs g.
Proof.
  intros W Hp Hs. pose proof W as [Hkm Hcl Hfr Hfree Hslab Hst Hboot Huser Htree].
  assert (Hn : forall q kd, g_kind g q = Some kd -> q ∉ [p]) by (intros q kd Hq ->%list_elem_of_singleton; congruence).
  constructor; cbn [pm slabs update]; try assumption.
  - destruct Hkm as (fl & sl & Hwf & HA). exists fl, sl. split; [|done]. eapply kmem_wf_frame; [done| |exact Hs|].
    + eapply (pmm_repr_frame (pm k)); [apply (w_repr K m0 W)|reflexivity|reflexivity|exact Hs|]. intros q Hq. by eapply Hn, Hfree.
    + intros q Hq. apply Hslab in Hq. split; [by eapply Hn|]. intros Hin. apply Hfree in Hin. congruence.
  - intros x Hx. rewrite <- (Hboot x Hx). apply Hs. by eapply Hn.
  - intros h vm Hv. destruct (Htree h vm Hv) as (t & Ht & Htr). exists t. split; [done|]. eapply (vm_tree_frame Htr); [exact Hs|].
    intros q Hq. eapply Hn. apply Huser. exists vm, t. split_and!; [done|done|apply elem_of_app; by left].
Qed.

(** A store through the boot map. *)
Lemma boot_store s g ob va b pa : vok s g ob -> user_access m0 l0_table va = Some pa ->
  let s' := set_pm s ((pm (km s)) <| mem := st8 (mem (pm (km s))) pa b |>) in exists g' ob', vok s' g' ob' /\ others [] s g s' g'.
Proof.
  intros O Hp s'. pose proof (ok_sys _ _ _ O) as I. pose proof (ok_private _ _ _ O va pa Hp) as Hn.
  pose proof (st8_same (mem (pm (km s))) pa b _ eq_refl) as Hs. pose proof (world_none_write _ _ g _ _ (si_world _ _ _ _ _ _ _ I) Hn Hs) as W1.
  eapply (vok_step s g ob s' g ob); [exact O| |apply O|].
  - apply (inv_km K m0 s g ob none none _ g ob I W1); [apply I|done|done|done].
  - split; [|done]. intros h vm _ Hv. split; [done|]. constructor; [done| |done]. intros x Hx. apply Hs. intros Ex%list_elem_of_singleton. rewrite Ex in Hx. congruence.
Qed.

(** A store to a page of the address space. *)
Lemma own_store s g ob h vm tr v a pa b : vok s g ob -> vms s !! h = Some vm -> h <> init_vm_map -> g_tree g !! h = Some tr -> t_pg tr !! v = Some a -> slab_of pa = a ->
  let s' := set_pm s ((pm (km s)) <| mem := st8 (mem (pm (km s))) pa b |>) in exists g' ob', vok s' g' ob' /\ others [h] s g s' g'.
Proof.
  intros O Hv Hne Ht Ha Hpa s'. pose proof (ok_sys _ _ _ O) as I.
  destruct (write_world K m0 (si_world _ _ _ _ _ _ _ I) (space_lookup h vm Hv Hne) Ht v a _ Ha (st8_same (mem (pm (km s))) pa b a Hpa)) as (g' & W' & M' & _ & _ & _).
  eapply (space_step s g ob s' g' h O (ok_aligned _ _ _ O)). right. by eapply (on_space_pm K m0).
Qed.

Lemma store_step s g ob t h vm va b pa : vok s g ob -> runs_in s t h vm -> user_access (mem (pm (km s))) (l0_phys vm) va = Some pa ->
  let s' := set_pm s ((pm (km s)) <| mem := st8 (mem (pm (km s))) pa b |>) in exists g' ob', vok s' g' ob' /\ others [h] s g s' g'.
Proof.
  intros O [Hc Hv] Hu s'. pose proof (ok_sys _ _ _ O) as I. pose proof (si_world _ _ _ _ _ _ _ I) as W.
  assert (Hboot : user_access m0 l0_table va = Some pa -> exists g' ob', vok s' g' ob' /\ others [h] s g s' g').
  { intros Hb. destruct (boot_store s g ob va b pa O Hb) as (g' & ob' & O' & Oth). exists g', ob'. split; [done|]. eapply others_weaken; [apply list_subseteq_nil|exact Oth]. }
  destruct (decide (h = init_vm_map)) as [->|Hne].
  { destruct (si_init_vm _ _ _ _ _ _ _ I) as (vm1 & Hv1 & _ & _ & E). rewrite Hv in Hv1. injection Hv1 as <-. rewrite E, (boot_walk _ _ _ va W) in Hu. by apply Hboot. }
  pose proof (space_lookup h vm Hv Hne) as Hv'. destruct (w_tree _ _ _ _ _ W h vm Hv') as (tr & Ht & _).
  rewrite (access_cases _ _ g h vm tr va W Hv' Ht) in Hu. case_decide; [|by apply Hboot].
  destruct (t_pg tr !! vpn va) as [a|] eqn:Ea; [|done]. injection Hu as <-. eapply (own_store s g ob h vm tr (vpn va) a); try done.
  apply page_byte, (pg_page K m0 _ _ _ _ _ _ _ _ W Hv' Ht Ea).
Qed.

(** ** Every step *)

Lemma vstep_ok l s g ob s' : vok s g ob -> vstep l s s' -> exists g' ob', vok s' g' ob' /\ others (hs_of l) s g s' g'.
Proof.
  intros O St. destruct St; cbn [hs_of].
  - by eapply kmalloc_step.
  - by eapply kfree_step.
  - by eapply page_step.
  - by eapply page_free_step.
  - by eapply page_write_step.
  - by eapply thread_step.
  - by eapply proc_reap_step.
  - by eapply sig_step.
  - by eapply brk_step.
  - by eapply mmap_step.
  - by eapply munmap_step.
  - by eapply exec_step.
  - eapply call_step; [exact O|eassumption|]. apply (dlopen_call K m0 Hbm); apply O.
  - eapply call_step; [exact O|eassumption|]. apply (dlsym_call K m0); apply O.
  - eapply call_step; [exact O|eassumption|]. apply (dlclose_call K m0 Hbm); apply O.
  - eapply call_step; [exact O|eassumption|]. apply (dlerror_call K m0); apply O.
  - by eapply fork_step.
  - by eapply spawn_step.
  - by eapply user_spawn_step.
  - by eapply start_step.
  - by eapply store_step.
Qed.

Lemma vreach_ok s0 g0 ob0 s : vok s0 g0 ob0 -> vreach s0 s -> exists g ob, vok s g ob.
Proof.
  intros O R. induction R as [|l s s' R IH St]; [eauto|]. destruct IH as (g & ob & Os). destruct (vstep_ok l s g ob s' Os St) as (g' & ob' & O' & _). eauto.
Qed.

End Step.
End VmStep.
