(* ===== verification/VmBoot.v ===== *)
(** * The boot map and the first state

    What [mmu_init] and [user_init] leave in the tables: tables at the right levels, blocks
    that only the kernel may use, and one block for programs, the 2 MB at [USER_VA].  From
    it the conditions of VmStep.v on the boot map follow, and the state after start-up has
    the invariant. *)

From stdpp Require Import base numbers list gmap.
From Stdlib Require Import ZArith Lia Bool.
From S2P Require Import Prelude Kmem Alloc Cheap Mmu MmuInv MmuLife VmWalk Vm Exec VmInv VmView VmSys VmCalls VmFork ExecInv VmStep.

Module VmBoot.
Import Kmem Mmu MmuInv MmuLife VmWalk Vm Exec VmInv VmView VmSys VmCalls VmFork ExecInv VmStep.

#[local] Opaque fill.

Section Boot.
Context {BT : BootTables} {ST : Statics} (storage : Z) (Hlay : boot_layout) (Hsto : 0 <= storage < 2 ^ 48 /\ storage mod 2 ^ 21 = 0).

Definition l1s : list Z := l1_table :: l1_table_uart :: l1_tables_dev.
Definition l2s : list Z := [l2_table; l2_table_hi].

(** An entry of each level. *)
Definition entry0 (i d : Z) : Prop := d = 0 \/ exists p, p ∈ l1s /\ (p = l1_table -> i = 0) /\ d = table_desc p.
Definition entry1 (p i d : Z) : Prop := d = 0 \/ (exists q, q ∈ l2s /\ (q = l2_table -> p = l1_table /\ i = 0) /\ d = table_desc q)
  \/ has d D_TABLE = false /\ has d D_AP_RW_EL0 = false.
Definition entry2 (p i d : Z) : Prop := has d D_TABLE = false
  /\ (has d D_VALID = true -> has d D_AP_RW_EL0 = true -> p = l2_table /\ i = l2_index USER_VA /\ d = user_block_desc storage).

Record shape (m : gmap Z Z) : Prop := mk_shape {
  sh_0 : forall i, 0 <= i < 512 -> entry0 i (load m (l0_table + 8 * i));
  sh_1 : forall p i, p ∈ l1s -> 0 <= i < 512 -> entry1 p i (load m (p + 8 * i));
  sh_2 : forall p i, p ∈ l2s -> 0 <= i < 512 -> entry2 p i (load m (p + 8 * i)) }.

Lemma static_page p : p ∈ statics -> page p.
Proof. intros Hp. by apply (static_frame Hlay p Hp). Qed.

Lemma statics_l1 p : p ∈ l1s -> p ∈ statics.
Proof. unfold l1s, statics. rewrite !elem_of_cons. tauto. Qed.
Lemma statics_l2 p : p ∈ l2s -> p ∈ statics.
Proof. unfold l2s, statics. rewrite !elem_of_cons, elem_of_nil. tauto. Qed.
Lemma statics_l0 : l0_table ∈ statics.
Proof. left. Qed.

Lemma l0_apart : l0_table ∉ l1s /\ l0_table ∉ l2s /\ forall p, p ∈ l1s -> p ∉ l2s.
Proof.
  destruct Hlay as [_ Hnd]. unfold statics in Hnd. rewrite !NoDup_cons, !elem_of_cons in Hnd. unfold l1s, l2s.
  split_and!; [rewrite !elem_of_cons; tauto|rewrite !elem_of_cons, elem_of_nil; tauto|].
  intros p. rewrite !elem_of_cons, elem_of_nil. intros Hp Hq. destruct Hq as [->|[->|[]]]; intuition congruence.
Qed.

(** One store to a table. *)
Lemma load_entry m tab i d p j : p ∈ statics -> tab ∈ statics -> 0 <= i < 512 -> 0 <= j < 512 ->
  load (<[tab + 8 * i := d]> m) (p + 8 * j) = if decide (p = tab /\ j = i) then d else load m (p + 8 * j).
Proof.
  intros Hp Ht Hi Hj. case_decide as E; [destruct E as [-> ->]; apply load_insert_eq|]. apply load_insert_ne. intros Ea.
  pose proof (slot_page tab i (static_page _ Ht) Hi) as H1. pose proof (slot_page p j (static_page _ Hp) Hj) as H2. rewrite Ea, H2 in H1. destruct E. split; [done|]. subst. lia.
Qed.

Lemma shape_set0 m i d : shape m -> 0 <= i < 512 -> entry0 i d -> shape (<[l0_table + 8 * i := d]> m).
Proof.
  intros [H0 H1 H2] Hi Hd. destruct l0_apart as (A1 & A2 & A3). constructor.
  - intros j Hj. rewrite load_entry by (done || apply statics_l0). case_decide as E; [destruct E as [_ ->]; done|auto].
  - intros p j Hp Hj. rewrite load_entry by (done || apply statics_l0 || by apply statics_l1). rewrite decide_False by (intros [-> _]; done). auto.
  - intros p j Hp Hj. rewrite load_entry by (done || apply statics_l0 || by apply statics_l2). rewrite decide_False by (intros [-> _]; done). auto.
Qed.
Lemma shape_set1 m p i d : shape m -> p ∈ l1s -> 0 <= i < 512 -> entry1 p i d -> shape (<[p + 8 * i := d]> m).
Proof.
  intros [H0 H1 H2] Hp Hi Hd. destruct l0_apart as (A1 & A2 & A3). pose proof (statics_l1 p Hp) as Hps. constructor.
  - intros j Hj. rewrite load_entry by (done || apply statics_l0). rewrite decide_False by (intros [<- _]; done). auto.
  - intros q j Hq Hj. rewrite load_entry by (done || by apply statics_l1). case_decide as E; [destruct E as [-> ->]; done|auto].
  - intros q j Hq Hj. rewrite load_entry by (done || by apply statics_l2). rewrite decide_False by (intros [-> _]; by eapply A3). auto.
Qed.
Lemma shape_set2 m p i d : shape m -> p ∈ l2s -> 0 <= i < 512 -> entry2 p i d -> shape (<[p + 8 * i := d]> m).
Proof.
  intros [H0 H1 H2] Hp Hi Hd. destruct l0_apart as (A1 & A2 & A3). pose proof (statics_l2 p Hp) as Hps. constructor.
  - intros j Hj. rewrite load_entry by (done || apply statics_l0). rewrite decide_False by (intros [<- _]; done). auto.
  - intros q j Hq Hj. rewrite load_entry by (done || by apply statics_l1). rewrite decide_False by (intros [-> _]; by eapply A3). auto.
  - intros q j Hq Hj. rewrite load_entry by (done || by apply statics_l2). case_decide as E; [destruct E as [-> ->]; done|auto].
Qed.

(** ** Descriptors of blocks *)

Lemma aligned_bit pa n i : 0 <= i < n -> pa mod 2 ^ n = 0 -> Z.testbit pa i = false.
Proof. intros Hi E. rewrite <- (Z.mod_pow2_bits_low pa n i) by lia. rewrite E. apply Z.bits_0. Qed.

Lemma aligned_has pa c i : 0 <= i < 12 -> pa mod 4096 = 0 -> has (Z.lor pa c) (2 ^ i) = Z.testbit c i.
Proof. intros Hi Hp. rewrite has_bit, Z.lor_spec by lia. by rewrite (aligned_bit pa 12 i) by done. Qed.

Lemma normal_desc_eq pa : normal_desc pa = Z.lor pa (lors [D_VALID; D_ATTRIDX ATTR_NORMAL_IDX; D_AP_RW_EL1; D_SH_INNER; D_AF; D_UXN]).
Proof. reflexivity. Qed.
Lemma device_desc_eq pa : device_desc pa = Z.lor pa (lors [D_VALID; D_ATTRIDX ATTR_DEVICE_IDX; D_AP_RW_EL1; D_SH_NONE; D_AF; D_PXN; D_UXN]).
Proof. reflexivity. Qed.
Lemma user_block_desc_eq pa : user_block_desc pa = Z.lor pa (lors [D_VALID; D_ATTRIDX ATTR_NORMAL_IDX; D_AP_RW_EL0; D_SH_INNER; D_AF]).
Proof. reflexivity. Qed.

(** Blocks for the kernel alone. *)
Lemma kernel_block pa d : pa mod 4096 = 0 -> d = normal_desc pa \/ d = device_desc pa -> has d D_TABLE = false /\ has d D_AP_RW_EL0 = false.
Proof.
  intros Hp Hd. change D_TABLE with (2 ^ 1). change D_AP_RW_EL0 with (2 ^ 6).
  destruct Hd as [-> | ->]; [rewrite normal_desc_eq|rewrite device_desc_eq]; rewrite !aligned_has by (done || lia); done.
Qed.

Lemma user_block_flags pa : pa mod 4096 = 0 -> has (user_block_desc pa) D_TABLE = false /\ has (user_block_desc pa) D_VALID = true
  /\ has (user_block_desc pa) D_AF = true /\ has (user_block_desc pa) D_AP_RW_EL0 = true.
Proof.
  intros Hp. change D_TABLE with (2 ^ 1). change D_VALID with (2 ^ 0). change D_AF with (2 ^ 10). change D_AP_RW_EL0 with (2 ^ 6).
  rewrite user_block_desc_eq, !aligned_has by (done || lia). done.
Qed.

(** ** [mmu_init] and [user_init] *)

#[local] Transparent fill.
Lemma shape_fill p f n : forall st i, p ∈ l2s -> 0 <= i -> i + Z.of_nat n <= 512 -> (forall j, 0 <= j < 512 -> entry2 p j (f j)) -> shape (mem st) -> shape (mem (fill n st p i f)).
Proof.
  induction n as [|n IH]; intros st i Hp Hi Hn Hf Hs; cbn [fill]; [done|]. apply IH; [done|lia|lia|done|]. apply shape_set2; [done|done|lia|]. apply Hf. lia.
Qed.
#[local] Opaque fill.

Lemma entry2_kernel p i pa d : pa mod 4096 = 0 -> d = normal_desc pa \/ d = device_desc pa -> entry2 p i d.
Proof. intros H1 H2. destruct (kernel_block pa d H1 H2) as [H3 H4]. split; [done|]. congruence. Qed.

Lemma shl21 i : Z.shiftl i BLOCK_2M_SHIFT mod 4096 = 0.
Proof. unfold BLOCK_2M_SHIFT. rewrite Z.shiftl_mul_pow2 by lia. change (2 ^ 21) with (512 * 4096). rewrite Z.mul_assoc. apply Z.mod_mul. lia. Qed.

Definition zeroed (m : gmap Z Z) : Prop := forall x, slab_of x ∈ statics -> load m x = 0.

Lemma zeroed_shape m : zeroed m -> shape m.
Proof.
  intros Hz. constructor.
  - intros i Hi. left. apply Hz. rewrite slot_page by (done || apply static_page, statics_l0). apply statics_l0.
  - intros p i Hp Hi. left. apply Hz. apply statics_l1 in Hp. rewrite slot_page by (done || by apply static_page). done.
  - intros p i Hp Hi. assert (E : load m (p + 8 * i) = 0) by (apply Hz; apply statics_l2 in Hp; rewrite slot_page by (done || by apply static_page); done).
    rewrite E. split; [reflexivity|]. done.
Qed.

Lemma l2_ne : l2_table_hi <> l2_table /\ l1_table_uart <> l1_table.
Proof. destruct Hlay as [_ Hnd]. unfold statics in Hnd. rewrite !NoDup_cons, !elem_of_cons in Hnd. intuition congruence. Qed.

Lemma identity_shape st : shape (mem st) -> shape (mem (build_identity_map st)).
Proof.
  intros Hs. unfold build_identity_map. cbn zeta. apply shape_fill; [left|lia|lia| |].
  { intros j Hj. destruct (_ && _); eapply entry2_kernel; [apply shl21|by right|apply shl21|by left]. }
  apply shape_fill; [right; left|lia|lia| |].
  { intros j Hj. eapply entry2_kernel; [|by left]. pose proof (shl21 j). Z.to_euclidean_division_equations. lia. }
  destruct l2_ne as (N1 & N2). apply shape_set1; [|left|lia|right; left; exists l2_table_hi; split_and!; [right; left|done|done]].
  apply shape_set1; [|left|lia|right; left; exists l2_table; split_and!; [left|done|done]].
  apply shape_set0; [done|lia|]. right. exists l1_table. split_and!; [left|done|done].
Qed.

Lemma index_range va k : 0 <= k <= 39 -> 0 <= Z.land (u32 (Z.shiftr va k)) 0x1ff < 512.
Proof. intros Hk. rewrite index_eq by done. apply Z.mod_pos_bound. lia. Qed.

Lemma mask_aligned x n : 12 <= n <= 64 -> Z.land x (u64 (Z.lnot (Z.ones n))) mod 4096 = 0.
Proof.
  intros Hn. assert (E : u64 (Z.lnot (Z.ones n)) = Z.ldiff (Z.ones 64) (Z.ones n)).
  { unfold u64. change 18446744073709551616 with (2 ^ 64). rewrite <- Z.land_ones by lia. rewrite Z.ldiff_land. apply Z.land_comm. }
  rewrite E. change 4096 with (2 ^ 12). rewrite <- Z.land_ones by lia. apply Z.bits_inj'. intros i Hi. rewrite Z.bits_0, !Z.land_spec, Z.ldiff_spec.
  destruct (decide (i < 12)); [rewrite (Z.ones_spec_low n i) by lia; cbn; by rewrite !andb_false_r|]. rewrite (Z.ones_spec_high 12 i) by lia. apply andb_false_r.
Qed.

(** The roots of the walk. *)
Definition rooted (m : gmap Z Z) : Prop := load m l0_table = table_desc l1_table /\ load m l1_table = table_desc l2_table.

Lemma load_root m tab i d p : p ∈ statics -> tab ∈ statics -> 0 <= i < 512 -> load (<[tab + 8 * i := d]> m) p = if decide (p = tab /\ i = 0) then d else load m p.
Proof.
  intros Hp Ht Hi. pose proof (load_entry m tab i d p 0 Hp Ht Hi ltac:(lia)) as E. rewrite Z.mul_0_r, Z.add_0_r in E. rewrite E.
  repeat case_decide; try done; intuition congruence.
Qed.

Lemma rooted_set m tab i d : rooted m -> tab ∈ statics -> 0 <= i < 512 -> (i = 0 -> tab <> l0_table /\ tab <> l1_table) -> rooted (<[tab + 8 * i := d]> m).
Proof.
  intros [R0 R1] Ht Hi Hne. split; rewrite load_root by (done || unfold statics; inlist); rewrite decide_False; try done; intros [E1 E2]; apply Hne in E2; intuition congruence.
Qed.

#[local] Transparent fill.
Lemma rooted_fill p f n : forall st i, p ∈ l2s -> 0 <= i -> i + Z.of_nat n <= 512 -> rooted (mem st) -> rooted (mem (fill n st p i f)).
Proof.
  induction n as [|n IH]; intros st i Hp Hi Hn Hs; cbn [fill]; [done|]. apply IH; [done|lia|lia|]. apply rooted_set; [done|by apply statics_l2|lia|]. intros _.
  destruct l0_apart as (A1 & A2 & A3). split; intros ->; [done|]. apply (A3 l1_table); [left|done].
Qed.
#[local] Opaque fill.

Lemma l1_ne : l1_table <> l0_table /\ l1_table_uart <> l0_table /\ l1_table_uart <> l1_table /\ l2_table <> l0_table /\ l2_table <> l1_table /\ l2_table_hi <> l0_table /\ l2_table_hi <> l1_table.
Proof. destruct Hlay as [_ Hnd]. unfold statics in Hnd. rewrite !NoDup_cons, !elem_of_cons in Hnd. intuition congruence. Qed.

Lemma identity_rooted st : rooted (mem (build_identity_map st)).
Proof.
  destruct l1_ne as (N1 & _). unfold build_identity_map. cbn zeta. apply rooted_fill; [left|lia|lia|]. apply rooted_fill; [right; left|lia|lia|].
  cbn [mem set_entry update]. split; rewrite !load_root by (lia || unfold statics; inlist); repeat case_decide; try done; intuition congruence.
Qed.

Lemma mmu_init_tables st efi : zeroed (mem st) -> shape (mem (mmu_init st efi)) /\ rooted (mem (mmu_init st efi)).
Proof.
  intros Hz. pose proof (identity_shape st (zeroed_shape _ Hz)) as Hs. pose proof (identity_rooted st) as Hr. destruct l1_ne as (N1 & N2 & N3 & N4 & N5 & N6 & N7).
  unfold mmu_init. cbn zeta. set (st1 := build_identity_map st) in *. destruct (negb (efi =? 0)); [|done].
  change (u64 (Z.lnot BLOCK_1G_MASK)) with (u64 (Z.lnot (Z.ones 30))). change (u64 (Z.lnot (BLOCK_2M_SIZE - 1))) with (u64 (Z.lnot (Z.ones 21))).
  set (base := Z.land efi (u64 (Z.lnot (Z.ones 30)))). set (blk := Z.land efi (u64 (Z.lnot (Z.ones 21)))).
  assert (Hb : base mod 4096 = 0) by (apply mask_aligned; lia). assert (Hk : blk mod 4096 = 0) by (apply mask_aligned; lia).
  change (ENTRIES_PER_TABLE - 1) with 0x1ff. pose proof (index_range efi 21 ltac:(lia)) as H2. change BLOCK_2M_SHIFT with 21.
  destruct ((l0_index base =? 0) && (l1_index base =? 1)).
  { split; [apply shape_set2; [done|right; left|done|]; eapply entry2_kernel; [exact Hk|by right]|]. apply rooted_set; [done|unfold statics; inlist|done|done]. }
  pose proof (index_range base 39 ltac:(lia)) as H0. pose proof (index_range base 30 ltac:(lia)) as H1. fold (l0_index base) in H0. fold (l1_index base) in H1.
  destruct (l0_index base =? 0) eqn:E0.
  { split; [apply shape_set2; [done|left|done|]; eapply entry2_kernel; [exact Hk|by right]|]. apply rooted_set; [done|unfold statics; inlist|done|done]. }
  apply Z.eqb_neq in E0. split.
  - apply shape_set1; [|right; left|exact H1|right; right; apply (kernel_block base); [done|by right]]. apply shape_set0; [done|exact H0|]. right. exists l1_table_uart. split_and!; [right; left|done|done].
  - apply rooted_set; [|unfold statics; inlist|exact H1|done]. apply rooted_set; [done|unfold statics; inlist|exact H0|]. intros E. lia.
Qed.

Lemma user_map_tables st : shape (mem st) -> rooted (mem st) -> shape (mem (mmu_map_user_2mb st USER_VA storage)) /\ rooted (mem (mmu_map_user_2mb st USER_VA storage)).
Proof.
  intros Hs Hr. unfold mmu_map_user_2mb. destruct l1_ne as (N1 & N2 & N3 & N4 & N5 & _). assert (Hm : storage mod 4096 = 0).
  { destruct Hsto as [_ H]. change (2 ^ 21) with 2097152 in H. Z.to_euclidean_division_equations. lia. }
  split; [apply shape_set2; [done|left|apply index_range; unfold BLOCK_2M_SHIFT; lia|]|apply rooted_set; [done|unfold statics; inlist|apply index_range; unfold BLOCK_2M_SHIFT; lia|done]].
  destruct (user_block_flags storage Hm) as (F1 & _). split; [exact F1|]. done.
Qed.

(** ** What the walk finds *)

Definition tables_of (m : gmap Z Z) : ktab := mk_ktab (fun i => load m (l0_table + 8 * i)) (fun i => load m (l1_table + 8 * i)) (fun i => load m (l2_table + 8 * i)).

Lemma shape_boot_map m : shape m -> boot_map (tables_of m) m.
Proof. intros [_ _ H2]. constructor; try done. intros i Hi. apply (H2 l2_table i); [left|done]. Qed.

Section Walk.
Context {m : gmap Z Z} (Hs : shape m).

Lemma idx va k : 0 <= k -> 0 <= (va / 2 ^ k) mod 512 < 512.
Proof. intros _. apply Z.mod_pos_bound. lia. Qed.

(** Each step of the walk. *)
Lemma step0 va : has (load m (slot l0_table va 39)) D_VALID && has (load m (slot l0_table va 39)) D_TABLE = true ->
  exists p, p ∈ l1s /\ (p = l1_table -> (va / 2 ^ 39) mod 512 = 0) /\ Z.land (load m (slot l0_table va 39)) D_PA_MASK = p.
Proof.
  rewrite slot_eq by lia. destruct (sh_0 _ Hs ((va / 2 ^ 39) mod 512) (idx va 39 ltac:(lia))) as [-> |(p & Hp & Hi & ->)]; [done|]. intros _.
  exists p. split_and!; [done|done|]. apply table_desc_mask, static_frame; [done|by apply statics_l1].
Qed.
Lemma step1 va p : p ∈ l1s -> has (load m (slot p va 30)) D_VALID = true ->
  (has (load m (slot p va 30)) D_TABLE = true /\ exists q, q ∈ l2s /\ (q = l2_table -> p = l1_table /\ (va / 2 ^ 30) mod 512 = 0) /\ Z.land (load m (slot p va 30)) D_PA_MASK = q)
  \/ has (load m (slot p va 30)) D_TABLE = false /\ has (load m (slot p va 30)) D_AP_RW_EL0 = false.
Proof.
  intros Hp. rewrite slot_eq by lia. destruct (sh_1 _ Hs p ((va / 2 ^ 30) mod 512) Hp (idx va 30 ltac:(lia))) as [-> |[(q & Hq & Hi & ->)|H]]; [done| |by right].
  intros _. left. pose proof (static_frame Hlay q (statics_l2 q Hq)) as Hf. split; [by apply table_desc_table|]. exists q. split_and!; [done|done|by apply table_desc_mask].
Qed.
Lemma step2 va q : q ∈ l2s -> has (load m (slot q va 21)) D_TABLE = false
  /\ (has (load m (slot q va 21)) D_VALID = true -> has (load m (slot q va 21)) D_AP_RW_EL0 = true -> q = l2_table /\ (va / 2 ^ 21) mod 512 = l2_index USER_VA
      /\ load m (slot q va 21) = user_block_desc storage).
Proof. intros Hq. rewrite slot_eq by lia. apply (sh_2 _ Hs q ((va / 2 ^ 21) mod 512) Hq (idx va 21 ltac:(lia))). Qed.

Lemma slot_static p va k : p ∈ statics -> 0 <= k -> slab_of (slot p va k) = p.
Proof. intros Hp Hk. rewrite slot_eq by lia. apply slot_page; [by apply static_page|by apply idx]. Qed.

Lemma boot_reads va x : x ∈ walk_reads m l0_table va -> slab_of x ∈ statics.
Proof.
  assert (H0 : slab_of (slot l0_table va 39) ∈ statics) by (rewrite slot_static by (lia || apply statics_l0); apply statics_l0).
  unfold walk_reads. destruct (has _ D_VALID && _) eqn:E0; cbn [negb]; [|by intros ->%list_elem_of_singleton]. destruct (step0 va E0) as (p & Hp & _ & ->).
  assert (H1 : slab_of (slot p va 30) ∈ statics) by (rewrite slot_static by (lia || by apply statics_l1); by apply statics_l1).
  destruct (has (load m (slot p va 30)) D_VALID) eqn:E1; cbn [negb orb]; [|rewrite !elem_of_cons, elem_of_nil; by intros [->|[->|[]]]].
  destruct (step1 va p Hp E1) as [(-> & q & Hq & _ & ->)|[-> _]]; cbn [negb]; [|rewrite !elem_of_cons, elem_of_nil; by intros [->|[->|[]]]].
  assert (H2 : slab_of (slot q va 21) ∈ statics) by (rewrite slot_static by (lia || by apply statics_l2); by apply statics_l2).
  destruct (step2 va q Hq) as [-> _]. cbn [negb]. rewrite orb_true_r, !elem_of_cons, elem_of_nil. by intros [->|[->|[->|[]]]].
Qed.

(** The one block that programs may use. *)
Lemma boot_access va pa : user_access m l0_table va = Some pa -> USER_VA <= va < USER_VA + USER_SIZE /\ pa = storage + (va - USER_VA).
Proof.
  unfold user_access, translate. destruct ((va <? 0) || (2 ^ 48 <=? va)) eqn:Er; [done|]. apply orb_false_iff in Er as [Hr1%Z.ltb_ge Hr2%Z.leb_gt].
  fold (slot l0_table va 39). destruct (has _ D_VALID && _) eqn:E0; cbn [negb]; [|done]. destruct (step0 va E0) as (p & Hp & Hi0 & ->). fold (slot p va 30).
  destruct (has (load m (slot p va 30)) D_VALID) eqn:E1; cbn [negb]; [|done]. destruct (step1 va p Hp E1) as [(-> & q & Hq & Hi1 & ->)|[-> Eel]]; cbn [negb].
  2:{ unfold leaf. destruct (has _ D_AF); [|done]. by rewrite Eel. }
  fold (slot q va 21). destruct (step2 va q Hq) as [-> Hblk]. destruct (has (load m (slot q va 21)) D_VALID) eqn:E2; cbn [negb]; [|done].
  unfold leaf. destruct (has _ D_AF); [|done]. destruct (has _ D_AP_RW_EL0) eqn:Eel; [|done]. destruct (Hblk eq_refl eq_refl) as (-> & Hi2 & ->).
  destruct (Hi1 eq_refl) as [-> Hi1']. specialize (Hi0 eq_refl). intros [= <-]. change (l2_index USER_VA) with 128 in Hi2.
  assert (Hva : va / 2 ^ 21 = 128).
  { change (2 ^ 39) with 549755813888 in Hi0. change (2 ^ 30) with 1073741824 in Hi1'. change (2 ^ 21) with 2097152 in *. change (2 ^ 48) with 281474976710656 in Hr2.
    Z.to_euclidean_division_equations. lia. }
  unfold USER_VA, USER_SIZE. change (2 ^ 21) with 2097152 in Hva. split; [Z.to_euclidean_division_equations; lia|].
  destruct Hsto as [Hs1 Hs2]. rewrite user_block_desc_eq, Z.land_lor_distr_l, land_pa_mask.
  assert (Em : storage mod 4096 = 0) by (change (2 ^ 21) with 2097152 in Hs2; Z.to_euclidean_division_equations; lia). rewrite Em, Z.mod_small, Z.sub_0_r by lia.
  change (Z.land (lors [D_VALID; D_ATTRIDX ATTR_NORMAL_IDX; D_AP_RW_EL0; D_SH_INNER; D_AF]) D_PA_MASK) with 0. rewrite Z.lor_0_r, <- Z.ldiff_land, ldiff_ones_mod, Hs2, Z.sub_0_r, Z.land_ones by lia.
  change (2 ^ 21) with 2097152. f_equal. Z.to_euclidean_division_equations. lia.
Qed.

End Walk.

(** ** The first state *)

(** After [kmem_init] and [process_init], with the memory [st] that [mmu_init], [pmm_init] and
    [user_init] left. *)
Definition boot_system (st : pmm) : vsys :=
  process_init (mk_vsys (kmem_init (mk_kmem st ∅ ∅ [])) {[init_vm_map := boot_vm_map]} {[init_process := boot_process]} ∅ ∅ ∅ ∅ 2 0).

(** Free pages are neither tables nor the block of programs, and the static structures are
    in neither. *)
Definition placed (pl : list Z) : Prop :=
  (forall p, p ∈ pl -> frame p /\ p ∉ statics /\ ~ (storage <= p < storage + USER_SIZE))
  /\ (forall p, p ∈ statics -> ~ (storage <= p < storage + USER_SIZE))
  /\ (forall p, p = slab_of init_vm_map \/ p = slab_of init_process -> p ∉ pl /\ p ∉ statics).

Definition boot_kind (pl : list Z) (p : Z) : option kind := if decide (p ∈ pl) then Some Free else if decide (p ∈ statics) then Some Boot else None.
Definition boot_ghost (pl : list Z) : ghost := mk_ghost pl (fun _ => False) (boot_kind pl) ∅.

Lemma storage_page pa : storage <= pa < storage + USER_SIZE -> storage <= slab_of pa < storage + USER_SIZE.
Proof.
  intros Hp. rewrite slab_of_mod. destruct Hsto as [Hs Hm]. unfold USER_SIZE in *. change (2 ^ 21) with 2097152 in Hm. unfold PAGE_SIZE. Z.to_euclidean_division_equations. lia.
Qed.

Lemma boot_world st pl : pmm_repr st pl -> placed pl -> world (tables_of (mem st)) (mem st) (kmem_init (mk_kmem st ∅ ∅ [])) ∅ (boot_ghost pl).
Proof.
  intros Hr (Hp & Hst & Hsi). destruct (kmem_init_inv st pl Hr) as [(pl' & fl & sl & Hwf & HA) Hcl]. set (k := kmem_init _) in *. assert (Epm : pm k = st) by reflexivity.
  assert (pl' = pl) as ->. { eapply pmm_repr_unique; [|exact Hr]. rewrite <- Epm. apply Hwf. }
  assert (Hk : forall p kd, boot_kind pl p = Some kd -> kd = Free /\ p ∈ pl \/ kd = Boot /\ p ∈ statics).
  { intros p kd. unfold boot_kind. repeat case_decide; try done; intros [= <-]; auto. }
  constructor; cbn [boot_ghost g_pl g_live g_kind g_tree].
  - exists fl, sl. split; [exact Hwf|exact HA].
  - exact Hcl.
  - intros p kd H. destruct (Hk p kd H) as [[_ H1]|[_ H1]]; [by apply Hp|by apply static_frame].
  - intros p. unfold boot_kind. repeat case_decide; split; done.
  - intros p. change (slabs k) with (∅ : gmap Z slab). rewrite lookup_empty. split; [|by intros [? ?]]. intros H. by destruct (Hk p Slab H) as [[? _]|[? _]].
  - intros p H. unfold boot_kind. rewrite decide_False by (intros Hin; by apply Hp in Hin as (_ & Hin & _)). by rewrite decide_True.
  - intros x _. by rewrite Epm.
  - intros h p. split; [|by intros (vm & t & H & _)]. intros H. by destruct (Hk p _ H) as [[? _]|[? _]].
  - intros h vm H. by rewrite lookup_empty in H.
Qed.

Lemma boot_vok st pl : init_vm_map <> 0 -> init_process <> 0 -> pmm_repr st pl -> placed pl -> shape (mem st) ->
  vok (tables_of (mem st)) (mem st) (boot_system st) (boot_ghost pl) (fun _ => None).
Proof.
  intros Hiv Hip Hr Hpl Hs. pose proof Hpl as (Hp & Hst & Hsi).
  assert (Ev : vms (boot_system st) = {[init_vm_map := boot_vm_map <| l0_phys := l0_table |>]}).
  { unfold boot_system, process_init. cbn [vms]. rewrite lookup_singleton_eq. unfold set_vm. cbn. apply insert_singleton_eq. }
  assert (Es : km (boot_system st) = kmem_init (mk_kmem st ∅ ∅ []) /\ procs (boot_system st) = {[init_process := boot_process]} /\ threads (boot_system st) = ∅
    /\ launch (boot_system st) = ∅ /\ kblocks (boot_system st) = ∅ /\ kpages (boot_system st) = ∅).
  { unfold boot_system, process_init. cbn [vms]. rewrite lookup_singleton_eq. split_and!; reflexivity. }
  destruct Es as (E1 & E2 & E3 & E4 & E5 & E6). constructor.
  - constructor; rewrite ?E1, ?E2, ?E3, ?E4, ?E5, ?Ev.
    + rewrite delete_singleton_eq. by apply boot_world.
    + intros b. split; [done|by intros [? ?]].
    + intros b. split; [done|]. intros [Hne [vm Hb]]. apply lookup_singleton_Some in Hb as [<- _]. done.
    + intros b. split; [done|]. intros [Hne [pr Hb]]. apply lookup_singleton_Some in Hb as [<- _]. done.
    + intros b. rewrite lookup_empty. split; [done|by intros [? ?]].
    + intros b. rewrite lookup_empty. split; [done|by intros [? ?]].
    + intros b. split; [done|]. by intros ?%elem_of_empty.
    + intros b t. rewrite lookup_empty. split; [done|]. by intros (_ & ? & ? & _).
    + intros t p. unfold kernel_page. rewrite E3, E6, lookup_empty. cbn. unfold boot_kind. split; [repeat case_decide; done|]. intros [(? & ? & _)|[_ ?%elem_of_empty]]; done.
    + intros h vm Hh Hne. apply lookup_singleton_Some in Hh as [<- _]. done.
    + intros p pr Hh Hne. apply lookup_singleton_Some in Hh as [<- _]. done.
    + intros p pr Hh. apply lookup_singleton_Some in Hh as [_ <-]. cbn. rewrite lookup_singleton_eq. eauto.
    + intros t th Ht. by rewrite lookup_empty in Ht.
    + eexists. rewrite lookup_singleton_eq. done.
    + eexists. rewrite lookup_singleton_eq. done.
    + cbn. unfold boot_kind. split; (rewrite decide_False; [rewrite decide_False; [done|]|]); apply Hsi; auto.
  - intros h vm. rewrite Ev. intros [_ <-]%lookup_singleton_Some. done.
  - intros va pa Ha. apply (boot_access Hs) in Ha as [Hw ->]. cbn. unfold boot_kind.
    pose proof (storage_page (storage + (va - USER_VA)) ltac:(lia)) as Hpg.
    rewrite decide_False by (intros Hin; by apply Hp in Hin as (_ & _ & Hin)). rewrite decide_False; [done|]. intros Hin. by apply Hst in Hin.
Qed.

(** What firmware and its tables tell of the machine: the console, the configuration space of
    PCIe and the interrupt controller. *)
Record platform := mk_platform {
  efi_uart_base : Z;
  pcie_ecam_base : Z;
  gic_dist_base : Z;
  gic_redist_base : Z }.

(** Below 2 GB the identity map has the registers already. *)
Definition map_registers (st : pmm) (base : Z) : pmm := if base >=? 0x80000000 then mmu_map_device_1gb st base else st.

(** The memory part of [kmain], in its order: the tables, the registers of PCIe ([pcie_init]), the
    ranges of free memory, the slab allocator, the registers of the interrupt controller
    ([gic_dist_init]), the window of the first programs and the first process. *)
Definition kernel_start (st : pmm) (pf : platform) (ranges : list (Z * Z)) : vsys :=
  let st := mmu_init st (efi_uart_base pf) in
  let st := map_registers st (pcie_ecam_base pf) in
  let st := foldl (fun st r => pmm_add_range st (fst r) (snd r)) st ranges in
  let k := kmem_init (mk_kmem st ∅ ∅ []) in
  let k := k <| pm := map_registers (map_registers (pm k) (gic_dist_base pf)) (gic_redist_base pf) |> in
  let k := k <| pm := mmu_map_user_2mb (pm k) USER_VA storage |> in
  process_init (mk_vsys k {[init_vm_map := boot_vm_map]} {[init_process := boot_process]} ∅ ∅ ∅ ∅ 2 0).

(** The pages that the ranges add, last range first. *)
Fixpoint add_list (n : nat) (pa : Z) (l : list Z) : list Z :=
  match n with O => l | S n => add_list n (pa - PAGE_SIZE) ((pa - PAGE_SIZE) :: l) end.
Definition range_pages (l : list Z) (r : Z * Z) : list Z :=
  let start := align_up (fst r) PAGE_SIZE in
  let end_ := align_dn (snd r) PAGE_SIZE in
  if end_ <=? start then l else add_list (Z.to_nat ((end_ - start) / PAGE_SIZE)) end_ l.
Definition ram_pages (ranges : list (Z * Z)) : list Z := foldl range_pages [] ranges.

Definition same_tables_mem (m m' : gmap Z Z) : Prop := forall x, slab_of x ∈ statics -> load m' x = load m x.

Lemma add_list_app n pa l : exists l0, add_list n pa l = l0 ++ l.
Proof. revert pa l. induction n as [|n IH]; intros pa l; [by exists []|]. cbn. destruct (IH (pa - PAGE_SIZE) ((pa - PAGE_SIZE) :: l)) as [l0 ->]. exists (l0 ++ [pa - PAGE_SIZE]). by rewrite <- app_assoc. Qed.

Lemma add_pages_repr n pa st l : pmm_repr st l -> let l' := add_list n pa l in
  NoDup l' -> Forall page l' -> zlen l' < 2 ^ 60 -> (forall p, p ∈ l' -> p ∉ statics) ->
  pmm_repr (add_pages n pa st) l' /\ same_tables_mem (mem st) (mem (add_pages n pa st)).
Proof.
  revert pa st l. induction n as [|n IH]; intros pa st l Hr l' Hnd Hp Hl Hs; [done|]. cbn [add_pages]. unfold l' in *. cbn [add_list] in *.
  destruct (add_list_app n (pa - PAGE_SIZE) ((pa - PAGE_SIZE) :: l)) as [l0 E]. rewrite E in *. set (q := pa - PAGE_SIZE) in *.
  assert (Hq : q ∈ l0 ++ q :: l) by (apply elem_of_app; right; left). assert (Hpq : page q) by (rewrite Forall_forall in Hp; by apply Hp).
  assert (Hr1 : pmm_repr (pmm_free st q) (q :: l)).
  { apply pmm_free_push; [done|done| |].
    - apply NoDup_app in Hnd as (_ & _ & Hnd). by apply NoDup_cons in Hnd as [Hnd _].
    - unfold zlen in *. rewrite length_app in Hl. cbn in Hl. lia. }
  destruct (IH q _ _ Hr1) as [H1 H2]; rewrite ?E; try done. rewrite E in H1. split; [exact H1|]. intros x Hx. rewrite H2 by done. unfold pmm_free.
  destruct (q =? 0); [done|]. cbn. apply load_insert_ne. intros Ex. apply (Hs q Hq). rewrite <- (page_slab_of q Hpq). by rewrite Ex.
Qed.

Lemma range_app l r : exists l0, range_pages l r = l0 ++ l.
Proof. unfold range_pages. cbn zeta. destruct (_ <=? _); [by exists []|apply add_list_app]. Qed.
Lemma ranges_app ranges l : exists l0, foldl range_pages l ranges = l0 ++ l.
Proof. revert l. induction ranges as [|r rs IH]; intros l; [by exists []|]. cbn. destruct (IH (range_pages l r)) as [l0 ->], (range_app l r) as [l1 ->]. exists (l0 ++ l1). by rewrite app_assoc. Qed.

Lemma ranges_repr ranges st l : pmm_repr st l -> let l' := foldl range_pages l ranges in
  NoDup l' -> Forall page l' -> zlen l' < 2 ^ 60 -> (forall p, p ∈ l' -> p ∉ statics) ->
  let st' := foldl (fun st r => pmm_add_range st (fst r) (snd r)) st ranges in pmm_repr st' l' /\ same_tables_mem (mem st) (mem st').
Proof.
  revert st l. induction ranges as [|r rs IH]; intros st l Hr l' Hnd Hp Hl Hs; [done|]. unfold l' in *. cbn [foldl] in *.
  destruct (ranges_app rs (range_pages l r)) as [l0 E]. rewrite E in Hnd, Hp, Hl, Hs.
  assert (H1 : pmm_repr (pmm_add_range st (fst r) (snd r)) (range_pages l r) /\ same_tables_mem (mem st) (mem (pmm_add_range st (fst r) (snd r)))).
  { unfold pmm_add_range. revert E Hnd Hp Hl Hs. unfold range_pages. cbn zeta. destruct (_ <=? _); [done|]. intros E Hnd Hp Hl Hs.
    apply NoDup_app in Hnd as (_ & _ & Hnd). apply Forall_app in Hp as [_ Hp]. apply add_pages_repr; [done|done|done| |intros p Hpp; apply Hs, elem_of_app; by right].
    unfold zlen in *. rewrite length_app in Hl. lia. }
  destruct H1 as [H1 M1]. destruct (IH _ _ H1) as [H2 M2]; rewrite ?E; try done. rewrite E in H2. split; [exact H2|]. intros x Hx. by rewrite M2, M1.
Qed.

Lemma shape_ext m m' : same_tables_mem m m' -> shape m /\ rooted m -> shape m' /\ rooted m'.
Proof.
  intros Hm [[H0 H1 H2] [R0 R1]].
  assert (E : forall p i, p ∈ statics -> 0 <= i < 512 -> load m' (p + 8 * i) = load m (p + 8 * i)) by (intros p i Hp Hi; apply Hm; by rewrite slot_page by (done || by apply static_page)).
  assert (E' : forall p, p ∈ statics -> load m' p = load m p) by (intros p Hp; rewrite <- (Z.add_0_r p); apply (E p 0); [done|lia]).
  split; [constructor|split; rewrite E'; try done; unfold statics; inlist].
  - intros i Hi. rewrite E by (done || apply statics_l0). auto.
  - intros p i Hp Hi. rewrite E by (done || by apply statics_l1). auto.
  - intros p i Hp Hi. rewrite E by (done || by apply statics_l2). auto.
Qed.

Lemma fill_list n st tab i f : freelist (fill n st tab i f) = freelist st /\ free_count (fill n st tab i f) = free_count st.
Proof. revert st i. induction n as [|n IH]; intros st i; [done|]. cbn [fill]. apply (IH (set_entry st tab i (f i))). Qed.

Lemma init_empty st efi : pmm_repr st [] -> pmm_repr (mmu_init st efi) [].
Proof.
  assert (E : freelist (build_identity_map st) = freelist st /\ free_count (build_identity_map st) = free_count st).
  { unfold build_identity_map. cbn zeta. by rewrite !(proj1 (fill_list _ _ _ _ _)), !(proj2 (fill_list _ _ _ _ _)). }
  assert (E' : freelist (mmu_init st efi) = freelist st /\ free_count (mmu_init st efi) = free_count st).
  { unfold mmu_init. cbn zeta. revert E. generalize (build_identity_map st). intros st1 E. by repeat match goal with |- context [if ?c then _ else _] => destruct c end. }
  destruct E' as [E1 E2]. intros (H1 & H2 & H3 & H4 & H5). split_and!; try done; [cbn in *; by rewrite E1|by rewrite E2].
Qed.

(** A store to a static table leaves the list of free pages. *)
Lemma repr_set st pl tab i d : pmm_repr st pl -> (forall p, p ∈ pl -> p ∉ statics) -> tab ∈ statics -> 0 <= i < 512 -> pmm_repr (set_entry st tab i d) pl.
Proof.
  intros (H1 & H2 & H3 & H4 & H5) Hp Ht Hi. split_and!; try done. eapply chain_ext; [|exact H1]. intros x Hx. cbn. apply load_insert_ne. intros Ex.
  apply (Hp x Hx). pose proof (slot_page tab i (static_page _ Ht) Hi) as E. rewrite Forall_forall in H3. rewrite Ex, page_slab_of in E by by apply H3. by rewrite E.
Qed.

(** Registers that [mmu_map_device_1gb] maps without a new table: those below 512 GB, and, while
    no page is free, all that the machine can address. *)
Definition near (st : pmm) (base : Z) : Prop := 0 <= base < 2 ^ 39 \/ freelist st = 0 /\ 0 <= base < 2 ^ 48.

Lemma table_desc_page p : frame p -> Z.land (table_desc p) (u64 (Z.lnot 0xfff)) = p.
Proof.
  intros Hp. rewrite table_desc_eq, Z.land_lor_distr_l. change (Z.land 3 (u64 (Z.lnot 0xfff))) with 0. rewrite Z.lor_0_r, <- (frame_mask p Hp) at 1.
  change D_PA_MASK with (Z.land (Z.ones 48) (u64 (Z.lnot 0xfff))). rewrite <- Z.land_assoc.
  change (Z.land (Z.land (Z.ones 48) (u64 (Z.lnot 0xfff))) (u64 (Z.lnot 0xfff))) with D_PA_MASK. by apply frame_mask.
Qed.

Lemma base_eq base : 0 <= base < 2 ^ 48 -> Z.land base (u64 (Z.lnot (Z.ones 30))) = base - base mod 2 ^ 30.
Proof.
  intros Hb. rewrite <- ldiff_ones_mod by lia. change (u64 (Z.lnot (Z.ones 30))) with (Z.ldiff (Z.ones 64) (Z.ones 30)). apply Z.bits_inj'. intros i Hi.
  rewrite Z.land_spec, !Z.ldiff_spec. destruct (decide (i < 64)); [by rewrite (Z.ones_spec_low 64) by lia|].
  rewrite <- (Z.mod_small base (2 ^ 48)) by done. by rewrite Z.mod_pow2_bits_high by lia.
Qed.

Lemma base_index base : 0x80000000 <= base < 2 ^ 48 -> let b := Z.land base (u64 (Z.lnot (Z.ones 30))) in
  (l0_index b = 0 -> l1_index b <> 0) /\ (base < 2 ^ 39 -> l0_index b = 0).
Proof.
  intros Hb b. unfold b, l0_index, l1_index. rewrite base_eq, !index_eq by (unfold BLOCK_512G_SHIFT, BLOCK_1G_SHIFT; lia). unfold BLOCK_512G_SHIFT, BLOCK_1G_SHIFT.
  change (2 ^ 48) with 281474976710656 in *. change (2 ^ 39) with 549755813888. change (2 ^ 30) with 1073741824. split; Z.to_euclidean_division_equations; lia.
Qed.

Lemma registers_tables st pl base : pmm_repr st pl -> (forall p, p ∈ pl -> p ∉ statics) -> near st base -> shape (mem st) /\ rooted (mem st) ->
  pmm_repr (map_registers st base) pl /\ shape (mem (map_registers st base)) /\ rooted (mem (map_registers st base)).
Proof.
  intros Hr Hp Hn [Hs Ht]. unfold map_registers. destruct (base >=? 0x80000000) eqn:Eb; [|done]. apply Z.geb_le in Eb.
  assert (Hb : 0x80000000 <= base < 2 ^ 48) by (destruct Hn as [?|[_ ?]]; lia). destruct (base_index base Hb) as [Hi Hl]. unfold mmu_map_device_1gb. cbn zeta.
  change (u64 (Z.lnot BLOCK_1G_MASK)) with (u64 (Z.lnot (Z.ones 30))). set (b := Z.land base (u64 (Z.lnot (Z.ones 30)))) in *.
  assert (Hd : forall p, entry1 p (l1_index b) (device_desc b)) by (intros p; right; right; apply (kernel_block b); [apply mask_aligned; lia|by right]).
  pose proof (index_range b 39 ltac:(lia)) as H0. pose proof (index_range b 30 ltac:(lia)) as H1. fold (l0_index b) in H0. fold (l1_index b) in H1.
  assert (Hset : forall p, p ∈ l1s -> (p = l1_table -> l1_index b <> 0) -> let st' := set_entry st p (l1_index b) (device_desc b) in
    pmm_repr st' pl /\ shape (mem st') /\ rooted (mem st')).
  { intros p Hpl Hne. pose proof (statics_l1 p Hpl) as Hps. split; [by apply repr_set|]. split; [by apply shape_set1|]. apply rooted_set; [done|done|done|].
    intros E. destruct l0_apart as (A1 & _). split; [by intros ->|]. intros ->. by apply Hne. }
  assert (Hz : forall p, p ∈ l1s -> (p =? 0) = false).
  { intros p Hpl%statics_l1. destruct (static_page p Hpl). lia. }
  destruct (l0_index b =? 0) eqn:E0; [apply Z.eqb_eq in E0; rewrite Hz by left; apply Hset; [left|auto]|]. apply Z.eqb_neq in E0.
  unfold entry. destruct (sh_0 _ Hs (l0_index b) H0) as [E|(p & Hpl & Hpi & E)]; rewrite E.
  - change (has 0 D_VALID) with false. destruct Hn as [Hn|[Hf _]]; [by rewrite Hl in E0 by lia|]. unfold pmm_alloc. by rewrite Hf.
  - pose proof (static_frame Hlay p (statics_l1 p Hpl)) as Hfr. rewrite table_desc_valid, table_desc_page by done. rewrite Hz by done. apply Hset; [done|]. intros ->. by destruct E0; apply Hpi.
Qed.

End Boot.

(** ** Start-up *)

Section Start.
Context {BT : BootTables} {ST : Statics} (storage : Z).

(** [kernel_start] leaves the invariant, on a machine that placed its static tables, the
    block of programs and the ranges of free memory apart from each other. *)
Record machine (st : pmm) (pf : platform) (ranges : list (Z * Z)) : Prop := mk_machine {
  mc_layout : boot_layout;
  mc_storage : 0 <= storage < 2 ^ 48 /\ storage mod 2 ^ 21 = 0;
  mc_statics : init_vm_map <> 0 /\ init_process <> 0;
  mc_zeroed : zeroed (mem st);
  mc_empty : pmm_repr st [];
  mc_registers : 0 <= pcie_ecam_base pf < 2 ^ 48 /\ 0 <= gic_dist_base pf < 2 ^ 39 /\ 0 <= gic_redist_base pf < 2 ^ 39;
  mc_ranges : NoDup (ram_pages ranges) /\ zlen (ram_pages ranges) < 2 ^ 60;
  mc_placed : placed storage (ram_pages ranges) }.

Lemma kernel_start_ok st pf ranges : machine st pf ranges ->
  exists m, shape storage m /\ rooted m /\ vok (tables_of m) m (kernel_start storage st pf ranges) (boot_ghost (ram_pages ranges)) (fun _ => None).
Proof.
  intros [Hl Hs [Hiv Hip] Hz He (Re & Rd & Rr) [Hnd Hln] Hp]. pose proof Hp as (Hp1 & Hp2 & Hp3).
  pose proof (init_empty st (efi_uart_base pf) He) as He0. pose proof (mmu_init_tables storage Hl Hs st (efi_uart_base pf) Hz) as T0. set (st0 := mmu_init st (efi_uart_base pf)) in *.
  assert (Hn0 : near st0 (pcie_ecam_base pf)) by (right; split; [apply He0|done]).
  destruct (registers_tables storage Hl Hs st0 [] (pcie_ecam_base pf) He0 ltac:(by intros p ?%elem_of_nil) Hn0 T0) as [He1 T1]. set (st1 := map_registers st0 (pcie_ecam_base pf)) in *.
  assert (Hpl : forall p, p ∈ ram_pages ranges -> p ∉ statics) by (intros p Hpp; by apply Hp1).
  destruct (ranges_repr ranges st1 [] He1) as [Hr M]; [done| |done|done|].
  { apply Forall_forall. intros p Hpp. apply (Hp1 p Hpp). }
  set (st2 := foldl (fun st r => pmm_add_range st (fst r) (snd r)) st1 ranges) in *. pose proof (shape_ext storage Hl Hs _ _ M T1) as T2.
  destruct (registers_tables storage Hl Hs st2 _ (gic_dist_base pf) Hr Hpl ltac:(by left) T2) as [Hr3 T3].
  destruct (registers_tables storage Hl Hs _ _ (gic_redist_base pf) Hr3 Hpl ltac:(by left) T3) as [Hr4 T4]. set (st4 := map_registers (map_registers st2 _) _) in *.
  destruct (user_map_tables storage Hl Hs st4 (proj1 T4) (proj2 T4)) as [S5 R5]. set (st5 := mmu_map_user_2mb st4 USER_VA storage) in *.
  exists (mem st5). split; [done|]. split; [done|].
  change (kernel_start storage st pf ranges) with (boot_system st5). apply (boot_vok storage); try done.
  apply repr_set; [done|done|done|unfold statics; inlist|apply index_range; unfold BLOCK_2M_SHIFT; lia].
Qed.

(** The free pages of the first state. *)
Lemma kernel_start_free st pf ranges : machine st pf ranges -> free_count (pm (km (kernel_start storage st pf ranges))) = zlen (ram_pages ranges).
Proof.
  intros Hm. destruct (kernel_start_ok st pf ranges Hm) as (m & _ & _ & O). pose proof (si_world _ _ _ _ _ _ _ (ok_sys _ _ _ _ _ O)) as W. by destruct (w_repr _ _ W) as (_ & _ & _ & H & _).
Qed.

Lemma elem_of_add_list n : forall pa l p, p ∈ add_list n pa l <-> p ∈ l \/ exists i, 0 <= i < Z.of_nat n /\ p = pa - PAGE_SIZE * (i + 1).
Proof.
  induction n as [|n IH]; intros pa l p; cbn [add_list].
  - split; [by left|]. intros [H|(i & H & _)]; [done|lia].
  - rewrite IH, elem_of_cons. unfold PAGE_SIZE. split.
    + intros [[->|H]|(i & H & ->)]; [right; exists 0; lia|by left|right; exists (i + 1); lia].
    + intros [H|(i & H & ->)]; [by left; right|]. destruct (decide (i = 0)) as [->|Hn]; [left; left; lia|right; exists (i - 1); lia].
Qed.

Lemma add_list_nodup n : forall pa l, NoDup l -> (forall p, p ∈ l -> pa <= p) -> NoDup (add_list n pa l).
Proof.
  induction n as [|n IH]; intros pa l Hd Hl; cbn [add_list]; [done|]. unfold PAGE_SIZE. apply IH.
  - apply NoDup_cons. split; [|done]. intros H. apply Hl in H. lia.
  - intros p [->|H]%elem_of_cons; [lia|]. apply Hl in H. lia.
Qed.

Lemma add_list_length n : forall pa l, length (add_list n pa l) = (n + length l)%nat.
Proof. induction n as [|n IH]; intros pa l; cbn [add_list]; [done|]. rewrite IH. cbn. lia. Qed.

(** One range of whole pages. *)
Lemma one_range lo hi : 0 <= lo <= hi -> lo mod 4096 = 0 -> hi mod 4096 = 0 -> hi < 2 ^ 64 -> NoDup (ram_pages [(lo, hi)]) /\ zlen (ram_pages [(lo, hi)]) = (hi - lo) / 4096
  /\ forall p, p ∈ ram_pages [(lo, hi)] -> lo <= p < hi /\ p mod 4096 = 0.
Proof.
  intros Hlh Hl Hh Hb. unfold ram_pages. cbn [foldl]. unfold range_pages. cbn [fst snd].
  assert (El : align_up lo PAGE_SIZE = lo) by (change (align_up lo PAGE_SIZE) with (align_dn (u64 (lo + PAGE_SIZE - 1)) PAGE_SIZE); rewrite align_dn_mod; unfold u64, PAGE_SIZE; change (2 ^ 64) with 18446744073709551616 in Hb; Z.to_euclidean_division_equations; lia).
  assert (Eh : align_dn hi PAGE_SIZE = hi) by (rewrite align_dn_mod; unfold PAGE_SIZE; lia). rewrite El, Eh. destruct (hi <=? lo) eqn:E.
  - apply Z.leb_le in E. assert (hi = lo) as -> by lia. rewrite Z.sub_diag. split_and!; [constructor|done|by intros p ?%elem_of_nil].
  - apply Z.leb_gt in E. unfold PAGE_SIZE. split_and!.
    + apply add_list_nodup; [constructor|by intros p ?%elem_of_nil].
    + unfold zlen. rewrite add_list_length. cbn. rewrite Nat.add_0_r, Z2Nat.id; [done|]. apply Z.div_pos; lia.
    + intros p [H|(i & Hi & ->)]%elem_of_add_list; [by apply elem_of_nil in H|]. unfold PAGE_SIZE. rewrite Z2Nat.id in Hi by (apply Z.div_pos; lia). Z.to_euclidean_division_equations. lia.
Qed.

End Start.
End VmBoot.
