(* ===== verification/ExecRun.v ===== *)
(** * Loading a program, all of it

    With enough free pages the loader of Exec.v does not fail, and the memory of the new
    program is its segments and its stack.  First the
    bytes that the loader leaves, then [sys_execve_impl]. *)

From stdpp Require Import base numbers list gmap.
From Stdlib Require Import ZArith Lia Bool.
From S2P Require Import Prelude Kmem Alloc Cheap Mmu MmuInv MmuLife Vm Exec VmInv VmView VmSys VmCount VmCalls VmFork ExecInv.

Module ExecRun.
Import Kmem Mmu MmuInv MmuLife Vm Exec VmInv VmView VmSys VmCount VmCalls VmFork ExecInv.

#[local] Opaque zero_page copy_entries fill seqZ set_phys copy_phys copy_from Z.to_nat.

(** ** What an operation leaves in a space *)

(** The bytes of an address space below 1 GB, where a program's memory is. *)
Definition flat := Z -> option Z.
Definition shows (m : gmap Z Z) (t : vtree) (f : flat) : Prop := forall x, 0 <= x < 2 ^ 30 -> view m t x = f x.

Definition zero_pages (va : Z) (n : nat) (f : flat) : flat := fun x => if decide (vpn x ∈ vpns va n) then Some 0 else f x.
Definition write (va len : Z) (src : Z -> Z) (f : flat) : flat := fun x => if decide (va <= x < va + len) then Some (src (x - va) mod 256) else f x.
Definition mapped (f : flat) (lo hi : Z) : Prop := forall x, lo <= x < hi -> is_Some (f x).

Lemma mapped_write f va len src lo hi : mapped f lo hi -> mapped (write va len src f) lo hi.
Proof. intros H x Hx. unfold write. case_decide; [eauto|by apply H]. Qed.
Lemma mapped_sub f lo hi lo' hi' : mapped f lo hi -> lo <= lo' -> hi' <= hi -> mapped f lo' hi'.
Proof. intros H H1 H2 x Hx. apply H. lia. Qed.

Lemma mask_val n a : 0 <= n <= 63 -> 0 <= a < 2 ^ 64 -> Z.land a (u64 (Z.lnot (Z.ones n))) = a - a mod 2 ^ n.
Proof.
  intros Hn Ha. assert (E : u64 (Z.lnot (Z.ones n)) = Z.ldiff (Z.ones 64) (Z.ones n)).
  { unfold u64. change 18446744073709551616 with (2 ^ 64). rewrite <- Z.land_ones by lia. rewrite Z.ldiff_land. apply Z.land_comm. }
  rewrite E. assert (E2 : Z.land a (Z.ldiff (Z.ones 64) (Z.ones n)) = Z.ldiff (Z.land a (Z.ones 64)) (Z.ones n)) by (rewrite !Z.ldiff_land; apply Z.land_assoc).
  rewrite E2, Z.land_ones, Z.mod_small by lia. rewrite Z.ldiff_ones_r, Z.shiftl_mul_pow2, Z.shiftr_div_pow2 by lia. pose proof (Z.div_mod a (2 ^ n) ltac:(lia)). lia.
Qed.
Lemma page_align_val a : 0 <= a < 2 ^ 64 -> page_align a = a - a mod 4096.
Proof. apply (mask_val 12). lia. Qed.
Lemma page_round_val a : 0 <= a < 2 ^ 63 -> page_round a = a + 4095 - (a + 4095) mod 4096.
Proof.
  intros Ha. unfold page_round, PAGE_SIZE, u64. change 18446744073709551616 with (2 ^ 64). change (2 ^ 63) with 9223372036854775808 in Ha. change (2 ^ 64) with 18446744073709551616.
  rewrite Z.mod_small by lia. rewrite page_align_val by (change (2 ^ 64) with 18446744073709551616; lia). replace (a + 4096 - 1) with (a + 4095) by lia. done.
Qed.

Lemma le_range n img : forall off, 0 <= le n img off < 256 ^ Z.of_nat n.
Proof.
  induction n as [|n IH]; intros off; [done|]. cbn [le]. specialize (IH (off + 1)). pose proof (Z.mod_pos_bound (img (u64 off)) 256 ltac:(lia)) as Hm.
  rewrite Nat2Z.inj_succ, Z.pow_succ_r by lia. lia.
Qed.

Section Space.
Context {BT : BootTables} (K : ktab) (m0 : gmap Z Z) (Hbm : boot_map K m0).
Context {vs : gmap Z vm_map} {h : Z} {vm : vm_map} (Hv : vs !! h = Some vm).
Notation world := (world K m0).

(** On memory that shows [f], with [n] pages to spend, [op] gives [r] and leaves [f']. *)
Definition runs {A} (op : pmm -> A * pmm) (n : Z) (f : flat) (r : A) (f' : flat) : Prop :=
  forall k g t, world k vs g -> g_tree g !! h = Some t -> shows (mem (pm k)) t f -> n + 2 <= free_count (pm k) ->
  exists st' g' t', op (pm k) = (r, st') /\ world (k <| pm := st' |>) vs g' /\ moves h k g (k <| pm := st' |>) g' /\ g_tree g' !! h = Some t'
    /\ shows (mem st') t' f' /\ free_count (pm k) - n <= free_count st'.

Lemma runs_ret {A} (r : A) f : runs (fun st => (r, st)) 0 f r f.
Proof. intros k g t W Ht Hf Hn. exists (pm k), g, t. rewrite <- km_same. split_and!; [done|exact W|apply moves_refl|exact Ht|exact Hf|lia]. Qed.

Lemma runs_bind {A B} (op : pmm -> A * pmm) (F : A -> pmm -> B * pmm) a b f r f1 r2 f2 : 0 <= a -> 0 <= b -> runs op a f r f1 -> runs (F r) b f1 r2 f2 ->
  runs (fun st => let '(r, st) := op st in F r st) (a + b) f r2 f2.
Proof.
  intros Ha Hb H1 H2 k g t W Ht Hf Hn. destruct (H1 k g t W Ht Hf ltac:(lia)) as (st1 & g1 & t1 & -> & W1 & M1 & Ht1 & Hf1 & N1).
  destruct (H2 (k <| pm := st1 |>) g1 t1 W1 Ht1 Hf1 ltac:(cbn; lia)) as (st2 & g2 & t2 & E2 & W2 & M2 & Ht2 & Hf2 & N2).
  exists st2, g2, t2. split_and!; [exact E2|exact W2|by eapply moves_trans|exact Ht2|exact Hf2|cbn in N2; lia].
Qed.

Lemma runs_weaken {A} (op : pmm -> A * pmm) a b f r f' : a <= b -> runs op a f r f' -> runs op b f r f'.
Proof.
  intros Hab H k g t W Ht Hf Hn. destruct (H k g t W Ht Hf ltac:(lia)) as (st' & g' & t' & E & W' & M & Ht' & Hf' & N). exists st', g', t'. split_and!; try done. lia.
Qed.

Lemma runs_alloc n va f : runs (fun st => vmap_alloc_pages n st vm va true) (2 * Z.of_nat n) f 0 (zero_pages va n f).
Proof.
  intros k g t W Ht Hf Hn. destruct (world_count K m0 k vs g W) as [Hc Hl]. pose proof (alloc_pages_spends n (pm k) vm va true ltac:(lia)) as Hs.
  destruct (alloc_pages_spec K m0 Hbm Hv true n k g t va W Ht) as (r & st' & g' & t' & j & E & W' & M & Ht' & Hr & Hvw & _). rewrite E in *. cbn [snd] in Hs.
  destruct Hr as [[-> ->]|(-> & _ & Hlen)].
  - exists st', g', t'. split_and!; try done; [|lia]. intros x Hx. rewrite Hvw. unfold zero_pages. case_decide; [done|by apply Hf].
  - destruct (world_count K m0 _ vs g' W') as [Hc' _]. cbn in Hc'. unfold zlen in Hc'. lia.
Qed.

Lemma runs_copyin va src len f : 0 <= va -> 0 <= len -> va + len <= 2 ^ 30 -> mapped f va (va + len) ->
  runs (fun st => vmap_copyin st vm va src len) 0 f 0 (write va len src f).
Proof.
  intros Hva Hlen Hlim Hm k g t W Ht Hf Hn. destruct (world_count K m0 k vs g W) as [Hc _].
  destruct (copyin_spec K m0 Hbm Hv k g t va src len W Ht Hva Hlen Hlim) as (r & st' & g' & c & E & W' & M & Ht' & _ & Hpl & Hr & Hvw).
  destruct (world_count K m0 _ vs g' W') as [Hc' _]. cbn in Hc'. rewrite Hpl in Hc'. destruct Hr as [[-> ->]|(-> & Hc1 & Hno)].
  - exists st', g', t. split_and!; try done; [|lia]. intros x Hx. rewrite Hvw by done. unfold write. unfold in_range. repeat case_decide; done || lia || by apply Hf.
  - rewrite Hf in Hno by lia. destruct (Hm (va + c) ltac:(lia)) as [b Hb]. congruence.
Qed.

(** *** Segments *)

(** The pages of a segment, and its bytes in memory. *)
Definition seg_pages (img : image) (ph bias : Z) : nat :=
  let va := p_vaddr img ph + bias in Z.to_nat ((page_round (va + p_memsz img ph) - page_align va) / PAGE_SIZE).
Definition seg_flat (img : image) (ph bias : Z) (f : flat) : flat :=
  let va := p_vaddr img ph + bias in
  write va (p_filesz img ph) (fun i => img (u64 (p_offset img ph + i))) (zero_pages (page_align va) (seg_pages img ph bias) f).

(** A segment inside [lo, hi), with no more bytes in the file than in memory. *)
Definition seg_fits (img : image) (ph bias lo hi : Z) : bool :=
  let va := p_vaddr img ph + bias in (lo <=? va) && (va + p_memsz img ph <=? hi) && (p_filesz img ph <=? p_memsz img ph).

Lemma runs_segment img ph bias lo hi f : 0 <= lo -> hi <= 2 ^ 30 -> seg_fits img ph bias lo hi = true ->
  runs (fun st => load_segment st vm img ph bias lo hi) (2 * Z.of_nat (seg_pages img ph bias)) f Loaded (seg_flat img ph bias f).
Proof.
  intros Hlo Hhi Hfit. unfold seg_fits in Hfit. cbn zeta in Hfit. apply andb_true_iff in Hfit as [Hfit H3%Z.leb_le]. apply andb_true_iff in Hfit as [H1%Z.leb_le H2%Z.leb_le].
  unfold seg_flat, seg_pages. cbn zeta. set (va := p_vaddr img ph + bias) in *. pose proof (le_range 8 img (ph + 40)) as [Hms _]. fold (p_memsz img ph) in Hms. pose proof (le_range 8 img (ph + 32)) as [Hfs _]. fold (p_filesz img ph) in Hfs.
  change (2 ^ 30) with 1073741824 in Hhi. unfold load_segment. cbn zeta. fold va. assert (Eu : forall y, 0 <= y <= 1073741824 -> u64 y = y) by (intros y Hy; unfold u64; apply Z.mod_small; lia).
  rewrite (Eu va), (Eu (va + p_memsz img ph)) by lia. rewrite (proj2 (Z.ltb_ge va lo)), Z.gtb_ltb, (proj2 (Z.ltb_ge hi _)) by lia. cbn [orb].
  rewrite page_align_val, page_round_val by (change (2 ^ 63) with 9223372036854775808; change (2 ^ 64) with 18446744073709551616; lia).
  set (st_ := va - va mod 4096). set (en := _ - (_ + 4095) mod 4096). assert (Hen : va + p_memsz img ph <= en < va + p_memsz img ph + 4096 /\ en mod 4096 = 0 /\ en <= 1073741824) by (unfold en; Z.to_euclidean_division_equations; lia).
  assert (Hst : st_ <= va < st_ + 4096 /\ st_ mod 4096 = 0 /\ 0 <= st_) by (unfold st_; Z.to_euclidean_division_equations; lia).
  assert (En : u32 (u64 (en - st_) / PAGE_SIZE) = (en - st_) / PAGE_SIZE). { unfold u32, u64, PAGE_SIZE. rewrite (Z.mod_small (en - st_)) by lia. apply Z.mod_small. Z.to_euclidean_division_equations. lia. }
  rewrite En. set (n := Z.to_nat _). assert (Hn : st_ + 4096 * Z.of_nat n = en) by (unfold n, PAGE_SIZE; rewrite Z2Nat.id; Z.to_euclidean_division_equations; lia).
  rewrite <- (Z.add_0_r (2 * Z.of_nat n)). eapply (runs_bind (fun st => vmap_alloc_pages n st vm st_ true)); [lia|lia|apply runs_alloc|]. cbn [Z.ltb Z.compare].
  destruct (p_filesz img ph >? 0) eqn:Ef; rewrite Z.gtb_ltb in Ef; [apply Z.ltb_lt in Ef|apply Z.ltb_ge in Ef].
  - apply (runs_weaken _ (0 + 0)); [lia|]. eapply (runs_bind (fun st => vmap_copyin st vm va _ _)); [lia|lia|apply runs_copyin; [lia|lia|change (2 ^ 30) with 1073741824; lia|]|cbn [Z.ltb Z.compare]; apply runs_ret].
    intros x Hx. unfold zero_pages. rewrite decide_True; [eauto|]. rewrite vpn_low, elem_of_vpns by (change (2 ^ 30) with 1073741824; lia). clear En. Z.to_euclidean_division_equations. lia.
  - intros k g t W Ht Hf Hc. destruct (runs_ret Loaded _ k g t W Ht Hf Hc) as (st' & g' & t' & H). exists st', g', t'. destruct H as (? & ? & ? & ? & Hf' & ?). split_and!; try done.
    intros x Hx. rewrite Hf' by done. unfold write. by rewrite decide_False by lia.
Qed.

(** All segments from header [i] on, [n] headers. *)
Fixpoint segs_flat (n : nat) (i : Z) (img : image) (bias : Z) (f : flat) : flat :=
  match n with
  | O => f
  | S n => segs_flat n (i + 1) img bias (if p_type img (phdr img i) =? PT_LOAD then seg_flat img (phdr img i) bias f else f)
  end.
Fixpoint segs_pages (n : nat) (i : Z) (img : image) (bias : Z) : Z :=
  match n with
  | O => 0
  | S n => (if p_type img (phdr img i) =? PT_LOAD then Z.of_nat (seg_pages img (phdr img i) bias) else 0) + segs_pages n (i + 1) img bias
  end.
Fixpoint segs_fit (n : nat) (i : Z) (img : image) (bias lo hi : Z) : bool :=
  match n with
  | O => true
  | S n => (negb (p_type img (phdr img i) =? PT_LOAD) || seg_fits img (phdr img i) bias lo hi) && segs_fit n (i + 1) img bias lo hi
  end.

Lemma segs_pages_nonneg n img bias : forall i, 0 <= segs_pages n i img bias.
Proof. induction n as [|n IH]; intros i; cbn; [lia|]. specialize (IH (i + 1)). destruct (_ =? _); lia. Qed.

Lemma runs_segments img bias lo hi n : 0 <= lo -> hi <= 2 ^ 30 -> forall i f, segs_fit n i img bias lo hi = true ->
  runs (fun st => load_segments n i st vm img bias lo hi) (2 * segs_pages n i img bias) f Loaded (segs_flat n i img bias f).
Proof.
  intros Hlo Hhi. induction n as [|n IH]; intros i f Hfit; cbn [load_segments segs_pages segs_flat]; [apply runs_ret|].
  cbn [segs_fit] in Hfit. apply andb_true_iff in Hfit as [H1 H2]. pose proof (segs_pages_nonneg n img bias (i + 1)) as Hn. destruct (_ =? PT_LOAD); cbn [negb orb] in *; [|apply IH; exact H2].
  eapply runs_weaken; [|eapply (runs_bind (fun st => load_segment st vm img (phdr img i) bias lo hi)
    (fun r st => match r with Loaded => load_segments n (i + 1) st vm img bias lo hi | Outside => (Outside, st) | NoPages => (NoPages, st) | NoCopy => (NoCopy, st) end));
    [| |apply runs_segment; [exact Hlo|exact Hhi|exact H1]|apply IH; exact H2]]; lia.
Qed.

(** *** What the segments are to be

    A segment is an image, the offset of its program header and the bias. *)

Notation seg := (image * Z * Z)%type.
Definition seg_va (sg : seg) : Z := let '(img, ph, bias) := sg in p_vaddr img ph + bias.
Definition seg_end (sg : seg) : Z := let '(img, ph, bias) := sg in p_vaddr img ph + bias + p_memsz img ph.

(** The addresses of its pages, and the byte that belongs at one: of the file where the
    segment has some, else zero. *)
Definition in_seg (sg : seg) (x : Z) : Prop := page_align (seg_va sg) <= x < page_round (seg_end sg).
Definition seg_byte (sg : seg) (x : Z) : Z :=
  let '(img, ph, bias) := sg in
  let off := x - seg_va sg in if (0 <=? off) && (off <? p_filesz img ph) then img (u64 (p_offset img ph + off)) mod 256 else 0.

(** No two of the segments have a page in common. *)
Definition apart (s1 s2 : seg) : bool :=
  (page_round (seg_end s1) <=? page_align (seg_va s2)) || (page_round (seg_end s2) <=? page_align (seg_va s1)).
Fixpoint all_apart (l : list seg) : bool := match l with [] => true | sg :: l => forallb (apart sg) l && all_apart l end.

(** The loadable segments of an image, from header [i] on. *)
Fixpoint segs_of (n : nat) (i : Z) (img : image) (bias : Z) : list seg :=
  match n with
  | O => []
  | S n => (if p_type img (phdr img i) =? PT_LOAD then [(img, phdr img i, bias)] else []) ++ segs_of n (i + 1) img bias
  end.
Definition load_seg (f : flat) (sg : seg) : flat := let '(img, ph, bias) := sg in seg_flat img ph bias f.

Lemma segs_flat_fold n img bias : forall i f, segs_flat n i img bias f = foldl load_seg f (segs_of n i img bias).
Proof. induction n as [|n IH]; intros i f; [done|]. cbn [segs_flat segs_of]. rewrite IH, foldl_app. by destruct (_ =? PT_LOAD). Qed.

(** A segment inside [lo, hi). *)
Definition seg_in (lo hi : Z) (sg : seg) : Prop := let '(img, ph, bias) := sg in seg_fits img ph bias lo hi = true.
Lemma segs_in n img bias lo hi : forall i, segs_fit n i img bias lo hi = true -> Forall (seg_in lo hi) (segs_of n i img bias).
Proof.
  induction n as [|n IH]; intros i Hf; cbn [segs_of]; [constructor|]. cbn [segs_fit] in Hf. apply andb_true_iff in Hf as [H1 H2].
  destruct (_ =? PT_LOAD); cbn [negb orb app] in *; [constructor; [exact H1|]|]; by apply IH.
Qed.

Lemma elem_of_range lo hi x : 0 <= lo -> lo mod 4096 = 0 -> hi mod 4096 = 0 -> lo <= hi <= 2 ^ 30 -> 0 <= x < 2 ^ 30 -> vpn x ∈ vpns lo (Z.to_nat ((hi - lo) / 4096)) <-> lo <= x < hi.
Proof.
  intros H0 H1 H2 H3 Hx. change (2 ^ 30) with 1073741824 in *. rewrite vpn_low by (change (2 ^ 30) with 1073741824; lia).
  rewrite elem_of_vpns; [|lia|done|rewrite Z2Nat.id; change (2 ^ 30) with 1073741824; Z.to_euclidean_division_equations; lia]. rewrite Z2Nat.id by (Z.to_euclidean_division_equations; lia).
  Z.to_euclidean_division_equations. lia.
Qed.

Lemma seg_bounds lo hi sg : 0 <= lo -> hi <= 2 ^ 30 -> lo mod 4096 = 0 -> hi mod 4096 = 0 -> seg_in lo hi sg ->
  lo <= page_align (seg_va sg) <= seg_va sg /\ seg_va sg <= seg_end sg <= page_round (seg_end sg) /\ page_round (seg_end sg) <= hi
  /\ page_align (seg_va sg) mod 4096 = 0 /\ page_round (seg_end sg) mod 4096 = 0.
Proof.
  intros Hlo Hhi Ml Mh. destruct sg as [[img ph] bias]. unfold seg_in, seg_fits, seg_va, seg_end. cbn zeta.
  intros Hfit. apply andb_true_iff in Hfit as [Hfit _]. apply andb_true_iff in Hfit as [H1%Z.leb_le H2%Z.leb_le].
  pose proof (le_range 8 img (ph + 40)) as [Hms _]. fold (p_memsz img ph) in Hms. change (2 ^ 30) with 1073741824 in Hhi.
  rewrite page_align_val, page_round_val by (change (2 ^ 63) with 9223372036854775808; change (2 ^ 64) with 18446744073709551616; lia).
  Z.to_euclidean_division_equations. lia.
Qed.

Lemma load_seg_spec lo hi sg f x : 0 <= lo -> hi <= 2 ^ 30 -> lo mod 4096 = 0 -> hi mod 4096 = 0 -> seg_in lo hi sg -> 0 <= x < 2 ^ 30 ->
  (in_seg sg x -> load_seg f sg x = Some (seg_byte sg x)) /\ (~ in_seg sg x -> load_seg f sg x = f x).
Proof.
  intros Hlo Hhi Ml Mh Hin Hx. destruct (seg_bounds lo hi sg Hlo Hhi Ml Mh Hin) as (B1 & B2 & B3 & B4 & B5). unfold in_seg.
  destruct sg as [[img ph] bias]. unfold seg_in, seg_fits in Hin. cbn zeta in Hin. apply andb_true_iff in Hin as [_ Hfs%Z.leb_le].
  unfold load_seg, seg_flat, seg_pages, seg_byte. cbn zeta. cbn [seg_va seg_end] in *. set (va := p_vaddr img ph + bias) in *.
  pose proof (elem_of_range (page_align va) (page_round (va + p_memsz img ph)) x ltac:(lia) B4 B5 ltac:(lia) Hx) as Hpg.
  unfold write, zero_pages, PAGE_SIZE. split; intros Hs.
  - pose proof (proj2 Hpg Hs) as Hpn. destruct (Z.leb_spec 0 (x - va)), (Z.ltb_spec (x - va) (p_filesz img ph)); cbn [andb];
      [by rewrite decide_True by lia|rewrite decide_False by lia; by rewrite decide_True..].
  - rewrite (decide_False (P := vpn x ∈ _)) by by rewrite Hpg. by rewrite decide_False by lia.
Qed.

(** Segments that are apart are all there. *)
Lemma load_segs_spec l x : 0 <= x < 2 ^ 30 -> Forall (fun sg => exists lo hi, 0 <= lo /\ hi <= 2 ^ 30 /\ lo mod 4096 = 0 /\ hi mod 4096 = 0 /\ seg_in lo hi sg) l ->
  all_apart l = true -> forall f, (forall sg, sg ∈ l -> in_seg sg x -> foldl load_seg f l x = Some (seg_byte sg x))
  /\ ((forall sg, sg ∈ l -> ~ in_seg sg x) -> foldl load_seg f l x = f x).
Proof.
  intros Hx. induction l as [|sg l IH]; intros Hl Ha f; [split; [by intros ? ?%elem_of_nil|done]|].
  apply Forall_cons in Hl as [(lo & hi & Hlo & Hhi & Ml & Mh & Hin) Hl]. cbn [all_apart] in Ha. apply andb_true_iff in Ha as [Ha1 Ha2].
  destruct (load_seg_spec lo hi sg f x Hlo Hhi Ml Mh Hin Hx) as [S1 S2]. destruct (IH Hl Ha2 (load_seg f sg)) as [I1 I2]. cbn [foldl]. split.
  - intros sg' [-> |Hsg']%elem_of_cons Hs; [|by apply I1]. rewrite I2; [by apply S1|]. intros sg' Hsg' Hs'.
    rewrite forallb_forall in Ha1. specialize (Ha1 sg' (proj1 (list_elem_of_In _ _) Hsg')). unfold apart in Ha1. unfold in_seg in *.
    apply orb_true_iff in Ha1 as [?%Z.leb_le|?%Z.leb_le]; lia.
  - intros Hn. rewrite I2 by (intros sg' Hsg'; apply Hn, elem_of_cons; by right). apply S2, Hn, list_elem_of_here.
Qed.

(** *** The stack *)

Definition holds (f : flat) (va : Z) (bs : bytes) : Prop := forall i, 0 <= i < zlen bs -> f (va + i) = Some (byte_of bs i).
Definition same_outside (lo hi : Z) (f f' : flat) : Prop := forall x, ~ (lo <= x < hi) -> f' x = f x.

Lemma same_outside_trans lo hi f1 f2 f3 : same_outside lo hi f1 f2 -> same_outside lo hi f2 f3 -> same_outside lo hi f1 f3.
Proof. intros H1 H2 x Hx. by rewrite H2, H1. Qed.
Lemma same_outside_weaken lo hi lo' hi' f1 f2 : lo' <= lo -> hi <= hi' -> same_outside lo hi f1 f2 -> same_outside lo' hi' f1 f2.
Proof. intros H1 H2 H x Hx. apply H. lia. Qed.
Lemma holds_outside lo hi f f' va bs : same_outside lo hi f f' -> va + zlen bs <= lo \/ hi <= va -> holds f va bs -> holds f' va bs.
Proof. intros Ho Hd H i Hi. rewrite Ho by lia. by apply H. Qed.

Lemma byte_of_range bs i : is_bytes bs -> 0 <= byte_of bs i < 256.
Proof.
  intros Hb. unfold byte_of. destruct (bs !! Z.to_nat i) as [b|] eqn:E; cbn; [|lia]. apply list_elem_of_lookup_2 in E. unfold is_bytes in Hb. rewrite Forall_forall in Hb. apply (Hb b E).
Qed.
Lemma write_holds va bs f : is_bytes bs -> holds (write va (zlen bs) (byte_of bs) f) va bs.
Proof. intros Hb i Hi. unfold write. rewrite decide_True by lia. replace (va + i - va) with i by lia. f_equal. apply Z.mod_small. by apply byte_of_range. Qed.
Lemma write_outside va len src f : same_outside va (va + len) f (write va len src f).
Proof. intros x Hx. unfold write. by rewrite decide_False by lia. Qed.

Lemma holds_app f va a b : holds f va a -> holds f (va + zlen a) b -> holds f va (a ++ b).
Proof.
  intros Ha Hb i Hi. unfold zlen, bytes in *. rewrite length_app in Hi. destruct (decide (i < Z.of_nat (length a))).
  - rewrite Ha by (unfold zlen; lia). unfold byte_of, bytes. by rewrite lookup_app_l by lia.
  - replace (va + i) with (va + Z.of_nat (length a) + (i - Z.of_nat (length a))) by lia. rewrite Hb by (unfold zlen; lia). unfold byte_of, bytes. rewrite lookup_app_r by lia. do 3 f_equal. lia.
Qed.

Lemma word_bytes_ok n w : is_bytes (word_bytes n w) /\ length (word_bytes n w) = n.
Proof. revert w. induction n as [|n IH]; intros w; [split; [constructor|done]|]. cbn. destruct (IH (w / 256)) as [H1 H2]. split; [constructor; [apply Z.mod_pos_bound; lia|exact H1]|by rewrite H2]. Qed.
Lemma words_ok ws : is_bytes (words ws) /\ zlen (words ws) = 8 * zlen ws.
Proof.
  induction ws as [|w ws [IH1 IH2]]; [split; [constructor|done]|]. destruct (word_bytes_ok 8 w) as [H1 H2]. unfold words, zlen in *. cbn [mbind list_bind].
  split; [apply Forall_app; done|]. rewrite length_app, H2. cbn [length]. fold (words ws) in *. rewrite Nat2Z.inj_add. unfold words, mbind in *. lia.
Qed.
Lemma words_app a b : words (a ++ b) = words a ++ words b.
Proof. unfold words. apply bind_app. Qed.

Lemma runs_push lo sp ws f : 0 <= lo -> lo <= sp - 8 * zlen ws -> sp <= 2 ^ 30 -> mapped f lo sp ->
  runs (fun st => push st vm sp ws) 0 f (sp - 8 * zlen ws) (write (sp - 8 * zlen ws) (8 * zlen ws) (byte_of (words ws)) f).
Proof.
  intros Hlo Hsp Hlim Hm. destruct (words_ok ws) as [_ Hl]. assert (0 <= zlen ws) by (unfold zlen; lia). change (2 ^ 30) with 1073741824 in Hlim. unfold push. cbn zeta. rewrite Hl.
  assert (Eu : u64 (sp - 8 * zlen ws) = sp - 8 * zlen ws) by (unfold u64; apply Z.mod_small; lia). rewrite Eu.
  apply (runs_weaken _ (0 + 0)); [lia|]. eapply (runs_bind (fun st => vmap_copyin st vm _ _ _)); [lia|lia|apply runs_copyin|apply runs_ret]; try (change (2 ^ 30) with 1073741824; lia).
  eapply mapped_sub; [exact Hm|lia|lia].
Qed.

Lemma runs_push_all lo l : 0 <= lo -> forall sp f, lo <= sp - 8 * zlen (concat l) -> sp <= 2 ^ 30 -> mapped f lo sp ->
  let sp' := sp - 8 * zlen (concat l) in
  exists f', runs (fun st => push_all st vm sp l) 0 f sp' f' /\ holds f' sp' (words (concat (rev l))) /\ same_outside sp' sp f f'.
Proof.
  intros Hlo. induction l as [|ws l IH]; intros sp f Hsp Hlim Hm sp'.
  - exists f. unfold sp'. replace (sp - 8 * zlen (concat [])) with sp by (unfold zlen; cbn; lia). split_and!; [apply runs_ret|intros i; unfold zlen; cbn; lia|done].
  - assert (El : zlen (concat (ws :: l)) = zlen ws + zlen (concat l)) by (unfold zlen; cbn [concat]; rewrite length_app; lia). unfold sp' in *. clear sp'. rewrite El in *.
    assert (0 <= zlen ws /\ 0 <= zlen (concat l)) as [Hw Hc] by (unfold zlen; lia). set (sp1 := sp - 8 * zlen ws). set (f1 := write sp1 (8 * zlen ws) (byte_of (words ws)) f).
    destruct (words_ok ws) as [Hb Hwl]. destruct (IH sp1 f1) as (f' & R & Hh & Ho); [unfold sp1; lia|unfold sp1; lia|apply mapped_write; eapply mapped_sub; [exact Hm|lia|unfold sp1; lia]|].
    replace (sp - 8 * (zlen ws + zlen (concat l))) with (sp1 - 8 * zlen (concat l)) by (unfold sp1; lia). exists f'. split_and!.
    + cbn [push_all]. apply (runs_weaken _ (0 + 0)); [lia|]. eapply (runs_bind (fun st => push st vm sp ws)); [lia|lia|apply (runs_push lo); done || lia|exact R].
    + cbn [rev]. rewrite concat_app. cbn [concat]. rewrite app_nil_r, words_app. apply holds_app; [exact Hh|]. destruct (words_ok (concat (rev l))) as [_ E1].
      assert (E2 : zlen (concat (rev l)) = zlen (concat l)) by (unfold zlen; f_equal; apply Permutation_length; by rewrite <- (Permutation_rev l)).
      replace (sp1 - 8 * zlen (concat l) + zlen (words (concat (rev l)))) with sp1 by lia. eapply holds_outside; [exact Ho|right; lia|]. unfold f1. rewrite <- Hwl. by apply write_holds.
    + eapply same_outside_trans; [|eapply same_outside_weaken; [| |exact Ho]]; [|lia|unfold sp1; lia]. eapply same_outside_weaken; [| |apply write_outside]; unfold sp1; lia.
Qed.

Fixpoint strings_size (l : list bytes) : Z := match l with [] => 0 | a :: l => zlen a + 8 + strings_size l end.
Lemma strings_size_nonneg l : 0 <= strings_size l.
Proof. induction l as [|a l IH]; cbn; [lia|]. unfold zlen. lia. Qed.

(** The addresses of the strings, in the order of the arguments. *)
Lemma runs_strings lo rev_args : 0 <= lo -> Forall is_bytes rev_args -> forall sp uva f, lo <= sp - strings_size rev_args -> sp <= 2 ^ 30 -> mapped f lo sp ->
  exists sp' us f', runs (fun st => push_strings rev_args st vm sp uva) 0 f (0, sp', us ++ uva) f' /\ sp - strings_size rev_args <= sp' <= sp
    /\ Forall2 (fun p a => sp' <= p /\ holds f' p (a ++ [0])) us (rev rev_args) /\ same_outside sp' sp f f'.
Proof.
  intros Hlo Hb. induction rev_args as [|a rest IH]; intros sp uva f Hsp Hlim Hm.
  { exists sp, [], f. cbn. split_and!; [apply runs_ret|lia|lia|constructor|done]. }
  apply Forall_cons in Hb as [Hba Hbr]. cbn [strings_size] in *. pose proof (strings_size_nonneg rest) as Hr. assert (Hz : 0 <= zlen a) by (unfold zlen; lia).
  change (2 ^ 30) with 1073741824 in *. set (sp1 := sp - (zlen a + 1) - (sp - (zlen a + 1)) mod 8).
  assert (Es : Z.land (u64 (sp - (zlen a + 1))) (u64 (Z.lnot 7)) = sp1).
  { change 7 with (Z.ones 3). unfold u64 at 1. rewrite Z.mod_small by lia. rewrite mask_val by (change (2 ^ 64) with 18446744073709551616; lia). done. }
  assert (Hs1 : sp - zlen a - 8 <= sp1 <= sp - (zlen a + 1)) by (unfold sp1; Z.to_euclidean_division_equations; lia).
  assert (Hl1 : zlen (a ++ [0]) = zlen a + 1) by (unfold zlen, bytes; rewrite length_app; cbn; lia). set (f1 := write sp1 (zlen a + 1) (byte_of (a ++ [0])) f).
  destruct (IH Hbr sp1 (sp1 :: uva) f1) as (sp' & us & f' & R & Hsp' & Hus & Ho); [lia|lia|apply mapped_write; eapply mapped_sub; [exact Hm|lia|lia]|].
  exists sp', (us ++ [sp1]), f'. split_and!; [|lia|lia| |].
  - cbn [push_strings]. cbn zeta. rewrite Es, <- app_assoc. apply (runs_weaken _ (0 + 0)); [lia|].
    eapply (runs_bind (fun st => vmap_copyin st vm _ _ _)); [lia|lia|apply runs_copyin|cbn [Z.ltb Z.compare]; exact R]; try (change (2 ^ 30) with 1073741824; lia). eapply mapped_sub; [exact Hm|lia|lia].
  - cbn [rev]. apply Forall2_app; [exact Hus|]. constructor; [|constructor]. split; [lia|]. eapply holds_outside; [exact Ho|right; lia|]. unfold f1. rewrite <- Hl1. apply write_holds.
    apply Forall_app. split; [exact Hba|]. constructor; [|constructor]. unfold is_u8. lia.
  - eapply same_outside_trans; [|eapply same_outside_weaken; [| |exact Ho]]; [|lia|lia]. eapply same_outside_weaken; [| |apply write_outside]; lia.
Qed.

(** What [_start] finds at [sp]: the number of arguments, their addresses, a null, an empty
    environment, and the auxiliary vector; the addresses point at the strings. *)
Definition start_stack (args : list bytes) (entry libc_base app_base : Z) (f : flat) (sp : Z) : Prop :=
  sp mod 16 = 0 /\ exists uva, Forall2 (fun p a => holds f p (a ++ [0])) uva args
    /\ holds f sp (words (zlen args :: uva ++ [0; 0; AT_KAPPARA_APP_BASE; app_base; AT_KAPPARA_LIBC_BASE; libc_base; AT_ENTRY; entry; 0; 0])).

Lemma holds_prefix f va a b : holds f va (a ++ b) -> holds f va a.
Proof. intros H i Hi. unfold zlen, bytes in *. rewrite H by (unfold zlen, bytes; rewrite length_app; lia). unfold byte_of, bytes. by rewrite lookup_app_l by lia. Qed.

Lemma stack_words_rev uva entry lb ab : exists pad, concat (rev (stack_words uva entry lb ab))
    = (zlen uva :: uva ++ [0; 0; AT_KAPPARA_APP_BASE; ab; AT_KAPPARA_LIBC_BASE; lb; AT_ENTRY; entry; 0; 0]) ++ pad
  /\ zlen (concat (stack_words uva entry lb ab)) = zlen uva + 11 + zlen pad /\ (zlen uva + 11 + zlen pad) mod 2 = 0 /\ zlen pad <= 1.
Proof.
  exists (if Nat.even (length uva) then [0] else []). assert (Es : concat ((fun p => [p]) <$> uva) = uva) by (induction uva as [|x l IH]; [done|]; cbn; f_equal; exact IH).
  assert (Er : rev ((fun p => [p]) <$> rev uva) = (fun p : Z => [p]) <$> uva) by (unfold fmap; change (list_fmap Z (list Z)) with (@map Z (list Z)); rewrite <- map_rev; by rewrite rev_involutive).
  unfold stack_words. rewrite !rev_app_distr, Er, !concat_app. cbn [rev app concat].
  assert (Hrl : zlen (concat ((fun p => [p]) <$> rev uva)) = zlen uva).
  { assert (forall l : list Z, concat ((fun p => [p]) <$> l) = l) as -> by (induction l as [|x l IH]; [done|]; cbn; f_equal; exact IH). unfold zlen. by rewrite length_rev. }
  unfold zlen in *. rewrite !length_app. cbn [length concat app]. split_and!.
  - rewrite Es. rewrite <- !app_assoc. by destruct (Nat.even (length uva)).
  - rewrite !Nat2Z.inj_add. cbn [length concat app]. rewrite ?Nat2Z.inj_succ, ?length_app, ?Nat2Z.inj_add, Hrl. destruct (Nat.even (length uva)); cbn [concat app length]; lia.
  - destruct (Nat.even (length uva)) eqn:E; cbn [length].
    + apply Nat.even_spec in E as [n E]. rewrite E. Z.to_euclidean_division_equations. lia.
    + assert (Nat.odd (length uva) = true) as O by (by rewrite <- Nat.negb_even, E). apply Nat.odd_spec in O as [n O]. rewrite O. Z.to_euclidean_division_equations. lia.
  - destruct (Nat.even (length uva)); cbn; lia.
Qed.

Lemma runs_stack argv entry lb ab f : Forall is_bytes argv -> strings_size (rev (take EXEC_MAX_ARGS argv)) + 512 <= EXEC_STACK_SIZE -> mapped f EXEC_STACK_VA EXEC_STACK_TOP ->
  exists sp f', runs (fun st => exec_stack st vm argv entry lb ab) 0 f (0, sp) f' /\ start_stack (take EXEC_MAX_ARGS argv) entry lb ab f' sp
    /\ same_outside EXEC_STACK_VA EXEC_STACK_TOP f f'.
Proof.
  intros Hb Hsz Hm. set (args := take EXEC_MAX_ARGS argv) in *. pose proof (strings_size_nonneg (rev args)) as Hnn.
  assert (Hba : Forall is_bytes (rev args)) by (apply Forall_rev; by apply Forall_take).
  unfold EXEC_STACK_SIZE, EXEC_STACK_VA, EXEC_STACK_TOP in *.
  destruct (runs_strings 0x21000000 (rev args) ltac:(lia) Hba 0x21200000 [] f) as (sp1 & us & f1 & R1 & Hs1 & Hus & Ho1); [lia|change (2 ^ 30) with 1073741824; lia|done|].
  rewrite app_nil_r, rev_involutive in *. assert (Hlen : length us = length args) by (by apply Forall2_length in Hus).
  assert (Hl32 : (length us <= 32)%nat) by (rewrite Hlen; unfold args, EXEC_MAX_ARGS; rewrite length_take; lia).
  set (sp2 := sp1 - sp1 mod 16). assert (E2 : Z.land sp1 (u64 (Z.lnot 15)) = sp2).
  { change 15 with (Z.ones 4). rewrite mask_val by (change (2 ^ 64) with 18446744073709551616; lia). done. }
  assert (Hs2 : sp1 - 15 <= sp2 <= sp1 /\ sp2 mod 16 = 0) by (unfold sp2; Z.to_euclidean_division_equations; lia).
  destruct (stack_words_rev us entry lb ab) as (pad & Er & El & Ev & Hp). set (l := stack_words us entry lb ab) in *.
  assert (Hn : 0 <= zlen us <= 32) by (unfold zlen; lia). assert (Hp0 : 0 <= zlen pad) by (unfold zlen; lia).
  assert (Hm1 : mapped f1 0x21000000 sp2).
  { intros x Hx. rewrite Ho1 by lia. apply Hm. lia. }
  destruct (runs_push_all 0x21000000 l ltac:(lia) sp2 f1) as (f2 & R2 & Hh2 & Ho2); [rewrite El; lia|change (2 ^ 30) with 1073741824; lia|exact Hm1|].
  set (sp := sp2 - 8 * zlen (concat l)) in *. exists sp, f2. split_and!.
  - unfold exec_stack. fold args. apply (runs_weaken _ (0 + 0)); [lia|]. eapply (runs_bind (fun st => push_strings (rev args) st vm _ [])); [lia|lia|exact R1|]. cbn [Z.ltb Z.compare]. rewrite E2.
    apply (runs_weaken _ (0 + 0)); [lia|]. eapply (runs_bind (fun st => push_all st vm sp2 _)); [lia|lia|exact R2|apply runs_ret].
  - split; [unfold sp; rewrite El; Z.to_euclidean_division_equations; lia|]. exists us. split.
    + eapply Forall2_impl; [exact Hus|]. intros p a0 [Hp1 Hh]. eapply holds_outside; [exact Ho2|right; lia|exact Hh].
    + rewrite Er, words_app in Hh2. apply holds_prefix in Hh2. assert (zlen args = zlen us) as -> by (unfold zlen; lia). exact Hh2.
  - eapply same_outside_trans; eapply same_outside_weaken; [| |exact Ho1| | |exact Ho2]; unfold sp; rewrite ?El; lia.
Qed.

(** *** The whole program *)

Notation nseg img := (Z.to_nat (e_phnum img)).

(** The program, and for a position-independent one the linker and the library too. *)
Definition is_dyn (img : image) : bool := e_type img =? ET_DYN.
Definition prog_base (img : image) : Z := if is_dyn img then EXEC_VA else 0.
Definition prog_flat (ld_img libc_img img : image) (f : flat) : flat :=
  let f := segs_flat (nseg img) 0 img (prog_base img) f in
  if is_dyn img then segs_flat (nseg libc_img) 0 libc_img LIBC_VA (segs_flat (nseg ld_img) 0 ld_img 0 f) else f.
Definition prog_segs (ld_img libc_img img : image) : list seg :=
  segs_of (nseg img) 0 img (prog_base img)
  ++ if is_dyn img then segs_of (nseg ld_img) 0 ld_img 0 ++ segs_of (nseg libc_img) 0 libc_img LIBC_VA else [].
Definition prog_pages (ld_img libc_img img : image) : Z :=
  segs_pages (nseg img) 0 img (prog_base img)
  + (if is_dyn img then segs_pages (nseg ld_img) 0 ld_img 0 + segs_pages (nseg libc_img) 0 libc_img LIBC_VA else 0).
Definition prog_fits (ld_img : image) (ld_sz : Z) (libc_img img : image) : bool :=
  segs_fit (nseg img) 0 img (prog_base img) EXEC_VA (EXEC_VA + EXEC_SIZE)
  && (negb (is_dyn img)
      || negb (ld_sz <? SIZEOF_EHDR) && (elf_magic ld_img && elf_aarch64 ld_img && (e_type ld_img =? ET_EXEC)) && negb (e_entry ld_img =? 0)
         && ((e_type libc_img =? ET_DYN) && (e_machine libc_img =? EM_AARCH64))
         && segs_fit (nseg ld_img) 0 ld_img 0 LD_VA (LD_VA + LD_SIZE) && segs_fit (nseg libc_img) 0 libc_img LIBC_VA LIBC_VA (LIBC_VA + LIBC_SIZE)).

Lemma prog_flat_fold ld_img libc_img img f : prog_flat ld_img libc_img img f = foldl load_seg f (prog_segs ld_img libc_img img).
Proof. unfold prog_flat, prog_segs. cbn zeta. rewrite !segs_flat_fold, foldl_app. destruct (is_dyn img); [|done]. by rewrite foldl_app. Qed.

(** The segments of a program, in the windows of the program, the linker and the library. *)
Lemma prog_segs_in ld_img ld_sz libc_img img : prog_fits ld_img ld_sz libc_img img = true ->
  Forall (fun sg => exists lo hi, 0 <= lo /\ hi <= 2 ^ 30 /\ lo mod 4096 = 0 /\ hi mod 4096 = 0 /\ seg_in lo hi sg /\ (hi <= EXEC_STACK_VA \/ EXEC_STACK_TOP <= lo))
    (prog_segs ld_img libc_img img).
Proof.
  intros Hfit. unfold prog_fits in Hfit. apply andb_true_iff in Hfit as [H1 H2]. unfold prog_segs. apply Forall_app. split.
  - eapply Forall_impl; [exact (segs_in _ _ _ _ _ _ H1)|]. intros sg Hs. exists EXEC_VA, (EXEC_VA + EXEC_SIZE). split_and!; try done. by left.
  - destruct (is_dyn img); [|constructor]. cbn [negb orb] in H2. apply andb_true_iff in H2 as [H2 H4]. apply andb_true_iff in H2 as [_ H3]. apply Forall_app. split.
    + eapply Forall_impl; [exact (segs_in _ _ _ _ _ _ H3)|]. intros sg Hs. exists LD_VA, (LD_VA + LD_SIZE). split_and!; try done. by right.
    + eapply Forall_impl; [exact (segs_in _ _ _ _ _ _ H4)|]. intros sg Hs. exists LIBC_VA, (LIBC_VA + LIBC_SIZE). split_and!; try done. by right.
Qed.

Lemma prog_flat_spec ld_img ld_sz libc_img img f x : prog_fits ld_img ld_sz libc_img img = true -> all_apart (prog_segs ld_img libc_img img) = true -> 0 <= x < 2 ^ 30 ->
  (forall sg, sg ∈ prog_segs ld_img libc_img img -> in_seg sg x -> prog_flat ld_img libc_img img f x = Some (seg_byte sg x))
  /\ ((forall sg, sg ∈ prog_segs ld_img libc_img img -> ~ in_seg sg x) -> prog_flat ld_img libc_img img f x = f x).
Proof.
  intros Hfit Ha Hx. rewrite prog_flat_fold. apply load_segs_spec; [done| |done]. eapply Forall_impl; [exact (prog_segs_in _ _ _ _ Hfit)|].
  intros sg (lo & hi & ? & ? & ? & ? & ? & _). by exists lo, hi.
Qed.

Lemma prog_seg_place ld_img ld_sz libc_img img sg x : prog_fits ld_img ld_sz libc_img img = true -> sg ∈ prog_segs ld_img libc_img img -> in_seg sg x ->
  0 <= x < 2 ^ 30 /\ ~ (EXEC_STACK_VA <= x < EXEC_STACK_TOP).
Proof.
  intros Hfit Hin Hs. pose proof (prog_segs_in _ _ _ _ Hfit) as Hall. rewrite Forall_forall in Hall.
  destruct (Hall sg Hin) as (lo & hi & H1 & H2 & H3 & H4 & H5 & H6).
  destruct (seg_bounds lo hi sg H1 H2 H3 H4 H5) as (B1 & B2 & B3 & _). unfold in_seg in Hs. lia.
Qed.

Lemma prog_pages_nonneg ld_img libc_img img : 0 <= prog_pages ld_img libc_img img.
Proof. unfold prog_pages. pose proof (segs_pages_nonneg (nseg img) img (prog_base img) 0). pose proof (segs_pages_nonneg (nseg ld_img) ld_img 0 0). pose proof (segs_pages_nonneg (nseg libc_img) libc_img LIBC_VA 0). destruct (is_dyn img); lia. Qed.

Lemma runs_load ld_img ld_sz libc_img img f : prog_fits ld_img ld_sz libc_img img = true ->
  runs (fun st => exec_load ld_img ld_sz libc_img st vm img (prog_base img)) (2 * prog_pages ld_img libc_img img) f
    (Some (if is_dyn img then e_entry ld_img else 0)) (prog_flat ld_img libc_img img f).
Proof.
  intros Hfit. unfold prog_fits in Hfit. apply andb_true_iff in Hfit as [H1 H2]. unfold exec_load, prog_flat, prog_pages. cbn zeta.
  set (N1 := segs_pages (nseg img) 0 img (prog_base img)). pose proof (segs_pages_nonneg (nseg img) img (prog_base img) 0) as P1. fold N1 in P1.
  set (N2 := segs_pages (nseg ld_img) 0 ld_img 0). pose proof (segs_pages_nonneg (nseg ld_img) ld_img 0 0) as P2. fold N2 in P2.
  set (N3 := segs_pages (nseg libc_img) 0 libc_img LIBC_VA). pose proof (segs_pages_nonneg (nseg libc_img) libc_img LIBC_VA 0) as P3. fold N3 in P3.
  pose proof (runs_segments img (prog_base img) EXEC_VA (EXEC_VA + EXEC_SIZE) (nseg img) ltac:(done) ltac:(done) 0 f H1) as R1. fold N1 in R1.
  destruct (is_dyn img) eqn:Ed; unfold is_dyn in Ed; rewrite Ed in *; cbn [negb orb] in *.
  2:{ apply (runs_weaken _ (2 * N1 + 0)); [lia|]. eapply (runs_bind (fun st => load_all st vm img _ _ _) (fun r st => match r with Loaded => (Some 0, st) | _ => (None, st) end)); [lia|lia|exact R1|apply runs_ret]. }
  apply andb_true_iff in H2 as [H2 H7]. apply andb_true_iff in H2 as [H2 H6]. apply andb_true_iff in H2 as [H2 H5]. apply andb_true_iff in H2 as [H2 H4]. apply andb_true_iff in H2 as [H2 H3].
  assert (L1 : 0 <= LD_VA /\ LD_VA + LD_SIZE <= 2 ^ 30 /\ 0 <= LIBC_VA /\ LIBC_VA + LIBC_SIZE <= 2 ^ 30) by done. destruct L1 as (L1 & L2 & L3 & L4).
  pose proof (fun f1 => runs_segments ld_img 0 LD_VA (LD_VA + LD_SIZE) (nseg ld_img) L1 L2 0 f1 H6) as R2. pose proof (fun f1 => runs_segments libc_img LIBC_VA LIBC_VA (LIBC_VA + LIBC_SIZE) (nseg libc_img) L3 L4 0 f1 H7) as R3.
  apply (runs_weaken _ (2 * N1 + (2 * N2 + 2 * N3))); [lia|]. eapply (runs_bind (fun st => load_all st vm img _ _ _) (fun r st => match r with Loaded => _ | _ => (None, st) end)); [lia|lia|exact R1|].
  eapply (runs_bind (fun st => load_static_elf st vm ld_img ld_sz LD_VA (LD_VA + LD_SIZE))); [lia|lia| |].
  - unfold load_static_elf. apply negb_true_iff in H2. rewrite H2, H3. cbn [negb]. apply (runs_weaken _ (2 * N2 + 0)); [lia|].
    eapply (runs_bind (fun st => load_all st vm ld_img 0 _ _) (fun r st => match r with Loaded => (e_entry ld_img, st) | _ => (0, st) end)); [lia|lia|apply R2|apply runs_ret].
  - apply negb_true_iff in H4. rewrite H4, H5. cbn [negb]. apply (runs_weaken _ (2 * N3 + 0)); [lia|].
    eapply (runs_bind (fun st => load_all st vm libc_img LIBC_VA _ _) (fun r st => match r with Loaded => (Some (e_entry ld_img), st) | _ => (None, st) end)); [lia|lia|apply R3|apply runs_ret].
Qed.

Definition STACK_PAGES : nat := Z.to_nat (EXEC_STACK_SIZE / PAGE_SIZE).

Lemma stack_mapped f : mapped (zero_pages EXEC_STACK_VA STACK_PAGES f) EXEC_STACK_VA EXEC_STACK_TOP.
Proof.
  intros x Hx. unfold zero_pages. rewrite decide_True; [eauto|]. unfold EXEC_STACK_VA, EXEC_STACK_TOP in *. rewrite vpn_low by (change (2 ^ 30) with 1073741824; lia).
  assert (En : Z.of_nat STACK_PAGES = 512) by reflexivity. rewrite elem_of_vpns; [|lia|reflexivity|rewrite En; change (2 ^ 30) with 1073741824; lia].
  rewrite En. Z.to_euclidean_division_equations. lia.
Qed.

Lemma zero_stack f x : 0 <= x < 2 ^ 30 -> ~ (EXEC_STACK_VA <= x < EXEC_STACK_TOP) -> zero_pages EXEC_STACK_VA STACK_PAGES f x = f x.
Proof.
  intros Hx Ho. unfold zero_pages. rewrite decide_False; [done|]. unfold EXEC_STACK_VA, EXEC_STACK_TOP in *. rewrite vpn_low by done.
  assert (En : Z.of_nat STACK_PAGES = 512) by reflexivity. rewrite elem_of_vpns; [|lia|reflexivity|rewrite En; change (2 ^ 30) with 1073741824; lia].
  rewrite En. Z.to_euclidean_division_equations. lia.
Qed.

(** The first instruction, the program's own entry point and the memory of a new program. *)
Definition prog_entry (img : image) : Z := u64 (e_entry img + prog_base img).
Definition prog_start (ld_img img : image) : Z := if is_dyn img then e_entry ld_img else prog_entry img.
Definition prog_memory (ld_img libc_img img : image) (argv : list bytes) (f : flat) (sp : Z) : Prop :=
  (forall sg x, sg ∈ prog_segs ld_img libc_img img -> in_seg sg x -> f x = Some (seg_byte sg x))
  /\ (forall x, 0 <= x < 2 ^ 30 -> ~ (EXEC_STACK_VA <= x < EXEC_STACK_TOP) -> (forall sg, sg ∈ prog_segs ld_img libc_img img -> ~ in_seg sg x) -> f x = None)
  /\ start_stack (take EXEC_MAX_ARGS argv) (prog_entry img) (if is_dyn img then LIBC_VA else 0) (prog_base img) f sp.

(** How many pages [exec_memory] takes at most. *)
Definition exec_pages (ld_img libc_img img : image) : Z := 2 * (prog_pages ld_img libc_img img + Z.of_nat STACK_PAGES).

Lemma runs_memory ld_img ld_sz libc_img img argv : prog_fits ld_img ld_sz libc_img img = true -> all_apart (prog_segs ld_img libc_img img) = true -> Forall is_bytes argv ->
  strings_size (rev (take EXEC_MAX_ARGS argv)) + 512 <= EXEC_STACK_SIZE ->
  exists sp f', runs (fun st => exec_memory ld_img ld_sz libc_img st vm img argv) (exec_pages ld_img libc_img img) (fun _ => None) (Some (prog_start ld_img img, sp)) f'
    /\ prog_memory ld_img libc_img img argv f' sp.
Proof.
  intros Hfit Hap Hb Hsz. pose proof (prog_pages_nonneg ld_img libc_img img) as Hpp. pose proof (runs_load ld_img ld_sz libc_img img (fun _ => None) Hfit) as R1.
  set (f1 := prog_flat ld_img libc_img img (fun _ => None)) in *. set (f2 := zero_pages EXEC_STACK_VA STACK_PAGES f1).
  destruct (runs_stack argv (prog_entry img) (if is_dyn img then LIBC_VA else 0) (prog_base img) f2 Hb Hsz (stack_mapped f1)) as (sp & f3 & R3 & Hs & Ho).
  exists sp, f3. split.
  - unfold exec_memory, exec_pages. cbn zeta. fold (is_dyn img). fold (prog_base img). fold (prog_entry img). fold STACK_PAGES. rewrite Z.mul_add_distr_l.
    eapply (runs_bind (fun st => exec_load ld_img ld_sz libc_img st vm img (prog_base img)) (fun r st => match r with None => (None, st) | Some e => _ end)); [lia|lia|exact R1|].
    apply (runs_weaken _ (2 * Z.of_nat STACK_PAGES + 0)); [lia|]. eapply (runs_bind (fun st => vmap_alloc_pages STACK_PAGES st vm EXEC_STACK_VA true)); [lia|lia|apply runs_alloc|].
    cbn [Z.ltb Z.compare]. apply (runs_weaken _ (0 + 0)); [lia|]. eapply (runs_bind (fun st => exec_stack st vm argv _ _ _)); [lia|lia|exact R3|]. cbn [Z.ltb Z.compare].
    assert (E : (if negb ((if is_dyn img then e_entry ld_img else 0) =? 0) then if is_dyn img then e_entry ld_img else 0 else prog_entry img) = prog_start ld_img img).
    { unfold prog_start. unfold prog_fits in Hfit. apply andb_true_iff in Hfit as [_ H2]. destruct (is_dyn img); [|done]. cbn [negb orb] in H2.
      apply andb_true_iff in H2 as [H2 _]. apply andb_true_iff in H2 as [H2 _]. apply andb_true_iff in H2 as [H2 _]. apply andb_true_iff in H2 as [_ H2]. by rewrite H2. }
    rewrite E. apply runs_ret.
  - assert (Hf : forall x, 0 <= x < 2 ^ 30 -> ~ (EXEC_STACK_VA <= x < EXEC_STACK_TOP) -> f3 x = f1 x) by (intros x Hx Hn; rewrite (Ho x Hn); by apply zero_stack).
    split; [|split; [|exact Hs]].
    + intros sg x Hin Hsg. destruct (prog_seg_place _ _ _ _ sg x Hfit Hin Hsg) as [Hx Hn]. rewrite Hf by done. by apply (prog_flat_spec _ _ _ _ _ x Hfit Hap Hx).
    + intros x Hx Hn Hno. rewrite Hf by done. by apply (prog_flat_spec _ _ _ _ _ x Hfit Hap Hx).
Qed.

End Space.

(** ** execve *)

Section Exec.
Context {BT : BootTables} {ST : Statics} (K : ktab) (m0 : gmap Z Z) (Hlay : boot_layout) (Hbm : boot_map K m0).
Context (Hiv : init_vm_map <> 0) (Hip : init_process <> 0).

(** What [execve] can load: the headers are in order, the segments fit and do not share
    pages, and the arguments are not too long. *)
Record loadable (ld_img : image) (ld_sz : Z) (libc_img img : image) (sz : Z) (argv : list bytes) : Prop := mk_loadable {
  lo_header : exec_ok img sz = true;
  lo_fits : prog_fits ld_img ld_sz libc_img img = true;
  lo_apart : all_apart (prog_segs ld_img libc_img img) = true;
  lo_argv : Forall is_bytes argv;
  lo_size : strings_size (rev (take EXEC_MAX_ARGS argv)) + 512 <= EXEC_STACK_SIZE }.

Lemma makes_memory ld_img ld_sz libc_img img sz argv : loadable ld_img ld_sz libc_img img sz argv ->
  makes K m0 ld_img ld_sz libc_img img argv (exec_pages ld_img libc_img img + 6)
    (fun e sp v => e = prog_start ld_img img /\ exists f, (forall x, 0 <= x < 2 ^ 30 -> v x = f x) /\ prog_memory ld_img libc_img img argv f sp).
Proof.
  intros [_ Hf Hap Hb Hs] vs h vm k g Hv W Ht Hn. pose proof (prog_pages_nonneg ld_img libc_img img) as Hpp.
  assert (He : 0 <= exec_pages ld_img libc_img img) by (unfold exec_pages; lia). specialize (Hn ltac:(lia)).
  destruct (runs_memory K m0 Hbm Hv ld_img ld_sz libc_img img argv Hf Hap Hb Hs) as (sp & f & R & Hm).
  destruct (R k g _ W Ht) as (st' & g' & t' & E & W' & M & Ht' & Hf' & Hc); [intros x _; unfold view; cbn; by rewrite lookup_empty|lia|].
  eexists _, st', g', t'. split; [exact E|]. split_and!; try done; [|intros _; split_and!; [done|lia|lia]]. intros e sp1 [= <- <-]. split; [done|]. exists f. done.
Qed.

(** ** fork

    Twice as many pages as the windows can have, and a few for the process. *)

Definition windows_pages (ws : list (Z * Z)) : Z := foldr (fun w n => Z.of_nat (rounds (fst w) (fst w + snd w)) + n) 0 ws.
Definition fork_pages : Z := 2 * windows_pages clone_windows.

Lemma clone_spends n : forall st cvm pvm va, spends (2 * Z.of_nat n) st (snd (fork_clone_pages n st cvm pvm va)).
Proof.
  induction n as [|n IH]; intros st cvm pvm va; [by apply spends_same|]. rewrite clone_S. cbn zeta. set (src := mmu_vmap_user_va_to_kva st pvm va).
  destruct (src =? 0); [eapply spends_weaken; [|apply IH]; lia|]. pose proof (put_spends st cvm va (copy_fill src)) as H1. destruct (put_page st cvm va (copy_fill src)) as [r st1]. cbn [snd] in H1.
  destruct (r <? 0); [eapply spends_weaken; [|exact H1]; lia|]. eapply spends_weaken; [|eapply spends_trans; [| |exact H1|apply IH]]; lia.
Qed.

Lemma windows_pages_nonneg ws : 0 <= windows_pages ws.
Proof. induction ws as [|w ws IH]; cbn [windows_pages foldr]; [lia|]. unfold windows_pages in IH. lia. Qed.

Lemma clone_all_spends ws : forall st cvm pvm, spends (2 * windows_pages ws) st (snd (clone_all ws st cvm pvm)).
Proof.
  induction ws as [|[va size] ws IH]; intros st cvm pvm; [by apply spends_same|]. cbn [clone_all]. pose proof (clone_spends (rounds va (va + size)) st cvm pvm va) as H1.
  pose proof (windows_pages_nonneg ws) as Hn. assert (E : windows_pages ((va, size) :: ws) = Z.of_nat (rounds va (va + size)) + windows_pages ws) by reflexivity. rewrite E.
  destruct (fork_clone_pages _ st cvm pvm va) as [r st1]. cbn [snd] in H1. destruct (r <? 0); [eapply spends_weaken; [|exact H1]; lia|].
  eapply spends_weaken; [|eapply spends_trans; [| |exact H1|apply IH]]; lia.
Qed.

(** The calls that [fork_process] refuses. *)
Definition may_fork (pvm : vm_map) (elr : Z) : bool := negb (heap_brk pvm =? 0) && (pc_in_window elr EXEC_VA EXEC_SIZE || pc_in_window elr LIBC_VA LIBC_SIZE).

Notation sys_ok s g ob := (sys_inv K m0 s g ob none none).

Lemma fork_process_some s g ob t elr h pvm : sys_ok s g ob -> cur_vm s t = Some h -> vms s !! h = Some pvm -> h <> init_vm_map -> may_fork pvm elr = true ->
  fork_pages + 8 <= free_count (pm (km s)) -> let '(cp, s') := fork_process s t elr in cp <> 0 /\ 2 <= free_count (pm (km s')).
Proof.
  intros I Hc Hv Hne Hm Hn. unfold fork_process. rewrite Hc, Hv. unfold may_fork in Hm. apply andb_true_iff in Hm as [M1 M2]. apply negb_true_iff in M1. rewrite M1, <- negb_orb, M2. cbn [negb].
  destruct (world_count K m0 _ _ _ (si_world _ _ _ _ _ _ _ I)) as [Hcn Hlim]. pose proof (windows_pages_nonneg clone_windows) as Hwn. unfold fork_pages in Hn.
  destruct (create_vm_spec K m0 Hlay Hbm s g ob none none I) as (c & s1 & g1 & ob1 & Ec & P1 & T1 & L1 & S1 & Hres).
  pose proof (create_some K m0 Hlay Hbm s g ob none none I ltac:(lia)) as Hs1. rewrite Ec in *. destruct Hs1 as [Hc0 Hn1].
  destruct Hres as [(-> & _)|(_ & Hcn1 & Hci & I1 & Htc & x & y & z & V1)]; [done|]. rewrite (proj2 (Z.eqb_neq c 0) Hc0). set (cvm := new_vm fresh_vm x y z) in *.
  assert (Hhc : h <> c) by congruence. assert (Hvc : vms s1 !! c = Some cvm) by (rewrite V1; apply lookup_insert_eq). assert (Hvp : vms s1 !! h = Some pvm) by (rewrite V1; by rewrite lookup_insert_ne).
  rewrite Hvc. cbn [default from_option]. unfold id. destruct (w_tree _ _ _ _ _ (si_world _ _ _ _ _ _ _ I1) h pvm (space_lookup h pvm Hvp Hne)) as (tp & Htp & _).
  destruct (world_count K m0 _ _ _ (si_world _ _ _ _ _ _ _ I1)) as [Hcn2 Hlim2]. pose proof (clone_all_spends clone_windows (pm (km s1)) cvm pvm ltac:(lia)) as Hs2.
  destruct (clone_all_spec K m0 Hbm (space_lookup c cvm Hvc Hci) (space_lookup h pvm Hvp Hne) Hhc tp clone_windows clone_windows_ok (km s1) g1 _ (si_world _ _ _ _ _ _ _ I1) Htc Htp)
    as (r & st2 & g2 & tc & E2 & W2 & M & Htc2 & _ & Hr); [intros v [? Hs]; cbn in Hs; by rewrite lookup_empty in Hs|]. rewrite E2 in *. cbn [snd] in Hs2.
  destruct (world_count K m0 _ _ _ W2) as [Hcn3 Hlim3]. cbn in Hcn3. destruct Hr as [[-> _]|[-> Hl]]; [|unfold zlen in Hcn3; lia]. cbn [Z.ltb Z.compare].
  pose proof (on_space_pm K m0 s1 g1 ob1 _ _ c cvm st2 g2 I1 Hvc Hci W2 M) as [I2 _ _ _ _]. set (s2 := set_pm s1 st2) in *. set (cvm' := cvm <| dlopen_slots := _ |> <| dlerror_msg := _ |> <| heap_brk := _ |> <| spawn_next := _ |> <| anon_next := _ |>).
  destruct (on_space_vm K m0 s2 g2 ob1 _ none c cvm cvm' I2 Hvc Hci) as [I3 _ _ _ _]; [done|done|]. set (s3 := set_vm s2 c cvm') in *.
  pose proof (process_some K m0 s3 g2 ob1 _ _ c I3 Hc0 ltac:(change (free_count (pm (km s3))) with (free_count st2); lia)) as Hp.
  pose proof (kmalloc_spends (km s3) SIZEOF_PROCESS ltac:(change (free_count (pm (km s3))) with (free_count st2); lia)) as Hs3.
  unfold process_alloc in *. rewrite (proj2 (Z.eqb_neq c 0) Hc0) in *. destruct (kmalloc (km s3) SIZEOF_PROCESS) as [p k]. cbn [snd] in Hs3. destruct (p =? 0); [done|]. cbn [fst] in Hp. split; [done|].
  assert (Hv3 : vms (s3 <| km := k |>) !! c = Some cvm') by apply lookup_insert_eq. unfold vm_map_get. rewrite Hv3, (proj2 (Z.eqb_neq c 0) Hc0). cbn [negb].
  set (cvm2 := cvm' <| refs := _ |>). match goal with |- context [vm_map_put ?X c] => set (s4 := X) end. assert (Hv4 : vms s4 !! c = Some cvm2) by apply lookup_insert_eq.
  unfold vm_map_put. rewrite (proj2 (Z.eqb_neq c 0) Hc0), Hv4. assert (Er : (refs (cvm2 <| refs := refs cvm2 - 1 |>) >? 0) = true) by reflexivity. cbn zeta. rewrite Er.
  change (pm (km (set_vm s4 c (cvm2 <| refs := refs cvm2 - 1 |>)))) with (pm k). change (free_count (pm (km s3))) with (free_count st2) in Hs3. lia.
Qed.

Lemma fork_some s g ob t elr h pvm : sys_ok s g ob -> cur_vm s t = Some h -> vms s !! h = Some pvm -> h <> init_vm_map -> may_fork pvm elr = true ->
  fork_pages + 8 <= free_count (pm (km s)) -> fst (sys_fork_impl s t elr) <> 0.
Proof.
  intros I Hc Hv Hne Hm Hn. pose proof (fork_process_some s g ob t elr h pvm I Hc Hv Hne Hm Hn) as Hf. destruct (w_tree _ _ _ _ _ (si_world _ _ _ _ _ _ _ I) h pvm (space_lookup h pvm Hv Hne)) as (tp & Htp & _).
  destruct (fork_process_spec K m0 Hlay Hbm Hiv Hip s g ob t elr h pvm tp I Hc Hv Hne Htp) as (cp & s1 & g1 & ob1 & E & _ & _ & _ & Hres). unfold sys_fork_impl. rewrite E in *. destruct Hf as [Hcp Hf].
  destruct Hres as [(-> & _)|(c & cvm & tc & I1 & _)]; [done|]. rewrite (proj2 (Z.eqb_neq cp 0) Hcp). pose proof (thread_some K m0 s1 g1 ob1 _ _ t I1 Hf) as Ht.
  destruct (thread_create s1 t) as [ct s2]. destruct Ht as [Ht _]. by rewrite (proj2 (Z.eqb_neq ct 0) Ht).
Qed.

End Exec.

End ExecRun.
