(* ===== verification/VmThm.v ===== *)
(** * Address spaces, processes and programs: the properties

    For every state that the machine of VmStep.v reaches from [kernel_start]: pages have one
    type, programs reach their own pages and the window of the first programs, reference
    counts count, and what the system calls do to the memory that a program sees. *)

From stdpp Require Import base numbers list gmap.
From Stdlib Require Import ZArith Lia Bool.
From S2P Require Import Prelude Kmem Alloc Cheap Mmu MmuInv MmuLife VmWalk Vm Exec VmInv VmView VmSys VmCount VmCalls VmFork ExecInv VmStep VmBoot ExecRun.

Module VmThm.
Import Kmem Mmu MmuInv MmuLife VmWalk Vm Exec VmInv VmView VmSys VmCount VmCalls VmFork ExecInv VmStep VmBoot ExecRun.

#[local] Opaque zero_page copy_entries fill seqZ kmalloc kfree set_phys copy_phys copy_from Z.to_nat.

(** ** What a program sees *)

Section Sees.
Context {BT : BootTables} {ST : Statics}.

(** Every page of the space is a table that some walk reads, or a page that some access reaches. *)
Lemma owned_used {K : ktab} {m : gmap Z Z} {vm : vm_map} {t : vtree} (Hbm : boot_map K m) (Ht : vm_tree K m vm t)
  (R0 : load m l0_table = table_desc l1_table) (R1 : load m l1_table = table_desc l2_table) p : p ∈ owned vm t -> exists va, (exists x, x ∈ walk_reads m (l0_phys vm) va /\ slab_of x = p)
  \/ (exists pa, user_access m (l0_phys vm) va = Some pa /\ slab_of pa = p).
Proof.
  intros Hp. destruct (l0_frame Ht) as (F0 & F1 & F2).
  assert (Hreads : forall va, 0 <= va < 2 ^ 30 -> slot (l0_phys vm) va 39 ∈ walk_reads m (l0_phys vm) va /\ slot (l1_phys vm) va 30 ∈ walk_reads m (l0_phys vm) va
    /\ slot (l2_phys vm) va 21 ∈ walk_reads m (l0_phys vm) va /\ forall q, t_l3 t !! (vpn va / 512) = Some q -> slot q va 12 ∈ walk_reads m (l0_phys vm) va).
  { intros va Hva. destruct (root_entries Ht R0 R1 va Hva) as (E0 & E1 & _). unfold walk_reads.
    rewrite E0, table_desc_valid, table_desc_table, table_desc_mask by done. rewrite E1, table_desc_valid, table_desc_table, table_desc_mask by done. cbn [andb negb orb].
    split_and!; [destruct (_ || _); left|destruct (_ || _); right; left|destruct (_ || _); right; right; left|].
    intros q Hq. pose proof (owned_frame Ht q (l3_owned _ _ Hq)) as Fq. rewrite (l2_slot Hbm Ht va Hva), Hq, table_desc_valid, table_desc_table, table_desc_mask by done.
    right; right; right; left. }
  destruct (Hreads 0 ltac:(lia)) as (W0 & W1 & W2 & _). unfold owned, tables, upages in Hp. rewrite elem_of_app, !elem_of_cons, !elem_of_vals in Hp.
  destruct Hp as [[-> |[-> |[-> |[i Hi]]]]|[v Hv]].
  - exists 0. left. eexists. split; [exact W0|]. apply slot_in; [apply F0|lia].
  - exists 0. left. eexists. split; [exact W1|]. apply slot_in; [apply F1|lia].
  - exists 0. left. eexists. split; [exact W2|]. apply slot_in; [apply F2|lia].
  - destruct (vt_l3 _ _ _ _ Ht i p Hi) as [Hir _]. set (va := i * 2 ^ 21). assert (Hva : 0 <= va < 2 ^ 30) by (unfold va; lia).
    assert (Ei : vpn va / 512 = i). { rewrite vpn_low by done. unfold va. change (2 ^ 21) with 2097152. Z.to_euclidean_division_equations. lia. }
    exists va. left. eexists. split; [apply (Hreads va Hva); by rewrite Ei|]. apply slot_in; [by eapply (owned_frame Ht), l3_owned|lia].
  - destruct (vt_pg _ _ _ _ Ht v p Hv) as [Hvr [q Hq]]. unfold NPAGES in Hvr. set (va := v * 4096). assert (Hva : 0 <= va < 2 ^ 30) by (unfold va; lia).
    assert (Ev : vpn va = v) by (rewrite vpn_low by done; unfold va; by rewrite Z.div_mul).
    exists va. right. eexists. split; [rewrite (walk_own Hbm Ht R0 R1 va q Hva) by (by rewrite Ev); by rewrite Ev, Hv|].
    apply page_byte. by eapply (owned_frame Ht), pg_owned.
Qed.

(** The physical address that an access at [va] reaches in the address space [h], by the
    walk of the processor, and the byte there. *)
Definition reaches (s : vsys) (h va : Z) : option Z := vms s !! h ≫= fun vm => user_access (mem (pm (km s))) (l0_phys vm) va.
Definition sees (s : vsys) (h va : Z) : option Z := ld8 (mem (pm (km s))) <$> reaches s h va.

(** The 2 MB of the first programs, the same in all address spaces. *)
Definition window (va : Z) : Prop := USER_VA <= va < USER_VA + USER_SIZE.

Definition reachable (storage : Z) (s : vsys) : Prop :=
  exists st pf ranges, machine storage st pf ranges /\ vreach (kernel_start storage st pf ranges) s.

(** What holds of a reachable state, for its boot memory [m]. *)
Record good (storage : Z) (m : gmap Z Z) (s : vsys) (g : ghost) (ob : Z -> option use) : Prop := mk_good {
  gd_layout : boot_layout;
  gd_storage : 0 <= storage < 2 ^ 48 /\ storage mod 2 ^ 21 = 0;
  gd_statics : init_vm_map <> 0 /\ init_process <> 0;
  gd_shape : shape storage m;
  gd_rooted : rooted m;
  gd_ok : vok (tables_of m) m s g ob }.

Lemma good_step storage m s g ob l s' : good storage m s g ob -> vstep l s s' -> exists g' ob', good storage m s' g' ob' /\ others (hs_of l) s g s' g'.
Proof.
  intros [G1 G2 [G3 G4] G5 [R0 R1] O] St.
  destruct (vstep_ok (tables_of m) m G1 (shape_boot_map storage m G5) G3 G4 R0 R1 (boot_reads storage G1 G2 G5) l s g ob s' O St) as (g' & ob' & O' & Oth).
  exists g', ob'. by split.
Qed.

Lemma reachable_good storage s : reachable storage s -> exists m g ob, good storage m s g ob.
Proof.
  intros (st & pf & ranges & Hm & Hr). destruct (kernel_start_ok storage st pf ranges Hm) as (m & Hs & Hrt & O). destruct Hm as [G1 G2 G3 _ _ _ _ _].
  induction Hr as [|l s s' Hr IH St]; [by exists m, (boot_ghost (ram_pages ranges)), (fun _ => None)|]. destruct IH as (m' & g & ob & G). destruct (good_step _ _ _ _ _ _ _ G St) as (g' & ob' & G' & _). by exists m', g', ob'.
Qed.

Section Good.
Context {storage : Z} {m : gmap Z Z} {s : vsys} {g : ghost} {ob : Z -> option use} (G : good storage m s g ob).

Lemma gd_boot : boot_map (tables_of m) m.
Proof. apply (shape_boot_map storage), G. Qed.
Lemma gd_inv : sys_inv (tables_of m) m s g ob none none.
Proof. apply (ok_sys _ _ _ _ _ (gd_ok _ _ _ _ _ G)). Qed.
Lemma gd_world : world (tables_of m) m (km s) (delete init_vm_map (vms s)) g.
Proof. apply (si_world _ _ _ _ _ _ _ gd_inv). Qed.

Lemma boot_cases va pa : user_access m l0_table va = Some pa -> window va /\ pa = storage + (va - USER_VA).
Proof. apply (boot_access storage); apply G. Qed.

Lemma gd_tree h vm : vms s !! h = Some vm -> h <> init_vm_map -> exists t, g_tree g !! h = Some t /\ vm_tree (tables_of m) (mem (pm (km s))) vm t.
Proof. intros Hv Hne. apply (w_tree _ _ _ _ _ gd_world). by apply space_lookup. Qed.

(** Outside the window an access reaches a page of the space. *)
Lemma reaches_own h vm t va : vms s !! h = Some vm -> h <> init_vm_map -> g_tree g !! h = Some t -> ~ window va ->
  reaches s h va = if decide (0 <= va < 2 ^ 30) then (fun a => a + va mod 4096) <$> t_pg t !! vpn va else None.
Proof.
  intros Hv Hne Ht Hw. unfold reaches. rewrite Hv. cbn [mbind option_bind]. destruct (gd_rooted _ _ _ _ _ G) as [R0 R1].
  rewrite (access_cases (tables_of m) m (gd_layout _ _ _ _ _ G) gd_boot R0 R1 (boot_reads storage (gd_layout _ _ _ _ _ G) (gd_storage _ _ _ _ _ G) (gd_shape _ _ _ _ _ G)) _ _ g h vm t va gd_world (space_lookup h vm Hv Hne) Ht).
  assert (Hno : user_access m l0_table va = None) by (destruct (user_access m l0_table va) eqn:E; [by apply boot_cases in E as [? _]|done]). rewrite Hno.
  destruct (decide (0 <= va < 2 ^ 30 /\ _)) as [[Hva Hl]|Hn].
  - rewrite decide_True by done. by destruct (t_pg t !! vpn va).
  - case_decide as Hva; [|done]. destruct (t_pg t !! vpn va) as [a|] eqn:Ea; [|done]. destruct Hn. split; [done|].
    apply (vt_pg _ _ _ _ (w_tree_eq _ _ gd_world h vm t (space_lookup h vm Hv Hne) Ht) _ _ Ea).
Qed.

Lemma sees_own h vm t va : vms s !! h = Some vm -> h <> init_vm_map -> g_tree g !! h = Some t -> ~ window va ->
  sees s h va = if decide (0 <= va < 2 ^ 30) then view (mem (pm (km s))) t va else None.
Proof. intros Hv Hne Ht Hw. unfold sees. rewrite (reaches_own h vm t va Hv Hne Ht Hw). case_decide; [|done]. unfold view. by destruct (t_pg t !! vpn va). Qed.

Lemma sees_init va : ~ window va -> sees s init_vm_map va = None.
Proof.
  intros Hw. destruct (si_init_vm _ _ _ _ _ _ _ gd_inv) as (vm & Hv & _ & _ & E). unfold sees, reaches. rewrite Hv. cbn [mbind option_bind]. rewrite E.
  rewrite (boot_walk (tables_of m) m (boot_reads storage (gd_layout _ _ _ _ _ G) (gd_storage _ _ _ _ _ G) (gd_shape _ _ _ _ _ G)) _ _ g va gd_world).
  destruct (user_access m l0_table va) eqn:Ea; [|done]. by apply boot_cases in Ea as [? _].
Qed.

(** The tables that the walk reads. *)
Lemma reads_static h vm va x : vms s !! h = Some vm -> x ∈ walk_reads (mem (pm (km s))) (l0_phys vm) va -> g_kind g (slab_of x) = Some (User h) \/ slab_of x ∈ statics.
Proof.
  intros Hv Hx. destruct (gd_rooted _ _ _ _ _ G) as [R0 R1]. pose proof (gd_layout _ _ _ _ _ G) as Hl. destruct (world_roots (tables_of m) m Hl gd_boot R0 R1 _ _ g gd_world) as (Hb & H0 & H1).
  assert (Hboot : forall y, y ∈ walk_reads (mem (pm (km s))) l0_table va -> slab_of y ∈ statics).
  { intros y Hy. apply (boot_reads storage Hl (gd_storage _ _ _ _ _ G) (gd_shape _ _ _ _ _ G) va). by rewrite <- (walk_reads_same m (mem (pm (km s)))) by
      (intros z Hz; apply (w_boot _ _ _ _ _ gd_world), (w_static _ _ _ _ _ gd_world), (boot_reads storage Hl (gd_storage _ _ _ _ _ G) (gd_shape _ _ _ _ _ G) va z Hz)). }
  destruct (decide (h = init_vm_map)) as [->|Hne].
  { destruct (si_init_vm _ _ _ _ _ _ _ gd_inv) as (vm1 & Hv1 & _ & _ & E). rewrite Hv in Hv1. injection Hv1 as <-. rewrite E in Hx. right. by apply Hboot. }
  destruct (gd_tree h vm Hv Hne) as (t & Ht & Htr). destruct (reads_cases Hl Hb Htr H0 H1 va x Hx) as [Hin|Hin]; [left|right; by apply Hboot].
  eapply (w_owned _ _ gd_world); [by apply space_lookup|exact Ht|]. apply elem_of_app. by left.
Qed.

Lemma reads_kind h vm va x : vms s !! h = Some vm -> x ∈ walk_reads (mem (pm (km s))) (l0_phys vm) va -> g_kind g (slab_of x) = Some (User h) \/ g_kind g (slab_of x) = Some Boot.
Proof. intros Hv Hx. destruct (reads_static h vm va x Hv Hx); [by left|right]. by apply (w_static _ _ _ _ _ gd_world). Qed.

(** A page of a space is a table of it or a page that its programs reach. *)
Lemma user_used h p : g_kind g p = Some (User h) -> h <> init_vm_map /\ exists vm va, vms s !! h = Some vm
  /\ ((exists x, x ∈ walk_reads (mem (pm (km s))) (l0_phys vm) va /\ slab_of x = p) \/ exists pa, reaches s h va = Some pa /\ slab_of pa = p).
Proof.
  intros (vm & t & Hv & Ht & Hp)%(w_user _ _ _ _ _ gd_world). apply lookup_delete_Some in Hv as [Hne Hv]. split; [done|].
  destruct (gd_rooted _ _ _ _ _ G) as [R0 R1]. destruct (world_roots (tables_of m) m (gd_layout _ _ _ _ _ G) gd_boot R0 R1 _ _ g gd_world) as (Hb & H0 & H1).
  destruct (owned_used Hb (w_tree_eq _ _ gd_world h vm t (space_lookup h vm Hv ltac:(done)) Ht) H0 H1 p Hp) as (va & Hu). exists vm, va. split; [done|].
  destruct Hu as [Hu|(pa & Ha & E)]; [by left|right]. exists pa. unfold reaches. by rewrite Hv.
Qed.

(** What an access reaches. *)
Lemma reaches_kind h va pa : reaches s h va = Some pa ->
  h <> init_vm_map /\ g_kind g (slab_of pa) = Some (User h) \/ window va /\ pa = storage + (va - USER_VA) /\ g_kind g (slab_of pa) = None.
Proof.
  unfold reaches. destruct (vms s !! h) as [vm|] eqn:Hv; [|done]. cbn [mbind option_bind]. intros Ha. destruct (gd_rooted _ _ _ _ _ G) as [R0 R1]. pose proof (gd_layout _ _ _ _ _ G) as Hl.
  pose proof (boot_reads storage Hl (gd_storage _ _ _ _ _ G) (gd_shape _ _ _ _ _ G)) as Hrd.
  assert (Hboot : user_access m l0_table va = Some pa -> window va /\ pa = storage + (va - USER_VA) /\ g_kind g (slab_of pa) = None).
  { intros Hb. destruct (boot_cases va pa Hb) as [H1 H2]. split_and!; [done|done|]. by apply (ok_private _ _ _ _ _ (gd_ok _ _ _ _ _ G) va). }
  destruct (decide (h = init_vm_map)) as [->|Hne].
  { destruct (si_init_vm _ _ _ _ _ _ _ gd_inv) as (vm1 & Hv1 & _ & _ & E). rewrite Hv in Hv1. injection Hv1 as <-. rewrite E, (boot_walk _ m Hrd _ _ g va gd_world) in Ha. right. by apply Hboot. }
  destruct (gd_tree h vm Hv Hne) as (t & Ht & Htr).
  rewrite (access_cases _ m Hl gd_boot R0 R1 Hrd _ _ g h vm t va gd_world (space_lookup h vm Hv Hne) Ht) in Ha. case_decide; [|right; by apply Hboot]. left. split; [done|].
  destruct (t_pg t !! vpn va) as [a|] eqn:Ea; [|done]. injection Ha as <-. destruct (pg_page _ m _ _ _ _ _ _ _ _ gd_world (space_lookup h vm Hv Hne) Ht Ea) as [Hp _].
  rewrite (proj2 (page_byte a va Hp)). eapply (w_owned _ _ gd_world); [by apply space_lookup|exact Ht|by eapply pg_owned].
Qed.

(** No program reaches a table. *)
Lemma reads_private h vm h' va va' x pa : vms s !! h = Some vm -> x ∈ walk_reads (mem (pm (km s))) (l0_phys vm) va -> reaches s h' va' = Some pa -> slab_of x <> slab_of pa.
Proof.
  intros Hv Hx Ha E. pose proof (reads_kind h vm va x Hv Hx) as Hk. rewrite E in Hk. destruct (reaches_kind h' va' pa Ha) as [[Hne Hk']|(_ & _ & Hk')]; [|destruct Hk; congruence].
  assert (h = h') as -> by (destruct Hk; congruence). assert (Hu : g_kind g (slab_of x) = Some (User h')) by congruence. clear Hk.
  destruct (gd_tree h' vm Hv Hne) as (t & Ht & Htr). destruct (gd_rooted _ _ _ _ _ G) as [R0 R1]. pose proof (gd_layout _ _ _ _ _ G) as Hl.
  pose proof (boot_reads storage Hl (gd_storage _ _ _ _ _ G) (gd_shape _ _ _ _ _ G)) as Hrd.
  destruct (world_roots (tables_of m) m Hl gd_boot R0 R1 _ _ g gd_world) as (Hb & H0 & H1). destruct (reads_cases Hl Hb Htr H0 H1 va x Hx) as [Hin|Hin].
  - unfold reaches in Ha. rewrite Hv in Ha. cbn [mbind option_bind] in Ha. rewrite (access_cases _ m Hl gd_boot R0 R1 Hrd _ _ g h' vm t va' gd_world (space_lookup h' vm Hv Hne) Ht) in Ha. case_decide.
    + destruct (t_pg t !! vpn va') as [a|] eqn:Ea; [|done]. injection Ha as <-. destruct (pg_page _ m _ _ _ _ _ _ _ _ gd_world (space_lookup h' vm Hv Hne) Ht Ea) as [Hp _].
      rewrite (proj2 (page_byte a va' Hp)) in E. rewrite E in Hin. by apply (pg_not_table Htr _ a Ea).
    + pose proof (ok_private _ _ _ _ _ (gd_ok _ _ _ _ _ G) va' pa Ha). congruence.
  - rewrite (walk_reads_same m (mem (pm (km s)))) in Hin by (intros z Hz; apply (w_boot _ _ _ _ _ gd_world), (w_static _ _ _ _ _ gd_world), (Hrd va z Hz)).
    pose proof (w_static _ _ _ _ _ gd_world _ (Hrd va x Hin)). congruence.
Qed.

End Good.

(** ** Types *)

(** The use of each page and of each block of [kmalloc]. *)
Record typed (storage : Z) (s : vsys) (kd : Z -> option kind) (ob : Z -> option use) : Prop := mk_typed {
  ty_free : exists pl, pmm_repr (pm (km s)) pl /\ forall p, kd p = Some Free <-> p ∈ pl;
  ty_slab : forall p, kd p = Some Slab <-> is_Some (slabs (km s) !! p);
  ty_boot : forall p, p ∈ statics -> kd p = Some Boot;
  ty_kernel : forall t p, kd p = Some (Kernel t) <-> kernel_page s t p;
  ty_tables : forall h vm va x, vms s !! h = Some vm -> x ∈ walk_reads (mem (pm (km s))) (l0_phys vm) va -> kd (slab_of x) = Some (User h) \/ slab_of x ∈ statics;
  ty_access : forall h va pa, reaches s h va = Some pa -> h <> init_vm_map /\ kd (slab_of pa) = Some (User h) \/ window va /\ pa = storage + (va - USER_VA) /\ kd (slab_of pa) = None;
  ty_user : forall h p, kd p = Some (User h) -> h <> init_vm_map /\ exists vm va, vms s !! h = Some vm
    /\ ((exists x, x ∈ walk_reads (mem (pm (km s))) (l0_phys vm) va /\ slab_of x = p) \/ exists pa, reaches s h va = Some pa /\ slab_of pa = p);
  ty_private : forall h vm h' va va' x pa, vms s !! h = Some vm -> x ∈ walk_reads (mem (pm (km s))) (l0_phys vm) va -> reaches s h' va' = Some pa -> slab_of x <> slab_of pa;
  ty_blocks : kmem_inv (km s) (fun b => is_Some (ob b)) /\ forall b, is_Some (ob b) -> kd (slab_of b) = Some Slab;
  ty_vm : forall b, ob b = Some UVm <-> b <> init_vm_map /\ is_Some (vms s !! b);
  ty_proc : forall b, ob b = Some UProc <-> b <> init_process /\ is_Some (procs s !! b);
  ty_thread : forall b, ob b = Some UThread <-> is_Some (threads s !! b);
  ty_launch : forall b, ob b = Some ULaunch <-> is_Some (launch s !! b);
  ty_sig : forall b t, ob b = Some (USig t) <-> b <> 0 /\ exists th, threads s !! t = Some th /\ sig_actions th = b }.

Lemma good_typed storage m s g ob : good storage m s g ob -> typed storage s (g_kind g) ob.
Proof.
  intros G. pose proof (gd_world G) as W. pose proof (gd_inv G) as I. destruct (w_kmem _ _ _ _ _ W) as (fl & sl & Hwf & HA). constructor.
  - exists (g_pl g). split; [apply (w_repr _ _ W)|apply (w_free _ _ _ _ _ W)].
  - apply (w_slab _ _ _ _ _ W).
  - apply (w_static _ _ _ _ _ W).
  - apply (si_stack _ _ _ _ _ _ _ I).
  - apply (reads_static G).
  - apply (reaches_kind G).
  - apply (user_used G).
  - apply (reads_private G).
  - split; [|intros b Hb; apply (w_live_slab _ _ W); by apply (si_live _ _ _ _ _ _ _ I)]. exists (g_pl g), fl, sl. split; [done|]. intros o. rewrite <- (si_live _ _ _ _ _ _ _ I). apply HA.
  - apply (si_ovm _ _ _ _ _ _ _ I).
  - apply (si_oproc _ _ _ _ _ _ _ I).
  - apply (si_othread _ _ _ _ _ _ _ I).
  - apply (si_olaunch _ _ _ _ _ _ _ I).
  - apply (si_osig _ _ _ _ _ _ _ I).
Qed.

(** C5: Every page and every block has one type, in every state the kernel reaches.  The free
    pages are those of the page allocator and the slabs those of the slab allocator; a walk of
    the processor in the address space [h] reads tables of [h] and boot tables only; an access
    of a program reaches a page of its own space or the window at [USER_VA], and never a
    table; every page of the space [h] is one of its tables or one that its program reaches, and
    the pages of the kernel are its stacks and those it took; the blocks in use are those of the
    types that the kernel's structures give them. *)
Theorem pages_typed (storage : Z) (s : vsys) : reachable storage s -> exists kd ob, typed storage s kd ob.
Proof. intros Hr. destruct (reachable_good storage s Hr) as (m & g & ob & G). exists (g_kind g), ob. by apply (good_typed storage m). Qed.

(** A space that a step or call spares is seen as before. *)
Lemma others_sees storage m s g ob s' g' ob' hs h vm : good storage m s g ob -> good storage m s' g' ob' -> others hs s g s' g' -> h ∉ hs -> vms s !! h = Some vm ->
  vms s' !! h = Some vm /\ forall va, ~ window va -> sees s' h va = sees s h va.
Proof.
  intros G G' [Ho _] Hh Hv.
  destruct (Ho h vm Hh Hv) as [Hv' Hsp]. split; [done|]. intros va Hw. destruct (decide (h = init_vm_map)) as [->|Hne]; [by rewrite (sees_init G), (sees_init G')|].
  destruct (gd_tree G h vm Hv Hne) as (t & Ht & _). destruct (spares_view _ m _ _ g h vm t _ g' (gd_world G) (space_lookup h vm Hv Hne) Ht Hsp) as [Ht' Hvw].
  rewrite (sees_own G h vm t va Hv Hne Ht Hw), (sees_own G' h vm t va Hv' Hne Ht' Hw). case_decide; [apply Hvw|done].
Qed.

(** C2: A step of the kernel or of a program that does not work on the address space [h] leaves
    it, and every byte that its programs see outside the window at [USER_VA], as they were;
    such steps include the stores of all other processes, [fork], [execve], the end of
    threads and the allocations of the rest of the kernel. *)
Theorem memory_isolated (storage : Z) (s s' : vsys) (l : option Z) (h : Z) (vm : vm_map) :
  reachable storage s -> vstep l s s' -> l <> Some h -> vms s !! h = Some vm ->
  vms s' !! h = Some vm /\ forall va, ~ window va -> sees s' h va = sees s h va.
Proof.
  intros Hr St Hl Hv. destruct (reachable_good storage s Hr) as (m & g & ob & G). destruct (good_step _ _ _ _ _ _ _ G St) as (g' & ob' & G' & Ho).
  apply (others_sees storage m s g ob s' g' ob' (hs_of l)); try done. destruct l as [h'|]; cbn; [intros ->%list_elem_of_singleton; done|apply not_elem_of_nil].
Qed.

(** C10: Reference counts count: every thread has a process and every process an address space;
    [refs] of a process, other than the first, is the number of its threads and [refs] of an
    address space the number of processes that have it, and both are positive, so what is
    in use is there and what is there is in use. *)
Theorem references_counted (storage : Z) (s : vsys) : reachable storage s ->
  (forall t th, threads s !! t = Some th -> is_Some (procs s !! t_proc th))
  /\ (forall p pr, procs s !! p = Some pr -> is_Some (vms s !! p_vm pr))
  /\ (forall p pr, procs s !! p = Some pr -> p <> init_process -> p_refs pr = count (fun th => t_proc th =? p) (threads s) /\ 0 < p_refs pr)
  /\ (forall h vm, vms s !! h = Some vm -> h <> init_vm_map -> refs vm = count (fun pr => p_vm pr =? h) (procs s) /\ 0 < refs vm).
Proof.
  intros Hr. destruct (reachable_good storage s Hr) as (m & g & ob & G). pose proof (gd_inv G) as I. split_and!.
  - apply (si_thrproc _ _ _ _ _ _ _ I).
  - apply (si_procvm _ _ _ _ _ _ _ I).
  - intros p pr Hp Hne. destruct (si_procref _ _ _ _ _ _ _ I p pr Hp Hne) as [-> H]. unfold none. split; [lia|done].
  - intros h vm Hv Hne. destruct (si_vmref _ _ _ _ _ _ _ I h vm Hv Hne) as [-> H]. unfold none. split; [lia|done].
Qed.

(** ** execve and fork *)

(** The state after a call that keeps the invariant. *)
Lemma good_call storage m s g ob s' g' ob' hs : good storage m s g ob -> sys_inv (tables_of m) m s' g' ob' none none -> aligned_vms s' -> others hs s g s' g' -> good storage m s' g' ob'.
Proof.
  intros [G1 G2 G3 G4 G5 [_ _ B]] I A O. split; try done. constructor; [exact I|exact A|]. intros va pa Hp. apply (proj2 O). by eapply B.
Qed.

(** What [execve] makes. *)
Record exec_result (s s' : vsys) (t c a sp : Z) (vm : vm_map) (ld_img libc_img img : image) (argv : list bytes) (f : flat) : Prop := mk_exec_result {
  er_thread : c <> 0 /\ threads s !! c = None /\ cur_vm s' c = Some a;
  er_process : exists stack p, threads s' = <[c := mk_thread stack p 0]> (threads s) /\ procs s !! p = None
    /\ procs s' = <[p := mk_process (next_pid s) a 0 0 1]> (init_ref (creator_proc s t) (procs s));
  er_space : vms s !! a = None /\ vms s' = <[a := vm]> (vms s) /\ refs vm = 1 /\ heap_brk vm = EXEC_HEAP_VA /\ anon_next vm = 0;
  er_start : exists x, launch s !! x = None /\ launch s' = <[x := (prog_start ld_img img, sp, 0)]> (launch s);
  er_memory : prog_memory ld_img libc_img img argv f sp;
  er_sees : forall va, ~ window va -> sees s' a va = if decide (0 <= va < 2 ^ 30) then f va else None;
  er_others : forall h va, is_Some (vms s !! h) -> ~ window va -> sees s' h va = sees s h va }.

Lemma exec_total storage s t ld_img ld_sz libc_img img sz argv :
  reachable storage s -> loadable ld_img ld_sz libc_img img sz argv -> exec_pages ld_img libc_img img + 10 <= free_count (pm (km s)) ->
  exists c s' a sp vm f, sys_execve_impl ld_img ld_sz libc_img s t img sz argv = (c, s') /\ exec_result s s' t c a sp vm ld_img libc_img img argv f
  /\ free_count (pm (km s)) - exec_pages ld_img libc_img img - 14 <= free_count (pm (km s')).
Proof.
  intros Hr Hl Hn. destruct (reachable_good storage s Hr) as (m & g & ob & G). pose proof (gd_inv G) as I. destruct (gd_statics _ _ _ _ _ G) as [Hiv Hip].
  pose proof (aligned_exec ld_img ld_sz libc_img s t img sz argv (ok_aligned _ _ _ _ _ (gd_ok _ _ _ _ _ G))) as A.
  destruct (sys_execve_spec _ m (gd_layout _ _ _ _ _ G) (gd_boot G) Hiv Hip ld_img ld_sz libc_img s g ob t img sz argv _ _ I (makes_memory _ m (gd_boot G) ld_img ld_sz libc_img img sz argv Hl) ltac:(lia))
    as (c & s' & g' & ob' & E & I' & O & Hres). rewrite E in *. cbn [snd] in A. pose proof (good_call _ _ _ _ _ _ _ _ _ G I' A O) as G'.
  assert (Hp : 0 <= exec_pages ld_img libc_img img) by (pose proof (prog_pages_nonneg ld_img libc_img img); unfold exec_pages; lia).
  destruct Hres as [[_ Hno]|[[Hc Hcn] (p & stack & a & x & entry & sp & vm & ta & v0 & T' & Pn & P' & Xn & L' & Vn & V' & Hrf & Hb & Han & Hta & [-> (f & Hf & Hm)] & Hvw) Hcnt]].
  { specialize (Hno ltac:(lia)). rewrite (lo_header _ _ _ _ _ _ Hl) in Hno. done. }
  exists c, s', a, sp, vm, f. assert (Hva : vms s' !! a = Some vm) by (rewrite V'; apply lookup_insert_eq). assert (Ha : a <> init_vm_map).
  { intros ->. destruct (si_init_vm _ _ _ _ _ _ _ I) as (vm1 & Hv1 & _). congruence. }
  split; [done|]. split; [|specialize (Hcnt ltac:(lia)); lia]. constructor; [|by exists stack, p|by split_and!|by exists x|exact Hm| |].
  - split_and!; try done. unfold cur_vm. assert (Pp : procs s' !! p = Some (mk_process (next_pid s) a 0 0 1)) by (rewrite P'; apply lookup_insert_eq).
    rewrite T', lookup_insert_eq. cbn [t_proc]. rewrite Pp. cbn [p_vm].
    rewrite (proj2 (Z.eqb_neq p 0) (proc_nz _ m Hip I' p _ Pp)), (proj2 (Z.eqb_neq a 0) (vm_nz _ m Hiv I' a vm Hva)). done.
  - intros va Hw. rewrite (sees_own G' a vm ta va Hva Ha Hta Hw). case_decide; [|done]. rewrite Hvw. by apply Hf.
  - intros h va [vm1 Hv1] Hw. by apply (others_sees storage m s g ob s' g' ob' [] h vm1 G G' O (not_elem_of_nil _) Hv1).
Qed.

(** C8: [execve] of a program whose headers are in order and whose segments fit and share no
    pages succeeds when there are enough free pages.  The new thread is the only one of a new
    process with a new address space; it starts at the program's entry (the linker's for a
    position-independent program) with a stack pointer that is a multiple of 16.  On its
    pages each segment has its bytes of the file at its addresses and zero elsewhere; the
    stack has the number of arguments, their addresses, the strings and the auxiliary vector;
    nothing else is mapped.  Every other thread, process and address space is as it was, but
    for the reference that the first process keeps when it is the caller's, and every other
    space sees the same bytes. *)
Theorem execve_loads (storage : Z) (s : vsys) (t : Z) (ld_img : image) (ld_sz : Z) (libc_img img : image) (sz : Z) (argv : list bytes) :
  reachable storage s -> loadable ld_img ld_sz libc_img img sz argv -> exec_pages ld_img libc_img img + 10 <= free_count (pm (km s)) ->
  exists c s' a sp vm f, sys_execve_impl ld_img ld_sz libc_img s t img sz argv = (c, s') /\ exec_result s s' t c a sp vm ld_img libc_img img argv f.
Proof.
  intros Hr Hl Hn. destruct (exec_total storage s t ld_img ld_sz libc_img img sz argv Hr Hl Hn) as (c & s' & a & sp & vm & f & E & H & _). by exists c, s', a, sp, vm, f.
Qed.

(** A page address of the windows that [fork] copies. *)
Definition cloned (va : Z) : bool := existsb (fun w => (fst w <=? va) && (va <? fst w + snd w)) clone_windows.

Lemma cloned_windows va : 0 <= va < 2 ^ 30 -> cloned va = true <-> in_windows clone_windows (vpn va).
Proof.
  intros Hva. unfold cloned, in_windows. rewrite existsb_exists, Exists_exists. rewrite vpn_low by done. pose proof clone_windows_ok as Hok.
  assert (Hall : forall w, w ∈ clone_windows -> window_ok w).
  { revert Hok. generalize clone_windows. induction l as [|w' ws IH]; intros Hok w Hin; [by apply elem_of_nil in Hin|]. destruct Hok as (H1 & _ & H2). apply elem_of_cons in Hin as [->|Hin]; [done|by apply IH]. }
  assert (Hw : forall w, w ∈ clone_windows -> ((fst w <=? va) && (va <? fst w + snd w) = true <-> in_window (va / 4096) w)).
  { intros w Hin. destruct (Hall w Hin) as (H1 & H2 & H3 & H4 & H5). unfold in_window. rewrite andb_true_iff, Z.leb_le, Z.ltb_lt. Z.to_euclidean_division_equations. lia. }
  split; intros (w & Hin & H); exists w; (split; [by apply list_elem_of_In|]); apply Hw; try done; by apply list_elem_of_In.
Qed.

(** C9: [fork], called by a program from its own code or from libc with enough free pages,
    succeeds: the child's thread is the only one of a new process with a new address space,
    which has the parent's break, mappings and slots, and the child sees at every address of
    the windows what the parent sees, in pages of its own; the parent sees what it saw. *)
Theorem fork_copies (storage : Z) (s : vsys) (t elr h : Z) (pvm : vm_map) :
  reachable storage s -> cur_vm s t = Some h -> vms s !! h = Some pvm -> may_fork pvm elr = true -> fork_pages + 8 <= free_count (pm (km s)) ->
  exists ct s' c cvm, sys_fork_impl s t elr = (ct, s') /\ ct <> 0 /\ threads s !! ct = None /\ cur_vm s' ct = Some c
  /\ vms s !! c = None /\ vms s' = <[c := cvm]> (vms s) /\ forked pvm cvm
  /\ (forall va, ~ window va -> sees s' c va = if cloned va then sees s h va else None)
  /\ (forall va, ~ window va -> sees s' h va = sees s h va).
Proof.
  intros Hr Hc Hv Hm Hn. destruct (reachable_good storage s Hr) as (m & g & ob & G). pose proof (gd_inv G) as I. destruct (gd_statics _ _ _ _ _ G) as [Hiv Hip].
  assert (Hne : h <> init_vm_map). { apply (heap_not_init _ m _ _ _ _ _ _ _ I Hv). unfold may_fork in Hm. apply andb_true_iff in Hm as [Hm _]. by apply negb_true_iff, Z.eqb_neq in Hm. }
  pose proof (fork_some _ m (gd_layout _ _ _ _ _ G) (gd_boot G) Hiv Hip s g ob t elr h pvm I Hc Hv Hne Hm Hn) as Hs.
  destruct (gd_tree G h pvm Hv Hne) as (tp & Htp & _). pose proof (aligned_fork s t elr (ok_aligned _ _ _ _ _ (gd_ok _ _ _ _ _ G))) as A.
  destruct (sys_fork_spec _ m (gd_layout _ _ _ _ _ G) (gd_boot G) Hiv Hip s g ob t elr h pvm tp I Hc Hv Hne Htp) as (ct & s' & g' & ob' & E & I' & _ & S & Hres).
  rewrite E in *. cbn [fst snd] in *. destruct Hres as [[-> _]|(_ & Hcn & cp & c & cvm & tc & stack & T' & [(Hp & Hpi & Hpn) P' (Vn & Vi & V') Ff Htc Hvw])]; [done|].
  pose proof (good_call _ _ _ _ _ _ _ _ _ G I' A (spares_others _ _ _ _ _ S)) as G'. exists ct, s', c, cvm.
  assert (Hvc : vms s' !! c = Some cvm) by (rewrite V'; apply lookup_insert_eq). assert (Hvh : vms s' !! h = Some pvm) by (rewrite V', lookup_insert_ne by congruence; done).
  destruct (spares_view _ m _ _ g h pvm tp _ g' (gd_world G) (space_lookup h pvm Hv Hne) Htp (proj2 (proj1 S h pvm (not_elem_of_nil _) Hv))) as [Htp' Hpv]. split_and!; try done.
  - unfold cur_vm. rewrite T', lookup_insert_eq. cbn [t_proc]. rewrite P', lookup_insert_eq. cbn [p_vm].
    rewrite (proj2 (Z.eqb_neq cp 0) Hp), (proj2 (Z.eqb_neq c 0) (vm_nz _ m Hiv I' c cvm Hvc)). done.
  - intros va Hw. rewrite (sees_own G' c cvm tc va Hvc Vi Htc Hw), (sees_own G h pvm tp va Hv Hne Htp Hw). case_decide as Hva; [|by destruct (cloned va)].
    rewrite Hvw. destruct (decide (in_windows _ _)) as [Hi|Hi]; [apply cloned_windows in Hi; [by rewrite Hi|done]|].
    destruct (cloned va) eqn:Ec; [|done]. by apply cloned_windows in Ec.
  - intros va Hw. rewrite (sees_own G' h pvm tp va Hvh Hne Htp' Hw), (sees_own G h pvm tp va Hv Hne Htp Hw). case_decide; [apply Hpv|done].
Qed.

(** ** brk and mmap *)

(** C20: [brk] to an address of the heap window: the break is there and the heap is what is below
    it, rounded up to a page: pages above are gone, new ones are zero and the rest is as it
    was.  It fails only when memory runs out, after which the break is the old one and the
    heap has a part of the new pages. *)
Theorem brk_moves (storage : Z) (s : vsys) (t addr h : Z) (vm : vm_map) :
  reachable storage s -> cur_vm s t = Some h -> vms s !! h = Some vm -> heap_brk vm <> 0 -> EXEC_HEAP_VA <= heap_brk vm <= EXEC_HEAP_VA + EXEC_HEAP_SIZE ->
  EXEC_HEAP_VA <= addr <= EXEC_HEAP_VA + EXEC_HEAP_SIZE ->
  exists r s' hi, sys_brk_impl s t addr = (r, s') /\ vms s' !! h = Some (if r =? -1 then vm else vm <| heap_brk := addr |>)
  /\ (r = addr /\ hi = page_round addr \/ r = -1 /\ page_round (heap_brk vm) <= hi < page_round addr /\ free_count (pm (km s')) <= 1)
  /\ forall va, ~ window va -> sees s' h va
      = if decide (page_round (heap_brk vm) <= va < hi) then Some 0 else if decide (page_round addr <= va < page_round (heap_brk vm)) then None else sees s h va.
Proof.
  intros Hr Hc Hv Hb Hbr Ha. destruct (reachable_good storage s Hr) as (m & g & ob & G). pose proof (gd_inv G) as I. pose proof (heap_not_init _ m _ _ _ _ _ _ _ I Hv Hb) as Hne.
  destruct (gd_tree G h vm Hv Hne) as (tr & Ht & _). pose proof (aligned_brk s t addr (ok_aligned _ _ _ _ _ (gd_ok _ _ _ _ _ G))) as A.
  destruct (brk_spec _ m (gd_boot G) s g ob none none t addr h vm tr I Hc Hv Hb Ht Ha) as (r & s' & g' & tr' & E & [I' O' _ _ _] & Ht' & Hv' & Hview). rewrite E in *. cbn [snd] in A.
  pose proof (good_call _ _ _ _ _ _ _ _ _ G I' A O') as G'. destruct (world_count _ m _ _ _ (gd_world G')) as [Hcn _].
  assert (Hvv : exists vm', vms s' !! h = Some vm') by (rewrite Hv'; destruct (r =? -1); eauto). destruct Hvv as [vm' Hvm'].
  assert (Hsee : forall va, ~ window va -> sees s' h va = if decide (0 <= va < 2 ^ 30) then view (mem (pm (km s'))) tr' va else None) by (intros va Hw; by apply (sees_own G' h vm')).
  assert (Hsee0 : forall va, ~ window va -> sees s h va = if decide (0 <= va < 2 ^ 30) then view (mem (pm (km s))) tr va else None) by (intros va Hw; by apply (sees_own G h vm)).
  unfold brk_view in Hview. set (lo := page_round (heap_brk vm)) in *. set (hi := page_round addr) in *. unfold Cheap.EXEC_HEAP_VA, Cheap.EXEC_HEAP_SIZE in *.
  assert (Hlo : 0 <= lo <= 2 ^ 30 /\ lo mod 4096 = 0).
  { unfold lo. rewrite page_round_val by (change (2 ^ 63) with 9223372036854775808; lia). change (2 ^ 30) with 1073741824. Z.to_euclidean_division_equations. lia. }
  assert (Hhi : 0 <= hi <= 2 ^ 30 /\ hi mod 4096 = 0).
  { unfold hi. rewrite page_round_val by (change (2 ^ 63) with 9223372036854775808; lia). change (2 ^ 30) with 1073741824. Z.to_euclidean_division_equations. lia. }
  destruct Hlo as [Hlo Hlm], Hhi as [Hhi Hhm]. destruct (hi >? lo) eqn:Eg; rewrite Z.gtb_ltb in Eg; [apply Z.ltb_lt in Eg|apply Z.ltb_ge in Eg].
  - destruct Hview as (j & Hj & Hvw). set (top := lo + 4096 * Z.of_nat j).
    assert (Htop : lo <= top <= hi /\ top mod 4096 = 0 /\ j = Z.to_nat ((top - lo) / 4096)).
    { unfold top, PAGE_SIZE in *. assert (0 <= (hi - lo) / 4096) by (apply Z.div_pos; lia). assert (Z.of_nat j <= (hi - lo) / 4096) by (destruct Hj as [[_ ->]|(_ & Hj & _)]; lia). split_and!; [lia|Z.to_euclidean_division_equations; lia|Z.to_euclidean_division_equations; lia|].
      replace (lo + 4096 * Z.of_nat j - lo) with (Z.of_nat j * 4096) by lia. rewrite Z.div_mul by lia. lia. }
    destruct Htop as (Ht1 & Ht2 & Ht3). exists r, s', top. split; [done|]. split; [done|]. split.
    + destruct Hj as [[-> Hj]|(-> & Hj & Hl)]; [left|right]; (split; [done|]); [unfold top, PAGE_SIZE in *; Z.to_euclidean_division_equations; lia|].
      split; [|unfold zlen in Hcn; lia]. unfold top, PAGE_SIZE in *. Z.to_euclidean_division_equations. lia.
    + intros va Hw. rewrite Hsee, Hsee0 by done. rewrite (decide_False (P := hi <= va < lo)) by lia. case_decide as Hva.
      * rewrite Hvw, Ht3. pose proof (elem_of_range lo top va ltac:(lia) Hlm Ht2 ltac:(lia) Hva) as Hin. destruct (decide (vpn va ∈ _)) as [Hi|Hi]; [rewrite decide_True by (by apply Hin)|rewrite decide_False by (by rewrite <- Hin)]; done.
      * rewrite decide_False by lia. done.
  - destruct Hview as [-> Hvw]. exists addr, s', hi. split; [done|]. split; [done|]. split; [by left|]. intros va Hw. rewrite Hsee, Hsee0 by done. rewrite (decide_False (P := lo <= va < hi)) by lia. case_decide as Hva.
    + rewrite Hvw. assert (Er : rounds hi lo = Z.to_nat ((lo - hi) / 4096)) by (unfold rounds, PAGE_SIZE; f_equal; Z.to_euclidean_division_equations; lia). rewrite Er.
      pose proof (elem_of_range hi lo va ltac:(lia) Hhm Hlm ltac:(lia) Hva) as Hin. destruct (decide (vpn va ∈ _)) as [Hi|Hi]; [rewrite decide_True by (by apply Hin)|rewrite decide_False by (by rewrite <- Hin)]; done.
    + rewrite decide_False by lia. done.
Qed.

Lemma mmap_size len : 0 < len <= ANON_SIZE -> len <= page_round len < len + 4096 /\ page_round len mod 4096 = 0 /\ mmap_pages len = Z.to_nat (page_round len / 4096).
Proof.
  unfold ANON_SIZE. intros Hlen. unfold mmap_pages. rewrite page_round_val by (change (2 ^ 63) with 9223372036854775808; lia). set (n := len + 4095 - (len + 4095) mod 4096).
  assert (Hn : len <= n < len + 4096 /\ n mod 4096 = 0) by (unfold n; Z.to_euclidean_division_equations; lia). clearbody n. split_and!; [lia|lia|lia|]. f_equal. unfold u32, PAGE_SIZE. apply Z.mod_small. Z.to_euclidean_division_equations. lia.
Qed.

(** The bytes that a mapping has: none of a file, or the rest of the file from [off] on. *)
Definition mmap_data {F} (flags off : Z) (uf : option (file_ops F)) (data : bytes) : Prop :=
  has flags MAP_ANONYMOUS = true /\ data = []
  \/ has flags MAP_ANONYMOUS = false /\ exists ops content R, uf = Some ops /\ file_laws ops content R /\ is_bytes content /\ 0 <= off < 2 ^ 63
     /\ (off > 0 -> exists sk, fo_seek ops = Some sk /\ forall fs o, 0 <= fst (sk fs o 0)) /\ data = drop (Z.to_nat off) content.

(** C19: [mmap] of [len] bytes, at least one and at most the size of the window, gives the next
    pages of its window: for an anonymous mapping zeros, else the bytes of the file from [off]
    on (a file that can seek there, if [off] is not zero), then zeros to the end of the last
    page; all other bytes of the space are as they were.  It fails only for arguments it
    refuses, when the window or the memory is full, or when the file does not open.  See
    [mmap_huge] for lengths near [2 ^ 64]. *)
Theorem mmap_maps {F} (storage : Z) (s : vsys) (fs : F) (t len flags fd off : Z) (uf : option (file_ops F)) (h : Z) (vm : vm_map) (data : bytes) :
  reachable storage s -> cur_vm s t = Some h -> vms s !! h = Some vm -> h <> init_vm_map -> 0 < len <= ANON_SIZE ->
  (anon_next vm = 0 \/ ANON_VA <= anon_next vm <= ANON_VA + ANON_SIZE) -> (forall ops, uf = Some ops -> bounded_reads ops) -> mmap_data flags off uf data ->
  exists r s' fs', sys_mmap_impl s fs t len flags fd off uf = (r, s', fs')
  /\ (r = -1 /\ (mmap_refused vm len flags fd uf \/ free_count (pm (km s')) <= 1 \/ exists ops o fs1, uf = Some ops /\ fo_open ops = Some o /\ o (fo_iget ops fs) = (false, fs1))
      \/ r = mmap_base vm /\ anon_next <$> vms s' !! h = Some (r + page_round len)
         /\ forall va, ~ window va -> sees s' h va
             = if decide (r <= va < r + Z.min (page_round len) (zlen data)) then Some (byte_of data (va - r))
               else if decide (r <= va < r + page_round len) then Some 0 else sees s h va).
Proof.
  intros Hr Hc Hv Hne Hlen Han Hb Hd. destruct (reachable_good storage s Hr) as (m & g & ob & G). pose proof (gd_inv G) as I. pose proof (ok_aligned _ _ _ _ _ (gd_ok _ _ _ _ _ G)) as A.
  destruct (gd_tree G h vm Hv Hne) as (tr & Ht & _). pose proof (A h vm Hv) as Hal.
  destruct (mmap_spec _ m (gd_boot G) s g ob none none fs t len flags fd off uf h vm tr I Hc Hv Hne Ht Hal Hb) as (r & s' & fs' & g' & tr' & vm' & E & [I' O' _ _ _] & Ht' & V' & Ha' & Hres).
  pose proof (good_call _ _ _ _ _ _ _ _ _ G I' (aligned_insert _ _ _ _ A V' Ha') O') as G'. destruct (world_count _ m _ _ _ (gd_world G')) as [Hcn _].
  exists r, s', fs'. split; [done|]. destruct Hres as [[-> Hf]|(-> & Hnx & Hroom & Hview)]; [left; split; [done|]; destruct Hf as [Hf|[Hf|Hf]]; [by left|right; left; unfold zlen in Hcn; lia|auto]|right].
  assert (Hv' : vms s' !! h = Some vm') by (rewrite V'; apply lookup_insert_eq). set (base := mmap_base vm) in *. unfold ANON_SIZE, ANON_VA in *.
  assert (Hbase : 0x22000000 <= base <= 0x2a000000 /\ base mod 4096 = 0). { unfold base, mmap_base, ANON_VA. destruct (anon_next vm =? 0) eqn:E0; [done|]. apply Z.eqb_neq in E0. lia. }
  destruct (mmap_size len Hlen) as (Hpr & Hpm & Hpg). set (n := page_round len) in *. clearbody n. assert (Hu : u64 (base + n) = base + n) by (unfold u64; apply Z.mod_small; lia). rewrite Hu in *.
  split; [done|]. split; [rewrite Hv'; cbn; by rewrite Hnx|]. replace n with (base + n - base) in Hpg by lia.
  assert (Hin : forall va, 0 <= va < 2 ^ 30 -> vpn va ∈ vpns base (mmap_pages len) <-> base <= va < base + n).
  { intros va Hva. rewrite Hpg. apply elem_of_range; [lia|apply Hbase| |change (2 ^ 30) with 1073741824; lia|done]. Z.to_euclidean_division_equations. lia. }
  intros va Hw. rewrite (sees_own G' h vm' tr' va Hv' Hne Ht' Hw), (sees_own G h vm tr va Hv Hne Ht Hw). assert (Hz : 0 <= zlen data) by (unfold zlen; lia).
  destruct (decide (0 <= va < 2 ^ 30)) as [Hva|Hva]; [|change (2 ^ 30) with 1073741824 in Hva; rewrite !decide_False by lia; done].
  unfold mmap_view in Hview. destruct Hd as [[Ea ->]|(Ea & ops & content & R & -> & L & Hby & Hoff & Hsk & ->)]; rewrite Ea in Hview.
  - rewrite Hview. rewrite (decide_False (P := base <= va < base + Z.min n (zlen []))) by (unfold zlen; cbn; lia).
    destruct (decide (vpn va ∈ _)) as [Hi|Hi]; [rewrite decide_True by (by apply Hin)|rewrite decide_False by (by rewrite <- Hin)]; done.
  - destruct Hview as (ops' & [= <-] & Hview). rewrite (Hview content R L Hoff Hsk) by (rewrite ?Hpg, ?Z2Nat.id; change (2 ^ 30) with 1073741824; Z.to_euclidean_division_equations; lia). fold base.
    assert (En : 4096 * Z.of_nat (mmap_pages len) = n) by (rewrite Hpg, Z2Nat.id; Z.to_euclidean_division_equations; lia). rewrite En. case_decide as Hx.
    + f_equal. apply Z.mod_small. apply byte_of_range. unfold is_bytes. by apply Forall_drop.
    + destruct (decide (vpn va ∈ _)) as [Hi|Hi]; [rewrite decide_True by (by apply Hin)|rewrite decide_False by (by rewrite <- Hin)]; done.
Qed.

(** A length in the last page below [2 ^ 64] wraps to no page at all: [mmap] gives an address and
    maps nothing. *)
Lemma mmap_huge {F} (s : vsys) (fs : F) (t len flags fd off : Z) (uf : option (file_ops F)) (h : Z) (vm : vm_map) :
  cur_vm s t = Some h -> vms s !! h = Some vm -> 2 ^ 64 - 4096 < len < 2 ^ 64 -> has flags MAP_ANONYMOUS = true -> 0 <= mmap_base vm <= ANON_VA + ANON_SIZE ->
  exists s', sys_mmap_impl s fs t len flags fd off uf = (mmap_base vm, s', fs) /\ km s' = km s.
Proof.
  intros Hc Hv Hlen Ha Hb. assert (Er : page_round len = 0).
  { unfold page_round, PAGE_SIZE. change (2 ^ 64) with 18446744073709551616 in Hlen. assert (u64 (len + 4096 - 1) = len + 4095 - 18446744073709551616) as ->.
    { unfold u64. replace (len + 4096 - 1) with (len + 4095 - 18446744073709551616 + 1 * 18446744073709551616) by lia. rewrite Z.mod_add by lia. apply Z.mod_small. lia. }
    rewrite page_align_val by (change (2 ^ 64) with 18446744073709551616; lia). rewrite Z.mod_small; lia. }
  unfold sys_mmap_impl. rewrite Hc, Hv, Ha, Er, (proj2 (Z.eqb_neq len 0)) by lia. cbn [negb andb]. unfold mmap_base in *. unfold ANON_VA, ANON_SIZE in *.
  set (vm1 := if anon_next vm =? 0 then _ else vm). assert (Eb : anon_next vm1 = if anon_next vm =? 0 then 570425344 else anon_next vm) by (unfold vm1; by destruct (anon_next vm =? 0)).
  rewrite Eb, Z.add_0_r. rewrite <- Eb in Hb |- *. assert (u64 (anon_next vm1) = anon_next vm1) as -> by (unfold u64; apply Z.mod_small; lia).
  rewrite Z.gtb_ltb, (proj2 (Z.ltb_ge _ _)) by lia. change (Z.to_nat (u32 (0 / PAGE_SIZE))) with O. cbn [vmap_alloc_pages Z.ltb Z.compare].
  eexists. split; [reflexivity|]. cbn. by destruct (km s).
Qed.

(** ** The end of a process *)

(** The maps after the last thread of a process is reaped. *)
Lemma reap_maps s t th pr vm : threads s !! t = Some th -> stack_base th <> 0 -> procs s !! t_proc th = Some pr -> t_proc th <> 0 -> t_proc th <> init_process -> p_refs pr = 1 ->
  vms s !! p_vm pr = Some vm -> p_vm pr <> 0 -> p_vm pr <> init_vm_map -> refs vm = 1 ->
  procs (thread_reap s t) = delete (t_proc th) (procs s) /\ vms (thread_reap s t) = delete (p_vm pr) (vms s).
Proof.
  intros Ht Hst Hp Hp0 Hpi Hr1 Hv Hv0 Hvi Hr2. unfold thread_reap. rewrite Ht, (proj2 (Z.eqb_neq _ _) Hst), (proj2 (Z.eqb_neq _ _) Hp0). cbn [negb]. cbn zeta.
  set (sb := if negb (sig_actions th =? 0) then _ else _). assert (Hs : procs sb = procs s /\ vms sb = vms s) by (unfold sb; by destruct (negb _)). destruct Hs as [E1 E2].
  unfold process_put. rewrite (proj2 (Z.eqb_neq _ _) Hp0), (proj2 (Z.eqb_neq _ _) Hpi), E1, Hp. cbn zeta. change (p_refs (pr <| p_refs := p_refs pr - 1 |>)) with (p_refs pr - 1).
  change (p_vm (pr <| p_refs := p_refs pr - 1 |>)) with (p_vm pr). rewrite Hr1. change (1 - 1 >? 0) with false.
  unfold vm_map_put. rewrite (proj2 (Z.eqb_neq _ _) Hv0), (proj2 (Z.eqb_neq _ _) Hvi), E2, Hv. cbn zeta. change (refs (vm <| refs := refs vm - 1 |>)) with (refs vm - 1). rewrite Hr2.
  change (1 - 1 >? 0) with false. destruct (mmu_vmap_destroy _ _) as [vm' st]. cbn. by rewrite ?E1, ?E2.
Qed.

(** C21: When the last thread of a process that alone has its address space is reaped, the
    thread, the process and the address space are gone and all others stay; the stack of the
    thread and every page of the space, tables included, are free, and every other page
    keeps its type: no page is lost. *)
Theorem reap_releases (storage : Z) (s : vsys) (t : Z) (th : thread) (pr : process) (vm : vm_map) :
  reachable storage s -> threads s !! t = Some th -> procs s !! t_proc th = Some pr -> t_proc th <> init_process -> p_refs pr = 1 ->
  vms s !! p_vm pr = Some vm -> p_vm pr <> init_vm_map -> refs vm = 1 ->
  let s' := thread_reap s t in
  threads s' = delete t (threads s) /\ procs s' = delete (t_proc th) (procs s) /\ vms s' = delete (p_vm pr) (vms s)
  /\ exists kd ob kd' ob', typed storage s kd ob /\ typed storage s' kd' ob'
     /\ forall q, kd' q = if decide (kd q = Some (Kernel t) \/ kd q = Some (User (p_vm pr))) then Some Free else kd q.
Proof.
  intros Hr Ht Hp Hpi Hr1 Hv Hvi Hr2 s'. destruct (reachable_good storage s Hr) as (m & g & ob & G). pose proof (gd_inv G) as I. destruct (gd_statics _ _ _ _ _ G) as [Hiv Hip].
  destruct (thread_reap_spec _ m (gd_boot G) Hiv Hip s g ob none none t th I Ht) as (g' & ob' & pr' & I' & Hp' & T' & _ & S & Hend); [done..|]. assert (pr' = pr) as -> by congruence.
  destruct (Hend vm Hpi Hr1 Hv Hr2 Hvi) as (_ & _ & Hno & [Rk Rf]). assert (Hk : g_kind g (stack_base th) = Some (Kernel t)) by (apply (si_stack _ _ _ _ _ _ _ I); left; eauto).
  assert (Hst : stack_base th <> 0) by (pose proof (w_frame _ _ _ _ _ (si_world _ _ _ _ _ _ _ I) _ _ Hk) as [[Hfr _] _]; lia).
  destruct (reap_maps s t th pr vm Ht Hst Hp (proc_nz _ m Hip I _ _ Hp) Hpi Hr1 Hv (vm_nz _ m Hiv I _ _ Hv) Hvi Hr2) as [E1 E2]. split_and!; [done|done|done|].
  pose proof (good_call _ _ _ _ _ _ _ _ _ G I' (aligned_reap _ _ (ok_aligned _ _ _ _ _ (gd_ok _ _ _ _ _ G))) (spares_others _ _ _ _ _ S)) as G'. destruct S as (_ & _ & Hdom).
  exists (g_kind g), ob, (g_kind g'), ob'. split; [by apply (good_typed storage m)|]. split; [by apply (good_typed storage m)|].
  assert (Hnk : forall q, g_kind g' q <> Some (Kernel t)).
  { intros q [(th' & Hth' & _)|[-> _]]%(si_stack _ _ _ _ _ _ _ I'); [by rewrite T', lookup_delete_eq in Hth'|].
    destruct (live_nz _ m I 0); [|done]. eapply ob_live; [exact I|]. apply (si_othread _ _ _ _ _ _ _ I). by rewrite Ht. }
  intros q. destruct (g_kind g q) as [kd|] eqn:Eq; [|rewrite decide_False by (by intros [?|?]); by apply Hdom].
  case_decide as Hc; [|by apply Rk; [|intros [-> | ->]; apply Hc; auto]].
  destruct (Rf q kd Eq) as [E|E]; [destruct Hc as [[= ->]|[= ->]]; auto| |done].
  destruct Hc as [[= ->]|[= ->]]; [by destruct (Hnk q)|by destruct (Hno q)].
Qed.

End Sees.

(** ** A machine *)

#[local] Instance demo_tables : BootTables :=
  {| l0_table := 0x1000; l1_table := 0x2000; l2_table := 0x3000; l2_table_hi := 0x4000; l1_table_uart := 0x5000; l1_tables_dev := [] |}.
#[local] Instance demo_statics : Statics := {| init_vm_map := 0x6000; init_process := 0x6200 |}.
Definition demo_storage : Z := 0x200000.
Definition demo_ranges : list (Z * Z) := [(0x400000, 0x30000000)].
Definition demo_memory : pmm := mk_pmm ∅ 0 0.
Definition demo_platform : platform := mk_platform 0 0x4010000000 0x8000000 0x80a0000.
Definition demo_start : vsys := kernel_start demo_storage demo_memory demo_platform demo_ranges.

#[local] Opaque ram_pages.

Lemma demo_machine : machine demo_storage demo_memory demo_platform demo_ranges.
Proof.
  destruct (one_range 0x400000 0x30000000) as (Hnd & Hl & Hp); [lia|reflexivity|reflexivity|lia|]. fold demo_ranges in *.
  assert (Hst : forall p, p ∈ statics -> 0x1000 <= p <= 0x5000). { intros p. unfold statics. cbn. rewrite !elem_of_cons, elem_of_nil. lia. }
  constructor.
  - clear. split; [repeat (apply Forall_cons_2; [split; [split|]; done|]); apply Forall_nil_2|]. apply (bool_decide_eq_true_1 (NoDup statics)). vm_compute. reflexivity.
  - clear. split; [split; [discriminate|reflexivity]|reflexivity].
  - clear. split; discriminate.
  - intros x _. reflexivity.
  - clear. split_and!; [reflexivity|apply NoDup_nil_2|apply Forall_nil_2|reflexivity|reflexivity].
  - clear. split_and!; cbn; first [discriminate|reflexivity].
  - split; [exact Hnd|rewrite Hl; reflexivity].
  - split_and!.
    + intros p Hin. destruct (Hp p Hin) as [H1 H2]. unfold demo_storage, USER_SIZE. split; [split; [split; [lia|exact H2]|change (2 ^ 48) with 281474976710656; lia]|]. split; [intros H; apply Hst in H; lia|lia].
    + intros p H. apply Hst in H. unfold demo_storage. lia.
    + intros p Hpp. assert (p = 0x6000) as -> by (destruct Hpp as [->| ->]; reflexivity). split; [intros H; apply Hp in H; lia|intros H; apply Hst in H; lia].
Qed.

Lemma demo_free : free_count (pm (km demo_start)) = 195584.
Proof. unfold demo_start. rewrite (kernel_start_free _ _ _ _ demo_machine). destruct (one_range 0x400000 0x30000000) as (_ & Hl & _); [lia|reflexivity|reflexivity|lia|]. exact Hl. Qed.

#[local] Opaque demo_start.

Lemma demo_reach s : vreach demo_start s -> reachable demo_storage s.
Proof. intros H. exists demo_memory, demo_platform, demo_ranges. split; [apply demo_machine|exact H]. Qed.

(** A program of one segment: four bytes in the file and eight in memory. *)
Definition demo_bytes : bytes :=
  [0x7f; 69; 76; 70; 2; 1; 1; 0; 0; 0; 0; 0; 0; 0; 0; 0; 2; 0; 183; 0; 1; 0; 0; 0; 0; 0; 0; 0x20; 0; 0; 0; 0;
   64; 0; 0; 0; 0; 0; 0; 0; 0; 0; 0; 0; 0; 0; 0; 0; 0; 0; 0; 0; 64; 0; 56; 0; 1; 0; 0; 0; 0; 0; 0; 0]
  ++ [1; 0; 0; 0; 5; 0; 0; 0; 120; 0; 0; 0; 0; 0; 0; 0; 0; 0; 0; 0x20; 0; 0; 0; 0; 0; 0; 0; 0x20; 0; 0; 0; 0;
      4; 0; 0; 0; 0; 0; 0; 0; 8; 0; 0; 0; 0; 0; 0; 0; 0; 16; 0; 0; 0; 0; 0; 0] ++ [1; 2; 3; 4].
Definition demo_prog : image := byte_of demo_bytes.
Definition no_image : image := fun _ => 0.
Definition demo_argv : list bytes := [[104; 105]].

Lemma demo_loadable : loadable no_image 0 no_image demo_prog 124 demo_argv.
Proof. constructor; [vm_compute; reflexivity|vm_compute; reflexivity|vm_compute; reflexivity| |vm_compute; discriminate]. repeat constructor; done. Qed.

Lemma demo_pages : exec_pages no_image no_image demo_prog = 1026.
Proof. vm_compute. reflexivity. Qed.

(** A program runs, the only one of its process. *)
Record running (s : vsys) (t h : Z) (th : thread) (pr : process) (vm : vm_map) : Prop := mk_running {
  rn_reach : reachable demo_storage s;
  rn_thread : threads s !! t = Some th /\ procs s !! t_proc th = Some pr /\ p_vm pr = h /\ p_refs pr = 1 /\ t_proc th <> init_process;
  rn_space : cur_vm s t = Some h /\ vms s !! h = Some vm /\ h <> init_vm_map /\ refs vm = 1 /\ heap_brk vm = EXEC_HEAP_VA /\ anon_next vm = 0;
  rn_free : 194500 <= free_count (pm (km s)) }.

Lemma demo_running : exists s t h th pr vm, running s t h th pr vm.
Proof.
  destruct (exec_total demo_storage demo_start 0 no_image 0 no_image demo_prog 124 demo_argv (demo_reach _ (vreach_here _)) demo_loadable)
    as (c & s' & a & sp & vm & f & E & [(C1 & C2 & C3) (stack & p & T' & Pn & P') (V1 & V2 & V3 & V4 & V5) _ _ _ _] & Hc).
  { rewrite demo_pages, demo_free. lia. }
  destruct (reachable_good _ _ (demo_reach _ (vreach_here _))) as (m & g & ob & G). rewrite demo_pages, demo_free in Hc. exists s', c, a, (mk_thread stack p 0), (mk_process (next_pid demo_start) a 0 0 1), vm. constructor.
  - apply demo_reach. assert (s' = snd (sys_execve_impl no_image 0 no_image demo_start 0 demo_prog 124 demo_argv)) as -> by (by rewrite E). eapply vreach_step; [apply vreach_here|apply v_exec].
  - split_and!; [rewrite T'; apply lookup_insert_eq|rewrite P'; apply lookup_insert_eq|reflexivity|reflexivity|]. cbn [t_proc]. intros ->. destruct (si_init_proc _ _ _ _ _ _ _ (gd_inv G)) as (pr1 & H1 & _). congruence.
  - split_and!; [exact C3|rewrite V2; apply lookup_insert_eq| |exact V3|exact V4|exact V5]. intros ->. destruct (si_init_vm _ _ _ _ _ _ _ (gd_inv G)) as (vm1 & Hv1 & _). congruence.
  - lia.
Qed.

Lemma pages_typed_witness : exists kd ob, typed demo_storage demo_start kd ob.
Proof. exact (pages_typed demo_storage demo_start (demo_reach _ (vreach_here _))). Defined.

Lemma memory_isolated_witness : exists s t h th pr vm, running s t h th pr vm
  /\ let s' := snd (thread_create s t) in vms s' !! h = Some vm /\ forall va, ~ window va -> sees s' h va = sees s h va.
Proof.
  destruct demo_running as (s & t & h & th & pr & vm & R). exists s, t, h, th, pr, vm. split; [exact R|].
  exact (memory_isolated demo_storage s (snd (thread_create s t)) None h vm (rn_reach _ _ _ _ _ _ R) (v_thread s t) ltac:(discriminate) (proj1 (proj2 (rn_space _ _ _ _ _ _ R)))).
Defined.

Lemma references_counted_witness : exists s t h th pr vm, running s t h th pr vm /\ count (fun th' => t_proc th' =? t_proc th) (threads s) = 1 /\ count (fun pr' => p_vm pr' =? h) (procs s) = 1.
Proof.
  destruct demo_running as (s & t & h & th & pr & vm & R). exists s, t, h, th, pr, vm. split; [exact R|]. destruct R as [R1 (T1 & T2 & T3 & T4 & T5) (S1 & S2 & S3 & S4 & _) _].
  destruct (references_counted demo_storage s R1) as (_ & _ & Hp & Hv). rewrite <- T4 at 1. rewrite <- S4 at 1. split; symmetry; [apply (Hp _ _ T2 T5)|apply (Hv _ _ S2 S3)].
Defined.

Lemma execve_loads_witness : exists c s' a sp vm f, sys_execve_impl no_image 0 no_image demo_start 0 demo_prog 124 demo_argv = (c, s')
  /\ exec_result demo_start s' 0 c a sp vm no_image no_image demo_prog demo_argv f.
Proof. apply (execve_loads demo_storage demo_start 0 no_image 0 no_image demo_prog 124 demo_argv (demo_reach _ (vreach_here _)) demo_loadable). rewrite demo_pages, demo_free. lia. Defined.

Lemma fork_pages_val : fork_pages = 79360.
Proof. vm_compute. reflexivity. Qed.

Lemma fork_copies_witness : exists s t h th pr vm, running s t h th pr vm /\ exists ct s' c cvm, sys_fork_impl s t EXEC_VA = (ct, s') /\ ct <> 0 /\ forked vm cvm
  /\ forall va, ~ window va -> sees s' c va = if cloned va then sees s h va else None.
Proof.
  destruct demo_running as (s & t & h & th & pr & vm & R). exists s, t, h, th, pr, vm. split; [exact R|]. destruct R as [R1 _ (S1 & S2 & S3 & S4 & S5 & S6) R4].
  destruct (fork_copies demo_storage s t EXEC_VA h vm R1 S1 S2) as (ct & s' & c & cvm & E & H1 & _ & _ & _ & _ & H2 & H3 & _); [unfold may_fork; rewrite S5; reflexivity|rewrite fork_pages_val; lia|].
  exists ct, s', c, cvm. exact (conj E (conj H1 (conj H2 H3))).
Defined.

Lemma brk_moves_witness : exists s t h th pr vm, running s t h th pr vm /\ exists r s' hi, sys_brk_impl s t (EXEC_HEAP_VA + 8192) = (r, s')
  /\ (r = EXEC_HEAP_VA + 8192 /\ hi = page_round (EXEC_HEAP_VA + 8192) \/ r = -1 /\ page_round (heap_brk vm) <= hi < page_round (EXEC_HEAP_VA + 8192) /\ free_count (pm (km s')) <= 1).
Proof.
  destruct demo_running as (s & t & h & th & pr & vm & R). exists s, t, h, th, pr, vm. split; [exact R|]. destruct R as [R1 _ (S1 & S2 & S3 & S4 & S5 & S6) R4].
  destruct (brk_moves demo_storage s t (EXEC_HEAP_VA + 8192) h vm R1 S1 S2) as (r & s' & hi & E & _ & H & _); [rewrite S5; discriminate|rewrite S5; split; discriminate|split; discriminate|].
  exists r, s', hi. exact (conj E H).
Defined.

(** A file of two bytes; its state is what is left to read. *)
Definition demo_content : bytes := [72; 105].
Definition demo_file : file_ops bytes := {|
  fo_open := Some (fun _ => (true, demo_content));
  fo_seek := Some (fun _ o _ => (Z.max 0 o, drop (Z.to_nat o) demo_content));
  fo_read := fun fs n => if n <? 0 then (None, fs) else (Some (take (Z.to_nat n) fs), drop (Z.to_nat n) fs);
  fo_close := None; fo_iget := fun fs => fs; fo_iput := fun fs => fs |}.

Lemma demo_file_laws : bounded_reads demo_file /\ file_laws demo_file demo_content (fun fs rest => fs = rest).
Proof.
  assert (Ht : forall (l : bytes) n, 0 <= n -> zlen (take (Z.to_nat n) l) <= n) by (intros l n Hn; unfold zlen, bytes; rewrite length_take; lia). split; [|split].
  - intros fs n b fs'. cbn. destruct (n <? 0) eqn:E; [done|]. apply Z.ltb_ge in E. intros [= <- <-]. by apply Ht.
  - intros fs rest n Hn ->. exists (take (Z.to_nat n) rest), (drop (Z.to_nat n) rest), (drop (Z.to_nat n) rest). cbn. rewrite (proj2 (Z.ltb_ge n 0)) by lia. split_and!; [done|by rewrite take_drop|apply Ht; lia| |done].
    destruct rest as [|x rest]; [done|]. destruct (Z.to_nat n) eqn:E; [lia|done].
  - intros fs fs' [= <-]. done.
  - intros fs sk off r fs' [= <-] _ [= <- <-] _ _. done.
Qed.

Lemma mmap_maps_witness : exists s t h th pr vm, running s t h th pr vm /\ exists r s' fs', sys_mmap_impl s [] t 4096 MAP_PRIVATE 3 1 (Some demo_file) = (r, s', fs')
  /\ (r = -1 /\ (mmap_refused vm 4096 MAP_PRIVATE 3 (Some demo_file) \/ free_count (pm (km s')) <= 1
         \/ exists ops o fs1, Some demo_file = Some ops /\ fo_open ops = Some o /\ o (fo_iget ops []) = (false, fs1))
      \/ r = mmap_base vm /\ anon_next <$> vms s' !! h = Some (r + page_round 4096)
         /\ forall va, ~ window va -> sees s' h va = if decide (r <= va < r + Z.min (page_round 4096) (zlen [105])) then Some (byte_of [105] (va - r))
                                       else if decide (r <= va < r + page_round 4096) then Some 0 else sees s h va).
Proof.
  destruct demo_running as (s & t & h & th & pr & vm & R). exists s, t, h, th, pr, vm. split; [exact R|]. destruct R as [R1 _ (S1 & S2 & S3 & S4 & S5 & S6) R4]. destruct demo_file_laws as [L1 L2].
  apply (mmap_maps demo_storage s [] t 4096 MAP_PRIVATE 3 1 (Some demo_file) h vm [105] R1 S1 S2 S3); [unfold ANON_SIZE; lia|by left|by intros ops [= <-]|].
  right. split; [reflexivity|]. exists demo_file, demo_content, (fun fs rest => fs = rest). split_and!; [done|exact L2|repeat constructor; done|lia|lia| |reflexivity].
  intros _. eexists. split; [reflexivity|]. intros fs o. cbn. lia.
Defined.

Lemma reap_releases_witness : exists s t h th pr vm, running s t h th pr vm /\ threads (thread_reap s t) = delete t (threads s)
  /\ procs (thread_reap s t) = delete (t_proc th) (procs s) /\ vms (thread_reap s t) = delete h (vms s)
  /\ exists kd ob kd' ob', typed demo_storage s kd ob /\ typed demo_storage (thread_reap s t) kd' ob'
     /\ forall q, kd' q = if decide (kd q = Some (Kernel t) \/ kd q = Some (User h)) then Some Free else kd q.
Proof.
  destruct demo_running as (s & t & h & th & pr & vm & R). exists s, t, h, th, pr, vm. split; [exact R|]. destruct R as [R1 (T1 & T2 & T3 & T4 & T5) (S1 & S2 & S3 & S4 & _) _].
  destruct (reap_releases demo_storage s t th pr vm R1 T1 T2 T5 T4) as (H1 & H2 & H3 & H4); [by rewrite T3|by rewrite T3|exact S4|]. rewrite <- T3. exact (conj H1 (conj H2 (conj H3 H4))).
Defined.

End VmThm.
