(* ===== verification/Signal.v ===== *)
(** * Signals: [uts/os/proc/signal.c], [uts/os/core/uaccess.c] and the trap paths to them

    A thread's part that signals use, its trap frame and the memory of its program; copies
    between the kernel and the program; [sigaction], [sigprocmask], [sigsuspend], the
    delivery of signals at the return to the program, the frame that a handler runs on and
    its way back with [sigreturn].

    The kernel copies with its own accesses.  At an address that [user_ptr_ok] accepts and
    that the program has not mapped it goes astray: where the program has a level 3 table for
    the 2 MB around it, the kernel faults and panics; elsewhere its access reaches what the
    boot map has there, a device.  The model ends at such an access. *)

From stdpp Require Import base numbers list gmap.
From Stdlib Require Import ZArith Lia Bool.
From S2P Require Import Prelude.

Module Signal.

(** ** Data *)

Definition SIGKILL : Z := 9.
Definition SIGSEGV : Z := 11.
Definition NSIG : Z := 32.
Definition SIGBIT (n : Z) : Z := Z.shiftl 1 (n - 1).

(** HUP, INT, QUIT, KILL, PIPE, TERM, SEGV, ABRT. *)
Definition SIG_FATAL_MASK : Z :=
  Z.lor (SIGBIT 1) (Z.lor (SIGBIT 2) (Z.lor (SIGBIT 3) (Z.lor (SIGBIT 9) (Z.lor (SIGBIT 13) (Z.lor (SIGBIT 15) (Z.lor (SIGBIT 11) (SIGBIT 6))))))).

Definition SIG_DFL : Z := 0.
Definition SIG_IGN : Z := 1.
Definition SIG_BLOCK : Z := 0.
Definition SIG_UNBLOCK : Z := 1.
Definition SIG_SETMASK : Z := 2.
Definition SA_RESETHAND : Z := 4.

Record sigaction_k := mk_sigaction { sa_handler : Z; sa_mask : Z; sa_flags : Z }.
#[export] Instance sigaction_rebuild : Rebuild sigaction_k := rpure mk_sigaction <:> sa_handler <:> sa_mask <:> sa_flags.

(** The fields of [struct kthread] that signals use; [sig_actions] is null until the first
    [sigaction]. *)
Record sigthread := mk_sigthread {
  sig_pending : Z;
  sig_mask : Z;
  sig_saved_mask : Z;
  sig_mask_save_pending : bool;
  sig_actions : option (list sigaction_k);
  tid : Z;
  t_pgrp : Z;
  t_session : Z }.
#[export] Instance sigthread_rebuild : Rebuild sigthread :=
  rpure mk_sigthread <:> sig_pending <:> sig_mask <:> sig_saved_mask <:> sig_mask_save_pending <:> sig_actions <:> tid <:> t_pgrp <:> t_session.

Record trap_frame := mk_trap_frame { x : list Z; sp_el0 : Z; elr : Z; spsr : Z; esr : Z; far : Z }.
#[export] Instance trap_frame_rebuild : Rebuild trap_frame := rpure mk_trap_frame <:> x <:> sp_el0 <:> elr <:> spsr <:> esr <:> far.

(** The bytes of the program, where it has pages. *)
Definition umem := Z -> option Z.

(** How a path through the kernel ends: back to the program, with the thread's exit, or
    with an access of the kernel to memory that the program does not have. *)
Inductive outcome (A : Type) := Done (a : A) | Killed (status : Z) | Stray.
#[global] Arguments Done {A}.
#[global] Arguments Killed {A}.
#[global] Arguments Stray {A}.

Definition bind {A B} (r : outcome A) (f : A -> outcome B) : outcome B :=
  match r with Done a => f a | Killed n => Killed n | Stray => Stray end.
#[local] Notation "'let!' p := e 'in' f" := (bind e (fun p => f)) (at level 200, p name, e at level 200, f at level 200).

(** ** Copies *)

Definition windows : list (Z * Z) :=
  [(0x10000000, 0x00200000); (0x20000000, 0x01600000); (0x22000000, 0x08000000); (0x30000000, 0x00100000); (0x38000000, 0x00200000); (0x39000000, 0x00200000)].

Definition user_ptr_ok (p n : Z) : bool :=
  if p + n >=? 2 ^ 64 then false
  else
    let end_ := if n =? 0 then p + 1 else p + n in
    existsb (fun w => (p >=? fst w) && (end_ <=? fst w + snd w)) windows.

(** [n] bytes from [a] on; [None] if one is not mapped. *)
Fixpoint load_bytes (n : nat) (m : umem) (a : Z) : option bytes :=
  match n with
  | O => Some []
  | S n => match m a, load_bytes n m (a + 1) with Some b, Some bs => Some (b :: bs) | _, _ => None end
  end.
Fixpoint store_bytes (bs : bytes) (m : umem) (a : Z) : option umem :=
  match bs with
  | [] => Some m
  | b :: bs => match m a with Some _ => store_bytes bs (fun y => if y =? a then Some b else m y) (a + 1) | None => None end
  end.

(** [None] is [-1]. *)
Definition copy_from_user (m : umem) (a n : Z) : outcome (option bytes) :=
  if negb (user_ptr_ok a n) then Done None
  else match load_bytes (Z.to_nat n) m a with Some bs => Done (Some bs) | None => Stray end.
Definition copy_to_user (m : umem) (a : Z) (bs : bytes) : outcome (option umem) :=
  if negb (user_ptr_ok a (zlen bs)) then Done None
  else match store_bytes bs m a with Some m => Done (Some m) | None => Stray end.

(** Words in memory, lowest byte first. *)
Fixpoint to_bytes (n : nat) (w : Z) : bytes := match n with O => [] | S n => w mod 256 :: to_bytes n (w / 256) end.
Fixpoint of_bytes (bs : bytes) : Z := match bs with [] => 0 | b :: bs => b + 256 * of_bytes bs end.
Definition field (bs : bytes) (off len : nat) : Z := of_bytes (take len (drop off bs)).

(** ** System calls *)

Definition no_action : sigaction_k := mk_sigaction 0 0 0.
Definition action (t : sigthread) (sig : Z) : sigaction_k :=
  match sig_actions t with Some l => default no_action (l !! Z.to_nat sig) | None => no_action end.
Definition set_action (t : sigthread) (sig : Z) (a : sigaction_k) : sigthread :=
  match sig_actions t with Some l => t <| sig_actions := Some (<[Z.to_nat sig := a]> l) |> | None => t end.

Definition SIZEOF_SIGACTION : Z := 16.
Definition action_bytes (a : sigaction_k) : bytes := to_bytes 8 (sa_handler a) ++ to_bytes 4 (sa_mask a) ++ to_bytes 4 (sa_flags a).
Definition bytes_action (bs : bytes) : sigaction_k := mk_sigaction (field bs 0 8) (field bs 8 4) (field bs 12 4).

(** The target's part of [kthread_signal]; waking it is in Sched.v. *)
Definition kthread_signal (t : sigthread) (sig : Z) : Z * sigthread :=
  if (sig =? 0) || (sig >=? NSIG) then (-1, t) else (0, t <| sig_pending := Z.lor (sig_pending t) (SIGBIT sig) |>).

(** [ts] are the threads that [kthread_find] finds. *)
Definition sys_kill_impl (ts : gmap Z sigthread) (tid sig : Z) : Z * gmap Z sigthread :=
  if (tid <=? 0) || (sig <? 0) || (sig >=? NSIG) then (-1, ts)
  else
    match ts !! tid with
    | None => (-1, ts)
    | Some t => if sig =? 0 then (0, ts) else let '(r, t) := kthread_signal t sig in (r, <[tid := t]> ts)
    end.

(** [got]: [kmalloc] had a block for the table. *)
Definition sys_sigaction_impl (got : bool) (t : sigthread) (m : umem) (sig uact uoldact : Z) : outcome (Z * sigthread * umem) :=
  if (sig <=? 0) || (sig >=? NSIG) then Done (-1, t, m)
  else if sig =? SIGKILL then Done (-1, t, m)
  else if bool_decide (sig_actions t = None) && negb got then Done (-1, t, m)
  else
    let t := if bool_decide (sig_actions t = None) then t <| sig_actions := Some (replicate (Z.to_nat NSIG) no_action) |> else t in
    let old := action t sig in
    let give t :=
      if uoldact =? 0 then Done (0, t, m)
      else let! om := copy_to_user m uoldact (action_bytes old) in match om with None => Done (-1, t, m) | Some m => Done (0, t, m) end in
    if uact =? 0 then give t
    else let! ob := copy_from_user m uact SIZEOF_SIGACTION in match ob with None => Done (-1, t, m) | Some bs => give (set_action t sig (bytes_action bs)) end.

Definition not32 (z : Z) : Z := u32 (Z.lnot z).

Definition sys_sigprocmask_impl (t : sigthread) (m : umem) (how uset uoldset : Z) : outcome (Z * sigthread * umem) :=
  let old := sig_mask t in
  let! om := if uoldset =? 0 then Done (Some m) else copy_to_user m uoldset (to_bytes 4 old) in
  match om with
  | None => Done (-1, t, m)
  | Some m =>
      if uset =? 0 then Done (0, t, m)
      else
        let! ob := copy_from_user m uset 4 in
        match ob with
        | None => Done (-1, t, m)
        | Some bs =>
            let set := Z.land (field bs 0 4) (not32 (SIGBIT SIGKILL)) in
            if how =? SIG_BLOCK then Done (0, t <| sig_mask := Z.lor old set |>, m)
            else if how =? SIG_UNBLOCK then Done (0, t <| sig_mask := Z.land old (not32 set) |>, m)
            else if how =? SIG_SETMASK then Done (0, t <| sig_mask := set |>, m)
            else Done (-1, t, m)
        end
  end.

(** [sigsuspend] up to its loop, and the loop's condition to go on; it returns -1. *)
Definition sigsuspend_enter (t : sigthread) (mask : Z) : sigthread :=
  t <| sig_saved_mask := sig_mask t |> <| sig_mask_save_pending := true |> <| sig_mask := Z.land mask (not32 (SIGBIT SIGKILL)) |>.
Definition sigsuspend_wakes (t : sigthread) : bool := negb (Z.land (sig_pending t) (not32 (sig_mask t)) =? 0).

Definition sys_setpgid_impl (ts : gmap Z sigthread) (cur pid pgid : Z) : Z * gmap Z sigthread :=
  let k := if pid =? 0 then cur else pid in
  match ts !! k with
  | None => (-1, ts)
  | Some t => if pgid <? 0 then (-1, ts) else (0, <[k := t <| t_pgrp := if pgid =? 0 then tid t else pgid |>]> ts)
  end.
Definition sys_setsid_impl (t : sigthread) : Z * sigthread := (tid t, t <| t_session := tid t |> <| t_pgrp := tid t |>).

(** ** Handlers *)

Record sigframe := mk_sigframe { trampoline : Z * Z; signo : Z; saved_mask : Z; saved_x : list Z; saved_sp_el0 : Z; saved_elr : Z; saved_spsr : Z }.
Definition SIZEOF_SIGFRAME : Z := 288.
Definition frame_bytes (fr : sigframe) : bytes :=
  to_bytes 4 (fst (trampoline fr)) ++ to_bytes 4 (snd (trampoline fr)) ++ to_bytes 4 (signo fr) ++ to_bytes 4 (saved_mask fr)
  ++ (saved_x fr ≫= to_bytes 8) ++ to_bytes 8 (saved_sp_el0 fr) ++ to_bytes 8 (saved_elr fr) ++ to_bytes 8 (saved_spsr fr).
Definition bytes_frame (bs : bytes) : sigframe :=
  mk_sigframe (field bs 0 4, field bs 4 4) (field bs 8 4) (field bs 12 4) ((fun i => field bs (16 + 8 * i) 8) <$> seq 0 31)
    (field bs 264 8) (field bs 272 8) (field bs 280 8).

Definition MOVZ_X8_SIGRETURN : Z := 0xD28002E8.
Definition SVC_0 : Z := 0xD4000001.

(** [None] is [-1]. *)
Definition sendsig (t : sigthread) (tf : trap_frame) (m : umem) (sig handler : Z) : outcome (option (sigthread * trap_frame * umem)) :=
  let sp := sp_el0 tf in
  if sp <? SIZEOF_SIGFRAME then Done None
  else
    let sp := Z.land (sp - SIZEOF_SIGFRAME) (u64 (Z.lnot 15)) in
    if negb (user_ptr_ok sp SIZEOF_SIGFRAME) then Done None
    else
      let '(mask, t) := if sig_mask_save_pending t then (sig_saved_mask t, t <| sig_mask_save_pending := false |>) else (sig_mask t, t) in
      let fr := mk_sigframe (MOVZ_X8_SIGRETURN, SVC_0) (u32 sig) mask (x tf) (sp_el0 tf) (elr tf) (spsr tf) in
      let! om := copy_to_user m sp (frame_bytes fr) in
      match om with
      | None => Done None
      | Some m => Done (Some (t, tf <| x := <[30%nat := sp]> (<[0%nat := u32 sig]> (x tf)) |> <| elr := handler |> <| sp_el0 := sp |>, m))
      end.

Definition sys_sigreturn_impl (t : sigthread) (tf : trap_frame) (m : umem) : outcome (Z * sigthread * trap_frame) :=
  let sp := sp_el0 tf in
  if negb (user_ptr_ok sp SIZEOF_SIGFRAME) then Done (-1, t, tf)
  else
    let! ob := copy_from_user m sp SIZEOF_SIGFRAME in
    match ob with
    | None => Done (-1, t, tf)
    | Some bs =>
        let fr := bytes_frame bs in
        let tf := tf <| x := saved_x fr |> <| sp_el0 := saved_sp_el0 fr |> <| elr := saved_elr fr |> <| spsr := saved_spsr fr |> in
        Done (nth 0 (x tf) 0, t <| sig_mask := saved_mask fr |>, tf)
    end.

(** The system call: [tf->x[0] = sys_sigreturn_impl (tf)], and no check for signals. *)
Definition svc_sigreturn (t : sigthread) (tf : trap_frame) (m : umem) : outcome (sigthread * trap_frame) :=
  let! r := sys_sigreturn_impl t tf m in let '(v, t, tf) := r in Done (t, tf <| x := <[0%nat := u64 v]> (x tf) |>).

(** ** Delivery *)

Definition deliverable (t : sigthread) : Z := Z.lor (Z.land (sig_pending t) (not32 (sig_mask t))) (Z.land (sig_pending t) (SIGBIT SIGKILL)).

(** [for (sig = 1; sig < NSIG; sig++) if (deliverable & SIGBIT (sig)) break], with [n] to go. *)
Fixpoint lowest (n : nat) (sig d : Z) : Z :=
  match n with
  | O => sig
  | S n => if negb (Z.land d (SIGBIT sig) =? 0) then sig else lowest n (sig + 1) d
  end.

Definition handler_of (t : sigthread) (sig : Z) : Z := if sig =? SIGKILL then SIG_DFL else sa_handler (action t sig).

(** The call of a handler at the end of the loop's body. *)
Definition call_handler (t : sigthread) (tf : trap_frame) (m : umem) (sig : Z) : outcome (sigthread * trap_frame * umem) :=
  let a := action t sig in
  let! r := sendsig t tf m sig (handler_of t sig) in
  match r with
  | None => Killed (-1)
  | Some (t, tf, m) =>
      let t := if negb (Z.land (sa_flags a) SA_RESETHAND =? 0) then set_action t sig ((action t sig) <| sa_handler := SIG_DFL |>) else t in
      Done (t <| sig_mask := Z.lor (sig_mask t) (Z.lor (sa_mask a) (SIGBIT sig)) |>, tf, m)
  end.

(** A round takes a pending signal away, so [NSIG] rounds are enough.  In the code that is a load
    and a store without the lock of [kthread_signal]; this is the pass in which no signal is
    posted by another CPU. *)
Fixpoint check_loop (f : nat) (t : sigthread) (tf : trap_frame) (m : umem) : outcome (sigthread * trap_frame * umem) :=
  match f with
  | O => Done (t, tf, m)
  | S f =>
      let d := deliverable t in
      if d =? 0 then
        Done (if sig_mask_save_pending t then t <| sig_mask := sig_saved_mask t |> <| sig_mask_save_pending := false |> else t, tf, m)
      else
        let sig := lowest 31 1 d in
        if sig >=? NSIG then Done (t, tf, m)
        else
          let t := t <| sig_pending := Z.land (sig_pending t) (not32 (SIGBIT sig)) |> in
          let h := handler_of t sig in
          if h =? SIG_DFL then if negb (Z.land SIG_FATAL_MASK (SIGBIT sig) =? 0) then Killed (-1) else check_loop f t tf m
          else if h =? SIG_IGN then check_loop f t tf m
          else call_handler t tf m sig
  end.
Definition check_signals : sigthread -> trap_frame -> umem -> outcome (sigthread * trap_frame * umem) := check_loop 32.

(** A fault of the program. *)
Definition user_fault (t : sigthread) (tf : trap_frame) (m : umem) : outcome (sigthread * trap_frame * umem) :=
  let h := sa_handler (action t SIGSEGV) in
  let t := if negb (h =? SIG_DFL) && negb (h =? SIG_IGN) then set_action t SIGSEGV ((action t SIGSEGV) <| sa_flags := Z.lor (sa_flags (action t SIGSEGV)) SA_RESETHAND |>) else t in
  check_signals (t <| sig_pending := Z.lor (sig_pending t) (SIGBIT SIGSEGV) |>) tf m.

End Signal.
