(* ===== verification/SignalThm.v ===== *)
(** * Signals: the properties

    Which signal is delivered and what becomes of the others, that a handler's return gives
    the program back its state, and what blocks and what does not. *)

From stdpp Require Import base numbers list gmap.
From Stdlib Require Import ZArith Lia Bool.
From S2P Require Import Prelude Signal.

Module SignalThm.
Import Signal.

(** ** Bytes *)

Lemma to_bytes_length n : forall w, length (to_bytes n w) = n.
Proof. induction n as [|n IH]; intros w; cbn; [done|by rewrite IH]. Qed.

Lemma of_to_bytes n : forall w, of_bytes (to_bytes n w) = w mod 256 ^ Z.of_nat n.
Proof.
  induction n as [|n IH]; intros w; cbn [to_bytes of_bytes]; [by rewrite Z.mod_1_r|]. rewrite IH, Nat2Z.inj_succ, Z.pow_succ_r by lia.
  rewrite Z.rem_mul_r by lia. lia.
Qed.

(** A word behind [a] bytes. *)
Lemma field_word (l1 l2 : bytes) off n w : length l1 = off -> 0 <= w < 256 ^ Z.of_nat n -> field (l1 ++ to_bytes n w ++ l2) off n = w.
Proof.
  intros <- Hw. unfold field. rewrite drop_app_length. rewrite take_app_le by (rewrite to_bytes_length; lia). rewrite take_ge by (rewrite to_bytes_length; lia).
  rewrite of_to_bytes. by apply Z.mod_small.
Qed.

Lemma words_length (ws : list Z) : length (ws ≫= to_bytes 8) = (8 * length ws)%nat.
Proof. induction ws as [|w ws IH]; [done|]. rewrite bind_cons, length_app, to_bytes_length, IH. cbn. lia. Qed.

Definition is_u64 (z : Z) : Prop := 0 <= z < 2 ^ 64.
Definition is_u32 (z : Z) : Prop := 0 <= z < 2 ^ 32.

Lemma words_fields (l1 l2 : bytes) (ws : list Z) off : length l1 = off -> Forall is_u64 ws ->
  (fun i => field (l1 ++ (ws ≫= to_bytes 8) ++ l2) (off + 8 * i) 8) <$> seq 0 (length ws) = ws.
Proof.
  revert l1 off. induction ws as [|w ws IH]; intros l1 off Hl Hw; [done|]. apply Forall_cons in Hw as [H1 H2]. rewrite bind_cons. cbn [length seq fmap list_fmap]. f_equal.
  - rewrite Nat.mul_0_r, Nat.add_0_r, <- app_assoc. by apply field_word.
  - rewrite <- seq_shift. change (fun i => ?f i) with f. rewrite <- list_fmap_compose.
    rewrite <- (IH (l1 ++ to_bytes 8 w) (off + 8)%nat) at 2; [|by rewrite length_app, to_bytes_length, Hl|done]. apply list_fmap_ext. intros i k _. cbn.
    rewrite <- !app_assoc. f_equal. lia.
Qed.

Record frame_ok (fr : sigframe) : Prop := mk_frame_ok {
  fk_tramp : is_u32 (fst (trampoline fr)) /\ is_u32 (snd (trampoline fr));
  fk_small : is_u32 (signo fr) /\ is_u32 (saved_mask fr);
  fk_x : length (saved_x fr) = 31%nat /\ Forall is_u64 (saved_x fr);
  fk_sys : is_u64 (saved_sp_el0 fr) /\ is_u64 (saved_elr fr) /\ is_u64 (saved_spsr fr) }.

Lemma frame_length fr : frame_ok fr -> zlen (frame_bytes fr) = SIZEOF_SIGFRAME.
Proof. intros [_ _ [Hx _] _]. unfold zlen, frame_bytes. rewrite !length_app, !to_bytes_length, words_length, Hx. done. Qed.

(** What [sendsig] writes, [sigreturn] reads. *)
Lemma frame_roundtrip fr : frame_ok fr -> bytes_frame (frame_bytes fr) = fr.
Proof.
  intros [[T1 T2] [S1 S2] [X1 X2] (Y1 & Y2 & Y3)]. destruct fr as [[a b] sg mk xs sp el ps]. cbn [fst snd trampoline signo saved_mask saved_x saved_sp_el0 saved_elr saved_spsr] in *. unfold bytes_frame, frame_bytes.
  cbn [fst snd trampoline signo saved_mask saved_x saved_sp_el0 saved_elr saved_spsr]. set (W := xs ≫= to_bytes 8). assert (HW : length W = 248%nat) by (unfold W; rewrite words_length, X1; done).
  f_equal.
  - f_equal; [by apply (field_word [])|]. rewrite (app_assoc (to_bytes 4 a)). by rewrite <- app_assoc; apply field_word.
  - rewrite (app_assoc (to_bytes 4 a)). apply field_word; [by rewrite length_app, !to_bytes_length|done].
  - rewrite (app_assoc (to_bytes 4 a)), (app_assoc (_ ++ _) (to_bytes 4 sg)). apply field_word; [by rewrite !length_app, !to_bytes_length|done].
  - rewrite (app_assoc (to_bytes 4 a)), (app_assoc (_ ++ _) (to_bytes 4 sg)), (app_assoc (_ ++ _) (to_bytes 4 mk)). rewrite <- X1. apply words_fields; [by rewrite !length_app, !to_bytes_length|done].
  - rewrite (app_assoc (to_bytes 4 a)), (app_assoc (_ ++ _) (to_bytes 4 sg)), (app_assoc (_ ++ _) (to_bytes 4 mk)), (app_assoc (_ ++ _) W). apply field_word; [by rewrite !length_app, !to_bytes_length, HW|done].
  - rewrite (app_assoc (to_bytes 4 a)), (app_assoc (_ ++ _) (to_bytes 4 sg)), (app_assoc (_ ++ _) (to_bytes 4 mk)), (app_assoc (_ ++ _) W), (app_assoc (_ ++ _) (to_bytes 8 sp)).
    apply field_word; [by rewrite !length_app, !to_bytes_length, HW|done].
  - rewrite (app_assoc (to_bytes 4 a)), (app_assoc (_ ++ _) (to_bytes 4 sg)), (app_assoc (_ ++ _) (to_bytes 4 mk)), (app_assoc (_ ++ _) W), (app_assoc (_ ++ _) (to_bytes 8 sp)), (app_assoc (_ ++ _) (to_bytes 8 el)).
    rewrite <- (app_nil_r (to_bytes 8 ps)). apply field_word; [by rewrite !length_app, !to_bytes_length, HW|done].
Qed.

(** ** Copies *)

Lemma store_spec bs : forall m a m', store_bytes bs m a = Some m' ->
  forall y, m' y = if decide (a <= y < a + zlen bs) then Some (nth (Z.to_nat (y - a)) bs 0) else m y.
Proof.
  induction bs as [|b bs IH]; intros m a m' H y; cbn [store_bytes] in H.
  { injection H as <-. rewrite decide_False by (unfold zlen; cbn; lia). done. }
  destruct (m a); [|done]. rewrite (IH _ _ _ H y). unfold zlen. cbn [length]. destruct (decide (a + 1 <= y < a + 1 + Z.of_nat (length bs))) as [Hy|Hy].
  - rewrite decide_True by lia. f_equal. replace (Z.to_nat (y - a)) with (S (Z.to_nat (y - (a + 1)))) by lia. done.
  - destruct (y =? a) eqn:E; [apply Z.eqb_eq in E as ->; rewrite decide_True by lia; rewrite Z.sub_diag; done|]. apply Z.eqb_neq in E. by rewrite decide_False by lia.
Qed.

Lemma load_spec bs : forall m a, (forall i, 0 <= i < zlen bs -> m (a + i) = Some (nth (Z.to_nat i) bs 0)) -> load_bytes (length bs) m a = Some bs.
Proof.
  induction bs as [|b bs IH]; intros m a H; cbn [load_bytes length]; [done|]. unfold zlen in H. cbn [length] in H.
  pose proof (H 0 ltac:(lia)) as H0. rewrite Z.add_0_r in H0. rewrite H0. rewrite (IH m (a + 1)); [done|]. intros i Hi. unfold zlen in Hi.
  replace (a + 1 + i) with (a + (i + 1)) by lia. rewrite H by lia. replace (Z.to_nat (i + 1)) with (S (Z.to_nat i)) by lia. done.
Qed.

(** ** The frame of a handler *)

Definition tf_ok (tf : trap_frame) : Prop := length (x tf) = 31%nat /\ Forall is_u64 (x tf) /\ is_u64 (sp_el0 tf) /\ is_u64 (elr tf) /\ is_u64 (spsr tf).

(** The mask that the program has when no handler runs: during [sigsuspend] the one before. *)
Definition own_mask (t : sigthread) : Z := if sig_mask_save_pending t then sig_saved_mask t else sig_mask t.

(** The frame at [sp_el0 tf1] takes the program back to [tf] and [mask]. *)
Definition takes_back (mask : Z) (tf tf1 : trap_frame) (m1 : umem) : Prop :=
  forall t2 tf2 m2, sp_el0 tf2 = sp_el0 tf1 -> (forall y, sp_el0 tf1 <= y < sp_el0 tf1 + SIZEOF_SIGFRAME -> m2 y = m1 y) ->
  svc_sigreturn t2 tf2 m2 = Done (t2 <| sig_mask := mask |>, tf2 <| x := x tf |> <| sp_el0 := sp_el0 tf |> <| elr := elr tf |> <| spsr := spsr tf |>).

(** The program is about to run [handler] for [sig]: below its stack is a frame whose first
    words are the two instructions that the handler returns to. *)
Record called (mask : Z) (tf : trap_frame) (m : umem) (sig handler : Z) (tf1 : trap_frame) (m1 : umem) : Prop := mk_called {
  ca_start : elr tf1 = handler /\ spsr tf1 = spsr tf /\ x tf1 = <[30%nat := sp_el0 tf1]> (<[0%nat := sig]> (x tf));
  ca_stack : sp_el0 tf1 mod 16 = 0 /\ sp_el0 tf1 + SIZEOF_SIGFRAME <= sp_el0 tf /\ user_ptr_ok (sp_el0 tf1) SIZEOF_SIGFRAME = true;
  ca_tramp : load_bytes 8 m1 (sp_el0 tf1) = Some (to_bytes 4 MOVZ_X8_SIGRETURN ++ to_bytes 4 SVC_0);
  ca_rest : forall y, ~ (sp_el0 tf1 <= y < sp_el0 tf1 + SIZEOF_SIGFRAME) -> m1 y = m y;
  ca_back : takes_back mask tf tf1 m1 }.

Lemma align16 a : 0 <= a < 2 ^ 64 -> Z.land a (u64 (Z.lnot 15)) = a - a mod 16.
Proof.
  intros Ha. change (u64 (Z.lnot 15)) with (Z.ldiff (Z.ones 64) (Z.ones 4)).
  assert (E : Z.land a (Z.ldiff (Z.ones 64) (Z.ones 4)) = Z.ldiff (Z.land a (Z.ones 64)) (Z.ones 4)) by (rewrite !Z.ldiff_land; apply Z.land_assoc).
  rewrite E, Z.land_ones, Z.mod_small by lia. rewrite Z.ldiff_ones_r, Z.shiftl_mul_pow2, Z.shiftr_div_pow2 by lia. pose proof (Z.div_mod a 16 ltac:(lia)). change (2 ^ 4) with 16. lia.
Qed.

Lemma frame_back fr tf tf1 m1 : frame_ok fr -> user_ptr_ok (sp_el0 tf1) SIZEOF_SIGFRAME = true -> tf_ok tf ->
  saved_x fr = x tf -> saved_sp_el0 fr = sp_el0 tf -> saved_elr fr = elr tf -> saved_spsr fr = spsr tf ->
  (forall i, 0 <= i < SIZEOF_SIGFRAME -> m1 (sp_el0 tf1 + i) = Some (nth (Z.to_nat i) (frame_bytes fr) 0)) -> takes_back (saved_mask fr) tf tf1 m1.
Proof.
  intros Hf Hu (Hx & Hxs & _) E1 E2 E3 E4 Hm t2 tf2 m2 Es Em. unfold svc_sigreturn, sys_sigreturn_impl. rewrite Es, Hu. cbn [negb]. unfold copy_from_user. rewrite Hu. cbn [negb].
  pose proof (frame_length fr Hf) as Hl. assert (Hn : Z.to_nat SIZEOF_SIGFRAME = length (frame_bytes fr)) by (rewrite <- Hl; unfold zlen; lia). rewrite Hn.
  rewrite (load_spec (frame_bytes fr)) by (intros i Hi; rewrite Em by lia; apply Hm; lia). cbn [bind]. rewrite (frame_roundtrip fr Hf), E1, E2, E3, E4. cbn. do 2 f_equal.
  destruct (x tf) as [|x0 l]; [done|]. cbn. apply Forall_cons in Hxs as [H0 _]. unfold u64. rewrite Z.mod_small by exact H0. done.
Qed.

Lemma sendsig_spec t tf m sig handler t1 tf1 m1 : tf_ok tf -> is_u32 (own_mask t) -> 0 < sig < NSIG -> sendsig t tf m sig handler = Done (Some (t1, tf1, m1)) ->
  t1 = t <| sig_mask_save_pending := false |> /\ called (own_mask t) tf m sig handler tf1 m1.
Proof.
  intros Htf Hmask Hsig. pose proof Htf as (Hx & Hxs & Hsp & Hel & Hps). unfold sendsig. destruct (sp_el0 tf <? SIZEOF_SIGFRAME) eqn:E0; [done|]. apply Z.ltb_ge in E0.
  set (sp := Z.land _ _). assert (Esp : sp = sp_el0 tf - 288 - (sp_el0 tf - 288) mod 16) by (unfold is_u64, SIZEOF_SIGFRAME in *; apply align16; lia).
  destruct (user_ptr_ok sp SIZEOF_SIGFRAME) eqn:Eu; cbn [negb]; [|done].
  assert (Em : (if sig_mask_save_pending t then (sig_saved_mask t, t <| sig_mask_save_pending := false |>) else (sig_mask t, t)) = (own_mask t, t <| sig_mask_save_pending := false |>)).
  { unfold own_mask. destruct t as [a b c d e f g h]. cbn. by destruct d. }
  rewrite Em. set (fr := mk_sigframe _ _ _ _ _ _ _). assert (Eg : u32 sig = sig) by (unfold u32, NSIG in *; apply Z.mod_small; lia).
  assert (Hfr : frame_ok fr). { unfold fr, NSIG in *. split; cbn; rewrite ?Eg; split_and!; try done; unfold is_u32; try lia. }
  pose proof (frame_length fr Hfr) as Hl. unfold copy_to_user. rewrite Hl, Eu. cbn [negb]. destruct (store_bytes (frame_bytes fr) m sp) as [m'|] eqn:Est; [|done]. cbn [bind].
  intros [= <- <- <-]. pose proof (store_spec _ _ _ _ Est) as Hst. rewrite Hl in Hst. split; [done|].
  assert (Hin : forall i, 0 <= i < SIZEOF_SIGFRAME -> m' (sp + i) = Some (nth (Z.to_nat i) (frame_bytes fr) 0)).
  { intros i Hi. rewrite Hst, decide_True by lia. do 2 f_equal. lia. }
  constructor; cbn [elr spsr x sp_el0 update].
  - by rewrite Eg.
  - split_and!; [rewrite Esp; Z.to_euclidean_division_equations; lia|unfold SIZEOF_SIGFRAME in *; rewrite Esp; Z.to_euclidean_division_equations; lia|exact Eu].
  - apply (load_spec (to_bytes 4 MOVZ_X8_SIGRETURN ++ to_bytes 4 SVC_0)). intros i Hi. assert (Hi8 : 0 <= i < 8) by exact Hi. rewrite Hin by (unfold SIZEOF_SIGFRAME; lia).
    f_equal. unfold frame_bytes, fr. cbn [fst snd trampoline]. rewrite (app_assoc (to_bytes 4 MOVZ_X8_SIGRETURN)). apply app_nth1. rewrite length_app, !to_bytes_length. lia.
  - intros y Hy. rewrite Hst, decide_False by lia. done.
  - apply (frame_back fr); try done.
Qed.

(** ** Which signal is delivered *)

Lemma bit_SIGBIT sig i : 0 < sig -> Z.testbit (SIGBIT sig) i = (sig - 1 =? i).
Proof. intros H. unfold SIGBIT. rewrite Z.shiftl_1_l. apply Z.pow2_bits_eqb. lia. Qed.

Lemma has_signal d sig : 0 < sig -> negb (Z.land d (SIGBIT sig) =? 0) = Z.testbit d (sig - 1).
Proof. intros H. unfold SIGBIT. rewrite Z.shiftl_1_l. apply land_bit. lia. Qed.

Lemma bit_not32 z i : 0 <= i < 32 -> Z.testbit (not32 z) i = negb (Z.testbit z i).
Proof. intros H. unfold not32. change (u32 (Z.lnot z)) with (Z.lnot z mod 2 ^ 32). rewrite Z.mod_pow2_bits_low by lia. apply Z.lnot_spec. lia. Qed.

(** A signal that the mask lets through. *)
Definition due (t : sigthread) (sig : Z) : bool := Z.testbit (sig_pending t) (sig - 1) && (negb (Z.testbit (sig_mask t) (sig - 1)) || (sig =? SIGKILL)).
Definition fatal (sig : Z) : bool := bool_decide (sig ∈ [1; 2; 3; 6; 9; 11; 13; 15]).
(** A signal whose delivery does nothing. *)
Definition drops (t : sigthread) (sig : Z) : bool := (handler_of t sig =? SIG_IGN) || (handler_of t sig =? SIG_DFL) && negb (fatal sig).

(** The lowest signal that is due and does something, if there is one. *)
Definition chosen (t : sigthread) : option Z := List.find (fun sig => due t sig && negb (drops t sig)) (seqZ 1 31).
(** The thread once it has taken all signals up to [k] that are due. *)
Definition taken (t : sigthread) (k : Z) : sigthread :=
  t <| sig_pending := foldl (fun p sig => Z.land p (not32 (SIGBIT sig))) (sig_pending t) (filter (fun sig => due t sig = true) (seqZ 1 k)) |>.
Definition restored (t : sigthread) : sigthread :=
  if sig_mask_save_pending t then t <| sig_mask := sig_saved_mask t |> <| sig_mask_save_pending := false |> else t.

(** What the return to the program does, without a loop. *)
Definition deliver (t : sigthread) (tf : trap_frame) (m : umem) : outcome (sigthread * trap_frame * umem) :=
  match chosen t with
  | None => Done (restored (taken t 31), tf, m)
  | Some sig => if handler_of t sig =? SIG_DFL then Killed (-1) else call_handler (taken t sig) tf m sig
  end.

Definition pending_ok (t : sigthread) : Prop := 0 <= sig_pending t < 2 ^ 31.

Lemma find_first (p : Z -> bool) n : forall a s, a <= s < a + Z.of_nat n -> p s = true -> (forall j, a <= j < s -> p j = false) -> List.find p (seqZ a (Z.of_nat n)) = Some s.
Proof.
  induction n as [|n IH]; intros a s Hs Hp Hj; [lia|]. rewrite seqZ_cons by lia. cbn [List.find]. destruct (decide (a = s)) as [->|Hne]; [by rewrite Hp|].
  rewrite Hj by lia. replace (Z.pred (Z.of_nat (S n))) with (Z.of_nat n) by lia. apply IH; [lia|done|]. intros j H. apply Hj. lia.
Qed.

Lemma find_never (p : Z -> bool) l : (forall j, j ∈ l -> p j = false) -> List.find p l = None.
Proof. induction l as [|a l IH]; intros H; cbn [List.find]; [done|]. rewrite (H a) by set_solver. apply IH. set_solver. Qed.

Lemma lowest_first d n : forall a s, 0 < a -> a <= s < a + Z.of_nat n -> Z.testbit d (s - 1) = true -> (forall j, a <= j < s -> Z.testbit d (j - 1) = false) -> lowest n a d = s.
Proof.
  induction n as [|n IH]; intros a s Ha Hs Hp Hj; [lia|]. cbn [lowest]. rewrite has_signal by done. destruct (decide (a = s)) as [->|Hne]; [by rewrite Hp|].
  rewrite Hj by lia. apply IH; [lia|lia|done|]. intros j H. apply Hj. lia.
Qed.

Lemma high_bits p i : 0 <= p < 2 ^ 31 -> 31 <= i -> Z.testbit p i = false.
Proof. intros Hp Hi. rewrite <- (Z.mod_small p (2 ^ 31)) by done. apply Z.mod_pow2_bits_high. lia. Qed.

Lemma bit_deliverable t i : pending_ok t -> 0 <= i -> Z.testbit (deliverable t) i = due t (i + 1).
Proof.
  intros Hp Hi. unfold deliverable, due. rewrite Z.lor_spec, !Z.land_spec, bit_SIGBIT by (unfold SIGKILL; lia). replace (i + 1 - 1) with i by lia.
  destruct (decide (i < 31)) as [H|H]; [|rewrite high_bits by (first [done|lia]); done]. rewrite bit_not32 by lia.
  assert (E : (SIGKILL - 1 =? i) = (i + 1 =? SIGKILL)) by (apply eq_bool_prop_intro; rewrite !Is_true_true, !Z.eqb_eq; lia). rewrite E.
  destruct (Z.testbit (sig_pending t) i); [|done]. by destruct (Z.testbit (sig_mask t) i).
Qed.

Lemma foldl_bits l : forall p i, 0 <= i < 32 -> Forall (fun s => 0 < s) l ->
  Z.testbit (foldl (fun p sig => Z.land p (not32 (SIGBIT sig))) p l) i = Z.testbit p i && negb (bool_decide (i + 1 ∈ l)).
Proof.
  induction l as [|s l IH]; intros p i Hi Hl; cbn [foldl]; [by rewrite andb_true_r|]. apply Forall_cons in Hl as [Hs Hl]. rewrite IH by done.
  rewrite Z.land_spec, bit_not32, bit_SIGBIT by lia. destruct (Z.eqb_spec (s - 1) i) as [E|E].
  - rewrite (bool_decide_true (i + 1 ∈ s :: l)) by (apply elem_of_cons; left; lia). cbn. by rewrite !andb_false_r.
  - cbn. rewrite andb_true_r. do 2 f_equal. apply bool_decide_ext. rewrite elem_of_cons. split; [by right|]. intros [H|H]; [lia|done].
Qed.

Lemma land_range p q n : 0 <= p < 2 ^ n -> 0 <= n -> 0 <= Z.land p q < 2 ^ n.
Proof.
  intros Hp Hn. assert (E : Z.land p q = Z.land p q mod 2 ^ n); [|rewrite E; apply Z.mod_pos_bound; lia]. apply Z.bits_inj'. intros i Hi. destruct (decide (i < n)) as [H|H].
  - by rewrite Z.mod_pow2_bits_low.
  - rewrite Z.mod_pow2_bits_high by lia. rewrite Z.land_spec, <- (Z.mod_small p (2 ^ n)), Z.mod_pow2_bits_high by (done || lia). done.
Qed.

Lemma taken_ok t k : pending_ok t -> pending_ok (taken t k).
Proof.
  unfold pending_ok, taken. cbn. generalize (filter (fun sig => due t sig = true) (seqZ 1 k)) as l. intros l. generalize (sig_pending t) as p. induction l as [|s l IH]; intros p Hp; cbn [foldl]; [done|].
  apply IH, land_range; [done|lia].
Qed.

Lemma due_taken t k s : 0 < s <= 31 -> due (taken t k) s = due t s && negb (s <=? k).
Proof.
  intros Hs. unfold due at 1. unfold taken at 1 2. cbn [sig_pending sig_mask update]. rewrite foldl_bits by (try lia; apply Forall_forall; intros j Hj; apply list_elem_of_filter in Hj as [_ Hj]; apply elem_of_seqZ in Hj; lia).
  replace (s - 1 + 1) with s by lia. assert (E : bool_decide (s ∈ filter (fun sig => due t sig = true) (seqZ 1 k)) = due t s && (s <=? k)).
  { apply eq_bool_prop_intro. rewrite !Is_true_true, bool_decide_eq_true, andb_true_iff, Z.leb_le, list_elem_of_filter, elem_of_seqZ. split; intros [? ?]; split; try done; lia. }
  rewrite E. unfold due. destruct (Z.testbit (sig_pending t) (s - 1)); [|done]. cbn. destruct (_ || _); by destruct (s <=? k).
Qed.

Lemma none_due t l : (forall s, s ∈ l -> due t s = false) -> filter (fun sig => due t sig = true) l = [].
Proof.
  induction l as [|s l IH]; intros H; [done|]. rewrite filter_cons_False by (rewrite H by (apply elem_of_cons; by left); done). apply IH. intros j Hj. apply H, elem_of_cons. by right.
Qed.

Lemma taken_same t k k' : k <= k' -> (forall s, k < s <= k' -> due t s = false) -> 0 <= k -> taken t k' = taken t k.
Proof.
  intros Hk H H0. unfold taken. replace k' with (k + (k' - k)) by lia. rewrite seqZ_app, filter_app by lia.
  rewrite (none_due t (seqZ (1 + k) (k' - k))), app_nil_r; [done|]. intros s Hs. apply elem_of_seqZ in Hs. apply H. lia.
Qed.

Lemma taken_next t k s : 0 <= k < s -> due t s = true -> (forall j, k < j < s -> due t j = false) ->
  (taken t k) <| sig_pending := Z.land (sig_pending (taken t k)) (not32 (SIGBIT s)) |> = taken t s.
Proof.
  intros Hk Hs Hj. rewrite <- (taken_same t k (s - 1)) by (first [lia|intros j H; apply Hj; lia]). assert (E : seqZ 1 s = seqZ 1 (s - 1) ++ [s]).
  { replace s with ((s - 1) + 1) at 1 by lia. rewrite seqZ_app by lia. replace (1 + (s - 1)) with s by lia. rewrite (seqZ_cons s) by lia. done. }
  unfold taken. rewrite E, filter_app, filter_cons_True, filter_nil, foldl_app by done. done.
Qed.

Lemma fatal_bit s : 0 < s < NSIG -> negb (Z.land SIG_FATAL_MASK (SIGBIT s) =? 0) = fatal s.
Proof.
  intros Hs. assert (H : Forall (fun s => negb (Z.land SIG_FATAL_MASK (SIGBIT s) =? 0) = fatal s) (seqZ 1 31)) by (repeat constructor).
  rewrite Forall_forall in H. apply H, elem_of_seqZ. unfold NSIG in Hs. lia.
Qed.

(** The first number behind [k] with [p], if there is one up to [e]. *)
Lemma first_from (p : Z -> bool) e n : forall k, e - k = Z.of_nat n ->
  (exists s, k < s <= e /\ p s = true /\ forall j, k < j < s -> p j = false) \/ (forall j, k < j <= e -> p j = false).
Proof.
  induction n as [|n IH]; intros k Hk; [right; lia|]. destruct (p (k + 1)) eqn:E.
  - left. exists (k + 1). split_and!; [lia..|done|lia].
  - destruct (IH (k + 1)) as [(s & Hs & Hd & Hj)|H]; [lia|left; exists s; split_and!; [lia..|done|]|right]; intros j Hj'; (destruct (decide (j = k + 1)) as [->|]; [done|]).
    + apply Hj. lia.
    + apply H. lia.
Qed.

Lemma handler_taken t k s : handler_of (taken t k) s = handler_of t s.
Proof. done. Qed.

(** One round of the loop, from the thread that has taken the signals up to [k]. *)
Lemma check_round t tf m f n : pending_ok t -> forall k, 0 <= k -> 31 - k = Z.of_nat n -> (n < f)%nat -> (forall j, 0 < j <= k -> due t j && negb (drops t j) = false) ->
  check_loop f (taken t k) tf m = deliver t tf m.
Proof.
  intros Hp. revert n. induction f as [|f IH]; intros n k Hk Hn Hf Hd; [lia|]. cbn [check_loop]. pose proof (taken_ok t k Hp) as Hp'.
  assert (Hb : forall j, 0 < j <= 31 -> Z.testbit (deliverable (taken t k)) (j - 1) = due t j && negb (j <=? k)).
  { intros j Hj. rewrite bit_deliverable by (done || lia). replace (j - 1 + 1) with j by lia. by apply due_taken. }
  destruct (first_from (due t) 31 n k Hn) as [(s & Hs & Hds & Hj)|Hnone].
  - assert (E0 : deliverable (taken t k) =? 0 = false).
    { apply Z.eqb_neq. intros E. specialize (Hb s ltac:(lia)). rewrite E, Z.testbit_0_l, Hds, (proj2 (Z.leb_gt s k)) in Hb by lia. done. }
    assert (El : lowest 31 1 (deliverable (taken t k)) = s).
    { apply lowest_first; [lia|lia| |].
      - rewrite Hb, Hds, (proj2 (Z.leb_gt s k)) by lia. done.
      - intros j H. rewrite Hb by lia. destruct (Z.leb_spec j k); [apply andb_false_r|]. rewrite Hj by lia. done. }
    rewrite E0, El. assert (EN : s >=? NSIG = false) by (unfold NSIG; lia). rewrite EN, (taken_next t k s), handler_taken by (done || lia). rewrite fatal_bit by (unfold NSIG; lia).
    assert (Hgo : drops t s = true -> check_loop f (taken t s) tf m = deliver t tf m).
    { intros Hdr. apply (IH (n - Z.to_nat (s - k))%nat); [lia..|]. intros j H. destruct (decide (j <= k)) as [H'|H']; [apply Hd; lia|]. destruct (decide (j = s)) as [->|]; [by rewrite Hdr, andb_false_r|rewrite Hj by lia; done]. }
    assert (Hch : drops t s = false -> chosen t = Some s).
    { intros Hdr. apply (find_first _ 31); [lia|by rewrite Hds, Hdr|]. intros j H. destruct (decide (j <= k)) as [H'|H']; [apply Hd; lia|rewrite Hj by lia; done]. }
    unfold drops in Hgo, Hch. destruct (Z.eqb_spec (handler_of t s) SIG_DFL) as [E1|E1].
    + rewrite E1 in *. change (SIG_DFL =? SIG_IGN) with false in *. destruct (fatal s); cbn in *; [|by apply Hgo]. unfold deliver. rewrite Hch by done. by rewrite E1.
    + destruct (Z.eqb_spec (handler_of t s) SIG_IGN) as [E2|E2]; [by apply Hgo|]. unfold deliver. rewrite Hch by done. by rewrite (proj2 (Z.eqb_neq _ _) E1).
  - assert (E0 : deliverable (taken t k) = 0).
    { apply Z.bits_inj'. intros i Hi. rewrite Z.testbit_0_l. destruct (decide (i < 31)) as [H|H].
      - replace i with (i + 1 - 1) by lia. rewrite Hb by lia. destruct (Z.leb_spec (i + 1) k); [apply andb_false_r|]. rewrite Hnone by lia. done.
      - rewrite bit_deliverable by done. unfold due. rewrite high_bits by (done || lia). done. }
    rewrite E0. cbn [Z.eqb]. rewrite <- (taken_same t k 31) by (done || lia). unfold deliver, chosen. rewrite find_never; [done|].
    intros j Hj. apply elem_of_seqZ in Hj. destruct (decide (j <= k)); [apply Hd; lia|rewrite Hnone by lia; done].
Qed.

Lemma check_delivers t tf m : pending_ok t -> check_signals t tf m = deliver t tf m.
Proof.
  intros Hp. assert (E : taken t 0 = t) by (unfold taken; rewrite seqZ_nil by lia; by destruct t).
  pose proof (check_round t tf m 32 31 Hp 0) as H. rewrite E in H. apply H; lia.
Qed.

(** ** Calls of handlers *)

Lemma store_mapped bs : forall m a, is_Some (store_bytes bs m a) <-> forall i, 0 <= i < zlen bs -> is_Some (m (a + i)).
Proof.
  induction bs as [|b bs IH]; intros m a; cbn [store_bytes].
  - split; [intros _ i Hi; unfold zlen in Hi; cbn in Hi; lia|intros _; by exists m].
  - pose proof (zlen_nonneg bs). rewrite zlen_cons. destruct (m a) as [y|] eqn:Ea.
    + rewrite IH. split; intros Hm i Hi.
      * destruct (decide (i = 0)) as [->|]; [rewrite Z.add_0_r, Ea; by eexists|]. specialize (Hm (i - 1) ltac:(lia)). replace (a + 1 + (i - 1)) with (a + i) in Hm by lia.
        rewrite (proj2 (Z.eqb_neq (a + i) a)) in Hm by lia. exact Hm.
      * rewrite (proj2 (Z.eqb_neq (a + 1 + i) a)) by lia. replace (a + 1 + i) with (a + (i + 1)) by lia. apply Hm. lia.
    + split; [intros [? ?]; congruence|]. intros Hm. specialize (Hm 0 ltac:(lia)). rewrite Z.add_0_r, Ea in Hm. destruct Hm; congruence.
Qed.

(** Where the frame goes. *)
Definition frame_sp (tf : trap_frame) : Z := Z.land (sp_el0 tf - SIZEOF_SIGFRAME) (u64 (Z.lnot 15)).
Definition frame_fits (tf : trap_frame) : bool := (SIZEOF_SIGFRAME <=? sp_el0 tf) && user_ptr_ok (frame_sp tf) SIZEOF_SIGFRAME.
Definition frame_mapped (tf : trap_frame) (m : umem) : Prop := forall i, 0 <= i < SIZEOF_SIGFRAME -> is_Some (m (frame_sp tf + i)).

Lemma sendsig_cases t tf m sig h : length (x tf) = 31%nat ->
  match sendsig t tf m sig h with
  | Done None => frame_fits tf = false
  | Done (Some _) => frame_fits tf = true /\ frame_mapped tf m
  | Stray => frame_fits tf = true /\ ~ frame_mapped tf m
  | Killed _ => False
  end.
Proof.
  intros Hx. unfold sendsig, frame_fits, frame_mapped. fold (frame_sp tf). rewrite Z.ltb_antisym. destruct (SIZEOF_SIGFRAME <=? sp_el0 tf); cbn [negb andb]; [|done].
  fold (frame_sp tf). destruct (user_ptr_ok (frame_sp tf) SIZEOF_SIGFRAME) eqn:Eu; cbn [negb]; [|done]. destruct (if sig_mask_save_pending t then _ else _) as [mk t'].
  set (fr := mk_sigframe _ _ _ _ _ _ _). assert (Hl : zlen (frame_bytes fr) = SIZEOF_SIGFRAME) by (unfold zlen, frame_bytes; rewrite !length_app, !to_bytes_length, words_length; unfold fr; cbn [saved_x]; rewrite Hx; done).
  unfold copy_to_user. rewrite Hl, Eu. cbn [negb]. pose proof (store_mapped (frame_bytes fr) m (frame_sp tf)) as Hs. rewrite Hl in Hs. clearbody fr. destruct (store_bytes (frame_bytes fr) m (frame_sp tf)); cbn.
  - split; [done|]. by apply Hs.
  - split; [done|]. intros H. apply Hs in H as [? H]. done.
Qed.

(** The thread while a handler for [sig] runs: the signals of the action and [sig] itself are
    blocked, and a one-shot action is gone. *)
Definition in_handler (t : sigthread) (sig : Z) (t1 : sigthread) : Prop :=
  sig_mask t1 = Z.lor (sig_mask t) (Z.lor (sa_mask (action t sig)) (SIGBIT sig)) /\ sig_pending t1 = sig_pending t /\ sig_mask_save_pending t1 = false
  /\ sig_actions t1 = sig_actions (if Z.testbit (sa_flags (action t sig)) 2 then set_action t sig ((action t sig) <| sa_handler := SIG_DFL |>) else t).

Lemma call_handler_cases t tf m sig : tf_ok tf -> is_u32 (own_mask t) -> 0 < sig < NSIG ->
  match call_handler t tf m sig with
  | Done (t1, tf1, m1) => frame_fits tf = true /\ frame_mapped tf m /\ called (own_mask t) tf m sig (handler_of t sig) tf1 m1 /\ in_handler t sig t1
  | Killed n => n = -1 /\ frame_fits tf = false
  | Stray => frame_fits tf = true /\ ~ frame_mapped tf m
  end.
Proof.
  intros Htf Hm Hsig. unfold call_handler. pose proof (sendsig_cases t tf m sig (handler_of t sig) (proj1 Htf)) as Hc.
  destruct (sendsig t tf m sig (handler_of t sig)) as [[[[t1 tf1] m1]|]| |] eqn:Es; cbn [bind]; [|done|done|done].
  destruct (sendsig_spec t tf m sig (handler_of t sig) t1 tf1 m1 Htf Hm Hsig Es) as [-> Hcall]. destruct Hc as [Hf Hmp]. split_and!; [done..|].
  change SA_RESETHAND with (SIGBIT 3). rewrite has_signal by lia. change (3 - 1) with 2. unfold in_handler. destruct (Z.testbit (sa_flags (action t sig)) 2); [|done]. unfold set_action, action.
  clear. by destruct t as [p mk sv sp [acts|] ti pg se].
Qed.

(** ** Properties *)

(** C12: The loop at the return to the program, which takes signals one after the other until one
    ends the thread or has a handler, comes to this: of the signals that are pending and not
    masked, with SIGKILL never masked, the lowest one that does something is delivered, by the
    end of the thread or by a call of its handler; the ones below it are dropped; and if
    there is none all are dropped and a [sigsuspend] gets its mask back. *)
Theorem signals_delivered t tf m : pending_ok t -> check_signals t tf m = deliver t tf m.
Proof. apply check_delivers. Qed.

Lemma chosen_some t sig : chosen t = Some sig -> 0 < sig < NSIG /\ due t sig = true /\ drops t sig = false.
Proof.
  intros E. pose proof (List.find_some _ _ E) as [H1 H2]. apply list_elem_of_In, elem_of_seqZ in H1. apply andb_true_iff in H2 as [H2 H3]. apply negb_true_iff in H3. unfold NSIG. split_and!; try done; lia.
Qed.

Lemma taken_bits t k s : 0 < s <= 31 -> k < s -> Z.testbit (sig_pending (taken t k)) (s - 1) = Z.testbit (sig_pending t) (s - 1).
Proof.
  intros Hs Hk. unfold taken. cbn. rewrite foldl_bits by (try lia; apply Forall_forall; intros j Hj; apply list_elem_of_filter in Hj as [_ Hj]; apply elem_of_seqZ in Hj; lia).
  rewrite bool_decide_false; [apply andb_true_r|]. rewrite list_elem_of_filter, elem_of_seqZ. lia.
Qed.

(** C11: A signal with a handler: if the frame does not fit below the program's stack, the thread
    ends; if it would lie where the program has no memory, the kernel writes there all the
    same; otherwise the handler starts with its signal in [x0], on a frame inside the program's
    windows that leaves all other memory alone, with the signal and its action's mask blocked.
    And whatever the handler does elsewhere, the [sigreturn] that its return address leads to
    gives the program all registers, its stack, its place and its mask back. *)
Theorem handler_runs t tf m sig : pending_ok t -> tf_ok tf -> is_u32 (own_mask t) -> chosen t = Some sig -> handler_of t sig <> SIG_DFL ->
  match check_signals t tf m with
  | Done (t1, tf1, m1) => frame_fits tf = true /\ frame_mapped tf m /\ called (own_mask t) tf m sig (handler_of t sig) tf1 m1 /\ in_handler (taken t sig) sig t1
  | Killed n => n = -1 /\ frame_fits tf = false
  | Stray => frame_fits tf = true /\ ~ frame_mapped tf m
  end.
Proof.
  intros Hp Htf Hm Hc Hh. rewrite check_delivers by done. unfold deliver. rewrite Hc, (proj2 (Z.eqb_neq _ _) Hh). apply (call_handler_cases (taken t sig)); [done..|]. by apply chosen_some in Hc as [? _].
Qed.

Lemma kill_chosen t : Z.testbit (sig_pending t) (SIGKILL - 1) = true -> exists sig, 0 < sig <= SIGKILL /\ chosen t = Some sig.
Proof.
  intros Hk. assert (Hd : due t SIGKILL && negb (drops t SIGKILL) = true) by (unfold due; rewrite Hk, Z.eqb_refl, orb_true_r; done).
  destruct (first_from (fun sig => due t sig && negb (drops t sig)) SIGKILL 9 0 eq_refl) as [(s & Hs & Hp & Hj)|Hn].
  - exists s. split; [done|]. apply (find_first _ 31); [unfold SIGKILL in Hs; lia|done|]. intros j H. apply Hj. lia.
  - rewrite Hn in Hd by (unfold SIGKILL; lia). done.
Qed.

(** C23: A pending SIGKILL acts, whatever the mask and the actions: at the return to the program
    the thread ends; or a handler of a lower signal starts and SIGKILL is still pending for the
    next return; or such a handler's frame would be in memory that is not mapped.  The pass over
    the pending signals is one in which no other CPU posts a signal; see [kill_lost_in_race]. *)
Theorem pending_kill_acts t tf m : pending_ok t -> tf_ok tf -> is_u32 (own_mask t) -> Z.testbit (sig_pending t) (SIGKILL - 1) = true ->
  match check_signals t tf m with
  | Done (t1, tf1, m1) => Z.testbit (sig_pending t1) (SIGKILL - 1) = true /\ exists sig, 0 < sig < SIGKILL /\ due t sig = true /\ called (own_mask t) tf m sig (handler_of t sig) tf1 m1
  | Killed n => n = -1
  | Stray => exists sig, 0 < sig < SIGKILL /\ due t sig = true /\ ~ frame_mapped tf m
  end.
Proof.
  intros Hp Htf Hm Hk. rewrite check_delivers by done. unfold deliver.
  destruct (kill_chosen t Hk) as (sig & Hle & Ec). rewrite Ec. destruct (handler_of t sig =? SIG_DFL) eqn:Eh; [done|]. apply Z.eqb_neq in Eh.
  destruct (chosen_some t sig Ec) as (Hs & Hdue & _). assert (Hlt : sig < SIGKILL) by (destruct (decide (sig = SIGKILL)) as [->|]; [done|lia]).
  pose proof (call_handler_cases (taken t sig) tf m sig Htf Hm Hs) as Hc. destruct (call_handler (taken t sig) tf m sig) as [[[t1 tf1] m1]|n|].
  - destruct Hc as (_ & _ & Hcall & Hin). split; [|exists sig; split_and!; try done; lia]. destruct Hin as (_ & -> & _). rewrite taken_bits by (unfold SIGKILL in *; lia). done.
  - by destruct Hc.
  - exists sig. split_and!; try done; [lia|by destruct Hc].
Qed.

(** [check_signals] takes a signal off the pending set without the lock under which
    [kthread_signal] adds one, by a load and a store.  A SIGKILL that another CPU posts between
    the two is overwritten: it was pending and is not any more. *)
Theorem kill_lost_in_race t sig : 0 <= sig_pending t -> Z.testbit (sig_pending t) (SIGKILL - 1) = false ->
  let loaded := sig_pending t in
  let t1 := snd (kthread_signal t SIGKILL) in
  let t2 := t1 <| sig_pending := Z.land loaded (not32 (SIGBIT sig)) |> in
  Z.testbit (sig_pending t1) (SIGKILL - 1) = true /\ Z.testbit (sig_pending t2) (SIGKILL - 1) = false.
Proof.
  intros Hp Hk loaded t1 t2. split.
  - change (sig_pending t1) with (Z.lor (sig_pending t) (SIGBIT SIGKILL)). rewrite Z.lor_spec, Hk. reflexivity.
  - change (sig_pending t2) with (Z.land loaded (not32 (SIGBIT sig))). unfold loaded. by rewrite Z.land_spec, Hk.
Qed.

(** *** [sigsuspend] *)

(** Signals that arrive one after the other. *)
Definition posts (sigs : list Z) (t : sigthread) : sigthread := foldl (fun t sig => snd (kthread_signal t sig)) t sigs.

Lemma lor_range p q n : 0 <= p < 2 ^ n -> 0 <= q < 2 ^ n -> 0 <= n -> 0 <= Z.lor p q < 2 ^ n.
Proof.
  intros Hp Hq Hn. assert (E : Z.lor p q = Z.lor p q mod 2 ^ n); [|rewrite E; apply Z.mod_pos_bound; lia]. apply Z.bits_inj'. intros i Hi. destruct (decide (i < n)) as [H|H].
  - by rewrite Z.mod_pow2_bits_low.
  - rewrite Z.mod_pow2_bits_high by lia. rewrite Z.lor_spec, <- (Z.mod_small p (2 ^ n)), <- (Z.mod_small q (2 ^ n)), !Z.mod_pow2_bits_high by (done || lia). done.
Qed.

Lemma SIGBIT_range sig : 0 < sig < NSIG -> 0 <= SIGBIT sig < 2 ^ 31.
Proof. intros H. unfold SIGBIT, NSIG in *. rewrite Z.shiftl_1_l. split; [apply Z.pow_nonneg; lia|apply Z.pow_lt_mono_r; lia]. Qed.

Lemma posts_ok sigs : forall t, pending_ok t -> Forall (fun sig => 0 <= sig) sigs -> pending_ok (posts sigs t).
Proof.
  induction sigs as [|sig sigs IH]; intros t Hp Hs; [done|]. apply Forall_cons in Hs as [H0 Hs]. cbn [posts foldl]. apply IH; [|done]. unfold kthread_signal.
  destruct ((sig =? 0) || (sig >=? NSIG)) eqn:E; [done|]. cbn. apply lor_range; [done| |lia]. apply SIGBIT_range. unfold NSIG in *. lia.
Qed.

Lemma posts_frame sigs : forall t, sig_mask (posts sigs t) = sig_mask t /\ sig_saved_mask (posts sigs t) = sig_saved_mask t /\ sig_mask_save_pending (posts sigs t) = sig_mask_save_pending t.
Proof.
  induction sigs as [|sig sigs IH]; intros t; [done|]. cbn [posts foldl]. unfold posts in IH. destruct (IH (snd (kthread_signal t sig))) as (-> & -> & ->). unfold kthread_signal. by destruct (_ || _).
Qed.

(** C22: [sigsuspend] with a mask wakes exactly when there is a signal that the return to the
    program delivers; and then either a handler runs, whose return goes to the mask before
    the call, or no handler runs and the mask is that one again. *)
Theorem suspend_unwinds t mask sigs tf m : pending_ok t -> tf_ok tf -> is_u32 (sig_mask t) -> Forall (fun sig => 0 <= sig) sigs ->
  let t' := posts sigs (sigsuspend_enter t mask) in
  (sigsuspend_wakes t' = true <-> exists sig, 0 < sig < NSIG /\ due t' sig = true)
  /\ match check_signals t' tf m with
     | Done (t1, tf1, m1) =>
         sig_mask_save_pending t1 = false
         /\ (tf1 = tf /\ m1 = m /\ sig_mask t1 = sig_mask t \/ exists sig h, 0 < sig < NSIG /\ called (sig_mask t) tf m sig h tf1 m1)
     | Killed n => n = -1
     | Stray => ~ frame_mapped tf m
     end.
Proof.
  intros Hp Htf Hm Hs t'. assert (Hp' : pending_ok t') by (by apply posts_ok). destruct (posts_frame sigs (sigsuspend_enter t mask)) as (E1 & E2 & E3). fold t' in E1, E2, E3. cbn in E1, E2, E3. clearbody t'.
  assert (Eo : own_mask t' = sig_mask t) by (unfold own_mask; by rewrite E3). split.
  - assert (Ed : Z.land (sig_pending t') (not32 (sig_mask t')) = deliverable t').
    { apply Z.bits_inj'. intros i Hi. rewrite bit_deliverable by done. unfold due. rewrite Z.land_spec. replace (i + 1 - 1) with i by lia.
      destruct (decide (i < 31)) as [H|H]; [|by rewrite high_bits by (done || lia)]. rewrite bit_not32 by lia. destruct (Z.eqb_spec (i + 1) SIGKILL) as [E|E]; [|by rewrite orb_false_r].
      rewrite E1, Z.land_spec, bit_not32, bit_SIGBIT by (unfold SIGKILL; lia). rewrite (proj2 (Z.eqb_eq (SIGKILL - 1) i)) by lia. cbn. by rewrite andb_false_r. }
    unfold sigsuspend_wakes. rewrite Ed. rewrite negb_true_iff, Z.eqb_neq. split.
    + intros H. destruct (first_from (due t') 31 31 0 eq_refl) as [(s & Hs' & Hd & _)|Hn]; [exists s; split; [unfold NSIG; lia|done]|]. exfalso. apply H, Z.bits_inj'. intros i Hi. rewrite bit_deliverable, Z.testbit_0_l by done.
      destruct (decide (i < 31)) as [H'|H']; [apply Hn; lia|]. unfold due. by rewrite high_bits by (done || lia).
    + intros (s & Hs' & Hd) E0. assert (Hb : Z.testbit (deliverable t') (s - 1) = true) by (rewrite bit_deliverable by (done || lia); by replace (s - 1 + 1) with s by lia). by rewrite E0, Z.testbit_0_l in Hb.
  - rewrite check_delivers by done. unfold deliver. destruct (chosen t') as [sig|] eqn:Ec.
    + destruct (handler_of t' sig =? SIG_DFL); [done|]. destruct (chosen_some t' sig Ec) as (Hsg & _). assert (Eo' : own_mask (taken t' sig) = sig_mask t) by exact Eo.
      pose proof (call_handler_cases (taken t' sig) tf m sig Htf ltac:(by rewrite Eo') Hsg) as Hc. rewrite Eo' in Hc. destruct (call_handler (taken t' sig) tf m sig) as [[[t1 tf1] m1]|n|]; [|by destruct Hc..].
      destruct Hc as (_ & _ & Hcall & (_ & _ & Hf & _)). split; [done|]. right. by exists sig, (handler_of (taken t' sig) sig).
    + unfold restored. change (sig_mask_save_pending (taken t' 31)) with (sig_mask_save_pending t'). rewrite E3. cbn. split; [done|]. left. by rewrite E2.
Qed.

(** *** Faults *)

Lemma action_real t sig : sa_handler (action t sig) <> SIG_DFL -> exists l, sig_actions t = Some l /\ (Z.to_nat sig < length l)%nat.
Proof.
  unfold action. destruct (sig_actions t) as [l|]; [|done]. intros H. exists l. split; [done|]. destruct (l !! Z.to_nat sig) eqn:E; [by eapply lookup_lt_Some|done].
Qed.

Lemma action_set t sig a : sa_handler (action t sig) <> SIG_DFL -> action (set_action t sig a) sig = a.
Proof. intros H. destruct (action_real t sig H) as (l & El & Hl). unfold action, set_action. rewrite El. cbn. by rewrite list_lookup_insert_eq. Qed.

Lemma set_action_frame t sig a : sig_pending (set_action t sig a) = sig_pending t /\ sig_mask (set_action t sig a) = sig_mask t /\ sig_mask_save_pending (set_action t sig a) = sig_mask_save_pending t /\ sig_saved_mask (set_action t sig a) = sig_saved_mask t.
Proof. unfold set_action. by destruct (sig_actions t). Qed.

(** Nothing due: the return changes nothing. *)
Lemma none_delivered t tf m : pending_ok t -> sig_mask_save_pending t = false -> (forall sig, 0 < sig < NSIG -> due t sig = false) -> check_signals t tf m = Done (t, tf, m).
Proof.
  intros Hp Hs Hd. rewrite check_delivers by done. unfold deliver, chosen. rewrite find_never by (intros j Hj; apply elem_of_seqZ in Hj; rewrite Hd by (unfold NSIG; lia); done).
  rewrite (taken_same t 0 31) by (first [lia|intros s Hs'; apply Hd; unfold NSIG; lia]). assert (E : taken t 0 = t) by (unfold taken; rewrite seqZ_nil by lia; by destruct t). rewrite E. unfold restored. by rewrite Hs.
Qed.

(** With SIGSEGV blocked and no other signal, a fault leads back to the instruction that
    faults, with the signal pending. *)
Lemma masked_fault t tf m : (sig_pending t = 0 \/ sig_pending t = SIGBIT SIGSEGV) -> sig_mask_save_pending t = false -> Z.testbit (sig_mask t) (SIGSEGV - 1) = true -> sa_handler (action t SIGSEGV) = SIG_DFL ->
  user_fault t tf m = Done (t <| sig_pending := SIGBIT SIGSEGV |>, tf, m).
Proof.
  intros Hp Hs Hm Hh. unfold user_fault. rewrite Hh. cbn [Z.eqb negb andb SIG_DFL]. assert (E : Z.lor (sig_pending t) (SIGBIT SIGSEGV) = SIGBIT SIGSEGV) by (by destruct Hp as [-> | ->]).
  rewrite E. apply none_delivered; [by apply SIGBIT_range|done|]. intros sig Hsig. unfold due. cbn [sig_pending sig_mask update]. rewrite bit_SIGBIT by (unfold SIGSEGV; lia).
  destruct (Z.eqb_spec (SIGSEGV - 1) (sig - 1)) as [E'|]; [|done]. rewrite <- E', Hm. unfold SIGSEGV, SIGKILL in *. cbn. lia.
Qed.

Lemma action_same t t' sig : sig_actions t = sig_actions t' -> action t sig = action t' sig.
Proof. unfold action. by intros ->. Qed.

(** Only SIGSEGV is pending, not masked and with a handler. *)
Lemma segv_only v : sig_pending v = SIGBIT SIGSEGV -> Z.testbit (sig_mask v) (SIGSEGV - 1) = false ->
  sa_handler (action v SIGSEGV) <> SIG_DFL -> sa_handler (action v SIGSEGV) <> SIG_IGN -> chosen v = Some SIGSEGV /\ sig_pending (taken v SIGSEGV) = 0.
Proof.
  intros Hp Hb Hd Hi. assert (Hdue : forall s, 0 < s -> due v s = (s =? SIGSEGV)).
  { intros s Hs. unfold due. rewrite Hp, bit_SIGBIT by (unfold SIGSEGV; lia). destruct (Z.eqb_spec s SIGSEGV) as [->|]; [by rewrite Z.eqb_refl, Hb|].
    by rewrite (proj2 (Z.eqb_neq (SIGSEGV - 1) (s - 1))) by lia. }
  assert (Hno : forall j, 0 < j < SIGSEGV -> due v j = false) by (intros j Hj; rewrite Hdue by lia; apply Z.eqb_neq; lia).
  assert (Hyes : due v SIGSEGV = true) by (rewrite Hdue; done). split.
  - apply (find_first _ 31); [unfold SIGSEGV; lia| |intros j Hj; rewrite Hno by lia; done].
    unfold drops, handler_of. change (SIGSEGV =? SIGKILL) with false. by rewrite Hyes, (proj2 (Z.eqb_neq _ _) Hd), (proj2 (Z.eqb_neq _ _) Hi).
  - rewrite <- (taken_next v 0 SIGSEGV) by (first [done|lia]). assert (E : taken v 0 = v) by (unfold taken; rewrite seqZ_nil by lia; by destruct v). rewrite E. cbn [sig_pending update]. by rewrite Hp.
Qed.

(** C38: A fault with a handler for SIGSEGV starts the handler with SIGSEGV blocked and the action
    back at its default. A fault inside the handler then does not end the thread: the program
    goes back to the instruction that faults, which faults again, with the same state for
    ever. *)
Theorem handler_fault_repeats t tf m t1 tf1 m1 :
  sig_pending t = 0 -> is_u32 (own_mask t) -> tf_ok tf -> Z.testbit (sig_mask t) (SIGSEGV - 1) = false ->
  sa_handler (action t SIGSEGV) <> SIG_DFL -> sa_handler (action t SIGSEGV) <> SIG_IGN -> user_fault t tf m = Done (t1, tf1, m1) ->
  called (own_mask t) tf m SIGSEGV (sa_handler (action t SIGSEGV)) tf1 m1
  /\ forall tf2 m2, exists t2, user_fault t1 tf2 m2 = Done (t2, tf2, m2) /\ user_fault t2 tf2 m2 = Done (t2, tf2, m2).
Proof.
  intros Hp Hm Htf Hb Hd Hi. unfold user_fault at 1. rewrite (proj2 (Z.eqb_neq _ _) Hd), (proj2 (Z.eqb_neq _ _) Hi). cbn [negb andb].
  set (a := (action t SIGSEGV) <| sa_flags := _ |>). destruct (set_action_frame t SIGSEGV a) as (F1 & F2 & F3 & F4). pose proof (action_set t SIGSEGV a Hd) as Ea. set (u := set_action t SIGSEGV a) in *. clearbody u.
  rewrite F1, Hp, Z.lor_0_l. set (v := u <| sig_pending := SIGBIT SIGSEGV |>). assert (Hv : pending_ok v) by (by apply SIGBIT_range). assert (Ev : action v SIGSEGV = a) by exact Ea.
  assert (Eh : handler_of v SIGSEGV = sa_handler (action t SIGSEGV)) by (unfold handler_of; rewrite Ev; done).
  destruct (segv_only v) as [Ec Et]; [done|by unfold v; cbn; rewrite F2|by rewrite Ev..|].
  assert (Eo : own_mask (taken v SIGSEGV) = own_mask t) by (unfold own_mask, v; cbn; by rewrite F2, F3, F4).
  rewrite check_delivers by done. unfold deliver. rewrite Ec, Eh, (proj2 (Z.eqb_neq _ _) Hd). intros Ecall.
  pose proof (call_handler_cases (taken v SIGSEGV) tf m SIGSEGV Htf ltac:(by rewrite Eo) ltac:(done)) as Hc. rewrite Ecall, Eo in Hc. destruct Hc as (_ & _ & Hcall & (Hk & Hpd & Hsv & Hac)).
  rewrite handler_taken, Eh in Hcall. split; [done|]. intros tf2 m2. exists (t1 <| sig_pending := SIGBIT SIGSEGV |>). rewrite Et in Hpd.
  assert (Hm1 : Z.testbit (sig_mask t1) (SIGSEGV - 1) = true) by (rewrite Hk, !Z.lor_spec, (bit_SIGBIT SIGSEGV) by (unfold SIGSEGV; lia); rewrite Z.eqb_refl, !orb_true_r; done).
  assert (Hh1 : sa_handler (action t1 SIGSEGV) = SIG_DFL).
  { assert (Et' : action (taken v SIGSEGV) SIGSEGV = a) by exact Ev. rewrite Et' in Hac. assert (Ef : Z.testbit (sa_flags a) 2 = true) by (change (sa_flags a) with (Z.lor (sa_flags (action t SIGSEGV)) SA_RESETHAND); rewrite Z.lor_spec; apply orb_true_r).
    rewrite Ef in Hac. rewrite (action_same _ _ SIGSEGV Hac), action_set by (rewrite Et'; done). done. }
  split; [apply masked_fault; auto|]. change (t1 <| sig_pending := SIGBIT SIGSEGV |>) with ((t1 <| sig_pending := SIGBIT SIGSEGV |>) <| sig_pending := SIGBIT SIGSEGV |>) at 2. apply masked_fault; auto.
Qed.

(** ** Concrete inputs *)

(** A thread with handlers for signal 10, SIGSEGV and SIGTERM. *)
Definition demo_handler : Z := 0x20001000.
Definition demo_actions : list sigaction_k :=
  <[10%nat := mk_sigaction demo_handler 0 0]> (<[11%nat := mk_sigaction demo_handler 0 0]> (<[15%nat := mk_sigaction demo_handler 2 0]> (replicate 32 no_action))).
Definition demo_thread (pending mask : Z) : sigthread := mk_sigthread pending mask 0 false (Some demo_actions) 5 5 5.
Definition demo_tf : trap_frame := mk_trap_frame (replicate 31 7) 0x21100000 0x20000100 0 0 0.
Definition demo_mem : umem := fun a => if (0x20000000 <=? a) && (a <? 0x21600000) then Some 0 else None.

Lemma demo_tf_ok : tf_ok demo_tf.
Proof. split_and!; [done| |unfold is_u64; cbn; lia..]. unfold is_u64, demo_tf. cbn [x]. apply Forall_replicate. lia. Qed.

Lemma demo_mapped : frame_mapped demo_tf demo_mem.
Proof.
  intros i Hi. assert (E : frame_sp demo_tf = 0x210FFEE0) by reflexivity. rewrite E. unfold SIZEOF_SIGFRAME in Hi. unfold demo_mem.
  rewrite (proj2 (Z.leb_le _ _)), (proj2 (Z.ltb_lt _ _)) by lia. by eexists.
Qed.

(** SIGTERM and signal 17 pending, signal 10 too but blocked: the handler for SIGTERM. *)
Lemma signals_delivered_witness : pending_ok (demo_thread 0x14200 0x200)
  /\ check_signals (demo_thread 0x14200 0x200) demo_tf demo_mem = deliver (demo_thread 0x14200 0x200) demo_tf demo_mem /\ chosen (demo_thread 0x14200 0x200) = Some 15.
Proof.
  assert (H : pending_ok (demo_thread 0x14200 0x200)) by (unfold pending_ok; cbn; lia). split; [exact H|]. split; [exact (signals_delivered _ demo_tf demo_mem H)|reflexivity].
Defined.

(** The frame fits and is mapped, so the handler starts, and its return restores the program. *)
Lemma handler_runs_witness : exists t1 tf1 m1, check_signals (demo_thread 0x4200 0x200) demo_tf demo_mem = Done (t1, tf1, m1) /\ called 0x200 demo_tf demo_mem 15 demo_handler tf1 m1.
Proof.
  assert (Hp : pending_ok (demo_thread 0x4200 0x200)) by (unfold pending_ok; cbn; lia). assert (Hm : is_u32 (own_mask (demo_thread 0x4200 0x200))) by (unfold is_u32; cbn; lia).
  assert (Hh : handler_of (demo_thread 0x4200 0x200) 15 <> SIG_DFL) by (vm_compute; discriminate). assert (Hf : frame_fits demo_tf = true) by reflexivity.
  pose proof (handler_runs _ demo_tf demo_mem 15 Hp demo_tf_ok Hm eq_refl Hh) as H. destruct (check_signals (demo_thread 0x4200 0x200) demo_tf demo_mem) as [[[t1 tf1] m1]|n|].
  - exists t1, tf1, m1. split; [reflexivity|]. exact (proj1 (proj2 (proj2 H))).
  - destruct H as [_ H]. rewrite Hf in H. discriminate H.
  - destruct H as [_ H]. destruct (H demo_mapped).
Defined.

(** All signals masked, SIGKILL pending: the thread ends. *)
Lemma pending_kill_acts_witness : check_signals (demo_thread 0x4300 0xFFFFFFFF) demo_tf demo_mem = Killed (-1).
Proof.
  assert (Hp : pending_ok (demo_thread 0x4300 0xFFFFFFFF)) by (unfold pending_ok; cbn; lia). assert (Hm : is_u32 (own_mask (demo_thread 0x4300 0xFFFFFFFF))) by (unfold is_u32; cbn; lia).
  pose proof (pending_kill_acts _ demo_tf demo_mem Hp demo_tf_ok Hm eq_refl) as H. assert (Hno : forall sig, 0 < sig < SIGKILL -> due (demo_thread 0x4300 0xFFFFFFFF) sig = true -> False).
  { intros sig Hs Hd. assert (Hf : forallb (fun s => negb (due (demo_thread 0x4300 0xFFFFFFFF) s)) (seqZ 1 8) = true) by reflexivity.
    rewrite List.forallb_forall in Hf. specialize (Hf sig). rewrite Hd in Hf. discriminate Hf. apply list_elem_of_In, elem_of_seqZ. unfold SIGKILL in Hs. lia. }
  destruct (check_signals (demo_thread 0x4300 0xFFFFFFFF) demo_tf demo_mem) as [[[t1 tf1] m1]|n|].
  - destruct H as [_ (sig & Hs & Hd & _)]. destruct (Hno sig Hs Hd).
  - by rewrite H.
  - destruct H as (sig & Hs & Hd & _). destruct (Hno sig Hs Hd).
Defined.

(** [sigsuspend] with nothing blocked, and SIGTERM arrives. *)
Lemma suspend_unwinds_witness : sigsuspend_wakes (posts [15] (sigsuspend_enter (demo_thread 0 0x4200) 0)) = true
  /\ match check_signals (posts [15] (sigsuspend_enter (demo_thread 0 0x4200) 0)) demo_tf demo_mem with Done (t1, _, _) => sig_mask_save_pending t1 = false | Killed n => n = -1 | Stray => False end.
Proof.
  assert (Hp : pending_ok (demo_thread 0 0x4200)) by (unfold pending_ok; cbn; lia). assert (Hm : is_u32 (sig_mask (demo_thread 0 0x4200))) by (unfold is_u32; cbn; lia).
  assert (Hs : Forall (fun sig => 0 <= sig) [15]) by (repeat constructor; lia). destruct (suspend_unwinds _ 0 [15] demo_tf demo_mem Hp demo_tf_ok Hm Hs) as [[_ Hw] H]. split.
  - apply Hw. exists 15. split; [unfold NSIG; lia|reflexivity].
  - destruct (check_signals _ demo_tf demo_mem) as [[[t1 tf1] m1]|n|]; [exact (proj1 H)|exact H|exact (H demo_mapped)].
Defined.

(** The handler for SIGSEGV starts, and a fault in it repeats. *)
Lemma handler_fault_repeats_witness : exists t1 t2, user_fault t1 demo_tf demo_mem = Done (t2, demo_tf, demo_mem) /\ user_fault t2 demo_tf demo_mem = Done (t2, demo_tf, demo_mem).
Proof.
  assert (Hm : is_u32 (own_mask (demo_thread 0 0))) by (unfold is_u32; cbn; lia). assert (Hd : sa_handler (action (demo_thread 0 0) SIGSEGV) <> SIG_DFL) by (vm_compute; discriminate).
  assert (Hi : sa_handler (action (demo_thread 0 0) SIGSEGV) <> SIG_IGN) by (vm_compute; discriminate).
  assert (Ed : match user_fault (demo_thread 0 0) demo_tf demo_mem with Done _ => true | _ => false end = true) by (vm_compute; reflexivity).
  destruct (user_fault (demo_thread 0 0) demo_tf demo_mem) as [[[t1 tf1] m1]|n|] eqn:E; [|discriminate Ed..].
  destruct (handler_fault_repeats (demo_thread 0 0) demo_tf demo_mem t1 tf1 m1 eq_refl Hm demo_tf_ok eq_refl Hd Hi E) as [_ H]. destruct (H demo_tf demo_mem) as (t2 & H1 & H2). exists t1, t2. split; [exact H1|exact H2].
Defined.

End SignalThm.
