(* ===== verification/BlockDev.v ===== *)
(** * Block devices: [uts/os/io/bdevsw.c] and the drivers

    The request structure [struct buf], the block-device switch, and the drivers'
    request functions: [uts/os/io/bram.c], [uts/os/fs/ramdisk.c] and the one of
    [uts/virt/nvme.c], whose controller is a parameter.  The class [BlockDevs] is what
    the buffer cache sees of them, [DiskLaws] what it relies on: a device is an array
    of blocks; the memory-backed drivers are shown to be such devices. *)

From stdpp Require Import base numbers list gmap.
From Stdlib Require Import ZArith Lia Bool.
From S2P Require Import Prelude.

Module BlockDev.

Definition BUF_BLOCK_SIZE : Z := 512.

Definition B_READ : Z := 1.
Definition B_WRITE : Z := 2.
Definition B_DONE : Z := 4.
Definition B_ERROR : Z := 8.
Definition B_BUSY : Z := 16.
Definition B_DELWRI : Z := 32.
Definition B_VALID : Z := 64.

(** [include/kappara/io/cdevsw.h]: device numbers. *)
Definition MAJOR (d : Z) : Z := Z.shiftr d 24.
Definition MINOR (d : Z) : Z := Z.land d 16777215.
Definition MKDEV (m n : Z) : Z := Z.lor (u32 (Z.shiftl m 24)) (Z.land n 16777215).

(** [(dev_t)-1], the device of a buffer that holds no block. *)
Definition NODEV : Z := u32 (-1).

(** [struct buf].  [b_data] stands for the contents of the buffer's page, which is
    also where [b_addr] points whenever the cache issues a request; completion
    callbacks and wait queues belong to the threads and are not part of it. *)
Record buf := mk_buf {
  b_dev : Z;
  b_blkno : Z;
  b_bcount : Z;
  b_resid : Z;
  b_flags : Z;
  b_error : Z;
  b_data : bytes;
  lru_prev : Z;
  lru_next : Z;
  hash_next : Z
}.

#[export] Instance rebuild_buf : Rebuild buf :=
  rpure mk_buf <:> b_dev <:> b_blkno <:> b_bcount <:> b_resid <:> b_flags <:> b_error <:> b_data
    <:> lru_prev <:> lru_next <:> hash_next.

(** [flags |= m] and [flags &= ~m]. *)
Definition set_flags (b : buf) (m : Z) : buf := b <| b_flags := Z.lor (b_flags b) m |>.
Definition clr_flags (b : buf) (m : Z) : buf := b <| b_flags := Z.land (b_flags b) (u32 (Z.lnot m)) |>.

(** [kmemcpy(dst, src, n)] on the contents of two blocks. *)
Definition kmemcpy (dst src : bytes) (n : Z) : bytes :=
  take (Z.to_nat n) src ++ drop (Z.to_nat n) dst.

(** ** The block-device switch *)

Section Bdevsw.
Context {E : Type}.

Definition BDEV_MAX : Z := 16.

(** [bdev_table] without its empty entries. *)
Definition bdev_register (t : gmap Z E) (major : Z) (e : option E) : Z * gmap Z E :=
  if (major =? 0) || (major >=? BDEV_MAX) then (-1, t)
  else match e with
  | None => (-1, t)
  | Some e =>
      match t !! major with
      | Some _ => (-1, t)
      | None => (0, <[major := e]> t)
      end
  end.

Definition bdev_lookup (t : gmap Z E) (major : Z) : option E :=
  if (major =? 0) || (major >=? BDEV_MAX) then None else t !! major.

(** The loop of [bdev_for_each] from major [m] on, [n] entries left; the callback
    may change the state [s] its argument points to. *)
Fixpoint for_each_from {A : Type} (n : nat) (t : gmap Z E) (cb : Z -> E -> A -> Z * A) (m : Z) (s : A) : Z * A :=
  match n with
  | O => (0, s)
  | S n =>
      match t !! m with
      | None => for_each_from n t cb (m + 1) s
      | Some e =>
          let '(r, s) := cb m e s in
          if r =? 0 then for_each_from n t cb (m + 1) s else (r, s)
      end
  end.

Definition bdev_for_each {A : Type} (t : gmap Z E) (cb : Z -> E -> A -> Z * A) (s : A) : Z * A :=
  for_each_from (Z.to_nat (BDEV_MAX - 1)) t cb 1 s.

End Bdevsw.

(** What the cache sees of the devices: [bdev_lookup(major)->d_strategy], if there
    is one, run on a minor number and a buffer. *)
Class BlockDevs (D : Type) :=
  d_strategy : D -> Z -> option (Z -> buf -> buf * D).

(** [biodone] on a request of the cache, which installs no callback. *)
Definition biodone (bp : buf) : buf := set_flags bp B_DONE.

(** How every driver refuses a request. *)
Definition io_error (bp : buf) : buf :=
  biodone ((set_flags bp B_ERROR) <| b_error := -1 |> <| b_resid := b_bcount bp |>).

(** A disk held in memory, by sector; static storage is zero at first. *)
Definition sector (m : gmap Z bytes) (n : Z) : bytes := default (replicate 512 0) (m !! n).

(** ** The drivers *)

Definition BRAM_BLOCKS : Z := 512.
Definition RAMDISK0_BLOCKS : Z := 2048.
Definition RAMDISK1_BLOCKS : Z := 1024.
Definition BLK_SIZE : Z := 512.

Definition bram_strategy (bram_data : gmap Z bytes) (minor : Z) (bp : buf) : buf * gmap Z bytes :=
  if (b_blkno bp >=? BRAM_BLOCKS) || (b_bcount bp >? BUF_BLOCK_SIZE) then (io_error bp, bram_data)
  else
    let '(bp, bram_data) :=
      if has (b_flags bp) B_READ
      then (bp <| b_data := kmemcpy (b_data bp) (sector bram_data (b_blkno bp)) (b_bcount bp) |>, bram_data)
      else (bp, <[b_blkno bp := kmemcpy (sector bram_data (b_blkno bp)) (b_data bp) (b_bcount bp)]> bram_data) in
    (biodone (bp <| b_resid := 0 |>), bram_data).

(** The two disks of [ramdisk.c], by minor number. *)
Definition ramdisk_strategy (st : gmap Z bytes * gmap Z bytes) (minor : Z) (bp : buf)
  : buf * (gmap Z bytes * gmap Z bytes) :=
  match (if minor =? 0 then Some (fst st, RAMDISK0_BLOCKS)
         else if minor =? 1 then Some (snd st, RAMDISK1_BLOCKS) else None) with
  | None => (io_error bp, st)
  | Some (base, cap) =>
      if (b_blkno bp >=? cap) || negb (b_bcount bp =? BLK_SIZE) then (io_error bp, st)
      else
        let '(bp, base) :=
          if has (b_flags bp) B_READ
          then (bp <| b_data := kmemcpy (b_data bp) (sector base (b_blkno bp)) BLK_SIZE |>, base)
          else (bp, <[b_blkno bp := kmemcpy (sector base (b_blkno bp)) (b_data bp) BLK_SIZE]> base) in
        (biodone (bp <| b_resid := 0 |>), if minor =? 0 then (base, snd st) else (fst st, base))
  end.

(** The NVMe controller: [nvme_io_submit_and_wait] of an opcode at a logical block
    with the memory the command points to; its return code and that memory after. *)
Class NvmeHw (H : Type) :=
  nvme_io_submit_and_wait : H -> Z -> Z -> bytes -> Z * bytes * H.

Definition NVME_HOME_FIRST_LBA : Z := 65536.

Record nvme_dev := mk_nvme { nvme_singleton_init : bool; bd_nblocks : Z; bd_home_nblocks : Z }.

Definition nvme_strategy `{NvmeHw H} (d : nvme_dev) (hw : H) (minor : Z) (bp : buf) : buf * H :=
  let lba_offset := if minor =? 1 then NVME_HOME_FIRST_LBA else 0 in
  let nblocks := if minor =? 1 then bd_home_nblocks d else bd_nblocks d in
  if negb (nvme_singleton_init d) || (b_blkno bp >=? nblocks) || negb (b_bcount bp =? BLK_SIZE)
  then (io_error bp, hw)
  else
    let lba := u64 (b_blkno bp + lba_offset) in
    let opc := if has (b_flags bp) B_READ then 2 else 1 in
    let '(rc, mem, hw) := nvme_io_submit_and_wait hw opc lba (b_data bp) in
    let bp := bp <| b_data := mem |> in
    (if rc <? 0
     then biodone ((set_flags bp B_ERROR) <| b_error := -1 |> <| b_resid := b_bcount bp |>)
     else biodone (bp <| b_resid := 0 |>), hw).

(** ** The devices of the kernel *)

Inductive bdev_entry := bram_entry | ramdisk_entry | nvme_bdev_entry.

Definition BDEV_MAJ_RAM : Z := 1.
Definition BDEV_MAJ_RAMDISK : Z := 3.
Definition BDEV_MAJ_NVME : Z := 4.

Record kdevs (H : Type) := mk_kdevs {
  bdev_table : gmap Z bdev_entry;
  bram_data : gmap Z bytes;
  ramdisks : gmap Z bytes * gmap Z bytes;
  nvme_singleton : nvme_dev;
  nvme_hw : H
}.
#[global] Arguments mk_kdevs {H}.
#[global] Arguments bdev_table {H}.
#[global] Arguments bram_data {H}.
#[global] Arguments ramdisks {H}.
#[global] Arguments nvme_singleton {H}.
#[global] Arguments nvme_hw {H}.

#[export] Instance rebuild_kdevs {H} : Rebuild (kdevs H) :=
  rpure mk_kdevs <:> bdev_table <:> bram_data <:> ramdisks <:> nvme_singleton <:> nvme_hw.

(** [bdev_lookup(major)], then the driver's [d_strategy]. *)
#[export] Instance kernel_devs `{NvmeHw H} : BlockDevs (kdevs H) := fun d major =>
  match bdev_lookup (bdev_table d) major with
  | None => None
  | Some bram_entry => Some (fun minor bp =>
      let '(bp, m) := bram_strategy (bram_data d) minor bp in (bp, d <| bram_data := m |>))
  | Some ramdisk_entry => Some (fun minor bp =>
      let '(bp, m) := ramdisk_strategy (ramdisks d) minor bp in (bp, d <| ramdisks := m |>))
  | Some nvme_bdev_entry => Some (fun minor bp =>
      let '(bp, hw) := nvme_strategy (nvme_singleton d) (nvme_hw d) minor bp in (bp, d <| nvme_hw := hw |>))
  end.

Definition bram_init {H} (d : kdevs H) : kdevs H :=
  d <| bdev_table := snd (bdev_register (bdev_table d) BDEV_MAJ_RAM (Some bram_entry)) |>.

(** [ramdisk_init] and [ramdisk_home_init], but for the entries under [/dev]. *)
Definition ramdisk_init {H} (d : kdevs H) : kdevs H :=
  d <| ramdisks := (∅, snd (ramdisks d)) |>
    <| bdev_table := snd (bdev_register (bdev_table d) BDEV_MAJ_RAMDISK (Some ramdisk_entry)) |>.

Definition ramdisk_home_init {H} (d : kdevs H) : kdevs H := d <| ramdisks := (fst (ramdisks d), ∅) |>.

(** ** What the cache relies on

    A device is an array of blocks: [content d dev blk] is the block, if the device
    has it.  [serves] are the device numbers this holds for, [disk_ok] what the
    drivers' tables need for it. *)

(** The cache's request for block [blk] of [dev]. *)
Definition request (bp : buf) (dev blk : Z) : Prop :=
  b_dev bp = dev /\ b_blkno bp = blk /\ 0 <= blk /\ b_bcount bp = BUF_BLOCK_SIZE /\ zlen (b_data bp) = BUF_BLOCK_SIZE.

(** A request that was served, [s] being the block before. *)
Definition complete (bp : buf) (s : bytes) : buf :=
  biodone ((if has (b_flags bp) B_READ then bp <| b_data := s |> else bp) <| b_resid := 0 |>).

Class DiskLaws (D : Type) `{!BlockDevs D} := {
  serves : Z -> Prop;
  serves_dec : forall dev, Decision (serves dev);
  disk_ok : D -> Prop;
  content : D -> Z -> Z -> option bytes;
  content_size : forall d dev blk s, disk_ok d -> content d dev blk = Some s -> zlen s = BUF_BLOCK_SIZE;
  serves_dev : forall dev, serves dev -> dev <> NODEV;
  io_in_range : forall d dev blk bp s, disk_ok d -> serves dev -> request bp dev blk ->
    content d dev blk = Some s ->
    exists f d', d_strategy d (MAJOR dev) = Some f /\ f (MINOR dev) bp = (complete bp s, d') /\ disk_ok d'
      /\ forall dev' blk', serves dev' -> content d' dev' blk' =
           if has (b_flags bp) B_READ then content d dev' blk'
           else if decide (dev' = dev /\ blk' = blk) then Some (b_data bp) else content d dev' blk';
  io_out_of_range : forall d dev blk bp, disk_ok d -> serves dev -> request bp dev blk ->
    content d dev blk = None ->
    forall f, d_strategy d (MAJOR dev) = Some f ->
    exists d', f (MINOR dev) bp = (io_error bp, d') /\ disk_ok d'
      /\ forall dev' blk', serves dev' -> content d' dev' blk' = content d dev' blk'
}.

#[export] Existing Instance serves_dec.

(** ** The memory-backed drivers are such devices *)

Section Kernel.
Context {H : Type} `{!NvmeHw H}.

(** Every driver sits at its own major number. *)
Definition entry_major (e : bdev_entry) : Z :=
  match e with bram_entry => BDEV_MAJ_RAM | ramdisk_entry => BDEV_MAJ_RAMDISK | nvme_bdev_entry => BDEV_MAJ_NVME end.

Definition table_ok (d : kdevs H) : Prop :=
  (forall m e, bdev_table d !! m = Some e -> m = entry_major e)
  /\ (forall n s, bram_data d !! n = Some s -> zlen s = 512)
  /\ (forall n s, fst (ramdisks d) !! n = Some s -> zlen s = 512)
  /\ (forall n s, snd (ramdisks d) !! n = Some s -> zlen s = 512).

(** [MKDEV(BDEV_MAJ_RAM, 0)] and the devices of major [BDEV_MAJ_RAMDISK]. *)
Definition memory_dev (dev : Z) : Prop :=
  dev = MKDEV BDEV_MAJ_RAM 0 \/ dev = MKDEV BDEV_MAJ_RAMDISK 0 \/ dev = MKDEV BDEV_MAJ_RAMDISK 1.

Definition block (m : gmap Z bytes) (cap n : Z) : option bytes :=
  if (0 <=? n) && (n <? cap) then Some (sector m n) else None.

Definition disk_content (d : kdevs H) (dev blk : Z) : option bytes :=
  match bdev_lookup (bdev_table d) (MAJOR dev) with
  | Some bram_entry => block (bram_data d) BRAM_BLOCKS blk
  | Some ramdisk_entry =>
      if MINOR dev =? 0 then block (fst (ramdisks d)) RAMDISK0_BLOCKS blk
      else if MINOR dev =? 1 then block (snd (ramdisks d)) RAMDISK1_BLOCKS blk else None
  | _ => None
  end.

Lemma kmemcpy_block (dst src : bytes) : zlen dst = 512 -> zlen src = 512 -> kmemcpy dst src 512 = src.
Proof.
  unfold zlen, kmemcpy. intros Hd Hs.
  rewrite take_ge, drop_ge by lia. apply app_nil_r.
Qed.

Lemma sector_size m n : (forall n s, m !! n = Some s -> zlen s = 512) -> zlen (sector m n) = 512.
Proof. intros Hm. unfold sector. destruct (m !! n) as [s|] eqn:E; [by apply (Hm n)|done]. Qed.

Lemma sizes_insert (m : gmap Z bytes) k s : (forall n s, m !! n = Some s -> zlen s = 512) -> zlen s = 512 ->
  forall n t, <[k := s]> m !! n = Some t -> zlen t = 512.
Proof. intros Hm Hs n t [[-> <-]|[_ Hn]]%lookup_insert_Some; [done|by apply (Hm n)]. Qed.

Lemma block_insert m cap k s n : 0 <= k < cap ->
  block (<[k := s]> m) cap n = if decide (n = k) then Some s else block m cap n.
Proof.
  intros Hk. unfold block, sector. case_decide as E.
  - subst n. rewrite lookup_insert_eq. destruct (Z.leb_spec 0 k), (Z.ltb_spec k cap); (done || lia).
  - by rewrite lookup_insert_ne.
Qed.

Lemma block_Some m cap n s : block m cap n = Some s -> 0 <= n < cap /\ s = sector m n.
Proof. unfold block. case_if; [|done]. intros [= <-]. bool_prop. split; [lia|done]. Qed.

Lemma block_None m cap n : block m cap n = None -> 0 <= n -> cap <= n.
Proof. unfold block. case_if; [done|]. intros _ Hn. apply andb_false_iff in E as [E|E]; bool_prop; lia. Qed.

(** A memory disk serves one request. *)
Definition served (m : gmap Z bytes) (bp : buf) : gmap Z bytes :=
  if has (b_flags bp) B_READ then m else <[b_blkno bp := b_data bp]> m.

Lemma served_sizes m bp : (forall n s, m !! n = Some s -> zlen s = 512) -> zlen (b_data bp) = 512 ->
  forall n s, served m bp !! n = Some s -> zlen s = 512.
Proof. intros Hm Hb. unfold served. case_if; [done|]. by apply sizes_insert. Qed.

Lemma served_block m cap bp n : 0 <= b_blkno bp < cap ->
  block (served m bp) cap n = if has (b_flags bp) B_READ then block m cap n
    else if decide (n = b_blkno bp) then Some (b_data bp) else block m cap n.
Proof. intros Hb. unfold served. case_if; [done|]. by apply block_insert. Qed.

Lemma bram_in_range m minor bp dev blk s : (forall n s, m !! n = Some s -> zlen s = 512) ->
  request bp dev blk -> block m BRAM_BLOCKS blk = Some s ->
  bram_strategy m minor bp = (complete bp s, served m bp).
Proof.
  intros Hm (Hd & Hb & Hz & Hc & Hl) [Hr ->]%block_Some. unfold bram_strategy, complete, served. rewrite Hc, Hb.
  rewrite (Z.geb_leb blk), (proj2 (Z.leb_gt _ _)) by lia. cbn [orb]. change (BUF_BLOCK_SIZE >? BUF_BLOCK_SIZE) with false.
  pose proof (sector_size m blk Hm). unfold BUF_BLOCK_SIZE, BLK_SIZE in *; case_if; by rewrite kmemcpy_block.
Qed.

Lemma bram_out_of_range m minor bp dev blk : request bp dev blk -> block m BRAM_BLOCKS blk = None ->
  bram_strategy m minor bp = (io_error bp, m).
Proof.
  intros (Hd & Hb & Hz & Hc & Hl) Hr%block_None; [|done]. unfold bram_strategy. rewrite Hb.
  by rewrite (Z.geb_leb blk), (proj2 (Z.leb_le _ _)).
Qed.

Lemma ramdisk_in_range st minor bp dev blk base cap s : (forall n s, base !! n = Some s -> zlen s = 512) ->
  (minor = 0 /\ base = fst st /\ cap = RAMDISK0_BLOCKS \/ minor = 1 /\ base = snd st /\ cap = RAMDISK1_BLOCKS) ->
  request bp dev blk -> block base cap blk = Some s ->
  ramdisk_strategy st minor bp = (complete bp s,
    if minor =? 0 then (served base bp, snd st) else (fst st, served base bp)).
Proof.
  intros Hm Hk (Hd & Hb & Hz & Hc & Hl) [Hr ->]%block_Some. unfold ramdisk_strategy, complete, served.
  rewrite Hc, Hb. pose proof (sector_size base blk Hm).
  destruct Hk as [(-> & -> & ->)|(-> & -> & ->)]; cbn [Z.eqb Pos.eqb];
    rewrite (Z.geb_leb blk), (proj2 (Z.leb_gt _ _)) by lia; cbn [orb];
    change (negb (BUF_BLOCK_SIZE =? BLK_SIZE)) with false; unfold BUF_BLOCK_SIZE, BLK_SIZE in *; case_if; by rewrite kmemcpy_block.
Qed.

Lemma ramdisk_out_of_range st minor bp dev blk base cap :
  (minor = 0 /\ base = fst st /\ cap = RAMDISK0_BLOCKS \/ minor = 1 /\ base = snd st /\ cap = RAMDISK1_BLOCKS) ->
  request bp dev blk -> block base cap blk = None -> ramdisk_strategy st minor bp = (io_error bp, st).
Proof.
  intros Hk (Hd & Hb & Hz & Hc & Hl) Hr%block_None; [|done]. unfold ramdisk_strategy. rewrite Hb.
  destruct Hk as [(-> & -> & ->)|(-> & -> & ->)]; cbn [Z.eqb Pos.eqb];
    by rewrite (Z.geb_leb blk), (proj2 (Z.leb_le _ _)).
Qed.

Lemma lookup_canon (d : kdevs H) m e : table_ok d -> bdev_lookup (bdev_table d) m = Some e -> m = entry_major e.
Proof. unfold bdev_lookup. case_if; [done|]. intros [Ht _]. apply Ht. Qed.

Lemma memory_devs dev : memory_dev dev ->
  (dev = 16777216 /\ MAJOR dev = 1 /\ MINOR dev = 0) \/ (dev = 50331648 /\ MAJOR dev = 3 /\ MINOR dev = 0)
  \/ (dev = 50331649 /\ MAJOR dev = 3 /\ MINOR dev = 1).
Proof. intros [->|[->| ->]]; [left|right;left|right;right]; done. Qed.

(** The content of one memory disk after it served [bp], the others unchanged. *)
Definition only_block (d d' : kdevs H) (bp : buf) (dev blk : Z) : Prop :=
  forall dev' blk', memory_dev dev' -> disk_content d' dev' blk' =
    if has (b_flags bp) B_READ then disk_content d dev' blk'
    else if decide (dev' = dev /\ blk' = blk) then Some (b_data bp) else disk_content d dev' blk'.

Lemma bram_only d bp dev blk s : table_ok d -> memory_dev dev -> request bp dev blk ->
  bdev_lookup (bdev_table d) (MAJOR dev) = Some bram_entry -> block (bram_data d) BRAM_BLOCKS blk = Some s ->
  only_block d (d <| bram_data := served (bram_data d) bp |>) bp dev blk.
Proof.
  intros Ht Hm (_ & Hb & _) El [Hr _]%block_Some dev' blk' Hm'. unfold disk_content. cbn [update bdev_table bram_data ramdisks].
  pose proof (lookup_canon _ _ _ Ht El) as Hmaj. cbn in Hmaj.
  destruct (memory_devs dev Hm) as [(-> & _)|[(_ & E & _)|(_ & E & _)]]; [|rewrite E in Hmaj; done..].
  destruct (memory_devs dev' Hm') as [(-> & _)|Hd].
  - rewrite El, served_block by lia. rewrite Hb. case_if; [done|]. repeat case_decide; naive_solver.
  - rewrite (decide_False (P := dev' = 16777216 /\ blk' = blk)) by (intros [-> _]; by destruct Hd as [[? _]|[? _]]).
    destruct (bdev_lookup (bdev_table d) (MAJOR dev')) as [e|] eqn:El'; [|by destruct (has _ B_READ)].
    pose proof (lookup_canon _ _ _ Ht El') as Hmaj'.
    destruct e; [destruct Hd as [(_ & E & _)|(_ & E & _)]; rewrite E in Hmaj'; done|by destruct (has _ B_READ)..].
Qed.

Lemma ramdisk_only d bp dev blk base cap s : table_ok d -> memory_dev dev -> request bp dev blk ->
  bdev_lookup (bdev_table d) (MAJOR dev) = Some ramdisk_entry ->
  (MINOR dev = 0 /\ base = fst (ramdisks d) /\ cap = RAMDISK0_BLOCKS
   \/ MINOR dev = 1 /\ base = snd (ramdisks d) /\ cap = RAMDISK1_BLOCKS) -> block base cap blk = Some s ->
  only_block d (d <| ramdisks := if MINOR dev =? 0 then (served base bp, snd (ramdisks d))
                                 else (fst (ramdisks d), served base bp) |>) bp dev blk.
Proof.
  intros Ht Hm (_ & Hb & _) El Hk [Hr _]%block_Some dev' blk' Hm'. unfold disk_content.
  cbn [update bdev_table bram_data ramdisks]. pose proof (lookup_canon _ _ _ Ht El) as Hmaj. cbn in Hmaj.
  destruct (bdev_lookup (bdev_table d) (MAJOR dev')) as [e|] eqn:El'.
  - pose proof (lookup_canon _ _ _ Ht El') as Hmaj'.
    destruct (memory_devs dev Hm) as [(_ & E & _)|Hd]; [rewrite E in Hmaj; done|].
    destruct (memory_devs dev' Hm') as [(-> & E' & _)|Hd'].
    + destruct e; try (rewrite E' in Hmaj'; done). case_if; [done|].
      case_decide as Hx; [|done]. destruct Hx as [<- _]. rewrite E' in Hmaj. done.
    + assert (e = ramdisk_entry) as ->.
      { destruct Hd' as [(_ & E & _)|(_ & E & _)]; rewrite E in Hmaj'; by destruct e. }
      destruct Hk as [(E1 & -> & ->)|(E1 & -> & ->)], Hd as [(-> & _ & E2)|(-> & _ & E2)],
        Hd' as [(-> & _ & E3)|(-> & _ & E3)]; rewrite E2 in E1; try done; rewrite ?E2, ?E3;
        cbn [Z.eqb Pos.eqb fst snd]; rewrite ?served_block, ?Hb by lia; destruct (has _ B_READ);
        repeat case_decide; naive_solver.
  - case_if; [done|]. case_decide as Hx; [|done]. destruct Hx as [-> _]. rewrite El in El'. done.
Qed.

Lemma kernel_in_range d dev blk bp s : table_ok d -> memory_dev dev -> request bp dev blk ->
  disk_content d dev blk = Some s ->
  exists f d', d_strategy d (MAJOR dev) = Some f /\ f (MINOR dev) bp = (complete bp s, d')
    /\ table_ok d' /\ only_block d d' bp dev blk.
Proof.
  intros Ht Hm Hq Hc. pose proof Ht as (T1 & T2 & T3 & T4). pose proof Hq as (_ & _ & _ & _ & Hl).
  unfold d_strategy, kernel_devs. unfold disk_content in Hc.
  destruct (bdev_lookup (bdev_table d) (MAJOR dev)) as [[]|] eqn:El; try done.
  - eexists _, _. split; [done|]. cbn beta. rewrite (bram_in_range _ _ _ _ _ _ T2 Hq Hc). split_and!; [done| |].
    + split_and!; try done. by apply served_sizes.
    + by eapply bram_only.
  - assert (exists base cap, block base cap blk = Some s /\
      (MINOR dev = 0 /\ base = fst (ramdisks d) /\ cap = RAMDISK0_BLOCKS
       \/ MINOR dev = 1 /\ base = snd (ramdisks d) /\ cap = RAMDISK1_BLOCKS)) as (base & cap & Hs & Hk).
    { repeat case_if_in Hc; bool_prop; try done; eexists _, _; (split; [exact Hc|]); auto. }
    assert (Hz : forall n s, base !! n = Some s -> zlen s = 512) by (destruct Hk as [(_ & -> & _)|(_ & -> & _)]; done).
    eexists _, _. split; [done|]. cbn beta. rewrite (ramdisk_in_range _ _ _ _ _ _ _ _ Hz Hk Hq Hs). split_and!.
    + done.
    + split_and!; cbn [update bdev_table bram_data ramdisks]; try done; case_if; cbn [fst snd]; try done;
        by apply served_sizes.
    + by eapply ramdisk_only.
Qed.

Lemma kernel_out_of_range d dev blk bp : table_ok d -> memory_dev dev -> request bp dev blk ->
  disk_content d dev blk = None -> forall f, d_strategy d (MAJOR dev) = Some f -> f (MINOR dev) bp = (io_error bp, d).
Proof.
  intros Ht Hm Hq Hc f. pose proof Hq as (_ & _ & Hz & _). unfold d_strategy, kernel_devs. unfold disk_content in Hc.
  destruct (bdev_lookup (bdev_table d) (MAJOR dev)) as [e|] eqn:El; [|done].
  pose proof (lookup_canon _ _ _ Ht El) as Hmaj.
  destruct (memory_devs dev Hm) as [(_ & E & E2)|[(_ & E & E2)|(_ & E & E2)]]; rewrite E in Hmaj; destruct e; try done;
    intros [= <-]; rewrite E2 in *; cbn [Z.eqb Pos.eqb] in Hc.
  - rewrite (bram_out_of_range _ _ _ _ _ Hq Hc). by destruct d.
  - erewrite ramdisk_out_of_range; [|by left|done|done]. by destruct d as [? ? [] ? ?].
  - erewrite ramdisk_out_of_range; [|by right|done|done]. by destruct d as [? ? [] ? ?].
Qed.

Lemma disk_content_size d dev blk s : table_ok d -> disk_content d dev blk = Some s -> zlen s = 512.
Proof.
  intros (_ & T2 & T3 & T4). unfold disk_content.
  destruct (bdev_lookup _ _) as [[]|]; try done; repeat case_if; try done;
    intros [_ ->]%block_Some; by apply sector_size.
Qed.

Lemma memory_dev_real dev : memory_dev dev -> dev <> NODEV.
Proof. intros [(-> & _)|[(-> & _)|(-> & _)]]%memory_devs; done. Qed.

#[local] Instance memory_dev_dec dev : Decision (memory_dev dev).
Proof. unfold memory_dev. apply _. Defined.

#[export] Instance kernel_disks : DiskLaws (kdevs H) := {|
  serves := memory_dev; serves_dec := memory_dev_dec; disk_ok := table_ok; content := disk_content;
  content_size := disk_content_size; serves_dev := memory_dev_real;
  io_in_range := kernel_in_range;
  io_out_of_range := fun d dev blk bp Ht Hm Hq Hc f Hf =>
    ex_intro _ d (conj (kernel_out_of_range d dev blk bp Ht Hm Hq Hc f Hf) (conj Ht (fun _ _ _ => eq_refl)))
|}.

End Kernel.

End BlockDev.
