(* ===== verification/Buf.v ===== *)
(** * The buffer cache: [uts/os/io/buf.c]

    The cache keeps copies of 512-byte blocks in a fixed pool of buffers, found by a
    hash of device and block number and reused in least-recently-used order; a
    buffer that a thread holds is marked [B_BUSY] and off the LRU list.  A call that
    would put the thread to sleep is the outcome [Park]. *)

From stdpp Require Import base numbers list gmap.
From Stdlib Require Import ZArith Lia Bool.
From S2P Require Import Prelude Links BlockDev.

Module Buf.

Import Links BlockDev.

Definition BUF_POOL_SIZE : Z := 64.
Definition BUF_HASH_BUCKETS : Z := 16.

(** ** The cache *)

Section Cache.
Context {D : Type} `{!BlockDevs D}.

(** The statics of [buf.c], and the devices. *)
Record cache := mk_cache {
  buf_pool : gmap Z buf;
  buf_hash : gmap Z Z;
  lru_head : Z;
  lru_tail : Z;
  devs : D
}.

#[export] Instance rebuild_cache : Rebuild cache :=
  rpure mk_cache <:> buf_pool <:> buf_hash <:> lru_head <:> lru_tail <:> devs.

(** A call returns, or the thread parks on a buffer's wait queue. *)
Inductive outcome (A : Type) :=
| Ret (a : A) (c : cache)
| Park (bp : Z) (c : cache).
#[global] Arguments Ret {A}.
#[global] Arguments Park {A}.

Definition bind {A B : Type} (r : outcome A) (k : A -> cache -> outcome B) : outcome B :=
  match r with Ret a c => k a c | Park bp c => Park bp c end.

Definition no_buf : buf := mk_buf 0 0 0 0 0 0 [] 0 0 0.

(** [*bp], and an assignment to fields of [*bp]. *)
Definition deref (c : cache) (bp : Z) : buf := default no_buf (buf_pool c !! bp).
Definition assign (c : cache) (bp : Z) (f : buf -> buf) : cache := c <| buf_pool := alter f bp (buf_pool c) |>.

Definition buf_hash_idx (dev blkno : Z) : Z :=
  Z.land (Z.lxor (u64 (dev * 31)) blkno) (BUF_HASH_BUCKETS - 1).

Definition lru_unlink (c : cache) (bp : Z) : cache :=
  let c := if negb (lru_prev (deref c bp) =? 0)
           then assign c (lru_prev (deref c bp)) (fun b => b <| lru_next := lru_next (deref c bp) |>)
           else c <| lru_head := lru_next (deref c bp) |> in
  let c := if negb (lru_next (deref c bp) =? 0)
           then assign c (lru_next (deref c bp)) (fun b => b <| lru_prev := lru_prev (deref c bp) |>)
           else c <| lru_tail := lru_prev (deref c bp) |> in
  assign c bp (fun b => b <| lru_next := 0 |> <| lru_prev := 0 |>).

Definition lru_insert_tail (c : cache) (bp : Z) : cache :=
  let c := assign c bp (fun b => b <| lru_prev := lru_tail c |> <| lru_next := 0 |>) in
  let c := if negb (lru_tail c =? 0)
           then assign c (lru_tail c) (fun b => b <| lru_next := bp |>)
           else c <| lru_head := bp |> in
  c <| lru_tail := bp |>.

Definition bucket (c : cache) (h : Z) : Z := default 0 (buf_hash c !! h).

Definition hash_insert (c : cache) (bp : Z) : cache :=
  let h := buf_hash_idx (b_dev (deref c bp)) (b_blkno (deref c bp)) in
  let c := assign c bp (fun b => b <| hash_next := bucket c h |>) in
  c <| buf_hash := <[h := bp]> (buf_hash c) |>.

(** The walk of [hash_remove] once [*link] is the [hash_next] of buffer [p]. *)
Fixpoint hash_unchain (fuel : nat) (c : cache) (p bp : Z) : cache :=
  match fuel with
  | O => c
  | S fuel =>
      let n := hash_next (deref c p) in
      if n =? 0 then c
      else if n =? bp then assign c p (fun b => b <| hash_next := hash_next (deref c bp) |>)
      else hash_unchain fuel c n bp
  end.

Definition hash_remove (c : cache) (bp : Z) : cache :=
  let h := buf_hash_idx (b_dev (deref c bp)) (b_blkno (deref c bp)) in
  let c := if bucket c h =? 0 then c
           else if bucket c h =? bp then c <| buf_hash := <[h := hash_next (deref c bp)]> (buf_hash c) |>
           else hash_unchain (S (size (buf_pool c))) c (bucket c h) bp in
  assign c bp (fun b => b <| hash_next := 0 |>).

(** The loop of [hash_lookup]. *)
Fixpoint hash_find (fuel : nat) (c : cache) (bp dev blkno : Z) : Z :=
  match fuel with
  | O => 0
  | S fuel =>
      if bp =? 0 then 0
      else if (b_dev (deref c bp) =? dev) && (b_blkno (deref c bp) =? blkno) then bp
      else hash_find fuel c (hash_next (deref c bp)) dev blkno
  end.

Definition hash_lookup (c : cache) (dev blkno : Z) : Z :=
  hash_find (S (size (buf_pool c))) c (bucket c (buf_hash_idx dev blkno)) dev blkno.

(** One round of [buf_init], with the page [kmalloc] gave, if it gave one. *)
Definition init_slot (c : cache) (bp : Z) (page : bytes) : cache :=
  lru_insert_tail (assign c bp (fun b => b <| b_data := page |> <| b_dev := NODEV |> <| b_blkno := 0 |>
    <| b_bcount := BUF_BLOCK_SIZE |> <| b_flags := 0 |> <| b_error := 0 |>)) bp.

(** [buf_init]: the loop over the slots from [bp] on ends early when [kmalloc]
    has no more pages. *)
Fixpoint init_slots (n : nat) (c : cache) (bp : Z) (pages : list bytes) : cache :=
  match n, pages with
  | S n, page :: pages => init_slots n (init_slot c bp page) (bp + 1) pages
  | _, _ => c
  end.

Definition buf_init (c : cache) (pages : list bytes) : cache :=
  init_slots (Z.to_nat BUF_POOL_SIZE) c 1 pages.

Definition brelse (c : cache) (bp : Z) : cache :=
  if bp =? 0 then c
  else lru_insert_tail (assign c bp (fun b => clr_flags b B_BUSY)) bp.

(** [biowait]: sleep until [B_DONE]; then [-1] for an error. *)
Definition biowait (c : cache) (bp : Z) : outcome Z :=
  if bp =? 0 then Ret (-1) c
  else if has (b_flags (deref c bp)) B_DONE then
    Ret (if has (b_flags (deref c bp)) B_ERROR then -1 else 0) c
  else Park bp c.

Definition strategy_and_wait (c : cache) (bp : Z) : outcome Z :=
  match d_strategy (devs c) (MAJOR (b_dev (deref c bp))) with
  | None => Ret (-1) (assign c bp (fun b => (set_flags b (Z.lor B_ERROR B_DONE)) <| b_error := -1 |>))
  | Some strategy =>
      let c := assign c bp (fun b => (clr_flags b (Z.lor B_DONE B_ERROR)) <| b_resid := 0 |>) in
      let '(b, d) := strategy (MINOR (b_dev (deref c bp))) (deref c bp) in
      let c := (assign c bp (fun _ => b)) <| devs := d |> in
      bind (biowait c bp) (fun _ c =>
        Ret (if has (b_flags (deref c bp)) B_ERROR then -1 else 0) c)
  end.

Definition bwrite (c : cache) (bp : Z) : outcome Z :=
  if bp =? 0 then Ret (-1) c
  else
    let c := assign c bp (fun b => set_flags (b <| b_bcount := BUF_BLOCK_SIZE |>) B_WRITE) in
    bind (strategy_and_wait c bp) (fun rc c =>
      let c := assign c bp (fun b => clr_flags b B_WRITE) in
      if rc <? 0 then Ret (-1) (brelse c bp)
      else
        let c := assign c bp (fun b => clr_flags (set_flags b B_VALID) B_DELWRI) in
        Ret 0 (brelse c bp)).

Definition evict_one (c : cache) : outcome Z :=
  let bp := lru_head c in
  if bp =? 0 then Ret 0 c
  else
    let c := lru_unlink c bp in
    bind (if has (b_flags (deref c bp)) B_DELWRI then bwrite c bp else Ret 0 c) (fun _ c =>
      let c := if negb (b_dev (deref c bp) =? NODEV) then hash_remove c bp else c in
      Ret bp (assign c bp (fun b => b <| b_flags := B_BUSY |>))).

Definition getblk (c : cache) (dev blkno : Z) : outcome Z :=
  let bp := hash_lookup c dev blkno in
  if negb (bp =? 0) then
    if has (b_flags (deref c bp)) B_BUSY then Park bp c
    else Ret bp (assign (lru_unlink c bp) bp (fun b => set_flags b B_BUSY))
  else
    bind (evict_one c) (fun bp c =>
      if bp =? 0 then Ret 0 c
      else Ret bp (hash_insert (assign c bp (fun b => b <| b_dev := dev |> <| b_blkno := blkno |>
             <| b_bcount := BUF_BLOCK_SIZE |> <| b_flags := B_BUSY |> <| b_error := 0 |>)) bp)).

(** The part of [bread] after [getblk] returned a buffer. *)
Definition bread_fill (c : cache) (bp : Z) : outcome Z :=
  if has (b_flags (deref c bp)) B_VALID then Ret bp c
  else
    let c := assign c bp (fun b => set_flags (b <| b_bcount := BUF_BLOCK_SIZE |>) B_READ) in
    bind (strategy_and_wait c bp) (fun rc c =>
      if rc <? 0 then Ret 0 (brelse c bp)
      else Ret bp (assign c bp (fun b => clr_flags (set_flags b B_VALID) B_READ))).

Definition bread (c : cache) (dev blkno : Z) : outcome Z :=
  bind (getblk c dev blkno) (fun bp c => if bp =? 0 then Ret 0 c else bread_fill c bp).

Definition bdwrite (c : cache) (bp : Z) : cache :=
  if bp =? 0 then c else brelse (assign c bp (fun b => set_flags b (Z.lor B_DELWRI B_VALID))) bp.

Definition bawrite (c : cache) (bp : Z) : cache := bdwrite c bp.

(** [uts/os/fs/kfs.c]: a block in and out of the cache; [None] is [-1]. *)
Definition bd_read_block (c : cache) (dev blkno : Z) : outcome (option bytes) :=
  bind (bread c dev blkno) (fun bp c =>
    if bp =? 0 then Ret None c
    else Ret (Some (take 512 (b_data (deref c bp)))) (brelse c bp)).

Definition bd_write_block (c : cache) (dev blkno : Z) (inp : bytes) : outcome Z :=
  bind (getblk c dev blkno) (fun bp c =>
    if bp =? 0 then Ret (-1) c
    else bwrite (assign c bp (fun b => set_flags (b <| b_data := kmemcpy (b_data b) inp BUF_BLOCK_SIZE |>) B_VALID)) bp).

End Cache.

#[global] Arguments cache : clear implicits.
#[global] Arguments outcome : clear implicits.

End Buf.
