(* ===== verification/BufInv.v ===== *)
(** * The buffer cache is coherent: theorems on [uts/os/io/buf.c]

    The LRU list and the hash chains as lists, the invariant that ties them to the
    buffers' flags and the buffers' contents to the devices, and that every operation
    keeps it, for any number of threads holding buffers at once. *)

From stdpp Require Import functions base numbers list gmap.
From Stdlib Require Import ZArith Lia Bool.
From S2P Require Import Prelude Links BlockDev Buf.

Module BufInv.

Import Links BlockDev Buf.

(** ** Flags *)

Lemma has_lor f m k : has (Z.lor f m) k = has f k || has m k.
Proof.
  unfold has. rewrite Z.land_lor_distr_l.
  destruct (Z.eqb_spec (Z.land f k) 0) as [->|H1]; [done|]. cbn [negb orb].
  apply negb_true_iff, Z.eqb_neq. intros [E _]%Z.lor_eq_0_iff. done.
Qed.

Lemma has_land f m k : has (Z.land f m) k = has f (Z.land m k).
Proof. unfold has. by rewrite Z.land_assoc. Qed.

Lemma has_0 f : has f 0 = false.
Proof. unfold has. by rewrite Z.land_0_r. Qed.

Ltac flags := unfold biodone; unfold set_flags, clr_flags;
  cbn [update b_flags b_dev b_blkno b_bcount b_data b_resid b_error lru_prev lru_next hash_next];
  repeat match goal with
  | |- context [has (Z.lor ?f ?m) ?k] => rewrite (has_lor f m k)
  | |- context [has (Z.land ?f ?m) ?k] =>
      rewrite (has_land f m k); first [change (Z.land m k) with k | change (Z.land m k) with 0]
  | |- context [has ?f 0] => rewrite (has_0 f)
  | |- context [has ?m ?k] =>
      lazymatch m with
      | context [b_flags] => fail
      | _ => let v := eval vm_compute in (has m k) in change (has m k) with v
      end
  end;
  rewrite ?orb_false_r, ?orb_true_r; cbn [orb].

(** ** The LRU list *)

Section Inv.
Context {D : Type} `{!BlockDevs D} `{!DiskLaws D}.
Implicit Types (c : cache D) (lru : list Z) (hc : Z -> list Z).

Notation lseg := (dseg lru_next lru_prev).

(** What of a buffer the LRU list does not touch. *)
Definition off_lru (b : buf) : buf := b <| lru_prev := 0 |> <| lru_next := 0 |>.

Lemma lookup_assign c x f : buf_pool (assign c x f) = alter f x (buf_pool c).
Proof. done. Qed.

Lemma deref_lookup c x b : buf_pool c !! x = Some b -> deref c x = b.
Proof. unfold deref. by intros ->. Qed.

Lemma deref_assign c x f b : buf_pool c !! x = Some b -> deref (assign c x f) x = f b.
Proof. intros Hb. unfold deref. cbn. by rewrite lookup_alter_eq, Hb. Qed.

Lemma deref_assign_ne c x y f : x <> y -> deref (assign c x f) y = deref c y.
Proof. intros Hn. unfold deref. cbn. by rewrite lookup_alter_ne. Qed.

(** The ends of a segment. *)
Lemma lseg_end m p a l e n : lseg m p a l e n -> match last l with Some y => e = y | None => e = p end.
Proof.
  destruct l as [|x l _] using rev_ind; [by intros [-> _]|]. rewrite last_snoc.
  intros (e1 & n1 & _ & (-> & _ & b & _ & _ & -> & _))%dseg_app. done.
Qed.

Lemma lseg_head m p a l e n : lseg m p a l e n -> match l with y :: _ => a = y | [] => a = n end.
Proof. destruct l; cbn; [by intros [_ ->]|by intros [-> _]]. Qed.

(** The stores of [lru_unlink]; a NULL neighbour has none. *)
Definition point_next (m : gmap Z buf) (y v : Z) : gmap Z buf :=
  if y =? 0 then m else alter (fun b => b <| lru_next := v |>) y m.
Definition point_prev (m : gmap Z buf) (y v : Z) : gmap Z buf :=
  if y =? 0 then m else alter (fun b => b <| lru_prev := v |>) y m.

Lemma lru_unlink_eq c x b : buf_pool c !! x = Some b -> lru_prev b <> x -> lru_next b <> x ->
  lru_unlink c x = mk_cache
    (alter (fun b => b <| lru_next := 0 |> <| lru_prev := 0 |>) x
       (point_prev (point_next (buf_pool c) (lru_prev b) (lru_next b)) (lru_next b) (lru_prev b)))
    (buf_hash c) (if lru_prev b =? 0 then lru_next b else lru_head c)
    (if lru_next b =? 0 then lru_prev b else lru_tail c) (devs c).
Proof.
  intros Hb Hp Hn. unfold lru_unlink, point_prev, point_next. rewrite (deref_lookup _ _ _ Hb).
  destruct (Z.eqb_spec (lru_prev b) 0) as [E|E]; cbn [negb].
  - set (c1 := c <| lru_head := lru_next b |>). assert (deref c1 x = b) as -> by exact (deref_lookup c x b Hb).
    by destruct (Z.eqb_spec (lru_next b) 0).
  - set (c1 := assign c _ _). assert (deref c1 x = b) as -> by (unfold c1; by rewrite deref_assign_ne, (deref_lookup c x b Hb)).
    by destruct (Z.eqb_spec (lru_next b) 0).
Qed.

Lemma point_next_view m y v : same_view off_lru m (point_next m y v).
Proof. unfold point_next. case_if; [done|]. by apply same_view_alter. Qed.
Lemma point_prev_view m y v : same_view off_lru m (point_prev m y v).
Proof. unfold point_prev. case_if; [done|]. by apply same_view_alter. Qed.

Lemma point_next_other m y v l p a e n : y ∉ l -> lseg m p a l e n -> lseg (point_next m y v) p a l e n.
Proof. intros Hy Hs. unfold point_next. case_if; [done|]. by apply dseg_alter. Qed.
Lemma point_prev_other m y v l p a e n : y ∉ l -> lseg m p a l e n -> lseg (point_prev m y v) p a l e n.
Proof. intros Hy Hs. unfold point_prev. case_if; [done|]. by apply dseg_alter. Qed.

(** The list before [x], once its last element points to [v]. *)
Lemma point_next_end m a l e n v : lseg m 0 a l e n -> NoDup l ->
  lseg (point_next m e v) 0 (if e =? 0 then v else a) l e v.
Proof.
  intros Hs Hd. destruct l as [|y l _] using rev_ind; [destruct Hs as [-> _]; done|].
  pose proof (dseg_lookup _ _ _ _ _ _ y Hs) as [Hy _]; [apply elem_of_app; right; by apply list_elem_of_singleton|].
  pose proof (lseg_end _ _ _ _ _ _ Hs) as He. rewrite last_snoc in He. subst e.
  unfold point_next. rewrite (proj2 (Z.eqb_neq _ _) Hy).
  apply NoDup_app in Hd as (_ & Hd & _). eapply dseg_retarget; [done|exact Hs|].
  intros Hin. apply (Hd y Hin). by apply list_elem_of_singleton.
Qed.

(** The list after [x], once its first element points back to [v]. *)
Lemma point_prev_start m p a l e v : lseg m p a l e 0 -> NoDup l ->
  lseg (point_prev m a v) v a l (if a =? 0 then v else e) 0.
Proof.
  intros Hs Hd. destruct l as [|y l]; [destruct Hs as [_ <-]; done|].
  pose proof Hs as (-> & Hy & _). unfold point_prev. rewrite (proj2 (Z.eqb_neq _ _) Hy).
  apply NoDup_cons in Hd as [Hn _]. by eapply dseg_repoint.
Qed.

Lemma lru_unlink_ok c x l1 l2 : lseg (buf_pool c) 0 (lru_head c) (l1 ++ x :: l2) (lru_tail c) 0 ->
  NoDup (l1 ++ x :: l2) ->
  let c' := lru_unlink c x in
  lseg (buf_pool c') 0 (lru_head c') (l1 ++ l2) (lru_tail c') 0
  /\ same_view off_lru (buf_pool c) (buf_pool c') /\ buf_hash c' = buf_hash c /\ devs c' = devs c.
Proof.
  intros (e1 & n1 & Hs1 & (-> & Hx & b & Hb & Hp & Hs2))%dseg_app (Hd1 & Hd12 & [Hx2 Hd2]%NoDup_cons)%NoDup_app.
  assert (Hx1 : x ∉ l1) by (intros Hin; apply (Hd12 x Hin), elem_of_cons; by left).
  assert (Hz : forall l p a e n, lseg (buf_pool c) p a l e n -> 0 ∉ l) by (intros * Hs Hin; by destruct (dseg_lookup _ _ _ _ _ _ _ Hs Hin)).
  pose proof (lseg_end _ _ _ _ _ _ Hs1) as He. pose proof (lseg_head _ _ _ _ _ _ Hs2) as Hh.
  assert (He' : e1 = 0 \/ e1 ∈ l1) by (destruct (last l1) eqn:E; [right; subst; by apply last_Some_elem_of|by left]).
  assert (Hn' : lru_next b = 0 \/ lru_next b ∈ l2) by (destruct l2; [by left|right; rewrite Hh; apply elem_of_cons; by left]).
  rewrite (lru_unlink_eq c x b); [|done|rewrite Hp; intros ->; destruct He'; [by subst|done]|intros E; rewrite E in Hn'; destruct Hn'; [by subst|done]].
  cbn [buf_pool buf_hash lru_head lru_tail devs]. rewrite Hp. split_and!; try done.
  - apply dseg_alter; [rewrite elem_of_app; tauto|]. apply dseg_app. exists e1, (lru_next b). split.
    + apply point_prev_other; [|by eapply point_next_end].
      destruct Hn' as [->|Hn']; [by eapply Hz|]. intros Hin. apply (Hd12 _ Hin), elem_of_cons. by right.
    + eapply point_prev_start; [|done]. apply point_next_other; [|exact Hs2].
      destruct He' as [->|He']; [by eapply Hz|]. intros Hin. apply (Hd12 _ He'), elem_of_cons. by right.
  - eapply same_view_trans; [|by apply same_view_alter]. eapply same_view_trans; [apply point_next_view|apply point_prev_view].
Qed.

Lemma lru_insert_tail_ok c x b l : lseg (buf_pool c) 0 (lru_head c) l (lru_tail c) 0 -> NoDup l ->
  buf_pool c !! x = Some b -> x <> 0 -> x ∉ l ->
  let c' := lru_insert_tail c x in
  lseg (buf_pool c') 0 (lru_head c') (l ++ [x]) (lru_tail c') 0
  /\ same_view off_lru (buf_pool c) (buf_pool c') /\ buf_hash c' = buf_hash c /\ devs c' = devs c.
Proof.
  intros Hs Hd Hb Hx Hn. set (c1 := assign c x (fun b => b <| lru_prev := lru_tail c |> <| lru_next := 0 |>)).
  assert (Hs1 : lseg (buf_pool c1) 0 (lru_head c) l (lru_tail c) 0) by by apply dseg_alter.
  assert (Hv1 : same_view off_lru (buf_pool c) (buf_pool c1)) by by apply same_view_alter.
  assert (E : lru_insert_tail c x = mk_cache (point_next (buf_pool c1) (lru_tail c) x) (buf_hash c)
    (if lru_tail c =? 0 then x else lru_head c) x (devs c)).
  { unfold lru_insert_tail, point_next. fold c1. change (lru_tail c1) with (lru_tail c). by destruct (lru_tail c =? 0). }
  rewrite E. cbn [buf_pool buf_hash lru_head lru_tail devs]. split_and!; try done.
  - apply dseg_app. exists (lru_tail c), x. split; [by eapply point_next_end|].
    split_and!; [done|done|]. exists (b <| lru_prev := lru_tail c |> <| lru_next := 0 |>). split; [|done].
    unfold point_next, c1. rewrite lookup_assign. case_if; bool_prop.
    + by rewrite lookup_alter_eq, Hb.
    + rewrite lookup_alter_ne, lookup_alter_eq, Hb; [done|].
      pose proof (lseg_end _ _ _ _ _ _ Hs) as He. destruct (last l) as [y|] eqn:El; [|done].
      subst y. intros E2. rewrite E2 in El. by apply Hn, last_Some_elem_of.
  - eapply same_view_trans; [exact Hv1|apply point_next_view].
Qed.

(** ** The hash chains *)

Notation hchain := (lchain hash_next).

(** The chains [hc] hold every buffer that stands for a block, in the bucket of its
    number, but for [out], and no block twice. *)
Record hash_ok (m : gmap Z buf) (bk : Z -> Z) (hc : Z -> list Z) (out : Z) : Prop := {
  h_chain : forall h, hchain m (bk h) (hc h) /\ NoDup (hc h);
  h_in : forall x b h, m !! x = Some b ->
    x ∈ hc h <-> x <> out /\ b_dev b <> NODEV /\ h = buf_hash_idx (b_dev b) (b_blkno b);
  h_key : forall x y b d, x <> out -> y <> out -> m !! x = Some b -> m !! y = Some d ->
    b_dev b <> NODEV -> b_dev d = b_dev b -> b_blkno d = b_blkno b -> x = y;
  h_null : m !! 0 = None
}.

Lemma hash_ok_nz m bk hc out x b : hash_ok m bk hc out -> m !! x = Some b -> x <> 0.
Proof. intros Hh Hb ->. by rewrite (h_null _ _ _ _ Hh) in Hb. Qed.

Definition hkey (b : buf) : Z * Z := (b_dev b, b_blkno b).

(** The numbers may be read in a store that only differs elsewhere. *)
Lemma hash_ok_view m m' bk hc out : same_view (fun b => (hkey b, hash_next b)) m m' ->
  hash_ok m bk hc out -> hash_ok m' bk hc out.
Proof.
  intros Hv [H1 H2 H3 H4]. split.
  - intros h. destruct (H1 h) as [Hc Hd]. split; [|done]. eapply lchain_ext; [|exact Hc].
    intros x n _ Hn. destruct (same_view_fwd _ _ _ _ _ Hv Hn) as (n' & Hn' & [= _ _ E]). by exists n'.
  - intros x b h Hb. destruct (same_view_Some _ _ _ _ _ Hv Hb) as (b0 & Hb0 & [= <- <- _]). by apply H2.
  - intros x y b d Hx Hy Hb Hd' Hne E1 E2.
    destruct (same_view_Some _ _ _ _ _ Hv Hb) as (b0 & Hb0 & [= F1 F2 _]).
    destruct (same_view_Some _ _ _ _ _ Hv Hd') as (d0 & Hd0 & [= G1 G2 _]).
    apply (H3 x y b0 d0); congruence.
  - specialize (Hv 0). rewrite H4 in Hv. by destruct (m' !! 0).
Qed.

Lemma hash_find_ok c dev blk l : forall fuel a, hchain (buf_pool c) a l -> (length l < fuel)%nat ->
  let y := hash_find fuel c a dev blk in
  (y ∈ l /\ y <> 0 /\ exists b, buf_pool c !! y = Some b /\ b_dev b = dev /\ b_blkno b = blk)
  \/ (y = 0 /\ forall z b, z ∈ l -> buf_pool c !! z = Some b -> ~ (b_dev b = dev /\ b_blkno b = blk)).
Proof.
  induction l as [|x l IH]; intros [|fuel] a Hl Hf; try (cbn in Hf; lia); cbn [hash_find lchain] in *.
  - subst a. right. split; [done|]. by intros z b ?%elem_of_nil.
  - destruct Hl as (-> & Hx & b & Hb & Hl). rewrite (proj2 (Z.eqb_neq _ _) Hx), (deref_lookup _ _ _ Hb).
    case_if.
    + bool_prop. left. split_and!; [apply elem_of_cons; by left|done|]. by exists b.
    + destruct (IH fuel (hash_next b) Hl) as [(H1 & H2 & H3)|[-> H2]]; [cbn in Hf; lia| |].
      * left. split_and!; [apply elem_of_cons; by right|done|done].
      * right. split; [done|]. intros z d [->|Hz]%elem_of_cons Hd; [|by apply (H2 z d)].
        rewrite Hb in Hd. injection Hd as <-. intros [E1 E2]. rewrite <- E1, <- E2, !Z.eqb_refl in E. done.
Qed.

Lemma hash_lookup_ok c hc dev blk : hash_ok (buf_pool c) (bucket c) hc 0 -> dev <> NODEV ->
  let y := hash_lookup c dev blk in
  (y <> 0 /\ exists b, buf_pool c !! y = Some b /\ b_dev b = dev /\ b_blkno b = blk)
  \/ (y = 0 /\ forall z b, buf_pool c !! z = Some b -> ~ (b_dev b = dev /\ b_blkno b = blk)).
Proof.
  intros Hh Hdev. destruct (h_chain _ _ _ _ Hh (buf_hash_idx dev blk)) as [Hc Hd].
  pose proof (lchain_length _ _ _ Hc Hd) as Hlen.
  destruct (hash_find_ok c dev blk _ (S (size (buf_pool c))) _ Hc) as [(_ & H1 & H2)|[H1 H2]]; [lia|by left|right].
  split; [done|]. intros z b Hb [E1 E2]. apply (H2 z b); [|done|done].
  apply (h_in _ _ _ _ Hh z b); [done|]. rewrite E1, E2. split_and!; try done. by eapply hash_ok_nz.
Qed.

(** Cutting [x] out behind [p]. *)
Lemma hash_unchain_ok c x b l2 : buf_pool c !! x = Some b -> x <> 0 -> forall l1 fuel p,
  hchain (buf_pool c) p (p :: l1 ++ x :: l2) -> NoDup (p :: l1 ++ x :: l2) -> (length l1 < fuel)%nat ->
  exists q, q ∈ p :: l1 /\ hash_unchain fuel c p x = assign c q (fun d => d <| hash_next := hash_next b |>)
    /\ hchain (alter (fun d => d <| hash_next := hash_next b |>) q (buf_pool c)) p (p :: l1 ++ l2).
Proof.
  intros Hb Hx. induction l1 as [|y l1 IH]; intros [|fuel] p (_ & Hp & d & Hd & Hl) Hnd Hf; try (cbn in Hf; lia);
    apply NoDup_cons in Hnd as [Hpn Hnd]; cbn [hash_unchain app lchain] in *; rewrite (deref_lookup _ _ _ Hd).
  - exists p. split; [apply elem_of_cons; by left|]. destruct Hl as (E & _ & b' & Hb' & Hl).
    rewrite Hb in Hb'. injection Hb' as <-. rewrite E, (proj2 (Z.eqb_neq _ _) Hx), Z.eqb_refl, (deref_lookup _ _ _ Hb).
    split; [done|]. split_and!; [done|done|]. eexists. rewrite lookup_alter_eq, Hd. split; [done|].
    apply lchain_alter; [|done]. intros Hin. apply Hpn, elem_of_cons. by right.
  - pose proof Hl as (E & Hy & _). rewrite E, (proj2 (Z.eqb_neq _ _) Hy).
    assert (y <> x) as Hyx.
    { intros ->. apply NoDup_cons in Hnd as [Hn _]. apply Hn, elem_of_app. right. apply elem_of_cons. by left. }
    rewrite (proj2 (Z.eqb_neq _ _) Hyx). rewrite E in Hl.
    destruct (IH fuel y Hl Hnd) as (q & Hq & Heq & Hch); [cbn in Hf; lia|].
    exists q. split_and!; [apply elem_of_cons; by right|done|done|done|].
    exists d. rewrite lookup_alter_ne, E; [done|]. intros ->. apply Hpn. set_solver.
Qed.

(** A chain of another bucket does not see a change of a hashed buffer. *)
Lemma other_bucket m bk hc out f q h0 h : hash_ok m bk hc out -> q ∈ hc h0 -> h <> h0 ->
  hchain (alter f q m) (bk h) (hc h).
Proof.
  intros Hh Hq Hne. destruct (h_chain _ _ _ _ Hh h) as [Hc _]. apply lchain_alter; [|done]. intros Hin.
  destruct (h_chain _ _ _ _ Hh h0) as [Hc0 _]. destruct (lchain_lookup _ _ _ _ Hc0 Hq) as [_ [b Hb]].
  apply (h_in _ _ _ _ Hh q b _ Hb) in Hq as (_ & _ & ->). by apply (h_in _ _ _ _ Hh q b _ Hb) in Hin as (_ & _ & ->).
Qed.

(** [hash_remove] up to its last statement: the chain of [x] loses [x]. *)
Lemma hash_cut_ok c hc x b : hash_ok (buf_pool c) (bucket c) hc 0 -> buf_pool c !! x = Some b -> x <> 0 ->
  b_dev b <> NODEV ->
  let h0 := buf_hash_idx (b_dev b) (b_blkno b) in
  exists l1 l2 c1, hc h0 = l1 ++ x :: l2
    /\ hash_remove c x = assign c1 x (fun b => b <| hash_next := 0 |>)
    /\ (forall h, hchain (buf_pool c1) (bucket c1 h) (if decide (h = h0) then l1 ++ l2 else hc h))
    /\ same_view (fun b => b <| hash_next := 0 |>) (buf_pool c) (buf_pool c1)
    /\ lru_head c1 = lru_head c /\ lru_tail c1 = lru_tail c /\ devs c1 = devs c.
Proof.
  intros Hh Hb Hx Hdev h0. destruct (h_chain _ _ _ _ Hh h0) as [Hc Hd].
  assert (Hin : x ∈ hc h0) by by apply (h_in _ _ _ _ Hh x b).
  destruct (list_elem_of_split _ _ Hin) as (l1 & l2 & El). unfold hash_remove.
  rewrite (deref_lookup _ _ _ Hb). fold h0. exists l1, l2. rewrite El in Hc, Hd.
  pose proof (lchain_length _ _ _ Hc Hd) as Hlen. rewrite length_app in Hlen.
  destruct l1 as [|p l1]; cbn [app length] in *.
  - destruct Hc as (E & _ & b' & Hb' & Hc). rewrite Hb in Hb'. injection Hb' as <-.
    rewrite E, (proj2 (Z.eqb_neq _ _) Hx), Z.eqb_refl.
    eexists. split_and!; try done. intros h. cbn. unfold bucket. cbn. case_decide as Eh.
    + subst h. by rewrite lookup_insert_eq.
    + rewrite lookup_insert_ne by done. apply (h_chain _ _ _ _ Hh h).
  - pose proof Hc as (E & Hp & _). rewrite E, (proj2 (Z.eqb_neq _ _) Hp).
    assert (p <> x) as Hpx.
    { intros ->. apply NoDup_cons in Hd as [Hn _]. apply Hn, elem_of_app. right. apply elem_of_cons. by left. }
    rewrite (proj2 (Z.eqb_neq _ _) Hpx). rewrite E in Hc.
    destruct (hash_unchain_ok c x b l2 Hb Hx l1 (S (size (buf_pool c))) p Hc Hd) as (q & Hq & -> & Hch); [lia|].
    eexists. split; [done|]. split; [done|]. split_and!; try done; [|by apply same_view_alter].
    intros h. rewrite lookup_assign. change (bucket (assign c q _) h) with (bucket c h). case_decide as Eh.
    + subst h. by rewrite E.
    + apply (other_bucket _ _ _ _ _ _ h0 _ Hh); [|done]. rewrite El. set_solver.
Qed.

Lemma hash_remove_ok c hc x b : hash_ok (buf_pool c) (bucket c) hc 0 -> buf_pool c !! x = Some b -> x <> 0 ->
  b_dev b <> NODEV ->
  let c' := hash_remove c x in
  (exists hc', hash_ok (buf_pool c') (bucket c') hc' x)
  /\ same_view (fun b => b <| hash_next := 0 |>) (buf_pool c) (buf_pool c')
  /\ lru_head c' = lru_head c /\ lru_tail c' = lru_tail c /\ devs c' = devs c.
Proof.
  intros Hh Hb Hx Hdev c'. destruct (hash_cut_ok c hc x b Hh Hb Hx Hdev) as (l1 & l2 & c1 & El & E & Hc & Hv & Hrest).
  unfold c'. rewrite E. set (h0 := buf_hash_idx (b_dev b) (b_blkno b)) in *.
  assert (Hv2 : same_view (fun b => b <| hash_next := 0 |>) (buf_pool c) (buf_pool (assign c1 x (fun b => b <| hash_next := 0 |>)))).
  { eapply same_view_trans; [exact Hv|]. by apply same_view_alter. }
  split_and!; try done; try apply Hrest. set (hc' := fun h => if decide (h = h0) then l1 ++ l2 else hc h).
  assert (Hd : NoDup (l1 ++ x :: l2)) by (rewrite <- El; apply (h_chain _ _ _ _ Hh)).
  assert (Hnx : forall h, x ∉ hc' h).
  { intros h. unfold hc'. case_decide as Eh.
    - rewrite <- Permutation_middle in Hd. by apply NoDup_cons in Hd as [? _].
    - intros Hin. by apply (h_in _ _ _ _ Hh x b _ Hb) in Hin as (_ & _ & ?). }
  assert (Hmem : forall y h, y <> x -> y ∈ hc' h <-> y ∈ hc h).
  { intros y h Hy. unfold hc'. case_decide as Eh; [|done]. subst h. rewrite El, !elem_of_app, elem_of_cons. tauto. }
  exists hc'. split.
  - intros h. split.
    + change (bucket (assign c1 x _) h) with (bucket c1 h). apply lchain_alter; [apply Hnx|apply Hc].
    + unfold hc'. case_decide; [|apply (h_chain _ _ _ _ Hh)]. rewrite <- Permutation_middle in Hd. by apply NoDup_cons in Hd as [_ ?].
  - intros y d h Hy. destruct (same_view_Some _ _ _ _ _ Hv2 Hy) as (d0 & Hd0 & [= F1 F2 _ _ _ _ _ _ _]).
    destruct (decide (y = x)) as [->|Hne]; [split; [by intros ?%Hnx|by intros [? _]]|].
    rewrite Hmem by done. rewrite (h_in _ _ _ _ Hh y d0 h Hd0), F1, F2.
    pose proof (hash_ok_nz _ _ _ _ _ _ Hh Hd0). tauto.
  - intros y z d e Hy Hz Hd1 He Hne E1 E2.
    destruct (same_view_Some _ _ _ _ _ Hv2 Hd1) as (d0 & Hd0 & [= F1 F2 _ _ _ _ _ _ _]).
    destruct (same_view_Some _ _ _ _ _ Hv2 He) as (e0 & He0 & [= G1 G2 _ _ _ _ _ _ _]).
    pose proof (hash_ok_nz _ _ _ _ _ _ Hh Hd0). pose proof (hash_ok_nz _ _ _ _ _ _ Hh He0).
    apply (h_key _ _ _ _ Hh y z d0 e0); congruence.
  - specialize (Hv2 0). rewrite (h_null _ _ _ _ Hh) in Hv2. by destruct (buf_pool (assign c1 x _) !! 0).
Qed.

(** A buffer outside the chains may change its block number, and go back in. *)
Lemma hash_insert_ok c hc x b : hash_ok (buf_pool c) (bucket c) hc x -> buf_pool c !! x = Some b ->
  b_dev b <> NODEV -> (forall y d, y <> x -> buf_pool c !! y = Some d -> hkey d <> hkey b) ->
  let c' := hash_insert c x in
  (exists hc', hash_ok (buf_pool c') (bucket c') hc' 0)
  /\ same_view (fun b => b <| hash_next := 0 |>) (buf_pool c) (buf_pool c')
  /\ lru_head c' = lru_head c /\ lru_tail c' = lru_tail c /\ devs c' = devs c.
Proof.
  intros Hh Hb Hdev Hnew c'. unfold c', hash_insert. rewrite (deref_lookup _ _ _ Hb).
  set (h0 := buf_hash_idx (b_dev b) (b_blkno b)). set (f := fun b => b <| hash_next := bucket c h0 |>).
  assert (Hv : same_view (fun b => b <| hash_next := 0 |>) (buf_pool c) (alter f x (buf_pool c))) by by apply same_view_alter.
  pose proof (hash_ok_nz _ _ _ _ _ _ Hh Hb) as Hx.
  assert (Hnx : forall h, x ∉ hc h) by (intros h Hin; by apply (h_in _ _ _ _ Hh x b h Hb) in Hin as [? _]).
  split_and!; try done. exists (<[h0 := x :: hc h0]> hc). split; cbn [buf_pool].
  - intros h. destruct (h_chain _ _ _ _ Hh h) as [Hc Hd]. unfold bucket. cbn. destruct (decide (h = h0)) as [->|Hne].
    + rewrite fn_lookup_insert, lookup_insert_eq. split; [|by apply NoDup_cons]. split_and!; [done|done|].
      exists (f b). rewrite lookup_alter_eq, Hb. split; [done|]. by apply lchain_alter.
    + rewrite fn_lookup_insert_ne, lookup_insert_ne by done. split; [|done]. by apply lchain_alter.
  - intros y d h Hy. destruct (same_view_Some _ _ _ _ _ Hv Hy) as (d0 & Hd0 & [= F1 F2 _ _ _ _ _ _ _]).
    pose proof (hash_ok_nz _ _ _ _ _ _ Hh Hd0) as Hy0. pose proof (h_in _ _ _ _ Hh y d0 h Hd0) as Hi.
    rewrite F1, F2 in Hi. destruct (decide (y = x)) as [->|Hyx].
    + rewrite Hb in Hd0. injection Hd0 as <-. rewrite <- F1, <- F2. fold h0. destruct (decide (h = h0)) as [->|Hne].
      * rewrite fn_lookup_insert. split; [done|]. intros _. apply elem_of_cons. by left.
      * rewrite fn_lookup_insert_ne by done. split; [by intros ?%Hnx|by intros (_ & _ & ?)].
    + destruct (decide (h = h0)) as [->|Hne].
      * rewrite fn_lookup_insert, elem_of_cons. naive_solver.
      * rewrite fn_lookup_insert_ne by done. naive_solver.
  - intros y z d e Hy Hz Hd He Hne E1 E2.
    destruct (same_view_Some _ _ _ _ _ Hv Hd) as (d0 & Hd0 & [= F1 F2 _ _ _ _ _ _ _]).
    destruct (same_view_Some _ _ _ _ _ Hv He) as (e0 & He0 & [= G1 G2 _ _ _ _ _ _ _]).
    destruct (decide (y = x)) as [->|Hyx], (decide (z = x)) as [->|Hzx]; [done| | |].
    + exfalso. apply (Hnew z e0 Hzx He0). unfold hkey. rewrite Hb in Hd0. injection Hd0 as <-. congruence.
    + exfalso. apply (Hnew y d0 Hyx Hd0). unfold hkey. rewrite Hb in He0. injection He0 as <-. congruence.
    + apply (h_key _ _ _ _ Hh y z d0 e0); congruence.
  - specialize (Hv 0). rewrite (h_null _ _ _ _ Hh) in Hv. destruct (alter f x (buf_pool c) !! 0) eqn:E0; [done|exact E0].
Qed.

(** ** The invariant *)

(** Whether buffers may carry delayed writes. *)
Context {delayed : bool}.

(** What a thread that holds a buffer is doing: it has claimed it, has read its
    block, or is overwriting it. *)
Inductive phase := Claimed | Filled | Writing.

(** A buffer that stands for a block which its device has: no read is pending, and
    valid data is the device's, unless its write is delayed. *)
Definition coherent (d : D) (ph : option phase) (b : buf) : Prop :=
  forall s, content d (b_dev b) (b_blkno b) = Some s ->
    has (b_flags b) B_READ = false
    /\ (ph <> Some Writing -> has (b_flags b) B_VALID = true -> has (b_flags b) B_DELWRI = false -> b_data b = s).

Record buf_ok (d : D) (ph : option phase) (b : buf) : Prop := {
  bo_size : zlen (b_data b) = BUF_BLOCK_SIZE;
  bo_busy : has (b_flags b) B_BUSY = bool_decide (is_Some ph);
  bo_clean : delayed = false -> has (b_flags b) B_DELWRI = false;
  bo_dirty : has (b_flags b) B_DELWRI = true -> has (b_flags b) B_VALID = true;
  bo_held : is_Some ph -> b_dev b <> NODEV;
  bo_dev : b_dev b <> NODEV -> serves (b_dev b) /\ 0 <= b_blkno b;
  bo_filled : ph = Some Filled -> has (b_flags b) B_VALID = true;
  bo_data : b_dev b <> NODEV -> coherent d ph b
}.

Lemma not_valid_clean d ph b : buf_ok d ph b -> has (b_flags b) B_VALID = false -> has (b_flags b) B_DELWRI = false.
Proof. intros Hb Hv. destruct (has (b_flags b) B_DELWRI) eqn:E; [|done]. by rewrite (bo_dirty _ _ _ Hb E) in Hv. Qed.

(** [own] are the buffers held, [lru] the others in LRU order, [hc] the chains. *)
Record cache_ok (c : cache D) (own : gmap Z phase) (lru : list Z) (hc : Z -> list Z) : Prop := {
  ok_lru : lseg (buf_pool c) 0 (lru_head c) lru (lru_tail c) 0;
  ok_nodup : NoDup lru;
  ok_free : forall x, x ∈ lru <-> is_Some (buf_pool c !! x) /\ own !! x = None;
  ok_own : forall x, is_Some (own !! x) -> is_Some (buf_pool c !! x);
  ok_hash : hash_ok (buf_pool c) (bucket c) hc 0;
  ok_buf : forall x b, buf_pool c !! x = Some b -> buf_ok (devs c) (own !! x) b;
  ok_disk : disk_ok (devs c)
}.

(** Buffers may differ in their links only. *)
Definition core (b : buf) : buf := b <| lru_prev := 0 |> <| lru_next := 0 |> <| hash_next := 0 |>.

Lemma buf_ok_core d ph b b' : core b = core b' -> buf_ok d ph b -> buf_ok d ph b'.
Proof. intros [= E1 E2 E3 E4 E5 E6 E7]. destruct b, b'. cbn in *. subst. intros []. by split. Qed.

Lemma off_lru_core m m' : same_view off_lru m m' -> same_view core m m'.
Proof.
  intros Hv x. specialize (Hv x). destruct (m !! x) as [b|], (m' !! x) as [b'|]; try done.
  cbn in *. injection Hv as E. f_equal. destruct b, b'. cbn in *. by simplify_eq.
Qed.

Lemma off_lru_hash m m' bk hc out : same_view off_lru m m' -> hash_ok m bk hc out -> hash_ok m' bk hc out.
Proof.
  intros Hv. apply hash_ok_view. intros x. specialize (Hv x).
  destruct (m !! x) as [b|], (m' !! x) as [b'|]; try done.
  cbn in *. injection Hv as E. f_equal. destruct b, b'. cbn in *. by simplify_eq.
Qed.

(** A cache with the buffer at [x] replaced, and the devices. *)
Definition putd (c : cache D) (x : Z) (b : buf) (d : D) : cache D :=
  mk_cache (<[x := b]> (buf_pool c)) (buf_hash c) (lru_head c) (lru_tail c) d.

Lemma assign_putd c x f b : buf_pool c !! x = Some b -> assign c x f = putd c x (f b) (devs c).
Proof.
  intros Hb. unfold assign, putd. assert (alter f x (buf_pool c) = <[x := f b]> (buf_pool c)) as ->; [|done].
  apply map_eq. intros y. destruct (decide (y = x)) as [->|].
  - by rewrite lookup_alter_eq, Hb, lookup_insert_eq.
  - by rewrite lookup_alter_ne, lookup_insert_ne.
Qed.

Lemma assign_putd2 c x f b d : assign (putd c x b d) x f = putd c x (f b) d.
Proof. rewrite (assign_putd _ _ _ b) by apply lookup_insert_eq. unfold putd. cbn. by rewrite insert_insert_eq. Qed.

Lemma deref_putd c x b d : deref (putd c x b d) x = b.
Proof. unfold deref, putd. cbn. by rewrite lookup_insert_eq. Qed.

Lemma putd_devs c x b d d' : (putd c x b d) <| devs := d' |> = putd c x b d'.
Proof. done. Qed.

(** Buffer [b'] stands where [b] stood. *)
Definition same_place (b b' : buf) : Prop :=
  hkey b' = hkey b /\ lru_prev b' = lru_prev b /\ lru_next b' = lru_next b /\ hash_next b' = hash_next b.

Lemma putd_view {V} (v : buf -> V) c x b b' d : buf_pool c !! x = Some b -> v b' = v b ->
  same_view v (buf_pool c) (buf_pool (putd c x b' d)).
Proof.
  intros Hb Hv y. cbn. destruct (decide (y = x)) as [->|].
  - rewrite lookup_insert_eq, Hb. cbn. by rewrite Hv.
  - by rewrite lookup_insert_ne.
Qed.

(** The holder of a buffer changes its contents and flags, and the devices where no
    other buffer looks. *)
Lemma cache_put c own lru hc x b ph0 ph b' d' : cache_ok c own lru hc -> buf_pool c !! x = Some b ->
  own !! x = Some ph0 -> same_place b b' -> buf_ok d' (Some ph) b' -> disk_ok d' ->
  (forall y by_, y <> x -> buf_pool c !! y = Some by_ -> b_dev by_ <> NODEV -> hkey by_ <> hkey b ->
     content d' (b_dev by_) (b_blkno by_) = content (devs c) (b_dev by_) (b_blkno by_)) ->
  cache_ok (putd c x b' d') (<[x := ph]> own) lru hc.
Proof.
  intros Hok Hb Hown (P1 & P2 & P3 & P4) Hb' Hd' Hc.
  assert (Hxl : x ∉ lru) by (intros [_ ?]%(ok_free _ _ _ _ Hok); congruence).
  pose proof (bo_held _ _ _ (ok_buf _ _ _ _ Hok x b Hb)) as Hdev. rewrite Hown in Hdev.
  split; cbn [putd buf_pool lru_head lru_tail devs].
  - eapply dseg_ext; [|apply (ok_lru _ _ _ _ Hok)]. intros y by_ Hy Hby. exists by_.
    rewrite lookup_insert_ne; [done|]. by intros ->.
  - apply (ok_nodup _ _ _ _ Hok).
  - intros y. rewrite (ok_free _ _ _ _ Hok). destruct (decide (y = x)) as [->|].
    + rewrite !lookup_insert_eq. split; [intros [_ ?]; congruence|by intros [_ ?]].
    + by rewrite !lookup_insert_ne.
  - intros y. destruct (decide (y = x)) as [->|]; [rewrite !lookup_insert_eq; by eexists|].
    rewrite !lookup_insert_ne by done. apply (ok_own _ _ _ _ Hok).
  - eapply hash_ok_view; [|apply (ok_hash _ _ _ _ Hok)]. apply (putd_view _ c x b b' d'); [done|congruence].
  - intros y by_. destruct (decide (y = x)) as [->|Hne].
    + rewrite !lookup_insert_eq. by intros [= <-].
    + rewrite !lookup_insert_ne by done. intros Hby. destruct (ok_buf _ _ _ _ Hok y by_ Hby). split; try done.
      intros Hnd s. rewrite (Hc y by_ Hne Hby Hnd); [exact (bo_data0 Hnd s)|].
      intros [= E1 E2]. apply Hne. symmetry.
      apply (h_key _ _ _ _ (ok_hash _ _ _ _ Hok) x y b by_); try done; try congruence;
        eapply (hash_ok_nz _ _ _ _ _ _ (ok_hash _ _ _ _ Hok)); eassumption.
  - done.
Qed.

(** Buffers other than [x] keep their contents. *)
Definition frame (x : Z) (c c' : cache D) : Prop :=
  forall y, y <> x -> core <$> buf_pool c' !! y = core <$> buf_pool c !! y.

Lemma frame_trans x c1 c2 c3 : frame x c1 c2 -> frame x c2 c3 -> frame x c1 c3.
Proof. intros H1 H2 y Hy. by rewrite H2, H1. Qed.

Lemma frame_putd x c b d : frame x c (putd c x b d).
Proof. intros y Hy. cbn. by rewrite lookup_insert_ne. Qed.

Lemma frame_view x c c' : same_view core (buf_pool c) (buf_pool c') -> frame x c c'.
Proof. intros Hv y _. apply Hv. Qed.

#[local] Hint Resolve frame_putd frame_view : views.

(** ** Releasing *)

Lemma brelse_ok c own lru hc x b ph : cache_ok c own lru hc -> buf_pool c !! x = Some b ->
  own !! x = Some ph -> buf_ok (devs c) None (clr_flags b B_BUSY) ->
  cache_ok (brelse c x) (delete x own) (lru ++ [x]) hc /\ devs (brelse c x) = devs c
  /\ frame x c (brelse c x).
Proof.
  intros Hok Hb Hown Hbok. pose proof (hash_ok_nz _ _ _ _ _ _ (ok_hash _ _ _ _ Hok) Hb) as Hx.
  assert (Hxl : x ∉ lru) by (intros [_ ?]%(ok_free _ _ _ _ Hok); congruence).
  unfold brelse. rewrite (proj2 (Z.eqb_neq _ _) Hx), (assign_putd _ _ _ b Hb).
  set (c1 := putd c x (clr_flags b B_BUSY) (devs c)).
  assert (Hs1 : lseg (buf_pool c1) 0 (lru_head c1) lru (lru_tail c1) 0).
  { eapply dseg_ext; [|apply (ok_lru _ _ _ _ Hok)]. intros y by_ Hy Hby. exists by_. cbn.
    rewrite lookup_insert_ne; [done|]. by intros ->. }
  assert (Hb1 : buf_pool c1 !! x = Some (clr_flags b B_BUSY)) by apply lookup_insert_eq.
  destruct (lru_insert_tail_ok c1 x _ lru Hs1 (ok_nodup _ _ _ _ Hok) Hb1 Hx Hxl) as (Hs & Hv & Hbk & Hd).
  assert (Hdom : forall y, is_Some (buf_pool (lru_insert_tail c1 x) !! y) <-> is_Some (buf_pool c !! y)).
  { intros y. rewrite <- (fmap_is_Some off_lru), Hv, fmap_is_Some. cbn. destruct (decide (y = x)) as [->|].
    - rewrite lookup_insert_eq, Hb. split; intros _; by eexists.
    - by rewrite lookup_insert_ne. }
  assert (Hh1 : hash_ok (buf_pool c1) (bucket c1) hc 0).
  { eapply hash_ok_view; [|apply (ok_hash _ _ _ _ Hok)]. by apply (putd_view _ c x b). }
  split_and!; [split|done|].
  - done.
  - apply NoDup_app. split_and!; [apply (ok_nodup _ _ _ _ Hok)| |apply NoDup_singleton].
    intros y Hy ->%list_elem_of_singleton. done.
  - intros y. rewrite Hdom, elem_of_app, list_elem_of_singleton, (ok_free _ _ _ _ Hok).
    destruct (decide (y = x)) as [->|]; [rewrite lookup_delete_eq, Hb; naive_solver|rewrite lookup_delete_ne by done; tauto].
  - intros y. rewrite Hdom. destruct (decide (y = x)) as [->|]; [by rewrite Hb; eexists|].
    rewrite lookup_delete_ne by done. apply (ok_own _ _ _ _ Hok).
  - assert (bucket (lru_insert_tail c1 x) = bucket c1) as -> by (unfold bucket; by rewrite Hbk).
    by eapply off_lru_hash.
  - intros y b'. rewrite Hd. intros Hb'. destruct (same_view_Some _ _ _ _ _ (off_lru_core _ _ Hv) Hb') as (b0 & Hb0 & Hcore).
    destruct (decide (y = x)) as [->|].
    + rewrite Hb1 in Hb0. injection Hb0 as <-. rewrite lookup_delete_eq. by eapply buf_ok_core.
    + cbn in Hb0. rewrite lookup_insert_ne in Hb0 by done. rewrite lookup_delete_ne by done.
      eapply buf_ok_core; [exact Hcore|]. by apply (ok_buf _ _ _ _ Hok).
  - rewrite Hd. apply (ok_disk _ _ _ _ Hok).
  - eapply frame_trans; [apply frame_putd|]. by apply frame_view, off_lru_core.
Qed.

(** ** Requests *)

(** What [strategy_and_wait] hands to the driver. *)
Definition submitted (b : buf) : buf := (clr_flags b (Z.lor B_DONE B_ERROR)) <| b_resid := 0 |>.

Lemma submitted_request b dev blk : request b dev blk -> request (submitted b) dev blk.
Proof. done. Qed.

Lemma strategy_served c x b d dev blk s : x <> 0 -> disk_ok d -> serves dev -> request b dev blk ->
  content d dev blk = Some s ->
  exists d', strategy_and_wait (putd c x b d) x = Ret 0 (putd c x (complete (submitted b) s) d') /\ disk_ok d'
    /\ forall dev' blk', serves dev' -> content d' dev' blk' =
         if has (b_flags b) B_READ then content d dev' blk'
         else if decide (dev' = dev /\ blk' = blk) then Some (b_data b) else content d dev' blk'.
Proof.
  intros Hx Hd Hs Hq Hc. unfold strategy_and_wait. rewrite deref_putd. pose proof Hq as (Hdev & _).
  rewrite Hdev. cbn [devs putd]. fold (putd c x b d).
  destruct (io_in_range d dev blk (submitted b) s Hd Hs (submitted_request _ _ _ Hq) Hc) as (f & d' & -> & Hf & Hd' & Hcont).
  rewrite assign_putd2, deref_putd. fold (submitted b). change (b_dev (submitted b)) with (b_dev b).
  rewrite Hdev, Hf, assign_putd2, putd_devs. unfold biowait. rewrite (proj2 (Z.eqb_neq _ _) Hx), deref_putd.
  assert (has (b_flags (complete (submitted b) s)) B_DONE = true) as -> by (unfold complete; flags; done).
  cbn [bind]. rewrite deref_putd.
  assert (has (b_flags (complete (submitted b) s)) B_ERROR = false) as ->.
  { unfold complete, submitted. case_if; flags; done. }
  exists d'. split_and!; [done|done|]. intros dev' blk' Hs'. rewrite Hcont by done.
  assert (has (b_flags (submitted b)) B_READ = has (b_flags b) B_READ) as ->; [|done].
  unfold submitted. by flags.
Qed.

(** Flags a request leaves alone. *)
Definition kept (b b' : buf) : Prop :=
  same_place b b' /\ b_data b' = b_data b /\ has (b_flags b') B_BUSY = has (b_flags b) B_BUSY
  /\ has (b_flags b') B_DELWRI = has (b_flags b) B_DELWRI /\ has (b_flags b') B_VALID = has (b_flags b) B_VALID.

Lemma strategy_refused c x b d dev blk : x <> 0 -> disk_ok d -> serves dev -> request b dev blk ->
  content d dev blk = None ->
  exists b' d', strategy_and_wait (putd c x b d) x = Ret (-1) (putd c x b' d') /\ kept b b' /\ disk_ok d'
    /\ forall dev' blk', serves dev' -> content d' dev' blk' = content d dev' blk'.
Proof.
  intros Hx Hd Hs Hq Hc. unfold strategy_and_wait. rewrite deref_putd. pose proof Hq as (Hdev & _).
  rewrite Hdev. cbn [devs putd]. fold (putd c x b d).
  destruct (d_strategy d (MAJOR dev)) as [f|] eqn:Ef.
  - destruct (io_out_of_range d dev blk (submitted b) Hd Hs (submitted_request _ _ _ Hq) Hc f Ef) as (d' & Hf & Hd' & Hcont).
    rewrite assign_putd2, deref_putd. fold (submitted b). change (b_dev (submitted b)) with (b_dev b).
    rewrite Hdev, Hf, assign_putd2, putd_devs. unfold biowait. rewrite (proj2 (Z.eqb_neq _ _) Hx), deref_putd.
    assert (has (b_flags (io_error (submitted b))) B_DONE = true) as -> by (unfold io_error; flags; done).
    cbn [bind]. rewrite deref_putd.
    assert (has (b_flags (io_error (submitted b))) B_ERROR = true) as -> by (unfold io_error; flags; done).
    exists (io_error (submitted b)), d'. split_and!; try done.
    unfold io_error, submitted. split_and!; try done; by flags.
  - rewrite assign_putd2. eexists _, d. split_and!; try done. split_and!; try done; by flags.
Qed.

(** ** Reading and writing a held buffer *)

Lemma putd_id c x b : buf_pool c !! x = Some b -> putd c x b (devs c) = c.
Proof. intros Hb. unfold putd. rewrite insert_id by done. by destruct c. Qed.

(** What a thread knows of the buffer it holds. *)
Lemma held_facts c own lru hc x b ph : cache_ok c own lru hc -> buf_pool c !! x = Some b -> own !! x = Some ph ->
  x <> 0 /\ b_dev b <> NODEV /\ serves (b_dev b) /\ 0 <= b_blkno b /\ buf_ok (devs c) (Some ph) b /\ disk_ok (devs c).
Proof.
  intros Hok Hb Hown. pose proof (ok_buf _ _ _ _ Hok x b Hb) as Hbo. rewrite Hown in Hbo.
  assert (b_dev b <> NODEV) by (by apply (bo_held _ _ _ Hbo)).
  destruct (bo_dev _ _ _ Hbo) as [? ?]; [done|].
  split_and!; try done; [|apply (ok_disk _ _ _ _ Hok)]. by eapply hash_ok_nz, Hb; apply (ok_hash _ _ _ _ Hok).
Qed.

(** The devices of two caches hold the same blocks, but for one. *)
Definition same_disk (d d' : D) : Prop := forall dev blk, serves dev -> content d' dev blk = content d dev blk.

Definition one_block (d d' : D) (dev blk : Z) (s : bytes) : Prop := forall dev' blk', serves dev' ->
  content d' dev' blk' = if decide (dev' = dev /\ blk' = blk) then Some s else content d dev' blk'.

Lemma bread_fill_ok c own lru hc x b s : cache_ok c own lru hc -> own !! x = Some Claimed ->
  buf_pool c !! x = Some b -> content (devs c) (b_dev b) (b_blkno b) = Some s ->
  exists b' d', bread_fill c x = Ret x (putd c x b' d') /\ cache_ok (putd c x b' d') (<[x := Filled]> own) lru hc
    /\ hkey b' = hkey b /\ (delayed = false -> b_data b' = s) /\ same_disk (devs c) d'.
Proof.
  intros Hok Hown Hb Hs. destruct (held_facts _ _ _ _ _ _ _ Hok Hb Hown) as (Hx & Hn & Hsv & Hblk & Hbo & Hd).
  unfold bread_fill. rewrite (deref_lookup _ _ _ Hb). destruct (has (b_flags b) B_VALID) eqn:Ev.
  - exists b, (devs c). rewrite (putd_id _ _ _ Hb). split_and!; try done.
    + rewrite <- (putd_id _ _ _ Hb). eapply cache_put; try done. destruct Hbo. split; try done.
      intros _ s' Hs'. destruct (bo_data0 Hn s' Hs') as [E1 E2]. split; [done|]. intros _. by apply E2.
    + intros Hdl. apply (bo_data _ _ _ Hbo Hn s Hs); [done|done|]. by apply (bo_clean _ _ _ Hbo).
  - rewrite (assign_putd _ _ _ _ Hb). set (b1 := set_flags _ _).
    destruct (strategy_served c x b1 (devs c) (b_dev b) (b_blkno b) s) as (d' & -> & Hd' & Hc); try done.
    { split_and!; try done. apply (bo_size _ _ _ Hbo). }
    cbn [bind Z.ltb Z.compare]. rewrite assign_putd2. eexists _, d'. split; [done|].
    assert (has (b_flags b1) B_READ = true) as E by (unfold b1; flags; done). rewrite E in Hc.
    assert (E' : has (b_flags (submitted b1)) B_READ = true) by (unfold submitted; flags; done).
    unfold complete. rewrite E'. split_and!; try done.
    eapply cache_put; try done.
    + split; try done.
      * cbn. by apply (content_size _ _ _ _ Hd Hs).
      * unfold submitted, b1. flags. by rewrite (bo_busy _ _ _ Hbo).
      * unfold submitted, b1. intros Hdl. flags. by apply (bo_clean _ _ _ Hbo).
      * intros _. flags. done.
      * intros _. flags. done.
      * intros _ s'. cbn. change (b_dev (submitted b1)) with (b_dev b). change (b_blkno (submitted b1)) with (b_blkno b).
        rewrite Hc by done. rewrite Hs. intros [= <-]. split; [by flags|done].
    + intros y d0 _ Hd0 Hn0 _. rewrite Hc; [done|]. by apply (bo_dev _ _ _ (ok_buf _ _ _ _ Hok y d0 Hd0)).
Qed.

(** Other buffers see the devices unchanged. *)
Lemma others_see c own lru hc x b d' : cache_ok c own lru hc -> buf_pool c !! x = Some b ->
  same_disk (devs c) d' \/ (exists s, one_block (devs c) d' (b_dev b) (b_blkno b) s) ->
  forall y by_, y <> x -> buf_pool c !! y = Some by_ -> b_dev by_ <> NODEV -> hkey by_ <> hkey b ->
  content d' (b_dev by_) (b_blkno by_) = content (devs c) (b_dev by_) (b_blkno by_).
Proof.
  intros Hok Hb Hdisk y by_ Hy Hby Hn Hk.
  destruct (bo_dev _ _ _ (ok_buf _ _ _ _ Hok y by_ Hby) Hn) as [Hs _].
  destruct Hdisk as [Hd|[s Hd]]; [by apply Hd|]. rewrite Hd by done. case_decide as E; [|done].
  destruct E as [E1 E2]. exfalso. apply Hk. unfold hkey. congruence.
Qed.

(** A read the device refuses: the buffer is released. *)
Lemma bread_fill_refused c own lru hc x b : cache_ok c own lru hc -> own !! x = Some Claimed ->
  buf_pool c !! x = Some b -> content (devs c) (b_dev b) (b_blkno b) = None ->
  (has (b_flags b) B_VALID = true /\ bread_fill c x = Ret x c /\ cache_ok c (<[x := Filled]> own) lru hc)
  \/ exists c', bread_fill c x = Ret 0 c' /\ cache_ok c' (delete x own) (lru ++ [x]) hc
       /\ frame x c c' /\ same_disk (devs c) (devs c').
Proof.
  intros Hok Hown Hb Hs. destruct (held_facts _ _ _ _ _ _ _ Hok Hb Hown) as (Hx & Hn & Hsv & Hblk & Hbo & Hd).
  unfold bread_fill. rewrite (deref_lookup _ _ _ Hb). destruct (has (b_flags b) B_VALID) eqn:Ev.
  - left. split_and!; try done. rewrite <- (putd_id _ _ _ Hb). eapply cache_put; try done. destruct Hbo. split; try done.
    intros _ s'. by rewrite Hs.
  - right. assert (Hclean : has (b_flags b) B_DELWRI = false) by (by eapply not_valid_clean).
    rewrite (assign_putd _ _ _ _ Hb). set (b1 := set_flags _ _).
    destruct (strategy_refused c x b1 (devs c) (b_dev b) (b_blkno b)) as (b' & d' & -> & Hk & Hd' & Hc); try done.
    { split_and!; try done. apply (bo_size _ _ _ Hbo). }
    cbn [bind]. change (-1 <? 0) with true. cbv iota. eexists. split; [done|].
    destruct Hk as ((P1 & P2 & P3 & P4) & Hdat & K1 & K2 & K3). pose proof P1 as [= Q1 Q2].
    assert (Hbo' : forall ph f, ph <> Some Filled -> has (b_flags (f b')) B_BUSY = bool_decide (is_Some ph) ->
      has (b_flags (f b')) B_DELWRI = false -> b_data (f b') = b_data b' -> hkey (f b') = hkey b' -> buf_ok d' ph (f b')).
    { intros ph f Hph F1 F2 F3 [= F4 F5]. split; try done; rewrite ?F2, ?F3, ?F4, ?F5, ?Q1, ?Q2; try done.
      - rewrite Hdat. apply (bo_size _ _ _ Hbo).
      - intros _ s'. rewrite F4, F5, Q1, Q2. cbn. rewrite Hc by done. by rewrite Hs. }
    assert (Hok' : cache_ok (putd c x b' d') (<[x := Claimed]> own) lru hc).
    { eapply cache_put; try done; [|by eapply others_see; eauto; left].
      apply (Hbo' _ id); try done; cbn.
      - rewrite K1. unfold b1. flags. apply (bo_busy _ _ _ Hbo).
      - rewrite K2. unfold b1. by flags. }
    destruct (brelse_ok _ _ _ _ x b' Claimed Hok') as (H1 & H2 & H3); [apply lookup_insert_eq|apply lookup_insert_eq| |].
    { apply (Hbo' _ (fun b => clr_flags b B_BUSY)); try done; [by flags|]. flags. rewrite K2. unfold b1. by flags. }
    rewrite delete_insert_eq in H1. split_and!.
    + done.
    + eapply frame_trans; [apply frame_putd|done].
    + rewrite H2. done.
Qed.

Lemma bwrite_ok c own lru hc x b ph s : cache_ok c own lru hc -> own !! x = Some ph ->
  buf_pool c !! x = Some b -> content (devs c) (b_dev b) (b_blkno b) = Some s ->
  exists c', bwrite c x = Ret 0 c' /\ cache_ok c' (delete x own) (lru ++ [x]) hc /\ frame x c c'
    /\ one_block (devs c) (devs c') (b_dev b) (b_blkno b) (b_data b).
Proof.
  intros Hok Hown Hb Hs. destruct (held_facts _ _ _ _ _ _ _ Hok Hb Hown) as (Hx & Hn & Hsv & Hblk & Hbo & Hd).
  unfold bwrite. rewrite (proj2 (Z.eqb_neq _ _) Hx), (assign_putd _ _ _ _ Hb). set (b1 := set_flags _ _).
  destruct (strategy_served c x b1 (devs c) (b_dev b) (b_blkno b) s) as (d' & -> & Hd' & Hc); try done.
  { split_and!; try done. apply (bo_size _ _ _ Hbo). }
  destruct (bo_data _ _ _ Hbo Hn s Hs) as [Hrd _].
  assert (has (b_flags b1) B_READ = false) as E by (unfold b1; flags; done). rewrite E in Hc.
  assert (E' : has (b_flags (submitted b1)) B_READ = false) by (unfold submitted; flags; done).
  cbn [bind Z.ltb Z.compare]. rewrite !assign_putd2. unfold complete. rewrite E'.
  set (b' := clr_flags _ _). eexists. split; [done|].
  assert (F1 : has (b_flags b') B_BUSY = true).
  { unfold b', submitted, b1. flags. rewrite (bo_busy _ _ _ Hbo). done. }
  assert (Hbo' : forall ph f, ph <> Some Writing -> has (b_flags (f b')) B_BUSY = bool_decide (is_Some ph) ->
    has (b_flags (f b')) B_DELWRI = has (b_flags b') B_DELWRI -> has (b_flags (f b')) B_READ = has (b_flags b') B_READ ->
    has (b_flags (f b')) B_VALID = has (b_flags b') B_VALID -> b_data (f b') = b_data b -> hkey (f b') = hkey b -> buf_ok d' ph (f b')).
  { intros ph' f Hph G1 G2 G3 G6 G4 [= G5 G7]. split; try done; rewrite ?G5, ?G7; try done.
    - rewrite G4. apply (bo_size _ _ _ Hbo).
    - intros _. rewrite G2. unfold b'. by flags.
    - intros _. rewrite G6. unfold b'. by flags.
    - rewrite G6. intros _. unfold b'. by flags.
    - intros _ s'. rewrite G5, G7, Hc, decide_True by done. intros [= <-]. rewrite G3, G4. split; [|done].
      unfold b', submitted, b1. by flags. }
  assert (Hone : one_block (devs c) d' (b_dev b) (b_blkno b) (b_data b)) by exact Hc.
  assert (Hok' : cache_ok (putd c x b' d') (<[x := Claimed]> own) lru hc).
  { eapply cache_put; try done; [by apply (Hbo' _ id)|]. eapply others_see; eauto. }
  destruct (brelse_ok _ _ _ _ x b' Claimed Hok') as (H1 & H2 & H3); [apply lookup_insert_eq|apply lookup_insert_eq| |].
  { apply (Hbo' _ (fun b => clr_flags b B_BUSY)); try done; by flags. }
  rewrite delete_insert_eq in H1. split_and!; [done| |].
  - eapply frame_trans; [apply frame_putd|done].
  - rewrite H2. exact Hone.
Qed.

(** A write the device refuses. *)
Lemma bwrite_refused c own lru hc x b ph : cache_ok c own lru hc -> own !! x = Some ph ->
  buf_pool c !! x = Some b -> content (devs c) (b_dev b) (b_blkno b) = None ->
  exists c', bwrite c x = Ret (-1) c' /\ cache_ok c' (delete x own) (lru ++ [x]) hc
    /\ frame x c c' /\ same_disk (devs c) (devs c').
Proof.
  intros Hok Hown Hb Hs. destruct (held_facts _ _ _ _ _ _ _ Hok Hb Hown) as (Hx & Hn & Hsv & Hblk & Hbo & Hd).
  unfold bwrite. rewrite (proj2 (Z.eqb_neq _ _) Hx), (assign_putd _ _ _ _ Hb). set (b1 := set_flags _ _).
  destruct (strategy_refused c x b1 (devs c) (b_dev b) (b_blkno b)) as (b2 & d' & -> & Hk & Hd' & Hc); try done.
  { split_and!; try done. apply (bo_size _ _ _ Hbo). }
  cbn [bind]. change (-1 <? 0) with true. cbv iota. rewrite assign_putd2. set (b' := clr_flags _ _). eexists. split; [done|].
  destruct Hk as ((P1 & P2 & P3 & P4) & Hdat & K1 & K2 & K3). pose proof P1 as [= Q1 Q2].
  assert (Hbo' : forall ph f, ph <> Some Filled -> has (b_flags (f b')) B_BUSY = bool_decide (is_Some ph) ->
    has (b_flags (f b')) B_DELWRI = has (b_flags b') B_DELWRI -> has (b_flags (f b')) B_VALID = has (b_flags b') B_VALID ->
    b_data (f b') = b_data b' -> hkey (f b') = hkey b' -> buf_ok d' ph (f b')).
  { intros ph' f Hph F1 F2 F6 F3 [= F4 F5]. split; try done; rewrite ?F3, ?F4, ?F5; cbn; rewrite ?Q1, ?Q2; try done.
    - rewrite Hdat. apply (bo_size _ _ _ Hbo).
    - intros Hdl. rewrite F2. unfold b'. flags. rewrite K2. unfold b1. flags. by apply (bo_clean _ _ _ Hbo).
    - rewrite F2, F6. unfold b'. flags. rewrite K2, K3. unfold b1. flags. apply (bo_dirty _ _ _ Hbo).
    - intros _ s'. rewrite F4, F5. cbn. rewrite Q1, Q2. cbn. rewrite Hc by done. by rewrite Hs. }
  assert (Hok' : cache_ok (putd c x b' d') (<[x := Claimed]> own) lru hc).
  { eapply cache_put; try done; [|by eapply others_see; eauto; left]. apply (Hbo' _ id); try done; cbn.
    unfold b'. flags. rewrite K1. unfold b1. flags. apply (bo_busy _ _ _ Hbo). }
  destruct (brelse_ok _ _ _ _ x b' Claimed Hok') as (H1 & H2 & H3); [apply lookup_insert_eq|apply lookup_insert_eq| |].
  { apply (Hbo' _ (fun b => clr_flags b B_BUSY)); try done; by flags. }
  rewrite delete_insert_eq in H1. split_and!; [done| |].
  - eapply frame_trans; [apply frame_putd|done].
  - by rewrite H2.
Qed.

(** ** Claiming *)

Lemma lseg_view m m' p a l e n : same_view (fun b => (lru_prev b, lru_next b)) m m' -> lseg m p a l e n -> lseg m' p a l e n.
Proof.
  intros Hv. apply dseg_ext. intros x b _ Hb.
  destruct (same_view_fwd _ _ _ _ _ Hv Hb) as (b' & Hb' & [= E1 E2]). by exists b'.
Qed.

(** A store changed in hash links only. *)
Definition off_hash (b : buf) : buf := b <| hash_next := 0 |>.

Lemma off_hash_lru m m' : same_view off_hash m m' -> same_view (fun b => (lru_prev b, lru_next b)) m m'.
Proof.
  intros Hv x. specialize (Hv x). destruct (m !! x) as [b|], (m' !! x) as [b'|]; try done.
  cbn in *. injection Hv as E. f_equal. destruct b, b'. cbn in *. by simplify_eq.
Qed.

Lemma off_hash_core m m' : same_view off_hash m m' -> same_view core m m'.
Proof.
  intros Hv x. specialize (Hv x). destruct (m !! x) as [b|], (m' !! x) as [b'|]; try done.
  cbn in *. injection Hv as E. f_equal. destruct b, b'. cbn in *. by simplify_eq.
Qed.

Lemma unlink_free c own lru hc x : cache_ok c own lru hc -> x ∈ lru -> exists l1 l2 b b1,
  lru = l1 ++ x :: l2 /\ x <> 0 /\ x ∉ l1 ++ l2 /\ NoDup (l1 ++ l2) /\ buf_pool c !! x = Some b
  /\ own !! x = None /\ buf_ok (devs c) None b
  /\ let c1 := lru_unlink c x in
     lseg (buf_pool c1) 0 (lru_head c1) (l1 ++ l2) (lru_tail c1) 0 /\ hash_ok (buf_pool c1) (bucket c1) hc 0
     /\ buf_pool c1 !! x = Some b1 /\ core b1 = core b /\ same_view core (buf_pool c) (buf_pool c1) /\ devs c1 = devs c.
Proof.
  intros Hok Hx. destruct (list_elem_of_split _ _ Hx) as (l1 & l2 & ->).
  pose proof (ok_nodup _ _ _ _ Hok) as Hd. pose proof (ok_lru _ _ _ _ Hok) as Hs.
  destruct (lru_unlink_ok c x l1 l2 Hs Hd) as (Hs' & Hv & Hbk & Hdv).
  rewrite <- Permutation_middle in Hd. apply NoDup_cons in Hd as [Hnx Hd].
  apply (ok_free _ _ _ _ Hok) in Hx as [[b Hb] Hown].
  destruct (same_view_fwd _ _ _ _ _ (off_lru_core _ _ Hv) Hb) as (b1 & Hb1 & Hcore).
  exists l1, l2, b, b1. split_and!; try done.
  - by eapply hash_ok_nz, Hb; apply (ok_hash _ _ _ _ Hok).
  - rewrite <- Hown. by apply (ok_buf _ _ _ _ Hok).
  - cbv zeta. split_and!; try done; [|by apply off_lru_core].
    assert (bucket (lru_unlink c x) = bucket c) as -> by (unfold bucket; by rewrite Hbk).
    eapply off_lru_hash, (ok_hash _ _ _ _ Hok). done.
Qed.

(** The cache after [x] was taken off the list and marked. *)
Lemma cache_claim c own lru hc c' lru' hc' x b' : cache_ok c own lru hc -> own !! x = None ->
  lseg (buf_pool c') 0 (lru_head c') lru' (lru_tail c') 0 -> NoDup lru' -> x ∉ lru' ->
  (forall y, y <> x -> y ∈ lru' <-> y ∈ lru) -> hash_ok (buf_pool c') (bucket c') hc' 0 ->
  buf_pool c' !! x = Some b' -> buf_ok (devs c) (Some Claimed) b' -> frame x c c' -> devs c' = devs c ->
  cache_ok c' (<[x := Claimed]> own) lru' hc'.
Proof.
  intros Hok Hown Hs Hd Hx Hin Hh Hb' Hbo Hf Hdv. split; try done.
  - intros y. destruct (decide (y = x)) as [->|Hy].
    + rewrite lookup_insert_eq. split; [done|by intros [_ ?]].
    + rewrite lookup_insert_ne, Hin, (ok_free _ _ _ _ Hok) by done.
      by rewrite <- (fmap_is_Some core), <- (Hf y Hy), fmap_is_Some.
  - intros y. destruct (decide (y = x)) as [->|Hy]; [rewrite Hb'; by eexists|].
    rewrite lookup_insert_ne by done. intros Hy2%(ok_own _ _ _ _ Hok).
    by rewrite <- (fmap_is_Some core), (Hf y Hy), fmap_is_Some.
  - intros y b. rewrite Hdv. destruct (decide (y = x)) as [->|Hy].
    + rewrite lookup_insert_eq, Hb'. by intros [= <-].
    + rewrite lookup_insert_ne by done. intros Hb. specialize (Hf y Hy). rewrite Hb in Hf.
      destruct (buf_pool c !! y) as [b0|] eqn:E0; [|done]. apply (inj Some) in Hf.
      eapply buf_ok_core; [symmetry; exact Hf|]. by apply (ok_buf _ _ _ _ Hok).
  - rewrite Hdv. apply (ok_disk _ _ _ _ Hok).
Qed.

(** A buffer that stands for no block is on no chain. *)
Lemma hash_ok_out m bk hc x b : hash_ok m bk hc 0 -> m !! x = Some b -> b_dev b = NODEV -> hash_ok m bk hc x.
Proof.
  intros Hh Hb Hn. split.
  - apply (h_chain _ _ _ _ Hh).
  - intros y d h Hd. rewrite (h_in _ _ _ _ Hh y d h Hd). destruct (decide (y = x)) as [->|].
    + rewrite Hb in Hd. injection Hd as <-. naive_solver.
    + pose proof (hash_ok_nz _ _ _ _ _ _ Hh Hd). naive_solver.
  - intros y z d e Hy Hz Hd He. apply (h_key _ _ _ _ Hh); try done; by eapply hash_ok_nz.
  - apply (h_null _ _ _ _ Hh).
Qed.

(** Changing a buffer that is on no chain. *)
Lemma hash_ok_renumber m bk hc x b' : hash_ok m bk hc x -> x <> 0 -> hash_ok (<[x := b']> m) bk hc x.
Proof.
  intros Hh Hx. split.
  - intros h. destruct (h_chain _ _ _ _ Hh h) as [Hc Hd]. split; [|done].
    eapply lchain_ext; [|exact Hc]. intros y d Hy Hd'. exists d. rewrite lookup_insert_ne; [done|]. intros ->.
    by apply (h_in _ _ _ _ Hh y d h Hd') in Hy as [? _].
  - intros y d h. destruct (decide (y = x)) as [->|].
    + rewrite lookup_insert_eq. intros [= <-]. split; [|by intros [? _]].
      intros Hin. destruct (h_chain _ _ _ _ Hh h) as [Hc _]. destruct (lchain_lookup _ _ _ _ Hc Hin) as [_ [d Hd]].
      by apply (h_in _ _ _ _ Hh x d h Hd) in Hin as [? _].
    + rewrite lookup_insert_ne by done. apply (h_in _ _ _ _ Hh).
  - intros y z d e Hy Hz. rewrite !lookup_insert_ne by done. by apply (h_key _ _ _ _ Hh).
  - rewrite lookup_insert_ne by done. apply (h_null _ _ _ _ Hh).
Qed.

(** The end of [evict_one]: off its chain, and marked. *)
Lemma evict_finish_ok c hc x b l : hash_ok (buf_pool c) (bucket c) hc 0 -> buf_pool c !! x = Some b ->
  lseg (buf_pool c) 0 (lru_head c) l (lru_tail c) 0 ->
  exists c' hc' b', Ret x (assign (if negb (b_dev (deref c x) =? NODEV) then hash_remove c x else c) x
      (fun b => b <| b_flags := B_BUSY |>)) = Ret x c'
    /\ buf_pool c' !! x = Some b' /\ b_data b' = b_data b /\ lseg (buf_pool c') 0 (lru_head c') l (lru_tail c') 0
    /\ hash_ok (buf_pool c') (bucket c') hc' x /\ frame x c c' /\ devs c' = devs c.
Proof.
  intros Hh Hb Hs. pose proof (hash_ok_nz _ _ _ _ _ _ Hh Hb) as Hx. rewrite (deref_lookup _ _ _ Hb).
  assert (Hc2 : exists c2 hc2 b2, (if negb (b_dev b =? NODEV) then hash_remove c x else c) = c2
    /\ buf_pool c2 !! x = Some b2 /\ b_data b2 = b_data b /\ lseg (buf_pool c2) 0 (lru_head c2) l (lru_tail c2) 0
    /\ hash_ok (buf_pool c2) (bucket c2) hc2 x /\ same_view core (buf_pool c) (buf_pool c2) /\ devs c2 = devs c).
  { destruct (Z.eqb_spec (b_dev b) NODEV) as [E|E]; cbn [negb].
    - exists c, hc, b. split_and!; try done. by eapply hash_ok_out.
    - destruct (hash_remove_ok c hc x b Hh Hb Hx E) as ([hc2 Hh2] & Hv2 & G1 & G2 & G3).
      destruct (same_view_fwd _ _ _ _ _ Hv2 Hb) as (b2 & Hb2 & [= _ _ _ _ _ _ Ed _ _]).
      exists (hash_remove c x), hc2, b2. rewrite G1, G2, G3. split_and!; try done.
      + eapply lseg_view; [|exact Hs]. by apply off_hash_lru.
      + by apply off_hash_core. }
  destruct Hc2 as (c2 & hc2 & b2 & -> & Hb2 & Ed & Hs2 & Hh2 & Hv2 & Hd2).
  rewrite (assign_putd _ _ _ _ Hb2). eexists _, hc2, (b2 <| b_flags := B_BUSY |>). split; [done|]. split_and!; try done.
  - apply lookup_insert_eq.
  - eapply lseg_view; [|exact Hs2]. by apply (putd_view _ c2 x b2).
  - by apply hash_ok_renumber.
  - eapply frame_trans; [by apply frame_view|apply frame_putd].
Qed.

(** The buffer that [getblk] of a block would reuse is not dirty. *)
Definition reuses_clean (c : cache D) (dev blk : Z) : Prop :=
  hash_lookup c dev blk = 0 -> has (b_flags (deref c (lru_head c))) B_DELWRI = false.

Lemma evict_one_ok c own lru hc : cache_ok c own lru hc ->
  delayed = false \/ has (b_flags (deref c (lru_head c))) B_DELWRI = false ->
  (lru = [] /\ evict_one c = Ret 0 c)
  \/ exists x lru' hc' b' c', lru = x :: lru' /\ evict_one c = Ret x c' /\ x <> 0 /\ own !! x = None /\ x ∉ lru'
     /\ NoDup lru' /\ buf_pool c' !! x = Some b' /\ zlen (b_data b') = BUF_BLOCK_SIZE
     /\ lseg (buf_pool c') 0 (lru_head c') lru' (lru_tail c') 0 /\ hash_ok (buf_pool c') (bucket c') hc' x
     /\ frame x c c' /\ devs c' = devs c.
Proof.
  intros Hok Hcl. pose proof (ok_lru _ _ _ _ Hok) as Hs. unfold evict_one. destruct lru as [|x lru].
  { left. destruct Hs as [_ <-]. done. }
  right. pose proof Hs as (Ehd & _). rewrite Ehd in *. assert (Hin : x ∈ x :: lru) by (apply elem_of_cons; by left).
  destruct (unlink_free c own _ hc x Hok Hin) as (l1 & l2 & b & b1 & El & Hx & Hnx & Hd & Hb & Hown & Hbo & Hs1 & Hh1 & Hb1 & Hcore & Hv & Hdv).
  assert (l1 = [] /\ l2 = lru) as [-> ->].
  { destruct l1 as [|y l1]; [by injection El as ->|]. injection El as -> ->. exfalso. apply Hnx. apply elem_of_cons. by left. }
  cbn [app] in *. rewrite (proj2 (Z.eqb_neq _ _) Hx). set (c1 := lru_unlink c x) in *.
  pose proof (buf_ok_core _ _ _ _ (eq_sym Hcore) Hbo) as Hbo1.
  assert (Hcl1 : has (b_flags b1) B_DELWRI = false).
  { destruct Hcl as [Hdl|Hcl]; [by apply (bo_clean _ _ _ Hbo1)|]. rewrite (deref_lookup _ _ _ Hb) in Hcl.
    injection Hcore as _ _ _ _ -> _ _. done. }
  rewrite (deref_lookup _ _ _ Hb1), Hcl1. cbn [bind].
  destruct (evict_finish_ok c1 hc x b1 lru Hh1 Hb1 Hs1) as (c' & hc' & b' & -> & Hb' & Ed & Hs' & Hh' & Hf & Hdv').
  exists x, lru, hc', b', c'. split_and!; try done.
  - rewrite Ed. apply (bo_size _ _ _ Hbo1).
  - eapply frame_trans; [by apply frame_view|done].
  - by rewrite Hdv'.
Qed.

(** The end of [getblk] on a miss: the buffer [x], on no chain, gets the number of
    the block, which no other buffer has. *)
Lemma getblk_finish_ok c hc x b l dev blk : hash_ok (buf_pool c) (bucket c) hc x -> buf_pool c !! x = Some b -> x <> 0 ->
  lseg (buf_pool c) 0 (lru_head c) l (lru_tail c) 0 -> dev <> NODEV ->
  (forall y d, y <> x -> buf_pool c !! y = Some d -> ~ (b_dev d = dev /\ b_blkno d = blk)) ->
  exists c' hc' b', Ret x (hash_insert (assign c x (fun b => b <| b_dev := dev |> <| b_blkno := blk |>
             <| b_bcount := BUF_BLOCK_SIZE |> <| b_flags := B_BUSY |> <| b_error := 0 |>)) x) = Ret x c'
    /\ buf_pool c' !! x = Some b' /\ lseg (buf_pool c') 0 (lru_head c') l (lru_tail c') 0
    /\ hash_ok (buf_pool c') (bucket c') hc' 0 /\ frame x c c' /\ devs c' = devs c
    /\ hkey b' = (dev, blk) /\ b_flags b' = B_BUSY /\ b_data b' = b_data b.
Proof.
  intros Hh Hb Hx Hs Hn Hnone. rewrite (assign_putd _ _ _ _ Hb).
  set (b1 := b <| b_dev := dev |> <| b_blkno := blk |> <| b_bcount := BUF_BLOCK_SIZE |> <| b_flags := B_BUSY |> <| b_error := 0 |>).
  set (c1 := putd c x b1 (devs c)).
  assert (Hb1 : buf_pool c1 !! x = Some b1) by apply lookup_insert_eq.
  destruct (hash_insert_ok c1 hc x b1) as ([hc2 Hh2] & Hv2 & G1 & G2 & G3); [by apply hash_ok_renumber|done|done| |].
  { intros y d Hy. cbn. rewrite lookup_insert_ne by done. intros Hd' [= K1 K2]. by apply (Hnone y d). }
  destruct (same_view_fwd _ _ _ _ _ (off_hash_core _ _ Hv2) Hb1) as (b2 & Hb2 & Hcore).
  injection Hcore as K1 K2 _ _ K3 _ K4. exists (hash_insert c1 x), hc2, b2. split_and!; try done.
  - rewrite G1, G2. eapply lseg_view; [by apply off_hash_lru|]. eapply lseg_view; [|exact Hs]. by apply (putd_view _ c x b).
  - eapply frame_trans; [apply frame_putd|]. by apply frame_view, off_hash_core.
  - unfold hkey. by rewrite K1, K2.
Qed.

(** What [getblk] does: the thread sleeps on the buffer of the block when another
    holds it; there is no buffer at all; or the buffer of the block, which nobody
    held, is the caller's. *)
Definition getblk_post (c : cache D) (own : gmap Z phase) (lru : list Z) (dev blk : Z) (r : outcome D Z) : Prop :=
  (exists x b, r = Park x c /\ is_Some (own !! x) /\ buf_pool c !! x = Some b /\ hkey b = (dev, blk))
  \/ (r = Ret 0 c /\ lru = [])
  \/ exists x c' lru' hc' b, r = Ret x c' /\ x <> 0 /\ own !! x = None /\ cache_ok c' (<[x := Claimed]> own) lru' hc'
       /\ lru ≡ₚ x :: lru' /\ buf_pool c' !! x = Some b /\ hkey b = (dev, blk) /\ frame x c c' /\ devs c' = devs c.

Lemma getblk_hit c own lru hc x b : cache_ok c own lru hc -> buf_pool c !! x = Some b -> b_dev b <> NODEV ->
  has (b_flags b) B_BUSY = false ->
  getblk_post c own lru (b_dev b) (b_blkno b) (Ret x (assign (lru_unlink c x) x (fun b => set_flags b B_BUSY))).
Proof.
  intros Hok Hb Hn Hbusy. pose proof (ok_buf _ _ _ _ Hok x b Hb) as Hbo.
  assert (own !! x = None) as Hown.
  { destruct (own !! x) as [ph|]; [|done]. pose proof (bo_busy _ _ _ Hbo) as E. rewrite Hbusy in E. done. }
  assert (Hin : x ∈ lru) by (apply (ok_free _ _ _ _ Hok); by rewrite Hb; eauto).
  destruct (unlink_free c own _ hc x Hok Hin) as (l1 & l2 & b0 & b1 & El & Hx & Hnx & Hd & Hb0 & _ & _ & Hs1 & Hh1 & Hb1 & Hcore & Hv & Hdv).
  rewrite Hb in Hb0. injection Hb0 as <-. rewrite Hown in Hbo.
  pose proof (buf_ok_core _ _ _ _ (eq_sym Hcore) Hbo) as Hbo1.
  assert (hkey b1 = hkey b) as Hkey by (injection Hcore; unfold hkey; congruence).
  rewrite (assign_putd _ _ _ _ Hb1). right. right. eexists x, _, (l1 ++ l2), hc, _.
  split; [done|]. split; [done|]. split; [done|]. split_and!.
  - eapply cache_claim; try done.
    + eapply lseg_view; [|exact Hs1]. by apply (putd_view _ (lru_unlink c x) x b1).
    + intros y Hy. rewrite El, !elem_of_app, elem_of_cons. tauto.
    + eapply hash_ok_view; [|exact Hh1]. by apply (putd_view _ (lru_unlink c x) x b1).
    + apply lookup_insert_eq.
    + injection Hkey as K1 K2. destruct Hbo1. split; try done.
      * flags. done.
      * by flags.
      * by flags.
      * cbn. by rewrite K1.
      * intros Hn' s Hs. destruct (bo_data0 Hn' s Hs) as [E1 E2]. split; [by flags|].
        intros _. flags. by apply E2.
    + eapply frame_trans; [by apply frame_view|apply frame_putd].
  - rewrite El. symmetry. apply Permutation_middle.
  - apply lookup_insert_eq.
  - exact Hkey.
  - eapply frame_trans; [by apply frame_view|apply frame_putd].
  - exact Hdv.
Qed.

Lemma getblk_ok c own lru hc dev blk : cache_ok c own lru hc -> serves dev -> 0 <= blk ->
  delayed = false \/ reuses_clean c dev blk ->
  getblk_post c own lru dev blk (getblk c dev blk).
Proof.
  intros Hok Hsv Hblk Hcl. pose proof (serves_dev _ Hsv) as Hn. unfold getblk.
  destruct (hash_lookup_ok c hc dev blk (ok_hash _ _ _ _ Hok) Hn) as [(Hx & b & Hb & E1 & E2)|[El Hnone]].
  - set (x := hash_lookup c dev blk) in *. rewrite (proj2 (Z.eqb_neq _ _) Hx), (deref_lookup _ _ _ Hb). cbn [negb].
    destruct (has (b_flags b) B_BUSY) eqn:Hbusy.
    + left. exists x, b. split_and!; try done; [|by unfold hkey; rewrite E1, E2].
      pose proof (bo_busy _ _ _ (ok_buf _ _ _ _ Hok x b Hb)) as E. rewrite Hbusy in E. symmetry in E; by apply bool_decide_eq_true in E.
    + rewrite <- E1, <- E2. eapply getblk_hit; try done. congruence.
  - rewrite El. cbn [Z.eqb negb].
    destruct (evict_one_ok c own lru hc Hok) as [[-> ->]|(x & lru' & hc' & b' & c' & -> & -> & Hx & Hown & Hxl & Hd & Hb' & Hsz & Hs & Hh & Hf & Hdv)];
      [destruct Hcl as [?|Hcl]; [by left|by right; apply Hcl]|by right; left|]. right. right. cbn [bind]. rewrite (proj2 (Z.eqb_neq _ _) Hx).
    destruct (getblk_finish_ok c' hc' x b' lru' dev blk Hh Hb' Hx Hs Hn) as (c2 & hc2 & b2 & -> & Hb2 & Hs2 & Hh2 & Hf2 & Hdv2 & Hk & Hfl & Hdat).
    { intros y d Hy Hd'. specialize (Hf y Hy). rewrite Hd' in Hf.
      destruct (buf_pool c !! y) as [d0|] eqn:E0; [|done]. apply (inj Some) in Hf. injection Hf as F1 F2 _ _ _ _ _.
      rewrite F1, F2. by apply (Hnone y d0). }
    exists x, c2, lru', hc2, b2. pose proof (frame_trans _ _ _ _ Hf Hf2) as Hf3. injection Hk as K1 K2.
    split_and!; try done; [|by rewrite <- K1, <- K2|by rewrite Hdv2].
    eapply cache_claim; try done; [intros y Hy; rewrite elem_of_cons; tauto| |by rewrite Hdv2].
    split; try done.
    + by rewrite Hdat.
    + by rewrite Hfl.
    + by rewrite Hfl.
    + by rewrite Hfl.
    + by rewrite K1.
    + by rewrite K1, K2.
    + intros _ s' _. by rewrite Hfl.
Qed.

(** ** One thread: blocks in and out *)

(** The holder overwrites the block in its buffer. *)
Definition store (c : cache D) (x : Z) (data : bytes) : cache D :=
  assign c x (fun b => set_flags (b <| b_data := data |>) B_VALID).

Lemma store_ok c own lru hc x b ph data : cache_ok c own lru hc -> own !! x = Some ph ->
  buf_pool c !! x = Some b -> zlen data = BUF_BLOCK_SIZE ->
  store c x data = putd c x (set_flags (b <| b_data := data |>) B_VALID) (devs c)
  /\ cache_ok (store c x data) (<[x := Writing]> own) lru hc.
Proof.
  intros Hok Hown Hb Hdata. destruct (held_facts _ _ _ _ _ _ _ Hok Hb Hown) as (Hx & Hn & Hsv & Hblk & Hbo & Hd).
  unfold store. rewrite (assign_putd _ _ _ _ Hb). split; [done|]. eapply cache_put; try done. destruct Hbo. split; try done.
  - flags. done.
  - by flags.
  - by flags.
  - intros _ s Hs. destruct (bo_data0 Hn s Hs) as [E1 _]. split; [by flags|done].
Qed.

Lemma bd_read_ok c own lru hc dev blk s : cache_ok c own lru hc -> serves dev -> 0 <= blk ->
  content (devs c) dev blk = Some s -> own = ∅ -> lru <> [] -> delayed = false ->
  exists c' lru' hc', bd_read_block c dev blk = Ret (Some s) c' /\ cache_ok c' ∅ lru' hc' /\ lru' ≡ₚ lru
    /\ same_disk (devs c) (devs c').
Proof.
  intros Hok Hsv Hblk Hs -> Hne Hdl. unfold bd_read_block, bread.
  destruct (getblk_ok c ∅ lru hc dev blk Hok Hsv Hblk (or_introl Hdl)) as [(x & b & _ & [? Ho] & _)|[[_ ?]|(x & c1 & lru1 & hc1 & b & -> & Hx & _ & Hok1 & Hp & Hb & [= K1 K2] & _ & Hdv)]]; [done|done|].
  cbn [bind]. rewrite (proj2 (Z.eqb_neq _ _) Hx).
  destruct (bread_fill_ok c1 _ lru1 hc1 x b s Hok1) as (b' & d' & -> & Hok2 & [= K3 K4] & Hdat & Hsame);
    [apply lookup_insert_eq|done|by rewrite K1, K2, Hdv|].
  specialize (Hdat Hdl). cbn [bind]. rewrite (proj2 (Z.eqb_neq _ _) Hx), deref_putd. rewrite insert_insert_eq in Hok2.
  pose proof (ok_buf _ _ _ _ Hok2 x b' (lookup_insert_eq _ _ _)) as Hbo. rewrite lookup_insert_eq in Hbo.
  destruct (brelse_ok _ _ _ _ x b' Filled Hok2) as (H1 & H2 & _); [apply lookup_insert_eq|apply lookup_insert_eq| |].
  { destruct Hbo. split; try done; [by flags..|].
    intros Hn t Ht. destruct (bo_data0 Hn t Ht) as [E1 E2]. split; [by flags|]. intros _. flags. by apply E2. }
  rewrite delete_insert_id in H1 by apply lookup_empty. eexists _, _, _. split_and!; [|exact H1| |].
  - rewrite Hdat, take_ge; [done|]. pose proof (bo_size _ _ _ Hbo) as Hz. rewrite Hdat in Hz. unfold zlen, BUF_BLOCK_SIZE in Hz. lia.
  - rewrite Hp. symmetry. apply Permutation_cons_append.
  - rewrite H2, <- Hdv. exact Hsame.
Qed.

Lemma bd_write_ok c own lru hc dev blk s inp : cache_ok c own lru hc -> serves dev -> 0 <= blk ->
  content (devs c) dev blk = Some s -> own = ∅ -> lru <> [] -> delayed = false -> zlen inp = BUF_BLOCK_SIZE ->
  exists c' lru' hc', bd_write_block c dev blk inp = Ret 0 c' /\ cache_ok c' ∅ lru' hc' /\ lru' ≡ₚ lru
    /\ one_block (devs c) (devs c') dev blk inp.
Proof.
  intros Hok Hsv Hblk Hs -> Hne Hdl Hinp. unfold bd_write_block.
  destruct (getblk_ok c ∅ lru hc dev blk Hok Hsv Hblk (or_introl Hdl)) as [(x & b & _ & [? Ho] & _)|[[_ ?]|(x & c1 & lru1 & hc1 & b & -> & Hx & _ & Hok1 & Hp & Hb & [= K1 K2] & _ & Hdv)]]; [done|done|].
  cbn [bind]. rewrite (proj2 (Z.eqb_neq _ _) Hx).
  pose proof (bo_size _ _ _ (ok_buf _ _ _ _ Hok1 x b Hb)) as Hz.
  assert (E : assign c1 x (fun b => set_flags (b <| b_data := kmemcpy (b_data b) inp BUF_BLOCK_SIZE |>) B_VALID) = store c1 x inp).
  { unfold store. rewrite !(assign_putd _ _ _ _ Hb), kmemcpy_block by done. done. }
  rewrite E. destruct (store_ok c1 _ lru1 hc1 x b Claimed inp Hok1 (lookup_insert_eq _ _ _) Hb Hinp) as [E2 Hok2].
  rewrite insert_insert_eq in Hok2. rewrite E2 in *. set (b1 := set_flags _ _) in *.
  destruct (bwrite_ok _ _ lru1 hc1 x b1 Writing s Hok2) as (c' & -> & H1 & _ & H3);
    [apply lookup_insert_eq|apply lookup_insert_eq|cbn; by rewrite K1, K2, Hdv|].
  rewrite delete_insert_id in H1 by apply lookup_empty. eexists _, _, _. split_and!; [done|exact H1| |].
  - rewrite Hp. symmetry. apply Permutation_cons_append.
  - rewrite <- Hdv. change (b_dev b1) with (b_dev b) in H3. change (b_blkno b1) with (b_blkno b) in H3. rewrite K1, K2 in H3. exact H3.
Qed.

End Inv.

End BufInv.
