(* ===== verification/BufThm.v ===== *)
(** * The buffer cache: what its clients may rely on

    Initialisation, the steps of threads that hold buffers, coherence of every
    reachable cache, the block reads and writes of one thread as operations on the
    disk, and three flaws: a dirty buffer that is reused stays on the LRU list, a
    failed read turns the next write of the block into a read, and a write that the
    device refused is served from the cache. *)

From stdpp Require Import functions base numbers list gmap relations.
From Stdlib Require Import ZArith Lia Bool.
From S2P Require Import Prelude Links BlockDev Buf BufInv.

Module BufThm.

Import Links BlockDev Buf BufInv.

Section Thm.
Context {D : Type} `{!BlockDevs D} `{!DiskLaws D}.
Implicit Types (c : cache D) (own : gmap Z phase).

Notation lseg := (dseg lru_next lru_prev).

(** ** Initialisation *)

(** The statics before [buf_init]: [n] zeroed slots. *)
Definition slots (n : nat) : gmap Z buf := list_to_map ((fun i => (1 + Z.of_nat i, no_buf)) <$> seq 0 n).

Definition cold (d : D) : cache D := mk_cache (slots 64) ∅ 0 0 d.

(** A slot [buf_init] has set up. *)
Definition fresh_buf (page : bytes) : buf := mk_buf NODEV 0 BUF_BLOCK_SIZE 0 0 0 page 0 0 0.

Lemma slots_lookup n x : slots n !! x = if decide (1 <= x <= Z.of_nat n) then Some no_buf else None.
Proof.
  unfold slots. case_decide as Hx.
  - apply elem_of_list_to_map_1'.
    + intros y (i & [= -> <-] & _)%list_elem_of_fmap. done.
    + apply list_elem_of_fmap. exists (Z.to_nat (x - 1)). split; [f_equal; lia|]. apply elem_of_seq. lia.
  - apply not_elem_of_list_to_map_1. intros (y & -> & (i & -> & Hi%elem_of_seq)%list_elem_of_fmap)%list_elem_of_fmap.
    cbn in Hx. lia.
Qed.

(** The slots set up so far are [l], in order; the rest are still zeroed. *)
Record init_ok (d : D) (c : cache D) (l : list Z) : Prop := {
  io_lru : lseg (buf_pool c) 0 (lru_head c) l (lru_tail c) 0;
  io_nodup : NoDup l;
  io_hash : buf_hash c = ∅;
  io_devs : devs c = d;
  io_pool : forall x, x ∉ l -> core <$> buf_pool c !! x = core <$> slots 64 !! x;
  io_done : forall x, x ∈ l -> exists page, zlen page = BUF_BLOCK_SIZE /\ core <$> buf_pool c !! x = Some (fresh_buf page)
}.

Lemma init_slot_ok d c l x page : init_ok d c l -> x ∉ l -> 1 <= x <= 64 -> zlen page = BUF_BLOCK_SIZE ->
  init_ok d (init_slot c x page) (l ++ [x]).
Proof.
  intros [Hs Hd Hh Hdv Hp Hdone] Hx Hr Hpage. unfold init_slot. set (c1 := assign c x _).
  assert (Hb : exists b, buf_pool c !! x = Some b /\ core b = no_buf).
  { specialize (Hp x Hx). rewrite slots_lookup, decide_True in Hp by (cbn; lia).
    destruct (buf_pool c !! x) as [b|]; [|done]. apply (inj Some) in Hp. by exists b. }
  destruct Hb as (b & Hb & Hcore).
  set (b1 := b <| b_data := page |> <| b_dev := NODEV |> <| b_blkno := 0 |> <| b_bcount := BUF_BLOCK_SIZE |>
    <| b_flags := 0 |> <| b_error := 0 |>).
  assert (Hb1 : buf_pool c1 !! x = Some b1) by (unfold c1; by rewrite lookup_assign, lookup_alter_eq, Hb).
  assert (Hs1 : lseg (buf_pool c1) 0 (lru_head c1) l (lru_tail c1) 0) by by apply dseg_alter.
  destruct (lru_insert_tail_ok c1 x b1 l Hs1 Hd Hb1 ltac:(lia) Hx) as (Hs2 & Hv & Hbk & Hd2).
  apply off_lru_core in Hv. split.
  - done.
  - apply NoDup_app. split_and!; [done| |apply NoDup_singleton]. by intros y Hy ->%list_elem_of_singleton.
  - by rewrite Hbk.
  - by rewrite Hd2.
  - intros y [Hy1 Hy2%not_elem_of_cons]%not_elem_of_app. rewrite Hv. unfold c1. rewrite lookup_assign, lookup_alter_ne; [exact (Hp y Hy1)|]. intros ->. by destruct Hy2.
  - intros y [Hy| ->%list_elem_of_singleton]%elem_of_app.
    + rewrite Hv. unfold c1. rewrite lookup_assign, lookup_alter_ne; [exact (Hdone y Hy)|]. intros ->. exact (Hx Hy).
    + exists page. split; [done|]. rewrite Hv, Hb1. cbn. f_equal. unfold b1. destruct b. by injection Hcore as -> -> -> -> -> -> ->.
Qed.

Lemma init_slots_ok d n : forall c l bp pages, init_ok d c l -> (length pages >= n)%nat -> 1 <= bp ->
  bp + Z.of_nat n <= 65 -> (forall y, y ∈ l -> y < bp) -> Forall (fun p => zlen p = BUF_BLOCK_SIZE) pages ->
  init_ok d (init_slots n c bp pages) (l ++ seqZ bp (Z.of_nat n)).
Proof.
  induction n as [|n IH]; intros c l bp pages Hok Hlen Hbp Hmax Hl Hp.
  - destruct pages; cbn [init_slots]; by rewrite app_nil_r.
  - destruct pages as [|page pages]; [cbn in Hlen; lia|]. apply Forall_cons in Hp as [Hp1 Hp]. cbn [init_slots].
    rewrite seqZ_cons by lia. replace (Z.pred (Z.of_nat (S n))) with (Z.of_nat n) by lia.
    change (l ++ bp :: seqZ (Z.succ bp) (Z.of_nat n)) with (l ++ [bp] ++ seqZ (Z.succ bp) (Z.of_nat n)).
    rewrite (assoc_L (++)). apply IH; try done; try lia.
    + apply init_slot_ok; try done; [|lia]. intros ?%Hl. lia.
    + cbn in Hlen. lia.
    + intros y [?%Hl| ->%list_elem_of_singleton]%elem_of_app; lia.
Qed.

Lemma cold_ok d : init_ok d (cold d) [].
Proof. split; [done|apply NoDup_nil_2|done|done|done|by intros x ?%elem_of_nil]. Qed.

(** After [buf_init] with a page for every slot the cache is empty and all its
    buffers are free. *)
Lemma buf_init_ok {delayed} d pages : disk_ok d -> length pages = 64%nat -> Forall (fun p => zlen p = BUF_BLOCK_SIZE) pages ->
  cache_ok (delayed := delayed) (buf_init (cold d) pages) ∅ (seqZ 1 64) (fun _ => []).
Proof.
  intros Hd Hlen Hp. destruct (init_slots_ok d 64 (cold d) [] 1 pages) as [Hs Hn Hh Hdv Hpool Hdone];
    [apply cold_ok|lia|lia|lia|by intros y ?%elem_of_nil|done|].
  change (init_slots 64 (cold d) 1 pages) with (buf_init (cold d) pages) in *. set (c := buf_init (cold d) pages) in *.
  change ([] ++ seqZ 1 (Z.of_nat 64)) with (seqZ 1 64) in *.
  assert (Hdom : forall x, x ∈ seqZ 1 64 <-> is_Some (buf_pool c !! x)).
  { intros x. split.
    - intros (page & _ & E)%Hdone. destruct (buf_pool c !! x); [by eexists|done].
    - intros [b Hb]. destruct (decide (x ∈ seqZ 1 64)) as [|Hx]; [done|]. specialize (Hpool x Hx).
      rewrite elem_of_seqZ in Hx. rewrite Hb, slots_lookup, decide_False in Hpool by (cbn; lia). done. }
  assert (Hbuf : forall x b, buf_pool c !! x = Some b -> exists page, zlen page = BUF_BLOCK_SIZE /\ core b = fresh_buf page).
  { intros x b Hb. destruct (Hdone x) as (page & Hz & E); [apply Hdom; by rewrite Hb; eexists|].
    rewrite Hb in E. apply (inj Some) in E. by exists page. }
  split.
  - done.
  - done.
  - intros x. rewrite Hdom. split; [done|by intros []].
  - intros x [? ?]. done.
  - split.
    + intros h. split; [|apply NoDup_nil_2]. unfold bucket. by rewrite Hh.
    + intros x b h Hb. destruct (Hbuf x b Hb) as (page & _ & [= E _ _ _ _ _ _]). rewrite E. split; [by intros ?%elem_of_nil|]. intros (_ & E' & _). by destruct E'.
    + intros x y b b' _ _ Hb. destruct (Hbuf x b Hb) as (page & _ & [= E _ _ _ _ _ _]). rewrite E. done.
    + destruct (buf_pool c !! 0) eqn:E; [|done]. assert (0 ∈ seqZ 1 64) as H0 by (apply Hdom; by rewrite E; eexists).
      apply elem_of_seqZ in H0. lia.
  - intros x b Hb. destruct (Hbuf x b Hb) as (page & Hz & Hcore). eapply (buf_ok_core _ _ (fresh_buf page)); [symmetry; exact Hcore|].
    rewrite lookup_empty. split; try done; by intros [].
  - by rewrite Hdv.
Qed.

(** ** Threads *)

(** One step of some thread: it claims the buffer of a block with [getblk], sleeps
    or is refused; fills its buffer ([bread] after [getblk]); overwrites it; writes it
    back; leaves it to be written later; or releases it unwritten.  [getblk] never has
    to reuse a buffer whose write is delayed: what happens then is
    [dirty_buffer_given_twice]. *)
Inductive cache_step : cache D * gmap Z phase -> cache D * gmap Z phase -> Prop :=
| step_getblk c own dev blk x c' : serves dev -> 0 <= blk -> reuses_clean c dev blk ->
    getblk c dev blk = Ret x c' ->
    cache_step (c, own) (c', if x =? 0 then own else <[x := Claimed]> own)
| step_sleep c own dev blk x c' : serves dev -> 0 <= blk -> reuses_clean c dev blk ->
    getblk c dev blk = Park x c' ->
    cache_step (c, own) (c', own)
| step_fill c own x y c' : own !! x = Some Claimed -> bread_fill c x = Ret y c' ->
    cache_step (c, own) (c', if y =? 0 then delete x own else <[x := Filled]> own)
| step_store c own x ph data : own !! x = Some ph -> zlen data = BUF_BLOCK_SIZE ->
    cache_step (c, own) (store c x data, <[x := Writing]> own)
| step_bwrite c own x ph rc c' : own !! x = Some ph -> bwrite c x = Ret rc c' ->
    cache_step (c, own) (c', delete x own)
| step_bdwrite c own x ph : own !! x = Some ph -> cache_step (c, own) (bdwrite c x, delete x own)
| step_bawrite c own x ph : own !! x = Some ph -> cache_step (c, own) (bawrite c x, delete x own)
| step_brelse c own x ph : own !! x = Some ph -> ph <> Writing ->
    cache_step (c, own) (brelse c x, delete x own).

Definition inv (st : cache D * gmap Z phase) : Prop :=
  exists lru hc, cache_ok (delayed := true) (fst st) (snd st) lru hc.

Lemma release_ok d ph b : ph <> Writing -> buf_ok (delayed := true) d (Some ph) b ->
  buf_ok (delayed := true) d None (clr_flags b B_BUSY).
Proof.
  intros Hph []. split; try done; [by flags..|].
  intros Hn s Hs. destruct (bo_data0 Hn s Hs) as [E1 E2]. split; [by flags|].
  intros _. flags. apply E2. congruence.
Qed.

Lemma held_lookup c own lru hc x ph : cache_ok (delayed := true) c own lru hc -> own !! x = Some ph ->
  exists b, buf_pool c !! x = Some b /\ buf_ok (delayed := true) (devs c) (Some ph) b /\ x <> 0.
Proof.
  intros Hok Ho. destruct (ok_own _ _ _ _ Hok x) as [b Hb]; [by eexists|].
  destruct (held_facts _ _ _ _ _ _ _ Hok Hb Ho) as (? & _ & _ & _ & ? & _). by exists b.
Qed.

(** A buffer released with its write delayed. *)
Lemma bdwrite_ok c own lru hc x ph : cache_ok (delayed := true) c own lru hc -> own !! x = Some ph ->
  cache_ok (delayed := true) (bdwrite c x) (delete x own) (lru ++ [x]) hc.
Proof.
  intros Hok Ho. destruct (held_lookup _ _ _ _ _ _ Hok Ho) as (b & Hb & Hbo & Hx).
  unfold bdwrite. rewrite (proj2 (Z.eqb_neq _ _) Hx), (assign_putd _ _ _ _ Hb). set (b1 := set_flags _ _).
  assert (Hd1 : has (b_flags b1) B_DELWRI = true /\ has (b_flags b1) B_VALID = true) by (unfold b1; split; by flags).
  assert (Hok1 : cache_ok (delayed := true) (putd c x b1 (devs c)) (<[x := Writing]> own) lru hc).
  { eapply cache_put; try done; [|apply (ok_disk _ _ _ _ Hok)]. destruct Hbo. split; try done.
    - unfold b1. by flags.
    - intros _. apply Hd1.
    - intros _. by apply bo_held0.
    - intros Hn s Hs. destruct (bo_data0 Hn s Hs) as [E1 _]. split; [unfold b1; by flags|done]. }
  pose proof (ok_buf _ _ _ _ Hok1 x b1 (lookup_insert_eq _ _ _)) as Hbo1. rewrite lookup_insert_eq in Hbo1.
  destruct (brelse_ok _ _ _ _ x b1 Writing Hok1) as (H1 & _ & _); [apply lookup_insert_eq|apply lookup_insert_eq| |].
  - destruct Hbo1. split; try done; [by flags|intros _; flags; apply Hd1|].
    intros Hn s Hs. destruct (bo_data0 Hn s Hs) as [E1 _]. split; [by flags|]. flags. by rewrite (proj1 Hd1).
  - by rewrite delete_insert_eq in H1.
Qed.

Lemma step_inv st st' : cache_step st st' -> inv st -> inv st'.
Proof.
  intros Hstep (lru & hc & Hok). destruct Hstep; cbn [fst snd] in *.
  - destruct (getblk_ok c own lru hc dev blk Hok) as [(y & b & E & _)|[[E _]|(y & c1 & lru1 & hc1 & b & E & Hy & _ & Hok1 & _)]];
      try done; [by right|rewrite E in *; simplify_eq..]; [by exists lru, hc|].
    rewrite (proj2 (Z.eqb_neq _ _) Hy). by exists lru1, hc1.
  - destruct (getblk_ok c own lru hc dev blk Hok) as [(y & b & E & _)|[[E _]|(y & c1 & lru1 & hc1 & b & E & _)]];
      try done; [by right|rewrite E in *; simplify_eq..]. by exists lru, hc.
  - destruct (held_lookup _ _ _ _ _ _ Hok H) as (b & Hb & Hbo & Hx).
    destruct (content (devs c) (b_dev b) (b_blkno b)) as [s|] eqn:Es.
    + destruct (bread_fill_ok _ _ _ _ _ _ _ Hok H Hb Es) as (b' & d' & E & Hok' & _). rewrite E in *. simplify_eq.
      rewrite (proj2 (Z.eqb_neq _ _) Hx). by exists lru, hc.
    + destruct (bread_fill_refused _ _ _ _ _ _ Hok H Hb Es) as [(_ & E & Hok')|(c1 & E & Hok' & _)]; rewrite E in *; simplify_eq.
      * rewrite (proj2 (Z.eqb_neq _ _) Hx). by exists lru, hc.
      * by exists (lru ++ [x]), hc.
  - destruct (held_lookup _ _ _ _ _ _ Hok H) as (b & Hb & _). exists lru, hc. by eapply store_ok.
  - destruct (held_lookup _ _ _ _ _ _ Hok H) as (b & Hb & _).
    destruct (content (devs c) (b_dev b) (b_blkno b)) as [s|] eqn:Es.
    + destruct (bwrite_ok _ _ _ _ _ _ _ _ Hok H Hb Es) as (c1 & E & Hok' & _). rewrite E in *. simplify_eq. by exists (lru ++ [x]), hc.
    + destruct (bwrite_refused _ _ _ _ _ _ _ Hok H Hb Es) as (c1 & E & Hok' & _). rewrite E in *. simplify_eq. by exists (lru ++ [x]), hc.
  - exists (lru ++ [x]), hc. by eapply bdwrite_ok.
  - exists (lru ++ [x]), hc. by eapply bdwrite_ok.
  - destruct (held_lookup _ _ _ _ _ _ Hok H) as (b & Hb & Hbo & _). exists (lru ++ [x]), hc.
    eapply brelse_ok; try done. by eapply release_ok.
Qed.


(** ** Block operations of one thread *)

Inductive blk_op := Rd (dev blk : Z) | Wr (dev blk : Z) (data : bytes).

Inductive blk_result := Got (data : option bytes) | Put (rc : Z).

(** A sequence of [bd_read_block]s and [bd_write_block]s; [None] if one sleeps. *)
Fixpoint run_ops (ops : list blk_op) (c : cache D) : option (list blk_result) * cache D :=
  match ops with
  | [] => (Some [], c)
  | op :: ops =>
      match (match op with
             | Rd dev blk => bind (bd_read_block c dev blk) (fun r c => Ret (Got r) c)
             | Wr dev blk data => bind (bd_write_block c dev blk data) (fun rc c => Ret (Put rc) c)
             end) with
      | Park _ c => (None, c)
      | Ret r c => let '(rs, c) := run_ops ops c in (cons r <$> rs, c)
      end
  end.

(** The same on a disk, a map from devices and block numbers to blocks. *)
Fixpoint run_disk (ops : list blk_op) (f : Z -> Z -> option bytes) : list blk_result * (Z -> Z -> option bytes) :=
  match ops with
  | [] => ([], f)
  | Rd dev blk :: ops => let '(rs, f') := run_disk ops f in (Got (f dev blk) :: rs, f')
  | Wr dev blk data :: ops =>
      let '(rs, f') := run_disk ops (fun dev' blk' => if decide (dev' = dev /\ blk' = blk) then Some data else f dev' blk') in
      (Put 0 :: rs, f')
  end.

(** The device has the block, and a write brings a whole block. *)
Definition op_ok (f : Z -> Z -> option bytes) (op : blk_op) : Prop :=
  match op with
  | Rd dev blk => serves dev /\ 0 <= blk /\ is_Some (f dev blk)
  | Wr dev blk data => serves dev /\ 0 <= blk /\ is_Some (f dev blk) /\ zlen data = BUF_BLOCK_SIZE
  end.

Lemma run_ops_disk ops : forall c lru hc f, cache_ok (delayed := false) c ∅ lru hc -> lru <> [] ->
  (forall dev blk, serves dev -> content (devs c) dev blk = f dev blk) -> Forall (op_ok f) ops ->
  exists c' lru' hc', run_ops ops c = (Some (fst (run_disk ops f)), c') /\ cache_ok (delayed := false) c' ∅ lru' hc'
    /\ forall dev blk, serves dev -> content (devs c') dev blk = snd (run_disk ops f) dev blk.
Proof.
  induction ops as [|op ops IH]; intros c lru hc f Hok Hne Hf Hops; [by eexists _, _, _|].
  apply Forall_cons in Hops as [Hop Hops]. assert (Hl : forall lru', lru' ≡ₚ lru -> lru' <> []).
  { intros lru' Hp ->. apply Permutation_nil_l in Hp. done. }
  destruct op as [dev blk|dev blk data]; cbn [run_ops run_disk].
  - destruct Hop as (Hsv & Hblk & [s Hs]). rewrite <- Hf in Hs by done.
    destruct (bd_read_ok c ∅ lru hc dev blk s Hok Hsv Hblk Hs eq_refl Hne eq_refl) as (c1 & lru1 & hc1 & -> & Hok1 & Hp & Hsame).
    cbn [bind]. destruct (IH c1 lru1 hc1 f Hok1 (Hl _ Hp)) as (c2 & lru2 & hc2 & -> & Hok2 & Hf2);
      [intros ???; rewrite Hsame; auto|done|].
    destruct (run_disk ops f) as [rs f']. rewrite <- Hf, Hs by done. by eexists _, _, _.
  - destruct Hop as (Hsv & Hblk & [s Hs] & Hd). rewrite <- Hf in Hs by done.
    destruct (bd_write_ok c ∅ lru hc dev blk s data Hok Hsv Hblk Hs eq_refl Hne eq_refl Hd) as (c1 & lru1 & hc1 & -> & Hok1 & Hp & Hone).
    cbn [bind]. set (f1 := fun dev' blk' => _).
    destruct (IH c1 lru1 hc1 f1 Hok1 (Hl _ Hp)) as (c2 & lru2 & hc2 & -> & Hok2 & Hf2).
    + intros dev' blk' Hs'. rewrite Hone by done. unfold f1. case_decide; [done|by apply Hf].
    + eapply Forall_impl; [exact Hops|]. intros [dev' blk'|dev' blk' data']; cbn; unfold f1; case_decide; naive_solver.
    + destruct (run_disk ops f1) as [rs f']. by eexists _, _, _.
Qed.

Lemma buf_init_devs d pages : length pages = 64%nat -> Forall (fun p => zlen p = BUF_BLOCK_SIZE) pages ->
  devs (buf_init (cold d) pages) = d.
Proof.
  intros Hlen Hp. by destruct (init_slots_ok d 64 (cold d) [] 1 pages) as [_ _ _ E _ _];
    [apply cold_ok|lia|lia|lia|by intros y ?%elem_of_nil|done|].
Qed.

(** C17: To one thread the cache is the disk.  Take a disk that keeps the laws of
    [DiskLaws] and a sequence of block reads and writes, each on a device with a driver
    and of a block that the device has, each write of a whole block.  After [buf_init]
    with a page for every buffer, the sequence succeeds, never sleeps, returns exactly
    what it returns on a plain map of blocks, and leaves the devices themselves holding
    that map (the cache writes through).  A write the device refuses is not covered:
    see [refused_write_is_read]. *)
Theorem buf_cache_is_disk d pages ops : disk_ok d -> length pages = 64%nat ->
  Forall (fun p => zlen p = BUF_BLOCK_SIZE) pages -> Forall (op_ok (content d)) ops ->
  exists c', run_ops ops (buf_init (cold d) pages) = (Some (fst (run_disk ops (content d))), c')
    /\ forall dev blk, serves dev -> content (devs c') dev blk = snd (run_disk ops (content d)) dev blk.
Proof.
  intros Hd Hlen Hp Hops. pose proof (buf_init_ok (delayed := false) d pages Hd Hlen Hp) as Hok.
  pose proof (buf_init_devs d pages Hlen Hp) as Hdv.
  destruct (run_ops_disk ops _ _ _ (content d) Hok) as (c' & _ & _ & H1 & _ & H2); try done; [by rewrite Hdv|].
  by exists c'.
Qed.

(** ** A refused write *)

(** A released buffer keeps all but its links and [B_BUSY]. *)
Lemma brelse_core c x b : x <> 0 -> buf_pool c !! x = Some b ->
  exists b', buf_pool (brelse c x) !! x = Some b' /\ core b' = core (clr_flags b B_BUSY).
Proof.
  intros Hx Hb. unfold brelse. rewrite (proj2 (Z.eqb_neq _ _) Hx). set (c1 := assign c x _).
  assert (Hb1 : buf_pool c1 !! x = Some (clr_flags b B_BUSY)) by (unfold c1; by rewrite lookup_assign, lookup_alter_eq, Hb).
  assert (Hv : same_view core (buf_pool c1) (buf_pool (lru_insert_tail c1 x))).
  { unfold lru_insert_tail. case_if; cbn; repeat (eapply same_view_trans; [|by apply same_view_alter]); apply same_view_refl. }
  by apply (same_view_fwd _ _ _ _ _ Hv).
Qed.

(** The buffer of a write that the device refused. *)
Lemma refused_write_buf c own lru hc x b ph : cache_ok (delayed := false) c own lru hc -> own !! x = Some ph ->
  buf_pool c !! x = Some b -> content (devs c) (b_dev b) (b_blkno b) = None ->
  exists c' b', bwrite c x = Ret (-1) c' /\ buf_pool c' !! x = Some b' /\ hkey b' = hkey b /\ b_data b' = b_data b
    /\ has (b_flags b') B_VALID = has (b_flags b) B_VALID /\ has (b_flags b') B_BUSY = false.
Proof.
  intros Hok Hown Hb Hs. destruct (held_facts _ _ _ _ _ _ _ Hok Hb Hown) as (Hx & Hn & Hsv & Hblk & Hbo & Hd).
  unfold bwrite. rewrite (proj2 (Z.eqb_neq _ _) Hx), (assign_putd _ _ _ _ Hb). set (b1 := set_flags _ _).
  destruct (strategy_refused c x b1 (devs c) (b_dev b) (b_blkno b)) as (b2 & d' & -> & Hk & _); try done.
  { split_and!; try done. apply (bo_size _ _ _ Hbo). }
  cbn [bind]. change (-1 <? 0) with true. cbv iota. rewrite assign_putd2.
  destruct Hk as (([= P1 P2] & _) & Hdat & _ & _ & K3).
  destruct (brelse_core (putd c x (clr_flags b2 B_WRITE) d') x (clr_flags b2 B_WRITE) Hx (lookup_insert_eq _ _ _))
    as (b3 & Hb3 & [= C1 C2 _ _ C5 _ C7]). cbn in C1, C2, C5, C7.
  eexists _, b3. split; [done|]. split; [exact Hb3|]. unfold hkey. rewrite C1, C2, P1, P2, C7, Hdat, C5.
  split_and!; [done|done| |by flags]. flags. rewrite K3. unfold b1. by flags.
Qed.

(** A block that is cached and free is handed out as it is. *)
Lemma getblk_cached c lru hc x b : cache_ok (delayed := false) c ∅ lru hc -> buf_pool c !! x = Some b -> b_dev b <> NODEV ->
  exists c' b', getblk c (b_dev b) (b_blkno b) = Ret x c' /\ buf_pool c' !! x = Some b' /\ b_data b' = b_data b
    /\ has (b_flags b') B_VALID = has (b_flags b) B_VALID /\ devs c' = devs c.
Proof.
  intros Hok Hb Hn. pose proof (ok_hash _ _ _ _ Hok) as Hh. unfold getblk.
  assert (hash_lookup c (b_dev b) (b_blkno b) = x) as ->.
  { destruct (hash_lookup_ok c hc (b_dev b) (b_blkno b) Hh Hn) as [(Hy & d & Hd & E1 & E2)|[_ Hnone]];
      [|exfalso; by apply (Hnone x b Hb)].
    symmetry. apply (h_key _ _ _ _ Hh x _ b d); try done. by eapply hash_ok_nz. }
  pose proof (hash_ok_nz _ _ _ _ _ _ Hh Hb) as Hx. rewrite (proj2 (Z.eqb_neq _ _) Hx), (deref_lookup _ _ _ Hb). cbn [negb].
  rewrite (bo_busy _ _ _ (ok_buf _ _ _ _ Hok x b Hb)), lookup_empty. cbn.
  assert (Hin : x ∈ lru) by (apply (ok_free _ _ _ _ Hok); by rewrite Hb, lookup_empty; eauto).
  destruct (unlink_free c ∅ _ hc x Hok Hin) as (l1 & l2 & b0 & b1 & _ & _ & _ & _ & Hb0 & _ & _ & _ & _ & Hb1 & Hcore & _ & Hdv).
  rewrite Hb in Hb0. injection Hb0 as <-. injection Hcore as _ _ _ _ C5 _ C7. rewrite (assign_putd _ _ _ _ Hb1).
  eexists _, _. split; [done|]. split; [apply lookup_insert_eq|]. split; [exact C7|]. split; [|exact Hdv].
  flags. by rewrite C5.
Qed.

(** [bd_write_block] marks the buffer valid before it asks the device.  When the device
    does not have the block, the write returns [-1], and the next read of the block
    succeeds all the same and returns the data that was never written. *)
Theorem refused_write_is_read c lru hc dev blk inp : cache_ok (delayed := false) c ∅ lru hc -> lru <> [] ->
  serves dev -> 0 <= blk -> content (devs c) dev blk = None -> zlen inp = BUF_BLOCK_SIZE ->
  exists c1 c2, bd_write_block c dev blk inp = Ret (-1) c1 /\ content (devs c1) dev blk = None
    /\ bd_read_block c1 dev blk = Ret (Some inp) c2.
Proof.
  intros Hok Hne Hsv Hblk Hs Hinp. unfold bd_write_block.
  destruct (getblk_ok c ∅ lru hc dev blk Hok Hsv Hblk (or_introl eq_refl))
    as [(x & b & _ & [? Ho] & _)|[[_ ?]|(x & c1 & lru1 & hc1 & b & -> & Hx & _ & Hok1 & Hp & Hb & Hk & _ & Hdv)]]; [done|done|].
  cbn [bind]. rewrite (proj2 (Z.eqb_neq _ _) Hx). pose proof (bo_size _ _ _ (ok_buf _ _ _ _ Hok1 x b Hb)) as Hz.
  assert (E : assign c1 x (fun b => set_flags (b <| b_data := kmemcpy (b_data b) inp BUF_BLOCK_SIZE |>) B_VALID) = store c1 x inp).
  { unfold store. rewrite !(assign_putd _ _ _ _ Hb), kmemcpy_block by done. done. }
  rewrite E. destruct (store_ok c1 _ lru1 hc1 x b Claimed inp Hok1 (lookup_insert_eq _ _ _) Hb Hinp) as [E2 Hok2].
  rewrite insert_insert_eq in Hok2. rewrite E2 in *. set (b1 := set_flags _ _) in *. pose proof Hk as [= K1 K2].
  set (c1' := putd c1 x b1 (devs c1)) in *.
  assert (Hb1 : buf_pool c1' !! x = Some b1) by apply lookup_insert_eq.
  assert (Ho1 : (<[x := Writing]> ∅ : gmap Z phase) !! x = Some Writing) by apply lookup_insert_eq.
  assert (Hs1 : content (devs c1') (b_dev b1) (b_blkno b1) = None) by (cbn; by rewrite K1, K2, Hdv).
  destruct (bwrite_refused _ _ lru1 hc1 x b1 Writing Hok2 Ho1 Hb1 Hs1) as (c2 & Ew & H1 & _ & Hsame).
  destruct (refused_write_buf _ _ lru1 hc1 x b1 Writing Hok2 Ho1 Hb1 Hs1) as (c2' & b2 & Ew' & Hb2 & Hk2 & D2 & V2 & _).
  rewrite Ew in Ew'. injection Ew' as <-. exists c2. rewrite delete_insert_id in H1 by apply lookup_empty.
  assert (hkey b2 = (dev, blk)) as [= K3 K4] by (rewrite Hk2; exact Hk).
  destruct (getblk_cached c2 _ hc1 x b2 H1 Hb2) as (c3 & b3 & E3 & Hb3 & D3 & V3 & _); [rewrite K3; by apply serves_dev|].
  rewrite K3, K4 in E3. eexists. split; [exact Ew|]. split; [rewrite Hsame by done; cbn; by rewrite Hdv|].
  unfold bd_read_block, bread. rewrite E3. cbn [bind]. rewrite (proj2 (Z.eqb_neq _ _) Hx). unfold bread_fill.
  rewrite (deref_lookup _ _ _ Hb3), V3, V2. assert (has (b_flags b1) B_VALID = true) as -> by (unfold b1; by flags).
  cbn [bind]. rewrite (proj2 (Z.eqb_neq _ _) Hx), (deref_lookup _ _ _ Hb3), D3, D2.
  change (b_data b1) with inp. rewrite take_ge; [done|]. unfold zlen, BUF_BLOCK_SIZE in Hinp. lia.
Qed.

(** ** A dirty buffer is reused *)

(** No buffer but perhaps [x] stands for the block. *)
Definition absent (c : cache D) (x dev blk : Z) : Prop :=
  forall y b, y <> x -> buf_pool c !! y = Some b -> ~ (b_dev b = dev /\ b_blkno b = blk).

Lemma absent_frame c c' x dev blk : frame x c c' -> absent c x dev blk -> absent c' x dev blk.
Proof.
  intros Hf Ha y b Hy Hb. specialize (Hf y Hy). rewrite Hb in Hf.
  destruct (buf_pool c !! y) as [b0|] eqn:E0; [|done]. apply (inj Some) in Hf. injection Hf as F1 F2 _ _ _ _ _.
  rewrite F1, F2. by apply (Ha y b0).
Qed.

(** A state of the cache as far as eviction looks at it: [x] is the next victim. *)
Record victim (c : cache D) (x : Z) (b : buf) (l : list Z) : Prop := {
  v_hash : exists hc, hash_ok (buf_pool c) (bucket c) hc 0;
  v_lru : lseg (buf_pool c) 0 (lru_head c) (x :: l) (lru_tail c) 0;
  v_nodup : NoDup (x :: l);
  v_buf : buf_pool c !! x = Some b
}.

Lemma victim_unlink c x b l : victim c x b l -> x <> 0 /\ lru_head c = x /\ exists hc b1, let c1 := lru_unlink c x in
  lseg (buf_pool c1) 0 (lru_head c1) l (lru_tail c1) 0 /\ hash_ok (buf_pool c1) (bucket c1) hc 0
  /\ buf_pool c1 !! x = Some b1 /\ core b1 = core b /\ frame x c c1 /\ devs c1 = devs c.
Proof.
  intros [[hc Hh] Hs Hd Hb]. pose proof Hs as (Hhd & Hx & _).
  destruct (lru_unlink_ok c x [] l Hs Hd) as (Hs1 & Hv & Hbk & Hdv).
  destruct (same_view_fwd _ _ _ _ _ (off_lru_core _ _ Hv) Hb) as (b1 & Hb1 & Hcore).
  split_and!; try done. exists hc, b1. cbv zeta. split_and!; try done; [|by apply frame_view, off_lru_core].
  assert (bucket (lru_unlink c x) = bucket c) as -> by (unfold bucket; by rewrite Hbk).
  by eapply off_lru_hash.
Qed.

(** The lookup of [getblk] misses. *)
Lemma lookup_absent c x b dev blk : (exists hc, hash_ok (buf_pool c) (bucket c) hc 0) -> buf_pool c !! x = Some b ->
  serves dev -> absent c x dev blk -> hkey b <> (dev, blk) -> hash_lookup c dev blk = 0.
Proof.
  intros [hc Hh] Hb Hs Ha Hk.
  destruct (hash_lookup_ok c hc dev blk Hh (serves_dev _ Hs)) as [(_ & d & Hd & E1 & E2)|[E _]]; [|done].
  destruct (decide (hash_lookup c dev blk = x)) as [Ex|Hne].
  - rewrite Ex, Hb in Hd. injection Hd as <-. exfalso. apply Hk. unfold hkey. congruence.
  - exfalso. by apply (Ha _ d Hne Hd).
Qed.

Lemma getblk_clean c x b l dev blk : victim c x b l -> has (b_flags b) B_DELWRI = false -> serves dev ->
  absent c x dev blk -> hkey b <> (dev, blk) -> exists c', getblk c dev blk = Ret x c'.
Proof.
  intros Hv Hdw Hs Ha Hk. destruct (victim_unlink _ _ _ _ Hv) as (Hx & Hhd & hc & b1 & Hs1 & Hh1 & Hb1 & Hcore & Hf1 & Hdv).
  unfold getblk. rewrite (lookup_absent c x b); [|apply (v_hash _ _ _ _ Hv)|apply (v_buf _ _ _ _ Hv)|done..].
  cbn [Z.eqb negb]. unfold evict_one. rewrite Hhd, (proj2 (Z.eqb_neq _ _) Hx), (deref_lookup _ _ _ Hb1).
  injection Hcore as _ _ _ _ -> _ _. rewrite Hdw. cbn [bind]. rewrite (proj2 (Z.eqb_neq _ _) Hx). by eexists.
Qed.

(** [bwrite] outside the lists: the buffer goes to the end of the LRU list. *)
Lemma bwrite_lists c hc x b l s : disk_ok (devs c) -> buf_pool c !! x = Some b -> x <> 0 -> x ∉ l -> NoDup l ->
  serves (b_dev b) -> 0 <= b_blkno b -> zlen (b_data b) = BUF_BLOCK_SIZE ->
  content (devs c) (b_dev b) (b_blkno b) = Some s -> hash_ok (buf_pool c) (bucket c) hc 0 ->
  lseg (buf_pool c) 0 (lru_head c) l (lru_tail c) 0 ->
  exists c' b', bwrite c x = Ret 0 c' /\ buf_pool c' !! x = Some b' /\ hash_ok (buf_pool c') (bucket c') hc 0
    /\ lseg (buf_pool c') 0 (lru_head c') (l ++ [x]) (lru_tail c') 0 /\ frame x c c'.
Proof.
  intros Hd Hb Hx Hxl Hnd Hsv Hblk Hz Hs Hh Hl.
  unfold bwrite. rewrite (proj2 (Z.eqb_neq _ _) Hx), (assign_putd _ _ _ _ Hb). set (b1 := set_flags _ _).
  destruct (strategy_served c x b1 (devs c) (b_dev b) (b_blkno b) s) as (d' & -> & _ & _); try done.
  cbn [bind Z.ltb Z.compare]. rewrite !assign_putd2. unfold brelse. rewrite (proj2 (Z.eqb_neq _ _) Hx), assign_putd2.
  set (b' := clr_flags _ B_BUSY). set (c1 := putd c x b' d').
  assert (Hb' : same_place b b').
  { unfold b', complete. by destruct (has (b_flags (submitted b1)) B_READ). }
  destruct Hb' as (P1 & P2 & P3 & P4). assert (Hb1 : buf_pool c1 !! x = Some b') by apply lookup_insert_eq.
  assert (Hl1 : lseg (buf_pool c1) 0 (lru_head c1) l (lru_tail c1) 0).
  { eapply lseg_view; [|exact Hl]. apply (putd_view _ c x b); [done|congruence]. }
  assert (Hh1 : hash_ok (buf_pool c1) (bucket c1) hc 0).
  { eapply hash_ok_view; [|exact Hh]. apply (putd_view _ c x b); [done|congruence]. }
  destruct (lru_insert_tail_ok c1 x b' l Hl1 Hnd Hb1 Hx Hxl) as (Hl2 & Hv & Hbk & _).
  destruct (same_view_fwd _ _ _ _ _ Hv Hb1) as (b2 & Hb2 & _). exists (lru_insert_tail c1 x), b2. split_and!; try done.
  - assert (bucket (lru_insert_tail c1 x) = bucket c1) as -> by (unfold bucket; by rewrite Hbk). by eapply off_lru_hash.
  - eapply frame_trans; [apply frame_putd|]. by apply frame_view, off_lru_core.
Qed.

(** C39: Reusing a dirty buffer corrupts the LRU list.  When the least recently used
    buffer carries a delayed write, [getblk] of a block that is not cached hands it
    to the caller marked busy while [bwrite] has put it back on the LRU list; if it
    was the only free buffer, the next [getblk] of another block hands the same
    buffer to a second caller. *)
Theorem dirty_buffer_given_twice c x b l s dev blk : disk_ok (devs c) -> victim c x b l ->
  has (b_flags b) B_DELWRI = true -> serves (b_dev b) -> 0 <= b_blkno b -> zlen (b_data b) = BUF_BLOCK_SIZE ->
  content (devs c) (b_dev b) (b_blkno b) = Some s ->
  serves dev -> absent c x dev blk -> hkey b <> (dev, blk) ->
  exists c1 b1, getblk c dev blk = Ret x c1 /\ buf_pool c1 !! x = Some b1 /\ b_flags b1 = B_BUSY /\ hkey b1 = (dev, blk)
    /\ dseg lru_next lru_prev (buf_pool c1) 0 (lru_head c1) (l ++ [x]) (lru_tail c1) 0
    /\ (l = [] -> forall dev2 blk2, serves dev2 -> absent c x dev2 blk2 -> (dev2, blk2) <> (dev, blk) ->
         exists c2, getblk c1 dev2 blk2 = Ret x c2).
Proof.
  intros Hd Hv Hdw Hsv Hblk Hz Hs Hs1 Ha Hk. pose proof (v_nodup _ _ _ _ Hv) as [Hxl Hnd]%NoDup_cons.
  destruct (victim_unlink _ _ _ _ Hv) as (Hx & Hhd & hc & b1 & Hl1 & Hh1 & Hb1 & Hcore & Hf1 & Hdv).
  unfold getblk at 1. rewrite (lookup_absent c x b); [|apply (v_hash _ _ _ _ Hv)|apply (v_buf _ _ _ _ Hv)|done..].
  cbn [Z.eqb negb]. unfold evict_one. rewrite Hhd, (proj2 (Z.eqb_neq _ _) Hx), (deref_lookup _ _ _ Hb1).
  injection Hcore as K1 K2 _ _ K5 _ K7. rewrite K5, Hdw.
  destruct (bwrite_lists (lru_unlink c x) hc x b1 l s) as (c2 & b2 & -> & Hb2 & Hh2 & Hl2 & Hf2);
    rewrite ?K1, ?K2, ?K7, ?Hdv; try done.
  cbn [bind]. destruct (evict_finish_ok c2 hc x b2 (l ++ [x]) Hh2 Hb2 Hl2) as (c3 & hc3 & b3 & E3 & Hb3 & _ & Hl3 & Hh3 & Hf3 & _).
  injection E3 as E3. rewrite E3. rewrite (proj2 (Z.eqb_neq _ _) Hx).
  assert (Hf : frame x c c3) by (eapply frame_trans; [exact Hf1|]; by eapply frame_trans).
  destruct (getblk_finish_ok c3 hc3 x b3 (l ++ [x]) dev blk Hh3 Hb3 Hx Hl3 (serves_dev _ Hs1)) as
    (c4 & hc4 & b4 & -> & Hb4 & Hl4 & Hh4 & Hf4 & _ & Hk4 & Hfl & _); [by eapply absent_frame|].
  exists c4, b4. split_and!; try done. intros -> dev2 blk2 Hs2 Ha2 Hne.
  eapply (getblk_clean c4 x b4 []); [split; [by exists hc4|exact Hl4|apply NoDup_singleton|done]|by rewrite Hfl|done| |congruence].
  eapply absent_frame, Ha2. by eapply frame_trans.
Qed.

End Thm.

(** ** A failed read *)

Section Nvme.
Context {H : Type} `{!NvmeHw H}.

(** The block of the controller that buffer [b] stands for. *)
Definition lba (b : buf) : Z := u64 (b_blkno b + (if MINOR (b_dev b) =? 1 then NVME_HOME_FIRST_LBA else 0)).

(** The NVMe driver is there and has the block. *)
Definition nvme_has (d : kdevs H) (b : buf) : Prop :=
  MAJOR (b_dev b) = BDEV_MAJ_NVME /\ bdev_table d !! BDEV_MAJ_NVME = Some nvme_bdev_entry
  /\ nvme_singleton_init (nvme_singleton d) = true
  /\ b_blkno b < (if MINOR (b_dev b) =? 1 then bd_home_nblocks (nvme_singleton d) else bd_nblocks (nvme_singleton d)).

Lemma strategy_nvme (c : cache (kdevs H)) x b d opc rc mem hw : x <> 0 -> nvme_has d b -> b_bcount b = BUF_BLOCK_SIZE ->
  opc = (if has (b_flags b) B_READ then 2 else 1) ->
  nvme_io_submit_and_wait (nvme_hw d) opc (lba b) (b_data b) = (rc, mem, hw) ->
  exists b', strategy_and_wait (putd c x b d) x = Ret (if rc <? 0 then -1 else 0) (putd c x b' (d <| nvme_hw := hw |>))
    /\ same_place b b' /\ b_data b' = mem /\ has (b_flags b') B_READ = has (b_flags b) B_READ
    /\ has (b_flags b') B_VALID = has (b_flags b) B_VALID.
Proof.
  intros Hx (Hmaj & Htab & Hini & Hcap) Hbc -> Hio. unfold strategy_and_wait. rewrite deref_putd. cbn [devs putd].
  fold (putd c x b d). unfold d_strategy at 1, kernel_devs at 1. unfold bdev_lookup. rewrite Hmaj.
  change ((BDEV_MAJ_NVME =? 0) || (BDEV_MAJ_NVME >=? BDEV_MAX)) with false. cbv iota. rewrite Htab.
  rewrite assign_putd2, deref_putd. fold (submitted b). unfold nvme_strategy.
  change (b_dev (submitted b)) with (b_dev b). change (b_blkno (submitted b)) with (b_blkno b).
  change (b_bcount (submitted b)) with (b_bcount b). change (b_data (submitted b)) with (b_data b).
  assert (has (b_flags (submitted b)) B_READ = has (b_flags b) B_READ) as E by (unfold submitted; by flags).
  rewrite E, Hini, Hbc, Z.geb_leb, (proj2 (Z.leb_gt _ _)) by done.
  change (negb true || false || negb (BUF_BLOCK_SIZE =? BLK_SIZE)) with false. cbv iota.
  fold (lba b). rewrite Hio. rewrite assign_putd2, putd_devs. unfold biowait.
  rewrite (proj2 (Z.eqb_neq _ _) Hx), deref_putd.
  destruct (rc <? 0); eexists; (assert (forall b', has (b_flags (biodone b')) B_DONE = true) as -> by (intros; by flags));
    cbn [bind]; rewrite deref_putd.
  - split; [flags; done|]. split_and!; try done; unfold submitted; by flags.
  - split; [unfold submitted; flags; done|]. split_and!; try done; unfold submitted; by flags.
Qed.

(** Releasing keeps data and devices, whatever the lists look like. *)
Lemma brelse_keeps (c : cache (kdevs H)) x : same_view b_data (buf_pool c) (buf_pool (brelse c x)) /\ devs (brelse c x) = devs c.
Proof.
  unfold brelse. case_if; [done|]. unfold lru_insert_tail. case_if; (split; [|done]); cbn;
    repeat (eapply same_view_trans; [|by apply same_view_alter]); apply same_view_refl.
Qed.

(** Releasing a buffer that is on no LRU list. *)
Lemma brelse_lists (c : cache (kdevs H)) hc x b d l : x <> 0 -> x ∉ l -> NoDup l -> buf_pool c !! x = Some b ->
  hash_ok (buf_pool c) (bucket c) hc 0 -> dseg lru_next lru_prev (buf_pool c) 0 (lru_head c) l (lru_tail c) 0 ->
  forall b', same_place b b' -> let c' := brelse (putd c x b' d) x in
  exists b2, buf_pool c' !! x = Some b2 /\ core b2 = core (clr_flags b' B_BUSY) /\ devs c' = d
    /\ hash_ok (buf_pool c') (bucket c') hc 0
    /\ dseg lru_next lru_prev (buf_pool c') 0 (lru_head c') (l ++ [x]) (lru_tail c') 0.
Proof.
  intros Hx Hxl Hnd Hb Hh Hl b' (P1 & P2 & P3 & P4) c'. unfold c', brelse.
  rewrite (proj2 (Z.eqb_neq _ _) Hx), assign_putd2. set (c1 := putd c x (clr_flags b' B_BUSY) d).
  assert (Hb1 : buf_pool c1 !! x = Some (clr_flags b' B_BUSY)) by apply lookup_insert_eq.
  assert (Hl1 : dseg lru_next lru_prev (buf_pool c1) 0 (lru_head c1) l (lru_tail c1) 0).
  { eapply lseg_view; [|exact Hl]. apply (putd_view _ c x b); [done|cbn; congruence]. }
  assert (Hh1 : hash_ok (buf_pool c1) (bucket c1) hc 0).
  { eapply hash_ok_view; [|exact Hh]. apply (putd_view _ c x b); [done|]. injection P1 as Q1 Q2.
    unfold hkey. cbn. congruence. }
  destruct (lru_insert_tail_ok c1 x _ l Hl1 Hnd Hb1 Hx Hxl) as (Hl2 & Hv & Hbk & Hdv).
  destruct (same_view_fwd _ _ _ _ _ (off_lru_core _ _ Hv) Hb1) as (b2 & Hb2 & Hcore). exists b2. split_and!; try done.
  assert (bucket (lru_insert_tail c1 x) = bucket c1) as -> by (unfold bucket; by rewrite Hbk). by eapply off_lru_hash.
Qed.

(** A failed read makes the next write of the block a read.  When the controller
    fails the read of a block, [bread] returns NULL but leaves [B_READ] in the buffer,
    which stays cached; the next [bd_write_block] of the block finds it, and the
    driver, which looks at [B_READ] first, issues a second read command: the write
    returns success, the controller was never asked to write, and the caller's data
    in the buffer is overwritten by what the controller read. *)
Theorem write_after_failed_read_lost (c : cache (kdevs H)) hc l x b inp rc1 mem1 hw1 rc2 mem2 hw2 :
  hash_ok (buf_pool c) (bucket c) hc 0 -> dseg lru_next lru_prev (buf_pool c) 0 (lru_head c) l (lru_tail c) 0 ->
  NoDup l -> x ∉ l -> buf_pool c !! x = Some b -> b_dev b <> NODEV -> has (b_flags b) B_VALID = false -> nvme_has (devs c) b ->
  nvme_io_submit_and_wait (nvme_hw (devs c)) 2 (lba b) (b_data b) = (rc1, mem1, hw1) -> rc1 < 0 ->
  nvme_io_submit_and_wait hw1 2 (lba b) (kmemcpy mem1 inp BUF_BLOCK_SIZE) = (rc2, mem2, hw2) -> 0 <= rc2 ->
  exists c1 c2, bread_fill c x = Ret 0 c1 /\ bd_write_block c1 (b_dev b) (b_blkno b) inp = Ret 0 c2
    /\ nvme_hw (devs c2) = hw2 /\ b_data (deref c2 x) = mem2.
Proof.
  intros Hh Hl Hnd Hxl Hb Hn Hval Hnv Hio1 Hrc1 Hio2 Hrc2. pose proof (hash_ok_nz _ _ _ _ _ _ Hh Hb) as Hx.
  unfold bread_fill. rewrite (deref_lookup _ _ _ Hb), Hval, (assign_putd _ _ _ _ Hb). set (b1 := set_flags _ _).
  assert (R1 : has (b_flags b1) B_READ = true) by (unfold b1; flags; done).
  destruct (strategy_nvme c x b1 (devs c) 2 rc1 mem1 hw1) as (b2 & -> & P2 & D2 & R2 & V2); try done; [by rewrite R1|].
  rewrite (proj2 (Z.ltb_lt _ _) Hrc1). cbn [bind]. change (-1 <? 0) with true. cbv iota.
  set (d1 := (devs c) <| nvme_hw := hw1 |>) in *.
  destruct (brelse_lists c hc x b d1 l Hx Hxl Hnd Hb Hh Hl b2 P2) as (b3 & Hb3 & Hcore & Hdv & Hh3 & Hl3).
  set (c1 := brelse (putd c x b2 d1) x) in *. exists c1.
  destruct P2 as ([= K1 K2] & _). cbn in K1, K2. injection Hcore as C1 C2 _ _ C5 _ C7. cbn in C1, C2, C5, C7.
  unfold bd_write_block, getblk.
  assert (hash_lookup c1 (b_dev b) (b_blkno b) = x) as ->.
  { destruct (hash_lookup_ok c1 hc (b_dev b) (b_blkno b) Hh3) as [(Hy & d & Hd & E1 & E2)|[_ Hnone]];
      [congruence| |exfalso; apply (Hnone x b3 Hb3); split; congruence].
    symmetry. apply (h_key _ _ _ _ Hh3 x _ b3 d); congruence. }
  rewrite (proj2 (Z.eqb_neq _ _) Hx), (deref_lookup _ _ _ Hb3). cbn [negb].
  assert (has (b_flags b3) B_BUSY = false) as -> by (rewrite C5; by flags).
  assert (R3 : has (b_flags b3) B_READ = true) by (rewrite C5; flags; by rewrite R2).
  destruct (lru_unlink_ok c1 x l [] Hl3) as (_ & Hv4 & _ & Hdv4).
  { apply NoDup_app. split_and!; [done| |apply NoDup_singleton]. by intros y Hy ->%list_elem_of_singleton. }
  destruct (same_view_fwd _ _ _ _ _ (off_lru_core _ _ Hv4) Hb3) as (b4 & Hb4 & Hcore4).
  injection Hcore4 as C41 C42 _ _ C45 _ C47. cbn [bind]. rewrite (proj2 (Z.eqb_neq _ _) Hx).
  rewrite (assign_putd _ _ _ _ Hb4), assign_putd2. unfold bwrite. rewrite (proj2 (Z.eqb_neq _ _) Hx), assign_putd2.
  set (b5 := set_flags _ B_WRITE).
  assert (R5 : has (b_flags b5) B_READ = true) by (unfold b5; flags; rewrite C45; by rewrite R3).
  assert (L5 : lba b5 = lba b) by (unfold lba, b5; cbn; rewrite C41, C42, C1, C2, K1, K2; done).
  destruct (strategy_nvme (lru_unlink c1 x) x b5 (devs (lru_unlink c1 x)) 2 rc2 mem2 hw2) as (b6 & -> & _ & D6 & _); try done.
  - rewrite Hdv4, Hdv. unfold nvme_has, b5. cbn. by rewrite C41, C42, C1, C2, K1, K2.
  - by rewrite R5.
  - rewrite L5, Hdv4, Hdv. unfold b5. cbn. rewrite C47, C7, D2. exact Hio2.
  - rewrite (proj2 (Z.ltb_ge _ _) Hrc2). cbn [bind]. change (0 <? 0) with false. cbv iota. rewrite !assign_putd2.
    set (c7 := putd _ x _ _). destruct (brelse_keeps c7 x) as [Hv7 Hd7]. eexists. split; [done|]. split; [done|].
    rewrite Hd7. split; [done|].
    destruct (same_view_fwd _ _ _ x _ Hv7 (lookup_insert_eq _ _ _)) as (b8 & Hb8 & E8). rewrite (deref_lookup _ _ _ Hb8), E8. exact D6.
Qed.

End Nvme.

(** ** Concrete caches *)

(** No controller: the kernel with its memory disks only. *)
#[local] Instance no_nvme : NvmeHw unit := fun hw _ _ mem => (-1, mem, hw).

Definition demo_devs : kdevs unit :=
  ramdisk_home_init (ramdisk_init (bram_init (mk_kdevs ∅ ∅ (∅, ∅) (mk_nvme false 0 0) tt))).

Lemma demo_devs_ok : disk_ok demo_devs.
Proof.
  split_and!; [|done..]. intros m e. change (bdev_table demo_devs) with (<[3 := ramdisk_entry]> (<[1 := bram_entry]> (∅ : gmap Z bdev_entry))).
  intros [[<- <-]|[_ [[<- <-]|[_ ?]]%lookup_insert_Some]]%lookup_insert_Some; done.
Qed.

Definition zero_block : bytes := replicate 512 0.
Definition demo_pages : list bytes := replicate 64 zero_block.

Lemma demo_pages_ok : Forall (fun p => zlen p = BUF_BLOCK_SIZE) demo_pages.
Proof. by apply Forall_replicate. Qed.

Definition ram_dev : Z := MKDEV BDEV_MAJ_RAM 0.


Lemma buf_cache_is_disk_witness : exists c',
  run_ops [Wr ram_dev 5 (replicate 512 7); Rd ram_dev 5; Rd ram_dev 6] (buf_init (cold demo_devs) demo_pages)
    = (Some [Put 0; Got (Some (replicate 512 7)); Got (Some zero_block)], c').
Proof.
  destruct (buf_cache_is_disk demo_devs demo_pages [Wr ram_dev 5 (replicate 512 7); Rd ram_dev 5; Rd ram_dev 6]) as (c' & E & _).
  - exact demo_devs_ok.
  - reflexivity.
  - exact demo_pages_ok.
  - repeat (apply Forall_cons; split); [| | |by apply Forall_nil];
      (split; [by left|]); (split; [done|]); try (split; [|done]); by eexists.
  - exists c'. exact E.
Defined.

(** One free buffer, with a delayed write for block 5 of the RAM disk. *)
Definition dirty_buf : buf :=
  mk_buf ram_dev 5 BUF_BLOCK_SIZE 0 (Z.lor B_DELWRI B_VALID) 0 (replicate 512 7) 0 0 0.

Definition one_buf {D : Type} (b : buf) (head : Z) (d : D) : cache D :=
  mk_cache {[1 := b]} {[buf_hash_idx (b_dev b) (b_blkno b) := 1]} head head d.

Lemma one_buf_hash {D} (b : buf) head (d : D) : b_dev b <> NODEV -> hash_next b = 0 ->
  hash_ok (buf_pool (one_buf b head d)) (bucket (one_buf b head d))
    (<[buf_hash_idx (b_dev b) (b_blkno b) := [1]]> (fun _ => [])) 0.
Proof.
  intros Hn Hz. set (h0 := buf_hash_idx _ _). unfold one_buf. cbn [buf_pool]. fold h0. split.
  - intros h. unfold bucket. cbn [buf_hash]. destruct (decide (h = h0)) as [->|].
    + rewrite fn_lookup_insert, lookup_singleton_eq. split; [|apply NoDup_singleton]. split_and!; [done|done|].
      exists b. by rewrite lookup_singleton_eq.
    + rewrite fn_lookup_insert_ne, lookup_singleton_ne by done. split; [done|apply NoDup_nil_2].
  - intros x d' h [<- <-]%lookup_singleton_Some. fold h0. destruct (decide (h = h0)) as [->|].
    + rewrite fn_lookup_insert, list_elem_of_singleton. naive_solver.
    + rewrite fn_lookup_insert_ne by done. rewrite elem_of_nil. naive_solver.
  - by intros x y d1 d2 _ _ [<- _]%lookup_singleton_Some [<- _]%lookup_singleton_Some.
  - done.
Qed.

Lemma one_buf_absent {D} (b : buf) head (d : D) dev blk : absent (one_buf b head d) 1 dev blk.
Proof. intros y d' Hy Hd. cbn in Hd. apply lookup_singleton_Some in Hd as [? _]. congruence. Qed.

Lemma dirty_buffer_given_twice_witness : exists c1 c2,
  getblk (one_buf dirty_buf 1 demo_devs) ram_dev 6 = Ret 1 c1 /\ getblk c1 ram_dev 7 = Ret 1 c2.
Proof.
  destruct (dirty_buffer_given_twice (one_buf dirty_buf 1 demo_devs) 1 dirty_buf [] zero_block ram_dev 6)
    as (c1 & b1 & E1 & _ & _ & _ & _ & Hnext); try done; [exact demo_devs_ok| |by left|by left|apply one_buf_absent|].
  - split; [eexists; by apply one_buf_hash| |apply NoDup_singleton|done].
    split_and!; [done|done|]. exists dirty_buf. done.
  - destruct (Hnext eq_refl ram_dev 7) as (c2 & E2); [by left|apply one_buf_absent|done|]. by exists c1, c2.
Defined.

(** A controller that fails one command, then serves a single block. *)
#[local] Instance flaky_nvme : NvmeHw (bool * bytes) := fun hw opc _ mem =>
  let '(fail, blk) := hw in
  if fail : bool then (-1, mem, (false, blk))
  else if opc =? 2 then (0, blk, (false, blk)) else (0, mem, (false, mem)).

Definition nvme_devs : kdevs (bool * bytes) :=
  mk_kdevs {[4 := nvme_bdev_entry]} ∅ (∅, ∅) (mk_nvme true 100 0) (true, zero_block).

Definition claimed_buf : buf := mk_buf (MKDEV BDEV_MAJ_NVME 0) 7 BUF_BLOCK_SIZE 0 B_BUSY 0 zero_block 0 0 0.

Lemma write_after_failed_read_lost_witness : exists c1 c2,
  bread_fill (one_buf claimed_buf 0 nvme_devs) 1 = Ret 0 c1
  /\ bd_write_block c1 (MKDEV BDEV_MAJ_NVME 0) 7 (replicate 512 7) = Ret 0 c2
  /\ nvme_hw (devs c2) = (false, zero_block) /\ b_data (deref c2 1) = zero_block.
Proof.
  eapply (write_after_failed_read_lost (one_buf claimed_buf 0 nvme_devs) _ [] 1 claimed_buf (replicate 512 7));
    [by apply one_buf_hash|done|apply NoDup_nil_2|by intros ?%elem_of_nil|done|done|done|done|done|done|done|done].
Defined.

End BufThm.
