(* ===== verification/BlockStore.v ===== *)
(** * Blocks for a file system

    What a file system sees of the buffer cache: whole blocks of a device are read
    and written ([bd_read_block], [bd_write_block] of [uts/os/fs/kfs.c]).  [BlockStore]
    are the operations, [StoreLaws] what they promise; the cache on the devices it
    serves is shown to keep the promise, so what is proved of the file system
    against the interface holds of it on the cache. *)

From stdpp Require Import base numbers list gmap.
From Stdlib Require Import ZArith Lia Bool.
From S2P Require Import Prelude Links BlockDev Buf BufInv.

Module BlockStore.

Import BlockDev Buf BufInv.

(** [None] and [-1] are failures. *)
Class BlockStore (S : Type) := {
  bs_read : S -> Z -> Z -> option bytes * S;
  bs_write : S -> Z -> Z -> bytes -> Z * S
}.

(** [st_block s dev blk] is the block, if the device has it. *)
Class StoreLaws (S : Type) `{!BlockStore S} := {
  st_ok : S -> Prop;
  st_block : S -> Z -> Z -> option bytes;
  st_size : forall s dev blk b, st_ok s -> st_block s dev blk = Some b -> zlen b = BLK_SIZE;
  st_read_ok : forall s dev blk b, st_ok s -> st_block s dev blk = Some b ->
    exists s', bs_read s dev blk = (Some b, s') /\ st_ok s'
      /\ forall dev' blk', st_block s' dev' blk' = st_block s dev' blk';
  st_write_ok : forall s dev blk b data, st_ok s -> st_block s dev blk = Some b -> zlen data = BLK_SIZE ->
    exists s', bs_write s dev blk data = (0, s') /\ st_ok s'
      /\ forall dev' blk', st_block s' dev' blk' =
           if decide (dev' = dev /\ blk' = blk) then Some data else st_block s dev' blk'
}.

(** ** The buffer cache is a block store *)

Section CacheStore.
Context {D : Type} `{!BlockDevs D} `{!DiskLaws D}.

(** A thread that sleeps has no result; with no buffer held none sleeps. *)
#[export] Instance cache_store : BlockStore (cache D) := {|
  bs_read c dev blk := match bd_read_block c dev blk with Ret r c' => (r, c') | Park _ c' => (None, c') end;
  bs_write c dev blk data := match bd_write_block c dev blk data with Ret r c' => (r, c') | Park _ c' => (-1, c') end
|}.

Definition idle (c : cache D) : Prop := exists lru hc, cache_ok (delayed := false) c ∅ lru hc /\ lru <> [].

Definition cached_block (c : cache D) (dev blk : Z) : option bytes :=
  if decide (serves dev /\ 0 <= blk) then content (devs c) dev blk else None.

Lemma cached_size c dev blk b : idle c -> cached_block c dev blk = Some b -> zlen b = BLK_SIZE.
Proof.
  intros (lru & hc & Hok & _). unfold cached_block. case_decide; [|done].
  apply content_size, (ok_disk _ _ _ _ Hok).
Qed.

Lemma perm_nonempty (l l' : list Z) : l' ≡ₚ l -> l <> [] -> l' <> [].
Proof. intros Hp Hl ->. by apply Permutation_nil_l in Hp. Qed.

Lemma cached_read c dev blk b : idle c -> cached_block c dev blk = Some b ->
  exists c', bs_read c dev blk = (Some b, c') /\ idle c' /\ forall dev' blk', cached_block c' dev' blk' = cached_block c dev' blk'.
Proof.
  intros (lru & hc & Hok & Hne). unfold cached_block at 1. case_decide as E; [|done]. destruct E as [Hs Hz]. intros Hb.
  destruct (bd_read_ok c ∅ lru hc dev blk b Hok Hs Hz Hb eq_refl Hne eq_refl) as (c' & lru' & hc' & E & Hok' & Hp & Hsame).
  exists c'. cbn. rewrite E. split_and!; [done| |].
  - exists lru', hc'. split; [done|]. by eapply perm_nonempty.
  - intros dev' blk'. unfold cached_block. case_decide as E'; [|done]. by apply Hsame, E'.
Qed.

Lemma cached_write c dev blk b data : idle c -> cached_block c dev blk = Some b -> zlen data = BLK_SIZE ->
  exists c', bs_write c dev blk data = (0, c') /\ idle c' /\ forall dev' blk', cached_block c' dev' blk' =
    if decide (dev' = dev /\ blk' = blk) then Some data else cached_block c dev' blk'.
Proof.
  intros (lru & hc & Hok & Hne). unfold cached_block at 1. case_decide as E; [|done]. destruct E as [Hs Hz]. intros Hb Hd.
  destruct (bd_write_ok c ∅ lru hc dev blk b data Hok Hs Hz Hb eq_refl Hne eq_refl Hd) as (c' & lru' & hc' & E & Hok' & Hp & Hone).
  exists c'. cbn. rewrite E. split_and!; [done| |].
  - exists lru', hc'. split; [done|]. by eapply perm_nonempty.
  - intros dev' blk'. unfold cached_block. case_decide as E'; [by apply Hone, E'|].
    case_decide as E2; [|done]. destruct E2 as [-> ->]. by destruct E'.
Qed.

#[export] Instance cache_laws : StoreLaws (cache D) := {|
  st_ok := idle; st_block := cached_block; st_size := cached_size;
  st_read_ok := cached_read; st_write_ok := cached_write
|}.

End CacheStore.

End BlockStore.
