(* ===== verification/Kfs.v ===== *)
(** * The kappara file system: [uts/os/fs/kfs.c]

    A disk holds a superblock, a bitmap of allocated blocks, and directory tables of
    26 packed 19-byte entries; a file is a run of 64 blocks.  The model has the mount
    table with its bitmaps, the files' in-core records by pointer, the memory
    allocator as a list of outcomes, and the nodes handed to the VFS as a trace.
    Blocks come from a [BlockStore]; a directory table is the block's 512 bytes. *)

From stdpp Require Import base numbers list gmap.
From Stdlib Require Import ZArith Lia Bool.
From S2P Require Import Prelude Net BlockDev BlockStore.

Module Kfs.

Import Net BlockDev BlockStore.

Definition KFS_MAGIC : Z := 38487635.          (* 0x024b4653 *)
Definition KFS_SUPER_BLOCK : Z := 0.
Definition KFS_BITMAP_BLOCK : Z := 1.
Definition KFS_ROOT_BLOCK : Z := 2.
Definition KFS_NAME_MAX : Z := 11.
Definition KFS_DIRENTS : Z := 26.
Definition KFS_DE_DIR_BIT : Z := 2147483648.
Definition KFS_BLOCKS_PER_FILE : Z := 64.
Definition MAX_KFS_MOUNTS : nat := 4.
Definition O_TRUNC : Z := 1.

(** [struct block_device]; [bd_ptr] is its address. *)
Record block_device := mk_bd { bd_ptr : Z; bd_nblocks : Z; bd_dev : Z }.

(** ** Directory entries *)

Record kfs_dirent := mk_dirent { de_name : bytes; de_start_block : Z; de_size_bytes : Z }.

(** Entry [i] of a directory block, and an assignment to it. *)
Definition dirent (blk : bytes) (i : Z) : kfs_dirent :=
  let o := Z.to_nat (19 * i) in
  mk_dirent (take 11 (drop o blk)) (ld32 blk (o + 11)) (ld32 blk (o + 15)).

Definition dirent_bytes (e : kfs_dirent) : bytes := de_name e ++ st32 (de_start_block e) ++ st32 (de_size_bytes e).

Definition set_dirent (blk : bytes) (i : Z) (e : kfs_dirent) : bytes := poke blk (19 * i) (dirent_bytes e).

Definition set_dirent_size (blk : bytes) (i size : Z) : bytes := poke blk (19 * i + 15) (st32 size).

Definition kfs_de_start (e : kfs_dirent) : Z := Z.land (de_start_block e) (u32 (Z.lnot KFS_DE_DIR_BIT)).
Definition kfs_de_isdir (e : kfs_dirent) : bool := has (de_start_block e) KFS_DE_DIR_BIT.

(** A C string is the list of its characters before the NUL. *)
Fixpoint cstr (s : bytes) : bytes :=
  match s with
  | [] => []
  | c :: s => if c =? 0 then [] else c :: cstr s
  end.

Definition char_at (s : bytes) (k : Z) : Z := nth (Z.to_nat k) s 0.

(** The comparison loop of [kfs_dir_find_slot] from [k] on; where it stops. *)
Fixpoint slot_cmp (fuel : nat) (dn name : bytes) (k : Z) : Z :=
  match fuel with
  | O => k
  | S fuel =>
      if (k <? KFS_NAME_MAX) && (char_at dn k =? char_at name k)
      then if char_at name k =? 0 then k else slot_cmp fuel dn name (k + 1)
      else k
  end.

Definition slot_dup (dn name : bytes) : bool :=
  let k := slot_cmp 12 dn name 0 in
  (k <? KFS_NAME_MAX) && (char_at dn k =? char_at name k).

(** The scan of [kfs_dir_find_slot] from entry [i] on, [n] entries left. *)
Fixpoint find_slot (n : nat) (blk name : bytes) (i slot : Z) : Z :=
  match n with
  | O => slot
  | S n =>
      let dn := de_name (dirent blk i) in
      if char_at dn 0 =? 0 then find_slot n blk name (i + 1) (if slot <? 0 then i else slot)
      else if slot_dup dn name then -1
      else find_slot n blk name (i + 1) slot
  end.

Definition kfs_dir_find_slot (blk name : bytes) : Z :=
  if zlen name >=? KFS_NAME_MAX then -1 else find_slot (Z.to_nat KFS_DIRENTS) blk name 0 (-1).

(** The loop of [kfs_dir_find_named] over characters, and over entries. *)
Fixpoint named_cmp (fuel : nat) (dn name : bytes) (k : Z) : Z :=
  match fuel with
  | O => k
  | S fuel =>
      if (k <? KFS_NAME_MAX) && (char_at dn k =? char_at name k)
         && negb (char_at name k =? 0) && negb (char_at dn k =? 0)
      then named_cmp fuel dn name (k + 1) else k
  end.

Definition named_eq (dn name : bytes) : bool :=
  let k := named_cmp 12 dn name 0 in
  (k <? KFS_NAME_MAX) && (char_at dn k =? 0) && (char_at name k =? 0).

Fixpoint find_named (n : nat) (blk name : bytes) (i : Z) : Z :=
  match n with
  | O => -1
  | S n =>
      let dn := de_name (dirent blk i) in
      if char_at dn 0 =? 0 then find_named n blk name (i + 1)
      else if named_eq dn name then i
      else find_named n blk name (i + 1)
  end.

Definition kfs_dir_find_named (blk name : bytes) : Z := find_named (Z.to_nat KFS_DIRENTS) blk name 0.

(** The name field written by [kfs_dir_creat] and [kfs_dir_mkdir]: at most ten
    characters, the rest zero. *)
Definition name_field (name : bytes) : bytes := take 10 name ++ replicate (11 - length (take 10 name)) 0.

(** ** The bitmap *)

Definition kfs_bit_get (bm : bytes) (blk : Z) : Z :=
  Z.land (Z.shiftr (nth (Z.to_nat (blk / 8)) bm 0) (blk mod 8)) 1.

Definition kfs_bit_set (bm : bytes) (blk val : Z) : bytes :=
  let o := Z.to_nat (blk / 8) in
  let b := nth o bm 0 in
  <[o := if negb (val =? 0) then Z.lor b (u8 (Z.shiftl 1 (blk mod 8)))
         else Z.land b (u8 (Z.lnot (Z.shiftl 1 (blk mod 8))))]> bm.

(** The inner loops of [kfs_alloc_block_zero] and of [kfs_free_blocks]. *)
Fixpoint run_free (n : nat) (bm : bytes) (start : Z) : bool :=
  match n with
  | O => true
  | S n => if negb (kfs_bit_get bm start =? 0) then false else run_free n bm (start + 1)
  end.

Fixpoint set_run (n : nat) (bm : bytes) (start val : Z) : bytes :=
  match n with
  | O => bm
  | S n => set_run n (kfs_bit_set bm start val) (start + 1) val
  end.

(** The search of [kfs_alloc_block_zero]; [0] if no run is free. *)
Fixpoint find_run (fuel : nat) (bm : bytes) (start count total : Z) : Z :=
  match fuel with
  | O => 0
  | S fuel =>
      if u32 (start + count) <=? total then
        if run_free (Z.to_nat count) bm start then start
        else find_run fuel bm (start + 1) count total
      else 0
  end.

(** ** State *)

(** [struct kfs_mnt]; a free slot has no device. *)
Record kfs_mnt := mk_mnt { m_bd : option block_device; m_mountpoint : Z; m_bitmap : bytes }.

#[export] Instance rebuild_mnt : Rebuild kfs_mnt := rpure mk_mnt <:> m_bd <:> m_mountpoint <:> m_bitmap.

Record kfs_file := mk_file {
  kf_bd : block_device;
  start_block : Z;
  size_bytes : Z;
  alloc_blocks : Z;
  dir_block : Z;
  dirent_idx : Z
}.

#[export] Instance rebuild_file : Rebuild kfs_file :=
  rpure mk_file <:> kf_bd <:> start_block <:> size_bytes <:> alloc_blocks <:> dir_block <:> dirent_idx.

Record kfs_dir := mk_dir { d_bd : block_device; d_dir_block : Z; d_dentry : Z }.

(** [struct regfile_cursor]. *)
Record cursor := mk_cursor { c_kf : Z; c_pos : Z }.

#[export] Instance rebuild_cursor : Rebuild cursor := rpure mk_cursor <:> c_kf <:> c_pos.

(** Nodes handed to the VFS: [vfs_mkdir] with the directory record put into the new
    inode, and [vfs_mknod_regfile]. *)
Inductive vnode :=
| VDir (parent : Z) (name : bytes) (d : kfs_dir)
| VFile (parent : Z) (name : bytes) (kf : Z).

Section Kfs.
Context {S : Type} `{!BlockStore S}.

Record kfs := mk_kfs {
  kfs_mnts : list kfs_mnt;
  files : gmap Z kfs_file;
  nodes : list vnode;
  kmem : list bool;
  next_ptr : Z;
  disk : S
}.

#[export] Instance rebuild_kfs : Rebuild kfs :=
  rpure mk_kfs <:> kfs_mnts <:> files <:> nodes <:> kmem <:> next_ptr <:> disk.

(** [kmalloc], and the allocation inside [vfs_mkdir]: a new address or NULL. *)
Definition kmalloc (st : kfs) : Z * kfs :=
  let '(ok, m) := scripted_next (kmem st) in
  if ok then (next_ptr st, st <| kmem := m |> <| next_ptr := next_ptr st + 1 |>) else (0, st <| kmem := m |>).

Definition bd_read_block (st : kfs) (bd : block_device) (blk : Z) : option bytes * kfs :=
  let '(r, s) := bs_read (disk st) (bd_dev bd) blk in (r, st <| disk := s |>).

Definition bd_write_block (st : kfs) (bd : block_device) (blk : Z) (data : bytes) : Z * kfs :=
  let '(r, s) := bs_write (disk st) (bd_dev bd) blk data in (r, st <| disk := s |>).

(** ** Mounts *)

Definition mnt_is (bd : block_device) (m : kfs_mnt) : bool :=
  match m_bd m with Some b => bd_ptr b =? bd_ptr bd | None => false end.

(** The index of the mount in the table. *)
Definition kfs_mnt_for (st : kfs) (bd : block_device) : option nat :=
  fst <$> list_find (fun m => mnt_is bd m = true) (kfs_mnts st).

Definition kfs_mnt_alloc (st : kfs) (bd : block_device) : option nat * kfs :=
  match list_find (fun m => m_bd m = None) (kfs_mnts st) with
  | Some (i, m) => (Some i, st <| kfs_mnts := <[i := m <| m_bd := Some bd |> <| m_bitmap := replicate 512 0 |>]> (kfs_mnts st) |>)
  | None => (None, st)
  end.

Definition bitmap_of (st : kfs) (i : nat) : bytes := default [] (m_bitmap <$> kfs_mnts st !! i).

Definition set_bitmap (st : kfs) (i : nat) (bm : bytes) : kfs :=
  st <| kfs_mnts := alter (fun m => m <| m_bitmap := bm |>) i (kfs_mnts st) |>.

Definition kfs_bitmap_save (st : kfs) (i : nat) : kfs :=
  match kfs_mnts st !! i ≫= m_bd with
  | Some bd => snd (bd_write_block st bd KFS_BITMAP_BLOCK (bitmap_of st i))
  | None => st
  end.

(** Zeroing the run, block by block. *)
Fixpoint zero_run (n : nat) (st : kfs) (bd : block_device) (blk : Z) : bool * kfs :=
  match n with
  | O => (true, st)
  | Datatypes.S n =>
      let '(r, st) := bd_write_block st bd blk (replicate 512 0) in
      if r <? 0 then (false, st) else zero_run n st bd (blk + 1)
  end.

Definition kfs_alloc_block_zero (st : kfs) (bd : block_device) (count : Z) : Z * kfs :=
  match kfs_mnt_for st bd with
  | None => (0, st)
  | Some m =>
      let total := if bd_nblocks bd >? BLK_SIZE * 8 then BLK_SIZE * 8 else bd_nblocks bd in
      let start := find_run (Z.to_nat total) (bitmap_of st m) (KFS_ROOT_BLOCK + 1) count total in
      if start =? 0 then (0, st)
      else
        let st := set_bitmap st m (set_run (Z.to_nat count) (bitmap_of st m) start 1) in
        let st := kfs_bitmap_save st m in
        let '(ok, st) := zero_run (Z.to_nat count) st bd start in
        ((if ok : bool then start else 0), st)
  end.

Definition kfs_free_blocks (st : kfs) (bd : block_device) (start count : Z) : kfs :=
  match kfs_mnt_for st bd with
  | None => st
  | Some m => kfs_bitmap_save (set_bitmap st m (set_run (Z.to_nat count) (bitmap_of st m) start 0)) m
  end.

(** ** Directories *)

(** [kfs_dup_name]: at most ten characters, copied into new memory. *)
Definition kfs_dup_name (st : kfs) (name : bytes) : option bytes * kfs :=
  let '(p, st) := kmalloc st in
  if p =? 0 then (None, st) else (Some (take 10 name), st).

(** [kfs_dir_creat]; [d] is the directory's [i_private], NULL being [None]. *)
Definition kfs_dir_creat (st : kfs) (d : option kfs_dir) (name : bytes) : Z * kfs :=
  match d with
  | None => (-1, st)
  | Some d =>
      let bd := d_bd d in
      let '(r, st) := bd_read_block st bd (d_dir_block d) in
      match r with
      | None => (-1, st)
      | Some dir_blk =>
          let slot := kfs_dir_find_slot dir_blk name in
          if slot <? 0 then (-1, st)
          else
            let '(start, st) := kfs_alloc_block_zero st bd KFS_BLOCKS_PER_FILE in
            if start =? 0 then (-1, st)
            else
              let dir_blk := set_dirent dir_blk slot (mk_dirent (name_field name) start 0) in
              let '(rc, st) := bd_write_block st bd (d_dir_block d) dir_blk in
              if rc <? 0 then (-1, st)
              else
                let '(kf, st) := kmalloc st in
                let '(nm, st) := kfs_dup_name st name in
                match nm with
                | Some nm =>
                    if kf =? 0 then (-1, st)
                    else
                      let f := mk_file bd start 0 KFS_BLOCKS_PER_FILE (d_dir_block d) (u8 slot) in
                      (0, st <| files := <[kf := f]> (files st) |>
                             <| nodes := nodes st ++ [VFile (d_dentry d) nm kf] |>)
                | None => (-1, st)
                end
      end
  end.

Definition kfs_dir_mkdir (st : kfs) (d : option kfs_dir) (name : bytes) : Z * kfs :=
  match d with
  | None => (-1, st)
  | Some d =>
      let bd := d_bd d in
      let '(r, st) := bd_read_block st bd (d_dir_block d) in
      match r with
      | None => (-1, st)
      | Some dir_blk =>
          let slot := kfs_dir_find_slot dir_blk name in
          if slot <? 0 then (-1, st)
          else
            let '(subblk, st) := kfs_alloc_block_zero st bd 1 in
            if subblk =? 0 then (-1, st)
            else
              let dir_blk := set_dirent dir_blk slot (mk_dirent (name_field name) (Z.lor subblk KFS_DE_DIR_BIT) 0) in
              let '(rc, st) := bd_write_block st bd (d_dir_block d) dir_blk in
              if rc <? 0 then (-1, st)
              else
                let '(nm, st) := kfs_dup_name st name in
                let '(sub, st) := kmalloc st in
                match nm with
                | Some nm =>
                    if sub =? 0 then (-1, st)
                    else
                      let '(sub_dentry, st) := kmalloc st in
                      if sub_dentry =? 0 then (-1, st)
                      else (0, st <| nodes := nodes st ++ [VDir (d_dentry d) nm (mk_dir bd subblk sub_dentry)] |>)
                | None => (-1, st)
                end
      end
  end.

(** An entry cleared by [kfs_dir_unlink] and [kfs_dir_rmdir]. *)
Definition no_dirent : kfs_dirent := mk_dirent (replicate 11 0) 0 0.

Definition kfs_dir_unlink (st : kfs) (d : option kfs_dir) (name : bytes) : Z * kfs :=
  match d with
  | None => (-1, st)
  | Some d =>
      let bd := d_bd d in
      let '(r, st) := bd_read_block st bd (d_dir_block d) in
      match r with
      | None => (-1, st)
      | Some dir_blk =>
          let slot := kfs_dir_find_named dir_blk name in
          if slot <? 0 then (-1, st)
          else if kfs_de_isdir (dirent dir_blk slot) then (-1, st)
          else
            let reclaim_start := kfs_de_start (dirent dir_blk slot) in
            let '(rc, st) := bd_write_block st bd (d_dir_block d) (set_dirent dir_blk slot no_dirent) in
            if rc <? 0 then (-1, st)
            else (0, if reclaim_start =? 0 then st else kfs_free_blocks st bd reclaim_start KFS_BLOCKS_PER_FILE)
      end
  end.

(** The emptiness test of [kfs_dir_rmdir]. *)
Fixpoint dir_empty (n : nat) (sub : bytes) (i : Z) : bool :=
  match n with
  | O => true
  | Datatypes.S n => if char_at (de_name (dirent sub i)) 0 =? 0 then dir_empty n sub (i + 1) else false
  end.

Definition kfs_dir_rmdir (st : kfs) (d : option kfs_dir) (name : bytes) : Z * kfs :=
  match d with
  | None => (-1, st)
  | Some d =>
      let bd := d_bd d in
      let '(r, st) := bd_read_block st bd (d_dir_block d) in
      match r with
      | None => (-1, st)
      | Some dir_blk =>
          let slot := kfs_dir_find_named dir_blk name in
          if slot <? 0 then (-1, st)
          else if negb (kfs_de_isdir (dirent dir_blk slot)) then (-1, st)
          else
            let sub_block := kfs_de_start (dirent dir_blk slot) in
            let '(r, st) := bd_read_block st bd sub_block in
            match r with
            | None => (-1, st)
            | Some sub =>
                if negb (dir_empty (Z.to_nat KFS_DIRENTS) sub 0) then (-1, st)
                else
                  let '(rc, st) := bd_write_block st bd (d_dir_block d) (set_dirent dir_blk slot no_dirent) in
                  if rc <? 0 then (-1, st)
                  else (0, kfs_free_blocks st bd sub_block 1)
            end
      end
  end.

(** ** Regular files *)

(** [*kf]. *)
Definition no_file : kfs_file := mk_file (mk_bd 0 0 0) 0 0 0 0 0.
Definition kf_of (st : kfs) (kf : Z) : kfs_file := default no_file (files st !! kf).
Definition set_kf (st : kfs) (kf : Z) (f : kfs_file) : kfs := st <| files := <[kf := f]> (files st) |>.

(** Pushing a size into the directory entry on disk, as [regfile_open] and
    [regfile_write] do; a failed read skips it. *)
Definition push_size (st : kfs) (f : kfs_file) (size : Z) : kfs :=
  let '(r, st) := bd_read_block st (kf_bd f) (dir_block f) in
  match r with
  | None => st
  | Some dir => snd (bd_write_block st (kf_bd f) (dir_block f) (set_dirent_size dir (dirent_idx f) size))
  end.

(** [regfile_open] of the file whose inode has [kf]; the new cursor, if any. *)
Definition regfile_open (st : kfs) (kf f_flags : Z) : option cursor * kfs :=
  let '(p, st) := kmalloc st in
  if p =? 0 then (None, st)
  else
    let st :=
      if has f_flags O_TRUNC then
        let f := (kf_of st kf) <| size_bytes := 0 |> in
        push_size (set_kf st kf f) f 0
      else st in
    (Some (mk_cursor kf 0), st).

(** [regfile_read]: the bytes copied, or [None] for [-1]. *)
Definition regfile_read (st : kfs) (c : cursor) (len : Z) : option bytes * cursor * kfs :=
  let f := kf_of st (c_kf c) in
  if c_pos c >=? size_bytes f then (Some [], c, st)
  else
    let blk := u32 (start_block f + c_pos c / BLK_SIZE) in
    let offblk := c_pos c mod BLK_SIZE in
    let '(r, st) := bd_read_block st (kf_bd f) blk in
    match r with
    | None => (None, c, st)
    | Some tmp =>
        let avail := BLK_SIZE - offblk in
        let file_av := size_bytes f - c_pos c in
        let n := len in
        let n := if n >? avail then avail else n in
        let n := if n >? file_av then file_av else n in
        (Some (take (Z.to_nat n) (drop (Z.to_nat offblk) tmp)), c <| c_pos := u32 (c_pos c + n) |>, st)
    end.

(** The copy loop of [regfile_write]; the bytes written so far.  Each round writes at
    least one byte, so [len] rounds are enough. *)
Fixpoint write_loop (fuel : nat) (st : kfs) (f : kfs_file) (pos : Z) (src : bytes) (len written : Z) : Z * kfs :=
  match fuel with
  | O => (written, st)
  | Datatypes.S fuel =>
      if written <? len then
        let off_total := u32 (pos + written) in
        let blk := u32 (start_block f + off_total / BLK_SIZE) in
        let offblk := off_total mod BLK_SIZE in
        let '(r, st) := bd_read_block st (kf_bd f) blk in
        match r with
        | None => (written, st)
        | Some tmp =>
            let n := BLK_SIZE - offblk in
            let n := if n >? len - written then len - written else n in
            let tmp := poke tmp offblk (take (Z.to_nat n) (drop (Z.to_nat written) src)) in
            let '(rc, st) := bd_write_block st (kf_bd f) blk tmp in
            if rc <? 0 then (written, st) else write_loop fuel st f pos src len (written + n)
        end
      else (written, st)
  end.

Definition regfile_write (st : kfs) (c : cursor) (buf : bytes) : Z * cursor * kfs :=
  let f := kf_of st (c_kf c) in
  let max := u32 (alloc_blocks f * BLK_SIZE) in
  if c_pos c >=? max then (-1, c, st)
  else
    let len := if u64 (c_pos c + zlen buf) >? max then max - c_pos c else zlen buf in
    let '(written, st) := write_loop (Z.to_nat len) st f (c_pos c) buf len 0 in
    let c := c <| c_pos := u32 (c_pos c + written) |> in
    let st :=
      if c_pos c >? size_bytes f then
        let f := f <| size_bytes := c_pos c |> in
        push_size (set_kf st (c_kf c) f) f (size_bytes f)
      else st in
    (written, c, st).

(** [regfile_seek]; sums of a [long] and a 32-bit position stay in range for the
    offsets the system call passes. *)
Definition regfile_seek (st : kfs) (c : cursor) (offset whence : Z) : Z * cursor :=
  let f := kf_of st (c_kf c) in
  match (if whence =? 0 then Some offset
         else if whence =? 1 then Some (c_pos c + offset)
         else if whence =? 2 then Some (size_bytes f + offset) else None) with
  | None => (-1, c)
  | Some newpos => if newpos <? 0 then (-1, c) else (newpos, c <| c_pos := u32 newpos |>)
  end.

Definition regfile_size (st : kfs) (kf : option Z) : Z :=
  match kf with Some kf => size_bytes (kf_of st kf) | None => -1 end.

(** ** Building an image *)

Record kfs_payload := mk_payload { p_name : bytes; p_data : bytes }.

(** The blocks of one payload from block [b] on, [n] left; [rem] the data left. *)
Fixpoint payload_blocks (n : nat) (st : kfs) (m : nat) (bd : block_device) (blk : Z) (rem : bytes) : kfs :=
  match n with
  | O => st
  | Datatypes.S n =>
      let buf := take 512 rem ++ replicate (512 - length (take 512 rem)) 0 in
      let st := snd (bd_write_block st bd blk buf) in
      let st := set_bitmap st m (kfs_bit_set (bitmap_of st m) blk 1) in
      payload_blocks n st m bd (blk + 1) (drop 512 rem)
  end.

(** The loop over the payloads; the directory so far and the next free block. *)
Fixpoint mkimage_files (n : nat) (ps : list kfs_payload) (st : kfs) (m : nat) (bd : block_device)
    (dir : bytes) (i cur_block : Z) : bytes * kfs :=
  match n, ps with
  | Datatypes.S n, p :: ps =>
      let dir := set_dirent dir i (mk_dirent (name_field (p_name p)) cur_block (zlen (p_data p))) in
      let st := payload_blocks (Z.to_nat KFS_BLOCKS_PER_FILE) st m bd cur_block (p_data p) in
      mkimage_files n ps st m bd dir (i + 1) (u32 (cur_block + KFS_BLOCKS_PER_FILE))
  | _, _ => (dir, st)
  end.

Definition super_bytes (num_files : Z) : bytes := st32 KFS_MAGIC ++ st32 num_files ++ replicate 504 0.

Definition kfs_mkimage (st : kfs) (bd : block_device) (payloads : list kfs_payload) : kfs :=
  let '(m, st) := match kfs_mnt_for st bd with Some m => (Some m, st) | None => kfs_mnt_alloc st bd end in
  match m with
  | None => st
  | Some m =>
      let bm := replicate 512 0 in
      let bm := kfs_bit_set (kfs_bit_set (kfs_bit_set bm KFS_SUPER_BLOCK 1) KFS_BITMAP_BLOCK 1) KFS_ROOT_BLOCK 1 in
      let st := set_bitmap st m bm in
      let st := snd (bd_write_block st bd KFS_SUPER_BLOCK (super_bytes (zlen payloads))) in
      let '(dir, st) := mkimage_files (Z.to_nat KFS_DIRENTS) payloads st m bd (replicate 512 0) 0 (KFS_ROOT_BLOCK + 1) in
      let st := snd (bd_write_block st bd KFS_ROOT_BLOCK dir) in
      snd (bd_write_block st bd KFS_BITMAP_BLOCK (bitmap_of st m))
  end.

(** ** Mounting *)

(** One entry of [kfs_mount_dir]; [rec] is the recursive call on a subdirectory. *)
Definition mount_entry (rec : kfs -> Z -> Z -> kfs) (st : kfs) (bd : block_device) (dir_blk : Z) (dir : bytes)
    (vfs_parent i : Z) : kfs :=
  let e := dirent dir i in
  if char_at (de_name e) 0 =? 0 then st
  else
    let '(nm, st) := kfs_dup_name st (cstr (de_name e)) in
    match nm with
    | None => st
    | Some nm =>
        if kfs_de_isdir e then
          let '(sub, st) := kmalloc st in
          if sub =? 0 then st
          else
            let '(sd, st) := kmalloc st in
            if sd =? 0 then st
            else
              let st := st <| nodes := nodes st ++ [VDir vfs_parent nm (mk_dir bd (kfs_de_start e) sd)] |> in
              rec st (kfs_de_start e) sd
        else
          let '(kf, st) := kmalloc st in
          if kf =? 0 then st
          else
            let f := mk_file bd (kfs_de_start e) (de_size_bytes e) KFS_BLOCKS_PER_FILE dir_blk (u8 i) in
            st <| files := <[kf := f]> (files st) |> <| nodes := nodes st ++ [VFile vfs_parent nm kf] |>
    end.

(** The loop of [kfs_mount_dir] over the entries from [i] on. *)
Fixpoint mount_entries (rec : kfs -> Z -> Z -> kfs) (n : nat) (st : kfs) (bd : block_device) (dir_blk : Z)
    (dir : bytes) (vfs_parent i : Z) : kfs :=
  match n with
  | O => st
  | Datatypes.S n =>
      mount_entries rec n (mount_entry rec st bd dir_blk dir vfs_parent i) bd dir_blk dir vfs_parent (i + 1)
  end.

(** [kfs_mount_dir]; [depth] bounds the nesting of directories. *)
Fixpoint kfs_mount_dir (depth : nat) (st : kfs) (bd : block_device) (dir_blk vfs_parent : Z) : kfs :=
  match depth with
  | O => st
  | Datatypes.S depth =>
      let '(r, st) := bd_read_block st bd dir_blk in
      match r with
      | None => st
      | Some dir =>
          mount_entries (fun st blk sd => kfs_mount_dir depth st bd blk sd) (Z.to_nat KFS_DIRENTS)
            st bd dir_blk dir vfs_parent 0
      end
  end.

(** [kfs_mount]; with [0] the record of the root directory, the new [i_private] of
    the mount point. *)
Definition kfs_mount (depth : nat) (st : kfs) (bd : block_device) (mountpoint : Z) : Z * option kfs_dir * kfs :=
  let '(r, st) := bd_read_block st bd KFS_SUPER_BLOCK in
  match r with
  | None => (-1, None, st)
  | Some sb =>
      if negb (ld32 sb 0 =? KFS_MAGIC) then (-1, None, st)
      else
        let '(m, st) := match kfs_mnt_for st bd with Some m => (Some m, st) | None => kfs_mnt_alloc st bd end in
        match m with
        | None => (-1, None, st)
        | Some m =>
            let '(r, st) := bd_read_block st bd KFS_BITMAP_BLOCK in
            match r with
            | None => (-1, None, st)
            | Some bm =>
                let st := set_bitmap st m bm in
                let st := st <| kfs_mnts := alter (fun x => x <| m_mountpoint := mountpoint |>) m (kfs_mnts st) |> in
                let '(root, st) := kmalloc st in
                if root =? 0 then (-1, None, st)
                else
                  (0, Some (mk_dir bd KFS_ROOT_BLOCK mountpoint),
                   kfs_mount_dir depth st bd KFS_ROOT_BLOCK mountpoint)
            end
        end
  end.

(** [kfs_for_each_mount]: the callback's first nonzero result. *)
Fixpoint for_each_mount {A : Type} (ms : list kfs_mnt) (cb : block_device -> Z -> A -> Z * A) (a : A) : Z * A :=
  match ms with
  | [] => (0, a)
  | m :: ms =>
      match m_bd m with
      | None => for_each_mount ms cb a
      | Some bd => let '(r, a) := cb bd (m_mountpoint m) a in if r =? 0 then for_each_mount ms cb a else (r, a)
      end
  end.

End Kfs.

#[global] Arguments kfs : clear implicits.

End Kfs.
