(* ===== verification/KfsDisk.v ===== *)
(** * kfs on disk: bitmap, directory tables and names

    Reading back what was stored into a directory block and into the bitmap, the two
    name comparison loops as equality of C strings, the scans of a table as
    specifications, and the search for a free run. *)

From stdpp Require Import base numbers list gmap.
From Stdlib Require Import ZArith Lia Bool.
From S2P Require Import Prelude Net BlockDev BlockStore Kfs.

Module KfsDisk.

Import Net BlockDev BlockStore Kfs.

(** ** Overwriting part of a block *)

Lemma lookup_poke (b l : bytes) o i : 0 <= o -> o + zlen l <= zlen b ->
  poke b o l !! i = if decide (o <= Z.of_nat i < o + zlen l) then l !! (i - Z.to_nat o)%nat else b !! i.
Proof.
  intros Ho Hl. unfold zlen in *. unfold poke, bytes in *. destruct (decide (Z.of_nat i < o)).
  - rewrite decide_False by lia. rewrite lookup_app_l by (rewrite length_take; lia). apply lookup_take_lt. lia.
  - rewrite lookup_app_r by (rewrite length_take; lia). rewrite length_take.
    replace (i - Z.to_nat o `min` length b)%nat with (i - Z.to_nat o)%nat by lia. case_decide.
    + by rewrite lookup_app_l by lia.
    + rewrite lookup_app_r by lia. rewrite lookup_drop. f_equal. lia.
Qed.

Lemma poke_length (b l : bytes) o : 0 <= o -> o + zlen l <= zlen b -> zlen (poke b o l) = zlen b.
Proof. intros Ho Hl. unfold zlen, poke in *. rewrite !length_app, length_take, length_drop. lia. Qed.

(** A window of the block the store does not reach. *)
Lemma window_poke (b l : bytes) o a n : 0 <= o -> o + zlen l <= zlen b ->
  Z.of_nat (a + n) <= o \/ o + zlen l <= Z.of_nat a -> take n (drop a (poke b o l)) = take n (drop a b).
Proof.
  intros Ho Hl Hd. apply list_eq. intros i. destruct (decide (i < n)%nat); [|by rewrite !lookup_take_ge by lia].
  rewrite !lookup_take_lt by done. rewrite !lookup_drop, lookup_poke by done. rewrite decide_False by lia. done.
Qed.

(** The window it fills. *)
Lemma window_poke_eq (b l : bytes) o : 0 <= o -> o + zlen l <= zlen b ->
  take (length l) (drop (Z.to_nat o) (poke b o l)) = l.
Proof.
  intros Ho Hl. unfold zlen, poke in *. rewrite drop_app_length' by (rewrite length_take; lia). apply take_app_length.
Qed.

Lemma byte_at_window l a n i : (i < n)%nat -> byte_at l (a + i) = byte_at (take n (drop a l)) i.
Proof. intros Hi. unfold byte_at. rewrite !nth_lookup, lookup_take_lt, lookup_drop by done. done. Qed.

(** A 32-bit load looks at four bytes. *)
Lemma ld32_window l a : ld32 l a = ld32 (take 4 (drop a l)) 0.
Proof.
  unfold ld32. rewrite <- (Nat.add_0_r a) at 1. rewrite !(byte_at_window l a 4) by lia. done.
Qed.

Lemma ld32_range l a : is_bytes l -> is_u32 (ld32 l a).
Proof.
  intros Hl. unfold ld32.
  assert (Hb : forall i, is_u8 (byte_at l i)).
  { intros i. unfold byte_at. destruct (nth_in_or_default i l 0) as [Hi| ->]; [|unfold is_u8; lia].
    eapply Forall_forall in Hl; [exact Hl|]. by apply list_elem_of_In. }
  pose proof (Hb a). pose proof (Hb (a + 1)%nat). pose proof (Hb (a + 2)%nat). pose proof (Hb (a + 3)%nat). warith.
Qed.

(** ** Directory entries *)

Definition entry_ok (e : kfs_dirent) : Prop :=
  length (de_name e) = 11%nat /\ is_bytes (de_name e) /\ is_u32 (de_start_block e) /\ is_u32 (de_size_bytes e).

Definition block_ok (b : bytes) : Prop := zlen b = BLK_SIZE /\ is_bytes b.

Lemma dirent_bytes_length e : entry_ok e -> length (dirent_bytes e) = 19%nat.
Proof. intros (Hn & _). unfold dirent_bytes. rewrite !length_app, Hn. done. Qed.

(** An entry is its nineteen bytes. *)
Lemma dirent_window blk i : 0 <= i -> dirent blk i = dirent (take 19 (drop (Z.to_nat (19 * i)) blk)) 0.
Proof.
  intros Hi. unfold dirent. change (Z.to_nat (19 * 0)) with 0%nat. set (o := Z.to_nat (19 * i)). f_equal.
  - rewrite drop_0, take_take. done.
  - rewrite (ld32_window blk), (ld32_window (take 19 _)). f_equal. rewrite skipn_firstn_comm, take_take, drop_drop. done.
  - rewrite (ld32_window blk), (ld32_window (take 19 _)). f_equal. rewrite skipn_firstn_comm, take_take, drop_drop. done.
Qed.

Lemma dirent_of_bytes e : entry_ok e -> dirent (dirent_bytes e) 0 = e.
Proof.
  intros (Hn & _ & Hs & Hz). destruct e as [n s z]. cbn [de_name de_start_block de_size_bytes] in *.
  unfold dirent, dirent_bytes. cbn [de_name de_start_block de_size_bytes]. change (Z.to_nat (19 * 0)) with 0%nat. f_equal.
  - rewrite drop_0. rewrite <- Hn. apply take_app_length.
  - change (0 + 11)%nat with 11%nat. rewrite <- Hn. by apply ld32_st32.
  - change (0 + 15)%nat with 15%nat. rewrite (assoc_L (++)).
    replace 15%nat with (length (n ++ st32 s)) by (rewrite length_app, Hn; done).
    rewrite <- (app_nil_r (st32 z)). by apply ld32_st32.
Qed.

Lemma set_dirent_eq blk i e : zlen blk = BLK_SIZE -> 0 <= i < KFS_DIRENTS -> entry_ok e ->
  dirent (set_dirent blk i e) i = e.
Proof.
  intros Hb Hi He. rewrite dirent_window by lia. unfold set_dirent. pose proof (dirent_bytes_length e He) as Hl.
  rewrite <- Hl, window_poke_eq; [by apply dirent_of_bytes|lia|]. unfold zlen, BLK_SIZE, KFS_DIRENTS in *. lia.
Qed.

Lemma set_dirent_ne blk i j e : zlen blk = BLK_SIZE -> 0 <= i < KFS_DIRENTS -> 0 <= j -> i <> j -> entry_ok e ->
  dirent (set_dirent blk i e) j = dirent blk j.
Proof.
  intros Hb Hi Hj Hne He. rewrite (dirent_window _ j), (dirent_window blk j) by lia. unfold set_dirent.
  pose proof (dirent_bytes_length e He) as Hl. f_equal.
  apply window_poke; unfold zlen, BLK_SIZE, KFS_DIRENTS in *; lia.
Qed.

Lemma is_bytes_poke b o l : is_bytes b -> is_bytes l -> is_bytes (poke b o l).
Proof.
  intros Hb Hl. unfold poke. apply Forall_app. split; [by apply Forall_take|]. apply Forall_app. split; [done|].
  by apply Forall_drop.
Qed.

Lemma st32_is_bytes v : is_bytes (st32 v).
Proof. repeat apply Forall_cons_2; try (unfold is_u8; Z.div_mod_to_equations; lia). apply Forall_nil_2. Qed.

Lemma set_dirent_ok blk i e : block_ok blk -> 0 <= i < KFS_DIRENTS -> entry_ok e -> block_ok (set_dirent blk i e).
Proof.
  intros [Hb Hbb] Hi He. pose proof (dirent_bytes_length e He) as Hl. split.
  - unfold set_dirent. rewrite poke_length; [done|lia|]. unfold zlen, BLK_SIZE, KFS_DIRENTS in *. lia.
  - apply is_bytes_poke; [done|]. unfold dirent_bytes. apply Forall_app. split; [apply He|].
    apply Forall_app. split; apply st32_is_bytes.
Qed.

Lemma dirent_ok blk i : block_ok blk -> 0 <= i < KFS_DIRENTS -> entry_ok (dirent blk i).
Proof.
  intros [Hb Hbb] Hi. unfold zlen, BLK_SIZE, KFS_DIRENTS in *. split_and!; cbn.
  - rewrite length_take, length_drop. lia.
  - by apply Forall_take, Forall_drop.
  - by apply ld32_range.
  - by apply ld32_range.
Qed.

Lemma st32_ld32 l : is_bytes l -> length l = 4%nat -> st32 (ld32 l 0) = l.
Proof.
  intros Hb Hl. destruct l as [|a [|b [|c [|d [|]]]]]; try done.
  inversion Hb as [|?? Ha Hb1]; subst. inversion Hb1 as [|?? Hb2 Hb3]; subst.
  inversion Hb3 as [|?? Hc Hb4]; subst. inversion Hb4 as [|?? Hd _]; subst.
  assert (ld32 [a; b; c; d] 0 = be32 d c b a) as -> by (unfold ld32, byte_at, be32; cbn [nth Nat.add]; lia).
  by apply st32_be32.
Qed.

Lemma dirent_bytes_of blk i : block_ok blk -> 0 <= i < KFS_DIRENTS ->
  dirent_bytes (dirent blk i) = take 19 (drop (Z.to_nat (19 * i)) blk).
Proof.
  intros [Hb Hbb] Hi. unfold dirent_bytes, dirent. cbn [de_name de_start_block de_size_bytes].
  unfold zlen, BLK_SIZE, KFS_DIRENTS in *. set (o := Z.to_nat (19 * i)).
  assert (Hw : forall k, (k <= 15)%nat -> st32 (ld32 blk (o + k)) = take 4 (drop (o + k) blk)).
  { intros k Hk. rewrite ld32_window. apply st32_ld32; [by apply Forall_take, Forall_drop|].
    rewrite length_take, length_drop. lia. }
  rewrite !Hw by lia. change 19%nat with (11 + 8)%nat at 1. rewrite <- (take_take_drop _ 11 8). f_equal.
  rewrite drop_drop. change 8%nat with (4 + 4)%nat at 1. rewrite <- (take_take_drop _ 4 4). f_equal.
  rewrite drop_drop. do 2 f_equal. lia.
Qed.

(** Storing a size is storing the entry with that size. *)
Lemma set_dirent_size_eq blk i size : block_ok blk -> 0 <= i < KFS_DIRENTS ->
  set_dirent_size blk i size =
  set_dirent blk i (mk_dirent (de_name (dirent blk i)) (de_start_block (dirent blk i)) size).
Proof.
  intros Hok Hi. pose proof (dirent_bytes_of blk i Hok Hi) as Hd. destruct Hok as [Hb Hbb].
  pose proof (dirent_ok blk i (conj Hb Hbb) Hi) as (Hn & _).
  unfold set_dirent_size, set_dirent, poke, dirent_bytes in *. cbn [de_name de_start_block de_size_bytes] in *.
  set (n := de_name (dirent blk i)) in *. set (s := st32 (de_start_block (dirent blk i))) in *.
  unfold zlen, BLK_SIZE, KFS_DIRENTS in *. set (o := Z.to_nat (19 * i)) in *.
  replace (Z.to_nat (19 * i + 15)) with (o + 15)%nat by lia.
  assert (take (o + 15) blk = take o blk ++ n ++ s) as ->.
  { rewrite <- take_take_drop. f_equal. transitivity (take 15 (take 19 (drop o blk))); [by rewrite take_take|].
    rewrite <- Hd, (assoc_L (++)). rewrite take_app_length'; [done|]. rewrite length_app, Hn. done. }
  replace (o + length (n ++ s ++ st32 size))%nat with (o + 15 + length (st32 size))%nat
    by (rewrite !length_app, Hn; cbn; lia).
  by rewrite <- !(assoc_L (++)).
Qed.

(** ** Names *)

(** A name a caller may pass, or one stored in an entry: no NUL in it. *)
Definition no_nul (name : bytes) : Prop := 0 ∉ name.

Lemma char_at_lookup s k : char_at s (Z.of_nat k) = default 0 ((s : list Z) !! k).
Proof. unfold char_at. rewrite Nat2Z.id. apply nth_lookup. Qed.

Lemma cstr_no_nul s : no_nul (cstr s).
Proof.
  induction s as [|c s IH]; cbn [cstr]; [by intros ?%elem_of_nil|]. case_if; bool_prop; [by intros ?%elem_of_nil|].
  intros [?|?]%elem_of_cons; [congruence|]. by apply IH.
Qed.

Lemma cstr_id s : no_nul s -> cstr s = s.
Proof.
  induction s as [|c s IH]; intros Hs; cbn [cstr]; [done|]. apply not_elem_of_cons in Hs as [Hc Hs].
  rewrite (proj2 (Z.eqb_neq _ _)) by done. by rewrite IH.
Qed.

Lemma char_at_in s i : no_nul s -> 0 <= i < zlen s -> char_at s i <> 0.
Proof.
  intros Hs Hi E. apply Hs. unfold char_at in E. rewrite <- E. apply list_elem_of_In, nth_In. unfold zlen in Hi. lia.
Qed.

Lemma char_at_end s : char_at s (zlen s) = 0.
Proof. unfold char_at, zlen. rewrite Nat2Z.id. by apply nth_overflow. Qed.

Lemma char_at_cons c s i : 0 <= i -> char_at (c :: s) (i + 1) = char_at s i.
Proof. intros Hi. unfold char_at. replace (Z.to_nat (i + 1)) with (S (Z.to_nat i)) by lia. done. Qed.

(** The stored name is [name], character by character. *)
Definition same_chars (dn name : bytes) : Prop :=
  (forall i, 0 <= i < zlen name -> char_at dn i = char_at name i) /\ char_at dn (zlen name) = 0.

Lemma same_chars_cstr name : forall dn, no_nul name -> zlen name < zlen dn -> same_chars dn name <-> cstr dn = name.
Proof.
  induction name as [|c name IH]; intros [|d dn] Hn Hl; try (rewrite ?zlen_cons in Hl; unfold zlen in Hl; cbn in Hl; lia).
  - cbn [cstr]. split.
    + intros [_ E]. change (d = 0) in E. by rewrite E.
    + case_if; bool_prop; [|done]. intros _. split; [|done]. unfold zlen. cbn. lia.
  - apply not_elem_of_cons in Hn as [Hc Hn]. rewrite !zlen_cons in Hl. pose proof (zlen_nonneg name).
    specialize (IH dn Hn ltac:(lia)). unfold same_chars in *. rewrite zlen_cons.
    assert (Hsh : forall i, 0 <= i -> char_at (d :: dn) (1 + i) = char_at dn i) by (intros i Hi; rewrite Z.add_comm; by apply char_at_cons).
    assert (Hsh' : forall i, 0 <= i -> char_at (c :: name) (1 + i) = char_at name i) by (intros i Hi; rewrite Z.add_comm; by apply char_at_cons).
    rewrite Hsh by done. cbn [cstr]. split.
    + intros [H1 H2]. pose proof (H1 0 ltac:(lia)) as E. change (d = c) in E. subst d.
      rewrite (proj2 (Z.eqb_neq _ _)) by done. f_equal. apply IH. split; [|done].
      intros i Hi. rewrite <- Hsh, <- Hsh' by lia. apply H1. lia.
    + case_if; [done|]. intros [= -> E']. destruct (proj2 IH E') as [H1 H2]. split; [|done].
      intros i Hi. destruct (decide (i = 0)) as [->|]; [done|]. replace i with (1 + (i - 1)) by lia.
      rewrite Hsh, Hsh' by lia. apply H1. lia.
Qed.

(** Where the two comparison loops stop. *)
Lemma slot_cmp_stop fuel dn name : forall k, 0 <= k <= 11 -> 11 - k < Z.of_nat fuel ->
  let j := slot_cmp fuel dn name k in
  k <= j <= 11 /\ (forall i, k <= i < j -> char_at dn i = char_at name i /\ char_at name i <> 0)
  /\ (j = 11 \/ char_at dn j <> char_at name j \/ char_at name j = 0).
Proof.
  induction fuel as [|fuel IH]; intros k Hk Hf; [lia|]. cbn [slot_cmp]. unfold KFS_NAME_MAX.
  destruct (Z.ltb_spec k 11); cbn [andb]; [|split_and!; [lia|lia|intros; lia|left; lia]].
  destruct (Z.eqb_spec (char_at dn k) (char_at name k)) as [E|E]; [|split_and!; [lia|lia|intros; lia|by right; left]].
  destruct (Z.eqb_spec (char_at name k) 0) as [E0|E0]; [split_and!; [lia|lia|intros; lia|by right; right]|].
  destruct (IH (k + 1) ltac:(lia) ltac:(lia)) as (H1 & H2 & H3). split_and!; [lia|lia| |done].
  intros i Hi. destruct (decide (i = k)) as [->|]; [done|]. apply H2. lia.
Qed.

Lemma named_cmp_stop fuel dn name : forall k, 0 <= k <= 11 -> 11 - k < Z.of_nat fuel ->
  let j := named_cmp fuel dn name k in
  k <= j <= 11 /\ (forall i, k <= i < j -> char_at dn i = char_at name i /\ char_at name i <> 0)
  /\ (j = 11 \/ char_at dn j <> char_at name j \/ char_at name j = 0).
Proof.
  induction fuel as [|fuel IH]; intros k Hk Hf; [lia|]. cbn [named_cmp]. unfold KFS_NAME_MAX.
  destruct (Z.ltb_spec k 11); cbn [andb]; [|split_and!; [lia|lia|intros; lia|left; lia]].
  destruct (Z.eqb_spec (char_at dn k) (char_at name k)) as [E|E]; cbn [andb]; [|split_and!; [lia|lia|intros; lia|by right; left]].
  destruct (Z.eqb_spec (char_at name k) 0) as [E0|E0]; cbn [andb negb]; [split_and!; [lia|lia|intros; lia|by right; right]|].
  rewrite (proj2 (Z.eqb_neq (char_at dn k) 0)) by congruence. cbn [negb].
  destruct (IH (k + 1) ltac:(lia) ltac:(lia)) as (H1 & H2 & H3). split_and!; [lia|lia| |done].
  intros i Hi. destruct (decide (i = k)) as [->|]; [done|]. apply H2. lia.
Qed.

(** A loop that stops like that stops at the NUL of [name] or at a difference. *)
Lemma stop_same_chars dn name j : no_nul name -> zlen name < 11 -> 0 <= j <= 11 ->
  (forall i, 0 <= i < j -> char_at dn i = char_at name i /\ char_at name i <> 0) ->
  (j = 11 \/ char_at dn j <> char_at name j \/ char_at name j = 0) ->
  same_chars dn name <-> j < 11 /\ char_at dn j = 0 /\ char_at name j = 0.
Proof.
  intros Hn Hl Hj Hpre Hstop. pose proof (zlen_nonneg name). pose proof (char_at_end name) as Hend.
  assert (Hjn : j <= zlen name).
  { destruct (Z.le_gt_cases j (zlen name)); [done|]. destruct (Hpre (zlen name)) as [_ ?]; [lia|done]. }
  split.
  - intros [H1 H2]. destruct (decide (j = zlen name)) as [->|Hne]; [split_and!; [lia|done|done]|].
    destruct Hstop as [?|[E|E]]; [lia|by destruct E; apply H1; lia|].
    exfalso. revert E. apply char_at_in; [done|lia].
  - intros (H1 & H2 & H3). assert (j = zlen name) as ->.
    { destruct (decide (j = zlen name)); [done|]. exfalso. revert H3. apply char_at_in; [done|lia]. }
    split; [|done]. intros i Hi. by apply Hpre.
Qed.

Lemma slot_dup_eq dn name : no_nul name -> zlen name < 11 -> zlen dn = 11 ->
  slot_dup dn name = bool_decide (cstr dn = name).
Proof.
  intros Hn Hl Hd. unfold slot_dup. destruct (slot_cmp_stop 12 dn name 0 ltac:(lia) ltac:(lia)) as (H1 & H2 & H3).
  set (j := slot_cmp 12 dn name 0) in *. pose proof (stop_same_chars dn name j Hn Hl ltac:(lia) H2 H3) as Hs.
  rewrite (same_chars_cstr name dn Hn) in Hs by lia. unfold KFS_NAME_MAX. case_bool_decide as E.
  - apply Hs in E as (E1 & E2 & E3). rewrite E2, E3. by rewrite (proj2 (Z.ltb_lt _ _) E1).
  - apply andb_false_iff. destruct (Z.ltb_spec j 11); [right|by left]. apply Z.eqb_neq. intros E2. apply E, Hs.
    destruct H3 as [?|[?|E3]]; [lia|done|]. split_and!; [done|congruence|done].
Qed.

Lemma named_eq_eq dn name : no_nul name -> zlen name < 11 -> zlen dn = 11 ->
  named_eq dn name = bool_decide (cstr dn = name).
Proof.
  intros Hn Hl Hd. unfold named_eq. destruct (named_cmp_stop 12 dn name 0 ltac:(lia) ltac:(lia)) as (H1 & H2 & H3).
  set (j := named_cmp 12 dn name 0) in *. pose proof (stop_same_chars dn name j Hn Hl ltac:(lia) H2 H3) as Hs.
  rewrite (same_chars_cstr name dn Hn) in Hs by lia. unfold KFS_NAME_MAX. case_bool_decide as E.
  - apply Hs in E as (E1 & E2 & E3). rewrite E2, E3. by rewrite (proj2 (Z.ltb_lt _ _) E1).
  - apply not_true_iff_false. intros ((E1 & E2)%andb_true_iff & E3)%andb_true_iff. bool_prop. by apply E, Hs.
Qed.

Lemma name_field_ok name : no_nul name -> is_bytes name -> zlen name < 11 ->
  length (name_field name) = 11%nat /\ is_bytes (name_field name) /\ cstr (name_field name) = name.
Proof.
  intros Hn Hb Hl. unfold zlen in Hl. unfold name_field. rewrite take_ge by lia. split_and!.
  - rewrite length_app, length_replicate. lia.
  - apply Forall_app. split; [done|]. apply Forall_replicate. unfold is_u8. lia.
  - clear Hb. assert (exists k, (11 - length name)%nat = S k) as [k ->] by (exists (10 - length name)%nat; lia). clear Hl.
    induction name as [|c name IH]; cbn [app cstr]; [done|]. apply not_elem_of_cons in Hn as [Hc Hn].
    rewrite (proj2 (Z.eqb_neq _ _)) by done. by rewrite IH.
Qed.

(** ** Scanning a directory table *)

Definition live (blk : bytes) (i : Z) : Prop := char_at (de_name (dirent blk i)) 0 <> 0.
Definition entry_name (blk : bytes) (i : Z) : bytes := cstr (de_name (dirent blk i)).

Lemma name_length blk i : block_ok blk -> 0 <= i < KFS_DIRENTS -> zlen (de_name (dirent blk i)) = 11.
Proof. intros Hb Hi. destruct (dirent_ok blk i Hb Hi) as (Hn & _). unfold zlen. lia. Qed.

Lemma live_name blk i : live blk i <-> entry_name blk i <> [].
Proof.
  unfold live, entry_name. destruct (de_name (dirent blk i)) as [|c s]; [done|]. change (char_at (c :: s) 0) with c.
  cbn [cstr]. case_if; bool_prop; [subst c|]; split; congruence.
Qed.

Definition absent_in (blk name : bytes) (i n : Z) : Prop :=
  forall j, i <= j < n -> live blk j -> entry_name blk j <> name.

Lemma find_named_spec n blk name : block_ok blk -> no_nul name -> zlen name < 11 -> forall i, 0 <= i ->
  i + Z.of_nat n = KFS_DIRENTS -> let r := find_named n blk name i in
  (r = -1 /\ absent_in blk name i KFS_DIRENTS)
  \/ (i <= r < KFS_DIRENTS /\ live blk r /\ entry_name blk r = name /\ absent_in blk name i r).
Proof.
  intros Hb Hn Hl. induction n as [|n IH]; intros i Hi Hin; cbn [find_named].
  { left. split; [done|]. intros j Hj. lia. }
  pose proof (name_length blk i Hb ltac:(lia)) as Hlen.
  assert (Hnext : forall r, (live blk i -> entry_name blk i <> name) -> absent_in blk name (i + 1) r -> absent_in blk name i r).
  { intros r H1 H2 j Hj. destruct (decide (j = i)) as [->|]; [done|]. apply H2. lia. }
  destruct (Z.eqb_spec (char_at (de_name (dirent blk i)) 0) 0) as [E|E].
  - destruct (IH (i + 1) ltac:(lia) ltac:(lia)) as [[H1 H2]|(H1 & H2 & H3 & H4)].
    + left. split; [done|]. apply Hnext; [|done]. intros Hlive. by destruct Hlive.
    + right. split_and!; try done; try lia. apply Hnext; [|done]. intros Hlive. by destruct Hlive.
  - rewrite named_eq_eq by done. case_bool_decide as En.
    + right. split_and!; try done; try lia. intros j Hj. lia.
    + destruct (IH (i + 1) ltac:(lia) ltac:(lia)) as [[H1 H2]|(H1 & H2 & H3 & H4)].
      * left. split; [done|]. by apply Hnext.
      * right. split_and!; try done; try lia. by apply Hnext.
Qed.

Lemma kfs_dir_find_named_spec blk name : block_ok blk -> no_nul name -> zlen name < 11 ->
  let r := kfs_dir_find_named blk name in
  (r = -1 /\ absent_in blk name 0 KFS_DIRENTS) \/ (0 <= r < KFS_DIRENTS /\ live blk r /\ entry_name blk r = name).
Proof.
  intros Hb Hn Hl. destruct (find_named_spec (Z.to_nat KFS_DIRENTS) blk name Hb Hn Hl 0 ltac:(lia) eq_refl) as [?|(? & ? & ? & _)];
    [by left|by right].
Qed.

(** A name that does not fit is found nowhere. *)
Lemma named_eq_long dn name : no_nul name -> 11 <= zlen name -> named_eq dn name = false.
Proof.
  intros Hn Hl. unfold named_eq. destruct (named_cmp_stop 12 dn name 0 ltac:(lia) ltac:(lia)) as (H1 & _ & _).
  set (j := named_cmp 12 dn name 0) in *. apply not_true_iff_false. intros ((E1 & _)%andb_true_iff & E3)%andb_true_iff.
  unfold KFS_NAME_MAX in E1. bool_prop. revert E3. apply char_at_in; [done|lia].
Qed.

Lemma find_named_long blk name : no_nul name -> 11 <= zlen name -> kfs_dir_find_named blk name = -1.
Proof.
  intros Hn Hl. unfold kfs_dir_find_named. generalize 0 as i. generalize (Z.to_nat KFS_DIRENTS) as n.
  induction n as [|n IH]; intros i; cbn [find_named]; [done|]. rewrite named_eq_long by done. case_if; apply IH.
Qed.

(** The first entry from [i] on that is not in use. *)
Definition first_free (blk : bytes) (i r : Z) : Prop :=
  i <= r < KFS_DIRENTS /\ ~ live blk r /\ forall j, i <= j < r -> live blk j.

Lemma find_slot_spec n blk name : block_ok blk -> no_nul name -> zlen name < 11 -> forall i slot, 0 <= i ->
  i + Z.of_nat n = KFS_DIRENTS -> let r := find_slot n blk name i slot in
  (r = -1 /\ ~ absent_in blk name i KFS_DIRENTS)
  \/ (absent_in blk name i KFS_DIRENTS /\
      ((0 <= slot /\ r = slot) \/ (slot < 0 /\ first_free blk i r) \/ (slot < 0 /\ r = slot /\ forall j, i <= j < KFS_DIRENTS -> live blk j))).
Proof.
  intros Hb Hn Hl. induction n as [|n IH]; intros i slot Hi Hin; cbn [find_slot].
  { right. split; [intros j Hj; lia|]. destruct (decide (0 <= slot)); [by left|].
    right; right. split_and!; [lia|done|intros; lia]. }
  pose proof (name_length blk i Hb ltac:(lia)) as Hlen.
  assert (Hnext : (live blk i -> entry_name blk i <> name) ->
    (absent_in blk name i KFS_DIRENTS <-> absent_in blk name (i + 1) KFS_DIRENTS)).
  { intros H1. split; intros H2 j Hj; [apply H2; lia|]. destruct (decide (j = i)) as [->|]; [done|]. apply H2. lia. }
  destruct (Z.eqb_spec (char_at (de_name (dirent blk i)) 0) 0) as [E|E].
  - assert (Hnl : ~ live blk i) by (intros Hlive; by destruct Hlive). rewrite !Hnext by done.
    destruct (IH (i + 1) (if slot <? 0 then i else slot) ltac:(lia) ltac:(lia)) as [?|[H1 H2]]; [by left|right].
    split; [done|]. destruct (Z.ltb_spec slot 0).
    + right; left. split; [done|]. destruct H2 as [[_ ->]|[[? _]|[? _]]]; [|lia|lia]. split_and!; try done; try lia; intros; lia.
    + left. destruct H2 as [[_ ->]|[[? _]|[? _]]]; [done|lia|lia].
  - rewrite slot_dup_eq by done. case_bool_decide as En.
    + left. split; [done|]. intros Ha. by apply (Ha i ltac:(lia) E).
    + rewrite !Hnext by done. destruct (IH (i + 1) slot ltac:(lia) ltac:(lia)) as [?|[H1 H2]]; [by left|right].
      split; [done|]. destruct H2 as [?|[[? (H3 & H4 & H5)]|(? & ? & H3)]]; [by left|right; left|right; right].
      * split; [done|]. split_and!; [lia|lia|done|]. intros j Hj. destruct (decide (j = i)) as [->|]; [done|]. apply H5. lia.
      * split_and!; try done. intros j Hj. destruct (decide (j = i)) as [->|]; [done|]. apply H3. lia.
Qed.

Lemma kfs_dir_find_slot_spec blk name : block_ok blk -> no_nul name ->
  let r := kfs_dir_find_slot blk name in
  (r = -1 /\ (11 <= zlen name \/ ~ absent_in blk name 0 KFS_DIRENTS \/ forall j, 0 <= j < KFS_DIRENTS -> live blk j))
  \/ (zlen name < 11 /\ absent_in blk name 0 KFS_DIRENTS /\ first_free blk 0 r).
Proof.
  intros Hb Hn. unfold kfs_dir_find_slot, KFS_NAME_MAX. rewrite Z.geb_leb. destruct (Z.leb_spec 11 (zlen name)).
  { left. split; [done|by left]. }
  destruct (find_slot_spec (Z.to_nat KFS_DIRENTS) blk name Hb Hn ltac:(lia) 0 (-1) ltac:(lia) eq_refl) as [[-> ?]|[Ha H2]].
  - left. split; [done|by right; left].
  - destruct H2 as [[? _]|[[_ ?]|(_ & -> & ?)]]; [lia|by right|left]. split; [done|by right; right].
Qed.

(** ** The bitmap *)

Definition MAP_BITS : Z := 4096.

(** Block [j] is marked allocated. *)
Definition marked (bm : bytes) (j : Z) : bool := Z.testbit (nth (Z.to_nat (j / 8)) bm 0) (j mod 8).

Lemma bit_get_marked bm j : 0 <= j -> kfs_bit_get bm j = b2z (marked bm j).
Proof.
  intros Hj. unfold kfs_bit_get, marked. set (b := nth _ _ _). set (k := j mod 8).
  assert (Hk : 0 <= k < 8) by (unfold k; Z.div_mod_to_equations; lia).
  change 1 with (Z.ones 1). rewrite Z.land_ones, Z.shiftr_div_pow2 by lia. change (2 ^ 1) with 2.
  rewrite <- (Z.testbit_spec' b k) by lia. by destruct (Z.testbit b k).
Qed.

Lemma marked_bit b k m : 0 <= k < 8 -> 0 <= m < 8 ->
  Z.testbit (Z.lor b (u8 (Z.shiftl 1 k))) m = (if decide (m = k) then true else Z.testbit b m)
  /\ Z.testbit (Z.land b (u8 (Z.lnot (Z.shiftl 1 k)))) m = (if decide (m = k) then false else Z.testbit b m).
Proof.
  intros Hk Hm. unfold u8. change 256 with (2 ^ 8). split.
  - rewrite Z.lor_spec, Z.mod_pow2_bits_low, Z.shiftl_spec by lia. case_decide as E.
    + subst m. rewrite Z.sub_diag. apply orb_true_r.
    + change 1 with (2 ^ 0). rewrite Z.pow2_bits_false by lia. apply orb_false_r.
  - rewrite Z.land_spec, Z.mod_pow2_bits_low, Z.lnot_spec, Z.shiftl_spec by lia. case_decide as E.
    + subst m. rewrite Z.sub_diag. apply andb_false_r.
    + change 1 with (2 ^ 0). rewrite Z.pow2_bits_false by lia. apply andb_true_r.
Qed.

Lemma bit_set_marked bm i v j : zlen bm = BLK_SIZE -> 0 <= i < MAP_BITS -> 0 <= j ->
  marked (kfs_bit_set bm i v) j = if decide (j = i) then negb (v =? 0) else marked bm j.
Proof.
  intros Hl Hi Hj. unfold marked, kfs_bit_set, zlen, BLK_SIZE, MAP_BITS, bytes in *.
  assert (Hk : 0 <= i mod 8 < 8 /\ 0 <= j mod 8 < 8) by (Z.div_mod_to_equations; lia).
  destruct (decide (j / 8 = i / 8)) as [E|E].
  - rewrite E, nth_lookup, list_lookup_insert_eq by (Z.div_mod_to_equations; lia). cbn [default from_option id].
    destruct (marked_bit (nth (Z.to_nat (i / 8)) bm 0) (i mod 8) (j mod 8)) as [H1 H2]; [lia|lia|].
    destruct (v =? 0); cbn [negb]; rewrite ?H1, ?H2; repeat case_decide; try done; exfalso; Z.div_mod_to_equations; lia.
  - rewrite decide_False by (intros ->; done). rewrite !nth_lookup, list_lookup_insert_ne; [done|].
    intros E2. apply E. Z.div_mod_to_equations. lia.
Qed.

Lemma bit_set_length bm i v : zlen (kfs_bit_set bm i v) = zlen bm.
Proof. unfold zlen, kfs_bit_set, bytes. by rewrite length_insert. Qed.

Lemma bit_set_ok bm i v : block_ok bm -> 0 <= i -> block_ok (kfs_bit_set bm i v).
Proof.
  intros [Hl Hb] Hi. split; [by rewrite bit_set_length|].
  unfold kfs_bit_set, bytes. set (b := nth _ bm 0). apply Forall_insert; [done|].
  assert (is_u8 b) as Hu.
  { unfold b. destruct (nth_in_or_default (Z.to_nat (i / 8)) bm 0) as [Hin| ->]; [|unfold is_u8; lia].
    eapply Forall_forall in Hb; [exact Hb|]. by apply list_elem_of_In. }
  assert (Hw : forall z, 0 <= u8 z < 256) by (intros; apply u8_range).
  assert (forall y, 0 <= y < 256 -> Z.log2 y < 8) as Hlog.
  { intros y Hy. destruct (decide (y = 0)) as [->|]; [cbn; lia|]. apply Z.log2_lt_pow2; lia. }
  unfold is_u8 in *. pose proof (Hlog b Hu).
  case_if; set (x := u8 _); (assert (0 <= x < 256) by apply Hw); pose proof (Hlog x ltac:(done)).
  - split; [apply Z.lor_nonneg; lia|]. apply Z.log2_lt_cancel. rewrite Z.log2_lor by lia. change (Z.log2 256) with 8. lia.
  - split; [apply Z.land_nonneg; lia|]. apply Z.log2_lt_cancel. change (Z.log2 256) with 8.
    pose proof (Z.log2_land b x ltac:(lia) ltac:(lia)). lia.
Qed.

Lemma set_run_marked n v : forall bm s j, zlen bm = BLK_SIZE -> 0 <= s -> s + Z.of_nat n <= MAP_BITS -> 0 <= j ->
  marked (set_run n bm s v) j = if decide (s <= j < s + Z.of_nat n) then negb (v =? 0) else marked bm j.
Proof.
  induction n as [|n IH]; intros bm s j Hl Hs Hn Hj; cbn [set_run].
  - rewrite decide_False by lia. done.
  - rewrite IH; [|by rewrite bit_set_length|lia|lia|done].
    rewrite bit_set_marked by (done || lia). repeat case_decide; try done; lia.
Qed.

Lemma set_run_ok n v : forall bm s, block_ok bm -> 0 <= s -> block_ok (set_run n bm s v).
Proof. induction n as [|n IH]; intros bm s Hb Hs; cbn [set_run]; [done|]. apply IH; [by apply bit_set_ok|lia]. Qed.

Lemma run_free_spec n : forall bm s, 0 <= s ->
  run_free n bm s = true <-> forall j, s <= j < s + Z.of_nat n -> marked bm j = false.
Proof.
  induction n as [|n IH]; intros bm s Hs; cbn [run_free]; [split; [intros _ j; lia|done]|].
  rewrite bit_get_marked by done. destruct (marked bm s) eqn:E; cbn [b2z Z.eqb negb].
  - split; [done|]. intros Hf. rewrite Hf in E by lia. done.
  - rewrite IH by lia. split; intros Hf j Hj; [|apply Hf; lia]. destruct (decide (j = s)) as [->|]; [done|]. apply Hf. lia.
Qed.

(** A run of [count] blocks from [s] on is free and within the map. *)
Definition fits (bm : bytes) (count total s : Z) : Prop :=
  s + count <= total /\ forall j, s <= j < s + count -> marked bm j = false.

Lemma find_run_spec fuel : forall bm s count total, 0 < s -> 0 <= count -> total <= MAP_BITS -> count <= MAP_BITS ->
  s <= total -> total - s < Z.of_nat fuel ->
  let r := find_run fuel bm s count total in
  (r = 0 /\ forall s', s <= s' -> ~ fits bm count total s')
  \/ (s <= r /\ fits bm count total r /\ forall s', s <= s' < r -> ~ fits bm count total s').
Proof.
  unfold MAP_BITS. induction fuel as [|fuel IH]; intros bm s count total Hs Hc Ht Hct Hst Hf; [lia|]. cbn [find_run].
  rewrite u32_small by (unfold is_u32; lia). destruct (Z.leb_spec (s + count) total).
  - destruct (run_free (Z.to_nat count) bm s) eqn:E.
    + right. rewrite run_free_spec, Z2Nat.id in E by lia.
      split; [lia|]. split; [by split|intros; lia].
    + assert (~ fits bm count total s) as Hn.
      { intros [_ Hfr]. apply not_true_iff_false in E. apply E, run_free_spec; [lia|]. by rewrite Z2Nat.id by lia. }
      destruct (decide (s = total)) as [->|Hne].
      { left. assert (count = 0) as -> by lia. exfalso. apply Hn. split; [lia|intros; lia]. }
      destruct (IH bm (s + 1) count total) as [[H1 H2]|(H1 & H2 & H3)]; try lia.
      * left. split; [done|]. intros s' Hs'. destruct (decide (s' = s)) as [->|]; [done|]. apply H2. lia.
      * right. split; [lia|]. split; [done|]. intros s' Hs'. destruct (decide (s' = s)) as [->|]; [done|]. apply H3. lia.
  - left. split; [done|]. intros s' Hs' [? _]. lia.
Qed.

End KfsDisk.
