(* ===== verification/KfsInv.v ===== *)
(** * kfs: allocation and the ownership of blocks

    What [kfs_alloc_block_zero] and [kfs_free_blocks] do to the bitmap and the disk,
    and the invariant of a mounted file system: every block in use by the file
    system, a directory or a file belongs to exactly one of them, is marked in the
    bitmap, and the bitmap on disk is the one in memory. *)

From stdpp Require Import base numbers list gmap relations.
From Stdlib Require Import ZArith Lia Bool.
From S2P Require Import Prelude Net BlockDev BlockStore Kfs KfsDisk.

Module KfsInv.

Import Net BlockDev BlockStore Kfs KfsDisk.

Section Inv.
Context {S : Type} `{!BlockStore S} `{!StoreLaws S}.
Implicit Types (st : kfs S) (bd : block_device).

(** ** Blocks in and out *)

Definition blk st bd (n : Z) : option bytes := st_block (disk st) (bd_dev bd) n.

Lemma read_ok st bd n b : st_ok (disk st) -> blk st bd n = Some b ->
  exists s, bd_read_block st bd n = (Some b, st <| disk := s |>) /\ st_ok s
    /\ forall dev k, st_block s dev k = st_block (disk st) dev k.
Proof.
  intros Hok Hb. destruct (st_read_ok (disk st) (bd_dev bd) n b Hok Hb) as (s & E & Hs & Hk).
  exists s. unfold bd_read_block. by rewrite E.
Qed.

Lemma write_ok st bd n b data : st_ok (disk st) -> blk st bd n = Some b -> zlen data = BLK_SIZE ->
  exists s, bd_write_block st bd n data = (0, st <| disk := s |>) /\ st_ok s
    /\ forall dev k, st_block s dev k = if decide (dev = bd_dev bd /\ k = n) then Some data else st_block (disk st) dev k.
Proof.
  intros Hok Hb Hd. destruct (st_write_ok (disk st) (bd_dev bd) n b data Hok Hb Hd) as (s & E & Hs & Hk).
  exists s. unfold bd_write_block. by rewrite E.
Qed.

Lemma zero_run_ok n : forall st bd b, st_ok (disk st) -> (forall k, b <= k < b + Z.of_nat n -> is_Some (blk st bd k)) ->
  exists s, zero_run n st bd b = (true, st <| disk := s |>) /\ st_ok s
    /\ forall dev k, st_block s dev k =
         if decide (dev = bd_dev bd /\ b <= k < b + Z.of_nat n) then Some (replicate 512 0) else st_block (disk st) dev k.
Proof.
  induction n as [|n IH]; intros st bd b Hok Hb; cbn [zero_run].
  - exists (disk st). split_and!; [by destruct st|done|]. intros dev k. by rewrite decide_False by lia.
  - destruct (Hb b ltac:(lia)) as [b0 Hb0].
    destruct (write_ok st bd b b0 (replicate 512 0) Hok Hb0 eq_refl) as (s1 & -> & Hs1 & Hk1). cbn [Z.ltb Z.compare].
    destruct (IH (st <| disk := s1 |>) bd (b + 1)) as (s2 & -> & Hs2 & Hk2); [done| |].
    { intros k Hk. unfold blk. cbn. rewrite Hk1. case_decide; [done|]. apply Hb. lia. }
    exists s2. split_and!; [done|done|]. intros dev k. rewrite Hk2. cbn. rewrite Hk1.
    repeat case_decide; try done; lia.
Qed.

(** ** Mounts *)

(** Slot [m] of the table is the mount of [bd], with bitmap [bm]. *)
Definition mounted st (m : nat) bd (bm : bytes) : Prop :=
  kfs_mnt_for st bd = Some m /\ exists mp, kfs_mnts st !! m = Some (mk_mnt (Some bd) mp bm).

Lemma mounted_bitmap st m bd bm : mounted st m bd bm -> bitmap_of st m = bm.
Proof. intros [_ [mp E]]. unfold bitmap_of. by rewrite E. Qed.

(** Which slots hold which device, and nothing else of a mount, is what
    [kfs_mnt_for] looks at. *)
Lemma mnt_for_alter st bd i f : (forall x, m_bd (f x) = m_bd x) ->
  kfs_mnt_for (st <| kfs_mnts := alter f i (kfs_mnts st) |>) bd = kfs_mnt_for st bd.
Proof.
  intros Hf. unfold kfs_mnt_for. cbn. generalize (kfs_mnts st) as l. intros l. revert i.
  induction l as [|x l IH]; intros [|i]; cbn; try done.
  - assert (mnt_is bd (f x) = mnt_is bd x) as E by (unfold mnt_is; by rewrite Hf).
    repeat case_decide; try done; congruence.
  - case_decide; [done|]. specialize (IH i). change (alter f i l) with (alter f i l) in IH.
    destruct (list_find _ (alter f i l)) as [[]|], (list_find _ l) as [[]|]; cbn in *; congruence.
Qed.

Lemma mounted_set st m bd bm bm' : mounted st m bd bm -> mounted (set_bitmap st m bm') m bd bm'.
Proof.
  intros [E [mp Hm]]. split; [unfold set_bitmap; by rewrite mnt_for_alter|]. exists mp. cbn.
  by rewrite list_lookup_alter_eq, Hm.
Qed.

Lemma mounted_disk st m bd bm s : mounted st m bd bm -> mounted (st <| disk := s |>) m bd bm.
Proof. done. Qed.

Definition total_of bd : Z := if bd_nblocks bd >? BLK_SIZE * 8 then BLK_SIZE * 8 else bd_nblocks bd.

Lemma total_max bd : total_of bd <= MAP_BITS.
Proof. unfold total_of, MAP_BITS, BLK_SIZE. rewrite Z.gtb_ltb. case_if; bool_prop; lia. Qed.

(** The device has all its blocks. *)
Definition all_blocks st bd : Prop := forall n, 0 <= n < total_of bd -> is_Some (blk st bd n).

(** Saving the bitmap of slot [m]. *)
Lemma bitmap_save_ok st m bd bm b : mounted st m bd bm -> st_ok (disk st) -> blk st bd 1 = Some b -> zlen bm = BLK_SIZE ->
  exists s, kfs_bitmap_save st m = st <| disk := s |> /\ st_ok s
    /\ forall dev k, st_block s dev k = if decide (dev = bd_dev bd /\ k = 1) then Some bm else st_block (disk st) dev k.
Proof.
  intros Hm Hok Hb Hl. unfold kfs_bitmap_save. rewrite (mounted_bitmap _ _ _ _ Hm). destruct Hm as [_ [mp ->]]. cbn.
  destruct (write_ok st bd 1 b bm Hok Hb Hl) as (s & E & Hs & Hk). unfold KFS_BITMAP_BLOCK. rewrite E. by exists s.
Qed.

Lemma kfs_free_blocks_ok st m bd bm b start count : mounted st m bd bm -> st_ok (disk st) -> block_ok bm ->
  blk st bd 1 = Some b -> 0 <= start -> let bm' := set_run (Z.to_nat count) bm start 0 in
  exists s, kfs_free_blocks st bd start count = (set_bitmap st m bm') <| disk := s |> /\ st_ok s
    /\ forall dev k, st_block s dev k = if decide (dev = bd_dev bd /\ k = 1) then Some bm' else st_block (disk st) dev k.
Proof.
  intros Hm Hok Hbm Hb Hs bm'. unfold kfs_free_blocks. pose proof Hm as [-> _]. rewrite (mounted_bitmap _ _ _ _ Hm).
  fold bm'. apply (bitmap_save_ok (set_bitmap st m bm') m bd bm' b); [by eapply mounted_set|done|done|].
  by apply set_run_ok.
Qed.

(** Allocation finds the first free run, marks and saves it and zeroes its blocks; it
    fails only when there is none. *)
Lemma kfs_alloc_ok st m bd bm count : mounted st m bd bm -> st_ok (disk st) -> block_ok bm -> all_blocks st bd ->
  3 <= total_of bd -> 0 < count <= MAP_BITS ->
  (kfs_alloc_block_zero st bd count = (0, st) /\ forall s, 3 <= s -> ~ fits bm count (total_of bd) s)
  \/ exists start s, let bm' := set_run (Z.to_nat count) bm start 1 in
       kfs_alloc_block_zero st bd count = (start, (set_bitmap st m bm') <| disk := s |>)
       /\ 3 <= start /\ fits bm count (total_of bd) start /\ (forall s', 3 <= s' < start -> ~ fits bm count (total_of bd) s')
       /\ st_ok s /\ forall dev k, st_block s dev k =
            if decide (dev = bd_dev bd /\ k = 1) then Some bm'
            else if decide (dev = bd_dev bd /\ start <= k < start + count) then Some (replicate 512 0)
            else st_block (disk st) dev k.
Proof.
  intros Hm Hok Hbm Hall Ht Hc. unfold kfs_alloc_block_zero. pose proof Hm as [-> _]. rewrite (mounted_bitmap _ _ _ _ Hm).
  fold (total_of bd). pose proof (total_max bd).
  destruct (find_run_spec (Z.to_nat (total_of bd)) bm 3 count (total_of bd)) as [[E H2]|(H1 & H2 & H3)]; try lia.
  - change (KFS_ROOT_BLOCK + 1) with 3. rewrite E. left. done.
  - right. change (KFS_ROOT_BLOCK + 1) with 3. set (start := find_run _ _ _ _ _) in *.
    rewrite (proj2 (Z.eqb_neq start 0)) by lia. set (bm' := set_run (Z.to_nat count) bm start 1).
    assert (Hbm' : block_ok bm') by (apply set_run_ok; [done|lia]).
    destruct (Hall 1 ltac:(lia)) as [b1 Hb1].
    destruct (bitmap_save_ok (set_bitmap st m bm') m bd bm' b1) as (s1 & -> & Hs1 & Hk1);
      [by eapply mounted_set|done|done|apply Hbm'|].
    destruct H2 as [Hfit Hfree].
    destruct (zero_run_ok (Z.to_nat count) ((set_bitmap st m bm') <| disk := s1 |>) bd start) as (s2 & -> & Hs2 & Hk2); [done| |].
    { intros k Hk. unfold blk. cbn. rewrite Hk1. case_decide; [done|]. apply Hall. lia. }
    exists start, s2. split_and!; try done. intros dev k. rewrite Hk2. cbn. rewrite Hk1.
    repeat case_decide; try done; lia.
Qed.

(** ** Directory tables as collections *)

Definition dirents (tbl : bytes) : list kfs_dirent := (fun i => dirent tbl (Z.of_nat i)) <$> seq 0 26.

Definition in_use (e : kfs_dirent) : Prop := char_at (de_name e) 0 <> 0.

#[global] Instance in_use_dec e : Decision (in_use e).
Proof. unfold in_use. apply _. Defined.

(** The entries in use. *)
Definition entries (tbl : bytes) : list kfs_dirent := filter in_use (dirents tbl).

Lemma dirents_lookup tbl i : 0 <= i < KFS_DIRENTS -> dirents tbl !! Z.to_nat i = Some (dirent tbl i).
Proof.
  intros Hi. unfold dirents. rewrite list_lookup_fmap, lookup_seq_lt by (unfold KFS_DIRENTS in Hi; lia). cbn. do 2 f_equal. lia.
Qed.

Lemma dirents_set tbl i e : zlen tbl = BLK_SIZE -> 0 <= i < KFS_DIRENTS -> entry_ok e ->
  dirents (set_dirent tbl i e) = <[Z.to_nat i := e]> (dirents tbl).
Proof.
  intros Hb Hi He. apply list_eq. intros k. destruct (decide (k < 26)%nat) as [Hk|Hk].
  - assert (Hl : forall t, dirents t !! k = Some (dirent t (Z.of_nat k))).
    { intros t. rewrite <- (Nat2Z.id k) at 1. apply dirents_lookup. unfold KFS_DIRENTS. lia. }
    rewrite Hl. destruct (decide (Z.of_nat k = i)) as [<-|E].
    + rewrite Nat2Z.id, list_lookup_insert_eq, set_dirent_eq; done.
    + rewrite set_dirent_ne, list_lookup_insert_ne by (done || lia). by rewrite Hl.
  - rewrite !lookup_ge_None_2; [done| |]; rewrite ?length_insert; unfold dirents; rewrite length_fmap, length_seq; lia.
Qed.

Lemma filter_insert (l : list kfs_dirent) i x y : l !! i = Some x ->
  filter in_use (<[i := y]> l) ++ (if decide (in_use x) then [x] else [])
  ≡ₚ (if decide (in_use y) then [y] else []) ++ filter in_use l.
Proof.
  intros Hx. rewrite <- (take_drop_middle l i x Hx) at 2. rewrite insert_take_drop by (by eapply lookup_lt_Some).
  rewrite !filter_app, !filter_cons. repeat case_decide; cbn [app]; rewrite ?app_nil_r; solve_Permutation.
Qed.

(** The blocks of one entry: a subdirectory's table, or a file's run. *)
Definition entry_dirs (e : kfs_dirent) : list Z := if kfs_de_isdir e then [kfs_de_start e] else [].
Definition entry_files (e : kfs_dirent) : list Z := if kfs_de_isdir e then [] else seqZ (kfs_de_start e) 64.

Definition tbl_at st bd (d : Z) : bytes := default (replicate 512 0) (blk st bd d).

(** Everything the entries of the directories [dirs] refer to. *)
Definition coll (F : kfs_dirent -> list Z) st bd (dirs : list Z) : list Z :=
  concat ((fun d => concat (F <$> entries (tbl_at st bd d))) <$> dirs).

(** The blocks in use: superblock, bitmap, directories, files. *)
Definition owned st bd (dirs : list Z) : list Z := [0; 1] ++ dirs ++ coll entry_files st bd dirs.

Lemma concat_perm (l l' : list (list Z)) : l ≡ₚ l' -> concat l ≡ₚ concat l'.
Proof. induction 1; cbn; try done; [by f_equiv|solve_Permutation|by etrans]. Qed.

(** The collection when one directory's table changes. *)
Lemma coll_change F st st' bd dirs d : d ∈ dirs -> NoDup dirs ->
  (forall d', d' ∈ dirs -> d' <> d -> tbl_at st' bd d' = tbl_at st bd d') ->
  exists rest, coll F st bd dirs ≡ₚ concat (F <$> entries (tbl_at st bd d)) ++ rest
    /\ coll F st' bd dirs ≡ₚ concat (F <$> entries (tbl_at st' bd d)) ++ rest.
Proof.
  intros Hd Hn Hsame. destruct (list_elem_of_split _ _ Hd) as (l1 & l2 & ->).
  rewrite <- Permutation_middle in Hn. apply NoDup_cons in Hn as [Hnot _].
  exists (coll F st bd (l1 ++ l2)).
  assert (Hp : forall st, coll F st bd (l1 ++ d :: l2) ≡ₚ concat (F <$> entries (tbl_at st bd d)) ++ coll F st bd (l1 ++ l2)).
  { intros st0. unfold coll. rewrite <- Permutation_middle. by rewrite fmap_cons. }
  split; [done|]. rewrite Hp. f_equiv. unfold coll. apply concat_perm.
  assert ((fun d => concat (F <$> entries (tbl_at st' bd d))) <$> l1 ++ l2
    = (fun d => concat (F <$> entries (tbl_at st bd d))) <$> l1 ++ l2) as ->; [|done].
  apply list_fmap_ext. intros i x Hx. apply list_elem_of_lookup_2 in Hx. rewrite Hsame; [done|set_solver|]. intros ->. done.
Qed.

(** ** The invariant *)

Definition names (tbl : bytes) : list bytes := (fun e => cstr (de_name e)) <$> entries tbl.

(** [dirs] are the blocks of the directories, the root among them. *)
Record fs_ok st (m : nat) bd (dirs : list Z) (bm : bytes) : Prop := {
  fo_mnt : mounted st m bd bm;
  fo_bm : block_ok bm;
  fo_saved : blk st bd 1 = Some bm;
  fo_disk : st_ok (disk st);
  fo_total : 3 <= total_of bd;
  fo_all : all_blocks st bd;
  fo_tbl : forall d, d ∈ dirs -> blk st bd d = Some (tbl_at st bd d) /\ block_ok (tbl_at st bd d);
  fo_names : forall d, d ∈ dirs -> NoDup (names (tbl_at st bd d));
  fo_tree : dirs ≡ₚ 2 :: coll entry_dirs st bd dirs;
  fo_nodup : NoDup (owned st bd dirs);
  fo_owned : forall j, j ∈ owned st bd dirs -> 0 <= j < total_of bd /\ marked bm j = true
}.

Lemma owned_dirs st m bd dirs bm d : fs_ok st m bd dirs bm -> d ∈ dirs ->
  d ∈ owned st bd dirs /\ d <> 0 /\ d <> 1.
Proof.
  intros Hok Hd. pose proof (fo_nodup _ _ _ _ _ Hok) as Hn. unfold owned in *. split; [set_solver|].
  apply NoDup_app in Hn as (_ & Hn & _). split; intros ->; [apply (Hn 0)|apply (Hn 1)]; set_solver.
Qed.

Lemma nodup_dirs st m bd dirs bm : fs_ok st m bd dirs bm -> NoDup dirs.
Proof. intros Hok. pose proof (fo_nodup _ _ _ _ _ Hok) as Hn. by apply NoDup_app in Hn as (_ & _ & (Hn & _)%NoDup_app). Qed.

(** The collections look at the directories' blocks only. *)
Lemma coll_same F st st' bd dirs : (forall d, d ∈ dirs -> blk st' bd d = blk st bd d) ->
  coll F st' bd dirs = coll F st bd dirs.
Proof.
  intros Hs. unfold coll. f_equal. apply list_fmap_ext. intros i d Hd%list_elem_of_lookup_2. unfold tbl_at. by rewrite Hs.
Qed.

(** Only marks are added, and no directory changes. *)
Lemma fs_ok_marks st st' m bd dirs bm bm' : fs_ok st m bd dirs bm -> mounted st' m bd bm' -> block_ok bm' ->
  blk st' bd 1 = Some bm' -> st_ok (disk st') -> (forall n, is_Some (blk st bd n) -> is_Some (blk st' bd n)) ->
  (forall d, d ∈ dirs -> blk st' bd d = blk st bd d) ->
  (forall j, j ∈ owned st bd dirs -> marked bm j = true -> marked bm' j = true) -> fs_ok st' m bd dirs bm'.
Proof.
  intros [] Hm Hbm H1 Hd Hall Hsame Hmk.
  assert (Ht : forall d, d ∈ dirs -> tbl_at st' bd d = tbl_at st bd d) by (intros d Hin; unfold tbl_at; by rewrite Hsame).
  split; try done.
  - intros n Hn. by apply Hall, fo_all0.
  - intros d Hin. rewrite Ht, Hsame by done. by apply fo_tbl0.
  - intros d Hin. rewrite Ht by done. by apply fo_names0.
  - rewrite (coll_same _ st st') by done. done.
  - unfold owned. rewrite (coll_same _ st st') by done. done.
  - intros j Hj. unfold owned in Hj. rewrite (coll_same _ st st') in Hj by done. destruct (fo_owned0 j Hj). split; [done|by apply Hmk].
Qed.

(** Changing one entry of the directory at [d]. *)
Lemma entries_set tbl i e : block_ok tbl -> 0 <= i < KFS_DIRENTS -> entry_ok e ->
  entries (set_dirent tbl i e) ++ (if decide (in_use (dirent tbl i)) then [dirent tbl i] else [])
  ≡ₚ (if decide (in_use e) then [e] else []) ++ entries tbl.
Proof.
  intros [Hb _] Hi He. unfold entries. rewrite dirents_set by done. apply filter_insert. by apply dirents_lookup.
Qed.

Lemma concat_fmap_perm (F : kfs_dirent -> list Z) l l' : l ≡ₚ l' -> concat (F <$> l) ≡ₚ concat (F <$> l').
Proof. intros Hp. apply concat_perm. by rewrite Hp. Qed.

(** What an entry contributes. *)
Definition part (F : kfs_dirent -> list Z) (e : kfs_dirent) : list Z := if decide (in_use e) then F e else [].

Lemma part_eq F x : concat (F <$> (if decide (in_use x) then [x] else [])) = part F x.
Proof. unfold part. case_decide; [apply app_nil_r|done]. Qed.

Lemma coll_set F st st' bd dirs d i e : d ∈ dirs -> NoDup dirs -> block_ok (tbl_at st bd d) ->
  0 <= i < KFS_DIRENTS -> entry_ok e -> tbl_at st' bd d = set_dirent (tbl_at st bd d) i e ->
  (forall d', d' ∈ dirs -> d' <> d -> tbl_at st' bd d' = tbl_at st bd d') ->
  coll F st' bd dirs ++ part F (dirent (tbl_at st bd d) i) ≡ₚ part F e ++ coll F st bd dirs.
Proof.
  intros Hd Hn Hb Hi He Ht Hother. destruct (coll_change F st st' bd dirs d Hd Hn Hother) as (rest & -> & ->).
  pose proof (concat_fmap_perm F _ _ (entries_set (tbl_at st bd d) i e Hb Hi He)) as Hp.
  rewrite !fmap_app, !concat_app, <- Ht, !part_eq in Hp.
  transitivity ((concat (F <$> entries (tbl_at st' bd d)) ++ part F (dirent (tbl_at st bd d) i)) ++ rest); [solve_Permutation|].
  rewrite Hp. solve_Permutation.
Qed.

(** The disk [s] is the one of [st] with the block at [d] replaced. *)
Definition put_block st bd (s : S) (d : Z) (b : bytes) : Prop := st_ok s
  /\ forall dev k, st_block s dev k = if decide (dev = bd_dev bd /\ k = d) then Some b else st_block (disk st) dev k.

Lemma put_block_blk st bd s d b k : put_block st bd s d b ->
  blk (st <| disk := s |>) bd k = if decide (k = d) then Some b else blk st bd k.
Proof. intros [_ H]. unfold blk. cbn. rewrite H. repeat case_decide; naive_solver. Qed.

Lemma coll_app F st bd l1 l2 : coll F st bd (l1 ++ l2) = coll F st bd l1 ++ coll F st bd l2.
Proof. unfold coll. by rewrite fmap_app, concat_app. Qed.

(** Directories without entries contribute nothing. *)
Lemma coll_empty F st bd l : (forall d, d ∈ l -> entries (tbl_at st bd d) = []) -> coll F st bd l = [].
Proof.
  induction l as [|d l IH]; intros Hl; [done|]. change (d :: l) with ([d] ++ l). rewrite coll_app, IH by set_solver.
  change (coll F st bd [d]) with (concat (F <$> entries (tbl_at st bd d)) ++ []). by rewrite Hl by set_solver.
Qed.

Lemma zero_entries : entries (replicate 512 0) = [].
Proof. reflexivity. Qed.

Lemma zero_block_ok : block_ok (replicate 512 0).
Proof. split; [done|]. apply Forall_replicate. unfold is_u8. lia. Qed.

Lemma names_add tbl i e : block_ok tbl -> 0 <= i < KFS_DIRENTS -> entry_ok e -> ~ in_use (dirent tbl i) ->
  NoDup (names tbl) -> (in_use e -> cstr (de_name e) ∉ names tbl) -> NoDup (names (set_dirent tbl i e)).
Proof.
  intros Hb Hi He Hu Hn Ha. pose proof (entries_set tbl i e Hb Hi He) as Hp. rewrite (decide_False (P := in_use (dirent tbl i))), app_nil_r in Hp by done.
  unfold names in *. rewrite Hp, fmap_app. case_decide; [|done].
  apply (NoDup_cons (cstr (de_name e))). split; [by apply Ha|done].
Qed.

Lemma names_remove tbl i e : block_ok tbl -> 0 <= i < KFS_DIRENTS -> entry_ok e -> ~ in_use e ->
  NoDup (names tbl) -> NoDup (names (set_dirent tbl i e)).
Proof.
  intros Hb Hi He Hu Hn. pose proof (entries_set tbl i e Hb Hi He) as Hp. rewrite (decide_False (P := in_use e)) in Hp by done.
  unfold names in *. rewrite app_nil_l in Hp. rewrite <- Hp, fmap_app in Hn. by apply NoDup_app in Hn as [? _].
Qed.

(** A new entry, its blocks fresh and marked; a new directory's table empty. *)
Lemma fs_add st m bd dirs bm d i e s : fs_ok st m bd dirs bm -> d ∈ dirs -> 0 <= i < KFS_DIRENTS -> entry_ok e ->
  ~ in_use (dirent (tbl_at st bd d) i) -> (in_use e -> cstr (de_name e) ∉ names (tbl_at st bd d)) ->
  put_block st bd s d (set_dirent (tbl_at st bd d) i e) ->
  NoDup (part entry_dirs e ++ part entry_files e) ->
  (forall j, j ∈ part entry_dirs e ++ part entry_files e -> j ∉ owned st bd dirs /\ 0 <= j < total_of bd /\ marked bm j = true) ->
  (forall j, j ∈ part entry_dirs e -> blk st bd j = Some (replicate 512 0)) ->
  fs_ok (st <| disk := s |>) m bd (part entry_dirs e ++ dirs) bm.
Proof.
  intros Hok Hd Hi He Hu Hname Hput Hnd Hfresh Hzero. set (st' := st <| disk := s |>).
  destruct (owned_dirs _ _ _ _ _ _ Hok Hd) as (Hdo & Hd0 & Hd1). pose proof (nodup_dirs _ _ _ _ _ Hok) as Hnodup.
  assert (Hblk : forall k, blk st' bd k = if decide (k = d) then Some (set_dirent (tbl_at st bd d) i e) else blk st bd k)
    by (intros k; by apply put_block_blk).
  destruct (fo_tbl _ _ _ _ _ Hok d Hd) as [Hbd Hbok].
  assert (Ht : tbl_at st' bd d = set_dirent (tbl_at st bd d) i e) by (unfold tbl_at at 1; by rewrite Hblk, decide_True).
  assert (Ho : forall d', d' <> d -> tbl_at st' bd d' = tbl_at st bd d') by (intros d' Hne; unfold tbl_at; by rewrite Hblk, decide_False).
  set (new := part entry_dirs e) in *.
  assert (Hnew : forall j, j ∈ new -> j <> d /\ j ∉ dirs).
  { intros j Hj. destruct (Hfresh j) as [Hno _]; [apply elem_of_app; by left|].
    assert (j ∉ dirs) by (intros Hin; apply Hno; by eapply owned_dirs). split; [by intros ->|done]. }
  assert (Hnt : forall j, j ∈ new -> tbl_at st' bd j = replicate 512 0).
  { intros j Hj. rewrite Ho by by apply Hnew. unfold tbl_at. by rewrite Hzero. }
  assert (Hc : forall F, coll F st' bd (new ++ dirs) ≡ₚ part F e ++ coll F st bd dirs).
  { intros F. rewrite coll_app, (coll_empty F st' bd new) by (intros j Hj; rewrite Hnt by done; apply zero_entries). cbn [app].
    rewrite <- (coll_set F st st' bd dirs d i e) by (done || (intros; by apply Ho)).
    unfold part at 1. rewrite decide_False by done. by rewrite app_nil_r. }
  assert (Hown : owned st' bd (new ++ dirs) ≡ₚ (new ++ part entry_files e) ++ owned st bd dirs).
  { unfold owned. rewrite Hc. solve_Permutation. }
  destruct Hok. split; try done.
  - rewrite Hblk, decide_False by done. done.
  - apply Hput.
  - intros n Hn. rewrite Hblk. case_decide; [done|by apply fo_all0].
  - intros d' [Hin|Hin]%elem_of_app.
    + rewrite Hnt by done. destruct (Hnew d' Hin). rewrite Hblk, decide_False by done.
      rewrite Hzero by done. split; [done|apply zero_block_ok].
    + rewrite Hblk. case_decide as E.
      * subst d'. rewrite Ht. split; [done|]. by apply set_dirent_ok.
      * rewrite Ho by done. by apply fo_tbl0.
  - intros d' [Hin|Hin]%elem_of_app.
    + rewrite Hnt by done. unfold names. rewrite zero_entries. apply NoDup_nil_2.
    + destruct (decide (d' = d)) as [->|E]; [|rewrite Ho by done; by apply fo_names0].
      rewrite Ht. apply names_add; try done. by apply fo_names0.
  - rewrite Hc. fold new. rewrite fo_tree0 at 1. solve_Permutation.
  - rewrite Hown. apply NoDup_app. split_and!; [done| |done]. intros j Hj. by apply Hfresh.
  - intros j. rewrite Hown, elem_of_app. intros [Hj|Hj]; [|by apply fo_owned0]. by apply Hfresh.
Qed.

(** An entry is cleared; a directory it named is empty and leaves [dirs]. *)
Lemma fs_remove st m bd dirs dirs' bm d i s : fs_ok st m bd dirs bm -> d ∈ dirs' -> 0 <= i < KFS_DIRENTS ->
  let old := dirent (tbl_at st bd d) i in
  in_use old -> dirs ≡ₚ entry_dirs old ++ dirs' -> (forall j, j ∈ entry_dirs old -> entries (tbl_at st bd j) = []) ->
  put_block st bd s d (set_dirent (tbl_at st bd d) i no_dirent) ->
  fs_ok (st <| disk := s |>) m bd dirs' bm
  /\ owned st bd dirs ≡ₚ (entry_dirs old ++ entry_files old) ++ owned (st <| disk := s |>) bd dirs'.
Proof.
  intros Hok Hd' Hi old Hu Hdirs Hempty Hput. set (st' := st <| disk := s |>).
  assert (Hsub : forall x, x ∈ dirs' -> x ∈ dirs) by (intros x Hx; rewrite Hdirs, elem_of_app; by right).
  pose proof (Hsub d Hd') as Hd. destruct (owned_dirs _ _ _ _ _ _ Hok Hd) as (Hdo & Hd0 & Hd1).
  assert (Hnodup : NoDup dirs') by (pose proof (nodup_dirs _ _ _ _ _ Hok) as Hn; rewrite Hdirs in Hn; by apply NoDup_app in Hn as (_ & _ & ?)).
  assert (He : entry_ok no_dirent) by (split_and!; try done; apply Forall_replicate; unfold is_u8; lia).
  assert (Hnu : ~ in_use no_dirent) by (intros Hx; by destruct Hx).
  assert (Hblk : forall k, blk st' bd k = if decide (k = d) then Some (set_dirent (tbl_at st bd d) i no_dirent) else blk st bd k)
    by (intros k; by apply put_block_blk).
  destruct (fo_tbl _ _ _ _ _ Hok d Hd) as [Hbd Hbok].
  assert (Ht : tbl_at st' bd d = set_dirent (tbl_at st bd d) i no_dirent) by (unfold tbl_at at 1; by rewrite Hblk, decide_True).
  assert (Ho : forall d', d' <> d -> tbl_at st' bd d' = tbl_at st bd d') by (intros d' Hne; unfold tbl_at; by rewrite Hblk, decide_False).
  assert (Hc : forall F, coll F st bd dirs ≡ₚ F old ++ coll F st' bd dirs').
  { intros F. transitivity (coll F st bd (entry_dirs old ++ dirs')); [unfold coll; apply concat_perm; by rewrite Hdirs|].
    rewrite coll_app, (coll_empty F st bd (entry_dirs old)) by done. cbn [app].
    pose proof (coll_set F st st' bd dirs' d i no_dirent Hd' Hnodup Hbok Hi He Ht) as Hp.
    unfold part in Hp. fold old in Hp. rewrite (decide_True (P := in_use old)), (decide_False (P := in_use no_dirent)) in Hp by done.
    rewrite <- Hp by (intros; by apply Ho). apply Permutation_app_comm. }
  assert (Hown : owned st bd dirs ≡ₚ (entry_dirs old ++ entry_files old) ++ owned st' bd dirs').
  { unfold owned. rewrite Hc, Hdirs. solve_Permutation. }
  split; [|exact Hown]. destruct Hok. split; try done.
  - rewrite Hblk, decide_False by done. done.
  - apply Hput.
  - intros n Hn. rewrite Hblk. case_decide; [done|by apply fo_all0].
  - intros x Hx. rewrite Hblk. case_decide as E.
    + subst x. rewrite Ht. split; [done|]. by apply set_dirent_ok.
    + rewrite Ho by done. by apply fo_tbl0, Hsub.
  - intros x Hx. destruct (decide (x = d)) as [->|E]; [|rewrite Ho by done; by apply fo_names0, Hsub].
    rewrite Ht. apply names_remove; try done. by apply fo_names0.
  - apply (Permutation_app_inv_l (entry_dirs old)). rewrite <- Hdirs, fo_tree0 at 1. rewrite Hc. solve_Permutation.
  - rewrite Hown in fo_nodup0. by apply NoDup_app in fo_nodup0 as (_ & _ & ?).
  - intros j Hj. apply fo_owned0. rewrite Hown, elem_of_app. by right.
Qed.

(** Releasing blocks that are not in use any more. *)
Lemma fs_free st m bd dirs bm start count : fs_ok st m bd dirs bm -> 0 <= start -> 0 <= count -> start + count <= MAP_BITS ->
  (forall j, start <= j < start + count -> j ∉ owned st bd dirs) ->
  exists bm', fs_ok (kfs_free_blocks st bd start count) m bd dirs bm'
    /\ forall d, d ∈ dirs -> blk (kfs_free_blocks st bd start count) bd d = blk st bd d.
Proof.
  intros Hok Hs Hc Hmax Hno. pose proof Hok as [].
  destruct (kfs_free_blocks_ok st m bd bm bm start count fo_mnt0 fo_disk0 fo_bm0 fo_saved0 Hs) as (s & -> & Hd & Hk).
  set (bm' := set_run (Z.to_nat count) bm start 0) in *. exists bm'.
  assert (Hblk : forall k, blk ((set_bitmap st m bm') <| disk := s |>) bd k = if decide (k = 1) then Some bm' else blk st bd k).
  { intros k. unfold blk. cbn. rewrite Hk. repeat case_decide; naive_solver. }
  assert (Hdir : forall d, d ∈ dirs -> blk ((set_bitmap st m bm') <| disk := s |>) bd d = blk st bd d).
  { intros d Hin. rewrite Hblk. case_decide as E; [|done]. subst d. by destruct (owned_dirs _ _ _ _ _ _ Hok Hin) as (_ & _ & ?). }
  split; [|done]. eapply fs_ok_marks; try done.
  - by eapply mounted_disk, mounted_set.
  - by apply set_run_ok.
  - intros n Hn. rewrite Hblk. by case_decide.
  - intros j Hj Hmk. destruct (fo_owned0 j Hj) as [Hr _]. pose proof (total_max bd).
    unfold bm'. rewrite set_run_marked; [|apply fo_bm0|lia|lia|lia]. rewrite decide_False; [done|].
    rewrite Z2Nat.id by done. intros Hin. by apply (Hno j).
Qed.

(** The first run of [count] free blocks behind the root directory. *)
Definition first_run (bm : bytes) (count total start : Z) : Prop :=
  3 <= start /\ fits bm count total start /\ forall s, 3 <= s < start -> ~ fits bm count total s.

(** Allocating: the first free run is taken, zeroed, marked and not in use. *)
Lemma fs_alloc st m bd dirs bm count : fs_ok st m bd dirs bm -> 0 < count <= MAP_BITS ->
  (kfs_alloc_block_zero st bd count = (0, st) /\ forall s, 3 <= s -> ~ fits bm count (total_of bd) s)
  \/ exists start st' bm', kfs_alloc_block_zero st bd count = (start, st') /\ fs_ok st' m bd dirs bm' /\ first_run bm count (total_of bd) start
       /\ (kmem st' = kmem st /\ next_ptr st' = next_ptr st)
       /\ (forall j, start <= j < start + count -> marked bm' j = true /\ j ∉ owned st' bd dirs /\ blk st' bd j = Some (replicate 512 0))
       /\ (forall d, d ∈ dirs -> blk st' bd d = blk st bd d).
Proof.
  intros Hok Hc. pose proof Hok as [].
  destruct (kfs_alloc_ok st m bd bm count fo_mnt0 fo_disk0 fo_bm0 fo_all0 fo_total0 Hc) as [[E ?]|(start & s & E & Hs & [Hfit Hfree] & Hfirst & Hd & Hk)];
    [by left|right]. cbv zeta in E. set (bm' := set_run (Z.to_nat count) bm start 1) in *.
  set (st' := (set_bitmap st m bm') <| disk := s |>) in *.
  assert (Hblk : forall k, blk st' bd k = if decide (k = 1) then Some bm'
    else if decide (start <= k < start + count) then Some (replicate 512 0) else blk st bd k).
  { intros k. unfold blk. cbn. rewrite Hk. destruct (decide (k = 1)) as [->|]; [by rewrite decide_True|].
    rewrite decide_False by (by intros [_ ?]). case_decide as Hin; [by rewrite decide_True by apply Hin|].
    rewrite decide_False; [done|]. intros Hr. by apply Hin. }
  pose proof (total_max bd).
  assert (Hno : forall j, start <= j < start + count -> j ∉ owned st bd dirs).
  { intros j Hj Hin. destruct (fo_owned0 j Hin) as [_ Hm]. rewrite Hfree in Hm by done. done. }
  assert (Hdirs : forall d, d ∈ dirs -> blk st' bd d = blk st bd d).
  { intros d Hin. destruct (owned_dirs _ _ _ _ _ _ Hok Hin) as (Hio & _ & ?). rewrite Hblk, !decide_False; [done| |done].
    intros Hr. by apply (Hno d). }
  assert (Hmk : forall j, 0 <= j -> marked bm' j = if decide (start <= j < start + count) then true else marked bm j).
  { intros j Hj. unfold bm'. rewrite set_run_marked; [|apply fo_bm0|lia|lia|lia]. by rewrite Z2Nat.id by lia. }
  exists start, st', bm'. split; [exact E|]. split; [|split_and!; try done].
  - eapply fs_ok_marks; try done.
    + by eapply mounted_disk, mounted_set.
    + apply set_run_ok; [done|lia].
    + intros n Hn. rewrite Hblk. by repeat case_decide.
    + intros j Hj Hm. destruct (fo_owned0 j Hj). rewrite Hmk by lia. by case_decide.
  - intros j Hj. rewrite Hmk, decide_True by lia. split_and!; [done| |].
    + unfold owned. rewrite (coll_same _ st st') by done. by apply Hno.
    + rewrite Hblk, decide_False, decide_True by lia. done.
Qed.

(** ** The operations keep it *)

Lemma fs_ok_frame st st' m bd dirs bm : kfs_mnts st' = kfs_mnts st -> disk st' = disk st ->
  fs_ok st m bd dirs bm -> fs_ok st' m bd dirs bm.
Proof.
  intros E1 E2 Hok. assert (Hb : forall k, blk st' bd k = blk st bd k) by (intros k; unfold blk; by rewrite E2).
  pose proof Hok as []. eapply fs_ok_marks; try done; [|by rewrite Hb|by rewrite E2|by intros n; rewrite Hb].
  destruct fo_mnt0 as [M1 M2]. split; [|by rewrite E1]. unfold kfs_mnt_for in *. by rewrite E1.
Qed.

Lemma fs_ok_read st m bd dirs bm s : fs_ok st m bd dirs bm -> st_ok s ->
  (forall dev k, st_block s dev k = st_block (disk st) dev k) -> fs_ok (st <| disk := s |>) m bd dirs bm.
Proof.
  intros Hok Hs Hk. assert (Hb : forall k, blk (st <| disk := s |>) bd k = blk st bd k) by (intros k; apply Hk).
  pose proof Hok as []. eapply fs_ok_marks; try done; [by rewrite Hb|by intros n; rewrite Hb].
Qed.

Lemma kmalloc_frame st : kfs_mnts (snd (kmalloc st)) = kfs_mnts st /\ disk (snd (kmalloc st)) = disk st.
Proof. unfold kmalloc. destruct (scripted_next (kmem st)) as [ok ?]. by destruct ok. Qed.

Lemma dup_name_frame st name : kfs_mnts (snd (kfs_dup_name st name)) = kfs_mnts st /\ disk (snd (kfs_dup_name st name)) = disk st.
Proof.
  unfold kfs_dup_name. destruct (kmalloc st) as [p st'] eqn:E. pose proof (kmalloc_frame st) as H. rewrite E in H. by case_if.
Qed.

(** The next [k] allocations succeed. *)
Definition memory st (k : nat) : bool := forallb id (take k (kmem st)).

Lemma memory_next st st' k : kmem st' = snd (scripted_next (kmem st)) ->
  memory st (Datatypes.S k) = fst (scripted_next (kmem st)) && memory st' k.
Proof. unfold memory. intros ->. destruct (kmem st) as [|b l]; cbn; [by rewrite take_nil|by destruct b]. Qed.

Lemma alloc_next st p st' : kmalloc st = (p, st') -> 0 < next_ptr st ->
  (p =? 0) = negb (fst (scripted_next (kmem st))) /\ kmem st' = snd (scripted_next (kmem st)) /\ 0 < next_ptr st'.
Proof.
  unfold kmalloc. destruct (scripted_next (kmem st)) as [[] mem]; intros [= <- <-] Hp; cbn; split_and!; try done; try lia.
Qed.

Lemma dup_name_spec st name nm st' : kfs_dup_name st name = (nm, st') -> 0 < next_ptr st ->
  (if nm then true else false) = fst (scripted_next (kmem st)) /\ kmem st' = snd (scripted_next (kmem st)) /\ 0 < next_ptr st'.
Proof.
  unfold kfs_dup_name. destruct (kmalloc st) as [p st1] eqn:E. intros H Hp. destruct (alloc_next _ _ _ E Hp) as (E1 & E2 & E3).
  rewrite E1 in H. destruct (fst _); cbn in H; simplify_eq; done.
Qed.

(** Block numbers keep clear of the directory bit. *)
Lemma de_start_file nm start size : 0 <= start < MAP_BITS ->
  let e := mk_dirent nm start size in kfs_de_isdir e = false /\ kfs_de_start e = start /\ is_u32 start.
Proof.
  unfold MAP_BITS, kfs_de_isdir, kfs_de_start. cbn. intros Hs. split_and!.
  - unfold KFS_DE_DIR_BIT. change 2147483648 with (2 ^ 31). rewrite has_bit by lia.
    apply Z.testbit_false; [lia|]. by rewrite Z.div_small by lia.
  - change (u32 (Z.lnot KFS_DE_DIR_BIT)) with (Z.ones 31). rewrite Z.land_ones by lia. apply Z.mod_small. lia.
  - unfold is_u32. lia.
Qed.

Lemma de_start_dir nm start size : 0 <= start < MAP_BITS ->
  let e := mk_dirent nm (Z.lor start KFS_DE_DIR_BIT) size in
  kfs_de_isdir e = true /\ kfs_de_start e = start /\ is_u32 (Z.lor start KFS_DE_DIR_BIT).
Proof.
  unfold MAP_BITS, kfs_de_isdir, kfs_de_start. cbn. intros Hs.
  assert (Z.lor start KFS_DE_DIR_BIT = 2 ^ 31 + start) as ->.
  { change KFS_DE_DIR_BIT with (Z.shiftl 1 31). rewrite Z.lor_comm, lor_shiftl_add by lia. lia. }
  split_and!.
  - unfold KFS_DE_DIR_BIT. change 2147483648 with (2 ^ 31). rewrite has_bit by lia.
    apply Z.testbit_true; [lia|]. Z.div_mod_to_equations. lia.
  - change (u32 (Z.lnot KFS_DE_DIR_BIT)) with (Z.ones 31). rewrite Z.land_ones by lia. Z.div_mod_to_equations. lia.
  - unfold is_u32. lia.
Qed.

(** A name that is in use is that of an entry. *)
Lemma names_elem tbl name : block_ok tbl -> name ∈ names tbl ->
  exists i, 0 <= i < KFS_DIRENTS /\ in_use (dirent tbl i) /\ cstr (de_name (dirent tbl i)) = name.
Proof.
  intros Hb (e & -> & [Hu (k & -> & Hk%elem_of_seq)%list_elem_of_fmap]%list_elem_of_filter)%list_elem_of_fmap.
  exists (Z.of_nat k). split_and!; try done; unfold KFS_DIRENTS; lia.
Qed.

(** Adding an entry under a name that [kfs_dir_find_slot] accepted. *)
Lemma slot_fresh tbl name : block_ok tbl -> no_nul name -> is_bytes name -> 0 <= kfs_dir_find_slot tbl name ->
  let slot := kfs_dir_find_slot tbl name in
  0 <= slot < KFS_DIRENTS /\ ~ in_use (dirent tbl slot) /\ zlen name < 11 /\ name ∉ names tbl.
Proof.
  intros Hb Hn Hby Hs. destruct (kfs_dir_find_slot_spec tbl name Hb Hn) as [[E _]|(Hl & Ha & (H1 & H2 & _))]; [lia|].
  split_and!; try done; try lia. intros (i & Hi & Hu & En)%names_elem; [|done]. by apply (Ha i Hi Hu).
Qed.

Lemma tbl_at_same st st' bd d : blk st' bd d = blk st bd d -> tbl_at st' bd d = tbl_at st bd d.
Proof. unfold tbl_at. by intros ->. Qed.

(** The common part of [kfs_dir_creat] and [kfs_dir_mkdir]: with the blocks of the
    new entry allocated, the entry is written into the directory. *)
Lemma make_entry st m bd dirs bm d name start count sb : fs_ok st m bd dirs bm -> d ∈ dirs -> no_nul name -> is_bytes name ->
  0 <= kfs_dir_find_slot (tbl_at st bd d) name ->
  let e := mk_dirent (name_field name) sb 0 in let slot := kfs_dir_find_slot (tbl_at st bd d) name in
  3 <= start -> start + count <= total_of bd -> is_u32 sb ->
  (entry_dirs e = [] /\ entry_files e = seqZ start count \/ entry_dirs e = [start] /\ entry_files e = [] /\ count = 1) ->
  (forall j, start <= j < start + count -> marked bm j = true /\ j ∉ owned st bd dirs /\ blk st bd j = Some (replicate 512 0)) ->
  exists s, bd_write_block st bd d (set_dirent (tbl_at st bd d) slot e) = (0, st <| disk := s |>)
    /\ fs_ok (st <| disk := s |>) m bd (part entry_dirs e ++ dirs) bm
    /\ put_block st bd s d (set_dirent (tbl_at st bd d) slot e)
    /\ (name <> [] -> names (set_dirent (tbl_at st bd d) slot e) ≡ₚ name :: names (tbl_at st bd d)).
Proof.
  intros Hok Hd Hn Hby Hslot e slot Hs Hmax Hu32 Hshape Hrun. destruct (fo_tbl _ _ _ _ _ Hok d Hd) as [Hbd Hbok].
  destruct (slot_fresh _ _ Hbok Hn Hby Hslot) as (Hi & Hfree & Hlen & Hname). fold slot in Hi, Hfree.
  destruct (name_field_ok name Hn Hby Hlen) as (N1 & N2 & N3).
  assert (He : entry_ok e) by (split_and!; try done; unfold is_u32; cbn; lia).
  assert (Hb' : block_ok (set_dirent (tbl_at st bd d) slot e)) by by apply set_dirent_ok.
  destruct (write_ok st bd d _ (set_dirent (tbl_at st bd d) slot e) (fo_disk _ _ _ _ _ Hok) Hbd) as (s & Ew & Hso & Hk); [apply Hb'|].
  exists s. split; [exact Ew|]. assert (Hput : put_block st bd s d (set_dirent (tbl_at st bd d) slot e)) by done.
  assert (Hsub : forall j, j ∈ part entry_dirs e ++ part entry_files e -> start <= j < start + count).
  { unfold part. case_decide; [|by intros j ?%elem_of_nil].
    destruct Hshape as [[-> ->]|(-> & -> & ->)]; cbn [app]; intros j; [by rewrite elem_of_seqZ|].
    intros ->%list_elem_of_singleton. lia. }
  split_and!.
  - apply (fs_add st m bd dirs bm d slot e s); try done.
    + intros _. change (cstr (name_field name) ∉ names (tbl_at st bd d)). by rewrite N3.
    + unfold part. case_decide; [|apply NoDup_nil_2].
      destruct Hshape as [[-> ->]|(-> & -> & ->)]; [apply NoDup_seqZ|apply NoDup_singleton].
    + intros j Hj%Hsub. destruct (Hrun j Hj) as (? & ? & _). split_and!; try done; lia.
    + intros j Hj. apply Hrun, Hsub, elem_of_app. by left.
  - exact Hput.
  - intros Hne. pose proof (entries_set (tbl_at st bd d) slot e Hbok Hi He) as Hp.
    rewrite (decide_False (P := in_use (dirent (tbl_at st bd d) slot))), app_nil_r in Hp by done.
    rewrite decide_True in Hp.
    + unfold names. rewrite Hp, fmap_app. change ((fun e0 => cstr (de_name e0)) <$> [e]) with ([cstr (name_field name)] : list bytes).
      by rewrite N3.
    + unfold in_use. cbn. rewrite <- N3 in Hne. destruct (name_field name) as [|c nf]; [done|].
      cbn in Hne. change (c <> 0). intros ->. done.
Qed.

(** What an operation does to the tables: that of directory [d] becomes [t], the
    others of [dirs] stay. *)
Definition retabled st st' bd (dirs : list Z) (d : Z) (t : bytes) : Prop :=
  forall x, x ∈ dirs -> tbl_at st' bd x = if decide (x = d) then t else tbl_at st bd x.

Lemma retabled_same st st' bd dirs d : (forall x, x ∈ dirs -> blk st' bd x = blk st bd x) ->
  retabled st st' bd dirs d (tbl_at st bd d).
Proof. intros H x Hx. rewrite (tbl_at_same st st') by by apply H. case_decide; by subst. Qed.

Lemma retabled_put st0 st st' s bd dirs d t : (forall x, x ∈ dirs -> blk st bd x = blk st0 bd x) -> put_block st bd s d t ->
  (forall x, x ∈ dirs -> blk st' bd x = blk (st <| disk := s |>) bd x) -> retabled st0 st' bd dirs d t.
Proof.
  intros H1 Hput H2 x Hx. unfold tbl_at. rewrite H2, (put_block_blk _ _ _ _ _ _ Hput) by done. rewrite <- H1 by done. by case_decide.
Qed.

(** What making an entry under [name] in directory [d] does.  Without a slot or a free
    run of [count] blocks, nothing; with both, the entry is written, [mark] of the
    start of the first run its start.  The result is [0] just if the entry is
    written and the [k] allocations that follow succeed. *)
Definition made st st' bd bm dirs d name (count : Z) (mark : Z -> Z) (k : nat) (r : Z) : Prop :=
  let tbl := tbl_at st bd d in let slot := kfs_dir_find_slot tbl name in
  r = -1 /\ retabled st st' bd dirs d tbl /\ (slot < 0 \/ forall s, 3 <= s -> ~ fits bm count (total_of bd) s)
  \/ (0 < next_ptr st -> r = if memory st k then 0 else -1) /\ 0 <= slot /\ exists start, first_run bm count (total_of bd) start
     /\ retabled st st' bd dirs d (set_dirent tbl slot (mk_dirent (name_field name) (mark start) 0)).

(** The end of both operations: the entry written, only memory is left to allocate. *)
Lemma made_end st st2 st' s bd dirs m bm bm' new d name count mark k start r : put_block st2 bd s d
    (set_dirent (tbl_at st bd d) (kfs_dir_find_slot (tbl_at st bd d) name) (mk_dirent (name_field name) (mark start) 0)) ->
  (forall x, x ∈ dirs -> blk st2 bd x = blk st bd x) -> fs_ok (st2 <| disk := s |>) m bd new bm' ->
  0 <= kfs_dir_find_slot (tbl_at st bd d) name -> first_run bm count (total_of bd) start ->
  (0 < next_ptr st -> r = if memory st k then 0 else -1) ->
  kfs_mnts st' = kfs_mnts st2 -> disk st' = s -> fs_ok st' m bd new bm' /\ made st st' bd bm dirs d name count mark k r.
Proof.
  intros Hput Hsame Hok Hslot Hstart Hr M1 M2. split; [by eapply fs_ok_frame; [| |exact Hok]|]. right. split_and!; [done|done|]. exists start. split; [done|].
  eapply retabled_put; [exact Hsame|exact Hput|]. intros x Hx. unfold blk. by rewrite M2.
Qed.

(** Creating a file in a directory. *)
Lemma creat_ok st m bd dirs bm d name : fs_ok st m bd dirs bm -> d_bd d = bd -> d_dir_block d ∈ dirs ->
  no_nul name -> is_bytes name -> exists r st' bm', kfs_dir_creat st (Some d) name = (r, st') /\ fs_ok st' m bd dirs bm'
    /\ made st st' bd bm dirs (d_dir_block d) name KFS_BLOCKS_PER_FILE (fun b => b) 2 r.
Proof.
  intros Hok Hbd Hd Hn Hby. unfold kfs_dir_creat. rewrite Hbd. destruct (fo_tbl _ _ _ _ _ Hok _ Hd) as [Hb Hbok].
  destruct (read_ok st bd (d_dir_block d) _ (fo_disk _ _ _ _ _ Hok) Hb) as (s & -> & Hs & Hk).
  pose proof (fs_ok_read _ _ _ _ _ s Hok Hs Hk) as Hok1. set (st1 := st <| disk := s |>) in *.
  assert (Hb1 : forall x, blk st1 bd x = blk st bd x) by (intros x; apply Hk).
  assert (Ht1 : tbl_at st1 bd (d_dir_block d) = tbl_at st bd (d_dir_block d)) by (apply tbl_at_same; apply Hk).
  case_if; [eexists _, _, bm; split; [done|split; [done|left]]; bool_prop; split; [done|split; [by apply retabled_same|by left]]|]. bool_prop. rewrite <- Ht1 in *.
  destruct (fs_alloc st1 m bd dirs bm KFS_BLOCKS_PER_FILE Hok1) as [[-> Hno]|(start & st2 & bm2 & -> & Hok2 & Hstart & [Hmem Hptr] & Hrun & Hsame)];
    [by unfold KFS_BLOCKS_PER_FILE, MAP_BITS|eexists _, _, bm; split; [done|split; [done|left]]; split; [done|split; [by apply retabled_same|by right]]|].
  pose proof Hstart as (H3 & [Hmax _] & _).
  rewrite (proj2 (Z.eqb_neq start 0)) by lia. pose proof (total_max bd). unfold KFS_BLOCKS_PER_FILE in *.
  assert (Ht2 : tbl_at st2 bd (d_dir_block d) = tbl_at st1 bd (d_dir_block d)) by by apply tbl_at_same, Hsame.
  rewrite <- Ht2 in *. destruct (de_start_file (name_field name) start 0) as (D1 & D2 & D3); [lia|].
  destruct (make_entry st2 m bd dirs bm2 (d_dir_block d) name start 64 start Hok2 Hd Hn Hby) as (s3 & -> & Hok3 & Hput & _); try done.
  { left. unfold entry_dirs, entry_files. by rewrite D1, D2. }
  cbn [Z.ltb Z.compare]. assert (part entry_dirs (mk_dirent (name_field name) start 0) = []) as E3.
  { unfold part, entry_dirs. rewrite D1. by case_decide. }
  rewrite E3 in Hok3. set (st3 := st2 <| disk := s3 |>) in *.
  destruct (kmalloc st3) as [kf st4] eqn:E4. pose proof (kmalloc_frame st3) as [F1 F2]. rewrite E4 in F1, F2. cbn in F1, F2.
  destruct (kfs_dup_name st4 name) as [nm st5] eqn:E5. pose proof (dup_name_frame st4 name) as [G1 G2]. rewrite E5 in G1, G2. cbn in G1, G2.
  assert (Hend : forall r st', (0 < next_ptr st -> r = if memory st 2 then 0 else -1) -> kfs_mnts st' = kfs_mnts st2 -> disk st' = s3 ->
    exists r0 st0 bm', (r, st') = (r0, st0) /\ fs_ok st0 m bd dirs bm' /\ made st st0 bd bm dirs (d_dir_block d) name 64 (fun b => b) 2 r0).
  { intros r st' Hr M1 M2. exists r, st', bm2. split; [done|]. rewrite Ht2, Ht1 in *.
    eapply (made_end st st2 st' s3 bd dirs m bm bm2 dirs (d_dir_block d) name 64 (fun b => b) 2 start r); try done.
    intros x Hx. by rewrite Hsame. }
  assert (Hm : 0 < next_ptr st -> memory st 2 = negb (kf =? 0) && if nm then true else false).
  { intros Hp. change (0 < next_ptr st1) in Hp. rewrite <- Hptr in Hp. destruct (alloc_next _ _ _ E4 Hp) as (-> & K1 & K2). destruct (dup_name_spec _ _ _ _ E5 K2) as (-> & K3 & _).
    change (memory st 2) with (forallb id (take 2 (kmem st1))). rewrite <- Hmem. change (kmem st2) with (kmem st3).
    fold (memory st3 2). rewrite (memory_next st3 st4), (memory_next st4 st5) by done. unfold memory. rewrite take_0, andb_true_r, negb_involutive. done. }
  destruct nm; [destruct (kf =? 0) eqn:Ekf|]; apply Hend; try (intros Hp; rewrite Hm by done; rewrite ?Ekf, ?andb_false_r; done); cbn; congruence.
Qed.

(** Making a directory in a directory. *)
Lemma mkdir_ok st m bd dirs bm d name : fs_ok st m bd dirs bm -> d_bd d = bd -> d_dir_block d ∈ dirs ->
  no_nul name -> is_bytes name -> exists r st' new bm', kfs_dir_mkdir st (Some d) name = (r, st') /\ fs_ok st' m bd (new ++ dirs) bm'
    /\ made st st' bd bm dirs (d_dir_block d) name 1 (fun b => Z.lor b KFS_DE_DIR_BIT) 3 r.
Proof.
  intros Hok Hbd Hd Hn Hby. unfold kfs_dir_mkdir. rewrite Hbd. destruct (fo_tbl _ _ _ _ _ Hok _ Hd) as [Hb Hbok].
  destruct (read_ok st bd (d_dir_block d) _ (fo_disk _ _ _ _ _ Hok) Hb) as (s & -> & Hs & Hk).
  pose proof (fs_ok_read _ _ _ _ _ s Hok Hs Hk) as Hok1. set (st1 := st <| disk := s |>) in *.
  assert (Hb1 : forall x, blk st1 bd x = blk st bd x) by (intros x; apply Hk).
  assert (Ht1 : tbl_at st1 bd (d_dir_block d) = tbl_at st bd (d_dir_block d)) by (apply tbl_at_same; apply Hk).
  case_if; [eexists _, _, [], bm; split; [done|split; [done|left]]; bool_prop; split; [done|split; [by apply retabled_same|by left]]|]. bool_prop. rewrite <- Ht1 in *.
  destruct (fs_alloc st1 m bd dirs bm 1 Hok1) as [[-> Hno]|(start & st2 & bm2 & -> & Hok2 & Hstart & [Hmem Hptr] & Hrun & Hsame)];
    [by unfold MAP_BITS|eexists _, _, [], bm; split; [done|split; [done|left]]; split; [done|split; [by apply retabled_same|by right]]|].
  pose proof Hstart as (H3 & [Hmax _] & _).
  rewrite (proj2 (Z.eqb_neq start 0)) by lia. pose proof (total_max bd).
  assert (Ht2 : tbl_at st2 bd (d_dir_block d) = tbl_at st1 bd (d_dir_block d)) by by apply tbl_at_same, Hsame.
  rewrite <- Ht2 in *. destruct (de_start_dir (name_field name) start 0) as (D1 & D2 & D3); [lia|].
  destruct (make_entry st2 m bd dirs bm2 (d_dir_block d) name start 1 (Z.lor start KFS_DE_DIR_BIT) Hok2 Hd Hn Hby) as (s3 & -> & Hok3 & Hput & _); try done.
  { right. unfold entry_dirs, entry_files. by rewrite D1, D2. }
  cbn [Z.ltb Z.compare]. set (new := part _ _) in Hok3. set (st3 := st2 <| disk := s3 |>) in *.
  destruct (kfs_dup_name st3 name) as [nm st5] eqn:E5. pose proof (dup_name_frame st3 name) as [G1 G2]. rewrite E5 in G1, G2. cbn in G1, G2.
  destruct (kmalloc st5) as [sub st6] eqn:E6. pose proof (kmalloc_frame st5) as [F1 F2]. rewrite E6 in F1, F2. cbn in F1, F2.
  assert (Hend : forall r st', (0 < next_ptr st -> r = if memory st 3 then 0 else -1) -> kfs_mnts st' = kfs_mnts st2 -> disk st' = s3 -> exists r0 st0 new0 bm',
    (r, st') = (r0, st0) /\ fs_ok st0 m bd (new0 ++ dirs) bm' /\ made st st0 bd bm dirs (d_dir_block d) name 1 (fun b => Z.lor b KFS_DE_DIR_BIT) 3 r0).
  { intros r st' Hr M1 M2. exists r, st', new, bm2. split; [done|]. rewrite Ht2, Ht1 in *.
    eapply (made_end st st2 st' s3 bd dirs m bm bm2 (new ++ dirs) (d_dir_block d) name 1 (fun b => Z.lor b KFS_DE_DIR_BIT) 3 start r); try done.
    intros x Hx. by rewrite Hsame. }
  destruct (kmalloc st6) as [sd st7] eqn:E7. pose proof (kmalloc_frame st6) as [K1 K2]. rewrite E7 in K1, K2. cbn in K1, K2.
  assert (Hm : 0 < next_ptr st -> memory st 3 = (if nm then true else false) && (negb (sub =? 0) && negb (sd =? 0))).
  { intros Hp. change (0 < next_ptr st1) in Hp. rewrite <- Hptr in Hp. destruct (dup_name_spec _ _ _ _ E5 Hp) as (-> & L1 & L2).
    destruct (alloc_next _ _ _ E6 L2) as (-> & L3 & L4). destruct (alloc_next _ _ _ E7 L4) as (-> & L5 & _).
    change (memory st 3) with (forallb id (take 3 (kmem st1))). rewrite <- Hmem. change (kmem st2) with (kmem st3).
    fold (memory st3 3). rewrite (memory_next st3 st5), (memory_next st5 st6), (memory_next st6 st7) by done.
    unfold memory. by rewrite take_0, andb_true_r, !negb_involutive. }
  destruct nm; [destruct (sub =? 0) eqn:Esub; [|destruct (sd =? 0) eqn:Esd]|]; apply Hend;
    try (intros Hp; rewrite Hm by done; rewrite ?Esub, ?Esd, ?andb_false_r; done); cbn; congruence.
Qed.

(** The blocks of an entry are in use. *)
Lemma coll_elem F st bd dirs d i j : d ∈ dirs -> 0 <= i < KFS_DIRENTS -> in_use (dirent (tbl_at st bd d) i) ->
  j ∈ F (dirent (tbl_at st bd d) i) -> j ∈ coll F st bd dirs.
Proof.
  intros Hd Hi Hu Hj. assert (He : dirent (tbl_at st bd d) i ∈ entries (tbl_at st bd d)).
  { apply list_elem_of_filter. split; [done|]. eapply list_elem_of_lookup_2. by apply dirents_lookup. }
  unfold coll. apply list_elem_of_In, in_concat. exists (concat (F <$> entries (tbl_at st bd d))).
  split; [apply list_elem_of_In, list_elem_of_fmap; by exists d|]. apply in_concat.
  exists (F (dirent (tbl_at st bd d) i)). split; [apply list_elem_of_In, list_elem_of_fmap; by eexists|by apply list_elem_of_In].
Qed.

Lemma entry_owned st m bd dirs bm d i : fs_ok st m bd dirs bm -> d ∈ dirs -> 0 <= i < KFS_DIRENTS ->
  in_use (dirent (tbl_at st bd d) i) ->
  (forall j, j ∈ entry_files (dirent (tbl_at st bd d) i) -> j ∈ owned st bd dirs)
  /\ (forall j, j ∈ entry_dirs (dirent (tbl_at st bd d) i) -> j ∈ dirs /\ j <> 2).
Proof.
  intros Hok Hd Hi Hu. split; intros j Hj; eapply (coll_elem _ _ _ dirs) in Hj; try done.
  - unfold owned. rewrite !elem_of_app. by right; right.
  - pose proof (fo_tree _ _ _ _ _ Hok) as Ht. split; [rewrite Ht, elem_of_cons; by right|].
    intros ->. pose proof (nodup_dirs _ _ _ _ _ Hok) as Hn. rewrite Ht in Hn. by apply NoDup_cons in Hn as [? _].
Qed.

Lemma no_dirent_ok : entry_ok no_dirent.
Proof. split_and!; try done. apply Forall_replicate. unfold is_u8. lia. Qed.

(** A block can be replaced; used to compare a directory with the same one less an entry. *)
Lemma put_block_ex st m bd dirs bm d b : fs_ok st m bd dirs bm -> d ∈ dirs -> zlen b = BLK_SIZE -> exists s, put_block st bd s d b.
Proof.
  intros Hok Hd Hb. destruct (write_ok st bd d _ b (fo_disk _ _ _ _ _ Hok) (proj1 (fo_tbl _ _ _ _ _ Hok d Hd)) Hb) as (s & _ & H1 & H2).
  by exists s.
Qed.

(** Different entries have different blocks. *)
Lemma coll_disjoint F st m bd dirs bm d i d' i' j : fs_ok st m bd dirs bm -> NoDup (coll F st bd dirs) ->
  d ∈ dirs -> d' ∈ dirs -> 0 <= i < KFS_DIRENTS -> 0 <= i' < KFS_DIRENTS ->
  in_use (dirent (tbl_at st bd d) i) -> in_use (dirent (tbl_at st bd d') i') -> (d, i) <> (d', i') ->
  j ∈ F (dirent (tbl_at st bd d) i) -> j ∉ F (dirent (tbl_at st bd d') i').
Proof.
  intros Hok Hnd Hd Hd' Hi Hi' Hu Hu' Hne Hj Hj'. destruct (fo_tbl _ _ _ _ _ Hok d Hd) as [Hbd Hbok].
  destruct (put_block_ex st m bd dirs bm d (set_dirent (tbl_at st bd d) i no_dirent) Hok Hd) as [s Hput];
    [apply set_dirent_ok; [done|done|apply no_dirent_ok]|].
  set (st' := st <| disk := s |>).
  assert (Ht : tbl_at st' bd d = set_dirent (tbl_at st bd d) i no_dirent)
    by (unfold tbl_at at 1, st'; by rewrite (put_block_blk _ _ _ _ _ _ Hput), decide_True).
  assert (Ho : forall x, x <> d -> tbl_at st' bd x = tbl_at st bd x)
    by (intros x Hx; unfold tbl_at, st'; by rewrite (put_block_blk _ _ _ _ _ _ Hput), decide_False).
  pose proof (coll_set F st st' bd dirs d i no_dirent Hd (nodup_dirs _ _ _ _ _ Hok) Hbok Hi no_dirent_ok Ht) as Hp.
  unfold part in Hp. rewrite (decide_True (P := in_use _)) in Hp by done.
  rewrite (decide_False (P := in_use no_dirent)) in Hp by (intros Hx; by destruct Hx). cbn [app] in Hp.
  rewrite <- Hp in Hnd by (intros; by apply Ho). apply NoDup_app in Hnd as (_ & Hdis & _). apply (Hdis j); [|done].
  assert (Heq : dirent (tbl_at st' bd d') i' = dirent (tbl_at st bd d') i').
  { destruct (decide (d' = d)) as [->|Hx]; [|by rewrite Ho]. rewrite Ht. apply set_dirent_ne; try done; [apply Hbok|lia| |apply no_dirent_ok].
    intros ->. by apply Hne. }
  eapply coll_elem; [exact Hd'|exact Hi'|by rewrite Heq|by rewrite Heq].
Qed.

(** Changing the size in an entry. *)
Lemma fs_resize st m bd dirs bm d i size s : fs_ok st m bd dirs bm -> d ∈ dirs -> 0 <= i < KFS_DIRENTS -> is_u32 size ->
  let old := dirent (tbl_at st bd d) i in in_use old ->
  put_block st bd s d (set_dirent (tbl_at st bd d) i (mk_dirent (de_name old) (de_start_block old) size)) ->
  fs_ok (st <| disk := s |>) m bd dirs bm.
Proof.
  intros Hok Hd Hi Hz old Hu Hput. set (st' := st <| disk := s |>). set (e := mk_dirent _ _ size) in *.
  destruct (owned_dirs _ _ _ _ _ _ Hok Hd) as (Hdo & Hd0 & Hd1). destruct (fo_tbl _ _ _ _ _ Hok d Hd) as [Hbd Hbok].
  assert (He : entry_ok e) by (destruct (dirent_ok _ _ Hbok Hi) as (? & ? & ? & _); by split_and!).
  assert (Hue : in_use e) by done.
  assert (Hblk : forall k, blk st' bd k = if decide (k = d) then Some (set_dirent (tbl_at st bd d) i e) else blk st bd k)
    by (intros k; by apply put_block_blk).
  assert (Ht : tbl_at st' bd d = set_dirent (tbl_at st bd d) i e) by (unfold tbl_at at 1; by rewrite Hblk, decide_True).
  assert (Ho : forall d', d' <> d -> tbl_at st' bd d' = tbl_at st bd d') by (intros d' Hne; unfold tbl_at; by rewrite Hblk, decide_False).
  assert (Hc : forall F, F e = F old -> coll F st' bd dirs ≡ₚ coll F st bd dirs).
  { intros F HF. pose proof (coll_set F st st' bd dirs d i e Hd (nodup_dirs _ _ _ _ _ Hok) Hbok Hi He Ht) as Hp.
    unfold part in Hp. fold old in Hp. rewrite !decide_True, HF in Hp by done. apply (Permutation_app_inv_l (F old)).
    rewrite <- Hp by (intros; by apply Ho). apply Permutation_app_comm. }
  pose proof (entries_set (tbl_at st bd d) i e Hbok Hi He) as Hen. fold old in Hen. rewrite !decide_True in Hen by done.
  pose proof Hok as []. split; try done.
  - rewrite Hblk, decide_False by done. done.
  - apply Hput.
  - intros n Hn. rewrite Hblk. case_decide; [done|by apply fo_all0].
  - intros x Hx. rewrite Hblk. case_decide as E; [|rewrite Ho by done; by apply fo_tbl0].
    subst x. rewrite Ht. split; [done|]. by apply set_dirent_ok.
  - intros x Hx. destruct (decide (x = d)) as [->|E]; [|rewrite Ho by done; by apply fo_names0]. rewrite Ht.
    assert (Hn : names (set_dirent (tbl_at st bd d) i e) ≡ₚ names (tbl_at st bd d)); [|rewrite Hn; by apply fo_names0].
    apply (Permutation_app_inv_l [cstr (de_name old)]). unfold names. rewrite Permutation_app_comm.
    change [cstr (de_name old)] with ((fun e => cstr (de_name e)) <$> [old]) at 1. rewrite <- fmap_app, Hen, fmap_app. done.
  - by rewrite Hc.
  - unfold owned. by rewrite Hc.
  - intros j. unfold owned. rewrite Hc by done. apply fo_owned0.
Qed.

Lemma find_named_use tbl name : block_ok tbl -> no_nul name -> 0 <= kfs_dir_find_named tbl name ->
  let i := kfs_dir_find_named tbl name in 0 <= i < KFS_DIRENTS /\ in_use (dirent tbl i) /\ cstr (de_name (dirent tbl i)) = name.
Proof.
  intros Hb Hn Hs. destruct (decide (zlen name < 11)) as [Hl|Hl].
  - destruct (kfs_dir_find_named_spec tbl name Hb Hn Hl) as [[E _]|(H1 & H2 & H3)]; [lia|done].
  - rewrite find_named_long in Hs by (done || lia). lia.
Qed.

(** What removing [name] from directory [d] does: nothing, because of [why] or as there
    is no entry of that name or it is of the other kind; or the entry is cleared. *)
Definition removed st st' bd dirs d name (isdir : bool) (why : Z -> Prop) (r : Z) : Prop :=
  let tbl := tbl_at st bd d in let i := kfs_dir_find_named tbl name in
  r = -1 /\ retabled st st' bd dirs d tbl /\ (i < 0 \/ kfs_de_isdir (dirent tbl i) = negb isdir \/ why (kfs_de_start (dirent tbl i)))
  \/ r = 0 /\ 0 <= i /\ kfs_de_isdir (dirent tbl i) = isdir /\ retabled st st' bd dirs d (set_dirent tbl i no_dirent).

(** Removing a file. *)
Lemma unlink_ok st m bd dirs bm d name : fs_ok st m bd dirs bm -> d_bd d = bd -> d_dir_block d ∈ dirs -> no_nul name ->
  exists r st' bm', kfs_dir_unlink st (Some d) name = (r, st') /\ fs_ok st' m bd dirs bm'
    /\ removed st st' bd dirs (d_dir_block d) name false (fun _ => False) r.
Proof.
  intros Hok Hbd Hd Hn. unfold kfs_dir_unlink. rewrite Hbd. destruct (fo_tbl _ _ _ _ _ Hok _ Hd) as [Hb Hbok].
  destruct (read_ok st bd (d_dir_block d) _ (fo_disk _ _ _ _ _ Hok) Hb) as (s & -> & Hs & Hk).
  pose proof (fs_ok_read _ _ _ _ _ s Hok Hs Hk) as Hok1. set (st1 := st <| disk := s |>) in *.
  assert (Hst1 : forall x, blk st1 bd x = blk st bd x) by (intros x; apply Hk).
  assert (Et : tbl_at st bd (d_dir_block d) = tbl_at st1 bd (d_dir_block d)) by (symmetry; by apply tbl_at_same).
  assert (Hsame : retabled st st1 bd dirs (d_dir_block d) (tbl_at st bd (d_dir_block d))) by by apply retabled_same.
  unfold removed. rewrite Et in *. clearbody st1. clear Hok Hk Hs Hb s. set (tbl := tbl_at st1 bd (d_dir_block d)) in *.
  case_if; bool_prop; [eexists _, _, bm; split_and!; [done|done|]; left; split_and!; auto|].
  destruct (find_named_use tbl name Hbok Hn ltac:(done)) as (Hi & Hu & _). set (i := kfs_dir_find_named tbl name) in *.
  destruct (kfs_de_isdir (dirent tbl i)) eqn:Edir; [eexists _, _, bm; split_and!; [done|done|]; left; split_and!; auto|].
  destruct (fo_tbl _ _ _ _ _ Hok1 _ Hd) as [Hb1 _].
  destruct (write_ok st1 bd (d_dir_block d) _ (set_dirent tbl i no_dirent) (fo_disk _ _ _ _ _ Hok1) Hb1) as (s & -> & Hso & Hk);
    [apply set_dirent_ok; [done|done|apply no_dirent_ok]|].
  cbn [Z.ltb Z.compare]. assert (Hput : put_block st1 bd s (d_dir_block d) (set_dirent tbl i no_dirent)) by done.
  destruct (fs_remove st1 m bd dirs dirs bm (d_dir_block d) i s Hok1 Hd Hi Hu) as [Hok2 Hown];
    [unfold entry_dirs; fold tbl; by rewrite Edir|unfold entry_dirs; fold tbl; rewrite Edir; by intros j ?%elem_of_nil|done|].
  fold tbl in Hown. unfold entry_dirs, entry_files in Hown. rewrite Edir in Hown. cbn [app] in Hown.
  pose proof (fo_nodup _ _ _ _ _ Hok1) as Hnd. rewrite Hown in Hnd. apply NoDup_app in Hnd as (_ & Hdis & _).
  set (start := kfs_de_start (dirent tbl i)) in *.
  assert (Hr : forall j, start <= j < start + 64 -> 0 <= j < total_of bd).
  { intros j Hj. apply (fo_owned _ _ _ _ _ Hok1). rewrite Hown, elem_of_app, elem_of_seqZ. left. lia. }
  pose proof (Hr start ltac:(lia)). pose proof (Hr (start + 63) ltac:(lia)). pose proof (total_max bd).
  destruct (fs_free _ m bd dirs bm start 64 Hok2) as (bm' & Hok3 & Hsame3); try lia; [intros j Hj; apply Hdis, elem_of_seqZ; lia|].
  case_if; [exists 0, (st1 <| disk := s |>), bm|exists 0, (kfs_free_blocks (st1 <| disk := s |>) bd start 64), bm'];
    (split; [done|split; [done|right]]); (split_and!; [done|lia|done|]); eapply retabled_put; try exact Hput; try done; intros; by rewrite Hst1.
Qed.

Lemma dir_empty_entries tbl : dir_empty (Z.to_nat KFS_DIRENTS) tbl 0 = true -> entries tbl = [].
Proof.
  intros He. assert (Hn : forall n i, dir_empty n tbl i = true -> forall k, i <= k < i + Z.of_nat n -> ~ in_use (dirent tbl k)).
  { induction n as [|n IH]; intros i E k Hk; [lia|]. cbn [dir_empty] in E. case_if_in E; [|done]. bool_prop.
    destruct (decide (k = i)) as [->|]; [intros Hu; by destruct Hu|]. apply (IH (i + 1) E). lia. }
  destruct (entries tbl) as [|e l] eqn:E; [done|]. exfalso.
  assert (Hin : e ∈ entries tbl) by (rewrite E; apply elem_of_cons; by left).
  apply list_elem_of_filter in Hin as [Hu (k & -> & Hk%elem_of_seq)%list_elem_of_fmap].
  revert Hu. apply (Hn _ _ He). change (Z.of_nat (Z.to_nat KFS_DIRENTS)) with 26. lia.
Qed.

(** Removing a directory. *)
Lemma rmdir_ok st m bd dirs bm d name : fs_ok st m bd dirs bm -> d_bd d = bd -> d_dir_block d ∈ dirs -> no_nul name ->
  exists r st' dirs' bm', kfs_dir_rmdir st (Some d) name = (r, st') /\ fs_ok st' m bd dirs' bm' /\ d_dir_block d ∈ dirs'
    /\ let full sub := negb (dir_empty (Z.to_nat KFS_DIRENTS) (tbl_at st bd sub) 0) in let tbl := tbl_at st bd (d_dir_block d) in
       removed st st' bd dirs' (d_dir_block d) name true (fun sub => full sub = true) r
       /\ (r = 0 -> full (kfs_de_start (dirent tbl (kfs_dir_find_named tbl name))) = false).
Proof.
  intros Hok Hbd Hd Hn. unfold kfs_dir_rmdir. rewrite Hbd. destruct (fo_tbl _ _ _ _ _ Hok _ Hd) as [Hb Hbok].
  destruct (read_ok st bd (d_dir_block d) _ (fo_disk _ _ _ _ _ Hok) Hb) as (s1 & -> & Hs & Hk).
  pose proof (fs_ok_read _ _ _ _ _ s1 Hok Hs Hk) as Hok1. set (st1 := st <| disk := s1 |>) in *.
  set (tbl := tbl_at st bd (d_dir_block d)) in *.
  assert (Hst1 : forall x, blk st1 bd x = blk st bd x) by (intros x; apply Hk).
  assert (Hsame : retabled st st1 bd dirs (d_dir_block d) tbl) by by apply retabled_same.
  unfold removed. fold tbl. clearbody st1.
  case_if; bool_prop; [exists (-1), st1, dirs, bm; do 3 (split; [done|]); split; [left; split_and!; auto|done]|].
  destruct (find_named_use tbl name Hbok Hn ltac:(done)) as (Hi & Hu & _). set (i := kfs_dir_find_named tbl name) in *.
  destruct (kfs_de_isdir (dirent tbl i)) eqn:Edir; cbn [negb]; [|exists (-1), st1, dirs, bm; do 3 (split; [done|]); split; [left; split_and!; auto|done]].
  destruct (entry_owned _ _ _ _ _ _ _ Hok Hd Hi Hu) as [_ Hsub]. fold tbl in Hsub. set (sub := kfs_de_start (dirent tbl i)) in *.
  assert (Eold : entry_dirs (dirent tbl i) = [sub]) by (unfold entry_dirs; by rewrite Edir). rewrite Eold in Hsub.
  destruct (Hsub sub ltac:(by apply list_elem_of_singleton)) as [Hsd Hs2]. destruct (fo_tbl _ _ _ _ _ Hok _ Hsd) as [Hsb _].
  destruct (read_ok st1 bd sub _ (fo_disk _ _ _ _ _ Hok1) (eq_trans (Hst1 sub) Hsb)) as (s2 & -> & Hs2' & Hk2).
  pose proof (fs_ok_read _ _ _ _ _ s2 Hok1 Hs2' Hk2) as Hok2. set (st2 := st1 <| disk := s2 |>) in *.
  assert (Hst2 : forall x, blk st2 bd x = blk st bd x) by (intros x; rewrite <- Hst1; apply Hk2).
  assert (Ht2 : forall x, tbl_at st2 bd x = tbl_at st bd x) by (intros x; by apply tbl_at_same).
  destruct (dir_empty (Z.to_nat KFS_DIRENTS) (tbl_at st bd sub) 0) eqn:Eemp; cbn [negb].
  2: { exists (-1), st2, dirs, bm. do 3 (split; [done|]). split; [|done]. left. split_and!; [done|by apply retabled_same|].
       by auto. }
  apply dir_empty_entries in Eemp. destruct (list_elem_of_split _ _ Hsd) as (l1 & l2 & El).
  assert (Hp : dirs ≡ₚ [sub] ++ (l1 ++ l2)) by (rewrite El; cbn [app]; symmetry; apply Permutation_middle).
  assert (Hne : d_dir_block d <> sub).
  { intros Ed. rewrite <- Ed in Eemp. fold tbl in Eemp. assert (Hin : dirent tbl i ∈ entries tbl).
    { apply list_elem_of_filter. split; [done|]. eapply list_elem_of_lookup_2. by apply dirents_lookup. }
    rewrite Eemp in Hin. by apply elem_of_nil in Hin. }
  assert (Hd' : d_dir_block d ∈ l1 ++ l2) by (rewrite Hp, elem_of_app, list_elem_of_singleton in Hd; by destruct Hd).
  destruct (write_ok st2 bd (d_dir_block d) tbl (set_dirent tbl i no_dirent) (fo_disk _ _ _ _ _ Hok2)) as (s & -> & Hso & Hk3);
    [by rewrite Hst2|apply set_dirent_ok; [done|done|apply no_dirent_ok]|]. cbn [Z.ltb Z.compare].
  assert (Hput : put_block st2 bd s (d_dir_block d) (set_dirent tbl i no_dirent)) by done.
  destruct (fs_remove st2 m bd dirs (l1 ++ l2) bm (d_dir_block d) i s Hok2 Hd' Hi) as [Hok3 Hown]; rewrite ?(Ht2 (d_dir_block d)); fold tbl;
    [done|by rewrite Eold|rewrite Eold; intros j ->%list_elem_of_singleton; by rewrite Ht2|done|].
  destruct (fo_owned _ _ _ _ _ Hok sub) as [Hr _]; [by eapply owned_dirs|]. pose proof (total_max bd).
  rewrite (Ht2 (d_dir_block d)) in Hown. fold tbl in Hown.
  pose proof (fo_nodup _ _ _ _ _ Hok2) as Hnd. rewrite Hown, Eold in Hnd. apply NoDup_app in Hnd as (_ & Hdis & _).
  destruct (fs_free _ m bd (l1 ++ l2) bm sub 1 Hok3) as (bm' & Hok4 & Hsame4); try lia.
  { intros j Hj. assert (j = sub) as -> by lia. apply Hdis, elem_of_app. left. by apply list_elem_of_singleton. }
  eexists 0, _, (l1 ++ l2), bm'. split; [done|]. split; [exact Hok4|]. split; [done|].
  split; [right; split_and!; [done|lia|done|]|done].
  eapply retabled_put; [intros x _; apply Hst2|exact Hput|exact Hsame4].
Qed.

End Inv.

End KfsInv.
