(* ===== verification/KfsFile.v ===== *)
(** * kfs: regular files

    A regular file of kfs is a run of [KFS_BLOCKS_PER_FILE] blocks and a size.  Here
    the run is taken as one string of bytes, and [regfile_read] and [regfile_write]
    are shown to read and to overwrite a part of it; a write leaves the ownership of
    the blocks as it was. *)

From stdpp Require Import base numbers list gmap relations.
From Stdlib Require Import ZArith Lia Bool.
From S2P Require Import Prelude Net BlockDev BlockStore Kfs KfsDisk KfsInv.

Module KfsFile.

Import Net BlockDev BlockStore Kfs KfsDisk KfsInv.

(** The length of a run in bytes. *)
Definition RUN : Z := KFS_BLOCKS_PER_FILE * BLK_SIZE.

(** Looking into a list of blocks joined together. *)
Lemma lookup_mjoin_same n (ls : list (list Z)) o : (0 < n)%nat -> Forall (fun l => length l = n) ls ->
  mjoin ls !! o = ls !! (o / n)%nat ≫= (.!! (o mod n)%nat).
Proof.
  intros Hn Hls. revert o. induction Hls as [|l ls Hl Hls IH]; intros o; cbn; [by rewrite !lookup_nil|].
  destruct (decide (o < n)%nat).
  - rewrite lookup_app_l by lia. rewrite Nat.div_small, Nat.mod_small by lia. done.
  - rewrite lookup_app_r by lia. rewrite IH, Hl.
    replace (o / n)%nat with (S ((o - n) / n))%nat; [replace (o mod n)%nat with ((o - n) mod n)%nat; [done|]|].
    + rewrite <- (Nat.Div0.mod_add (o - n) 1 n). f_equal. lia.
    + rewrite <- (Nat.add_1_r ((o - n) / n)), <- Nat.div_add by lia. f_equal. lia.
Qed.

Lemma length_mjoin_same n (ls : list (list Z)) : Forall (fun l => length l = n) ls -> length (mjoin ls) = (length ls * n)%nat.
Proof. induction 1 as [|l ls Hl _ IH]; [done|]. change (mjoin (l :: ls)) with (l ++ mjoin ls). rewrite length_app, IH. cbn. lia. Qed.

Section Files.
Context {S : Type} `{!BlockStore S} `{!StoreLaws S}.
Implicit Types (st : kfs S) (bd : block_device) (f : kfs_file).

(** ** The bytes of a run *)

Definition run_blocks st bd (start : Z) : list bytes := (fun k => tbl_at st bd (start + k)) <$> seqZ 0 KFS_BLOCKS_PER_FILE.

Definition run_bytes st bd (start : Z) : bytes := mjoin (run_blocks st bd start).

(** The blocks of the run are on the device. *)
Definition run_there st bd (start : Z) : Prop :=
  forall k, start <= k < start + KFS_BLOCKS_PER_FILE -> is_Some (blk st bd k).

Lemma tbl_at_length st bd k : st_ok (disk st) -> is_Some (blk st bd k) -> zlen (tbl_at st bd k) = BLK_SIZE.
Proof. intros Hok [b Hb]. unfold tbl_at. rewrite Hb. by eapply st_size. Qed.

Lemma run_blocks_length st bd start : st_ok (disk st) -> run_there st bd start ->
  Forall (fun l => length l = 512%nat) (run_blocks st bd start).
Proof.
  intros Hok Ht. apply Forall_fmap, Forall_forall. intros k Hk%elem_of_seqZ. cbn.
  pose proof (tbl_at_length st bd (start + k) Hok) as Hl. unfold zlen, BLK_SIZE in Hl. unfold bytes in *.
  apply Nat2Z.inj. rewrite Hl; [done|]. apply Ht. lia.
Qed.

Lemma run_bytes_lookup st bd start o : st_ok (disk st) -> run_there st bd start -> 0 <= o < RUN ->
  run_bytes st bd start !! Z.to_nat o = tbl_at st bd (start + o / BLK_SIZE) !! Z.to_nat (o mod BLK_SIZE).
Proof.
  intros Hok Ht Ho. unfold run_bytes, bytes. rewrite (lookup_mjoin_same 512) by (lia || by apply run_blocks_length).
  unfold run_blocks. rewrite list_lookup_fmap. change 512%nat with (Z.to_nat 512).
  rewrite <- (Z2Nat.inj_div o 512), <- (Z2Nat.inj_mod o 512) by lia.
  rewrite lookup_seqZ_lt by (unfold RUN, KFS_BLOCKS_PER_FILE, BLK_SIZE in *; Z.div_mod_to_equations; lia).
  cbn. unfold BLK_SIZE. do 3 f_equal. Z.div_mod_to_equations; lia.
Qed.

Lemma run_bytes_length st bd start : st_ok (disk st) -> run_there st bd start -> zlen (run_bytes st bd start) = RUN.
Proof.
  intros Hok Ht. unfold zlen, run_bytes. rewrite (length_mjoin_same 512) by by apply run_blocks_length.
  unfold run_blocks. rewrite length_fmap, length_seqZ. unfold RUN, KFS_BLOCKS_PER_FILE, BLK_SIZE. lia.
Qed.

(** ** Writing *)

Definition in_run bd (start dev k : Z) : Prop := dev = bd_dev bd /\ start <= k < start + KFS_BLOCKS_PER_FILE.

#[global] Instance in_run_dec bd start dev k : Decision (in_run bd start dev k).
Proof. unfold in_run. apply _. Defined.

(** Overwriting a part of one block overwrites that part of the run. *)
Lemma run_bytes_store st bd start o l s : st_ok (disk st) -> run_there st bd start -> st_ok s ->
  0 <= o -> o + zlen l <= RUN -> o mod BLK_SIZE + zlen l <= BLK_SIZE ->
  put_block st bd s (start + o / BLK_SIZE) (poke (tbl_at st bd (start + o / BLK_SIZE)) (o mod BLK_SIZE) l) ->
  run_there (st <| disk := s |>) bd start /\ run_bytes (st <| disk := s |>) bd start = poke (run_bytes st bd start) o l.
Proof.
  intros Hok Ht Hs Ho Hl Hb Hp. assert (Ht' : run_there (st <| disk := s |>) bd start).
  { intros k Hk. rewrite (put_block_blk _ _ _ _ _ _ Hp). case_decide; [done|]. by apply Ht. }
  split; [done|]. pose proof (run_bytes_length _ _ _ Hok Ht) as HL.
  pose proof (run_bytes_length (st <| disk := s |>) _ _ Hs Ht') as HL'.
  apply list_eq. intros i. destruct (decide (Z.of_nat i < RUN)) as [Hi|Hi].
  2: { rewrite !lookup_ge_None_2; [done| |]; pose proof (poke_length (run_bytes st bd start) l o); unfold zlen in *; lia. }
  rewrite lookup_poke by lia. rewrite <- (Nat2Z.id i) at 1. rewrite run_bytes_lookup by (done || lia).
  unfold tbl_at at 1. rewrite (put_block_blk _ _ _ _ _ _ Hp).
  pose proof (Z.div_mod o 512 ltac:(lia)). pose proof (Z.div_mod (Z.of_nat i) 512 ltac:(lia)).
  pose proof (Z.mod_pos_bound o 512 eq_refl). pose proof (Z.mod_pos_bound (Z.of_nat i) 512 eq_refl). unfold BLK_SIZE in *.
  case_decide as E; cbn [default from_option id].
  - rewrite lookup_poke; [|lia|rewrite tbl_at_length; [done|done|apply Ht; unfold RUN, KFS_BLOCKS_PER_FILE, BLK_SIZE in *; lia]].
    case_decide; case_decide; try lia.
    + f_equal. lia.
    + rewrite <- (Nat2Z.id i) at 2. rewrite run_bytes_lookup by (done || lia). unfold BLK_SIZE. by rewrite E.
  - fold (tbl_at st bd (start + Z.of_nat i / 512)). rewrite decide_False.
    + rewrite <- (Nat2Z.id i) at 3. rewrite run_bytes_lookup by (done || lia). done.
    + intros ?. apply E. f_equal. Z.div_mod_to_equations; lia.
Qed.

Lemma poke_poke (b l1 l2 : bytes) o o' : 0 <= o -> o + zlen l1 + zlen l2 <= zlen b -> o' = o + zlen l1 ->
  poke (poke b o l1) o' l2 = poke b o (l1 ++ l2).
Proof.
  intros Ho Hl ->. unfold zlen in Hl. unfold poke, zlen, bytes in *.
  rewrite (app_assoc (take _ b)), take_app_length' by (rewrite length_app, length_take; lia).
  rewrite drop_app_ge by (rewrite length_app, length_take; lia). rewrite drop_drop, <- !app_assoc. do 4 f_equal.
  rewrite !length_app, length_take. lia.
Qed.

Lemma poke_nil (b : bytes) o : 0 <= o -> poke b o [] = b.
Proof. intros Ho. unfold poke, bytes. cbn [length app]. rewrite Nat.add_0_r. apply take_drop. Qed.

Lemma zlen_piece (src : bytes) a n : 0 <= a -> 0 <= n -> a + n <= zlen src ->
  zlen (take (Z.to_nat n) (drop (Z.to_nat a) src)) = n.
Proof. intros Ha Hn Hl. unfold zlen, bytes in *. rewrite length_take, length_drop. lia. Qed.

Lemma pieces (src : bytes) a n m : 0 <= a -> 0 <= n -> 0 <= m ->
  take (Z.to_nat n) (drop (Z.to_nat a) src) ++ take (Z.to_nat m) (drop (Z.to_nat (a + n)) src)
  = take (Z.to_nat (n + m)) (drop (Z.to_nat a) src).
Proof.
  intros Ha Hn Hm. rewrite !Z2Nat.inj_add by lia. rewrite <- drop_drop. unfold bytes. by rewrite take_take_drop.
Qed.

(** What a piece of the copy loop leaves. *)
Definition run_written st bd start s o (l : bytes) : Prop := st_ok s
  /\ run_there (st <| disk := s |>) bd start
  /\ run_bytes (st <| disk := s |>) bd start = poke (run_bytes st bd start) o l
  /\ forall dev k, ~ in_run bd start dev k -> st_block s dev k = st_block (disk st) dev k.

Lemma run_written_nil st bd start o : st_ok (disk st) -> run_there st bd start -> 0 <= o -> run_written st bd start (disk st) o [].
Proof. intros Hok Ht Ho. destruct st. split_and!; try done. by rewrite poke_nil. Qed.

Lemma run_written_trans st bd start s1 s2 o o' l1 l2 : st_ok (disk st) -> run_there st bd start ->
  run_written st bd start s1 o l1 -> run_written (st <| disk := s1 |>) bd start s2 o' l2 -> 0 <= o -> o' = o + zlen l1 ->
  o + zlen l1 + zlen l2 <= RUN -> run_written st bd start s2 o (l1 ++ l2).
Proof.
  intros Hok Ht (H1 & H2 & H3 & H4) (K1 & K2 & K3 & K4) Ho E Hl. split_and!; [done|done| |].
  - replace (st <| disk := s2 |>) with (st <| disk := s1 |> <| disk := s2 |>) by done. rewrite K3, H3.
    apply poke_poke; [done| |done]. by rewrite run_bytes_length.
  - intros dev k Hk. rewrite K4 by done. by apply H4.
Qed.

(** One round of the loop. *)
Lemma write_piece st bd start o l : st_ok (disk st) -> run_there st bd start -> 0 <= o -> o + zlen l <= RUN ->
  o mod BLK_SIZE + zlen l <= BLK_SIZE -> 0 < zlen l -> exists s0 s,
  bd_read_block st bd (start + o / BLK_SIZE) = (Some (tbl_at st bd (start + o / BLK_SIZE)), st <| disk := s0 |>)
  /\ bd_write_block (st <| disk := s0 |>) bd (start + o / BLK_SIZE)
       (poke (tbl_at st bd (start + o / BLK_SIZE)) (o mod BLK_SIZE) l) = (0, st <| disk := s |>)
  /\ run_written st bd start s o l.
Proof.
  intros Hok Ht Ho Hl Hb Hp. assert (Hin : start <= start + o / BLK_SIZE < start + KFS_BLOCKS_PER_FILE).
  { unfold RUN, BLK_SIZE, KFS_BLOCKS_PER_FILE in *. Z.div_mod_to_equations; lia. }
  set (k := start + o / BLK_SIZE) in *. assert (Hk : blk st bd k = Some (tbl_at st bd k)).
  { destruct (Ht k Hin) as [b E]. unfold tbl_at. by rewrite E. }
  destruct (read_ok st bd k _ Hok Hk) as (s0 & E0 & Hs0 & Hk0).
  destruct (write_ok (st <| disk := s0 |>) bd k (tbl_at st bd k) (poke (tbl_at st bd k) (o mod BLK_SIZE) l)) as (s & E1 & Hs & Hw);
    [done|unfold blk; cbn; by rewrite Hk0| |].
  { pose proof (tbl_at_length st bd k Hok (Ht k Hin)) as Hlen. rewrite poke_length; [done| |by rewrite Hlen].
    unfold BLK_SIZE. Z.div_mod_to_equations; lia. }
  assert (Hput : put_block st bd s k (poke (tbl_at st bd k) (o mod BLK_SIZE) l)).
  { split; [done|]. intros dev j. rewrite Hw. case_decide; [done|]. apply Hk0. }
  exists s0, s. split_and!; [done|done|]. destruct (run_bytes_store st bd start o l s) as [H1 H2]; try done.
  split_and!; try done. intros dev j Hj. rewrite (proj2 Hput). rewrite decide_False; [done|]. intros [-> ->]. by apply Hj.
Qed.

(** The loop writes all of it. *)
Lemma write_loop_ok fuel : forall st f pos src len written, let bd := kf_bd f in let start := start_block f in
  st_ok (disk st) -> run_there st bd start -> 0 <= start -> start + KFS_BLOCKS_PER_FILE <= 2 ^ 32 ->
  0 <= pos -> pos + len <= RUN -> len <= zlen src -> 0 <= written <= len -> len - written <= Z.of_nat fuel ->
  exists s, write_loop fuel st f pos src len written = (len, st <| disk := s |>)
    /\ run_written st bd start s (pos + written) (take (Z.to_nat (len - written)) (drop (Z.to_nat written) src)).
Proof.
  induction fuel as [|fuel IH]; intros st f pos src len written bd start Hok Ht Hs0 Hs1 Hp Hpl Hlen Hw Hf; cbn [write_loop].
  - assert (written = len) as -> by lia. exists (disk st). rewrite Z.sub_diag. split; [by destruct st|].
    apply run_written_nil; [done|done|lia].
  - case_if; bool_prop.
    2: { assert (written = len) as -> by lia. exists (disk st). rewrite Z.sub_diag. split; [by destruct st|].
         apply run_written_nil; [done|done|lia]. }
    set (o := pos + written) in *. assert (Ho : 0 <= o < RUN) by (unfold o; lia).
    assert (Hu : u32 o = o) by (apply u32_small; unfold RUN, KFS_BLOCKS_PER_FILE, BLK_SIZE in *; unfold is_u32; lia).
    rewrite Hu. assert (Hin : 0 <= o / BLK_SIZE < KFS_BLOCKS_PER_FILE).
    { unfold RUN, KFS_BLOCKS_PER_FILE, BLK_SIZE in *. Z.div_mod_to_equations; lia. }
    fold start. rewrite (u32_small (start + o / BLK_SIZE)) by (unfold is_u32; lia). fold bd.
    pose proof (Z.mod_pos_bound o BLK_SIZE eq_refl) as Hm.
    set (n := if _ : bool then _ else _). assert (Hn : 0 < n <= len - written /\ n <= BLK_SIZE - o mod BLK_SIZE).
    { unfold n. case_if; bool_prop; lia. }
    clearbody n. set (l := take (Z.to_nat n) (drop (Z.to_nat written) src)).
    assert (Hl : zlen l = n) by (apply zlen_piece; lia).
    destruct (write_piece st bd start o l) as (s0 & s & E0 & E1 & Hw1); try done; [lia|unfold o; lia|lia|lia|].
    rewrite E0, E1. cbn [Z.ltb Z.compare]. destruct Hw1 as (W1 & W2 & W3 & W4).
    destruct (IH (st <| disk := s |>) f pos src len (written + n)) as (s' & E' & Hw'); try done; [lia|lia|].
    exists s'. split; [exact E'|]. replace (len - written) with (n + (len - (written + n))) by lia.
    rewrite <- pieces by lia. fold l. eapply run_written_trans; [done|done|by split_and!|exact Hw'|lia|unfold o; lia|].
    rewrite Hl, zlen_piece by lia. unfold o. lia.
Qed.

(** ** Open files *)

(** The in-core file [f] is that of an entry in use. *)
Record live_file st bd (dirs : list Z) f : Prop := {
  lf_bd : kf_bd f = bd;
  lf_dir : dir_block f ∈ dirs;
  lf_idx : 0 <= dirent_idx f < KFS_DIRENTS;
  lf_use : in_use (dirent (tbl_at st bd (dir_block f)) (dirent_idx f));
  lf_reg : kfs_de_isdir (dirent (tbl_at st bd (dir_block f)) (dirent_idx f)) = false;
  lf_start : kfs_de_start (dirent (tbl_at st bd (dir_block f)) (dirent_idx f)) = start_block f;
  lf_alloc : alloc_blocks f = KFS_BLOCKS_PER_FILE;
  lf_size : 0 <= size_bytes f <= RUN;
  lf_disk_size : de_size_bytes (dirent (tbl_at st bd (dir_block f)) (dirent_idx f)) = size_bytes f
}.

Lemma live_files st bd dirs f : live_file st bd dirs f ->
  entry_files (dirent (tbl_at st bd (dir_block f)) (dirent_idx f)) = seqZ (start_block f) KFS_BLOCKS_PER_FILE.
Proof. intros []. unfold entry_files. by rewrite lf_reg0, lf_start0. Qed.

(** The run of an open file: on the device, outside the file system's own blocks. *)
Lemma live_run st m bd dirs bm f : fs_ok st m bd dirs bm -> live_file st bd dirs f ->
  2 <= start_block f /\ start_block f + KFS_BLOCKS_PER_FILE <= total_of bd /\ run_there st bd (start_block f)
  /\ forall k, start_block f <= k < start_block f + KFS_BLOCKS_PER_FILE -> k <> 1 /\ k ∉ dirs.
Proof.
  intros Hok Hf. pose proof Hf as [].
  destruct (entry_owned _ _ _ _ _ _ _ Hok lf_dir0 lf_idx0 lf_use0) as [Ho _].
  rewrite (live_files _ _ _ _ Hf) in Ho. set (start := start_block f) in *.
  assert (Hr : forall k, start <= k < start + KFS_BLOCKS_PER_FILE -> k ∈ owned st bd dirs)
    by (intros k Hk; apply Ho, elem_of_seqZ; lia).
  assert (Hin : forall k, start <= k < start + KFS_BLOCKS_PER_FILE -> k ∈ coll entry_files st bd dirs).
  { intros k Hk. eapply coll_elem; [exact lf_dir0|exact lf_idx0|done|]. rewrite (live_files _ _ _ _ Hf). apply elem_of_seqZ. lia. }
  pose proof (fo_nodup _ _ _ _ _ Hok) as Hn. unfold owned in Hn. apply NoDup_app in Hn as (_ & H01 & (_ & Hdf & _)%NoDup_app).
  assert (Hno : forall k, start <= k < start + KFS_BLOCKS_PER_FILE -> k <> 0 /\ k <> 1 /\ k ∉ dirs).
  { intros k Hk. split_and!; [intros ->; apply (H01 0); [set_solver|]|intros ->; apply (H01 1); [set_solver|]|intros Hd; by apply (Hdf k Hd), Hin];
      apply elem_of_app; right; by apply Hin. }
  unfold KFS_BLOCKS_PER_FILE in *. pose proof (proj1 (fo_owned _ _ _ _ _ Hok _ (Hr start ltac:(lia)))).
  pose proof (proj1 (fo_owned _ _ _ _ _ Hok _ (Hr (start + 63) ltac:(lia)))).
  destruct (Hno start ltac:(lia)) as (? & ? & _). split_and!; try lia.
  - intros k Hk. apply (fo_all _ _ _ _ _ Hok). unfold KFS_BLOCKS_PER_FILE in Hk. lia.
  - intros k Hk. by apply Hno.
Qed.

(** Two open files of different entries share no block. *)
Lemma live_disjoint st m bd dirs bm f g k : fs_ok st m bd dirs bm -> live_file st bd dirs f -> live_file st bd dirs g ->
  (dir_block f, dirent_idx f) <> (dir_block g, dirent_idx g) ->
  start_block f <= k < start_block f + KFS_BLOCKS_PER_FILE -> ~ start_block g <= k < start_block g + KFS_BLOCKS_PER_FILE.
Proof.
  intros Hok Hf Hg Hne Hk Hk'. pose proof (fo_nodup _ _ _ _ _ Hok) as Hn. unfold owned in Hn.
  apply NoDup_app in Hn as (_ & _ & (_ & _ & Hn)%NoDup_app).
  eapply (coll_disjoint entry_files) with (j := k); [exact Hok|exact Hn|apply Hf|apply Hg|apply Hf|apply Hg|apply Hf|apply Hg|exact Hne| |];
    rewrite (live_files st bd dirs) by done; apply elem_of_seqZ; lia.
Qed.

(** Only data blocks have changed. *)
Lemma fs_ok_data st m bd dirs bm s start : fs_ok st m bd dirs bm -> st_ok s -> run_there (st <| disk := s |>) bd start ->
  (forall k, start <= k < start + KFS_BLOCKS_PER_FILE -> k <> 1 /\ k ∉ dirs) ->
  (forall dev k, ~ in_run bd start dev k -> st_block s dev k = st_block (disk st) dev k) ->
  fs_ok (st <| disk := s |>) m bd dirs bm /\ forall d, d ∈ dirs -> tbl_at (st <| disk := s |>) bd d = tbl_at st bd d.
Proof.
  intros Hok Hs Ht Hno Hk. pose proof Hok as [].
  assert (Hb : forall k, ~ start <= k < start + KFS_BLOCKS_PER_FILE -> blk (st <| disk := s |>) bd k = blk st bd k).
  { intros k Hn. apply Hk. by intros [_ ?]. }
  assert (Hd : forall d, d ∈ dirs -> blk (st <| disk := s |>) bd d = blk st bd d).
  { intros d Hd. apply Hb. intros Hr. by apply (Hno d Hr). }
  split; [|intros d Hin; apply tbl_at_same; by apply Hd]. eapply fs_ok_marks; try done.
  - rewrite Hb; [done|]. intros Hr. by destruct (Hno 1 Hr).
  - intros n Hn. destruct (decide (start <= n < start + KFS_BLOCKS_PER_FILE)); [by apply Ht|by rewrite Hb].
Qed.

(** ** The operations *)

Lemma push_size_ok st m bd dirs bm f size : fs_ok st m bd dirs bm -> kf_bd f = bd -> dir_block f ∈ dirs ->
  0 <= dirent_idx f < KFS_DIRENTS -> let old := dirent (tbl_at st bd (dir_block f)) (dirent_idx f) in in_use old -> is_u32 size ->
  exists s, push_size st f size = st <| disk := s |> /\ fs_ok (st <| disk := s |>) m bd dirs bm
    /\ put_block st bd s (dir_block f)
         (set_dirent (tbl_at st bd (dir_block f)) (dirent_idx f) (mk_dirent (de_name old) (de_start_block old) size)).
Proof.
  intros Hok Hbd Hd Hi old Hu Hz. destruct (fo_tbl _ _ _ _ _ Hok _ Hd) as [Hb Hbok]. unfold push_size. rewrite Hbd.
  destruct (read_ok st bd (dir_block f) _ (fo_disk _ _ _ _ _ Hok) Hb) as (s0 & -> & Hs0 & Hk0).
  rewrite set_dirent_size_eq by done. fold old. set (e := mk_dirent _ _ size).
  assert (He : entry_ok e) by (destruct (dirent_ok _ _ Hbok Hi) as (? & ? & ? & _); by split_and!).
  destruct (write_ok (st <| disk := s0 |>) bd (dir_block f) (tbl_at st bd (dir_block f))
    (set_dirent (tbl_at st bd (dir_block f)) (dirent_idx f) e)) as (s & -> & Hs & Hk); [done|unfold blk; cbn; by rewrite Hk0|by apply set_dirent_ok|].
  assert (Hput : put_block st bd s (dir_block f) (set_dirent (tbl_at st bd (dir_block f)) (dirent_idx f) e)).
  { split; [done|]. intros dev k. rewrite Hk. case_decide; [done|apply Hk0]. }
  exists s. split_and!; [done| |done]. by eapply fs_resize.
Qed.

(** A file after its entry has been given the size [size]. *)
Lemma live_resized st m bd dirs bm f size s : fs_ok st m bd dirs bm -> live_file st bd dirs f -> 0 <= size <= RUN ->
  let old := dirent (tbl_at st bd (dir_block f)) (dirent_idx f) in
  put_block st bd s (dir_block f)
    (set_dirent (tbl_at st bd (dir_block f)) (dirent_idx f) (mk_dirent (de_name old) (de_start_block old) size)) ->
  live_file (st <| disk := s |>) bd dirs (f <| size_bytes := size |>).
Proof.
  intros Hok [] Hz old Hput. destruct (fo_tbl _ _ _ _ _ Hok _ lf_dir0) as [Hb Hbok].
  set (e := mk_dirent _ _ size) in *.
  assert (He : entry_ok e).
  { destruct (dirent_ok _ _ Hbok lf_idx0) as (? & ? & ? & _). do 3 (split; [done|]). change RUN with 32768 in Hz. unfold is_u32. cbn. lia. }
  assert (Ht : dirent (tbl_at (st <| disk := s |>) bd (dir_block f)) (dirent_idx f) = e).
  { unfold tbl_at at 1. rewrite (put_block_blk _ _ _ _ _ _ Hput), decide_True by done. cbn [default from_option id].
    apply set_dirent_eq; [apply Hbok|done|done]. }
  assert (in_use e /\ kfs_de_isdir e = kfs_de_isdir old /\ kfs_de_start e = kfs_de_start old /\ de_size_bytes e = size) as (E1 & E2 & E3 & E4) by done.
  clearbody e. destruct f as [b0 st0 sz al db ix]. change (_ <| size_bytes := size |>) with (mk_file b0 st0 size al db ix).
  split; cbn [kf_bd start_block size_bytes alloc_blocks dir_block dirent_idx] in *; rewrite ?Ht, ?E2, ?E3, ?E4; done.
Qed.

(** How many bytes a write of [n] at [pos] writes. *)
Definition room (pos n : Z) : Z := Z.min n (RUN - pos).

Lemma regfile_write_ok st m bd dirs bm c f buf : fs_ok st m bd dirs bm -> live_file st bd dirs f ->
  files st !! c_kf c = Some f -> 0 <= c_pos c < RUN -> zlen buf < 2 ^ 63 ->
  let n := room (c_pos c) (zlen buf) in let f' := f <| size_bytes := Z.max (size_bytes f) (c_pos c + n) |> in
  exists st', regfile_write st c buf = (n, c <| c_pos := c_pos c + n |>, st')
    /\ fs_ok st' m bd dirs bm /\ live_file st' bd dirs f' /\ files st' = <[c_kf c := f']> (files st)
    /\ run_bytes st' bd (start_block f) = poke (run_bytes st bd (start_block f)) (c_pos c) (take (Z.to_nat n) buf)
    /\ (forall k, ~ start_block f <= k < start_block f + KFS_BLOCKS_PER_FILE -> k <> dir_block f -> blk st' bd k = blk st bd k)
    /\ forall i, 0 <= i -> i <> dirent_idx f -> dirent (tbl_at st' bd (dir_block f)) i = dirent (tbl_at st bd (dir_block f)) i.
Proof.
  intros Hok Hf Hkf Hpos Hbuf n f'. unfold regfile_write, kf_of. rewrite Hkf. cbn [default from_option id].
  pose proof Hf as []. rewrite lf_alloc0. change (u32 (KFS_BLOCKS_PER_FILE * BLK_SIZE)) with RUN.
  rewrite Z.geb_leb, (proj2 (Z.leb_gt _ _)) by lia. set (len := if _ >? _ then _ else _).
  assert (HRUN : RUN = 32768) by done. pose proof (zlen_nonneg buf).
  assert (Hlen : len = n).
  { unfold len, n, room. rewrite u64_small by (unfold is_u64; lia). case_if; bool_prop; lia. }
  clearbody len. subst len. assert (Hn : 0 <= n <= zlen buf /\ c_pos c + n <= RUN) by (unfold n, room; lia).
  destruct (live_run _ _ _ _ _ _ Hok Hf) as (R1 & R2 & R3 & R4). pose proof (total_max bd). unfold MAP_BITS in *.
  destruct (write_loop_ok (Z.to_nat n) st f (c_pos c) buf n 0) as (s1 & -> & W1 & W2 & W3 & W4); rewrite ?lf_bd0; try done; try lia.
  { apply (fo_disk _ _ _ _ _ Hok). }
  rewrite lf_bd0 in *. rewrite Z.add_0_r, Z.sub_0_r, drop_0 in W3.
  destruct (fs_ok_data st m bd dirs bm s1 _ Hok W1 W2 R4 W4) as [Hok1 Ht1].
  set (st1 := st <| disk := s1 |>) in *. rewrite u32_small by (unfold is_u32; lia).
  assert (Hf1 : live_file st1 bd dirs f) by (split; try done; by rewrite Ht1).
  assert (Hb1 : forall k, ~ start_block f <= k < start_block f + KFS_BLOCKS_PER_FILE -> blk st1 bd k = blk st bd k)
    by (intros k Hk; apply W4; by intros [_ ?]).
  change (c_pos (c <| c_pos := c_pos c + n |>)) with (c_pos c + n). case_if; bool_prop.
  - assert (Ef : f' = f <| size_bytes := c_pos c + n |>) by (unfold f'; f_equal; rewrite Z.max_r by lia; done).
    cbv zeta. change (c_kf (c <| c_pos := c_pos c + n |>)) with (c_kf c). change (c_pos (c <| c_pos := c_pos c + n |>)) with (c_pos c + n).
    set (st2 := set_kf st1 (c_kf c) (f <| size_bytes := c_pos c + n |>)). assert (Hok2 : fs_ok st2 m bd dirs bm) by (eapply fs_ok_frame; [| |exact Hok1]; done).
    assert (Hf2 : live_file st2 bd dirs f) by (destruct Hf1; by split).
    destruct (push_size_ok st2 m bd dirs bm (f <| size_bytes := c_pos c + n |>) (c_pos c + n)) as (s3 & E3 & Hok3 & Hput);
      [exact Hok2|exact lf_bd0|exact lf_dir0|exact lf_idx0|exact (lf_use _ _ _ _ Hf2)|unfold is_u32; lia|].
    cbn [size_bytes] in *. exists (st2 <| disk := s3 |>). rewrite Ef. split_and!; [exact (f_equal (pair _) E3)|done| |done| | |].
    + apply (live_resized st2 m bd dirs bm f (c_pos c + n) s3); [exact Hok2|exact Hf2|lia|exact Hput].
    + rewrite <- W3. unfold run_bytes, run_blocks. f_equal. apply list_fmap_ext. intros i k Hk%list_elem_of_lookup_2%elem_of_seqZ.
      apply (tbl_at_same st2). rewrite (put_block_blk _ _ _ _ _ _ Hput), decide_False; [done|].
      intros Ed. apply (proj2 (R4 (start_block f + k) ltac:(lia))). rewrite Ed. apply lf_dir0.
    + intros k Hk Hkd. rewrite (put_block_blk _ _ _ _ _ _ Hput), decide_False by done. by apply Hb1.
    + intros i Hi Hne. unfold tbl_at at 1. rewrite (put_block_blk _ _ _ _ _ _ Hput), decide_True by done. cbn [default from_option id].
      change (tbl_at st2 bd (dir_block (f <| size_bytes := c_pos c + n |>))) with (tbl_at st1 bd (dir_block f)). rewrite Ht1 by done.
      destruct (fo_tbl _ _ _ _ _ Hok _ lf_dir0) as [_ Hbok]. apply set_dirent_ne; try done; [apply Hbok|].
      destruct (dirent_ok _ _ Hbok lf_idx0) as (? & ? & ? & _). do 3 (split; [done|]). unfold is_u32. cbn [de_size_bytes]. lia.
  - assert (Ef : f' = f) by (unfold f'; rewrite Z.max_l by lia; by destruct f).
    exists st1. rewrite Ef. split_and!; try done.
    + cbn. by rewrite insert_id.
    + intros k Hk _. by apply Hb1.
    + intros i _ _. by rewrite Ht1.
Qed.

(** The disk holds the same blocks. *)
Definition same_blocks st st' : Prop := forall dev k, st_block (disk st') dev k = st_block (disk st) dev k.

Lemma same_tbl st st' bd k : same_blocks st st' -> tbl_at st' bd k = tbl_at st bd k.
Proof. intros H. apply tbl_at_same. unfold blk. by rewrite H. Qed.

Lemma same_run st st' bd start : same_blocks st st' -> run_bytes st' bd start = run_bytes st bd start.
Proof. intros H. unfold run_bytes, run_blocks. f_equal. apply list_fmap_ext. intros i k _. by apply same_tbl. Qed.

Lemma same_live st st' bd dirs f : same_blocks st st' -> live_file st bd dirs f -> live_file st' bd dirs f.
Proof. intros H []. split; try done; by rewrite (same_tbl st st'). Qed.

(** How many bytes a read of [len] at [pos] of a file of [size] bytes returns: what is
    left of the block, and of the file. *)
Definition chunk (pos len size : Z) : Z := Z.min (Z.min len (BLK_SIZE - pos mod BLK_SIZE)) (size - pos).

Lemma take_window (b : bytes) k o n : 0 <= o -> 0 <= n -> o + n <= zlen b -> 0 <= k ->
  forall r : bytes, (forall i, 0 <= i < n -> r !! Z.to_nat (k + i) = b !! Z.to_nat (o + i)) -> k + n <= zlen r ->
  take (Z.to_nat n) (drop (Z.to_nat o) b) = take (Z.to_nat n) (drop (Z.to_nat k) r).
Proof.
  intros Ho Hn Hb Hk r Hr Hl. unfold zlen, bytes in *. apply list_eq. intros i.
  destruct (decide (Z.of_nat i < n)); [|rewrite !lookup_take_ge by lia; done].
  rewrite !lookup_take_lt, !lookup_drop by lia. specialize (Hr (Z.of_nat i) ltac:(lia)).
  replace (Z.to_nat k + i)%nat with (Z.to_nat (k + Z.of_nat i)) by lia. rewrite Hr. f_equal. lia.
Qed.

Lemma regfile_read_ok st m bd dirs bm c f len : fs_ok st m bd dirs bm -> live_file st bd dirs f ->
  files st !! c_kf c = Some f -> 0 <= c_pos c -> 0 <= len ->
  (size_bytes f <= c_pos c -> regfile_read st c len = (Some [], c, st))
  /\ (c_pos c < size_bytes f -> let n := chunk (c_pos c) len (size_bytes f) in
      exists s, regfile_read st c len =
        (Some (take (Z.to_nat n) (drop (Z.to_nat (c_pos c)) (run_bytes st bd (start_block f)))), c <| c_pos := c_pos c + n |>, st <| disk := s |>)
        /\ fs_ok (st <| disk := s |>) m bd dirs bm /\ same_blocks st (st <| disk := s |>)).
Proof.
  intros Hok Hf Hkf Hpos Hlen. unfold regfile_read, kf_of. rewrite Hkf. cbn [default from_option id]. pose proof Hf as [].
  rewrite Z.geb_leb. split; intros Hsz; [by rewrite (proj2 (Z.leb_le _ _)) by done|]. rewrite (proj2 (Z.leb_gt _ _)) by done.
  destruct (live_run _ _ _ _ _ _ Hok Hf) as (R1 & R2 & R3 & R4). pose proof (total_max bd). unfold MAP_BITS in *.
  set (pos := c_pos c) in *. set (start := start_block f) in *. assert (HRUN : RUN = 32768) by done.
  assert (Hq : 0 <= pos / BLK_SIZE < KFS_BLOCKS_PER_FILE) by (unfold BLK_SIZE, KFS_BLOCKS_PER_FILE; Z.div_mod_to_equations; lia).
  pose proof (Z.mod_pos_bound pos BLK_SIZE eq_refl) as Hm. pose proof (Z.div_mod pos BLK_SIZE ltac:(done)) as Hdm.
  rewrite u32_small by (unfold is_u32; unfold KFS_BLOCKS_PER_FILE in *; lia). rewrite lf_bd0.
  destruct (R3 (start + pos / BLK_SIZE) ltac:(lia)) as [b Hb].
  destruct (read_ok st bd _ _ (fo_disk _ _ _ _ _ Hok) Hb) as (s & -> & Hs & Hk).
  set (n := if _ : bool then size_bytes f - pos else _). assert (Hn : n = chunk pos len (size_bytes f)).
  { unfold n, chunk. destruct (len >? BLK_SIZE - pos mod BLK_SIZE) eqn:?; case_if; bool_prop; lia. }
  clearbody n. subst n. set (n := chunk pos len (size_bytes f)). assert (Hn : 0 <= n <= BLK_SIZE - pos mod BLK_SIZE /\ pos + n <= size_bytes f) by (unfold n, chunk; lia).
  assert (Hbl : zlen b = BLK_SIZE) by (eapply st_size; [apply (fo_disk _ _ _ _ _ Hok)|exact Hb]).
  exists s. split_and!; [|by apply fs_ok_read|done]. rewrite u32_small by (unfold is_u32; lia). do 3 f_equal.
  apply take_window; try lia.
  - intros i Hi. rewrite run_bytes_lookup; [|apply (fo_disk _ _ _ _ _ Hok)|done|lia].
    assert ((pos + i) / BLK_SIZE = pos / BLK_SIZE /\ (pos + i) mod BLK_SIZE = pos mod BLK_SIZE + i) as [-> ->].
    { unfold BLK_SIZE in *. Z.div_mod_to_equations; lia. }
    unfold tbl_at. by rewrite Hb.
  - rewrite run_bytes_length; [lia|apply (fo_disk _ _ _ _ _ Hok)|done].
Qed.

(** Reading until the end of the file, [len] bytes at a time: what a caller of [read]
    collects. *)
Fixpoint read_to_end (fuel : nat) st (c : cursor) (len : Z) : option bytes * cursor * kfs S :=
  match fuel with
  | O => (None, c, st)
  | Datatypes.S fuel =>
      let '(r, c, st) := regfile_read st c len in
      match r with
      | None => (None, c, st)
      | Some [] => (Some [], c, st)
      | Some l =>
          let '(r, c, st) := read_to_end fuel st c len in
          ((l ++.) <$> r, c, st)
      end
  end.

Lemma read_to_end_ok fuel : forall st m bd dirs bm c f len, fs_ok st m bd dirs bm -> live_file st bd dirs f ->
  files st !! c_kf c = Some f -> 0 <= c_pos c -> 0 < len -> Z.max 0 (size_bytes f - c_pos c) < Z.of_nat fuel ->
  exists c' s, read_to_end fuel st c len =
    (Some (drop (Z.to_nat (c_pos c)) (take (Z.to_nat (size_bytes f)) (run_bytes st bd (start_block f)))), c', st <| disk := s |>)
    /\ fs_ok (st <| disk := s |>) m bd dirs bm /\ same_blocks st (st <| disk := s |>).
Proof.
  induction fuel as [|fuel IH]; intros st m bd dirs bm c f len Hok Hf Hkf Hpos Hlen Hfu.
  - lia.
  - cbn [read_to_end]. destruct (regfile_read_ok st m bd dirs bm c f len Hok Hf Hkf Hpos ltac:(lia)) as [Hend Hmore].
    destruct (decide (size_bytes f <= c_pos c)) as [Hle|Hgt].
    + rewrite Hend by done. exists c, (disk st). destruct Hf. split_and!; [|by apply fs_ok_read; [|apply (fo_disk _ _ _ _ _ Hok)|]|done].
      rewrite drop_ge by (rewrite length_take; lia). by destruct st.
    + destruct (Hmore ltac:(lia)) as (s & -> & Hok1 & Hsame). set (n := chunk _ _ _) in *. set (st1 := st <| disk := s |>) in *.
      pose proof (Z.mod_pos_bound (c_pos c) BLK_SIZE eq_refl). assert (Hn : 0 < n <= size_bytes f - c_pos c) by (unfold n, chunk; lia).
      destruct (live_run _ _ _ _ _ _ Hok Hf) as (_ & _ & R3 & _). set (R := run_bytes st bd (start_block f)) in *.
      assert (HR : zlen R = RUN) by (apply run_bytes_length; [apply (fo_disk _ _ _ _ _ Hok)|done]). pose proof (lf_size _ _ _ _ Hf).
      set (l := take (Z.to_nat n) (drop (Z.to_nat (c_pos c)) R)).
      assert (Hl : zlen l = n) by (apply zlen_piece; lia).
      destruct (IH st1 m bd dirs bm (c <| c_pos := c_pos c + n |>) f len Hok1) as (c' & s' & E & Hok2 & Hsame2); try done;
        [by eapply same_live|cbn; lia|cbn; lia|].
      rewrite (same_run st st1) in E by done. fold R in E. exists c', s'. rewrite E.
      assert (Hdef : l = take (Z.to_nat n) (drop (Z.to_nat (c_pos c)) R)) by done. clearbody l.
      destruct l as [|x l']; [unfold zlen in Hl; cbn in Hl; lia|]. split_and!; [|done|intros dev k; by rewrite Hsame2].
      cbn [fmap option_fmap option_map]. do 3 f_equal. change (c_pos (c <| c_pos := c_pos c + n |>)) with (c_pos c + n).
      rewrite Hdef, Z2Nat.inj_add by lia. unfold bytes in *. rewrite !skipn_firstn_comm, <- drop_drop.
      replace (Z.to_nat (size_bytes f) - Z.to_nat (c_pos c))%nat with (Z.to_nat n + (Z.to_nat (size_bytes f) - (Z.to_nat (c_pos c) + Z.to_nat n)))%nat by lia.
      by rewrite take_take_drop.
Qed.

End Files.

End KfsFile.
