(* ===== verification/KfsImage.v ===== *)
(** * kfs: building an image and mounting it

    What [kfs_mkimage] leaves on the device and in the mount table, and what
    [kfs_mount] makes of such an image: one file for every payload, with its name
    and its bytes. *)

From stdpp Require Import base numbers list gmap relations.
From Stdlib Require Import ZArith Lia Bool.
From S2P Require Import Prelude Net BlockDev BlockStore Kfs KfsDisk KfsInv KfsFile.

Module KfsImage.

Import Net BlockDev BlockStore Kfs KfsDisk KfsInv KfsFile.

(** Block [i] of the data, filled up with zeros. *)
Definition slice (data : bytes) (i : nat) : bytes :=
  let l := take 512 (drop (512 * i) data) in l ++ replicate (512 - length l) 0.

Lemma slice_length data i : zlen (slice data i) = BLK_SIZE.
Proof. unfold slice, zlen, BLK_SIZE. rewrite length_app, length_replicate, length_take. lia. Qed.

Lemma slice_drop data i : slice (drop 512 data) i = slice data (S i).
Proof. unfold slice. rewrite drop_drop. by replace (512 + 512 * i)%nat with (512 * S i)%nat by lia. Qed.

(** The blocks of a run hold the data, then zeros. *)
Definition filled (data : bytes) : bytes := take (Z.to_nat RUN) data ++ replicate (Z.to_nat RUN - length data) 0.

Lemma slice_lookup data i o : (o < 512)%nat -> slice data i !! o = Some (default 0 (data !! (512 * i + o)%nat)).
Proof.
  intros Ho. unfold slice. cbv zeta. unfold bytes in *. set (l := take 512 _). assert (Hl : l !! o = data !! (512 * i + o)%nat).
  { unfold l, bytes. by rewrite lookup_take_lt, lookup_drop by done. }
  destruct (decide (o < length l)%nat) as [Hlt|Hge].
  - rewrite lookup_app_l, Hl by done. rewrite <- Hl. by destruct (lookup_lt_is_Some_2 l o Hlt) as [x ->].
  - rewrite <- Hl, (lookup_ge_None_2 l o) by lia. rewrite lookup_app_r by lia.
    rewrite lookup_replicate_2; [done|]. lia.
Qed.

Lemma filled_lookup data o : (o < Z.to_nat RUN)%nat -> filled data !! o = Some (default 0 (data !! o)).
Proof.
  intros Ho. unfold filled, bytes in *. destruct (decide (o < length data)%nat) as [Hlt|Hge].
  - rewrite lookup_app_l, lookup_take_lt by (rewrite ?length_take; lia). by destruct (lookup_lt_is_Some_2 data o Hlt) as [x ->].
  - rewrite lookup_app_r, length_take by (rewrite length_take; lia). rewrite (lookup_ge_None_2 data o) by lia.
    rewrite lookup_replicate_2; [done|]. lia.
Qed.

Section Image.
Context {S : Type} `{!BlockStore S} `{!StoreLaws S}.
Implicit Types (st : kfs S) (bd : block_device).

(** ** The loops of [kfs_mkimage] *)

Lemma set_bitmap_again st m b1 b2 s : set_bitmap ((set_bitmap st m b1) <| disk := s |>) m b2 = (set_bitmap st m b2) <| disk := s |>.
Proof.
  destruct st as [mnts fs ns km np d]. apply (f_equal (fun l => mk_kfs l fs ns km np s)). cbn. rewrite list_alter_alter_eq. by apply list_alter_ext.
Qed.

Lemma set_bitmap_id st m bd bm : mounted st m bd bm -> set_bitmap st m bm = st.
Proof.
  intros [_ [mp Hmp]]. destruct st as [mnts fs ns km np d]. cbn in *. apply (f_equal (fun l => mk_kfs l fs ns km np d)).
  apply list_eq. intros i. destruct (decide (i = m)) as [->|Hne].
  - rewrite list_lookup_alter_eq. cbn [kfs_mnts]. by rewrite Hmp.
  - by rewrite list_lookup_alter_ne.
Qed.

Lemma payload_blocks_ok n : forall st m bd bm b rem, mounted st m bd bm -> st_ok (disk st) ->
  (forall k, b <= k < b + Z.of_nat n -> is_Some (blk st bd k)) ->
  exists s, payload_blocks n st m bd b rem = (set_bitmap st m (set_run n bm b 1)) <| disk := s |> /\ st_ok s
    /\ forall dev k, st_block s dev k =
         if decide (dev = bd_dev bd /\ b <= k < b + Z.of_nat n) then Some (slice rem (Z.to_nat (k - b))) else st_block (disk st) dev k.
Proof.
  induction n as [|n IH]; intros st m bd bm b rem Hm Hok Hb; cbn [payload_blocks set_run].
  - exists (disk st). split_and!; [|done|intros dev k; by rewrite decide_False by lia].
    rewrite (set_bitmap_id _ _ _ _ Hm). by destruct st.
  - destruct (Hb b ltac:(lia)) as [b0 Hb0]. change (take 512 rem ++ _) with (slice rem 0).
    destruct (write_ok st bd b b0 (slice rem 0) Hok Hb0 (slice_length rem 0)) as (s1 & -> & Hs1 & Hk1). cbn [snd].
    pose proof (mounted_disk _ _ _ _ s1 Hm) as Hm1. rewrite (mounted_bitmap _ _ _ _ Hm1).
    set (st1 := set_bitmap (st <| disk := s1 |>) m (kfs_bit_set bm b 1)). pose proof (mounted_set _ _ _ _ (kfs_bit_set bm b 1) Hm1) as Hm2. fold st1 in Hm2.
    destruct (IH st1 m bd _ (b + 1) (drop 512 rem) Hm2) as (s & -> & Hs & Hk); [done| |].
    { intros k Hk. unfold blk, st1. cbn. rewrite Hk1. case_decide; [done|]. apply Hb. lia. }
    exists s. split_and!; [|done|].
    + unfold st1. change (set_bitmap (st <| disk := s1 |>) m ?b) with ((set_bitmap st m b) <| disk := s1 |>). by rewrite set_bitmap_again.
    + intros dev k. rewrite Hk. unfold st1. cbn [disk]. change (disk (set_bitmap _ _ _)) with s1. rewrite Hk1.
      destruct (decide (dev = bd_dev bd)) as [->|Hd]; [|by rewrite !decide_False by (by intros [? _])].
      destruct (decide (k = b)) as [->|Hkb].
      * rewrite decide_False, !decide_True by lia. by rewrite Z.sub_diag.
      * case_decide as E1; case_decide as E2; try lia; [|by rewrite decide_False by lia].
        rewrite slice_drop. do 3 f_equal. lia.
Qed.

(** The entries of the root directory, the first file starting at block [cur]. *)
Fixpoint ents (ps : list kfs_payload) (cur : Z) : list kfs_dirent :=
  match ps with
  | [] => []
  | p :: ps => mk_dirent (name_field (p_name p)) cur (zlen (p_data p)) :: ents ps (cur + KFS_BLOCKS_PER_FILE)
  end.

(** Block [j] of the files' area. *)
Definition image_block (ps : list kfs_payload) (j : Z) : bytes :=
  match ps !! Z.to_nat (j / KFS_BLOCKS_PER_FILE) with
  | Some p => slice (p_data p) (Z.to_nat (j mod KFS_BLOCKS_PER_FILE))
  | None => []
  end.

Lemma image_block_head p ps j : 0 <= j < KFS_BLOCKS_PER_FILE -> image_block (p :: ps) j = slice (p_data p) (Z.to_nat j).
Proof. intros Hj. unfold image_block. rewrite Z.div_small, Z.mod_small by done. done. Qed.

Lemma image_block_tail p ps j : KFS_BLOCKS_PER_FILE <= j -> image_block (p :: ps) j = image_block ps (j - KFS_BLOCKS_PER_FILE).
Proof.
  intros Hj. unfold image_block, KFS_BLOCKS_PER_FILE in *.
  replace (Z.to_nat (j / 64)) with (Datatypes.S (Z.to_nat ((j - 64) / 64))) by (Z.div_mod_to_equations; lia).
  replace ((j - 64) mod 64) with (j mod 64) by (Z.div_mod_to_equations; lia). done.
Qed.

Lemma set_run_app n1 n2 v : forall bm s, set_run (n1 + n2) bm s v = set_run n2 (set_run n1 bm s v) (s + Z.of_nat n1) v.
Proof.
  induction n1 as [|n1 IH]; intros bm s; cbn [Nat.add set_run]; [by rewrite Z.add_0_r|]. rewrite IH. f_equal. lia.
Qed.

(** A payload that kfs can hold. *)
Definition payload_ok (p : kfs_payload) : Prop :=
  no_nul (p_name p) /\ is_bytes (p_name p) /\ 0 < zlen (p_name p) < 11 /\ zlen (p_data p) <= RUN.

Lemma payload_entry p cur : payload_ok p -> 0 <= cur < MAP_BITS ->
  let e := mk_dirent (name_field (p_name p)) cur (zlen (p_data p)) in
  entry_ok e /\ in_use e /\ cstr (de_name e) = p_name p /\ entry_dirs e = [] /\ entry_files e = seqZ cur 64.
Proof.
  intros (Hn & Hb & Hl & Hd) Hc e. destruct (name_field_ok (p_name p) Hn Hb ltac:(lia)) as (N1 & N2 & N3).
  destruct (de_start_file (name_field (p_name p)) cur (zlen (p_data p)) Hc) as (D1 & D2 & D3).
  fold e in D1, D2. pose proof (zlen_nonneg (p_data p)). change RUN with 32768 in Hd. split_and!.
  - split_and!; [exact N1|exact N2|exact D3|]. unfold is_u32. cbn. lia.
  - unfold in_use. cbn [e de_name]. intros E. rewrite <- N3 in Hl.
    destruct (name_field (p_name p)) as [|c nf]; [change (zlen (cstr [])) with 0 in Hl; lia|].
    change (c = 0) in E. subst c. change (zlen (cstr (0 :: nf))) with 0 in Hl. lia.
  - exact N3.
  - unfold entry_dirs. by rewrite D1.
  - unfold entry_files. by rewrite D1, D2.
Qed.

Lemma mkimage_files_ok n : forall ps st m bd bm dir i cur, (length ps <= n)%nat -> mounted st m bd bm -> st_ok (disk st) ->
  Forall payload_ok ps -> block_ok dir -> 0 <= i -> i + zlen ps <= KFS_DIRENTS ->
  (forall j, i <= j < KFS_DIRENTS -> ~ in_use (dirent dir j)) -> 0 <= cur -> cur + 64 * zlen ps <= MAP_BITS ->
  (forall k, cur <= k < cur + 64 * zlen ps -> is_Some (blk st bd k)) ->
  exists dir' s, mkimage_files n ps st m bd dir i cur = (dir', (set_bitmap st m (set_run (64 * length ps) bm cur 1)) <| disk := s |>)
    /\ block_ok dir' /\ st_ok s /\ entries dir' ≡ₚ ents ps cur ++ entries dir
    /\ (forall j, 0 <= j -> ~ i <= j < i + zlen ps -> dirent dir' j = dirent dir j)
    /\ (forall k e, ents ps cur !! k = Some e -> dirent dir' (i + Z.of_nat k) = e)
    /\ forall dev k, st_block s dev k = if decide (dev = bd_dev bd /\ cur <= k < cur + 64 * zlen ps)
          then Some (image_block ps (k - cur)) else st_block (disk st) dev k.
Proof.
  induction n as [|n IH]; intros [|p ps] st m bd bm dir i cur Hn Hm Hok Hps Hdir Hi Hi26 Hfree Hc Hcmax Hb.
  1, 3: exists dir, (disk st); cbn [mkimage_files ents]; change (64 * length (@nil kfs_payload))%nat with 0%nat; cbn [set_run];
    rewrite (set_bitmap_id st m bd bm) by done; split_and!; try done; [by destruct st|];
    intros dev k; rewrite decide_False by (change (zlen (@nil kfs_payload)) with 0; lia); done.
  - cbn in Hn. lia.
  - cbn [mkimage_files]. inversion Hps as [|?? Hp Hps']; subst. rewrite zlen_cons in *. pose proof (zlen_nonneg ps) as Hz.
    unfold KFS_DIRENTS in Hi26. destruct (payload_entry p cur Hp ltac:(unfold MAP_BITS in *; lia)) as (He & Hu & Hnm & _).
    set (e := mk_dirent _ cur _) in *. assert (Hir : 0 <= i < KFS_DIRENTS) by (unfold KFS_DIRENTS; lia).
    destruct (payload_blocks_ok 64 st m bd bm cur (p_data p) Hm Hok) as (s1 & E1 & Hs1 & Hk1); [intros k Hk; apply Hb; lia|].
    change (Z.to_nat KFS_BLOCKS_PER_FILE) with 64%nat. rewrite E1. set (st1 := (set_bitmap st m _) <| disk := s1 |>).
    assert (Hm1 : mounted st1 m bd (set_run 64 bm cur 1)) by by apply mounted_disk, (mounted_set _ _ _ bm).
    rewrite u32_small by (unfold KFS_BLOCKS_PER_FILE, MAP_BITS, is_u32 in *; lia). change (cur + KFS_BLOCKS_PER_FILE) with (cur + 64).
    destruct (IH ps st1 m bd (set_run 64 bm cur 1) (set_dirent dir i e) (i + 1) (cur + 64)) as (dir' & s' & E' & Hd' & Hs' & Hen & Hold & Hnew & Hk');
      [cbn in Hn; lia|exact Hm1|exact Hs1|exact Hps'|by apply set_dirent_ok|lia|unfold KFS_DIRENTS; lia| |lia|lia| |].
    + intros j Hj. rewrite set_dirent_ne; [|apply Hdir|exact Hir|lia|lia|exact He]. apply Hfree. lia.
    + intros k Hk. unfold blk. change (disk st1) with s1. rewrite Hk1. case_decide; [done|]. apply Hb. lia.
    + exists dir', s'. rewrite E'. split; [|split; [exact Hd'|split; [exact Hs'|split; [|split; [|split]]]]].
      * f_equal. unfold st1. rewrite set_bitmap_again.
        replace (64 * length (p :: ps))%nat with (64 + 64 * length ps)%nat by (cbn [length]; lia).
        rewrite (set_run_app 64 (64 * length ps)). reflexivity.
      * rewrite Hen. cbn [ents]. fold e. pose proof (entries_set dir i e Hdir Hir He) as Hp'.
        rewrite (decide_False (P := in_use (dirent dir i))), decide_True, app_nil_r in Hp' by (exact Hu || (apply Hfree; lia)).
        rewrite Hp'. change (cur + KFS_BLOCKS_PER_FILE) with (cur + 64). solve_Permutation.
      * intros j Hj Hj'. rewrite Hold by lia. apply set_dirent_ne; [apply Hdir|exact Hir|lia|lia|exact He].
      * intros [|k] e'; cbn [ents lookup list_lookup].
        -- intros [= <-]. rewrite Hold by lia. rewrite Z.add_0_r. apply set_dirent_eq; [apply Hdir|exact Hir|exact He].
        -- intros Hk. replace (i + Z.of_nat (Datatypes.S k)) with (i + 1 + Z.of_nat k) by lia. by apply Hnew.
      * intros dev k. rewrite Hk'. change (disk st1) with s1. rewrite Hk1.
        destruct (decide (dev = bd_dev bd)) as [->|Hd]; [|rewrite !decide_False by (intros [? _]; contradiction); reflexivity].
        case_decide as C1.
        -- rewrite decide_True by lia. rewrite image_block_tail by (unfold KFS_BLOCKS_PER_FILE; lia). do 2 f_equal. unfold KFS_BLOCKS_PER_FILE. lia.
        -- case_decide as C2; [|rewrite decide_False by lia; reflexivity]. rewrite decide_True by lia.
           rewrite image_block_head by (unfold KFS_BLOCKS_PER_FILE; lia). reflexivity.
Qed.

(** ** The slot of the device *)

(** What both [kfs_mkimage] and [kfs_mount] begin with: the slot of the device, or a new one. *)
Definition slot_for st bd : option nat * kfs S :=
  match kfs_mnt_for st bd with Some m => (Some m, st) | None => kfs_mnt_alloc st bd end.

(** Slot [m] can be had: it is the device's, or the first one free. *)
Definition ready st bd (m : nat) : Prop :=
  (exists bm, mounted st m bd bm)
  \/ (kfs_mnt_for st bd = None /\ exists x, list_find (fun m => m_bd m = None) (kfs_mnts st) = Some (m, x)).

Lemma ready_slot st bd m : ready st bd m -> exists st0 bm, slot_for st bd = (Some m, st0) /\ mounted st0 m bd bm
  /\ disk st0 = disk st /\ files st0 = files st /\ nodes st0 = nodes st /\ kmem st0 = kmem st /\ next_ptr st0 = next_ptr st.
Proof.
  unfold slot_for. intros [[bm Hm]|(Hnone & x & Hfree)].
  - rewrite (proj1 Hm). by exists st, bm.
  - rewrite Hnone. unfold kfs_mnt_alloc. rewrite Hfree. eexists _, (replicate 512 0). split; [done|]. split; [|done].
    apply list_find_Some in Hfree as (Hx & _ & _). pose proof (lookup_lt_Some _ _ _ Hx) as Hlt.
    assert (Hl : forall j, kfs_mnts (st <| kfs_mnts := <[m := x <| m_bd := Some bd |> <| m_bitmap := replicate 512 0 |>]> (kfs_mnts st) |>) !! j
      = if decide (j = m) then Some (mk_mnt (Some bd) (m_mountpoint x) (replicate 512 0)) else kfs_mnts st !! j).
    { intros j. cbn. case_decide as E; [subst j; by rewrite list_lookup_insert_eq|by rewrite list_lookup_insert_ne]. }
    split; [|eexists; by rewrite Hl, decide_True].
    unfold kfs_mnt_for in *. erewrite (proj2 (list_find_Some _ _ m _)); [done|]. split_and!.
    + by rewrite Hl, decide_True.
    + unfold mnt_is. cbn. apply Z.eqb_refl.
    + intros j y Hj Hjm. rewrite Hl, decide_False in Hj by lia. apply fmap_None in Hnone.
      apply list_find_None in Hnone. rewrite Forall_lookup in Hnone. by apply (Hnone j).
Qed.

(** ** The image *)

(** The bitmap of an image of [n] files. *)
Definition base : bytes := kfs_bit_set (kfs_bit_set (kfs_bit_set (replicate 512 0) 0 1) 1 1) 2 1.
Definition image_map (n : nat) : bytes := set_run (64 * n) base 3 1.

Lemma base_map : block_ok base.
Proof. apply bit_set_ok; [|lia]. apply bit_set_ok; [|lia]. apply bit_set_ok; [|lia]. apply zero_block_ok. Qed.

Lemma base_marked j : 0 <= j -> marked base j = bool_decide (j <= 2).
Proof.
  intros Hj. unfold base. rewrite !bit_set_marked by (rewrite ?bit_set_length; done). case_bool_decide; repeat case_decide; try done; try lia.
  unfold marked. rewrite nth_lookup.
  destruct (replicate 512 0 !! Z.to_nat (j / 8)) as [x|] eqn:E; cbn [default from_option]; [|by rewrite Z.testbit_0_l].
  apply lookup_replicate in E as [-> _]. apply Z.testbit_0_l.
Qed.

Lemma image_map_ok n : block_ok (image_map n).
Proof. apply set_run_ok; [apply base_map|lia]. Qed.

Lemma image_marked n j : 3 + 64 * Z.of_nat n <= MAP_BITS -> 0 <= j < 3 + 64 * Z.of_nat n -> marked (image_map n) j = true.
Proof.
  intros Hn Hj. unfold image_map. rewrite set_run_marked; [|apply base_map|lia|lia|lia]. case_decide; [done|].
  rewrite base_marked by lia. apply bool_decide_eq_true. lia.
Qed.

Lemma super_length n : zlen (super_bytes n) = BLK_SIZE.
Proof. reflexivity. Qed.

(** The device of [st] holds an image of [ps], its root directory being [dir]. *)
Record image st bd (dir : bytes) (ps : list kfs_payload) : Prop := {
  im_disk : st_ok (disk st);
  im_total : 3 + 64 * zlen ps <= total_of bd;
  im_all : all_blocks st bd;
  im_super : blk st bd 0 = Some (super_bytes (zlen ps));
  im_map : blk st bd 1 = Some (image_map (length ps));
  im_root : blk st bd 2 = Some dir;
  im_ok : block_ok dir;
  im_entries : entries dir ≡ₚ ents ps 3;
  im_slots : forall k e, ents ps 3 !! k = Some e -> dirent dir (Z.of_nat k) = e;
  im_free : forall j, zlen ps <= j < KFS_DIRENTS -> ~ in_use (dirent dir j);
  im_data : forall k, 3 <= k < 3 + 64 * zlen ps -> blk st bd k = Some (image_block ps (k - 3))
}.

Lemma zero_unused j : 0 <= j < KFS_DIRENTS -> ~ in_use (dirent (replicate 512 0) j).
Proof.
  intros Hj Hu. assert (Hin : dirent (replicate 512 0) j ∈ entries (replicate 512 0)).
  { apply list_elem_of_filter. split; [done|]. eapply list_elem_of_lookup_2. by apply dirents_lookup. }
  rewrite zero_entries in Hin. by apply elem_of_nil in Hin.
Qed.

Lemma mkimage_ok st bd m ps : ready st bd m -> st_ok (disk st) -> all_blocks st bd -> 3 + 64 * zlen ps <= total_of bd ->
  zlen ps <= KFS_DIRENTS -> Forall payload_ok ps ->
  let st' := kfs_mkimage st bd ps in exists dir, image st' bd dir ps /\ mounted st' m bd (image_map (length ps)).
Proof.
  intros Hr Hok Hall Htot Hn Hps. unfold kfs_mkimage. fold (slot_for st bd).
  destruct (ready_slot st bd m Hr) as (st0 & bm0 & -> & Hm0 & Hd0 & _). pose proof (total_max bd).
  pose proof (zlen_nonneg ps) as Hz. rewrite <- Hd0 in Hok.
  assert (Hall0 : all_blocks st0 bd) by (unfold all_blocks, blk in *; by rewrite Hd0).
  change (kfs_bit_set (kfs_bit_set (kfs_bit_set (replicate 512 0) KFS_SUPER_BLOCK 1) KFS_BITMAP_BLOCK 1) KFS_ROOT_BLOCK 1) with base.
  change KFS_SUPER_BLOCK with 0. change (KFS_ROOT_BLOCK + 1) with 3. change KFS_ROOT_BLOCK with 2. change KFS_BITMAP_BLOCK with 1.
  pose proof (mounted_set _ _ _ _ base Hm0) as Hm1. set (st1 := set_bitmap st0 m base) in *.
  assert (Hall1 : all_blocks st1 bd) by exact Hall0. unfold MAP_BITS, KFS_DIRENTS in *.
  destruct (Hall1 0 ltac:(lia)) as [b0 Hb0].
  destruct (write_ok st1 bd 0 b0 (super_bytes (zlen ps)) Hok Hb0 (super_length _)) as (s1 & -> & Hs1 & Hk1). cbn [snd].
  set (st2 := st1 <| disk := s1 |>). assert (Hm2 : mounted st2 m bd base) by by apply mounted_disk.
  assert (Hb2 : forall k, blk st2 bd k = if decide (k = 0) then Some (super_bytes (zlen ps)) else blk st1 bd k)
    by (intros k; by apply (put_block_blk st1)).
  destruct (mkimage_files_ok (Z.to_nat 26) ps st2 m bd base (replicate 512 0) 0 3) as (dir & s3 & -> & Hdir & Hs3 & Hen & Hold & Hnew & Hk3);
    [unfold zlen in *; lia|exact Hm2|exact Hs1|exact Hps|apply zero_block_ok|lia|unfold KFS_DIRENTS; lia| |lia|unfold MAP_BITS; lia| |].
  { intros j Hj. by apply zero_unused. }
  { intros k Hk. rewrite Hb2. case_decide; [done|]. apply Hall1. lia. }
  fold (image_map (length ps)) in *. set (st3 := (set_bitmap st2 m (image_map (length ps))) <| disk := s3 |>).
  assert (Hm3 : mounted st3 m bd (image_map (length ps))) by (apply mounted_disk, (mounted_set _ _ _ base); exact Hm2).
  assert (Hb3 : forall k, blk st3 bd k = if decide (3 <= k < 3 + 64 * zlen ps) then Some (image_block ps (k - 3)) else blk st2 bd k).
  { intros k. unfold blk. change (disk st3) with s3. rewrite Hk3. case_decide as C; [by rewrite decide_True by apply C|].
    rewrite decide_False; [done|]. intros Hin. by apply C. }
  destruct (Hall1 2 ltac:(lia)) as [b2 Hr2].
  destruct (write_ok st3 bd 2 b2 dir) as (s4 & -> & Hs4 & Hk4); [exact Hs3|rewrite Hb3, Hb2, !decide_False by lia; exact Hr2|apply Hdir|].
  cbn [snd]. set (st4 := st3 <| disk := s4 |>). pose proof (mounted_disk _ _ _ _ s4 Hm3) as Hm4. fold st4 in Hm4.
  rewrite (mounted_bitmap _ _ _ _ Hm4).
  assert (Hb4 : forall k, blk st4 bd k = if decide (k = 2) then Some dir else blk st3 bd k) by (intros k; by apply (put_block_blk st3)).
  destruct (Hall1 1 ltac:(lia)) as [b1 Hr1].
  destruct (write_ok st4 bd 1 b1 (image_map (length ps))) as (s5 & -> & Hs5 & Hk5);
    [exact Hs4|rewrite Hb4, Hb3, Hb2, !decide_False by lia; exact Hr1|apply image_map_ok|].
  cbn [snd]. set (st5 := st4 <| disk := s5 |>). pose proof (mounted_disk _ _ _ _ s5 Hm4) as Hm5. fold st5 in Hm5.
  assert (Hb5 : forall k, blk st5 bd k = if decide (k = 1) then Some (image_map (length ps)) else blk st4 bd k) by (intros k; by apply (put_block_blk st4)).
  exists dir. split; [|exact Hm5]. clearbody st1 st2 st3. split.
  - exact Hs5.
  - lia.
  - intros k Hk. rewrite Hb5, Hb4, Hb3, Hb2. repeat case_decide; try done. by apply Hall1.
  - rewrite Hb5, Hb4, Hb3, Hb2, !decide_False by lia. by rewrite decide_True.
  - by rewrite Hb5, decide_True.
  - rewrite Hb5, Hb4, decide_False, decide_True by lia. done.
  - exact Hdir.
  - rewrite Hen, zero_entries, app_nil_r. done.
  - exact Hnew.
  - intros j Hj. rewrite Hold by lia. apply zero_unused. lia.
  - intros k Hk. rewrite Hb5, Hb4, Hb3, !decide_False, decide_True by lia. done.
Qed.

Lemma ents_facts ps : forall cur, Forall payload_ok ps -> 0 <= cur -> cur + 64 * zlen ps <= MAP_BITS ->
  concat (entry_files <$> ents ps cur) = seqZ cur (64 * zlen ps) /\ concat (entry_dirs <$> ents ps cur) = []
  /\ (fun e => cstr (de_name e)) <$> ents ps cur = p_name <$> ps.
Proof.
  induction ps as [|p ps IH]; intros cur Hps Hc Hmax; [done|]. inversion Hps as [|?? Hp Hps']; subst. rewrite zlen_cons in *.
  pose proof (zlen_nonneg ps). destruct (payload_entry p cur Hp) as (_ & _ & Hn & Hd & Hf); [unfold MAP_BITS in *; lia|].
  destruct (IH (cur + 64) Hps') as (I1 & I2 & I3); [lia|lia|]. cbn [ents fmap list_fmap concat]. change (cur + KFS_BLOCKS_PER_FILE) with (cur + 64).
  rewrite Hn, Hd, Hf. split_and!.
  - etransitivity; [apply (f_equal (seqZ cur 64 ++.)); exact I1|]. replace (64 * (1 + zlen ps)) with (64 + 64 * zlen ps) by lia.
    rewrite seqZ_app by lia. done.
  - exact I2.
  - f_equal. exact I3.
Qed.

(** An image with different names is a file system in order, with one directory. *)
Lemma image_fs_ok st m bd dir ps : image st bd dir ps -> mounted st m bd (image_map (length ps)) -> Forall payload_ok ps ->
  NoDup (p_name <$> ps) -> fs_ok st m bd [2] (image_map (length ps)).
Proof.
  intros [] Hm Hps Hn. pose proof (total_max bd). pose proof (zlen_nonneg ps).
  destruct (ents_facts ps 3 Hps ltac:(lia) ltac:(lia)) as (E1 & E2 & E3).
  assert (Ht : tbl_at st bd 2 = dir) by (unfold tbl_at; by rewrite im_root0).
  assert (Hc : forall F, coll F st bd [2] ≡ₚ concat (F <$> ents ps 3)).
  { intros F. unfold coll. cbn [fmap list_fmap concat]. rewrite app_nil_r, Ht. by apply concat_fmap_perm. }
  assert (Hown : owned st bd [2] ≡ₚ seqZ 0 (3 + 64 * zlen ps)).
  { unfold owned. rewrite Hc, E1, seqZ_app by lia. done. }
  split; try done.
  - apply image_map_ok.
  - lia.
  - intros d ->%list_elem_of_singleton. by rewrite Ht.
  - intros d ->%list_elem_of_singleton. rewrite Ht. unfold names. rewrite im_entries0, E3. done.
  - rewrite Hc, E2. done.
  - rewrite Hown. apply NoDup_seqZ.
  - intros j. rewrite Hown, elem_of_seqZ. intros Hj. split; [lia|]. apply image_marked; unfold zlen in *; lia.
Qed.

(** ** Mounting an image *)

(** The in-core file of entry [i] that starts at [cur]. *)
Definition file_of bd (p : kfs_payload) (i cur : Z) : kfs_file := mk_file bd cur (zlen (p_data p)) KFS_BLOCKS_PER_FILE 2 i.

(** What mounting adds for the payloads from entry [i] on, when every allocation
    succeeds and the next address is [np]. *)
Fixpoint mount_files bd (ps : list kfs_payload) (np i cur : Z) (fs : gmap Z kfs_file) : gmap Z kfs_file :=
  match ps with
  | [] => fs
  | p :: ps => mount_files bd ps (np + 2) (i + 1) (cur + 64) (<[np + 1 := file_of bd p i cur]> fs)
  end.

Fixpoint mount_nodes (ps : list kfs_payload) (parent np : Z) : list vnode :=
  match ps with
  | [] => []
  | p :: ps => VFile parent (p_name p) (np + 1) :: mount_nodes ps parent (np + 2)
  end.

Lemma mount_files_old bd ps : forall np i cur fs k, k <= np -> mount_files bd ps np i cur fs !! k = fs !! k.
Proof.
  induction ps as [|p ps IH]; intros np i cur fs k Hk; cbn [mount_files]; [done|]. rewrite IH by lia. apply lookup_insert_ne. lia.
Qed.

Lemma mount_files_new bd ps : forall np i cur fs k p, ps !! k = Some p ->
  mount_files bd ps np i cur fs !! (np + 1 + 2 * Z.of_nat k) = Some (file_of bd p (i + Z.of_nat k) (cur + 64 * Z.of_nat k)).
Proof.
  induction ps as [|q ps IH]; intros np i cur fs k p Hk; [by rewrite lookup_nil in Hk|]. cbn [mount_files]. destruct k as [|k].
  - cbn in Hk. simplify_eq. rewrite mount_files_old by lia. rewrite Z.mul_0_r, !Z.add_0_r. apply lookup_insert_eq.
  - cbn in Hk.
    replace (np + 1 + 2 * Z.of_nat (Datatypes.S k)) with (np + 2 + 1 + 2 * Z.of_nat k) by lia.
    rewrite (IH _ _ _ _ k p Hk). do 2 f_equal; lia.
Qed.

Lemma mount_nodes_lookup ps parent : forall np k p, ps !! k = Some p ->
  mount_nodes ps parent np !! k = Some (VFile parent (p_name p) (np + 1 + 2 * Z.of_nat k)).
Proof.
  induction ps as [|q ps IH]; intros np [|k] p Hk; cbn in Hk; simplify_eq.
  - cbn. by rewrite Z.add_0_r.
  - change (mount_nodes ps parent (np + 2) !! k = Some (VFile parent (p_name p) (np + 1 + 2 * Z.of_nat (Datatypes.S k)))).
    rewrite (IH _ k p Hk). do 2 f_equal. lia.
Qed.

Lemma mount_nodes_length ps parent : forall np, length (mount_nodes ps parent np) = length ps.
Proof. induction ps as [|p ps IH]; intros np; cbn; [done|]. by rewrite IH. Qed.

(** No allocation fails. *)
Definition plenty st : Prop := kmem st = [] /\ 0 < next_ptr st.

Lemma kmalloc_plenty st : plenty st -> kmalloc st = (next_ptr st, st <| next_ptr := next_ptr st + 1 |>) /\ plenty (st <| next_ptr := next_ptr st + 1 |>).
Proof. intros [Hk Hn]. destruct st. cbn in *. subst. unfold kmalloc. cbn. split; [done|]. split; cbn; [done|lia]. Qed.

(** The state after a file has been mounted. *)
Definition add_file st (parent : Z) (nm : bytes) (f : kfs_file) : kfs S :=
  st <| next_ptr := next_ptr st + 2 |> <| files := <[next_ptr st + 1 := f]> (files st) |>
     <| nodes := nodes st ++ [VFile parent nm (next_ptr st + 1)] |>.

Lemma mount_entry_file rec st bd dir parent i p cur : plenty st -> payload_ok p -> 0 <= cur < MAP_BITS -> 0 <= i < KFS_DIRENTS ->
  dirent dir i = mk_dirent (name_field (p_name p)) cur (zlen (p_data p)) ->
  mount_entry rec st bd 2 dir parent i = add_file st parent (p_name p) (file_of bd p i cur).
Proof.
  intros Hpl Hp Hc Hi He. unfold mount_entry. rewrite He. destruct (payload_entry p cur Hp Hc) as (_ & Hu & Hn & _ & _).
  destruct (de_start_file (name_field (p_name p)) cur (zlen (p_data p)) Hc) as (D1 & D2 & D3).
  set (e := mk_dirent _ cur _) in *. rewrite (proj2 (Z.eqb_neq _ _)) by exact Hu. rewrite D1, D2, Hn.
  unfold kfs_dup_name. destruct (kmalloc_plenty st Hpl) as [E1 Hpl1]. rewrite E1.
  rewrite (proj2 (Z.eqb_neq (next_ptr st) 0)) by (destruct Hpl; lia).
  destruct (kmalloc_plenty _ Hpl1) as [E2 _]. rewrite E2. cbn [next_ptr] in *.
  change (next_ptr (st <| next_ptr := next_ptr st + 1 |>)) with (next_ptr st + 1) in *.
  rewrite (proj2 (Z.eqb_neq (next_ptr st + 1) 0)) by (destruct Hpl; lia). destruct Hp as (_ & _ & Hl & _).
  rewrite take_ge by (unfold zlen in Hl; lia). unfold add_file, file_of. cbn [e de_size_bytes].
  assert (u8 i = i) as -> by (apply Z.mod_small; unfold KFS_DIRENTS in Hi; lia).
  destruct st as [a b c d np f]. cbn. by replace (np + 2) with (np + 1 + 1) by lia.
Qed.

Lemma mount_entries_ok rec bd dir parent n : forall ps st i cur, plenty st -> Forall payload_ok ps ->
  0 <= i -> i + Z.of_nat n = KFS_DIRENTS -> zlen ps <= Z.of_nat n -> 0 <= cur -> cur + 64 * zlen ps <= MAP_BITS ->
  (forall k e, ents ps cur !! k = Some e -> dirent dir (i + Z.of_nat k) = e) ->
  (forall j, i + zlen ps <= j < KFS_DIRENTS -> ~ in_use (dirent dir j)) ->
  mount_entries rec n st bd 2 dir parent i =
    st <| next_ptr := next_ptr st + 2 * zlen ps |> <| files := mount_files bd ps (next_ptr st) i cur (files st) |>
       <| nodes := nodes st ++ mount_nodes ps parent (next_ptr st) |>.
Proof.
  induction n as [|n IH]; intros ps st i cur Hpl Hps Hi Hin Hn Hc Hmax Hslot Hfree.
  - destruct ps; [|rewrite zlen_cons in Hn; pose proof (zlen_nonneg ps); lia]. cbn [mount_entries mount_files mount_nodes].
    rewrite app_nil_r. change (zlen (@nil kfs_payload)) with 0. rewrite Z.add_0_r. by destruct st.
  - cbn [mount_entries]. destruct ps as [|p ps].
    + unfold mount_entry at 1. rewrite (proj2 (Z.eqb_eq _ 0)).
      2: { apply dec_stable, Hfree. change (zlen (@nil kfs_payload)) with 0. lia. }
      change (zlen (@nil kfs_payload)) with 0 in *. apply (IH [] st (i + 1) cur); change (zlen (@nil kfs_payload)) with 0; try done; try lia.
      intros j Hj. apply Hfree. lia.
    + inversion Hps as [|?? Hp Hps']; subst. rewrite zlen_cons in *. pose proof (zlen_nonneg ps).
      rewrite (mount_entry_file rec st bd dir parent i p cur Hpl Hp);
        [|unfold MAP_BITS in *; lia|lia|rewrite <- (Hslot 0%nat _ eq_refl); f_equal; lia].
      rewrite (IH ps _ (i + 1) (cur + 64)); try done; try lia.
      * unfold add_file. destruct st as [a b c d np f]. cbn. rewrite <- app_assoc. by replace (np + 2 * (1 + zlen ps)) with (np + 2 + 2 * zlen ps) by lia.
      * destruct Hpl. split; [done|]. cbn. lia.
      * intros k e He. replace (i + 1 + Z.of_nat k) with (i + Z.of_nat (Datatypes.S k)) by lia. by apply Hslot.
      * intros j Hj. apply Hfree. lia.
Qed.

Lemma image_frame st st' bd dir ps : same_blocks st st' -> st_ok (disk st') -> image st bd dir ps -> image st' bd dir ps.
Proof.
  intros Hs Hok []. assert (Hb : forall k, blk st' bd k = blk st bd k) by (intros k; apply Hs).
  split; try done; try (by rewrite Hb). - intros k Hk. rewrite Hb. by apply im_all0. - intros k Hk. rewrite Hb. by apply im_data0.
Qed.

Lemma mounted_point st m bd bm mp : mounted st m bd bm ->
  mounted (st <| kfs_mnts := alter (fun x => x <| m_mountpoint := mp |>) m (kfs_mnts st) |>) m bd bm.
Proof.
  intros [H1 [mp' H2]]. split; [|exists mp; cbn; by rewrite list_lookup_alter_eq, H2]. by rewrite mnt_for_alter.
Qed.

Lemma mount_ok depth st m bd dir ps mp : image st bd dir ps -> ready st bd m -> plenty st -> Forall payload_ok ps ->
  NoDup (p_name <$> ps) -> zlen ps <= KFS_DIRENTS ->
  exists st', kfs_mount (Datatypes.S depth) st bd mp = (0, Some (mk_dir bd 2 mp), st') /\ same_blocks st st'
    /\ fs_ok st' m bd [2] (image_map (length ps)) /\ image st' bd dir ps
    /\ files st' = mount_files bd ps (next_ptr st + 1) 0 3 (files st)
    /\ nodes st' = nodes st ++ mount_nodes ps mp (next_ptr st + 1).
Proof.
  intros Him Hr Hpl Hps Hn Hz. pose proof Him as []. unfold kfs_mount. change KFS_SUPER_BLOCK with 0.
  destruct (read_ok st bd 0 _ im_disk0 im_super0) as (s1 & -> & Hs1 & Hk1).
  assert (ld32 (super_bytes (zlen ps)) 0 = KFS_MAGIC) as -> by reflexivity. rewrite Z.eqb_refl. cbn [negb].
  fold (slot_for (st <| disk := s1 |>) bd). assert (Hr1 : ready (st <| disk := s1 |>) bd m).
  { destruct Hr as [[bm Hm]|Hr]; [left; exists bm; by apply mounted_disk|by right]. }
  destruct (ready_slot _ bd m Hr1) as (st1 & bm1 & -> & Hm1 & Hd1 & Hf1 & Hn1 & Hkm1 & Hnp1).
  change KFS_BITMAP_BLOCK with 1. cbn [disk] in Hd1. change (disk (st <| disk := s1 |>)) with s1 in Hd1.
  destruct (read_ok st1 bd 1 (image_map (length ps))) as (s2 & -> & Hs2 & Hk2); [by rewrite Hd1|unfold blk; rewrite Hd1, Hk1; exact im_map0|].
  set (st2 := st1 <| disk := s2 |>). pose proof (mounted_disk _ _ _ _ s2 Hm1) as Hm2. fold st2 in Hm2.
  pose proof (mounted_set _ _ _ _ (image_map (length ps)) Hm2) as Hm3. set (st3 := set_bitmap st2 m (image_map (length ps))) in *.
  pose proof (mounted_point _ _ _ _ mp Hm3) as Hm4. set (st4 := st3 <| kfs_mnts := _ |>) in *.
  assert (Hpl4 : plenty st4) by (destruct Hpl as [P1 P2]; split; [by transitivity (kmem st)|change (0 < next_ptr st1); by rewrite Hnp1]).
  destruct (kmalloc_plenty st4 Hpl4) as [E5 Hpl5]. rewrite E5. assert (Hnp4 : next_ptr st4 = next_ptr st) by exact Hnp1.
  rewrite (proj2 (Z.eqb_neq (next_ptr st4) 0)) by (destruct Hpl; lia). set (st5 := st4 <| next_ptr := next_ptr st4 + 1 |>) in *.
  change KFS_ROOT_BLOCK with 2. cbn [kfs_mount_dir].
  assert (Hb5 : forall dev k, st_block (disk st5) dev k = st_block (disk st) dev k).
  { intros dev k. change (disk st5) with s2. by rewrite Hk2, Hd1, Hk1. }
  destruct (read_ok st5 bd 2 dir) as (s6 & -> & Hs6 & Hk6); [exact Hs2|unfold blk; rewrite Hb5; exact im_root0|].
  pose proof (total_max bd). change (Z.to_nat KFS_DIRENTS) with 26%nat.
  rewrite (mount_entries_ok _ bd dir mp 26 ps (st5 <| disk := s6 |>) 0 3);
    [|exact Hpl5|exact Hps|lia|done|exact Hz|lia|lia|exact im_slots0|rewrite Z.add_0_l; exact im_free0].
  set (st6 := st5 <| disk := s6 |>). set (st7 := st6 <| next_ptr := _ |> <| files := _ |> <| nodes := _ |>).
  assert (Hsame : same_blocks st st7) by (intros dev k; change (disk st7) with s6; by rewrite Hk6, Hb5).
  assert (Him7 : image st7 bd dir ps) by by eapply image_frame.
  assert (Hm7 : mounted st7 m bd (image_map (length ps))) by exact Hm4.
  exists st7. split_and!; [done|done|by eapply image_fs_ok|done| |].
  - change (files st7) with (mount_files bd ps (next_ptr st4 + 1) 0 3 (files st1)). by rewrite Hnp4, Hf1.
  - change (nodes st7) with (nodes st1 ++ mount_nodes ps mp (next_ptr st4 + 1)). by rewrite Hnp4, Hn1.
Qed.

Lemma ents_lookup ps : forall cur k p, ps !! k = Some p ->
  ents ps cur !! k = Some (mk_dirent (name_field (p_name p)) (cur + 64 * Z.of_nat k) (zlen (p_data p))).
Proof.
  induction ps as [|q ps IH]; intros cur [|k] p Hk; cbn in Hk; simplify_eq.
  - cbn. by rewrite Z.add_0_r.
  - cbn [ents lookup list_lookup]. change (ents ps (cur + KFS_BLOCKS_PER_FILE) !! k = Some (mk_dirent (name_field (p_name p)) (cur + 64 * Z.of_nat (Datatypes.S k)) (zlen (p_data p)))).
    rewrite (IH _ k p Hk). do 2 f_equal. unfold KFS_BLOCKS_PER_FILE. lia.
Qed.

Lemma ents_length ps : forall cur, length (ents ps cur) = length ps.
Proof. induction ps as [|p ps IH]; intros cur; cbn; [done|]. by rewrite IH. Qed.

Lemma entries_max tbl : (length (entries tbl) <= 26)%nat.
Proof. unfold entries. etransitivity; [apply length_filter|]. unfold dirents. by rewrite length_fmap, length_seq. Qed.

(** The file of a payload in the mounted image, and its bytes. *)
Lemma image_file st m bd dir ps k p : image st bd dir ps -> fs_ok st m bd [2] (image_map (length ps)) -> Forall payload_ok ps ->
  ps !! k = Some p -> let f := file_of bd p (Z.of_nat k) (3 + 64 * Z.of_nat k) in
  live_file st bd [2] f /\ take (Z.to_nat (size_bytes f)) (run_bytes st bd (start_block f)) = p_data p.
Proof.
  intros Him Hok Hps Hk f. pose proof Him as []. pose proof (total_max bd).
  assert (Hkl : Z.of_nat k < zlen ps) by (unfold zlen; pose proof (lookup_lt_Some _ _ _ Hk); lia).
  pose proof (proj1 (Forall_forall _ _) Hps p (list_elem_of_lookup_2 _ _ _ Hk)) as Hp.
  pose proof (ents_lookup ps 3 k p Hk) as He. apply im_slots0 in He.
  destruct (payload_entry p (3 + 64 * Z.of_nat k) Hp ltac:(lia)) as (_ & Hu & _).
  destruct (de_start_file (name_field (p_name p)) (3 + 64 * Z.of_nat k) (zlen (p_data p)) ltac:(lia)) as (D1 & D2 & _).
  assert (Ht : tbl_at st bd 2 = dir) by (unfold tbl_at; by rewrite im_root0).
  destruct Hp as (_ & _ & _ & Hd). pose proof (zlen_nonneg (p_data p)).
  assert (Hf : live_file st bd [2] f).
  { split; cbn [f file_of kf_bd dir_block dirent_idx start_block alloc_blocks size_bytes]; rewrite ?Ht, ?He; try done.
    - by apply list_elem_of_singleton.
    - split; [lia|]. assert (length (entries dir) = length (ents ps 3)) as Hl by by rewrite im_entries0.
      rewrite ents_length in Hl. pose proof (entries_max dir). unfold zlen, KFS_DIRENTS in *. lia. }
  split; [done|]. destruct (live_run _ _ _ _ _ _ Hok Hf) as (_ & _ & R3 & _).
  pose proof (run_bytes_length st bd _ im_disk0 R3) as HL. change (size_bytes f) with (zlen (p_data p)).
  change (start_block f) with (3 + 64 * Z.of_nat k) in *. unfold zlen in *. apply list_eq. intros o.
  destruct (decide (o < length (p_data p))%nat) as [Ho|Ho].
  2: { rewrite lookup_take_ge by lia. symmetry. apply lookup_ge_None_2. lia. }
  rewrite lookup_take_lt by lia. rewrite <- (Nat2Z.id o) at 1. rewrite run_bytes_lookup; [|done|done|lia].
  unfold tbl_at. change RUN with 32768 in *. unfold BLK_SIZE.
  rewrite im_data0 by (Z.div_mod_to_equations; lia). cbn [default from_option id]. unfold image_block, KFS_BLOCKS_PER_FILE.
  replace ((3 + 64 * Z.of_nat k + Z.of_nat o / 512 - 3) / 64) with (Z.of_nat k) by (Z.div_mod_to_equations; lia).
  replace ((3 + 64 * Z.of_nat k + Z.of_nat o / 512 - 3) mod 64) with (Z.of_nat o / 512) by (Z.div_mod_to_equations; lia).
  rewrite Nat2Z.id, Hk, slice_lookup by (Z.div_mod_to_equations; lia).
  replace (512 * Z.to_nat (Z.of_nat o / 512) + Z.to_nat (Z.of_nat o mod 512))%nat with o by (Z.div_mod_to_equations; lia).
  destruct (lookup_lt_is_Some_2 _ _ Ho) as [x E]. unfold bytes in *. rewrite E. reflexivity.
Qed.

End Image.

End KfsImage.
