(* ===== verification/KfsThm.v ===== *)
(** * kfs: its theorems

    The file system under every sequence of its operations, directories as maps from
    names to entries, files as strings of bytes, the image made at boot and mounted,
    and what happens to a file that is removed while open. *)

From stdpp Require Import base numbers list gmap relations.
From Stdlib Require Import ZArith Lia Bool.
From S2P Require Import Prelude Net BlockDev Buf BufInv BufThm BlockStore Kfs KfsDisk KfsInv KfsFile KfsImage.

Module KfsThm.

Import Buf BufInv BufThm Net BlockDev BlockStore Kfs KfsDisk KfsInv KfsFile KfsImage.

Section Theorems.
Context {S : Type} `{!BlockStore S} `{!StoreLaws S}.
Implicit Types (st : kfs S) (bd : block_device).

(** ** Mounting changes nothing on the device *)

Definition keeps st st' (m : nat) bd dirs bm : Prop := fs_ok st' m bd dirs bm /\ same_blocks st st'.

Lemma keeps_refl st m bd dirs bm : fs_ok st m bd dirs bm -> keeps st st m bd dirs bm.
Proof. done. Qed.

Lemma keeps_trans st1 st2 st3 m bd dirs bm : keeps st1 st2 m bd dirs bm -> keeps st2 st3 m bd dirs bm -> keeps st1 st3 m bd dirs bm.
Proof. intros [_ H1] [H2 H3]. split; [done|]. intros dev k. by rewrite H3. Qed.

Lemma keeps_frame st st1 st2 m bd dirs bm : keeps st st1 m bd dirs bm -> kfs_mnts st2 = kfs_mnts st1 -> disk st2 = disk st1 ->
  keeps st st2 m bd dirs bm.
Proof. intros [H1 H2] E1 E2. split; [by eapply fs_ok_frame; [| |exact H1]|]. intros dev k. by rewrite E2. Qed.

Lemma mount_entry_keeps rec st m bd dirs bm d tbl parent i : fs_ok st m bd dirs bm -> d ∈ dirs -> 0 <= i < KFS_DIRENTS ->
  tbl_at st bd d = tbl ->
  (forall st' x p, keeps st st' m bd dirs bm -> x ∈ dirs -> keeps st (rec st' x p) m bd dirs bm) ->
  keeps st (mount_entry rec st bd d tbl parent i) m bd dirs bm.
Proof.
  intros Hok Hd Hi Ht Hrec. pose proof (keeps_refl _ _ _ _ _ Hok) as H0. unfold mount_entry. case_if; [done|]. bool_prop.
  destruct (kfs_dup_name st _) as [nm st1] eqn:E1. pose proof (dup_name_frame st (cstr (de_name (dirent tbl i)))) as [F1 F2].
  rewrite E1 in F1, F2. cbn in F1, F2. pose proof (keeps_frame st st st1 _ _ _ _ H0 F1 F2) as H1. destruct nm as [nm|]; [|done].
  destruct (kfs_de_isdir (dirent tbl i)) eqn:Edir.
  - destruct (kmalloc st1) as [sub st2] eqn:E2. pose proof (kmalloc_frame st1) as [G1 G2]. rewrite E2 in G1, G2. cbn in G1, G2.
    pose proof (keeps_frame st st1 st2 _ _ _ _ H1 G1 G2) as H2. case_if; [done|].
    destruct (kmalloc st2) as [sd st3] eqn:E3. pose proof (kmalloc_frame st2) as [K1 K2]. rewrite E3 in K1, K2. cbn in K1, K2.
    pose proof (keeps_frame st st2 st3 _ _ _ _ H2 K1 K2) as H3. case_if; [done|]. cbv zeta. apply Hrec.
    + by apply (keeps_frame st st3).
    + subst tbl. destruct (entry_owned st m bd dirs bm d i Hok Hd Hi) as [_ Hs]; [done|]. apply Hs. unfold entry_dirs. rewrite Edir.
      by apply list_elem_of_singleton.
  - destruct (kmalloc st1) as [kf st2] eqn:E2. pose proof (kmalloc_frame st1) as [G1 G2]. rewrite E2 in G1, G2. cbn in G1, G2.
    pose proof (keeps_frame st st1 st2 _ _ _ _ H1 G1 G2) as H2. case_if; [done|]. by apply (keeps_frame st st2).
Qed.

Lemma mount_entries_keeps rec m bd dirs bm d tbl parent n : forall st i, fs_ok st m bd dirs bm -> d ∈ dirs -> 0 <= i ->
  i + Z.of_nat n <= KFS_DIRENTS -> tbl_at st bd d = tbl ->
  (forall st st' x p, keeps st st' m bd dirs bm -> x ∈ dirs -> keeps st (rec st' x p) m bd dirs bm) ->
  keeps st (mount_entries rec n st bd d tbl parent i) m bd dirs bm.
Proof.
  induction n as [|n IH]; intros st i Hok Hd Hi Hn Ht Hrec; cbn [mount_entries]; [by apply keeps_refl|].
  pose proof (mount_entry_keeps rec st m bd dirs bm d tbl parent i Hok Hd ltac:(lia) Ht (Hrec st)) as H1.
  eapply keeps_trans; [exact H1|]. destruct H1 as [Hok1 Hs1]. apply IH; try done; try lia. etransitivity; [by apply (same_tbl st)|done].
Qed.

Lemma mount_dir_keeps depth : forall st m bd dirs bm d parent, fs_ok st m bd dirs bm -> d ∈ dirs ->
  keeps st (kfs_mount_dir depth st bd d parent) m bd dirs bm.
Proof.
  induction depth as [|depth IH]; intros st m bd dirs bm d parent Hok Hd; cbn [kfs_mount_dir]; [by apply keeps_refl|].
  destruct (fo_tbl _ _ _ _ _ Hok d Hd) as [Hb _].
  destruct (read_ok st bd d _ (fo_disk _ _ _ _ _ Hok) Hb) as (s & -> & Hs & Hk).
  assert (H1 : keeps st (st <| disk := s |>) m bd dirs bm) by (split; [by apply fs_ok_read|done]).
  eapply keeps_trans; [exact H1|]. destruct H1 as [Hok1 Hs1]. apply mount_entries_keeps; try done.
  - by apply same_tbl.
  - intros st0 st' x p H0 Hx. eapply keeps_trans; [exact H0|]. apply IH; [apply H0|done].
Qed.

Lemma root_in st m bd dirs bm : fs_ok st m bd dirs bm -> 2 ∈ dirs.
Proof. intros Hok. rewrite (fo_tree _ _ _ _ _ Hok). apply elem_of_cons. by left. Qed.

Lemma mount_keeps depth st m bd dirs bm mp : fs_ok st m bd dirs bm -> fs_ok (snd (kfs_mount depth st bd mp)) m bd dirs bm.
Proof.
  intros Hok. unfold kfs_mount. change KFS_SUPER_BLOCK with 0. change KFS_BITMAP_BLOCK with 1. change KFS_ROOT_BLOCK with 2.
  pose proof (fo_total _ _ _ _ _ Hok). destruct (fo_all _ _ _ _ _ Hok 0 ltac:(lia)) as [b0 Hb0].
  destruct (read_ok st bd 0 b0 (fo_disk _ _ _ _ _ Hok) Hb0) as (s1 & -> & Hs1 & Hk1).
  pose proof (fs_ok_read _ _ _ _ _ s1 Hok Hs1 Hk1) as Hok1. set (st1 := st <| disk := s1 |>) in *. case_if; [done|].
  pose proof (fo_mnt _ _ _ _ _ Hok1) as Hm1. rewrite (proj1 Hm1).
  destruct (read_ok st1 bd 1 bm (fo_disk _ _ _ _ _ Hok1) (fo_saved _ _ _ _ _ Hok1)) as (s2 & -> & Hs2 & Hk2).
  pose proof (fs_ok_read _ _ _ _ _ s2 Hok1 Hs2 Hk2) as Hok2. set (st2 := st1 <| disk := s2 |>) in *. cbv zeta.
  rewrite (set_bitmap_id st2 m bd bm) by apply Hok2. set (st3 := st2 <| kfs_mnts := _ |>).
  assert (Hok3 : fs_ok st3 m bd dirs bm).
  { pose proof Hok2 as []. apply (fs_ok_marks st2 st3 m bd dirs bm bm); try done. by apply mounted_point. }
  destruct (kmalloc st3) as [root st4] eqn:E4. pose proof (kmalloc_frame st3) as [F1 F2]. rewrite E4 in F1, F2. cbn [snd] in F1, F2.
  assert (Hok4 : fs_ok st4 m bd dirs bm) by (by eapply fs_ok_frame; [| |exact Hok3]).
  case_if; [done|]. cbn [snd]. apply mount_dir_keeps; [done|by eapply root_in].
Qed.

(** ** Every sequence of operations *)

(** The directories, from the root. *)
Inductive is_dir st bd : Z -> Prop :=
| is_root : is_dir st bd KFS_ROOT_BLOCK
| is_sub d i : is_dir st bd d -> 0 <= i < KFS_DIRENTS -> in_use (dirent (tbl_at st bd d) i) ->
    kfs_de_isdir (dirent (tbl_at st bd d) i) = true -> is_dir st bd (kfs_de_start (dirent (tbl_at st bd d) i)).

Lemma is_dir_in st m bd dirs bm d : fs_ok st m bd dirs bm -> is_dir st bd d -> d ∈ dirs.
Proof.
  intros Hok. induction 1 as [|d i _ IH Hi Hu Hdir]; [by eapply root_in|].
  destruct (entry_owned _ _ _ _ _ _ _ Hok IH Hi Hu) as [_ Hs]. apply Hs. unfold entry_dirs. rewrite Hdir. by apply list_elem_of_singleton.
Qed.

(** The in-core file is that of an entry of some directory. *)
Definition open_file st bd (f : kfs_file) : Prop := is_dir st bd (dir_block f) /\ live_file st bd [dir_block f] f.

Lemma open_live st m bd dirs bm f : fs_ok st m bd dirs bm -> open_file st bd f -> live_file st bd dirs f.
Proof. intros Hok [Hd []]. split; try done. by eapply is_dir_in. Qed.

(** The in-core file's run of blocks lies on the device.  This holds of every file, also after
    it was removed. *)
Definition on_device bd (f : kfs_file) : Prop :=
  kf_bd f = bd /\ 0 <= start_block f /\ start_block f + KFS_BLOCKS_PER_FILE <= total_of bd /\ size_bytes f <= RUN.

(** An operation on a directory; an open or a write of a file that has not been removed; a read
    of a file that may have been; a mount; or something that leaves the disk and the mount table. *)
Inductive kfs_step bd : kfs S -> kfs S -> Prop :=
| step_creat st d name : d_bd d = bd -> is_dir st bd (d_dir_block d) -> no_nul name -> is_bytes name ->
    kfs_step bd st (snd (kfs_dir_creat st (Some d) name))
| step_mkdir st d name : d_bd d = bd -> is_dir st bd (d_dir_block d) -> no_nul name -> is_bytes name ->
    kfs_step bd st (snd (kfs_dir_mkdir st (Some d) name))
| step_unlink st d name : d_bd d = bd -> is_dir st bd (d_dir_block d) -> no_nul name ->
    kfs_step bd st (snd (kfs_dir_unlink st (Some d) name))
| step_rmdir st d name : d_bd d = bd -> is_dir st bd (d_dir_block d) -> no_nul name ->
    kfs_step bd st (snd (kfs_dir_rmdir st (Some d) name))
| step_open st kf f flags : files st !! kf = Some f -> open_file st bd f -> kfs_step bd st (snd (regfile_open st kf flags))
| step_read st c f len : files st !! c_kf c = Some f -> on_device bd f -> 0 <= c_pos c -> 0 <= len ->
    kfs_step bd st (snd (regfile_read st c len))
| step_write st c f buf : files st !! c_kf c = Some f -> open_file st bd f -> 0 <= c_pos c -> zlen buf < 2 ^ 63 ->
    kfs_step bd st (snd (regfile_write st c buf))
| step_mount st depth mp : kfs_step bd st (snd (kfs_mount depth st bd mp))
| step_other st st' : kfs_mnts st' = kfs_mnts st -> disk st' = disk st -> kfs_step bd st st'.

Lemma open_keeps st m bd dirs bm kf f flags : fs_ok st m bd dirs bm -> files st !! kf = Some f -> live_file st bd dirs f ->
  fs_ok (snd (regfile_open st kf flags)) m bd dirs bm.
Proof.
  intros Hok Hkf Hf. unfold regfile_open. destruct (kmalloc st) as [p st1] eqn:E. pose proof (kmalloc_frame st) as [F1 F2].
  assert (F3 : files st1 = files st) by (unfold kmalloc in E; destruct (scripted_next (kmem st)) as [[] ?]; by simplify_eq).
  rewrite E in F1, F2. cbn [snd] in F1, F2. assert (Hok1 : fs_ok st1 m bd dirs bm) by (by eapply fs_ok_frame; [| |exact Hok]).
  case_if; [done|]. cbn [snd]. case_if; [|done]. cbv zeta. unfold kf_of. rewrite F3, Hkf. cbn [default from_option id].
  assert (Ht : forall x, tbl_at st1 bd x = tbl_at st bd x) by (intros x; apply tbl_at_same; unfold blk; by rewrite F2).
  destruct Hf. destruct (push_size_ok (set_kf st1 kf (f <| size_bytes := 0 |>)) m bd dirs bm (f <| size_bytes := 0 |>) 0) as (s & -> & Hok2 & _);
    [by eapply fs_ok_frame; [| |exact Hok1]|done|done|done| |done|done].
  change (in_use (dirent (tbl_at st1 bd (dir_block f)) (dirent_idx f))). by rewrite Ht.
Qed.

Lemma read_keeps st m bd dirs bm c f len : fs_ok st m bd dirs bm -> files st !! c_kf c = Some f -> on_device bd f -> 0 <= c_pos c ->
  fs_ok (snd (regfile_read st c len)) m bd dirs bm.
Proof.
  intros Hok Hkf (Hbd & Hs & Hmax & Hsize) Hp. unfold regfile_read, kf_of. rewrite Hkf. cbn [default from_option id].
  rewrite Z.geb_leb. destruct (Z.leb_spec (size_bytes f) (c_pos c)); [done|]. pose proof (total_max bd).
  assert (0 <= c_pos c / BLK_SIZE < KFS_BLOCKS_PER_FILE) as Hblk.
  { split; [by apply Z.div_pos|]. apply Z.div_lt_upper_bound; [done|]. unfold RUN in Hsize. unfold KFS_BLOCKS_PER_FILE, BLK_SIZE in *. lia. }
  unfold MAP_BITS, KFS_BLOCKS_PER_FILE in *. rewrite u32_small by (unfold is_u32; lia). rewrite Hbd.
  destruct (fo_all _ _ _ _ _ Hok (start_block f + c_pos c / BLK_SIZE) ltac:(lia)) as [b Hb].
  destruct (read_ok st bd _ b (fo_disk _ _ _ _ _ Hok) Hb) as (s & -> & H1 & H2). by apply fs_ok_read.
Qed.

Lemma write_keeps st m bd dirs bm c f buf : fs_ok st m bd dirs bm -> files st !! c_kf c = Some f -> live_file st bd dirs f ->
  0 <= c_pos c -> zlen buf < 2 ^ 63 -> fs_ok (snd (regfile_write st c buf)) m bd dirs bm.
Proof.
  intros Hok Hkf Hf Hp Hb. destruct (decide (c_pos c < RUN)) as [Hlt|Hge].
  - destruct (regfile_write_ok st m bd dirs bm c f buf Hok Hf Hkf ltac:(lia) Hb) as (st' & -> & H & _). done.
  - unfold regfile_write, kf_of. rewrite Hkf. cbn [default from_option id]. rewrite (lf_alloc _ _ _ _ Hf).
    change (u32 (KFS_BLOCKS_PER_FILE * BLK_SIZE)) with RUN. rewrite Z.geb_leb, (proj2 (Z.leb_le _ _)) by lia. done.
Qed.

Definition in_order st (m : nat) bd : Prop := exists dirs bm, fs_ok st m bd dirs bm.

Lemma kfs_step_ok m bd st st' : kfs_step bd st st' -> in_order st m bd -> in_order st' m bd.
Proof.
  intros Hs (dirs & bm & Hok). destruct Hs as [st d name Hbd Hd Hn Hb|st d name Hbd Hd Hn Hb|st d name Hbd Hd Hn|st d name Hbd Hd Hn
    |st kf f flags Hkf Hf|st c f len Hkf Hf Hp Hl|st c f buf Hkf Hf Hp Hb|st depth mp|st st' E1 E2];
    try (eapply is_dir_in in Hd; [|exact Hok]); try (eapply open_live in Hf; [|exact Hok]).
  - destruct (creat_ok st m bd dirs bm d name Hok Hbd Hd Hn Hb) as (r & st' & bm' & -> & H & _). by exists dirs, bm'.
  - destruct (mkdir_ok st m bd dirs bm d name Hok Hbd Hd Hn Hb) as (r & st' & new & bm' & -> & H & _). by exists (new ++ dirs), bm'.
  - destruct (unlink_ok st m bd dirs bm d name Hok Hbd Hd Hn) as (r & st' & bm' & -> & H & _). by exists dirs, bm'.
  - destruct (rmdir_ok st m bd dirs bm d name Hok Hbd Hd Hn) as (r & st' & dirs' & bm' & -> & H & _). by exists dirs', bm'.
  - exists dirs, bm. by eapply open_keeps.
  - exists dirs, bm. by eapply read_keeps.
  - exists dirs, bm. by eapply write_keeps.
  - exists dirs, bm. by apply mount_keeps.
  - exists dirs, bm. by eapply fs_ok_frame; [| |exact Hok].
Qed.

Lemma names_inj (l : list kfs_dirent) : forall a b x y, NoDup ((fun e => cstr (de_name e)) <$> filter in_use l) ->
  l !! a = Some x -> l !! b = Some y -> in_use x -> in_use y -> cstr (de_name x) = cstr (de_name y) -> a = b.
Proof.
  induction l as [|z l IH]; intros a b x y Hn Ha Hb Hx Hy E; [by rewrite lookup_nil in Ha|].
  assert (Hel : forall k w, l !! k = Some w -> in_use w -> cstr (de_name w) ∈ (fun e => cstr (de_name e)) <$> filter in_use l).
  { intros k w Hk Hw. apply list_elem_of_fmap. exists w. split; [done|]. apply list_elem_of_filter. split; [done|]. by eapply list_elem_of_lookup_2. }
  rewrite filter_cons in Hn. destruct a as [|a], b as [|b]; cbn in Ha, Hb; simplify_eq; [done| | |].
  - rewrite decide_True in Hn by done. apply NoDup_cons in Hn as [Hn _]. destruct Hn. rewrite E. by eapply Hel.
  - rewrite decide_True in Hn by done. apply NoDup_cons in Hn as [Hn _]. destruct Hn. rewrite <- E. by eapply Hel.
  - f_equal. eapply IH; try done. case_decide; [by apply NoDup_cons in Hn as [_ ?]|done].
Qed.

(** Entry [i] of directory [d], and the blocks it owns. *)
Definition entry_at st bd (d i : Z) : Prop := is_dir st bd d /\ 0 <= i < KFS_DIRENTS /\ in_use (dirent (tbl_at st bd d) i).

Definition entry_blocks (e : kfs_dirent) : list Z :=
  if kfs_de_isdir e then [kfs_de_start e] else seqZ (kfs_de_start e) KFS_BLOCKS_PER_FILE.

Lemma entry_blocks_eq e j : j ∈ entry_blocks e -> j ∈ entry_dirs e \/ j ∈ entry_files e.
Proof. unfold entry_blocks, entry_dirs, entry_files. case_if; auto. Qed.

Lemma entry_blocks_owned st m bd dirs bm d i j : fs_ok st m bd dirs bm -> entry_at st bd d i ->
  j ∈ entry_blocks (dirent (tbl_at st bd d) i) -> 3 <= j < total_of bd /\ marked bm j = true.
Proof.
  intros Hok (Hd & Hi & Hu) Hj%entry_blocks_eq. eapply is_dir_in in Hd; [|exact Hok].
  destruct (entry_owned _ _ _ _ _ _ _ Hok Hd Hi Hu) as [Hfi Hdi].
  assert (Hin : j ∈ owned st bd dirs) by (destruct Hj as [Hj|Hj]; [by eapply owned_dirs, Hdi|by apply Hfi]).
  destruct (fo_owned _ _ _ _ _ Hok j Hin) as [Hr Hm]. split; [|done].
  pose proof (fo_nodup _ _ _ _ _ Hok) as Hn. unfold owned in Hn. apply NoDup_app in Hn as (_ & H01 & (_ & Hdf & _)%NoDup_app).
  assert (Hnot : j ∉ [0; 1]).
  { intros Hx. apply (H01 j Hx), elem_of_app. destruct Hj as [Hj|Hj]; [left; by apply Hdi|right; by eapply coll_elem]. }
  assert (j <> 2).
  { intros ->. destruct Hj as [Hj|Hj]; [by apply (Hdi 2)|]. apply (Hdf 2); [by eapply root_in|by eapply coll_elem]. }
  assert (j <> 0 /\ j <> 1) as [? ?] by (split; intros ->; apply Hnot; rewrite !elem_of_cons; auto). lia.
Qed.

Lemma entry_blocks_apart st m bd dirs bm d i d' i' : fs_ok st m bd dirs bm -> entry_at st bd d i -> entry_at st bd d' i' ->
  (d, i) <> (d', i') ->
  (forall j, j ∈ entry_blocks (dirent (tbl_at st bd d) i) -> j ∉ entry_blocks (dirent (tbl_at st bd d') i'))
  /\ (d = d' -> cstr (de_name (dirent (tbl_at st bd d) i)) <> cstr (de_name (dirent (tbl_at st bd d') i'))).
Proof.
  intros Hok (Hd & Hi & Hu) (Hd' & Hi' & Hu') Hne. eapply is_dir_in in Hd; [|exact Hok]. eapply is_dir_in in Hd'; [|exact Hok].
  pose proof (fo_nodup _ _ _ _ _ Hok) as Hn. unfold owned in Hn. apply NoDup_app in Hn as (_ & _ & (Hnd & Hdf & Hnf)%NoDup_app).
  rewrite (fo_tree _ _ _ _ _ Hok) in Hnd. apply NoDup_cons in Hnd as [_ Hnd].
  destruct (entry_owned _ _ _ _ _ _ _ Hok Hd Hi Hu) as [_ Hdi]. destruct (entry_owned _ _ _ _ _ _ _ Hok Hd' Hi' Hu') as [_ Hdi'].
  split.
  - intros j Hj%entry_blocks_eq Hj'%entry_blocks_eq. destruct Hj as [Hj|Hj], Hj' as [Hj'|Hj'].
    + by eapply (coll_disjoint entry_dirs _ _ _ _ _ d i d' i' j).
    + apply (Hdf j); [by apply Hdi|by apply (coll_elem _ _ _ dirs d' i')].
    + apply (Hdf j); [by apply Hdi'|by apply (coll_elem _ _ _ dirs d i)].
    + by eapply (coll_disjoint entry_files _ _ _ _ _ d i d' i' j).
  - intros <- Heq. assert (Hii : i <> i') by congruence. pose proof (fo_names _ _ _ _ _ Hok d Hd) as Hnm. revert Hnm. unfold names, entries.
    set (tbl := tbl_at st bd d) in *. intros Hnm.
    pose proof (dirents_lookup tbl i Hi) as L1. pose proof (dirents_lookup tbl i' Hi') as L2.
    apply (names_inj (dirents tbl) (Z.to_nat i) (Z.to_nat i') _ _ Hnm L1 L2 Hu Hu') in Heq. lia.
Qed.

(** C4: Whatever sequence of creat, mkdir, unlink, rmdir, open, read, write and mount runs on an
    image made by [kfs_mkimage], with names and allocation outcomes of any kind: every block of an
    entry lies on the device behind the superblock, the bitmap and the root directory and is marked
    in the bitmap, the bitmap on disk is the one in memory, no two entries share a block, and no two
    entries of a directory share a name.  The files written, or truncated by the open, are those that
    have not been removed (see [removed_file_shares_blocks] for the others); the files read may have
    been, and lie anywhere on the device. *)
Theorem kfs_no_shared_blocks st0 m bd ps st : ready st0 bd m -> st_ok (disk st0) -> all_blocks st0 bd ->
  3 + 64 * zlen ps <= total_of bd -> zlen ps <= KFS_DIRENTS -> Forall payload_ok ps -> NoDup (p_name <$> ps) ->
  rtc (kfs_step bd) (kfs_mkimage st0 bd ps) st ->
  exists bm, mounted st m bd bm /\ blk st bd KFS_BITMAP_BLOCK = Some bm
    /\ (forall d i j, entry_at st bd d i -> j ∈ entry_blocks (dirent (tbl_at st bd d) i) ->
          KFS_ROOT_BLOCK < j < total_of bd /\ marked bm j = true)
    /\ (forall d i d' i', entry_at st bd d i -> entry_at st bd d' i' -> (d, i) <> (d', i') ->
          (forall j, j ∈ entry_blocks (dirent (tbl_at st bd d) i) -> j ∉ entry_blocks (dirent (tbl_at st bd d') i'))
          /\ (d = d' -> cstr (de_name (dirent (tbl_at st bd d) i)) <> cstr (de_name (dirent (tbl_at st bd d') i')))).
Proof.
  intros Hr Hok Hall Htot Hn Hps Hnd Hrun.
  destruct (mkimage_ok st0 bd m ps Hr Hok Hall Htot Hn Hps) as (dir & Him & Hm).
  assert (H : in_order st m bd).
  { assert (H0 : in_order (kfs_mkimage st0 bd ps) m bd) by (eexists _, _; by eapply image_fs_ok).
    clear -Hrun H0. induction Hrun as [|x y z Hxy _ IH]; [done|]. apply IH. by eapply kfs_step_ok. }
  destruct H as (dirs & bm & H). exists bm. split_and!; [apply H|apply H| |].
  - intros d i j Hd Hj. destruct (entry_blocks_owned _ _ _ _ _ _ _ _ H Hd Hj). split; [unfold KFS_ROOT_BLOCK; lia|done].
  - intros d i d' i'. by apply entry_blocks_apart with m dirs bm.
Qed.

(** ** Directories as maps *)

(** The entries of a directory by name. *)
Definition dir_map (tbl : bytes) : gmap (list Z) kfs_dirent := list_to_map ((fun e => (cstr (de_name e), e)) <$> entries tbl).

Lemma dir_map_fst (l : list kfs_dirent) : ((fun e => (cstr (de_name e), e)) <$> l).*1 = (fun e => cstr (de_name e)) <$> l.
Proof. rewrite <- list_fmap_compose. done. Qed.

Lemma dir_map_perm tbl (l : list kfs_dirent) : NoDup (names tbl) -> entries tbl ≡ₚ l ->
  dir_map tbl = list_to_map ((fun e => (cstr (de_name e), e)) <$> l).
Proof. intros Hn Hp. apply list_to_map_proper; [by rewrite dir_map_fst|by rewrite Hp]. Qed.

Lemma dir_map_Some tbl name e : NoDup (names tbl) -> dir_map tbl !! (name : list Z) = Some e <-> e ∈ entries tbl /\ cstr (de_name e) = name.
Proof.
  intros Hn. unfold dir_map. split.
  - intros H. apply elem_of_list_to_map_2, list_elem_of_fmap in H as (x & Hx & He). by simplify_eq.
  - intros [He <-]. apply elem_of_list_to_map_1; [by rewrite dir_map_fst|]. apply list_elem_of_fmap. by exists e.
Qed.

Lemma dir_map_None tbl name : name ∉ names tbl <-> dir_map tbl !! (name : list Z) = None.
Proof.
  unfold dir_map, names. rewrite <- dir_map_fst. split; [apply not_elem_of_list_to_map_1|apply not_elem_of_list_to_map_2].
Qed.

Lemma dir_map_add tbl i e : block_ok tbl -> 0 <= i < KFS_DIRENTS -> entry_ok e -> ~ in_use (dirent tbl i) -> in_use e ->
  NoDup (names tbl) -> cstr (de_name e) ∉ names tbl -> dir_map (set_dirent tbl i e) = <[cstr (de_name e) := e]> (dir_map tbl).
Proof.
  intros Hb Hi He Hu Hue Hn Hnot. pose proof (entries_set tbl i e Hb Hi He) as Hp.
  rewrite (decide_False (P := in_use (dirent tbl i))), decide_True, app_nil_r in Hp by done.
  by rewrite (dir_map_perm _ _ (names_add tbl i e Hb Hi He Hu Hn (fun _ => Hnot)) Hp).
Qed.

Lemma dir_map_remove tbl i : block_ok tbl -> 0 <= i < KFS_DIRENTS -> in_use (dirent tbl i) -> NoDup (names tbl) ->
  dir_map (set_dirent tbl i no_dirent) = delete (cstr (de_name (dirent tbl i))) (dir_map tbl).
Proof.
  intros Hb Hi Hu Hn. pose proof (entries_set tbl i no_dirent Hb Hi no_dirent_ok) as Hp.
  assert (Hnu : ~ in_use no_dirent) by (intros Hx; by destruct Hx).
  rewrite decide_True, (decide_False (P := in_use no_dirent)), app_nil_l in Hp by done.
  rewrite Permutation_app_comm in Hp. symmetry in Hp. rewrite (dir_map_perm _ _ Hn Hp). cbn [fmap list_fmap app list_to_map foldr fst snd].
  fold (dir_map (set_dirent tbl i no_dirent)). rewrite delete_insert_id; [done|]. apply dir_map_None.
  intros Hin. unfold names in *. rewrite Hp, fmap_app in Hn. apply NoDup_app in Hn as (_ & Hx & _).
  eapply Hx; [|exact Hin]. by apply list_elem_of_singleton.
Qed.

(** What [kfs_dir_find_named] finds. *)
Lemma find_named_map tbl name : block_ok tbl -> NoDup (names tbl) -> no_nul name -> zlen name < 11 ->
  let i := kfs_dir_find_named tbl name in
  if decide (0 <= i) then 0 <= i < KFS_DIRENTS /\ in_use (dirent tbl i) /\ cstr (de_name (dirent tbl i)) = name
    /\ dir_map tbl !! (name : list Z) = Some (dirent tbl i)
  else dir_map tbl !! (name : list Z) = None.
Proof.
  intros Hb Hn Hnul Hl i. case_decide as E.
  - destruct (find_named_use tbl name Hb Hnul E) as (Hi & Hu & Hnm). do 3 (split; [done|]). apply dir_map_Some; [done|]. split; [|done].
    apply list_elem_of_filter. split; [done|]. eapply list_elem_of_lookup_2. by apply dirents_lookup.
  - apply dir_map_None. intros (j & Hj & Hu & Hnm)%names_elem; [|done].
    destruct (kfs_dir_find_named_spec tbl name Hb Hnul Hl) as [[_ Ha]|(? & _)]; [by apply (Ha j)|lia].
Qed.

(** A directory has a slot for [name] just if the name is short and new and the table not full. *)
Lemma find_slot_map tbl name : block_ok tbl -> NoDup (names tbl) -> no_nul name -> is_bytes name ->
  0 <= kfs_dir_find_slot tbl name <->
  zlen name < 11 /\ dir_map tbl !! (name : list Z) = None /\ Z.of_nat (size (dir_map tbl)) < KFS_DIRENTS.
Proof.
  intros Hb Hnd Hn Hby. assert (Hsz : size (dir_map tbl) = length (entries tbl)).
  { unfold dir_map. rewrite map_size_list_to_map by by rewrite dir_map_fst. apply length_fmap. }
  rewrite Hsz, <- dir_map_None. assert (Hl26 : length (dirents tbl) = 26%nat) by by unfold dirents; rewrite length_fmap, length_seq.
  split.
  - intros Hs. destruct (slot_fresh tbl name Hb Hn Hby Hs) as (Hi & Hfree & Hl & Hnew). split_and!; try done.
    pose proof (dirents_lookup tbl _ Hi) as Hlk%list_elem_of_lookup_2.
    pose proof (length_filter_lt in_use (dirents tbl) _ Hlk Hfree). unfold entries, KFS_DIRENTS. lia.
  - intros (Hl & Hnew & Hroom). destruct (kfs_dir_find_slot_spec tbl name Hb Hn) as [[_ [?|[Hin|Hall]]]|(_ & _ & (? & _))]; [lia| | |lia].
    + destruct Hin. intros j Hj Hu Ej. apply Hnew, list_elem_of_fmap. exists (dirent tbl j). split; [done|].
      apply list_elem_of_filter. split; [done|]. by eapply list_elem_of_lookup_2, dirents_lookup.
    + assert (Hfull : Forall in_use (dirents tbl)).
      { apply Forall_lookup. intros k x Hk. pose proof (lookup_lt_Some _ _ _ Hk). pose proof (dirents_lookup tbl (Z.of_nat k)) as Hx.
        rewrite Nat2Z.id, Hk in Hx. specialize (Hx ltac:(unfold KFS_DIRENTS; lia)). simplify_eq. apply Hall. unfold KFS_DIRENTS. lia. }
      assert (E : entries tbl = dirents tbl) by (unfold entries; clear -Hfull; induction Hfull; [done|]; rewrite filter_cons_True; by f_equal).
      rewrite E, Hl26 in Hroom. done.
Qed.

(** Making an entry, as seen in the map: with a short and new name, room in the table and [count]
    free blocks in a row, the entry is added, the first such run its blocks, and the result is [0]
    just if there is memory too; otherwise the map is as before and the result [-1]. *)
Definition adds (M M' : gmap (list Z) kfs_dirent) (bm : bytes) (total : Z) name (count : Z) mark (mem : bool) (r : Z) : Prop :=
  let room := zlen name < 11 /\ M !! (name : list Z) = None /\ Z.of_nat (size M) < KFS_DIRENTS
              /\ exists s, KFS_ROOT_BLOCK < s /\ fits bm count total s in
  (room -> exists start, first_run bm count total start
     /\ M' = <[name : list Z := mk_dirent (name_field name) (mark start) 0]> M /\ r = if mem then 0 else -1)
  /\ (~ room -> M' = M /\ r = -1).

(** Removing an entry of the kind [isdir]: [0] just if there is one and [busy] does not hold of it. *)
Definition removes (M M' : gmap (list Z) kfs_dirent) name (isdir : bool) (busy : Z -> bool) (r : Z) : Prop :=
  let ok := match M !! (name : list Z) with
            | Some e => (zlen name <? 11) && Bool.eqb (kfs_de_isdir e) isdir && negb (busy (kfs_de_start e))
            | None => false
            end in
  if ok : bool then r = 0 /\ M' = delete (name : list Z) M else r = -1 /\ M' = M.

Lemma made_adds st st' m bd dirs bm d name count mark k r : fs_ok st m bd dirs bm -> d ∈ dirs -> no_nul name -> is_bytes name -> name <> [] ->
  0 < count -> 0 < next_ptr st -> (forall b, 3 <= b < MAP_BITS -> is_u32 (mark b)) ->
  made st st' bd bm dirs d name count mark k r ->
  adds (dir_map (tbl_at st bd d)) (dir_map (tbl_at st' bd d)) bm (total_of bd) name count mark (memory st k) r.
Proof.
  intros Hok Hd Hn Hby Hne Hc Hp Hmark Hmade. destruct (fo_tbl _ _ _ _ _ Hok d Hd) as [_ Hb].
  pose proof (find_slot_map _ _ Hb (fo_names _ _ _ _ _ Hok d Hd) Hn Hby) as Hiff. unfold adds. set (room := _ /\ _ /\ _ /\ _).
  destruct Hmade as [(-> & Hsame & Hwhy)|(Hr & Hslot & start & Hstart & Hset)].
  - assert (Hno : ~ room).
    { intros (H1 & H2 & H3 & s & Hs & Hf). destruct Hwhy as [Hlt|Hnone]; [|by apply (Hnone s); unfold KFS_ROOT_BLOCK in Hs; [lia|]].
      pose proof (proj2 Hiff (conj H1 (conj H2 H3))). lia. }
    split; [done|]. intros _. by rewrite Hsame, decide_True.
  - pose proof (proj1 Hiff Hslot) as (R1 & R2 & R3). pose proof Hstart as (S1 & S2 & _).
    split; [intros _|intros Hno; destruct Hno; split_and!; try done; exists start; split; [unfold KFS_ROOT_BLOCK; lia|done]].
    exists start. split; [done|]. split; [|by apply Hr]. rewrite Hset, decide_True by done.
    destruct (slot_fresh _ _ Hb Hn Hby Hslot) as (Hi & Hfree & Hl & Hnew). destruct (name_field_ok name Hn Hby Hl) as (N1 & N2 & N3).
    set (tbl := tbl_at st bd d) in *. set (e := mk_dirent _ (mark start) 0). pose proof (total_max bd). destruct S2 as [S2 _].
    assert (He : entry_ok e) by (do 2 (split; [done|]); split; [apply Hmark; lia|done]).
    assert (Hu : in_use e).
    { unfold in_use. cbn. rewrite <- N3 in Hne. destruct (name_field name) as [|c nf]; [done|]. cbn in Hne. change (c <> 0). by intros ->. }
    rewrite dir_map_add; try done; [by cbn [e de_name]; rewrite N3|by apply (fo_names _ _ _ _ _ Hok)|by cbn [e de_name]; rewrite N3].
Qed.

Lemma removed_removes st st' m bd dirs dirs' bm d name isdir busy r : fs_ok st m bd dirs bm -> d ∈ dirs -> d ∈ dirs' -> no_nul name ->
  (forall tbl i, tbl = tbl_at st bd d -> i = kfs_dir_find_named tbl name -> 0 <= i -> kfs_de_isdir (dirent tbl i) = isdir ->
     r = 0 -> busy (kfs_de_start (dirent tbl i)) = false) ->
  removed st st' bd dirs' d name isdir (fun b => busy b = true) r ->
  removes (dir_map (tbl_at st bd d)) (dir_map (tbl_at st' bd d)) name isdir busy r.
Proof.
  intros Hok Hd Hd' Hn Hidle Hrem. destruct (fo_tbl _ _ _ _ _ Hok d Hd) as [_ Hb]. pose proof (fo_names _ _ _ _ _ Hok d Hd) as Hnd.
  unfold removed, removes in *. set (tbl := tbl_at st bd d) in *. set (i := kfs_dir_find_named tbl name) in *.
  destruct (decide (zlen name < 11)) as [Hl|Hl].
  - pose proof (find_named_map tbl name Hb Hnd Hn Hl) as Hfind. fold i in Hfind. cbv zeta in Hfind. case_decide as Ei.
    + destruct Hfind as (Hi & Hu & Hnm & ->). rewrite (proj2 (Z.ltb_lt _ _) Hl). cbn [andb].
      destruct Hrem as [(-> & Hsame & Hwhy)|(-> & _ & Hk & Hset)].
      * rewrite (Hsame d Hd'), (decide_True _ _ eq_refl). destruct Hwhy as [?|[-> | ->]]; [lia|by destruct isdir|]. by rewrite andb_false_r.
      * rewrite (Hidle tbl i) by done. rewrite Hk, eqb_reflx. cbn [andb negb]. split; [done|].
        rewrite Hset, decide_True by done. rewrite dir_map_remove by done. by rewrite Hnm.
    + rewrite Hfind. destruct Hrem as [(-> & Hsame & _)|(_ & ? & _)]; [|lia]. by rewrite (Hsame d Hd'), (decide_True _ _ eq_refl).
  - assert (Ei : i = -1) by (apply find_named_long; [done|lia]). rewrite (proj2 (Z.ltb_ge _ _)) by lia. cbn [andb].
    destruct Hrem as [(-> & Hsame & _)|(_ & ? & _)]; [|lia]. rewrite (Hsame d Hd'), (decide_True _ _ eq_refl). by destruct (dir_map tbl !! _).
Qed.

Lemma made_others st st' bd bm dirs d name count mark k r x : made st st' bd bm dirs d name count mark k r -> x ∈ dirs -> x <> d ->
  tbl_at st' bd x = tbl_at st bd x.
Proof. intros [(_ & H & _)|(_ & _ & start & _ & H)] Hx Hne; by rewrite H, decide_False. Qed.

Lemma removed_others st st' bd dirs d name isdir busy r x : removed st st' bd dirs d name isdir busy r -> x ∈ dirs -> x <> d ->
  tbl_at st' bd x = tbl_at st bd x.
Proof. intros [(_ & H & _)|(_ & _ & _ & H)] Hx Hne; by rewrite H, decide_False. Qed.


(** ** Files *)

(** C26: A write to an open file whose entry has not been removed overwrites just the bytes at the
    cursor, as far as the file's run of blocks goes, moves the cursor behind them, and makes the
    file longer if it ends there; every other such file keeps its bytes and its size, and at the
    end of the run nothing is written. *)
Theorem kfs_write_spec st m bd dirs bm c f buf : fs_ok st m bd dirs bm -> live_file st bd dirs f -> files st !! c_kf c = Some f ->
  0 <= c_pos c -> zlen buf < 2 ^ 63 ->
  (RUN <= c_pos c -> regfile_write st c buf = (-1, c, st))
  /\ (c_pos c < RUN ->
     let n := Z.min (zlen buf) (RUN - c_pos c) in let f' := f <| size_bytes := Z.max (size_bytes f) (c_pos c + n) |> in
     exists st', regfile_write st c buf = (n, c <| c_pos := c_pos c + n |>, st')
       /\ fs_ok st' m bd dirs bm /\ live_file st' bd dirs f' /\ files st' = <[c_kf c := f']> (files st)
       /\ run_bytes st' bd (start_block f) = poke (run_bytes st bd (start_block f)) (c_pos c) (take (Z.to_nat n) buf)
       /\ forall g, live_file st bd dirs g -> (dir_block g, dirent_idx g) <> (dir_block f, dirent_idx f) ->
            live_file st' bd dirs g /\ run_bytes st' bd (start_block g) = run_bytes st bd (start_block g)).
Proof.
  intros Hok Hf Hkf Hp Hb. split.
  - intros Hge. unfold regfile_write, kf_of. rewrite Hkf. cbn [default from_option id]. rewrite (lf_alloc _ _ _ _ Hf).
    change (u32 (KFS_BLOCKS_PER_FILE * BLK_SIZE)) with RUN. by rewrite Z.geb_leb, (proj2 (Z.leb_le _ _)).
  - intros Hlt. destruct (regfile_write_ok st m bd dirs bm c f buf Hok Hf Hkf ltac:(lia) Hb) as (st' & E & Hok' & Hf' & Hfi & Hr & Hk & Hi).
    exists st'. split_and!; try done. intros g Hg Hne. split.
    + assert (He : dirent (tbl_at st' bd (dir_block g)) (dirent_idx g) = dirent (tbl_at st bd (dir_block g)) (dirent_idx g)).
      { destruct (decide (dir_block g = dir_block f)) as [Ed|Ed].
        - rewrite Ed. apply Hi; [apply (lf_idx _ _ _ _ Hg)|]. congruence.
        - rewrite (tbl_at_same st st'); [done|]. apply Hk; [|done]. intros Hx.
          destruct (live_run _ _ _ _ _ _ Hok Hf) as (_ & _ & _ & R4). apply (R4 _ Hx), (lf_dir _ _ _ _ Hg). }
      destruct Hg. split; rewrite ?He; done.
    + unfold run_bytes, run_blocks. f_equal. apply list_fmap_ext. intros j k Hj%list_elem_of_lookup_2%elem_of_seqZ. apply tbl_at_same, Hk.
      * eapply live_disjoint; [exact Hok|exact Hg|exact Hf|done|lia].
      * intros Ed. destruct (live_run _ _ _ _ _ _ Hok Hg) as (_ & _ & _ & R4). apply (R4 (start_block g + k)); [lia|]. rewrite Ed. apply (lf_dir _ _ _ _ Hf).
Qed.

(** Bytes written to a file are read back: after a write that fits, reading from where it was
    written to the end of the file, in pieces of any length, ends and gives the bytes written and
    then what the file held behind them. *)
Theorem kfs_write_read_back st m bd dirs bm c f buf len fuel : fs_ok st m bd dirs bm -> live_file st bd dirs f ->
  files st !! c_kf c = Some f -> 0 <= c_pos c < RUN -> c_pos c + zlen buf <= RUN -> 0 < len -> RUN < Z.of_nat fuel ->
  let '(n, c', st') := regfile_write st c buf in
  n = zlen buf /\ c_pos c' = c_pos c + zlen buf /\ exists c2 st2, read_to_end fuel st' c len =
    (Some (buf ++ drop (Z.to_nat (c_pos c + zlen buf)) (take (Z.to_nat (size_bytes f)) (run_bytes st bd (start_block f)))), c2, st2).
Proof.
  intros Hok Hf Hkf Hp Hb Hlen Hfuel. pose proof (zlen_nonneg buf). assert (HRUN : RUN = 32768) by done.
  destruct (regfile_write_ok st m bd dirs bm c f buf Hok Hf Hkf ltac:(lia) ltac:(lia)) as (st' & -> & Hok' & Hf' & Hfi & Hr & _).
  assert (Hn : room (c_pos c) (zlen buf) = zlen buf) by (unfold room; lia). rewrite Hn in *. split; [done|]. split; [done|].
  set (f' := f <| size_bytes := Z.max (size_bytes f) (c_pos c + zlen buf) |>) in *. pose proof (lf_size _ _ _ _ Hf').
  destruct (read_to_end_ok fuel st' m bd dirs bm c f' len Hok' Hf') as (c2 & s & -> & _ & _);
    [rewrite Hfi; apply lookup_insert_eq|lia|lia|lia|].
  eexists _, _. do 3 f_equal. change (start_block f') with (start_block f). rewrite Hr.
  destruct (live_run _ _ _ _ _ _ Hok Hf) as (_ & _ & R3 & _).
  pose proof (run_bytes_length st bd _ (fo_disk _ _ _ _ _ Hok) R3) as HL. set (R := run_bytes st bd (start_block f)) in *. clearbody R.
  change (size_bytes f') with (Z.max (size_bytes f) (c_pos c + zlen buf)). pose proof (lf_size _ _ _ _ Hf). unfold poke, zlen, bytes in *.
  rewrite (take_ge buf) by lia. rewrite !skipn_firstn_comm, drop_app_length' by (rewrite length_take; lia).
  rewrite take_app_ge by lia. do 2 f_equal; [lia|]. f_equal. lia.
Qed.

(** ** Images *)

(** C28: An image made by [kfs_mkimage] is mounted as it was given: mounting the device in any state
    whose disk holds the same blocks, every allocation succeeding, yields one file for each payload
    under its name, and reading that file from the start to its end, in pieces of any length, ends
    and gives the payload's bytes. *)
Theorem kfs_image_roundtrip st0 m0 bd ps depth st m mp len fuel : ready st0 bd m0 -> st_ok (disk st0) -> all_blocks st0 bd ->
  3 + 64 * zlen ps <= total_of bd -> zlen ps <= KFS_DIRENTS -> Forall payload_ok ps -> NoDup (p_name <$> ps) ->
  same_blocks (kfs_mkimage st0 bd ps) st -> st_ok (disk st) -> ready st bd m -> plenty st -> 0 < len -> RUN < Z.of_nat fuel ->
  exists st' fs, kfs_mount (Datatypes.S depth) st bd mp = (0, Some (mk_dir bd KFS_ROOT_BLOCK mp), st')
    /\ nodes st' = nodes st ++ fs /\ length fs = length ps
    /\ forall k p, ps !! k = Some p -> exists kf c2 st2, fs !! k = Some (VFile mp (p_name p) kf)
         /\ read_to_end fuel st' (mk_cursor kf 0) len = (Some (p_data p), c2, st2).
Proof.
  intros Hr0 Hok0 Hall Htot Hn Hps Hnd Hsame Hok Hr Hpl Hlen Hfuel.
  destruct (mkimage_ok st0 bd m0 ps Hr0 Hok0 Hall Htot Hn Hps) as (dir & Him & _).
  destruct (mount_ok depth st m bd dir ps mp) as (st' & E & Hs' & Hok' & Him' & Hf' & Hn'); try done; [by eapply image_frame|].
  exists st', (mount_nodes ps mp (next_ptr st + 1)). split; [done|]. split; [done|]. split; [apply mount_nodes_length|]. intros k p Hk.
  destruct (image_file st' m bd dir ps k p Him' Hok' Hps Hk) as [Hlive Hdata]. set (f := file_of _ _ _ _) in *.
  exists (next_ptr st + 1 + 1 + 2 * Z.of_nat k).
  destruct (read_to_end_ok fuel st' m bd [2] (image_map (length ps)) (mk_cursor (next_ptr st + 1 + 1 + 2 * Z.of_nat k) 0) f len) as (c2 & s & -> & _);
    try done.
  { cbn [c_kf]. rewrite Hf'. rewrite (mount_files_new _ _ _ _ _ _ k p Hk). done. }
  { pose proof (lf_size _ _ _ _ Hlive). cbn [c_pos]. lia. }
  eexists _, _. split; [by apply mount_nodes_lookup|]. rewrite Hdata. done.
Qed.

End Theorems.

(** ** On the buffer cache and the memory disk *)

#[local] Existing Instance no_nvme.

(** The machine at boot: nothing mounted, the cache empty, the memory disks there. *)
Definition boot : kfs (cache (kdevs unit)) :=
  mk_kfs (replicate MAX_KFS_MOUNTS (mk_mnt None 0 (replicate 512 0))) ∅ [] [] 1 (buf_init (cold demo_devs) demo_pages).

Definition ram0 : block_device := mk_bd 1 RAMDISK0_BLOCKS (MKDEV BDEV_MAJ_RAMDISK 0).

Lemma boot_ok : st_ok (disk boot).
Proof.
  eexists _, _. split; [apply (buf_init_ok demo_devs demo_pages demo_devs_ok eq_refl demo_pages_ok)|done].
Qed.

Lemma boot_ready : ready boot ram0 0.
Proof. right. split; [reflexivity|]. eexists. reflexivity. Qed.

Lemma boot_blocks : all_blocks boot ram0.
Proof.
  intros n Hn. change (total_of ram0) with 2048 in Hn. change (blk boot ram0 n) with (cached_block (disk boot) (bd_dev ram0) n).
  unfold cached_block. rewrite decide_True by (split; [right; by left|lia]). change (disk boot) with (buf_init (cold demo_devs) demo_pages).
  rewrite (buf_init_devs demo_devs demo_pages eq_refl demo_pages_ok). change (is_Some (block ∅ 2048 n)).
  unfold block. rewrite (proj2 (Z.leb_le _ _)), (proj2 (Z.ltb_lt _ _)) by lia. done.
Qed.

(** Characters. *)
Definition motd : kfs_payload := mk_payload [109; 111; 116; 100] [72; 105; 10].
Definition root : kfs_dir := mk_dir ram0 KFS_ROOT_BLOCK 7.

Lemma demo_payloads : Forall payload_ok [motd] /\ NoDup (p_name <$> [motd]) /\ zlen [motd] <= KFS_DIRENTS /\ 3 + 64 * zlen [motd] <= total_of ram0.
Proof.
  split_and!; [|apply NoDup_singleton|done|done]. apply Forall_singleton. split_and!; try done.
  - intros Hx. repeat (apply elem_of_cons in Hx as [?|Hx]; [done|]). by apply elem_of_nil in Hx.
  - repeat (apply Forall_cons_2; [done|]). apply Forall_nil_2.
Qed.

Lemma a_name : no_nul [97] /\ is_bytes [97].
Proof. split; [by intros ?%list_elem_of_singleton|by apply Forall_singleton]. Qed.

Lemma image_disk {S} `{!BlockStore S} `{!StoreLaws S} (st st0 : kfs S) bd dir ps :
  image st bd dir ps -> image (st0 <| disk := disk st |>) bd dir ps.
Proof. intros []. by split. Qed.

Lemma same_disk {S} `{!BlockStore S} `{!StoreLaws S} (st st0 : kfs S) : same_blocks st (st0 <| disk := disk st |>).
Proof. done. Qed.

Lemma kfs_no_shared_blocks_witness : let st := snd (kfs_dir_creat (kfs_mkimage boot ram0 [motd]) (Some root) [97]) in
  exists bm, mounted st 0 ram0 bm /\ blk st ram0 KFS_BITMAP_BLOCK = Some bm.
Proof.
  intros st. destruct demo_payloads as (P1 & P2 & P3 & P4). destruct a_name as [N1 N2].
  destruct (kfs_no_shared_blocks boot 0 ram0 [motd] st boot_ready boot_ok boot_blocks P4 P3 P1 P2
    (rtc_once _ _ (step_creat ram0 (kfs_mkimage boot ram0 [motd]) root [97] eq_refl (is_root _ _) N1 N2))) as (bm & H1 & H2 & _).
  exists bm. split; [exact H1|exact H2].
Defined.

Lemma demo_fs_ok : fs_ok (kfs_mkimage boot ram0 [motd]) 0 ram0 [2] (image_map 1).
Proof.
  destruct demo_payloads as (P1 & P2 & P3 & P4).
  destruct (mkimage_ok boot ram0 0 [motd] boot_ready boot_ok boot_blocks P4 P3 P1) as (dir & Him & Hm).
  exact (image_fs_ok _ _ _ dir [motd] Him Hm P1 P2).
Qed.

Lemma demo_ptr : 0 < next_ptr (kfs_mkimage boot ram0 [motd]).
Proof. vm_compute. reflexivity. Qed.


(** The machine started again, its disk as the image was made, and mounted. *)
Definition reboot : kfs (cache (kdevs unit)) := boot <| disk := disk (kfs_mkimage boot ram0 [motd]) |>.

Lemma reboot_mounted : exists st dir, kfs_mount 1 reboot ram0 7 = (0, Some root, st) /\ fs_ok st 0 ram0 [2] (image_map 1)
  /\ files st !! 3 = Some (file_of ram0 motd 0 3) /\ live_file st ram0 [2] (file_of ram0 motd 0 3) /\ image st ram0 dir [motd].
Proof.
  destruct demo_payloads as (P1 & P2 & P3 & P4).
  destruct (mkimage_ok boot ram0 0 [motd] boot_ready boot_ok boot_blocks P4 P3 P1) as (dir & Him & Hm).
  destruct (mount_ok 0 reboot 0 ram0 dir [motd] 7) as (st & E & _ & Hok & Him' & Hf & _).
  - exact (image_disk _ _ _ _ _ Him).
  - exact boot_ready.
  - done.
  - exact P1.
  - exact P2.
  - exact P3.
  - destruct (image_file st 0 ram0 dir [motd] 0 motd Him' Hok P1 eq_refl) as [Hl _].
    exists st, dir. split; [exact E|]. split; [exact Hok|]. split; [by rewrite Hf|]. split; [exact Hl|exact Him'].
Qed.

Lemma demo_cursor : 0 <= c_pos (mk_cursor 3 1) < RUN /\ c_pos (mk_cursor 3 1) + zlen [66; 67] <= RUN.
Proof. done. Qed.

Lemma kfs_write_spec_witness : exists st st', kfs_mount 1 reboot ram0 7 = (0, Some root, st)
  /\ regfile_write st (mk_cursor 3 1) [66; 67] = (2, mk_cursor 3 3, st')
  /\ run_bytes st' ram0 3 = poke (run_bytes st ram0 3) 1 [66; 67].
Proof.
  destruct reboot_mounted as (st & dir & E & Hok & Hf & Hl & _).
  destruct (kfs_write_spec st 0 ram0 [2] (image_map 1) (mk_cursor 3 1) (file_of ram0 motd 0 3) [66; 67] Hok Hl Hf (proj1 (proj1 demo_cursor)) eq_refl) as [_ Hw].
  destruct (Hw eq_refl) as (st' & E' & _ & _ & _ & Hr & _). exists st, st'. split; [exact E|]. split; [exact E'|exact Hr].
Defined.

Definition pieces_fuel : nat := Z.to_nat 40000.

Lemma fuel_ok : RUN < Z.of_nat pieces_fuel.
Proof. unfold pieces_fuel. rewrite Z2Nat.id by lia. reflexivity. Qed.

Lemma kfs_write_read_back_witness : exists st st' c' c2 st2, kfs_mount 1 reboot ram0 7 = (0, Some root, st)
  /\ regfile_write st (mk_cursor 3 1) [66; 67] = (2, c', st')
  /\ read_to_end pieces_fuel st' (mk_cursor 3 1) 5 = (Some ([66; 67] ++ drop 3 (take 3 (run_bytes st ram0 3))), c2, st2).
Proof.
  destruct reboot_mounted as (st & dir & E & Hok & Hf & Hl & _).
  pose proof (kfs_write_read_back st 0 ram0 [2] (image_map 1) (mk_cursor 3 1) (file_of ram0 motd 0 3) [66; 67] 5 pieces_fuel
    Hok Hl Hf (proj1 demo_cursor) (proj2 demo_cursor) eq_refl fuel_ok) as Hw.
  destruct (regfile_write st (mk_cursor 3 1) [66; 67]) as [[n c'] st'] eqn:Ew. destruct Hw as (-> & _ & c2 & st2 & Er).
  exists st, st', c', c2, st2. split; [exact E|]. split; [exact Ew|exact Er].
Defined.

Lemma kfs_image_roundtrip_witness : exists st' kf c2 st2, kfs_mount 1 reboot ram0 7 = (0, Some root, st')
  /\ nodes st' = [VFile 7 [109; 111; 116; 100] kf]
  /\ read_to_end pieces_fuel st' (mk_cursor kf 0) 2 = (Some [72; 105; 10], c2, st2).
Proof.
  destruct demo_payloads as (P1 & P2 & P3 & P4).
  destruct (mkimage_ok boot ram0 0 [motd] boot_ready boot_ok boot_blocks P4 P3 P1) as (dir & Him & _).
  destruct (kfs_image_roundtrip boot 0 ram0 [motd] 0 reboot 0 7 2 pieces_fuel boot_ready boot_ok boot_blocks P4 P3 P1 P2
    (same_disk _ _) (im_disk _ _ _ _ (image_disk _ _ _ _ _ Him)) boot_ready ltac:(done) eq_refl fuel_ok)
    as (st' & fs & E & En & Hlen & Hall).
  destruct (Hall 0%nat motd eq_refl) as (kf & c2 & st2 & Hk & Hr). exists st', kf, c2, st2. split; [exact E|]. split; [|exact Hr].
  rewrite En. destruct fs as [|v [|]]; [discriminate Hlen| |discriminate Hlen]. injection Hk as ->. reflexivity.
Defined.

(** ** A file removed while it is open *)

(** A flaw: [kfs_dir_unlink] gives the blocks of a file back while it is still open.  On the
    memory disk at boot: [a] is created and opened, then removed; [b], created next, is given the
    same blocks, and what is then written through the old cursor of [a] is read from [b]. *)
Theorem removed_file_shares_blocks :
  let st1 := snd (kfs_dir_creat (kfs_mkimage boot ram0 []) (Some root) [97]) in
  let '(ca, st2) := regfile_open st1 1 0 in
  let '(r3, st3) := kfs_dir_unlink st2 (Some root) [97] in
  let '(r4, st4) := kfs_dir_creat st3 (Some root) [98] in
  let st5 := snd (regfile_write st4 (mk_cursor 4 0) [120; 121; 122]) in
  let st6 := snd (regfile_write st5 (default (mk_cursor 0 0) ca) [65; 66]) in
  ca = Some (mk_cursor 1 0) /\ r3 = 0 /\ r4 = 0 /\ start_block (kf_of st4 1) = start_block (kf_of st4 4)
  /\ fst (fst (regfile_read st5 (mk_cursor 4 0) 3)) = Some [120; 121; 122]
  /\ fst (fst (regfile_read st6 (mk_cursor 4 0) 3)) = Some [65; 66; 122].
Proof. vm_compute. split_and!; reflexivity. Qed.

End KfsThm.
